(* ===== verification/_CoqProject ===== *)
-Q . S2P
Prelude.v
GoStrings.v
Gnmi.v
Aft.v
AftParse.v
AftSession.v
AftHooks.v
Net.v
IPUtil.v
Version.v
Rundata.v
TestTracker.v
Binding.v
DynBinding.v
Check.v
CiData.v
CiTrigger.v
CiJobs.v
Gribi.v
NhgBuckets.v
GribiScale.v
GribiRefs.v
GribiProgram.v
GribiRun.v
TeScale.v
Deviations.v
Gnxi.v
GnxiGen.v
Authz.v
OcPaths.v
OcRpcs.v
MdSpec.v
Readme.v
IsisGrid.v
VrfPolicy.v
Registry.v
Components.v
RunProps.v
SampleStream.v
Floats.v
Optics.v
Transceiver.v
TransceiverRun.v
OtgFlows.v
PacketVal.v
ScaleTraffic.v
FlowSpecs.v
ScaleFlows.v
ScaleTopo.v
ScaleClassify.v
ScaleLinks.v
CoreFiles.v
