(* ===== verification/Prelude.v ===== *)
(** * featureprofiles: a verification library

    [openconfig/featureprofiles] is a collection of tests of network devices with
    the Go libraries and tools around them.  The tests themselves are scripts
    against a device; the code that decides something on its own is in the
    libraries under [internal/], the binding under [topologies/binding] and the
    tools under [tools/].  This library translates the parts with such logic into
    Rocq functions and proves what makes them correct.

    ** Conventions

    A Go function with an [error] result returns [go A], the outcome type of this
    file: [Ret], [Fail], [Panic] (nil dereference, index out of range, a fatal
    log), [NoFuel] (a bounded loop whose bound ran out; shown unreachable).
    Strings are byte strings; integers are kept at their width where the code can
    overflow.  Go iterates over maps in an unspecified order: the loops take the
    order as an argument (a list of keys) and theorems hold for every order.
    Packages outside the repository (ygot, the gNMI cache, prototext, uuid,
    go-git, cloud clients) are classes or arguments; where a theorem relies on
    their documented behaviour there is a class of laws with a concrete instance.
    Logging is not modelled.  Error texts keep the fixed part of the message.

    ** Parts and files

    - [Prelude]: outcomes, errors, code with a state ([gost]), loops ([foldM],
      [mapM], [forEach], [mapS]), loop invariant rules, rules for code that
      returns, tactics.
    - [GoStrings], [Net]: what is used of the Go packages strings, strconv, sort,
      path/filepath, and net, net/netip, encoding/binary, math/big.
    - AFT telemetry ([src/internal/telemetry]).  A session subscribes to the
      forwarding tables of a device, stores the notifications in a cache, and on a
      periodic tick extracts a table and asks a hook whether it can stop.
      [Gnmi]: gNMI messages and [schema.go].  [Aft]: the tables of
      [aft_cache.go], [resolveRouteCBF], [FilterByPrefixes].  [AftParse]:
      [parsePrefix], [parseNHG], [parseNH].  [AftSession]: [aftCache],
      [addAFTNotification], [ToAFT].  [AftHooks]: the hooks
      ([InitialSyncStoppingCondition], [AssertNextHopCount],
      [DeletionStoppingCondition], [WaitForNotification],
      [VerifyAtomicFlagHook]), [listenUntil] and its wrappers.
    - [IPUtil]: the address generators of [src/internal/iputil/iputil.go].
    - Rundata tool ([src/tools/addrundata]).  It keeps the metadata of every test
      (plan identifier, UUID) consistent with its documentation.  [Version]:
      [lessVersion] of [lib.go].  [Rundata]: [rundata.go], [case.go],
      [suite.go], the listings [list_csv.go] and [list_json.go], [main.go].
      [TestTracker]: [list_testtracker.go].
    - [Binding]: [src/topologies/binding], the static binding of a testbed to
      devices: [options.go], [binding.go], [reset.go], [new.go].  [DynBinding]:
      [dynamic.go], where a solver of Ondatra chooses the devices; the solver is a
      class with laws and an exhaustive search is an instance.
    - [Check]: the gNMI validators of [src/internal/check/check.go].
    - CI trigger ([src/tools/ci-trigger]).  It reacts to GitHub events: finds the
      tests a pull request modifies, launches builds for authorized users and
      keeps badges in a bucket.  [CiData]: [config.go], [git.go], [badge.go] and
      the pure parts of [pr.go] and [cloudbuild.go].  [CiTrigger]: the rest of
      [pr.go] and [cloudbuild.go], [trigger.go], [subscription.go], and
      [processEvent] of [main.go].  [CiJobs]: the theorems on jobs and badges.
    - gRIBI programming.  [Gribi]: the client of [src/internal/gribi/gribi.go],
      with the calls made on the builders of the fluent package as data and its
      effects as a class with the documented laws of a device.  The full scale test
      of [src/internal/cfgplugins/gribifullscale.go] programs five groups of VRFs
      through this client.  [NhgBuckets]: the distribution of next-hop groups to
      buckets and their weights.  [GribiScale]: parameters, builders, batches,
      checks of the results, the programming step of [RunFullScaleTest].
      [GribiRefs]: keys and references of entries.  [GribiProgram]: the theorems on
      the entries of the builders.  [GribiRun]: the program on any device that
      keeps the promises of gRIBI (class [ProgrammingDevice]; a small device is an
      instance and shows that the promises can be kept).
    - Full scale traffic.  The same test sends traffic through the programmed VRFs.
      [OtgFlows]: the configuration of a traffic generator as data and the flow
      builder of [otg_config_helpers/otgflowhelpers.go].  [PacketVal]: the
      validation of captured packets ([packetvalidationhelpers.go]).
      [ScaleTraffic]: the flows of the five scenarios, [RunEndToEndTrafficValidation]
      with its shutdown of subinterfaces, the loss checks
      ([otgvalidationhelpers.go]), [ValidateCapturedPackets].  [FlowSpecs]: the
      flows as a reference list and the proof that the builders add it.
      [ScaleFlows]: theorems on a run of the traffic.  [ScaleTopo]: the topology of
      the test: [ConfigureDUT], [ConfigureOTG], [src/internal/attrs] and the VRF selection
      policy for any number of VRFs ([ConfigureVRFSelectionPolicyOC]).
      [ScaleClassify]: what that policy decides, also for the packets of the flows.
      [ScaleLinks]: the links between the device and the traffic generator.
    - [TeScale]: the VRF configurations of [src/internal/tescale/scale.go].
    - [Deviations]: [src/internal/deviations]: lookup of the exceptions of a
      platform and the accessors of the fields of the message that
      [metadata.pb.go] declares.
    - Authorization ([src/internal/security]).  [Gnxi]: the table of the RPCs of
      a device and the functions that execute them ([gnxi/rpcs.go],
      [gnxi/rpcexec.go]).  [GnxiGen]: the generator of the table
      ([gen/generate.go]).  [Authz]: policies, [Rotate], [Get] and [Verify] of
      [authz/authz.go], on any server that keeps the promises of the service (class
      [AuthzServer], with an instance).
    - Test documentation ([src/tools/internal], [src/tools/validate_readme_spec],
      [src/tools/validate_readme_canonicalocspec]).  A README lists the paths and
      RPCs that a test covers.  [OcPaths]: validation of paths against a YANG
      schema ([ocpaths]).  [OcRpcs]: the RPCs of a repository and their validation
      ([ocrpcs]).  [MdSpec]: the sections of a README and their parsing
      ([mdocspec], [canonicalocspec]).  [Readme]: the two commands and the search
      for the feature directory ([fpciutil]).
    - Test registry ([src/tools/sort_testregistry], [src/tools/sync_test_registry],
      [src/tools/wikidoc]).  [Registry]: sorting the registry, generating it from
      the metadata files of the tests, and the documents of the wiki.
    - [RunProps]: [src/internal/rundata], the properties of a test run: of the
      testbed, of the devices under test and of the build.
    - [SampleStream]: [src/internal/samplestream], streams of sampled telemetry; time
      is the sequence of the sleeps of the reader.
    - IS-IS at scale ([src/internal/otg_helpers/otg_config_helpers]).  [IsisGrid]: the
      simulated routers of a traffic generator, their links, addresses and
      flows.
    - [CoreFiles]: [src/internal/core], the watcher that lists the core files of the
      devices before and after the tests of a module.
    - [VrfPolicy]: [src/internal/vrfpolicy], the rules that choose the VRF of a packet.
    - [Components]: [src/internal/components], the search for hardware components.
    - Optical interfaces.  [Floats]: the 64-bit floating point numbers of Go.
      [Optics]: the first half of [src/internal/cfgplugins/interface.go]: the
      command-line lists, the parameters of an interface, the indexes of its
      logical channels, its configuration.  [Transceiver]: the expected values, readiness
      and validators of [src/internal/telemetry/transceiver].  [TransceiverRun]:
      the two tests of that package, with their streams and deferred closes, as runs that
      change a device and leave a trace.

    ** What the theorems show

    - Route resolution computes a declarative relation on the table
      ([Aft.resolves_to]), terminates on every table, and reports a cycle exactly
      when there is one.  Filtering preserves resolution on tables without
      conditional groups, and loses it behind conditional groups.
    - The parsers never panic on well-formed notifications, accept only
      well-formed groups, and invert the notifications a device sends.  Every
      table of a session is well formed.
    - The event loop returns from the initial sync only with a synced table built
      from the responses received so far; it returns on the next tick once synced
      and fails after twenty bad ticks.  Each hook answers what its name says.
    - Fixing a test suite is idempotent, gives ATE and OTG twins one UUID, and
      makes the checks pass, apart from the exceptions stated; the test tracker
      lists every test in the section of its plan identifier.  The version order is strict and total on numbers that
      fit an [int].
    - The address generators yield the addresses they promise or report overflow;
      the theorems state where they wrap.
    - Sessions a reservation creates are deleted on release; a reservation has no
      error exactly when every device matches; a dynamic reservation takes devices,
      ports and links of the testbed to matching ones of the binding; options merge field by field;
      dial options are consistent.
    - Await succeeds exactly when a value is accepted; the validators accept what
      they are named after.
    - CI jobs are launched only after the author of the event was found to be
      authorized, one per requested device, and not again for a commit whose
      virtual tests were launched, as long as the badges can be read; badges restore the state of a pull request; the
      modified tests and the keywords of a comment are characterised.
    - Election identifiers are numbers modulo 2^128 and a client that becomes
      leader holds a greater one than the device held.  Every gRIBI entry of the
      full scale program comes after the entries it refers to, identifiers do not
      collide, and on every device that keeps the promises of gRIBI, of a vendor
      other than Arista, the program runs to its end; with an odd number of default
      prefixes it stops.  Weights add up to the granularity
      and the iterator follows the buckets.  [BuildVRFConfig] gives every address
      an entry with a group; the groups of VRF_RD back up to the redirect to VRF_R,
      where the comment of the source asks for decapsulation to the default.
    - The traffic of the full scale test is the reference list of flows, at the
      configured rate up to rounding when that gives every flow a packet per second,
      and above it otherwise; for up to 27 VRFs the VRF selection policy treats the
      packets of every configured flow as their scenario needs (beyond that the DSCP
      values exceed six bits); the subinterfaces of the device and the
      devices of the traffic generator agree in VLAN, subnets and gateways, and the
      next hops are addresses of these devices.  The subinterfaces that a run shut
      down are enabled again however it ends, unless a Set of the repair test itself
      fails.  A capture is accepted exactly when
      every validation finds a packet of its own that conforms; since the full scale
      test leaves the expected TTL at zero, it cannot pass with packet capture.
    - Every deviation accessor but one reads the field that its name stands for,
      with the declared type, override and default; the exception reads the field of
      another accessor, so that two fields have none, one of them by mistake.  The
      lookup returns the only exception that applies.
    - For any service descriptors the generator writes one entry per method, one
      per service and one for all RPCs; the rows of the committed table are of this
      form up to one; names, paths and functions of the table agree with two
      exceptions.  A rotated policy is active and read back; [Verify] then confirms
      the rules that [AddAllowRules] and [AddDenyRules] put into it, and never
      executes the RPC.
    - When the public repository can be cloned, its YANG files parse and the READMEs
      can be read, a README is reported exactly when its coverage section does not
      parse, or one of its paths is not a leaf of the schema with the component it
      calls for, or a repository of its protocols cannot be had, or one of its RPCs
      is not declared; a public repository that cannot be cloned or a README that
      cannot be read ends the command with its error.  The section read is the first
      one, its paths are returned sorted, and the order of maps and earlier runs have
      no effect.
      When the schema does not parse the validation panics.
    - A registry is generated exactly when every metadata file parses, has a plan
      identifier and no two have the same; it lists one test per file, ordered by
      identifier.  The properties of a run do not depend on the order in which maps
      are read; the version, vendor and model of a device come from the first source
      that answers.
    - [AwaitNext] returns the first sample read that satisfies the predicate, and
      fails exactly when no reading before the timeout has one.
    - The core file watcher fails a module exactly when a watched device has a core
      file that it did not list before the tests, whatever order the concurrent
      checks finish in, and its reports name exactly these files.  Files are compared
      by path: a failed first listing makes old cores new, and a core rewritten under
      its old path does not count.
    - The addresses of a grid of simulated routers are the destinations of the
      flows, system identifiers do not repeat, and the flows name interfaces that
      the configuration has.  The rules of a VRF policy send a packet to the network
      instance of its protocol, source and DSCP, except where renumbering the rules
      changes their order; the instances they name are created or the literal
      DEFAULT.
    - Configuring the optical interfaces gives every port the parameters of its own
      optics and distinct logical channels, while the shared parameters keep the mode
      of the last port; command-line lists are read back as printed.  On a device
      whose state shows the configured channels the validators of Ethernet channels
      report nothing, and those of OTN channels at most the trib protocol and admin
      state that deviations keep from being configured.  The tests of the
      transceivers close every stream they open, also when a step fails, except the
      streams of a port one of whose streams cannot be opened, and validate a state
      of a port only after it was pushed and before the other one is, apart from the
      temperature sensor.

    ** Bounds and fuel

    [Aft.resolveLoop] has as fuel the number of next-hop groups plus two, which
    is enough because every step visits a new group; the theorems on
    [resolveRouteCBF] have no fuel hypothesis.  The fuel of [GribiScale.chunks]
    is the number of entries: every chunk takes at least one.  That of
    [Readme.featureLoop] is the length of the path plus two: every round shortens
    the path ([Readme.FeatureDir_spec]).  Replacing in a string has its length as
    fuel, and printing a 64-bit number in base 16 has sixteen digits.  Every other function is
    structurally recursive.  [AwaitNext] waits on a clock: the number of polls
    before its timer fires is an argument.  Floating point operations are
    IEEE 754 binary64, each one rounded to nearest even; Go may fuse a
    multiplication with an addition, which the model does not do.  The theorems on the full scale program
    bound the counts ([GribiProgram.scale_ok], [GribiProgram.ids_fit]) by what the
    address ranges and the gaps between the identifier bases allow; the parameters
    of the repository's tests are within them.

    ** Not modelled

    The gNMI subscription and the log files of a session; SSH sessions; the rendering of templates, the HTTP server
    and the pub/sub loop of the CI trigger; [UnorderedEqual] and the formatting
    of paths in [check.go]; regular expressions (a parameter, but for those of
    [ocpaths.go] and [core.go]); the registration of command-line flags.  Of the full scale
    test: the chassis reboot (an event) and the CLI texts of hardware profiles
    (arguments).  Also the other configuration plug-ins, traffic generator helpers and
    tests under [feature/] (they fill generated structs and talk to a device), and
    generated code.  Of [cfgplugins/interface.go] the second half (aggregates,
    subinterfaces, the flags of target power lists); accounting and credentials
    ([acctz], [credz]), which are dialogues with a device. *)
From stdpp Require Import base list gmap strings sorting.
From Stdlib Require Import ZArith Lia.

(** * Outcomes of Go code

    [Ret] is a normal return, [Fail] a non-nil [error] result, [Panic] a
    run-time panic (nil dereference, index out of range, [log.Exit], a failed
    [t.Fatalf]) and [NoFuel] a loop whose fuel ran out.  Theorems about loops
    show that [NoFuel] is not reached. *)

Inductive outcome (E A : Type) : Type :=
| Ret (a : A)
| Fail (e : E)
| Panic
| NoFuel.
Arguments Ret {E A} a.
Arguments Fail {E A} e.
Arguments Panic {E A}.
Arguments NoFuel {E A}.

#[global] Instance outcome_ret {E} : MRet (outcome E) := fun A a => Ret a.
#[global] Instance outcome_bind {E} : MBind (outcome E) := fun A B k m =>
  match m with
  | Ret a => k a
  | Fail e => Fail e
  | Panic => Panic
  | NoFuel => NoFuel
  end.
#[global] Instance outcome_fmap {E} : FMap (outcome E) := fun A B f m =>
  match m with
  | Ret a => Ret (f a)
  | Fail e => Fail e
  | Panic => Panic
  | NoFuel => NoFuel
  end.
#[global] Instance outcome_eq_dec {E A} `{EqDecision E, EqDecision A} : EqDecision (outcome E A).
Proof. solve_decision. Defined.

(** A Go [error] value: its text up to the formatted operands, and the sentinel
    errors that [errors.Is] finds in its [%w] chain. *)

Inductive sentinel :=
| ErrNotExist      (* aftcache.ErrNotExist *)
| ErrUnsupported   (* aftcache.ErrUnsupported *)
| ErrStale         (* cache.ErrStale of openconfig/gnmi *)
| ErrNoop          (* addrundata.errNoop *)
| ErrOSNotExist    (* fs.ErrNotExist *)
| ErrNotFound      (* mdocspec.ErrNotFound *)
| ErrDeadline.     (* context.DeadlineExceeded *)
#[global] Instance sentinel_eq_dec : EqDecision sentinel.
Proof. solve_decision. Defined.

Record error := Errorf { err_msg : string; err_wraps : list sentinel }.
#[global] Instance error_eq_dec : EqDecision error.
Proof. solve_decision. Defined.

Definition errors_New (msg : string) : error := Errorf msg [].
Definition errors_Is (e : error) (s : sentinel) : bool := bool_decide (s ∈ err_wraps e).

Abbreviation go A := (outcome error A).

(** ** Loops over slices with early return *)

Section ForEach.
Context {E A B S : Type}.

(** [for _, x := range xs { s = body(s, x) }] where the body may return early. *)
Fixpoint foldM (body : S -> A -> outcome E S) (s : S) (xs : list A) : outcome E S :=
  match xs with
  | [] => Ret s
  | x :: xs => s' ← body s x; foldM body s' xs
  end.

Fixpoint mapM (f : A -> outcome E B) (xs : list A) : outcome E (list B) :=
  match xs with
  | [] => Ret []
  | x :: xs => y ← f x; ys ← mapM f xs; Ret (y :: ys)
  end.
End ForEach.

(** ** Code with a state

    [S -> go A * S] is code that reads and changes a state; the changes made
    before an error or a panic remain. *)

Definition gost (S A : Type) : Type := S -> go A * S.

#[global] Instance gost_ret {S} : MRet (gost S) := fun A a s => (Ret a, s).
#[global] Instance gost_bind {S} : MBind (gost S) := fun A B k m s =>
  match m s with
  | (Ret a, s) => k a s
  | (Fail e, s) => (Fail e, s)
  | (Panic, s) => (Panic, s)
  | (NoFuel, s) => (NoFuel, s)
  end.
Definition getState {S} : gost S S := fun s => (Ret s, s).
Definition lift {S A} (m : go A) : gost S A := fun s => (m, s).

Fixpoint forEach {S A} (body : A -> gost S unit) (l : list A) : gost S unit :=
  match l with
  | [] => mret tt
  | x :: l => _ ← body x; forEach body l
  end.

Fixpoint mapS {S A B} (f : A -> gost S B) (l : list A) : gost S (list B) :=
  match l with
  | [] => mret []
  | x :: l => y ← f x; ys ← mapS f l; mret (y :: ys)
  end.

(** ** Running code with a state *)

Section Running.
Context {S : Type}.

Lemma bind_run {A B} (m : gost S A) (k : A -> gost S B) s a s' :
  m s = (Ret a, s') -> (m ≫= k) s = k a s'.
Proof. unfold mbind, gost_bind. by intros ->. Qed.

Lemma lift_run {A B} (m : go A) a (k : A -> gost S B) s : m = Ret a -> (lift m ≫= k) s = k a s.
Proof. by intros ->. Qed.

Lemma bind_run_inv {A B} (m : gost S A) (k : A -> gost S B) s b s' :
  (m ≫= k) s = (Ret b, s') -> exists a s1, m s = (Ret a, s1) /\ k a s1 = (Ret b, s').
Proof. unfold mbind, gost_bind. destruct (m s) as [[]]; naive_solver. Qed.
End Running.

(** [returns m st Q]: the code returns, with a result and a state that satisfy [Q]. *)
Definition returns {S A} (m : gost S A) (st : S) (Q : A -> S -> Prop) : Prop :=
  exists v st', m st = (Ret v, st') /\ Q v st'.

Lemma returns_bind {S A B} (m : gost S A) (k : A -> gost S B) st (Q : B -> S -> Prop) :
  returns m st (fun v st' => returns (k v) st' Q) -> returns (mbind k m) st Q.
Proof. intros (v & st' & Hm & w & st'' & Hk & HQ). exists w, st''. split; [by rewrite (bind_run _ _ _ _ _ Hm)|done]. Qed.

Lemma returns_ret {S A} (v : A) (st : S) (Q : A -> S -> Prop) : Q v st -> returns (mret v) st Q.
Proof. exists v, st. by split. Qed.

Lemma returns_lift {S A} (m : go A) v (st : S) (Q : A -> S -> Prop) : m = Ret v -> Q v st -> returns (lift m) st Q.
Proof. intros -> H. exists v, st. by split. Qed.

Lemma returns_mono {S A} (m : gost S A) st (Q Q' : A -> S -> Prop) :
  returns m st Q -> (forall v st', Q v st' -> Q' v st') -> returns m st Q'.
Proof. intros (v & st' & H & HQ) Hi. exists v, st'. eauto. Qed.

(** ** Proof automation *)

Create HintDb go.

(** Break the [mbind]s of a hypothesis [m ≫= k = Ret _] into its steps. *)
Lemma bind_Ret {E A B} (m : outcome E A) (k : A -> outcome E B) b :
  m ≫= k = Ret b <-> exists a, m = Ret a /\ k a = Ret b.
Proof. destruct m; split; try naive_solver. Qed.

Lemma fmap_Ret {E A B} (f : A -> B) (m : outcome E A) b :
  f <$> m = Ret b <-> exists a, m = Ret a /\ f a = b.
Proof. destruct m; split; naive_solver. Qed.

Ltac go_inv :=
  repeat match goal with
  | H : _ ≫= _ = Ret _ |- _ => apply bind_Ret in H as (? & ? & H)
  | H : _ <$> _ = Ret _ |- _ => apply fmap_Ret in H as (? & ? & H)
  | H : Ret _ = Ret _ |- _ => injection H as H; try subst
  | H : Fail _ = Ret _ |- _ => discriminate H
  | H : Panic = Ret _ |- _ => discriminate H
  | H : NoFuel = Ret _ |- _ => discriminate H
  | H : Ret _ = Fail _ |- _ => discriminate H
  end.

(** Case analysis on every boolean test and match of the goal or of [H]. *)
Ltac go_case := repeat (case_match; simplify_eq/=); go_inv; simplify_eq/=.

Section Folds.
Context {E A S : Type} (body : S -> A -> outcome E S).

Lemma foldM_app s xs ys :
  foldM body s (xs ++ ys) = (s' ← foldM body s xs; foldM body s' ys).
Proof.
  revert s; induction xs as [|x xs IH]; intros s; simpl; [done|].
  destruct (body s x); simpl; auto.
Qed.

(** Rule for loop invariants: an invariant every iteration preserves holds after
    a loop that was not left early. *)
Lemma foldM_inv (I : S -> Prop) s xs s' :
  I s -> (forall s1 x s2, x ∈ xs -> I s1 -> body s1 x = Ret s2 -> I s2) ->
  foldM body s xs = Ret s' -> I s'.
Proof.
  revert s; induction xs as [|x xs IH]; intros s Hs Hstep Hf; simpl in Hf; go_inv; [done|].
  eapply IH; [|intros; eapply Hstep; [by right|..]; eauto|eauto].
  eapply Hstep; [by left|..]; eauto.
Qed.

(** The body never panics nor runs out of fuel, so neither does the loop. *)
Lemma foldM_safe (I : S -> Prop) s xs :
  I s ->
  (forall s1 x, x ∈ xs -> I s1 ->
     match body s1 x with Ret s2 => I s2 | Fail _ => True | _ => False end) ->
  match foldM body s xs with Ret s2 => I s2 | Fail _ => True | _ => False end.
Proof.
  revert s; induction xs as [|x xs IH]; intros s Hs Hstep; simpl; [done|].
  pose proof (Hstep s x ltac:(by left) Hs) as Hx.
  destruct (body s x); simpl; try done.
  apply IH; [done|]. intros; apply Hstep; [by right|done].
Qed.
End Folds.
