(* ===== verification/GoStrings.v ===== *)
(** The parts of Go's [strings], [strconv], [sort] and [path/filepath] packages
    the modelled code calls.  A Go string is a sequence of bytes, here Rocq's
    [string]; case mapping and white space are those of ASCII. *)
From stdpp Require Import base list strings pretty sorting.
From Stdlib Require Import ZArith Lia Ascii.
From S2P Require Import Prelude.

(** * strings *)

Definition HasPrefix (s p : string) : bool := String.prefix p s.

Definition HasSuffix (s p : string) : bool :=
  (String.length p <=? String.length s) &&
  String.eqb (String.substring (String.length s - String.length p) (String.length p) s) p.

(** [strings.Index]: the byte offset of the first occurrence. *)
Definition Index (s sub : string) : option nat := String.index 0 sub s.
Definition Contains (s sub : string) : bool :=
  match Index s sub with Some _ => true | None => false end.

(** [strings.IndexByte] and [strings.LastIndexByte]. *)
Fixpoint IndexByte (s : string) (c : ascii) : option nat :=
  match s with
  | EmptyString => None
  | String d s => if Ascii.eqb d c then Some 0 else S <$> IndexByte s c
  end.
Fixpoint LastIndexByte (s : string) (c : ascii) : option nat :=
  match s with
  | EmptyString => None
  | String d s =>
      match LastIndexByte s c with
      | Some i => Some (S i)
      | None => if Ascii.eqb d c then Some 0 else None
      end
  end.

(** [s[:i]] and [s[i:]]. *)
Definition str_take (i : nat) (s : string) : string := String.substring 0 i s.
Fixpoint str_drop (i : nat) (s : string) : string :=
  match i, s with
  | O, _ => s
  | S i, String _ s => str_drop i s
  | S _, EmptyString => EmptyString
  end.

(** [strings.LastIndex] for a non-empty substring. *)
Fixpoint LastIndex (s sub : string) : option nat :=
  match s with
  | EmptyString => None
  | String _ s' =>
      match LastIndex s' sub with
      | Some i => Some (S i)
      | None => if String.prefix sub s then Some 0 else None
      end
  end.

(** [strings.Split] for a one-byte separator. *)
Fixpoint split_on (c : ascii) (s : string) : list string :=
  match s with
  | EmptyString => [""]
  | String d s =>
      if Ascii.eqb d c then "" :: split_on c s
      else match split_on c s with
           | [] => [String d ""]
           | w :: ws => String d w :: ws
           end
  end.
Definition Join (ws : list string) (sep : string) : string := String.concat sep ws.

Definition TrimPrefix (s p : string) : string :=
  if HasPrefix s p then str_drop (String.length p) s else s.

Fixpoint TrimLeft (s : string) : string :=
  match s with
  | String c s' => if Ascii.is_space c then TrimLeft s' else s
  | EmptyString => EmptyString
  end.
Fixpoint TrimRight (s : string) : string :=
  match s with
  | EmptyString => EmptyString
  | String c s' =>
      match TrimRight s' with
      | EmptyString => if Ascii.is_space c then EmptyString else String c EmptyString
      | t => String c t
      end
  end.
Definition TrimSpace (s : string) : string := TrimRight (TrimLeft s).

Definition lower_ascii (c : ascii) : ascii :=
  let n := nat_of_ascii c in
  if (65 <=? n) && (n <=? 90) then ascii_of_nat (n + 32) else c.
Definition upper_ascii (c : ascii) : ascii :=
  let n := nat_of_ascii c in
  if (97 <=? n) && (n <=? 122) then ascii_of_nat (n - 32) else c.
Fixpoint string_map (f : ascii -> ascii) (s : string) : string :=
  match s with
  | EmptyString => EmptyString
  | String c s => String (f c) (string_map f s)
  end.
Definition ToLower := string_map lower_ascii.
Definition ToUpper := string_map upper_ascii.

(** [strings.Replace(s, old, new, 1)] for a non-empty [old]. *)
Definition ReplaceFirst (s old new : string) : string :=
  match Index s old with
  | None => s
  | Some i => str_take i s +:+ new +:+ str_drop (i + String.length old) s
  end.

(** [strings.ReplaceAll(s, c, new)] for a one-byte [c]. *)
Fixpoint ReplaceAllByte (s : string) (c : ascii) (new : string) : string :=
  match s with
  | EmptyString => EmptyString
  | String d s =>
      if Ascii.eqb d c then new +:+ ReplaceAllByte s c new
      else String d (ReplaceAllByte s c new)
  end.

(** * strconv *)

Definition digit_val (c : ascii) : option N := N.of_nat <$> Ascii.is_nat c.

Fixpoint digits_value (acc : N) (s : string) : option N :=
  match s with
  | EmptyString => Some acc
  | String c s =>
      match digit_val c with
      | Some d => digits_value (acc * 10 + d)%N s
      | None => None
      end
  end.

(** [strconv.ParseUint(s, 10, bits)]. *)
Definition ParseUint (s : string) (bits : N) : go N :=
  match s with
  | EmptyString => Fail (errors_New "invalid syntax")
  | _ =>
      match digits_value 0 s with
      | None => Fail (errors_New "invalid syntax")
      | Some n => if (n <? 2 ^ bits)%N then Ret n else Fail (errors_New "value out of range")
      end
  end.

(** [strconv.Atoi] on a run of digits, with [int] of 64 bits. *)
Definition Atoi_digits (s : string) : option Z :=
  match s with
  | EmptyString => None
  | _ =>
      match digits_value 0 s with
      | None => None
      | Some n => if (n <? 2 ^ 63)%N then Some (Z.of_N n) else None
      end
  end.

Definition Itoa (z : Z) : string := pretty z.

(** * sort *)

Definition sort_Strings (l : list string) : list string := merge_sort String.le l.

(** * path/filepath on slash-separated paths *)

Definition clean_step (rooted : bool) (st : list string) (e : string) : list string :=
  if String.eqb e "" || String.eqb e "." then st
  else if String.eqb e ".." then
    match st with
    | top :: st' => if String.eqb top ".." then e :: st else st'
    | [] => if rooted then [] else [e]
    end
  else e :: st.

(** The components of a cleaned path. *)
Definition components (p : string) : bool * list string :=
  let rooted := HasPrefix p "/" in
  (rooted, rev (foldl (clean_step rooted) [] (split_on "/" p))).

Definition render (rc : bool * list string) : string :=
  match rc with
  | (true, cs) => "/" +:+ Join cs "/"
  | (false, []) => "."
  | (false, cs) => Join cs "/"
  end.

Definition Clean (p : string) : string := render (components p).

Definition Dir (p : string) : string :=
  match LastIndexByte p "/" with
  | None => "."
  | Some i => Clean (str_take (S i) p)
  end.

Fixpoint strip_slashes (p : string) : string :=
  match p with
  | EmptyString => EmptyString
  | String c s =>
      match strip_slashes s with
      | EmptyString => if Ascii.eqb c "/" then EmptyString else String c EmptyString
      | t => String c t
      end
  end.
Definition Base (p : string) : string :=
  match p with
  | EmptyString => "."
  | _ =>
      let q := strip_slashes p in
      match q with
      | EmptyString => "/"
      | _ => match LastIndexByte q "/" with
             | None => q
             | Some i => str_drop (S i) q
             end
      end
  end.

Fixpoint JoinPath (es : list string) : string :=
  match es with
  | [] => ""
  | e :: es' => if String.eqb e "" then JoinPath es' else Clean (Join es "/")
  end.

Fixpoint strip_common (b t : list string) : list string * list string :=
  match b, t with
  | x :: b', y :: t' => if String.eqb x y then strip_common b' t' else (b, t)
  | _, _ => (b, t)
  end.
Definition Rel (base targ : string) : go string :=
  let '(rb, bs) := components base in
  let '(rt, ts) := components targ in
  if negb (Bool.eqb rb rt) then Fail (errors_New "Rel: can't make relative")
  else
    let '(b, t) := strip_common bs ts in
    if existsb (String.eqb "..") b then Fail (errors_New "Rel: can't make relative")
    else match replicate (length b) ".." ++ t with
         | [] => Ret "."
         | cs => Ret (Join cs "/")
         end.

(** * Lemmas *)

Lemma str_app_nil_r s : s +:+ "" = s.
Proof. induction s as [|c s IH]; [done|]. change (String c (s +:+ "") = String c s). by rewrite IH. Qed.

Lemma str_app_cons c s t : String c s +:+ t = String c (s +:+ t).
Proof. done. Qed.

Lemma str_app_assoc s t u : (s +:+ t) +:+ u = s +:+ (t +:+ u).
Proof. induction s as [|c s IH]; [done|]. by rewrite !str_app_cons, IH. Qed.

Lemma str_length_app s t : String.length (s +:+ t) = String.length s + String.length t.
Proof. induction s as [|c s IH]; [done|]. rewrite str_app_cons; simpl. by rewrite IH. Qed.

Lemma str_app_inj_r a b c : a +:+ c = b +:+ c -> a = b.
Proof.
  revert b. induction a as [|x a IH]; intros [|y b] H; [done|..].
  - apply (f_equal String.length) in H. rewrite !str_length_app in H. simpl in H. lia.
  - apply (f_equal String.length) in H. rewrite !str_length_app in H. simpl in H. lia.
  - rewrite !str_app_cons in H. injection H as -> H. f_equal. auto.
Qed.

Lemma str_app_inj_l p a b : p +:+ a = p +:+ b -> a = b.
Proof. induction p as [|c p IH]; [done|]. rewrite !str_app_cons. intros [= H]. auto. Qed.

Lemma str_app_inj_len a b s t : String.length s = String.length t -> a +:+ s = b +:+ t -> a = b /\ s = t.
Proof.
  intros Hl H. enough (a = b) as ->; [split; [done|by apply str_app_inj_l in H]|].
  revert b H. induction a as [|x a IH]; intros [|y b] H; [done|..].
  - apply (f_equal String.length) in H. rewrite !str_length_app in H. simpl in H. lia.
  - apply (f_equal String.length) in H. rewrite !str_length_app in H. simpl in H. lia.
  - rewrite !str_app_cons in H. injection H as -> H. f_equal. auto.
Qed.

Lemma HasPrefix_spec s p : HasPrefix s p = true <-> exists r, s = p +:+ r.
Proof.
  unfold HasPrefix. revert s; induction p as [|c p IH]; intros s; simpl.
  - destruct s; split; eauto.
  - destruct s as [|d s]; simpl.
    + split; [done|]. intros [r Hr]. done.
    + destruct (ascii_dec c d) as [->|Hne].
      * rewrite IH. split; intros [r Hr]; exists r.
        -- by rewrite str_app_cons, Hr.
        -- rewrite str_app_cons in Hr. by injection Hr.
      * split; [done|]. intros [r Hr]. rewrite str_app_cons in Hr. by injection Hr.
Qed.

Lemma substring_0 n s : n = String.length s -> String.substring 0 n s = s.
Proof. intros ->. induction s as [|c s IH]; simpl; by f_equal. Qed.

Lemma substring_app a b : String.substring (String.length a) (String.length b) (a +:+ b) = b.
Proof.
  induction a as [|c a IH].
  - change ("" +:+ b) with b. apply (substring_0 _ _ eq_refl).
  - rewrite str_app_cons. exact IH.
Qed.

Lemma substring_suffix n s :
  n <= String.length s ->
  exists a, s = a +:+ String.substring n (String.length s - n) s /\ String.length a = n.
Proof.
  revert n; induction s as [|c s IH]; intros n Hn; simpl in *.
  - exists "". destruct n; [done|lia].
  - destruct n as [|n].
    + exists "". split; [|done]. simpl. by rewrite substring_0.
    + destruct (IH n ltac:(lia)) as (a & Ha & Hl). exists (String c a). split; [|simpl; lia].
      rewrite str_app_cons. by f_equal.
Qed.

Lemma HasSuffix_spec s p : HasSuffix s p = true <-> exists a, s = a +:+ p.
Proof.
  unfold HasSuffix. rewrite andb_true_iff, Nat.leb_le, String.eqb_eq. split.
  - intros [Hl Hs]. destruct (substring_suffix (String.length s - String.length p) s) as (a & Ha & _); [lia|].
    exists a. rewrite Ha at 1. f_equal.
    replace (String.length s - (String.length s - String.length p)) with (String.length p) by lia. done.
  - intros [a ->]. rewrite str_length_app.
    replace (String.length a + String.length p - String.length p) with (String.length a) by lia.
    split; [lia|]. apply substring_app.
Qed.

Lemma split_on_nonempty c s : split_on c s <> [].
Proof. destruct s; simpl; [done|]. by repeat case_match. Qed.

Lemma Join_cons w ws sep : ws <> [] -> Join (w :: ws) sep = w +:+ sep +:+ Join ws sep.
Proof. by destruct ws. Qed.

(** [strings.Join] undoes [strings.Split]. *)
Lemma Join_split c s : Join (split_on c s) (String c "") = s.
Proof.
  induction s as [|d s IH]; simpl; [done|].
  destruct (Ascii.eqb_spec d c) as [->|Hne].
  - rewrite Join_cons by apply split_on_nonempty. rewrite IH. done.
  - destruct (split_on c s) as [|w ws] eqn:E; [by apply split_on_nonempty in E|].
    destruct ws; [|rewrite Join_cons in * by done; rewrite str_app_cons]; simpl in *; by rewrite <- IH.
Qed.

Lemma split_on_app c w s : IndexByte w c = None -> split_on c (w +:+ String c s) = w :: split_on c s.
Proof.
  induction w as [|d w IH]; intros H.
  - change ("" +:+ String c s) with (String c s). simpl. by rewrite Ascii.eqb_refl.
  - rewrite str_app_cons. simpl in *. destruct (Ascii.eqb d c); [done|].
    destruct (IndexByte w c); [done|]. by rewrite IH.
Qed.

Lemma split_on_one c w : IndexByte w c = None -> split_on c w = [w].
Proof.
  induction w as [|d w IH]; intros H; [done|]. simpl in *.
  destruct (Ascii.eqb d c); [done|]. destruct (IndexByte w c); [done|]. by rewrite IH.
Qed.

(** [strings.Split] undoes [strings.Join] of parts without the separator. *)
Lemma split_on_Join c ws : ws <> [] -> Forall (fun w => IndexByte w c = None) ws ->
  split_on c (Join ws (String c "")) = ws.
Proof.
  intros Hne HF. induction HF as [|w ws Hw HF IH]; [done|].
  destruct ws as [|v ws]; [by apply split_on_one|].
  rewrite Join_cons by done. change (String c "" +:+ ?s) with (String c s). rewrite split_on_app by done. by rewrite IH.
Qed.

Lemma digit_val_char n : (n < 10)%N -> digit_val (pretty_N_char n) = Some n.
Proof.
  intros Hn. assert (Forall (fun k => digit_val (pretty_N_char (N.of_nat k)) = Some (N.of_nat k)) (seq 0 10))
    as H by (repeat constructor).
  rewrite Forall_forall in H. specialize (H (N.to_nat n)). rewrite N2Nat.id in H.
  apply H, elem_of_seq. lia.
Qed.

Lemma digits_value_pretty_go x s : digits_value 0 (pretty_N_go x s) = digits_value x s.
Proof.
  revert s. induction (N.lt_wf_0 x) as [x _ IH]; intros s.
  destruct (decide (x = 0)%N) as [->|Hx]; [by rewrite pretty_N_go_0|].
  rewrite pretty_N_go_step by lia. rewrite IH by (apply N.div_lt; lia). simpl.
  assert (digit_val (pretty_N_char (x `mod` 10)) = Some (x `mod` 10)%N) as ->.
  { apply digit_val_char, N.mod_lt. lia. }
  f_equal. rewrite (N.div_mod x 10) at 3 by lia. lia.
Qed.

(** [strconv.ParseUint] reads back the decimal numeral of a number that fits. *)
Lemma ParseUint_pretty (n bits : N) : (n < 2 ^ bits)%N -> ParseUint (pretty n) bits = Ret n.
Proof.
  intros Hn. assert (digits_value 0 (pretty n) = Some n) as Hd.
  { unfold pretty, pretty_N. case_decide as H; [by subst|]. by rewrite digits_value_pretty_go. }
  unfold ParseUint. rewrite Hd. destruct (pretty n) eqn:E.
  - exfalso. unfold pretty, pretty_N in E. case_decide; [done|]. revert E.
    rewrite pretty_N_go_step by lia.
    assert (forall x s, s <> "" -> pretty_N_go x s <> "") as H'; [|by apply H'].
    clear. intros x. induction (N.lt_wf_0 x) as [x _ IH]; intros s Hs.
    destruct (decide (x = 0)%N) as [->|]; [by rewrite pretty_N_go_0|].
    rewrite pretty_N_go_step by lia. apply IH; [apply N.div_lt; lia|done].
  - by rewrite (proj2 (N.ltb_lt _ _) Hn).
Qed.

Lemma ParseUint_bound s bits n : ParseUint s bits = Ret n -> (n < 2 ^ bits)%N.
Proof.
  unfold ParseUint. repeat case_match; intros; simplify_eq. by apply N.ltb_lt.
Qed.

Lemma sort_Strings_sorted l : StronglySorted String.le (sort_Strings l).
Proof. apply StronglySorted_merge_sort; apply _. Qed.
Lemma sort_Strings_perm l : sort_Strings l ≡ₚ l.
Proof. apply merge_sort_Permutation. Qed.

(** Sorting strings only depends on the multiset: any order a map is ranged in
    gives the same sorted list of keys. *)
Lemma sort_Strings_unique l1 l2 : l1 ≡ₚ l2 -> sort_Strings l1 = sort_Strings l2.
Proof.
  intros H. apply (StronglySorted_unique String.le);
    [apply sort_Strings_sorted..|by rewrite !sort_Strings_perm].
Qed.

#[export] Hint Resolve split_on_nonempty ParseUint_bound sort_Strings_sorted sort_Strings_perm : go.
