(* ===== verification/Gnmi.v ===== *)
(** The gNMI messages the telemetry code reads ([gnmi.proto] of openconfig/gnmi,
    only the fields the modelled code uses), with protobuf's nil-safe getters,
    and [internal/telemetry/schema/schema.go]. *)
From stdpp Require Import base list gmap strings.
From Stdlib Require Import ZArith Lia Ascii.
From S2P Require Import Prelude GoStrings.

(** * Messages *)

Record PathElem := { elem_name : string; elem_key : gmap string string }.

Record Path := { path_origin : string; path_target : string; path_elem : list PathElem }.

Inductive TypedValue :=
| UintVal (n : N)
| StringVal (s : string)
| OtherVal.

Record Update := { upd_path : option Path; upd_val : option TypedValue }.

Record Notification := {
  n_timestamp : Z;
  n_prefix : option Path;
  n_update : list Update;
  n_delete : list Path;
  n_atomic : bool;
}.

(** The [response] oneof of [SubscribeResponse]. *)
Inductive SubscribeResponse :=
| RespUpdate (n : Notification)
| RespSync (b : bool)
| RespNone.

(** Generated getters: a nil message reads as its zero value. *)
Definition GetElem (p : option Path) : list PathElem :=
  match p with Some p => path_elem p | None => [] end.
Definition GetOrigin (p : option Path) : string :=
  match p with Some p => path_origin p | None => "" end.
Definition GetTarget (p : option Path) : string :=
  match p with Some p => path_target p | None => "" end.
Definition GetUintVal (v : option TypedValue) : N :=
  match v with Some (UintVal n) => n | _ => 0%N end.
Definition GetStringVal (v : option TypedValue) : string :=
  match v with Some (StringVal s) => s | _ => "" end.
Definition GetSyncResponse (r : SubscribeResponse) : bool :=
  match r with RespSync b => b | _ => false end.
Definition GetUpdate (r : SubscribeResponse) : option Notification :=
  match r with RespUpdate n => Some n | _ => None end.

(** * schema.go *)

(** [schema.Point]: a path with both the prefix's and the update's elements. *)
Record Point := { pt_path : Path; pt_val : option TypedValue }.

Definition fullPath (prefix path : option Path) : Path :=
  {| path_origin := ""; path_target := ""; path_elem := GetElem prefix ++ GetElem path |}.

Definition NotificationToPoints (n : option Notification) : list Point :=
  match n with
  | None => []
  | Some n =>
      map (fun u => {| pt_path := fullPath (n_prefix n) (upd_path u); pt_val := upd_val u |})
        (n_update n)
  end.

(** * Third-party path rendering

    [ygot.PathToSchemaPath] is not part of the repository: it is a parameter of
    every definition that calls it.  What the code relies on is the documented
    behaviour that a path it renders is the slash-separated list of its element
    names, keys dropped. *)
Definition schemaPathFn := Path -> go string.

Definition schemaString (p : Path) : string :=
  "/" +:+ Join (map elem_name (path_elem p)) "/".

Definition renders_schema (PathToSchemaPath : schemaPathFn) : Prop :=
  forall p s, PathToSchemaPath p = Ret s -> s = schemaString p.

(** The renderer never panics. *)
Definition renderer_safe (PathToSchemaPath : schemaPathFn) : Prop :=
  forall p, PathToSchemaPath p <> Panic /\ PathToSchemaPath p <> NoFuel.

(** An instance, for concrete evaluation: it rejects an element without a name. *)
Definition simpleSchemaPath : schemaPathFn := fun p =>
  if forallb (fun e => negb (String.eqb (elem_name e) "")) (path_elem p)
  then Ret (schemaString p)
  else Fail (errors_New "empty name for PathElem").

Lemma simpleSchemaPath_renders : renders_schema simpleSchemaPath.
Proof. intros p s. unfold simpleSchemaPath. case_match; naive_solver. Qed.
Lemma simpleSchemaPath_safe : renderer_safe simpleSchemaPath.
Proof. intros p. unfold simpleSchemaPath. by case_match. Qed.

(** * Lemmas *)

(** A rendered path has at least as many elements as it has slashes; names that
    contain no slash make it exact. *)
Fixpoint count_byte (c : ascii) (s : string) : nat :=
  match s with
  | EmptyString => 0
  | String d s => (if Ascii.eqb d c then 1 else 0) + count_byte c s
  end.

Lemma count_byte_app c s t : count_byte c (s +:+ t) = count_byte c s + count_byte c t.
Proof. induction s as [|d s IH]; [done|]. rewrite str_app_cons; simpl. rewrite IH. lia. Qed.

Definition plain_names (p : Path) : Prop :=
  Forall (fun e => count_byte "/" (elem_name e) = 0) (path_elem p).

Lemma schemaString_slashes p :
  plain_names p -> count_byte "/" (schemaString p) = max 1 (length (path_elem p)).
Proof.
  unfold plain_names, schemaString. intros H. rewrite count_byte_app. simpl.
  destruct (path_elem p) as [|e es]; [done|]. cbn [map length].
  enough (count_byte "/" (Join (elem_name e :: map elem_name es) "/") = length es) by lia.
  revert e H; induction es as [|e' es IH]; intros e [He Hes]%Forall_cons_1.
  - done.
  - cbn [map]. rewrite Join_cons by done. rewrite !count_byte_app, He, (IH e' Hes). done.
Qed.

(** The renderer accepts every path whose elements have names. *)
Definition renders_all (PathToSchemaPath : schemaPathFn) : Prop :=
  forall p, Forall (fun e => elem_name e <> "") (path_elem p) ->
    PathToSchemaPath p = Ret (schemaString p).

Lemma simpleSchemaPath_all : renders_all simpleSchemaPath.
Proof.
  intros p H. unfold simpleSchemaPath.
  replace (forallb _ _) with true; [done|]. symmetry. apply forallb_forall.
  intros e He%list_elem_of_In. rewrite Forall_forall in H.
  apply negb_true_iff, String.eqb_neq. auto.
Qed.
