(* ===== verification/Aft.v ===== *)
(** The abstract forwarding table of [internal/telemetry/aftcache/aft_cache.go]:
    the [AFTData] record, route resolution ([resolveRoute], [resolveRouteCBF],
    [isCNHG]) and restriction to a set of prefixes ([FilterByPrefixes]).

    A declarative account of resolution ([hop], [resolves_to]) is the
    specification; the loop of [resolveRouteCBF] is shown to compute it, to
    terminate on every table and to report a circular chain of conditional
    next-hop groups exactly when there is one. *)
From stdpp Require Import base list gmap strings relations.
From Stdlib Require Import ZArith Lia.
From S2P Require Import Prelude.

(** * Data *)

(** [aftNextHopGroupConditional]: [DSCP []uint8], [NHGID uint64]. *)
Record aftNextHopGroupConditional := {
  DSCP : list N;
  NHGID : N;
}.

(** [aftNextHopGroup]. *)
Record aftNextHopGroup := {
  NHIDs : list N;
  NHWeights : gmap N N;
  Conditionals : list aftNextHopGroupConditional;
}.

(** [aftNextHop]. *)
Record aftNextHop := {
  IntfName : string;
  IP : string;
  LSPName : string;
}.

(** [AFTData]. *)
Record AFTData := {
  Prefixes : gmap string N;
  NextHopGroups : gmap N aftNextHopGroup;
  NextHops : gmap N aftNextHop;
}.

Definition newAFT : AFTData :=
  {| Prefixes := ∅; NextHopGroups := ∅; NextHops := ∅ |}.

(** * Restriction to wanted prefixes *)

(** The three loops of [FilterByPrefixes].  The order in which Go ranges over a
    map is unspecified: each loop takes the list of keys in the order of the
    iteration, and the lemmas below hold for every such list. *)
Definition copyWanted (a : AFTData) (wanted : list string) : gmap string N * gset N :=
  foldl (fun '(filteredPrefixes, usedNHGIDs) prefix =>
    match Prefixes a !! prefix with
    | Some nhgID => (<[prefix := nhgID]> filteredPrefixes, {[nhgID]} ∪ usedNHGIDs)
    | None => (filteredPrefixes, usedNHGIDs)
    end) (∅, ∅) wanted.

Definition copyNHGs (a : AFTData) (ids : list N) : gmap N aftNextHopGroup * gset N :=
  foldl (fun '(filteredNHGs, usedNHIDs) nhgID =>
    match NextHopGroups a !! nhgID with
    | Some nhg =>
        (<[nhgID := nhg]> filteredNHGs,
         foldl (fun used nhID => {[nhID]} ∪ used) usedNHIDs (NHIDs nhg))
    | None => (filteredNHGs, usedNHIDs)
    end) (∅, ∅) ids.

Definition copyNHs (a : AFTData) (ids : list N) : gmap N aftNextHop :=
  foldl (fun filteredNHs nhID =>
    match NextHops a !! nhID with
    | Some nh => <[nhID := nh]> filteredNHs
    | None => filteredNHs
    end) ∅ ids.

Definition FilterByPrefixes (a : AFTData) (wantPrefixes : gset string) : AFTData :=
  let '(filteredPrefixes, usedNHGIDs) := copyWanted a (elements wantPrefixes) in
  let '(filteredNHGs, usedNHIDs) := copyNHGs a (elements usedNHGIDs) in
  let filteredNHs := copyNHs a (elements usedNHIDs) in
  {| Prefixes := filteredPrefixes;
     NextHopGroups := filteredNHGs;
     NextHops := filteredNHs |}.

(** * Resolution *)

Definition isCNHG (a : AFTData) (nhgID : N) : go bool :=
  match NextHopGroups a !! nhgID with
  | None => Panic (* field of a nil pointer *)
  | Some nhg =>
      if (0 <? length (NHIDs nhg)) && (0 <? length (Conditionals nhg)) then
        Fail (errors_New "the NHG has both NHs and conditionals. not clear if CNHG or leaf NHG")
      else if 0 <? length (Conditionals nhg) then Ret true
      else Ret false
  end.

Definition errMissingPrefix : error := Errorf "missing prefix" [ErrNotExist].
Definition errMissingNHG : error := Errorf "missing reference, NHG not found" [ErrNotExist].
Definition errMissingNH : error := Errorf "missing reference, NH not found" [ErrNotExist].
Definition errReadingNHG : error := errors_New "error reading NHG".
Definition errCircular : error := errors_New "circular reference, NHG already seen".
Definition errMultiple : error := errors_New "undefined behavior, multiple conditionals apply".

(** The inner loop over [c.DSCP], left by [break] at the first match.  The state
    is the pair of the variables [match] and [nhgID]. *)
Fixpoint scanDSCP (dscp : N) (c : aftNextHopGroupConditional) (ds : list N)
    (st : bool * N) : go (bool * N) :=
  match ds with
  | [] => Ret st
  | d :: ds =>
      if bool_decide (d = dscp) then
        if st.1 then Fail errMultiple else Ret (true, NHGID c)
      else scanDSCP dscp c ds st
  end.

(** The loop over the conditionals of one group. *)
Definition scanConditionals (dscp : N) (cs : list aftNextHopGroupConditional)
    (st : bool * N) : go (bool * N) :=
  foldM (fun st c => scanDSCP dscp c (DSCP c) st) st cs.

(** The [for { ... }] loop of [resolveRouteCBF]: [Some leaf] when it is left by
    [break], [None] when it returns [nil, nil]. *)
Fixpoint resolveLoop (fuel : nat) (a : AFTData) (dscp : N) (visited : gset N)
    (nhgID : N) : go (option N) :=
  match fuel with
  | O => NoFuel
  | S fuel =>
      match NextHopGroups a !! nhgID with
      | None => Fail errMissingNHG
      | Some nhg =>
          match isCNHG a nhgID with
          | Fail _ => Fail errReadingNHG
          | Panic => Panic
          | NoFuel => NoFuel
          | Ret false => Ret (Some nhgID)
          | Ret true =>
              if bool_decide (nhgID ∈ visited) then Fail errCircular
              else
                '(m, next) ← scanConditionals dscp (Conditionals nhg) (false, nhgID);
                if m : bool then resolveLoop fuel a dscp ({[nhgID]} ∪ visited) next
                else Ret None
          end
      end
  end.

(** The loop over [NHIDs] that collects the next hops. *)
Definition collectNHs (a : AFTData) (ids : list N) : go (list aftNextHop) :=
  mapM (fun nhID =>
    match NextHops a !! nhID with
    | None => Fail errMissingNH
    | Some nh => Ret nh
    end) ids.

(** Fuel: a group is visited at most once before the loop ends, and every
    visited group is a key of the map. *)
Definition resolveFuel (a : AFTData) : nat := S (S (size (NextHopGroups a))).

Definition resolveRouteCBF (a : AFTData) (prefix : string) (dscp : N) : go (list aftNextHop) :=
  match Prefixes a !! prefix with
  | None => Fail errMissingPrefix
  | Some nhgID =>
      leaf ← resolveLoop (resolveFuel a) a dscp ∅ nhgID;
      match leaf with
      | None => Ret []
      | Some nhgID =>
          match NextHopGroups a !! nhgID with
          | None => Panic
          | Some nhg => collectNHs a (NHIDs nhg)
          end
      end
  end.

Definition resolveRoute (a : AFTData) (prefix : string) : go (list aftNextHop) :=
  resolveRouteCBF a prefix 0%N.

(** * Specification of resolution *)

(** The conditionals of a group that apply to a DSCP value. *)
Definition matching (dscp : N) (cs : list aftNextHopGroupConditional) :
    list aftNextHopGroupConditional :=
  filter (fun c => dscp ∈ DSCP c) cs.

(** One step of class-based forwarding: a conditional group with exactly one
    applicable conditional hands the packet to that conditional's group. *)
Inductive hop (a : AFTData) (dscp : N) : N -> N -> Prop :=
| hop_intro n nhg c :
    NextHopGroups a !! n = Some nhg -> NHIDs nhg = [] ->
    matching dscp (Conditionals nhg) = [c] ->
    hop a dscp n (NHGID c).

(** Where forwarding ends: at a leaf group, or at a conditional group none of
    whose conditionals applies. *)
Definition leaf (a : AFTData) (n : N) : Prop :=
  exists nhg, NextHopGroups a !! n = Some nhg /\ Conditionals nhg = [].
Definition unmatched (a : AFTData) (dscp : N) (n : N) : Prop :=
  exists nhg, NextHopGroups a !! n = Some nhg /\ NHIDs nhg = [] /\
    Conditionals nhg <> [] /\ matching dscp (Conditionals nhg) = [].

Inductive resolves_to (a : AFTData) (dscp : N) (prefix : string) : list aftNextHop -> Prop :=
| resolves_leaf n m nhg nhs :
    Prefixes a !! prefix = Some n -> rtc (hop a dscp) n m ->
    NextHopGroups a !! m = Some nhg -> Conditionals nhg = [] ->
    Forall2 (fun id nh => NextHops a !! id = Some nh) (NHIDs nhg) nhs ->
    resolves_to a dscp prefix nhs
| resolves_unmatched n m :
    Prefixes a !! prefix = Some n -> rtc (hop a dscp) n m -> unmatched a dscp m ->
    resolves_to a dscp prefix [].

(** * Lemmas *)

Lemma scanDSCP_eq dscp c ds st :
  scanDSCP dscp c ds st =
  if bool_decide (dscp ∈ ds) then (if st.1 then Fail errMultiple else Ret (true, NHGID c))
  else Ret st.
Proof.
  induction ds as [|d ds IH]; simpl; [done|].
  repeat case_bool_decide; rewrite ?IH; try case_bool_decide; set_solver.
Qed.

Lemma scanConditionals_eq dscp cs st :
  scanConditionals dscp cs st =
  match matching dscp cs with
  | [] => Ret st
  | [c] => if st.1 then Fail errMultiple else Ret (true, NHGID c)
  | _ => Fail errMultiple
  end.
Proof.
  unfold scanConditionals, matching.
  revert st; induction cs as [|c cs IH]; intros st; simpl; [done|].
  rewrite scanDSCP_eq, filter_cons.
  case_bool_decide; case_decide; try done; simpl; [|by rewrite IH].
  destruct st.1; simpl; [by case_match|].
  rewrite IH. by repeat case_match.
Qed.

Lemma hop_inv a dscp n m :
  hop a dscp n m -> exists nhg c, NextHopGroups a !! n = Some nhg /\ NHIDs nhg = [] /\
    matching dscp (Conditionals nhg) = [c] /\ m = NHGID c.
Proof. destruct 1; eauto 10. Qed.

Lemma hop_det a dscp n m1 m2 : hop a dscp n m1 -> hop a dscp n m2 -> m1 = m2.
Proof. intros [n' nhg c Hn _ Hc] H2. inversion H2; simplify_eq. congruence. Qed.

Lemma leaf_no_hop a dscp n m : leaf a n -> ~ hop a dscp n m.
Proof.
  intros (nhg & Hn & Hc) Hh. destruct Hh as [n nhg' c Hn' _ Hm]; simplify_eq.
  by rewrite Hc in Hm.
Qed.

Lemma unmatched_no_hop a dscp n m : unmatched a dscp n -> ~ hop a dscp n m.
Proof. intros (nhg & Hn & _ & _ & Hm) Hh. destruct Hh; simplify_eq. congruence. Qed.

(** In a deterministic relation a cyclic point never reaches a point without
    successor. *)
Lemma det_cycle_no_exit {A} (R : relation A) x y :
  (forall a b c, R a b -> R a c -> b = c) ->
  tc R x x -> rtc R x y -> tc R y y.
Proof.
  intros Hdet Hx Hxy. induction Hxy as [|x z y Hxz Hzy IH]; [done|].
  apply IH. apply tc_rtc_l with x; [|by apply tc_once].
  inversion Hx as [? ? Hxx|? w ? Hxw Hwx]; subst.
  - assert (z = x) as -> by eauto. done.
  - assert (z = w) as -> by eauto. by apply tc_rtc.
Qed.

Lemma tc_first {A} (R : relation A) x y : tc R x y -> exists z, R x z.
Proof. destruct 1; eauto. Qed.

(** How the loop of [resolveRouteCBF] ends at group [m]. *)
Definition stops (a : AFTData) (dscp m : N) (r : go (option N)) : Prop :=
  match r with
  | Ret (Some l) => l = m /\ leaf a m
  | Ret None => unmatched a dscp m
  | Fail e =>
      (e = errCircular /\ tc (hop a dscp) m m) \/
      (e <> errCircular /\ (forall m', ~ hop a dscp m m') /\ ~ leaf a m /\ ~ unmatched a dscp m)
  | _ => False
  end.

(** One round of the loop. *)
Lemma isCNHG_eq a n nhg :
  NextHopGroups a !! n = Some nhg ->
  isCNHG a n =
  match NHIDs nhg, Conditionals nhg with
  | _, [] => Ret false
  | [], _ => Ret true
  | _, _ => Fail (errors_New "the NHG has both NHs and conditionals. not clear if CNHG or leaf NHG")
  end.
Proof. intros H. unfold isCNHG. rewrite H. by destruct (NHIDs nhg), (Conditionals nhg). Qed.

(** The current group is neither an end of forwarding nor has it a next group. *)
Ltac stuck :=
  right; split; [done|split;
    [intros ? (? & ? & ? & ? & ? & ?)%hop_inv
    |split; [intros (? & ? & ?)|intros (? & ? & ? & ? & ?)]]; simplify_eq; congruence].

Lemma resolveLoop_stops fuel a dscp visited n :
  (forall v, v ∈ visited -> tc (hop a dscp) v n) ->
  visited ⊆ dom (NextHopGroups a) ->
  size (NextHopGroups a) < fuel + size visited ->
  exists m, rtc (hop a dscp) n m /\ stops a dscp m (resolveLoop fuel a dscp visited n).
Proof.
  revert visited n. induction fuel as [|fuel IH]; intros visited n Hv Hdom Hsz.
  { apply subseteq_size in Hdom. rewrite size_dom in Hdom. lia. }
  simpl. destruct (NextHopGroups a !! n) as [nhg|] eqn:Hn.
  2:{ exists n; split; [done|]. stuck. }
  rewrite (isCNHG_eq _ _ _ Hn).
  destruct (Conditionals nhg) as [|c cs] eqn:Hcs.
  { assert (leaf a n) by (exists nhg; eauto).
    exists n; split; [done|]. by destruct (NHIDs nhg). }
  destruct (NHIDs nhg) as [|i ids] eqn:Hids.
  2:{ exists n; split; [done|]. stuck. }
  case_bool_decide as Hvis.
  { exists n; split; [done|]. left; eauto. }
  rewrite scanConditionals_eq.
  destruct (matching dscp (c :: cs)) as [|c1 [|c2 l]] eqn:Hm; simpl.
  - exists n; split; [done|]. exists nhg. by rewrite Hcs.
  - assert (hop a dscp n (NHGID c1)) as Hhop by (econstructor; eauto; by rewrite Hcs).
    destruct (IH ({[n]} ∪ visited) (NHGID c1)) as (m & Hreach & Hstop).
    + intros v [->%elem_of_singleton|Hin]%elem_of_union; [by apply tc_once|].
      eapply tc_r; eauto.
    + apply elem_of_dom_2 in Hn. set_solver.
    + rewrite size_union, size_singleton by set_solver. lia.
    + exists m; split; [by eapply rtc_l|done].
  - exists n; split; [done|]. stuck.
Qed.

Lemma mapM_Forall2 {E A B} (f : A -> outcome E B) xs ys :
  mapM f xs = Ret ys <-> Forall2 (fun x y => f x = Ret y) xs ys.
Proof.
  revert ys; induction xs as [|x xs IH]; intros ys; simpl.
  - split; [by intros [= <-]|by inversion 1].
  - split.
    + intros H; go_inv. constructor; [done|]. by apply IH.
    + inversion 1; subst. rewrite bind_Ret. eexists; split; [done|].
      rewrite bind_Ret. eexists; split; [by apply IH|done].
Qed.

Lemma mapM_safe {E A B} (f : A -> outcome E B) xs :
  (forall x, f x <> Panic /\ f x <> NoFuel) ->
  mapM f xs <> Panic /\ mapM f xs <> NoFuel.
Proof.
  intros Hf; induction xs as [|x xs IH]; simpl; [done|].
  destruct (Hf x). destruct (f x); simpl; try done.
  by destruct (mapM f xs).
Qed.

Lemma collectNHs_Ret a ids nhs :
  collectNHs a ids = Ret nhs <-> Forall2 (fun id nh => NextHops a !! id = Some nh) ids nhs.
Proof.
  unfold collectNHs. rewrite mapM_Forall2.
  split; intros H; apply (Forall2_impl _ _ _ _ H); intros id nh;
    destruct (NextHops a !! id); naive_solver.
Qed.

Lemma collectNHs_safe a ids : collectNHs a ids <> Panic /\ collectNHs a ids <> NoFuel.
Proof. apply mapM_safe. intros x. by case_match. Qed.

Lemma collectNHs_Fail a ids e : collectNHs a ids = Fail e -> e = errMissingNH.
Proof.
  unfold collectNHs. induction ids as [|i ids IH]; simpl; [done|].
  destruct (NextHops a !! i); simpl; [|by intros [= <-]].
  destruct (mapM _ ids); naive_solver.
Qed.

(** Once the chain has entered a cycle it never ends. *)
Lemma cycle_reach a dscp n m k :
  rtc (hop a dscp) n m -> tc (hop a dscp) m m -> rtc (hop a dscp) n k ->
  exists k', hop a dscp k k'.
Proof.
  intros Hnm Hc. assert (Hd := hop_det a dscp). revert k.
  induction Hnm as [n|n j m Hnj Hjm IH]; intros k Hnk.
  - eapply tc_first, det_cycle_no_exit; eauto.
  - destruct Hnk as [n|n j' k Hnj' Hj'k]; [eauto|].
    assert (j' = j) as -> by eauto. auto.
Qed.

Lemma resolveLoop_top a dscp n :
  exists m, rtc (hop a dscp) n m /\
    stops a dscp m (resolveLoop (resolveFuel a) a dscp ∅ n).
Proof.
  apply resolveLoop_stops; [set_solver..|].
  unfold resolveFuel. rewrite size_empty. lia.
Qed.

(** Forwarding that ends does so at one group only. *)
Lemma hop_end_unique a dscp n m1 m2 :
  rtc (hop a dscp) n m1 -> (forall m', ~ hop a dscp m1 m') ->
  rtc (hop a dscp) n m2 -> (forall m', ~ hop a dscp m2 m') -> m1 = m2.
Proof.
  intros H1 E1. induction H1 as [n|n k m1 Hnk Hk IH]; intros H2 E2.
  - destruct H2 as [|? k]; [done|]. by destruct (E1 k).
  - destruct H2 as [n|n k' m2 Hnk' Hk']; [by destruct (E2 k)|].
    assert (k' = k) as -> by (by eapply hop_det). auto.
Qed.

(** Where forwarding ends determines how the loop ends. *)
Lemma resolveLoop_end a dscp n m :
  rtc (hop a dscp) n m -> leaf a m \/ unmatched a dscp m ->
  stops a dscp m (resolveLoop (resolveFuel a) a dscp ∅ n).
Proof.
  intros Hr Hm. destruct (resolveLoop_top a dscp n) as (m' & Hr' & Hs).
  assert (Hend : forall k, ~ hop a dscp m k)
    by (destruct Hm; eauto using leaf_no_hop, unmatched_no_hop).
  assert (forall k, ~ hop a dscp m' k) as Hend'.
  { destruct (resolveLoop _ _ _ _ _) as [[l|]|e| |]; simpl in Hs; try done.
    - destruct Hs as [-> ?]. intros k; by apply leaf_no_hop.
    - intros k; by apply unmatched_no_hop.
    - destruct Hs as [[_ Hc]|(_ & ? & _)]; [|done].
      exfalso. destruct (cycle_reach _ _ _ _ _ Hr' Hc Hr) as [k Hk].
      by eapply Hend. }
  by assert (m' = m) as <- by (by eapply hop_end_unique).
Qed.

Lemma resolveRouteCBF_sound a p dscp nhs :
  resolveRouteCBF a p dscp = Ret nhs -> resolves_to a dscp p nhs.
Proof.
  unfold resolveRouteCBF. destruct (Prefixes a !! p) as [n|] eqn:Hp; [|done].
  destruct (resolveLoop_top a dscp n) as (m & Hr & Hs).
  destruct (resolveLoop _ _ _ _ _) as [[l|]|e| |]; simpl in *; try done.
  - destruct Hs as [-> (nhg & Hm & Hc)]. rewrite Hm.
    intros Hcol%collectNHs_Ret. by econstructor.
  - intros [= <-]. by eapply resolves_unmatched.
Qed.

Lemma resolveRouteCBF_complete a p dscp nhs :
  resolves_to a dscp p nhs -> resolveRouteCBF a p dscp = Ret nhs.
Proof.
  intros [n m nhg l Hp Hr Hm Hc Hall|n m Hp Hr Hu]; unfold resolveRouteCBF; rewrite Hp.
  - assert (leaf a m) as Hl by (eexists; eauto).
    pose proof (resolveLoop_end _ _ _ _ Hr (or_introl Hl)) as Hs.
    destruct (resolveLoop _ _ _ _ _) as [[k|]|e| |]; simpl in *; try done.
    + destruct Hs as [-> _]. rewrite Hm. by apply collectNHs_Ret.
    + destruct Hs as (? & ? & _ & ? & _). naive_solver.
    + destruct Hs as [[_ Hcyc]|(_ & _ & ? & _)]; [|done].
      destruct (tc_first _ _ _ Hcyc) as [k Hk]. by eapply leaf_no_hop in Hk.
  - pose proof (resolveLoop_end _ _ _ _ Hr (or_intror Hu)) as Hs.
    destruct (resolveLoop _ _ _ _ _) as [[k|]|e| |]; simpl in *; try done.
    + destruct Hs as [-> (? & ? & ?)]. destruct Hu as (? & ? & _ & ? & _). naive_solver.
    + destruct Hs as [[_ Hcyc]|(_ & _ & _ & ?)]; [|done].
      destruct (tc_first _ _ _ Hcyc) as [k Hk]. by eapply unmatched_no_hop in Hk.
Qed.

(** * Lemmas on [FilterByPrefixes] *)

Lemma copyWanted_spec a l :
  (forall p, (copyWanted a l).1 !! p = if bool_decide (p ∈ l) then Prefixes a !! p else None) /\
  (forall n, n ∈ (copyWanted a l).2 <-> exists p, p ∈ l /\ Prefixes a !! p = Some n).
Proof.
  induction l as [|q l [IH1 IH2]] using rev_ind; [set_solver|].
  unfold copyWanted in *. rewrite foldl_snoc.
  destruct (foldl _ _ l) as [fp used]; simpl in *.
  destruct (Prefixes a !! q) as [n|] eqn:Hq; simpl; split.
  - intros p. rewrite lookup_insert. case_decide; subst.
    + by rewrite bool_decide_eq_true_2 by set_solver.
    + rewrite IH1. repeat case_bool_decide; set_solver.
  - set_solver.
  - intros p. rewrite IH1. repeat case_bool_decide; set_solver.
  - intros n. rewrite IH2. set_solver.
Qed.

Lemma foldl_union_elem (ids : list N) (acc : gset N) i :
  i ∈ foldl (fun used nhID => {[nhID]} ∪ used) acc ids <-> i ∈ ids \/ i ∈ acc.
Proof. revert acc; induction ids as [|j ids IH]; intros acc; simpl; [|rewrite IH]; set_solver. Qed.

Lemma copyNHGs_spec a l :
  (forall n, (copyNHGs a l).1 !! n = if bool_decide (n ∈ l) then NextHopGroups a !! n else None) /\
  (forall i, i ∈ (copyNHGs a l).2 <->
     exists n nhg, n ∈ l /\ NextHopGroups a !! n = Some nhg /\ i ∈ NHIDs nhg).
Proof.
  induction l as [|q l [IH1 IH2]] using rev_ind; [set_solver|].
  unfold copyNHGs in *. rewrite foldl_snoc.
  destruct (foldl _ _ l) as [fp used]; simpl in *.
  destruct (NextHopGroups a !! q) as [g|] eqn:Hq; simpl; split.
  - intros p. rewrite lookup_insert. case_decide; subst.
    + by rewrite bool_decide_eq_true_2 by set_solver.
    + rewrite IH1. repeat case_bool_decide; set_solver.
  - intros i. rewrite foldl_union_elem, IH2. set_solver.
  - intros p. rewrite IH1. repeat case_bool_decide; set_solver.
  - intros n. rewrite IH2. set_solver.
Qed.

Lemma copyNHs_spec a l i :
  copyNHs a l !! i = if bool_decide (i ∈ l) then NextHops a !! i else None.
Proof.
  induction l as [|q l IH] using rev_ind; [done|].
  unfold copyNHs in *. rewrite foldl_snoc.
  destruct (NextHops a !! q) as [g|] eqn:Hq.
  - rewrite lookup_insert. destruct (decide (q = i)); subst.
    + rewrite bool_decide_eq_true_2 by set_solver. congruence.
    + rewrite IH. repeat case_bool_decide; set_solver.
  - rewrite IH. repeat case_bool_decide; set_solver.
Qed.

Section FilterLookup.
Context (a : AFTData) (w : gset string).

(** The groups and the next hops reachable from the wanted prefixes. *)
Definition wantedNHG (n : N) : Prop := exists p, p ∈ w /\ Prefixes a !! p = Some n.
Definition wantedNH (i : N) : Prop :=
  exists n nhg, wantedNHG n /\ NextHopGroups a !! n = Some nhg /\ i ∈ NHIDs nhg.

Lemma FilterByPrefixes_lookups :
  (forall p, Prefixes (FilterByPrefixes a w) !! p = if bool_decide (p ∈ w) then Prefixes a !! p else None) /\
  (forall n, wantedNHG n -> NextHopGroups (FilterByPrefixes a w) !! n = NextHopGroups a !! n) /\
  (forall n, ~ wantedNHG n -> NextHopGroups (FilterByPrefixes a w) !! n = None) /\
  (forall i, wantedNH i -> NextHops (FilterByPrefixes a w) !! i = NextHops a !! i) /\
  (forall i, ~ wantedNH i -> NextHops (FilterByPrefixes a w) !! i = None).
Proof.
  unfold FilterByPrefixes, wantedNH, wantedNHG.
  destruct (copyWanted_spec a (elements w)) as [HP HU].
  destruct (copyWanted a (elements w)) as [fp used]; simpl in *.
  destruct (copyNHGs_spec a (elements used)) as [HG HN].
  destruct (copyNHGs a (elements used)) as [fg usedn]; simpl in *.
  repeat split.
  - intros p. rewrite HP. repeat case_bool_decide; set_solver.
  - intros n Hn. rewrite HG. rewrite bool_decide_eq_true_2; [done|set_solver].
  - intros n Hn. rewrite HG. rewrite bool_decide_eq_false_2; [done|set_solver].
  - intros i Hi. rewrite copyNHs_spec, bool_decide_eq_true_2; [done|set_solver].
  - intros i Hi. rewrite copyNHs_spec, bool_decide_eq_false_2; [done|set_solver].
Qed.
End FilterLookup.

(** A table without conditional groups, as the parser of the cache builds. *)
Definition flat (a : AFTData) : Prop :=
  forall n nhg, NextHopGroups a !! n = Some nhg -> Conditionals nhg = [].

Lemma flat_resolve a p dscp n :
  flat a -> Prefixes a !! p = Some n ->
  resolveRouteCBF a p dscp =
  match NextHopGroups a !! n with
  | None => Fail errMissingNHG
  | Some nhg => collectNHs a (NHIDs nhg)
  end.
Proof.
  intros Hf Hp. unfold resolveRouteCBF. rewrite Hp.
  unfold resolveFuel; cbn [resolveLoop].
  destruct (NextHopGroups a !! n) as [nhg|] eqn:Hn; [|done].
  rewrite (isCNHG_eq _ _ _ Hn), (Hf _ _ Hn). destruct (NHIDs nhg) eqn:?; simpl; by rewrite Hn, Heql.
Qed.

(** * Properties of resolution *)

(** C2: [resolveRouteCBF] returns a list of next hops exactly when forwarding,
    read as the chain of applicable conditionals from the prefix's next-hop
    group, ends at a leaf group all of whose next hops exist (and then it
    returns those next hops, in order), or at a conditional group that does not
    apply to the DSCP value (and then it returns none). *)
Theorem resolveRouteCBF_refines a prefix dscp nhs :
  resolveRouteCBF a prefix dscp = Ret nhs <-> resolves_to a dscp prefix nhs.
Proof. split; eauto using resolveRouteCBF_sound, resolveRouteCBF_complete. Qed.

Lemma resolveRouteCBF_returns a prefix dscp :
  (exists nhs, resolveRouteCBF a prefix dscp = Ret nhs) \/
  (exists e, resolveRouteCBF a prefix dscp = Fail e).
Proof.
  unfold resolveRouteCBF. destruct (Prefixes a !! prefix) as [n|]; [|eauto].
  destruct (resolveLoop_top a dscp n) as (m & Hr & Hs).
  destruct (resolveLoop _ _ _ _ _) as [[l|]|e| |]; simpl in *; try done; eauto.
  destruct Hs as [-> (nhg & Hm & _)]. rewrite Hm.
  destruct (collectNHs_safe a (NHIDs nhg)).
  destruct (collectNHs a (NHIDs nhg)); eauto; done.
Qed.

(** C3: resolution terminates with a value or an error on every table, circular
    ones included: the loop's bound is never exhausted and no nil group is
    dereferenced. *)
Theorem resolveRouteCBF_total a prefix dscp :
  (exists nhs, resolveRouteCBF a prefix dscp = Ret nhs) \/
  (exists e, resolveRouteCBF a prefix dscp = Fail e).
Proof. apply resolveRouteCBF_returns. Qed.

(** a route is rejected as circular exactly when the chain of applicable
    conditionals from its next-hop group runs into a cycle. *)
Theorem resolveRouteCBF_circular a prefix dscp :
  resolveRouteCBF a prefix dscp = Fail errCircular <->
  exists n m, Prefixes a !! prefix = Some n /\ rtc (hop a dscp) n m /\ tc (hop a dscp) m m.
Proof.
  unfold resolveRouteCBF. split.
  - destruct (Prefixes a !! prefix) as [n|] eqn:Hp; [|done].
    destruct (resolveLoop_top a dscp n) as (m & Hr & Hs).
    destruct (resolveLoop _ _ _ _ _) as [[l|]|e| |]; simpl in *; try done.
    + destruct Hs as [-> (nhg & Hm & _)]. rewrite Hm. intros Hc%collectNHs_Fail. done.
    + intros [= ->]. destruct Hs as [[_ ?]|[? _]]; [|done]. eauto.
  - intros (n & m & Hp & Hr & Hc). rewrite Hp.
    destruct (resolveLoop_top a dscp n) as (m' & Hr' & Hs).
    destruct (cycle_reach _ _ _ _ _ Hr Hc Hr') as [k Hk].
    destruct (resolveLoop _ _ _ _ _) as [[l|]|e| |]; simpl in *; try done.
    + destruct Hs as [-> Hl]. by eapply leaf_no_hop in Hk.
    + by eapply unmatched_no_hop in Hk.
    + destruct Hs as [[-> _]|(_ & Hno & _)]; [done|]. by eapply Hno in Hk.
Qed.

(** * Properties of filtering *)

Lemma wantedNHG_dec a w n : {wantedNHG a w n} + {~ wantedNHG a w n}.
Proof.
  destruct (decide (n ∈ (copyWanted a (elements w)).2)) as [H|H]; [left|right];
    rewrite (proj2 (copyWanted_spec _ _)) in H; unfold wantedNHG; set_solver.
Qed.

Lemma wantedNH_dec a w i : {wantedNH a w i} + {~ wantedNH a w i}.
Proof.
  set (used := elements (copyWanted a (elements w)).2).
  assert (Hu : forall n, n ∈ used <-> wantedNHG a w n).
  { intros n. unfold used, wantedNHG. rewrite elem_of_elements, (proj2 (copyWanted_spec _ _)).
    set_solver. }
  destruct (decide (i ∈ (copyNHGs a used).2)) as [H|H]; [left|right];
    rewrite (proj2 (copyNHGs_spec _ _)) in H; unfold wantedNH;
    setoid_rewrite <- Hu; done.
Qed.

Lemma flat_filter a w : flat a -> flat (FilterByPrefixes a w).
Proof.
  intros Hf n nhg. destruct (FilterByPrefixes_lookups a w) as (HP & HG1 & HG2 & _).
  destruct (wantedNHG_dec a w n); [rewrite HG1 by done; apply Hf|by rewrite HG2 by done].
Qed.

Lemma collectNHs_ext a b ids :
  (forall i, i ∈ ids -> NextHops a !! i = NextHops b !! i) ->
  collectNHs a ids = collectNHs b ids.
Proof.
  intros H. unfold collectNHs. induction ids as [|i ids IH]; simpl; [done|].
  rewrite (H i) by set_solver. rewrite IH by set_solver. done.
Qed.

Lemma FilterByPrefixes_flat a w p dscp :
  flat a -> p ∈ w ->
  resolveRouteCBF (FilterByPrefixes a w) p dscp = resolveRouteCBF a p dscp.
Proof.
  intros Hf Hp. pose proof (flat_filter a w Hf) as Hff.
  destruct (FilterByPrefixes_lookups a w) as (HP & HG & _ & HN & _).
  destruct (Prefixes a !! p) as [n|] eqn:Hn.
  2:{ unfold resolveRouteCBF. by rewrite HP, bool_decide_eq_true_2, Hn by done. }
  assert (wantedNHG a w n) as Hw by (exists p; eauto).
  rewrite (flat_resolve a p dscp n Hf Hn), (flat_resolve _ p dscp n Hff)
    by (by rewrite HP, bool_decide_eq_true_2).
  rewrite HG by done. destruct (NextHopGroups a !! n) as [nhg|] eqn:Hg; [|done].
  apply collectNHs_ext. intros i Hi. apply HN. exists n, nhg. eauto.
Qed.

(** C4: filtering keeps what it promises.  On a table without conditional
    groups a wanted prefix resolves in the filtered table, for every DSCP
    value, exactly as in the original one (same next hops, same error). *)
Theorem FilterByPrefixes_resolve a w p dscp :
  flat a -> p ∈ w ->
  resolveRouteCBF (FilterByPrefixes a w) p dscp = resolveRouteCBF a p dscp.
Proof. apply FilterByPrefixes_flat. Qed.

Lemma AFTData_eq a b :
  (forall p, Prefixes a !! p = Prefixes b !! p) ->
  (forall n, NextHopGroups a !! n = NextHopGroups b !! n) ->
  (forall i, NextHops a !! i = NextHops b !! i) -> a = b.
Proof. destruct a, b; simpl; intros. f_equal; by apply map_eq. Qed.

(** Filtering twice is filtering by the common prefixes; in particular it is
    idempotent, and its result holds nothing but the wanted prefixes' data. *)
Theorem FilterByPrefixes_compose a w1 w2 :
  FilterByPrefixes (FilterByPrefixes a w1) w2 = FilterByPrefixes a (w1 ∩ w2).
Proof.
  destruct (FilterByPrefixes_lookups a w1) as (P1 & G1 & G1' & N1 & N1').
  destruct (FilterByPrefixes_lookups (FilterByPrefixes a w1) w2) as (P2 & G2 & G2' & N2 & N2').
  destruct (FilterByPrefixes_lookups a (w1 ∩ w2)) as (P3 & G3 & G3' & N3 & N3').
  set (b := FilterByPrefixes a w1) in *.
  assert (Hp : forall n, wantedNHG b w2 n <-> wantedNHG a (w1 ∩ w2) n).
  { intros n. unfold wantedNHG. setoid_rewrite P1. split; intros (p & Hp & Hn).
    - case_bool_decide; [|done]. exists p; set_solver.
    - exists p. split; [set_solver|]. by rewrite bool_decide_eq_true_2 by set_solver. }
  assert (Hsub : forall n, wantedNHG a (w1 ∩ w2) n -> NextHopGroups b !! n = NextHopGroups a !! n).
  { intros n (p & ? & ?). apply G1. exists p; set_solver. }
  assert (Hi : forall i, wantedNH b w2 i <-> wantedNH a (w1 ∩ w2) i).
  { intros i. unfold wantedNH. setoid_rewrite Hp.
    split; intros (n & nhg & Hn & Hg & Hin); exists n, nhg; rewrite Hsub in *; auto. }
  apply AFTData_eq.
  - intros p. rewrite P2, P1, P3. repeat case_bool_decide; set_solver.
  - intros n. destruct (wantedNHG_dec a (w1 ∩ w2) n).
    + rewrite (G2 n), (G3 n) by first [done|by apply Hp]. auto.
    + by rewrite (G2' n), (G3' n) by first [done|by rewrite Hp].
  - intros i. destruct (wantedNH_dec a (w1 ∩ w2) i) as [Hw|Hw].
    + rewrite (N2 i), (N3 i) by first [done|by apply Hi]. apply N1.
      destruct Hw as (n & nhg & (p & ? & ?) & ? & ?). exists n, nhg. split; [|auto].
      exists p; set_solver.
    + by rewrite (N2' i), (N3' i) by first [done|by rewrite Hi].
Qed.

(** A table with one conditional group in front of one leaf group. *)
Definition cnhgTable : AFTData := {|
  Prefixes := {["10.0.0.0/8" := 1%N]};
  NextHopGroups := <[1%N := {| NHIDs := []; NHWeights := ∅;
                              Conditionals := [{| DSCP := [0%N]; NHGID := 2%N |}] |}]>
                   {[2%N := {| NHIDs := [7%N]; NHWeights := {[7%N := 1%N]}; Conditionals := [] |}]};
  NextHops := {[7%N := {| IntfName := "eth0"; IP := "192.0.2.1"; LSPName := "" |}]};
|}.

(** The condition of C4 is needed.  [FilterByPrefixes] does not follow
    conditionals, so a wanted prefix behind a conditional next-hop group that
    resolves in the table no longer resolves once the table is filtered. *)
Theorem FilterByPrefixes_drops_conditionals :
  exists a p nhs, resolveRoute a p = Ret nhs /\
    resolveRoute (FilterByPrefixes a {[p]}) p = Fail errMissingNHG.
Proof.
  exists cnhgTable, "10.0.0.0/8", [{| IntfName := "eth0"; IP := "192.0.2.1"; LSPName := "" |}].
  split; vm_compute; reflexivity.
Qed.

(** ** Witnesses *)

Definition leafTable : AFTData := {|
  Prefixes := <["10.0.0.0/8" := 2%N]> {["2001:db8::/32" := 3%N]};
  NextHopGroups := {[2%N := {| NHIDs := [7%N]; NHWeights := {[7%N := 1%N]}; Conditionals := [] |}]};
  NextHops := {[7%N := {| IntfName := "eth0"; IP := "192.0.2.1"; LSPName := "" |}]};
|}.

Lemma leafTable_flat : flat leafTable.
Proof. intros n nhg H. cbn [NextHopGroups leafTable] in H. apply lookup_singleton_Some in H as [_ <-]. done. Qed.

Lemma FilterByPrefixes_resolve_witness :
  resolveRouteCBF (FilterByPrefixes leafTable {["10.0.0.0/8"]}) "10.0.0.0/8" 0%N =
  Ret [{| IntfName := "eth0"; IP := "192.0.2.1"; LSPName := "" |}].
Proof.
  rewrite (FilterByPrefixes_resolve leafTable {["10.0.0.0/8"]} "10.0.0.0/8" 0%N
             leafTable_flat ltac:(set_solver)).
  vm_compute. reflexivity.
Defined.
