(* ===== verification/AftParse.v ===== *)
(** Parsing of AFT telemetry: [parsePrefix], [parseNHG] and [parseNH] of
    [internal/telemetry/aftcache/aft_cache.go].  The path renderer
    [ygot.PathToSchemaPath] is a parameter. *)
From stdpp Require Import base list gmap strings pretty.
From Stdlib Require Import ZArith Lia Ascii.
From S2P Require Import Prelude GoStrings Gnmi Aft.

(** * Constants *)

Definition prefixPathV4 := "/network-instances/network-instance/afts/ipv4-unicast/ipv4-entry/state/prefix".
Definition prefixNHGPathV4 := "/network-instances/network-instance/afts/ipv4-unicast/ipv4-entry/state/next-hop-group".
Definition prefixPathV6 := "/network-instances/network-instance/afts/ipv6-unicast/ipv6-entry/state/prefix".
Definition prefixNHGPathV6 := "/network-instances/network-instance/afts/ipv6-unicast/ipv6-entry/state/next-hop-group".
Definition nextHopWeightPath := "/network-instances/network-instance/afts/next-hop-groups/next-hop-group/next-hops/next-hop/state/weight".
Definition nextHopGroupConditionPath := "/network-instances/network-instance/afts/next-hop-groups/next-hop-group/condition".

(** The paths of prefix entries that are known and unused. *)
Definition unusedPaths : list string := [
  "/network-instances/network-instance/afts/ipv4-unicast/ipv4-entry/prefix";
  "/network-instances/network-instance/afts/ipv4-unicast/ipv4-entry/state/counters/octets-forwarded";
  "/network-instances/network-instance/afts/ipv4-unicast/ipv4-entry/state/counters/packets-forwarded";
  "/network-instances/network-instance/afts/ipv4-unicast/ipv4-entry/state/decapsulate-header";
  "/network-instances/network-instance/afts/ipv4-unicast/ipv4-entry/state/entry-metadata";
  "/network-instances/network-instance/afts/ipv4-unicast/ipv4-entry/state/next-hop-group-network-instance";
  "/network-instances/network-instance/afts/ipv4-unicast/ipv4-entry/state/origin-network-instance";
  "/network-instances/network-instance/afts/ipv4-unicast/ipv4-entry/state/origin-protocol";
  "/network-instances/network-instance/afts/ipv6-unicast/ipv6-entry/prefix";
  "/network-instances/network-instance/afts/ipv6-unicast/ipv6-entry/state/counters/octets-forwarded";
  "/network-instances/network-instance/afts/ipv6-unicast/ipv6-entry/state/counters/packets-forwarded";
  "/network-instances/network-instance/afts/ipv6-unicast/ipv6-entry/state/decapsulate-header";
  "/network-instances/network-instance/afts/ipv6-unicast/ipv6-entry/state/entry-metadata";
  "/network-instances/network-instance/afts/ipv6-unicast/ipv6-entry/state/next-hop-group-network-instance";
  "/network-instances/network-instance/afts/ipv6-unicast/ipv6-entry/state/origin-network-instance";
  "/network-instances/network-instance/afts/ipv6-unicast/ipv6-entry/state/origin-protocol";
  "/network-instances/network-instance/afts/next-hop-groups/next-hop-group/id";
  "/network-instances/network-instance/afts/next-hop-groups/next-hop-group/next-hops/next-hop/index";
  "/network-instances/network-instance/afts/next-hop-groups/next-hop-group/state/backup-next-hop-group";
  "/network-instances/network-instance/afts/next-hops/next-hop/index";
  "/network-instances/network-instance/afts/next-hops/next-hop/interface-ref/state/subinterface";
  "/network-instances/network-instance/afts/next-hops/next-hop/state/counters/octets-forwarded";
  "/network-instances/network-instance/afts/next-hops/next-hop/state/counters/packets-forwarded";
  "/network-instances/network-instance/afts/next-hops/next-hop/state/encapsulate-header";
  "/network-instances/network-instance/afts/next-hops/next-hop/state/mac-address";
  "/network-instances/network-instance/afts/next-hops/next-hop/state/origin-protocol"
].

Definition errConditional : error := Errorf "next hop group notification is conditional" [ErrUnsupported].
Definition errNoNHFields : error :=
  Errorf "ip-address, interface, nor lsp-name were found in notification" [ErrNotExist].

Section Parse.
Variable PathToSchemaPath : schemaPathFn.

(** * Prefixes *)

(** One iteration of the loop of [parsePrefix]; the state is [wantFields] (its
    keys) and [nhgID].  The last [bool] tells whether the path was logged as
    unexpected. *)
Definition parsePrefixStep (prefix : string) (st : gset string * N) (u : Point) : go (gset string * N) :=
  let '(wantFields, nhgID) := st in
  match PathToSchemaPath (pt_path u) with
  | Ret path =>
      if String.eqb path prefixNHGPathV4 || String.eqb path prefixNHGPathV6 then
        Ret ({[path]} ∪ wantFields, GetUintVal (pt_val u))
      else if String.eqb path prefixPathV4 || String.eqb path prefixPathV6 then
        if String.eqb (GetStringVal (pt_val u)) prefix then Ret ({[path]} ∪ wantFields, nhgID)
        else Fail (errors_New "prefix mismatch")
      else if bool_decide (path ∈ unusedPaths) then Ret (wantFields, nhgID)
      else Ret (wantFields, nhgID) (* only logged *)
  | Fail _ => Fail (errors_New "error converting path to schema path")
  | Panic => Panic
  | NoFuel => NoFuel
  end.

Definition parsePrefix (n : Notification) : go (string * N) :=
  let updates := NotificationToPoints (Some n) in
  match updates with
  | [] => Fail (errors_New "missing updates")
  | u0 :: _ =>
      let e := path_elem (pt_path u0) in
      if length e <? 5 then Fail (errors_New "invalid prefix path in Notification")
      else
        match e !! 4 with
        | None => Panic
        | Some e4 =>
            match elem_key e4 !! "prefix" with
            | None => Fail (errors_New "invalid prefix path")
            | Some prefix =>
                '(wantFields, nhgID) ← foldM (parsePrefixStep prefix) (∅, 0%N) updates;
                if size wantFields <? 2 then Fail (errors_New "missing required fields")
                else Ret (prefix, nhgID)
            end
        end
  end.

(** * The numeric key of element 4 of the notification's prefix *)

Definition prefixKey (n : Notification) (key : string) : go N :=
  let e := GetElem (n_prefix n) in
  if length e <? 5 then Fail (errors_New "not enough elements in prefix")
  else
    match e !! 4 with
    | None => Panic
    | Some e4 =>
        match elem_key e4 !! key with
        | None => Fail (errors_New "not a key in element")
        | Some val => ParseUint val 64
        end
    end.

(** * Next-hop groups *)

(** The loop state of [parseNHG]: [entries], [nhidSeen], [nhg.NHIDs] and
    [nhg.NHWeights]. *)
Record nhgState := {
  entries : gset N;
  nhidSeen : gset N;
  st_NHIDs : list N;
  st_NHWeights : gmap N N;
}.

(** [u.Path.GetElem()[6].GetKey()["index"]]: an index out of range panics, a
    missing key reads as the empty string. *)
Definition weightIndex (p : Path) : go string :=
  match path_elem p !! 6 with
  | None => Panic
  | Some e => Ret (default "" (elem_key e !! "index"))
  end.

Definition parseNHGStep (st : nhgState) (u : Point) : go nhgState :=
  (* On error PathToSchemaPath returns the empty path, which has not the
     condition's prefix. *)
  match PathToSchemaPath (pt_path u) with
  | Fail e => Fail e
  | Panic => Panic
  | NoFuel => NoFuel
  | Ret p =>
      if HasPrefix p nextHopGroupConditionPath then Fail errConditional
      else if HasSuffix p "state/id" then
        Ret {| entries := {[GetUintVal (pt_val u)]} ∪ entries st; nhidSeen := nhidSeen st;
               st_NHIDs := st_NHIDs st; st_NHWeights := st_NHWeights st |}
      else if HasSuffix p "state/index" then
        let id := GetUintVal (pt_val u) in
        if bool_decide (id ∈ nhidSeen st) then Ret st
        else Ret {| entries := entries st; nhidSeen := {[id]} ∪ nhidSeen st;
                    st_NHIDs := st_NHIDs st ++ [id]; st_NHWeights := st_NHWeights st |}
      else if String.eqb p nextHopWeightPath then
        idx ← weightIndex (pt_path u);
        nhID ← ParseUint idx 64;
        Ret {| entries := entries st; nhidSeen := nhidSeen st; st_NHIDs := st_NHIDs st;
               st_NHWeights := <[nhID := GetUintVal (pt_val u)]> (st_NHWeights st) |}
      else Ret st
  end.

Definition parseNHG (n : Notification) : go (N * aftNextHopGroup) :=
  nhgID ← prefixKey n "id";
  st ← foldM parseNHGStep
         {| entries := {[nhgID]}; nhidSeen := ∅; st_NHIDs := []; st_NHWeights := ∅ |}
         (NotificationToPoints (Some n));
  (* Both errors below wrap a nil error or each other: errors.Is finds no sentinel. *)
  if negb (size (entries st) =? 1) || negb (length (st_NHIDs st) =? size (st_NHWeights st))
  then Fail (errors_New
         (if negb (length (st_NHIDs st) =? size (st_NHWeights st))
          then "missing Weights for a few NHIDs"
          else "the NHG values do not match between Prefix and Update parts of message"))
  else Ret (nhgID, {| NHIDs := st_NHIDs st; NHWeights := st_NHWeights st; Conditionals := [] |}).

(** * Next hops *)

(** First loop of [parseNH]: collect the values of [state/index]. *)
Definition parseNHIndexStep (entries : gset N) (u : Point) : go (gset N) :=
  path ← PathToSchemaPath (pt_path u);
  if HasSuffix path "state/index" then Ret ({[GetUintVal (pt_val u)]} ∪ entries) else Ret entries.

(** Second loop: the address, the LSP name and the interface; the [bool] is
    [found]. *)
Definition parseNHFieldStep (st : bool * aftNextHop) (u : Point) : go (bool * aftNextHop) :=
  let nh := st.2 in
  path ← PathToSchemaPath (pt_path u);
  let v := GetStringVal (pt_val u) in
  if HasSuffix path "state/ip-address" then
    Ret (true, {| IntfName := IntfName nh; IP := v; LSPName := LSPName nh |})
  else if HasSuffix path "state/lsp-name" then
    Ret (true, {| IntfName := IntfName nh; IP := IP nh; LSPName := v |})
  else if HasSuffix path "interface-ref/state/interface" then
    Ret (true, {| IntfName := v; IP := IP nh; LSPName := LSPName nh |})
  else Ret st.

Definition parseNH (n : Notification) : go (N * aftNextHop) :=
  nhID ← prefixKey n "index";
  let updates := NotificationToPoints (Some n) in
  entries ← foldM parseNHIndexStep {[nhID]} updates;
  if negb (size entries =? 1) then
    Fail (errors_New "the NH values do not match between Prefix and Update parts of message")
  else
    '(found, nh) ← foldM parseNHFieldStep (false, {| IntfName := ""; IP := ""; LSPName := "" |}) updates;
    if found : bool then Ret (nhID, nh) else Fail errNoNHFields.
End Parse.

(** * Notifications as a device streams them *)

Section Encode.
Variables (ni target : string) (ts : Z).

Definition elem0 (name : string) : PathElem := {| elem_name := name; elem_key := ∅ |}.
Definition elemK (name key val : string) : PathElem :=
  {| elem_name := name; elem_key := {[key := val]} |}.
Definition relPath (es : list PathElem) : option Path :=
  Some {| path_origin := ""; path_target := ""; path_elem := es |}.
Definition aftsPath (es : list PathElem) : option Path :=
  Some {| path_origin := "openconfig"; path_target := target;
          path_elem := [elem0 "network-instances"; elemK "network-instance" "name" ni;
                        elem0 "afts"] ++ es |}.

(** A prefix entry with its next-hop group, for IPv6 or IPv4. *)
Definition prefixNotification (v6 : bool) (prefix : string) (nhg : N) : Notification :=
  let '(uni, entry) := if v6 then ("ipv6-unicast", "ipv6-entry") else ("ipv4-unicast", "ipv4-entry") in
  {| n_timestamp := ts;
     n_prefix := aftsPath [elem0 uni; elemK entry "prefix" prefix];
     n_update := [{| upd_path := relPath [elem0 "state"; elem0 "prefix"]; upd_val := Some (StringVal prefix) |};
                  {| upd_path := relPath [elem0 "state"; elem0 "next-hop-group"]; upd_val := Some (UintVal nhg) |}];
     n_delete := []; n_atomic := true |}.

(** A next-hop group with its next hops and their weights. *)
Definition nhUpdates (nhw : N * N) : list Update :=
  let path leaf := relPath [elem0 "next-hops"; elemK "next-hop" "index" (pretty nhw.1); elem0 "state"; elem0 leaf] in
  [{| upd_path := path "index"; upd_val := Some (UintVal nhw.1) |};
   {| upd_path := path "weight"; upd_val := Some (UintVal nhw.2) |}].
Definition nhgNotification (id : N) (nhs : list (N * N)) : Notification :=
  {| n_timestamp := ts;
     n_prefix := aftsPath [elem0 "next-hop-groups"; elemK "next-hop-group" "id" (pretty id)];
     n_update := {| upd_path := relPath [elem0 "state"; elem0 "id"]; upd_val := Some (UintVal id) |}
                 :: flat_map nhUpdates nhs;
     n_delete := []; n_atomic := true |}.

(** A next hop with an address, an interface and an LSP name. *)
Definition nhNotification (id : N) (nh : aftNextHop) : Notification :=
  let upd es v := {| upd_path := relPath es; upd_val := Some v |} in
  {| n_timestamp := ts;
     n_prefix := aftsPath [elem0 "next-hops"; elemK "next-hop" "index" (pretty id)];
     n_update := [upd [elem0 "state"; elem0 "index"] (UintVal id);
                  upd [elem0 "state"; elem0 "ip-address"] (StringVal (IP nh));
                  upd [elem0 "interface-ref"; elem0 "state"; elem0 "interface"] (StringVal (IntfName nh));
                  upd [elem0 "state"; elem0 "lsp-name"] (StringVal (LSPName nh))];
     n_delete := []; n_atomic := true |}.
End Encode.

(** * Lemmas *)

Section Facts.
Variable PTSP : schemaPathFn.

(** The invariant of the loop of [parseNHG]. *)
Definition nhgInv (id : N) (st : nhgState) : Prop :=
  NoDup (st_NHIDs st) /\ id ∈ entries st /\ (forall i, i ∈ nhidSeen st <-> i ∈ st_NHIDs st).

Lemma parseNHGStep_inv id st u st' :
  nhgInv id st -> parseNHGStep PTSP st u = Ret st' -> nhgInv id st'.
Proof.
  intros (Hnd & Hid & Hseen). unfold parseNHGStep. intros H.
  destruct (PTSP (pt_path u)) as [p|?| |]; try done.
  repeat case_match; go_inv; unfold nhgInv; simpl; try done.
  - set_solver.
  - case_bool_decide; [done|]. split; [|set_solver].
    apply NoDup_app. repeat split; [done|set_solver|by apply NoDup_singleton].
Qed.

(** Every [state/id] leaf seen so far is in [entries]. *)
Lemma parseNHGStep_entries st u st' :
  parseNHGStep PTSP st u = Ret st' ->
  entries st ⊆ entries st' /\
  (forall p, PTSP (pt_path u) = Ret p -> HasPrefix p nextHopGroupConditionPath = false ->
     HasSuffix p "state/id" = true -> GetUintVal (pt_val u) ∈ entries st').
Proof.
  unfold parseNHGStep. intros H. destruct (PTSP (pt_path u)) as [p|?| |] eqn:Hp; try done.
  split.
  - repeat case_match; go_inv; simpl; set_solver.
  - intros q [= <-] Hc Hs. rewrite Hc, Hs in H. go_inv. simpl. set_solver.
Qed.

Lemma parseNHGStep_cond st u st' p :
  parseNHGStep PTSP st u = Ret st' -> PTSP (pt_path u) = Ret p ->
  HasPrefix p nextHopGroupConditionPath = false.
Proof. unfold parseNHGStep. intros H Hp. rewrite Hp in H. by destruct (HasPrefix _ _). Qed.

Lemma foldM_parseNHG_entries us st st' :
  foldM (parseNHGStep PTSP) st us = Ret st' ->
  entries st ⊆ entries st' /\
  (forall u p, u ∈ us -> PTSP (pt_path u) = Ret p -> HasSuffix p "state/id" = true ->
     GetUintVal (pt_val u) ∈ entries st').
Proof.
  revert st; induction us as [|u us IH]; intros st H; simpl in H; go_inv; [set_solver|].
  match goal with Hstep : parseNHGStep _ _ _ = Ret ?s |- _ =>
    destruct (parseNHGStep_entries _ _ _ Hstep) as [Hsub Hu]; destruct (IH s H) as [Hsub' Hus];
    pose proof (fun p => parseNHGStep_cond _ _ _ p Hstep) as Hc end.
  split; [set_solver|]. intros v p Hv Hp Hs.
  apply elem_of_cons in Hv as [->|Hv]; [|eauto].
  apply Hsub'. eapply Hu; eauto.
Qed.

Lemma prefixKey_bound n key id : prefixKey n key = Ret id -> (id < 2 ^ 64)%N.
Proof.
  unfold prefixKey. intros H. repeat case_match; try done. by eapply ParseUint_bound.
Qed.

Lemma size_singleton_set (i : N) (X : gset N) : size X = 1 -> i ∈ X -> X = {[i]}.
Proof. intros [x Hx]%size_1_elem_of Hi. set_solver. Qed.
End Facts.

(** * Properties *)

(** A next-hop group as [parseNHG] builds it. *)
Definition wf_nhg (g : aftNextHopGroup) : Prop :=
  NoDup (NHIDs g) /\ Conditionals g = [] /\ length (NHIDs g) = size (NHWeights g).

Lemma parseNHG_accepts PTSP n id g :
  parseNHG PTSP n = Ret (id, g) ->
  wf_nhg g /\ (id < 2 ^ 64)%N /\
  (forall u p, u ∈ NotificationToPoints (Some n) -> PTSP (pt_path u) = Ret p ->
     HasSuffix p "state/id" = true -> GetUintVal (pt_val u) = id).
Proof.
  unfold parseNHG. intros H. go_inv.
  destruct (_ || _) eqn:Hc in H; [done|]. go_inv.
  apply orb_false_iff in Hc as [He Hl]. apply negb_false_iff, Nat.eqb_eq in He, Hl.
  match goal with Hk : prefixKey _ _ = Ret ?i, Hf : foldM _ _ _ = Ret ?s |- _ =>
    assert (nhgInv i s) as (Hnd & Hid & _) by
      (eapply (foldM_inv _ (nhgInv i)); [| |exact Hf];
       [split; [constructor|set_solver]|eauto using parseNHGStep_inv]);
    destruct (foldM_parseNHG_entries _ _ _ _ Hf) as [_ Hent];
    assert (entries s = {[i]}) as Hsing by (by apply size_singleton_set);
    assert ((i < 2 ^ 64)%N) as Hb by (by eapply prefixKey_bound) end.
  split; [split; [done|split; done]|]. split; [done|].
  intros u p Hu Hp Hs. specialize (Hent u p Hu Hp Hs). rewrite Hsing in Hent. set_solver.
Qed.

Lemma parseNHG_wf_nhg PTSP n id g : parseNHG PTSP n = Ret (id, g) -> wf_nhg g.
Proof. intros H. by apply parseNHG_accepts in H as [? _]. Qed.

(** A next-hop group that [parseNHG] accepts has no repeated next hop, no
    conditionals and as many weights as next hops; its id is a 64-bit number,
    and every [state/id] leaf of the notification agrees with it. *)
Theorem parseNHG_wf PTSP n id g :
  parseNHG PTSP n = Ret (id, g) ->
  wf_nhg g /\ (id < 2 ^ 64)%N /\
  (forall u p, u ∈ NotificationToPoints (Some n) -> PTSP (pt_path u) = Ret p ->
     HasSuffix p "state/id" = true -> GetUintVal (pt_val u) = id).
Proof. apply parseNHG_accepts. Qed.

Section RoundTrip.
Variable PTSP : schemaPathFn.
Hypothesis Hall : renders_all PTSP.
Variables (ni target : string) (ts : Z).

Lemma nhPath_rendered (id nh : N) w :
  w <> "" ->
  PTSP (fullPath (aftsPath ni target [elem0 "next-hop-groups"; elemK "next-hop-group" "id" (pretty id)])
          (relPath [elem0 "next-hops"; elemK "next-hop" "index" (pretty nh); elem0 "state"; elem0 w])) =
  Ret ("/network-instances/network-instance/afts/next-hop-groups/next-hop-group/next-hops/next-hop/state/" +:+ w).
Proof. intros Hw. rewrite Hall; [done|]. repeat constructor; done. Qed.

Definition nhPoints (id : N) (nhw : N * N) : list Point :=
  map (fun u => {| pt_path := fullPath (aftsPath ni target [elem0 "next-hop-groups"; elemK "next-hop-group" "id" (pretty id)]) (upd_path u);
                   pt_val := upd_val u |}) (nhUpdates nhw).

Lemma parseNHGStep_id st u :
  PTSP (pt_path u) = Ret "/network-instances/network-instance/afts/next-hop-groups/next-hop-group/state/id" ->
  parseNHGStep PTSP st u =
  Ret {| entries := {[GetUintVal (pt_val u)]} ∪ entries st; nhidSeen := nhidSeen st;
         st_NHIDs := st_NHIDs st; st_NHWeights := st_NHWeights st |}.
Proof. intros H. unfold parseNHGStep. rewrite H. reflexivity. Qed.

Lemma parseNHGStep_index st u :
  PTSP (pt_path u) = Ret "/network-instances/network-instance/afts/next-hop-groups/next-hop-group/next-hops/next-hop/state/index" ->
  parseNHGStep PTSP st u =
  let id := GetUintVal (pt_val u) in
  if bool_decide (id ∈ nhidSeen st) then Ret st
  else Ret {| entries := entries st; nhidSeen := {[id]} ∪ nhidSeen st;
              st_NHIDs := st_NHIDs st ++ [id]; st_NHWeights := st_NHWeights st |}.
Proof. intros H. unfold parseNHGStep. rewrite H. reflexivity. Qed.

Lemma parseNHGStep_weight st u e nh :
  PTSP (pt_path u) = Ret nextHopWeightPath ->
  path_elem (pt_path u) !! 6 = Some e -> elem_key e !! "index" = Some (pretty nh) ->
  (nh < 2 ^ 64)%N ->
  parseNHGStep PTSP st u =
  Ret {| entries := entries st; nhidSeen := nhidSeen st; st_NHIDs := st_NHIDs st;
         st_NHWeights := <[nh := GetUintVal (pt_val u)]> (st_NHWeights st) |}.
Proof.
  intros H He Hk Hb. unfold parseNHGStep. rewrite H.
  transitivity (idx ← weightIndex (pt_path u); nhID ← ParseUint idx 64;
    Ret {| entries := entries st; nhidSeen := nhidSeen st; st_NHIDs := st_NHIDs st;
           st_NHWeights := <[nhID := GetUintVal (pt_val u)]> (st_NHWeights st) |}); [reflexivity|].
  unfold weightIndex. rewrite He, Hk.
  simpl. by rewrite ParseUint_pretty.
Qed.

(** The two updates of one next hop, parsed after the others. *)
Lemma nhPoints_step id st nh w :
  (nh < 2 ^ 64)%N -> nh ∉ nhidSeen st ->
  foldM (parseNHGStep PTSP) st (nhPoints id (nh, w)) =
  Ret {| entries := entries st; nhidSeen := {[nh]} ∪ nhidSeen st;
         st_NHIDs := st_NHIDs st ++ [nh]; st_NHWeights := <[nh := w]> (st_NHWeights st) |}.
Proof.
  intros Hnh Hseen. unfold nhPoints, nhUpdates. cbn [map foldM upd_path upd_val fst snd].
  rewrite parseNHGStep_index by (by apply (nhPath_rendered id nh "index")).
  cbn [pt_val GetUintVal]. cbv zeta. rewrite bool_decide_eq_false_2 by done. simpl.
  rewrite (parseNHGStep_weight _ _ (elemK "next-hop" "index" (pretty nh)) nh); try done.
  by apply (nhPath_rendered id nh "weight").
Qed.

Lemma nhPoints_fold id nhs st :
  Forall (fun nhw => nhw.1 < 2 ^ 64)%N nhs -> NoDup nhs.*1 ->
  (forall nh, nh ∈ nhs.*1 -> nh ∉ nhidSeen st) -> dom (st_NHWeights st) ⊆ nhidSeen st ->
  exists seen, foldM (parseNHGStep PTSP) st (flat_map (nhPoints id) nhs) =
  Ret {| entries := entries st; nhidSeen := seen; st_NHIDs := st_NHIDs st ++ nhs.*1;
         st_NHWeights := list_to_map nhs ∪ st_NHWeights st |}.
Proof.
  revert st. induction nhs as [|[nh w] nhs IH]; intros st Hb Hnd Hfresh Hdom.
  { exists (nhidSeen st). simpl. rewrite app_nil_r, map_empty_union. by destruct st. }
  apply Forall_cons in Hb as [Hnh Hb]. apply NoDup_cons in Hnd as [Hni Hnd].
  cbn [flat_map]. rewrite foldM_app, nhPoints_step; [|done|set_solver]. simpl.
  edestruct IH as [seen ->]; [done|done|set_solver|simpl; set_solver|]. simpl.
  exists seen. f_equal. f_equal; [by rewrite <- app_assoc|].
  rewrite <- insert_union_r; [by rewrite insert_union_l|].
  apply not_elem_of_list_to_map_1. done.
Qed.
End RoundTrip.

(** [parseNHG] reads back what a device streams: for every group id and
    every list of distinct next hops with weights, the notification that lists
    them parses to that id, those next hops in order and those weights. *)
Theorem parseNHG_roundtrip PTSP ni target ts id nhs :
  renders_all PTSP -> (id < 2 ^ 64)%N ->
  Forall (fun nhw => nhw.1 < 2 ^ 64)%N nhs -> NoDup nhs.*1 ->
  parseNHG PTSP (nhgNotification ni target ts id nhs) =
  Ret (id, {| NHIDs := nhs.*1; NHWeights := list_to_map nhs; Conditionals := [] |}).
Proof.
  intros Hall Hid Hb Hnd. unfold parseNHG.
  assert (prefixKey (nhgNotification ni target ts id nhs) "id" = Ret id) as ->.
  { unfold prefixKey. cbn. rewrite lookup_singleton_eq. by apply ParseUint_pretty. }
  assert (NotificationToPoints (Some (nhgNotification ni target ts id nhs)) =
    {| pt_path := fullPath (aftsPath ni target [elem0 "next-hop-groups"; elemK "next-hop-group" "id" (pretty id)])
                           (relPath [elem0 "state"; elem0 "id"]);
       pt_val := Some (UintVal id) |} :: flat_map (nhPoints ni target id) nhs) as ->.
  { unfold NotificationToPoints. cbn [n_update n_prefix nhgNotification map]. f_equal.
    clear. induction nhs as [|x nhs IH]; [done|]. cbn [flat_map]. by rewrite map_app, IH. }
  cbn [mbind outcome_bind foldM].
  rewrite parseNHGStep_id by (apply Hall; repeat constructor; done). cbn [mbind outcome_bind].
  match goal with |- context [foldM _ ?s _] =>
    destruct (nhPoints_fold PTSP Hall ni target id nhs s) as [seen ->];
      [done|done|set_solver|set_solver|] end.
  cbn [mbind outcome_bind entries st_NHIDs st_NHWeights pt_val GetUintVal].
  rewrite !map_union_empty, union_idemp_L, size_singleton, map_size_list_to_map by done.
  rewrite !app_nil_l, length_fmap, !Nat.eqb_refl. done.
Qed.

(** Render every closed path of the goal. *)
Ltac render Hall :=
  repeat (match goal with |- context [?P (fullPath ?x ?y)] =>
    rewrite (Hall (fullPath x y)) by (repeat constructor; done);
    let v := eval vm_compute in (schemaString (fullPath x y)) in
    change (schemaString (fullPath x y)) with v end; cbn).

(** [parsePrefix] and [parseNH] read back what a device streams, for IPv4
    and IPv6 prefixes and for every next hop. *)
Theorem parsePrefix_parseNH_roundtrip PTSP ni target ts :
  renders_all PTSP ->
  (forall v6 prefix nhg, parsePrefix PTSP (prefixNotification ni target ts v6 prefix nhg) = Ret (prefix, nhg)) /\
  (forall id nh, (id < 2 ^ 64)%N -> parseNH PTSP (nhNotification ni target ts id nh) = Ret (id, nh)).
Proof.
  intros Hall. split.
  - intros v6 prefix nhg. unfold parsePrefix.
    destruct v6; cbn; rewrite lookup_singleton_eq; cbn; unfold parsePrefixStep; cbn;
      render Hall; rewrite String.eqb_refl; cbn; render Hall; reflexivity.
  - intros id nh Hid. unfold parseNH.
    assert (prefixKey (nhNotification ni target ts id nh) "index" = Ret id) as ->.
    { unfold prefixKey. cbn. rewrite lookup_singleton_eq. by apply ParseUint_pretty. }
    cbn. unfold parseNHIndexStep. cbn. render Hall.
    rewrite union_idemp_L, size_singleton. cbn. unfold parseNHFieldStep. cbn.
    render Hall. by destruct nh.
Qed.

(** ** Safety *)

Definition finishes {E A} (m : outcome E A) : Prop :=
  match m with Ret _ => True | Fail _ => True | _ => False end.

Lemma finishes_bind {E A B} (m : outcome E A) (k : A -> outcome E B) :
  finishes m -> (forall a, m = Ret a -> finishes (k a)) -> finishes (m ≫= k).
Proof. destruct m; simpl; auto. Qed.

Lemma finishes_foldM {E A S} (body : S -> A -> outcome E S) s xs :
  (forall s x, x ∈ xs -> finishes (body s x)) -> finishes (foldM body s xs).
Proof.
  intros H. pose proof (foldM_safe body (fun _ => True) s xs I) as Hs.
  destruct (foldM body s xs); try done; apply Hs; intros s1 x Hx _;
    specialize (H s1 x Hx); by destruct (body s1 x).
Qed.

Lemma finishes_iff {E A} (m : outcome E A) : finishes m <-> m <> Panic /\ m <> NoFuel.
Proof. destruct m; simpl; naive_solver. Qed.

Lemma ParseUint_finishes s bits : finishes (ParseUint s bits).
Proof. unfold ParseUint. by repeat case_match. Qed.

Lemma prefixKey_finishes n key : finishes (prefixKey n key).
Proof.
  unfold prefixKey. destruct (Nat.ltb_spec (length (GetElem (n_prefix n))) 5) as [|Hl]; [done|].
  destruct (lookup_lt_is_Some_2 (GetElem (n_prefix n)) 4 ltac:(lia)) as [e ->].
  case_match; [apply ParseUint_finishes|done].
Qed.

#[export] Hint Resolve ParseUint_finishes prefixKey_finishes : go.

Section Safety.
Variable PTSP : schemaPathFn.
Hypotheses (Hrender : renders_schema PTSP) (Hsafe : renderer_safe PTSP).

Lemma renderer_finishes p : finishes (PTSP p).
Proof. apply finishes_iff, Hsafe. Qed.

(** The weight leaf's path has an element 6. *)
Lemma weightIndex_finishes p :
  plain_names p -> PTSP p = Ret nextHopWeightPath -> finishes (weightIndex p).
Proof.
  intros Hplain Hp. apply Hrender in Hp. pose proof (schemaString_slashes p Hplain) as Hc.
  rewrite <- Hp in Hc. change (count_byte "/" nextHopWeightPath) with 9 in Hc.
  unfold weightIndex.
  destruct (lookup_lt_is_Some_2 (path_elem p) 6 ltac:(lia)) as [e ->]. done.
Qed.

Lemma parseNHGStep_finishes st u : plain_names (pt_path u) -> finishes (parseNHGStep PTSP st u).
Proof.
  intros Hplain. unfold parseNHGStep. pose proof (renderer_finishes (pt_path u)) as Hf.
  destruct (PTSP (pt_path u)) as [p|?| |] eqn:Hp; try done.
  destruct (HasPrefix p nextHopGroupConditionPath); [done|].
  destruct (HasSuffix p "state/id"); [done|].
  destruct (HasSuffix p "state/index"); [by case_bool_decide|].
  destruct (String.eqb_spec p nextHopWeightPath) as [->|]; [|done].
  apply finishes_bind; [by apply weightIndex_finishes|]. intros i _.
  apply finishes_bind; auto with go.
Qed.

Lemma parsePrefixStep_finishes prefix st u : finishes (parsePrefixStep PTSP prefix st u).
Proof.
  unfold parsePrefixStep. destruct st as [w i]. pose proof (renderer_finishes (pt_path u)) as Hf.
  destruct (PTSP (pt_path u)); try done. by repeat case_match.
Qed.

Lemma parseNHIndexStep_finishes st u : finishes (parseNHIndexStep PTSP st u).
Proof.
  unfold parseNHIndexStep. apply finishes_bind; [apply renderer_finishes|].
  intros p _. by case_match.
Qed.
Lemma parseNHFieldStep_finishes st u : finishes (parseNHFieldStep PTSP st u).
Proof.
  unfold parseNHFieldStep. apply finishes_bind; [apply renderer_finishes|].
  intros p _. by repeat case_match.
Qed.
End Safety.

(** C15: on every notification whose element names hold no slash, the three
    parsers return a value or an error: none of their slice accesses ([e[4]],
    [GetElem()[6]]) is out of range. *)
Theorem parsers_never_panic PTSP n :
  renders_schema PTSP -> renderer_safe PTSP ->
  (forall u, u ∈ NotificationToPoints (Some n) -> plain_names (pt_path u)) ->
  finishes (parsePrefix PTSP n) /\ finishes (parseNHG PTSP n) /\ finishes (parseNH PTSP n).
Proof.
  intros Hr Hs Hplain. repeat split.
  - unfold parsePrefix. destruct (NotificationToPoints (Some n)) as [|u0 us] eqn:E; [done|].
    destruct (Nat.ltb_spec (length (path_elem (pt_path u0))) 5) as [|Hl]; [done|].
    destruct (lookup_lt_is_Some_2 (path_elem (pt_path u0)) 4 ltac:(lia)) as [e ->].
    case_match; [|done]. apply finishes_bind.
    + apply finishes_foldM. intros. by apply parsePrefixStep_finishes.
    + intros [w i] _. by case_match.
  - unfold parseNHG. apply finishes_bind; [auto with go|]. intros id _. apply finishes_bind.
    + apply finishes_foldM. intros. apply parseNHGStep_finishes; auto.
    + intros st _. by case_match.
  - unfold parseNH. apply finishes_bind; [auto with go|]. intros id _. apply finishes_bind.
    + apply finishes_foldM. intros. by apply parseNHIndexStep_finishes.
    + intros st _. case_match; [done|]. apply finishes_bind.
      * apply finishes_foldM. intros. by apply parseNHFieldStep_finishes.
      * intros [f nh] _. by case_match.
Qed.

(** The next-hop-group values of a prefix notification, in order. *)
Definition nhgLeaf (PTSP : schemaPathFn) (u : Point) : option N :=
  match PTSP (pt_path u) with
  | Ret p => if String.eqb p prefixNHGPathV4 || String.eqb p prefixNHGPathV6
             then Some (GetUintVal (pt_val u)) else None
  | _ => None
  end.

Lemma parsePrefix_fold PTSP prefix us st st' :
  foldM (parsePrefixStep PTSP prefix) st us = Ret st' ->
  st'.2 = default st.2 (last (omap (nhgLeaf PTSP) us)) /\
  (forall u p, u ∈ us -> PTSP (pt_path u) = Ret p -> p = prefixPathV4 \/ p = prefixPathV6 ->
     GetStringVal (pt_val u) = prefix).
Proof.
  revert st; induction us as [|u us IH]; intros [w i] H; cbn [foldM] in H; go_inv; [set_solver|].
  match goal with Hstep : parsePrefixStep _ _ _ _ = Ret ?s |- _ =>
    destruct (IH s H) as [Hi Hp]; rename s into s1; rename Hstep into Hs1 end.
  unfold parsePrefixStep in Hs1. destruct (PTSP (pt_path u)) as [p| | |] eqn:Hpath; try done.
  split.
  - rewrite Hi. simpl. unfold nhgLeaf at 2. rewrite Hpath.
    destruct (_ || _) eqn:Hc in Hs1; rewrite ?Hc.
    + go_inv. rewrite last_cons. by destruct (last _).
    + by repeat case_match; go_inv.
  - intros v q Hv Hq Hor. apply elem_of_cons in Hv as [->|Hv]; [|eauto].
    assert (p = q) as -> by congruence.
    destruct Hor as [-> | ->]; simpl in Hs1;
      destruct (String.eqb_spec (GetStringVal (pt_val u)) prefix); done.
Qed.

(** An accepted prefix is the [prefix] key of the first update's path,
    agrees with every [state/prefix] leaf of the notification, and is mapped to
    the value of the last [state/next-hop-group] leaf (0 when there is none). *)
Theorem parsePrefix_sound PTSP n prefix id :
  parsePrefix PTSP n = Ret (prefix, id) ->
  (exists u0 us e, NotificationToPoints (Some n) = u0 :: us /\
     path_elem (pt_path u0) !! 4 = Some e /\ elem_key e !! "prefix" = Some prefix) /\
  (forall u p, u ∈ NotificationToPoints (Some n) -> PTSP (pt_path u) = Ret p ->
     p = prefixPathV4 \/ p = prefixPathV6 -> GetStringVal (pt_val u) = prefix) /\
  id = default 0%N (last (omap (nhgLeaf PTSP) (NotificationToPoints (Some n)))).
Proof.
  unfold parsePrefix. destruct (NotificationToPoints (Some n)) as [|u0 us] eqn:E; [done|].
  case_match; [done|]. destruct (path_elem (pt_path u0) !! 4) as [e|] eqn:He; [|done].
  destruct (elem_key e !! "prefix") as [q|] eqn:Hq; [|done].
  intros Hb. go_inv. match goal with x : gset string * N |- _ => destruct x as [wf i] end.
  case_match; go_inv.
  match goal with Hf : foldM _ _ _ = Ret _ |- _ => destruct (parsePrefix_fold _ _ _ _ _ Hf) as [Hi Hp] end.
  split; [by exists u0, us, e|]. split; [done|]. exact Hi.
Qed.

(** ** Witnesses *)

Definition sampleNHG : Notification := nhgNotification "DEFAULT" "dut" 1 5%N [(7%N, 1%N); (8%N, 3%N)].

Lemma parseNHG_wf_witness :
  wf_nhg {| NHIDs := [7%N; 8%N]; NHWeights := {[7%N := 1%N; 8%N := 3%N]}; Conditionals := [] |}.
Proof.
  assert (parseNHG simpleSchemaPath sampleNHG =
    Ret (5%N, {| NHIDs := [7%N; 8%N]; NHWeights := {[7%N := 1%N; 8%N := 3%N]}; Conditionals := [] |})) as H
    by (vm_compute; reflexivity).
  exact (proj1 (parseNHG_wf simpleSchemaPath sampleNHG _ _ H)).
Defined.

Lemma parseNHG_roundtrip_witness :
  parseNHG simpleSchemaPath sampleNHG =
  Ret (5%N, {| NHIDs := [7%N; 8%N]; NHWeights := list_to_map [(7%N, 1%N); (8%N, 3%N)]; Conditionals := [] |}).
Proof.
  apply (parseNHG_roundtrip simpleSchemaPath "DEFAULT" "dut" 1 5%N [(7%N, 1%N); (8%N, 3%N)]
           simpleSchemaPath_all); [done|repeat constructor|].
  apply (bool_decide_unpack _). vm_compute. exact I.
Defined.

Lemma parsePrefix_parseNH_roundtrip_witness :
  parsePrefix simpleSchemaPath (prefixNotification "DEFAULT" "dut" 1 true "2001:db8::/32" 5%N) =
  Ret ("2001:db8::/32", 5%N).
Proof. apply (parsePrefix_parseNH_roundtrip simpleSchemaPath "DEFAULT" "dut" 1 simpleSchemaPath_all). Defined.

Lemma parsers_never_panic_witness :
  finishes (parsePrefix simpleSchemaPath sampleNHG) /\ finishes (parseNHG simpleSchemaPath sampleNHG) /\
  finishes (parseNH simpleSchemaPath sampleNHG).
Proof.
  apply (parsers_never_panic simpleSchemaPath sampleNHG simpleSchemaPath_renders simpleSchemaPath_safe).
  apply Forall_forall. vm_compute. repeat constructor.
Defined.

Lemma parsePrefix_sound_witness :
  5%N = default 0%N (last (omap (nhgLeaf simpleSchemaPath)
    (NotificationToPoints (Some (prefixNotification "DEFAULT" "dut" 1 false "10.0.0.0/8" 5%N))))).
Proof.
  apply (parsePrefix_sound simpleSchemaPath
           (prefixNotification "DEFAULT" "dut" 1 false "10.0.0.0/8" 5%N) "10.0.0.0/8" 5%N).
  vm_compute. reflexivity.
Defined.
