(* ===== verification/AftSession.v ===== *)
(** The AFT streaming session of [internal/telemetry/aftcache/aft_cache.go]: the
    notification cache and [ToAFT], the table extracted from it.

    The gNMI cache ([openconfig/gnmi/cache]) and ygot's path parser are not part
    of the repository.  They are the class [GnmiCache] and the argument
    [StringToStructuredPath]. *)
From stdpp Require Import base list gmap strings pretty.
From Stdlib Require Import ZArith Lia Ascii.
From S2P Require Import Prelude GoStrings Gnmi Aft AftParse.

(** * The cache interface *)

(** The value at a leaf of the cache: a notification, or something else. *)
Inductive leafValue := LeafNotification (n : Notification) | LeafOther.

(** [GnmiUpdate] may change the cache even when it reports an error; [Query]
    lists the leaves under a path in the order they are visited. *)
Class GnmiCache (C : Type) := {
  cache_New : list string -> C;
  cache_GnmiUpdate : C -> Notification -> C * option error;
  cache_Query : C -> string -> list string -> go (list leafValue);
}.

(** * Traversal paths *)

Definition subscriptionPaths (defaultNetworkInstance : string) : gmap string (list string) :=
  let ni := "network-instances/network-instance[name=" +:+ defaultNetworkInstance +:+ "]/afts/" in
  <["prefix" := [ni +:+ "ipv4-unicast/ipv4-entry"; ni +:+ "ipv6-unicast/ipv6-entry"]]>
  (<["nhg" := [ni +:+ "next-hop-groups/next-hop-group"]]>
  {["nh" := [ni +:+ "next-hops/next-hop"]]}).

Section Paths.
Variable StringToStructuredPath : string -> go Path.

(** An element's name followed by the values of its keys. *)
Definition elemParts (e : PathElem) : list string :=
  elem_name e :: (map_to_list (elem_key e)).*2.

Definition traversalPath (p : string) : go string :=
  match StringToStructuredPath p with
  | Ret sp => Ret (Join ("openconfig" :: flat_map elemParts (path_elem sp)) "/")
  | Fail e => Fail (Errorf "error parsing path" (err_wraps e))
  | Panic => Panic
  | NoFuel => NoFuel
  end.

Definition generateCacheTraversalPaths (paths : gmap string (list string)) :
    go (gmap string (list string)) :=
  foldM (fun cachePaths '(key, ps) =>
    currentPaths ← mapM traversalPath ps;
    Ret (<[key := currentPaths]> cachePaths)) ∅ (map_to_list paths).
End Paths.

Section Session.
Context {C : Type} `{!GnmiCache C}.
Variable PathToSchemaPath : schemaPathFn.
Variable StringToStructuredPath : string -> go Path.

(** * The cache of a session *)

Record aftCache := { cache : C; target : string }.

Definition newAFTCache (target : string) : aftCache :=
  {| cache := cache_New [target]; target := target |}.

(** What [addAFTNotification] writes into the notification it is given. *)
Definition fillPrefix (c : aftCache) (update : Notification) : Notification :=
  let prefix := n_prefix update in
  {| n_timestamp := n_timestamp update;
     n_prefix := Some {|
       path_origin := if String.eqb (GetOrigin prefix) "" then "openconfig" else GetOrigin prefix;
       path_target := if String.eqb (GetTarget prefix) "" then target c else GetTarget prefix;
       path_elem := GetElem prefix |};
     n_update := n_update update;
     n_delete := n_delete update;
     n_atomic := n_atomic update |}.

(** Returns the cache, the response as the call leaves it (the message is
    shared with the caller) and the error. *)
Definition addAFTNotification (c : aftCache) (n : SubscribeResponse) :
    aftCache * SubscribeResponse * option error :=
  if GetSyncResponse n then (c, n, None)
  else
    match GetUpdate n with
    | None => (c, n, Some (errors_New "SubscribeResponse missing Update"))
    | Some update =>
        let update := fillPrefix c update in
        let '(cache', err) := cache_GnmiUpdate (cache c) update in
        ({| cache := cache'; target := target c |}, RespUpdate update, err)
    end.

(** [traverse]: visit the leaves under a path, stopping at the first error. *)
Definition traverse {S} (c : aftCache) (ocPath : string) (f : S -> Notification -> go S) (s : S) : go S :=
  vals ← cache_Query (cache c) (target c) (split_on "/" ocPath);
  foldM (fun s val =>
    match val with
    | LeafNotification n => f s n
    | LeafOther => Fail (errors_New "value is not a notification")
    end) s vals.

(** * ToAFT *)

Definition prefixFunc (a : AFTData) (n : Notification) : go AFTData :=
  '(p, nhg) ← parsePrefix PathToSchemaPath n;
  Ret {| Prefixes := <[p := nhg]> (Prefixes a); NextHopGroups := NextHopGroups a; NextHops := NextHops a |}.

Definition nhgFunc (a : AFTData) (n : Notification) : go AFTData :=
  match parseNHG PathToSchemaPath n with
  | Fail err => if errors_Is err ErrNotExist || errors_Is err ErrUnsupported then Ret a else Fail err
  | Ret (nhg, data) =>
      Ret {| Prefixes := Prefixes a; NextHopGroups := <[nhg := data]> (NextHopGroups a); NextHops := NextHops a |}
  | Panic => Panic
  | NoFuel => NoFuel
  end.

Definition nhFunc (a : AFTData) (n : Notification) : go AFTData :=
  match parseNH PathToSchemaPath n with
  | Fail err => if errors_Is err ErrNotExist then Ret a else Fail err
  | Ret (nh, data) =>
      Ret {| Prefixes := Prefixes a; NextHopGroups := NextHopGroups a; NextHops := <[nh := data]> (NextHops a) |}
  | Panic => Panic
  | NoFuel => NoFuel
  end.

Definition parserOf (kind : string) : AFTData -> Notification -> go AFTData :=
  if String.eqb kind "prefix" then prefixFunc
  else if String.eqb kind "nhg" then nhgFunc else nhFunc.

Definition ToAFT (c : aftCache) (defaultNetworkInstance : string) : go AFTData :=
  cacheTraversalPaths ←
    generateCacheTraversalPaths StringToStructuredPath (subscriptionPaths defaultNetworkInstance);
  foldM (fun a kind =>
    foldM (fun a path => traverse c path (parserOf kind) a) a
      (default [] (cacheTraversalPaths !! kind)))
    newAFT ["prefix"; "nhg"; "nh"].

(** * Sessions *)

(** [AFTStreamSession] without its buffer, which is the stream of events of the
    loop below.  [start] is in nanoseconds. *)
Record AFTStreamSession := {
  Cache : aftCache;
  start : Z;
  notifications : list SubscribeResponse;
  missingPrefixes : gset string;
  failingNHPrefixes : gset string;
  debugMode : bool;
}.

Definition NewAFTStreamSession (dutName : string) : AFTStreamSession :=
  {| Cache := newAFTCache dutName; start := 0; notifications := [];
     missingPrefixes := ∅; failingNHPrefixes := ∅; debugMode := false |}.

Definition WithDebug (ss : AFTStreamSession) : AFTStreamSession :=
  {| Cache := Cache ss; start := start ss; notifications := notifications ss;
     missingPrefixes := missingPrefixes ss; failingNHPrefixes := failingNHPrefixes ss;
     debugMode := true |}.

Definition sessionPrefix (ss : AFTStreamSession) : string :=
  "[" +:+ target (Cache ss) +:+ "-" +:+ Itoa (start ss) +:+ "]".

Definition set_missing (m : gset string) (ss : AFTStreamSession) : AFTStreamSession :=
  {| Cache := Cache ss; start := start ss; notifications := notifications ss;
     missingPrefixes := m; failingNHPrefixes := failingNHPrefixes ss; debugMode := debugMode ss |}.
Definition set_failing (m : gset string) (ss : AFTStreamSession) : AFTStreamSession :=
  {| Cache := Cache ss; start := start ss; notifications := notifications ss;
     missingPrefixes := missingPrefixes ss; failingNHPrefixes := m; debugMode := debugMode ss |}.
Definition set_start (t : Z) (ss : AFTStreamSession) : AFTStreamSession :=
  {| Cache := Cache ss; start := t; notifications := notifications ss;
     missingPrefixes := missingPrefixes ss; failingNHPrefixes := failingNHPrefixes ss; debugMode := debugMode ss |}.
Definition set_stream (c : aftCache) (l : list SubscribeResponse) (ss : AFTStreamSession) : AFTStreamSession :=
  {| Cache := c; start := start ss; notifications := l;
     missingPrefixes := missingPrefixes ss; failingNHPrefixes := failingNHPrefixes ss; debugMode := debugMode ss |}.

Definition Notifications (ss : AFTStreamSession) : list SubscribeResponse := notifications ss.
End Session.
Arguments aftCache C : clear implicits.
Arguments AFTStreamSession C : clear implicits.

(** * Lemmas on [ToAFT] *)

Section ToAFTFacts.
Context {C : Type} `{!GnmiCache C}.
Variable PTSP : schemaPathFn.
Variable S2SP : string -> go Path.

(** An invariant of the table that the three parsers preserve holds of what
    [ToAFT] builds. *)
Lemma ToAFT_inv (I : AFTData -> Prop) (c : aftCache C) ni a :
  I newAFT ->
  (forall a n a', I a -> prefixFunc PTSP a n = Ret a' -> I a') ->
  (forall a n a', I a -> nhgFunc PTSP a n = Ret a' -> I a') ->
  (forall a n a', I a -> nhFunc PTSP a n = Ret a' -> I a') ->
  ToAFT PTSP S2SP c ni = Ret a -> I a.
Proof.
  intros H0 Hp Hg Hn. unfold ToAFT. intros H. go_inv.
  eapply (foldM_inv _ I); [exact H0| |exact H].
  intros a1 kind a2 _ Ha1 Hk. eapply (foldM_inv _ I); [exact Ha1| |exact Hk].
  intros a3 path a4 _ Ha3 Ht. unfold traverse in Ht. go_inv.
  eapply (foldM_inv _ I); [exact Ha3| |exact Ht].
  intros a5 [n|] a6 _ Ha5 Hf; [|done]. unfold parserOf in Hf.
  repeat case_match; eauto.
Qed.

(** Every group of the table is as [parseNHG] builds them. *)
Definition wf_aft (a : AFTData) : Prop :=
  forall n g, NextHopGroups a !! n = Some g -> wf_nhg g.

Lemma nhgFunc_wf a n a' : wf_aft a -> nhgFunc PTSP a n = Ret a' -> wf_aft a'.
Proof.
  unfold nhgFunc. intros Hwf H.
  destruct (parseNHG PTSP n) as [[id g]|e| |] eqn:E; try done.
  - go_inv. intros m g'. simpl. rewrite lookup_insert. case_decide; [|apply Hwf].
    intros [= <-]. by eapply parseNHG_wf_nhg.
  - case_match; by go_inv.
Qed.

Lemma prefixFunc_groups a n a' : prefixFunc PTSP a n = Ret a' -> NextHopGroups a' = NextHopGroups a.
Proof. unfold prefixFunc. intros H. go_inv. match goal with x : _ * _ |- _ => destruct x end. by go_inv. Qed.

Lemma nhFunc_groups a n a' : nhFunc PTSP a n = Ret a' -> NextHopGroups a' = NextHopGroups a.
Proof. unfold nhFunc. intros H. repeat case_match; by go_inv. Qed.

Lemma ToAFT_groups (c : aftCache C) ni a : ToAFT PTSP S2SP c ni = Ret a -> wf_aft a.
Proof.
  apply (ToAFT_inv wf_aft).
  - intros n g Hn. cbn [NextHopGroups newAFT] in Hn. by rewrite lookup_empty in Hn.
  - intros a0 n a' Hwf H. unfold wf_aft. by erewrite prefixFunc_groups.
  - apply nhgFunc_wf.
  - intros a0 n a' Hwf H. unfold wf_aft. by erewrite nhFunc_groups.
Qed.

Lemma wf_aft_flat a : wf_aft a -> flat a.
Proof. intros H n g Hn. by apply (H n g Hn). Qed.
End ToAFTFacts.

(** * Properties *)

(** every table [ToAFT] extracts from a cache, whatever the device
    streamed, has only groups with distinct next hops, one weight per next hop
    and no conditionals. *)
Theorem ToAFT_wf `{GnmiCache C} PTSP S2SP (c : aftCache C) ni a :
  ToAFT PTSP S2SP c ni = Ret a -> wf_aft a.
Proof. apply ToAFT_groups. Qed.

(** On the tables of a session filtering is safe: a wanted prefix resolves
    in the filtered table as in the session's table. *)
Theorem ToAFT_filter_resolve `{GnmiCache C} PTSP S2SP (c : aftCache C) ni a w p dscp :
  ToAFT PTSP S2SP c ni = Ret a -> p ∈ w ->
  resolveRouteCBF (FilterByPrefixes a w) p dscp = resolveRouteCBF a p dscp.
Proof. intros Ha%ToAFT_groups Hp. apply FilterByPrefixes_flat; [by apply wf_aft_flat|done]. Qed.

(** * A concrete cache, for evaluation *)

(** The cache as the list of the notifications it was given; a query visits
    those whose prefix, rendered as a cache path, starts with the query. *)
Definition listCache := list Notification.

Fixpoint is_prefix (p l : list string) : bool :=
  match p, l with
  | [], _ => true
  | x :: p, y :: l => String.eqb x y && is_prefix p l
  | _ :: _, [] => false
  end.

Definition cachePath (n : Notification) : list string :=
  GetOrigin (n_prefix n) :: flat_map elemParts (GetElem (n_prefix n)).

#[export] Instance listCache_ops : GnmiCache listCache := {|
  cache_New _ := [];
  cache_GnmiUpdate c n :=
    if existsb (fun n' => bool_decide (cachePath n' = cachePath n) && (n_timestamp n <? n_timestamp n')%Z) c
    then (c, Some (Errorf "update is stale" [ErrStale]))
    else (c ++ [n], None);
  cache_Query c _ q := Ret (map LeafNotification (List.filter (fun n => is_prefix q (cachePath n)) c));
|}.

(** A parser of the paths that [subscriptionPaths] writes: [name[key=val]]. *)
Definition parseElem (s : string) : PathElem :=
  match IndexByte s "[" with
  | None => {| elem_name := s; elem_key := ∅ |}
  | Some i =>
      let inner := str_drop (S i) s in
      let kv := str_take (String.length inner - 1) inner in
      match IndexByte kv "=" with
      | None => {| elem_name := s; elem_key := ∅ |}
      | Some j => {| elem_name := str_take i s; elem_key := {[str_take j kv := str_drop (S j) kv]} |}
      end
  end.
Definition simpleStructuredPath (s : string) : go Path :=
  Ret {| path_origin := ""; path_target := ""; path_elem := map parseElem (split_on "/" s) |}.

Definition sampleStream : list Notification :=
  [prefixNotification "DEFAULT" "dut" 1 false "10.0.0.0/8" 5%N;
   nhgNotification "DEFAULT" "dut" 1 5%N [(7%N, 1%N); (8%N, 3%N)];
   nhNotification "DEFAULT" "dut" 1 7%N {| IntfName := "eth0"; IP := "192.0.2.1"; LSPName := "" |};
   nhNotification "DEFAULT" "dut" 1 8%N {| IntfName := "eth1"; IP := "192.0.2.5"; LSPName := "" |}].

Definition sampleCache : aftCache listCache := {| cache := sampleStream; target := "dut" |}.

Definition sampleAFT : AFTData := {|
  Prefixes := {["10.0.0.0/8" := 5%N]};
  NextHopGroups := {[5%N := {| NHIDs := [7%N; 8%N]; NHWeights := {[7%N := 1%N; 8%N := 3%N]}; Conditionals := [] |}]};
  NextHops := {[7%N := {| IntfName := "eth0"; IP := "192.0.2.1"; LSPName := "" |};
                8%N := {| IntfName := "eth1"; IP := "192.0.2.5"; LSPName := "" |}]} |}.

Lemma sample_ToAFT : ToAFT simpleSchemaPath simpleStructuredPath sampleCache "DEFAULT" = Ret sampleAFT.
Proof. vm_compute. reflexivity. Qed.

Lemma ToAFT_wf_witness : wf_aft sampleAFT.
Proof. exact (ToAFT_wf simpleSchemaPath simpleStructuredPath sampleCache "DEFAULT" sampleAFT sample_ToAFT). Defined.

Lemma ToAFT_filter_resolve_witness :
  resolveRouteCBF (FilterByPrefixes sampleAFT {["10.0.0.0/8"]}) "10.0.0.0/8" 0%N =
  Ret [{| IntfName := "eth0"; IP := "192.0.2.1"; LSPName := "" |};
       {| IntfName := "eth1"; IP := "192.0.2.5"; LSPName := "" |}].
Proof.
  rewrite (ToAFT_filter_resolve simpleSchemaPath simpleStructuredPath sampleCache "DEFAULT" sampleAFT
             {["10.0.0.0/8"]} "10.0.0.0/8" 0%N sample_ToAFT ltac:(set_solver)).
  vm_compute. reflexivity.
Defined.

(** The cache is queried at ["openconfig"] followed by each element's name
    and the values of its keys; the key's own name is not part of the path. *)
Theorem traversalPath_default :
  generateCacheTraversalPaths simpleStructuredPath (subscriptionPaths "DEFAULT") =
  Ret (<["prefix" := ["openconfig/network-instances/network-instance/DEFAULT/afts/ipv4-unicast/ipv4-entry";
                      "openconfig/network-instances/network-instance/DEFAULT/afts/ipv6-unicast/ipv6-entry"]]>
      (<["nhg" := ["openconfig/network-instances/network-instance/DEFAULT/afts/next-hop-groups/next-hop-group"]]>
      {["nh" := ["openconfig/network-instances/network-instance/DEFAULT/afts/next-hops/next-hop"]]})).
Proof. vm_compute. reflexivity. Qed.
