(* ===== verification/AftHooks.v ===== *)
(** The hooks and the event loop of an AFT streaming session
    ([internal/telemetry/aftcache/aft_cache.go]): the stopping conditions, the
    notification hooks, [listenUntil] and its public wrappers.

    Go ranges over the map of wanted prefixes in an unspecified order: the hooks
    take the keys as a duplicate-free list, in the order of the iteration, and
    the theorems hold for every order. *)
From stdpp Require Import base list gmap strings pretty.
From Stdlib Require Import ZArith Lia Ascii.
From S2P Require Import Prelude GoStrings Gnmi Aft AftParse AftSession.

Section Hooks.
Context {C : Type} `{!GnmiCache C}.
Variable PathToSchemaPath : schemaPathFn.
Variable StringToStructuredPath : string -> go Path.
Variable defaultNetworkInstance : string.

Abbreviation session := (AFTStreamSession C).

(** [ss.ToAFT(t, dut)]. *)
Definition sessionAFT (ss : session) : go AFTData :=
  ToAFT PathToSchemaPath StringToStructuredPath (Cache ss) defaultNetworkInstance.

(** * Hook types

    A periodic hook may keep state between its runs (a captured variable) and
    change the session. *)
Record NotificationHook := {
  nh_Description : string;
  NotificationFunc : aftCache C -> SubscribeResponse -> option error;
}.
Record PeriodicHook (HS : Type) := {
  ph_Description : string;
  PeriodicFunc : HS -> session -> go bool * HS * session;
}.
Arguments ph_Description {HS}.
Arguments PeriodicFunc {HS}.

Definition loggingPeriodicHook {HS} : PeriodicHook HS :=
  {| ph_Description := "Log stream stats";
     PeriodicFunc := fun hs ss => (Ret false, hs, ss) |}.

(** * Stopping conditions *)

Definition DeletionStoppingCondition {HS} (wantDeletePrefixes : gset string) : PeriodicHook HS :=
  {| ph_Description := "Route delete stopping condition";
     PeriodicFunc := fun hs ss =>
       match sessionAFT ss with
       | Ret a =>
           let nRem := length (filter (fun p => p ∈ wantDeletePrefixes) (map_to_list (Prefixes a)).*1) in
           if 0 <? nRem then (Ret false, hs, ss) else (Ret true, hs, ss)
       | Fail e => (Fail e, hs, ss)
       | Panic => (Panic, hs, ss)
       | NoFuel => (NoFuel, hs, ss)
       end |}.

Definition nhFailLimit : nat := 20.

(** The set of next-hop addresses a resolution yields, as the Go map [got]. *)
Definition gotIPs (nhs : list aftNextHop) : gmap string bool :=
  foldl (fun got r => <[IP r := true]> got) ∅ nhs.

(** The loop over the wanted prefixes that checks next hops: [nCorrect] and
    [ss.failingNHPrefixes], and the error of an early return.  The wanted
    address sets may be nil maps ([None]), which [cmp.Diff] tells from the empty
    map [got] starts as. *)
Fixpoint checkNextHops (a : AFTData) (wantIPV4NHs wantIPV6NHs : option (gmap string bool))
    (ps : list string) (nCorrect : nat) (failing : gset string) : nat * gset string * go unit :=
  match ps with
  | [] => (nCorrect, failing, Ret tt)
  | p :: ps =>
      let check got :=
        let want := if Contains p ":" then wantIPV6NHs else wantIPV4NHs in
        if bool_decide (want = Some got)
        then checkNextHops a wantIPV4NHs wantIPV6NHs ps (S nCorrect) failing
        else checkNextHops a wantIPV4NHs wantIPV6NHs ps nCorrect ({[p]} ∪ failing) in
      match resolveRoute a p with
      | Ret resolved => check (gotIPs resolved)
      | Fail err =>
          if errors_Is err ErrNotExist then check ∅
          else (nCorrect, failing, Fail (Errorf "error resolving next hops" (err_wraps err)))
      | Panic => (nCorrect, failing, Panic)
      | NoFuel => (nCorrect, failing, NoFuel)
      end
  end.

(** [InitialSyncStoppingCondition]; the hook state is the captured [nhFailCount]. *)
Definition initialSync (wantPrefixes : list string)
    (wantIPV4NHs wantIPV6NHs : option (gmap string bool)) (nhFailCount : nat) (ss : session) :
    go bool * nat * session :=
  match sessionAFT ss with
  | Ret a =>
      let missing := filter (fun p => p ∉ dom (Prefixes a)) wantPrefixes in
      let nGot := length (filter (fun p => p ∈ dom (Prefixes a)) wantPrefixes) in
      let ss := set_missing (list_to_set missing) ss in
      if nGot <? length wantPrefixes then (Ret false, nhFailCount, ss)
      else
        let ss := set_missing ∅ ss in
        let '(nCorrect, failing, err) := checkNextHops a wantIPV4NHs wantIPV6NHs wantPrefixes 0 ∅ in
        let ss := set_failing failing ss in
        match err with
        | Ret _ =>
            if negb (nCorrect =? length wantPrefixes) then
              let nhFailCount := S nhFailCount in
              if nhFailCount =? nhFailLimit
              then (Fail (errors_New "after 20 tries, next hop validation still fails"), nhFailCount, ss)
              else (Ret false, nhFailCount, ss)
            else (Ret true, nhFailCount, set_failing ∅ ss)
        | Fail e => (Fail e, nhFailCount, ss)
        | Panic => (Panic, nhFailCount, ss)
        | NoFuel => (NoFuel, nhFailCount, ss)
        end
  | Fail e => (Fail e, nhFailCount, ss)
  | Panic => (Panic, nhFailCount, ss)
  | NoFuel => (NoFuel, nhFailCount, ss)
  end.

Definition InitialSyncStoppingCondition (wantPrefixes : list string)
    (wantIPV4NHs wantIPV6NHs : option (gmap string bool)) : PeriodicHook nat :=
  {| ph_Description := "Initial sync stopping condition";
     PeriodicFunc := initialSync wantPrefixes wantIPV4NHs wantIPV6NHs |}.

(** The loop of [AssertNextHopCount] over the wanted prefixes: [None] when it is
    left by [return false, nil]. *)
Fixpoint countNextHops (a : AFTData) (wantNHCount : nat) (ps : list string) (nCorrect : nat) :
    go (option nat) :=
  match ps with
  | [] => Ret (Some nCorrect)
  | p :: ps =>
      match resolveRoute a p with
      | Ret resolved =>
          if negb (length resolved =? wantNHCount) then Ret None
          else countNextHops a wantNHCount ps (S nCorrect)
      | Fail err =>
          if errors_Is err ErrNotExist then countNextHops a wantNHCount ps nCorrect
          else Fail (Errorf "error resolving next hops" (err_wraps err))
      | Panic => Panic
      | NoFuel => NoFuel
      end
  end.

Definition assertNextHopCount (wantPrefixes : list string) (wantNHCount : nat) (ss : session) : go bool :=
  a ← sessionAFT ss;
  let nGot := length (filter (fun p => p ∈ dom (Prefixes a)) wantPrefixes) in
  if nGot <? length wantPrefixes then Ret false
  else
    r ← countNextHops a wantNHCount wantPrefixes 0;
    match r with
    | None => Ret false
    | Some nCorrect => Ret (nCorrect =? length wantPrefixes)
    end.

Definition AssertNextHopCount {HS} (wantPrefixes : list string) (wantNHCount : nat) : PeriodicHook HS :=
  {| ph_Description := "Assert next hop count";
     PeriodicFunc := fun hs ss => (assertNextHopCount wantPrefixes wantNHCount ss, hs, ss) |}.

(** * Notification hooks *)

Definition VerifyAtomicFlagHook : NotificationHook :=
  {| nh_Description := "Atomic update hook";
     NotificationFunc := fun _ n =>
       match GetUpdate n with
       | None => None
       | Some u =>
           let atomicFlag := n_atomic u in
           match n_delete u with
           | _ :: _ =>
               if atomicFlag then Some (errors_New "atomic flag is set to true for delete operation")
               else None
           | [] => if negb atomicFlag then Some (errors_New "atomic flag is not set to true") else None
           end
       end |}.

(** [hasUpdateNotification] and [hasDeleteNotification]: the prefix is a key
    value of some element of an updated, or deleted, path. *)
Definition keyMatches (prefix : string) (es : list PathElem) : bool :=
  existsb (fun e => existsb (String.eqb prefix) (map_to_list (elem_key e)).*2) es.
Definition hasUpdateNotification (u : Notification) (prefix : string) : bool :=
  existsb (fun upd => keyMatches prefix (GetElem (upd_path upd))) (n_update u).
Definition hasDeleteNotification (u : Notification) (prefix : string) : bool :=
  existsb (fun del => keyMatches prefix (path_elem del)) (n_delete u).

Record notificationMatch := { updateFound : bool; deleteFound : bool }.
Record NotificationExpectation := { AddPrefix : string; DeletePrefix : string; NotificationWait : Z }.

(** The loop of [WaitForNotification] over the stored notifications. *)
Fixpoint scanNotifications (cfg : NotificationExpectation) (m : notificationMatch)
    (l : list SubscribeResponse) : bool :=
  match l with
  | [] => false
  | resp :: l =>
      match GetUpdate resp with
      | None => scanNotifications cfg m l
      | Some update =>
          let u := updateFound m || hasUpdateNotification update (AddPrefix cfg) in
          let d := deleteFound m || hasDeleteNotification update (DeletePrefix cfg) in
          if u && d then true
          else scanNotifications cfg {| updateFound := u; deleteFound := d |} l
      end
  end.

(** [elapsed] is [time.Since(start)], with [start] the time the hook was made. *)
Definition waitForNotification (cfg : NotificationExpectation) (elapsed : Z) (ss : session) : go bool :=
  let m := {| updateFound := String.eqb (AddPrefix cfg) ""; deleteFound := String.eqb (DeletePrefix cfg) "" |} in
  if scanNotifications cfg m (Notifications ss) then Ret true
  else if (elapsed >? NotificationWait cfg)%Z then Fail (errors_New "timed out waiting")
  else Ret false.

(** The hook, with the clock as the hook state. *)
Definition WaitForNotification (cfg : NotificationExpectation) (created : Z) : PeriodicHook Z :=
  {| ph_Description := "Wait for notification";
     PeriodicFunc := fun now ss => (waitForNotification cfg (now - created) ss, now, ss) |}.

(** * The event loop *)

(** [periodicInterval] and [periodicDeadline], in nanoseconds. *)
Definition second : Z := 1000000000.
Definition periodicInterval : Z := 2 * 60 * second.
Definition periodicDeadline : Z := 60 * second + 45 * second.

(** What the [select] receives: a response or an error of the stream, a tick of
    the ticker (with the time its hooks take), or the end of the context. *)
Inductive event :=
| EvResp (r : SubscribeResponse)
| EvStreamErr (e : error)
| EvTick (elapsed : Z)
| EvDone.

Inductive status := Running | Returned | Fatal (msg : string).

Section Loop.
Context {HS : Type}.
Variables (preUpdateHooks : list NotificationHook) (periodicHooks : list (PeriodicHook HS)).

Fixpoint runNotificationHooks (hs : list NotificationHook) (c : aftCache C) (r : SubscribeResponse) : option error :=
  match hs with
  | [] => None
  | h :: hs =>
      match NotificationFunc h c r with
      | Some e => Some e
      | None => runNotificationHooks hs c r
      end
  end.

(** The loop over the periodic hooks: [Running] when none is done. *)
Fixpoint runPeriodicHooks (phs : list (PeriodicHook HS)) (hs : HS) (ss : session) : HS * session * status :=
  match phs with
  | [] => (hs, ss, Running)
  | h :: phs =>
      let '(r, hs, ss) := PeriodicFunc h hs ss in
      match r with
      | Ret true => (hs, ss, Returned)
      | Ret false => runPeriodicHooks phs hs ss
      | Fail e => (hs, ss, Fatal "error in PeriodicHook")
      | _ => (hs, ss, Fatal "panic")
      end
  end.

(** Storing a response: the stored message is the one [addAFTNotification]
    fills in. *)
Definition handleResponse (hs : HS) (ss : session) (r : SubscribeResponse) : HS * session * status :=
  let stored n := if debugMode ss then notifications ss ++ [n] else notifications ss in
  match runNotificationHooks preUpdateHooks (Cache ss) r with
  | Some _ => (hs, set_stream (Cache ss) (stored r) ss, Fatal "error in notificationHook")
  | None =>
      let '(c, r', err) := addAFTNotification (Cache ss) r in
      let ss := set_stream c (stored r') ss in
      match err with
      | None => (hs, ss, Running)
      | Some e => if errors_Is e ErrStale then (hs, ss, Running)
                  else (hs, ss, Fatal "error updating AFT cache")
      end
  end.

Definition listenStep (hs : HS) (ss : session) (ev : event) : HS * session * status :=
  match ev with
  | EvResp r => handleResponse hs ss r
  | EvStreamErr _ => (hs, ss, Fatal "error from gNMI stream")
  | EvTick elapsed =>
      match runPeriodicHooks periodicHooks hs ss with
      | (hs, ss, Running) =>
          if (elapsed >? periodicDeadline)%Z
          then (hs, ss, Fatal "periodic hooks exceeded deadline") else (hs, ss, Running)
      | r => r
      end
  | EvDone => (hs, ss, Fatal "context cancelled")
  end.

(** The [for { select { ... } }] loop over a finite stream of events. *)
Fixpoint listenUntil (hs : HS) (ss : session) (evs : list event) : HS * session * status :=
  match evs with
  | [] => (hs, ss, Running)
  | ev :: evs =>
      match listenStep hs ss ev with
      | (hs, ss, Running) => listenUntil hs ss evs
      | r => r
      end
  end.
End Loop.

(** [loggingFinal] forgets the stored notifications once they are written. *)
Definition loggingFinal (ss : session) : session := set_stream (Cache ss) [] ss.

Definition ListenUntilPreUpdateHook {HS} (now : Z) (preUpdateHooks : list NotificationHook)
    (stoppingCondition : PeriodicHook HS) (hs : HS) (ss : session) (evs : list event) : HS * session * status :=
  let ss := set_start now ss in
  let phs := [loggingPeriodicHook; stoppingCondition] in
  let '(hs, ss, st) := listenUntil preUpdateHooks phs hs ss evs in
  (hs, loggingFinal ss, st).

Definition ListenUntil {HS} (now : Z) (stoppingCondition : PeriodicHook HS) (hs : HS) (ss : session)
    (evs : list event) : HS * session * status :=
  ListenUntilPreUpdateHook now [] stoppingCondition hs ss evs.
End Hooks.
Arguments NotificationHook C : clear implicits.
Arguments PeriodicHook C HS : clear implicits.
Arguments ph_Description {C HS}.
Arguments PeriodicFunc {C HS}.

(** * Specification of the stopping conditions *)

(** The addresses wanted for a prefix: the IPv6 set when the prefix has a colon. *)
Definition wantFor (w4 w6 : option (gmap string bool)) (p : string) : option (gmap string bool) :=
  if Contains p ":" then w6 else w4.

(** What the next-hop check sees of a prefix: the addresses it resolves to, none
    when a reference is missing, and [None] when resolution fails otherwise. *)
Definition seenIPs (a : AFTData) (p : string) : option (gmap string bool) :=
  match resolveRoute a p with
  | Ret nhs => Some (gotIPs nhs)
  | Fail e => if errors_Is e ErrNotExist then Some ∅ else None
  | _ => None
  end.

(** The prefix's next hops are the wanted ones. *)
Definition nhOK (a : AFTData) (w4 w6 : option (gmap string bool)) (p : string) : Prop :=
  exists ips, seenIPs a p = Some ips /\ wantFor w4 w6 p = Some ips.

#[export] Instance nhOK_dec a w4 w6 p : Decision (nhOK a w4 w6 p).
Proof.
  destruct (seenIPs a p) as [ips|] eqn:E.
  - destruct (decide (wantFor w4 w6 p = Some ips)) as [H|H].
    + left. exists ips. eauto.
    + right. intros (ips' & ? & ?). naive_solver.
  - right. intros (? & ? & _). naive_solver.
Defined.

(** No prefix of the list fails to resolve for another reason than a missing
    reference. *)
Definition resolvable (a : AFTData) (ps : list string) : Prop :=
  forall p, p ∈ ps -> seenIPs a p <> None.

(** * Lemmas *)

Lemma gotIPs_elem nhs ip :
  gotIPs nhs !! ip = if bool_decide (ip ∈ IP <$> nhs) then Some true else None.
Proof.
  unfold gotIPs. induction nhs as [|nh nhs IH] using rev_ind; [done|].
  rewrite foldl_snoc, lookup_insert, fmap_app.
  destruct (decide (IP nh = ip)) as [<-|Hne].
  - rewrite bool_decide_eq_true_2; [done|]. apply elem_of_app. right. simpl. by left.
  - rewrite IH. erewrite (bool_decide_ext (ip ∈ (IP <$> nhs) ++ _)); [done|].
    rewrite elem_of_app. simpl. rewrite elem_of_cons, elem_of_nil.
    split; [|by left]. intros [?|[Heq|Hin]]; [done| |done]. by destruct Hne.
Qed.

Lemma resolveRoute_finishes a p : finishes (resolveRoute a p).
Proof.
  unfold resolveRoute. destruct (resolveRouteCBF_returns a p 0%N) as [[nhs ->]|[e ->]]; done.
Qed.

Lemma checkNextHops_ok a w4 w6 ps n f :
  resolvable a ps ->
  checkNextHops a w4 w6 ps n f =
  (n + length (filter (nhOK a w4 w6) ps),
   list_to_set (filter (fun p => ~ nhOK a w4 w6 p) ps) ∪ f, Ret tt).
Proof.
  revert n f. induction ps as [|p ps IH]; intros n f Hr; simpl.
  { by rewrite Nat.add_0_r, union_empty_l_L. }
  assert (resolvable a ps) as Hr' by (intros q Hq; apply Hr; set_solver).
  assert (seenIPs a p <> None) as Hp by (apply Hr; set_solver).
  rewrite !filter_cons.
  assert (forall ips, seenIPs a p = Some ips ->
    (if bool_decide ((if Contains p ":" then w6 else w4) = Some ips)
     then checkNextHops a w4 w6 ps (S n) f else checkNextHops a w4 w6 ps n ({[p]} ∪ f)) =
    (n + length (if decide (nhOK a w4 w6 p) then p :: filter (nhOK a w4 w6) ps else filter (nhOK a w4 w6) ps),
     list_to_set (if decide (~ nhOK a w4 w6 p) then p :: filter (fun p => ~ nhOK a w4 w6 p) ps
                  else filter (fun p => ~ nhOK a w4 w6 p) ps) ∪ f, Ret tt)) as Hgen.
  { intros ips Hips. case_bool_decide as Hw.
    - assert (nhOK a w4 w6 p) by (exists ips; eauto).
      rewrite decide_True by done. rewrite decide_False by (intros ?; done).
      rewrite IH by done. simpl. repeat f_equal. lia.
    - assert (~ nhOK a w4 w6 p) by (intros (ips' & ? & ?); unfold wantFor in *; naive_solver).
      rewrite decide_False by done. rewrite decide_True by done.
      rewrite IH by done. simpl. f_equal. f_equal.
      rewrite (union_assoc_L _ {[p]} f), (union_comm_L _ {[p]}). done. }
  unfold seenIPs in Hp, Hgen. destruct (resolveRoute a p) as [nhs|e| |] eqn:E; try done.
  - by apply Hgen.
  - destruct (errors_Is e ErrNotExist) eqn:Hne; [|done]. by apply Hgen.
Qed.

Lemma checkNextHops_hard a w4 w6 ps n f :
  ~ resolvable a ps -> exists r e, checkNextHops a w4 w6 ps n f = (r, Fail e).
Proof.
  revert n f. induction ps as [|p ps IH]; intros n f Hr; simpl.
  { exfalso. apply Hr. intros p Hp. set_solver. }
  pose proof (resolveRoute_finishes a p) as Hfin.
  destruct (seenIPs a p) as [ips|] eqn:Hs.
  - assert (~ resolvable a ps) as Hr'.
    { intros H. apply Hr. intros q [->|Hq]%elem_of_cons; [congruence|by apply H]. }
    unfold seenIPs in Hs. destruct (resolveRoute a p) as [nhs|e| |]; try done.
    + case_bool_decide; by apply IH.
    + destruct (errors_Is e ErrNotExist); [|done]. case_bool_decide; by apply IH.
  - unfold seenIPs in Hs. destruct (resolveRoute a p) as [nhs|e| |]; try done.
    destruct (errors_Is e ErrNotExist); [done|]. by eexists _, _.
Qed.

Lemma length_filter_all {A} (P : A -> Prop) `{forall x, Decision (P x)} (l : list A) :
  length (filter P l) = length l <-> Forall P l.
Proof.
  induction l as [|x l IH]; [by split; constructor|]. rewrite filter_cons, Forall_cons.
  pose proof (length_filter P l). case_decide; simpl; [|split; [lia|naive_solver]].
  rewrite <- IH. split; [|intros [_ ->]; done]. intros [= ?]. done.
Qed.

Lemma filter_not_nil {A} (P : A -> Prop) `{forall x, Decision (P x)} (l : list A) :
  filter (fun x => ~ P x) l = [] <-> Forall P l.
Proof.
  induction l as [|x l IH]; [by split; constructor|]. rewrite filter_cons, Forall_cons.
  destruct (decide (~ P x)) as [Hx|Hx]; [by split; [|intros [? _]]|].
  apply dec_stable in Hx. naive_solver.
Qed.

Lemma filter_all_lt {A} (P : A -> Prop) `{forall x, Decision (P x)} (l : list A) :
  (length (filter P l) <? length l) = negb (bool_decide (Forall P l)).
Proof.
  pose proof (length_filter P l). case_bool_decide as Hf; simpl.
  - apply (length_filter_all P l) in Hf. apply Nat.ltb_ge. lia.
  - apply Nat.ltb_lt. assert (length (filter P l) <> length l) by (by rewrite (length_filter_all P l)). lia.
Qed.


#[local] Opaque sessionAFT.

(** What a run of [initialSync] over a session table does, branch by branch. *)
Section InitialSyncFacts.
Context {C : Type} `{!GnmiCache C}.
Variables (PTSP : schemaPathFn) (S2SP : string -> go Path) (ni : string).
Variables (ps : list string) (w4 w6 : option (gmap string bool)).
Implicit Types ss : AFTStreamSession C.

(** The prefixes all have arrived with the wanted next hops. *)
Definition synced (a : AFTData) : Prop :=
  Forall (fun p => p ∈ dom (Prefixes a)) ps /\ Forall (nhOK a w4 w6) ps.

Lemma limit_outcome n (err : error) :
  let r := if S n =? nhFailLimit then Fail err else Ret false in
  ((exists e, r = Fail e) <-> S n = 20) /\ (r = Ret false <-> S n <> 20).
Proof.
  unfold nhFailLimit. cbv zeta. destruct (Nat.eqb_spec (S n) 20) as [Heq|Hne].
  - split; split; [done|intros _; by exists err|discriminate|by intros []].
  - split; split; [intros [e ?]; discriminate|done|done|done].
Qed.

Lemma nhOK_resolvable a : Forall (nhOK a w4 w6) ps -> resolvable a ps.
Proof. rewrite Forall_forall. intros H p Hp. destruct (H p Hp) as (ips & -> & _). done. Qed.

Lemma synced_perm ps' a : ps ≡ₚ ps' -> synced a ->
  Forall (fun p => p ∈ dom (Prefixes a)) ps' /\ Forall (nhOK a w4 w6) ps'.
Proof.
  intros Hp [Hd Hn]. rewrite Forall_forall in Hd, Hn.
  split; apply Forall_forall; intros p; rewrite <- Hp; auto.
Qed.

Lemma initialSync_missing n ss a :
  sessionAFT PTSP S2SP ni ss = Ret a -> ~ Forall (fun p => p ∈ dom (Prefixes a)) ps ->
  initialSync PTSP S2SP ni ps w4 w6 n ss =
  (Ret false, n, set_missing (list_to_set (filter (fun p => p ∉ dom (Prefixes a)) ps)) ss).
Proof.
  intros Ha Hm. unfold initialSync. rewrite Ha. rewrite filter_all_lt.
  by rewrite bool_decide_eq_false_2.
Qed.

Lemma initialSync_checked n ss a :
  sessionAFT PTSP S2SP ni ss = Ret a -> Forall (fun p => p ∈ dom (Prefixes a)) ps ->
  resolvable a ps ->
  initialSync PTSP S2SP ni ps w4 w6 n ss =
  if bool_decide (Forall (nhOK a w4 w6) ps)
  then (Ret true, n, set_failing ∅ (set_missing ∅ ss))
  else (if S n =? nhFailLimit
        then Fail (errors_New "after 20 tries, next hop validation still fails") else Ret false, S n,
        set_failing (list_to_set (filter (fun p => ~ nhOK a w4 w6 p) ps)) (set_missing ∅ ss)).
Proof.
  intros Ha Hm Hr. unfold initialSync. rewrite Ha, filter_all_lt.
  rewrite bool_decide_eq_true_2 by done. simpl. rewrite checkNextHops_ok by done. simpl.
  rewrite !union_empty_r_L. pose proof (length_filter_all (nhOK a w4 w6) ps) as Hl.
  case_bool_decide as Hf.
  - rewrite (proj2 (Nat.eqb_eq _ _)) by (by apply Hl). done.
  - rewrite (proj2 (Nat.eqb_neq _ _)) by (intros ?; apply Hf, Hl; done).
    simpl. by destruct (n =? 19).
Qed.

Lemma initialSync_hard n ss a :
  sessionAFT PTSP S2SP ni ss = Ret a -> Forall (fun p => p ∈ dom (Prefixes a)) ps ->
  ~ resolvable a ps ->
  exists e ss', initialSync PTSP S2SP ni ps w4 w6 n ss = (Fail e, n, ss').
Proof.
  intros Ha Hm Hr. unfold initialSync. rewrite Ha, filter_all_lt.
  rewrite bool_decide_eq_true_2 by done. simpl.
  destruct (checkNextHops_hard a w4 w6 ps 0 ∅ Hr) as ([nc f] & e & ->). by eexists _, _.
Qed.

Lemma initialSync_cache n ss : Cache (initialSync PTSP S2SP ni ps w4 w6 n ss).2 = Cache ss.
Proof.
  unfold initialSync. destruct (sessionAFT PTSP S2SP ni ss); try done.
  case_match; [done|]. destruct (checkNextHops _ _ _ _ _ _) as [[nc f] []]; try done.
  repeat case_match; done.
Qed.
End InitialSyncFacts.

(** ** The event loop *)

Section LoopFacts.
Context {C : Type} `{!GnmiCache C} {HS : Type}.
Variables (pre : list (NotificationHook C)) (phs : list (PeriodicHook C HS)).

(** The cache after the responses of a list of events, in order. *)
Definition feed (c : aftCache C) (evs : list event) : aftCache C :=
  foldl (fun c ev => match ev with EvResp r => (addAFTNotification c r).1.1 | _ => c end) c evs.

(** A periodic hook that reads the cache and does not write it. *)
Definition cacheStable (h : PeriodicHook C HS) : Prop :=
  forall hs ss, Cache (PeriodicFunc h hs ss).2 = Cache ss.

Lemma runPeriodicHooks_cache (l : list (PeriodicHook C HS)) hs ss :
  Forall cacheStable l -> Cache (runPeriodicHooks l hs ss).1.2 = Cache ss.
Proof.
  intros Hl. revert hs ss. induction Hl as [|h l Hh _ IH]; intros hs ss; simpl; [done|].
  specialize (Hh hs ss). destruct (PeriodicFunc h hs ss) as [[r hs'] ss']; simpl in *.
  destruct r as [[]|e| |]; simpl; try done. by rewrite IH.
Qed.

Lemma listenStep_running hs ss ev hs' ss' :
  Forall cacheStable phs ->
  listenStep pre phs hs ss ev = (hs', ss', Running) -> Cache ss' = feed (Cache ss) [ev].
Proof.
  intros Hst H. destruct ev as [r|e|el|]; simpl in *; try done.
  - unfold handleResponse in H. destruct (runNotificationHooks _ _ _); [done|].
    destruct (addAFTNotification _ _) as [[c r'] err]. destruct err as [e|]; [destruct (errors_Is _ _)|]; by simplify_eq.
  - pose proof (runPeriodicHooks_cache phs hs ss Hst) as Hc.
    destruct (runPeriodicHooks phs hs ss) as [[hs1 ss1] []]; try done.
    destruct (el >? periodicDeadline)%Z; by simplify_eq/=.
Qed.

Lemma listenUntil_returned hs ss evs hs' ss' :
  Forall cacheStable phs ->
  listenUntil pre phs hs ss evs = (hs', ss', Returned) ->
  exists evs1 t evs2 hs1 ss1, evs = evs1 ++ EvTick t :: evs2 /\
    listenUntil pre phs hs ss evs1 = (hs1, ss1, Running) /\
    Cache ss1 = feed (Cache ss) evs1 /\
    runPeriodicHooks phs hs1 ss1 = (hs', ss', Returned).
Proof.
  intros Hst. revert hs ss. induction evs as [|ev evs IH]; intros hs ss H; simpl in H; [done|].
  destruct (listenStep pre phs hs ss ev) as [[hs1 ss1] st] eqn:Hs.
  destruct st; [| |done].
  - destruct (IH _ _ H) as (evs1 & t & evs2 & hs2 & ss2 & -> & Hl & Hc & Hr).
    exists (ev :: evs1), t, evs2, hs2, ss2. simpl. rewrite Hs.
    apply listenStep_running in Hs; [|done]. rewrite Hc, Hs. by destruct ev.
  - simplify_eq. destruct ev as [r|e|el|]; simpl in Hs; try done.
    + unfold handleResponse in Hs. repeat (case_match; simplify_eq/=); done.
    + exists [], el, evs, hs, ss. split_and!; try done.
      destruct (runPeriodicHooks phs hs ss) as [[hs1 ss1] []]; try done.
      destruct (el >? periodicDeadline)%Z; by simplify_eq/=.
Qed.

Lemma listenUntil_app hs ss evs1 evs2 hs1 ss1 :
  listenUntil pre phs hs ss evs1 = (hs1, ss1, Running) ->
  listenUntil pre phs hs ss (evs1 ++ evs2) = listenUntil pre phs hs1 ss1 evs2.
Proof.
  revert hs ss. induction evs1 as [|ev evs1 IH]; intros hs ss H; simpl in *; [by simplify_eq|].
  destruct (listenStep pre phs hs ss ev) as [[hs2 ss2] []]; try done. by apply IH.
Qed.
End LoopFacts.

(** * Properties *)

Section Properties.
Context {C : Type} `{!GnmiCache C}.
Variables (PTSP : schemaPathFn) (S2SP : string -> go Path) (ni : string).
Implicit Types ss : AFTStreamSession C.

Lemma initialSync_true ps w4 w6 n ss :
  (initialSync PTSP S2SP ni ps w4 w6 n ss).1.1 = Ret true <->
  exists a, sessionAFT PTSP S2SP ni ss = Ret a /\ synced ps w4 w6 a.
Proof.
  destruct (sessionAFT PTSP S2SP ni ss) as [a|e| |] eqn:Ha;
    [|unfold initialSync; rewrite Ha; split; [done|by intros (? & ? & _)]..].
  enough ((initialSync PTSP S2SP ni ps w4 w6 n ss).1.1 = Ret true <-> synced ps w4 w6 a) as Hiff.
  { split; [intros Ht; exists a; split; [reflexivity|by apply Hiff]|].
    intros (a' & Heq & Hs). injection Heq as <-. by apply Hiff. }
  unfold synced. destruct (decide (Forall (fun p => p ∈ dom (Prefixes a)) ps)) as [Hd|Hd].
  2:{ rewrite (initialSync_missing PTSP S2SP ni ps w4 w6 n ss a Ha Hd).
      cbn [fst]. split; [discriminate|intros [Hx _]; contradiction]. }
  destruct (decide (Forall (nhOK a w4 w6) ps)) as [Hn|Hn].
  - rewrite (initialSync_checked PTSP S2SP ni ps w4 w6 n ss a Ha Hd (nhOK_resolvable ps w4 w6 a Hn)).
    rewrite bool_decide_eq_true_2 by exact Hn. cbn [fst]. split; [intros _; by split|reflexivity].
  - split; [|intros [_ Hx]; contradiction]. intros H.
    assert (resolvable a ps \/ ~ resolvable a ps) as [Hr|Hr].
    { unfold resolvable.
      destruct (decide (Forall (fun p => seenIPs a p <> None) ps)) as [Hf|Hf]; rewrite Forall_forall in Hf; auto. }
    + rewrite (initialSync_checked PTSP S2SP ni ps w4 w6 n ss a Ha Hd Hr) in H.
      rewrite bool_decide_eq_false_2 in H by done. cbn [fst] in H.
      destruct (S n =? nhFailLimit); discriminate.
    + destruct (initialSync_hard PTSP S2SP ni ps w4 w6 n ss a Ha Hd Hr) as (e & ss' & Hh).
      rewrite Hh in H. cbn [fst] in H. discriminate H.
Qed.

(** The session after a finished wait for the initial sync. *)
Lemma initialSync_done ps w4 w6 n ss n' ss' :
  initialSync PTSP S2SP ni ps w4 w6 n ss = (Ret true, n', ss') ->
  n' = n /\ ss' = set_failing ∅ (set_missing ∅ ss).
Proof.
  intros H. assert ((initialSync PTSP S2SP ni ps w4 w6 n ss).1.1 = Ret true) as Ht by (rewrite H; reflexivity).
  apply initialSync_true in Ht as (a & Ha & Hd & Hn).
  rewrite (initialSync_checked PTSP S2SP ni ps w4 w6 n ss a Ha Hd (nhOK_resolvable ps w4 w6 a Hn)) in H.
  rewrite bool_decide_eq_true_2 in H by exact Hn. injection H as <- <-. split; reflexivity.
Qed.

Lemma sessionAFT_cache ss ss' :
  Cache ss = Cache ss' -> sessionAFT PTSP S2SP ni ss = sessionAFT PTSP S2SP ni ss'.
Proof. intros H. with_strategy transparent [sessionAFT] unfold sessionAFT. by rewrite H. Qed.

(** The periodic hooks of [ListenUntil]. *)
Abbreviation syncHooks ps w4 w6 :=
  [loggingPeriodicHook; InitialSyncStoppingCondition (C := C) PTSP S2SP ni ps w4 w6].

Lemma syncHooks_stable ps w4 w6 : Forall cacheStable (syncHooks ps w4 w6).
Proof.
  apply Forall_cons; split; [intros hs ss; reflexivity|].
  apply Forall_singleton. intros hs ss. apply initialSync_cache.
Qed.

(** One tick of a session whose stopping condition is the initial sync. *)
Lemma syncHooks_run ps w4 w6 n ss :
  runPeriodicHooks (syncHooks ps w4 w6) n ss =
  let r := initialSync PTSP S2SP ni ps w4 w6 n ss in
  (r.1.2, r.2, match r.1.1 with
               | Ret true => Returned | Ret false => Running
               | Fail _ => Fatal "error in PeriodicHook" | _ => Fatal "panic" end).
Proof.
  simpl. destruct (initialSync PTSP S2SP ni ps w4 w6 n ss) as [[[[]|e| |] n'] ss']; reflexivity.
Qed.

(** Ticks on a table with all prefixes and wrong next hops count up to the limit. *)
Lemma mismatch_ticks ps w4 w6 a k : forall n ss,
  sessionAFT PTSP S2SP ni ss = Ret a -> Forall (fun p => p ∈ dom (Prefixes a)) ps ->
  resolvable a ps -> ~ Forall (nhOK a w4 w6) ps -> n + S k <= nhFailLimit ->
  exists ss', Cache ss' = Cache ss /\
    listenUntil [] (syncHooks ps w4 w6) n ss (replicate (S k) (EvTick 0)) =
    (n + S k, ss', if (n + S k =? nhFailLimit)%nat then Fatal "error in PeriodicHook" else Running).
Proof.
  induction k as [|k IH]; intros n ss Ha Hd Hr Hn Hle;
    pose proof (syncHooks_run ps w4 w6 n ss) as Hrun;
    rewrite (initialSync_checked PTSP S2SP ni ps w4 w6 n ss a Ha Hd Hr) in Hrun;
    rewrite bool_decide_eq_false_2 in Hrun by exact Hn.
  - cbn [replicate listenUntil listenStep]. rewrite Hrun.
    eexists (set_failing _ _). split; [|replace (n + 1) with (S n) by lia; destruct (S n =? nhFailLimit); reflexivity].
    reflexivity.
  - change (replicate (S (S k)) (EvTick 0)) with (EvTick 0 :: replicate (S k) (EvTick 0)).
    cbn [listenUntil listenStep]. rewrite Hrun.
    assert ((S n =? nhFailLimit) = false) as -> by (apply Nat.eqb_neq; lia).
    cbn [fst snd]. change (0 >? periodicDeadline)%Z with false. cbv iota.
    destruct (IH (S n) (set_failing (list_to_set (filter (fun p => ~ nhOK a w4 w6 p) ps)) (set_missing ∅ ss)))
      as (ss' & Hc & Hl);
      [rewrite <- Ha; by apply sessionAFT_cache|assumption..|lia|].
    exists ss'. split; [exact Hc|]. rewrite Hl. replace (S n + S k) with (n + S (S k)) by lia. reflexivity.
Qed.
End Properties.

(** The initial-sync hook stops exactly when the session's table has every
    wanted prefix and each resolves to exactly the wanted addresses of its
    family; the answer does not depend on the failures counted so far nor on the
    order in which the prefixes are visited. *)
Theorem initialSync_stops_iff `{GnmiCache C} PTSP S2SP ni (ps ps' : list string) w4 w6 n n' (ss : AFTStreamSession C) :
  ps ≡ₚ ps' ->
  ((initialSync PTSP S2SP ni ps w4 w6 n ss).1.1 = Ret true <->
   exists a, sessionAFT PTSP S2SP ni ss = Ret a /\ synced ps w4 w6 a) /\
  ((initialSync PTSP S2SP ni ps w4 w6 n ss).1.1 = Ret true <->
   (initialSync PTSP S2SP ni ps' w4 w6 n' ss).1.1 = Ret true).
Proof.
  intros Hp. rewrite !initialSync_true. split; [reflexivity|].
  split; intros (a & Ha & Hs); exists a; (split; [exact Ha|]);
    eapply synced_perm; [exact Hp|exact Hs|symmetry; exact Hp|exact Hs].
Qed.

(** While prefixes are missing the hook reports exactly the wanted prefixes
    that are not in the table and leaves the failure counter alone; once all
    are present it reports exactly the prefixes with wrong next hops, and fails
    exactly when this is the twentieth such run. *)
Theorem initialSync_reports `{GnmiCache C} PTSP S2SP ni (ps : list string) w4 w6 n (ss : AFTStreamSession C) a :
  sessionAFT PTSP S2SP ni ss = Ret a ->
  let missing := filter (fun p => p ∉ dom (Prefixes a)) ps in
  let wrong := filter (fun p => ~ nhOK a w4 w6 p) ps in
  (missing <> [] ->
   initialSync PTSP S2SP ni ps w4 w6 n ss = (Ret false, n, set_missing (list_to_set missing) ss)) /\
  (missing = [] -> resolvable a ps -> wrong <> [] ->
   exists r, initialSync PTSP S2SP ni ps w4 w6 n ss =
     (r, S n, set_failing (list_to_set wrong) (set_missing ∅ ss)) /\
     ((exists e, r = Fail e) <-> S n = 20) /\ (r = Ret false <-> S n <> 20)).
Proof.
  intros Ha missing wrong. split.
  - intros Hm. apply initialSync_missing; [exact Ha|]. intros Hf. apply Hm.
    by apply (filter_not_nil (fun p => p ∈ dom (Prefixes a))).
  - intros Hm Hr Hw. rewrite (initialSync_checked PTSP S2SP ni ps w4 w6 n ss a Ha); [|..|exact Hr].
    + rewrite bool_decide_eq_false_2.
      2:{ intros Hf. apply Hw. by apply filter_not_nil. }
      eexists. split; [reflexivity|]. apply limit_outcome.
    + by apply (filter_not_nil (fun p => p ∈ dom (Prefixes a))).
Qed.

(** C1: when [ListenUntil] returns from the initial sync, it did so on a tick;
    the cache is the one the responses received before that tick build, in
    order; the table extracted from it is synced; nothing is reported missing
    or failing, and the stored notifications are forgotten. *)
Theorem ListenUntil_initialSync `{GnmiCache C} PTSP S2SP ni now (ps : list string) w4 w6 (ss : AFTStreamSession C) evs n' ss' :
  ListenUntil now (InitialSyncStoppingCondition PTSP S2SP ni ps w4 w6) 0 ss evs = (n', ss', Returned) ->
  exists evs1 t evs2 a, evs = evs1 ++ EvTick t :: evs2 /\
    Cache ss' = feed (Cache ss) evs1 /\
    sessionAFT PTSP S2SP ni ss' = Ret a /\ synced ps w4 w6 a /\
    missingPrefixes ss' = ∅ /\ failingNHPrefixes ss' = ∅ /\ notifications ss' = [].
Proof.
  unfold ListenUntil, ListenUntilPreUpdateHook.
  destruct (listenUntil _ _ _ _ _) as [[n1 ss1] st] eqn:Hl. intros [= <- <- ->].
  apply listenUntil_returned in Hl as (evs1 & t & evs2 & n2 & ss2 & -> & _ & Hc & Hr);
    [|apply syncHooks_stable].
  rewrite syncHooks_run in Hr.
  destruct (initialSync PTSP S2SP ni ps w4 w6 n2 ss2) as [[r n3] ss3] eqn:Hi. cbn [fst snd] in Hr.
  assert (r = Ret true) as -> by (destruct r as [[]|e| |]; congruence).
  assert ((initialSync PTSP S2SP ni ps w4 w6 n2 ss2).1.1 = Ret true) as Ht by (by rewrite Hi).
  apply initialSync_done in Hi as [-> ->]. injection Hr as <- <-.
  apply initialSync_true in Ht as (a & Ha & Hs).
  exists evs1, t, evs2, a. split_and!; try reflexivity; try exact Hc; try exact Hs.
  rewrite <- Ha. by apply sessionAFT_cache.
Qed.

(** C16: a session whose table has all prefixes but never the wanted next hops
    keeps waiting for nineteen ticks and fails the test on the twentieth; a
    session whose table is synced returns on its next tick. *)
Theorem ListenUntil_progress `{GnmiCache C} PTSP S2SP ni now (ps : list string) w4 w6 (ss : AFTStreamSession C) a evs :
  sessionAFT PTSP S2SP ni ss = Ret a -> Forall (fun p => p ∈ dom (Prefixes a)) ps ->
  resolvable a ps ->
  let run k := (ListenUntil now (InitialSyncStoppingCondition PTSP S2SP ni ps w4 w6) 0 ss
                  (replicate k (EvTick 0) ++ evs)).2 in
  (Forall (nhOK a w4 w6) ps -> run 1 = Returned) /\
  (~ Forall (nhOK a w4 w6) ps -> run 20 = Fatal "error in PeriodicHook") /\
  (~ Forall (nhOK a w4 w6) ps -> evs = [] -> run 19 = Running).
Proof.
  intros Ha Hd Hr run.
  assert (sessionAFT PTSP S2SP ni (set_start now ss) = Ret a) as Ha' by (rewrite <- Ha; by apply sessionAFT_cache).
  unfold run, ListenUntil, ListenUntilPreUpdateHook. split_and!.
  - intros Hn. change (replicate 1 (EvTick 0) ++ evs) with (EvTick 0 :: evs).
    cbn [listenUntil listenStep]. rewrite syncHooks_run.
    rewrite (initialSync_checked PTSP S2SP ni ps w4 w6 0 _ a Ha' Hd Hr).
    rewrite bool_decide_eq_true_2 by exact Hn. reflexivity.
  - intros Hn.
    destruct (mismatch_ticks PTSP S2SP ni ps w4 w6 a 18 0 _ Ha' Hd Hr Hn) as (ss1 & Hc & Hl); [unfold nhFailLimit; lia|].
    change (replicate 20 (EvTick 0)) with (replicate 19 (EvTick 0) ++ [EvTick 0]).
    rewrite <- app_assoc, (listenUntil_app _ _ _ _ _ _ _ _ Hl). cbn [app listenUntil listenStep].
    rewrite syncHooks_run, (initialSync_checked PTSP S2SP ni ps w4 w6 19 _ a); [|rewrite <- Ha'; by apply sessionAFT_cache|exact Hd|exact Hr].
    rewrite bool_decide_eq_false_2 by exact Hn. reflexivity.
  - intros Hn ->. rewrite app_nil_r.
    destruct (mismatch_ticks PTSP S2SP ni ps w4 w6 a 18 0 _ Ha' Hd Hr Hn) as (ss1 & Hc & Hl); [unfold nhFailLimit; lia|].
    change (0 + 19) with 19 in Hl. rewrite Hl. reflexivity.
Qed.

Lemma countNextHops_le a w ps n r : countNextHops a w ps n = Ret (Some r) -> r <= n + length ps.
Proof.
  revert n. induction ps as [|p ps IH]; intros n; simpl; [intros [= ->]; lia|].
  destruct (resolveRoute a p) as [nhs|e| |]; try done.
  - destruct (length nhs =? w); [|done]. intros ?%IH. lia.
  - destruct (errors_Is _ _); [|done]. intros ?%IH. lia.
Qed.

(** Every prefix resolves to the wanted number of next hops. *)
Definition hopCount (a : AFTData) (w : nat) (p : string) : Prop :=
  exists nhs, resolveRoute a p = Ret nhs /\ length nhs = w.

Lemma countNextHops_all a w ps n :
  countNextHops a w ps n = Ret (Some (n + length ps)) <-> Forall (hopCount a w) ps.
Proof.
  revert n. induction ps as [|p ps IH]; intros n; simpl.
  { rewrite Nat.add_0_r. by split. }
  rewrite Forall_cons, <- (IH (S n)). unfold hopCount.
  destruct (resolveRoute a p) as [nhs|e| |]; [|destruct (errors_Is _ _)|..]; try naive_solver.
  - replace (S n + length ps) with (n + S (length ps)) by lia.
    destruct (Nat.eqb_spec (length nhs) w); simpl; naive_solver.
  - split; [|naive_solver]. intros H%countNextHops_le. lia.
Qed.

(** The next-hop-count hook stops exactly when every wanted prefix is in the
    table and resolves to the wanted number of next hops. *)
Theorem assertNextHopCount_iff `{GnmiCache C} PTSP S2SP ni (ps : list string) w (ss : AFTStreamSession C) :
  assertNextHopCount PTSP S2SP ni ps w ss = Ret true <->
  exists a, sessionAFT PTSP S2SP ni ss = Ret a /\
    Forall (fun p => p ∈ dom (Prefixes a)) ps /\ Forall (hopCount a w) ps.
Proof.
  unfold assertNextHopCount. rewrite bind_Ret.
  apply exist_proper. intros a. apply and_iff_compat_l. rewrite filter_all_lt.
  case_bool_decide as Hd; simpl; [|split; [discriminate|by intros [? _]]].
  rewrite bind_Ret, <- (countNextHops_all a w ps 0). split.
  - intros ([r|] & Hr & Heq); [|done]. injection Heq as Heq%Nat.eqb_eq. subst. done.
  - intros [_ Hr]. exists (Some (0 + length ps)). split; [done|]. simpl. by rewrite Nat.eqb_refl.
Qed.

(** The deletion hook stops exactly when none of the prefixes to be deleted
    is in the table. *)
Theorem DeletionStoppingCondition_iff `{GnmiCache C} PTSP S2SP ni (w : gset string) (u : unit) (ss : AFTStreamSession C) :
  (PeriodicFunc (DeletionStoppingCondition PTSP S2SP ni w) u ss).1.1 = Ret true <->
  exists a, sessionAFT PTSP S2SP ni ss = Ret a /\ w ## dom (Prefixes a).
Proof.
  simpl. destruct (sessionAFT PTSP S2SP ni ss) as [a|e| |];
    [|split; [discriminate|intros (? & ? & _); discriminate]..].
  set (l := filter _ _).
  assert (l = [] <-> w ## dom (Prefixes a)) as Hl.
  { unfold l. rewrite elem_of_disjoint. setoid_rewrite elem_of_dom.
    split.
    - intros He p Hp [v Hv]. eapply filter_nil_not_elem_of; [exact He|exact Hp|].
      apply list_elem_of_fmap. exists (p, v). split; [done|]. by apply elem_of_map_to_list.
    - intros Hw. apply elem_of_nil_inv. intros p [Hp Hin]%list_elem_of_filter.
      apply list_elem_of_fmap in Hin as ([p' v] & -> & Hin%elem_of_map_to_list). eapply Hw; eauto. }
  destruct (Nat.ltb_spec 0 (length l)); simpl.
  - split; [discriminate|]. intros (a' & [= <-] & Hw%Hl). rewrite Hw in *. simpl in *. lia.
  - split; [|done]. intros _. exists a. split; [done|]. apply Hl, nil_length_inv. lia.
Qed.

(** A stored response whose notification satisfies [f]. *)
Definition seenNotification (f : Notification -> bool) (l : list SubscribeResponse) : Prop :=
  exists r u, r ∈ l /\ GetUpdate r = Some u /\ f u = true.

Lemma seenNotification_cons f r l :
  seenNotification f (r :: l) <->
  match GetUpdate r with Some u => f u = true | None => False end \/ seenNotification f l.
Proof.
  unfold seenNotification. setoid_rewrite elem_of_cons. split.
  - intros (r' & u & [->|Hr] & Hu & Hf); [left; by rewrite Hu|right; by exists r', u].
  - intros [H|(r' & u & Hr & Hu & Hf)]; [|by exists r', u; auto].
    destruct (GetUpdate r) as [u|] eqn:E; [|done]. exists r, u. auto.
Qed.

Lemma seenNotification_any f l : seenNotification f l -> seenNotification (fun _ => true) l.
Proof. intros (r & u & Hr & Hu & _). by exists r, u. Qed.

Lemma scanNotifications_true cfg m l :
  scanNotifications cfg m l = true <->
  seenNotification (fun _ => true) l /\
  (updateFound m = true \/ seenNotification (fun u => hasUpdateNotification u (AddPrefix cfg)) l) /\
  (deleteFound m = true \/ seenNotification (fun u => hasDeleteNotification u (DeletePrefix cfg)) l).
Proof.
  revert m. induction l as [|r l IH]; intros m; simpl.
  { split; [done|]. intros [(? & ? & ?%elem_of_nil & _) _]. done. }
  rewrite !seenNotification_cons.
  pose proof (seenNotification_any (fun u => hasUpdateNotification u (AddPrefix cfg)) l) as HU.
  pose proof (seenNotification_any (fun u => hasDeleteNotification u (DeletePrefix cfg)) l) as HD.
  destruct (GetUpdate r) as [u|]; [|rewrite IH; clear IH; tauto].
  destruct (updateFound m), (deleteFound m), (hasUpdateNotification u _), (hasDeleteNotification u _);
    simpl; try rewrite IH; simpl; clear IH; assert (false <> true) by done; tauto.
Qed.

(** The wait for notifications succeeds exactly when some notification was
    stored, one of them updates the prefix to be added (if there is one) and one
    deletes the prefix to be deleted (if there is one), in whatever order; else
    it fails once the wait is over and goes on before. *)
Theorem waitForNotification_spec {C} cfg elapsed (ss : AFTStreamSession C) :
  (waitForNotification cfg elapsed ss = Ret true <->
   seenNotification (fun _ => true) (Notifications ss) /\
   (AddPrefix cfg = "" \/ seenNotification (fun u => hasUpdateNotification u (AddPrefix cfg)) (Notifications ss)) /\
   (DeletePrefix cfg = "" \/ seenNotification (fun u => hasDeleteNotification u (DeletePrefix cfg)) (Notifications ss))) /\
  (waitForNotification cfg elapsed ss <> Ret true ->
   (waitForNotification cfg elapsed ss = Ret false <-> (elapsed <= NotificationWait cfg)%Z)).
Proof.
  unfold waitForNotification. rewrite <- (String.eqb_eq (AddPrefix cfg) ""), <- (String.eqb_eq (DeletePrefix cfg) "").
  rewrite <- (scanNotifications_true cfg {| updateFound := (AddPrefix cfg =? "")%string;
    deleteFound := (DeletePrefix cfg =? "")%string |} (Notifications ss)).
  destruct (scanNotifications _ _ _); [done|]. rewrite Z.gtb_ltb.
  destruct (Z.ltb_spec (NotificationWait cfg) elapsed); split; split; done || lia.
Qed.

(** * Witnesses: a session over the list cache *)

(** A device that streams a route, its group and its next hops. *)
Definition sampleEvents : list event :=
  map (fun n => EvResp (RespUpdate n)) sampleStream ++ [EvTick 0].

Definition sampleSession : AFTStreamSession listCache := NewAFTStreamSession "dut".
Definition syncedSession : AFTStreamSession listCache := set_stream sampleCache [] sampleSession.
Definition sampleWant : option (gmap string bool) := Some {["192.0.2.1" := true; "192.0.2.5" := true]}.

Lemma sample_nhOK : nhOK sampleAFT sampleWant sampleWant "10.0.0.0/8".
Proof. eexists. split; vm_compute; reflexivity. Qed.

Lemma sample_not_nhOK : ~ nhOK sampleAFT None None "10.0.0.0/8".
Proof.
  intros (ips & _ & Hw). unfold wantFor in Hw. by destruct (Contains _ _).
Qed.

Lemma sample_prefix : "10.0.0.0/8" ∈ dom (Prefixes sampleAFT).
Proof. vm_compute. reflexivity. Qed.

Lemma sample_session : sessionAFT simpleSchemaPath simpleStructuredPath "DEFAULT" syncedSession = Ret sampleAFT.
Proof. vm_compute. reflexivity. Qed.

Lemma sample_resolvable : resolvable sampleAFT ["10.0.0.0/8"].
Proof. intros p ->%list_elem_of_singleton. by vm_compute. Qed.

Lemma initialSync_stops_iff_witness :
  (initialSync simpleSchemaPath simpleStructuredPath "DEFAULT" ["10.0.0.0/8"] sampleWant sampleWant 3 syncedSession).1.1
  = Ret true.
Proof.
  apply (proj1 (initialSync_stops_iff simpleSchemaPath simpleStructuredPath "DEFAULT" ["10.0.0.0/8"] ["10.0.0.0/8"]
                  sampleWant sampleWant 3 0 syncedSession (Permutation_refl _))).
  - exists sampleAFT. split; [exact sample_session|].
    split; apply Forall_singleton; [exact sample_prefix|exact sample_nhOK].
Defined.

Lemma initialSync_reports_witness :
  initialSync simpleSchemaPath simpleStructuredPath "DEFAULT" ["203.0.113.0/24"] None None 0 syncedSession
  = (Ret false, 0, set_missing {["203.0.113.0/24"]} syncedSession).
Proof.
  rewrite (proj1 (initialSync_reports _ _ _ ["203.0.113.0/24"] None None 0 syncedSession sampleAFT sample_session)).
  - vm_compute. reflexivity.
  - vm_compute. discriminate.
Defined.

Lemma ListenUntil_initialSync_witness :
  exists evs1 t evs2 a, sampleEvents = evs1 ++ EvTick t :: evs2 /\
    sessionAFT simpleSchemaPath simpleStructuredPath "DEFAULT" syncedSession = Ret a /\
    synced ["10.0.0.0/8"] sampleWant sampleWant a.
Proof.
  destruct (ListenUntil_initialSync simpleSchemaPath simpleStructuredPath "DEFAULT" 0 ["10.0.0.0/8"] sampleWant
              sampleWant sampleSession sampleEvents 0 syncedSession) as (evs1 & t & evs2 & a & H1 & _ & H2 & H3 & _).
  - vm_compute. reflexivity.
  - exists evs1, t, evs2, a. auto.
Defined.

Lemma ListenUntil_progress_witness :
  (ListenUntil 0 (InitialSyncStoppingCondition simpleSchemaPath simpleStructuredPath "DEFAULT" ["10.0.0.0/8"] None None)
     0 syncedSession (replicate 20 (EvTick 0) ++ [])).2 = Fatal "error in PeriodicHook".
Proof.
  apply (ListenUntil_progress _ _ _ 0 ["10.0.0.0/8"] None None syncedSession sampleAFT [] sample_session
           (Forall_cons_2 _ "10.0.0.0/8" [] sample_prefix (Forall_nil_2 _)) sample_resolvable).
  intros Hf. apply sample_not_nhOK. by inversion Hf.
Defined.

Lemma waitForNotification_spec_witness :
  waitForNotification {| AddPrefix := "10.0.0.0/8"; DeletePrefix := ""; NotificationWait := 5 |} 7 syncedSession
  <> Ret false.
Proof.
  intros H. pose proof H as H'.
  apply (proj2 (waitForNotification_spec {| AddPrefix := "10.0.0.0/8"; DeletePrefix := ""; NotificationWait := 5 |} 7
           syncedSession)) in H'; [simpl in H'; lia|]. rewrite H. discriminate.
Defined.
