(* ===== verification/Net.v ===== *)
(** The parts of Go's [net], [net/netip], [encoding/binary] and [math/big]
    packages the modelled code calls: textual IP and MAC addresses and
    big-endian numbers.  A byte slice is a list of integers below 256. *)
From stdpp Require Import base list strings pretty.
From Stdlib Require Import ZArith Lia Ascii.
From S2P Require Import Prelude GoStrings.
Open Scope Z_scope.

(** * Big-endian numbers *)

(** [big.Int.SetBytes] and [binary.BigEndian.Uint32] of four bytes. *)
Definition be_val (bs : list Z) : Z := foldl (fun acc b => acc * 256 + b) 0 bs.

(** [binary.BigEndian.PutUint32] for four bytes and [big.Int.FillBytes] of a
    number that fits. *)
Fixpoint be_bytes (n : nat) (v : Z) : list Z :=
  match n with
  | O => []
  | S n => (v / 256 ^ Z.of_nat n) mod 256 :: be_bytes n v
  end.

Definition is_bytes (n : nat) (bs : list Z) : Prop :=
  length bs = n /\ Forall (fun b => 0 <= b < 256) bs.

(** [binary.BigEndian.Uint32(b)] panics on fewer than four bytes. *)
Definition Uint32 (bs : list Z) : go Z :=
  if (length bs <? 4)%nat then Panic else Ret (be_val (take 4 bs)).

(** [big.Int.Bytes]: the shortest big-endian form. *)
Definition big_Bytes (v : Z) : list Z :=
  be_bytes (if v =? 0 then 0%nat else Z.to_nat (Z.log2 v / 8 + 1)) v.

(** [big.Int.FillBytes] panics on a number that does not fit. *)
Definition FillBytes (n : nat) (v : Z) : go (list Z) :=
  if v <? 256 ^ Z.of_nat n then Ret (be_bytes n v) else Panic.

(** * Numerals of addresses *)

Definition hex_digit (c : ascii) : option Z :=
  let n := Z.of_nat (nat_of_ascii c) in
  if (48 <=? n) && (n <=? 57) then Some (n - 48)
  else if (97 <=? n) && (n <=? 102) then Some (n - 87)
  else if (65 <=? n) && (n <=? 70) then Some (n - 55)
  else None.

Fixpoint hex_value (acc : Z) (s : string) : option Z :=
  match s with
  | EmptyString => Some acc
  | String c s =>
      match hex_digit c with
      | Some d => hex_value (acc * 16 + d) s
      | None => None
      end
  end.

(** The leading run of hexadecimal digits. *)
Fixpoint hex_run (s : string) : string :=
  match s with
  | EmptyString => EmptyString
  | String c s' => match hex_digit c with Some _ => String c (hex_run s') | None => EmptyString end
  end.

Definition hex_char (upper : bool) (d : Z) : ascii :=
  ascii_of_nat (Z.to_nat (if d <? 10 then d + 48 else if upper then d + 55 else d + 87)).

(** [%02x] or [%02X] of a byte. *)
Definition hex_byte (upper : bool) (b : Z) : string :=
  String (hex_char upper (b / 16)) (String (hex_char upper (b mod 16)) EmptyString).

(** A 16-bit field in lower-case hexadecimal without leading zeros. *)
Definition hex_field (v : Z) : string :=
  let d i := String (hex_char false ((v / 16 ^ i) mod 16)) EmptyString in
  if v <? 16 then d 0
  else if v <? 256 then d 1 +:+ d 0
  else if v <? 4096 then d 2 +:+ d 1 +:+ d 0
  else d 3 +:+ d 2 +:+ d 1 +:+ d 0.

(** * netip.ParseAddr *)

(** A decimal octet: digits only, no leading zero, at most 255. *)
Definition parse_octet (s : string) : option Z :=
  match s with
  | EmptyString => None
  | String c s' =>
      if Ascii.eqb c "0" && negb (String.eqb s' "") then None
      else
        match digits_value 0 s with
        | Some n => if (n <=? 255)%N then Some (Z.of_N n) else None
        | None => None
        end
  end.

Definition parseIPv4 (s : string) : option (list Z) :=
  match split_on "." s with
  | [a; b; c; d] =>
      a ← parse_octet a; b ← parse_octet b; c ← parse_octet c; d ← parse_octet d;
      Some [a; b; c; d]
  | _ => None
  end.

(** The loop of [parseIPv6] over the fields: the bytes read and the position of
    the ellipsis.  An address has at most eight fields. *)
Fixpoint v6_fields (fuel : nat) (s : string) (ellipsis : option nat) (ip : list Z) :
    option (list Z * option nat) :=
  match fuel with
  | O => None
  | S fuel =>
      let h := hex_run s in
      let off := String.length h in
      if (off =? 0)%nat || (4 <? off)%nat then None
      else
        acc ← hex_value 0 h;
        let ip' := ip ++ [acc / 256; acc mod 256] in
        match str_drop off s with
        | EmptyString => Some (ip', ellipsis)
        | String c rest =>
            if Ascii.eqb c "." then
              if bool_decide (ellipsis = None) && negb (length ip =? 12)%nat then None
              else if (12 <? length ip)%nat then None
              else v4 ← parseIPv4 s; Some (ip ++ v4, ellipsis)
            else if Ascii.eqb c ":" then
              match rest with
              | EmptyString => None
              | String c' rest' =>
                  if Ascii.eqb c' ":" then
                    match ellipsis with
                    | Some _ => None
                    | None =>
                        if String.eqb rest' "" then Some (ip', Some (length ip'))
                        else v6_fields fuel rest' (Some (length ip')) ip'
                    end
                  else v6_fields fuel rest ellipsis ip'
              end
            else None
        end
  end.

Definition v6_expand (r : list Z * option nat) : option (list Z) :=
  let '(ip, ellipsis) := r in
  let i := length ip in
  match ellipsis with
  | None => if (i <? 16)%nat then None else Some ip
  | Some e => if (i <? 16)%nat then Some (take e ip ++ replicate (16 - i) 0 ++ drop e ip) else None
  end.

Definition parseIPv6 (s : string) : option (list Z) :=
  if HasPrefix s "::" then
    let s := str_drop 2 s in
    if String.eqb s "" then Some (replicate 16 0)
    else v6_fields 8 s (Some 0%nat) [] ≫= v6_expand
  else v6_fields 8 s None [] ≫= v6_expand.

(** [netip.Addr]: the zone is empty for an address without one. *)
Inductive Addr :=
| Addr4 (ip : list Z)
| Addr6 (ip : list Z) (zone : string).
#[export] Instance Addr_eq_dec : EqDecision Addr.
Proof. solve_decision. Defined.

(** The first of ['.'], [':'] and ['%'] decides. *)
Fixpoint addr_kind (s : string) : option ascii :=
  match s with
  | EmptyString => None
  | String c s => if existsb (Ascii.eqb c) ["."; ":"; "%"]%char then Some c else addr_kind s
  end.

Definition ParseAddr (s : string) : option Addr :=
  match addr_kind s with
  | Some "."%char => Addr4 <$> parseIPv4 s
  | Some ":"%char =>
      match IndexByte s "%" with
      | None => (fun ip => Addr6 ip "") <$> parseIPv6 s
      | Some i =>
          let zone := str_drop (S i) s in
          if String.eqb zone "" then None else (fun ip => Addr6 ip zone) <$> parseIPv6 (str_take i s)
      end
  | _ => None
  end.

(** * net.IP *)

Definition v4InV6Prefix : list Z := replicate 10 0 ++ [255; 255].

(** [net.ParseIP]: the sixteen-byte form, or nil. *)
Definition ParseIP (s : string) : option (list Z) :=
  match ParseAddr s with
  | Some (Addr4 ip) => Some (v4InV6Prefix ++ ip)
  | Some (Addr6 ip zone) => if String.eqb zone "" then Some ip else None
  | None => None
  end.

(** [IP.To4] and [IP.To16], [None] for nil. *)
Definition To4 (ip : list Z) : option (list Z) :=
  if (length ip =? 4)%nat then Some ip
  else if (length ip =? 16)%nat && bool_decide (take 12 ip = v4InV6Prefix) then Some (drop 12 ip)
  else None.
Definition To16 (ip : list Z) : option (list Z) :=
  if (length ip =? 4)%nat then Some (v4InV6Prefix ++ ip)
  else if (length ip =? 16)%nat then Some ip
  else None.

(** [net.CIDRMask(ones, bits)]. *)
Definition CIDRMask (ones bits : Z) : list Z :=
  be_bytes (Z.to_nat (bits / 8)) (2 ^ bits - 2 ^ (bits - ones)).

Definition and_bytes (x y : list Z) : list Z := zip_with Z.land x y.

(** [IP(addr16).Mask(m)] for the masks [ParseCIDR] makes. *)
Definition Mask16 (ip m : list Z) : list Z :=
  if (length m =? 4)%nat && bool_decide (take 12 ip = v4InV6Prefix)
  then and_bytes (drop 12 ip) m else and_bytes ip m.

Record IPNet := { net_IP : list Z; net_Mask : list Z; net_ones : Z }.

(** [net.ParseCIDR]: the network part, with the size of its mask. *)
Definition ParseCIDR (s : string) : option IPNet :=
  match IndexByte s "/" with
  | None => None
  | Some i =>
      let mask := str_drop (S i) s in
      let mk ip bits :=
        if String.eqb mask "" then None
        else
          match digits_value 0 mask with
          | Some n =>
              if (Z.of_N n <=? bits) then
                let m := CIDRMask (Z.of_N n) bits in
                Some {| net_IP := Mask16 ip m; net_Mask := m; net_ones := Z.of_N n |}
              else None
          | None => None
          end in
      match ParseAddr (str_take i s) with
      | Some (Addr4 ip) => mk (v4InV6Prefix ++ ip) 32
      | Some (Addr6 ip zone) => if String.eqb zone "" then mk ip 128 else None
      | None => None
      end
  end.

(** ** IP.String *)

Fixpoint v6_groups (ip : list Z) : list Z :=
  match ip with
  | a :: b :: ip => a * 256 + b :: v6_groups ip
  | _ => []
  end.

(** The length of the leading run of zero fields. *)
Fixpoint zero_run (gs : list Z) : nat :=
  match gs with
  | g :: gs => if g =? 0 then S (zero_run gs) else 0%nat
  | [] => 0%nat
  end.

(** The start and length of the first longest run of at least two zero fields. *)
Fixpoint best_run (i : nat) (gs : list Z) (best : nat * nat) : nat * nat :=
  match gs with
  | [] => best
  | _ :: gs' =>
      let l := zero_run gs in
      best_run (S i) gs' (if (2 <=? l)%nat && (snd best <? l)%nat then (i, l) else best)
  end.

Definition v6_string (ip : list Z) : string :=
  let gs := v6_groups ip in
  let '(i, l) := best_run 0 gs (0%nat, 0%nat) in
  if (l =? 0)%nat then Join (map hex_field gs) ":"
  else Join (map hex_field (take i gs)) ":" +:+ "::" +:+ Join (map hex_field (drop (i + l) gs)) ":".

Definition v4_string (ip : list Z) : string := Join (map Itoa ip) ".".

Definition IP_String (ip : list Z) : string :=
  match ip with
  | [] => "<nil>"
  | _ =>
      match To4 ip with
      | Some ip4 => v4_string ip4
      | None => if (length ip =? 16)%nat then v6_string ip else "?" +:+ Join (map (hex_byte false) ip) ""
      end
  end.

(** * net.HardwareAddr *)

(** [xtoi2(s, e)]: two digits, then the separator or the end. *)
Definition xtoi2 (s : string) (e : ascii) : option Z :=
  match s with
  | String a (String b rest) =>
      let ok := match rest with EmptyString => true | String c _ => Ascii.eqb c e end in
      if ok then hex_value 0 (String a (String b EmptyString)) else None
  | _ => None
  end.

(** [n] groups of two digits, each followed by one separator. *)
Fixpoint mac_pairs (n : nat) (s : string) (sep : ascii) : option (list Z) :=
  match n with
  | O => Some []
  | S n => b ← xtoi2 s sep; bs ← mac_pairs n (str_drop 3 s) sep; Some (b :: bs)
  end.
(** [n] groups of four digits. *)
Fixpoint mac_quads (n : nat) (s : string) (sep : ascii) : option (list Z) :=
  match n with
  | O => Some []
  | S n =>
      b1 ← xtoi2 (str_take 2 s) sep; b2 ← xtoi2 (str_drop 2 s) sep;
      bs ← mac_quads n (str_drop 5 s) sep; Some (b1 :: b2 :: bs)
  end.

Definition ParseMAC (s : string) : option (list Z) :=
  let len := String.length s in
  if (len <? 14)%nat then None
  else
    let size_ok n := existsb (Nat.eqb n) [6; 8; 20]%nat in
    match String.get 2 s, String.get 4 s with
    | Some c2, Some c4 =>
        if Ascii.eqb c2 ":" || Ascii.eqb c2 "-" then
          let n := ((len + 1) / 3)%nat in
          if ((len + 1) mod 3 =? 0)%nat && size_ok n then mac_pairs n s c2 else None
        else if Ascii.eqb c4 "." then
          let n := (2 * (len + 1) / 5)%nat in
          if ((len + 1) mod 5 =? 0)%nat && size_ok n then mac_quads (n / 2)%nat s c4 else None
        else None
    | _, _ => None
    end.

Definition HardwareAddr_String (hw : list Z) : string := Join (map (hex_byte false) hw) ":".

(** * Lemmas *)

(** ** Big-endian numbers *)

Lemma be_val_snoc bs b : be_val (bs ++ [b]) = be_val bs * 256 + b.
Proof. unfold be_val. by rewrite foldl_app. Qed.

Lemma be_bytes_length n v : length (be_bytes n v) = n.
Proof. induction n; simpl; auto. Qed.

Lemma is_bytes_be_bytes n v : is_bytes n (be_bytes n v).
Proof.
  split; [apply be_bytes_length|]. induction n; constructor; [|done]. apply Z.mod_pos_bound. lia.
Qed.

Lemma be_bytes_snoc n v : be_bytes (S n) v = be_bytes n (v / 256) ++ [v mod 256].
Proof.
  revert v. induction n as [|n IH]; intros v.
  { simpl. by rewrite Z.div_1_r. }
  change (be_bytes (S (S n)) v) with ((v / 256 ^ Z.of_nat (S n)) mod 256 :: be_bytes (S n) v).
  rewrite IH. simpl. f_equal. rewrite Z.div_div by lia. do 2 f_equal.
  by rewrite Nat2Z.inj_succ, Z.pow_succ_r by lia.
Qed.

Lemma be_val_bytes n v : be_val (be_bytes n v) = v mod 256 ^ Z.of_nat n.
Proof.
  revert v. induction n as [|n IH]; intros v.
  { simpl. by rewrite Z.mod_1_r. }
  rewrite be_bytes_snoc, be_val_snoc, IH, Nat2Z.inj_succ, Z.pow_succ_r by lia.
  rewrite (Z.rem_mul_r v 256) by lia. lia.
Qed.

Lemma be_bytes_val n bs : is_bytes n bs -> be_bytes n (be_val bs) = bs.
Proof.
  intros [<- H]. induction bs as [|b bs IH] using rev_ind; [done|].
  rewrite Forall_app, Forall_singleton in H. destruct H as [H Hb].
  rewrite length_app, Nat.add_1_r, be_bytes_snoc, be_val_snoc. f_equal.
  - rewrite Z.div_add_l, (Z.div_small b) by lia. rewrite Z.add_0_r. by apply IH.
  - f_equal. rewrite Z.add_comm, Z.mod_add, Z.mod_small by lia. done.
Qed.

Lemma be_val_bound n bs : is_bytes n bs -> 0 <= be_val bs < 256 ^ Z.of_nat n.
Proof.
  intros H. rewrite <- (be_bytes_val n bs H), be_val_bytes. apply Z.mod_pos_bound. lia.
Qed.

(** ** Dotted-quad and colon-separated texts read back *)

(** A property of the 256 bytes, checked by evaluation. *)
Lemma byte_cases (P : Z -> bool) :
  forallb P (map Z.of_nat (seq 0 256)) = true -> forall b, 0 <= b < 256 -> P b = true.
Proof.
  intros H b Hb. rewrite forallb_forall in H. apply H, in_map_iff.
  exists (Z.to_nat b). split; [lia|]. apply in_seq. lia.
Qed.

Definition octet_ok (b : Z) : bool :=
  bool_decide (parse_octet (Itoa b) = Some b) && bool_decide (IndexByte (Itoa b) "." = None) &&
  bool_decide (addr_kind (Itoa b +:+ ".") = Some "."%char).

Lemma octet_facts b : 0 <= b < 256 ->
  parse_octet (Itoa b) = Some b /\ IndexByte (Itoa b) "." = None /\
  addr_kind (Itoa b +:+ ".") = Some "."%char.
Proof.
  intros Hb. assert (octet_ok b = true) as H by (by apply byte_cases; [vm_compute|]).
  unfold octet_ok in H. rewrite !andb_true_iff, !bool_decide_eq_true in H. tauto.
Qed.

Lemma addr_kind_app s t k : addr_kind s = Some k -> addr_kind (s +:+ t) = Some k.
Proof.
  induction s as [|c s IH]; [done|]. rewrite str_app_cons. simpl.
  destruct (_ || _); [done|exact IH].
Qed.

(** Printing four bytes and parsing the text gives the address back. *)
Lemma ParseIP_v4_string ip :
  is_bytes 4 ip -> ParseIP (IP_String ip) = Some (v4InV6Prefix ++ ip).
Proof.
  intros [Hl H]. destruct ip as [|a [|b [|c [|d [|? ?]]]]]; try done.
  rewrite !Forall_cons in H. destruct H as (Ha & Hb & Hc & Hd & _).
  destruct (octet_facts a Ha) as (Pa & Da & Ka), (octet_facts b Hb) as (Pb & Db & _),
    (octet_facts c Hc) as (Pc & Dc & _), (octet_facts d Hd) as (Pd & Dd & _).
  assert (IP_String [a; b; c; d] =
    Itoa a +:+ String "." (Itoa b +:+ String "." (Itoa c +:+ String "." (Itoa d)))) as -> by reflexivity.
  unfold ParseIP, ParseAddr.
  assert (forall s, Itoa a +:+ String "." s = (Itoa a +:+ ".") +:+ s) as E
    by (intros s; by rewrite str_app_assoc).
  rewrite E, (addr_kind_app _ _ _ Ka), <- E. unfold parseIPv4.
  rewrite !split_on_app, split_on_one by done. by rewrite Pa, Pb, Pc, Pd.
Qed.

Definition mac_ok (b : Z) : bool :=
  match hex_byte false b with
  | String x (String y EmptyString) =>
      bool_decide (hex_value 0 (String x (String y EmptyString)) = Some b)
  | _ => false
  end.

Lemma mac_pair b rest : 0 <= b < 256 ->
  xtoi2 (hex_byte false b +:+ ":" +:+ rest) ":" = Some b /\ xtoi2 (hex_byte false b) ":" = Some b.
Proof.
  intros Hb. assert (mac_ok b = true) as H by (by apply byte_cases; [vm_compute|]).
  unfold mac_ok, hex_byte in *. apply bool_decide_eq_true in H. split; exact H.
Qed.

Lemma ParseMAC_String hw : is_bytes 6 hw -> ParseMAC (HardwareAddr_String hw) = Some hw.
Proof.
  intros [Hl H]. destruct hw as [|a [|b [|c [|d [|e [|f [|? ?]]]]]]]; try done.
  rewrite !Forall_cons in H. destruct H as (Ha & Hb & Hc & Hd & He & Hf & _).
  assert (HardwareAddr_String [a; b; c; d; e; f] =
    hex_byte false a +:+ ":" +:+ (hex_byte false b +:+ ":" +:+ (hex_byte false c +:+ ":" +:+
    (hex_byte false d +:+ ":" +:+ (hex_byte false e +:+ ":" +:+ hex_byte false f))))) as E by reflexivity.
  assert (ParseMAC (HardwareAddr_String [a; b; c; d; e; f]) =
          mac_pairs 6 (HardwareAddr_String [a; b; c; d; e; f]) ":") as -> by reflexivity.
  rewrite E. cbn [mac_pairs].
  assert (forall x s, str_drop 3 (hex_byte false x +:+ ":" +:+ s) = s) as D by reflexivity.
  rewrite !D, (proj1 (mac_pair a _ Ha)), (proj1 (mac_pair b _ Hb)), (proj1 (mac_pair c _ Hc)),
    (proj1 (mac_pair d _ Hd)), (proj1 (mac_pair e _ He)), (proj2 (mac_pair f "" Hf)). reflexivity.
Qed.

(** ** Parsed addresses are byte strings of the right length *)

Abbreviation bytes_ok := (Forall (fun b => 0 <= b < 256)).

Lemma parse_octet_bound s b : parse_octet s = Some b -> 0 <= b < 256.
Proof.
  unfold parse_octet. repeat (case_match; try done). intros [= <-].
  match goal with H : (_ <=? 255)%N = true |- _ => apply N.leb_le in H end. lia.
Qed.

Lemma parseIPv4_bytes s ip : parseIPv4 s = Some ip -> is_bytes 4 ip.
Proof.
  unfold parseIPv4. intros Hp. repeat (case_match; try done).
  repeat match goal with
  | H : _ ≫= _ = Some _ |- _ =>
      let Ho := fresh "Ho" in apply bind_Some in H as (? & Ho%parse_octet_bound & H)
  end. simplify_eq/=. split; [done|]. rewrite !Forall_cons. auto using Forall_nil_2.
Qed.

Lemma hex_value_bound s acc v :
  0 <= acc -> hex_value acc s = Some v -> 0 <= v < (acc + 1) * 16 ^ Z.of_nat (String.length s).
Proof.
  revert acc. induction s as [|c s IH]; intros acc Ha Hv; cbn [hex_value String.length] in *.
  { simplify_eq. simpl. lia. }
  destruct (hex_digit c) as [d|] eqn:Hd; [|done].
  assert (0 <= d < 16) as Hdb.
  { unfold hex_digit in Hd. repeat case_match; simplify_eq; rewrite ?andb_true_iff, ?Z.leb_le in *; lia. }
  apply IH in Hv; [|lia]. rewrite Nat2Z.inj_succ, Z.pow_succ_r by lia.
  pose proof (Z.pow_pos_nonneg 16 (Z.of_nat (String.length s)) ltac:(lia) ltac:(lia)). nia.
Qed.

Lemma hex_value_short h v : (String.length h <= 4)%nat -> hex_value 0 h = Some v -> 0 <= v < 65536.
Proof.
  intros Hl Hv. apply hex_value_bound in Hv; [|lia].
  pose proof (Z.pow_le_mono_r 16 (Z.of_nat (String.length h)) 4 ltac:(lia) ltac:(lia)). lia.
Qed.

Lemma v6_fields_bytes fuel : forall s e ip r e',
  v6_fields fuel s e ip = Some (r, e') -> (length ip + 2 * fuel <= 16)%nat ->
  bytes_ok ip -> (forall k, e = Some k -> k <= length ip)%nat ->
  bytes_ok r /\ (length r <= 16)%nat /\ (forall k, e' = Some k -> k <= length r)%nat.
Proof.
  induction fuel as [|fuel IH]; intros s e ip r e' H Hlen Hok He; [done|].
  cbn [v6_fields] in H. destruct (_ || _) eqn:Hoff; [done|].
  apply orb_false_iff in Hoff as [_ Hoff%Nat.ltb_ge].
  apply bind_Some in H as (acc & Hacc & H). apply hex_value_short in Hacc; [|done].
  set (ip' := ip ++ [acc / 256; acc mod 256]) in *.
  assert (bytes_ok ip') as Hok'.
  { apply Forall_app. split; [done|]. rewrite !Forall_cons.
    pose proof (Z.mod_pos_bound acc 256). pose proof (Z.div_pos acc 256).
    pose proof (Z.div_lt_upper_bound acc 256 256). split_and!; try lia. constructor. }
  assert (length ip' = length ip + 2)%nat as Hl' by (unfold ip'; by rewrite length_app).
  assert (forall k, e = Some k -> k <= length ip')%nat as He' by (intros k Hk; specialize (He k Hk); lia).
  clearbody ip'.
  destruct (str_drop _ s) as [|c rest]; [simplify_eq; split_and!; [done|lia|done]|].
  destruct (Ascii.eqb c "."); [|destruct (Ascii.eqb c ":"); [|done]].
  - destruct (_ && _); [done|]. destruct (12 <? length ip)%nat eqn:H12; [done|].
    apply Nat.ltb_ge in H12. apply bind_Some in H as (v4 & Hv4%parseIPv4_bytes & H).
    destruct Hv4 as [Hv4 Hv4b]. simplify_eq. rewrite length_app, Forall_app.
    split_and!; [done|done|lia|]. intros k Hk. specialize (He k Hk). lia.
  - destruct rest as [|c' rest']; [done|]. destruct (Ascii.eqb c' ":"); [|eapply IH; eauto; lia].
    destruct e; [done|]. destruct (String.eqb rest' ""); [simplify_eq; split_and!; [done|lia|]; naive_solver|].
    eapply IH; eauto; [lia|naive_solver].
Qed.

Lemma v6_expand_bytes r ip :
  bytes_ok (fst r) -> (length (fst r) <= 16)%nat -> (forall k, snd r = Some k -> k <= length (fst r))%nat ->
  v6_expand r = Some ip -> is_bytes 16 ip.
Proof.
  destruct r as [bs e]. simpl. intros Hok Hl He H. destruct e as [k|]; repeat case_match; simplify_eq.
  - apply Nat.ltb_lt in H0. specialize (He k eq_refl). split.
    + rewrite !length_app, length_take, length_drop, length_replicate. lia.
    + rewrite !Forall_app. split_and!; [by apply Forall_take| |by apply Forall_drop].
      apply Forall_replicate. lia.
  - apply Nat.ltb_ge in H0. split; [lia|done].
Qed.

Lemma parseIPv6_bytes s ip : parseIPv6 s = Some ip -> is_bytes 16 ip.
Proof.
  unfold parseIPv6. assert (forall s e, (forall k, e = Some k -> k <= 0)%nat ->
    v6_fields 8 s e [] ≫= v6_expand = Some ip -> is_bytes 16 ip) as Hgen.
  { intros s' e He H. apply bind_Some in H as ([r e'] & Hr & H).
    apply v6_fields_bytes in Hr as (? & ? & ?); [by apply (v6_expand_bytes (r, e'))|simpl; lia|constructor|done]. }
  destruct (HasPrefix s "::"); [|apply Hgen; naive_solver].
  destruct (String.eqb _ ""); [|apply Hgen; naive_solver].
  intros [= <-]. split; [done|]. apply (Forall_replicate _ 16). lia.
Qed.

Lemma ParseAddr_bytes s a : ParseAddr s = Some a ->
  match a with Addr4 ip => is_bytes 4 ip | Addr6 ip _ => is_bytes 16 ip end.
Proof.
  unfold ParseAddr. intros H. repeat (case_match; try done);
    try (apply fmap_Some in H as (? & ? & H); simplify_eq);
    eauto using parseIPv4_bytes, parseIPv6_bytes.
Qed.

Lemma v4InV6_bytes ip : is_bytes 4 ip -> is_bytes 16 (v4InV6Prefix ++ ip).
Proof.
  intros [Hl H]. split; [by rewrite length_app, Hl|]. apply Forall_app. split; [|done].
  apply (Forall_app _ (replicate 10 0)). split; [apply Forall_replicate; lia|].
  rewrite !Forall_cons. split_and!; try lia. constructor.
Qed.

Lemma ParseIP_bytes s ip : ParseIP s = Some ip -> is_bytes 16 ip.
Proof.
  unfold ParseIP. destruct (ParseAddr s) as [a|] eqn:Ha; [|done]. apply ParseAddr_bytes in Ha.
  destruct a as [ip4|ip6 z]; [|case_match]; intros; simplify_eq; [by apply v4InV6_bytes|done].
Qed.

Lemma To4_bytes ip ip4 : is_bytes 16 ip -> To4 ip = Some ip4 -> is_bytes 4 ip4.
Proof.
  intros [Hl H]. unfold To4. rewrite Hl. simpl. case_bool_decide; [|done]. intros [= <-].
  split; [by rewrite length_drop, Hl|by apply Forall_drop].
Qed.

Lemma To4_v4InV6 ip : is_bytes 4 ip -> To4 (v4InV6Prefix ++ ip) = Some ip.
Proof.
  intros [Hl _]. unfold To4. rewrite length_app, Hl. simpl.
  destruct ip as [|a [|b [|c [|d [|? ?]]]]]; try done.
Qed.

#[export] Hint Resolve is_bytes_be_bytes ParseIP_bytes To4_bytes v4InV6_bytes parseIPv6_bytes : go.

Lemma be_bytes_mod n v : be_bytes n (v mod 256 ^ Z.of_nat n) = be_bytes n v.
Proof.
  rewrite <- (be_val_bytes n v). apply be_bytes_val, is_bytes_be_bytes.
Qed.

(** ** Masks *)

Lemma bytes_bit8 b i : 0 <= b < 256 -> 8 <= i -> Z.testbit b i = false.
Proof.
  intros Hb Hi. destruct (decide (b = 0)) as [->|]; [apply Z.bits_0|].
  apply Z.bits_above_log2; [lia|]. assert (Z.log2 b < 8) by (apply Z.log2_lt_pow2; lia). lia.
Qed.

Lemma concat_bits a b i : 0 <= b < 256 -> 0 <= i ->
  Z.testbit (a * 256 + b) i = if i <? 8 then Z.testbit b i else Z.testbit a (i - 8).
Proof.
  intros Hb Hi. rewrite (Z.add_nocarry_lxor (a * 256) b).
  - rewrite Z.lxor_spec. change 256 with (2 ^ 8). destruct (Z.ltb_spec i 8).
    + by rewrite Z.mul_pow2_bits_low by lia.
    + rewrite Z.mul_pow2_bits by lia. by rewrite (bytes_bit8 b i) by lia; rewrite xorb_false_r.
  - apply Z.bits_inj'. intros k Hk. rewrite Z.land_spec, Z.bits_0. change 256 with (2 ^ 8).
    destruct (Z.ltb_spec k 8); [by rewrite Z.mul_pow2_bits_low by lia|].
    rewrite (bytes_bit8 b k) by lia. apply andb_false_r.
Qed.

Lemma land_byte a b : 0 <= a < 256 -> 0 <= b < 256 -> 0 <= Z.land a b < 256.
Proof.
  intros Ha Hb. split; [apply Z.land_nonneg; lia|].
  replace (Z.land a b) with (Z.land a b mod 2 ^ 8); [apply Z.mod_pos_bound; lia|].
  rewrite <- Z.land_ones, <- Z.land_assoc, Z.land_ones by lia. by rewrite (Z.mod_small b) by (simpl; lia).
Qed.

Lemma be_val_and n x y : is_bytes n x -> is_bytes n y -> be_val (and_bytes x y) = Z.land (be_val x) (be_val y).
Proof.
  intros [<- Hx]. revert y. induction x as [|a x IH] using rev_ind; intros y [Hl Hy].
  { by destruct y. }
  destruct y as [|b y _] using rev_ind; [rewrite length_app in Hl; simpl in Hl; lia|].
  rewrite !length_app in Hl. simpl in Hl.
  rewrite Forall_app, Forall_singleton in Hx, Hy. destruct Hx as [Hx Ha], Hy as [Hy Hb].
  unfold and_bytes. rewrite zip_with_app by lia. simpl. rewrite !be_val_snoc.
  fold (and_bytes x y). rewrite IH; [|done|split; [lia|done]].
  apply Z.bits_inj'. intros i Hi. rewrite Z.land_spec, !concat_bits by (done || by apply land_byte).
  destruct (i <? 8); by rewrite Z.land_spec.
Qed.

(** A network mask of [32 - j] leading ones. *)
Definition maskBits (j : Z) : Z := Z.ldiff (Z.ones 32) (Z.ones j).

Lemma maskBits_val j : 0 <= j <= 32 -> maskBits j = 2 ^ 32 - 2 ^ j.
Proof.
  intros Hj. unfold maskBits. rewrite Z.ldiff_ones_r, Z.shiftl_mul_pow2, Z.shiftr_div_pow2 by lia.
  replace (Z.ones 32) with ((2 ^ (32 - j) - 1) * 2 ^ j + Z.ones j).
  2:{ rewrite !Z.ones_equiv. rewrite Z.mul_sub_distr_r, <- Z.pow_add_r by lia.
      replace (32 - j + j) with 32 by lia. lia. }
  pose proof (Z.pow_pos_nonneg 2 j ltac:(lia) ltac:(lia)).
  rewrite Z.div_add_l, Z.div_small by (rewrite ?Z.ones_equiv; lia).
  rewrite Z.add_0_r, Z.mul_sub_distr_r, <- Z.pow_add_r by lia. f_equal; [f_equal; lia|lia].
Qed.

Lemma maskBits_spec j i : 0 <= j <= 32 -> 0 <= i -> Z.testbit (maskBits j) i = (i <? 32) && negb (i <? j).
Proof. intros Hj Hi. unfold maskBits. by rewrite Z.ldiff_spec, !Z.testbit_ones_nonneg by lia. Qed.

(** The last address of a block: the network address with all host bits set. *)
Lemma block_last x j : 0 <= x < 2 ^ 32 -> 0 <= j <= 32 ->
  let first := Z.land x (maskBits j) in
  Z.lor (Z.land first (maskBits j)) (Z.lxor (maskBits j) 0xffffffff) = first + 2 ^ j - 1 /\
  0 <= first /\ first + 2 ^ j <= 2 ^ 32.
Proof.
  intros Hx Hj first. change 0xffffffff with (Z.ones 32).
  assert (Z.land first (maskBits j) = first) as ->.
  { unfold first. by rewrite <- Z.land_assoc, Z.land_diag. }
  assert (Z.lxor (maskBits j) (Z.ones 32) = Z.ones j) as ->.
  { apply Z.bits_inj'. intros i Hi. rewrite Z.lxor_spec, maskBits_spec, !Z.testbit_ones_nonneg by lia.
    destruct (Z.ltb_spec i 32), (Z.ltb_spec i j); simpl; lia. }
  assert (Z.land first (Z.ones j) = 0) as Hd.
  { apply Z.bits_inj'. intros i Hi. unfold first.
    rewrite !Z.land_spec, maskBits_spec, Z.testbit_ones_nonneg, Z.bits_0 by lia.
    destruct (Z.testbit x i), (i <? 32), (i <? j); done. }
  rewrite <- Z.lxor_lor, <- Z.add_nocarry_lxor, Z.ones_equiv by done.
  assert (first = x / 2 ^ j * 2 ^ j) as Hf.
  { unfold first, maskBits. rewrite <- Z.shiftr_div_pow2, <- Z.shiftl_mul_pow2, <- Z.ldiff_ones_r by lia.
    apply Z.bits_inj'. intros i Hi. rewrite Z.land_spec, !Z.ldiff_spec, !Z.testbit_ones_nonneg by lia.
    destruct (Z.ltb_spec i 32); [by destruct (Z.testbit x i)|].
    assert (Z.testbit x i = false) as ->; [|done].
    destruct (decide (x = 0)) as [->|]; [apply Z.bits_0|]. apply Z.bits_above_log2; [lia|].
    apply Z.lt_le_trans with 32; [apply Z.log2_lt_pow2; lia|lia]. }
  split; [lia|].
  pose proof (Z.pow_pos_nonneg 2 j ltac:(lia) ltac:(lia)) as Hp.
  assert (2 ^ 32 = 2 ^ (32 - j) * 2 ^ j) as E by (rewrite <- Z.pow_add_r by lia; f_equal; lia).
  pose proof (Z.div_pos x (2 ^ j) ltac:(lia) Hp).
  assert (x / 2 ^ j < 2 ^ (32 - j)) by (apply Z.div_lt_upper_bound; lia). nia.
Qed.

Lemma ParseCIDR_v4 s nw : ParseCIDR s = Some nw -> length (net_IP nw) = 4%nat ->
  exists ip, is_bytes 4 ip /\ 0 <= net_ones nw <= 32 /\
    net_Mask nw = CIDRMask (net_ones nw) 32 /\ net_IP nw = and_bytes ip (net_Mask nw).
Proof.
  unfold ParseCIDR. intros H Hl. destruct (IndexByte s "/") as [i|]; [|done].
  destruct (ParseAddr _) as [[ip|ip z]|] eqn:Ha; [| |done]; apply ParseAddr_bytes in Ha.
  - destruct (String.eqb _ ""); [done|]. destruct (digits_value 0 _) as [n|]; [|done].
    destruct (Z.leb_spec (Z.of_N n) 32); [|done]. simplify_eq. cbn [net_ones net_Mask net_IP] in *.
    exists ip. split_and!; [done|lia|lia|done|]. unfold Mask16.
    replace (length (CIDRMask (Z.of_N n) 32) =? 4)%nat with true
      by (unfold CIDRMask; by rewrite be_bytes_length).
    by destruct ip.
  - exfalso. destruct (String.eqb z ""); [|done]. destruct (String.eqb _ ""); [done|].
    destruct (digits_value 0 _) as [n|]; [|done]. destruct (Z.of_N n <=? 128); [|done]. simplify_eq.
    cbn [net_IP] in Hl. unfold Mask16 in Hl.
    replace (length (CIDRMask (Z.of_N n) 128) =? 4)%nat with false in Hl
      by (unfold CIDRMask; by rewrite be_bytes_length).
    cbn [andb] in Hl. unfold and_bytes in Hl. rewrite length_zip_with in Hl. unfold CIDRMask in Hl.
    rewrite be_bytes_length in Hl. destruct Ha as [Ha _]. rewrite Ha in Hl. done.
Qed.
