(* ===== verification/IPUtil.v ===== *)
(** Address generators of [internal/iputil/iputil.go].  Integers are kept at the
    width of the Go code: [uint32] and [uint64] arithmetic wraps, [big.Int]
    arithmetic does not.  A Go [int] is 64 bits wide. *)
From stdpp Require Import base list strings pretty.
From Stdlib Require Import ZArith Lia Ascii.
From S2P Require Import Prelude GoStrings Net.
Open Scope Z_scope.

Definition uint32 (v : Z) : Z := v mod 2 ^ 32.
Definition uint64 (v : Z) : Z := v mod 2 ^ 64.

(** * IPv4 *)

(** The loop of [GenerateIPs]: the counter [i] is a [uint32] and wraps. *)
Fixpoint generateLoop (i lastIP : Z) (n : nat) : list string :=
  match n with
  | O => []
  | S n =>
      if i <=? lastIP then IP_String (be_bytes 4 i) :: generateLoop (uint32 (i + 1)) lastIP n
      else []
  end.

Definition GenerateIPs (ipBlock : string) (n : Z) : go (list string) :=
  match ParseCIDR ipBlock with
  | None => Ret []
  | Some netCIDR =>
      netMask ← Uint32 (net_Mask netCIDR);
      firstIP ← Uint32 (net_IP netCIDR);
      let lastIP := Z.lor (Z.land firstIP netMask) (Z.lxor netMask 0xffffffff) in
      Ret (generateLoop firstIP lastIP (Z.to_nat n))
  end.

Definition GenerateIPsWithStep (startIP : string) (count : Z) (stepIP : string) : go (list string) :=
  if count <? 0 then Fail (errors_New "negative count")
  else if count =? 0 then Ret []
  else
    match ParseIP startIP ≫= To4 with
    | None => Fail (errors_New "invalid startIP")
    | Some ip =>
        match ParseIP stepIP ≫= To4 with
        | None => Fail (errors_New "invalid stepIP")
        | Some step =>
            start ← Uint32 ip;
            stepVal ← Uint32 step;
            if stepVal =? 0 then Fail (errors_New "invalid stepIP: step is zero")
            else if uint32 (start + stepVal) <? start then Fail (errors_New "step causes overflow")
            else if 0xffffffff <? uint64 (start + uint64 (stepVal * uint64 (count - 1)))
            then Fail (errors_New "count causes overflow")
            else
              Ret (map (fun i => IP_String (be_bytes 4 (uint32 (start + uint32 (uint32 (Z.of_nat i) * stepVal)))))
                     (seq 0 (Z.to_nat count)))
        end
    end.

Definition IPv4ToHex (ipStr : string) : go string :=
  match ParseIP (TrimSpace ipStr) with
  | None => Fail (errors_New "invalid IP address")
  | Some ip =>
      match To4 ip with
      | None => Fail (errors_New "not an IPv4 address")
      | Some ip4 => Ret (Join (map (hex_byte true) ip4) "")
      end
  end.

(** * IPv6 *)

Definition ipToBigInt (ip : list Z) : Z := be_val (default [] (To16 ip)).

Definition bigIntToIP (ipInt : Z) : list Z :=
  let ipBytes := big_Bytes ipInt in
  if (length ipBytes <? 16)%nat then replicate (16 - length ipBytes) 0 ++ ipBytes else ipBytes.

(** [net.ParseIP(s).To16()] when it is an IPv6 address. *)
Definition parseV6 (s : string) : option (list Z) :=
  match ParseIP s ≫= To16 with
  | None => None
  | Some ip => match To4 ip with Some _ => None | None => Some ip end
  end.

Definition GenerateIPv6sWithStep (startIP : string) (count : Z) (stepIP : string) : go (list string) :=
  if count <? 0 then Fail (errors_New "negative count")
  else if count =? 0 then Ret []
  else
    match parseV6 startIP with
    | None => Fail (errors_New "invalid start IPv6")
    | Some ip =>
        match parseV6 stepIP with
        | None => Fail (errors_New "invalid step IPv6")
        | Some step =>
            let ipInt := ipToBigInt ip in
            let stepInt := ipToBigInt step in
            if stepInt =? 0 then Fail (errors_New "invalid step IPv6: step is zero")
            else if 2 ^ 128 <=? ipInt + stepInt * (count - 1) then Fail (errors_New "overflow IPv6")
            else Ret (map (fun i => IP_String (bigIntToIP (ipInt + stepInt * Z.of_nat i)))
                        (seq 0 (Z.to_nat count)))
        end
    end.

(** [make] with a negative capacity panics; a nil [net.IP] is [None]. *)
Definition GenerateIPv6s (baseIP : option (list Z)) (n : Z) : go (list string) :=
  if n <? 0 then Panic
  else
    match baseIP with
    | None => Fail (errors_New "invalid IPv6 address")
    | Some base =>
        match To16 base, To4 base with
        | Some ip, None =>
            let baseInt := be_val ip in
            mapM (fun i =>
                    ipBytes ← FillBytes 16 ((baseInt + Z.of_nat i) mod 2 ^ 128);
                    Ret (IP_String ipBytes))
              (seq 0 (Z.to_nat n))
        | _, _ => Fail (errors_New "not a valid IPv6 address")
        end
    end.

Definition GenerateIPv6 (startIP : string) (count : Z) : go (list string) :=
  if String.eqb startIP "" then Fail (errors_New "invalid IPv6 address")
  else
    match ParseCIDR startIP with
    | None => Fail (errors_New "parsed CIDR is nil")
    | Some netCIDR =>
        match To16 (net_IP netCIDR), To4 (net_IP netCIDR) with
        | Some ipBytes, None =>
            if negb (length (net_Mask netCIDR) =? 16)%nat then Fail (errors_New "expected IPv6 mask")
            else
              let networkIP := Z.land (be_val ipBytes) (be_val (net_Mask netCIDR)) in
              let step := 2 ^ (128 - net_ones netCIDR) in
              let count := if count =? 0 then 1 else count in
              mapM (fun i =>
                      ipv6 ← FillBytes 16 ((Z.of_nat i * step + networkIP + 1) mod 2 ^ 128);
                      Ret (IP_String ipv6))
                (seq 0 (Z.to_nat count))
        | _, _ => Fail (errors_New "IPv4 address given, expected IPv6")
        end
    end.

Definition IPEqual (got want : string) : bool :=
  match ParseAddr got, ParseAddr want with
  | Some gotIP, Some wantIP => bool_decide (gotIP = wantIP)
  | _, _ => String.eqb got want
  end.

(** * Increments *)

(** One increment, on the bytes from the last to the first. *)
Fixpoint incBytes (rev_ip : list Z) : list Z :=
  match rev_ip with
  | [] => []
  | b :: bs =>
      let b' := (b + 1) mod 256 in
      if 0 <? b' then b' :: bs else b' :: incBytes bs
  end.

Definition NextIPMultiSteps (ip : list Z) (count : Z) : list Z :=
  Nat.iter (Z.to_nat count) (fun ip => rev (incBytes (rev ip))) ip.

(** * MAC addresses *)

Definition parseMAC6 (s : string) : option (list Z) :=
  match ParseMAC s with
  | Some hw => if (length hw =? 6)%nat then Some hw else None
  | None => None
  end.

Definition GenerateMACs (startMAC : string) (count : Z) (stepMACStr : string) : go (list string) :=
  if count <? 0 then Ret []
  else if count =? 0 then Ret []
  else
    match parseMAC6 startMAC with
    | None => Ret []
    | Some baseMAC =>
        match parseMAC6 stepMACStr with
        | None => Ret []
        | Some stepMAC =>
            let baseInt := be_val baseMAC in
            let stepInt := be_val stepMAC in
            let maxMac := 2 ^ 48 - 1 in
            if maxMac <? baseInt + stepInt * (count - 1) then Ret []
            else
              mapM (fun i =>
                      buf ← FillBytes 6 (baseInt + stepInt * Z.of_nat i);
                      Ret (HardwareAddr_String buf))
                (seq 0 (Z.to_nat count))
        end
    end.

Definition IncrementMAC (startMAC : string) (i : Z) : go string :=
  macs ← GenerateMACs startMAC i "00:00:00:00:00:01";
  match macs with
  | [] => Fail (errors_New "failed to generate MAC address")
  | mac :: _ => Ret mac
  end.

(** * Lemmas *)

(** The text of the IPv4 address with value [v], modulo [2^32]. *)
Definition v4text (v : Z) : string := IP_String (be_bytes 4 v).

Lemma v4text_parses v : ParseIP (v4text v) = Some (v4InV6Prefix ++ be_bytes 4 v).
Proof. apply ParseIP_v4_string, is_bytes_be_bytes. Qed.

Lemma v4text_uint32 v : v4text (uint32 v) = v4text v.
Proof.
  unfold v4text, uint32. change (2 ^ 32) with (256 ^ Z.of_nat 4). by rewrite be_bytes_mod.
Qed.

Lemma v4text_inj v w : 0 <= v < 2 ^ 32 -> 0 <= w < 2 ^ 32 -> v4text v = v4text w -> v = w.
Proof.
  intros Hv Hw H. assert (be_bytes 4 v = be_bytes 4 w) as E.
  { apply (inj (app v4InV6Prefix)), (inj Some). by rewrite <- !v4text_parses, H. }
  apply (f_equal be_val) in E. rewrite !be_val_bytes in E.
  rewrite !Z.mod_small in E by done. done.
Qed.

Lemma generateLoop_below n : forall i lastIP, 0 <= i <= lastIP + 1 -> lastIP < 2 ^ 32 - 1 ->
  generateLoop i lastIP n =
  map (fun k => v4text (i + Z.of_nat k)) (seq 0 (n `min` Z.to_nat (lastIP - i + 1))).
Proof.
  induction n as [|n IH]; intros i lastIP Hi Hlast; [done|]. cbn [generateLoop].
  destruct (Z.leb_spec i lastIP).
  - replace (Z.to_nat (lastIP - i + 1)) with (S (Z.to_nat (lastIP - i))) by lia.
    rewrite <- Nat.succ_min_distr. cbn [seq map]. f_equal; [unfold v4text; do 2 f_equal; lia|].
    assert (uint32 (i + 1) = i + 1) as -> by (unfold uint32; rewrite Z.mod_small; lia).
    rewrite IH by lia. rewrite <- seq_shift, map_map.
    replace (lastIP - (i + 1) + 1) with (lastIP - i) by lia.
    apply map_ext. intros k. f_equal. lia.
  - replace (Z.to_nat (lastIP - i + 1)) with 0%nat by lia. by rewrite Nat.min_0_r.
Qed.

Lemma generateLoop_wraps n : forall i,
  generateLoop (uint32 i) (2 ^ 32 - 1) n = map (fun k => v4text (i + Z.of_nat k)) (seq 0 n).
Proof.
  induction n as [|n IH]; intros i; [done|]. cbn [generateLoop].
  assert (0 <= uint32 i < 2 ^ 32) by (apply Z.mod_pos_bound; lia).
  rewrite (proj2 (Z.leb_le _ _)) by lia. cbn [seq map]. f_equal.
  - fold (v4text (uint32 i)). rewrite v4text_uint32. f_equal. lia.
  - assert (uint32 (uint32 i + 1) = uint32 (i + 1)) as ->
      by (unfold uint32; rewrite Zplus_mod_idemp_l; done).
    rewrite IH, <- seq_shift, map_map. apply map_ext. intros k. f_equal. lia.
Qed.

Lemma Uint32_four bs : is_bytes 4 bs -> Uint32 bs = Ret (be_val bs).
Proof. intros [Hl _]. unfold Uint32. rewrite Hl. simpl. by rewrite take_ge by lia. Qed.

Lemma and_bytes_is_bytes n x y : is_bytes n x -> is_bytes n y -> is_bytes n (and_bytes x y).
Proof.
  intros [Hx Bx] [Hy By]. split; [unfold and_bytes; rewrite length_zip_with; lia|].
  unfold and_bytes. clear Hx Hy. revert y By. induction Bx; intros y By; [done|].
  destruct By; simpl; constructor; [by apply land_byte|auto].
Qed.

Lemma GenerateIPs_cases block n nw :
  ParseCIDR block = Some nw -> length (net_IP nw) = 4%nat -> 0 <= n ->
  let first := be_val (net_IP nw) in
  let size := 2 ^ (32 - net_ones nw) in
  exists l, GenerateIPs block n = Ret l /\
    first + size <= 2 ^ 32 /\
    Z.of_nat (length l) = (if first + size =? 2 ^ 32 then n else Z.min n size) /\
    (forall i s, l !! i = Some s ->
       ParseIP s = Some (v4InV6Prefix ++ be_bytes 4 (first + Z.of_nat i))).
Proof.
  intros Hp Hl Hn first size.
  destruct (ParseCIDR_v4 _ _ Hp Hl) as (ip & Hip & Hk & Hm & Hnet).
  assert (is_bytes 4 (net_Mask nw)) as Hmb by (rewrite Hm; apply is_bytes_be_bytes).
  assert (be_val (net_Mask nw) = maskBits (32 - net_ones nw)) as Hmv.
  { rewrite Hm, maskBits_val by lia. unfold CIDRMask. rewrite be_val_bytes. apply Z.mod_small.
    pose proof (Z.pow_pos_nonneg 2 (32 - net_ones nw) ltac:(lia) ltac:(lia)).
    pose proof (Z.pow_le_mono_r 2 (32 - net_ones nw) 32 ltac:(lia) ltac:(lia)).
    change (256 ^ Z.of_nat (Z.to_nat (32 / 8))) with (2 ^ 32). lia. }
  assert (is_bytes 4 (net_IP nw)) as Hib by (rewrite Hnet; by apply and_bytes_is_bytes).
  assert (first = Z.land (be_val ip) (maskBits (32 - net_ones nw))) as Hf
    by (unfold first; rewrite Hnet, (be_val_and 4), Hmv by done; done).
  pose proof (be_val_bound 4 ip Hip) as Hb. change (256 ^ Z.of_nat 4) with (2 ^ 32) in Hb.
  destruct (block_last (be_val ip) (32 - net_ones nw) Hb ltac:(lia)) as (Hlast & H0 & Hle).
  rewrite <- Hf in Hlast, H0, Hle. fold size in Hlast, Hle.
  assert (0 < size) by (apply Z.pow_pos_nonneg; lia).
  unfold GenerateIPs. rewrite Hp, (Uint32_four _ Hmb), (Uint32_four _ Hib).
  cbn [mbind outcome_bind]. fold first. rewrite Hmv, Hlast. eexists. split; [reflexivity|]. split; [done|].
  assert (generateLoop first (first + size - 1) (Z.to_nat n) =
    map (fun k => v4text (first + Z.of_nat k))
      (seq 0 (if first + size =? 2 ^ 32 then Z.to_nat n else Z.to_nat n `min` Z.to_nat size))) as ->.
  { destruct (Z.eqb_spec (first + size) (2 ^ 32)) as [E|E].
    - rewrite E, <- generateLoop_wraps. f_equal. unfold uint32. rewrite Z.mod_small; lia.
    - rewrite generateLoop_below by lia. do 4 f_equal. lia. }
  split.
  - rewrite length_map, length_seq. destruct (_ =? _); lia.
  - intros i s Hi. apply list_lookup_fmap_Some in Hi as (k & -> & Hi). apply lookup_seq in Hi as [-> _].
    apply v4text_parses.
Qed.

(** C38: an IPv4 block gives its first [n] addresses in order, each text parsing
    back to its address, at most one per address of the block; but the loop's
    [uint32] counter never passes the last address of a block that ends at
    255.255.255.255, so such a block gives all [n] texts, wrapping to 0.0.0.0. *)
Theorem GenerateIPs_block block n nw :
  ParseCIDR block = Some nw -> length (net_IP nw) = 4%nat -> 0 <= n ->
  let first := be_val (net_IP nw) in
  let size := 2 ^ (32 - net_ones nw) in
  exists l, GenerateIPs block n = Ret l /\
    first + size <= 2 ^ 32 /\
    Z.of_nat (length l) = (if first + size =? 2 ^ 32 then n else Z.min n size) /\
    (forall i s, l !! i = Some s ->
       ParseIP s = Some (v4InV6Prefix ++ be_bytes 4 (first + Z.of_nat i))).
Proof. apply GenerateIPs_cases. Qed.

Lemma GenerateIPs_block_witness :
  exists l, GenerateIPs "10.1.2.3/30" 9 = Ret l /\ Z.of_nat (length l) = 4.
Proof.
  destruct (GenerateIPs_block "10.1.2.3/30" 9
    {| net_IP := [10; 1; 2; 0]; net_Mask := [255; 255; 255; 252]; net_ones := 30 |})
    as (l & Hg & _ & Hlen & _); [vm_compute; reflexivity|reflexivity|lia|].
  exists l. split; [exact Hg|]. rewrite Hlen. vm_compute. reflexivity.
Defined.

(** ** Stepped addresses *)

Definition parseV4 (s : string) : option (list Z) := ParseIP s ≫= To4.

Lemma parseV4_bytes s ip : parseV4 s = Some ip -> is_bytes 4 ip.
Proof. intros (a & Ha & H)%bind_Some. eauto with go. Qed.

Lemma parseV6_bytes s ip : parseV6 s = Some ip -> is_bytes 16 ip.
Proof.
  unfold parseV6. destruct (ParseIP s) as [a|] eqn:Ha; [|done]. apply ParseIP_bytes in Ha.
  simpl. unfold To16. destruct Ha as [Ha Hb]. rewrite Ha. simpl. destruct (To4 a); intros; simplify_eq.
  by split.
Qed.

(** The text the loop prints for its [i]-th address. *)
Lemma stepped_text start stepVal i :
  IP_String (be_bytes 4 (uint32 (start + uint32 (uint32 (Z.of_nat i) * stepVal)))) =
  v4text (start + Z.of_nat i * stepVal).
Proof.
  fold (v4text (uint32 (start + uint32 (uint32 (Z.of_nat i) * stepVal)))).
  rewrite <- (v4text_uint32 (start + Z.of_nat i * stepVal)). f_equal.
  unfold uint32. by rewrite Z.mul_mod_idemp_l, Z.add_mod_idemp_r by lia.
Qed.

Lemma stepped_NoDup start stepVal n :
  0 < stepVal -> (forall i, (i < n)%nat -> 0 <= start + Z.of_nat i * stepVal < 2 ^ 32) ->
  NoDup (map (fun i => IP_String (be_bytes 4 (uint32 (start + uint32 (uint32 (Z.of_nat i) * stepVal))))) (seq 0 n)).
Proof.
  intros Hs Hb. apply NoDup_fmap_2_strong; [|apply NoDup_seq].
  intros i j [_ Hi]%elem_of_seq [_ Hj]%elem_of_seq. rewrite !stepped_text. intros H.
  apply v4text_inj in H; [nia|by apply Hb..].
Qed.

(** The outcome of [GenerateIPsWithStep] on valid addresses, case by case. *)
Lemma GenerateIPsWithStep_cases startIP stepIP count ip step :
  parseV4 startIP = Some ip -> parseV4 stepIP = Some step -> 0 < count <= 2 ^ 32 ->
  let start := be_val ip in
  let stepVal := be_val step in
  match GenerateIPsWithStep startIP count stepIP with
  | Ret l =>
      0 < stepVal /\ start + stepVal < 2 ^ 32 /\ start + stepVal * (count - 1) < 2 ^ 32 /\
      Z.of_nat (length l) = count /\ NoDup l /\
      (forall i s, l !! i = Some s ->
         ParseIP s = Some (v4InV6Prefix ++ be_bytes 4 (start + Z.of_nat i * stepVal)))
  | Fail _ => stepVal = 0 \/ 2 ^ 32 <= start + stepVal \/ 2 ^ 32 <= start + stepVal * (count - 1)
  | _ => False
  end.
Proof.
  intros Hs Ht Hc start stepVal. pose proof (parseV4_bytes _ _ Hs) as Bs. pose proof (parseV4_bytes _ _ Ht) as Bt.
  pose proof (be_val_bound 4 ip Bs) as Rs. pose proof (be_val_bound 4 step Bt) as Rt.
  change (256 ^ Z.of_nat 4) with (2 ^ 32) in Rs, Rt. fold start in Rs. fold stepVal in Rt.
  unfold GenerateIPsWithStep. unfold parseV4 in Hs, Ht. rewrite Hs, Ht.
  rewrite (proj2 (Z.ltb_ge count 0)), (proj2 (Z.eqb_neq count 0)) by lia.
  rewrite (Uint32_four _ Bs), (Uint32_four _ Bt). cbn [mbind outcome_bind]. fold start stepVal.
  destruct (Z.eqb_spec stepVal 0) as [?|Hnz]; [by left|].
  assert (uint64 (count - 1) = count - 1) as -> by (unfold uint64; apply Z.mod_small; lia).
  assert (0 <= stepVal * (count - 1) <= (2 ^ 32 - 1) * (2 ^ 32 - 1)) as Hm
    by (split; [nia|apply Z.mul_le_mono_nonneg; lia]).
  assert (uint64 (start + uint64 (stepVal * (count - 1))) = start + stepVal * (count - 1)) as ->
    by (unfold uint64; rewrite !Z.mod_small; rewrite ?Z.mod_small; lia).
  destruct (Z.ltb_spec (uint32 (start + stepVal)) start) as [Ho|Ho].
  { right; left. destruct (Z.ltb_spec (start + stepVal) (2 ^ 32)); [|done].
    unfold uint32 in Ho. rewrite Z.mod_small in Ho; lia. }
  destruct (Z.ltb_spec 0xffffffff (start + stepVal * (count - 1))) as [Hw|Hw]; [lia|].
  assert (start + stepVal < 2 ^ 32) as Hstep.
  { destruct (Z.ltb_spec (start + stepVal) (2 ^ 32)); [done|]. exfalso.
    unfold uint32 in Ho. replace (start + stepVal) with (start + stepVal - 2 ^ 32 + 1 * 2 ^ 32) in Ho by lia.
    rewrite Z.mod_add, Z.mod_small in Ho by lia. lia. }
  split_and!; [lia|lia|lia|rewrite length_map, length_seq; lia| |].
  - apply stepped_NoDup; [lia|]. intros i Hi. nia.
  - intros i s Hi. apply list_lookup_fmap_Some in Hi as (k & -> & Hi). apply lookup_seq in Hi as [-> Hk].
    rewrite stepped_text. apply v4text_parses.
Qed.

(** For valid addresses and a count of at most [2^32], a list of stepped
    addresses is returned exactly when the step is not zero and neither the
    first step nor the last address overflows; it then has [count] texts,
    distinct, the [i]-th parsing to [start + i * step] computed without
    wrap-around. *)
Theorem GenerateIPsWithStep_correct startIP stepIP count ip step :
  parseV4 startIP = Some ip -> parseV4 stepIP = Some step -> 0 < count <= 2 ^ 32 ->
  let start := be_val ip in
  let stepVal := be_val step in
  match GenerateIPsWithStep startIP count stepIP with
  | Ret l =>
      0 < stepVal /\ start + stepVal < 2 ^ 32 /\ start + stepVal * (count - 1) < 2 ^ 32 /\
      Z.of_nat (length l) = count /\ NoDup l /\
      (forall i s, l !! i = Some s ->
         ParseIP s = Some (v4InV6Prefix ++ be_bytes 4 (start + Z.of_nat i * stepVal)))
  | Fail _ => stepVal = 0 \/ 2 ^ 32 <= start + stepVal \/ 2 ^ 32 <= start + stepVal * (count - 1)
  | _ => False
  end.
Proof. apply GenerateIPsWithStep_cases. Qed.

Lemma GenerateIPsWithStep_correct_witness :
  match GenerateIPsWithStep "10.0.0.250" 3 "0.0.0.4" with
  | Ret l => Z.of_nat (length l) = 3 /\ NoDup l
  | _ => False
  end.
Proof.
  pose proof (GenerateIPsWithStep_correct "10.0.0.250" "0.0.0.4" 3 [10; 0; 0; 250] [0; 0; 0; 4]
    ltac:(vm_compute; reflexivity) ltac:(vm_compute; reflexivity) ltac:(lia)) as H.
  destruct (GenerateIPsWithStep "10.0.0.250" 3 "0.0.0.4") as [l|e| |] eqn:E.
  - cbv zeta in H. tauto.
  - vm_compute in E. discriminate E.
  - exact H.
  - exact H.
Defined.

(** ** Increments *)

Lemma incBytes_spec l : Forall (fun b => 0 <= b < 256) l ->
  is_bytes (length l) (rev (incBytes l)) /\
  be_val (rev (incBytes l)) = (be_val (rev l) + 1) mod 256 ^ Z.of_nat (length l).
Proof.
  induction l as [|b l IH]; intros H; [by split; [split; [|constructor]|]|].
  apply Forall_cons in H as [Hb H]. destruct (IH H) as [[Hl Hok] Hv]. cbn [incBytes].
  set (n := length l) in *. cbn [length]. fold n. rewrite Nat2Z.inj_succ, Z.pow_succ_r by lia.
  pose proof (Z.pow_pos_nonneg 256 (Z.of_nat n) ltac:(lia) ltac:(lia)) as Hp.
  assert (is_bytes n (rev l)) as Hr by (split; [by rewrite length_rev|by apply Forall_rev]).
  pose proof (be_val_bound _ _ Hr) as Hbd.
  assert (0 <= (b + 1) mod 256 < 256) by (apply Z.mod_pos_bound; lia).
  destruct (Z.ltb_spec 0 ((b + 1) mod 256)) as [Hpos|Hz]; cbn [rev].
  - assert ((b + 1) mod 256 = b + 1) as E.
    { destruct (decide (b = 255)) as [->|]; [done|]. apply Z.mod_small. lia. }
    split.
    + split; [rewrite length_app, length_rev; simpl; lia|]. apply Forall_app.
      split; [by apply Forall_rev|]. by apply Forall_singleton.
    + rewrite !be_val_snoc, E. symmetry. rewrite Z.mod_small; [lia|nia].
  - assert (b = 255) as -> by (destruct (decide (b = 255)); [done|rewrite Z.mod_small in Hz; lia]).
    split.
    + split; [rewrite length_app; simpl; lia|]. apply Forall_app. split; [done|]. by apply Forall_singleton.
    + rewrite !be_val_snoc, Hv. change ((255 + 1) mod 256) with 0. rewrite Z.add_0_r.
      replace (be_val (rev l) * 256 + 255 + 1) with ((be_val (rev l) + 1) * 256) by lia.
      by rewrite Z.mul_comm, <- Z.mul_mod_distr_l, (Z.mul_comm _ 256) by lia.
Qed.

(** [NextIPMultiSteps] adds [count] to the address, of either length, read
    as a big-endian number, modulo the size of the address space. *)
Theorem NextIPMultiSteps_adds n ip count :
  is_bytes n ip -> 0 <= count ->
  is_bytes n (NextIPMultiSteps ip count) /\
  be_val (NextIPMultiSteps ip count) = (be_val ip + count) mod 256 ^ Z.of_nat n.
Proof.
  intros Hip Hc. unfold NextIPMultiSteps. rewrite <- (Z2Nat.id count) at 3 by done.
  generalize (Z.to_nat count) as k. clear Hc. induction k as [|k [[Hl Hok] Hv]].
  { simpl. split; [done|]. rewrite Z.add_0_r, Z.mod_small; [done|by apply be_val_bound]. }
  rewrite !(Nat.iter_succ k). set (x := Nat.iter k _ ip) in *.
  destruct (incBytes_spec (rev x) (Forall_rev Hok)) as [Hb Hi].
  rewrite length_rev, Hl, rev_involutive in *. split; [done|].
  rewrite Hi, Hv, Z.add_mod_idemp_l by lia. f_equal. lia.
Qed.

Lemma sample_ip_bytes : is_bytes 4 [192; 0; 2; 255].
Proof. split; [reflexivity|]. rewrite !Forall_cons. split_and!; try lia. constructor. Qed.

Lemma NextIPMultiSteps_adds_witness : be_val (NextIPMultiSteps [192; 0; 2; 255] 2) = be_val [192; 0; 3; 1].
Proof.
  rewrite (proj2 (NextIPMultiSteps_adds 4 [192; 0; 2; 255] 2 sample_ip_bytes ltac:(lia))).
  vm_compute. reflexivity.
Defined.

(** ** MAC addresses *)

Lemma mapM_map {E A B} (f : A -> outcome E B) (g : A -> B) l :
  (forall x, x ∈ l -> f x = Ret (g x)) -> mapM f l = Ret (map g l).
Proof.
  induction l as [|x l IH]; intros H; [done|]. simpl. rewrite H by (by left).
  simpl. rewrite IH; [done|]. intros y Hy. apply H. by right.
Qed.

Lemma xtoi2_bound s e b : xtoi2 s e = Some b -> 0 <= b < 256.
Proof.
  unfold xtoi2. destruct s as [|x [|y rest]]; try done.
  intros H. destruct rest as [|c rest]; [|destruct (Ascii.eqb c e); [|done]];
    apply hex_value_bound in H; [exact H|lia|exact H|lia].
Qed.

Lemma mac_pairs_bytes n s sep l : mac_pairs n s sep = Some l -> Forall (fun b => 0 <= b < 256) l.
Proof.
  revert s l. induction n as [|n IH]; intros s l H; cbn [mac_pairs] in H; [by simplify_eq|].
  apply bind_Some in H as (b & Hb & H). apply bind_Some in H as (bs & Hbs%IH & H). simplify_eq.
  constructor; [|done]. by eapply xtoi2_bound.
Qed.

Lemma mac_quads_bytes n s sep l : mac_quads n s sep = Some l -> Forall (fun b => 0 <= b < 256) l.
Proof.
  revert s l. induction n as [|n IH]; intros s l H; cbn [mac_quads] in H; [by simplify_eq|].
  apply bind_Some in H as (b1 & Hb1%xtoi2_bound & H). apply bind_Some in H as (b2 & Hb2%xtoi2_bound & H).
  apply bind_Some in H as (bs & Hbs%IH & H). simplify_eq. by rewrite !Forall_cons.
Qed.

Lemma parseMAC6_bytes s hw : parseMAC6 s = Some hw -> is_bytes 6 hw.
Proof.
  unfold parseMAC6. destruct (ParseMAC s) as [l|] eqn:E; [|done].
  destruct (Nat.eqb_spec (length l) 6); [|done]. intros [= <-]. split; [done|].
  unfold ParseMAC in E. repeat (case_match; try done); eauto using mac_pairs_bytes, mac_quads_bytes.
Qed.

(** The whole list of [GenerateMACs] when nothing overflows. *)
Lemma GenerateMACs_list startMAC stepMAC count base step :
  parseMAC6 startMAC = Some base -> parseMAC6 stepMAC = Some step -> 0 < count ->
  be_val base + be_val step * (count - 1) < 2 ^ 48 ->
  GenerateMACs startMAC count stepMAC =
  Ret (map (fun i => HardwareAddr_String (be_bytes 6 (be_val base + be_val step * Z.of_nat i)))
         (seq 0 (Z.to_nat count))).
Proof.
  intros Hs Ht Hc Hle. unfold GenerateMACs.
  rewrite Hs, Ht, (proj2 (Z.ltb_ge count 0)), (proj2 (Z.eqb_neq count 0)), (proj2 (Z.ltb_ge _ _)) by lia.
  apply parseMAC6_bytes, be_val_bound in Hs, Ht.
  apply mapM_map. intros i [_ Hi]%elem_of_seq. unfold FillBytes.
  rewrite (proj2 (Z.ltb_lt _ _)); [done|]. change (256 ^ Z.of_nat 6) with (2 ^ 48). nia.
Qed.

(** [GenerateMACs] gives [count] texts, the [i]-th parsing to
    [start + i * step], when the last fits in 48 bits, and none otherwise. *)
Theorem GenerateMACs_correct startMAC stepMAC count base step :
  parseMAC6 startMAC = Some base -> parseMAC6 stepMAC = Some step -> 0 < count ->
  exists l, GenerateMACs startMAC count stepMAC = Ret l /\
    Z.of_nat (length l) = (if be_val base + be_val step * (count - 1) <? 2 ^ 48 then count else 0) /\
    (forall i s, l !! i = Some s ->
       parseMAC6 s = Some (be_bytes 6 (be_val base + be_val step * Z.of_nat i))).
Proof.
  intros Hs Ht Hc. destruct (Z.ltb_spec (be_val base + be_val step * (count - 1)) (2 ^ 48)) as [Hlt|Hge].
  - rewrite (GenerateMACs_list _ _ _ base step) by done. eexists. split; [reflexivity|].
    split; [rewrite length_map, length_seq; lia|].
    intros i s Hi. apply list_lookup_fmap_Some in Hi as (k & -> & Hi). apply lookup_seq in Hi as [-> _].
    unfold parseMAC6. rewrite ParseMAC_String by apply is_bytes_be_bytes. by rewrite be_bytes_length.
  - exists []. split; [|by split]. unfold GenerateMACs.
    by rewrite Hs, Ht, (proj2 (Z.ltb_ge count 0)), (proj2 (Z.eqb_neq count 0)), (proj2 (Z.ltb_lt _ _)) by lia.
Qed.

Lemma GenerateMACs_correct_witness :
  exists l, GenerateMACs "00:00:00:00:00:fe" 3 "00-00-00-00-00-01" = Ret l /\ Z.of_nat (length l) = 3.
Proof.
  destruct (GenerateMACs_correct "00:00:00:00:00:fe" "00-00-00-00-00-01" 3 [0; 0; 0; 0; 0; 254] [0; 0; 0; 0; 0; 1])
    as (l & Hl & Hlen & _); [vm_compute; reflexivity..|lia|].
  exists l. split; [exact Hl|]. rewrite Hlen. vm_compute. reflexivity.
Defined.

(** [IncrementMAC] never increments: for every valid address and every
    positive [i] that fits it returns the address it was given, in canonical
    form. *)
Theorem IncrementMAC_identity startMAC hw i :
  parseMAC6 startMAC = Some hw -> 0 < i -> be_val hw + (i - 1) < 2 ^ 48 ->
  IncrementMAC startMAC i = Ret (HardwareAddr_String hw).
Proof.
  intros Hs Hi Hle. unfold IncrementMAC.
  rewrite (GenerateMACs_list _ _ _ hw [0; 0; 0; 0; 0; 1]) by (done || (change (be_val [0; 0; 0; 0; 0; 1]) with 1; lia)).
  destruct (Z.to_nat i) as [|k] eqn:E; [lia|]. cbn [mbind outcome_bind seq map].
  do 2 f_equal. rewrite Z.mul_0_r, Z.add_0_r. by apply be_bytes_val, (parseMAC6_bytes startMAC).
Qed.

Lemma IncrementMAC_identity_witness : IncrementMAC "00:11:22:33:44:55" 5 = Ret "00:11:22:33:44:55".
Proof.
  exact (IncrementMAC_identity "00:11:22:33:44:55" [0; 17; 34; 51; 68; 85] 5
           ltac:(vm_compute; reflexivity) ltac:(lia) ltac:(vm_compute; reflexivity)).
Defined.

(** ** IPv6 *)

Lemma be_bytes_pad m k v : 0 <= v < 256 ^ Z.of_nat k -> be_bytes (m + k) v = replicate m 0 ++ be_bytes k v.
Proof.
  intros Hv. induction m as [|m IH]; [done|]. cbn [Nat.add be_bytes replicate app]. rewrite IH. f_equal.
  rewrite Z.div_small; [done|]. split; [lia|]. apply Z.lt_le_trans with (256 ^ Z.of_nat k); [lia|].
  apply Z.pow_le_mono_r; lia.
Qed.

Lemma bigIntToIP_bytes v : 0 <= v < 2 ^ 128 -> bigIntToIP v = be_bytes 16 v.
Proof.
  intros Hv. unfold bigIntToIP, big_Bytes. rewrite be_bytes_length.
  set (k := if v =? 0 then 0%nat else Z.to_nat (Z.log2 v / 8 + 1)).
  assert ((k <= 16)%nat /\ v < 256 ^ Z.of_nat k) as [Hk Hlt].
  { unfold k. destruct (Z.eqb_spec v 0) as [->|Hnz]; [split; [lia|done]|].
    pose proof (Z.log2_nonneg v). pose proof (Z.div_pos (Z.log2 v) 8 ltac:(lia) ltac:(lia)).
    assert (Z.log2 v < 128) by (apply Z.log2_lt_pow2; lia). split.
    - assert (Z.log2 v / 8 < 16) by (apply Z.div_lt_upper_bound; lia). lia.
    - rewrite Z2Nat.id by lia. change 256 with (2 ^ 8). rewrite <- Z.pow_mul_r by lia.
      apply Z.log2_lt_pow2; [lia|]. pose proof (Z.mod_pos_bound (Z.log2 v) 8 ltac:(lia)).
      pose proof (Z.div_mod (Z.log2 v) 8 ltac:(lia)). lia. }
  destruct (Nat.ltb_spec k 16); [|by replace k with 16%nat by lia].
  rewrite <- be_bytes_pad by lia. f_equal. lia.
Qed.

(** The outcome of [GenerateIPv6sWithStep] on valid addresses, case by case. *)
Lemma GenerateIPv6sWithStep_cases startIP stepIP count ip step :
  parseV6 startIP = Some ip -> parseV6 stepIP = Some step -> 0 < count ->
  let start := be_val ip in
  let stepInt := be_val step in
  match GenerateIPv6sWithStep startIP count stepIP with
  | Ret l =>
      0 < stepInt /\ start + stepInt * (count - 1) < 2 ^ 128 /\
      l = map (fun i => IP_String (be_bytes 16 (start + stepInt * Z.of_nat i))) (seq 0 (Z.to_nat count))
  | Fail _ => stepInt = 0 \/ 2 ^ 128 <= start + stepInt * (count - 1)
  | _ => False
  end.
Proof.
  intros Hs Ht Hc start stepInt. pose proof (parseV6_bytes _ _ Hs) as Bs. pose proof (parseV6_bytes _ _ Ht) as Bt.
  assert (forall x, is_bytes 16 x -> ipToBigInt x = be_val x) as Hbig.
  { intros x [Hx _]. unfold ipToBigInt, To16. by rewrite Hx. }
  pose proof (be_val_bound 16 ip Bs) as Rs. pose proof (be_val_bound 16 step Bt) as Rt.
  fold start in Rs. fold stepInt in Rt.
  unfold GenerateIPv6sWithStep. rewrite Hs, Ht, !Hbig by done. fold start stepInt.
  rewrite (proj2 (Z.ltb_ge count 0)), (proj2 (Z.eqb_neq count 0)) by lia.
  destruct (Z.eqb_spec stepInt 0); [by left|]. destruct (Z.leb_spec (2 ^ 128) (start + stepInt * (count - 1))); [by right|].
  split; [lia|]. split; [done|]. apply map_ext_in. intros i Hi%in_seq. rewrite bigIntToIP_bytes; [done|]. nia.
Qed.

(** For valid IPv6 addresses and a positive count, the stepped addresses are
    returned exactly when the step is not zero and the last one is below
    [2^128]; the [i]-th is [start + i * step]. *)
Theorem GenerateIPv6sWithStep_correct startIP stepIP count ip step :
  parseV6 startIP = Some ip -> parseV6 stepIP = Some step -> 0 < count ->
  let start := be_val ip in
  let stepInt := be_val step in
  match GenerateIPv6sWithStep startIP count stepIP with
  | Ret l =>
      0 < stepInt /\ start + stepInt * (count - 1) < 2 ^ 128 /\
      l = map (fun i => IP_String (be_bytes 16 (start + stepInt * Z.of_nat i))) (seq 0 (Z.to_nat count))
  | Fail _ => stepInt = 0 \/ 2 ^ 128 <= start + stepInt * (count - 1)
  | _ => False
  end.
Proof. apply GenerateIPv6sWithStep_cases. Qed.

Lemma GenerateIPv6sWithStep_correct_witness :
  match GenerateIPv6sWithStep "2001:db8::1" 2 "::1:0" with
  | Ret l => l = map (fun i => IP_String (be_bytes 16 (0x20010db8000000000000000000000001 + 65536 * Z.of_nat i))) (seq 0 2)
  | _ => False
  end.
Proof.
  pose proof (GenerateIPv6sWithStep_correct "2001:db8::1" "::1:0" 2 (be_bytes 16 0x20010db8000000000000000000000001)
    (be_bytes 16 65536) ltac:(vm_compute; reflexivity) ltac:(vm_compute; reflexivity) ltac:(lia)) as H.
  destruct (GenerateIPv6sWithStep "2001:db8::1" 2 "::1:0") as [l|e| |] eqn:E.
  - exact (proj2 (proj2 H)).
  - vm_compute in E. discriminate E.
  - exact H.
  - exact H.
Defined.

(** ** Hexadecimal form *)

Definition hex_ok (b : Z) : bool :=
  bool_decide (hex_value 0 (hex_byte true b) = Some b).

(** [IPv4ToHex] prints eight digits that read back as the address. *)
Theorem IPv4ToHex_roundtrip s h :
  IPv4ToHex s = Ret h ->
  exists ip4, parseV4 (TrimSpace s) = Some ip4 /\ String.length h = 8%nat /\ hex_value 0 h = Some (be_val ip4).
Proof.
  unfold IPv4ToHex, parseV4. destruct (ParseIP (TrimSpace s)) as [ip|] eqn:Hp; [|done].
  apply ParseIP_bytes in Hp. destruct (To4 ip) as [ip4|] eqn:H4; [|done]. intros [= <-].
  exists ip4. pose proof (To4_bytes _ _ Hp H4) as [Hl Hb]. simpl. split; [done|].
  destruct ip4 as [|a [|b [|c [|d [|? ?]]]]]; try done.
  rewrite !Forall_cons in Hb. destruct Hb as (Ha & Hb & Hc & Hd & _).
  assert (forall x t acc, 0 <= x < 256 -> hex_value acc (hex_byte true x +:+ t) = hex_value (acc * 256 + x) t) as Hh.
  { intros x t acc Hx. assert (hex_ok x = true) as E by (by apply byte_cases; [vm_compute|]).
    apply bool_decide_eq_true in E. unfold hex_byte in *. rewrite !str_app_cons. cbn [hex_value] in *.
    destruct (hex_digit _) as [h1|]; [|done]. destruct (hex_digit _) as [h2|]; [|done].
    change ("" +:+ t) with t. f_equal. injection E as E. lia. }
  split; [reflexivity|].
  change (Join (map (hex_byte true) [a; b; c; d]) "") with
    (hex_byte true a +:+ (hex_byte true b +:+ (hex_byte true c +:+ hex_byte true d))).
  rewrite <- (str_app_nil_r (hex_byte true d)). rewrite (Hh a), (Hh b), (Hh c), (Hh d) by done. reflexivity.
Qed.

Lemma IPv4ToHex_roundtrip_witness : hex_value 0 "C0A80001" = Some (be_val [192; 168; 0; 1]).
Proof.
  destruct (IPv4ToHex_roundtrip " 192.168.0.1 " "C0A80001" ltac:(vm_compute; reflexivity)) as (ip & Hp & _ & Hh).
  rewrite Hh. assert (parseV4 (TrimSpace " 192.168.0.1 ") = Some [192; 168; 0; 1]) as E by (vm_compute; reflexivity).
  rewrite E in Hp. injection Hp as <-. reflexivity.
Defined.
