(* ===== verification/Version.v ===== *)
(** The version order of test plan identifiers, [lessVersion] of
    [tools/addrundata/lib.go], and the listing order built on it. *)
From stdpp Require Import base list gmap strings sorting.
From Stdlib Require Import ZArith Lia Ascii OrdersEx.
From S2P Require Import Prelude GoStrings.

(** * lib.go *)

Definition is_digit (c : ascii) : bool := bool_decide (is_Some (digit_val c)).

(** A greedy run of the characters that satisfy [f], and the rest. *)
Fixpoint span (f : ascii -> bool) (s : string) : string * string :=
  match s with
  | EmptyString => (EmptyString, EmptyString)
  | String c s' =>
      if f c then let '(a, b) := span f s' in (String c a, b) else (EmptyString, s)
  end.

(** The successive matches of [versionTokenRE], a run of non-digits and then a
    run of digits: the two groups of each.  The empty match at the end of a non-empty text abuts the match before it and is not
    reported. *)
Fixpoint tokensFuel (fuel : nat) (s : string) : list (string * string) :=
  match fuel with
  | O => []
  | S fuel =>
      let '(w, r) := span (fun c => negb (is_digit c)) s in
      let '(d, r) := span is_digit r in
      (w, d) :: (if String.eqb r "" then [] else tokensFuel fuel r)
  end.
Definition FindAllStringSubmatch (s : string) : list (string * string) :=
  tokensFuel (S (String.length s)) s.

(** Go's [<] on strings. *)
Definition str_lt (x y : string) : bool := String.ltb x y.

(** The body of the loop: [Some b] when it returns [b]. *)
Definition lessToken (x y : string * string) : option bool :=
  let '(xword, xdigit) := x in
  let '(yword, ydigit) := y in
  if str_lt xword yword then Some true
  else if str_lt yword xword then Some false
  else
    let strings :=
      if str_lt xdigit ydigit then Some true
      else if str_lt ydigit xdigit then Some false
      else None in
    match Atoi_digits xdigit, Atoi_digits ydigit with
    | Some xn, Some yn =>
        if (xn <? yn)%Z then Some true else if (yn <? xn)%Z then Some false else strings
    | _, _ => strings
    end.

Fixpoint lessTokens (xs ys : list (string * string)) : bool :=
  match xs, ys with
  | x :: xs, y :: ys =>
      match lessToken x y with
      | Some b => b
      | None => lessTokens xs ys
      end
  | [], _ :: _ => true
  | _, [] => false
  end.

Definition lessVersion (x y : string) : bool :=
  lessTokens (FindAllStringSubmatch x) (FindAllStringSubmatch y).

(** * Lemmas: the order of strings *)

Lemma str_lt_spec x y : str_lt x y = true <-> String_as_OT.lt x y.
Proof.
  unfold str_lt, String.ltb. change (String_as_OT.lt x y) with (String.compare x y = Lt).
  by destruct (String.compare x y).
Qed.

Lemma str_lt_trans x y z : str_lt x y = true -> str_lt y z = true -> str_lt x z = true.
Proof. rewrite !str_lt_spec. apply String_as_OT.lt_strorder. Qed.

Lemma str_lt_irrefl x : str_lt x x = false.
Proof.
  apply not_true_iff_false. rewrite str_lt_spec. apply String_as_OT.lt_strorder.
Qed.

Lemma str_lt_trichotomy x y : str_lt x y = true \/ x = y \/ str_lt y x = true.
Proof. rewrite !str_lt_spec. destruct (String_as_OT.compare_spec x y); auto. Qed.

Lemma str_lt_asym x y : str_lt x y = true -> str_lt y x = false.
Proof.
  intros H. apply not_true_iff_false. intros H'.
  assert (str_lt x x = true) as E by (by apply (str_lt_trans x y)). by rewrite str_lt_irrefl in E.
Qed.

(** * The order of tokens *)

(** Digits that [strconv.Atoi] reads, or no digits. *)
Definition goodDigits (d : string) : Prop := d = "" \/ Atoi_digits d <> None.
Definition goodToken (t : string * string) : Prop := goodDigits t.2.

Definition digitsVal (d : string) : Z := default (-1)%Z (Atoi_digits d).

Lemma Atoi_digits_nonneg d n : Atoi_digits d = Some n -> (0 <= n)%Z /\ d <> "".
Proof. unfold Atoi_digits. intros H. repeat case_match; simplify_eq. split; [lia|done]. Qed.

(** Word first, then number, then the digits as text. *)
Definition tokenLt (x y : string * string) : Prop :=
  str_lt x.1 y.1 = true \/
  (x.1 = y.1 /\ ((digitsVal x.2 < digitsVal y.2)%Z \/
                 (digitsVal x.2 = digitsVal y.2 /\ str_lt x.2 y.2 = true))).

#[export] Instance tokenLt_trans : Transitive tokenLt.
Proof.
  intros [w1 d1] [w2 d2] [w3 d3]. unfold tokenLt. simpl.
  intros [H1|[-> H1]] [H2|[-> H2]]; [left; by apply (str_lt_trans w1 w2)|by left|by left|].
  right. split; [done|]. destruct H1 as [H1|[E1 H1]], H2 as [H2|[E2 H2]]; [left; lia|left; lia|left; lia|].
  right. split; [lia|]. by apply (str_lt_trans d1 d2).
Qed.

Lemma tokenLt_irrefl x : ~ tokenLt x x.
Proof. unfold tokenLt. rewrite !str_lt_irrefl. intros [?|[_ [?|[_ ?]]]]; [done|lia|done]. Qed.

Lemma empty_digits_first d : goodDigits d -> d <> "" -> (digitsVal "" < digitsVal d)%Z.
Proof.
  intros [->|H] Hne; [done|]. unfold digitsVal. destruct (Atoi_digits d) as [n|] eqn:E; [|done].
  apply Atoi_digits_nonneg in E as [E _]. simpl. lia.
Qed.

Lemma lessToken_spec x y : goodToken x -> goodToken y ->
  match lessToken x y with
  | Some true => tokenLt x y
  | Some false => tokenLt y x
  | None => x = y
  end.
Proof.
  destruct x as [w1 d1], y as [w2 d2]. unfold goodToken, lessToken, tokenLt. simpl. intros G1 G2.
  destruct (str_lt w1 w2) eqn:E1; [by left|]. destruct (str_lt w2 w1) eqn:E2; [by left|].
  assert (w1 = w2) as -> by (destruct (str_lt_trichotomy w1 w2) as [|[|]]; congruence).
  assert (match (if str_lt d1 d2 then Some true else if str_lt d2 d1 then Some false else None) with
    | Some true => str_lt d1 d2 = true | Some false => str_lt d2 d1 = true | None => d1 = d2 end) as Hs.
  { destruct (str_lt d1 d2) eqn:F1; [done|]. destruct (str_lt d2 d1) eqn:F2; [done|].
    destruct (str_lt_trichotomy d1 d2) as [|[|]]; congruence. }
  set (st := if str_lt d1 d2 then _ else _) in *. clearbody st.
  destruct (Atoi_digits d1) as [n1|] eqn:A1, (Atoi_digits d2) as [n2|] eqn:A2.
  - assert (digitsVal d1 = n1 /\ digitsVal d2 = n2) as [-> ->] by (unfold digitsVal; by rewrite A1, A2).
    destruct (Z.ltb_spec n1 n2); [by auto|]. destruct (Z.ltb_spec n2 n1); [by auto|].
    assert (n1 = n2) as -> by lia. destruct st as [[]|]; subst; auto 10.
  - destruct G2 as [->|]; [|done]. assert (d1 <> "") as Hne by (by destruct (Atoi_digits_nonneg _ _ A1)).
    pose proof (empty_digits_first d1 G1 Hne). destruct d1; [done|]. destruct st as [[]|]; [done| |done]. auto 10.
  - destruct G1 as [->|]; [|done]. assert (d2 <> "") as Hne by (by destruct (Atoi_digits_nonneg _ _ A2)).
    pose proof (empty_digits_first d2 G2 Hne). destruct d2; [done|]. destruct st as [[]|]; [|done|done]. auto 10.
  - destruct G1 as [->|]; [|done]. destruct G2 as [->|]; [|done]. by destruct st as [[]|].
Qed.

(** * The lexicographic order of token lists *)

Inductive tokensLt : list (string * string) -> list (string * string) -> Prop :=
| tokensLt_nil y ys : tokensLt [] (y :: ys)
| tokensLt_head x y xs ys : tokenLt x y -> tokensLt (x :: xs) (y :: ys)
| tokensLt_tail x xs ys : tokensLt xs ys -> tokensLt (x :: xs) (x :: ys).

Lemma lessTokens_spec xs : forall ys, Forall goodToken xs -> Forall goodToken ys ->
  (lessTokens xs ys = true <-> tokensLt xs ys) /\ (tokensLt xs ys \/ xs = ys \/ tokensLt ys xs).
Proof.
  induction xs as [|x xs IH]; intros [|y ys] Gx Gy; simpl.
  - split; [split; [done|by inversion 1]|auto].
  - split; [split; [constructor|done]|left; constructor].
  - split; [split; [done|by inversion 1]|right; right; constructor].
  - apply Forall_cons in Gx as [Gx Gxs], Gy as [Gy Gys]. destruct (IH ys Gxs Gys) as [IH1 IH2].
    pose proof (lessToken_spec x y Gx Gy) as H. destruct (lessToken x y) as [[]|].
    + split; [split; [by constructor|done]|left; by constructor].
    + split; [split; [done|]|right; right; by constructor].
      inversion 1; subst; [|by apply tokenLt_irrefl in H].
      exfalso. by apply (tokenLt_irrefl x); transitivity y.
    + subst. split.
      * rewrite IH1. split; [by constructor|]. inversion 1; subst; [by apply tokenLt_irrefl in H1|done].
      * destruct IH2 as [|[->|]]; [left; by constructor|auto|right; right; by constructor].
Qed.

Lemma tokensLt_irrefl xs : ~ tokensLt xs xs.
Proof.
  induction xs as [|x xs IH]; [by inversion 1|]. inversion 1; subst; [by eapply tokenLt_irrefl|auto].
Qed.

#[export] Instance tokensLt_trans : Transitive tokensLt.
Proof.
  intros xs ys zs H. revert zs. induction H as [y ys|x y xs ys H|x xs ys H IH]; intros zs Hz; inversion Hz; subst.
  - constructor.
  - constructor.
  - constructor. by transitivity y.
  - by constructor.
  - by constructor.
  - apply tokensLt_tail. by apply IH.
Qed.

(** * Tokens cover the text *)

Lemma span_app f s : let '(a, b) := span f s in s = a +:+ b.
Proof.
  induction s as [|c s IH]; [done|]. simpl. destruct (f c); [|done].
  destruct (span f s) as [a b]. by rewrite str_app_cons, <- IH.
Qed.

Lemma span_length f s : String.length (span f s).2 <= String.length s.
Proof.
  induction s as [|c s IH]; [done|]. simpl. destruct (f c); [|done].
  destruct (span f s). simpl in *. lia.
Qed.

(** A step that reads nothing is only taken on the empty text. *)
Lemma token_progress s : s <> "" ->
  String.length (span is_digit (span (fun c => negb (is_digit c)) s).2).2 < String.length s.
Proof.
  destruct s as [|c s]; [done|]. intros _. simpl. destruct (is_digit c) eqn:E; simpl.
  - rewrite E. pose proof (span_length is_digit s). destruct (span is_digit s). simpl in *. lia.
  - pose proof (span_length (fun c => negb (is_digit c)) s).
    destruct (span (fun c => negb (is_digit c)) s) as [w r]. simpl in *.
    pose proof (span_length is_digit r). lia.
Qed.

Definition untoken (ts : list (string * string)) : string :=
  foldr (fun t s => t.1 +:+ t.2 +:+ s) "" ts.

Lemma tokensFuel_cover fuel : forall s, String.length s < fuel -> untoken (tokensFuel fuel s) = s.
Proof.
  induction fuel as [|fuel IH]; intros s Hf; [lia|]. cbn [tokensFuel].
  pose proof (span_app (fun c => negb (is_digit c)) s) as E1.
  pose proof (token_progress s) as Hp.
  destruct (span (fun c => negb (is_digit c)) s) as [w r]. simpl in Hp.
  pose proof (span_app is_digit r) as E2. destruct (span is_digit r) as [d r']. simpl in Hp.
  subst s. subst r. cbn [untoken foldr fst snd]. do 2 f_equal.
  destruct (String.eqb_spec r' "") as [->|Hne]; [done|].
  apply IH. destruct (decide (w +:+ (d +:+ r') = "")) as [E|Hs].
  - exfalso. destruct w, d, r'; done.
  - specialize (Hp Hs). lia.
Qed.

Lemma tokens_cover s : untoken (FindAllStringSubmatch s) = s.
Proof. apply tokensFuel_cover. lia. Qed.

(** * Properties *)

(** Every run of digits of the text fits an [int]. *)
Definition smallNumbers (s : string) : Prop := Forall goodToken (FindAllStringSubmatch s).

#[export] Instance smallNumbers_dec s : Decision (smallNumbers s).
Proof. unfold smallNumbers, goodToken, goodDigits. apply _. Defined.

Lemma lessVersion_spec x y : smallNumbers x -> smallNumbers y ->
  lessVersion x y = true <-> tokensLt (FindAllStringSubmatch x) (FindAllStringSubmatch y).
Proof. intros Gx Gy. apply lessTokens_spec; done. Qed.

Lemma lessVersion_total x y : smallNumbers x -> smallNumbers y ->
  lessVersion x y = true \/ x = y \/ lessVersion y x = true.
Proof.
  intros Gx Gy. rewrite !lessVersion_spec by done.
  destruct (lessTokens_spec (FindAllStringSubmatch x) (FindAllStringSubmatch y) Gx Gy) as [_ [H|[H|H]]]; auto.
  right; left. by rewrite <- (tokens_cover x), <- (tokens_cover y), H.
Qed.

Lemma lessVersion_trans x y z : smallNumbers x -> smallNumbers y -> smallNumbers z ->
  lessVersion x y = true -> lessVersion y z = true -> lessVersion x z = true.
Proof. intros Gx Gy Gz. rewrite !lessVersion_spec by done. apply tokensLt_trans. Qed.

Lemma lessVersion_irrefl x : smallNumbers x -> lessVersion x x = false.
Proof. intros Gx. apply not_true_iff_false. rewrite lessVersion_spec by done. apply tokensLt_irrefl. Qed.

(** On identifiers whose numbers fit an [int], [lessVersion] is a strict
    total order, as [sort.Slice] needs; with longer numbers it is not even
    acyclic. *)
Theorem lessVersion_order :
  (forall x y z, smallNumbers x -> smallNumbers y -> smallNumbers z ->
     lessVersion x x = false /\
     (lessVersion x y = true -> lessVersion y z = true -> lessVersion x z = true) /\
     (lessVersion x y = true \/ x = y \/ lessVersion y x = true)) /\
  lessVersion "2" "10" = true /\ lessVersion "10" "100000000000000000000" = true /\
  lessVersion "100000000000000000000" "2" = true.
Proof.
  split; [|done]. intros x y z Gx Gy Gz.
  split_and!; [by apply lessVersion_irrefl|by apply lessVersion_trans|by apply lessVersion_total].
Qed.

Lemma lessVersion_order_witness : lessVersion "RT-1.2" "TE-3" = true.
Proof.
  apply (proj1 lessVersion_order "RT-1.2" "RT-1.10" "TE-3");
    [apply (bool_decide_eq_true_1 (smallNumbers _)); vm_compute; reflexivity..
    |vm_compute; reflexivity|vm_compute; reflexivity].
Defined.
