(* ===== verification/Rundata.v ===== *)
(** The rundata tool [tools/addrundata]: test cases ([case.go], [rundata.go]),
    test suites ([suite.go]), the plain listings ([list_csv.go],
    [list_json.go]) and the command ([main.go]).

    Files are a finite map from path to content; [prototext] and
    [google/uuid] are interfaces.  Go ranges over the map of a suite in an
    unspecified order: the loops take the order as a list of keys. *)
From stdpp Require Import base list gmap strings sorting.
From Stdlib Require Import ZArith Lia Ascii.
From S2P Require Import Prelude GoStrings Version.

(** * Interfaces of the libraries *)

(** [github.com/google/uuid]. [uuidV4 u] is [u.Variant() == uuid.RFC4122 &&
    u.Version() == 4]. *)
Class UUIDLib (U : Type) := {
  uuidParse : string -> option U;
  uuidString : U -> string;
  uuidV4 : U -> bool;
}.
(** The canonical text parses back, and is not empty. *)
Class UUIDLaws (U : Type) `{!UUIDLib U} := {
  uuidParse_String u : uuidParse (uuidString u) = Some u;
  uuidString_nonempty u : uuidString u <> "";
}.

(** * The metadata message *)

Definition TESTBED_UNSPECIFIED : N := 0.
Definition TESTBED_DUT_ATE_2LINKS : N := 3.

(** [mpb.Metadata], with the platform exceptions of an opaque type. *)
Record Metadata (Ex : Type) := {
  Uuid : string;
  PlanId : string;
  Description : string;
  Testbed : N;
  PlatformExceptions : list Ex;
  Tags : list N;
}.
Arguments Uuid {Ex}. Arguments PlanId {Ex}. Arguments Description {Ex}.
Arguments Testbed {Ex}. Arguments PlatformExceptions {Ex}. Arguments Tags {Ex}.
#[export] Instance Metadata_eq_dec Ex `{EqDecision Ex} : EqDecision (Metadata Ex).
Proof. solve_decision. Defined.

Definition mkMetadata {Ex} (planId description : string) : Metadata Ex :=
  {| Uuid := ""; PlanId := planId; Description := description;
     Testbed := TESTBED_UNSPECIFIED; PlatformExceptions := []; Tags := [] |}.
Definition set_Uuid {Ex} (u : string) (md : Metadata Ex) : Metadata Ex :=
  {| Uuid := u; PlanId := PlanId md; Description := Description md; Testbed := Testbed md;
     PlatformExceptions := PlatformExceptions md; Tags := Tags md |}.
Definition set_Testbed {Ex} (t : N) (md : Metadata Ex) : Metadata Ex :=
  {| Uuid := Uuid md; PlanId := PlanId md; Description := Description md; Testbed := t;
     PlatformExceptions := PlatformExceptions md; Tags := Tags md |}.

(** [google.golang.org/protobuf/encoding/prototext]. *)
Class ProtoText (Ex : Type) := {
  Unmarshal : string -> go (Metadata Ex);
  Marshal : Metadata Ex -> go string;
}.

(** * rundata.go *)

(** The lines a [bufio.Scanner] yields. *)
Definition dropCR (l : string) : string :=
  match LastIndexByte l (ascii_of_nat 13) with
  | Some i => if S i =? String.length l then str_take i l else l
  | None => l
  end.
Definition scanLines (s : string) : list string :=
  let ls := split_on (ascii_of_nat 10) s in
  map dropCR (match reverse ls with "" :: r => reverse r | _ => ls end).

(** [markdownRE.FindStringSubmatch]: a hash, the shortest text up to a colon, and
    the rest of the line. *)
Definition markdownRE (line : string) : option (string * string) :=
  match IndexByte line "#" with
  | None => None
  | Some i =>
      let rest := str_drop (S i) line in
      match IndexByte rest ":" with
      | None => None
      | Some j => Some (str_take j rest, str_drop (S j) rest)
      end
  end.

Definition parseMarkdown {Ex} (content : string) : go (Metadata Ex) :=
  match scanLines content with
  | [] => Fail (errors_New "missing markdown heading")
  | line :: _ =>
      match markdownRE line with
      | None => Fail (errors_New "cannot parse markdown")
      | Some (m1, m2) => Ret (mkMetadata (TrimSpace m1) (TrimSpace m2))
      end
  end.

Definition header : string :=
  let nl := String (ascii_of_nat 10) EmptyString in
  "# proto-file: github.com/openconfig/featureprofiles/proto/metadata.proto" +:+ nl +:+
  "# proto-message: Metadata" +:+ nl +:+ nl.

Section AddRundata.
Context {U Ex : Type} `{!UUIDLib U, !EqDecision Ex, !ProtoText Ex}.

Abbreviation files := (gmap string string).

Definition parseProto (content : string) : go (Metadata Ex) := Unmarshal content.

Definition writeProto (md : Metadata Ex) : go string :=
  bytes ← Marshal md; Ret (header +:+ bytes).

(** * case.go *)

Record testcase := {
  markdown : option (Metadata Ex);
  existing : option (Metadata Ex);
  fixed : option (Metadata Ex);
}.
Definition newTestcase : testcase := {| markdown := None; existing := None; fixed := None |}.
Definition set_markdown m tc := {| markdown := m; existing := existing tc; fixed := fixed tc |}.
Definition set_existing m tc := {| markdown := markdown tc; existing := m; fixed := fixed tc |}.
Definition set_fixed m tc := {| markdown := markdown tc; existing := existing tc; fixed := m |}.

Definition readFile (fs : files) (filename : string) : go string :=
  match fs !! filename with
  | Some data => Ret data
  | None => Fail (Errorf "no such file" [ErrOSNotExist])
  end.

Definition READMEname : string := "README.md".

Definition read (fs : files) (testdir : string) (tc : testcase) : testcase * option error :=
  match (data ← readFile fs (JoinPath [testdir; READMEname]); parseMarkdown data) with
  | Ret md =>
      let tc := set_markdown (Some md) tc in
      match (data ← readFile fs (JoinPath [testdir; "metadata.textproto"]); parseProto data) with
      | Ret md => (set_existing (Some md) tc, None)
      | Fail e =>
          if errors_Is e ErrOSNotExist then (tc, None)
          else (tc, Some (Errorf "could not parse metadata.textproto" (err_wraps e)))
      | _ => (tc, Some (errors_New "unreachable"))
      end
  | Fail e => (tc, Some (Errorf "could not parse README.md" (err_wraps e)))
  | _ => (tc, Some (errors_New "unreachable"))
  end.

Definition validUUID (s : string) : option U :=
  match uuidParse s with
  | Some u => if uuidV4 u then Some u else None
  | None => None
  end.

Definition checkUUID (s : string) : list string :=
  if String.eqb s "" then ["missing UUID in metadata"]
  else
    match uuidParse s with
    | None => ["cannot parse UUID in metadata"]
    | Some u => if negb (uuidV4 u) then ["bad UUID in metadata"] else []
    end.

Definition check (tc : testcase) : list string :=
  (match existing tc with None => ["existing metadata is missing"] | Some _ => [] end) ++
  (match markdown tc with None => ["existing markdown is missing"] | Some _ => [] end) ++
  (match markdown tc, existing tc with
   | Some m, Some e =>
       (if negb (String.eqb (PlanId e) (PlanId m)) then ["metadata test plan ID needs update"] else []) ++
       (if negb (String.eqb (Description e) (Description m)) then ["metadata test description needs update"] else [])
   | _, _ => []
   end) ++
  (match existing tc with
   | Some e =>
       (if (Testbed e =? TESTBED_UNSPECIFIED)%N then ["missing testbed in metadata"] else []) ++
       checkUUID (Uuid e)
   | None => []
   end).

(** [newRandom] is the result of the call of [uuid.NewRandom], if it comes to it. *)
Definition fix_case (newRandom : go U) (tc : testcase) : testcase * option error :=
  match markdown tc with
  | None => (tc, Some (errors_New "markdown rundata is missing"))
  | Some m =>
      let fixed0 := mkMetadata (PlanId m) (Description m) in
      let generate fixed1 :=
        let fixed2 :=
          if (Testbed fixed1 =? TESTBED_UNSPECIFIED)%N
          then set_Testbed TESTBED_DUT_ATE_2LINKS fixed1 else fixed1 in
        match newRandom with
        | Ret u => (set_fixed (Some (set_Uuid (uuidString u) fixed2)) tc, None)
        | Fail e => (set_fixed (Some fixed2) tc, Some e)
        | _ => (set_fixed (Some fixed2) tc, Some (errors_New "unreachable"))
        end in
      match existing tc with
      | Some e =>
          let fixed1 := {| Uuid := ""; PlanId := PlanId m; Description := Description m;
                           Testbed := Testbed e; PlatformExceptions := PlatformExceptions e;
                           Tags := Tags e |} in
          match validUUID (Uuid e) with
          | Some u => (set_fixed (Some (set_Uuid (uuidString u) fixed1)) tc, None)
          | None => generate fixed1
          end
      | None => generate fixed0
      end
  end.

(** The new file replaces [metadata.textproto] and [rundata_test.go] goes away. *)
Definition write (fs : files) (testdir : string) (tc : testcase) : files * option error :=
  match fixed tc with
  | None => (fs, Some (errors_New "test case was not fixed"))
  | Some f =>
      if bool_decide (existing tc = Some f) then (fs, Some (Errorf "already up to date" [ErrNoop]))
      else
        match writeProto f with
        | Ret text =>
            (delete (JoinPath [testdir; "rundata_test.go"])
               (<[JoinPath [testdir; "metadata.textproto"] := text]> fs), None)
        | Fail e => (fs, Some (Errorf "could not generate the rundata" (err_wraps e)))
        | _ => (fs, Some (errors_New "unreachable"))
        end
  end.
End AddRundata.
Arguments testcase Ex : clear implicits.

(** * suite.go *)

Definition featurePrefix : string := "feature/".

Definition validPath (testDir : string) : bool :=
  match Index testDir featurePrefix with
  | None => false
  | Some index =>
      let dirs := split_on "/" (str_drop (index + String.length featurePrefix) testDir) in
      negb ((length dirs <? 3) || (4 <? length dirs))
  end.

Definition testKinds : gmap string string :=
  {["ate_tests" := "ATE Test"; "kne_tests" := "KNE Test"; "otg_tests" := "OTG Test"; "tests" := "Test"]}.
Definition isTestKind (kind : string) : bool := negb (String.eqb (default "" (testKinds !! kind)) "").
Definition testKind (testdir : string) : string := Base (Dir testdir).
Definition toOTG (testdir : string) : string := ReplaceFirst testdir "/ate_tests/" "/otg_tests/".

(** [packageRegexp]: the name of a package clause at the start of a line. *)
Definition is_word (c : ascii) : bool :=
  is_digit c || Ascii.eqb c "_" ||
  negb (Ascii.eqb (lower_ascii c) c) || negb (Ascii.eqb (upper_ascii c) c).
Definition packageRegexp (line : string) : option string :=
  if HasPrefix line "package " then
    match span is_word (str_drop 8 line) with
    | ("", _) => None
    | (w, _) => Some w
    end
  else None.

Fixpoint firstPackage (ls : list string) : string :=
  match ls with
  | [] => ""
  | l :: ls => match packageRegexp l with Some p => p | None => firstPackage ls end
  end.

Definition checkPackageNameInFile (content : string) : option error :=
  if HasSuffix (firstPackage (scanLines content)) "_test" then None
  else Some (errors_New "package name should end with _test").

(** The files of a test directory: name, whether it is a directory, content. *)
Fixpoint checkGoTestFilePackageName (entries : list (string * bool * string)) : option error :=
  match entries with
  | [] => None
  | (name, isDir, content) :: es =>
      if isDir || negb (HasSuffix name "_test.go") then checkGoTestFilePackageName es
      else match checkPackageNameInFile content with
           | Some e => Some (Errorf "check failed" (err_wraps e))
           | None => checkGoTestFilePackageName es
           end
  end.

Definition getNonTestREADMEs (fs : gmap string string) (featureprofilesDir nonTestREADMEsfilePath : string) :
    go (gset string) :=
  data ← readFile fs (JoinPath [featureprofilesDir; nonTestREADMEsfilePath]);
  Ret (foldl (fun m line => if String.eqb line "" then m else {[JoinPath [featureprofilesDir; line]]} ∪ m)
         ∅ (scanLines data)).

Section Suite.
Context {U Ex : Type} `{!UUIDLib U, !EqDecision Ex, !ProtoText Ex}.
Abbreviation files := (gmap string string).

(** [testsuite] maps a test directory to its case. *)
Abbreviation testsuite := (gmap string (testcase Ex)).

(** The walk over the feature tree: the test directories and whether all paths
    are good. *)
Definition walkStep (nonTest : gset string) (st : gset string * bool) (path : string) : gset string * bool :=
  let '(testdirs, ok) := st in
  if negb (HasSuffix path "README.md") then st
  else if bool_decide (path ∈ nonTest) then st
  else
    let testdir := Dir path in
    if negb (validPath testdir) then (testdirs, false)
    else if negb (isTestKind (testKind testdir)) then (testdirs, false)
    else ({[testdir]} ∪ testdirs, ok).

Definition readStep (fs : files) (listing : string -> list (string * bool * string))
    (st : testsuite * bool) (testdir : string) : testsuite * bool :=
  let '(ts, ok) := st in
  let '(tc, err) := read fs testdir (default newTestcase (ts !! testdir)) in
  match err with
  | Some _ => (<[testdir := tc]> ts, false)
  | None =>
      match checkGoTestFilePackageName (listing testdir) with
      | Some _ => (<[testdir := tc]> ts, false)
      | None => (<[testdir := tc]> ts, ok)
      end
  end.

(** [walk] lists the paths [filepath.WalkDir] visits, [listing] the entries of a
    directory. *)
Definition readSuite (fs : files) (walk : list string)
    (listing : string -> list (string * bool * string)) (featuredir : string) (ts : testsuite) :
    testsuite * bool :=
  match getNonTestREADMEs fs (Dir featuredir) "tools/non_test_readmes.txt" with
  | Ret nonTest =>
      let '(testdirs, ok) := foldl (walkStep nonTest) (∅, true) walk in
      foldl (readStep fs listing) (ts, ok) (elements testdirs)
  | _ => (ts, false)
  end.

(** ** check *)

Definition checkCases (order : list (string * testcase Ex)) : bool :=
  forallb (fun '(_, tc) => bool_decide (check tc = [])) order.

Definition planKey (tc : testcase Ex) : string :=
  match markdown tc with None => "" | Some m => PlanId m end.
Definition uuidKey (tc : testcase Ex) : string :=
  match existing tc with None => "" | Some e => Uuid e end.

Definition dupStep (keyfn : testcase Ex -> string) (st : gmap string string * bool)
    (x : string * testcase Ex) : gmap string string * bool :=
  let '(wants, ok) := st in
  let '(got, tc) := x in
  let key := keyfn tc in
  if String.eqb key "" then st
  else
    match wants !! key with
    | None => (<[key := got]> wants, ok)
    | Some want => if negb (String.eqb (toOTG got) (toOTG want)) then (wants, false) else st
    end.
Definition checkDuplicate (keyfn : testcase Ex -> string) (order : list (string * testcase Ex)) : bool :=
  (foldl (dupStep keyfn) (∅, true) order).2.

(** Reading a field of a nil message panics. *)
Definition ateotgStep (ts : testsuite) (ok : bool) (x : string * testcase Ex) : go bool :=
  let '(testdir, tc) := x in
  if negb (String.eqb (testKind testdir) "ate_tests") then Ret ok
  else
    match ts !! toOTG testdir with
    | None => Ret ok
    | Some otgtc =>
        match existing tc, existing otgtc with
        | Some e, Some o =>
            Ret (ok && String.eqb (PlanId e) (PlanId o) && String.eqb (Description e) (Description o) &&
                 String.eqb (Uuid e) (Uuid o))
        | _, _ => Panic
        end
    end.
Definition checkATEOTG (ts : testsuite) (order : list (string * testcase Ex)) : go bool :=
  foldM (ateotgStep ts) true order.

Definition checkSuite (ts : testsuite) (order : list (string * testcase Ex)) : go bool :=
  let ok := checkCases order && checkDuplicate planKey order && checkDuplicate uuidKey order in
  ateotg ← checkATEOTG ts order;
  Ret (ok && ateotg).

(** ** fix *)

Definition fixStep (newRandom : string -> go U) (st : testsuite * bool) (testdir : string) : testsuite * bool :=
  let '(ts, ok) := st in
  match ts !! testdir with
  | None => st
  | Some tc =>
      let '(tc, err) := fix_case (newRandom testdir) tc in
      (<[testdir := tc]> ts, ok && bool_decide (err = None))
  end.

Definition propagateStep (ts : testsuite) (testdir : string) : go testsuite :=
  if negb (String.eqb (testKind testdir) "ate_tests") then Ret ts
  else
    let otgtestdir := ReplaceFirst testdir "/ate_tests/" "/otg_tests/" in
    match ts !! otgtestdir, ts !! testdir with
    | Some otgtc, Some tc =>
        match fixed otgtc, fixed tc with
        | Some fo, Some fa => Ret (<[otgtestdir := set_fixed (Some (set_Uuid (Uuid fa) fo)) otgtc]> ts)
        | _, _ => Panic
        end
    | _, _ => Ret ts
    end.

(** The two loops may range over the map in different orders. *)
Definition fixSuite (newRandom : string -> go U) (order1 order2 : list string) (ts : testsuite) :
    go (testsuite * bool) :=
  let '(ts, ok) := foldl (fixStep newRandom) (ts, true) order1 in
  if negb ok then Ret (ts, false)
  else ts ← foldM propagateStep ts order2; Ret (ts, true).

(** ** write *)

Definition writeStep (st : files * bool) (x : string * testcase Ex) : outcome error (files * bool) :=
  let '(fs, updated) := st in
  let '(testdir, tc) := x in
  match write fs testdir tc with
  | (fs, None) => Ret (fs, true)
  | (fs, Some e) => if errors_Is e ErrNoop then Ret (fs, updated) else Fail e
  end.
Definition writeSuite (fs : files) (order : list (string * testcase Ex)) : go files :=
  st ← (foldM writeStep (fs, false) order : go (files * bool));
  if st.2 : bool then Ret st.1 else Fail (Errorf "already up to date" [ErrNoop]).

(** * main.go: [addrundata --fix] on a suite that was read *)
Definition runFix (newRandom : string -> go U) (fs : files) (ts : testsuite) : go files :=
  ok ← checkSuite ts (map_to_list ts);
  r ← fixSuite newRandom (map_to_list ts).*1 (map_to_list ts).*1 ts;
  if r.2 : bool then writeSuite fs (map_to_list r.1)
  else Panic (* glog.Exitf *).

(** * list_csv.go and list_json.go *)

Definition featureFromTestDir (testdir : string) : string :=
  let kinddir := Dir testdir in
  if negb (isTestKind (Base kinddir)) then kinddir else Dir kinddir.

(** The order of the listing: plan identifiers in version order, then paths. *)
Definition planLess (x y : string * testcase Ex) : bool :=
  let idi := planKey x.2 in
  let idj := planKey y.2 in
  if String.eqb idi idj then str_lt x.1 y.1 else lessVersion idi idj.

Definition csvHeading : list string := ["Feature"; "ID"; "Desc"; "Test Path"].

Definition csvRow (rootdir : string) (x : string * testcase Ex) : go (list string) :=
  let '(k, tc) := x in
  let reldir := match Rel rootdir k with Ret r => r | _ => k end in
  let feature := TrimPrefix (featureFromTestDir reldir) "feature/" in
  match markdown tc with
  | None => Panic
  | Some md => Ret [feature; PlanId md; Description md; reldir]
  end.

(** The rows of the listing of a suite whose keys were sorted to [sorted]. *)
Definition listCSV (featuredir : string) (sorted : list (string * testcase Ex)) : go (list (list string)) :=
  rows ← mapM (csvRow (Dir featuredir)) sorted;
  Ret (csvHeading :: rows).

Record jsonCase := { js_UUID : string; js_PlanID : string; js_Description : string }.
Definition newJSONCase (md : option (Metadata Ex)) : go jsonCase :=
  match md with
  | None => Panic
  | Some md => Ret {| js_UUID := Uuid md; js_PlanID := PlanId md; js_Description := Description md |}
  end.
Definition listJSON (featuredir : string) (order : list (string * testcase Ex)) : go (gmap string jsonCase) :=
  foldM (fun (o : gmap string jsonCase) (x : string * testcase Ex) =>
           let reldir := match Rel (Dir featuredir) x.1 with Ret r => r | _ => x.1 end in
           c ← newJSONCase (existing x.2);
           Ret (<[reldir := c]> o)) ∅ order.
End Suite.

(** * Lemmas *)

Section Facts.
Context {U Ex : Type} `{!UUIDLib U, !EqDecision Ex, !ProtoText Ex}.

(** ** Duplicates *)

Lemma foldl_dup_inv (keyfn : testcase Ex -> string) l :
  let st := foldl (dupStep keyfn) (∅, true) l in
  (forall k w, st.1 !! k = Some w -> exists tc, (w, tc) ∈ l /\ keyfn tc = k /\ k <> "") /\
  (forall d tc, (d, tc) ∈ l -> keyfn tc <> "" -> is_Some (st.1 !! keyfn tc)) /\
  (st.2 = true <-> forall d tc w, (d, tc) ∈ l -> st.1 !! keyfn tc = Some w -> toOTG d = toOTG w).
Proof.
  induction l as [|[d tc] l IH] using rev_ind; [by split_and!; intros; simplify_map_eq; set_solver|].
  rewrite foldl_snoc. destruct (foldl (dupStep keyfn) (∅, true) l) as [wants ok]. simpl in *.
  destruct IH as (I1 & I2 & I3). destruct (String.eqb_spec (keyfn tc) "") as [E|Hne]; simpl.
  - assert (wants !! "" = None) as Hn.
    { destruct (wants !! "") as [w|] eqn:Ew; [|done]. apply I1 in Ew as (? & _ & _ & ?). done. }
    split_and!.
    + intros k w Hw. destruct (I1 k w Hw) as (tc' & ? & ? & ?). exists tc'. set_solver.
    + intros d' tc' [?|[? ?]%list_elem_of_singleton%pair_eq]%elem_of_app ?; [eauto|by subst].
    + rewrite I3. split; intros H d' tc' w Hin Hw; [|apply (H d' tc'); set_solver].
      apply elem_of_app in Hin as [?|[? ?]%list_elem_of_singleton%pair_eq]; [eauto|subst; congruence].
  - destruct (wants !! keyfn tc) as [want|] eqn:Ew.
    + assert (forall st2, (if negb (toOTG d =? toOTG want)%string then (wants, false) else (wants, ok)) = st2 ->
        st2.1 = wants /\ st2.2 = (ok && (toOTG d =? toOTG want)%string)) as Hst.
      { intros st2 <-. destruct (toOTG d =? toOTG want)%string; simpl; split; try done; by destruct ok. }
      destruct (Hst _ eq_refl) as [-> ->]. split_and!.
      * intros k w Hw. destruct (I1 k w Hw) as (tc' & ? & ? & ?). exists tc'. set_solver.
      * intros d' tc' [?|[? ?]%list_elem_of_singleton%pair_eq]%elem_of_app ?; [eauto|subst; eauto].
      * rewrite andb_true_iff, I3, String.eqb_eq. split.
        -- intros [H E] d' tc' w [?|[? ?]%list_elem_of_singleton%pair_eq]%elem_of_app Hw; [eauto|subst; congruence].
        -- intros H. split; [intros d' tc' w Hin; apply H; set_solver|]. apply (H d tc); [set_solver|done].
    + simpl. split_and!.
      * intros k w. rewrite lookup_insert. case_decide; [intros [= <-]; subst; exists tc; set_solver|].
        intros Hw. destruct (I1 k w Hw) as (tc' & ? & ? & ?). exists tc'. set_solver.
      * intros d' tc' [?|[? ?]%list_elem_of_singleton%pair_eq]%elem_of_app ?; rewrite lookup_insert.
        -- case_decide; eauto.
        -- subst. by rewrite decide_True.
      * rewrite I3. split.
        -- intros H d' tc' w [Hin|[? ?]%list_elem_of_singleton%pair_eq]%elem_of_app; rewrite lookup_insert.
           ++ case_decide as Ek; [|eauto]. exfalso. destruct (I2 d' tc' Hin) as [w' Hw']; congruence.
           ++ subst. rewrite decide_True by done. by intros [= <-].
        -- intros H d' tc' w Hin Hw. apply (H d' tc'); [set_solver|].
           rewrite lookup_insert_ne; [done|]. congruence.
Qed.

(** ** Fixing a case *)

(** The case was fixed: the fixed metadata takes its identity from the markdown
    and has a canonical version 4 UUID. *)
Definition caseFixed (tc : testcase Ex) : Prop :=
  exists m f u, markdown tc = Some m /\ fixed tc = Some f /\
    PlanId f = PlanId m /\ Description f = Description m /\
    Uuid f = uuidString u /\ uuidV4 u = true.

(** The existing UUID is kept, and with it a missing testbed. *)
Definition keepsNoTestbed (tc : testcase Ex) : bool :=
  match existing tc with
  | Some e => bool_decide (is_Some (validUUID (Uuid e))) && (Testbed e =? TESTBED_UNSPECIFIED)%N
  | None => false
  end.

(** The case as the next run reads it, after the fixed metadata was written. *)
Definition rewritten (tc : testcase Ex) : testcase Ex :=
  {| markdown := markdown tc; existing := fixed tc; fixed := None |}.

Definition goodRandom (r : go U) : Prop := forall u, r = Ret u -> uuidV4 u = true.

Lemma validUUID_v4 s (u : U) : validUUID s = Some u -> uuidV4 u = true.
Proof. unfold validUUID. destruct (uuidParse s) as [u'|]; [|done]. destruct (uuidV4 u') eqn:E; naive_solver. Qed.

Lemma fix_case_spec r tc tc' :
  goodRandom r -> fix_case r tc = (tc', None) ->
  caseFixed tc' /\ markdown tc' = markdown tc /\ existing tc' = existing tc /\
  (forall f, fixed tc' = Some f -> (Testbed f =? TESTBED_UNSPECIFIED)%N = keepsNoTestbed tc).
Proof.
  intros Hr. unfold fix_case, keepsNoTestbed. destruct (markdown tc) as [m|] eqn:Hm; [|done].
  assert (forall f1, PlanId f1 = PlanId m -> Description f1 = Description m ->
    let f2 := if (Testbed f1 =? TESTBED_UNSPECIFIED)%N then set_Testbed TESTBED_DUT_ATE_2LINKS f1 else f1 in
    match r with
    | Ret u => (set_fixed (Some (set_Uuid (uuidString u) f2)) tc, None)
    | Fail e => (set_fixed (Some f2) tc, Some e)
    | _ => (set_fixed (Some f2) tc, Some (errors_New "unreachable"))
    end = (tc', None) ->
    caseFixed tc' /\ markdown tc' = Some m /\ existing tc' = existing tc /\
    (forall f, fixed tc' = Some f -> (Testbed f =? TESTBED_UNSPECIFIED)%N = false)) as Hgen.
  { intros f1 HP HD f2 H. destruct r as [u| | |]; try done. injection H as <-. simpl.
    assert (PlanId f2 = PlanId m /\ Description f2 = Description m /\ (Testbed f2 =? TESTBED_UNSPECIFIED)%N = false)
      as (? & ? & ?) by (unfold f2; destruct (Testbed f1 =? _)%N eqn:E; by split_and!).
    split_and!; try done; [|intros f [= <-]; done].
    exists m, (set_Uuid (uuidString u) f2), u. split_and!; try done. by apply Hr. }
  destruct (existing tc) as [e|] eqn:He.
  2:{ intros H. by apply (Hgen (mkMetadata (PlanId m) (Description m)) eq_refl eq_refl). }
  destruct (validUUID (Uuid e)) as [u|] eqn:Hu.
  - intros [= <-]. simpl. split_and!; try done.
    + eexists m, _, u. split_and!; try done. by eapply validUUID_v4.
    + by intros f [= <-].
  - change (bool_decide (is_Some (@None U))) with false. cbn [andb]. by apply (Hgen {| Uuid := ""; PlanId := PlanId m; Description := Description m; Testbed := Testbed e;
      PlatformExceptions := PlatformExceptions e; Tags := Tags e |}).
Qed.

Section Laws.
Context `{!UUIDLaws U}.

Lemma caseFixed_uuid (f : Metadata Ex) (u : U) :
  Uuid f = uuidString u -> uuidV4 u = true -> validUUID (Uuid f) = Some u /\ checkUUID (Uuid f) = [].
Proof.
  intros -> Hv. unfold validUUID, checkUUID. rewrite uuidParse_String, Hv.
  split; [done|]. destruct (String.eqb_spec (uuidString u) "") as [E|]; [|done].
  by apply uuidString_nonempty in E.
Qed.

Lemma check_rewritten tc f : caseFixed tc -> fixed tc = Some f ->
  check (rewritten tc) = if (Testbed f =? TESTBED_UNSPECIFIED)%N then ["missing testbed in metadata"] else [].
Proof.
  intros (m & f' & u & Hm & Hf & HP & HD & Hu & Hv) Hf'. assert (f' = f) as -> by congruence.
  unfold check, rewritten. simpl. rewrite Hm, Hf, HP, HD, !String.eqb_refl. simpl.
  rewrite (proj2 (caseFixed_uuid f u Hu Hv)). by rewrite app_nil_r.
Qed.

(** Fixing what the fix wrote changes nothing. *)
Lemma fix_rewritten r tc : caseFixed tc -> fix_case r (rewritten tc) = (set_fixed (fixed tc) (rewritten tc), None).
Proof.
  intros (m & f & u & Hm & Hf & HP & HD & Hu & Hv). unfold fix_case, rewritten. simpl. rewrite Hm, Hf.
  rewrite (proj1 (caseFixed_uuid f u Hu Hv)). unfold set_fixed, set_Uuid. simpl.
  rewrite <- HP, <- HD, <- Hu. by destruct f.
Qed.
End Laws.

(** ** Fixing a suite *)

(** [order] ranges over the keys of the suite. *)
Definition ranges (order : list string) (ts : gmap string (testcase Ex)) : Prop :=
  NoDup order /\ forall d, d ∈ order <-> d ∈ dom ts.

Definition allFixed (ts : gmap string (testcase Ex)) : Prop := forall d tc, ts !! d = Some tc -> caseFixed tc.

(** An ATE test and its OTG twin have the same UUID. *)
Definition paired (ts : gmap string (testcase Ex)) (d : string) : Prop :=
  testKind d = "ate_tests" -> forall a o fa fo, ts !! d = Some a -> ts !! toOTG d = Some o ->
  fixed a = Some fa -> fixed o = Some fo -> Uuid fo = Uuid fa.

(** Twins of ATE tests are not ATE tests, and no two share one. *)
Definition twinsWF (ts : gmap string (testcase Ex)) : Prop :=
  forall d, d ∈ dom ts -> testKind d = "ate_tests" ->
    testKind (toOTG d) <> "ate_tests" /\
    forall d', d' ∈ dom ts -> testKind d' = "ate_tests" -> toOTG d' = toOTG d -> d' = d.

Lemma foldl_fixStep (rnd : string -> go U) order : forall (ts : gmap string (testcase Ex)) ok, NoDup order ->
  let st := foldl (fixStep rnd) (ts, ok) order in
  (forall d, st.1 !! d = if decide (d ∈ order) then (fun tc => (fix_case (rnd d) tc).1) <$> ts !! d else ts !! d) /\
  (st.2 = true <-> ok = true /\ forall d tc, d ∈ order -> ts !! d = Some tc -> (fix_case (rnd d) tc).2 = None).
Proof.
  induction order as [|d0 order IH]; intros ts ok Hnd; simpl; [set_solver|].
  apply NoDup_cons in Hnd as [Hd0 Hnd].
  destruct (ts !! d0) as [tc0|] eqn:E0.
  - destruct (fix_case (rnd d0) tc0) as [tc1 err] eqn:Ef.
    destruct (IH (<[d0 := tc1]> ts) (ok && bool_decide (err = None)) Hnd) as [I1 I2]. split.
    + intros d. rewrite I1. destruct (decide (d = d0)) as [->|Hne].
      * rewrite decide_False by done. rewrite decide_True by (by left). by rewrite lookup_insert_eq, E0; simpl; rewrite Ef.
      * rewrite lookup_insert_ne by done. assert (d ∈ d0 :: order <-> d ∈ order) as Hiff by set_solver.
        by rewrite (decide_ext _ _ _ _ Hiff).
    + rewrite I2, andb_true_iff, bool_decide_eq_true. split.
      * intros [[-> ->] H]. split; [done|]. intros d tc [->|Hin]%elem_of_cons Hd; [by simplify_eq; rewrite Ef|].
        apply H; [done|]. by rewrite lookup_insert_ne by congruence.
      * intros [-> H]. split; [split; [done|]; specialize (H d0 tc0); rewrite Ef in H; apply H; [by left|done]|].
        intros d tc Hin Hd. rewrite lookup_insert_ne in Hd by congruence. apply H; [by right|done].
  - destruct (IH ts ok Hnd) as [I1 I2]. split.
    + intros d. rewrite I1. destruct (decide (d = d0)) as [->|Hne].
      * rewrite decide_False, decide_True by (done || by left). by rewrite E0.
      * assert (d ∈ d0 :: order <-> d ∈ order) as Hiff by set_solver. by rewrite (decide_ext _ _ _ _ Hiff).
    + rewrite I2. split; intros [-> H]; (split; [done|]); intros d tc Hin Hd.
      * apply elem_of_cons in Hin as [->|Hin]; [congruence|eauto].
      * apply H; [by right|done].
Qed.

(** One step of the second loop on a fixed suite. *)
Lemma propagateStep_spec ts d :
  allFixed ts ->
  exists ts', propagateStep ts d = Ret ts' /\ allFixed ts' /\ dom ts' = dom ts /\
    (forall d', d' <> toOTG d \/ testKind d <> "ate_tests" -> ts' !! d' = ts !! d') /\
    (testKind d = "ate_tests" -> d <> toOTG d -> paired ts' d).
Proof.
  intros Hall. unfold propagateStep. fold (toOTG d).
  destruct (String.eqb_spec (testKind d) "ate_tests") as [Hk|Hk]; simpl; [|by eexists].
  destruct (ts !! toOTG d) as [o|] eqn:Ho, (ts !! d) as [a|] eqn:Ha;
    try (eexists; split_and!; [done..|intros _ _ _ a' o' fa fo Ha' Ho'; congruence]).
  destruct (Hall _ _ Ho) as (mo & fo & uo & Hmo & Hfo & HPo & HDo & Huo & Hvo).
  destruct (Hall _ _ Ha) as (ma & fa & ua & Hma & Hfa & HPa & HDa & Hua & Hva). rewrite Hfo, Hfa.
  eexists. split_and!; [done| | |intros d' [?|?]; [by rewrite lookup_insert_ne|done]|].
  - intros d' tc. rewrite lookup_insert. case_decide; [|eauto]. intros [= <-].
    exists mo, (set_Uuid (Uuid fa) fo), ua. by split_and!.
  - rewrite dom_insert_L. apply elem_of_dom_2 in Ho. set_solver.
  - intros _ Hne _ a' o' fa' fo'. rewrite lookup_insert_ne, lookup_insert_eq by done.
    rewrite Ha. intros [= <-] [= <-] Hfa'. simpl. rewrite Hfa in Hfa'. by intros [= <-]; simplify_eq/=.
Qed.

Lemma foldM_propagate order : forall ts, allFixed ts -> NoDup order -> (forall d, d ∈ order -> d ∈ dom ts) -> twinsWF ts ->
  exists ts', foldM propagateStep ts order = Ret ts' /\ allFixed ts' /\ dom ts' = dom ts /\
    (forall d, d ∈ dom ts -> d ∈ order \/ paired ts d -> paired ts' d).
Proof.
  induction order as [|d0 order IH]; intros ts Hall Hnd Hin Hwf; simpl.
  { exists ts. split_and!; [done..|]. intros d _ [H|H]; [by apply elem_of_nil in H|done]. }
  apply NoDup_cons in Hnd as [_ Hnd].
  destruct (propagateStep_spec ts d0 Hall) as (ts1 & -> & Hall1 & Hdom1 & Hsame & Hpair). simpl.
  destruct (IH ts1) as (ts2 & -> & Hall2 & Hdom2 & Hpair2);
    [done|done|rewrite Hdom1; set_solver|unfold twinsWF; by rewrite Hdom1|].
  exists ts2. split_and!; [done|done|congruence|]. intros d Hd Hor. apply Hpair2; [congruence|].
  destruct (decide (d ∈ order)); [by left|right].
  destruct (decide (testKind d0 = "ate_tests")) as [Hk0|Hk0].
  2:{ destruct Hor as [[->|?]%elem_of_cons|Hp]; [by intros ?|done|].
      intros Hk a o fa fo. rewrite !Hsame by auto. by apply Hp. }
  destruct (Hwf d0 (Hin d0 ltac:(by left)) Hk0) as [Hotg Hinj].
  destruct (decide (d = d0)) as [->|Hne]; [apply Hpair; [done|]; intros E; rewrite <- E in Hotg; done|].
  destruct Hor as [[->|?]%elem_of_cons|Hp]; [done|done|].
  intros Hk a o fa fo. rewrite !Hsame; [by apply Hp| |].
  - left. intros E. apply Hne, Hinj; auto.
  - left. intros ->. done.
Qed.
End Facts.

Section SuiteFacts.
Context {U Ex : Type} `{!UUIDLib U, !EqDecision Ex, !ProtoText Ex}.
Implicit Types ts : gmap string (testcase Ex).

Lemma fixSuite_inv rnd o1 o2 ts ts' :
  ranges o1 ts -> ranges o2 ts -> twinsWF ts -> (forall d, goodRandom (rnd d)) ->
  fixSuite rnd o1 o2 ts = Ret (ts', true) ->
  allFixed ts' /\ dom ts' = dom ts /\ (forall d, d ∈ dom ts' -> paired ts' d).
Proof.
  intros [Hn1 H1] [Hn2 H2] Hwf Hr H. unfold fixSuite in H.
  destruct (foldl_fixStep rnd o1 ts true Hn1) as [L1 L2].
  destruct (foldl (fixStep rnd) (ts, true) o1) as [ts1 ok]. simpl in *. destruct ok; simpl in H; [|by go_inv].
  destruct L2 as [L2 _]. destruct (L2 eq_refl) as [_ L3].
  assert (dom ts1 = dom ts) as Hdom.
  { apply set_eq. intros d. rewrite !elem_of_dom, L1. case_decide; [by rewrite fmap_is_Some|done]. }
  assert (allFixed ts1) as Hall.
  { intros d tc. rewrite L1. case_decide as Hd.
    - intros (tc0 & Htc0 & ->)%fmap_Some. specialize (L3 d tc0 Hd Htc0).
      destruct (fix_case (rnd d) tc0) as [tc1 e] eqn:Hf. simpl in *. subst e. by eapply fix_case_spec.
    - intros Hd'. exfalso. apply Hd, H1, elem_of_dom. eauto. }
  destruct (foldM_propagate o2 ts1 Hall Hn2) as (ts2 & Hp & Hall2 & Hdom2 & Hpair);
    [intros d; rewrite Hdom; apply H2|unfold twinsWF; by rewrite Hdom|].
  rewrite Hp in H. simpl in H. injection H as <-. split_and!; [done|congruence|].
  intros d Hd. apply Hpair; [congruence|]. left. apply H2. congruence.
Qed.

(** On a suite whose twins agree, the second loop changes nothing. *)
Lemma propagate_paired ts order : allFixed ts -> (forall d, d ∈ dom ts -> paired ts d) ->
  foldM propagateStep ts order = Ret ts.
Proof.
  intros Hall Hp. induction order as [|d order IH]; [done|]. simpl.
  assert (propagateStep ts d = Ret ts) as ->; [|done]. unfold propagateStep. fold (toOTG d).
  destruct (String.eqb_spec (testKind d) "ate_tests") as [Hk|]; [|done]. simpl.
  destruct (ts !! toOTG d) as [o|] eqn:Ho, (ts !! d) as [a|] eqn:Ha; try done.
  destruct (Hall _ _ Ho) as (? & fo & ? & ? & Hfo & _), (Hall _ _ Ha) as (? & fa & ? & ? & Hfa & _).
  rewrite Hfo, Hfa. f_equal. apply insert_id. rewrite Ho. f_equal.
  assert (Uuid fo = Uuid fa) as <- by (eapply Hp; eauto; by eapply elem_of_dom_2).
  destruct o as [m e f]. simpl in *. subst f. unfold set_fixed. simpl. by destruct fo.
Qed.

Lemma writeStep_noop fs order : (forall d tc, (d, tc) ∈ order -> exists f, fixed tc = Some f /\ existing tc = Some f) ->
  foldM writeStep (fs, false) order = Ret (fs, false).
Proof.
  induction order as [|[d tc] order IH]; intros H; [done|]. simpl.
  destruct (H d tc) as (f & Hf & He); [by left|]. unfold write. rewrite Hf, He.
  rewrite bool_decide_eq_true_2 by done. simpl. apply IH. intros; apply (H d0); by right.
Qed.

(** A suite after it was written and read again. *)
Definition reread (ts : gmap string (testcase Ex)) : gmap string (testcase Ex) := rewritten <$> ts.

Lemma fix_reread `{!UUIDLaws U} (rnd : string -> go U) o1 o2 ts :
  allFixed ts -> (forall d, d ∈ dom ts -> paired ts d) -> ranges o1 ts ->
  exists ts', fixSuite rnd o1 o2 (reread ts) = Ret (ts', true) /\
    forall d tc, ts' !! d = Some tc -> exists f, fixed tc = Some f /\ existing tc = Some f.
Proof.
  intros Hall Hp [Hn Hr]. unfold fixSuite.
  destruct (foldl_fixStep rnd o1 (reread ts) true Hn) as [L1 L2].
  destruct (foldl (fixStep rnd) (reread ts, true) o1) as [ts1 ok]. simpl in *.
  assert (ok = true) as ->.
  { apply L2. split; [done|]. intros d tc _ Hd. unfold reread in Hd. rewrite lookup_fmap in Hd.
    apply fmap_Some in Hd as (tc0 & Htc0 & ->). rewrite fix_rewritten; eauto. }
  assert (forall d, ts1 !! d = (fun tc => set_fixed (fixed tc) (rewritten tc)) <$> ts !! d) as L3.
  { intros d. rewrite L1. unfold reread. rewrite lookup_fmap. destruct (ts !! d) as [tc|] eqn:Hd.
    - rewrite decide_True by (apply Hr, elem_of_dom; eauto). simpl. rewrite fix_rewritten; eauto.
    - by case_decide. }
  assert (allFixed ts1) as Hall1.
  { intros d tc. rewrite L3. intros (tc0 & Htc0 & ->)%fmap_Some.
    destruct (Hall d tc0 Htc0) as (m & f & u & ? & ? & ?). by exists m, f, u. }
  simpl. rewrite propagate_paired; [|done|].
  - exists ts1. split; [done|]. intros d tc. rewrite L3. intros (tc0 & Htc0 & ->)%fmap_Some.
    destruct (Hall d tc0 Htc0) as (m & f & u & ? & Hf & ?). exists f. by simpl.
  - intros d Hd Hk a o fa fo. rewrite !L3. intros (a0 & Ha0 & ->)%fmap_Some (o0 & Ho0 & ->)%fmap_Some Hfa Hfo.
    simpl in *. eapply (Hp d); eauto. by eapply elem_of_dom_2.
Qed.
End SuiteFacts.

(** * Properties *)

(** The duplicate check passes exactly when any two tests with the same
    non-empty key are the ATE and OTG variants of one test; the order in which
    the suite is visited does not matter. *)
Theorem checkDuplicate_iff {Ex} (keyfn : testcase Ex -> string) (order : list (string * testcase Ex)) :
  checkDuplicate keyfn order = true <->
  forall d1 tc1 d2 tc2, (d1, tc1) ∈ order -> (d2, tc2) ∈ order ->
    keyfn tc1 = keyfn tc2 -> keyfn tc1 <> "" -> toOTG d1 = toOTG d2.
Proof.
  unfold checkDuplicate. destruct (foldl_dup_inv keyfn order) as (I1 & I2 & ->).
  set (wants := (foldl _ _ _).1) in *. clearbody wants. split.
  - intros H d1 tc1 d2 tc2 H1 H2 E Hne. destruct (I2 d1 tc1 H1 Hne) as [w Hw].
    rewrite (H d1 tc1 w H1 Hw). symmetry. apply (H d2 tc2 w H2). by rewrite <- E.
  - intros H d tc w Hin Hw. destruct (I1 _ _ Hw) as (tcw & Hinw & E & Hne).
    apply (H d tc w tcw Hin Hinw); congruence.
Qed.

(** After a successful fix is written, the check of the case passes, except
    that a case whose existing UUID was valid keeps an unspecified testbed and
    still fails for it. *)
Theorem fix_check {U Ex} `{!UUIDLib U, !UUIDLaws U} (r : go U) (tc tc' : testcase Ex) :
  goodRandom r -> fix_case r tc = (tc', None) ->
  check (rewritten tc') = if keepsNoTestbed tc then ["missing testbed in metadata"] else [].
Proof.
  intros Hr H. destruct (fix_case_spec r tc tc' Hr H) as (Hc & _ & _ & Ht).
  pose proof Hc as (m & f & u & _ & Hf & _). rewrite (check_rewritten tc' f Hc Hf). by rewrite (Ht f Hf).
Qed.

(** C36: a successful fix of a suite gives every ATE test and its OTG twin the
    same UUID, whatever the orders of the two loops. *)
Theorem fixSuite_twins {U Ex} `{!UUIDLib U} rnd o1 o2 (ts ts' : gmap string (testcase Ex)) d a o :
  ranges o1 ts -> ranges o2 ts -> twinsWF ts -> (forall d, goodRandom (rnd d)) ->
  fixSuite (U := U) rnd o1 o2 ts = Ret (ts', true) ->
  testKind d = "ate_tests" -> ts' !! d = Some a -> ts' !! toOTG d = Some o ->
  exists fa fo, fixed a = Some fa /\ fixed o = Some fo /\ Uuid fa = Uuid fo.
Proof.
  intros H1 H2 Hwf Hr H Hk Ha Ho. destruct (fixSuite_inv rnd o1 o2 ts ts' H1 H2 Hwf Hr H) as (Hall & _ & Hp).
  destruct (Hall _ _ Ha) as (? & fa & ? & ? & Hfa & _), (Hall _ _ Ho) as (? & fo & ? & ? & Hfo & _).
  exists fa, fo. split_and!; [done|done|]. symmetry. eapply (Hp d); eauto. by eapply elem_of_dom_2.
Qed.

(** fixing is idempotent: once a fixed suite is written and read back,
    fixing it again succeeds and there is nothing to write. *)
Theorem fixSuite_idempotent {U Ex} `{!UUIDLib U, !UUIDLaws U, !EqDecision Ex, !ProtoText Ex}
    rnd rnd' o1 o2 o1' o2' (ts ts' : gmap string (testcase Ex)) fs :
  ranges o1 ts -> ranges o2 ts -> ranges o1' ts -> twinsWF ts -> (forall d, goodRandom (rnd d)) ->
  fixSuite (U := U) rnd o1 o2 ts = Ret (ts', true) ->
  exists ts2, fixSuite (U := U) rnd' o1' o2' (reread ts') = Ret (ts2, true) /\
    exists e, writeSuite fs (map_to_list ts2) = Fail e /\ errors_Is e ErrNoop = true.
Proof.
  intros H1 H2 [Hn1' H1'] Hwf Hr H.
  destruct (fixSuite_inv rnd o1 o2 ts ts' H1 H2 Hwf Hr H) as (Hall & Hdom & Hp).
  destruct (fix_reread rnd' o1' o2' ts' Hall Hp) as (ts2 & Hf & Hsame); [split; [done|by rewrite Hdom]|].
  exists ts2. split; [done|]. eexists. unfold writeSuite. rewrite writeStep_noop; [done|].
  intros d tc Hin%elem_of_map_to_list. eauto.
Qed.

Lemma ateotg_panics {Ex} (ts : gmap string (testcase Ex)) order ok :
  foldM (ateotgStep ts) ok order = Panic <->
  exists d tc o, (d, tc) ∈ order /\ testKind d = "ate_tests" /\ ts !! toOTG d = Some o /\
    (existing tc = None \/ existing o = None).
Proof.
  revert ok. induction order as [|[d tc] order IH]; intros ok; simpl.
  { split; [done|]. intros (? & ? & ? & ?%elem_of_nil & _). done. }
  setoid_rewrite elem_of_cons.
  assert (forall P : Prop, (P <-> exists d' tc' o, (d', tc') ∈ order /\ testKind d' = "ate_tests" /\
      ts !! toOTG d' = Some o /\ (existing tc' = None \/ existing o = None)) ->
    ~ (exists o, testKind d = "ate_tests" /\ ts !! toOTG d = Some o /\ (existing tc = None \/ existing o = None)) ->
    P <-> exists d' tc' o, ((d', tc') = (d, tc) \/ (d', tc') ∈ order) /\ testKind d' = "ate_tests" /\
      ts !! toOTG d' = Some o /\ (existing tc' = None \/ existing o = None)) as Hskip.
  { intros P -> Hn. split; [intros (d' & tc' & o & ? & ?); exists d', tc', o; auto|].
    intros (d' & tc' & o & [[= -> ->]|?] & ? & ? & ?); [exfalso; eauto|eauto 10]. }
  destruct (String.eqb_spec (testKind d) "ate_tests") as [Hk|Hk]; simpl; [|apply Hskip; [apply IH|naive_solver]].
  destruct (ts !! toOTG d) as [o|] eqn:Ho; simpl; [|apply Hskip; [apply IH|naive_solver]].
  destruct (existing tc) eqn:E1, (existing o) eqn:E2; simpl; [apply Hskip; [apply IH|naive_solver]|..];
    (split; [intros _; exists d, tc, o; auto 10|done]).
Qed.

(** The comparison of ATE and OTG tests dereferences nil exactly when an ATE
    test and its OTG twin are both there and one of them has no metadata yet. *)
Theorem checkATEOTG_panics {Ex} (ts : gmap string (testcase Ex)) order :
  checkATEOTG ts order = Panic <->
  exists d tc o, (d, tc) ∈ order /\ testKind d = "ate_tests" /\ ts !! toOTG d = Some o /\
    (existing tc = None \/ existing o = None).
Proof. apply ateotg_panics. Qed.

(** * Witnesses *)

(** UUIDs as non-empty texts, those that start with 4 being of version 4. *)
Definition textUUID : Type := ascii * string.
#[export] Instance textUUID_lib : UUIDLib textUUID := {|
  uuidParse s := match s with EmptyString => None | String c s => Some (c, s) end;
  uuidString u := String u.1 u.2;
  uuidV4 u := Ascii.eqb u.1 "4";
|}.
#[export] Instance textUUID_laws : UUIDLaws textUUID.
Proof. split; [by intros []|done]. Qed.
#[export] Instance unitProto : ProtoText unit := {|
  Unmarshal _ := Fail (errors_New "syntax error");
  Marshal md := Ret (PlanId md);
|}.

Definition sampleCase (uuid : string) : testcase unit := {|
  markdown := Some (mkMetadata "RT-1.1" "Base BGP");
  existing := Some (set_Uuid uuid (mkMetadata "RT-1.0" "BGP"));
  fixed := None |}.
Definition ateDir := "/fp/feature/bgp/ate_tests/base_test".
Definition otgDir := "/fp/feature/bgp/otg_tests/base_test".
Definition sampleSuite : gmap string (testcase unit) :=
  {[ateDir := sampleCase "4a"; otgDir := sampleCase "broken"]}.
Definition sampleRandom (d : string) : go textUUID := Ret ("4"%char, d).

Lemma sample_random d : goodRandom (sampleRandom d).
Proof. by intros u [= <-]. Qed.

Lemma sample_ranges : ranges [ateDir; otgDir] sampleSuite.
Proof.
  split; [repeat constructor; set_solver|]. intros d. unfold sampleSuite.
  rewrite dom_insert_L, dom_singleton_L. set_solver.
Qed.

Lemma sample_twins : twinsWF sampleSuite.
Proof.
  assert (forall d, d ∈ dom sampleSuite -> d = ateDir \/ d = otgDir) as Hd.
  { intros d. unfold sampleSuite. rewrite dom_insert_L, dom_singleton_L. set_solver. }
  assert (testKind ateDir = "ate_tests" /\ testKind otgDir = "otg_tests" /\ toOTG ateDir = otgDir) as (Ka & Ko & T)
    by (vm_compute; done).
  intros d [->| ->]%Hd Hk; [|congruence]. rewrite T, Ko. split; [done|].
  intros d' [->| ->]%Hd Hk'; congruence.
Qed.

Definition fixedSuite : gmap string (testcase unit) :=
  match fixSuite sampleRandom [ateDir; otgDir] [ateDir; otgDir] sampleSuite with
  | Ret (ts, _) => ts
  | _ => ∅
  end.

Lemma sample_fix :
  fixSuite sampleRandom [ateDir; otgDir] [ateDir; otgDir] sampleSuite = Ret (fixedSuite, true).
Proof. vm_compute. reflexivity. Qed.

Lemma fix_check_witness :
  check (rewritten (fix_case (sampleRandom ateDir) (sampleCase "4a")).1) = ["missing testbed in metadata"].
Proof.
  refine (eq_trans (fix_check (sampleRandom ateDir) (sampleCase "4a")
    (fix_case (sampleRandom ateDir) (sampleCase "4a")).1 (sample_random ateDir) _) _);
    vm_compute; reflexivity.
Defined.

Lemma fixSuite_twins_witness :
  exists fa fo, default None (fixed <$> fixedSuite !! ateDir) = Some fa /\
    default None (fixed <$> fixedSuite !! otgDir) = Some fo /\ Uuid fa = Uuid fo.
Proof.
  destruct (fixedSuite !! ateDir) as [a|] eqn:Ha; [|vm_compute in Ha; discriminate Ha].
  destruct (fixedSuite !! otgDir) as [o|] eqn:Ho; [|vm_compute in Ho; discriminate Ho].
  exact (fixSuite_twins sampleRandom _ _ _ _ ateDir a o sample_ranges sample_ranges sample_twins sample_random
           sample_fix ltac:(vm_compute; reflexivity) Ha Ho).
Defined.

Lemma fixSuite_idempotent_witness :
  exists ts2, fixSuite sampleRandom [ateDir; otgDir] [ateDir; otgDir] (reread fixedSuite) = Ret (ts2, true) /\
    exists e, writeSuite ∅ (map_to_list ts2) = Fail e /\ errors_Is e ErrNoop = true.
Proof.
  exact (fixSuite_idempotent sampleRandom sampleRandom _ _ _ _ _ _ ∅ sample_ranges sample_ranges sample_ranges
           sample_twins sample_random sample_fix).
Defined.

(** A new ATE test without metadata, next to its OTG variant: even the command
    that would write the metadata stops at the nil dereference. *)
Example runFix_panics :
  runFix sampleRandom ∅ {[ateDir := set_existing None (sampleCase ""); otgDir := sampleCase "4a"]} = Panic.
Proof. vm_compute. reflexivity. Qed.
