(* ===== verification/TestTracker.v ===== *)
(** The test tracker listing [tools/addrundata/list_testtracker.go]: the plan
    built from a suite of test cases and its merge into an existing JSON plan. *)
From stdpp Require Import base list gmap strings sorting.
From Stdlib Require Import ZArith Lia Ascii.
From S2P Require Import Prelude GoStrings Version Rundata.

(** * JSON values *)

(** What [encoding/json] decodes into [any]. *)
Inductive json :=
| JNull
| JBool (b : bool)
| JNum (n : Z)
| JStr (s : string)
| JArr (l : list json)
| JObj (m : list (string * json)).

(** [m[k]] and [m[k] = v] on a [map[string]any]. *)
Fixpoint jget (k : string) (m : list (string * json)) : option json :=
  match m with
  | [] => None
  | (k', v) :: m => if String.eqb k' k then Some v else jget k m
  end.
Fixpoint jset (k : string) (v : json) (m : list (string * json)) : list (string * json) :=
  match m with
  | [] => [(k, v)]
  | (k', v') :: m => if String.eqb k' k then (k, v) :: m else (k', v') :: jset k v m
  end.

Definition asObj (j : option json) : option (list (string * json)) :=
  match j with Some (JObj m) => Some m | _ => None end.
Definition asStr (j : option json) : option string :=
  match j with Some (JStr s) => Some s | _ => None end.
Definition asArr (j : option json) : list json :=
  match j with Some (JArr l) => l | _ => [] end.

(** [json.Marshal] of a string of ASCII or UTF-8 text. *)
Definition hexDigit (n : nat) : ascii := ascii_of_nat (if n <? 10 then n + 48 else n + 87).
Definition dquote : ascii := ascii_of_nat 34.
Definition escapeByte (c : ascii) : string :=
  let n := nat_of_ascii c in
  let bs s := String (ascii_of_nat 92) s in
  if n =? 34 then bs (String c "") else if n =? 92 then bs (String c "")
  else if n =? 10 then bs "n" else if n =? 13 then bs "r" else if n =? 9 then bs "t"
  else if n =? 8 then bs "b" else if n =? 12 then bs "f"
  else if (n <? 32) || existsb (Nat.eqb n) [60; 62; 38]
  then bs ("u00" +:+ String (hexDigit (n / 16)) (String (hexDigit (n mod 16)) ""))
  else String c "".
Fixpoint escapeString (s : string) : string :=
  match s with
  | EmptyString => EmptyString
  | String c s => escapeByte c +:+ escapeString s
  end.
Definition jsonQuote (s : string) : string :=
  String dquote (escapeString s +:+ String dquote "").

(** [sort.Slice(keys, less)]. *)
Definition notAfter {A} (less : A -> A -> bool) (x y : A) : Prop := less y x = false.
#[export] Instance notAfter_dec {A} (less : A -> A -> bool) x y : Decision (notAfter less x y).
Proof. unfold notAfter. apply _. Defined.
Definition sortSlice {A} (less : A -> A -> bool) (l : list A) : list A := merge_sort (notAfter less) l.

Section TestTracker.
Context {U Ex : Type} `{!UUIDLib U, !EqDecision Ex}.

Record ttCase := { metadata : Metadata Ex; testDirs : gmap string string }.
Abbreviation ttSuite := (gmap string ttCase).
Abbreviation ttPlan := (gmap string ttSuite).

(** Only the fields the test tracker uses; a nil message panics. *)
Definition reduceCase (tc : testcase Ex) : go (testcase Ex) :=
  match existing tc with
  | None => Panic
  | Some md => Ret (set_existing (Some (set_Uuid (Uuid md) (mkMetadata (PlanId md) (Description md)))) tc)
  end.
Definition reduceMetadata (order : list (string * testcase Ex)) : go (list (string * testcase Ex)) :=
  mapM (fun x => tc ← reduceCase x.2; Ret (x.1, tc)) order.

Definition testSection (testPlanID : string) : string :=
  match IndexByte testPlanID "." with
  | None => testPlanID
  | Some i => str_take i testPlanID
  end.

(** The state of the loop of [ttBuildPlan].  A [*ttCase] is shared between
    [ttsall] and the suites of the plan: [ttsall] holds the cases, and the plan
    the UUIDs of the cases of each section. *)
Record planState := { ttsall : ttSuite; sections : gmap string (gset string); plan_ok : bool }.

Definition buildStep (rootdir : string) (st : planState) (x : string * testcase Ex) : planState :=
  let '(testdir, tc) := x in
  match existing tc with
  | None => {| ttsall := ttsall st; sections := sections st; plan_ok := false |}
  | Some md =>
      let u := Uuid md in
      let ttc := default {| metadata := md; testDirs := ∅ |} (ttsall st !! u) in
      if negb (bool_decide (md = metadata ttc)) then
        {| ttsall := <[u := ttc]> (ttsall st); sections := sections st; plan_ok := false |}
      else
        let kind := if isTestKind (testKind testdir) then testKind testdir else "" in
        let reldir := match Rel rootdir testdir with Ret r => r | _ => "" end in
        let sec := testSection (PlanId (metadata ttc)) in
        {| ttsall := <[u := {| metadata := metadata ttc; testDirs := <[kind := reldir]> (testDirs ttc) |}]> (ttsall st);
           sections := <[sec := {[u]} ∪ default ∅ (sections st !! sec)]> (sections st);
           plan_ok := plan_ok st |}
  end.

(** The suites, with the pointers followed. *)
Definition resolvePlan (st : planState) : ttPlan :=
  (fun us : gset string => filter (fun x => x.1 ∈ us) (ttsall st)) <$> sections st.

Definition ttBuildPlan (order : list (string * testcase Ex)) (rootdir : string) : ttPlan * bool :=
  let st := foldl (buildStep rootdir) {| ttsall := ∅; sections := ∅; plan_ok := true |} order in
  (resolvePlan st, plan_ok st).

(** * Cases *)

Definition nl : string := String (ascii_of_nat 10) EmptyString.
Definition repoTreeMain : string := "https://github.com/openconfig/featureprofiles/tree/main".

Definition builtinSortedKeys (m : gmap string string) : list string :=
  sortSlice str_lt (map_to_list m).*1.

Definition ttDesc (testDirs : gmap string string) : string :=
  if bool_decide (testDirs = ∅) then ""
  else
    "See code location:" +:+ nl +:+
    foldr (fun kind rest =>
             let kindstr := match default "" (testKinds !! kind) with "" => "Test" | k => k end in
             "  - " +:+ kindstr +:+ ": " +:+ repoTreeMain +:+ "/" +:+ default "" (testDirs !! kind) +:+ nl +:+ rest)
      "" (builtinSortedKeys testDirs).

Definition defaultCaseAttrs : list (string * json) :=
  [("script", JArr []); ("requirement", JStr ""); ("script_name", JStr ""); ("script_type", JStr "NA");
   ("script_status", JStr "Needs Evaluation"); ("tags", JStr ""); ("priority", JNum 0);
   ("duration", JNum 0); ("goal", JStr ""); ("topology", JNull)].

(** [ttCase.merge] on the object [o]. *)
Definition mergeCase (ttc : ttCase) (o : list (string * json)) : list (string * json) :=
  let title := PlanId (metadata ttc) +:+ ": " +:+ Description (metadata ttc) in
  let o := jset "text" (JStr title) (jset "type" (JStr "testcases") o) in
  let attrs := default [] (asObj (jget "li_attr" o)) in
  let attrs := jset "rel" (JStr "testcases") attrs in
  let attrs := jset "title" (JStr title) attrs in
  let attrs := jset "uuid" (JStr (Uuid (metadata ttc))) attrs in
  let attrs := jset "description" (JStr (jsonQuote (ttDesc (testDirs ttc)))) attrs in
  let attrs := foldl (fun attrs '(k, v) => match jget k attrs with Some _ => attrs | None => jset k v attrs end)
                 attrs defaultCaseAttrs in
  jset "li_attr" (JObj attrs) o.

(** * Suites *)

Record ttCaseKey := { key_o : list (string * json); key_testUUID : string; key_testPlanID : string }.

Definition childCase (child : json) : option ttCaseKey :=
  match child with
  | JObj o =>
      match asObj (jget "li_attr" o) with
      | None => None
      | Some attrs =>
          match asStr (jget "uuid" attrs) with
          | None => None
          | Some s =>
              match validUUID s with
              | None => None
              | Some u =>
                  let plan :=
                    match asStr (jget "title" attrs) with
                    | None => ""
                    | Some title =>
                        match IndexByte title ":" with
                        | Some i => TrimSpace (str_take i title)
                        | None => ""
                        end
                    end in
                  Some {| key_o := o; key_testUUID := uuidString u; key_testPlanID := plan |}
              end
          end
      end
  | _ => None
  end.

Definition suiteEmpty (sec : string) : list (string * json) :=
  let title := "[" +:+ sec +:+ "]" in
  [("text", JStr title); ("type", JStr "testsuites");
   ("li_attr", JObj [("rel", JStr "testsuites"); ("title", JStr title);
                     ("description", JStr (jsonQuote "")); ("tags", JStr "")])].

(** Keys sorted by the plan identifiers of their cases. *)
Definition suiteSortedKeys (tts : ttSuite) : list string :=
  let plan u := match tts !! u with Some ttc => PlanId (metadata ttc) | None => "" end in
  sortSlice (fun i j => lessVersion (plan i) (plan j)) (map_to_list tts).*1.

(** One existing child: the child as it stays, and the cases still to do. *)
Definition mergeChild (tts bytp : ttSuite) (todos : ttSuite) (child : json) : json * ttSuite :=
  match childCase child with
  | None => (child, todos)
  | Some key =>
      let byUUID :=
        match tts !! key_testUUID key with
        | Some ttc => (JObj (mergeCase ttc (key_o key)), delete (key_testUUID key) todos)
        | None => (child, todos)
        end in
      if String.eqb (key_testPlanID key) "" then byUUID
      else
        match bytp !! key_testPlanID key with
        | Some ttc => (JObj (mergeCase ttc (key_o key)), delete (Uuid (metadata ttc)) todos)
        | None => byUUID
        end
  end.

Definition mergeChildren {T} (step : T -> json -> json * T) (todos : T) (l : list json) : list json * T :=
  foldl (fun st child => let '(child', todos) := step st.2 child in (st.1 ++ [child'], todos)) ([], todos) l.

(** [ttSuite.merge]; the loop over the map ends with the last case of a plan
    identifier in [bytp]. *)
Definition mergeSuite (tts : ttSuite) (o : list (string * json)) : list (string * json) :=
  let bytp := foldl (fun m '(_, ttc) => <[PlanId (metadata ttc) := ttc]> m) ∅ (map_to_list tts) in
  let '(children, todos) := mergeChildren (mergeChild tts bytp) tts (asArr (jget "children" o)) in
  let new := omap (fun u => (fun ttc => JObj (mergeCase ttc [])) <$> todos !! u) (suiteSortedKeys todos) in
  jset "children" (JArr (children ++ new)) o.

(** * Plans *)

Definition planEmpty : list (string * json) :=
  let title := "Feature Profiles Test Plan" in
  [("text", JStr title); ("type", JStr "testplan");
   ("li_attr", JObj [("rel", JStr "testplan"); ("title", JStr title);
                     ("introduction", JStr (jsonQuote "https://github.com/openconfig/featureprofiles"))])].

(** [bracketRE]: the shortest text between brackets. *)
Fixpoint bracketRE (s : string) : option string :=
  match s with
  | EmptyString => None
  | String c s' =>
      if Ascii.eqb c "[" then
        match IndexByte s' "]" with
        | Some i =>
            let m := str_take i s' in
            match IndexByte m (ascii_of_nat 10) with None => Some m | Some _ => bracketRE s' end
        | None => None
        end
      else bracketRE s'
  end.

Definition childSuite (child : json) : option (list (string * json) * string) :=
  match child with
  | JObj o =>
      match asStr (jget "text" o) with
      | None => None
      | Some text => match bracketRE text with None => None | Some sec => Some (o, sec) end
      end
  | _ => None
  end.

Definition planSortedKeys (ttp : ttPlan) : list string := sortSlice lessVersion (map_to_list ttp).*1.

Definition mergePlanChild (ttp : ttPlan) (todos : ttPlan) (child : json) : json * ttPlan :=
  match childSuite child with
  | None => (child, todos)
  | Some (o, sec) =>
      match ttp !! sec with
      | None => (child, todos)
      | Some tts => (JObj (mergeSuite tts o), delete sec todos)
      end
  end.

(** [ttPlan.merge]. *)
Definition mergePlan (ttp : ttPlan) (o : list (string * json)) : list (string * json) :=
  let '(children, todos) := mergeChildren (mergePlanChild ttp) ttp (asArr (jget "children" o)) in
  let new := omap (fun sec => (fun tts => JObj (mergeSuite tts (suiteEmpty sec))) <$> todos !! sec)
               (planSortedKeys todos) in
  jset "children" (JArr (children ++ new)) o.

(** [json.Unmarshal] of a value into a map: an object keeps the members of the map
    that it does not have, [null] makes the map nil, and any other value is an
    error. *)
Definition unmarshalInto (j : json) (o : list (string * json)) : go (option (list (string * json))) :=
  match j with
  | JObj m => Ret (Some (foldl (fun o '(k, v) => jset k v o) o m))
  | JNull => Ret None
  | _ => Fail (errors_New "json: cannot unmarshal")
  end.

(** [listTestTracker]; [mergejson] is the plan to merge into, if any, as read from
    its file and parsed.  Writing into a nil map panics. *)
Definition listTestTracker (mergejson : option (go json)) (featuredir : string)
    (order : list (string * testcase Ex)) : go (list (string * json)) :=
  order ← reduceMetadata order;
  let '(ttp, ok) := ttBuildPlan order (Dir featuredir) in
  if negb ok then Fail (errors_New "inconsistency is detected in rundata")
  else
    o ← match mergejson with
        | None => Ret (Some planEmpty)
        | Some data => j ← data; unmarshalInto j planEmpty
        end;
    match o with
    | Some o => Ret (mergePlan ttp o)
    | None => Panic
    end.
End TestTracker.
Arguments ttCase Ex : clear implicits.

(** * Lemmas *)

Lemma jget_jset_eq k v m : jget k (jset k v m) = Some v.
Proof.
  induction m as [|[k' v'] m IH]; simpl; [by rewrite String.eqb_refl|].
  destruct (String.eqb_spec k' k) as [->|Hne]; simpl; [by rewrite String.eqb_refl|].
  by rewrite (proj2 (String.eqb_neq _ _) Hne).
Qed.

Lemma jget_jset_ne k k' v m : k <> k' -> jget k (jset k' v m) = jget k m.
Proof.
  intros Hne. induction m as [|[k2 v2] m IH]; simpl.
  - by rewrite (proj2 (String.eqb_neq _ _)) by congruence.
  - destruct (String.eqb_spec k2 k') as [->|Hne2]; simpl.
    + by rewrite (proj2 (String.eqb_neq k' k)) by congruence.
    + by rewrite IH.
Qed.

Lemma jget_defaults (k : string) v (ds : list (string * json)) attrs :
  jget k attrs = Some v ->
  jget k (foldl (fun attrs '(k, v) => match jget k attrs with Some _ => attrs | None => jset k v attrs end) attrs ds)
  = Some v.
Proof.
  revert attrs. induction ds as [|[k' v'] ds IH]; intros attrs H; [done|]. simpl. apply IH.
  destruct (jget k' attrs) eqn:E; [done|]. rewrite jget_jset_ne; [done|]. intros ->. congruence.
Qed.

Section Facts.
Context {U Ex : Type} `{!UUIDLib U, !EqDecision Ex}.
Implicit Types (ttc : ttCase Ex) (tts : gmap string (ttCase Ex)) (ttp : gmap string (gmap string (ttCase Ex))).

(** A JSON test case that shows the case's title and UUID. *)
Definition showsCase (md : Metadata Ex) (j : json) : Prop :=
  exists o attrs, j = JObj o /\ jget "text" o = Some (JStr (PlanId md +:+ ": " +:+ Description md)) /\
    jget "li_attr" o = Some (JObj attrs) /\ jget "uuid" attrs = Some (JStr (Uuid md)).

Lemma mergeCase_shows ttc o : showsCase (metadata ttc) (JObj (mergeCase ttc o)).
Proof.
  unfold showsCase, mergeCase. eexists _, _. split; [reflexivity|]. split; [|split].
  - rewrite jget_jset_ne by done. by rewrite jget_jset_eq.
  - apply jget_jset_eq.
  - apply jget_defaults. rewrite jget_jset_ne by done. by rewrite jget_jset_eq.
Qed.

(** A loop over the old children keeps them in place, and what it takes off the
    list of things to do it has done to one of them. *)
Lemma mergeChildren_inv {T} (step : T -> json -> json * T) (todo : T -> string -> Prop) (done : string -> json -> Prop) t0 l :
  (forall t child u, todo t u -> let '(child', t') := step t child in todo t' u \/ done u child') ->
  length (mergeChildren step t0 l).1 = length l /\
  forall u, todo t0 u -> todo (mergeChildren step t0 l).2 u \/ exists j, j ∈ (mergeChildren step t0 l).1 /\ done u j.
Proof.
  intros Hstep. unfold mergeChildren. induction l as [|child l [IHl IH]] using rev_ind; [by split; auto|].
  rewrite !foldl_snoc. destruct (foldl _ _ l) as [children t]. simpl in *.
  specialize (Hstep t child). destruct (step t child) as [child' t']. simpl. split.
  - rewrite !length_app, IHl. done.
  - intros u Hu. destruct (IH u Hu) as [Ht|(j & Hj & Hd)].
    + destruct (Hstep u Ht) as [|Hd]; [by left|right]. exists child'. set_solver.
    + right. exists j. set_solver.
Qed.

Definition coherent tts : Prop := forall u ttc, tts !! u = Some ttc -> Uuid (metadata ttc) = u.

Lemma bytp_values (l : list (string * ttCase Ex)) (m : gmap string (ttCase Ex)) p ttc :
  foldl (fun m '(_, ttc) => <[PlanId (metadata ttc) := ttc]> m) m l !! p = Some ttc ->
  m !! p = Some ttc \/ exists u, (u, ttc) ∈ l.
Proof.
  revert m. induction l as [|[u0 ttc0] l IH]; intros m H; simpl in H; [by left|].
  destruct (IH _ H) as [Hm|[u Hu]]; [|right; exists u; set_solver].
  rewrite lookup_insert in Hm. case_decide; [|by left]. injection Hm as ->. right. exists u0. by left.
Qed.

Lemma sortSlice_perm {A} (less : A -> A -> bool) l : sortSlice less l ≡ₚ l.
Proof. apply merge_sort_Permutation. Qed.

(** The section of a plan identifier: what precedes its first dot. *)
Definition sectionOf (planID sec : string) : Prop :=
  exists rest, planID = sec +:+ rest /\ IndexByte sec "." = None /\ (rest = "" \/ HasPrefix rest "." = true).

Lemma testSection_of planID : sectionOf planID (testSection planID).
Proof.
  unfold sectionOf, testSection. induction planID as [|c s (rest & IHe & IHn & IHr)]; [exists ""; split; [done|split; [done|by left]]|].
  cbn [IndexByte]. destruct (Ascii.eqb_spec c ".") as [->|Hc].
  - exists (String "." s). split; [done|]. split; [done|]. right. by destruct s.
  - destruct (IndexByte s ".") as [i|] eqn:E; cbn [fmap option_fmap option_map].
    + exists rest. change (str_take (S i) (String c s)) with (String c (str_take i s)). split; [by rewrite IHe at 1|].
      split; [|done]. cbn [IndexByte]. rewrite (proj2 (Ascii.eqb_neq _ _) Hc). by rewrite IHn.
    + exists rest. split; [by rewrite IHe at 1|]. split; [|done]. cbn [IndexByte]. by rewrite (proj2 (Ascii.eqb_neq _ _) Hc), E.
Qed.

(** A suite object of the section: its text names the section in brackets. *)
Definition labelled (sec : string) (suite : list (string * json)) : Prop :=
  exists text, jget "text" suite = Some (JStr text) /\ (text = "[" +:+ sec +:+ "]" \/ bracketRE text = Some sec).

Lemma mergeSuite_labelled tts o sec : labelled sec o -> labelled sec (mergeSuite (U := U) tts o).
Proof.
  intros (text & Ht & Hsec). exists text. split; [|done]. unfold mergeSuite.
  destruct (mergeChildren _ _ _). by rewrite jget_jset_ne.
Qed.

Lemma childSuite_labelled child o sec : childSuite child = Some (o, sec) -> labelled sec o.
Proof.
  unfold childSuite. destruct child as [| | | | |m]; try done. destruct (jget "text" m) as [[| | |text| |]|] eqn:E; try done.
  simpl. destruct (bracketRE text) as [sec'|] eqn:Eb; [|done]. intros [= <- <-]. exists text. auto.
Qed.

(** Every case of the suite is shown by a child of the merged object. *)
Lemma mergeSuite_shows tts o u ttc : coherent tts -> tts !! u = Some ttc ->
  exists children j, jget "children" (mergeSuite (U := U) tts o) = Some (JArr children) /\ j ∈ children /\
    showsCase (metadata ttc) j.
Proof.
  intros Hc Hu. unfold mergeSuite. set (bytp := foldl _ ∅ _).
  assert (forall p t, bytp !! p = Some t -> tts !! Uuid (metadata t) = Some t) as Hb.
  { intros p t Hp. apply bytp_values in Hp as [Hp|[v Hv%elem_of_map_to_list]]; [by rewrite lookup_empty in Hp|].
    by rewrite (Hc v t Hv). }
  pose proof (mergeChildren_inv (mergeChild (U := U) tts bytp) (fun t u => t !! u = tts !! u)
    (fun u j => exists t, tts !! u = Some t /\ showsCase (metadata t) j) tts (asArr (jget "children" o))) as [_ Hinv].
  { intros t child v Hv. unfold mergeChild. destruct (childCase child) as [key|]; [|by left].
    assert (forall w t2, tts !! w = Some t2 ->
      delete w t !! v = tts !! v \/ exists t3, tts !! v = Some t3 /\ showsCase (metadata t3) (JObj (mergeCase t2 (key_o key)))) as Hd.
    { intros w t2 Hw. destruct (decide (w = v)) as [->|Hne]; [right; exists t2; split; [done|apply mergeCase_shows]|left].
      by rewrite lookup_delete_ne. }
    destruct (String.eqb (key_testPlanID key) "").
    - destruct (tts !! key_testUUID key) eqn:E; [by apply Hd|by left].
    - destruct (bytp !! key_testPlanID key) eqn:Eb; [by apply Hd, (Hb _ _ Eb)|].
      destruct (tts !! key_testUUID key) eqn:E; [by apply Hd|by left]. }
  destruct (mergeChildren _ tts _) as [children todos]. simpl in Hinv.
  eexists _. rewrite jget_jset_eq.
  destruct (Hinv u eq_refl) as [Ht|(j & Hj & t & Et & Hs)].
  - exists (JObj (mergeCase ttc [])). split; [reflexivity|]. split; [|apply mergeCase_shows].
    apply elem_of_app. right. apply list_elem_of_omap. exists u. rewrite Ht, Hu. split; [|done].
    unfold suiteSortedKeys. rewrite sortSlice_perm. apply list_elem_of_fmap.
    exists (u, ttc). split; [done|]. apply elem_of_map_to_list. by rewrite Ht.
  - exists j. split; [reflexivity|]. split; [set_solver|]. by rewrite Hu in Et; injection Et as <-.
Qed.

Lemma mergePlan_shows ttp o sec tts : ttp !! sec = Some tts ->
  exists children o0, jget "children" (mergePlan (U := U) ttp o) = Some (JArr children) /\
    JObj (mergeSuite (U := U) tts o0) ∈ children /\ labelled sec o0.
Proof.
  intros Hs. unfold mergePlan.
  pose proof (mergeChildren_inv (mergePlanChild (U := U) ttp) (fun t u => t !! u = ttp !! u)
    (fun u j => exists t o0, ttp !! u = Some t /\ j = JObj (mergeSuite (U := U) t o0) /\ labelled u o0) ttp (asArr (jget "children" o))) as [_ Hinv].
  { intros t child v Hv. unfold mergePlanChild. destruct (childSuite child) as [[o0 sec']|] eqn:Ec; [|by left].
    destruct (ttp !! sec') as [tts'|] eqn:E; [|by left].
    destruct (decide (sec' = v)) as [->|Hne]; [right; exists tts', o0; split; [done|]; split; [done|by eapply childSuite_labelled]|left; by rewrite lookup_delete_ne]. }
  destruct (mergeChildren _ ttp _) as [children todos]. simpl in Hinv.
  eexists _. rewrite jget_jset_eq. destruct (Hinv sec eq_refl) as [Ht|(j & Hj & t & o0 & Et & -> & Hl)].
  - exists (suiteEmpty sec). split; [reflexivity|]. split; [|eexists; split; [reflexivity|by left]]. apply elem_of_app. right. apply list_elem_of_omap.
    exists sec. rewrite Ht, Hs. split; [|done]. unfold planSortedKeys. rewrite sortSlice_perm.
    apply list_elem_of_fmap. exists (sec, tts). split; [done|]. apply elem_of_map_to_list. by rewrite Ht.
  - exists o0. split; [reflexivity|]. rewrite Hs in Et. injection Et as <-. set_solver.
Qed.

(** ** The plan *)

(** What the loop of [ttBuildPlan] keeps, after the cases [l]. *)
Record planInv (st : planState (Ex := Ex)) (l : list (string * testcase Ex)) : Prop := {
  inv_uuid : coherent (ttsall st);
  inv_section : forall sec us u, sections st !! sec = Some us -> u ∈ us ->
    exists ttc, ttsall st !! u = Some ttc /\ testSection (PlanId (metadata ttc)) = sec;
  inv_ok : plan_ok st = true -> forall d tc, (d, tc) ∈ l -> exists md ttc us,
    existing tc = Some md /\ ttsall st !! Uuid md = Some ttc /\ metadata ttc = md /\
    sections st !! testSection (PlanId md) = Some us /\ Uuid md ∈ us;
}.

Lemma buildStep_inv rootdir st l d tc :
  planInv st l -> planInv (buildStep rootdir st (d, tc)) (l ++ [(d, tc)]).
Proof.
  intros [Iu Is Io]. unfold buildStep. destruct (existing tc) as [md|] eqn:He; [|by constructor].
  set (ttc := default _ (ttsall st !! Uuid md)).
  assert (Uuid (metadata ttc) = Uuid md) as Hu.
  { unfold ttc. destruct (ttsall st !! Uuid md) eqn:E; [by apply Iu|done]. }
  assert (forall v t, ttsall st !! v = Some t -> v = Uuid md -> t = ttc) as Hsame.
  { intros v t Hv ->. unfold ttc. by rewrite Hv. }
  case_bool_decide as Hmd; simpl.
  2:{ constructor; simpl; [| |done].
      - intros v t. rewrite lookup_insert. case_decide; [intros [= <-]; congruence|apply Iu].
      - intros sec us v Hus Hv. destruct (Is sec us v Hus Hv) as (t & Ht & Hsec).
        destruct (decide (v = Uuid md)) as [E|]; [|exists t; by rewrite lookup_insert_ne].
        exists ttc. rewrite E, lookup_insert_eq. split; [done|]. by rewrite <- (Hsame v t Ht E). }
  set (ttc' := {| metadata := metadata ttc; testDirs := _ |}).
  set (sec0 := testSection (PlanId (metadata ttc))).
  assert (forall v t, ttsall st !! v = Some t ->
    exists t', <[Uuid md := ttc']> (ttsall st) !! v = Some t' /\ metadata t' = metadata t) as Hmono.
  { intros v t Ht. destruct (decide (v = Uuid md)) as [E|]; [|exists t; by rewrite lookup_insert_ne].
    exists ttc'. rewrite E, lookup_insert_eq. split; [done|]. simpl. by rewrite (Hsame v t Ht E). }
  constructor; simpl.
  - intros v t. rewrite lookup_insert. case_decide; [intros [= <-]; simpl; congruence|apply Iu].
  - intros sec us v. rewrite lookup_insert. case_decide as Esec.
    + intros [= <-] [->%elem_of_singleton|Hv]%elem_of_union; [exists ttc'; by rewrite lookup_insert_eq|].
      destruct (sections st !! sec0) as [us0|] eqn:E0; [|by apply elem_of_empty in Hv].
      destruct (Is sec0 us0 v E0 Hv) as (t & Ht & Hsec). destruct (Hmono v t Ht) as (t' & ? & Hm).
      exists t'. rewrite Hm. split; [done|congruence].
    + intros Hus Hv. destruct (Is sec us v Hus Hv) as (t & Ht & Hsec). destruct (Hmono v t Ht) as (t' & ? & Hm).
      exists t'. by rewrite Hm.
  - intros Hok d' tc' [Hin|[-> ->]%list_elem_of_singleton%pair_eq]%elem_of_app.
    + destruct (Io Hok d' tc' Hin) as (md' & t & us & He' & Ht & Hm & Hus & Hv).
      destruct (Hmono _ t Ht) as (t' & Ht' & Hm'). exists md', t'.
      destruct (decide (sec0 = testSection (PlanId md'))) as [Esec|Hne].
      * eexists. split_and!; [done|done|congruence|rewrite <- Esec; apply lookup_insert_eq|].
        rewrite Esec, Hus. simpl. set_solver.
      * exists us. split_and!; [done|done|congruence|by rewrite lookup_insert_ne|done].
    + exists md, ttc'. rewrite lookup_insert_eq. eexists. split_and!; [done|done|simpl; congruence| |].
      * unfold sec0. rewrite <- Hmd, lookup_insert_eq. done.
      * set_solver.
Qed.

Lemma ttBuildPlan_inv rootdir order :
  planInv (foldl (buildStep rootdir) {| ttsall := ∅; sections := ∅; plan_ok := true |} order) order.
Proof.
  induction order as [|[d tc] order IH] using rev_ind.
  - constructor; simpl; [by intros ? ? ?%lookup_empty_Some|by intros ? ? ? ?%lookup_empty_Some|].
    intros _ d tc Hin. by apply elem_of_nil in Hin.
  - rewrite foldl_snoc. by apply buildStep_inv.
Qed.

(** A plan that was built holds every test, in the section of its plan
    identifier and under its UUID. *)
Lemma ttBuildPlan_complete rootdir order ttp d tc :
  ttBuildPlan order rootdir = (ttp, true) -> (d, tc) ∈ order ->
  exists md tts ttc, existing tc = Some md /\ ttp !! testSection (PlanId md) = Some tts /\
    tts !! Uuid md = Some ttc /\ metadata ttc = md /\ coherent tts.
Proof.
  intros H Hin. unfold ttBuildPlan in H. pose proof (ttBuildPlan_inv rootdir order) as [Iu Is Io].
  destruct (foldl _ _ _) as [all secs ok]. simpl in *. injection H as <- ->.
  destruct (Io eq_refl d tc Hin) as (md & ttc & us & He & Ht & Hm & Hus & Hv).
  exists md, (filter (fun x => x.1 ∈ us) all), ttc. split_and!; [done| |..].
  - unfold resolvePlan. simpl. by rewrite lookup_fmap, Hus.
  - by apply map_lookup_filter_Some.
  - done.
  - intros u t [Hu _]%map_lookup_filter_Some. by apply Iu.
Qed.

Lemma reduceMetadata_elem (order : list (string * testcase Ex)) order' d tc md :
  reduceMetadata order = Ret order' -> (d, tc) ∈ order -> existing tc = Some md ->
  exists tc', (d, tc') ∈ order' /\
    existing tc' = Some (set_Uuid (Uuid md) (mkMetadata (PlanId md) (Description md))).
Proof.
  revert order'. induction order as [|[d0 tc0] order IH]; intros order' H Hin He; [by apply elem_of_nil in Hin|].
  unfold reduceMetadata in *. simpl in H.
  destruct (existing tc0) as [md0|] eqn:E0; [|unfold reduceCase in H; rewrite E0 in H; discriminate H].
  assert (reduceCase tc0 = Ret (set_existing (Some (set_Uuid (Uuid md0) (mkMetadata (PlanId md0) (Description md0)))) tc0))
    as Er by (unfold reduceCase; by rewrite E0).
  rewrite Er in H. simpl in H. go_inv.
  apply elem_of_cons in Hin as [[= -> ->]|Hin].
  - eexists. split; [by left|]. simpl. congruence.
  - edestruct IH as (tc' & Hin' & He'); [eassumption|exact Hin|exact He|]. exists tc'. split; [by right|done].
Qed.

Lemma reduceMetadata_missing (order : list (string * testcase Ex)) order' d tc :
  reduceMetadata order = Ret order' -> (d, tc) ∈ order -> existing tc <> None.
Proof.
  revert order'. induction order as [|[d0 tc0] order IH]; intros order' H Hin; [by apply elem_of_nil in Hin|].
  unfold reduceMetadata in *. simpl in H.
  destruct (existing tc0) as [md0|] eqn:E0; [|unfold reduceCase in H; rewrite E0 in H; discriminate H].
  assert (reduceCase tc0 = Ret (set_existing (Some (set_Uuid (Uuid md0) (mkMetadata (PlanId md0) (Description md0)))) tc0))
    as Er by (unfold reduceCase; by rewrite E0).
  rewrite Er in H. simpl in H. go_inv.
  apply elem_of_cons in Hin as [[= -> ->]|Hin]; [congruence|by eapply IH].
Qed.
End Facts.

(** * Properties *)

(** C37: whatever JSON plan it merges into, a listing that is produced shows
    every test of the suite where it belongs: the plan has a suite object whose text
    names, in brackets, the part of the test's plan identifier before the first dot,
    and that suite has a test case object with the UUID and the title of the test.
    Nothing is listed when a test has no metadata, two tests with one UUID disagree,
    or the JSON plan is not an object. *)
Theorem listTestTracker_complete {U Ex} `{!UUIDLib U, !EqDecision Ex} mergejson featuredir
    (order : list (string * testcase Ex)) o d tc :
  listTestTracker (U := U) mergejson featuredir order = Ret o -> (d, tc) ∈ order ->
  exists md sec suites suite cases j, existing tc = Some md /\ sectionOf (PlanId md) sec /\
    jget "children" o = Some (JArr suites) /\ JObj suite ∈ suites /\ labelled sec suite /\
    jget "children" suite = Some (JArr cases) /\ j ∈ cases /\ showsCase md j.
Proof.
  intros H Hin. unfold listTestTracker in H. apply bind_Ret in H as (order' & Hr & H).
  destruct (ttBuildPlan order' (Dir featuredir)) as [ttp ok] eqn:Hb. destruct ok; [|done].
  cbn [negb] in H. apply bind_Ret in H as ([base|] & _ & H); [|done]. injection H as <-.
  assert (exists md, existing tc = Some md) as [md He].
  { destruct (existing tc) as [md|] eqn:E; [eauto|]. exfalso.
    by apply (reduceMetadata_missing order order' d tc Hr Hin). }
  destruct (reduceMetadata_elem order order' d tc md Hr Hin He) as (tc' & Hin' & He').
  destruct (ttBuildPlan_complete _ _ _ d tc' Hb Hin') as (md' & tts & ttc & E & Hsec & Hu & Hm & Hc).
  rewrite He' in E. injection E as <-.
  destruct (mergePlan_shows (U := U) ttp base _ tts Hsec) as (suites & o0 & Hch & Hel & Hl).
  destruct (mergeSuite_shows (U := U) tts o0 _ ttc Hc Hu) as (cases & j & Hcases & Hj & Hs).
  exists md, (testSection (PlanId md)), suites, (mergeSuite (U := U) tts o0), cases, j.
  split_and!; try done; [apply testSection_of|by apply mergeSuite_labelled|]. by rewrite Hm in Hs.
Qed.

Definition sampleListing : go (list (string * json)) :=
  listTestTracker (U := textUUID) None "/fp/feature" [(ateDir, sampleCase "4a"); (otgDir, sampleCase "4a")].

Lemma listTestTracker_complete_witness :
  exists o md sec suites suite cases j, sampleListing = Ret o /\ existing (sampleCase "4a") = Some md /\
    sectionOf (PlanId md) sec /\ jget "children" o = Some (JArr suites) /\ JObj suite ∈ suites /\ labelled sec suite /\
    jget "children" suite = Some (JArr cases) /\ j ∈ cases /\ showsCase md j.
Proof.
  destruct sampleListing as [o|e| |] eqn:E; [|vm_compute in E; discriminate E..].
  destruct (listTestTracker_complete (U := textUUID) None "/fp/feature"
    [(ateDir, sampleCase "4a"); (otgDir, sampleCase "4a")] o ateDir (sampleCase "4a") E ltac:(by left))
    as (md & sec & suites & suite & cases & j & H).
  exists o, md, sec, suites, suite, cases, j. split; [reflexivity|exact H].
Defined.
