(* ===== verification/Binding.v ===== *)
(** The static binding of [topologies/binding]: option resolution
    ([options.go]), reservations and dialling ([binding.go]), device reset
    ([reset.go]) and the choice of a binding ([new.go]).

    Calls that leave the program (SSH, gNMI, gRIBI and IxNetwork clients) are
    actions of a small input/output monad: an oracle answers each action, given
    the actions before it, and the trace of answered actions is the state. *)
From stdpp Require Import base list gmap strings.
From Stdlib Require Import ZArith Lia.
From S2P Require Import Prelude GoStrings.

(** * Messages of binding.proto and of Ondatra's testbed.proto *)

Record Options := {
  Target : string; Insecure : bool; SkipVerify : bool; Username : string; Password : string;
  SessionId : Z; Timeout : Z; MaxRecvMsgSize : Z; MutualTls : bool;
  TrustBundleFile : string; CertFile : string; KeyFile : string;
}.
#[export] Instance Options_eq_dec : EqDecision Options.
Proof. solve_decision. Defined.

Definition noOptions : Options :=
  {| Target := ""; Insecure := false; SkipVerify := false; Username := ""; Password := "";
     SessionId := 0; Timeout := 0; MaxRecvMsgSize := 0; MutualTls := false;
     TrustBundleFile := ""; CertFile := ""; KeyFile := "" |}.
Definition targetOptions (t : string) : Options :=
  {| Target := t; Insecure := false; SkipVerify := false; Username := ""; Password := "";
     SessionId := 0; Timeout := 0; MaxRecvMsgSize := 0; MutualTls := false;
     TrustBundleFile := ""; CertFile := ""; KeyFile := "" |}.

Record Port := { port_Id : string; port_Name : string; port_Speed : N; port_Pmd : N }.
Record Configs := { cfg_Cli : list string; cfg_CliFile : list string; cfg_GnmiSetFile : list string; cfg_GribiFlush : bool }.
Record Device := {
  dev_Id : string; dev_Name : string; dev_Ports : list Port; dev_Options : option Options;
  dev_Config : option Configs;
  dev_Ssh : option Options; dev_Gnmi : option Options; dev_Gnoi : option Options; dev_Gnsi : option Options;
  dev_Gribi : option Options; dev_P4Rt : option Options; dev_Gnpsi : option Options;
  dev_Ixnetwork : option Options; dev_Otg : option Options;
  dev_Vendor : N; dev_HardwareModel : string; dev_SoftwareVersion : string;
}.
Record Link := { link_A : string; link_B : string }.
Record BindingPb := {
  pb_Duts : list Device; pb_Ates : list Device; pb_Options : option Options;
  pb_Dynamic : bool; pb_Links : list Link;
}.

Record TPort := { tport_Id : string; tport_Speed : N; tport_Pmd : N }.
Record TDevice := {
  td_Id : string; td_Ports : list TPort; td_Vendor : N;
  td_HardwareModel : string; td_SoftwareVersion : string;
}.
Record Testbed := { tb_Duts : list TDevice; tb_Ates : list TDevice; tb_Links : list Link }.

(** * options.go *)

Inductive Service := GNMI | GNOI | GNSI | GRIBI | P4RT | GNPSI | OTG.
#[export] Instance Service_eq_dec : EqDecision Service.
Proof. solve_decision. Defined.

Record svcParams := { sp_port : Z; optsFn : Device -> option Options }.

(** The ports are read from the flags when the package is initialised, before
    the command line is parsed: they are the default values of the flags. *)
Definition gnmiPort : Z := 9339.
Definition gnoiPort : Z := 9339.
Definition gnsiPort : Z := 9339.
Definition gribiPort : Z := 9340.
Definition p4rtPort : Z := 9559.
Definition ateGNMIPort : Z := 50051.
Definition ateOTGPort : Z := 40051.
Definition gnpsiPort : Z := 6070.

Definition dutSvcParams (svc : Service) : option svcParams :=
  match svc with
  | GNMI => Some {| sp_port := gnmiPort; optsFn := dev_Gnmi |}
  | GNOI => Some {| sp_port := gnoiPort; optsFn := dev_Gnoi |}
  | GNSI => Some {| sp_port := gnsiPort; optsFn := dev_Gnsi |}
  | GRIBI => Some {| sp_port := gribiPort; optsFn := dev_Gribi |}
  | P4RT => Some {| sp_port := p4rtPort; optsFn := dev_P4Rt |}
  | GNPSI => Some {| sp_port := gnpsiPort; optsFn := dev_Gnpsi |}
  | OTG => None
  end.
Definition ateSvcParams (svc : Service) : option svcParams :=
  match svc with
  | GNMI => Some {| sp_port := ateGNMIPort; optsFn := dev_Gnmi |}
  | OTG => Some {| sp_port := ateOTGPort; optsFn := dev_Otg |}
  | _ => None
  end.

(** [proto.Merge] on proto3 scalars: a field of the source that is not the zero
    value overwrites the field of the destination. *)
Definition mergeStr (d s : string) : string := if String.eqb s "" then d else s.
Definition mergeInt (d s : Z) : Z := if (s =? 0)%Z then d else s.
Definition proto_Merge (d s : Options) : Options :=
  {| Target := mergeStr (Target d) (Target s); Insecure := Insecure d || Insecure s;
     SkipVerify := SkipVerify d || SkipVerify s; Username := mergeStr (Username d) (Username s);
     Password := mergeStr (Password d) (Password s); SessionId := mergeInt (SessionId d) (SessionId s);
     Timeout := mergeInt (Timeout d) (Timeout s);
     MaxRecvMsgSize := mergeInt (MaxRecvMsgSize d) (MaxRecvMsgSize s);
     MutualTls := MutualTls d || MutualTls s;
     TrustBundleFile := mergeStr (TrustBundleFile d) (TrustBundleFile s);
     CertFile := mergeStr (CertFile d) (CertFile s); KeyFile := mergeStr (KeyFile d) (KeyFile s) |}.

Definition merge (bopts : list (option Options)) : Options :=
  foldl (fun result bopt => match bopt with Some o => proto_Merge result o | None => result end) noOptions bopts.

Section Resolver.
Variable r : BindingPb.

Definition grpc (dev : Device) (params : svcParams) : Options :=
  merge [Some (targetOptions (dev_Name dev +:+ ":" +:+ Itoa (sp_port params))); pb_Options r; dev_Options dev;
         optsFn params dev].
Definition ssh (dev : Device) : Options :=
  merge [Some (targetOptions (dev_Name dev)); pb_Options r; dev_Options dev; dev_Ssh dev].
Definition ixnetwork (dev : Device) : Options :=
  merge [Some (targetOptions (dev_Name dev)); pb_Options r; dev_Options dev; dev_Ixnetwork dev].

Definition RPCUsername (dev : Device) : string := Username (merge [pb_Options r; dev_Options dev]).
Definition RPCPassword (dev : Device) : string := Password (merge [pb_Options r; dev_Options dev]).
End Resolver.

(** * binding.go: dialling *)

(** The dial options, with what they carry. *)
Inductive transport := TInsecure | TSkipVerify | TMutual (trust cert key : string).
Record creds := { cr_username : string; cr_password : string; cr_secure : bool }.
Inductive dialOption :=
| WithDisableRetry
| WithTransport (t : transport)
| WithPerRPCCredentials (c : creds)
| WithMaxRecvMsgSize (n : Z)
| WithTimeouts (seconds : Z).

(** [readable f]: the file exists and parses; certificates are not modelled. *)
Definition loadCertificates (readable : string -> bool) (bopts : Options) : go transport :=
  if String.eqb (CertFile bopts) "" || String.eqb (KeyFile bopts) "" || String.eqb (TrustBundleFile bopts) "" then
    Fail (errors_New "cert_file, key_file, and trust_bundle_file need to be set when mutual tls is set")
  else if negb (readable (TrustBundleFile bopts)) then Fail (errors_New "error in loading ca trust bundle")
  else if negb (readable (CertFile bopts) && readable (KeyFile bopts)) then Fail (errors_New "bad key pair")
  else Ret (TMutual (TrustBundleFile bopts) (CertFile bopts) (KeyFile bopts)).

Definition dialOpts (readable : string -> bool) (bopts : Options) : go (list dialOption) :=
  tr ← (if Insecure bopts then Ret [WithTransport TInsecure]
        else if SkipVerify bopts then Ret [WithTransport TSkipVerify]
        else if MutualTls bopts then t ← loadCertificates readable bopts; Ret [WithTransport t]
        else Ret [] : go (list dialOption));
  let cr := if String.eqb (Username bopts) "" then []
            else [WithPerRPCCredentials {| cr_username := Username bopts; cr_password := Password bopts;
                                           cr_secure := negb (Insecure bopts) |}] in
  let size := if (MaxRecvMsgSize bopts =? 0)%Z then [] else [WithMaxRecvMsgSize (MaxRecvMsgSize bopts)] in
  let tm := if (Timeout bopts =? 0)%Z then [] else [WithTimeouts (Timeout bopts)] in
  Ret (WithDisableRetry :: tr ++ cr ++ size ++ tm).

Record Dialer := { DevicePort : Z; DialTarget : string; DialOpts : list dialOption }.

Definition makeDialer (readable : string -> bool) (params : svcParams) (bopts : Options) : go Dialer :=
  opts ← dialOpts readable bopts;
  Ret {| DevicePort := sp_port params; DialTarget := Target bopts; DialOpts := opts |}.

Definition dutDialer (readable : string -> bool) (r : BindingPb) (dev : Device) (svc : Service) : go Dialer :=
  match dutSvcParams svc with
  | None => Fail (errors_New "no known DUT service")
  | Some params => makeDialer readable params (grpc r dev params)
  end.

Definition gnmiRecvMsgSizeDefault : Z := 100 * 1024 * 1024.
Definition set_MaxRecvMsgSize (n : Z) (o : Options) : Options :=
  {| Target := Target o; Insecure := Insecure o; SkipVerify := SkipVerify o; Username := Username o;
     Password := Password o; SessionId := SessionId o; Timeout := Timeout o; MaxRecvMsgSize := n;
     MutualTls := MutualTls o; TrustBundleFile := TrustBundleFile o; CertFile := CertFile o; KeyFile := KeyFile o |}.

Definition ateDialer (readable : string -> bool) (r : BindingPb) (dev : Device) (svc : Service) : go Dialer :=
  match ateSvcParams svc with
  | None => Fail (errors_New "no known ATE service")
  | Some params =>
      let bopts := grpc r dev params in
      let bopts := if (MaxRecvMsgSize bopts =? 0)%Z then set_MaxRecvMsgSize gnmiRecvMsgSizeDefault bopts else bopts in
      makeDialer readable params bopts
  end.

(** The dialer of [DialGRPCWithPort]. *)
Definition DialGRPCWithPort (readable : string -> bool) (r : BindingPb) (dev : Device) (port : Z) : go Dialer :=
  let params := {| sp_port := port; optsFn := fun _ => None |} in
  let raw := grpc r dev params in
  let noTransportCreds := negb (Insecure raw) && negb (SkipVerify raw) && negb (MutualTls raw) in
  let bopts :=
    {| Target := Target raw; Insecure := Insecure raw || noTransportCreds; SkipVerify := SkipVerify raw;
       Username := ""; Password := ""; SessionId := 0; Timeout := Timeout raw;
       MaxRecvMsgSize := MaxRecvMsgSize raw; MutualTls := MutualTls raw;
       TrustBundleFile := TrustBundleFile raw; CertFile := CertFile raw; KeyFile := KeyFile raw |} in
  makeDialer readable params bopts.

(** [md] is the outgoing metadata of the context, if any. *)
Definition GetRequestMetadata (c : creds) (md : option (gmap string (list string))) : gmap string string :=
  let first k :=
    match md with
    | Some md => match default [] (md !! k) with v :: _ => v | [] => "" end
    | None => ""
    end in
  let username := if String.eqb (first "username") "" then cr_username c else first "username" in
  let password := if String.eqb (first "password") "" then cr_password c else first "password" in
  {["username" := username; "password" := password]}.

(** [combineHostKeyCallbacks]: [None] is acceptance. *)
Fixpoint combineHostKeyCallbacks {K} (callbacks : list (K -> option error)) (key : K) : option error :=
  match callbacks with
  | [] => None
  | cb :: cbs =>
      match cb key with
      | Some e => Some (Errorf "host key checks failed" [])
      | None => combineHostKeyCallbacks cbs key
      end
  end.

Definition sshInteractive (password : string) (questions : list string) : list string :=
  map (fun _ => password) questions.

(** * binding.go: static reservations *)

Definition VENDOR_UNSPECIFIED : N := 0.
Definition SPEED_UNSPECIFIED : N := 0.
Definition PMD_UNSPECIFIED : N := 0.

Record BPort := { bp_Name : string; bp_PMD : N; bp_Speed : N }.
Record Dims := {
  dims_Name : string; dims_Vendor : N; dims_HardwareModel : string; dims_SoftwareVersion : string;
  dims_Ports : gmap string BPort;
}.
Record staticDUT := { dut_Dims : Dims; dut_dev : Device }.
(** [ixweb] is the server the client is connected to, [ixsess] the session's number. *)
Record staticATE := { ate_Dims : Dims; ate_dev : Device; ixweb : option string; ixsess : option Z }.
Record Reservation := { resv_ID : string; DUTs : gmap string staticDUT; ATEs : gmap string staticATE }.

(** A map from identifier to element; later elements win. *)
Definition indexBy {A} (id : A -> string) (l : list A) : gmap string A :=
  foldl (fun m x => <[id x := x]> m) ∅ l.

Definition portOf (bport : Port) : BPort :=
  {| bp_Name := port_Name bport; bp_PMD := port_Pmd bport; bp_Speed := port_Speed bport |}.

Definition staticPortStep (bports : gmap string Port) (st : gmap string BPort * list string) (tport : TPort) :
    gmap string BPort * list string :=
  let '(portmap, errs) := st in
  match bports !! tport_Id tport with
  | None => (portmap, errs ++ ["missing binding for port"])
  | Some bport =>
      let e1 := if negb (tport_Speed tport =? SPEED_UNSPECIFIED)%N && negb (tport_Speed tport =? port_Speed bport)%N
                then ["binding port speed and testbed port speed do not match"] else [] in
      let e2 := if negb (tport_Pmd tport =? PMD_UNSPECIFIED)%N && negb (tport_Pmd tport =? port_Pmd bport)%N
                then ["binding port PMD and testbed port PMD do not match"] else [] in
      (<[tport_Id tport := portOf bport]> portmap, errs ++ e1 ++ e2)
  end.
Definition staticPorts (tports : list TPort) (bd : Device) : gmap string BPort * list string :=
  foldl (staticPortStep (indexBy port_Id (dev_Ports bd))) (∅, []) tports.

Definition staticDims (td : TDevice) (bd : Device) : Dims * list string :=
  let e1 := if negb (td_Vendor td =? VENDOR_UNSPECIFIED)%N && negb (dev_Vendor bd =? td_Vendor td)%N
            then ["binding vendor and testbed vendor do not match"] else [] in
  let e2 := if negb (String.eqb (td_HardwareModel td) "") && negb (String.eqb (dev_HardwareModel bd) (td_HardwareModel td))
            then ["binding hardware model and testbed hardware model do not match"] else [] in
  let e3 := if negb (String.eqb (td_SoftwareVersion td) "") && negb (String.eqb (dev_SoftwareVersion bd) (td_SoftwareVersion td))
            then ["binding software version and testbed software version do not match"] else [] in
  let '(portmap, portErrs) := staticPorts (td_Ports td) bd in
  ({| dims_Name := dev_Name bd; dims_Vendor := dev_Vendor bd; dims_HardwareModel := dev_HardwareModel bd;
      dims_SoftwareVersion := dev_SoftwareVersion bd; dims_Ports := portmap |},
   e1 ++ e2 ++ e3 ++ portErrs).

(** The loop over the testbed's DUTs, or ATEs, with [mk] making the device. *)
Definition bindStep {A} (missing : string) (mk : Dims -> Device -> A) (bdevs : gmap string Device)
    (st : gmap string A * list string) (td : TDevice) : gmap string A * list string :=
  let '(devs, errs) := st in
  match bdevs !! td_Id td with
  | None => (devs, errs ++ [missing])
  | Some bd =>
      let '(dims, dimErrs) := staticDims td bd in
      (<[td_Id td := mk dims bd]> devs, errs ++ dimErrs)
  end.

Definition mkDUT (dims : Dims) (bd : Device) : staticDUT := {| dut_Dims := dims; dut_dev := bd |}.
Definition mkATE (dims : Dims) (bd : Device) : staticATE :=
  {| ate_Dims := dims; ate_dev := bd; ixweb := None; ixsess := None |}.

Definition staticReservation (tb : Testbed) (r : BindingPb) : Reservation * list string :=
  let '(duts, errs) := foldl (bindStep "missing binding for DUT" mkDUT (indexBy dev_Id (pb_Duts r))) (∅, []) (tb_Duts tb) in
  let '(ates, errs) := foldl (bindStep "missing binding for ATE" mkATE (indexBy dev_Id (pb_Ates r))) (∅, errs) (tb_Ates tb) in
  ({| resv_ID := ""; DUTs := duts; ATEs := ates |}, errs).

(** * Actions *)

Inductive action :=
| ADialCLI (target user : string)
| ARunCommand (conf : string)
| ADial (svc : Service) (d : Dialer)
| AGnmiSet (req : string)
| AGribiFlushAll
| AIxConnect (target user password : string)
| AIxFetchSession (server : string) (id : Z)
| AIxNewSession (server name : string)
| AIxDeleteSession (server : string) (id : Z).

(** The trace of actions with their results, the latest first. *)
Definition trace := list (action * outcome error Z).
Abbreviation io := (gost trace).

Section Bind.
(** What the outside answers to an action, given the trace before it. *)
Variable world : trace -> action -> outcome error Z.
Variables (files : gmap string string) (readable : string -> bool) (r : BindingPb).
(** [prototext.Unmarshal] of a gNMI SetRequest. *)
Variable parseSet : string -> go string.

Definition act (a : action) : io Z := fun tr => let res := world tr a in (res, (a, res) :: tr).

(** ** reset.go *)

Definition readBytes (path : string) : go string :=
  match files !! path with Some data => Ret data | None => Fail (Errorf "no such file" [ErrOSNotExist]) end.

Definition noConfigs : Configs := {| cfg_Cli := []; cfg_CliFile := []; cfg_GnmiSetFile := []; cfg_GribiFlush := false |}.
Definition config (dut : staticDUT) : Configs := default noConfigs (dev_Config (dut_dev dut)).

Definition DialCLI (dut : staticDUT) : io Z :=
  let sshOpts := ssh r (dut_dev dut) in act (ADialCLI (Target sshOpts) (Username sshOpts)).

Definition dialDUT (dut : staticDUT) (svc : Service) : io Z :=
  d ← lift (dutDialer readable r (dut_dev dut) svc); act (ADial svc d).

Definition resetCLI (dut : staticDUT) : io unit :=
  fileConfs ← lift (mapM readBytes (cfg_CliFile (config dut)));
  let conf := Join (cfg_Cli (config dut) ++ fileConfs) (String (Ascii.ascii_of_nat 10) "") in
  if String.eqb conf "" then mret tt
  else _ ← DialCLI dut; _ ← act (ARunCommand conf); mret tt.

Definition readGNMI (path : string) : go string := data ← readBytes path; parseSet data.

Definition resetGNMI (dut : staticDUT) : io unit :=
  setReq ← lift (mapM readGNMI (cfg_GnmiSetFile (config dut)));
  match setReq with
  | [] => mret tt
  | _ => _ ← dialDUT dut GNMI; forEach (fun req => _ ← act (AGnmiSet req); mret tt) setReq
  end.

Definition resetGRIBI (dut : staticDUT) : io unit :=
  if negb (cfg_GribiFlush (config dut)) then mret tt
  else _ ← dialDUT dut GRIBI; _ ← act AGribiFlushAll; mret tt.

Definition resetDUT (dut : staticDUT) : io unit :=
  _ ← resetCLI dut; _ ← resetGNMI dut; resetGRIBI dut.

(** [staticBind.reset]; the caller wraps the error. *)
Definition reset (duts : list staticDUT) : io unit := forEach resetDUT duts.

(** [PushConfig]: an ASCII value with origin "cli". *)
Definition PushConfig (dut : staticDUT) (conf : string) (reset : bool) : io unit :=
  _ ← (if reset then resetGNMI dut else mret tt : io unit);
  if String.eqb conf "" then mret tt
  else _ ← dialDUT dut GNMI; _ ← act (AGnmiSet conf); mret tt.

(** ** IxNetwork sessions *)

Definition set_ix (web : option string) (sess : option Z) (a : staticATE) : staticATE :=
  {| ate_Dims := ate_Dims a; ate_dev := ate_dev a; ixweb := web; ixsess := sess |}.

(** The operations return the device as they leave it, error or not.  The client
    is the server it is connected to. *)
Definition ixWeb (a : staticATE) (opts : Options) : trace -> go string * staticATE * trace := fun tr =>
  match ixweb a with
  | Some web => (Ret web, a, tr)
  | None =>
    let '(username, password) :=
      if String.eqb (Username opts) "" && String.eqb (Password opts) "" then ("admin", "admin")
      else (Username opts, Password opts) in
    match act (AIxConnect (Target opts) username password) tr with
    | (Ret _, tr) => (Ret (Target opts), set_ix (Some (Target opts)) (ixsess a) a, tr)
    | (Fail e, tr) => (Fail e, a, tr)
    | (Panic, tr) => (Panic, a, tr)
    | (NoFuel, tr) => (NoFuel, a, tr)
    end
  end.

Definition ixSession (a : staticATE) (opts : Options) : trace -> go Z * staticATE * trace := fun tr =>
  match ixsess a with
  | Some s => (Ret s, a, tr)
  | None =>
      match ixWeb a opts tr with
      | (Ret ixw, a, tr) =>
          let m := if (SessionId opts >? 0)%Z then act (AIxFetchSession ixw (SessionId opts))
                   else act (AIxNewSession ixw (dims_Name (ate_Dims a))) in
          match m tr with
          | (Ret s, tr) => (Ret s, set_ix (ixweb a) (Some s) a, tr)
          | (Fail e, tr) => (Fail e, a, tr)
          | (Panic, tr) => (Panic, a, tr)
          | (NoFuel, tr) => (NoFuel, a, tr)
          end
      | (Fail e, a, tr) => (Fail e, a, tr)
      | (Panic, a, tr) => (Panic, a, tr)
      | (NoFuel, a, tr) => (NoFuel, a, tr)
      end
  end.

Definition DialIxNetwork (a : staticATE) : trace -> go Z * staticATE * trace :=
  ixSession a (ixnetwork r (ate_dev a)).

(** The ATEs are pointers shared with the reservation: the loop updates them in
    place. *)
Fixpoint reserveIxSessions (order : list string) (ates : gmap string staticATE) :
    trace -> go unit * gmap string staticATE * trace := fun tr =>
  match order with
  | [] => (Ret tt, ates, tr)
  | id :: order =>
      match ates !! id with
      | None => reserveIxSessions order ates tr
      | Some a =>
          match dev_Ixnetwork (ate_dev a) with
          | None => reserveIxSessions order ates tr
          | Some _ =>
              let '(res, a, tr) := DialIxNetwork a tr in
              let ates := <[id := a]> ates in
              match res with
              | Ret _ => reserveIxSessions order ates tr
              | Fail e => (Fail e, ates, tr)
              | Panic => (Panic, ates, tr)
              | NoFuel => (NoFuel, ates, tr)
              end
          end
      end
  end.

Definition releaseOne (sate : staticATE) : io unit :=
  match ixsess sate with
  | Some s =>
      if (SessionId (ixnetwork r (ate_dev sate)) =? 0)%Z then
        match ixweb sate with
        | Some web => _ ← act (AIxDeleteSession web s); mret tt
        | None => lift Panic
        end
      else mret tt
  | None => mret tt
  end.
Definition releaseIxSessions (order : list staticATE) : io unit := forEach releaseOne order.

(** ** Reserve and Release *)

Record staticBind := { b_resv : option Reservation; pushConfig : bool }.
Definition set_resv (x : option Reservation) (b : staticBind) : staticBind :=
  {| b_resv := x; pushConfig := pushConfig b |}.
Definition resvID : string := "STATIC".

(** [dynamicReservation] is in the file [DynBinding], over Ondatra's solver. *)
Variable dynamicReservation : Testbed -> go Reservation.

Definition reservation (tb : Testbed) : go Reservation :=
  if pb_Dynamic r then dynamicReservation tb
  else match staticReservation tb r with
       | (resv, []) => Ret resv
       | (_, errs) => Fail (errors_New (Join errs ", "))
       end.

(** The reservation with the ATEs as they are now. *)
Definition with_ATEs (ates : gmap string staticATE) (resv : Reservation) : Reservation :=
  {| resv_ID := resv_ID resv; DUTs := DUTs resv; ATEs := ates |}.

Definition Reserve (tb : Testbed) (dutOrder ateOrder : list string) (b : staticBind) :
    trace -> go Reservation * staticBind * trace := fun tr =>
  match b_resv b with
  | Some _ => (Fail (errors_New "only one reservation is allowed"), b, tr)
  | None =>
      match reservation tb with
      | Ret resv =>
          let resv := {| resv_ID := resvID; DUTs := DUTs resv; ATEs := ATEs resv |} in
          let b := set_resv (Some resv) b in
          let duts := omap (fun id => DUTs resv !! id) dutOrder in
          match (if pushConfig b then reset duts else mret tt : io unit) tr with
          | (Ret _, tr) =>
              match reserveIxSessions ateOrder (ATEs resv) tr with
              | (Ret _, ates, tr) =>
                  (Ret (with_ATEs ates resv), set_resv (Some (with_ATEs ates resv)) b, tr)
              | (Fail e, ates, tr) => (Fail e, set_resv (Some (with_ATEs ates resv)) b, tr)
              | (_, ates, tr) => (Panic, set_resv (Some (with_ATEs ates resv)) b, tr)
              end
          | (Fail e, tr) => (Fail (Errorf "could not reset device" (err_wraps e)), b, tr)
          | (_, tr) => (Panic, b, tr)
          end
      | Fail e => (Fail e, b, tr)
      | _ => (Panic, b, tr)
      end
  end.

Definition Release (ateOrder : list string) (b : staticBind) : trace -> go unit * staticBind * trace := fun tr =>
  match b_resv b with
  | None => (Fail (errors_New "no reservation"), b, tr)
  | Some resv =>
      match releaseIxSessions (omap (fun id => ATEs resv !! id) ateOrder) tr with
      | (Ret _, tr) => (Ret tt, set_resv None b, tr)
      | (Fail e, tr) => (Fail e, b, tr)
      | (_, tr) => (Panic, b, tr)
      end
  end.

Definition FetchReservation : go Reservation :=
  Fail (errors_New "static binding does not support fetching an existing reservation").
End Bind.

(** * new.go *)

(** The command-line flags that choose the binding. *)
Record bindFlags := { pluginFile : string; bindingFile : string; kneTopo : string; kneConfig : string }.
Inductive bindChoice := UsePlugin (f : string) | UseStatic (f : string) | UseKneTopo (f : string) | UseKneConfig (f : string).
Definition newBind (fl : bindFlags) : go bindChoice :=
  if negb (String.eqb (pluginFile fl) "") then Ret (UsePlugin (pluginFile fl))
  else if negb (String.eqb (bindingFile fl) "") then Ret (UseStatic (bindingFile fl))
  else if negb (String.eqb (kneTopo fl) "") then Ret (UseKneTopo (kneTopo fl))
  else if negb (String.eqb (kneConfig fl) "") then Ret (UseKneConfig (kneConfig fl))
  else Fail (errors_New "one of -plugin, -binding, or -kne-topo must be provided").

(** [parseBinding] stands for [prototext.Unmarshal]. *)
Definition staticBinding (files : gmap string string) (parseBinding : string -> go BindingPb)
    (push : bool) (file : string) : go (staticBind * BindingPb) :=
  match files !! file with
  | None => Fail (Errorf "unable to read binding file" [ErrOSNotExist])
  | Some text =>
      b ← parseBinding text;
      if existsb (fun ate => match dev_Otg ate, dev_Ixnetwork ate with Some _, Some _ => true | _, _ => false end)
           (pb_Ates b)
      then Fail (errors_New "otg and ixnetwork are mutually exclusive")
      else Ret ({| b_resv := None; pushConfig := push |}, b)
  end.

(** * Lemmas: merging options *)

Lemma mergeStr_assoc a b c : mergeStr (mergeStr a b) c = mergeStr a (mergeStr b c).
Proof. unfold mergeStr. destruct (String.eqb_spec c ""); [done|]. by rewrite (proj2 (String.eqb_neq c "")). Qed.
Lemma mergeInt_assoc a b c : mergeInt (mergeInt a b) c = mergeInt a (mergeInt b c).
Proof. unfold mergeInt. destruct (Z.eqb_spec c 0); [done|]. by rewrite (proj2 (Z.eqb_neq c 0)). Qed.

Lemma proto_Merge_assoc a b c : proto_Merge (proto_Merge a b) c = proto_Merge a (proto_Merge b c).
Proof. unfold proto_Merge. simpl. f_equal; auto using mergeStr_assoc, mergeInt_assoc; by rewrite orb_assoc. Qed.

Lemma mergeStr_nil_l s : mergeStr "" s = s.
Proof. unfold mergeStr. by destruct (String.eqb_spec s ""). Qed.
Lemma mergeInt_0_l z : mergeInt 0 z = z.
Proof. unfold mergeInt. by destruct (Z.eqb_spec z 0). Qed.

Lemma proto_Merge_none_l a : proto_Merge noOptions a = a.
Proof. destruct a. unfold proto_Merge. simpl. by rewrite !mergeStr_nil_l, !mergeInt_0_l. Qed.
Lemma proto_Merge_none_r a : proto_Merge a noOptions = a.
Proof. destruct a. unfold proto_Merge, mergeStr, mergeInt. simpl. by rewrite !orb_false_r. Qed.

Lemma merge_from o l :
  foldl (fun result bopt => match bopt with Some o => proto_Merge result o | None => result end) o l =
  proto_Merge o (merge l).
Proof.
  unfold merge. revert o. induction l as [|[x|] l IH]; intros o; simpl.
  - by rewrite proto_Merge_none_r.
  - rewrite (IH (proto_Merge o x)), (IH (proto_Merge noOptions x)), proto_Merge_none_l. by rewrite proto_Merge_assoc.
  - apply IH.
Qed.

(** The last set text, or number, of a field. *)
Definition lastStr (f : Options -> string) (l : list (option Options)) : string :=
  default "" (head (filter (fun s => s <> "") (f <$> reverse (omap id l)))).
Definition lastInt (f : Options -> Z) (l : list (option Options)) : Z :=
  default 0%Z (head (filter (fun s => s <> 0%Z) (f <$> reverse (omap id l)))).

Lemma merge_cons x l : merge (x :: l) = proto_Merge (default noOptions x) (merge l).
Proof.
  unfold merge at 1. simpl. destruct x as [x|]; rewrite merge_from; simpl; by rewrite ?proto_Merge_none_l.
Qed.

Lemma lastStr_cons f x l : f noOptions = "" ->
  lastStr f (x :: l) = mergeStr (f (default noOptions x)) (lastStr f l).
Proof.
  intros H0. unfold lastStr. destruct x as [x|];
    [change (omap id (Some x :: l)) with (x :: omap id l)|change (omap id (None :: l)) with (omap id l)].
  - rewrite reverse_cons, fmap_app, filter_app, head_app.
    unfold mergeStr. destruct (head (filter _ (f <$> reverse (omap id l)))) as [s|] eqn:E.
    + assert (s <> "") as Hs.
      { destruct (filter _ _) as [|s' fl] eqn:Ef; [done|]. injection E as ->.
        assert (s ∈ filter (fun s => s <> "") (f <$> reverse (omap id l))) as Hin by (rewrite Ef; by left).
        by apply list_elem_of_filter in Hin as [? _]. }
      simpl. by rewrite (proj2 (String.eqb_neq s "") Hs).
    + cbn [fmap list_fmap]. rewrite filter_cons. by case_decide.
  - cbn [default]. by rewrite H0, mergeStr_nil_l.
Qed.

Lemma lastInt_cons f x l : f noOptions = 0%Z ->
  lastInt f (x :: l) = mergeInt (f (default noOptions x)) (lastInt f l).
Proof.
  intros H0. unfold lastInt. destruct x as [x|];
    [change (omap id (Some x :: l)) with (x :: omap id l)|change (omap id (None :: l)) with (omap id l)].
  - rewrite reverse_cons, fmap_app, filter_app, head_app.
    unfold mergeInt. destruct (head (filter _ (f <$> reverse (omap id l)))) as [s|] eqn:E.
    + assert (s <> 0%Z) as Hs.
      { destruct (filter _ _) as [|s' fl] eqn:Ef; [done|]. injection E as ->.
        assert (s ∈ filter (fun s => s <> 0%Z) (f <$> reverse (omap id l))) as Hin by (rewrite Ef; by left).
        by apply list_elem_of_filter in Hin as [? _]. }
      simpl. by rewrite (proj2 (Z.eqb_neq s 0) Hs).
    + cbn [fmap list_fmap]. rewrite filter_cons. by case_decide.
  - cbn [default]. by rewrite H0, mergeInt_0_l.
Qed.

Definition anySet (f : Options -> bool) (l : list (option Options)) : bool := existsb f (omap id l).
Lemma anySet_cons f x l : f noOptions = false -> anySet f (x :: l) = f (default noOptions x) || anySet f l.
Proof. intros H0. unfold anySet. destruct x; simpl; by rewrite ?H0. Qed.

(** Merged options take, for every field, the value of the last options in
    which the field is set: of the service before the device, of the device
    before the binding, of the binding before the default target.  A flag is
    set if it is set anywhere, so a more specific level cannot clear it. *)
Theorem merge_last l :
  let o := merge l in
  Target o = lastStr Target l /\ Username o = lastStr Username l /\ Password o = lastStr Password l /\
  TrustBundleFile o = lastStr TrustBundleFile l /\ CertFile o = lastStr CertFile l /\ KeyFile o = lastStr KeyFile l /\
  SessionId o = lastInt SessionId l /\ Timeout o = lastInt Timeout l /\
  MaxRecvMsgSize o = lastInt MaxRecvMsgSize l /\
  Insecure o = anySet Insecure l /\ SkipVerify o = anySet SkipVerify l /\ MutualTls o = anySet MutualTls l.
Proof.
  induction l as [|x l IH]; [by split_and!|]. cbv zeta in *. rewrite merge_cons.
  rewrite !lastStr_cons, !lastInt_cons, !anySet_cons by done.
  destruct IH as (E1 & E2 & E3 & E4 & E5 & E6 & E7 & E8 & E9 & E10 & E11 & E12).
  rewrite <- E1, <- E2, <- E3, <- E4, <- E5, <- E6, <- E7, <- E8, <- E9, <- E10, <- E11, <- E12.
  by split_and!.
Qed.

(** The transports of a list of dial options. *)
Definition transports (l : list dialOption) : list transport :=
  omap (fun o => match o with WithTransport t => Some t | _ => None end) l.

Lemma transports_shape tr rest : transports rest = [] ->
  transports (WithDisableRetry :: (WithTransport <$> tr) ++ rest) = tr.
Proof.
  intros Hr. change (transports ((WithTransport <$> tr) ++ rest) = tr).
  induction tr as [|t tr IH]; [done|].
  change (t :: transports ((WithTransport <$> tr) ++ rest) = t :: tr). by rewrite IH.
Qed.

Lemma dialOpts_shape readable o l : dialOpts readable o = Ret l ->
  exists tr rest, l = WithDisableRetry :: (WithTransport <$> tr) ++ rest /\ transports rest = [] /\
    (tr = [] <-> Insecure o = false /\ SkipVerify o = false /\ MutualTls o = false) /\ length tr <= 1 /\
    (TInsecure ∈ tr <-> Insecure o = true) /\
    (forall c, WithPerRPCCredentials c ∈ l -> Username o <> "" /\ cr_secure c = negb (Insecure o)).
Proof.
  unfold dialOpts. intros H. apply bind_Ret in H as (tr & Htr & H). injection H as <-.
  set (rest := (if String.eqb (Username o) "" then [] else _) ++ _).
  assert (transports rest = [] /\ forall c, WithPerRPCCredentials c ∈ rest -> Username o <> "" /\ cr_secure c = negb (Insecure o))
    as [Hrest Hcr].
  { unfold rest. destruct (String.eqb_spec (Username o) ""), (MaxRecvMsgSize o =? 0)%Z, (Timeout o =? 0)%Z;
      (split; [done|]); intros c Hc; simpl in Hc; rewrite ?elem_of_cons, ?elem_of_nil in Hc; naive_solver. }
  clearbody rest.
  assert (exists tr', tr = WithTransport <$> tr' /\
    (tr' = [] <-> Insecure o = false /\ SkipVerify o = false /\ MutualTls o = false) /\ length tr' <= 1 /\
    (TInsecure ∈ tr' <-> Insecure o = true)) as (tr' & -> & Hnil & Hlen & Hins).
  { destruct (Insecure o); [injection Htr as <-; exists [TInsecure]; set_solver|].
    destruct (SkipVerify o); [injection Htr as <-; exists [TSkipVerify]; set_solver|].
    destruct (MutualTls o); [|injection Htr as <-; exists []; set_solver].
    apply bind_Ret in Htr as (t & Ht & Htr). injection Htr as <-. exists [t].
    unfold loadCertificates in Ht. repeat (case_match; try done). injection Ht as <-. set_solver. }
  exists tr', rest. split_and!; try done.
  intros c Hc. apply Hcr. apply elem_of_cons in Hc as [?|[Hc|?]%elem_of_app]; [done| |done].
  by apply list_elem_of_fmap in Hc as (? & ? & _).
Qed.

(** The dialer of [DialGRPCWithPort] never carries the credentials of the
    device and always has exactly one transport; no dialer of a device demands
    transport security over an insecure transport. *)
Theorem dial_options_consistent readable r dev :
  (forall port d, DialGRPCWithPort readable r dev port = Ret d ->
     (forall c, WithPerRPCCredentials c ∉ DialOpts d) /\ (exists t, transports (DialOpts d) = [t])) /\
  (forall svc d c, dutDialer readable r dev svc = Ret d ->
     WithPerRPCCredentials c ∈ DialOpts d -> cr_secure c = true -> TInsecure ∉ transports (DialOpts d)).
Proof.
  split.
  - intros port d H. unfold DialGRPCWithPort, makeDialer in H.
    apply bind_Ret in H as (l & Hl & H). injection H as <-. cbn [DialOpts].
    apply dialOpts_shape in Hl as (tr & rest & -> & Hrest & Hnil & Hlen & _ & Hc). rewrite transports_shape by done.
    cbn [Insecure SkipVerify MutualTls Username] in *. split; [by intros c [Hu _]%Hc|].
    destruct tr as [|t [|? ?]]; [|by exists t|simpl in Hlen; lia]. exfalso.
    destruct (proj1 Hnil eq_refl) as (Hi & Hs & Hm). apply orb_false_iff in Hi as [Hi Hn].
    by rewrite Hi, Hs, Hm in Hn.
  - intros svc d c H Hin Hsec. unfold dutDialer in H. destruct (dutSvcParams svc) as [p|]; [|done].
    apply bind_Ret in H as (l & Hl & H). injection H as <-. cbn [DialOpts] in *.
    apply dialOpts_shape in Hl as (tr & rest & -> & Hrest & _ & _ & Hins & Hc). rewrite transports_shape by done.
    destruct (Hc c Hin) as [_ E]. rewrite Hins. intros Hi. rewrite E, Hi in Hsec. done.
Qed.

(** * Static reservations *)

Definition portOK (bd : Device) (tp : TPort) : Prop :=
  exists bport, indexBy port_Id (dev_Ports bd) !! tport_Id tp = Some bport /\
    (tport_Speed tp = SPEED_UNSPECIFIED \/ tport_Speed tp = port_Speed bport) /\
    (tport_Pmd tp = PMD_UNSPECIFIED \/ tport_Pmd tp = port_Pmd bport).

(** A testbed device is bound to a device of the binding that matches it. *)
Definition devOK (bdevs : gmap string Device) (td : TDevice) : Prop :=
  exists bd, bdevs !! td_Id td = Some bd /\
    (td_Vendor td = VENDOR_UNSPECIFIED \/ dev_Vendor bd = td_Vendor td) /\
    (td_HardwareModel td = "" \/ dev_HardwareModel bd = td_HardwareModel td) /\
    (td_SoftwareVersion td = "" \/ dev_SoftwareVersion bd = td_SoftwareVersion td) /\
    Forall (portOK bd) (td_Ports td).

Lemma mismatchN (x y z : N) (e : string) :
  (if negb (x =? z)%N && negb (x =? y)%N then [e] else []) = [] <-> x = z \/ x = y.
Proof. destruct (N.eqb_spec x z), (N.eqb_spec x y); simpl; naive_solver. Qed.
Lemma mismatchS (x y : string) (e : string) :
  (if negb (String.eqb x "") && negb (String.eqb y x) then [e] else []) = [] <-> x = "" \/ y = x.
Proof. destruct (String.eqb_spec x ""), (String.eqb_spec y x); simpl; naive_solver. Qed.

Lemma app_nil_iff {A} (l1 l2 : list A) : l1 ++ l2 = [] <-> l1 = [] /\ l2 = [].
Proof. split; [apply app_eq_nil|by intros [-> ->]]. Qed.

Lemma staticPorts_fold bd tports : forall pm errs,
  let st := foldl (staticPortStep (indexBy port_Id (dev_Ports bd))) (pm, errs) tports in
  (st.2 = [] <-> errs = [] /\ Forall (portOK bd) tports).
Proof.
  induction tports as [|tp tports IH]; intros pm errs; simpl; [by split; [|intros [? _]]|].
  rewrite Forall_cons. unfold portOK at 1.
  destruct (indexBy port_Id (dev_Ports bd) !! tport_Id tp) as [bport|]; rewrite IH, !app_nil_iff.
  - rewrite mismatchN, mismatchN. naive_solver.
  - naive_solver.
Qed.

Lemma staticDims_ok td bd :
  (staticDims td bd).2 = [] <->
  (td_Vendor td = VENDOR_UNSPECIFIED \/ dev_Vendor bd = td_Vendor td) /\
  (td_HardwareModel td = "" \/ dev_HardwareModel bd = td_HardwareModel td) /\
  (td_SoftwareVersion td = "" \/ dev_SoftwareVersion bd = td_SoftwareVersion td) /\
  Forall (portOK bd) (td_Ports td).
Proof.
  unfold staticDims. pose proof (staticPorts_fold bd (td_Ports td) ∅ []) as Hp. fold (staticPorts (td_Ports td) bd) in Hp.
  destruct (staticPorts (td_Ports td) bd) as [pm errs]. simpl in *. rewrite !app_nil_iff, !mismatchS, Hp.
  assert ((if negb (td_Vendor td =? VENDOR_UNSPECIFIED)%N && negb (dev_Vendor bd =? td_Vendor td)%N
           then ["binding vendor and testbed vendor do not match"] else []) = [] <->
          td_Vendor td = VENDOR_UNSPECIFIED \/ dev_Vendor bd = td_Vendor td) as ->; [|naive_solver].
  rewrite (N.eqb_sym (dev_Vendor bd)), mismatchN. naive_solver.
Qed.

(** The loop over the devices of the testbed. *)
Lemma bindStep_fold {A} missing (mk : Dims -> Device -> A) bdevs (dev : A -> Device)
    (Hdev : forall d bd, dev (mk d bd) = bd) tds : forall devs errs,
  let st := foldl (bindStep missing mk bdevs) (devs, errs) tds in
  (st.2 = [] <-> errs = [] /\ Forall (devOK bdevs) tds) /\
  (forall id a, st.1 !! id = Some a -> devs !! id = Some a \/ (id ∈ td_Id <$> tds /\ bdevs !! id = Some (dev a))) /\
  (forall id, is_Some (devs !! id) \/ (Forall (devOK bdevs) tds /\ id ∈ td_Id <$> tds) -> is_Some (st.1 !! id)).
Proof.
  induction tds as [|td tds IH]; intros devs errs; simpl.
  { split_and!; [by split; [|intros [? _]]|auto|]. intros id [?|[_ ?%elem_of_nil]]; done. }
  rewrite Forall_cons. assert (devOK bdevs td -> is_Some (bdevs !! td_Id td)) as Hb by (intros (bd & -> & _); eauto).
  destruct (bdevs !! td_Id td) as [bd|] eqn:Hbd.
  - assert (devOK bdevs td <-> (staticDims td bd).2 = []) as Hok.
    { rewrite staticDims_ok. unfold devOK. rewrite Hbd. naive_solver. }
    destruct (staticDims td bd) as [dims dimErrs]. simpl in Hok.
    destruct (IH (<[td_Id td := mk dims bd]> devs) (errs ++ dimErrs)) as (IH1 & IH2 & IH3). split_and!.
    + rewrite IH1, app_nil_iff, Hok. tauto.
    + intros id a Ha. apply IH2 in Ha as [Ha|[? ?]]; [|right; set_solver].
      rewrite lookup_insert in Ha. case_decide as E; [|by left].
      injection Ha as <-. right. rewrite <- E, Hdev. set_solver.
    + intros id Hid. apply IH3. rewrite lookup_insert. case_decide as E; [eauto|].
      destruct Hid as [?|[[? ?]%Forall_cons [?|?]%elem_of_cons]]; [by left|congruence|by right].
  - destruct (IH devs (errs ++ [missing])) as (IH1 & IH2 & IH3). split_and!.
    + rewrite IH1, app_nil_iff. split; [naive_solver|]. intros [_ [Hd _]]. destruct (Hb Hd). done.
    + intros id a Ha. apply IH2 in Ha as [Ha|[? ?]]; [by left|right; set_solver].
    + intros id [?|[[Hd _]%Forall_cons _]]; [by apply IH3; left|]. destruct (Hb Hd). done.
Qed.

(** A static reservation is free of errors exactly when every device of the
    testbed is bound to a device of the binding with the same identifier that
    agrees with it in vendor, model, software version and ports; it then holds
    exactly the testbed's devices, each with its bound device. *)
Theorem staticReservation_spec tb r resv errs :
  staticReservation tb r = (resv, errs) ->
  (errs = [] <-> Forall (devOK (indexBy dev_Id (pb_Duts r))) (tb_Duts tb) /\
                 Forall (devOK (indexBy dev_Id (pb_Ates r))) (tb_Ates tb)) /\
  (errs = [] ->
   dom (DUTs resv) = list_to_set (td_Id <$> tb_Duts tb) /\ dom (ATEs resv) = list_to_set (td_Id <$> tb_Ates tb) /\
   (forall id d, DUTs resv !! id = Some d -> indexBy dev_Id (pb_Duts r) !! id = Some (dut_dev d)) /\
   (forall id a, ATEs resv !! id = Some a -> indexBy dev_Id (pb_Ates r) !! id = Some (ate_dev a))).
Proof.
  unfold staticReservation. set (bd := indexBy dev_Id (pb_Duts r)). set (ba := indexBy dev_Id (pb_Ates r)).
  destruct (bindStep_fold "missing binding for DUT" mkDUT bd dut_dev ltac:(done) (tb_Duts tb) ∅ []) as (D1 & D2 & D3).
  destruct (foldl (bindStep _ mkDUT bd) _ _) as [duts errs1]. simpl in *.
  destruct (bindStep_fold "missing binding for ATE" mkATE ba ate_dev ltac:(done) (tb_Ates tb) ∅ errs1) as (A1 & A2 & A3).
  destruct (foldl (bindStep _ mkATE ba) _ _) as [ates errs2]. simpl in *. intros [= <- <-]. simpl.
  assert (errs2 = [] <-> Forall (devOK bd) (tb_Duts tb) /\ Forall (devOK ba) (tb_Ates tb)) as Hiff
    by (rewrite A1, D1; tauto).
  split; [exact Hiff|]. intros [Hd Ha]%Hiff. split_and!.
  - apply set_eq. intros id. rewrite elem_of_dom, elem_of_list_to_set. split; [|auto].
    intros [d Hid]. apply D2 in Hid as [Hid|[? _]]; [by rewrite lookup_empty in Hid|done].
  - apply set_eq. intros id. rewrite elem_of_dom, elem_of_list_to_set. split; [|auto].
    intros [a Hid]. apply A2 in Hid as [Hid|[? _]]; [by rewrite lookup_empty in Hid|done].
  - intros id d Hid. apply D2 in Hid as [Hid|[_ ?]]; [by rewrite lookup_empty in Hid|done].
  - intros id a Hid. apply A2 in Hid as [Hid|[_ ?]]; [by rewrite lookup_empty in Hid|done].
Qed.

Lemma indexBy_elem {A} (id : A -> string) l k x : indexBy id l !! k = Some x -> x ∈ l.
Proof.
  unfold indexBy. induction l as [|y l IH] using rev_ind; [simpl; by rewrite lookup_empty|].
  rewrite foldl_snoc, lookup_insert. case_decide; [intros [= <-]; set_solver|]. intros ?%IH. set_solver.
Qed.

(** * Sessions: what Reserve creates, Release deletes *)

(** A session is a server and an identifier on it. *)
Definition created (tr : trace) (s : string * Z) : Prop := exists name, (AIxNewSession s.1 name, Ret s.2) ∈ tr.
Definition deleted (tr : trace) (s : string * Z) : Prop := exists x, (AIxDeleteSession s.1 s.2, Ret x) ∈ tr.

(** A computation that creates no session. *)
Definition quiet {A} (m : io A) : Prop := forall tr s, created (m tr).2 s -> created tr s.

Section Sessions.
Variable world : trace -> action -> outcome error Z.
Variables (files : gmap string string) (readable : string -> bool) (r : BindingPb).
Variable parseSet : string -> go string.

Lemma quiet_ret {A} (a : A) : quiet (mret a).
Proof. by intros tr s. Qed.
Lemma quiet_lift {A} (m : go A) : quiet (lift m).
Proof. by intros tr s. Qed.
Lemma quiet_bind {A B} (m : io A) (k : A -> io B) : quiet m -> (forall a, quiet (k a)) -> quiet (m ≫= k).
Proof.
  intros Hm Hk tr s. unfold mbind, gost_bind. specialize (Hm tr s). destruct (m tr) as [[a|e| |] tr1]; simpl in *; auto.
  intros Hc. apply Hm. by apply (Hk a tr1).
Qed.
Lemma quiet_act a : (forall srv n, a <> AIxNewSession srv n) -> quiet (act world a).
Proof. intros Ha tr s [n [[= E _]|Hin]%elem_of_cons]; [by destruct (Ha s.1 n)|]. by exists n. Qed.
Lemma quiet_forEach {A} (body : A -> io unit) l : (forall x, quiet (body x)) -> quiet (forEach body l).
Proof. intros Hb. induction l as [|x l IH]; [apply quiet_ret|]. apply quiet_bind; auto. Qed.

Create HintDb quiet.
Hint Resolve quiet_ret quiet_lift quiet_bind quiet_act quiet_forEach : quiet.

Lemma resetDUT_quiet dut : quiet (resetDUT world files readable r parseSet dut).
Proof.
  unfold resetDUT. apply quiet_bind; [|intros _; apply quiet_bind; [|intros _]].
  - unfold resetCLI, DialCLI. apply quiet_bind; [apply quiet_lift|]. intros confs. destruct (String.eqb _ ""); auto 8 with quiet.
  - unfold resetGNMI, dialDUT. apply quiet_bind; [apply quiet_lift|]. intros [|q qs]; [auto with quiet|].
    apply quiet_bind; [apply quiet_bind; auto with quiet|]. intros _. apply quiet_forEach. auto 8 with quiet.
  - unfold resetGRIBI, dialDUT. destruct (negb _); [auto with quiet|].
    apply quiet_bind; [apply quiet_bind; auto with quiet|]. auto 8 with quiet.
Qed.

(** ** Reserving *)

(** The reservation's devices hold the session [s], and Release would delete it. *)
Definition held (ates : gmap string staticATE) (s : string * Z) : Prop :=
  exists k a, ates !! k = Some a /\ ixsess a = Some s.2 /\ ixweb a = Some s.1 /\ (SessionId (ixnetwork r (ate_dev a)) >? 0)%Z = false.

Lemma ixSession_spec a tr res a' tr' :
  DialIxNetwork world r a tr = (res, a', tr') ->
  ate_dev a' = ate_dev a /\
  (forall s, ixsess a = Some s.2 -> ixweb a = Some s.1 -> ixsess a' = Some s.2 /\ ixweb a' = Some s.1) /\
  forall s, created tr' s -> created tr s \/
    (ixsess a' = Some s.2 /\ ixweb a' = Some s.1 /\ (SessionId (ixnetwork r (ate_dev a)) >? 0)%Z = false).
Proof.
  unfold DialIxNetwork, ixSession. set (opts := ixnetwork r (ate_dev a)).
  destruct (ixsess a) as [s0|] eqn:Hs.
  { intros H. injection H as <- <- <-. split_and!; [done|intros s; by rewrite Hs|by left]. }
  destruct (ixWeb world a opts tr) as [[res1 a1] tr1] eqn:Hw.
  assert (ate_dev a1 = ate_dev a /\ (forall s, created tr1 s -> created tr s) /\
    forall web, res1 = Ret web -> ixweb a1 = Some web) as (Hd1 & Hc1 & Hweb).
  { unfold ixWeb in Hw. destruct (ixweb a) as [web0|] eqn:Ew; [injection Hw as <- <- <-; split_and!; [done|done|congruence]|].
    destruct (if _ && _ then _ else _) as [user pw].
    pose proof (quiet_act (AIxConnect (Target opts) user pw) ltac:(done) tr) as Hq.
    destruct (act world _ tr) as [[x|e| |] tr2]; injection Hw as <- <- <-; (split_and!; [done|exact Hq|]);
      intros web Hwb; first [discriminate Hwb|injection Hwb as <-; reflexivity]. }
  destruct res1 as [ixw|e| |]; [|intros H; injection H as <- <- <-; by split_and!; auto..].
  specialize (Hweb ixw eq_refl). destruct (SessionId opts >? 0)%Z eqn:Hid.
  - pose proof (quiet_act (AIxFetchSession ixw (SessionId opts)) ltac:(done) tr1) as Hq.
    destruct (act world _ tr1) as [[x|e| |] tr2]; intros H; injection H as <- <- <-; by split_and!; auto.
  - unfold act. destruct (world tr1 (AIxNewSession _ _)) as [x|e| |] eqn:Hx; intros H; injection H as <- <- <-;
      (split_and!; [done|done|]); intros [srv s] [n [Eq|Hin]%elem_of_cons];
      try (left; apply Hc1; by exists n); try discriminate Eq.
    injection Eq as -> _ ->. right. by split_and!.
Qed.

Lemma reserveIxSessions_spec order : forall ates tr res ates' tr',
  reserveIxSessions world r order ates tr = (res, ates', tr') ->
  (forall s, held ates s -> held ates' s) /\
  (forall s, created tr' s -> created tr s \/ held ates' s) /\
  (forall k a', ates' !! k = Some a' -> exists a, ates !! k = Some a /\ ate_dev a' = ate_dev a).
Proof.
  induction order as [|id order IH]; intros ates tr res ates' tr' H; simpl in H.
  { injection H as <- <- <-. split_and!; [done|by left|]. intros k a' Hk. by exists a'. }
  destruct (ates !! id) as [a|] eqn:Ha; [|by eapply IH].
  destruct (dev_Ixnetwork (ate_dev a)) as [o|]; [|by eapply IH].
  destruct (DialIxNetwork world r a tr) as [[res1 a1] tr1] eqn:Hd.
  apply ixSession_spec in Hd as (Hdev & Hkeep & Hnew).
  assert (forall s, held ates s -> held (<[id := a1]> ates) s) as Hmono.
  { intros s (k & b & Hk & Hs & Hw & Hi). destruct (decide (k = id)) as [->|Hne].
    - exists id, a1. rewrite lookup_insert_eq, Hdev. rewrite Ha in Hk. injection Hk as <-.
      destruct (Hkeep s Hs Hw). auto.
    - exists k, b. by rewrite lookup_insert_ne. }
  assert (forall s, created tr1 s -> created tr s \/ held (<[id := a1]> ates) s) as Hcr.
  { intros s [?|(Hs & Hw & Hi)]%Hnew; [by left|right]. exists id, a1. by rewrite lookup_insert_eq, Hdev. }
  assert (forall k b, <[id := a1]> ates !! k = Some b -> exists a0, ates !! k = Some a0 /\ ate_dev b = ate_dev a0) as Hback.
  { intros k b. rewrite lookup_insert. case_decide; [intros [= <-]; subst; eauto|eauto]. }
  destruct res1 as [z|e| |]; [|injection H as <- <- <-; by split_and!..].
  destruct (IH _ _ _ _ _ H) as (I1 & I2 & I3). split_and!; [auto| |].
  - intros s [Hc|Hh]%I2; [|by right]. apply Hcr in Hc as [?|?]; auto.
  - intros k b Hk. apply I3 in Hk as (b1 & Hb1 & E1). apply Hback in Hb1 as (a0 & ? & E0). exists a0. split; congruence.
Qed.

(** ** Releasing *)

Lemma releaseAll_spec l : forall tr tr' x,
  releaseIxSessions world r l tr = (Ret x, tr') ->
  (exists ext, tr' = ext ++ tr) /\
  forall a s, a ∈ l -> ixsess a = Some s.2 -> ixweb a = Some s.1 ->
    SessionId (ixnetwork r (ate_dev a)) = 0%Z -> deleted tr' s.
Proof.
  unfold releaseIxSessions. induction l as [|a l IH]; intros tr tr' x H.
  { injection H as _ <-. split; [by exists []|]. intros a s Hin. by apply elem_of_nil in Hin. }
  cbn [forEach] in H. unfold mbind, gost_bind in H.
  destruct (releaseOne world r a tr) as [[u|e| |] tr1] eqn:H1; try done.
  apply IH in H as [[ext ->] Hl].
  assert ((exists e1, tr1 = e1 ++ tr) /\ forall s, ixsess a = Some s.2 -> ixweb a = Some s.1 ->
      SessionId (ixnetwork r (ate_dev a)) = 0%Z -> deleted tr1 s)
    as [[e1 ->] Ha].
  { unfold releaseOne in H1. destruct (ixsess a) as [s0|]; [|injection H1 as _ <-; by split; [exists []|]].
    destruct (Z.eqb_spec (SessionId (ixnetwork r (ate_dev a))) 0) as [E|]; [|injection H1 as _ <-; by split; [exists []|]].
    destruct (ixweb a) as [web|]; [|done].
    unfold mbind, gost_bind, act in H1. destruct (world tr (AIxDeleteSession web s0)) as [y|e| |]; try done.
    injection H1 as _ <-. split; [by eexists [_]|]. intros [srv s] [= ->] [= ->] _. exists y. by left. }
  split; [exists (ext ++ e1); by rewrite app_assoc|].
  intros b s [->|Hin]%elem_of_cons Hs Hw Hz; [|eauto]. destruct (Ha s Hs Hw Hz) as [y Hy]. exists y. set_solver.
Qed.
End Sessions.

(** C39: every IxNetwork session that a reservation creates, the release of the
    reservation deletes, on the server where it was created; a second reservation is refused in between, and the
    binding is free again afterwards. *)
Theorem release_deletes world files readable r parseSet dyn tb dutOrder ateOrder relOrder b tr resv b1 tr1 tr2 x b2 tr3 :
  pb_Dynamic r = false ->
  (forall dev, dev ∈ pb_Ates r -> (0 <= SessionId (ixnetwork r dev))%Z) ->
  Reserve world files readable r parseSet dyn tb dutOrder ateOrder b tr = (Ret resv, b1, tr1) ->
  (forall id, id ∈ dom (ATEs resv) -> id ∈ relOrder) ->
  Release world r relOrder b1 tr2 = (Ret x, b2, tr3) ->
  (Reserve world files readable r parseSet dyn tb dutOrder ateOrder b1 tr1 =
     (Fail (errors_New "only one reservation is allowed"), b1, tr1)) /\
  b_resv b2 = None /\
  (forall s, created tr1 s -> created tr s \/ deleted tr3 s).
Proof.
  intros Hdyn Hsid HR Hord HL. unfold Reserve in HR at 1.
  destruct (b_resv b) as [?|]; [done|]. unfold reservation in HR. rewrite Hdyn in HR.
  destruct (staticReservation tb r) as [resv0 [|e errs]] eqn:Hst; [|done].
  destruct (staticReservation_spec tb r resv0 [] Hst) as [_ Hdev]. destruct (Hdev eq_refl) as (_ & _ & _ & Hates). clear Hdev.
  set (reset := if pushConfig _ then _ else _) in HR.
  assert (quiet reset) as Hq.
  { unfold reset. destruct (pushConfig _); [|apply quiet_ret]. apply quiet_forEach. intros d. apply resetDUT_quiet. }
  destruct (reset tr) as [[u|e| |] tr'] eqn:Hreset; try done. simpl in HR.
  destruct (reserveIxSessions world r ateOrder (ATEs resv0) tr') as [[[u2|e| |] ates] tr''] eqn:Hix; try done.
  injection HR as <- <- <-. apply reserveIxSessions_spec in Hix as (_ & Hcr & Hback).
  unfold Release in HL. simpl in HL.
  destruct (releaseIxSessions _ _ _ tr2) as [[u'|e| |] tr4] eqn:Hrel; try done. injection HL as _ <- <-.
  apply releaseAll_spec in Hrel as [_ Hdel].
  split_and!; [done|done|]. intros s Hs. apply Hcr in Hs as [Hs|(k & a & Hk & Hsess & Hweb & Hpos)].
  - left. specialize (Hq tr s). rewrite Hreset in Hq. auto.
  - right. apply (Hdel a); [|done|done|].
    + apply list_elem_of_omap. exists k. split; [|done]. apply Hord. simpl. by eapply elem_of_dom_2.
    + destruct (Hback k a Hk) as (a0 & Ha0 & Ed). apply Hates in Ha0. rewrite <- Ed in Ha0.
      assert (ate_dev a ∈ pb_Ates r) as Hin by (by eapply indexBy_elem).
      specialize (Hsid _ Hin). rewrite Z.gtb_ltb in Hpos. apply Z.ltb_ge in Hpos. lia.
Qed.

(** * Witnesses *)

Definition sampleDevice (id : string) (ix : option Options) : Device :=
  {| dev_Id := id; dev_Name := id; dev_Ports := [{| port_Id := "port1"; port_Name := "eth0"; port_Speed := 3; port_Pmd := 0 |}];
     dev_Options := None; dev_Config := None; dev_Ssh := None; dev_Gnmi := None; dev_Gnoi := None; dev_Gnsi := None;
     dev_Gribi := None; dev_P4Rt := None; dev_Gnpsi := None; dev_Ixnetwork := ix; dev_Otg := None;
     dev_Vendor := 1; dev_HardwareModel := "model"; dev_SoftwareVersion := "" |}.
Definition sampleTDevice (id : string) : TDevice :=
  {| td_Id := id; td_Ports := [{| tport_Id := "port1"; tport_Speed := 0; tport_Pmd := 0 |}]; td_Vendor := 1;
     td_HardwareModel := ""; td_SoftwareVersion := "" |}.
Definition sampleBinding : BindingPb :=
  {| pb_Duts := [sampleDevice "dut" None]; pb_Ates := [sampleDevice "ate" (Some (targetOptions "ix"))];
     pb_Options := Some (proto_Merge noOptions (targetOptions "")); pb_Dynamic := false; pb_Links := [] |}.
Definition sampleTestbed : Testbed := {| tb_Duts := [sampleTDevice "dut"]; tb_Ates := [sampleTDevice "ate"]; tb_Links := [] |}.
Definition sampleWorld (tr : trace) (a : action) : outcome error Z := Ret (Z.of_nat (length tr)).

Lemma staticReservation_spec_witness :
  dom (DUTs (staticReservation sampleTestbed sampleBinding).1) = {["dut"]}.
Proof.
  destruct (staticReservation_spec sampleTestbed sampleBinding _ _ (surjective_pairing _)) as [_ H].
  destruct (H ltac:(vm_compute; reflexivity)) as [E _]. rewrite E. vm_compute. reflexivity.
Defined.

Definition sampleReserve :=
  Reserve sampleWorld ∅ (fun _ => true) sampleBinding (fun s => Ret s) (fun _ => Panic) sampleTestbed
    ["dut"] ["ate"] {| b_resv := None; pushConfig := true |} [].

Lemma release_deletes_witness :
  exists resv b1 tr1 b2 tr3, sampleReserve = (Ret resv, b1, tr1) /\
    Release sampleWorld sampleBinding ["ate"] b1 tr1 = (Ret tt, b2, tr3) /\
    b_resv b2 = None /\ (forall s, created tr1 s -> created [] s \/ deleted tr3 s).
Proof.
  destruct sampleReserve as [[[resv|e| |] b1] tr1] eqn:E; [|vm_compute in E; discriminate E..].
  destruct (Release sampleWorld sampleBinding ["ate"] b1 tr1) as [[[x|e| |] b2] tr3] eqn:EL;
    [|vm_compute in E; injection E as <- <- <-; vm_compute in EL; discriminate EL..].
  destruct x. exists resv, b1, tr1, b2, tr3. split; [reflexivity|]. split; [exact EL|].
  refine (proj2 (release_deletes sampleWorld ∅ (fun _ => true) sampleBinding (fun s => Ret s) (fun _ => Panic) sampleTestbed
    ["dut"] ["ate"] ["ate"] {| b_resv := None; pushConfig := true |} [] resv b1 tr1 tr1 tt b2 tr3 eq_refl _ E _ EL)).
  - intros dev ->%list_elem_of_singleton. vm_compute. discriminate.
  - assert (dom (ATEs resv) = {["ate"]}) as ->
      by (vm_compute in E; injection E as <- _ _; vm_compute; reflexivity).
    intros id ->%elem_of_singleton. by left.
Defined.

Lemma dial_options_consistent_witness :
  exists d t, DialGRPCWithPort (fun _ => true) sampleBinding (sampleDevice "dut" None) 8080 = Ret d /\
    transports (DialOpts d) = [t].
Proof.
  destruct (DialGRPCWithPort (fun _ => true) sampleBinding (sampleDevice "dut" None) 8080) as [d|e| |] eqn:E;
    [|vm_compute in E; discriminate E..].
  destruct (proj1 (dial_options_consistent (fun _ => true) sampleBinding (sampleDevice "dut" None)) 8080%Z d E) as [_ [t Ht]].
  exists d, t. split; [reflexivity|exact Ht].
Defined.
