(* ===== verification/DynBinding.v ===== *)
(** Dynamic bindings ([src/topologies/binding/dynamic.go]): the binding file is
    translated to a concrete graph, the solver of Ondatra ([portgraph]) assigns the
    nodes and ports of the graph of the testbed to it, and the assignment is
    translated back to a reservation.

    Pointers are positions: a [*portgraph.ConcreteNode] is the position of the node
    in the graph, a [*portgraph.ConcretePort] the position of its node and its own;
    a [*opb.Device] is the position of the device in the testbed, DUTs first, and a
    [*opb.Port] that of its device and its own.  Ondatra is a class; its documented
    behaviour is a class of laws, with an exhaustive search as an instance. *)
From stdpp Require Import base list gmap strings pretty.
From Stdlib Require Import ZArith NArith Lia.
From S2P Require Import Prelude GoStrings Binding.
Open Scope string_scope.
Open Scope list_scope.

(** * Graphs *)

Abbreviation attributes := (gmap string string).

Record ConcretePort := { cp_Desc : string; cp_Attrs : attributes }.
Record ConcreteNode := { cn_Desc : string; cn_Ports : list ConcretePort; cn_Attrs : attributes }.
Record ConcreteEdge := { ce_Src : nat * nat; ce_Dst : nat * nat }.
Record ConcreteGraph := { cg_Desc : string; cg_Nodes : list ConcreteNode; cg_Edges : list ConcreteEdge }.

(** What the code relies on of an abstract graph: its nodes, their ports, the
    attributes they accept, and its edges. *)
Record AbstractGraph (AbsNode AbsPort : Type) := {
  ag_Nodes : list AbsNode; ag_Ports : AbsNode -> list AbsPort;
  ag_NodeOK : AbsNode -> attributes -> bool; ag_PortOK : AbsPort -> attributes -> bool;
  ag_Edges : list (AbsPort * AbsPort);
}.
Arguments ag_Nodes {_ _}. Arguments ag_Ports {_ _}. Arguments ag_NodeOK {_ _}.
Arguments ag_PortOK {_ _}. Arguments ag_Edges {_ _}.

(** The constants of the package [portgraph], and the names of the enumerations of the proto. *)
Class AttrNames := {
  NameAttr : string; SpeedAttr : string; PMDAttr : string; RoleAttr : string; HWAttr : string; SWAttr : string;
  RoleDUT : string; RoleATE : string;
  speedString : N -> string; pmdString : N -> string;
}.

(** The package [portgraph]. *)
Class PortGraph := {
  #[global] pg_names :: AttrNames;
  AbsNode : Type; AbsPort : Type;
  #[global] AbsNode_eq_dec :: EqDecision AbsNode; #[global] AbsNode_countable :: Countable AbsNode;
  #[global] AbsPort_eq_dec :: EqDecision AbsPort; #[global] AbsPort_countable :: Countable AbsPort;
  TestbedToAbstractGraph : Testbed -> go (AbstractGraph AbsNode AbsPort * gmap AbsNode nat * gmap AbsPort (nat * nat));
  Solve : AbstractGraph AbsNode AbsPort -> ConcreteGraph -> go (gmap AbsNode nat * gmap AbsPort (nat * nat));
}.

(** [fmt.Errorf(msg + ": %w", err)] around a call. *)
Definition wrap (msg : string) {A} (m : go A) : go A :=
  match m with Fail e => Fail (Errorf (msg +:+ ": " +:+ err_msg e) (err_wraps e)) | m => m end.

(** The elements of a slice with their pointers. *)
Definition numberedFrom {A} (n : nat) (l : list A) : list (nat * A) := zip (seq n (length l)) l.

Section Dynamic.
Context `{PG : PortGraph}.

(** * protoToConcreteGraph *)

Record graphState := {
  gs_Nodes : list ConcreteNode;
  qualName2Port : gmap string (nat * nat);
  conNode2Dev : gmap nat Device;
  conPort2BindPort : gmap (nat * nat) Port;
}.

Definition attr (set : bool) (key val : string) (m : attributes) : attributes := if set then <[key := val]> m else m.

Definition concretePort (ap : Port) : ConcretePort := {|
  cp_Desc := port_Name ap;
  cp_Attrs :=
    attr (negb (port_Pmd ap =? PMD_UNSPECIFIED)%N) PMDAttr (pmdString (port_Pmd ap))
      (attr (negb (port_Speed ap =? SPEED_UNSPECIFIED)%N) SpeedAttr (speedString (port_Speed ap))
        (attr (negb (String.eqb (port_Name ap) "")) NameAttr (port_Name ap) ∅)) |}.

Definition nodeAttrs (dev : Device) (devRole : string) : attributes :=
  attr (negb (String.eqb (dev_SoftwareVersion dev) "")) SWAttr (dev_SoftwareVersion dev)
    (attr (negb (String.eqb (dev_HardwareModel dev) "")) HWAttr (dev_HardwareModel dev)
      (attr (negb (String.eqb (dev_Name dev) "")) NameAttr (dev_Name dev) {[RoleAttr := devRole]})).

Definition qualName (dev : Device) (ap : Port) : string := dev_Name dev +:+ ":" +:+ port_Name ap.

(** The loop over the ports of the device that becomes node [i]. *)
Definition addPort (i : nat) (dev : Device)
    (st : list ConcretePort * gmap string (nat * nat) * gmap (nat * nat) Port) (ap : Port) :
    list ConcretePort * gmap string (nat * nat) * gmap (nat * nat) Port :=
  let '(ports, qual, p2b) := st in
  let port := (i, length ports) in
  (ports ++ [concretePort ap], <[qualName dev ap := port]> qual, <[port := ap]> p2b).

Definition addDevice (st : graphState) (dr : Device * string) : graphState :=
  let '(dev, devRole) := dr in
  let i := length (gs_Nodes st) in
  let '(ports, qual, p2b) := foldl (addPort i dev) ([], qualName2Port st, conPort2BindPort st) (dev_Ports dev) in
  {| gs_Nodes := gs_Nodes st ++ [{| cn_Desc := dev_Name dev; cn_Ports := ports; cn_Attrs := nodeAttrs dev devRole |}];
     qualName2Port := qual;
     conNode2Dev := <[i := dev]> (conNode2Dev st);
     conPort2BindPort := p2b |}.

(** The devices in the order in which they are added. *)
Definition bindDevices (bpb : BindingPb) : list (Device * string) :=
  ((fun d => (d, RoleDUT)) <$> pb_Duts bpb) ++ ((fun d => (d, RoleATE)) <$> pb_Ates bpb).

Definition noGraph : graphState :=
  {| gs_Nodes := []; qualName2Port := ∅; conNode2Dev := ∅; conPort2BindPort := ∅ |}.

Definition addLink (qual : gmap string (nat * nat)) (link : Link) : go ConcreteEdge :=
  match qual !! link_A link with
  | None => Fail (errors_New ("no known port " +:+ link_A link +:+ " in link"))
  | Some pa =>
      match qual !! link_B link with
      | None => Fail (errors_New ("no known port " +:+ link_B link +:+ " in link"))
      | Some pb => Ret {| ce_Src := pa; ce_Dst := pb |}
      end
  end.

Definition protoToConcreteGraph (bpb : BindingPb) : go (ConcreteGraph * gmap nat Device * gmap (nat * nat) Port) :=
  let st := foldl addDevice noGraph (bindDevices bpb) in
  edges ← mapM (addLink (qualName2Port st)) (pb_Links bpb);
  Ret ({| cg_Desc := "FeatureProfiles binding.proto"; cg_Nodes := gs_Nodes st; cg_Edges := edges |},
       conNode2Dev st, conPort2BindPort st).

(** * assignmentToReservation *)

(** The order in which Go ranges over a map. *)
Variable order : forall {K V} `{Countable K}, gmap K V -> list K.

Definition dynPort (i : nat) (tbPort2BindPort : gmap (option (nat * nat)) (option Port)) (jp : nat * TPort) : go BPort :=
  match mjoin (tbPort2BindPort !! Some (i, jp.1)) with
  | None => Panic
  | Some bport => Ret (portOf bport)
  end.

Definition dynDims (i : nat) (td : TDevice) (bd : option Device)
    (tbPort2BindPort : gmap (option (nat * nat)) (option Port)) : go Dims :=
  match bd with
  | None => Panic
  | Some bd =>
      ports ← foldM (fun m jp => p ← dynPort i tbPort2BindPort jp; Ret (<[tport_Id jp.2 := p]> m)) ∅
                (numberedFrom 0 (td_Ports td));
      Ret {| dims_Name := dev_Name bd; dims_Vendor := dev_Vendor bd; dims_HardwareModel := dev_HardwareModel bd;
             dims_SoftwareVersion := dev_SoftwareVersion bd; dims_Ports := ports |}
  end.

(** The body of the loops over the DUTs and the ATEs of the testbed. *)
Definition dynDevice {A} (mk : Dims -> Device -> A) (tbDev2BindDev : gmap (option nat) (option Device))
    (tbPort2BindPort : gmap (option (nat * nat)) (option Port)) (itd : nat * TDevice) : go A :=
  let bd := mjoin (tbDev2BindDev !! Some itd.1) in
  d ← dynDims itd.1 itd.2 bd tbPort2BindPort;
  match bd with Some bd => Ret (mk d bd) | None => Panic end.

Definition assignmentToReservation (assign : gmap AbsNode nat * gmap AbsPort (nat * nat)) (uuid : string) (tb : Testbed)
    (absNode2Dev : gmap AbsNode nat) (conNode2Dev : gmap nat Device)
    (absPort2BindPort : gmap AbsPort (nat * nat)) (conPort2BindPort : gmap (nat * nat) Port) : go Reservation :=
  let '(Node2Node, Port2Port) := assign in
  let tbDev2BindDev := foldl (fun m absNode =>
    <[absNode2Dev !! absNode := (Node2Node !! absNode ≫= fun c => conNode2Dev !! c)]> m) ∅ (order Node2Node) in
  let tbPort2BindPort := foldl (fun m absPort =>
    <[absPort2BindPort !! absPort := (Port2Port !! absPort ≫= fun c => conPort2BindPort !! c)]> m) ∅ (order Port2Port) in
  duts ← foldM (fun m itd => d ← dynDevice mkDUT tbDev2BindDev tbPort2BindPort itd; Ret (<[td_Id itd.2 := d]> m)) ∅
           (numberedFrom 0 (tb_Duts tb));
  ates ← foldM (fun m itd => d ← dynDevice mkATE tbDev2BindDev tbPort2BindPort itd; Ret (<[td_Id itd.2 := d]> m)) ∅
           (numberedFrom (length (tb_Duts tb)) (tb_Ates tb));
  Ret {| resv_ID := uuid; DUTs := duts; ATEs := ates |}.

Definition dynamicReservation (uuid : string) (r : BindingPb) (tb : Testbed) : go Reservation :=
  '(abstractGraph, absNode2Dev, absPort2BindPort) ← wrap "could not parse specified testbed" (TestbedToAbstractGraph tb);
  '(superGraph, conNode2Dev, conPort2BindPort) ← wrap "could not solve for specified testbed" (protoToConcreteGraph r);
  assign ← wrap "could not solve for specified testbed" (Solve abstractGraph superGraph);
  wrap "could not solve for specified testbed"
    (assignmentToReservation assign uuid tb absNode2Dev conNode2Dev absPort2BindPort conPort2BindPort).
End Dynamic.

(** * Specification *)

(** ** What Ondatra promises *)

Definition tbDevices (tb : Testbed) : list TDevice := tb_Duts tb ++ tb_Ates tb.

(** The qualified name of a port of the testbed. *)
Definition tbQual (tb : Testbed) (x : nat * nat) : option string :=
  td ← tbDevices tb !! x.1; tp ← td_Ports td !! x.2; Some (td_Id td +:+ ":" +:+ tport_Id tp).

Section Requirements.
Context `{AN : AttrNames}.

Definition roleOf (tb : Testbed) (i : nat) : string := if decide (i < length (tb_Duts tb)) then RoleDUT else RoleATE.

(** The attributes that a device, or a port, of the testbed requires. *)
Definition node_requires (td : TDevice) (role : string) (attrs : attributes) : Prop :=
  attrs !! RoleAttr = Some role /\
  (td_HardwareModel td <> "" -> attrs !! HWAttr = Some (td_HardwareModel td)) /\
  (td_SoftwareVersion td <> "" -> attrs !! SWAttr = Some (td_SoftwareVersion td)).
Definition port_requires (tp : TPort) (attrs : attributes) : Prop :=
  (tport_Speed tp <> SPEED_UNSPECIFIED -> attrs !! SpeedAttr = Some (speedString (tport_Speed tp))) /\
  (tport_Pmd tp <> PMD_UNSPECIFIED -> attrs !! PMDAttr = Some (pmdString (tport_Pmd tp))).

#[global] Instance node_requires_dec td role attrs : Decision (node_requires td role attrs).
Proof. unfold node_requires. apply _. Defined.
#[global] Instance port_requires_dec tp attrs : Decision (port_requires tp attrs).
Proof. unfold port_requires. apply _. Defined.
End Requirements.

Section Spec.
Context `{PG : PortGraph}.

(** The graph has a node per device and a port per port, which require the
    attributes of the testbed, and an edge per link. *)
Record abstracts (tb : Testbed) (g : AbstractGraph AbsNode AbsPort) (n2d : gmap AbsNode nat) (p2d : gmap AbsPort (nat * nat)) : Prop := {
  abs_device : forall i td, tbDevices tb !! i = Some td ->
    exists n, n ∈ ag_Nodes g /\ n2d !! n = Some i /\
      (forall attrs, ag_NodeOK g n attrs = true -> node_requires td (roleOf tb i) attrs) /\
      forall j tp, td_Ports td !! j = Some tp ->
        exists q, q ∈ ag_Ports g n /\ p2d !! q = Some (i, j) /\
          forall attrs, ag_PortOK g q attrs = true -> port_requires tp attrs;
  abs_node_inj : forall n n' i, n2d !! n = Some i -> n2d !! n' = Some i -> n = n';
  abs_port_inj : forall q q' x, p2d !! q = Some x -> p2d !! q' = Some x -> q = q';
  abs_link : forall l, l ∈ tb_Links tb -> exists p q x y, (p, q) ∈ ag_Edges g /\
    p2d !! p = Some x /\ p2d !! q = Some y /\ tbQual tb x = Some (link_A l) /\ tbQual tb y = Some (link_B l);
}.

(** An assignment takes nodes and ports injectively to nodes and their ports that
    have the attributes, and edges to edges of either direction. *)
Record solves (g : AbstractGraph AbsNode AbsPort) (cg : ConcreteGraph)
    (n2n : gmap AbsNode nat) (p2p : gmap AbsPort (nat * nat)) : Prop := {
  sol_node : forall n, n ∈ ag_Nodes g -> exists c cn, n2n !! n = Some c /\ cg_Nodes cg !! c = Some cn /\
    ag_NodeOK g n (cn_Attrs cn) = true /\
    forall q, q ∈ ag_Ports g n -> exists k cp, p2p !! q = Some (c, k) /\ cn_Ports cn !! k = Some cp /\
      ag_PortOK g q (cp_Attrs cp) = true;
  sol_node_inj : forall n n' c, n2n !! n = Some c -> n2n !! n' = Some c -> n = n';
  sol_port_inj : forall q q' x, p2p !! q = Some x -> p2p !! q' = Some x -> q = q';
  sol_edge : forall p q, (p, q) ∈ ag_Edges g -> exists e x y, e ∈ cg_Edges cg /\
    p2p !! p = Some x /\ p2p !! q = Some y /\
    ((ce_Src e = x /\ ce_Dst e = y) \/ (ce_Src e = y /\ ce_Dst e = x));
}.

Class PortGraphLaws := {
  attrs_distinct : NoDup [NameAttr; SpeedAttr; PMDAttr; RoleAttr; HWAttr; SWAttr];
  roles_distinct : RoleDUT <> RoleATE;
  #[global] speedString_inj :: Inj (=) (=) speedString;
  #[global] pmdString_inj :: Inj (=) (=) pmdString;
  TestbedToAbstractGraph_law : forall tb,
    (exists e, TestbedToAbstractGraph tb = Fail e) \/
    exists g n2d p2d, TestbedToAbstractGraph tb = Ret (g, n2d, p2d) /\ abstracts tb g n2d p2d;
  Solve_law : forall g cg,
    (exists e, Solve g cg = Fail e) \/ exists n2n p2p, Solve g cg = Ret (n2n, p2p) /\ solves g cg n2n p2p;
}.
End Spec.
Arguments PortGraphLaws : clear implicits.

(** ** What a reservation must satisfy *)

Definition devicesOf (r : BindingPb) : list Device := pb_Duts r ++ pb_Ates r.
Definition bindQual (r : BindingPb) (x : nat * nat) : option string :=
  d ← devicesOf r !! x.1; ap ← dev_Ports d !! x.2; Some (qualName d ap).

Definition device_matches (td : TDevice) (bd : Device) : Prop :=
  (td_HardwareModel td <> "" -> dev_HardwareModel bd = td_HardwareModel td) /\
  (td_SoftwareVersion td <> "" -> dev_SoftwareVersion bd = td_SoftwareVersion td).
Definition port_matches (tp : TPort) (bp : Port) : Prop :=
  (tport_Speed tp <> SPEED_UNSPECIFIED -> port_Speed bp = tport_Speed tp) /\
  (tport_Pmd tp <> PMD_UNSPECIFIED -> port_Pmd bp = tport_Pmd tp).

Definition dimsOf (bd : Device) (ports : gmap string BPort) : Dims :=
  {| dims_Name := dev_Name bd; dims_Vendor := dev_Vendor bd; dims_HardwareModel := dev_HardwareModel bd;
     dims_SoftwareVersion := dev_SoftwareVersion bd; dims_Ports := ports |}.

(** The entry of the device at position [i] of the testbed. *)
Definition reserved (resv : Reservation) (tb : Testbed) (i : nat) (td : TDevice) (bd : Device) (ports : gmap string BPort) : Prop :=
  if decide (i < length (tb_Duts tb)) then DUTs resv !! td_Id td = Some (mkDUT (dimsOf bd ports) bd)
  else ATEs resv !! td_Id td = Some (mkATE (dimsOf bd ports) bd).

(** [dev] and [port] assign the devices and ports of the testbed to those of the binding. *)
Record realises (tb : Testbed) (r : BindingPb) (resv : Reservation) (dev : nat -> nat) (port : nat * nat -> nat) : Prop := {
  re_device : forall i td, tbDevices tb !! i = Some td -> exists bd ports,
    devicesOf r !! dev i = Some bd /\
    (i < length (tb_Duts tb) <-> dev i < length (pb_Duts r)) /\
    device_matches td bd /\ reserved resv tb i td bd ports /\
    forall j tp, td_Ports td !! j = Some tp -> exists bp, dev_Ports bd !! port (i, j) = Some bp /\
      ports !! tport_Id tp = Some (portOf bp) /\ port_matches tp bp;
  re_device_inj : forall i i', i < length (tbDevices tb) -> i' < length (tbDevices tb) -> dev i = dev i' -> i = i';
  re_port_inj : forall i j j', is_Some (tbQual tb (i, j)) -> is_Some (tbQual tb (i, j')) ->
    port (i, j) = port (i, j') -> j = j';
  re_link : forall l, l ∈ tb_Links tb -> exists x y bl,
    tbQual tb x = Some (link_A l) /\ tbQual tb y = Some (link_B l) /\ bl ∈ pb_Links r /\
    let a := bindQual r (dev x.1, port x) in let b := bindQual r (dev y.1, port y) in
    ((a = Some (link_A bl) /\ b = Some (link_B bl)) \/ (a = Some (link_B bl) /\ b = Some (link_A bl)));
}.

(** * The concrete graph *)

Section Graph.
Context `{PG : PortGraph}.

Definition concreteNode (dr : Device * string) : ConcreteNode :=
  {| cn_Desc := dev_Name dr.1; cn_Ports := concretePort <$> dev_Ports dr.1; cn_Attrs := nodeAttrs dr.1 dr.2 |}.

(** Ports are found by their qualified name; a later port of the same name wins. *)
Definition named (l : list (Device * string)) (x : nat * nat) (s : string) : Prop :=
  exists dr ap, l !! x.1 = Some dr /\ dev_Ports dr.1 !! x.2 = Some ap /\ s = qualName dr.1 ap.

Record graph_of (l : list (Device * string)) (st : graphState) : Prop := {
  go_nodes : gs_Nodes st = concreteNode <$> l;
  go_devices : forall i, conNode2Dev st !! i = fst <$> l !! i;
  go_ports : forall i j, conPort2BindPort st !! (i, j) = (l !! i ≫= fun dr => dev_Ports dr.1 !! j);
  go_named : forall s x, qualName2Port st !! s = Some x -> named l x s;
  go_known : forall s x, named l x s -> is_Some (qualName2Port st !! s);
}.

Lemma lookup_snoc_ne {A} (l : list A) (x : A) i : i <> length l -> (l ++ [x]) !! i = l !! i.
Proof.
  intros Hi. destruct (decide (i < length l)); [by apply lookup_app_l|].
  rewrite !lookup_ge_None_2; [done|lia|rewrite length_app; simpl; lia].
Qed.

Lemma addPorts_spec i dev aps qual p2b : exists qual' p2b',
  foldl (addPort i dev) ([], qual, p2b) aps = (concretePort <$> aps, qual', p2b') /\
  (forall x, p2b' !! x = if decide (x.1 = i) then match aps !! x.2 with Some ap => Some ap | None => p2b !! x end else p2b !! x) /\
  (forall s x, qual' !! s = Some x -> qual !! s = Some x \/
     exists ap, x.1 = i /\ aps !! x.2 = Some ap /\ s = qualName dev ap) /\
  (forall s, is_Some (qual !! s) \/ (exists ap, ap ∈ aps /\ s = qualName dev ap) -> is_Some (qual' !! s)).
Proof.
  induction aps as [|ap aps IH] using rev_ind.
  - exists qual, p2b. split_and!; [done|intros x; by case_decide|by left|].
    intros s [Hs|(ap & Hin & _)]; [done|]. by apply elem_of_nil in Hin.
  - destruct IH as (q & p & E & Hp & Hq & Hk). rewrite foldl_snoc, E. cbn [addPort].
    eexists _, _. rewrite length_fmap, fmap_app. split_and!; [done| | |].
    + intros [a b]. destruct (decide ((i, length aps) = (a, b))) as [[= <- <-]|Hne].
      * rewrite lookup_insert_eq, decide_True by done. simpl. by rewrite list_lookup_middle.
      * rewrite lookup_insert_ne, Hp by done. simpl. case_decide as Ha; [|done]. subst a.
        assert (b <> length aps) by congruence.
        by rewrite lookup_snoc_ne.
    + intros s x. rewrite lookup_insert_Some. intros [[<- <-]|[_ [H|(a & H1 & H2 & H3)]%Hq]]; [|by left|].
      * right. exists ap. simpl. by rewrite list_lookup_middle.
      * right. exists a. split_and!; [done| |done]. by apply lookup_app_l_Some.
    + intros s H. rewrite lookup_insert_is_Some. destruct (decide (qualName dev ap = s)); [by left|right]. split; [done|].
      apply Hk. destruct H as [H|(a & [Ha|Ha]%elem_of_app & ->)]; [by left|right; eauto|].
      apply list_elem_of_singleton in Ha. by subst.
Qed.

Lemma graph_spec l : graph_of l (foldl addDevice noGraph l).
Proof.
  induction l as [|[dev role] l [IHn IHd IHp IHq IHk]] using rev_ind.
  { split; [done..|]. intros s [i j] (dr & ap & H & _). by rewrite lookup_nil in H. }
  rewrite foldl_snoc. set (st := foldl addDevice noGraph l) in *. unfold addDevice. rewrite IHn, length_fmap.
  destruct (addPorts_spec (length l) dev (dev_Ports dev) (qualName2Port st) (conPort2BindPort st))
    as (q & p & -> & Hp & Hq & Hk).
  split; cbn [gs_Nodes conNode2Dev conPort2BindPort qualName2Port].
  - by rewrite fmap_app.
  - intros i. destruct (decide (i = length l)) as [->|Hi]; [by rewrite lookup_insert_eq, list_lookup_middle|].
    rewrite lookup_insert_ne, IHd by done. by rewrite lookup_snoc_ne.
  - intros i j. rewrite Hp, IHp. simpl. case_decide as Hi; [|by rewrite lookup_snoc_ne].
    subst i. rewrite list_lookup_middle by done. simpl. rewrite (lookup_ge_None_2 l) by lia. by destruct (dev_Ports dev !! j).
  - intros s x [(dr & ap & H1 & H2 & H3)%IHq|(ap & H1 & H2 & H3)]%Hq.
    + exists dr, ap. split_and!; [by apply lookup_app_l_Some|done..].
    + exists (dev, role), ap. rewrite H1, list_lookup_middle by done. done.
  - intros s x (dr & ap & H1 & H2 & ->). apply Hk. destruct (decide (x.1 = length l)) as [Hx|Hx].
    + right. rewrite Hx, list_lookup_middle in H1 by done. injection H1 as <-. exists ap. split; [|done]. by eapply list_elem_of_lookup_2.
    + left. apply (IHk _ x). exists dr, ap. rewrite lookup_snoc_ne in H1 by done. done.
Qed.

(** The ends of an edge have the names of the link; an error names one that nothing has. *)
Definition edge_of (l : list (Device * string)) (link : Link) (e : ConcreteEdge) : Prop :=
  named l (ce_Src e) (link_A link) /\ named l (ce_Dst e) (link_B link).
Definition dangling (l : list (Device * string)) (link : Link) : Prop :=
  (forall x, ~ named l x (link_A link)) \/ (forall x, ~ named l x (link_B link)).

Lemma addLinks_spec l qual links :
  (forall s x, qual !! s = Some x -> named l x s) ->
  (forall s x, named l x s -> is_Some (qual !! s)) ->
  match mapM (addLink qual) links with
  | Ret es => Forall2 (edge_of l) links es
  | Fail _ => exists link, link ∈ links /\ dangling l link
  | _ => False
  end.
Proof.
  intros Hq Hk.
  assert (forall s, qual !! s = None -> forall x, ~ named l x s) as Hnone.
  { intros s Hs x Hx. destruct (Hk _ _ Hx) as [y Hy]. congruence. }
  assert (forall link, match addLink qual link with Ret e => edge_of l link e | Fail _ => dangling l link | _ => False end) as H1.
  { intros link. unfold addLink, edge_of, dangling.
    destruct (qual !! link_A link) eqn:Ea; [|eauto]. destruct (qual !! link_B link) eqn:Eb; [|eauto]. split; eauto. }
  induction links as [|link links IH]; [by constructor|]. cbn [mapM]. specialize (H1 link).
  destruct (addLink qual link) as [e|e| |]; [|by exists link; split; [left|]|done..].
  cbn. destruct (mapM _ links) as [es|e'| |]; [by constructor| |done..].
  destruct IH as (l' & Hl & H). exists l'. split; [by right|done].
Qed.

(** The graph of a binding: a node per device and an edge per link, whose ends
    have the names that the link gives; an unknown name is the only error. *)
Lemma protoToConcreteGraph_spec r :
  match protoToConcreteGraph r with
  | Ret (cg, n2d, p2p) =>
      cg_Nodes cg = concreteNode <$> bindDevices r /\
      (forall i, n2d !! i = fst <$> bindDevices r !! i) /\
      (forall i j, p2p !! (i, j) = (bindDevices r !! i ≫= fun dr => dev_Ports dr.1 !! j)) /\
      Forall2 (edge_of (bindDevices r)) (pb_Links r) (cg_Edges cg)
  | Fail _ => exists link, link ∈ pb_Links r /\ dangling (bindDevices r) link
  | _ => False
  end.
Proof.
  unfold protoToConcreteGraph. destruct (graph_spec (bindDevices r)) as [Hn Hd Hp Hq Hk].
  set (st := foldl addDevice noGraph (bindDevices r)) in *.
  pose proof (addLinks_spec _ _ (pb_Links r) Hq Hk) as H.
  destruct (mapM _ _) as [es|e| |]; [|exact H..]. simpl. by split_and!.
Qed.
End Graph.

(** * Reservations *)

(** A loop that stores a result per element under its key. *)
Lemma foldM_inserts {A V} (key : A -> string) (f : A -> go V) (l : list A) (m : gmap string V) :
  (forall x, x ∈ l -> exists v, f x = Ret v) -> NoDup (key <$> l) ->
  exists m', foldM (fun m x => v ← f x; Ret (<[key x := v]> m)) m l = Ret m' /\
    (forall x v, x ∈ l -> f x = Ret v -> m' !! key x = Some v) /\
    (forall k, k ∉ key <$> l -> m' !! k = m !! k).
Proof.
  revert m. induction l as [|x l IH]; intros m Hf Hnd.
  { exists m. split_and!; [done|by intros ? ? ?%elem_of_nil|done]. }
  apply NoDup_cons in Hnd as [Hx Hnd]. destruct (Hf x) as [v Hv]; [by left|].
  destruct (IH (<[key x := v]> m)) as (m' & E & Hin & Hout); [intros y Hy; apply Hf; by right|done|].
  exists m'. cbn [foldM]. rewrite Hv. split_and!; [exact E| |].
  - intros y w [->|Hy]%elem_of_cons Hw; [|by apply Hin]. rewrite Hout by done. rewrite lookup_insert_eq. congruence.
  - intros k Hk. rewrite fmap_cons, not_elem_of_cons in Hk. destruct Hk as [Hk1 Hk2]. rewrite Hout by done.
    by rewrite lookup_insert_ne.
Qed.

(** The maps that translate an assignment: an element is found under its image. *)
Definition remap {K I V} `{Countable I} (f : K -> option I) (g : K -> option V) (l : list K) : gmap (option I) (option V) :=
  foldl (fun m n => <[f n := g n]> m) ∅ l.

Lemma remap_lookup {K I V} `{Countable I, EqDecision K} (f : K -> option I) (g : K -> option V) l n i :
  n ∈ l -> f n = Some i -> (forall n', f n' = Some i -> n' = n) -> mjoin (remap f g l !! Some i) = g n.
Proof.
  unfold remap. intros Hn Hf Hinj. induction l as [|x l IH] using rev_ind; [by apply elem_of_nil in Hn|].
  rewrite foldl_snoc. destruct (decide (f x = Some i)) as [E|E].
  - rewrite <- E at 1. rewrite lookup_insert_eq. simpl. by rewrite (Hinj x E).
  - rewrite lookup_insert_ne by done. apply IH.
    apply elem_of_app in Hn as [Hn| ->%list_elem_of_singleton]; [done|by destruct E].
Qed.

Lemma numberedFrom_lookup {A} n (l : list A) i x : l !! i = Some x -> (n + i, x) ∈ numberedFrom n l.
Proof.
  intros H. apply (list_elem_of_lookup_2 _ i), lookup_zip_with_Some. exists (n + i), x. split_and!; [done| |done].
  apply lookup_seq. split; [done|]. by eapply lookup_lt_Some.
Qed.
Lemma numberedFrom_elem {A} n (l : list A) k x : (k, x) ∈ numberedFrom n l -> exists i, k = n + i /\ l !! i = Some x.
Proof.
  intros [i H]%list_elem_of_lookup_1. apply lookup_zip_with_Some in H as (a & b & [= -> ->] & [-> _]%lookup_seq & Hx). eauto.
Qed.
Lemma numberedFrom_keys {A B} (f : A -> B) n (l : list A) : (fun p => f p.2) <$> numberedFrom n l = f <$> l.
Proof.
  change (fun p : nat * A => f p.2) with (f ∘ (@snd nat A)). rewrite list_fmap_compose. unfold numberedFrom.
  rewrite snd_zip; [done|]. by rewrite length_seq.
Qed.

Section Attributes.
Context `{PG : PortGraph} {PL : PortGraphLaws PG}.

Lemma attr_ne set k k' v m : k <> k' -> attr set k v m !! k' = m !! k'.
Proof. intros. unfold attr. destruct set; [by rewrite lookup_insert_ne|done]. Qed.
Lemma attr_eq set k v m : attr set k v m !! k = if set then Some v else m !! k.
Proof. unfold attr. destruct set; [by rewrite lookup_insert_eq|done]. Qed.

Ltac attrs :=
  pose proof attrs_distinct as Hnd; rewrite ?NoDup_cons, ?not_elem_of_cons in Hnd; destruct_and! Hnd;
  rewrite ?attr_eq; repeat (rewrite attr_ne by congruence; rewrite ?attr_eq).

Lemma node_requires_matches td role d role' :
  node_requires td role (nodeAttrs d role') -> role' = role /\ device_matches td d.
Proof.
  unfold node_requires, device_matches, nodeAttrs. attrs.
  rewrite lookup_singleton_eq, !lookup_singleton_ne by congruence. intros ([= ->] & Hhw & Hsw).
  split_and!; [done|intros Hw; specialize (Hhw Hw); clear Hsw|intros Hw; specialize (Hsw Hw); clear Hhw];
    by case_match; simplify_eq.
Qed.

Lemma port_requires_matches tp ap : port_requires tp (cp_Attrs (concretePort ap)) -> port_matches tp ap.
Proof.
  unfold port_requires, port_matches, concretePort. cbn [cp_Attrs]. attrs.
  rewrite !lookup_empty. intros (Hs & Hp).
  split; [intros Hw; specialize (Hs Hw); clear Hp|intros Hw; specialize (Hp Hw); clear Hs]; by case_match; simplify_eq.
Qed.

Lemma devicesOf_bindDevices r : devicesOf r = fst <$> bindDevices r.
Proof. unfold devicesOf, bindDevices. rewrite fmap_app, <- !list_fmap_compose. by f_equal; rewrite list_fmap_id. Qed.

Lemma bindDevices_role r c bd tb i :
  bindDevices r !! c = Some (bd, roleOf tb i) -> (i < length (tb_Duts tb) <-> c < length (pb_Duts r)).
Proof.
  unfold bindDevices, roleOf. pose proof roles_distinct as Hr. rewrite lookup_app_Some, length_fmap, !list_lookup_fmap.
  intros [(d & Hd & [= -> E])%fmap_Some|[Hc (d & Hd & [= -> E])%fmap_Some]]; case_decide; try congruence.
  - split; [intros _; by eapply lookup_lt_Some|done].
  - split; [done|lia].
Qed.
End Attributes.

(** ** From an assignment to a reservation *)

Section Assigned.
Context `{PG : PortGraph} {PL : PortGraphLaws PG}.
Variable order : forall K V (E : EqDecision K) (C : Countable K), gmap K V -> list K.
Hypothesis order_keys : forall K V E C (m : gmap K V) k, k ∈ order K V E C m <-> is_Some (m !! k).
Variables (tb : Testbed) (r : BindingPb) (g : AbstractGraph AbsNode AbsPort) (cg : ConcreteGraph).
Variables (n2d : gmap AbsNode nat) (p2d : gmap AbsPort (nat * nat)).
Variables (n2n : gmap AbsNode nat) (p2p : gmap AbsPort (nat * nat)).
Variables (conDev : gmap nat Device) (conPort : gmap (nat * nat) Port).
Hypothesis Habs : abstracts tb g n2d p2d.
Hypothesis Hsol : solves g cg n2n p2p.
Hypothesis Hnodes : cg_Nodes cg = concreteNode <$> bindDevices r.
Hypothesis HconDev : forall i, conDev !! i = fst <$> bindDevices r !! i.
Hypothesis HconPort : forall i j, conPort !! (i, j) = (bindDevices r !! i ≫= fun dr => dev_Ports dr.1 !! j).
Hypothesis Hedges : Forall2 (edge_of (bindDevices r)) (pb_Links r) (cg_Edges cg).

(** The assignment on the positions of the testbed. *)
Definition devAt (i : nat) : nat := default 0 (mjoin (remap (n2d !!.) (n2n !!.) (order _ _ _ _ n2n) !! Some i)).
Definition portAt (x : nat * nat) : nat :=
  snd (default (0, 0) (mjoin (remap (p2d !!.) (p2p !!.) (order _ _ _ _ p2p) !! Some x))).
Definition tbDev : gmap (option nat) (option Device) :=
  remap (n2d !!.) (fun n => n2n !! n ≫= fun c => conDev !! c) (order _ _ _ _ n2n).
Definition tbPort : gmap (option (nat * nat)) (option Port) :=
  remap (p2d !!.) (fun q => p2p !! q ≫= fun c => conPort !! c) (order _ _ _ _ p2p).

Lemma node_found n i c :
  n2d !! n = Some i -> n2n !! n = Some c -> devAt i = c /\ mjoin (tbDev !! Some i) = conDev !! c.
Proof.
  intros Hd Hc. assert (n ∈ order _ _ _ _ n2n) as Hin by (apply order_keys; eauto).
  assert (forall n', n2d !! n' = Some i -> n' = n) as Hinj by (intros n' Hn'; by eapply abs_node_inj).
  unfold devAt, tbDev. rewrite !(remap_lookup _ _ _ n i Hin Hd Hinj), Hc. done.
Qed.
Lemma port_found q x c k :
  p2d !! q = Some x -> p2p !! q = Some (c, k) -> portAt x = k /\ mjoin (tbPort !! Some x) = conPort !! (c, k).
Proof.
  intros Hd Hc. assert (q ∈ order _ _ _ _ p2p) as Hin by (apply order_keys; eauto).
  assert (forall q', p2d !! q' = Some x -> q' = q) as Hinj by (intros q' Hq'; by eapply abs_port_inj).
  unfold portAt, tbPort. rewrite !(remap_lookup _ _ _ q x Hin Hd Hinj), Hc. done.
Qed.

(** A device of the testbed is assigned to a device of its role that matches it,
    and its ports to ports of that device. *)
Lemma device_assigned i td : tbDevices tb !! i = Some td -> exists bd,
  bindDevices r !! devAt i = Some (bd, roleOf tb i) /\ mjoin (tbDev !! Some i) = Some bd /\ device_matches td bd /\
  (exists n, n2d !! n = Some i /\ n2n !! n = Some (devAt i)) /\
  forall j tp, td_Ports td !! j = Some tp -> exists bp q,
    dev_Ports bd !! portAt (i, j) = Some bp /\ mjoin (tbPort !! Some (i, j)) = Some bp /\ port_matches tp bp /\
    p2d !! q = Some (i, j) /\ p2p !! q = Some (devAt i, portAt (i, j)).
Proof.
  intros (n & Hn & Hni & Hok & Hports)%(abs_device _ _ _ _ Habs).
  destruct (sol_node _ _ _ _ Hsol n Hn) as (c & cn & Hc & Hcn & Hacc & Hsp).
  destruct (node_found n i c Hni Hc) as [-> Hdev]. rewrite Hnodes, list_lookup_fmap in Hcn.
  destruct (bindDevices r !! c) as [[bd role]|] eqn:Hbd; [|done]. injection Hcn as <-.
  cbn [cn_Attrs concreteNode fst snd] in Hacc. apply Hok, node_requires_matches in Hacc as [-> Hm]. exists bd. rewrite Hdev, HconDev, Hbd.
  split_and!; [done|done|done|by exists n|]. intros j tp (q & Hq & Hqi & Hpok)%Hports.
  destruct (Hsp q Hq) as (k & cp & Hk & Hcp & Hpacc). destruct (port_found q (i, j) c k Hqi Hk) as [-> Hport].
  cbn [cn_Ports concreteNode fst] in Hcp. rewrite list_lookup_fmap in Hcp.
  destruct (dev_Ports bd !! k) as [bp|] eqn:Hbp; [|done]. injection Hcp as <-. apply Hpok, port_requires_matches in Hpacc.
  exists bp, q. rewrite Hport, HconPort, Hbd. by split_and!.
Qed.

Lemma dynDims_assigned i td bd : tbDevices tb !! i = Some td -> NoDup (tport_Id <$> td_Ports td) ->
  exists ports, dynDims i td (Some bd) tbPort = Ret (dimsOf bd ports) /\
    forall j tp bp, td_Ports td !! j = Some tp -> mjoin (tbPort !! Some (i, j)) = Some bp ->
      ports !! tport_Id tp = Some (portOf bp).
Proof.
  intros Hi Hnd. destruct (device_assigned i td Hi) as (bd' & _ & _ & _ & _ & Hports).
  destruct (foldM_inserts (fun jp => tport_Id jp.2) (dynPort i tbPort) (numberedFrom 0 (td_Ports td)) ∅)
    as (ports & E & Hin & _).
  - intros [j tp] (j' & -> & Hj)%numberedFrom_elem. destruct (Hports j' tp Hj) as (bp & q & _ & Hbp & _).
    unfold dynPort. simpl. rewrite Hbp. eauto.
  - by rewrite numberedFrom_keys.
  - exists ports. unfold dynDims. rewrite E. split; [done|]. intros j tp bp Hj Hbp.
    apply (Hin (j, tp)); [by apply (numberedFrom_lookup 0)|]. unfold dynPort. simpl. by rewrite Hbp.
Qed.

Lemma dynDevice_assigned {A} (mk : Dims -> Device -> A) i td :
  tbDevices tb !! i = Some td -> NoDup (tport_Id <$> td_Ports td) -> exists bd ports,
  dynDevice mk tbDev tbPort (i, td) = Ret (mk (dimsOf bd ports) bd) /\
  bindDevices r !! devAt i = Some (bd, roleOf tb i) /\ device_matches td bd /\
  forall j tp, td_Ports td !! j = Some tp -> exists bp, dev_Ports bd !! portAt (i, j) = Some bp /\
    ports !! tport_Id tp = Some (portOf bp) /\ port_matches tp bp.
Proof.
  intros Hi Hnd. destruct (device_assigned i td Hi) as (bd & Hbd & Hdev & Hm & _ & Hports).
  destruct (dynDims_assigned i td bd Hi Hnd) as (ports & E & Hp). exists bd, ports.
  unfold dynDevice. cbn [fst snd]. rewrite Hdev, E. split_and!; [done..|].
  intros j tp Hj. destruct (Hports j tp Hj) as (bp & q & H1 & H2 & H3 & _). exists bp. eauto.
Qed.

Lemma devAt_inj i i' : i < length (tbDevices tb) -> i' < length (tbDevices tb) -> devAt i = devAt i' -> i = i'.
Proof.
  intros [td Hi]%lookup_lt_is_Some_2 [td' Hi']%lookup_lt_is_Some_2 E.
  destruct (device_assigned i td Hi) as (_ & _ & _ & _ & (n & Hn & Hc) & _).
  destruct (device_assigned i' td' Hi') as (_ & _ & _ & _ & (n' & Hn' & Hc') & _).
  rewrite <- E in Hc'. pose proof (sol_node_inj _ _ _ _ Hsol _ _ _ Hc Hc') as <-. congruence.
Qed.

(** A port with a name is assigned to a port of the device of its device. *)
Lemma named_assigned x s : tbQual tb x = Some s -> exists q,
  p2d !! q = Some x /\ p2p !! q = Some (devAt x.1, portAt x).
Proof.
  destruct x as [i j]. unfold tbQual. cbn [fst snd].
  intros (td & Hi & (tp & Hj & _)%bind_Some)%bind_Some.
  destruct (device_assigned i td Hi) as (bd & _ & _ & _ & _ & Hports).
  destruct (Hports j tp Hj) as (_ & q & _ & _ & _ & H). eauto.
Qed.

Lemma portAt_inj i j j' : is_Some (tbQual tb (i, j)) -> is_Some (tbQual tb (i, j')) ->
  portAt (i, j) = portAt (i, j') -> j = j'.
Proof.
  intros [s (q & Hq & Hk)%named_assigned] [s' (q' & Hq' & Hk')%named_assigned] E. cbn [fst] in *.
  rewrite <- E in Hk'. pose proof (sol_port_inj _ _ _ _ Hsol _ _ _ Hk Hk') as <-. congruence.
Qed.

Lemma named_bindQual x s : named (bindDevices r) x s -> bindQual r x = Some s.
Proof.
  intros (dr & ap & H1 & H2 & ->). unfold bindQual. rewrite devicesOf_bindDevices, list_lookup_fmap, H1. simpl.
  by rewrite H2.
Qed.

Lemma link_assigned l : l ∈ tb_Links tb -> exists x y bl,
  tbQual tb x = Some (link_A l) /\ tbQual tb y = Some (link_B l) /\ bl ∈ pb_Links r /\
  let a := bindQual r (devAt x.1, portAt x) in let b := bindQual r (devAt y.1, portAt y) in
  ((a = Some (link_A bl) /\ b = Some (link_B bl)) \/ (a = Some (link_B bl) /\ b = Some (link_A bl))).
Proof.
  intros (p & q & x & y & Hin & Hp & Hq & Hx & Hy)%(abs_link _ _ _ _ Habs).
  destruct (sol_edge _ _ _ _ Hsol p q Hin) as (e & cx & cy & He & Hcx & Hcy & Hends).
  destruct (named_assigned x _ Hx) as (p' & Hp' & Hpx). destruct (named_assigned y _ Hy) as (q' & Hq' & Hqy).
  pose proof (abs_port_inj _ _ _ _ Habs _ _ _ Hp Hp') as <-. pose proof (abs_port_inj _ _ _ _ Habs _ _ _ Hq Hq') as <-.
  rewrite Hcx in Hpx. rewrite Hcy in Hqy. injection Hpx as ->. injection Hqy as ->.
  apply list_elem_of_lookup_1 in He as [k Hk]. destruct (Forall2_lookup_r _ _ _ _ _ Hedges Hk) as (bl & Hbl & Ha & Hb).
  apply named_bindQual in Ha, Hb. exists x, y, bl. split_and!; [done|done|by eapply list_elem_of_lookup_2|].
  destruct Hends as [[E1 E2]|[E1 E2]]; rewrite E1 in Ha; rewrite E2 in Hb; eauto.
Qed.

Hypothesis Hdut_ids : NoDup (td_Id <$> tb_Duts tb).
Hypothesis Hate_ids : NoDup (td_Id <$> tb_Ates tb).
Hypothesis Hport_ids : forall td, td ∈ tbDevices tb -> NoDup (tport_Id <$> td_Ports td).

Lemma loop_assigned {A} (mk : Dims -> Device -> A) n l :
  (forall k td, l !! k = Some td -> tbDevices tb !! (n + k) = Some td) -> NoDup (td_Id <$> l) ->
  exists m : gmap string A, foldM (fun m itd => d ← dynDevice mk tbDev tbPort itd; Ret (<[td_Id itd.2 := d]> m)) ∅ (numberedFrom n l) = Ret m /\
    forall k td v, l !! k = Some td -> dynDevice mk tbDev tbPort (n + k, td) = Ret v -> m !! td_Id td = Some v.
Proof.
  intros Hl Hnd.
  destruct (foldM_inserts (fun itd => td_Id itd.2) (dynDevice mk tbDev tbPort) (numberedFrom n l) ∅) as (m & E & Hin & _).
  - intros [i td] (k & -> & Hk)%numberedFrom_elem. apply Hl in Hk.
    destruct (dynDevice_assigned mk _ td Hk) as (bd & ports & E & _); [|eauto].
    apply Hport_ids. by eapply list_elem_of_lookup_2.
  - by rewrite numberedFrom_keys.
  - exists m. split; [exact E|]. intros k td v Hk Hv. apply (Hin (n + k, td)); [|done]. by apply numberedFrom_lookup.
Qed.

Lemma assignment_realises uuid : exists resv,
  assignmentToReservation order (n2n, p2p) uuid tb n2d conDev p2d conPort = Ret resv /\
  realises tb r resv devAt portAt.
Proof.
  destruct (loop_assigned mkDUT 0 (tb_Duts tb)) as (duts & Ed & Hd); [|done|].
  { intros k td Hk. by apply lookup_app_l_Some. }
  destruct (loop_assigned mkATE (length (tb_Duts tb)) (tb_Ates tb)) as (ates & Ea & Ha); [|done|].
  { intros k td Hk. unfold tbDevices. rewrite lookup_app_r by lia. by rewrite Nat.add_comm, Nat.add_sub. }
  eexists. split.
  { unfold assignmentToReservation. change (foldl _ ∅ (order _ _ _ _ n2n)) with tbDev.
    change (foldl _ ∅ (order _ _ _ _ p2p)) with tbPort. rewrite Ed. cbn. rewrite Ea. reflexivity. }
  split; [|exact devAt_inj|exact portAt_inj|exact link_assigned]. intros i td Hi.
  assert (NoDup (tport_Id <$> td_Ports td)) as Hnd by (apply Hport_ids; by eapply list_elem_of_lookup_2).
  assert (exists bd ports, bindDevices r !! devAt i = Some (bd, roleOf tb i) /\ device_matches td bd /\
    reserved {| resv_ID := uuid; DUTs := duts; ATEs := ates |} tb i td bd ports /\
    forall j tp, td_Ports td !! j = Some tp -> exists bp, dev_Ports bd !! portAt (i, j) = Some bp /\
      ports !! tport_Id tp = Some (portOf bp) /\ port_matches tp bp) as (bd & ports & Hbd & Hm & Hres & Hp).
  { unfold reserved. case_decide as Hlt.
    - destruct (dynDevice_assigned mkDUT i td Hi Hnd) as (bd & ports & E & H). exists bd, ports.
      unfold tbDevices in Hi. rewrite lookup_app_l in Hi by done. pose proof (Hd i td _ Hi E). naive_solver.
    - destruct (dynDevice_assigned mkATE i td Hi Hnd) as (bd & ports & E & H). exists bd, ports.
      unfold tbDevices in Hi. rewrite lookup_app_r in Hi by lia.
      replace i with (length (tb_Duts tb) + (i - length (tb_Duts tb))) in E by lia.
      pose proof (Ha _ td _ Hi E). naive_solver. }
  exists bd, ports. rewrite devicesOf_bindDevices, list_lookup_fmap, Hbd.
  split_and!; [done| |done..]. by eapply bindDevices_role.
Qed.
End Assigned.

(** C40: a dynamic reservation assigns the devices of the testbed injectively to
    devices of the binding file with the same role and the hardware and software
    that the testbed asks for, their ports to different ports of these devices with
    the speed and PMD asked for, and takes linked ports to ports that the file
    links; the only errors are those of the testbed's graph, a link of the file with
    an unknown end, and a graph without solution.  It never dereferences nil. *)
Theorem dynamicReservation_realises `{PG : PortGraph} {PL : PortGraphLaws PG}
    (order : forall K V (E : EqDecision K) (C : Countable K), gmap K V -> list K) uuid r tb :
  (forall K V E C (m : gmap K V) k, k ∈ order K V E C m <-> is_Some (m !! k)) ->
  NoDup (td_Id <$> tb_Duts tb) -> NoDup (td_Id <$> tb_Ates tb) ->
  (forall td, td ∈ tbDevices tb -> NoDup (tport_Id <$> td_Ports td)) ->
  match dynamicReservation order uuid r tb with
  | Ret resv => exists dev port, realises tb r resv dev port
  | Fail _ =>
      (exists e, TestbedToAbstractGraph tb = Fail e) \/
      (exists l, l ∈ pb_Links r /\ dangling (bindDevices r) l) \/
      (exists g n2d p2d cg cn cp e, TestbedToAbstractGraph tb = Ret (g, n2d, p2d) /\
         protoToConcreteGraph r = Ret (cg, cn, cp) /\ Solve g cg = Fail e)
  | _ => False
  end.
Proof.
  intros Hord Hduts Hates Hports. unfold dynamicReservation.
  destruct (TestbedToAbstractGraph_law tb) as [[e ->]|(g & n2d & p2d & ET & Habs)]; [left; eauto|].
  rewrite ET. cbn [wrap mbind outcome_bind]. pose proof (protoToConcreteGraph_spec r) as HG.
  destruct (protoToConcreteGraph r) as [[[cg conDev] conPort]|e| |]; [|right; left; exact HG|done..].
  destruct HG as (Hn & Hd & Hp & He). cbn [wrap mbind outcome_bind].
  destruct (Solve_law g cg) as [[e ES]|(n2n & p2p & ES & Hsol)]; rewrite ES; cbn [wrap mbind outcome_bind].
  - right. right. by exists g, n2d, p2d, cg, conDev, conPort, e.
  - destruct (assignment_realises order Hord tb r g cg n2d p2d n2n p2p conDev conPort Habs Hsol Hn Hd Hp He
      Hduts Hates Hports uuid) as (resv & E & H). rewrite E. cbn [wrap]. eauto.
Qed.

(** * A reference Ondatra

    Nodes and ports of the abstract graph are the positions of the testbed; the
    solver tries every assignment. *)

Fixpoint product {A} (ls : list (list A)) : list (list A) :=
  match ls with
  | [] => [[]]
  | l :: ls => x ← l; (cons x) <$> product ls
  end.

Definition diag {K} `{Countable K} (l : list K) : gmap K K := list_to_map ((fun x => (x, x)) <$> l).

Lemma diag_lookup {K} `{Countable K} (l : list K) k v : diag l !! k = Some v <-> k = v /\ k ∈ l.
Proof.
  unfold diag. induction l as [|x l IH]; [simpl; rewrite lookup_empty, elem_of_nil; naive_solver|].
  simpl. rewrite lookup_insert_Some, IH, elem_of_cons. destruct (decide (x = k)); naive_solver.
Qed.

Lemma values_inj {K V} `{Countable K} (m : gmap K V) k k' v :
  NoDup (map_to_list m).*2 -> m !! k = Some v -> m !! k' = Some v -> k = k'.
Proof.
  intros Hnd [a Ha]%elem_of_map_to_list%list_elem_of_lookup_1 [b Hb]%elem_of_map_to_list%list_elem_of_lookup_1.
  assert (a = b) as -> by (eapply (NoDup_lookup _ _ _ v Hnd); rewrite list_lookup_fmap; [by rewrite Ha|by rewrite Hb]).
  congruence.
Qed.

#[global] Instance referenceNames : AttrNames := {|
  NameAttr := "name"; SpeedAttr := "speed"; PMDAttr := "pmd"; RoleAttr := "role"; HWAttr := "hw"; SWAttr := "sw";
  RoleDUT := "DUT"; RoleATE := "ATE"; speedString := pretty; pmdString := pretty |}.

Definition positions (tb : Testbed) : list (nat * nat) :=
  itd ← numberedFrom 0 (tbDevices tb); (itd.1,.) <$> seq 0 (length (td_Ports itd.2)).

Definition findPort (tb : Testbed) (s : string) : option (nat * nat) :=
  head (filter (fun x => tbQual tb x = Some s) (positions tb)).

Definition findLink (tb : Testbed) (l : Link) : go ((nat * nat) * (nat * nat)) :=
  match findPort tb (link_A l), findPort tb (link_B l) with
  | Some p, Some q => Ret (p, q)
  | _, _ => Fail (errors_New "unknown port")
  end.

Abbreviation graph := (AbstractGraph nat (nat * nat)).

Definition valid (g : graph) (cg : ConcreteGraph) (a : gmap nat nat * gmap (nat * nat) (nat * nat)) : bool :=
  let portOK cn c q := match a.2 !! q with
    | Some (c', k) => bool_decide (c' = c) && match cn_Ports cn !! k with Some cp => ag_PortOK g q (cp_Attrs cp) | None => false end
    | None => false end in
  let nodeOK n := match a.1 !! n with
    | Some c => match cg_Nodes cg !! c with
        | Some cn => ag_NodeOK g n (cn_Attrs cn) && forallb (portOK cn c) (ag_Ports g n)
        | None => false end
    | None => false end in
  let joins e pq := match a.2 !! pq.1, a.2 !! pq.2 with
    | Some x, Some y => bool_decide ((ce_Src e = x /\ ce_Dst e = y) \/ (ce_Src e = y /\ ce_Dst e = x))
    | _, _ => false end in
  forallb nodeOK (ag_Nodes g) && forallb (fun pq => existsb (fun e => joins e pq) (cg_Edges cg)) (ag_Edges g) &&
  bool_decide (NoDup (map_to_list a.1).*2) && bool_decide (NoDup (map_to_list a.2).*2).

Definition candidates (g : graph) (cg : ConcreteGraph) : list (gmap nat nat * gmap (nat * nat) (nat * nat)) :=
  cs ← product ((fun _ => seq 0 (length (cg_Nodes cg))) <$> ag_Nodes g);
  let nodes := zip (ag_Nodes g) cs in
  let ports := nc ← nodes; (fun q => (q, nc.2)) <$> ag_Ports g nc.1 in
  let choices := (fun qc => match cg_Nodes cg !! qc.2 with
    | Some cn => (fun k => (qc.1, (qc.2, k))) <$> seq 0 (length (cn_Ports cn))
    | None => [] end) <$> ports in
  (fun ps => (list_to_map nodes, list_to_map ps)) <$> product choices.

Definition search (g : graph) (cg : ConcreteGraph) : go (gmap nat nat * gmap (nat * nat) (nat * nat)) :=
  match List.find (valid g cg) (candidates g cg) with
  | Some a => Ret a
  | None => Fail (errors_New "no solution")
  end.

Definition testbedGraph (tb : Testbed) : go (graph * gmap nat nat * gmap (nat * nat) (nat * nat)) :=
  edges ← mapM (findLink tb) (tb_Links tb);
  Ret ({| ag_Nodes := seq 0 (length (tbDevices tb));
          ag_Ports := fun i => filter (fun x => x.1 = i) (positions tb);
          ag_NodeOK := fun i attrs => match tbDevices tb !! i with
            | Some td => bool_decide (node_requires td (roleOf tb i) attrs) | None => false end;
          ag_PortOK := fun x attrs => match tbDevices tb !! x.1 ≫= fun td => td_Ports td !! x.2 with
            | Some tp => bool_decide (port_requires tp attrs) | None => false end;
          ag_Edges := edges |}, diag (seq 0 (length (tbDevices tb))), diag (positions tb)).

#[global] Instance referenceOndatra : PortGraph := {|
  pg_names := referenceNames; AbsNode := nat; AbsPort := nat * nat;
  TestbedToAbstractGraph := testbedGraph; Solve := search |}.

Lemma positions_elem tb i td j tp : tbDevices tb !! i = Some td -> td_Ports td !! j = Some tp -> (i, j) ∈ positions tb.
Proof.
  intros Hi Hj. unfold positions. apply list_elem_of_bind. exists (i, td). split; [|by apply (numberedFrom_lookup 0)].
  apply list_elem_of_fmap. exists j. split; [done|]. apply elem_of_seq. split; [lia|]. by eapply lookup_lt_Some.
Qed.

Lemma findPort_spec tb s x : findPort tb s = Some x -> x ∈ positions tb /\ tbQual tb x = Some s.
Proof.
  unfold findPort. intros H. assert (x ∈ filter (fun x => tbQual tb x = Some s) (positions tb)) as Hx.
  { destruct (filter _ _); [done|]. injection H as ->. by left. }
  apply list_elem_of_filter in Hx. tauto.
Qed.

(** The edge of a link joins the ports that the link names. *)
Definition joins_link (tb : Testbed) (l : Link) (e : (nat * nat) * (nat * nat)) : Prop :=
  e.1 ∈ positions tb /\ e.2 ∈ positions tb /\ tbQual tb e.1 = Some (link_A l) /\ tbQual tb e.2 = Some (link_B l).

Lemma findLinks_spec tb ls :
  match mapM (findLink tb) ls with
  | Ret es => forall l, l ∈ ls -> exists e, e ∈ es /\ joins_link tb l e
  | Fail _ => True
  | _ => False
  end.
Proof.
  assert (forall l, match findLink tb l with Ret e => joins_link tb l e | Fail _ => True | _ => False end) as H1.
  { intros l. unfold findLink, joins_link. destruct (findPort tb (link_A l)) eqn:Ep; [|done].
    destruct (findPort tb (link_B l)) eqn:Eq; [|done]. apply findPort_spec in Ep, Eq. cbn. tauto. }
  induction ls as [|l ls IH]; [by intros ? ?%elem_of_nil|]. cbn [mapM]. specialize (H1 l).
  destruct (findLink tb l) as [e|e| |]; [|done..]. cbn. destruct (mapM (findLink tb) ls) as [es|e'| |]; [|done..]. cbn.
  intros l' [->|Hl]%elem_of_cons; [exists e; split; [by left|done]|].
  destruct (IH l' Hl) as (e' & H & H'). exists e'. split; [by right|done].
Qed.

Lemma testbedGraph_law tb :
  (exists e, testbedGraph tb = Fail e) \/
  exists g n2d p2d, testbedGraph tb = Ret (g, n2d, p2d) /\ abstracts tb g n2d p2d.
Proof.
  unfold testbedGraph. pose proof (findLinks_spec tb (tb_Links tb)) as HL.
  destruct (mapM _ _) as [es|e| |]; [|by left; exists e|done..]. right. eexists _, _, _. split; [reflexivity|]. split.
  - intros i td Hi. exists i. assert (i ∈ seq 0 (length (tbDevices tb))) as Hin.
    { apply elem_of_seq. split; [lia|]. by eapply lookup_lt_Some. }
    cbn [ag_Nodes ag_Ports ag_NodeOK ag_PortOK]. split_and!; [done|by apply diag_lookup| |].
    { intros attrs. rewrite Hi. apply bool_decide_eq_true_1. }
    intros j tp Hj. pose proof (positions_elem tb i td j tp Hi Hj) as Hp. exists (i, j). split_and!.
    + by apply list_elem_of_filter.
    + by apply diag_lookup.
    + intros attrs. cbn [fst snd]. rewrite Hi. cbn. rewrite Hj. apply bool_decide_eq_true_1.
  - intros n n' i [-> _]%diag_lookup [-> _]%diag_lookup. done.
  - intros q q' x [-> _]%diag_lookup [-> _]%diag_lookup. done.
  - intros l ([p q] & Hin & Hp & Hq & Ep & Eq)%HL. exists p, q, p, q. by rewrite !diag_lookup.
Qed.

(** Case analysis on the outermost match of a hypothesis that is then false or true. *)
Ltac case_true H := match type of H with match ?x with _ => _ end = true => destruct x eqn:?; [|discriminate H] end.

Lemma search_law g cg :
  (exists e, search g cg = Fail e) \/ exists n2n p2p, search g cg = Ret (n2n, p2p) /\ solves g cg n2n p2p.
Proof.
  unfold search. destruct (List.find _ _) as [[n2n p2p]|] eqn:E; [|by left; eexists]. right. exists n2n, p2p. split; [done|].
  apply List.find_some in E as [_ E]. unfold valid in E. cbn [fst snd] in E.
  rewrite !andb_true_iff, !bool_decide_eq_true, !forallb_forall in E. destruct E as [[[HN HE] HI] HJ]. split.
  - intros n Hn%list_elem_of_In. specialize (HN n Hn). case_true HN. case_true HN. apply andb_true_iff in HN as [HN HP].
    rewrite forallb_forall in HP. eexists _, _. split_and!; [eassumption..|]. intros q Hq%list_elem_of_In. specialize (HP q Hq).
    case_true HP. case_match. apply andb_true_iff in HP as [->%bool_decide_eq_true HP]. case_true HP.
    by eexists _, _.
  - intros n n' c. by apply values_inj.
  - intros q q' x. by apply values_inj.
  - intros p q Hpq%list_elem_of_In. specialize (HE _ Hpq). apply existsb_exists in HE as (e & He%list_elem_of_In & H).
    cbn [fst snd] in H. case_true H. case_true H.
    apply bool_decide_eq_true in H. by eexists e, _, _.
Qed.

#[global] Instance referenceOndatra_laws : PortGraphLaws referenceOndatra.
Proof.
  split; [|done|apply _|apply _|exact testbedGraph_law|exact search_law].
  apply (bool_decide_unpack _). vm_compute. exact I.
Qed.

(** * Witness *)

Definition sampleDyn (name : string) (ports : list string) (hw : string) : Device :=
  {| dev_Id := ""; dev_Name := name;
     dev_Ports := (fun p => {| port_Id := ""; port_Name := p; port_Speed := 3; port_Pmd := 0 |}) <$> ports;
     dev_Options := None; dev_Config := None; dev_Ssh := None; dev_Gnmi := None; dev_Gnoi := None; dev_Gnsi := None;
     dev_Gribi := None; dev_P4Rt := None; dev_Gnpsi := None; dev_Ixnetwork := None; dev_Otg := None;
     dev_Vendor := 1; dev_HardwareModel := hw; dev_SoftwareVersion := "" |}.
Definition sampleDynBinding : BindingPb :=
  {| pb_Duts := [sampleDyn "r1" ["e0"] "old"; sampleDyn "r2" ["e0"; "e1"] "new"];
     pb_Ates := [sampleDyn "ixia" ["1/1"; "1/2"] ""];
     pb_Options := None; pb_Dynamic := true; pb_Links := [{| link_A := "ixia:1/2"; link_B := "r2:e1" |}] |}.
Definition sampleDynTestbed : Testbed :=
  {| tb_Duts := [{| td_Id := "dut"; td_Ports := [{| tport_Id := "port1"; tport_Speed := 3; tport_Pmd := 0 |}];
                    td_Vendor := 0; td_HardwareModel := "new"; td_SoftwareVersion := "" |}];
     tb_Ates := [{| td_Id := "ate"; td_Ports := [{| tport_Id := "port1"; tport_Speed := 0; tport_Pmd := 0 |}];
                    td_Vendor := 0; td_HardwareModel := ""; td_SoftwareVersion := "" |}];
     tb_Links := [{| link_A := "dut:port1"; link_B := "ate:port1" |}] |}.
Definition keysOf K V (E : EqDecision K) (C : Countable K) (m : gmap K V) : list K := (map_to_list m).*1.

Lemma keysOf_keys K V E C (m : gmap K V) k : k ∈ keysOf K V E C m <-> is_Some (m !! k).
Proof.
  unfold keysOf. rewrite list_elem_of_fmap. split.
  - intros ([k' v] & -> & H%elem_of_map_to_list). eauto.
  - intros [v H]. exists (k, v). by rewrite elem_of_map_to_list.
Qed.

Lemma dynamicReservation_witness :
  exists resv dev port, dynamicReservation keysOf "id" sampleDynBinding sampleDynTestbed = Ret resv /\
    (dims_Name ∘ dut_Dims <$> DUTs resv !! "dut") = Some "r2" /\
    realises sampleDynTestbed sampleDynBinding resv dev port.
Proof.
  pose proof (dynamicReservation_realises keysOf "id" sampleDynBinding sampleDynTestbed keysOf_keys) as H.
  destruct (dynamicReservation keysOf "id" sampleDynBinding sampleDynTestbed) as [resv|e| |] eqn:E;
    [|exfalso; vm_compute in E; discriminate E..].
  destruct H as (dev & port & H).
  - apply NoDup_singleton.
  - apply NoDup_singleton.
  - intros td [->|[->|[]%not_elem_of_nil]%elem_of_cons]%elem_of_cons; apply NoDup_singleton.
  - exists resv, dev, port. split_and!; [reflexivity| |exact H].
    vm_compute in E. injection E as <-. vm_compute. reflexivity.
Defined.
