(* ===== verification/Check.v ===== *)
(** The validators of [internal/check/check.go].  A ygnmi client is what it
    answers: the result of a lookup, and for a watch the values it delivers and
    the error that ends it. *)
From stdpp Require Import base list strings.
From Stdlib Require Import ZArith Lia.
From S2P Require Import Prelude GoStrings.

(** * Errors *)

(** An error of the client: its text, its gRPC status if it has one (whether the
    code is DeadlineExceeded), and whether it wraps context.DeadlineExceeded. *)
Record clientError := { ce_text : string; ce_grpc : option bool; ce_deadline : bool }.

Definition isTimeout (err : option clientError) : bool :=
  match err with
  | None => false
  | Some e =>
      match ce_grpc e with
      | Some deadline => deadline
      | None => ce_deadline e
      end
  end.

Record validationError := {
  ve_query : string; validationErr : option string; failureCause : option clientError;
}.

Definition validationError_Error (f : validationError) : string :=
  if isTimeout (failureCause f) then
    match validationErr f with
    | Some e => ve_query f +:+ ": " +:+ e +:+ " (deadline exceeded)"
    | None => ve_query f +:+ ": deadline exceeded before any values were fetched"
    end
  else
    match failureCause f, validationErr f with
    | Some e, _ => ve_query f +:+ ": " +:+ ce_text e
    | None, Some e => ve_query f +:+ ": " +:+ e
    | None, None => ve_query f +:+ ": unknown error"
    end.

Section Check.
Context {T : Type} `{!EqDecision T}.
(** [fmt.Sprintf] of a value in Go syntax. *)
Variable goSyntax : T -> string.

(** [ygnmi.Value]: a value, or none at the path. *)
Definition Value := option T.

Definition FormatValue (v : Value) : string :=
  match v with None => "no value" | Some x => goSyntax x end.

(** * Clients *)

(** [lookup] is the answer of [ygnmi.Lookup]; [watch] the values [ygnmi.Watch]
    passes to its predicate, and the error [Await] returns if the predicate
    accepts none. *)
Record Client := {
  lookup : sum clientError Value;
  watch : list Value * clientError;
}.

Record validation := { query : string; validationFn : Value -> option string }.

Definition Check (vd : validation) (client : Client) : option validationError :=
  match lookup client with
  | inl err => Some {| ve_query := query vd; validationErr := None; failureCause := Some err |}
  | inr lastVal =>
      match validationFn vd lastVal with
      | Some err => Some {| ve_query := query vd; validationErr := Some err; failureCause := None |}
      | None => None
      end
  end.

(** The watch: the predicate runs on each value and remembers its last answer;
    [None] when it accepts a value. *)
Fixpoint watchAwait (fn : Value -> option string) (lastInvalid : option string) (vs : list Value) :
    option (option string) :=
  match vs with
  | [] => Some lastInvalid
  | v :: vs =>
      match fn v with
      | None => None
      | Some e => watchAwait fn (Some e) vs
      end
  end.

Definition Await (vd : validation) (client : Client) : option validationError :=
  match Check vd client with
  | None => None
  | Some checkErr =>
      match failureCause checkErr with
      | Some _ => Some checkErr
      | None =>
          match watchAwait (validationFn vd) (validationErr checkErr) (fst (watch client)) with
          | None => None
          | Some lastInvalid =>
              Some {| ve_query := query vd; validationErr := lastInvalid; failureCause := Some (snd (watch client)) |}
          end
      end
  end.

Definition AwaitFor (vd : validation) (timeout : Z) (client : Client) : option validationError :=
  if (timeout <=? 0)%Z then Check vd client else Await vd client.

Definition AwaitUntil (vd : validation) (deadline now : Z) (client : Client) : option validationError :=
  if (deadline <? now)%Z then Check vd client else Await vd client.

(** * Validators *)

Definition Validate (q : string) (fn : Value -> option string) : validation := {| query := q; validationFn := fn |}.

Definition Predicate (q wantMsg : string) (predicate : T -> bool) : validation :=
  Validate q (fun vgot =>
    match vgot with
    | Some got => if negb (predicate got) then Some ("got " +:+ FormatValue vgot +:+ ", " +:+ wantMsg) else None
    | None => Some ("got " +:+ FormatValue vgot +:+ ", " +:+ wantMsg)
    end).

Definition Equal (q : string) (want : T) : validation :=
  Predicate q ("want " +:+ goSyntax want) (fun got => bool_decide (got = want)).
Definition NotEqual (q : string) (wantNot : T) : validation :=
  Predicate q ("want anything but " +:+ goSyntax wantNot) (fun got => negb (bool_decide (got = wantNot))).
Definition EqualOrNil (q : string) (want : T) : validation :=
  Validate q (fun vgot =>
    match vgot with
    | Some got => if negb (bool_decide (got = want))
                  then Some ("got " +:+ FormatValue vgot +:+ ", want " +:+ goSyntax want +:+ " or no value") else None
    | None => None
    end).
Definition Present (q : string) : validation := Predicate q "want any value" (fun _ => true).
Definition NotPresent (q : string) : validation :=
  Validate q (fun vgot =>
    match vgot with
    | Some _ => Some ("got " +:+ FormatValue vgot +:+ ", want no value")
    | None => None
    end).

(** * Properties *)

(** The values the validator accepts. *)
Definition accepts (vd : validation) (v : Value) : Prop := validationFn vd v = None.

Lemma watchAwait_spec fn e0 vs :
  match watchAwait fn (Some e0) vs with
  | None => Exists (fun v => fn v = None) vs
  | Some e => Forall (fun v => fn v <> None) vs /\ e = foldl (fun _ v => fn v) (Some e0) vs
  end.
Proof.
  revert e0. induction vs as [|v vs IH]; intros e0; simpl; [done|].
  destruct (fn v) as [e|] eqn:E; [|by constructor].
  specialize (IH e). destruct (watchAwait fn (Some e) vs).
  - destruct IH as [IH ->]. split; [|done]. constructor; [by rewrite E|done].
  - by constructor.
Qed.
End Check.

(** [Await] succeeds exactly when the value that is there is accepted, or
    one that the watch delivers is; it fetches a value whatever the state of
    the context, gives up at once if that fails, and otherwise reports the
    error that ended the watch together with the objection to the last value. *)
Theorem Await_spec {T} (vd : validation (T := T)) (client : Client (T := T)) :
  match Await vd client with
  | None => exists v, lookup client = inr v /\ (accepts vd v \/ Exists (accepts vd) (fst (watch client)))
  | Some err =>
      ve_query err = query vd /\
      match lookup client with
      | inl e => failureCause err = Some e /\ validationErr err = None
      | inr v => ~ accepts vd v /\ Forall (fun v => ~ accepts vd v) (fst (watch client)) /\
                 failureCause err = Some (snd (watch client)) /\
                 validationErr err = foldl (fun _ v => validationFn vd v) (validationFn vd v) (fst (watch client))
      end
  end.
Proof.
  unfold Await, Check, accepts. destruct (lookup client) as [e|v]; simpl; [done|].
  destruct (validationFn vd v) as [e|] eqn:E; simpl; [|by exists v; auto].
  pose proof (watchAwait_spec (validationFn vd) e (fst (watch client))) as H.
  destruct (watchAwait _ _ _) as [last|]; simpl.
  - destruct H as [H ->]. by split_and!.
  - exists v. auto.
Qed.

(** A plain check, and a wait with no time left, accept exactly the values
    the validator is named after. *)
Theorem validators_accept {T} `{EqDecision T} (goSyntax : T -> string) q (x : T) (v : Value) e :
  let client := {| lookup := inr v; watch := ([], e) |} in
  (Check (Equal goSyntax q x) client = None <-> v = Some x) /\
  (Check (NotEqual goSyntax q x) client = None <-> exists y, v = Some y /\ y <> x) /\
  (Check (EqualOrNil goSyntax q x) client = None <-> v = None \/ v = Some x) /\
  (Check (Present goSyntax q) client = None <-> v <> None) /\
  (Check (NotPresent goSyntax q) client = None <-> v = None) /\
  (forall vd t now, (t <= 0)%Z -> (t < now)%Z ->
     AwaitFor vd t client = Check vd client /\ AwaitUntil vd t now client = Check vd client).
Proof.
  intros client. unfold Check, client. simpl. split_and!.
  - destruct v as [y|]; simpl; try case_bool_decide; simpl; naive_solver.
  - destruct v as [y|]; simpl; try case_bool_decide; simpl; naive_solver.
  - destruct v as [y|]; simpl; try case_bool_decide; simpl; naive_solver.
  - destruct v; simpl; naive_solver.
  - destruct v; simpl; naive_solver.
  - intros vd t now Ht Hn. unfold AwaitFor, AwaitUntil. by rewrite (proj2 (Z.leb_le _ _)), (proj2 (Z.ltb_lt _ _)).
Qed.
