(* ===== verification/CiData.v ===== *)
(** The CI trigger [tools/ci-trigger], data and pure parts: device types and
    keywords ([config.go]), which functional tests a pull request modifies
    ([git.go], [pr.go]), the description of each test and its badge
    ([pr.go], [badge.go]) and the source archive ([cloudbuild.go]).

    A checkout is a tree of directories, files and symbolic links.  go-git,
    prototext and the protobuf enumeration of vendors are parameters. *)
From stdpp Require Import base list gmap strings pretty.
From Stdlib Require Import ZArith Lia Ascii.
From S2P Require Import Prelude GoStrings.

(** * Device types *)

(** The values of [opb.Device_Vendor] that [config.go] uses. *)
Inductive Vendor := ARISTA | CISCO | JUNIPER | NOKIA | OPENCONFIG.
#[export] Instance Vendor_eq_dec : EqDecision Vendor.
Proof. solve_decision. Defined.
#[export] Instance Vendor_countable : Countable Vendor.
Proof.
  refine (inj_countable'
    (fun v => match v with ARISTA => 0 | CISCO => 1 | JUNIPER => 2 | NOKIA => 3 | OPENCONFIG => 4 end)
    (fun n => match n with 0 => ARISTA | 1 => CISCO | 2 => JUNIPER | 3 => NOKIA | _ => OPENCONFIG end) _).
  by intros [].
Defined.

(** The generated [String] method of the enumeration: names are distinct
    identifiers without blanks, underscores and dots. *)
Class VendorNames := Vendor_String : Vendor -> string.
Class VendorLaws `{VendorNames} := {
  Vendor_String_inj v w : Vendor_String v = Vendor_String w -> v = w;
  Vendor_String_chars v c : c ∈ String.list_ascii_of_string (Vendor_String v) ->
    c <> " "%char /\ c <> "_"%char /\ c <> "."%char;
}.

Record deviceType := { dt_Vendor : Vendor; HardwareModel : string }.
#[export] Instance deviceType_eq_dec : EqDecision deviceType.
Proof. solve_decision. Defined.
#[export] Instance deviceType_countable : Countable deviceType.
Proof.
  refine (inj_countable' (fun d => (dt_Vendor d, HardwareModel d))
            (fun p => {| dt_Vendor := p.1; HardwareModel := p.2 |}) _).
  by intros [].
Defined.

Definition dt (v : Vendor) (m : string) : deviceType := {| dt_Vendor := v; HardwareModel := m |}.

Definition githubProjectOwner := "openconfig".
Definition githubProjectRepo := "featureprofiles".
Definition githubBotName := "OpenConfigBot".
Definition gcpProjectID := "disco-idea-817".
Definition gcpCloudBuildBucketName := gcpProjectID +:+ "_cloudbuild".
Definition gcpBucket := "featureprofiles-ci".
Definition gcpBucketPrefix := "badges".
Definition gcpCloudBuildServiceAccount := "fp-kne-cloudbuild@disco-idea-817.iam.gserviceaccount.com".

Definition authorizedTeams : list string := ["featureprofiles-writers"].

Definition virtualDeviceTypes : list deviceType :=
  [dt ARISTA "cEOS"; dt CISCO "8000E"; dt CISCO "XRd"; dt JUNIPER "ncPTX"; dt NOKIA "SR Linux";
   dt OPENCONFIG "Lemming"].

Definition physicalDeviceTypes : list deviceType :=
  [dt ARISTA ""; dt CISCO ""; dt JUNIPER ""; dt NOKIA ""].

Definition triggerKeywords : list (string * list deviceType) :=
  [("/fptest all",
     [dt ARISTA "cEOS"; dt CISCO "8000E"; dt CISCO "XRd"; dt JUNIPER "ncPTX"; dt NOKIA "SR Linux";
      dt OPENCONFIG "Lemming"]);
   ("/fptest physical", [dt ARISTA ""; dt CISCO ""; dt JUNIPER ""; dt NOKIA ""]);
   ("/fptest virtual",
     [dt ARISTA "cEOS"; dt CISCO "8000E"; dt CISCO "XRd"; dt JUNIPER "ncPTX"; dt NOKIA "SR Linux";
      dt OPENCONFIG "Lemming"]);
   ("/fptest arista-physical", [dt ARISTA ""]);
   ("/fptest cisco-physical", [dt CISCO ""]);
   ("/fptest juniper-physical", [dt JUNIPER ""]);
   ("/fptest nokia-physical", [dt NOKIA ""]);
   ("/fptest arista-ceos", [dt ARISTA "cEOS"]);
   ("/fptest cisco-8000e", [dt CISCO "8000E"]);
   ("/fptest cisco-xrd", [dt CISCO "XRd"]);
   ("/fptest juniper-ncptx", [dt JUNIPER "ncPTX"]);
   ("/fptest nokia-srl", [dt NOKIA "SR Linux"]);
   ("/fptest openconfig-lemming", [dt OPENCONFIG "Lemming"]);
   ("/fptest ceos", [dt ARISTA "cEOS"]);
   ("/fptest 8000e", [dt CISCO "8000E"]);
   ("/fptest xrd", [dt CISCO "XRd"]);
   ("/fptest srl", [dt NOKIA "SR Linux"]);
   ("/fptest lemming", [dt OPENCONFIG "Lemming"])].

Definition virtualDeviceMachineType : gmap deviceType string :=
  list_to_map
    [(dt ARISTA "cEOS", "e2-standard-16"); (dt CISCO "8000E", "n2-standard-32");
     (dt CISCO "XRd", "e2-standard-16"); (dt JUNIPER "ncPTX", "e2-standard-16");
     (dt NOKIA "SR Linux", "e2-standard-16"); (dt OPENCONFIG "Lemming", "e2-standard-16")].

(** * Tests, devices, pull requests *)

Record functionalTest := {
  ft_Name : string;
  ft_Description : string;
  ft_Path : string;
  DocURL : string;
  TestURL : string;
  Status : string;
  BadgePath : string;
  BadgeURL : string;
}.
Definition set_Status (st : string) (t : functionalTest) : functionalTest :=
  {| ft_Name := ft_Name t; ft_Description := ft_Description t; ft_Path := ft_Path t; DocURL := DocURL t;
     TestURL := TestURL t; Status := st; BadgePath := BadgePath t; BadgeURL := BadgeURL t |}.

Record device := {
  d_Type : deviceType;
  CloudBuildID : string;
  CloudBuildLogURL : string;
  CloudBuildRawLogURL : string;
  ArchivePath : string;
  Tests : list functionalTest;
}.
Definition newDevice (d : deviceType) (ts : list functionalTest) : device :=
  {| d_Type := d; CloudBuildID := ""; CloudBuildLogURL := ""; CloudBuildRawLogURL := ""; ArchivePath := "";
     Tests := ts |}.

#[export] Instance functionalTest_eq_dec : EqDecision functionalTest.
Proof. solve_decision. Defined.
#[export] Instance device_eq_dec : EqDecision device.
Proof. solve_decision. Defined.

(** * The checkout *)

(** [io/fs]: a symbolic link carries its target and what reading through it
    gives.  Entries of a directory are in the order of [fs.ReadDir]. *)
Inductive node :=
| NFile (data : string)
| NDir (entries : list (string * node))
| NLink (target : string) (through : go string).

Fixpoint entry (w : string) (es : list (string * node)) : option node :=
  match es with
  | [] => None
  | (v, n) :: es => if String.eqb v w then Some n else entry w es
  end.
Fixpoint lookupNode (n : node) (path : list string) : option node :=
  match path with
  | [] => Some n
  | w :: ws =>
      match n with
      | NDir es => match entry w es with Some c => lookupNode c ws | None => None end
      | _ => None
      end
  end.
Definition ReadFile (f : node) (path : string) : go string :=
  match lookupNode f (split_on "/"%char path) with
  | Some (NFile data) => Ret data
  | Some (NLink _ through) => through
  | Some (NDir _) => Fail (errors_New "is a directory")
  | None => Fail (Errorf "no such file" [ErrOSNotExist])
  end.

(** [fs.WalkDir]: path, name and node of everything below a root, the root
    included; [path.Join] with the root ["."] drops it. *)
Definition joinName (path w : string) : string :=
  if String.eqb path "." then w else path +:+ "/" +:+ w.
Fixpoint WalkDir (path name : string) (n : node) : list (string * string * node) :=
  (path, name, n) ::
  match n with
  | NDir es =>
      (fix go es := match es with
                    | [] => []
                    | (w, c) :: es => WalkDir (joinName path w) w c ++ go es
                    end) es
  | _ => []
  end.
Definition IsDir (n : node) : bool := match n with NDir _ => true | _ => false end.

(** ** functionalTestPaths *)

(** Without a directory [feature] the callback is called with a nil entry, which
    it dereferences. *)
Definition functionalTestPaths (f : node) : go (list string) :=
  match lookupNode f ["feature"] with
  | None => Panic
  | Some n =>
      Ret (foldl (fun testDirs '(path, name, d) =>
                    if negb (IsDir d) && String.eqb name "metadata.textproto" then testDirs ++ [Dir path]
                    else testDirs) [] (WalkDir "feature" "feature" n))
  end.

(** ** modifiedFunctionalTests *)

(** The set the code builds; the slice it returns lists it in the order of a map
    iteration. *)
Definition modifiedSet (functionalTests modifiedFiles : list string) : gset string :=
  foldl (fun fts ft =>
           foldl (fun fts mf => if HasPrefix mf ft then {[ft]} ∪ fts else fts) fts modifiedFiles)
        ∅ functionalTests.

Definition modifiedFunctionalTests (order : gset string -> list string)
    (functionalTests modifiedFiles : list string) : list string :=
  order (modifiedSet functionalTests modifiedFiles).

(** ** createTGZArchive *)

Inductive tarEntry :=
| TDir (name : string)
| TFile (name data : string)
| TLink (name target : string).

(** The entries written to the archive; [readLinkFS] tells whether the file
    system can read links. *)
Definition tarEntries (readLinkFS : bool) (f : node) : list tarEntry :=
  foldl (fun acc '(path, name, n) =>
           if String.eqb path "." then acc
           else match n with
                | NDir _ => acc ++ [TDir path]
                | NFile data => acc ++ [TFile path data]
                | NLink target _ => if readLinkFS then acc ++ [TLink path target] else acc
                end) [] (WalkDir "." "." f).

(** * git.go *)

(** go-git: cloning, fetching and checking out change a repository; a checkout
    yields the working tree. *)
Class Git := {
  Repo : Type;
  Hash : Type;
  Commit : Type;
  PlainClone : string -> go Repo;
  CreateRemote : Repo -> string -> string -> go Repo;
  Fetch : Repo -> string -> go Repo;
  Worktree : Repo -> go unit;
  Checkout : Repo -> Hash -> go node;
  NewHash : string -> Hash;
  HashString : Hash -> string;
  ResolveRevision : Repo -> string -> go Hash;
  CommitObject : Repo -> Hash -> go Commit;
  CommitHash : Commit -> Hash;
  MergeBase : Commit -> Commit -> go (list Commit);
  FilePatches : Commit -> Commit -> go (list (option string * option string));
}.

(** [prototext] applied to the [PlanId] and [Description] of [mpb.Metadata]. *)
Class MetadataText := unmarshalMetadata : string -> go (string * string).

Section Git.
Context `{G : Git}.

Definition setupGitClone (remoteURL head : string) : go (Repo * node) :=
  repo ← PlainClone ("https://github.com/" +:+ githubProjectOwner +:+ "/" +:+ githubProjectRepo +:+ ".git");
  repo ← CreateRemote repo "pr" remoteURL;
  repo ← Fetch repo "pr";
  _ ← Worktree repo;
  tree ← Checkout repo (NewHash head);
  Ret (repo, tree).

Definition wrapf (msg : string) {A} (m : go A) : go A :=
  match m with Fail e => Fail (Errorf msg (err_wraps e)) | _ => m end.

Definition mergeBase (repo : Repo) (head base : string) : go string :=
  hashes ← mapM (fun rev => wrapf "could not parse revision" (ResolveRevision repo rev)) [head; base];
  commits ← mapM (fun h => wrapf "could not find commit" (CommitObject repo h)) hashes;
  match commits with
  | c0 :: c1 :: _ =>
      res ← wrapf "could not traverse the repository history" (MergeBase c0 c1);
      match res with
      | [] => Fail (errors_New "no common git ancestor found for hash")
      | c :: _ => Ret (HashString (CommitHash c))
      end
  | _ => Panic
  end.

Definition modifiedFiles (repo : Repo) (head : string) : go (list string) :=
  headCommit ← CommitObject repo (NewHash head);
  base ← mergeBase repo head "origin/main";
  baseCommit ← CommitObject repo (NewHash base);
  patch ← FilePatches baseCommit headCommit;
  Ret (foldl (fun result '(from, to) =>
                let result := match from with Some p => result ++ [p] | None => result end in
                match to with Some p => result ++ [p] | None => result end) [] patch).
End Git.

(** * Badges *)

(** [base64.RawURLEncoding.EncodeToString]: six bits, the highest first, select a
    character of the alphabet. *)
Definition alphabet := "ABCDEFGHIJKLMNOPQRSTUVWXYZabcdefghijklmnopqrstuvwxyz0123456789-_".
Definition sextet : Type := bool * bool * bool * bool * bool * bool.
Definition sextet_val (x : sextet) : nat :=
  let '(a, b, c, d, e, f) := x in
  32 * Nat.b2n a + 16 * Nat.b2n b + 8 * Nat.b2n c + 4 * Nat.b2n d + 2 * Nat.b2n e + Nat.b2n f.
Definition b64 (x : sextet) : ascii := default "A"%char (String.get (sextet_val x) alphabet).

Fixpoint EncodeToString (s : string) : string :=
  match s with
  | EmptyString => EmptyString
  | String (Ascii a0 a1 a2 a3 a4 a5 a6 a7) s =>
      String (b64 (a7, a6, a5, a4, a3, a2))
        match s with
        | EmptyString => String (b64 (a1, a0, false, false, false, false)) EmptyString
        | String (Ascii b0 b1 b2 b3 b4 b5 b6 b7) s =>
            String (b64 (a1, a0, b7, b6, b5, b4))
              match s with
              | EmptyString => String (b64 (b3, b2, b1, b0, false, false)) EmptyString
              | String (Ascii c0 c1 c2 c3 c4 c5 c6 c7) s =>
                  String (b64 (b3, b2, b1, b0, c7, c6)) (String (b64 (c5, c4, c3, c2, c1, c0)) (EncodeToString s))
              end
        end
  end.

Example EncodeToString_ex : EncodeToString "feature/x>" = "ZmVhdHVyZS94Pg".
Proof. reflexivity. Qed.

(** [svgBadge]: the values the template is executed with. *)
Record badge := {
  bg_Color : string;
  bg_Label : string;
  bg_LabelAnchor : Z;
  bg_LabelWidth : Z;
  bg_Message : string;
  bg_MessageAnchor : Z;
  bg_MessageWidth : Z;
  bg_Width : Z;
}.
Definition estimateStringWidth (s : string) : Z := 10 + 7 * Z.of_nat (String.length s).
Definition svgBadge (label message : string) : badge :=
  let lbl := ToLower label in
  let msg := ToLower message in
  let lw := estimateStringWidth lbl in
  let lw := if (lw <? 80)%Z then 80%Z else lw in
  let mw := estimateStringWidth msg in
  let mw := if (mw <? 200)%Z then 200%Z else mw in
  {| bg_Color := if String.eqb msg "success" then "#4C1"
                 else if String.eqb msg "failure" then "#E05D44" else "#9F9F9F";
     bg_Label := lbl;
     bg_LabelAnchor := lw / 2;
     bg_LabelWidth := lw;
     bg_Message := msg;
     bg_MessageAnchor := lw + mw / 2;
     bg_MessageWidth := mw;
     bg_Width := lw + mw |}.

(** * populateTestDetail *)

Section Detail.
Context `{VendorNames} `{MetadataText}.

Definition deviceType_String (d : deviceType) : string := Vendor_String (dt_Vendor d) +:+ " " +:+ HardwareModel d.

Definition deviceName (d : deviceType) : string := ReplaceAllByte (deviceType_String d) " "%char "_".

Definition badgePath (ID : Z) (HeadSHA ft : string) (d : deviceType) : string :=
  gcpBucketPrefix +:+ "/" +:+ Itoa ID +:+ "/" +:+ HeadSHA +:+ "/" +:+ EncodeToString ft +:+ "." +:+
  deviceName d +:+ ".svg".

Definition repoURL (HeadSHA ft : string) : string :=
  "https://github.com/" +:+ githubProjectOwner +:+ "/" +:+ githubProjectRepo +:+ "/blob/" +:+ HeadSHA +:+ "/" +:+ ft.

Definition newTest (ID : Z) (HeadSHA ft : string) (md : string * string) (d : deviceType) : functionalTest :=
  {| ft_Name := md.1; ft_Description := md.2; ft_Path := ft;
     DocURL := repoURL HeadSHA ft +:+ "/README.md";
     TestURL := repoURL HeadSHA ft;
     BadgeURL := "https://storage.googleapis.com/" +:+ gcpBucket +:+ "/" +:+ badgePath ID HeadSHA ft d;
     BadgePath := badgePath ID HeadSHA ft d;
     Status := "pending authorization" |}.

Definition readDetail (f : node) (ft : string) : go (string * string) :=
  data ← ReadFile f (ft +:+ "/metadata.textproto");
  wrapf "unmarshal" (unmarshalMetadata data).

(** One iteration of the loop over the tests. *)
Definition detailStep (ID : Z) (HeadSHA : string) (f : node) (tests : gmap deviceType (list functionalTest))
    (ft : string) : go (gmap deviceType (list functionalTest)) :=
  if Contains ft "ate_tests" then Ret tests
  else
    md ← readDetail f ft;
    Ret (foldl (fun tests d => <[d := default [] (tests !! d) ++ [newTest ID HeadSHA ft md d]]> tests)
               tests (virtualDeviceTypes ++ physicalDeviceTypes)).

Definition devicesOf (tests : gmap deviceType (list functionalTest)) (types : list deviceType)
    (devices : list device) : list device :=
  foldl (fun ds d => match tests !! d with Some ts => ds ++ [newDevice d ts] | None => ds end) devices types.

(** The devices appended to [p.Virtual] and [p.Physical]. *)
Definition populateTestDetail (ID : Z) (HeadSHA : string) (f : node) (functionalTests : list string)
    (vs ps : list device) : go (list device * list device) :=
  tests ← foldM (detailStep ID HeadSHA f) ∅ functionalTests;
  Ret (devicesOf tests virtualDeviceTypes vs, devicesOf tests physicalDeviceTypes ps).
End Detail.

(** * Lemmas *)

(** ** Which tests are modified *)

Lemma modifiedSet_spec fts mfs ft :
  ft ∈ modifiedSet fts mfs <-> ft ∈ fts /\ exists mf, mf ∈ mfs /\ HasPrefix mf ft = true.
Proof.
  assert (Hin : forall (acc : gset string) x,
    ft ∈ foldl (fun fts mf => if HasPrefix mf x then {[x]} ∪ fts else fts) acc mfs <->
    ft ∈ acc \/ ft = x /\ exists mf, mf ∈ mfs /\ HasPrefix mf ft = true).
  { induction mfs as [|mf mfs IH]; intros acc x; simpl; [set_solver|].
    rewrite IH. setoid_rewrite elem_of_cons. destruct (HasPrefix mf x) eqn:E; [|naive_solver congruence].
    rewrite elem_of_union, elem_of_singleton. naive_solver. }
  assert (Hout : forall acc : gset string,
    ft ∈ foldl (fun fts ft => foldl (fun fts mf => if HasPrefix mf ft then {[ft]} ∪ fts else fts) fts mfs) acc fts
    <-> ft ∈ acc \/ ft ∈ fts /\ exists mf, mf ∈ mfs /\ HasPrefix mf ft = true).
  { induction fts as [|x fts IH]; intros acc; simpl; [rewrite elem_of_nil; naive_solver|].
    rewrite IH, Hin, elem_of_cons. naive_solver. }
  unfold modifiedSet. rewrite Hout, elem_of_empty. naive_solver.
Qed.

(** ** Badge paths *)

Definition all_sextets : list sextet :=
  a ← [false; true]; b ← [false; true]; c ← [false; true];
  d ← [false; true]; e ← [false; true]; f ← [false; true]; [(a, b, c, d, e, f)].
Definition unb64 (c : ascii) : option sextet :=
  snd <$> list_find (fun x => b64 x = c) all_sextets.

Lemma unb64_b64 x : snd <$> list_find (fun y => b64 y = b64 x) all_sextets = Some x.
Proof. destruct x as [[[[[[] []] []] []] []] []]; vm_compute; reflexivity. Qed.

#[export] Instance b64_inj : Inj (=) (=) b64.
Proof. intros x y H. generalize (unb64_b64 x). rewrite H, unb64_b64. congruence. Qed.

Lemma b64_not_dot x : b64 x <> "."%char.
Proof. destruct x as [[[[[[] []] []] []] []] []]; by vm_compute. Qed.

(** Induction three bytes at a time. *)
Lemma string_ind3 (P : string -> Prop) :
  P "" -> (forall a, P (String a "")) -> (forall a b, P (String a (String b ""))) ->
  (forall a b c s, P s -> P (String a (String b (String c s)))) -> forall s, P s.
Proof.
  intros H0 H1 H2 H3. fix IH 1. intros [|a [|b [|c s]]]; [done|auto|auto|].
  apply H3, IH.
Qed.

#[export] Instance EncodeToString_inj : Inj (=) (=) EncodeToString.
Proof.
  intros s. induction s as [|[]|[] []|[] [] [] s IH] using string_ind3;
    intros [|[] [|[] [|[] t]]] H; simpl in H; simplify_eq; try done;
    repeat match goal with H : b64 _ = b64 _ |- _ => apply (inj b64) in H; simplify_eq end;
    try done.
  by rewrite (IH t).
Qed.

Fixpoint str_elem (c : ascii) (s : string) : bool :=
  match s with EmptyString => false | String d s => Ascii.eqb d c || str_elem c s end.

Lemma str_elem_list c s : str_elem c s = true <-> c ∈ String.list_ascii_of_string s.
Proof.
  induction s as [|d s IH]; simpl; [by rewrite elem_of_nil|].
  rewrite orb_true_iff, IH, Ascii.eqb_eq, elem_of_cons. split; intros [->|?]; auto.
Qed.

Lemma EncodeToString_no_dot s : str_elem "."%char (EncodeToString s) = false.
Proof.
  pose proof b64_not_dot as Hd.
  assert (Hb : forall x, Ascii.eqb (b64 x) "."%char = false).
  { intros x. apply Ascii.eqb_neq, Hd. }
  induction s as [|[]|[] []|[] [] [] s IH] using string_ind3; cbn -[b64 Ascii.eqb]; by rewrite ?Hb, ?IH.
Qed.

(** Strings cut at the first occurrence of a character. *)
Lemma str_cut_inj c a a' r r' :
  str_elem c a = false -> str_elem c a' = false ->
  a +:+ String c r = a' +:+ String c r' -> a = a' /\ r = r'.
Proof.
  revert a'. induction a as [|x a IH]; intros [|x' a'] Ha Ha' H; simpl in Ha, Ha'; rewrite ?str_app_cons in H.
  - by injection H.
  - injection H as -> _. by rewrite Ascii.eqb_refl in Ha'.
  - injection H as <- _. by rewrite Ascii.eqb_refl in Ha.
  - injection H as -> H. apply orb_false_iff in Ha as [_ Ha], Ha' as [_ Ha'].
    by destruct (IH a' Ha Ha' H) as [-> ->].
Qed.

Section Paths.
Context `{VL : VendorLaws}.

Lemma ReplaceAllByte_app s t c new : ReplaceAllByte (s +:+ t) c new = ReplaceAllByte s c new +:+ ReplaceAllByte t c new.
Proof.
  induction s as [|x s IH]; [done|]. rewrite str_app_cons. simpl.
  destruct (Ascii.eqb x c); rewrite IH; [by rewrite str_app_assoc|done].
Qed.

Lemma ReplaceAllByte_id s c new : str_elem c s = false -> ReplaceAllByte s c new = s.
Proof.
  induction s as [|x s IH]; simpl; [done|]. intros [-> Hs]%orb_false_iff. by rewrite IH.
Qed.

Lemma Vendor_no_char v c : c = " "%char \/ c = "_"%char -> str_elem c (Vendor_String v) = false.
Proof.
  intros Hc. apply not_true_is_false. rewrite str_elem_list. intros Hin.
  apply Vendor_String_chars in Hin. naive_solver.
Qed.

Lemma deviceName_eq d :
  deviceName d = Vendor_String (dt_Vendor d) +:+ String "_" (ReplaceAllByte (HardwareModel d) " "%char "_").
Proof.
  unfold deviceName, deviceType_String. rewrite !ReplaceAllByte_app.
  rewrite (ReplaceAllByte_id (Vendor_String _)) by (apply Vendor_no_char; auto). done.
Qed.

Definition allDeviceTypes : list deviceType := virtualDeviceTypes ++ physicalDeviceTypes.

Lemma deviceName_inj d1 d2 : d1 ∈ allDeviceTypes -> d2 ∈ allDeviceTypes -> deviceName d1 = deviceName d2 -> d1 = d2.
Proof.
  intros H1 H2. rewrite !deviceName_eq. intros Heq.
  apply str_cut_inj in Heq as [Hv Hm]; [|apply Vendor_no_char; auto..].
  apply Vendor_String_inj in Hv. revert d1 d2 H1 H2 Hv Hm.
  assert (Hall : Forall (fun d1 => Forall (fun d2 => dt_Vendor d1 = dt_Vendor d2 ->
    ReplaceAllByte (HardwareModel d1) " " "_" = ReplaceAllByte (HardwareModel d2) " " "_" -> d1 = d2)
    allDeviceTypes) allDeviceTypes).
  { apply (bool_decide_unpack _). vm_compute. exact I. }
  rewrite Forall_forall in Hall. intros d1 d2 H1 H2. specialize (Hall d1 H1).
  rewrite Forall_forall in Hall. apply (Hall d2 H2).
Qed.

Lemma badgePath_inj ID SHA ft1 ft2 d1 d2 :
  d1 ∈ allDeviceTypes -> d2 ∈ allDeviceTypes ->
  badgePath ID SHA ft1 d1 = badgePath ID SHA ft2 d2 -> ft1 = ft2 /\ d1 = d2.
Proof.
  intros H1 H2 Heq. unfold badgePath in Heq.
  do 6 apply (inj _) in Heq. simpl in Heq.
  apply str_cut_inj in Heq as [Hft Hd]; [|apply EncodeToString_no_dot..].
  apply (inj EncodeToString) in Hft. apply str_app_inj_r, deviceName_inj in Hd; auto.
Qed.
End Paths.

(** ** The tests of a pull request *)

Section DetailLemmas.
Context `{VendorNames} `{MetadataText}.
Variables (ID : Z) (SHA : string) (f : node).

(** The tests that are not ATE tests, with their metadata, in order. *)
Definition described (fts : list string) : go (list (string * (string * string))) :=
  mapM (fun ft => md ← readDetail f ft; Ret (ft, md)) (filter (fun ft => Contains ft "ate_tests" = false) fts).

Definition testsOf (mds : list (string * (string * string))) (d : deviceType) : list functionalTest :=
  (fun x => newTest ID SHA x.1 x.2 d) <$> mds.

(** A device of each type, if there is any test. *)
Definition devicesFor (mds : list (string * (string * string))) (types : list deviceType) : list device :=
  match mds with [] => [] | _ => (fun d => newDevice d (testsOf mds d)) <$> types end.

Definition tableOf (tests : gmap deviceType (list functionalTest)) (mds : list (string * (string * string))) : Prop :=
  forall d, tests !! d = match mds with
                    | [] => None
                    | _ => if decide (d ∈ allDeviceTypes) then Some (testsOf mds d) else None
                    end.

Lemma foldl_update_lookup {K A} `{Countable K} (g : K -> option A -> A) (l : list K) (m : gmap K A) k :
  NoDup l ->
  foldl (fun m x => <[x := g x (m !! x)]> m) m l !! k = if decide (k ∈ l) then Some (g k (m !! k)) else m !! k.
Proof.
  revert m. induction l as [|x l IH]; intros m Hnd; cbn [foldl]; [by rewrite decide_False by apply not_elem_of_nil|].
  apply NoDup_cons in Hnd as [Hx Hnd]. rewrite IH by done.
  destruct (decide (k = x)) as [->|Hk].
  - rewrite decide_False by done. rewrite decide_True by (by left). by rewrite lookup_insert_eq.
  - rewrite lookup_insert_ne by done.
    destruct (decide (k ∈ l)) as [Hl|Hl].
    + by rewrite decide_True by (by right).
    + by rewrite decide_False by (rewrite elem_of_cons; naive_solver).
Qed.

Lemma NoDup_allDeviceTypes : NoDup allDeviceTypes.
Proof. apply (bool_decide_unpack _). vm_compute. exact I. Qed.

Lemma tableOf_step tests mds ft md :
  tableOf tests mds ->
  tableOf (foldl (fun tests d => <[d := default [] (tests !! d) ++ [newTest ID SHA ft md d]]> tests)
             tests allDeviceTypes) (mds ++ [(ft, md)]).
Proof.
  intros Ht d.
  rewrite (foldl_update_lookup (fun d o => default [] o ++ [newTest ID SHA ft md d])) by apply NoDup_allDeviceTypes.
  rewrite Ht. unfold testsOf. rewrite fmap_app. destruct (decide (d ∈ allDeviceTypes)); destruct mds; done.
Qed.

Lemma detailStep_eq tests ft :
  detailStep ID SHA f tests ft =
  if Contains ft "ate_tests" then Ret tests
  else md ← readDetail f ft;
       Ret (foldl (fun tests d => <[d := default [] (tests !! d) ++ [newTest ID SHA ft md d]]> tests)
              tests allDeviceTypes).
Proof. done. Qed.

Lemma detail_fold fts tests mds0 :
  tableOf tests mds0 ->
  match foldM (detailStep ID SHA f) tests fts, described fts with
  | Ret tests', Ret mds => tableOf tests' (mds0 ++ mds)
  | Fail e, Fail e' => e = e'
  | Panic, Panic | NoFuel, NoFuel => True
  | _, _ => False
  end.
Proof.
  revert tests mds0. induction fts as [|ft fts IH]; intros tests mds0 Ht.
  { cbn. by rewrite app_nil_r. }
  unfold described in *. cbn [foldM]. rewrite filter_cons. rewrite detailStep_eq.
  destruct (Contains ft "ate_tests") eqn:Ec.
  { rewrite decide_False by done. exact (IH _ _ Ht). }
  rewrite decide_True by done. cbn [mapM]. destruct (readDetail f ft) as [md|e| |]; [|done..].
  specialize (IH _ _ (tableOf_step tests mds0 ft md Ht)). unfold mbind, outcome_bind in *.
  destruct (foldM _ _ fts) as [t'|e'| |]; destruct (mapM _ _) as [mds|e| |]; try done.
  by rewrite <-app_assoc in IH.
Qed.

Lemma devicesOf_table tests mds types ds :
  tableOf tests mds -> (forall d, d ∈ types -> d ∈ allDeviceTypes) ->
  devicesOf tests types ds = ds ++ devicesFor mds types.
Proof.
  intros Ht. revert ds. unfold devicesOf, devicesFor. induction types as [|d types IH]; intros ds Hin; simpl.
  { destruct mds; by rewrite ?app_nil_r. }
  rewrite IH by (intros; apply Hin; by right).
  rewrite Ht. destruct mds as [|x mds]; [done|].
  rewrite decide_True by (apply Hin; by left). rewrite <-app_assoc. done.
Qed.

Lemma populateTestDetail_eq fts vs ps :
  populateTestDetail ID SHA f fts vs ps =
  (mds ← described fts; Ret (vs ++ devicesFor mds virtualDeviceTypes, ps ++ devicesFor mds physicalDeviceTypes)).
Proof.
  unfold populateTestDetail. pose proof (detail_fold fts ∅ [] ltac:(intros d; by rewrite lookup_empty)) as Hf.
  destruct (foldM _ _ fts) as [tests|e| |]; destruct (described fts) as [mds|e'| |];
    unfold mbind, outcome_bind in *; try done.
  - rewrite app_nil_l in Hf. rewrite !(devicesOf_table tests mds) by (done || (intros d Hd; unfold allDeviceTypes; rewrite elem_of_app; auto)). done.
  - by subst.
Qed.
End DetailLemmas.

(** The modified tests are listed once each; a test is listed exactly when
    some modified path starts with its directory name.  So every test with a
    modified file is listed, but so is a test none of whose files changed, when
    the name of another test continues its own. *)
Theorem modifiedFunctionalTests_spec (order : gset string -> list string) fts mfs :
  (forall m, order m ≡ₚ elements m) ->
  NoDup (modifiedFunctionalTests order fts mfs) /\
  (forall ft, ft ∈ modifiedFunctionalTests order fts mfs <->
     ft ∈ fts /\ exists mf rest, mf ∈ mfs /\ mf = ft +:+ rest) /\
  modifiedFunctionalTests order ["feature/x/test1"; "feature/x/test10"] ["feature/x/test10/y_test.go"] ≡ₚ
    ["feature/x/test1"; "feature/x/test10"].
Proof.
  intros Ho. unfold modifiedFunctionalTests. split; [|split].
  - rewrite Ho. apply NoDup_elements.
  - intros ft. rewrite Ho, elem_of_elements, modifiedSet_spec. setoid_rewrite HasPrefix_spec. naive_solver.
  - rewrite Ho. apply NoDup_Permutation; [apply NoDup_elements|apply (bool_decide_unpack _); vm_compute; exact I|].
    intros x. rewrite elem_of_elements. unfold modifiedSet. simpl. set_solver.
Qed.

Lemma modifiedFunctionalTests_spec_witness :
  NoDup (modifiedFunctionalTests elements ["a"] ["a/b"; "a/c"]).
Proof. apply (modifiedFunctionalTests_spec elements). done. Defined.
