(* ===== verification/CiTrigger.v ===== *)
(** The CI trigger [tools/ci-trigger], effectful parts: launching builds and
    keeping badges ([pr.go], [cloudbuild.go]), the handlers of GitHub events
    ([trigger.go], [main.go]) and of badge updates ([subscription.go]).

    The badge bucket is part of the state, since later events read what earlier
    events wrote.  Every other service is a function of the trace of the calls
    made before ([World]); a call is recorded in the trace.  A handler runs under
    one pull request object that it drops when it returns an error, so the
    functions return the changed object only on success. *)
From stdpp Require Import base list gmap strings pretty.
From Stdlib Require Import ZArith Lia Ascii.
From S2P Require Import Prelude GoStrings CiData.

(** * State *)

(** The answer of the GitHub API on a team membership: its state, an error
    response with its HTTP status, or another error. *)
Inductive membership :=
| MState (state : string)
| MResponse (status : Z)
| MError (e : error).

(** The fields of a [cloudbuild.Build] the code sets; the rest comes from the
    YAML file as it is. *)
Record Build := {
  Substitutions : option (gmap string string);
  LogsBucket : string;
  StorageSource : option (string * string);
  ServiceAccount : string;
  b_rest : string;
}.

Inductive event :=
| ESetup (client : string)
| EMembership (team user : string) (res : membership)
| EGetPR (n : Z)
| EMkdirTemp
| EUUID
| EExec (what : string)
| EUpload (path : string) (data : list tarEntry)
| ESubmit (b : Build)
| EPublish (d : device)
| EAttrs (path : string)
| EWrite (path : string)
| EListComments (n : Z)
| EComment (edits : option Z) (n : Z) (vs ps : list device).

(** A build job or a physical test job is requested. *)
Definition launch (e : event) : bool :=
  match e with ESubmit _ | EPublish _ => true | _ => false end.

Record object := {
  ContentType : string;
  CacheControl : string;
  obj_Metadata : gmap string string;
  obj_badge : badge;
}.

Record state := { st_trace : list event; bucket : gmap string object }.
Abbreviation io := (gost state).

Record uuid := { uuid_hex : string; uuid_text : string }.

Class World := {
  Getenv : string -> string;
  ReadSecret : string -> go string;
  NewClient : list event -> string -> go unit;
  GetTeamMembershipBySlug : list event -> string -> string -> membership;
  GetPullRequest : list event -> Z -> go (string * string);
  MkdirTemp : list event -> go string;
  NewRandom : list event -> go uuid;
  Unix : list event -> Z;
  LookPath : list event -> go string;
  GoModVendor : list event -> node -> go node;
  readLinkFS : bool;
  UploadArchive : list event -> string -> go unit;
  unmarshalBuild : string -> go (option Build);
  CreateCloudBuild : list event -> Build -> go string;
  unmarshalBOM : string -> go (option (string * string));
  Publish : list event -> device -> go string;
  AttrsFails : list event -> string -> option error;
  WriteFails : list event -> string -> option error;
  ListComments : list event -> Z -> go (list (Z * string));
  PostComment : list event -> option Z -> go unit;
  setOrder : list event -> gset string -> list string;
  keywordOrder : list event -> list (string * list deviceType);
}.
(** Go visits every key of a map once. *)
Class WorldLaws `{World} := {
  setOrder_perm tr m : setOrder tr m ≡ₚ elements m;
  keywordOrder_perm tr : keywordOrder tr ≡ₚ triggerKeywords;
}.

Record pullRequest `{Git} := {
  pr_ID : Z;
  HeadSHA : string;
  Virtual : list device;
  Physical : list device;
  cloneURL : string;
  repo : option Repo;
  localFS : node;
  localPath : string;
}.

Section Trigger.
Context `{G : Git} `{VN : VendorNames} `{MT : MetadataText} `{W : World}.

Definition with_devices (vs ps : list device) (p : pullRequest) : pullRequest :=
  {| pr_ID := pr_ID p; HeadSHA := HeadSHA p; Virtual := vs; Physical := ps; cloneURL := cloneURL p;
     repo := repo p; localFS := localFS p; localPath := localPath p |}.
Definition with_tree (r : option Repo) (f : node) (p : pullRequest) : pullRequest :=
  {| pr_ID := pr_ID p; HeadSHA := HeadSHA p; Virtual := Virtual p; Physical := Physical p; cloneURL := cloneURL p;
     repo := r; localFS := f; localPath := localPath p |}.

(** A call of a service: answered from the trace, then recorded. *)
Definition logged (e : event) (s : state) : state :=
  {| st_trace := e :: st_trace s; bucket := bucket s |}.
Definition ask {A} (e : event) (answer : list event -> go A) : io A :=
  fun s => (answer (st_trace s), logged e s).
Definition wrapIO (msg : string) {A} (m : io A) : io A :=
  fun s => let '(r, s) := m s in (wrapf msg r, s).

(** * pr.go *)

Definition createArchive (p : pullRequest) : io string :=
  let data := tarEntries readLinkFS (localFS p) in
  u ← ask EUUID NewRandom;
  s ← getState;
  let objPath := "source/" +:+ Itoa (Unix (st_trace s)) +:+ "-" +:+ uuid_hex u +:+ ".tgz" in
  _ ← ask (EUpload objPath data) (fun tr => UploadArchive tr objPath);
  mret objPath.

Definition fetchGoDeps (p : pullRequest) : io pullRequest :=
  _ ← ask (EExec "go") LookPath;
  f ← wrapIO "vendoring dependencies" (ask (EExec "go mod vendor") (fun tr => GoModVendor tr (localFS p)));
  mret (with_tree (repo p) f p).

Definition lowerName (s : string) : string := ReplaceAllByte (ToLower s) " "%char "".

(** ** cloudbuild.go *)

Definition defaultBuild (f : node) : go (option Build) :=
  buildYAML ← ReadFile f "cloudbuild/virtual.yaml";
  unmarshalBuild buildYAML.

Definition testPaths (ts : list functionalTest) : string :=
  Join ((fun t => ft_Path t +:+ "," +:+ BadgePath t) <$> ts) " ".

(** Assignment to an entry of a nil map panics, as does a nil build. *)
Definition submitBuild (dev : device) (f : node) (objPath : string) : io (string * string) :=
  build ← lift (defaultBuild f);
  match build with
  | None => lift Panic
  | Some build =>
      match Substitutions build with
      | None => lift Panic
      | Some subs =>
          let vendor := lowerName (Vendor_String (dt_Vendor (d_Type dev))) in
          let model := lowerName (HardwareModel (d_Type dev)) in
          let subs := <["_DUT_PLATFORM" := vendor +:+ "_" +:+ model]> subs in
          let subs :=
            match virtualDeviceMachineType !! d_Type dev with
            | Some machineType =>
                let subs := if Contains machineType "n2-standard"
                            then <["_MACHINE_ARGS" := "--enable-nested-virtualization"]> subs else subs in
                <["_MACHINE_TYPE" := machineType]> subs
            | None => subs
            end in
          let subs := <["_DUT_TESTS" := testPaths (Tests dev)]> subs in
          let build :=
            {| Substitutions := Some subs;
               LogsBucket := "gs://featureprofiles-ci-logs-" +:+ vendor;
               StorageSource := Some (gcpCloudBuildBucketName, objPath);
               ServiceAccount := "projects/" +:+ gcpProjectID +:+ "/serviceAccounts/" +:+ gcpCloudBuildServiceAccount;
               b_rest := b_rest build |} in
          meta ← ask (ESubmit build) (fun tr => CreateCloudBuild tr build);
          bom ← lift (wrapf "could not unmarshal BuildOperationMetadata" (unmarshalBOM meta));
          match bom with
          | None => lift Panic
          | Some (id, logURL) => mret (id, logURL)
          end
      end
  end.

(** ** createBuild *)

Definition pending := "pending authorization".
Definition rawLogURL (d : deviceType) (jobID : string) : string :=
  "https://storage.cloud.google.com/featureprofiles-ci-logs-" +:+ lowerName (Vendor_String (dt_Vendor d)) +:+
  "/log-" +:+ jobID +:+ ".txt".

(** A device whose jobs may start: it has tests and all of them are pending. *)
Definition waiting (dev : device) : bool :=
  match Tests dev with [] => false | ts => forallb (fun t => String.eqb (Status t) pending) ts end.

Definition matchesVirtual (d : deviceType) (dev : device) : bool := bool_decide (d_Type dev = d).
Definition matchesPhysical (d : deviceType) (dev : device) : bool :=
  bool_decide (dt_Vendor (d_Type dev) = dt_Vendor d) &&
  (String.eqb (HardwareModel d) "" || String.eqb (HardwareModel (d_Type dev)) (HardwareModel d)).

Definition launchVirtual (objPath : string) (f : node) (d : deviceType) (dev : device) : io device :=
  if negb (matchesVirtual d dev && waiting dev) then mret dev
  else
    '(jobID, logURL) ← wrapIO "submitBuild device" (submitBuild dev f objPath);
    mret {| d_Type := d_Type dev; ArchivePath := objPath; CloudBuildID := jobID; CloudBuildLogURL := logURL;
            CloudBuildRawLogURL := rawLogURL (d_Type dev) jobID; Tests := set_Status "setup" <$> Tests dev |}.

Definition launchPhysical (objPath : string) (d : deviceType) (dev : device) : io device :=
  if negb (matchesPhysical d dev && waiting dev) then mret dev
  else
    u ← wrapIO "uuid.NewRandom device" (ask EUUID NewRandom);
    let jobID := uuid_text u in
    let dev := {| d_Type := d_Type dev; ArchivePath := objPath; CloudBuildID := jobID;
                  CloudBuildLogURL := CloudBuildLogURL dev;
                  CloudBuildRawLogURL := rawLogURL (d_Type dev) jobID; Tests := Tests dev |} in
    _ ← wrapIO "pubsubTopic.Publish device" (ask (EPublish dev) (fun tr => Publish tr dev));
    mret {| d_Type := d_Type dev; ArchivePath := ArchivePath dev; CloudBuildID := CloudBuildID dev;
            CloudBuildLogURL := CloudBuildLogURL dev; CloudBuildRawLogURL := CloudBuildRawLogURL dev;
            Tests := set_Status "setup" <$> Tests dev |}.

Fixpoint launchAll (objPath : string) (devices : list deviceType) (p : pullRequest) : io pullRequest :=
  match devices with
  | [] => mret p
  | d :: devices =>
      vs ← mapS (launchVirtual objPath (localFS p) d) (Virtual p);
      ps ← mapS (launchPhysical objPath d) (Physical p);
      launchAll objPath devices (with_devices vs ps p)
  end.

Definition createBuild (devices : list deviceType) (p : pullRequest) : io pullRequest :=
  p ← fetchGoDeps p;
  objPath ← createArchive p;
  launchAll objPath devices p.

(** ** identifyModifiedTests *)

Definition identifyModifiedTests (p : pullRequest) : io pullRequest :=
  s ← getState;
  lift (p ← match repo p with
            | None => '(r, f) ← setupGitClone (cloneURL p) (HeadSHA p); Ret (with_tree (Some r) f p)
            | Some _ => Ret p
            end;
        match repo p with
        | None => Panic
        | Some r =>
            ft ← functionalTestPaths (localFS p);
            mf ← modifiedFiles r (HeadSHA p);
            let modifiedTests := modifiedFunctionalTests (setOrder (st_trace s)) ft mf in
            '(vs, ps) ← populateTestDetail (pr_ID p) (HeadSHA p) (localFS p) modifiedTests (Virtual p) (Physical p);
            Ret (with_devices vs ps p)
        end).

(** ** Badges and metadata *)

(** [Attrs] of an object of the bucket. *)
Definition Attrs (path : string) : io object := fun s =>
  (match AttrsFails (st_trace s) path with
   | Some e => Fail e
   | None => match bucket s !! path with
             | Some o => Ret o
             | None => Fail (errors_New "storage: object doesn't exist")
             end
   end, logged (EAttrs path) s).

(** A writer's [WriteTo] and [Close]. *)
Definition WriteObject (path : string) (o : object) : io unit := fun s =>
  match WriteFails (st_trace s) path with
  | Some e => (Fail e, logged (EWrite path) s)
  | None => (Ret tt, {| st_trace := EWrite path :: st_trace s; bucket := <[path := o]> (bucket s) |})
  end.

(** What the attributes of the badge of a test change. *)
Definition applyMetadata (md : gmap string string) (dev : device) (t : functionalTest) : device * functionalTest :=
  ({| d_Type := d_Type dev;
      CloudBuildID := default (CloudBuildID dev) (md !! "cloudBuild");
      CloudBuildLogURL := default (CloudBuildLogURL dev) (md !! "cloudBuildLogURL");
      CloudBuildRawLogURL := default (CloudBuildRawLogURL dev) (md !! "cloudBuildRawLogURL");
      ArchivePath := ArchivePath dev;
      Tests := Tests dev |},
   set_Status (default (Status t) (md !! "status")) t).

Fixpoint restoreTests (dev : device) (ts : list functionalTest) : io (device * list functionalTest) := fun s =>
  match ts with
  | [] => (Ret (dev, []), s)
  | t :: ts =>
      match Attrs (BadgePath t) s with
      | (Ret o, s) =>
          let '(dev, t) := applyMetadata (obj_Metadata o) dev t in
          ('(dev, ts) ← restoreTests dev ts; mret (dev, t :: ts)) s
      | (_, s) => ('(dev, ts) ← restoreTests dev ts; mret (dev, t :: ts)) s
      end
  end.

Definition with_Tests (ts : list functionalTest) (dev : device) : device :=
  {| d_Type := d_Type dev; CloudBuildID := CloudBuildID dev; CloudBuildLogURL := CloudBuildLogURL dev;
     CloudBuildRawLogURL := CloudBuildRawLogURL dev; ArchivePath := ArchivePath dev; Tests := ts |}.

Definition restoreDevice (dev : device) : io device :=
  '(dev, ts) ← restoreTests dev (Tests dev); mret (with_Tests ts dev).

Definition populateObjectMetadata (p : pullRequest) : io pullRequest :=
  vs ← mapS restoreDevice (Virtual p);
  ps ← mapS restoreDevice (Physical p);
  mret (with_devices vs ps p).

Definition badgeObject (dev : device) (t : functionalTest) : object :=
  {| ContentType := "image/svg+xml";
     CacheControl := "no-cache,max-age=0";
     obj_Metadata := list_to_map
       [("status", Status t); ("label", ft_Name t); ("cloudBuild", CloudBuildID dev);
        ("cloudBuildLogURL", CloudBuildLogURL dev); ("cloudBuildRawLogURL", CloudBuildRawLogURL dev)];
     obj_badge := svgBadge (ft_Name t) (Status t) |}.

Definition updateBadges (p : pullRequest) : io unit :=
  forEach (fun dev => forEach (fun t => WriteObject (BadgePath t) (badgeObject dev t)) (Tests dev))
          (Physical p ++ Virtual p).

(** ** The comment on the pull request *)

Fixpoint withRetryFrom (err : option error) (attempts : nat) (f : io unit) : io unit := fun s =>
  match attempts with
  | O => (match err with None => Ret tt | Some e => Fail e end, s)
  | S attempts =>
      match f s with
      | (Fail e, s) => withRetryFrom (Some e) attempts f s
      | r => r
      end
  end.
Definition withRetry : nat -> io unit -> io unit := withRetryFrom None.

Fixpoint botComment (comments : list (Z * string)) : option Z :=
  match comments with
  | [] => None
  | (id, login) :: comments => if String.eqb login githubBotName then Some id else botComment comments
  end.
Definition firstComment (p : pullRequest) : io (option Z) :=
  comments ← ask (EListComments (pr_ID p)) (fun tr => ListComments tr (pr_ID p));
  mret (botComment comments).

Definition updateGitHub (p : pullRequest) : io unit :=
  first ← firstComment p;
  withRetry 3 (ask (EComment first (pr_ID p) (Virtual p) (Physical p)) (fun tr => PostComment tr first)).

(** * trigger.go *)

Fixpoint memberOfOne (teams : list string) (username : string) : io bool := fun s =>
  match teams with
  | [] => (Ret false, s)
  | team :: teams =>
      let r := GetTeamMembershipBySlug (st_trace s) team username in
      let s := logged (EMembership team username r) s in
      match r with
      | MResponse status =>
          if (status =? 404)%Z then memberOfOne teams username s
          else (Fail (errors_New "github error response"), s)
      | MError e => (Fail e, s)
      | MState st => if String.eqb st "active" then (Ret true, s) else memberOfOne teams username s
      end
  end.
Definition authorizedUser (username : string) : io bool := memberOfOne authorizedTeams username.

Record IssueCommentEvent := {
  ic_Action : string;
  ic_PullRequestURL : string;
  ic_Number : Z;
  ic_User : string;
  ic_Body : string;
}.
Record PullRequestEvent := {
  pe_Action : string;
  pe_Number : Z;
  pe_HeadSHA : string;
  pe_CloneURL : string;
  pe_User : string;
}.

Definition newPullRequest (id : Z) (sha url tmpDir : string) : pullRequest :=
  {| pr_ID := id; HeadSHA := sha; Virtual := []; Physical := []; cloneURL := url; repo := None;
     localFS := NDir []; localPath := tmpDir |}.

Definition mentions (body keyword : string) : bool := Contains (ToLower body) keyword.

(** The keyword the loop over the map acts on: the first one in the iteration
    that the comment mentions. *)
Definition selectKeyword (order : list (string * list deviceType)) (body : string) : option (list deviceType) :=
  snd <$> (snd <$> list_find (fun kd => mentions body kd.1 = true) order).

Definition processIssueComment (e : IssueCommentEvent) : io unit :=
  if String.eqb (ic_PullRequestURL e) "" then mret tt
  else
    auth ← wrapIO "validate user auth" (authorizedUser (ic_User e));
    if negb auth then mret tt
    else if negb (existsb (fun kd => mentions (ic_Body e) kd.1) triggerKeywords) then mret tt
    else
      tmpDir ← ask EMkdirTemp MkdirTemp;
      '(sha, url) ← wrapIO "query GitHub API for PR data"
                      (ask (EGetPR (ic_Number e)) (fun tr => GetPullRequest tr (ic_Number e)));
      let pr := newPullRequest (ic_Number e) sha url tmpDir in
      pr ← wrapIO "identify modified tests for commit" (identifyModifiedTests pr);
      pr ← populateObjectMetadata pr;
      s ← getState;
      match selectKeyword (keywordOrder (st_trace s)) (ic_Body e) with
      | None => mret tt
      | Some deviceTypes =>
          pr ← wrapIO "create build for commit" (createBuild deviceTypes pr);
          _ ← wrapIO "update GCS badges for commit" (updateBadges pr);
          wrapIO "update GitHub PR for commit" (updateGitHub pr)
      end.

Definition processPullRequest (e : PullRequestEvent) : io unit :=
  tmpDir ← ask EMkdirTemp MkdirTemp;
  let pr := newPullRequest (pe_Number e) (pe_HeadSHA e) (pe_CloneURL e) tmpDir in
  pr ← wrapIO "identify modified tests for commit" (identifyModifiedTests pr);
  auth ← wrapIO "validate user auth" (authorizedUser (pe_User e));
  pr ← (if auth : bool then wrapIO "create build for commit" (createBuild virtualDeviceTypes pr) else mret pr);
  _ ← wrapIO "update GCS badges for commit" (updateBadges pr);
  wrapIO "update GitHub PR for commit" (updateGitHub pr).

(** * main.go and subscription.go *)

Definition fetchAPISecret : go string :=
  let env := Getenv "GITHUB_API_SECRET" in
  if String.eqb env "" then ReadSecret "/etc/secrets/github-api-secret/github-api-secret" else Ret env.

Definition newTrigger : io unit :=
  _ ← lift fetchAPISecret;
  _ ← ask (ESetup "pubsub") (fun tr => NewClient tr "pubsub");
  _ ← ask (ESetup "storage") (fun tr => NewClient tr "storage");
  ask (ESetup "cloudbuild") (fun tr => NewClient tr "cloudbuild").

Inductive webhook :=
| HPullRequest (e : PullRequestEvent)
| HIssueComment (e : IssueCommentEvent)
| HOther.

(** Errors are logged and end the handler. *)
Definition processEvent (h : webhook) : io unit :=
  _ ← newTrigger;
  match h with
  | HPullRequest e =>
      if String.eqb (pe_Action e) "opened" || String.eqb (pe_Action e) "synchronize"
      then processPullRequest e else mret tt
  | HIssueComment e => if String.eqb (ic_Action e) "created" then processIssueComment e else mret tt
  | HOther => mret tt
  end.

Definition updateBadgeStatus (path status : string) : io unit :=
  _ ← ask (ESetup "storage") (fun tr => NewClient tr "storage");
  o ← Attrs path;
  match obj_Metadata o !! "label" with
  | None => lift (Fail (errors_New "object missing metadata label"))
  | Some label =>
      WriteObject path
        {| ContentType := ContentType o; CacheControl := CacheControl o;
           obj_Metadata := <["status" := status]> (obj_Metadata o);
           obj_badge := svgBadge label status |}
  end.
End Trigger.

(** * Keywords *)

Section Keywords.

Lemma matchesPhysical_virtual d dev :
  HardwareModel d <> "" -> d_Type dev ∈ physicalDeviceTypes -> matchesPhysical d dev = false.
Proof.
  intros Hd Hdev. unfold matchesPhysical. rewrite (proj2 (String.eqb_neq _ _) Hd). simpl.
  assert (HardwareModel (d_Type dev) = "") as ->.
  { unfold physicalDeviceTypes in Hdev. rewrite !elem_of_cons, elem_of_nil in Hdev.
    destruct Hdev as [->|[->|[->|[->|[]]]]]; done. }
  rewrite (proj2 (String.eqb_neq _ _)) by congruence. by rewrite andb_false_r.
Qed.

Definition othersMentioned : bool :=
  forallb (fun kd => forallb (fun kd' => implb (mentions kd.1 kd'.1) (String.eqb kd'.1 kd.1)) triggerKeywords)
          triggerKeywords.

Lemma keywords_disjoint k ds k' ds' :
  (k, ds) ∈ triggerKeywords -> (k', ds') ∈ triggerKeywords -> mentions k k' = true -> k' = k.
Proof.
  assert (Hall : othersMentioned = true) by (vm_compute; reflexivity).
  intros Hk Hk' Hm. unfold othersMentioned in Hall. rewrite forallb_forall in Hall.
  specialize (Hall (k, ds) (proj1 (list_elem_of_In _ _) Hk)). rewrite forallb_forall in Hall.
  specialize (Hall (k', ds') (proj1 (list_elem_of_In _ _) Hk')). simpl in Hall. rewrite Hm in Hall.
  by apply String.eqb_eq.
Qed.

Lemma keywords_mention k ds : (k, ds) ∈ triggerKeywords -> mentions k k = true.
Proof.
  assert (Hall : forallb (fun kd : string * list deviceType => mentions kd.1 kd.1) triggerKeywords = true)
    by (vm_compute; reflexivity).
  intros Hk. rewrite forallb_forall in Hall. apply (Hall (k, ds)), list_elem_of_In, Hk.
Qed.

Lemma keywords_functional k ds ds' : (k, ds) ∈ triggerKeywords -> (k, ds') ∈ triggerKeywords -> ds = ds'.
Proof.
  assert (Hnd : NoDup triggerKeywords.*1) by (apply (bool_decide_unpack _); vm_compute; exact I).
  intros H1 H2. apply list_elem_of_lookup in H1 as (i & Hi), H2 as (j & Hj).
  assert (i = j) as <-.
  { eapply (NoDup_lookup triggerKeywords.*1 i j k); [done|by rewrite list_lookup_fmap, Hi|by rewrite list_lookup_fmap, Hj]. }
  congruence.
Qed.

(** A comment that is just a keyword selects the devices of that keyword in
    whatever order Go iterates over the keywords, because no keyword contains
    another; and a physical device is only ever matched by a keyword that ends in
    physical, so that /fptest all launches no physical test. *)
Theorem keyword_selects k ds order :
  (k, ds) ∈ triggerKeywords -> order ≡ₚ triggerKeywords ->
  selectKeyword order k = Some ds /\
  (forall d dev, d ∈ ds -> d_Type dev ∈ physicalDeviceTypes -> matchesPhysical d dev = true ->
     HasSuffix k "physical" = true).
Proof.
  intros Hk Hperm. split.
  - unfold selectKeyword. destruct (list_find_elem_of (fun kd => mentions k kd.1 = true) order (k, ds))
      as ([i [k' ds']] & Hf); [by rewrite Hperm|by eapply keywords_mention|]. rewrite Hf. simpl. f_equal.
    apply list_find_Some in Hf as (Hi & Hm & _). apply list_elem_of_lookup_2 in Hi. rewrite Hperm in Hi.
    assert (k' = k) as -> by by eapply keywords_disjoint. by eapply keywords_functional.
  - intros d dev Hd Hdev Hm.
    assert (Hmodel : HardwareModel d = "").
    { destruct (decide (HardwareModel d = "")) as [|Hne]; [done|]. by rewrite matchesPhysical_virtual in Hm. }
    assert (Hall : forallb (fun kd => implb (existsb (fun d => String.eqb (HardwareModel d) "") kd.2)
      (HasSuffix kd.1 "physical")) triggerKeywords = true) by (vm_compute; reflexivity).
    rewrite forallb_forall in Hall. specialize (Hall (k, ds) (proj1 (list_elem_of_In _ _) Hk)). simpl in Hall.
    assert (He : existsb (fun d => String.eqb (HardwareModel d) "") ds = true).
    { apply existsb_exists. exists d. split; [by apply list_elem_of_In|by rewrite Hmodel]. }
    by rewrite He in Hall.
Qed.
End Keywords.

Lemma keyword_selects_witness : selectKeyword triggerKeywords "/fptest xrd" = Some [dt CISCO "XRd"].
Proof.
  apply (keyword_selects "/fptest xrd" [dt CISCO "XRd"] triggerKeywords); [|done].
  unfold triggerKeywords. rewrite !elem_of_cons. tauto.
Defined.
