(* ===== verification/CiJobs.v ===== *)
(** What the CI trigger guarantees: jobs are launched only for authorized users
    ([processEvent_authorized]), once per requested device ([createBuild_jobs],
    [launched_once]), and the badges record the state of a pull request
    ([badges_roundtrip]).  The last module instantiates the services concretely. *)
From stdpp Require Import base list gmap strings pretty.
From Stdlib Require Import ZArith Lia Ascii.
From S2P Require Import Prelude GoStrings CiData CiTrigger.

(** * Launches *)

Section Launches.
Context `{G : Git} `{VN : VendorNames} `{MT : MetadataText} `{W : World}.

(** Code that only adds events to the trace that satisfy [Q]. *)
Definition extends {A} (Q : event -> Prop) (m : io A) : Prop :=
  forall s, exists new, st_trace (m s).2 = new ++ st_trace s /\ Forall Q new.
Definition silent {A} (m : io A) : Prop := extends (fun e => launch e = false) m.
Definition grows {A} (m : io A) : Prop := extends (fun _ => True) m.

Lemma extends_ret {A} Q (a : A) : extends Q (mret a : io A).
Proof. intros s. by exists []. Qed.
Lemma extends_lift {A} Q (m : go A) : extends Q (lift m).
Proof. intros s. by exists []. Qed.
Lemma extends_get Q : extends Q (getState : io state).
Proof. intros s. by exists []. Qed.
Lemma extends_ask {A} (Q : event -> Prop) e (f : list event -> go A) : Q e -> extends Q (ask e f).
Proof. intros He s. exists [e]. by rewrite Forall_singleton. Qed.
Lemma extends_wrap {A} Q msg (m : io A) : extends Q m -> extends Q (wrapIO msg m).
Proof. intros Hm s. destruct (Hm s) as (new & He & HQ). exists new. unfold wrapIO. by destruct (m s). Qed.
Lemma extends_bind {A B} Q (m : io A) (k : A -> io B) :
  extends Q m -> (forall a, extends Q (k a)) -> extends Q (m ≫= k).
Proof.
  intros Hm Hk s. unfold mbind, gost_bind. destruct (Hm s) as (new & He & HQ).
  destruct (m s) as [[a|e| |] s1]; simpl in He; try by exists new.
  destruct (Hk a s1) as (new' & He' & HQ'). exists (new' ++ new). rewrite He', He, app_assoc, Forall_app. auto.
Qed.
Lemma extends_forEach {A} Q (body : A -> io unit) l :
  (forall x, extends Q (body x)) -> extends Q (forEach body l).
Proof. intros Hb. induction l; simpl; [apply extends_ret|apply extends_bind; auto]. Qed.
Lemma extends_mapS {A B} Q (f : A -> io B) l : (forall x, extends Q (f x)) -> extends Q (mapS f l).
Proof.
  intros Hf. induction l; simpl; [apply extends_ret|].
  apply extends_bind; [auto|intros b]. apply extends_bind; [auto|intros bs; apply extends_ret].
Qed.
Lemma extends_mono {A} (Q R : event -> Prop) (m : io A) : (forall e, Q e -> R e) -> extends Q m -> extends R m.
Proof. intros HQR Hm s. destruct (Hm s) as (new & ? & HQ). exists new. split; [done|]. eapply Forall_impl; eauto. Qed.

Lemma extends_Attrs (Q : event -> Prop) path : Q (EAttrs path) -> extends Q (Attrs path).
Proof. intros HQ s. exists [EAttrs path]. by rewrite Forall_singleton. Qed.
Lemma extends_Write (Q : event -> Prop) path o : Q (EWrite path) -> extends Q (WriteObject path o).
Proof.
  intros HQ s. exists [EWrite path]. rewrite Forall_singleton. unfold WriteObject.
  by destruct (WriteFails _ _).
Qed.
End Launches.

Create HintDb ci.
#[export] Hint Resolve extends_ret extends_lift extends_get extends_ask extends_wrap extends_bind
  extends_forEach extends_mapS extends_Attrs extends_Write : ci.
Ltac ci_extends := repeat first
  [ progress intros
  | apply extends_ret | apply extends_lift | apply extends_get
  | apply extends_ask; [first [done | exact I]] | apply extends_wrap
  | apply extends_Attrs; done | apply extends_Write; done
  | apply extends_bind | apply extends_forEach | apply extends_mapS
  | match goal with |- extends _ (if ?b then _ else _) => destruct b end
  | match goal with |- extends _ (let '(_, _) := ?x in _) => destruct x end
  | match goal with |- extends _ (match ?x with _ => _ end) => destruct x end
  | solve [auto with ci] ].

Section Authorization.
Context `{G : Git} `{VN : VendorNames} `{MT : MetadataText} `{W : World}.

Lemma silent_restoreTests dev ts : silent (restoreTests dev ts).
Proof.
  revert dev. induction ts as [|t ts IH]; intros dev s; simpl; [by exists []|].
  destruct (AttrsFails _ _); [|destruct (bucket s !! _)]; simpl;
  match goal with
  | |- context [mbind ?k (restoreTests ?d ts) ?s'] =>
      assert (Hb : silent (restoreTests d ts ≫= k)) by (apply extends_bind; [apply IH|intros []; apply extends_ret]);
      destruct (Hb s') as (new & He & HQ)
  end; exists (new ++ [EAttrs (BadgePath t)]); rewrite He, <-app_assoc, Forall_app, Forall_singleton; done.
Qed.
#[local] Hint Resolve silent_restoreTests : ci.

Lemma silent_populate p : silent (populateObjectMetadata p).
Proof. unfold populateObjectMetadata, restoreDevice, silent. ci_extends. apply silent_restoreTests. apply silent_restoreTests. Qed.

Lemma silent_identify p : silent (identifyModifiedTests p).
Proof. unfold identifyModifiedTests, silent. ci_extends. Qed.

Lemma silent_updateBadges p : silent (updateBadges p).
Proof. unfold updateBadges, silent. ci_extends. Qed.

Lemma silent_withRetry err n m : silent m -> silent (withRetryFrom err n m).
Proof.
  intros Hm. revert err. induction n as [|n IH]; intros err s; simpl; [by exists []|].
  destruct (Hm s) as (new & He & HQ). destruct (m s) as [[a|e| |] s1]; simpl in He; try by exists new.
  destruct (IH (Some e) s1) as (new' & He' & HQ'). exists (new' ++ new).
  rewrite He', He, app_assoc, Forall_app. auto.
Qed.

Lemma silent_updateGitHub p : silent (updateGitHub p).
Proof.
  unfold updateGitHub, firstComment, silent. ci_extends. apply silent_withRetry. unfold silent. ci_extends.
Qed.

Lemma grows_createBuild ds p : grows (createBuild ds p).
Proof.
  unfold createBuild, fetchGoDeps, createArchive, grows. ci_extends.
  rename a into p0, a0 into objPath. revert p0. induction ds as [|d ds IH]; intros p0; simpl; [apply extends_ret|].
  unfold launchVirtual, launchPhysical, submitBuild. ci_extends.
Qed.

(** The trace shows that the user is an active member of an authorized team. *)
Definition evidence (user : string) (tr : list event) : Prop :=
  exists team, team ∈ authorizedTeams /\ EMembership team user (MState "active") ∈ tr.

(** Every launch that the code adds to the trace is preceded by the evidence, also
    added by the code. *)
Definition guarded {A} (user : string) (m : io A) : Prop :=
  forall s, exists new, st_trace (m s).2 = new ++ st_trace s /\
    forall t1 e t2, new = t1 ++ e :: t2 -> launch e = true -> evidence user t2.

Lemma evidence_app user t1 t2 : evidence user t2 -> evidence user (t1 ++ t2).
Proof. intros (team & ? & ?). exists team. rewrite elem_of_app. auto. Qed.

Lemma silent_guarded {A} user (m : io A) : silent m -> guarded user m.
Proof.
  intros Hm s. destruct (Hm s) as (new & He & HQ). exists new. split; [done|].
  intros t1 e t2 ->. rewrite Forall_app, Forall_cons in HQ. destruct HQ as (_ & HQ & _). congruence.
Qed.

(** A launch in [new] that comes after [old]. *)
Lemma split_launch (old new t1 t2 : list event) e :
  Forall (fun e => launch e = false) old -> new ++ old = t1 ++ e :: t2 -> launch e = true ->
  exists t3, t2 = t3 ++ old /\ new = t1 ++ e :: t3.
Proof.
  intros Hold Heq He. apply app_eq_app in Heq as (l & [[H1 H2]|[H1 H2]]).
  - destruct l as [|x l]; simplify_eq/=; [|eauto].
    rewrite Forall_cons in Hold. destruct Hold as [Hold _]. congruence.
  - subst. rewrite Forall_app, Forall_cons in Hold. destruct Hold as (_ & Hold & _). congruence.
Qed.

Lemma guarded_bind {A B} user (m : io A) (k : A -> io B) :
  silent m -> (forall a, guarded user (k a)) -> guarded user (m ≫= k).
Proof.
  intros Hm Hk s. destruct (silent_guarded user m Hm s) as (new0 & He0 & Hl0).
  unfold mbind, gost_bind. destruct (Hm s) as (new & He & HQ).
  destruct (m s) as [[a|e| |] s1]; simpl in He, He0; try by exists new0.
  destruct (Hk a s1) as (new' & He' & Hl). exists (new' ++ new). rewrite He', He, app_assoc. split; [done|].
  intros t1 e t2 Heq Hlaunch. destruct (split_launch new new' t1 t2 e HQ Heq Hlaunch) as (t3 & -> & Hnew).
  destruct (Hl _ _ _ Hnew Hlaunch) as (team & ? & ?). exists team. rewrite elem_of_app. auto.
Qed.

Lemma memberOfOne_evidence teams user s :
  exists new, st_trace (memberOfOne teams user s).2 = new ++ st_trace s /\
    Forall (fun e => launch e = false) new /\
    ((memberOfOne teams user s).1 = Ret true ->
     exists team, team ∈ teams /\ EMembership team user (MState "active") ∈ new).
Proof.
  revert s. induction teams as [|team teams IH]; intros s; simpl; [by exists []|].
  set (r := GetTeamMembershipBySlug _ _ _). set (s' := logged _ s).
  assert (Hnext : exists new, st_trace (memberOfOne teams user s').2 = new ++ st_trace s /\
    Forall (fun e => launch e = false) new /\
    ((memberOfOne teams user s').1 = Ret true ->
     exists t, t ∈ team :: teams /\ EMembership t user (MState "active") ∈ new)).
  { destruct (IH s') as (new & He & HQ & Hev). exists (new ++ [EMembership team user r]).
    rewrite <-app_assoc, Forall_app, Forall_singleton. repeat split; try done.
    intros Ht. destruct (Hev Ht) as (t & ? & ?). exists t. rewrite elem_of_app. split; [by right|auto]. }
  destruct r as [st|status|e]; [destruct (String.eqb st "active") eqn:Est|destruct (status =? 404)%Z|];
    try exact Hnext; eexists [EMembership team user _]; rewrite Forall_singleton; repeat split; try done.
  intros _. apply String.eqb_eq in Est as ->. exists team. split; [by left|by left].
Qed.

Lemma guarded_authorized {B} user msg (k : bool -> io B) :
  guarded user (k false) -> grows (k true) -> guarded user (wrapIO msg (authorizedUser user) ≫= k).
Proof.
  intros Hf Ht s. unfold mbind, gost_bind, wrapIO.
  destruct (memberOfOne_evidence authorizedTeams user s) as (new & He & HQ & Hev). fold (authorizedUser user) in *.
  assert (Hnone : forall t1 e t2, new = t1 ++ e :: t2 -> launch e = true -> evidence user t2).
  { intros t1 e t2 -> Hl. rewrite Forall_app, Forall_cons in HQ. destruct HQ as (_ & HQ & _). congruence. }
  destruct (authorizedUser user s) as [[[]|e| |] s1]; simpl in He, Hev; try by exists new.
  - destruct (Ht s1) as (new' & He' & _). exists (new' ++ new). simpl. rewrite He', He, app_assoc.
    split; [done|]. intros t1 e t2 Heq Hl. destruct (split_launch new new' t1 t2 e HQ Heq Hl) as (t3 & -> & _).
    apply evidence_app, Hev, eq_refl.
  - destruct (Hf s1) as (new' & He' & Hl'). exists (new' ++ new). simpl. rewrite He', He, app_assoc.
    split; [done|]. intros t1 e t2 Heq Hl. destruct (split_launch new new' t1 t2 e HQ Heq Hl) as (t3 & -> & Hnew).
    destruct (Hl' _ _ _ Hnew Hl) as (team & ? & ?). exists team. rewrite elem_of_app. auto.
Qed.

Lemma silent_grows {A} (m : io A) : silent m -> grows m.
Proof. by apply extends_mono. Qed.

Definition requester (h : webhook) : string :=
  match h with HPullRequest e => pe_User e | HIssueComment e => ic_User e | HOther => "" end.

(** A tail of the handlers: build, badges, comment. *)
Lemma grows_tail m1 m2 m3 ds p :
  grows (p ← wrapIO m1 (createBuild ds p); _ ← wrapIO m2 (updateBadges p); wrapIO m3 (updateGitHub p)).
Proof.
  apply extends_bind; [apply extends_wrap, grows_createBuild|intros p'].
  apply extends_bind; [apply extends_wrap, silent_grows, silent_updateBadges|intros _].
  apply extends_wrap, silent_grows, silent_updateGitHub.
Qed.

Lemma guarded_processPullRequest e : guarded (pe_User e) (processPullRequest e).
Proof.
  apply guarded_bind; [by apply extends_ask|intros tmpDir].
  apply guarded_bind; [apply extends_wrap, silent_identify|intros pr].
  apply guarded_authorized; [|apply grows_tail].
  apply silent_guarded. apply extends_bind; [apply extends_ret|intros p'].
  apply extends_bind; [apply extends_wrap, silent_updateBadges|intros _].
  apply extends_wrap, silent_updateGitHub.
Qed.

Lemma guarded_processIssueComment e : guarded (ic_User e) (processIssueComment e).
Proof.
  unfold processIssueComment. destruct (String.eqb _ ""); [apply silent_guarded, extends_ret|].
  apply guarded_authorized; simpl; [apply silent_guarded, extends_ret|].
  destruct (negb _); [apply extends_ret|].
  apply extends_bind; [by apply extends_ask|intros tmpDir].
  apply extends_bind; [by apply extends_wrap, extends_ask|intros [sha url]].
  apply extends_bind; [apply extends_wrap, silent_grows, silent_identify|intros pr].
  apply extends_bind; [apply silent_grows, silent_populate|intros pr'].
  apply extends_bind; [apply extends_get|intros s].
  destruct (selectKeyword _ _); [apply grows_tail|apply extends_ret].
Qed.

(** C17: no job is launched unless the author of the event was found, during the
    same event, to be an active member of an authorized team: every request for a
    build or a physical test that handling an event adds to the trace of calls
    comes after such an answer of the GitHub API for that user. *)
Theorem processEvent_authorized h s :
  exists new, st_trace (processEvent h s).2 = new ++ st_trace s /\
    forall t1 e t2, new = t1 ++ e :: t2 -> launch e = true ->
      exists team, team ∈ authorizedTeams /\ EMembership team (requester h) (MState "active") ∈ t2.
Proof.
  revert s. change (guarded (requester h) (processEvent h)).
  apply guarded_bind; [unfold newTrigger, silent; ci_extends|intros _].
  destruct h as [e|e|]; simpl.
  - destruct (_ || _); [apply guarded_processPullRequest|apply silent_guarded, extends_ret].
  - destruct (String.eqb _ _); [apply guarded_processIssueComment|apply silent_guarded, extends_ret].
  - apply silent_guarded, extends_ret.
Qed.
End Authorization.

(** * One job per requested device *)

Section Jobs.
Context `{G : Git} `{VN : VendorNames} `{MT : MetadataText} `{W : World}.

(** How a device changes when the devices that [m] selects are launched. *)
Definition jobRel (m : device -> bool) (objPath : string) (dev dev' : device) : Prop :=
  if m dev && waiting dev
  then d_Type dev' = d_Type dev /\ ArchivePath dev' = objPath /\ Tests dev' = set_Status "setup" <$> Tests dev
  else dev' = dev.

Definition jobs (m : device -> bool) (l : list device) : nat :=
  sum_list ((fun dev => Nat.b2n (m dev && waiting dev)) <$> l).

Definition launches (tr : list event) : nat := length (filter (fun e => launch e = true) tr).

Definition requested (mt : deviceType -> device -> bool) (ds : list deviceType) (dev : device) : bool :=
  existsb (fun d => mt d dev) ds.

Lemma jobs_cons m dev l : jobs m (dev :: l) = Nat.b2n (m dev && waiting dev) + jobs m l.
Proof. done. Qed.

Lemma launches_app t1 t2 : launches (t1 ++ t2) = launches t1 + launches t2.
Proof. unfold launches. by rewrite filter_app, length_app. Qed.

Lemma launches_silent tr : Forall (fun e => launch e = false) tr -> launches tr = 0.
Proof.
  intros Htr. unfold launches. induction Htr as [|e tr He Htr IH]; [done|].
  rewrite filter_cons_False by (rewrite He; done). done.
Qed.

Lemma launched_not_waiting dev dev' : Tests dev' = set_Status "setup" <$> Tests dev -> waiting dev' = false.
Proof. unfold waiting. intros ->. by destruct (Tests dev). Qed.

(** A run that succeeds with [r], launching [n] jobs. *)
Definition runs {A} (m : io A) (s : state) (r : A) (s' : state) (n : nat) : Prop :=
  m s = (Ret r, s') /\ exists new, st_trace s' = new ++ st_trace s /\ launches new = n.

Lemma bind_inv {A B} (m : io A) (k : A -> io B) s b s' :
  (m ≫= k) s = (Ret b, s') -> exists a s1, m s = (Ret a, s1) /\ k a s1 = (Ret b, s').
Proof. unfold mbind, gost_bind. destruct (m s) as [[a|e| |] s1]; intros H; try discriminate H; eauto. Qed.

Lemma wrap_inv {A} msg (m : io A) s a s' : wrapIO msg m s = (Ret a, s') -> m s = (Ret a, s').
Proof. unfold wrapIO. destruct (m s) as [[x|e| |] s1]; intros H; try discriminate H; exact H. Qed.

Lemma silent_runs {A} (m : io A) s a s' : silent m -> m s = (Ret a, s') -> runs m s a s' 0.
Proof.
  intros Hm Heq. split; [done|]. destruct (Hm s) as (new & He & HQ). rewrite Heq in He.
  exists new. split; [done|]. by apply launches_silent.
Qed.

Lemma submitBuild_launches dev f objPath s r s' :
  submitBuild dev f objPath s = (Ret r, s') -> exists b, st_trace s' = ESubmit b :: st_trace s.
Proof.
  unfold submitBuild. intros H. apply bind_inv in H as ([build|] & s1 & Hl & H); [|discriminate H].
  injection Hl as _ <-. destruct (Substitutions build) as [subs|]; [|discriminate H].
  apply bind_inv in H as (meta & s2 & Ha & H). injection Ha as _ <-.
  apply bind_inv in H as ([[id url]|] & s3 & Hl & H); [|discriminate H].
  injection Hl as _ <-. injection H as _ <-. eexists. reflexivity.
Qed.

Lemma launchVirtual_job objPath f d dev s dev' s' :
  launchVirtual objPath f d dev s = (Ret dev', s') ->
  jobRel (matchesVirtual d) objPath dev dev' /\
  exists new, st_trace s' = new ++ st_trace s /\ launches new = Nat.b2n (matchesVirtual d dev && waiting dev).
Proof.
  unfold launchVirtual, jobRel. destruct (_ && _); simpl; intros H.
  - apply bind_inv in H as ([jobID url] & s1 & Hs & H). apply wrap_inv, submitBuild_launches in Hs as (b & Hb).
    injection H as <- <-. split; [done|]. by exists [ESubmit b].
  - injection H as <- <-. split; [done|]. by exists [].
Qed.

Lemma launchPhysical_job objPath d dev s dev' s' :
  launchPhysical objPath d dev s = (Ret dev', s') ->
  jobRel (matchesPhysical d) objPath dev dev' /\
  exists new, st_trace s' = new ++ st_trace s /\ launches new = Nat.b2n (matchesPhysical d dev && waiting dev).
Proof.
  unfold launchPhysical, jobRel. destruct (_ && _); cbn -[matchesPhysical waiting]; intros H.
  - apply bind_inv in H as (u & s1 & Hs & H). apply wrap_inv in Hs. injection Hs as _ <-.
    apply bind_inv in H as (id & s2 & Hs & H). apply wrap_inv in Hs. injection Hs as _ <-.
    injection H as <- <-. split; [done|]. by eexists [EPublish _; EUUID].
  - injection H as <- <-. split; [done|]. by exists [].
Qed.

Lemma mapS_jobs (m : device -> bool) objPath (f : device -> io device) l s l' s' :
  (forall dev s dev' s', f dev s = (Ret dev', s') ->
     jobRel m objPath dev dev' /\
     exists new, st_trace s' = new ++ st_trace s /\ launches new = Nat.b2n (m dev && waiting dev)) ->
  mapS f l s = (Ret l', s') ->
  Forall2 (jobRel m objPath) l l' /\ exists new, st_trace s' = new ++ st_trace s /\ launches new = jobs m l.
Proof.
  intros Hf. revert s l'. induction l as [|dev l IH]; intros s l' H; simpl in H.
  { injection H as <- <-. split; [done|]. by exists []. }
  apply bind_inv in H as (dev' & s1 & H1 & H). apply bind_inv in H as (l1 & s2 & H2 & H).
  injection H as <- <-. apply Hf in H1 as (Hr & n1 & E1 & L1). apply IH in H2 as (Hrs & n2 & E2 & L2).
  split; [by constructor|]. exists (n2 ++ n1). rewrite E2, E1, app_assoc, launches_app, L1, L2.
  split; [done|]. rewrite jobs_cons. lia.
Qed.

(** Two passes select what either selects, and a device only once. *)
Lemma jobRel_trans m1 m2 objPath dev dev1 dev2 :
  (forall d d', d_Type d = d_Type d' -> m2 d = m2 d') ->
  jobRel m1 objPath dev dev1 -> jobRel m2 objPath dev1 dev2 ->
  jobRel (fun d => m1 d || m2 d) objPath dev dev2 /\
  Nat.b2n (m1 dev && waiting dev) + Nat.b2n (m2 dev1 && waiting dev1) =
  Nat.b2n ((m1 dev || m2 dev) && waiting dev).
Proof.
  intros Hty H1 H2. unfold jobRel in *.
  destruct (waiting dev) eqn:Hw; rewrite ?andb_true_r, ?andb_false_r in *;
    [|subst dev1; rewrite Hw, andb_false_r in *; done].
  destruct (m1 dev) eqn:Hm1; simpl in *.
  - destruct H1 as (? & ? & Ht). assert (Hw1 : waiting dev1 = false) by by eapply launched_not_waiting.
    rewrite Hw1, andb_false_r in *. subst dev2. done.
  - subst dev1. rewrite Hw, andb_true_r in *. done.
Qed.

Lemma jobRel_trans_list m1 m2 objPath l l1 l2 :
  (forall d d', d_Type d = d_Type d' -> m2 d = m2 d') ->
  Forall2 (jobRel m1 objPath) l l1 -> Forall2 (jobRel m2 objPath) l1 l2 ->
  Forall2 (jobRel (fun d => m1 d || m2 d) objPath) l l2 /\
  jobs m1 l + jobs m2 l1 = jobs (fun d => m1 d || m2 d) l.
Proof.
  intros Hty H1. revert l2. induction H1 as [|dev dev1 l l1 Hd H1 IH]; intros l2 H2.
  { inversion H2; subst. done. }
  inversion H2 as [|? dev2 ? l2' Hd2 H2']; subst.
  destruct (jobRel_trans m1 m2 objPath dev dev1 dev2 Hty Hd Hd2) as [Hr Hn].
  destruct (IH l2' H2') as [Hrs Hns]. split; [by constructor|]. rewrite !jobs_cons. lia.
Qed.

Lemma requested_type mt ds d d' :
  (forall t d d', d_Type d = d_Type d' -> mt t d = mt t d') -> d_Type d = d_Type d' ->
  requested mt ds d = requested mt ds d'.
Proof. intros Hmt Hd. unfold requested. induction ds as [|t ds IH]; simpl; [done|]. by rewrite IH, (Hmt t d d' Hd). Qed.

Lemma matchesVirtual_type t d d' : d_Type d = d_Type d' -> matchesVirtual t d = matchesVirtual t d'.
Proof. unfold matchesVirtual. by intros ->. Qed.
Lemma matchesPhysical_type t d d' : d_Type d = d_Type d' -> matchesPhysical t d = matchesPhysical t d'.
Proof. unfold matchesPhysical. by intros ->. Qed.

Lemma launchAll_jobs objPath ds p s p' s' :
  launchAll objPath ds p s = (Ret p', s') ->
  Forall2 (jobRel (requested matchesVirtual ds) objPath) (Virtual p) (Virtual p') /\
  Forall2 (jobRel (requested matchesPhysical ds) objPath) (Physical p) (Physical p') /\
  exists new, st_trace s' = new ++ st_trace s /\
    launches new = jobs (requested matchesVirtual ds) (Virtual p) + jobs (requested matchesPhysical ds) (Physical p).
Proof.
  revert p s. induction ds as [|d ds IH]; intros p s H; simpl in H.
  { injection H as <- <-. assert (Hid : forall l, Forall2 (jobRel (requested matchesVirtual []) objPath) l l)
      by (intros l; induction l; constructor; done).
    split; [done|]. split; [apply Hid|]. exists []. split; [done|].
    assert (Hz : forall (m : deviceType -> device -> bool) l, jobs (requested m []) l = 0)
      by (intros m l; unfold jobs; induction l; done). by rewrite !Hz. }
  apply bind_inv in H as (vs & s1 & Hv & H). apply bind_inv in H as (ps & s2 & Hp & H).
  apply (mapS_jobs (matchesVirtual d) objPath) in Hv as (Rv & n1 & E1 & L1); [|intros; by eapply launchVirtual_job].
  apply (mapS_jobs (matchesPhysical d) objPath) in Hp as (Rp & n2 & E2 & L2); [|intros; by eapply launchPhysical_job].
  apply IH in H as (Rv' & Rp' & n3 & E3 & L3). simpl in Rv', Rp', L3.
  eapply jobRel_trans_list in Rv' as [Rv' Nv]; [|intros; apply requested_type; [apply matchesVirtual_type|done]|exact Rv].
  eapply jobRel_trans_list in Rp' as [Rp' Np]; [|intros; apply requested_type; [apply matchesPhysical_type|done]|exact Rp].
  split; [exact Rv'|]. split; [exact Rp'|]. exists (n3 ++ n2 ++ n1).
  rewrite E3, E2, E1, !launches_app, <-!app_assoc. split; [done|]. rewrite L1, L2, L3.
  change (jobs (requested matchesVirtual (d :: ds))) with
    (jobs (fun x => matchesVirtual d x || requested matchesVirtual ds x)).
  change (jobs (requested matchesPhysical (d :: ds))) with
    (jobs (fun x => matchesPhysical d x || requested matchesPhysical ds x)). lia.
Qed.
End Jobs.

(** * Jobs are launched once *)

Section Once.
Context `{G : Git} `{VN : VendorNames} `{MT : MetadataText} `{W : World}.

Lemma createBuild_inv ds p s p' s' :
  createBuild ds p s = (Ret p', s') ->
  exists objPath p1 s1, launchAll objPath ds p1 s1 = (Ret p', s') /\
    Virtual p1 = Virtual p /\ Physical p1 = Physical p /\ bucket s1 = bucket s /\
    exists new, st_trace s1 = new ++ st_trace s /\ launches new = 0.
Proof.
  unfold createBuild, fetchGoDeps, createArchive. intros H.
  apply bind_inv in H as (p1 & s1 & H1 & H). apply bind_inv in H1 as (go & sa & Ha & H1).
  injection Ha as _ <-. apply bind_inv in H1 as (f & sb & Hb & H1). apply wrap_inv in Hb. injection Hb as _ <-.
  injection H1 as <- <-. apply bind_inv in H as (objPath & s2 & H2 & H).
  apply bind_inv in H2 as (u & sc & Hc & H2). injection Hc as _ <-.
  apply bind_inv in H2 as (sd & se & He & H2). injection He as _ <-.
  apply bind_inv in H2 as ([] & sg & Hg & H2). injection Hg as _ <-. injection H2 as <- <-.
  eexists _, _, _. split; [exact H|]. repeat split.
  eexists [_; _; _; _]. split; [reflexivity|]. reflexivity.
Qed.

(** C19: when a build succeeds, exactly the requested devices that have tests, all
    pending authorization, were launched: each got one job, the archive of the
    build and the status setup for all its tests; every other device is
    unchanged.  The number of jobs requested is the number of those devices, and
    none of the requested devices can be launched again. *)
Theorem createBuild_jobs ds p s p' s' :
  createBuild ds p s = (Ret p', s') ->
  exists objPath new,
    st_trace s' = new ++ st_trace s /\
    Forall2 (jobRel (requested matchesVirtual ds) objPath) (Virtual p) (Virtual p') /\
    Forall2 (jobRel (requested matchesPhysical ds) objPath) (Physical p) (Physical p') /\
    launches new = jobs (requested matchesVirtual ds) (Virtual p) + jobs (requested matchesPhysical ds) (Physical p) /\
    jobs (requested matchesVirtual ds) (Virtual p') + jobs (requested matchesPhysical ds) (Physical p') = 0.
Proof.
  intros H. apply createBuild_inv in H as (objPath & p1 & s1 & H & EV & EP & _ & n0 & E0 & L0).
  apply launchAll_jobs in H as (RV & RP & n1 & E1 & L1). rewrite EV, EP in *.
  exists objPath, (n1 ++ n0). rewrite E1, E0, app_assoc, launches_app, L1, L0, Nat.add_0_r.
  do 4 (split; [done|]).
  assert (Hz : forall mt l l', (forall t d d', d_Type d = d_Type d' -> mt t d = mt t d') ->
    Forall2 (jobRel (requested mt ds) objPath) l l' -> jobs (requested mt ds) l' = 0).
  { intros mt l l' Hmt HR. induction HR as [|dev dev' l l' Hd HR IH]; [done|]. rewrite jobs_cons, IH.
    unfold jobRel in Hd. destruct (requested mt ds dev && waiting dev) eqn:E.
    - destruct Hd as (_ & _ & Ht). rewrite (launched_not_waiting dev dev') by done. by rewrite andb_false_r.
    - subst dev'. by rewrite E. }
  rewrite (Hz _ _ _ matchesVirtual_type RV), (Hz _ _ _ matchesPhysical_type RP). done.
Qed.

(** ** Runs without a launch *)

Definition quietAt {A} (m : io A) (s : state) : Prop :=
  exists new, st_trace (m s).2 = new ++ st_trace s /\ launches new = 0.

Lemma quietAt_silent {A} (m : io A) s : silent m -> quietAt m s.
Proof. intros Hm. destruct (Hm s) as (new & He & HQ). exists new. split; [done|]. by apply launches_silent. Qed.

Lemma quietAt_bind {A B} (m : io A) (k : A -> io B) s :
  quietAt m s -> (forall a s1, m s = (Ret a, s1) -> quietAt (k a) s1) -> quietAt (m ≫= k) s.
Proof.
  intros (new & He & HL) Hk. unfold quietAt, mbind, gost_bind in *.
  destruct (m s) as [[a|e| |] s1]; simpl in He; try by exists new.
  destruct (Hk a s1 eq_refl) as (new' & He' & HL'). exists (new' ++ new).
  by rewrite He', He, app_assoc, launches_app, HL, HL'.
Qed.

Lemma quietAt_wrap {A} msg (m : io A) s : quietAt m s -> quietAt (wrapIO msg m) s.
Proof. intros (new & He & HL). exists new. unfold wrapIO. by destruct (m s). Qed.

Lemma mapS_id {A} (f : A -> io A) l s : (forall x, x ∈ l -> f x s = (Ret x, s)) -> mapS f l s = (Ret l, s).
Proof.
  intros Hf. induction l as [|x l IH]; [done|]. simpl. unfold mbind, gost_bind.
  rewrite Hf by (by left). rewrite IH by (intros; apply Hf; by right). done.
Qed.

Lemma mapS_cons {A B} (f : A -> io B) x l y ys s s1 s2 :
  f x s = (Ret y, s1) -> mapS f l s1 = (Ret ys, s2) -> mapS f (x :: l) s = (Ret (y :: ys), s2).
Proof. intros H1 H2. simpl. unfold mbind, gost_bind. by rewrite H1, H2. Qed.

Lemma with_devices_id (p : pullRequest) : with_devices (Virtual p) (Physical p) p = p.
Proof. by destruct p. Qed.

(** Nothing to do: no device of the pull request is both requested and waiting. *)
Lemma launchAll_idle objPath ds p s :
  (forall dev, dev ∈ Virtual p -> waiting dev = false) ->
  (forall d dev, d ∈ ds -> dev ∈ Physical p -> matchesPhysical d dev = false) ->
  launchAll objPath ds p s = (Ret p, s).
Proof.
  intros Hv Hp. induction ds as [|d ds IH]; [done|]. simpl. unfold mbind, gost_bind.
  rewrite mapS_id by (intros dev Hdev; unfold launchVirtual; by rewrite (Hv dev Hdev), andb_false_r).
  rewrite mapS_id by (intros dev Hdev; unfold launchPhysical; by rewrite (Hp d dev) by (done || by left)).
  rewrite with_devices_id. apply IH. intros; apply Hp; [by right|done].
Qed.

(** ** The bucket *)

Definition statusOf (b : gmap string object) (path : string) : option string :=
  o ← b !! path; obj_Metadata o !! "status".

(** Every badge that is no longer pending stays so. *)
Definition keepsStatus (b1 b2 : gmap string object) : Prop :=
  forall path st, statusOf b1 path = Some st -> st <> pending ->
    exists st', statusOf b2 path = Some st' /\ st' <> pending.

(** Badge updates from running tests keep launched tests launched. *)
Lemma updateBadgeStatus_keeps path status s :
  status <> pending -> keepsStatus (bucket s) (bucket (updateBadgeStatus path status s).2).
Proof.
  intros Hst q st Hq Hne. unfold updateBadgeStatus, mbind, gost_bind, ask.
  destruct (NewClient _ _); simpl; try by exists st.
  destruct (AttrsFails _ _); simpl; [by exists st|]. destruct (bucket s !! path) as [o|] eqn:Eo; simpl; [|by exists st].
  destruct (obj_Metadata o !! "label"); simpl; [|by exists st].
  unfold WriteObject. destruct (WriteFails _ _); simpl; [by exists st|].
  destruct (decide (q = path)) as [->|Hq']; unfold statusOf.
  - exists status. rewrite lookup_insert_eq. simpl. by rewrite lookup_insert_eq.
  - exists st. by rewrite lookup_insert_ne.
Qed.

Lemma memberOfOne_bucket teams user s : bucket (memberOfOne teams user s).2 = bucket s.
Proof.
  revert s. induction teams as [|team teams IH]; intros s; simpl; [done|].
  destruct (GetTeamMembershipBySlug _ _ _) as [st|status|e]; [destruct (String.eqb st _)|destruct (status =? 404)%Z|];
    simpl; rewrite ?IH; done.
Qed.

Lemma withRetry_bucket err n m s :
  (forall s, bucket (m s).2 = bucket s) -> bucket (withRetryFrom err n m s).2 = bucket s.
Proof.
  intros Hm. revert err s. induction n as [|n IH]; intros err s; simpl; [done|].
  specialize (Hm s). destruct (m s) as [[a|e| |] s1]; simpl in *; try done. by rewrite IH.
Qed.

Lemma updateGitHub_bucket p s : bucket (updateGitHub p s).2 = bucket s.
Proof.
  unfold updateGitHub, firstComment, mbind, gost_bind, ask. destruct (ListComments _ _) as [cs|e| |]; simpl; [|done..].
  unfold withRetry. rewrite withRetry_bucket; done.
Qed.

(** The objects that [updateBadges] writes, in order. *)
Definition badgeWrites (devs : list device) : list (string * object) :=
  dev ← devs; (fun t => (BadgePath t, badgeObject dev t)) <$> Tests dev.
Definition writeAll (b : gmap string object) (l : list (string * object)) : gmap string object :=
  foldl (fun b x => <[x.1 := x.2]> b) b l.

Lemma writeTests_bucket dev ts s s' :
  forEach (fun t => WriteObject (BadgePath t) (badgeObject dev t)) ts s = (Ret tt, s') ->
  bucket s' = writeAll (bucket s) ((fun t => (BadgePath t, badgeObject dev t)) <$> ts).
Proof.
  revert s. induction ts as [|t ts IH]; intros s H; simpl in H; [by injection H as <-|].
  apply bind_inv in H as ([] & s1 & H1 & H). apply IH in H as ->. unfold WriteObject in H1.
  destruct (WriteFails _ _); [discriminate H1|]. by injection H1 as <-.
Qed.

Lemma updateBadges_bucket p s s' :
  updateBadges p s = (Ret tt, s') -> bucket s' = writeAll (bucket s) (badgeWrites (Physical p ++ Virtual p)).
Proof.
  unfold updateBadges. generalize (Physical p ++ Virtual p) as devs. intros devs. revert s.
  induction devs as [|dev devs IH]; intros s H; simpl in H; [by injection H as <-|].
  apply bind_inv in H as ([] & s1 & H1 & H). apply writeTests_bucket in H1. apply IH in H as ->.
  rewrite H1. unfold badgeWrites, writeAll. simpl. by rewrite foldl_app.
Qed.

Lemma writeAll_in l b path : path ∈ l.*1 -> exists o, (path, o) ∈ l /\ writeAll b l !! path = Some o.
Proof.
  revert b. induction l as [|x l IH] using rev_ind; intros b Hin; [by apply elem_of_nil in Hin|].
  unfold writeAll. rewrite foldl_app. simpl. fold (writeAll b l).
  destruct (decide (path = x.1)) as [->|Hne].
  - exists x.2. rewrite lookup_insert_eq, elem_of_app. split; [right; destruct x; by left|done].
  - rewrite fmap_app, elem_of_app in Hin. destruct Hin as [Hin|Hin].
    + destruct (IH b Hin) as (o & Ho & Hl). exists o. rewrite elem_of_app, lookup_insert_ne by done. auto.
    + simpl in Hin. apply list_elem_of_singleton in Hin. done.
Qed.

(** After the badges are written, the badge of a test of a virtual device shows
    the status of some test with the same badge path on a virtual device. *)
Lemma updateBadges_virtual p s s' dev t :
  updateBadges p s = (Ret tt, s') -> dev ∈ Virtual p -> t ∈ Tests dev ->
  exists dev' t', dev' ∈ Virtual p /\ t' ∈ Tests dev' /\ statusOf (bucket s') (BadgePath t) = Some (Status t').
Proof.
  intros H Hdev Ht. apply updateBadges_bucket in H. unfold badgeWrites in H.
  rewrite bind_app in H. unfold writeAll in H. rewrite foldl_app in H.
  fold (badgeWrites (Virtual p)) in H.
  destruct (writeAll_in (badgeWrites (Virtual p)) (foldl (fun b x => <[x.1 := x.2]> b) (bucket s)
    (Physical p ≫= (fun dev => (fun t => (BadgePath t, badgeObject dev t)) <$> Tests dev))) (BadgePath t))
    as (o & Ho & Hl).
  { apply list_elem_of_fmap. exists (BadgePath t, badgeObject dev t). split; [done|].
    apply list_elem_of_bind. exists dev. split; [|done]. apply list_elem_of_fmap. eauto. }
  apply list_elem_of_bind in Ho as (dev' & Ho & Hdev'). apply list_elem_of_fmap in Ho as (t' & [= _ ->] & Ht').
  exists dev', t'. unfold statusOf. rewrite H. unfold writeAll in Hl. rewrite Hl. done.
Qed.

(** ** Restoring the status *)

Lemma restoreTests_status dev ts s :
  (forall tr path, AttrsFails tr path = None) ->
  exists dev' ts' s', restoreTests dev ts s = (Ret (dev', ts'), s') /\ bucket s' = bucket s /\
    d_Type dev' = d_Type dev /\
    ((forall t, t ∈ ts -> exists st, statusOf (bucket s) (BadgePath t) = Some st /\ st <> pending) ->
     Forall (fun t => Status t <> pending) ts').
Proof.
  intros Hattrs. revert dev s. induction ts as [|t ts IH]; intros dev s; simpl; [by eauto 10|].
  rewrite Hattrs. destruct (bucket s !! BadgePath t) as [o|] eqn:Eo; simpl.
  - destruct (IH (applyMetadata (obj_Metadata o) dev t).1 (logged (EAttrs (BadgePath t)) s))
      as (dev' & ts' & s' & E & Hb & Hty & Hf).
    unfold mbind, gost_bind. simpl in E. rewrite E. eexists _, _, _. split; [reflexivity|].
    split; [done|]. split; [done|]. intros Hst. constructor; [|apply Hf; intros; apply Hst; by right].
    destruct (Hst t) as (st & Hs & Hne); [by left|]. unfold statusOf in Hs. rewrite Eo in Hs. simpl in Hs.
    simpl. by rewrite Hs.
  - destruct (IH dev (logged (EAttrs (BadgePath t)) s)) as (dev' & ts' & s' & E & Hb & Hty & Hf).
    unfold mbind, gost_bind. rewrite E. eexists _, _, _. split; [reflexivity|].
    split; [done|]. split; [done|]. intros Hst. destruct (Hst t) as (st & Hs & Hne); [by left|].
    unfold statusOf in Hs. by rewrite Eo in Hs.
Qed.

Lemma not_pending_waiting dev : Forall (fun t => Status t <> pending) (Tests dev) -> waiting dev = false.
Proof.
  unfold waiting. intros HF. destruct HF as [|t ts Ht HF]; [done|]. simpl.
  by rewrite (proj2 (String.eqb_neq _ _) Ht).
Qed.

(** What is known of the devices after the metadata was read. *)
Lemma restore_devices devs s :
  (forall tr path, AttrsFails tr path = None) ->
  exists devs' s', mapS restoreDevice devs s = (Ret devs', s') /\ bucket s' = bucket s /\
    (forall dev', dev' ∈ devs' -> exists dev, dev ∈ devs /\ d_Type dev' = d_Type dev) /\
    ((forall dev t, dev ∈ devs -> t ∈ Tests dev ->
        exists st, statusOf (bucket s) (BadgePath t) = Some st /\ st <> pending) ->
     forall dev', dev' ∈ devs' -> waiting dev' = false).
Proof.
  intros Hattrs. revert s. induction devs as [|dev devs IH]; intros s.
  { exists [], s. repeat split; intros ? ?%elem_of_nil || intros ? ? ?%elem_of_nil; done. }
  destruct (restoreTests_status dev (Tests dev) s Hattrs) as (d1 & ts & s1 & E1 & B1 & T1 & F1).
  destruct (IH s1) as (devs' & s2 & E2 & B2 & T2 & F2).
  exists (with_Tests ts d1 :: devs'), s2. split; [|split; [congruence|split]].
  - eapply mapS_cons; [|exact E2]. unfold restoreDevice, mbind, gost_bind. by rewrite E1.
  - intros dev' [->|Hin]%elem_of_cons; [exists dev; split; [by left|done]|].
    destruct (T2 dev' Hin) as (d & ? & ?). exists d. split; [by right|done].
  - intros Hst dev' [->|Hin]%elem_of_cons.
    + apply not_pending_waiting, F1. intros t Ht. apply (Hst dev t); [by left|done].
    + apply F2; [|done]. intros d t Hd Ht. rewrite B1. apply (Hst d t); [by right|done].
Qed.
End Once.

Section EndToEnd.
Context `{G : Git} `{VN : VendorNames} `{MT : MetadataText} `{W : World} `{WL : !WorldLaws}.

Lemma described_paths f fts mds :
  described f fts = Ret mds -> mds.*1 = filter (fun ft => Contains ft "ate_tests" = false) fts.
Proof.
  unfold described. generalize (filter (fun ft => Contains ft "ate_tests" = false) fts) as l.
  intros l. revert mds. induction l as [|ft l IH]; intros mds H; cbn [mapM] in H; go_inv; [done|].
  simpl. f_equal. by apply IH.
Qed.

(** A pull request as [identifyModifiedTests] leaves it: a device of each type,
    with a test for each modified functional test that is not an ATE test. *)
Definition identified (id : Z) (sha url : string) (pr : pullRequest) : Prop :=
  exists r tree ft mf mds,
    setupGitClone url sha = Ret (r, tree) /\ functionalTestPaths tree = Ret ft /\ modifiedFiles r sha = Ret mf /\
    NoDup mds.*1 /\
    (forall x, x ∈ mds.*1 <-> x ∈ modifiedSet ft mf /\ Contains x "ate_tests" = false) /\
    Virtual pr = devicesFor id sha mds virtualDeviceTypes /\
    Physical pr = devicesFor id sha mds physicalDeviceTypes.

Lemma identify_inv id sha url tmp s pr s' :
  identifyModifiedTests (newPullRequest id sha url tmp) s = (Ret pr, s') -> s' = s /\ identified id sha url pr.
Proof.
  unfold identifyModifiedTests. intros H. apply bind_inv in H as (s0 & s1 & Hg & H). injection Hg as <- <-.
  injection H as H <-. split; [done|].
  apply bind_Ret in H as (p1 & H1 & H). apply bind_Ret in H1 as ([r tree] & Hc & H1). injection H1 as <-.
  cbn [repo with_tree localFS HeadSHA newPullRequest pr_ID Virtual Physical] in H.
  apply bind_Ret in H as (ft & Hft & H). apply bind_Ret in H as (mf & Hmf & H).
  apply bind_Ret in H as ([vs ps] & Hd & H). injection H as <-.
  rewrite populateTestDetail_eq in Hd. apply bind_Ret in Hd as (mds & Hmds & Hd). injection Hd as <- <-.
  exists r, tree, ft, mf, mds. do 3 (split; [done|]). rewrite (described_paths _ _ _ Hmds).
  unfold modifiedFunctionalTests. split; [|split; [|done]].
  - apply NoDup_filter. rewrite setOrder_perm. apply NoDup_elements.
  - intros x. rewrite list_elem_of_filter, setOrder_perm, elem_of_elements. naive_solver.
Qed.

(** The badge paths of the virtual devices only depend on the commit. *)
Lemma identified_paths id sha url pr1 pr2 dev2 t2 :
  identified id sha url pr1 -> identified id sha url pr2 ->
  dev2 ∈ Virtual pr2 -> t2 ∈ Tests dev2 ->
  exists dev1 t1, dev1 ∈ Virtual pr1 /\ t1 ∈ Tests dev1 /\ BadgePath t1 = BadgePath t2.
Proof.
  intros (r & tree & ft & mf & mds & Hc & Hft & Hmf & _ & Hm & HV & _)
         (r' & tree' & ft' & mf' & mds' & Hc' & Hft' & Hmf' & _ & Hm' & HV' & _) Hdev Ht.
  rewrite Hc in Hc'. injection Hc' as <- <-. rewrite Hft in Hft'. injection Hft' as <-.
  rewrite Hmf in Hmf'. injection Hmf' as <-. rewrite HV' in Hdev. unfold devicesFor in Hdev.
  destruct mds' as [|x' mdsr] eqn:Em; [by apply elem_of_nil in Hdev|]. rewrite <-Em in *. clear Em.
  apply list_elem_of_fmap in Hdev as (d & -> & Hd). simpl in Ht.
  apply list_elem_of_fmap in Ht as ([p md] & -> & Hp).
  assert (Hin : p ∈ mds.*1).
  { apply Hm, Hm'. apply list_elem_of_fmap. by exists (p, md). }
  apply list_elem_of_fmap in Hin as ([p1 md1] & -> & Hin).
  exists (newDevice d (testsOf id sha mds d)), (newTest id sha p1 md1 d). rewrite HV. unfold devicesFor.
  split; [|split; [|done]].
  - destruct mds; [by apply elem_of_nil in Hin|]. apply list_elem_of_fmap. eauto.
  - simpl. apply list_elem_of_fmap. by exists (p1, md1).
Qed.

Lemma identified_fresh id sha url pr dev :
  identified id sha url pr -> dev ∈ Virtual pr -> waiting dev = true /\ d_Type dev ∈ virtualDeviceTypes.
Proof.
  intros (r & tree & ft & mf & mds & _ & _ & _ & _ & _ & HV & _) Hdev. rewrite HV in Hdev. unfold devicesFor in Hdev.
  destruct mds as [|x mds]; [by apply elem_of_nil in Hdev|].
  apply list_elem_of_fmap in Hdev as (d & -> & Hd). split; [|done]. unfold waiting. simpl.
  clear HV. induction mds as [|y mds IH]; [done|]. exact IH.
Qed.

Lemma identified_physical id sha url pr dev :
  identified id sha url pr -> dev ∈ Physical pr -> d_Type dev ∈ physicalDeviceTypes.
Proof.
  intros (r & tree & ft & mf & mds & _ & _ & _ & _ & _ & _ & HP) Hdev. rewrite HP in Hdev. unfold devicesFor in Hdev.
  destruct mds as [|x mds]; [by apply elem_of_nil in Hdev|]. by apply list_elem_of_fmap in Hdev as (d & -> & Hd).
Qed.

(** After a successful pull request event of an authorized user no badge of a
    virtual device is pending. *)
Lemma processPullRequest_statuses e s s' :
  (forall tr team, GetTeamMembershipBySlug tr team (pe_User e) = MState "active") ->
  processPullRequest e s = (Ret tt, s') ->
  exists pr, identified (pe_Number e) (pe_HeadSHA e) (pe_CloneURL e) pr /\
    forall dev t, dev ∈ Virtual pr -> t ∈ Tests dev ->
      exists st, statusOf (bucket s') (BadgePath t) = Some st /\ st <> pending.
Proof.
  intros Hm H. apply bind_inv in H as (tmp & s1 & _ & H).
  apply bind_inv in H as (pr & s2 & Hi & H). apply wrap_inv, identify_inv in Hi as (_ & Hi).
  apply bind_inv in H as (auth & s3 & Ha & H). apply wrap_inv in Ha.
  assert (auth = true) as ->.
  { unfold authorizedUser in Ha. simpl in Ha. rewrite Hm in Ha. simpl in Ha. by injection Ha as <- _. }
  apply bind_inv in H as (pr' & s4 & Hb & H). apply wrap_inv in Hb.
  apply bind_inv in H as ([] & s5 & Hu & H). apply wrap_inv in Hu, H.
  assert (Hbucket : bucket s' = bucket s5).
  { rewrite <-(updateGitHub_bucket pr' s5). by rewrite H. }
  apply createBuild_inv in Hb as (objPath & p1 & s6 & Hb & EV & _).
  apply launchAll_jobs in Hb as (RV & _). rewrite EV in RV.
  exists pr. split; [done|]. intros dev t Hdev Ht.
  assert (Hset : forall dev', dev' ∈ Virtual pr' -> exists dev0, dev0 ∈ Virtual pr /\
            Tests dev' = set_Status "setup" <$> Tests dev0).
  { intros dev' Hd'. apply list_elem_of_lookup in Hd' as (i & Hi').
    apply (Forall2_lookup_r _ _ _ _ _ RV) in Hi' as (dev0 & Hi0 & HR). exists dev0.
    assert (Hin0 : dev0 ∈ Virtual pr) by (by eapply list_elem_of_lookup_2).
    split; [done|]. destruct (identified_fresh _ _ _ _ _ Hi Hin0) as [Hw Hty]. unfold jobRel in HR.
    rewrite Hw, andb_true_r in HR.
    assert (Hreq : requested matchesVirtual virtualDeviceTypes dev0 = true).
    { apply existsb_exists. exists (d_Type dev0). split; [by apply list_elem_of_In|].
      unfold matchesVirtual. by rewrite bool_decide_true. }
    rewrite Hreq in HR. by destruct HR as (_ & _ & HR). }
  apply list_elem_of_lookup in Hdev as (i & Hi0).
  destruct (Forall2_lookup_l _ _ _ _ _ RV Hi0) as (dev' & Hi' & HR).
  assert (Hin' : dev' ∈ Virtual pr') by (by eapply list_elem_of_lookup_2).
  assert (Hin0 : dev ∈ Virtual pr) by (by eapply list_elem_of_lookup_2).
  assert (Hpath : exists t', t' ∈ Tests dev' /\ BadgePath t' = BadgePath t).
  { unfold jobRel in HR. destruct (_ && _); [|subst dev'; eauto]. destruct HR as (_ & _ & ->).
    exists (set_Status "setup" t). split; [|done]. apply list_elem_of_fmap. eauto. }
  destruct Hpath as (t' & Ht' & <-).
  destruct (updateBadges_virtual pr' s4 s5 dev' t' Hu Hin' Ht') as (dev2 & t2 & Hd2 & Ht2 & Hs).
  rewrite Hbucket. exists (Status t2). split; [done|].
  destruct (Hset dev2 Hd2) as (dev0 & _ & E0). rewrite E0 in Ht2. apply list_elem_of_fmap in Ht2 as (? & -> & _). done.
Qed.

(** The keywords a comment mentions. *)
Lemma selectKeyword_in tr body ds :
  selectKeyword (keywordOrder tr) body = Some ds -> exists k, (k, ds) ∈ triggerKeywords /\ mentions body k = true.
Proof.
  unfold selectKeyword. intros H. apply fmap_Some in H as ([k ds'] & H & ->).
  apply fmap_Some in H as ([i kd] & H & E). simpl in E. subst kd.
  apply list_find_Some in H as (Hi & Hk & _). exists k. split; [|done].
  rewrite <-(keywordOrder_perm tr). by eapply list_elem_of_lookup_2.
Qed.

(** Reading the metadata of launched tests leaves nothing to launch on virtual
    devices. *)
Lemma populate_idle id sha url pr s (ds : list deviceType) pr' s' :
  populateObjectMetadata pr s = (Ret pr', s') ->
  (forall tr path, AttrsFails tr path = None) -> identified id sha url pr ->
  (forall dev t, dev ∈ Virtual pr -> t ∈ Tests dev ->
     exists st, statusOf (bucket s) (BadgePath t) = Some st /\ st <> pending) ->
  (forall d, d ∈ ds -> HardwareModel d <> "") ->
  (forall dev, dev ∈ Virtual pr' -> waiting dev = false) /\
  (forall d dev, d ∈ ds -> dev ∈ Physical pr' -> matchesPhysical d dev = false).
Proof.
  intros Hrun Hattrs Hid Hst Hds. unfold populateObjectMetadata in Hrun.
  destruct (restore_devices (Virtual pr) s Hattrs) as (vs & s1 & E1 & B1 & _ & F1).
  destruct (restore_devices (Physical pr) s1 Hattrs) as (ps & s2 & E2 & B2 & T2 & _).
  unfold mbind, gost_bind in Hrun. rewrite E1, E2 in Hrun. injection Hrun as <- _. simpl.
  split; [by apply F1|]. intros d dev Hd Hdev. apply matchesPhysical_virtual; [by apply Hds|].
  destruct (T2 dev Hdev) as (dev0 & Hin & ->). by eapply identified_physical.
Qed.

Lemma createBuild_idle ds p s :
  (forall dev, dev ∈ Virtual p -> waiting dev = false) ->
  (forall d dev, d ∈ ds -> dev ∈ Physical p -> matchesPhysical d dev = false) ->
  quietAt (createBuild ds p) s.
Proof.
  intros Hv Hp. apply quietAt_bind; [apply quietAt_silent; unfold fetchGoDeps, silent; ci_extends|].
  intros p1 s1 H1. apply bind_inv in H1 as (gobin & s2 & _ & H1).
  apply bind_inv in H1 as (f & s3 & _ & H1). injection H1 as <- <-.
  apply quietAt_bind; [apply quietAt_silent; unfold createArchive, silent; ci_extends|].
  intros objPath s4 _. exists []. by rewrite launchAll_idle.
Qed.

(** C18: jobs are not launched twice.  Take a pull request event that an
    authorized user caused and that was handled without an error, and later a
    comment on the same pull request, still at the same commit, that mentions
    only keywords of virtual devices, while in between launched badges were only
    moved to other launched states.  If the metadata of badges can be read whenever
    it is asked for, handling the comment launches no job, whatever the order in
    which Go iterates over its maps and whatever the other services answer.  The
    condition is needed: a badge whose metadata cannot be read is skipped, its test
    stays pending and its device is launched again ([unreadable_relaunches]). *)
Theorem launched_once e c s0 s1 s2 :
  (forall tr team, GetTeamMembershipBySlug tr team (pe_User e) = MState "active") ->
  processPullRequest e s0 = (Ret tt, s1) ->
  keepsStatus (bucket s1) (bucket s2) ->
  ic_Number c = pe_Number e ->
  (forall tr, GetPullRequest tr (ic_Number c) = Ret (pe_HeadSHA e, pe_CloneURL e)) ->
  (forall tr path, AttrsFails tr path = None) ->
  (forall k ds d, (k, ds) ∈ triggerKeywords -> mentions (ic_Body c) k = true -> d ∈ ds -> HardwareModel d <> "") ->
  exists new, st_trace (processIssueComment c s2).2 = new ++ st_trace s2 /\ launches new = 0.
Proof.
  intros Hm Hp Hk Hn Hget Hattrs Hkw. destruct (processPullRequest_statuses e s0 s1 Hm Hp) as (pr0 & Hid0 & Hst0).
  change (quietAt (processIssueComment c) s2). unfold processIssueComment.
  destruct (String.eqb _ ""); [apply quietAt_silent, extends_ret|].
  apply quietAt_bind.
  { apply quietAt_wrap. destruct (memberOfOne_evidence authorizedTeams (ic_User c) s2) as (new & He & HQ & _).
    exists new. split; [done|]. by apply launches_silent. }
  intros auth s3 Ha. apply wrap_inv in Ha.
  assert (B3 : bucket s3 = bucket s2).
  { rewrite <-(memberOfOne_bucket authorizedTeams (ic_User c) s2). unfold authorizedUser in Ha. by rewrite Ha. }
  destruct (negb auth); [apply quietAt_silent, extends_ret|].
  destruct (negb _); [apply quietAt_silent, extends_ret|].
  apply quietAt_bind; [by apply quietAt_silent, extends_ask|intros tmp s4 H4]. injection H4 as _ <-.
  apply quietAt_bind; [by apply quietAt_wrap, quietAt_silent, extends_ask|intros [sha url] s5 H5].
  apply wrap_inv in H5. unfold ask in H5. rewrite Hget in H5. injection H5 as <- <- <-.
  apply quietAt_bind; [apply quietAt_wrap, quietAt_silent, silent_identify|intros pr s6 H6].
  apply wrap_inv, identify_inv in H6 as (-> & Hid). rewrite Hn in Hid.
  assert (Hst : forall dev t, dev ∈ Virtual pr -> t ∈ Tests dev ->
    exists st, statusOf (bucket s3) (BadgePath t) = Some st /\ st <> pending).
  { intros dev t Hdev Ht.
    destruct (identified_paths _ _ _ _ _ dev t Hid0 Hid Hdev Ht) as (dev1 & t1 & Hd1 & Ht1 & <-).
    destruct (Hst0 dev1 t1 Hd1 Ht1) as (st & Hs & Hne). rewrite B3. by eapply Hk. }
  apply quietAt_bind; [apply quietAt_silent, silent_populate|intros pr' s7 H7].
  apply quietAt_bind; [apply quietAt_silent, extends_get|intros s8 s9 H8]. injection H8 as <- <-.
  destruct (selectKeyword _ _) as [ds|] eqn:Esel; [|apply quietAt_silent, extends_ret].
  destruct (selectKeyword_in _ _ _ Esel) as (k & Hkin & Hment).
  destruct (populate_idle _ _ _ _ _ ds _ _ H7 Hattrs Hid Hst) as [Hv Hph]; [by intros d Hd; eapply Hkw|].
  apply quietAt_bind; [by apply quietAt_wrap, createBuild_idle|intros pr1 s9 _].
  apply quietAt_bind; [apply quietAt_wrap, quietAt_silent, silent_updateBadges|intros [] s10 _].
  apply quietAt_wrap, quietAt_silent, silent_updateGitHub.
Qed.
End EndToEnd.

(** * Badges record the state of a pull request *)

Section RoundTrip.
Context `{G : Git} `{VL : VendorLaws} `{MT : MetadataText} `{W : World} `{WL : !WorldLaws}.

(** A device with other statuses and build fields. *)
Definition progressed (dev dev' : device) : Prop :=
  d_Type dev' = d_Type dev /\ Forall2 (fun t t' => t' = set_Status (Status t') t) (Tests dev) (Tests dev').

Lemma jobRel_progressed m objPath dev dev' : jobRel m objPath dev dev' -> progressed dev dev'.
Proof.
  unfold jobRel, progressed. destruct (_ && _); [intros (-> & _ & ->)|intros ->]; (split; [done|]).
  - induction (Tests dev); constructor; done.
  - induction (Tests dev) as [|[] ts IH]; constructor; done.
Qed.

Definition forgetArchive (dev : device) : device :=
  {| d_Type := d_Type dev; CloudBuildID := CloudBuildID dev; CloudBuildLogURL := CloudBuildLogURL dev;
     CloudBuildRawLogURL := CloudBuildRawLogURL dev; ArchivePath := ""; Tests := Tests dev |}.

Definition withIDs (dev' dev : device) : device :=
  {| d_Type := d_Type dev; CloudBuildID := CloudBuildID dev'; CloudBuildLogURL := CloudBuildLogURL dev';
     CloudBuildRawLogURL := CloudBuildRawLogURL dev'; ArchivePath := ArchivePath dev; Tests := Tests dev |}.

Lemma applyMetadata_badge dev' t' dev t :
  applyMetadata (obj_Metadata (badgeObject dev' t')) dev t = (withIDs dev' dev, set_Status (Status t') t).
Proof. reflexivity. Qed.

Lemma restoreTests_exact dev' ts ts' dev s :
  (forall tr path, AttrsFails tr path = None) ->
  Forall2 (fun t t' => t' = set_Status (Status t') t) ts ts' ->
  (forall t', t' ∈ ts' -> bucket s !! BadgePath t' = Some (badgeObject dev' t')) ->
  exists s', restoreTests dev ts s = (Ret (match ts with [] => dev | _ => withIDs dev' dev end, ts'), s') /\
    bucket s' = bucket s.
Proof.
  intros Hattrs HF. revert dev s. induction HF as [|t t' ts ts' Ht HF IH]; intros dev s Hb; [by exists s|].
  assert (Hp : bucket s !! BadgePath t = Some (badgeObject dev' t')).
  { rewrite <-(Hb t') by (by left). by rewrite Ht. }
  destruct (IH (withIDs dev' dev) (logged (EAttrs (BadgePath t)) s)) as (s' & E & Hb').
  { intros; apply Hb; by right. }
  exists s'. split; [|done]. cbn [restoreTests]. unfold Attrs. rewrite Hattrs, Hp. cbv iota zeta.
  rewrite applyMetadata_badge. unfold mbind, gost_bind. rewrite E, Ht. by destruct ts.
Qed.

Lemma restoreDevice_exact dty ts dev' s :
  (forall tr path, AttrsFails tr path = None) -> ts <> [] -> progressed (newDevice dty ts) dev' ->
  (forall t', t' ∈ Tests dev' -> bucket s !! BadgePath t' = Some (badgeObject dev' t')) ->
  exists s', restoreDevice (newDevice dty ts) s = (Ret (forgetArchive dev'), s') /\ bucket s' = bucket s.
Proof.
  intros Hattrs Hne [Hty HF] Hb. simpl in Hty, HF.
  destruct (restoreTests_exact dev' ts (Tests dev') (newDevice dty ts) s Hattrs HF Hb) as (s' & E & Hb').
  exists s'. split; [|done]. unfold restoreDevice. simpl Tests. unfold mbind, gost_bind. rewrite E.
  destruct ts; [done|]. unfold forgetArchive. by rewrite Hty.
Qed.

Lemma mapS_restore_exact devs devs' s :
  (forall tr path, AttrsFails tr path = None) ->
  Forall (fun dev => exists dty ts, dev = newDevice dty ts /\ ts <> []) devs ->
  Forall2 progressed devs devs' ->
  (forall dev' t', dev' ∈ devs' -> t' ∈ Tests dev' -> bucket s !! BadgePath t' = Some (badgeObject dev' t')) ->
  exists s', mapS restoreDevice devs s = (Ret (forgetArchive <$> devs'), s') /\ bucket s' = bucket s.
Proof.
  intros Hattrs Hnew HF. revert s. induction HF as [|dev dev' devs devs' Hd HF IH]; intros s Hb; [by exists s|].
  rewrite Forall_cons in Hnew. destruct Hnew as [(dty & ts & -> & Hne) Hnew].
  destruct (restoreDevice_exact dty ts dev' s Hattrs Hne Hd) as (s1 & E1 & B1).
  { intros t' Ht'. apply Hb; [by left|done]. }
  destruct (IH Hnew s1) as (s2 & E2 & B2).
  { intros d t' Hin Ht'. rewrite B1. apply Hb; [by right|done]. }
  exists s2. split; [|congruence]. by eapply mapS_cons.
Qed.

Lemma writeAll_NoDup l b path o : NoDup l.*1 -> (path, o) ∈ l -> writeAll b l !! path = Some o.
Proof.
  intros Hnd Hin. destruct (writeAll_in l b path) as (o' & Hin' & Hl).
  { apply list_elem_of_fmap. by exists (path, o). }
  rewrite Hl. f_equal. apply list_elem_of_lookup in Hin as (i & Hi), Hin' as (j & Hj).
  assert (i = j) as <-.
  { eapply (NoDup_lookup l.*1 i j path); [done|by rewrite list_lookup_fmap, Hi|by rewrite list_lookup_fmap, Hj]. }
  congruence.
Qed.

(** The badge paths of devices. *)
Definition badgePaths (devs : list device) : list string := dev ← devs; BadgePath <$> Tests dev.

Lemma badgeWrites_cons dev devs :
  badgeWrites (dev :: devs) = ((fun t => (BadgePath t, badgeObject dev t)) <$> Tests dev) ++ badgeWrites devs.
Proof. done. Qed.
Lemma badgePaths_cons dev devs : badgePaths (dev :: devs) = (BadgePath <$> Tests dev) ++ badgePaths devs.
Proof. done. Qed.

Lemma badgeWrites_paths devs : (badgeWrites devs).*1 = badgePaths devs.
Proof.
  induction devs as [|dev devs IH]; [done|]. rewrite badgeWrites_cons, badgePaths_cons, fmap_app, IH. f_equal.
  by rewrite <-list_fmap_compose.
Qed.

Lemma progressed_paths devs devs' : Forall2 progressed devs devs' -> badgePaths devs' = badgePaths devs.
Proof.
  induction 1 as [|dev dev' devs devs' [_ Hd] HF IH]; [done|]. rewrite !badgePaths_cons, IH. f_equal.
  induction Hd as [|t t' ts ts' Ht Hd IHd]; [done|]. rewrite !fmap_cons, IHd. f_equal. by rewrite Ht.
Qed.

Lemma devicesFor_paths id sha mds types :
  badgePaths (devicesFor id sha mds types) = (d ← types; (fun ft => badgePath id sha ft d) <$> mds.*1).
Proof.
  induction types as [|d types IH]; [by destruct mds|].
  assert (Hc : badgePaths (devicesFor id sha mds (d :: types)) =
    (BadgePath <$> testsOf id sha mds d) ++ badgePaths (devicesFor id sha mds types)) by by destruct mds.
  rewrite Hc, IH. change ((d :: types) ≫= ?f) with (f d ++ (types ≫= f)). f_equal.
  unfold testsOf. by rewrite <-!list_fmap_compose.
Qed.

Lemma identified_NoDup id sha url pr : identified id sha url pr -> NoDup (badgePaths (Physical pr ++ Virtual pr)).
Proof.
  intros (r & tree & ft & mf & mds & _ & _ & _ & Hnd & _ & -> & ->).
  unfold badgePaths. rewrite bind_app. fold (badgePaths (devicesFor id sha mds physicalDeviceTypes)).
  fold (badgePaths (devicesFor id sha mds virtualDeviceTypes)). rewrite !devicesFor_paths, <-bind_app.
  assert (Hall : forall d, d ∈ physicalDeviceTypes ++ virtualDeviceTypes -> d ∈ allDeviceTypes).
  { intros d. unfold allDeviceTypes. rewrite !elem_of_app. tauto. }
  apply NoDup_bind.
  - intros d1 d2 y H1 H2 Hy1 Hy2. apply list_elem_of_fmap in Hy1 as (ft1 & -> & _), Hy2 as (ft2 & Heq & _).
    apply badgePath_inj in Heq as [_ ?]; auto.
  - intros d Hd. apply NoDup_fmap_2_strong; [|done]. intros ft1 ft2 _ _ Heq.
    apply badgePath_inj in Heq as [? _]; auto.
  - apply (bool_decide_unpack _). vm_compute. exact I.
Qed.

Lemma identified_new id sha url pr :
  identified id sha url pr ->
  Forall (fun dev => exists dty ts, dev = newDevice dty ts /\ ts <> []) (Virtual pr) /\
  Forall (fun dev => exists dty ts, dev = newDevice dty ts /\ ts <> []) (Physical pr).
Proof.
  intros (r & tree & ft & mf & mds & _ & _ & _ & _ & _ & -> & ->).
  assert (Hnew : forall types, Forall (fun dev => exists dty ts, dev = newDevice dty ts /\ ts <> [])
    (devicesFor id sha mds types)); [|by split; apply Hnew].
  intros types. unfold devicesFor. destruct mds as [|x mds]; [constructor|].
  apply Forall_fmap, Forall_forall. intros d _. by eexists _, _.
Qed.

(** C20: badges keep the state of a pull request.  After the tests of a commit were
    identified, builds were launched and the badges were written, an event that
    identifies the same tests afresh and reads the badges recovers every device
    as it was left, with its build identifier, its log addresses and the status
    of each test; only the path of the archive is not recorded. *)
Theorem badges_roundtrip id sha url tmp s0 s1 ds pr pr' s2 s3 s4 :
  identifyModifiedTests (newPullRequest id sha url tmp) s0 = (Ret pr, s1) ->
  createBuild ds pr s2 = (Ret pr', s3) ->
  updateBadges pr' s3 = (Ret tt, s4) ->
  (forall tr path, AttrsFails tr path = None) ->
  exists s5, populateObjectMetadata pr s4 =
    (Ret (with_devices (forgetArchive <$> Virtual pr') (forgetArchive <$> Physical pr') pr), s5).
Proof.
  intros Hi Hb Hu Hattrs. apply identify_inv in Hi as [_ Hi].
  apply createBuild_inv in Hb as (objPath & p1 & s6 & Hb & EV & EP & _).
  apply launchAll_jobs in Hb as (RV & RP & _). rewrite EV in RV. rewrite EP in RP.
  apply updateBadges_bucket in Hu. destruct (identified_new _ _ _ _ Hi) as [NV NP].
  apply identified_NoDup in Hi as Hnd.
  assert (HV : Forall2 progressed (Virtual pr) (Virtual pr')) by (eapply Forall2_impl; eauto using jobRel_progressed).
  assert (HP : Forall2 progressed (Physical pr) (Physical pr')) by (eapply Forall2_impl; eauto using jobRel_progressed).
  rewrite <-(progressed_paths _ (Physical pr' ++ Virtual pr')), <-badgeWrites_paths in Hnd by by apply Forall2_app.
  assert (Hread : forall dev' t', dev' ∈ Physical pr' ++ Virtual pr' -> t' ∈ Tests dev' ->
    bucket s4 !! BadgePath t' = Some (badgeObject dev' t')).
  { intros dev' t' Hd Ht. rewrite Hu. apply writeAll_NoDup; [done|]. apply list_elem_of_bind. exists dev'.
    split; [|done]. apply list_elem_of_fmap. eauto. }
  destruct (mapS_restore_exact (Virtual pr) (Virtual pr') s4 Hattrs NV HV) as (s7 & E7 & B7).
  { intros d t Hd Ht. apply Hread; [apply elem_of_app; by right|done]. }
  destruct (mapS_restore_exact (Physical pr) (Physical pr') s7 Hattrs NP HP) as (s8 & E8 & _).
  { intros d t Hd Ht. rewrite B7. apply Hread; [apply elem_of_app; by left|done]. }
  exists s8. unfold populateObjectMetadata, mbind, gost_bind. by rewrite E7, E8.
Qed.
End RoundTrip.

(** * A concrete world *)

Module Sample.
Definition tree : node :=
  NDir [("cloudbuild", NDir [("virtual.yaml", NFile "build")]);
        ("feature", NDir [("x", NDir [("test1", NDir [("metadata.textproto", NFile "md"); ("a_test.go", NFile "")])])])].

#[export] Instance git : Git := {|
  Repo := unit; Hash := string; Commit := string;
  PlainClone _ := Ret tt; CreateRemote _ _ _ := Ret tt; Fetch _ _ := Ret tt; Worktree _ := Ret tt;
  Checkout _ _ := Ret tree; NewHash h := h; HashString h := h;
  ResolveRevision _ r := Ret r; CommitObject _ h := Ret h; CommitHash c := c;
  MergeBase _ b := Ret [b];
  FilePatches _ _ := Ret [(Some "feature/x/test1/a_test.go", None)] |}.

#[export] Instance names : VendorNames := fun v =>
  match v with
  | ARISTA => "ARISTA" | CISCO => "CISCO" | JUNIPER => "JUNIPER" | NOKIA => "NOKIA" | OPENCONFIG => "OPENCONFIG"
  end.
#[export] Instance nameLaws : VendorLaws.
Proof.
  split; [intros [] []; vm_compute; congruence|].
  intros v c Hc. apply str_elem_list in Hc.
  repeat split; intros ->; destruct v; vm_compute in Hc; discriminate Hc.
Qed.

#[export] Instance metadata : MetadataText := fun _ => Ret ("X-1.1", "A test").

Definition worldWith (attrs : list event -> string -> option error) : World := {|
  Getenv _ := "secret"; ReadSecret _ := Ret "secret"; NewClient _ _ := Ret tt;
  GetTeamMembershipBySlug _ _ _ := MState "active";
  GetPullRequest _ _ := Ret ("c0ffee", "url");
  MkdirTemp _ := Ret "/tmp/fptest"; NewRandom tr := Ret {| uuid_hex := "00"; uuid_text := pretty (length tr) |};
  Unix tr := Z.of_nat (length tr); LookPath _ := Ret "go"; GoModVendor _ f := Ret f; readLinkFS := true;
  UploadArchive _ _ := Ret tt;
  unmarshalBuild _ := Ret (Some {| Substitutions := Some ∅; LogsBucket := ""; StorageSource := None;
                                   ServiceAccount := ""; b_rest := "" |});
  CreateCloudBuild tr _ := Ret (pretty (length tr));
  unmarshalBOM meta := Ret (Some (meta, "log")); Publish _ _ := Ret "id";
  AttrsFails := attrs; WriteFails _ _ := None;
  ListComments _ _ := Ret []; PostComment _ _ := Ret tt;
  setOrder _ m := elements m; keywordOrder _ := triggerKeywords |}.
#[export] Instance world : World := worldWith (fun _ _ => None).
#[export] Instance worldLaws : WorldLaws.
Proof. by split. Qed.

Definition start : state := {| st_trace := []; bucket := ∅ |}.
Definition opened : PullRequestEvent :=
  {| pe_Action := "opened"; pe_Number := 7; pe_HeadSHA := "c0ffee"; pe_CloneURL := "url"; pe_User := "alice" |}.
Definition comment (body : string) : IssueCommentEvent :=
  {| ic_Action := "created"; ic_PullRequestURL := "pr"; ic_Number := 7; ic_User := "bob"; ic_Body := body |}.
Definition afterOpened : state := (processPullRequest opened start).2.

Example opened_launches : launches (st_trace afterOpened) = 6.
Proof. vm_compute. reflexivity. Qed.
Example physical_launches : launches (st_trace (processIssueComment (comment "/fptest physical") afterOpened).2) = 10.
Proof. vm_compute. reflexivity. Qed.

(** Badges that cannot be read: the jobs of the same commit are launched again. *)
Example unreadable_relaunches :
  launches (st_trace (@processIssueComment _ _ _ (worldWith (fun _ _ => Some (errors_New "unavailable")))
    (comment "/fptest all") afterOpened).2) = 12.
Proof. vm_compute. reflexivity. Qed.

Definition blank : pullRequest := newPullRequest 7 "c0ffee" "url" "/tmp/fptest".
Definition resultOf {A} (a : A) (r : go A * state) : A := match r.1 with Ret b => b | _ => a end.
Definition found : pullRequest := resultOf blank (identifyModifiedTests blank start).
Definition built : pullRequest := resultOf blank (createBuild virtualDeviceTypes found start).
Definition afterBuild : state := (createBuild virtualDeviceTypes found start).2.
Definition afterBadges : state := (updateBadges built afterBuild).2.

Lemma createBuild_jobs_witness :
  exists new, st_trace afterBuild = new ++ [] /\ launches new = 6.
Proof.
  destruct (createBuild_jobs virtualDeviceTypes found start built afterBuild) as (o & new & E & _ & _ & L & _).
  - vm_compute. reflexivity.
  - exists new. split; [exact E|]. rewrite L. vm_compute. reflexivity.
Defined.

Lemma launched_once_witness :
  exists new, st_trace (processIssueComment (comment "/fptest all") afterOpened).2 = new ++ st_trace afterOpened /\
    launches new = 0.
Proof.
  apply (launched_once opened (comment "/fptest all") start afterOpened afterOpened).
  - reflexivity.
  - vm_compute. reflexivity.
  - intros path st Hst Hne. exists st. auto.
  - reflexivity.
  - reflexivity.
  - reflexivity.
  - intros k ds d Hk Hm. unfold triggerKeywords in Hk. rewrite !elem_of_cons, elem_of_nil in Hk.
    repeat destruct Hk as [[= -> ->]|Hk]; try (vm_compute in Hm; discriminate Hm); [|destruct Hk].
    rewrite !elem_of_cons, elem_of_nil. intros Hd. repeat destruct Hd as [->|Hd]; done.
Defined.

Lemma badges_roundtrip_witness :
  exists s5, populateObjectMetadata found afterBadges =
    (Ret (with_devices (forgetArchive <$> Virtual built) (forgetArchive <$> Physical built) found), s5).
Proof.
  apply (badges_roundtrip 7 "c0ffee" "url" "/tmp/fptest" start start virtualDeviceTypes found built start
           afterBuild afterBadges); vm_compute; reflexivity.
Defined.
End Sample.
