(* ===== verification/Gribi.v ===== *)
(** * gRIBI client

    [src/internal/gribi/gribi.go]: election identifiers, the wrapper around the
    fluent client, and the entries and expected results it builds.

    The fluent client of gribigo is outside the repository: it is the class
    [Fluent] over a type [E] of environments (the device and the state of the
    client library) and a type [F] of client handles; a pointer to a client is
    an [option F].  A value built by a chain of [With...] calls is the list of
    those calls.  [t.Fatalf] and [t.Fatal] are [Panic]. *)
From stdpp Require Import base list gmap strings.
From Stdlib Require Import ZArith Lia.
From S2P Require Import Prelude.
From S2P Require Import IPUtil.
Local Open Scope Z_scope.

(** ** Election identifiers *)

Record Uint128 := { Low : Z; High : Z }.
#[global] Instance Uint128_eq_dec : EqDecision Uint128.
Proof. solve_decision. Defined.

Definition Increment (i : Uint128) : Uint128 :=
  let newLow := uint64 (Low i + 1) in
  {| Low := newLow;
     High := if newLow <? Low i then uint64 (High i + 1) else High i |}.

Definition Decrement (i : Uint128) : Uint128 :=
  let newLow := uint64 (Low i - 1) in
  {| Low := newLow;
     High := if Low i <? newLow then uint64 (High i - 1) else High i |}.

(** The number an identifier stands for, and the identifiers of two [uint64]s. *)
Definition u128 (i : Uint128) : Z := High i * 2 ^ 64 + Low i.
Definition u128_ok (i : Uint128) : Prop := 0 <= Low i < 2 ^ 64 /\ 0 <= High i < 2 ^ 64.

(** ** Builder calls of the fluent package *)

Inductive TunnelHeader := IPinIP.

Inductive NHCall :=
| NH_WithNetworkInstance (ni : string)
| NH_WithIndex (index : Z)
| NH_WithIPAddress (addr : string)
| NH_WithDecapsulateHeader (h : TunnelHeader)
| NH_WithEncapsulateHeader (h : TunnelHeader)
| NH_WithIPinIP (src dst : string)
| NH_WithNextHopNetworkInstance (ni : string)
| NH_WithSubinterfaceRef (name : string) (sub : Z)
| NH_WithInterfaceRef (name : string)
| NH_WithMacAddress (mac : string).

Inductive NHGCall :=
| NHG_WithNetworkInstance (ni : string)
| NHG_WithID (id : Z)
| NHG_AddNextHop (index weight : Z)
| NHG_WithBackupNHG (id : Z).

(** The calls of [IPv4Entry] and of [IPv6Entry]. *)
Inductive IPCall :=
| IP_WithPrefix (pfx : string)
| IP_WithNetworkInstance (ni : string)
| IP_WithNextHopGroup (id : Z)
| IP_WithNextHopGroupNetworkInstance (ni : string).

Inductive GRIBIEntry :=
| NextHopEntry (calls : list NHCall)
| NextHopGroupEntry (calls : list NHGCall)
| IPv4Entry (calls : list IPCall)
| IPv6Entry (calls : list IPCall).

Inductive OpType := OpAdd | OpDelete.

Inductive OpCall :=
| Op_WithNextHopOperation (index : Z)
| Op_WithNextHopGroupOperation (id : Z)
| Op_WithIPv4Operation (pfx : string)
| Op_WithIPv6Operation (pfx : string)
| Op_WithOperationType (ty : OpType)
| Op_WithProgrammingResult (res : Z).

Inductive ConnCall :=
| Conn_WithStub
| Conn_WithElectedPrimaryClient
| Conn_WithInitialElectionID (low high : Z)
| Conn_WithPersistence
| Conn_WithFIBACK.

Inductive FlushCall :=
| Flush_WithElectionID (low high : Z)
| Flush_WithNetworkInstance (ni : string)
| Flush_WithElectionOverride
| Flush_WithAllNetworkInstances.

(** The fields of [client.OpResult] the code reads. *)
Record OpDetails := {
  NextHopIndex : Z;
  NextHopGroupID : Z;
  IPv4Prefix : string;
  IPv6Prefix : string
}.

Record OpResult := {
  CurrentServerElectionID : option Uint128;
  ServerError : string;
  ClientError : string;
  op_ProgrammingResult : Z;
  Details : option OpDetails
}.

(** ** The fluent client and the result checker *)

Class Fluent (E F : Type) := {
  NewClient : gost E F;
  ConnectionConfig : option F -> list ConnCall -> gost E unit;
  fluent_Start : option F -> gost E unit;
  fluent_StartSending : option F -> gost E unit;
  fluent_Stop : option F -> gost E unit;
  fluent_Await : option F -> gost E unit;
  Modify_AddEntry : option F -> list GRIBIEntry -> gost E unit;
  Modify_DeleteEntry : option F -> list GRIBIEntry -> gost E unit;
  Modify_UpdateElectionID : option F -> Z -> Z -> gost E unit;
  Results : option F -> gost E (list OpResult);
  Flush_Send : option F -> list FlushCall -> gost E unit;
  InstalledInFIB : Z;
  AFTResult_FIB_FAILED : Z;
  AsResult : list OpCall -> OpResult;
  HasResult : list OpResult -> OpResult -> bool;
  HasResultsCache : list OpResult -> list OpResult -> bool
}.

(** [if err := m; err != nil { t.Fatal(err) }] *)
Definition orFatal {S A} (m : gost S A) : gost S A := fun s =>
  match m s with
  | (Fail _, s) => (Panic, s)
  | r => r
  end.

(** ** Entries and the results to expect of them *)

Record NHGOptions := { BackupNHG : Z }.

Record NHOptions := {
  opt_Src : string;
  opt_Dest : string;
  opt_VrfName : string;
  opt_Mac : string;
  opt_Interface : string;
  opt_SubInterface : Z
}.

(** [for _, opt := range opts] over pointers that the body dereferences. *)
Fixpoint eachOpt (f : NHOptions -> list NHCall) (opts : list (option NHOptions)) : go (list NHCall) :=
  match opts with
  | [] => Ret []
  | None :: _ => Panic
  | Some o :: opts => rest ← eachOpt f opts; Ret (f o ++ rest)
  end.

Definition NHEntry (nhIndex : Z) (address inst : string) (expectedResult : Z)
    (opts : list (option NHOptions)) : go (GRIBIEntry * list OpCall) :=
  let vrf o := [NH_WithNextHopNetworkInstance (opt_VrfName o)] in
  let tunnel o := NH_WithIPinIP (opt_Src o) (opt_Dest o) :: vrf o in
  calls ←
    (if decide (address = "Decap") then
       rest ← eachOpt vrf opts; Ret (NH_WithDecapsulateHeader IPinIP :: rest)
     else if decide (address = "DecapEncap") then
       rest ← eachOpt tunnel opts;
       Ret (NH_WithDecapsulateHeader IPinIP :: NH_WithEncapsulateHeader IPinIP :: rest)
     else if decide (address = "Encap") then
       rest ← eachOpt tunnel opts; Ret (NH_WithEncapsulateHeader IPinIP :: rest)
     else if decide (address = "VRFOnly") then eachOpt vrf opts
     else if decide (address = "MACwithInterface") then
       eachOpt (fun o =>
         (if opt_SubInterface o =? 0 then
            [NH_WithInterfaceRef (opt_Interface o); NH_WithMacAddress (opt_Mac o)]
          else
            [NH_WithSubinterfaceRef (opt_Interface o) (opt_SubInterface o);
             NH_WithMacAddress (opt_Mac o)]) ++
         (if decide (opt_Dest o = "") then [] else [NH_WithIPAddress (opt_Dest o)])) opts
     else if decide (address = "MACwithIp") then
       eachOpt (fun o => [NH_WithIPAddress (opt_Dest o); NH_WithMacAddress (opt_Mac o)]) opts
     else Ret [NH_WithIPAddress address]);
  Ret (NextHopEntry (NH_WithNetworkInstance inst :: NH_WithIndex nhIndex :: calls),
       [Op_WithNextHopOperation nhIndex; Op_WithOperationType OpAdd;
        Op_WithProgrammingResult expectedResult]).

(** [nhWeights] is the map in the order of iteration. *)
Definition NHGEntry (nhgIndex : Z) (nhWeights : list (Z * Z)) (inst : string)
    (expectedResult : Z) (opts : list (option NHGOptions)) : GRIBIEntry * list OpCall :=
  (NextHopGroupEntry
     ([NHG_WithNetworkInstance inst; NHG_WithID nhgIndex] ++
      ((fun '(nhIndex, weight) => NHG_AddNextHop nhIndex weight) <$> nhWeights) ++
      (opts ≫= fun o =>
         match o with
         | Some o => if BackupNHG o =? 0 then [] else [NHG_WithBackupNHG (BackupNHG o)]
         | None => []
         end)),
   [Op_WithNextHopGroupOperation nhgIndex; Op_WithOperationType OpAdd;
    Op_WithProgrammingResult expectedResult]).

(** ** Functions on the fluent client *)

Section Functions.
Context {E F : Type} `{FL : !Fluent E F}.

Definition awaitTimeout (c : option F) : gost E unit := fluent_Await c.

(** [chk.HasResult] fails the test when the result is absent. *)
Definition chkHasResult (rs : list OpResult) (want : OpResult) : gost E unit :=
  if HasResult rs want then mret tt else lift Panic.

Definition LearnElectionID (c : option F) : gost E Uint128 :=
  _ ← Modify_UpdateElectionID c 1 0;
  _ ← orFatal (awaitTimeout c);
  results ← Results c;
  match last results with
  | Some r =>
      match CurrentServerElectionID r with
      | Some eID => mret {| Low := Low eID; High := High eID |}
      | None => lift Panic
      end
  | None => lift Panic
  end.

Definition UpdateElectionID (c : option F) (electionID : Uint128) : gost E unit :=
  _ ← Modify_UpdateElectionID c (Low electionID) (High electionID);
  orFatal (awaitTimeout c).

Definition BecomeLeader (c : option F) : gost E Uint128 :=
  eID ← LearnElectionID c;
  _ ← UpdateElectionID c (Increment eID);
  mret (Increment eID).

Definition Flush (c : option F) (electionID : Uint128) (ni : string) : gost E unit :=
  Flush_Send c [Flush_WithElectionID (Low electionID) (High electionID); Flush_WithNetworkInstance ni].

Definition FlushAll (c : option F) : gost E unit := fun e =>
  match Flush_Send c [Flush_WithElectionOverride; Flush_WithAllNetworkInstances] e with
  | (Fail _, e) => (Fail (errors_New "could not remove all gribi entries, got error:"), e)
  | r => r
  end.
End Functions.

(** ** The client *)

Section Client.
Context {E F : Type} `{FL : !Fluent E F}.

Record Client := {
  FIBACK : bool;
  Persistence : bool;
  fluentC : option F;
  electionID : Uint128
}.

Definition set_fluentC (c : Client) (f : option F) : Client :=
  {| FIBACK := FIBACK c; Persistence := Persistence c; fluentC := f; electionID := electionID c |}.
Definition set_electionID (c : Client) (i : Uint128) : Client :=
  {| FIBACK := FIBACK c; Persistence := Persistence c; fluentC := fluentC c; electionID := i |}.

(** Methods change the client and the environment; the changes made before an
    error remain. *)
Abbreviation method A := (gost (Client * E) A).

Definition onEnv {A} (m : Client -> gost E A) : method A := fun '(c, e) =>
  let '(r, e) := m c e in (r, (c, e)).
Definition modifyClient (f : Client -> Client) : method unit := fun '(c, e) => (Ret tt, (f c, e)).

Definition AwaitTimeout : method unit := onEnv (fun c => awaitTimeout (fluentC c)).

Definition client_Start : method unit :=
  h ← onEnv (fun _ => NewClient);
  _ ← modifyClient (fun c => set_fluentC c (Some h));
  _ ← modifyClient (fun c => set_electionID c {| Low := 1; High := 0 |});
  _ ← onEnv (fun c => ConnectionConfig (fluentC c)
        ([Conn_WithStub; Conn_WithElectedPrimaryClient;
          Conn_WithInitialElectionID (Low (electionID c)) (High (electionID c))] ++
         (if Persistence c then [Conn_WithPersistence] else []) ++
         (if FIBACK c then [Conn_WithFIBACK] else [])));
  _ ← onEnv (fun c => fluent_Start (fluentC c));
  _ ← onEnv (fun c => fluent_StartSending (fluentC c));
  AwaitTimeout.

Definition client_Close : method unit :=
  '(c, _) ← getState;
  match fluentC c with
  | Some h => _ ← onEnv (fun _ => fluent_Stop (Some h)); modifyClient (fun c => set_fluentC c None)
  | None => mret tt
  end.

Definition client_LearnElectionID : method Uint128 := onEnv (fun c => LearnElectionID (fluentC c)).

Definition client_UpdateElectionID (id : Uint128) : method unit :=
  _ ← onEnv (fun c => UpdateElectionID (fluentC c) id);
  modifyClient (fun c => set_electionID c id).

Definition client_BecomeLeader : method Uint128 :=
  eID ← onEnv (fun c => BecomeLeader (fluentC c));
  _ ← modifyClient (fun c => set_electionID c eID);
  mret eID.

Definition checkResults (expectedResults : list OpResult) : method unit :=
  forEach (fun want => onEnv (fun c => rs ← Results (fluentC c); chkHasResult rs want)) expectedResults.

Definition AddEntries (entries : list GRIBIEntry) (expectedResults : list OpResult) : method unit :=
  _ ← onEnv (fun c => Modify_AddEntry (fluentC c) entries);
  match expectedResults with
  | [] => mret tt
  | _ => _ ← orFatal AwaitTimeout; checkResults expectedResults
  end.

Definition DeleteEntries (entries : list GRIBIEntry) (expectedResults : list OpResult) : method unit :=
  _ ← onEnv (fun c => Modify_DeleteEntry (fluentC c) entries);
  _ ← orFatal AwaitTimeout;
  checkResults expectedResults.

Definition AddNHG (nhgIndex : Z) (nhWeights : list (Z * Z)) (inst : string) (expectedResult : Z)
    (opts : list (option NHGOptions)) : method unit :=
  let '(nhg, opResult) := NHGEntry nhgIndex nhWeights inst expectedResult opts in
  AddEntries [nhg] [AsResult opResult].

Definition AddNH (nhIndex : Z) (address inst : string) (expectedResult : Z)
    (opts : list (option NHOptions)) : method unit :=
  '(nh, opResult) ← lift (NHEntry nhIndex address inst expectedResult opts);
  AddEntries [nh] [AsResult opResult].

(** The calls that [AddIPv4] and [AddIPv6] make on their entry. *)
Definition ipCalls (prefix : string) (nhgIndex : Z) (inst nhgInstance : string) : list IPCall :=
  [IP_WithPrefix prefix; IP_WithNetworkInstance inst; IP_WithNextHopGroup nhgIndex] ++
  (if bool_decide (nhgInstance <> "") && bool_decide (nhgInstance <> inst) then
     [IP_WithNextHopGroupNetworkInstance nhgInstance] else []).

Definition sendAndCheck (send : Client -> gost E unit) (want : list OpCall) : method unit :=
  _ ← onEnv send;
  _ ← orFatal AwaitTimeout;
  checkResults [AsResult want].

Definition AddIPv4 (prefix : string) (nhgIndex : Z) (inst nhgInstance : string)
    (expectedResult : Z) : method unit :=
  sendAndCheck
    (fun c => Modify_AddEntry (fluentC c) [IPv4Entry (ipCalls prefix nhgIndex inst nhgInstance)])
    [Op_WithIPv4Operation prefix; Op_WithOperationType OpAdd; Op_WithProgrammingResult expectedResult].

Definition AddIPv6 (prefix : string) (nhgIndex : Z) (inst nhgInstance : string)
    (expectedResult : Z) : method unit :=
  sendAndCheck
    (fun c => Modify_AddEntry (fluentC c) [IPv6Entry (ipCalls prefix nhgIndex inst nhgInstance)])
    [Op_WithIPv6Operation prefix; Op_WithOperationType OpAdd; Op_WithProgrammingResult expectedResult].

Definition DeleteIPv4 (prefix inst : string) (expectedResult : Z) : method unit :=
  sendAndCheck
    (fun c => Modify_DeleteEntry (fluentC c) [IPv4Entry [IP_WithPrefix prefix; IP_WithNetworkInstance inst]])
    [Op_WithIPv4Operation prefix; Op_WithOperationType OpDelete; Op_WithProgrammingResult expectedResult].

Definition DeleteIPv6 (prefix inst : string) (expectedResult : Z) : method unit :=
  sendAndCheck
    (fun c => Modify_DeleteEntry (fluentC c) [IPv6Entry [IP_WithPrefix prefix; IP_WithNetworkInstance inst]])
    [Op_WithIPv6Operation prefix; Op_WithOperationType OpDelete; Op_WithProgrammingResult expectedResult].

Definition client_FlushAll : method unit := onEnv (fun c => orFatal (FlushAll (fluentC c))).

Definition client_Flush (id : Uint128) (ni : string) : method unit :=
  onEnv (fun c => orFatal (Flush (fluentC c) id ni)).
End Client.
Arguments Client F : clear implicits.

(** ** Arithmetic of identifiers *)

Lemma u128_range i : u128_ok i -> 0 <= u128 i < 2 ^ 128.
Proof. unfold u128_ok, u128. change (2 ^ 128) with (2 ^ 64 * 2 ^ 64). nia. Qed.

Lemma u128_inj i j : u128_ok i -> u128_ok j -> u128 i = u128 j -> i = j.
Proof.
  destruct i as [l h], j as [l' h']; unfold u128_ok, u128; simpl; intros Hi Hj Heq.
  assert (h = h') by nia. f_equal; nia.
Qed.

Lemma uint64_range v : 0 <= uint64 v < 2 ^ 64.
Proof. apply Z.mod_pos_bound; lia. Qed.

Lemma uint64_small v : 0 <= v < 2 ^ 64 -> uint64 v = v.
Proof. apply Z.mod_small. Qed.

Lemma uint64_shift v k : uint64 (v + k * 2 ^ 64) = uint64 v.
Proof. apply Z_mod_plus_full. Qed.

(** A step of one either stays within the low word or carries into the high one. *)
Lemma uint64_succ v : 0 <= v < 2 ^ 64 ->
  uint64 (v + 1) = v + 1 /\ v + 1 < 2 ^ 64 \/ v = 2 ^ 64 - 1 /\ uint64 (v + 1) = 0.
Proof.
  intros Hv. destruct (decide (v = 2 ^ 64 - 1)) as [->|Hne]; [right; by split|].
  left. rewrite uint64_small by lia. lia.
Qed.

Lemma uint64_pred v : 0 <= v < 2 ^ 64 ->
  uint64 (v - 1) = v - 1 /\ 0 < v \/ v = 0 /\ uint64 (v - 1) = 2 ^ 64 - 1.
Proof.
  intros Hv. destruct (decide (v = 0)) as [->|Hne]; [right; by split|].
  left. rewrite uint64_small by lia. lia.
Qed.

Lemma Increment_value i : u128_ok i ->
  u128_ok (Increment i) /\ u128 (Increment i) = (u128 i + 1) mod 2 ^ 128.
Proof.
  intros [Hl Hh]. unfold Increment, u128, u128_ok; simpl.
  change (2 ^ 128) with (2 ^ 64 * 2 ^ 64).
  destruct (uint64_succ _ Hl) as [[-> ?]|[El ->]].
  - rewrite (proj2 (Z.ltb_ge _ _)) by lia. rewrite Z.mod_small by nia. lia.
  - rewrite (proj2 (Z.ltb_lt _ _)) by lia.
    destruct (uint64_succ _ Hh) as [[-> ?]|[Eh ->]].
    + rewrite Z.mod_small by nia. lia.
    + rewrite El, Eh. split; [lia|reflexivity].
Qed.

Lemma Decrement_value i : u128_ok i ->
  u128_ok (Decrement i) /\ u128 (Decrement i) = (u128 i - 1) mod 2 ^ 128.
Proof.
  intros [Hl Hh]. unfold Decrement, u128, u128_ok; simpl.
  change (2 ^ 128) with (2 ^ 64 * 2 ^ 64).
  destruct (uint64_pred _ Hl) as [[-> ?]|[El ->]].
  - rewrite (proj2 (Z.ltb_ge _ _)) by lia. rewrite Z.mod_small by nia. lia.
  - rewrite (proj2 (Z.ltb_lt _ _)) by lia.
    destruct (uint64_pred _ Hh) as [[-> ?]|[Eh ->]].
    + rewrite Z.mod_small by nia. lia.
    + rewrite El, Eh. split; [lia|reflexivity].
Qed.

(** on two [uint64] words, [Increment] and [Decrement] add and subtract one
    modulo 2^128, with the carry between the words, keep the words in range, and
    undo each other, the wrap-around at both ends included. *)
Theorem election_arithmetic i (Hi : u128_ok i) :
  u128_ok (Increment i) /\ u128_ok (Decrement i) /\
  u128 (Increment i) = (u128 i + 1) mod 2 ^ 128 /\
  u128 (Decrement i) = (u128 i - 1) mod 2 ^ 128 /\
  Decrement (Increment i) = i /\ Increment (Decrement i) = i.
Proof.
  destruct (Increment_value i Hi) as [Hi1 Hv1], (Decrement_value i Hi) as [Hd1 Hw1].
  destruct (Decrement_value _ Hi1) as [Hok1 Heq1], (Increment_value _ Hd1) as [Hok2 Heq2].
  pose proof (u128_range i Hi).
  repeat split; try done; try apply Hi1; try apply Hd1; apply u128_inj; try done.
  - rewrite Heq1, Hv1, Zminus_mod_idemp_l, Z.mod_small; lia.
  - rewrite Heq2, Hw1, Zplus_mod_idemp_l, Z.mod_small; lia.
Qed.

Lemma election_arithmetic_witness :
  Decrement (Increment {| Low := 2 ^ 64 - 1; High := 2 ^ 64 - 1 |}) =
  {| Low := 2 ^ 64 - 1; High := 2 ^ 64 - 1 |}.
Proof.
  apply (election_arithmetic {| Low := 2 ^ 64 - 1; High := 2 ^ 64 - 1 |}).
  split; simpl; lia.
Defined.

(** ** Running stateful code *)

Section Running.
Context {S : Type}.

Lemma orFatal_run {A} (m : gost S A) s a s' : m s = (Ret a, s') -> orFatal m s = (Ret a, s').
Proof. unfold orFatal. by intros ->. Qed.
End Running.

Lemma onEnv_run {E F A} (m : Client F -> gost E A) c e a e' :
  m c e = (Ret a, e') -> onEnv m (c, e) = (Ret a, (c, e')).
Proof. unfold onEnv. by intros ->. Qed.

Lemma onEnv_run_inv {E F A} (m : Client F -> gost E A) c e a s' :
  onEnv m (c, e) = (Ret a, s') -> exists e', m c e = (Ret a, e') /\ s' = (c, e').
Proof. unfold onEnv. destruct (m c e) as [r e']. naive_solver. Qed.

(** ** Election on the device

    What the gRIBI specification says of [ELECTED_PRIMARY]: the device keeps the
    highest identifier it has learnt and reports it in the result of an update. *)

Class ElectionServer (E F : Type) `{!Fluent E F} := {
  serverElectionID : E -> Uint128;
  connected : option F -> E -> Prop;
  connected_ok : forall h e, connected h e -> u128_ok (serverElectionID e);
  update_election : forall h id e, connected h e -> u128_ok id ->
    exists e1 e2 rs r,
      Modify_UpdateElectionID h (Low id) (High id) e = (Ret tt, e1) /\
      fluent_Await h e1 = (Ret tt, e2) /\
      Results h e2 = (Ret (rs ++ [r]), e2) /\
      CurrentServerElectionID r = Some (serverElectionID e2) /\
      u128 (serverElectionID e2) = Z.max (u128 (serverElectionID e)) (u128 id) /\
      connected h e2
}.

Section Election.
Context {E F : Type} `{FL : !Fluent E F} `{ES : !ElectionServer E F}.

Lemma LearnElectionID_run h e : connected h e ->
  exists e', LearnElectionID h e = (Ret (serverElectionID e'), e') /\ connected h e' /\
    u128 (serverElectionID e') = Z.max (u128 (serverElectionID e)) 1.
Proof.
  intros Hc.
  destruct (update_election h {| Low := 1; High := 0 |} e Hc ltac:(split; simpl; lia))
    as (e1 & e2 & rs & r & H1 & H2 & H3 & H4 & H5 & H6).
  exists e2. split; [|by split]. unfold LearnElectionID.
  rewrite (bind_run _ _ _ _ _ H1), (bind_run _ _ _ _ _ (orFatal_run _ _ _ _ H2)),
    (bind_run _ _ _ _ _ H3), last_snoc, H4. by destruct (serverElectionID e2).
Qed.

Lemma UpdateElectionID_run h id e : connected h e -> u128_ok id ->
  exists e', UpdateElectionID h id e = (Ret tt, e') /\ connected h e' /\
    u128 (serverElectionID e') = Z.max (u128 (serverElectionID e)) (u128 id).
Proof.
  intros Hc Hid.
  destruct (update_election h id e Hc Hid) as (e1 & e2 & rs & r & H1 & H2 & _ & _ & H5 & H6).
  exists e2. split; [|by split]. unfold UpdateElectionID.
  rewrite (bind_run _ _ _ _ _ H1). by apply orFatal_run.
Qed.

Lemma client_BecomeLeader_run c e : connected (fluentC c) e ->
  exists e1 e2, let id := Increment (serverElectionID e1) in
    client_BecomeLeader (c, e) = (Ret id, (set_electionID c id, e2)) /\
    u128_ok (serverElectionID e1) /\ u128_ok (serverElectionID e2) /\
    u128 (serverElectionID e1) = Z.max (u128 (serverElectionID e)) 1 /\
    u128 (serverElectionID e2) = Z.max (u128 (serverElectionID e1)) (u128 id).
Proof.
  intros Hc.
  destruct (LearnElectionID_run _ _ Hc) as (e1 & H1 & Hc1 & Hs1).
  destruct (Increment_value _ (connected_ok _ _ Hc1)) as [Hok _].
  destruct (UpdateElectionID_run _ _ _ Hc1 Hok) as (e2 & H2 & Hc2 & Hs2).
  exists e1, e2. simpl.
  assert (BecomeLeader (fluentC c) e = (Ret (Increment (serverElectionID e1)), e2)) as Hb.
  { unfold BecomeLeader. rewrite (bind_run _ _ _ _ _ H1). by rewrite (bind_run _ _ _ _ _ H2). }
  split; [|split; [exact (connected_ok _ _ Hc1)|split; [exact (connected_ok _ _ Hc2)|done]]].
  unfold client_BecomeLeader.
  by rewrite (bind_run _ _ _ _ _ (onEnv_run (fun c => BecomeLeader (fluentC c)) c e _ _ Hb)).
Qed.

(** C10: on a connected client [BecomeLeader] returns, and the identifier it
    returns and stores is the one the device holds afterwards and is greater than
    the one the device held before: the client is the leader.  The device must
    not already hold the largest identifier. *)
Theorem BecomeLeader_leads c e (Hc : connected (fluentC c) e)
    (Hmax : u128 (serverElectionID e) < 2 ^ 128 - 1) :
  exists id c' e', client_BecomeLeader (c, e) = (Ret id, (c', e')) /\
    electionID c' = id /\ serverElectionID e' = id /\
    u128 (serverElectionID e) < u128 id.
Proof.
  destruct (client_BecomeLeader_run c e Hc) as (e1 & e2 & Hrun & Hok1 & Hok2 & Hs1 & Hs2).
  destruct (Increment_value _ Hok1) as [Hok Hv].
  pose proof (u128_range _ Hok1).
  rewrite Z.mod_small in Hv by lia.
  exists (Increment (serverElectionID e1)), (set_electionID c (Increment (serverElectionID e1))), e2.
  split; [done|]. split; [done|]. split; [apply u128_inj; [done..|lia]|lia].
Qed.

(** A device that holds the largest identifier: the increment wraps to zero, the
    device keeps its identifier, and the client is not the leader. *)
Lemma BecomeLeader_at_max c e : connected (fluentC c) e ->
  u128 (serverElectionID e) = 2 ^ 128 - 1 ->
  exists c' e', client_BecomeLeader (c, e) = (Ret {| Low := 0; High := 0 |}, (c', e')) /\
    u128 (serverElectionID e') = 2 ^ 128 - 1.
Proof.
  intros Hc Hmax.
  destruct (client_BecomeLeader_run c e Hc) as (e1 & e2 & Hrun & Hok1 & Hok2 & Hs1 & Hs2).
  destruct (Increment_value _ Hok1) as [Hok Hv].
  assert (Increment (serverElectionID e1) = {| Low := 0; High := 0 |}) as Heq.
  { apply u128_inj; [done|by split|]. rewrite Hv, Hs1, Hmax. reflexivity. }
  rewrite Heq in *. exists (set_electionID c {| Low := 0; High := 0 |}), e2.
  split; [done|]. rewrite Hs2, Hs1, Hmax. reflexivity.
Qed.
End Election.

(** ** Checked programming *)

Section Programming.
Context {E F : Type} `{FL : !Fluent E F}.

Lemma checkResults_run (c : Client F) e rs want :
  Results (fluentC c) e = (Ret rs, e) ->
  checkResults want (c, e) = (if forallb (HasResult rs) want then Ret tt else Panic, (c, e)).
Proof.
  intros Hrs. induction want as [|w want IH]; [done|].
  unfold checkResults in *. simpl forEach. cbn [forallb].
  destruct (HasResult rs w) eqn:Hw.
  - rewrite (bind_run _ _ (c, e) tt (c, e)); [done|].
    apply onEnv_run. rewrite (bind_run _ _ _ _ _ Hrs). unfold chkHasResult. by rewrite Hw.
  - unfold mbind, gost_bind, onEnv at 1.
    unfold gost_bind. rewrite Hrs. unfold chkHasResult. by rewrite Hw.
Qed.

(** Entries sent with expected results: the call returns exactly when the device
    answers in time and every expected result is among the results. *)
Lemma AddEntries_run (c : Client F) e e1 e2 entries want a rs :
  Modify_AddEntry (fluentC c) entries e = (Ret tt, e1) ->
  fluent_Await (fluentC c) e1 = (a, e2) -> Results (fluentC c) e2 = (Ret rs, e2) ->
  want <> [] ->
  fst (AddEntries entries want (c, e)) =
    match a with
    | Ret _ => if forallb (HasResult rs) want then Ret tt else Panic
    | Fail _ | Panic => Panic
    | NoFuel => NoFuel
    end.
Proof.
  intros Hadd Haw Hrs Hne. unfold AddEntries.
  rewrite (bind_run _ _ _ _ _ (onEnv_run (fun c => Modify_AddEntry (fluentC c) entries) c e _ _ Hadd)).
  destruct want as [|w want]; [done|]. clear Hne.
  unfold mbind at 1, gost_bind, orFatal, AwaitTimeout, onEnv at 1, awaitTimeout. rewrite Haw.
  destruct a as [[]|err| |]; try done. by rewrite (checkResults_run _ _ _ _ Hrs).
Qed.
End Programming.

(** The operation of the result that answers an entry; the last call sets a field. *)
Definition operation_of (e : GRIBIEntry) : option OpCall :=
  match e with
  | NextHopEntry cs =>
      Op_WithNextHopOperation <$> last (omap (fun c => match c with NH_WithIndex i => Some i | _ => None end) cs)
  | NextHopGroupEntry cs =>
      Op_WithNextHopGroupOperation <$> last (omap (fun c => match c with NHG_WithID i => Some i | _ => None end) cs)
  | IPv4Entry cs =>
      Op_WithIPv4Operation <$> last (omap (fun c => match c with IP_WithPrefix p => Some p | _ => None end) cs)
  | IPv6Entry cs =>
      Op_WithIPv6Operation <$> last (omap (fun c => match c with IP_WithPrefix p => Some p | _ => None end) cs)
  end.

(** ** A small device

    An instance of the interfaces, for concrete runs: it answers every message at
    once, follows the election rule, takes entries from the primary client only and
    refuses them to others.  No theorem depends on it. *)

Module RefDevice.
Record Device := {
  dev_id : Uint128;
  dev_client : Uint128;          (* the last identifier of the session's client *)
  dev_entries : list GRIBIEntry;
  dev_results : list OpResult;   (* of the session *)
  dev_errors : nat               (* calls of [t.Errorf] *)
}.

Definition detail_of (d : OpDetails) (c : OpCall) : OpDetails :=
  match c with
  | Op_WithNextHopOperation i => {| NextHopIndex := i; NextHopGroupID := NextHopGroupID d;
      IPv4Prefix := IPv4Prefix d; IPv6Prefix := IPv6Prefix d |}
  | Op_WithNextHopGroupOperation i => {| NextHopIndex := NextHopIndex d; NextHopGroupID := i;
      IPv4Prefix := IPv4Prefix d; IPv6Prefix := IPv6Prefix d |}
  | Op_WithIPv4Operation p => {| NextHopIndex := NextHopIndex d; NextHopGroupID := NextHopGroupID d;
      IPv4Prefix := p; IPv6Prefix := IPv6Prefix d |}
  | Op_WithIPv6Operation p => {| NextHopIndex := NextHopIndex d; NextHopGroupID := NextHopGroupID d;
      IPv4Prefix := IPv4Prefix d; IPv6Prefix := p |}
  | _ => d
  end.

Definition result_of (calls : list OpCall) : OpResult :=
  {| CurrentServerElectionID := None; ServerError := ""; ClientError := "";
     op_ProgrammingResult :=
       default 0 (last (omap (fun c => match c with Op_WithProgrammingResult r => Some r | _ => None end) calls));
     Details := Some (foldl detail_of {| NextHopIndex := 0; NextHopGroupID := 0;
                                        IPv4Prefix := ""; IPv6Prefix := "" |} calls) |}.

(** The result of an entry that is in the FIB. *)
Definition ack_of (e : GRIBIEntry) : OpResult :=
  result_of (Op_WithProgrammingResult 1 :: option_list (operation_of e)).
Definition refusal : OpResult :=
  {| CurrentServerElectionID := None; ServerError := "not primary"; ClientError := ""; op_ProgrammingResult := 0;
     Details := None |}.

#[global] Instance OpDetails_eq_dec : EqDecision OpDetails.
Proof. solve_decision. Defined.
#[global] Instance Uint128_eq_dec : EqDecision Uint128.
Proof. solve_decision. Defined.

Definition has_result (rs : list OpResult) (w : OpResult) : bool :=
  existsb (fun r => bool_decide (Details r = Details w) && (op_ProgrammingResult r =? op_ProgrammingResult w)) rs.

Definition elected (id : Uint128) : OpResult :=
  {| CurrentServerElectionID := Some id; ServerError := ""; ClientError := ""; op_ProgrammingResult := 0;
     Details := None |}.
Definition learn (lo hi : Z) (d : Device) : Device :=
  let id := {| Low := lo; High := hi |} in
  let new := if u128 (dev_id d) <? u128 id then id else dev_id d in
  {| dev_id := new; dev_client := id; dev_entries := dev_entries d; dev_results := dev_results d ++ [elected new];
     dev_errors := dev_errors d |}.
Definition accept (es : list GRIBIEntry) (d : Device) : Device :=
  if decide (dev_client d = dev_id d) then
    {| dev_id := dev_id d; dev_client := dev_client d; dev_entries := dev_entries d ++ es;
       dev_results := dev_results d ++ (ack_of <$> es); dev_errors := dev_errors d |}
  else
    {| dev_id := dev_id d; dev_client := dev_client d; dev_entries := dev_entries d;
       dev_results := dev_results d ++ (const refusal <$> es); dev_errors := dev_errors d |}.
Definition attach (d : Device) : Device :=
  {| dev_id := dev_id d; dev_client := dev_client d; dev_entries := dev_entries d; dev_results := [];
     dev_errors := dev_errors d |}.
Definition configure (calls : list ConnCall) (d : Device) : Device :=
  foldl (fun d c => match c with Conn_WithInitialElectionID lo hi => learn lo hi d | _ => d end) d calls.

#[global] Instance device_fluent : Fluent Device unit := {
  NewClient := fun d => (Ret tt, attach d);
  ConnectionConfig _ calls := fun d => (Ret tt, configure calls d);
  fluent_Start _ := fun d => (Ret tt, d);
  fluent_StartSending _ := fun d => (Ret tt, d);
  fluent_Stop _ := fun d => (Ret tt, d);
  fluent_Await _ := fun d => (Ret tt, d);
  Modify_AddEntry _ es := fun d => (Ret tt, accept es d);
  Modify_DeleteEntry _ _ := fun d => (Ret tt, d);
  Modify_UpdateElectionID _ lo hi := fun d => (Ret tt, learn lo hi d);
  Results _ := fun d => (Ret (dev_results d), d);
  Flush_Send _ _ := fun d => (Ret tt, {| dev_id := dev_id d; dev_client := dev_client d; dev_entries := [];
                               dev_results := dev_results d; dev_errors := dev_errors d |});
  InstalledInFIB := 1;
  AFTResult_FIB_FAILED := 2;
  AsResult := result_of;
  HasResult := has_result;
  HasResultsCache rs ws := forallb (has_result rs) ws
}.

#[global] Program Instance device_election : ElectionServer Device unit := {
  serverElectionID := dev_id;
  connected h d := h = Some tt /\ u128_ok (dev_id d)
}.
Next Obligation. by intros h e [_ ?]. Qed.
Next Obligation.
  intros h [lo hi] d [-> Hok] Hid.
  exists (learn lo hi d), (learn lo hi d), (dev_results d), (elected (dev_id (learn lo hi d))).
  do 4 (split; [done|]). simpl.
  destruct (Z.ltb_spec (u128 (dev_id d)) (u128 {| Low := lo; High := hi |})); (split; [lia|by split]).
Qed.

Definition fresh : Device :=
  {| dev_id := {| Low := 2 ^ 64 - 1; High := 7 |}; dev_client := {| Low := 1; High := 0 |}; dev_entries := [];
     dev_results := []; dev_errors := 0 |}.
Definition started : Client unit :=
  {| FIBACK := true; Persistence := true; fluentC := Some tt; electionID := {| Low := 1; High := 0 |} |}.
End RefDevice.

Lemma BecomeLeader_leads_witness :
  exists id c' e', client_BecomeLeader (RefDevice.started, RefDevice.fresh) = (Ret id, (c', e')) /\
    electionID c' = id /\ serverElectionID e' = id /\
    u128 (serverElectionID RefDevice.fresh) < u128 id.
Proof.
  apply (BecomeLeader_leads RefDevice.started RefDevice.fresh);
    [split; [reflexivity|split; simpl; lia]|reflexivity].
Defined.
