(* ===== verification/NhgBuckets.v ===== *)
(** * Next-hop group shapes

    The part of [src/internal/cfgplugins/gribifullscale.go] that decides how many
    next hops, with which weights, the i-th next-hop group of a VRF has: the
    percentage specifications and their validation, [partitionNHG],
    [computeNHGWeights] and the iterator [NHGBucketIterator].  Go [int]s of the
    specifications are unbounded here, weights are [uint64]s; [t.Fatalf] is
    [Panic]. *)
From stdpp Require Import base list gmap strings.
From Stdlib Require Import ZArith Lia.
From S2P Require Import Prelude.
From S2P Require Import IPUtil.
Local Open Scope Z_scope.

Record NHGLoadBalancingParams := { lb_Pct : Z; NumNextHops : Z }.

Record nhgLoadBalancingBucket := { lb_numNHG : Z; numLoadBalancingNH : Z }.

(** A sealed interface: the two value types, or something else (a pointer to one
    of them) that only the [default] branches see.  A nil interface is [None]. *)
Inductive WeightConfig :=
| ECMP
| WCMP (WeightGranularity : Z)
| OtherWeightConfig.

Record NHGWeightParams := { w_Pct : Z; Config : option WeightConfig }.

Record nhgWeightBucket := { w_numNHG : Z; config : option WeightConfig }.

Definition WCMP1 := WCMP 1.
Definition WCMP1in32 := WCMP 32.
Definition WCMP1in64 := WCMP 64.
Definition WCMP1in128 := WCMP 128.
Definition WCMP1in256 := WCMP 256.
Definition WCMP1in512 := WCMP 512.
Definition WCMP1in1024 := WCMP 1024.

Definition validateNHGLoadBalance (configs : list NHGLoadBalancingParams) : go unit :=
  match configs with
  | [] => Panic
  | _ =>
      sumPct ← foldM (fun sumPct spec =>
        if lb_Pct spec <? 0 then Panic
        else if NumNextHops spec <=? 0 then Panic
        else Ret (sumPct + lb_Pct spec)) 0 configs;
      if sumPct =? 100 then Ret tt else Panic
  end.

Definition validateNHGWeight (configs : list NHGWeightParams) : go unit :=
  match configs with
  | [] => Panic
  | _ =>
      sumPct ← foldM (fun sumPct spec =>
        if w_Pct spec <? 0 then Panic
        else match Config spec with
             | None => Panic
             | Some ECMP => Ret (sumPct + w_Pct spec)
             | Some (WCMP g) => if g =? 0 then Panic else Ret (sumPct + w_Pct spec)
             | Some OtherWeightConfig => Panic
             end) 0 configs;
      if sumPct =? 100 then Ret tt else Panic
  end.

(** The sum of a list: the accumulator of a loop. *)
Definition sum (l : list Z) : Z := foldr Z.add 0 l.

Definition partitionNHG {T} (numNHG : Z) (req : list T) (getPct : T -> Z) : go (list Z) :=
  let counts := (fun spec => Z.quot (numNHG * getPct spec) 100) <$> req in
  let totalNHG := sum counts in
  match counts with
  | [] => Panic
  | _ => Ret (alter (fun n => n + (numNHG - totalNHG)) (length counts - 1)%nat counts)
  end.

Definition computeNHGBuckets (numNHG : Z) (req : list NHGLoadBalancingParams) :
    go (list nhgLoadBalancingBucket) :=
  counts ← partitionNHG numNHG req lb_Pct;
  Ret (zip_with (fun n spec => {| lb_numNHG := n; numLoadBalancingNH := NumNextHops spec |}) counts req).

Definition computeNHGWeightBuckets (numNHG : Z) (req : list NHGWeightParams) :
    go (list nhgWeightBucket) :=
  counts ← partitionNHG numNHG req w_Pct;
  Ret (zip_with (fun n spec => {| w_numNHG := n; config := Config spec |}) counts req).

(** [make([]uint64, n)] panics for a negative length. *)
Definition makeLen (n : Z) : go nat := if n <? 0 then Panic else Ret (Z.to_nat n).

Definition computeNHGWeights (granularity actualNHCount : Z) : go (list Z) :=
  _ ← makeLen actualNHCount;
  if actualNHCount =? 0 then Ret []
  else
    let baseWeight := Z.quot granularity actualNHCount in
    let remainder := Z.rem granularity actualNHCount in
    let weights := (fun i => if i =? actualNHCount - 1 then uint64 (baseWeight + remainder)
                             else baseWeight) <$> seqZ 0 actualNHCount in
    if (1 <? actualNHCount) && (1 <? baseWeight) &&
       forallb (fun w => w =? default 0 (head weights)) (tail weights) then
      Ret (alter (fun w => uint64 (w + 1)) (Z.to_nat (actualNHCount - 1))
             (alter (fun w => uint64 (w - 1)) (Z.to_nat (actualNHCount - 2)) weights))
    else Ret weights.

Record NHGBucketIterator := {
  lbBuckets : list nhgLoadBalancingBucket;
  weightBuckets : list nhgWeightBucket;
  maxNHsAvailable : Z;
  lbIdx : nat;
  lbCreated : Z;
  weightIdx : nat;
  weightCreated : Z
}.

Definition NewNHGBucketIterator (numNHG : Z) (lbParams : list NHGLoadBalancingParams)
    (weightParams : list NHGWeightParams) (maxNHs : Z) : go NHGBucketIterator :=
  lb ← computeNHGBuckets numNHG lbParams;
  w ← computeNHGWeightBuckets numNHG weightParams;
  Ret {| lbBuckets := lb; weightBuckets := w; maxNHsAvailable := maxNHs;
         lbIdx := 0; lbCreated := 0; weightIdx := 0; weightCreated := 0 |}.

(** [if idx < len(buckets)-1 && created >= buckets[idx].numNHG { idx++; created = 0 }]
    on the counts of the buckets. *)
Definition advance (counts : list Z) (idx : nat) (created : Z) : nat * Z :=
  if bool_decide (S idx < length counts)%nat && (default 0 (counts !! idx) <=? created)
  then (S idx, 0) else (idx, created).

(** The weights of a group, as the type switch of [Next] computes them. *)
Definition groupWeights (cfg : option WeightConfig) (actualNHCount : Z) : go (list Z) :=
  match cfg with
  | Some (WCMP g) => computeNHGWeights g actualNHCount
  | Some ECMP => n ← makeLen actualNHCount; Ret (replicate n 1)
  | _ => n ← makeLen actualNHCount; Ret (replicate n 1)
  end.

Definition Next (it : NHGBucketIterator) : go (list Z * NHGBucketIterator) :=
  let '(lbI, lbC) := advance (lb_numNHG <$> lbBuckets it) (lbIdx it) (lbCreated it) in
  match lbBuckets it !! lbI with
  | None => Panic
  | Some b =>
      let actualNHCount := Z.min (numLoadBalancingNH b) (maxNHsAvailable it) in
      let '(wI, wC) := advance (w_numNHG <$> weightBuckets it) (weightIdx it) (weightCreated it) in
      match weightBuckets it !! wI with
      | None => Panic
      | Some w =>
          weights ← groupWeights (config w) actualNHCount;
          Ret (weights, {| lbBuckets := lbBuckets it; weightBuckets := weightBuckets it;
                           maxNHsAvailable := maxNHsAvailable it;
                           lbIdx := lbI; lbCreated := lbC + 1;
                           weightIdx := wI; weightCreated := wC + 1 |})
      end
  end.

(** [n] calls of [Next], as the builders make them in their loops. *)
Fixpoint nexts (n : nat) (it : NHGBucketIterator) : go (list (list Z)) :=
  match n with
  | O => Ret []
  | S n => '(ws, it) ← Next it; rest ← nexts n it; Ret (ws :: rest)
  end.

(** ** Sums *)

Lemma sum_cons x l : sum (x :: l) = x + sum l.
Proof. done. Qed.

Lemma sum_app l k : sum (l ++ k) = sum l + sum k.
Proof. induction l as [|x l IH]; [done|]. cbn [app]. rewrite !sum_cons. lia. Qed.

Lemma sum_replicate n x : sum (replicate n x) = Z.of_nat n * x.
Proof. induction n as [|n IH]; [done|]. cbn [replicate]. rewrite sum_cons. lia. Qed.

Lemma sum_alter f i l x : l !! i = Some x -> sum (alter f i l) = sum l + (f x - x).
Proof.
  revert i; induction l as [|y l IH]; intros [|i] Hi; simplify_eq/=.
  - change (f x + sum l = x + sum l + (f x - x)). lia.
  - change (y + sum (alter f i l) = y + sum l + (f x - x)). rewrite (IH i Hi). lia.
Qed.

Lemma last_index {A} (l : list A) : l <> [] -> exists x, l !! (length l - 1)%nat = Some x.
Proof.
  intros Hl. apply lookup_lt_is_Some_2. destruct l; [done|]. simpl. lia.
Qed.

(** A loop that adds up [f x] and stops the test at the first [x] that is not [ok]. *)
Lemma foldM_sum {A} (ok : A -> bool) (f : A -> Z) (body : Z -> A -> go Z) s l :
  (forall s x, body s x = if ok x then Ret (s + f x) else Panic) ->
  foldM body s l = if forallb ok l then Ret (s + sum (f <$> l)) else Panic.
Proof.
  intros Hb. revert s; induction l as [|x l IH]; intros s; [simpl; f_equal; lia|].
  rewrite fmap_cons, sum_cons. cbn [foldM forallb].
  rewrite Hb. destruct (ok x); simpl; [|done]. rewrite IH.
  destruct (forallb ok l); [|done]. f_equal. lia.
Qed.

(** ** Validation *)

Definition lb_ok (s : NHGLoadBalancingParams) : bool := (0 <=? lb_Pct s) && (0 <? NumNextHops s).

Definition w_ok (s : NHGWeightParams) : bool :=
  (0 <=? w_Pct s) && match Config s with
                     | Some ECMP => true
                     | Some (WCMP g) => negb (g =? 0)
                     | _ => false
                     end.

Lemma validateNHGLoadBalance_iff l :
  validateNHGLoadBalance l = Ret tt <->
  l <> [] /\ forallb lb_ok l = true /\ sum (lb_Pct <$> l) = 100.
Proof.
  unfold validateNHGLoadBalance. destruct l as [|s l]; [naive_solver|].
  rewrite (foldM_sum lb_ok lb_Pct).
  - destruct (forallb lb_ok _); [simpl|naive_solver].
    case_match eqn:E; [apply Z.eqb_eq in E|apply Z.eqb_neq in E]; naive_solver.
  - intros s' x. unfold lb_ok.
    destruct (Z.ltb_spec (lb_Pct x) 0), (Z.leb_spec 0 (lb_Pct x)), (Z.leb_spec (NumNextHops x) 0),
      (Z.ltb_spec 0 (NumNextHops x)); try lia; done.
Qed.

Lemma validateNHGWeight_iff l :
  validateNHGWeight l = Ret tt <->
  l <> [] /\ forallb w_ok l = true /\ sum (w_Pct <$> l) = 100.
Proof.
  unfold validateNHGWeight. destruct l as [|s l]; [naive_solver|].
  rewrite (foldM_sum w_ok w_Pct).
  - destruct (forallb w_ok _); [simpl|naive_solver].
    case_match eqn:E; [apply Z.eqb_eq in E|apply Z.eqb_neq in E]; naive_solver.
  - intros s' x. unfold w_ok.
    destruct (Z.ltb_spec (w_Pct x) 0), (Z.leb_spec 0 (w_Pct x)); try lia; try done.
    destruct (Config x) as [[]|]; try done. by destruct (_ =? 0).
Qed.

(** ** Partition *)

Lemma shares_below numNHG pcts : 0 <= numNHG -> Forall (fun p => 0 <= p) pcts ->
  let shares := (fun p => Z.quot (numNHG * p) 100) <$> pcts in
  Forall (fun n => 0 <= n) shares /\ 100 * sum shares <= numNHG * sum pcts.
Proof.
  intros Hn Hp. induction Hp as [|p pcts Hp _ [IH1 IH2]]; [simpl; split; [constructor|lia]|].
  rewrite fmap_cons. simpl in IH1, IH2. rewrite Z.quot_div_nonneg by lia. split.
  - constructor; [apply Z.div_pos; nia|done].
  - rewrite !sum_cons. pose proof (Z.mul_div_le (numNHG * p) 100). lia.
Qed.

Lemma Forall_alter_nonneg f i (l : list Z) :
  Forall (fun n => 0 <= n) l -> (forall x, 0 <= x -> 0 <= f x) -> Forall (fun n => 0 <= n) (alter f i l).
Proof. intros Hl Hf. apply Forall_alter; [done|]. intros x _. apply Hf. Qed.

(** The counts of a partition add up to the number of groups; they are not
    negative when the percentages are not and add up to one hundred. *)
Lemma partitionNHG_counts {T} numNHG (req : list T) getPct counts :
  partitionNHG numNHG req getPct = Ret counts ->
  length counts = length req /\ sum counts = numNHG /\
  (0 <= numNHG -> Forall (fun s => 0 <= getPct s) req -> sum (getPct <$> req) = 100 ->
   Forall (fun n => 0 <= n) counts).
Proof.
  unfold partitionNHG. set (shares := (fun spec => Z.quot (numNHG * getPct spec) 100) <$> req).
  intros Hp.
  assert (shares <> [] /\ counts = alter (fun n => n + (numNHG - sum shares)) (length shares - 1)%nat shares)
    as [Hne ->] by (destruct shares; naive_solver).
  destruct (last_index shares Hne) as [x Hx]. split; [|split].
  - rewrite length_alter. unfold shares. apply length_fmap.
  - rewrite (sum_alter _ _ _ _ Hx). lia.
  - intros Hn Hpct Hsum.
    assert (shares = (fun p => Z.quot (numNHG * p) 100) <$> (getPct <$> req)) as Es.
    { unfold shares. by rewrite <- list_fmap_compose. }
    destruct (shares_below numNHG (getPct <$> req) Hn) as [Hpos Hle].
    { by apply Forall_fmap. }
    rewrite <- Es in Hpos, Hle. apply Forall_alter_nonneg; [done|]. intros y ?. lia.
Qed.

(** A partition exists exactly for a non-empty specification. *)
Lemma partitionNHG_total {T} numNHG (req : list T) getPct :
  req <> [] -> exists counts, partitionNHG numNHG req getPct = Ret counts.
Proof. destruct req; [done|]. unfold partitionNHG. simpl. eauto. Qed.

(** ** Weights *)

(** A map over a range that treats the last index apart. *)
Lemma fmap_seqZ_last {A} (m : nat) (x y : A) :
  (fun i => if i =? Z.of_nat (S m) - 1 then y else x) <$> seqZ 0 (Z.of_nat (S m)) =
  replicate m x ++ [y].
Proof.
  rewrite seqZ_S, fmap_app. f_equal.
  - assert (forall l, Forall (fun i => i < Z.of_nat m) l ->
      ((fun i => if i =? Z.of_nat (S m) - 1 then y else x) <$> l) = replicate (length l) x) as H.
    { intros l Hl. induction Hl as [|i l Hi _ IH]; [done|]. rewrite fmap_cons, IH. simpl.
      rewrite (proj2 (Z.eqb_neq _ _)) by lia. done. }
    rewrite H, length_seqZ, Nat2Z.id; [done|].
    apply Forall_forall. intros i Hi%elem_of_seqZ. lia.
  - simpl. rewrite (proj2 (Z.eqb_eq _ _)) by lia. done.
Qed.

Lemma forallb_replicate_app (m : nat) x y :
  forallb (fun w => w =? x) (replicate m x ++ [y]) = (y =? x).
Proof.
  induction m as [|m IH]; simpl; [by rewrite andb_true_r|]. by rewrite Z.eqb_refl.
Qed.

Lemma div_facts g (m : nat) : 0 <= g ->
  0 <= g / Z.of_nat (S m) /\ 0 <= g mod Z.of_nat (S m) < Z.of_nat (S m) /\
  g = Z.of_nat (S m) * (g / Z.of_nat (S m)) + g mod Z.of_nat (S m).
Proof.
  pose proof (Z.div_pos g (Z.of_nat (S m))). pose proof (Z.mod_pos_bound g (Z.of_nat (S m))).
  pose proof (Z.div_mod g (Z.of_nat (S m))). lia.
Qed.

(** The three shapes of a weight list: equal shares with the remainder on the last
    next hop, or, when the shares would all be equal and above one, one unit moved
    from the last but one to the last. *)
Lemma computeNHGWeights_shape g (m : nat) : 0 <= g < 2 ^ 64 ->
  let base := g / Z.of_nat (S m) in
  let r := g mod Z.of_nat (S m) in
  computeNHGWeights g (Z.of_nat (S m)) =
  Ret (match m with
       | S k => if (1 <? base) && (r =? 0) then replicate k base ++ [base - 1; base + 1]
                else replicate m base ++ [base + r]
       | O => [base + r]
       end).
Proof.
  intros Hg base r. unfold computeNHGWeights, makeLen.
  destruct (div_facts g m) as (Hb & Hr & Eg); [lia|]. fold base r in Hb, Hr, Eg.
  rewrite (proj2 (Z.ltb_ge (Z.of_nat (S m)) 0)) by lia. simpl mbind.
  rewrite Z.quot_div_nonneg, Z.rem_mod_nonneg by lia. fold base r.
  assert (uint64 (base + r) = base + r) as -> by (apply Z.mod_small; nia).
  rewrite fmap_seqZ_last.
  destruct m as [|k].
  { done. }
  rewrite (proj2 (Z.ltb_lt 1 (Z.of_nat (S (S k))))) by lia.
  cbn [replicate app head tail default from_option andb].
  rewrite forallb_replicate_app.
  replace (base + r =? base) with (r =? 0) by (destruct (Z.eqb_spec r 0), (Z.eqb_spec (base + r) base); lia).
  destruct (Z.ltb_spec 1 base) as [H1|H1]; [|done].
  destruct (Z.eqb_spec r 0) as [H0|H0]; [|done]. cbn [andb].
  change (base :: replicate k base ++ [base + r]) with (replicate (S k) base ++ [base + r]).
  rewrite replicate_S_end, <- app_assoc. cbn [app].
  replace (Z.to_nat (Z.of_nat (S (S k)) - 2)) with (length (replicate k base) + 0)%nat
    by (rewrite length_replicate; lia).
  replace (Z.to_nat (Z.of_nat (S (S k)) - 1)) with (length (replicate k base) + 1)%nat
    by (rewrite length_replicate; lia).
  rewrite !alter_app_r. simpl. unfold uint64. rewrite !Z.mod_small by nia.
  do 2 f_equal. rewrite H0. f_equal. f_equal. lia.
Qed.

(** C11: for a positive number of next hops the weights exist, one per next hop,
    and add up to the granularity; when the granularity is at least twice the
    number of next hops (two or more) every weight is positive and they are not
    all equal, so that the device programs WCMP; when it is smaller than the
    number of next hops, all next hops but the last get weight zero. *)
Theorem computeNHGWeights_spec g n (Hg : 0 <= g < 2 ^ 64) (Hn : 0 < n) :
  exists ws, computeNHGWeights g n = Ret ws /\
    length ws = Z.to_nat n /\ sum ws = g /\
    (1 < n -> 2 * n <= g -> Forall (fun w => 0 < w) ws /\ exists a b, a ∈ ws /\ b ∈ ws /\ a <> b) /\
    (g < n -> ws = replicate (Z.to_nat n - 1) 0 ++ [g]).
Proof.
  destruct (Z_of_nat_complete n ltac:(lia)) as [[|m] ->]; [lia|].
  rewrite computeNHGWeights_shape by done. rewrite Nat2Z.id.
  set (base := g / Z.of_nat (S m)). set (r := g mod Z.of_nat (S m)).
  destruct (div_facts g m) as (Hb & Hr & Eg); [lia|]. fold base r in Hb, Hr, Eg.
  clearbody base r. eexists. split; [reflexivity|].
  destruct m as [|k].
  { simpl. repeat split; [unfold sum; simpl; lia|lia|lia|]. intros. do 2 f_equal. lia. }
  destruct (Z.ltb_spec 1 base) as [H1|H1], (Z.eqb_spec r 0) as [H0|H0]; cbn [andb].
  2-4: split; [rewrite length_app, length_replicate; simpl; lia|];
    split; [rewrite sum_app, sum_replicate; unfold sum; simpl; lia|].
  2: { split; [intros _ _; split|nia].
    - apply Forall_app; split; [apply Forall_replicate; lia|constructor; [lia|constructor]].
    - exists base, (base + r). repeat split; [apply elem_of_app; left; simpl; left| |lia].
      apply elem_of_app. right. by apply list_elem_of_singleton. }
  2-3: split; [nia|intros; assert (base = 0) as -> by nia].
  2-3: replace (S (S k) - 1)%nat with (S k) by lia; by replace (0 + r) with g by lia.
  split; [rewrite length_app, length_replicate; simpl; lia|].
  split; [rewrite sum_app, sum_replicate; unfold sum; simpl; nia|].
  split; [intros _ _; split|nia].
  - apply Forall_app; split; [apply Forall_replicate; lia|repeat constructor; lia].
  - exists (base - 1), (base + 1). repeat split; [apply elem_of_app; right; set_solver..|lia].
Qed.

Lemma computeNHGWeights_spec_witness : exists ws, computeNHGWeights 64 2 = Ret ws /\ sum ws = 64.
Proof.
  destruct (computeNHGWeights_spec 64 2) as (ws & H1 & _ & H2 & _); [lia|lia|]. by exists ws.
Defined.

(** ** The iterator

    The sequence the iterator is meant to produce: the groups of the first bucket,
    then those of the second, and so on. *)

Definition flat {B} (cnt : B -> Z) (buckets : list B) : list B :=
  buckets ≫= fun b => replicate (Z.to_nat (cnt b)) b.

Definition shape (maxNHs : Z) (p : nhgLoadBalancingBucket * nhgWeightBucket) : go (list Z) :=
  groupWeights (config p.2) (Z.min (numLoadBalancingNH p.1) maxNHs).

Definition shapes (lb : list nhgLoadBalancingBucket) (w : list nhgWeightBucket) (maxNHs : Z) :
    go (list (list Z)) :=
  mapM (shape maxNHs) (zip (flat lb_numNHG lb) (flat w_numNHG w)).

(** Every bucket between the first and the last has a group. *)
Definition middles_positive (counts : list Z) : Prop :=
  forall j c, (0 < j)%nat -> (S j < length counts)%nat -> counts !! j = Some c -> 0 < c.

(** The bucket indices that [n] calls visit. *)
Fixpoint track (counts : list Z) (idx : nat) (created : Z) (n : nat) : list nat :=
  match n with
  | O => []
  | S n => let '(i, c) := advance counts idx created in i :: track counts i (c + 1) n
  end.

Fixpoint expand (idx : nat) (counts : list Z) : list nat :=
  match counts with
  | [] => []
  | c :: counts => replicate (Z.to_nat c) idx ++ expand (S idx) counts
  end.

(** What is left to visit from bucket [idx] of which [created] groups exist. *)
Definition remaining (counts : list Z) (idx : nat) (created c : Z) : list nat :=
  replicate (Z.to_nat (c - created)) idx ++ expand (S idx) (drop (S idx) counts).

Lemma remaining_next counts idx c : counts !! idx = Some c ->
  expand idx (drop idx counts) = remaining counts idx 0 c.
Proof.
  intros H. unfold remaining. rewrite (drop_S _ _ _ H). simpl. by rewrite Z.sub_0_r.
Qed.

Lemma remaining_step counts idx created c : created < c -> 0 <= created ->
  remaining counts idx created c = idx :: remaining counts idx (created + 1) c.
Proof.
  intros H H0. unfold remaining.
  replace (Z.to_nat (c - created)) with (S (Z.to_nat (c - (created + 1)))) by lia. done.
Qed.

Lemma track_remaining counts n : middles_positive counts -> forall idx created c,
  counts !! idx = Some c -> 0 <= created <= c ->
  (n <= length (remaining counts idx created c))%nat ->
  track counts idx created n = take n (remaining counts idx created c).
Proof.
  intros Hmid. induction n as [|n IH]; intros idx created c Hc Hcr Hn; [done|].
  cbn [track]. unfold advance. rewrite Hc. simpl default.
  destruct (Z.leb_spec c created) as [Hge|Hlt].
  - assert (created = c) as -> by lia.
    destruct (decide (S idx < length counts)%nat) as [Hl|Hl].
    + rewrite bool_decide_eq_true_2 by done. cbn [andb].
      destruct (lookup_lt_is_Some_2 _ _ Hl) as [c' Hc'].
      assert (remaining counts idx c c = remaining counts (S idx) 0 c') as Er.
      { rewrite <- (remaining_next _ _ _ Hc'). unfold remaining. by rewrite Z.sub_diag. }
      rewrite Er in Hn |- *.
      assert (0 < c') as Hpos.
      { destruct (decide (S (S idx) < length counts)%nat) as [Hm|Hm]; [exact (Hmid (S idx) c' (Nat.lt_0_succ idx) Hm Hc')|].
        unfold remaining in Hn. rewrite drop_ge in Hn by lia. cbn [expand] in Hn.
        rewrite app_nil_r, length_replicate in Hn. lia. }
      rewrite remaining_step by lia. simpl take. f_equal. apply IH; [done|lia|].
      rewrite remaining_step in Hn by lia. simpl in Hn. lia.
    + exfalso. unfold remaining in Hn. rewrite Z.sub_diag, drop_ge in Hn by lia. simpl in Hn. lia.
  - rewrite andb_false_r. rewrite remaining_step by lia. simpl take. f_equal.
    apply IH; [done|lia|]. rewrite remaining_step in Hn by lia. simpl in Hn. lia.
Qed.

Lemma length_expand counts : Forall (fun c => 0 <= c) counts -> forall idx,
  Z.of_nat (length (expand idx counts)) = sum counts.
Proof.
  induction 1 as [|c counts Hc _ IH]; intros idx; [done|].
  cbn [expand]. rewrite length_app, length_replicate, Nat2Z.inj_add, IH, sum_cons. lia.
Qed.

(** From the start, the iterator visits the buckets in order, each as often as its
    count says. *)
Lemma track_expand counts : counts <> [] -> Forall (fun c => 0 <= c) counts ->
  middles_positive counts ->
  track counts 0 0 (Z.to_nat (sum counts)) = expand 0 counts.
Proof.
  intros Hne Hpos Hmid. destruct counts as [|c counts]; [done|].
  pose proof (length_expand _ Hpos 0) as Hl.
  assert (expand 0 (c :: counts) = remaining (c :: counts) 0 0 c) as E
    by exact (remaining_next (c :: counts) 0 c eq_refl).
  pose proof (Forall_inv Hpos) as Hc. simpl in Hc.
  rewrite (track_remaining _ _ Hmid 0%nat 0 c eq_refl ltac:(lia)) by (rewrite <- E; lia).
  rewrite <- E, take_ge; [done|lia].
Qed.

Lemma expand_flat {B} (cnt : B -> Z) (suf : list B) : forall pre,
  (fun i => (pre ++ suf) !! i) <$> expand (length pre) (cnt <$> suf) = Some <$> flat cnt suf.
Proof.
  induction suf as [|b suf IH]; intros pre; [done|].
  rewrite fmap_cons. cbn [expand]. unfold flat. rewrite bind_cons, !fmap_app, !fmap_replicate. f_equal.
  - by rewrite list_lookup_middle.
  - specialize (IH (pre ++ [b])). rewrite <- app_assoc, length_app, Nat.add_comm in IH. exact IH.
Qed.

Lemma expand_flat_start {B} (cnt : B -> Z) (bs : list B) counts : cnt <$> bs = counts ->
  (fun i => bs !! i) <$> expand 0 counts = Some <$> flat cnt bs /\
  length (expand 0 counts) = length (flat cnt bs).
Proof.
  intros <-. pose proof (expand_flat cnt bs []) as H. split; [exact H|].
  apply (f_equal length) in H. by rewrite !length_fmap in H.
Qed.

Definition bucket_shape (it : NHGBucketIterator) (p : nat * nat) : go (list Z) :=
  match lbBuckets it !! p.1, weightBuckets it !! p.2 with
  | Some b, Some w => shape (maxNHsAvailable it) (b, w)
  | _, _ => Panic
  end.

Lemma bucket_shape_eq it i j :
  bucket_shape it (i, j) =
  match lbBuckets it !! i, weightBuckets it !! j with
  | Some b, Some w => groupWeights (config w) (Z.min (numLoadBalancingNH b) (maxNHsAvailable it))
  | _, _ => Panic
  end.
Proof. done. Qed.

Lemma shape_eq maxNHs b w :
  shape maxNHs (b, w) = groupWeights (config w) (Z.min (numLoadBalancingNH b) maxNHs).
Proof. done. Qed.

Lemma nexts_track n : forall it,
  nexts n it = mapM (bucket_shape it)
    (zip (track (lb_numNHG <$> lbBuckets it) (lbIdx it) (lbCreated it) n)
         (track (w_numNHG <$> weightBuckets it) (weightIdx it) (weightCreated it) n)).
Proof.
  induction n as [|n IH]; intros it; [done|]. cbn [nexts track]. unfold Next.
  destruct (advance (lb_numNHG <$> lbBuckets it) _ _) as [i c].
  destruct (advance (w_numNHG <$> weightBuckets it) _ _) as [j d].
  cbn [zip zip_with mapM]. rewrite bucket_shape_eq.
  destruct (lbBuckets it !! i) as [b|]; [|done].
  destruct (weightBuckets it !! j) as [w|]; [|done].
  destruct (groupWeights _ _) as [ws| | |]; [|done..].
  simpl mbind. rewrite IH. done.
Qed.

Lemma mapM_bucket_shape it xs bs ys ws :
  (fun i => lbBuckets it !! i) <$> xs = Some <$> bs ->
  (fun i => weightBuckets it !! i) <$> ys = Some <$> ws ->
  mapM (bucket_shape it) (zip xs ys) = mapM (shape (maxNHsAvailable it)) (zip bs ws).
Proof.
  revert bs ys ws. induction xs as [|x xs IH]; intros [|b bs] [|y ys] [|w ws] Hx Hy;
    rewrite ?fmap_cons in *; simplify_eq; try done.
  cbn [zip zip_with mapM]. rewrite bucket_shape_eq.
  match goal with H : lbBuckets it !! x = _ |- _ => rewrite H end.
  match goal with H : weightBuckets it !! y = _ |- _ => rewrite H end.
  rewrite shape_eq.
  destruct (groupWeights _ _); [|done..]. simpl mbind. by rewrite (IH bs ys ws).
Qed.

Lemma zip_with_counts {B S} (f : Z -> S -> B) (cnt : B -> Z) counts (req : list S) :
  (forall n s, cnt (f n s) = n) -> length counts = length req ->
  cnt <$> zip_with f counts req = counts.
Proof.
  intros Hf. revert req. induction counts as [|n counts IH]; intros [|s req] Hl; simplify_eq/=; [done|].
  f_equal; [apply Hf|by apply IH].
Qed.

(** The counts of the buckets the validated specifications give. *)
Lemma validated_buckets numNHG lb w maxNHs : 0 <= numNHG ->
  validateNHGLoadBalance lb = Ret tt -> validateNHGWeight w = Ret tt ->
  exists it lbc wc, NewNHGBucketIterator numNHG lb w maxNHs = Ret it /\
    partitionNHG numNHG lb lb_Pct = Ret lbc /\ partitionNHG numNHG w w_Pct = Ret wc /\
    lb_numNHG <$> lbBuckets it = lbc /\ w_numNHG <$> weightBuckets it = wc /\
    maxNHsAvailable it = maxNHs /\
    lbIdx it = 0%nat /\ lbCreated it = 0 /\ weightIdx it = 0%nat /\ weightCreated it = 0.
Proof.
  intros Hn (Hlb & _)%validateNHGLoadBalance_iff (Hw & _)%validateNHGWeight_iff.
  destruct (partitionNHG_total numNHG lb lb_Pct Hlb) as [lbc Elb].
  destruct (partitionNHG_total numNHG w w_Pct Hw) as [wc Ew].
  pose proof (partitionNHG_counts _ _ _ _ Elb) as [Llb _].
  pose proof (partitionNHG_counts _ _ _ _ Ew) as [Lw _].
  unfold NewNHGBucketIterator, computeNHGBuckets, computeNHGWeightBuckets.
  rewrite Elb, Ew. simpl. eexists _, lbc, wc. split; [reflexivity|]. simpl.
  split; [done|]. split; [done|].
  rewrite !zip_with_counts by done. done.
Qed.

Lemma forallb_Forall_pct {A} (ok : A -> bool) (pct : A -> Z) l :
  (forall x, ok x = true -> 0 <= pct x) -> forallb ok l = true -> Forall (fun x => 0 <= pct x) l.
Proof. 
  intros H Hl. apply Forall_forall. intros x Hx%list_elem_of_In.
  apply H. by apply (proj1 (forallb_forall ok l) Hl).
Qed.

(** C12: with validated specifications, [numNHG] calls of the iterator give the
    groups of the first bucket of each specification, then those of the second,
    and so on, each bucket as often as its count says, provided every bucket
    between the first and the last has a group. *)
Theorem iterator_follows_buckets numNHG lb w maxNHs it
    (Hn : 0 <= numNHG)
    (Hlb : validateNHGLoadBalance lb = Ret tt) (Hw : validateNHGWeight w = Ret tt)
    (Hit : NewNHGBucketIterator numNHG lb w maxNHs = Ret it)
    (Hmlb : middles_positive (lb_numNHG <$> lbBuckets it))
    (Hmw : middles_positive (w_numNHG <$> weightBuckets it)) :
  nexts (Z.to_nat numNHG) it = shapes (lbBuckets it) (weightBuckets it) maxNHs /\
  length (flat lb_numNHG (lbBuckets it)) = Z.to_nat numNHG /\
  length (flat w_numNHG (weightBuckets it)) = Z.to_nat numNHG.
Proof.
  destruct (validated_buckets numNHG lb w maxNHs Hn Hlb Hw)
    as (it' & lbc & wc & Hit' & Plb & Pw & Clb & Cw & Hmax & I1 & I2 & I3 & I4).
  rewrite Hit in Hit'. injection Hit' as <-.
  apply validateNHGLoadBalance_iff in Hlb as (Nlb & Olb & Slb).
  apply validateNHGWeight_iff in Hw as (Nw & Ow & Sw).
  pose proof (partitionNHG_counts _ _ _ _ Plb) as (Llb & Tlb & Glb).
  pose proof (partitionNHG_counts _ _ _ _ Pw) as (Lw & Tw & Gw).
  rewrite Clb in Hmlb. rewrite Cw in Hmw.
  specialize (Glb Hn (forallb_Forall_pct lb_ok lb_Pct lb ltac:(unfold lb_ok; intros; lia) Olb) Slb).
  specialize (Gw Hn (forallb_Forall_pct w_ok w_Pct w ltac:(unfold w_ok; intros; lia) Ow) Sw).
  assert (lbc <> []) as Nlbc by (destruct lbc, lb; done).
  assert (wc <> []) as Nwc by (destruct wc, w; done).
  pose proof (track_expand lbc Nlbc Glb Hmlb) as Elb. rewrite Tlb in Elb.
  pose proof (track_expand wc Nwc Gw Hmw) as Ew. rewrite Tw in Ew.
  destruct (expand_flat_start _ _ _ Clb) as [Flb Hl1], (expand_flat_start _ _ _ Cw) as [Fw Hl2].
  pose proof (length_expand lbc Glb 0). pose proof (length_expand wc Gw 0).
  split; [|lia].
  rewrite nexts_track, Clb, Cw, I1, I2, I3, I4, Elb, Ew.
  unfold shapes. rewrite <- Hmax. by apply mapM_bucket_shape.
Qed.

(** The specification of the encapsulation VRFs of the full scale tests. *)
Definition encapLoadBalance : list NHGLoadBalancingParams :=
  [{| lb_Pct := 75; NumNextHops := 4 |}; {| lb_Pct := 20; NumNextHops := 8 |};
   {| lb_Pct := 3; NumNextHops := 16 |}; {| lb_Pct := 2; NumNextHops := 32 |}].
Definition encapWeight : list NHGWeightParams :=
  [{| w_Pct := 75; Config := Some WCMP1in32 |}; {| w_Pct := 20; Config := Some WCMP1in64 |};
   {| w_Pct := 3; Config := Some WCMP1in128 |}; {| w_Pct := 2; Config := Some WCMP1in256 |}].

Definition middles_positiveb (counts : list Z) : bool :=
  forallb (fun c => 0 <? c) (removelast (tail counts)).

Lemma middles_positiveb_sound counts : middles_positiveb counts = true -> middles_positive counts.
Proof.
  unfold middles_positiveb, middles_positive. intros H j c Hj Hl Hc.
  destruct counts as [|c0 counts]; [done|]. destruct j as [|j]; [lia|]. simpl in *.
  assert (c ∈ removelast counts) as Hin.
  { destruct counts as [|x l _] using rev_ind; [done|].
    rewrite removelast_last. rewrite length_app in Hl. simpl in Hl.
    rewrite lookup_app_l in Hc by lia. by eapply list_elem_of_lookup_2. }
  apply list_elem_of_In in Hin. apply (proj1 (forallb_forall _ _) H) in Hin. lia.
Qed.

Lemma iterator_follows_buckets_witness : exists it,
  NewNHGBucketIterator 250 encapLoadBalance encapWeight 16000 = Ret it /\
  nexts 250 it = shapes (lbBuckets it) (weightBuckets it) 16000.
Proof.
  eexists. split; [reflexivity|].
  eapply (iterator_follows_buckets 250 encapLoadBalance encapWeight 16000);
    [lia|reflexivity..|apply middles_positiveb_sound; reflexivity|apply middles_positiveb_sound; reflexivity].
Defined.

(** The check in [Next] is made once per call: a bucket without groups between two
    others is still visited once.  Here half of two groups should have one next
    hop, none two and half four; the second group has two. *)
Lemma empty_bucket_visited :
  (it ← NewNHGBucketIterator 2
     [{| lb_Pct := 50; NumNextHops := 1 |}; {| lb_Pct := 0; NumNextHops := 2 |};
      {| lb_Pct := 50; NumNextHops := 4 |}] [{| w_Pct := 100; Config := Some ECMP |}] 10;
   nexts 2 it) = Ret [[1]; [1; 1]].
Proof. reflexivity. Qed.
