(* ===== verification/GribiScale.v ===== *)
(** * gRIBI full scale programming

    The builders of [src/internal/cfgplugins/gribifullscale.go] that fill the VRFs
    of a device with next hops, next-hop groups and prefixes, the batches in which
    they are sent and the checks of the results.  Each builder has a pure part,
    the entries it makes ([..._entries]), and the part that sends them.  Next-hop
    and group identifiers are [uint64]s; counts are Go [int]s, unbounded here.
    Go maps that only drive a loop are lists in the order of iteration. *)
From stdpp Require Import base list gmap strings.
From Stdlib Require Import ZArith Lia.
From S2P Require Import Prelude.
From S2P Require Import GoStrings.
From S2P Require Import Net.
From S2P Require Import IPUtil.
From S2P Require Import Gribi.
From S2P Require Import NhgBuckets.
Local Open Scope Z_scope.

(** ** Constants *)

Definition ATEPort2IPv4Start := "193.51.0.2".
Definition PortIPv4Step := "0.0.0.4".
Definition ShutdownVLANPct := 50.
Definition IPv4HostMask := 32.
Definition IPv6HostMask := 128.
Definition DecapVRFStr := "DECAP_TE_VRF".
Definition TransitVRF111Str := "TE_VRF_111".
Definition TransitVRF222Str := "TE_VRF_222".
Definition RepairVRFStr := "REPAIR_VRF".
Definition IPv4OuterSrc111 := "198.51.100.111".
Definition IPv4OuterSrc222 := "198.51.100.222".
Definition IPv4PrefixStartAddress := "10.0.0.1".
Definition TransitVRF111PrefixStart := "100.0.0.1".
Definition TransitVRF222PrefixStart := "101.0.0.1".
Definition CommonPrefixStep := "0.0.0.1".
Definition CommonIPv6PrefixStep := "::1".
Definition DefaultGRIBIBatchSize := 2000.
Definition NHBaseDefault := 1000.
Definition NHGBaseDefault := 2000.
Definition NHBaseTransit := 10000.
Definition NHGBaseTransit := 20000.
Definition NHBaseRepair := 30000.
Definition NHGBaseRepair := 32000.
Definition NHBaseEncap := 50000.
Definition NHGBaseEncap := 82000.
Definition NHBaseDecap := 120000.
Definition NHGBaseDecap := 120100.
Definition StaticS1NHG := 9001.
Definition StaticS2NHG := 9002.
Definition decapPrefixLens : list Z := [22; 24; 26; 28].
Definition outerSrcs : list string := [IPv4OuterSrc111; IPv4OuterSrc222].

Record ScaleParams := {
  GRIBIBatchSize : Z;
  NumDefaultNH : Z;
  NumDefaultNHG : Z;
  DefaultNHGLoadBalance : list NHGLoadBalancingParams;
  DefaultNHGWeight : list NHGWeightParams;
  NumDefaultIPv4 : Z;
  NumTransitNH : Z;
  NumTransitNHG : Z;
  TransitNHGLoadBalance : list NHGLoadBalancingParams;
  TransitNHGWeight : list NHGWeightParams;
  NumTransitIPv4 : Z;
  NumRepairIPv4 : Z;
  NumRepairNHG : Z;
  NumEncapVRFs : Z;
  NumUniqueEncapNH : Z;
  NumEncapDefaultNHG : Z;
  EncapNHGLoadBalance : list NHGLoadBalancingParams;
  EncapNHGWeight : list NHGWeightParams;
  NumEncapIPv4PerVRF : Z;
  NumEncapIPv6PerVRF : Z;
  NumDecapEntries : Z;
  DecapDestsSubsetPct : Z;
  TrafficLossTol : Z;
  TrafficRateMpps : Z;
  NumPort2VLANs : Z
}.

Definition validateScaleParams (params : ScaleParams) : go unit :=
  _ ← validateNHGLoadBalance (DefaultNHGLoadBalance params);
  _ ← validateNHGWeight (DefaultNHGWeight params);
  if NumEncapVRFs params <=? 0 then Panic
  else if NumEncapDefaultNHG params <? NumEncapVRFs params then Panic
  else if (0 <? NumUniqueEncapNH params) && (NumTransitIPv4 params =? 0) then Panic
  else
    _ ← validateNHGLoadBalance (EncapNHGLoadBalance params);
    _ ← validateNHGWeight (EncapNHGWeight params);
    if NumDecapEntries params <? 0 then Panic
    else if (DecapDestsSubsetPct params <? 0) || (100 <? DecapDestsSubsetPct params) then Panic
    else
      _ ← validateNHGLoadBalance (TransitNHGLoadBalance params);
      _ ← validateNHGWeight (TransitNHGWeight params);
      if NumPort2VLANs params <=? 0 then Panic else Ret tt.

(** ** VRFs and DSCP values *)

(** [fmt.Sprintf("%c", r)]: the UTF-8 encoding of the code point, the replacement
    character when there is none. *)
Definition ofBytes (bs : list Z) : string :=
  foldr (fun b s => String (Ascii.ascii_of_nat (Z.to_nat b)) s) "" bs.
Definition rune (r : Z) : string :=
  let r := if (r <? 0) || (1114111 <? r) || ((55296 <=? r) && (r <=? 57343)) then 65533 else r in
  let cont k := 128 + Z.land (Z.shiftr r (6 * k)) 63 in
  ofBytes
    (if r <? 128 then [r]
     else if r <? 2048 then [192 + Z.shiftr r 6; cont 0]
     else if r <? 65536 then [224 + Z.shiftr r 12; cont 1; cont 0]
     else [240 + Z.shiftr r 18; cont 2; cont 1; cont 0]).

Definition BuildEncapVRFs (numEncapVRFs : Z) : list string :=
  (fun i => "ENCAP_TE_VRF_" +:+ rune (65 + i)) <$> seqZ 0 numEncapVRFs.

Definition BuildAllNonDefaultVRFs (encapVRFs : list string) : list string :=
  encapVRFs ++ [TransitVRF111Str; TransitVRF222Str; RepairVRFStr; DecapVRFStr].

Definition uint8 (v : Z) : Z := v mod 2 ^ 8.

Definition EncapVRFDSCP (vrfIdx : Z) : Z * Z := (uint8 (10 + vrfIdx * 2), uint8 (11 + vrfIdx * 2)).

Definition EncapDSCPVal (vrfIdx variant : Z) : Z :=
  let '(d1, d2) := EncapVRFDSCP vrfIdx in if variant =? 0 then d1 else d2.

Definition getAllEncapDSCPVals (numEncapVRFs : Z) : list Z :=
  seqZ 0 numEncapVRFs ≫= fun vi => let '(d1, d2) := EncapVRFDSCP vi in [d1; d2].

(** ** Go expressions that can panic *)

(** [l[i]] *)
Definition index {A} (l : list A) (i : Z) : go A :=
  if i <? 0 then Panic else match l !! Z.to_nat i with Some x => Ret x | None => Panic end.

(** [a % b] and [a / b] on ints *)
Definition goRem (a b : Z) : go Z := if b =? 0 then Panic else Ret (Z.rem a b).
Definition goQuot (a b : Z) : go Z := if b =? 0 then Panic else Ret (Z.quot a b).

(** [if err != nil { t.Fatalf(...) }] *)
Definition fatal {A} (m : go A) : go A := match m with Fail _ => Panic | m => m end.

(** ** Next-hop groups

    The loop that fills the groups of a VRF is the same in the three builders that
    use the iterator: [calls i] starts the i-th group, the next hops are taken in
    turn from [numNH] identifiers after [baseNH]. *)

Fixpoint addNextHops (baseNH numNH nhOffset j : Z) (weights : list Z) : go (list NHGCall) :=
  match weights with
  | [] => Ret []
  | w :: weights =>
      k ← goRem (nhOffset + j) numNH;
      rest ← addNextHops baseNH numNH nhOffset (j + 1) weights;
      Ret (NHG_AddNextHop (uint64 (baseNH + uint64 k)) w :: rest)
  end.

Fixpoint groupLoop (calls : Z -> list NHGCall) (baseNH numNH : Z) (i : Z) (n : nat)
    (it : NHGBucketIterator) (nhOffset : Z) : go (list GRIBIEntry * Z) :=
  match n with
  | O => Ret ([], nhOffset)
  | S n =>
      '(weights, it) ← Next it;
      hops ← addNextHops baseNH numNH nhOffset 0 weights;
      '(rest, off) ← groupLoop calls baseNH numNH (i + 1) n it (nhOffset + Z.of_nat (length weights));
      Ret (NextHopGroupEntry (calls i ++ hops) :: rest, off)
  end.

Definition ipCallsFor (ni pfx : string) (id : Z) (nhgNI : string) : list IPCall :=
  [IP_WithNetworkInstance ni; IP_WithPrefix pfx; IP_WithNextHopGroup id;
   IP_WithNextHopGroupNetworkInstance nhgNI].

#[global] Arguments ipCallsFor : simpl never.

(** [fmt.Sprintf("%s/%d", host, mask)] *)
Definition cidr (host : string) (mask : Z) : string := host +:+ "/" +:+ Itoa mask.

(** [for i, host := range l] *)
Definition imapM {A B} (f : Z -> A -> go B) (l : list A) : go (list B) :=
  mapM (fun '(i, x) => f i x) (zip (seqZ 0 (Z.of_nat (length l))) l).

(** ** Default VRF *)

(** What [BuildDefaultVRF] sends, the prefixes it checks, and what it returns. *)
Record DefaultVRF := {
  d_nh : list GRIBIEntry;
  d_nhg : list GRIBIEntry;
  d_ipv4 : list GRIBIEntry;
  d_want : list string;
  primaryPrefixes : list string;
  backupPrefixes : list string
}.
Definition d_entries (d : DefaultVRF) : list GRIBIEntry := d_nh d ++ d_nhg d ++ d_ipv4 d.

(** The VLANs that the first half of the next hops resolve to. *)
Definition primaryVLANs (params : ScaleParams) : Z :=
  Z.max (Z.quot (NumPort2VLANs params * ShutdownVLANPct) 100) 1.

Definition primaryVLAN (params : ScaleParams) (i : Z) : go Z := goRem i (primaryVLANs params).

Definition backupVLAN (params : ScaleParams) (i : Z) : go Z :=
  let backupVLANs := NumPort2VLANs params - primaryVLANs params in
  if 0 <? backupVLANs then k ← goRem i backupVLANs; Ret (primaryVLANs params + k)
  else goRem i (primaryVLANs params).

Definition BuildDefaultVRF_entries (defaultVRF : string) (params : ScaleParams) : go DefaultVRF :=
  atePort2Ips ← fatal (GenerateIPsWithStep ATEPort2IPv4Start (NumPort2VLANs params) PortIPv4Step);
  prefixHosts ← fatal (GenerateIPsWithStep IPv4PrefixStartAddress (NumDefaultIPv4 params) CommonPrefixStep);
  let numNHPart := Z.max (Z.quot (NumDefaultNH params) 2) 1 in
  let numNHGPart := Z.max (Z.quot (NumDefaultNHG params) 2) 1 in
  let numIPv4Part := Z.max (Z.quot (NumDefaultIPv4 params) 2) 1 in
  let nhBase := NHBaseDefault in
  let nhgBase := NHGBaseDefault in
  let nhgBaseBackup := uint64 (nhgBase + uint64 numNHGPart) in
  let nhBaseBackup := uint64 (nhBase + uint64 numNHPart) in
  let nextHop base vlan i :=
    vlanIdx ← vlan i;
    ip ← index atePort2Ips vlanIdx;
    Ret (NextHopEntry [NH_WithNetworkInstance defaultVRF; NH_WithIndex (uint64 (base + uint64 i));
                       NH_WithIPAddress ip]) in
  nh1 ← mapM (nextHop nhBase (primaryVLAN params)) (seqZ 0 numNHPart);
  nh2 ← mapM (nextHop nhBaseBackup (backupVLAN params)) (seqZ 0 numNHPart);
  let buildNHGs baseNHG baseNH :=
    iter ← NewNHGBucketIterator numNHGPart (DefaultNHGLoadBalance params) (DefaultNHGWeight params) numNHPart;
    '(groups, _) ← groupLoop
      (fun i => [NHG_WithNetworkInstance defaultVRF; NHG_WithID (uint64 (baseNHG + uint64 i))])
      baseNH numNHPart 0 (Z.to_nat numNHGPart) iter 0;
    Ret groups in
  nhg1 ← buildNHGs nhgBase nhBase;
  nhg2 ← buildNHGs nhgBaseBackup nhBaseBackup;
  let prefix base pick i :=
    host ← pick i;
    k ← goRem i numNHGPart;
    Ret (host, IPv4Entry (ipCallsFor defaultVRF (cidr host IPv4HostMask) (uint64 (base + uint64 k)) defaultVRF)) in
  ip1 ← mapM (prefix nhgBase (index prefixHosts)) (seqZ 0 numIPv4Part);
  ip2 ← mapM (prefix nhgBaseBackup (fun i =>
           let prefixIdx := numIPv4Part + i in
           idx ← (if Z.of_nat (length prefixHosts) <=? prefixIdx
                  then goRem i (Z.of_nat (length prefixHosts)) else Ret prefixIdx);
           index prefixHosts idx)) (seqZ 0 numIPv4Part);
  first ← index prefixHosts 0;
  last ← index prefixHosts (Z.of_nat (length prefixHosts) - 1);
  Ret {| d_nh := nh1 ++ nh2; d_nhg := nhg1 ++ nhg2; d_ipv4 := (snd <$> ip1) ++ (snd <$> ip2);
         d_want := [cidr first IPv4HostMask; cidr last IPv4HostMask];
         primaryPrefixes := fst <$> ip1; backupPrefixes := fst <$> ip2 |}.

(** ** Entries of the other VRFs

    [fib] is [fluent.InstalledInFIB] and [order] the order in which Go iterates
    over a map literal. *)

Section Builders.
Context (fib : Z) (order : list (Z * Z) -> list (Z * Z)).

Definition vrfOption (vrf : string) : option NHOptions :=
  Some {| opt_Src := ""; opt_Dest := ""; opt_VrfName := vrf; opt_Mac := "";
          opt_Interface := ""; opt_SubInterface := 0 |}.
Definition tunnelOption (src dst vrf : string) : option NHOptions :=
  Some {| opt_Src := src; opt_Dest := dst; opt_VrfName := vrf; opt_Mac := "";
          opt_Interface := ""; opt_SubInterface := 0 |}.
Definition backupOption (id : Z) : option NHGOptions := Some {| BackupNHG := id |}.

Definition nhEntry (id : Z) (address defaultVRF : string) (opts : list (option NHOptions)) : go GRIBIEntry :=
  fst <$> NHEntry id address defaultVRF fib opts.
Definition nhgEntry (id : Z) (weights : list (Z * Z)) (defaultVRF : string)
    (opts : list (option NHGOptions)) : GRIBIEntry :=
  fst (NHGEntry id (order weights) defaultVRF fib opts).

Definition BuildStaticGroups_entries (defaultVRF : string) : go (list GRIBIEntry) :=
  s1NH ← nhEntry StaticS1NHG "VRFOnly" defaultVRF [vrfOption RepairVRFStr];
  let s1NHGEntry := nhgEntry StaticS1NHG [(StaticS1NHG, 1)] defaultVRF [] in
  s2NH ← nhEntry StaticS2NHG "Decap" defaultVRF [vrfOption defaultVRF];
  let s2NHGEntry := nhgEntry StaticS2NHG [(StaticS2NHG, 1)] defaultVRF [] in
  Ret [s1NH; s1NHGEntry; s2NH; s2NHGEntry].

(** The closure [buildTransitVRF]: what it appends to the entries and to the
    prefixes to check. *)
Definition buildTransitVRF (defaultVRF : string) (params : ScaleParams)
    (vrfName prefixStart : string) (defaultPrefixes : list string)
    (baseNHId nhCount baseNHGId nhgCount backupNHG : Z) :
    go (list GRIBIEntry * list (string * list string)) :=
  if (nhCount =? 0) || (nhgCount =? 0) then Ret ([], [])
  else
    nhs ← mapM (fun k =>
      m ← goRem k (Z.of_nat (length defaultPrefixes));
      ip ← index defaultPrefixes m;
      Ret (NextHopEntry [NH_WithNetworkInstance defaultVRF; NH_WithIndex (uint64 (baseNHId + uint64 k));
                         NH_WithIPAddress ip])) (seqZ 0 nhCount);
    iter ← NewNHGBucketIterator nhgCount (TransitNHGLoadBalance params) (TransitNHGWeight params) nhCount;
    '(nhgs, _) ← groupLoop
      (fun i => [NHG_WithNetworkInstance defaultVRF; NHG_WithID (uint64 (baseNHGId + uint64 i));
                 NHG_WithBackupNHG backupNHG])
      baseNHId nhCount 0 (Z.to_nat nhgCount) iter 0;
    vrfPrefixes ← fatal (GenerateIPsWithStep prefixStart (NumTransitIPv4 params) CommonPrefixStep);
    ips ← imapM (fun i host =>
      k ← goRem i nhgCount;
      Ret (IPv4Entry (ipCallsFor vrfName (cidr host IPv4HostMask) (uint64 (baseNHGId + uint64 k)) defaultVRF)))
      vrfPrefixes;
    first ← index vrfPrefixes 0;
    Ret (nhs ++ nhgs ++ ips, [(vrfName, [cidr first IPv4HostMask])]).

Definition BuildTransitVRFs_entries (defaultVRF : string) (primary backup : list string)
    (s1NHG s2NHG : Z) (params : ScaleParams) : go (list GRIBIEntry * list (string * list string)) :=
  let nhPrimaryCount := Z.max (Z.quot (NumTransitNH params) 2) 1 in
  let nhgPrimaryCount := Z.max (Z.quot (NumTransitNHG params) 2) 1 in
  '(es1, want1) ← buildTransitVRF defaultVRF params TransitVRF111Str TransitVRF111PrefixStart primary
      (uint64 (NHBaseTransit + 0)) nhPrimaryCount (uint64 (NHGBaseTransit + 0)) nhgPrimaryCount s1NHG;
  let nhBackupCount := NumTransitNH params - nhPrimaryCount in
  let nhgBackupCount := NumTransitNHG params - nhgPrimaryCount in
  '(es2, want2) ← buildTransitVRF defaultVRF params TransitVRF222Str TransitVRF222PrefixStart backup
      (uint64 (NHBaseTransit + uint64 nhPrimaryCount)) nhBackupCount
      (uint64 (NHGBaseTransit + uint64 nhgPrimaryCount)) nhgBackupCount s2NHG;
  Ret (es1 ++ es2, want1 ++ want2).

(** The loop over the repair groups: one next hop for the first half, two for the
    rest; [single] devices only take one. *)
Fixpoint repairLoop (single : bool) (defaultVRF : string) (s2NHG : Z) (params : ScaleParams)
    (tunnelDsts : list string) (i : Z) (n : nat) (nhIdx : Z) : go (list GRIBIEntry * Z) :=
  match n with
  | O => Ret ([], nhIdx)
  | S n =>
      let hop k :=
        dst ← index tunnelDsts k;
        nhEntry (uint64 (NHBaseRepair + k)) "DecapEncap" defaultVRF
          [tunnelOption IPv4OuterSrc222 dst TransitVRF222Str] in
      if (i <? Z.quot (NumRepairNHG params) 2) || single then
        nh ← hop nhIdx;
        let nhg := nhgEntry (uint64 (NHGBaseRepair + uint64 i)) [(uint64 (NHBaseRepair + nhIdx), 1)]
                     defaultVRF [backupOption s2NHG] in
        '(rest, off) ← repairLoop single defaultVRF s2NHG params tunnelDsts (i + 1) n (uint64 (nhIdx + 1));
        Ret (nh :: nhg :: rest, off)
      else
        nh0 ← hop nhIdx;
        nh1 ← hop (uint64 (nhIdx + 1));
        let nhg := nhgEntry (uint64 (NHGBaseRepair + uint64 i))
                     [(uint64 (NHBaseRepair + nhIdx), 1); (uint64 (NHBaseRepair + nhIdx + 1), 1)]
                     defaultVRF [backupOption s2NHG] in
        '(rest, off) ← repairLoop single defaultVRF s2NHG params tunnelDsts (i + 1) n (uint64 (nhIdx + 2));
        Ret (nh0 :: nh1 :: nhg :: rest, off)
  end.

Definition BuildRepairVRF_entries (single : bool) (defaultVRF : string) (s2NHG : Z) (params : ScaleParams) :
    go (list GRIBIEntry * list (string * list string)) :=
  tunnelDsts ← fatal (GenerateIPsWithStep TransitVRF222PrefixStart (NumRepairNHG params * 2) CommonPrefixStep);
  '(nhNhgEntries, _) ← repairLoop single defaultVRF s2NHG params tunnelDsts 0 (Z.to_nat (NumRepairNHG params)) 0;
  repairPrefixes ← fatal (GenerateIPsWithStep TransitVRF111PrefixStart (NumRepairIPv4 params) CommonPrefixStep);
  ips ← imapM (fun i host =>
    k ← goRem i (NumRepairNHG params);
    Ret (IPv4Entry (ipCallsFor RepairVRFStr (cidr host IPv4HostMask) (uint64 (NHGBaseRepair + uint64 k)) defaultVRF)))
    repairPrefixes;
  first ← index repairPrefixes 0;
  last ← index repairPrefixes (Z.of_nat (length repairPrefixes) - 1);
  Ret (nhNhgEntries ++ ips, [(RepairVRFStr, [cidr first IPv4HostMask; cidr last IPv4HostMask])]).

(** [fmt.Sprintf("%x", v)] of a non-negative number below 2^16. *)
Definition hex16 (v : Z) : string := hex_field v.

(** The routes of one family in an encapsulation VRF and the prefixes to check:
    the first, the last, and the fallback. *)
Definition encapRoutes (mk : list IPCall -> GRIBIEntry) (vrf defaultVRF : string) (mask : Z) (any : string)
    (nhgIdx nhgOffset perVrf : Z) (hosts : list string) : go (list GRIBIEntry * list string) :=
  es ← imapM (fun i host =>
    k ← goRem i perVrf;
    Ret (mk (ipCallsFor vrf (cidr host mask) (uint64 (nhgIdx + uint64 (nhgOffset + k))) defaultVRF))) hosts;
  first ← index hosts 0;
  last ← index hosts (Z.of_nat (length hosts) - 1);
  Ret (es, [cidr first mask; cidr last mask; any]).

Record EncapState := {
  e_entries : list GRIBIEntry;
  e_want4 : list (string * list string);
  e_want6 : list (string * list string);
  e_nhOffset : Z
}.

Definition encapVRF (defaultVRF : string) (params : ScaleParams) (nhIdx fallbackNHGID nhgIdx numNHGPerVrf : Z)
    (st : EncapState) (p : Z * string) : go EncapState :=
  let '(vi, vrf) := p in
  let nhgOffset := vi * numNHGPerVrf in
  let perVrf := if vi =? NumEncapVRFs params - 1 then NumEncapDefaultNHG params - nhgOffset else numNHGPerVrf in
  iter ← NewNHGBucketIterator perVrf (EncapNHGLoadBalance params) (EncapNHGWeight params) (NumUniqueEncapNH params);
  '(nhgs, off) ← groupLoop
    (fun i => [NHG_WithNetworkInstance defaultVRF; NHG_WithID (uint64 (nhgIdx + uint64 (nhgOffset + i)))])
    nhIdx (NumUniqueEncapNH params) 0 (Z.to_nat perVrf) iter (e_nhOffset st);
  v4Prefixes ← fatal (GenerateIPsWithStep ("200." +:+ Itoa vi +:+ ".0.1") (NumEncapIPv4PerVRF params) CommonPrefixStep);
  '(r4, want4) ← encapRoutes IPv4Entry vrf defaultVRF IPv4HostMask "0.0.0.0/0" nhgIdx nhgOffset perVrf v4Prefixes;
  v6Prefixes ← fatal (GenerateIPv6sWithStep ("2001:db8:" +:+ hex16 vi +:+ "::1") (NumEncapIPv6PerVRF params) CommonIPv6PrefixStep);
  '(r6, want6) ← encapRoutes IPv6Entry vrf defaultVRF IPv6HostMask "::/0" nhgIdx nhgOffset perVrf v6Prefixes;
  Ret {| e_entries := e_entries st ++ nhgs ++ r4 ++ r6 ++
           [IPv4Entry (ipCallsFor vrf "0.0.0.0/0" fallbackNHGID defaultVRF);
            IPv6Entry (ipCallsFor vrf "::/0" fallbackNHGID defaultVRF)];
         e_want4 := e_want4 st ++ [(vrf, want4)];
         e_want6 := e_want6 st ++ [(vrf, want6)];
         e_nhOffset := off |}.

Definition decapEntry (defaultVRF : string) (i : Z) : go (list GRIBIEntry * string) :=
  m ← goRem i (Z.of_nat (length decapPrefixLens));
  prefixLen ← index decapPrefixLens m;
  let pfx := "203." +:+ Itoa (Z.quot i 4) +:+ "." +:+ Itoa (Z.rem i 4 * 64) +:+ ".0/" +:+ Itoa prefixLen in
  let nhIdx := uint64 (NHBaseDecap + uint64 i) in
  let nhgIdx := uint64 (NHGBaseDecap + uint64 i) in
  decapNH ← nhEntry nhIdx "Decap" defaultVRF [];
  Ret ([decapNH; nhgEntry nhgIdx [(nhIdx, 1)] defaultVRF [];
        IPv4Entry (ipCallsFor DecapVRFStr pfx nhgIdx defaultVRF)], pfx).

Definition BuildEncapDecapVRFs_entries (defaultVRF : string) (params : ScaleParams) : go EncapState :=
  let numOfTunnelsToUse := Z.min (NumUniqueEncapNH params) (NumTransitIPv4 params) in
  tunnelDsts ← fatal (GenerateIPsWithStep TransitVRF111PrefixStart numOfTunnelsToUse CommonPrefixStep);
  let fallbackNHID := NHBaseEncap in
  fallbackNH ← nhEntry fallbackNHID "VRFOnly" defaultVRF [vrfOption defaultVRF];
  let nhIdx := uint64 (fallbackNHID + 1) in
  encapNHs ← mapM (fun i =>
    k ← goRem i numOfTunnelsToUse;
    dst ← index tunnelDsts k;
    nhEntry (uint64 (nhIdx + uint64 i)) "Encap" defaultVRF
      [tunnelOption IPv4OuterSrc111 dst TransitVRF111Str]) (seqZ 0 (NumUniqueEncapNH params));
  let fallbackNHGID := NHGBaseEncap in
  let fallbackNHG := nhgEntry fallbackNHGID [(fallbackNHID, 1)] defaultVRF [] in
  let nhgIdx := uint64 (fallbackNHGID + 1) in
  let encapVRFs := BuildEncapVRFs (NumEncapVRFs params) in
  perVrf ← goQuot (NumEncapDefaultNHG params) (NumEncapVRFs params);
  st ← foldM (encapVRF defaultVRF params nhIdx fallbackNHGID nhgIdx (Z.max perVrf 1))
         {| e_entries := fallbackNH :: encapNHs ++ [fallbackNHG];
            e_want4 := []; e_want6 := []; e_nhOffset := 0 |}
         (zip (seqZ 0 (Z.of_nat (length encapVRFs))) encapVRFs);
  decaps ← mapM (decapEntry defaultVRF) (seqZ 0 (NumDecapEntries params));
  let wanted := (fun '(i, d) => snd d) <$>
    filter (fun p => fst p = 0 \/ fst p = NumDecapEntries params - 1)
      (zip (seqZ 0 (NumDecapEntries params)) decaps) in
  Ret {| e_entries := e_entries st ++ mjoin (fst <$> decaps);
         e_want4 := e_want4 st ++ match wanted with [] => [] | _ => [(DecapVRFStr, wanted)] end;
         e_want6 := e_want6 st; e_nhOffset := e_nhOffset st |}.
End Builders.

(** ** Checking results *)

Record Failures := {
  nhFailures : list OpResult;
  nhgFailures : list OpResult;
  ipFailures : list OpResult;
  totalNHFailures : Z;
  totalNHGFailures : Z;
  totalIPFailures : Z
}.
Definition noFailures : Failures :=
  {| nhFailures := []; nhgFailures := []; ipFailures := [];
     totalNHFailures := 0; totalNHGFailures := 0; totalIPFailures := 0 |}.

Definition addFirst10 (l : list OpResult) (r : OpResult) : list OpResult :=
  if (length l <? 10)%nat then l ++ [r] else l.

Definition countNH (st : Failures) (r : OpResult) : Failures :=
  {| nhFailures := addFirst10 (nhFailures st) r; nhgFailures := nhgFailures st; ipFailures := ipFailures st;
     totalNHFailures := totalNHFailures st + 1; totalNHGFailures := totalNHGFailures st;
     totalIPFailures := totalIPFailures st |}.
Definition countNHG (st : Failures) (r : OpResult) : Failures :=
  {| nhFailures := nhFailures st; nhgFailures := addFirst10 (nhgFailures st) r; ipFailures := ipFailures st;
     totalNHFailures := totalNHFailures st; totalNHGFailures := totalNHGFailures st + 1;
     totalIPFailures := totalIPFailures st |}.
Definition countIP (st : Failures) (r : OpResult) : Failures :=
  {| nhFailures := nhFailures st; nhgFailures := nhgFailures st; ipFailures := addFirst10 (ipFailures st) r;
     totalNHFailures := totalNHFailures st; totalNHGFailures := totalNHGFailures st;
     totalIPFailures := totalIPFailures st + 1 |}.

(** The device, the test and the telemetry the builders use. *)
Inductive Vendor := ARISTA | CISCO | JUNIPER | NOKIA | OtherVendor.

Class TestEnv (E : Type) := {
  Errorf : gost E unit;
  aft_NextHopGroup : string -> string -> gost E Z
}.

Section Programming.
Context {E F : Type} `{FL : !Fluent E F} `{TE : !TestEnv E}.
Context (vendor : Vendor) (order : list (Z * Z) -> list (Z * Z)).

Definition isFailure (op : OpResult) : bool :=
  bool_decide (ServerError op <> "") || bool_decide (ClientError op <> "") ||
  (op_ProgrammingResult op =? AFTResult_FIB_FAILED).

Definition countFailure (st : Failures) (res : OpResult) : Failures :=
  if negb (isFailure res) then st
  else
    match Details res with
    | None => countIP st res
    | Some d =>
        if negb (NextHopIndex d =? 0) then countNH st res
        else if negb (NextHopGroupID d =? 0) then countNHG st res
        else if bool_decide (IPv4Prefix d <> "") || bool_decide (IPv6Prefix d <> "") then countIP st res
        else countIP st res
    end.

(** One [t.Errorf] for the heading and one per listed failure. *)
Definition reportFailures (l : list OpResult) : gost E bool :=
  match l with
  | [] => mret false
  | _ => _ ← Errorf; _ ← forEach (fun _ => Errorf) l; mret true
  end.

Definition ValidateGRIBIResults (results : list OpResult) : gost E bool :=
  let st := foldl countFailure noFailures results in
  b1 ← reportFailures (nhFailures st);
  b2 ← reportFailures (nhgFailures st);
  b3 ← reportFailures (ipFailures st);
  mret (b1 || b2 || b3).

(** A method called on a client held in a local variable. *)
Definition runMethod {A} (c : Client F) (m : gost (Client F * E) A) : gost E (A * Client F) := fun e =>
  match m (c, e) with
  | (Ret a, (c, e)) => (Ret (a, c), e)
  | (Fail err, (_, e)) => (Fail err, e)
  | (Panic, (_, e)) => (Panic, e)
  | (NoFuel, (_, e)) => (NoFuel, e)
  end.

Definition NewGRIBIClient : gost E (Client F) :=
  let c := {| FIBACK := true; Persistence := true; fluentC := None; electionID := {| Low := 0; High := 0 |} |} in
  '(_, c) ← orFatal (runMethod c client_Start);
  '(_, c) ← runMethod c client_BecomeLeader;
  mret c.

(** The slices [entries[i:end]] of the batch loop. *)
Fixpoint chunks {A} (size : nat) (fuel : nat) (l : list A) : list (list A) :=
  match fuel, l with
  | _, [] => []
  | O, _ => []
  | S fuel, _ => take size l :: chunks size fuel (drop size l)
  end.

Definition batches {A} (gribiBatchSize : Z) (entries : list A) : list (list A) :=
  let size := if gribiBatchSize <=? 0 then DefaultGRIBIBatchSize else gribiBatchSize in
  chunks (Z.to_nat size) (length entries) entries.

Definition BatchModify (entries : list GRIBIEntry) (gribiBatchSize : Z) : gost E (Client F) :=
  gSession ← NewGRIBIClient;
  '(_, gSession) ← runMethod gSession
    (forEach (fun chunk =>
       _ ← AddEntries chunk [];
       match vendor with
       | ARISTA => mret tt
       | _ => orFatal AwaitTimeout
       end) (batches gribiBatchSize entries));
  rs ← Results (fluentC gSession);
  _ ← ValidateGRIBIResults rs;
  mret gSession.

(** [chk.HasResultsCache] fails the test when a result is absent. *)
Definition chkHasResultsCache (rs wants : list OpResult) : gost E unit :=
  if HasResultsCache rs wants then mret tt else lift Panic.

Definition verifyPrefixes (res : list OpResult) (op : string -> OpCall)
    (wantPrefixes : list (string * list string)) : gost E unit :=
  forEach (fun '(_, prefixes) =>
    chkHasResultsCache res
      ((fun pfx => AsResult [Op_WithOperationType OpAdd; Op_WithProgrammingResult InstalledInFIB; op pfx]) <$> prefixes))
    wantPrefixes.

Definition VerifyFIBProgrammed (c : Client F) (wantPrefixesV4 wantPrefixesV6 : list (string * list string)) :
    gost E unit :=
  res ← Results (fluentC c);
  _ ← verifyPrefixes res Op_WithIPv4Operation wantPrefixesV4;
  verifyPrefixes res Op_WithIPv6Operation wantPrefixesV6.

Definition VerifyHierarchicalResolution (c : Client F) (samplePrefixes : list (string * list string)) :
    gost E unit :=
  res ← Results (fluentC c);
  forEach (fun '(vrf, prefixes) =>
    _ ← chkHasResultsCache res
      ((fun pfx => AsResult [Op_WithIPv4Operation pfx; Op_WithOperationType OpAdd;
                             Op_WithProgrammingResult InstalledInFIB]) <$> prefixes);
    forEach (fun pfx =>
      nhg ← aft_NextHopGroup vrf pfx;
      if nhg =? 0 then Errorf else mret tt) prefixes) samplePrefixes.

Definition closeClient (c : Client F) : gost E unit := _ ← runMethod c client_Close; mret tt.

Definition BuildDefaultVRF (defaultVRF : string) (params : ScaleParams) : gost E (list string * list string) :=
  d ← lift (BuildDefaultVRF_entries defaultVRF params);
  gSession ← BatchModify (d_entries d) (GRIBIBatchSize params);
  _ ← VerifyFIBProgrammed gSession [(defaultVRF, d_want d)] [];
  _ ← closeClient gSession;
  mret (primaryPrefixes d, backupPrefixes d).

Definition BuildStaticGroups (defaultVRF : string) (gribiBatchSize : Z) : gost E (Z * Z) :=
  entries ← lift (BuildStaticGroups_entries InstalledInFIB order defaultVRF);
  gSession ← BatchModify entries gribiBatchSize;
  _ ← closeClient gSession;
  mret (StaticS1NHG, StaticS2NHG).

Definition BuildTransitVRFs (defaultVRF : string) (primary backup : list string) (s1NHG s2NHG : Z)
    (params : ScaleParams) : gost E unit :=
  '(entries, want) ← lift (BuildTransitVRFs_entries defaultVRF primary backup s1NHG s2NHG params);
  gSession ← BatchModify entries (GRIBIBatchSize params);
  _ ← VerifyFIBProgrammed gSession want [];
  _ ← VerifyHierarchicalResolution gSession want;
  closeClient gSession.

Definition repairReencapIntoMultipleBackupTunnels : bool :=
  match vendor with NOKIA => false | _ => true end.

Definition BuildRepairVRF (defaultVRF : string) (s2NHG : Z) (params : ScaleParams) : gost E unit :=
  '(entries, want) ← lift (BuildRepairVRF_entries InstalledInFIB order
      (negb repairReencapIntoMultipleBackupTunnels) defaultVRF s2NHG params);
  gSession ← BatchModify entries (GRIBIBatchSize params);
  _ ← VerifyFIBProgrammed gSession want [];
  closeClient gSession.

Definition BuildEncapDecapVRFs (defaultVRF : string) (params : ScaleParams) : gost E unit :=
  st ← lift (BuildEncapDecapVRFs_entries InstalledInFIB order defaultVRF params);
  gSession ← BatchModify (e_entries st) (GRIBIBatchSize params);
  _ ← VerifyFIBProgrammed gSession (e_want4 st) (e_want6 st);
  closeClient gSession.

(** The programming step of [RunFullScaleTest]. *)
Definition RunFullScaleTest_program (defaultVRF : string) (params : ScaleParams) : gost E unit :=
  '(primary, backup) ← BuildDefaultVRF defaultVRF params;
  '(s1NHG, s2NHG) ← BuildStaticGroups defaultVRF (GRIBIBatchSize params);
  _ ← BuildRepairVRF defaultVRF s2NHG params;
  _ ← BuildTransitVRFs defaultVRF primary backup s1NHG s2NHG params;
  BuildEncapDecapVRFs defaultVRF params.
End Programming.
