(* ===== verification/GribiRefs.v ===== *)
(** * References between gRIBI entries

    A device resolves a prefix through its next-hop group to next hops: an entry
    can be programmed only when what it refers to was programmed before.  This
    file reads keys and references off the builder calls of an entry, defines what
    it means for a list of entries to be in dependency order, and shows that the
    loops of the full scale builders return and keep that order.  *)
From stdpp Require Import base list gmap strings.
From Stdlib Require Import ZArith Lia.
From S2P Require Import Prelude.
From S2P Require Import GoStrings.
From S2P Require Import Net.
From S2P Require Import IPUtil.
From S2P Require Import Gribi.
From S2P Require Import NhgBuckets.
From S2P Require Import GribiScale.
Local Open Scope Z_scope.

(** ** Keys and references

    The last call of a kind wins, as the fluent package documents for its setters;
    [AddNextHop] accumulates. *)

Definition last_of {A B} (f : A -> option B) (l : list A) : option B := last (omap f l).

Definition nh_NI (cs : list NHCall) : option string :=
  last_of (fun c => match c with NH_WithNetworkInstance n => Some n | _ => None end) cs.
Definition nh_index (cs : list NHCall) : option Z :=
  last_of (fun c => match c with NH_WithIndex i => Some i | _ => None end) cs.
Definition nhg_NI (cs : list NHGCall) : option string :=
  last_of (fun c => match c with NHG_WithNetworkInstance n => Some n | _ => None end) cs.
Definition nhg_id (cs : list NHGCall) : option Z :=
  last_of (fun c => match c with NHG_WithID i => Some i | _ => None end) cs.
Definition nhg_backup (cs : list NHGCall) : option Z :=
  last_of (fun c => match c with NHG_WithBackupNHG i => Some i | _ => None end) cs.
Definition nhg_hops (cs : list NHGCall) : list Z :=
  omap (fun c => match c with NHG_AddNextHop i _ => Some i | _ => None end) cs.
Definition ip_NI (cs : list IPCall) : option string :=
  last_of (fun c => match c with IP_WithNetworkInstance n => Some n | _ => None end) cs.
Definition ip_nhgNI (cs : list IPCall) : option string :=
  last_of (fun c => match c with IP_WithNextHopGroupNetworkInstance n => Some n | _ => None end) cs.
Definition ip_nhg (cs : list IPCall) : option Z :=
  last_of (fun c => match c with IP_WithNextHopGroup i => Some i | _ => None end) cs.

(** A key is a network instance and an identifier in it. *)
Abbreviation key := (string * Z)%type.

Definition mkKey (ni : option string) (id : option Z) : option key :=
  n ← ni; i ← id; Some (n, i).

Definition nh_key (e : GRIBIEntry) : option key :=
  match e with NextHopEntry cs => mkKey (nh_NI cs) (nh_index cs) | _ => None end.
Definition nhg_key (e : GRIBIEntry) : option key :=
  match e with NextHopGroupEntry cs => mkKey (nhg_NI cs) (nhg_id cs) | _ => None end.

(** A group refers to next hops and to its backup group in its own network
    instance, a prefix to a group in the instance it names, or in its own. *)
Definition ip_refs (cs : list IPCall) : list key :=
  option_list (mkKey (match ip_nhgNI cs with Some n => Some n | None => ip_NI cs end) (ip_nhg cs)).

Definition nh_refs (e : GRIBIEntry) : list key :=
  match e with
  | NextHopGroupEntry cs => omap (fun i => mkKey (nhg_NI cs) (Some i)) (nhg_hops cs)
  | _ => []
  end.
Definition nhg_refs (e : GRIBIEntry) : list key :=
  match e with
  | NextHopGroupEntry cs => option_list (mkKey (nhg_NI cs) (nhg_backup cs))
  | IPv4Entry cs | IPv6Entry cs => ip_refs cs
  | NextHopEntry _ => []
  end.

Abbreviation nh_keys es := (omap nh_key es).
Abbreviation nhg_keys es := (omap nhg_key es).

Definition refs_ok (seen : list GRIBIEntry) (e : GRIBIEntry) : Prop :=
  (forall k, k ∈ nh_refs e -> k ∈ nh_keys seen) /\ (forall k, k ∈ nhg_refs e -> k ∈ nhg_keys seen).

(** Every entry comes after the entries it refers to. *)
Fixpoint ordered (seen es : list GRIBIEntry) : Prop :=
  match es with
  | [] => True
  | e :: es => refs_ok seen e /\ ordered (seen ++ [e]) es
  end.

(** ** Order *)

Lemma omap_cons_eq {A B} (f : A -> option B) x l :
  omap f (x :: l) = match f x with Some y => y :: omap f l | None => omap f l end.
Proof. done. Qed.

Lemma refs_ok_mono seen seen' e :
  (forall k, k ∈ nh_keys seen -> k ∈ nh_keys seen') ->
  (forall k, k ∈ nhg_keys seen -> k ∈ nhg_keys seen') -> refs_ok seen e -> refs_ok seen' e.
Proof. intros H1 H2 [Ha Hb]. split; eauto. Qed.

Lemma refs_ok_app seen l e : refs_ok seen e -> refs_ok (seen ++ l) e.
Proof. apply refs_ok_mono; intros k Hk; rewrite omap_app; apply elem_of_app; by left. Qed.

Lemma ordered_app seen l1 l2 : ordered seen (l1 ++ l2) <-> ordered seen l1 /\ ordered (seen ++ l1) l2.
Proof.
  revert seen; induction l1 as [|e l1 IH]; intros seen; simpl; [by rewrite app_nil_r; naive_solver|].
  rewrite IH, <- app_assoc. simpl. naive_solver.
Qed.

(** Entries that only refer to what came before all of them. *)
Lemma ordered_Forall seen l : Forall (refs_ok seen) l -> ordered seen l.
Proof.
  intros H. revert seen H; induction l as [|e l IH]; intros seen H; [done|].
  apply Forall_cons in H as [He Hl]. split; [done|]. apply IH.
  eapply Forall_impl; [exact Hl|]. intros. by apply refs_ok_app.
Qed.

Lemma ordered_mono seen seen' l :
  (forall k, k ∈ nh_keys seen -> k ∈ nh_keys seen') ->
  (forall k, k ∈ nhg_keys seen -> k ∈ nhg_keys seen') -> ordered seen l -> ordered seen' l.
Proof.
  revert seen seen'; induction l as [|e l IH]; intros seen seen' H1 H2 H; [done|]. destruct H as [He Hl].
  split; [by eapply refs_ok_mono|]. eapply IH; [| |exact Hl]; intros k;
    rewrite !omap_app, !elem_of_app; naive_solver.
Qed.

Lemma refs_ok_nh seen cs : refs_ok seen (NextHopEntry cs).
Proof. split; intros k Hk; by apply elem_of_nil in Hk. Qed.

Lemma refs_ok_ip (mk : list IPCall -> GRIBIEntry) seen ni pfx id nhgNI :
  (mk = IPv4Entry \/ mk = IPv6Entry) -> (nhgNI, id) ∈ nhg_keys seen ->
  refs_ok seen (mk (ipCallsFor ni pfx id nhgNI)).
Proof.
  intros [->| ->] H; (split; intros k Hk; [by apply elem_of_nil in Hk|]);
    apply list_elem_of_singleton in Hk as ->; done.
Qed.
#[export] Hint Resolve refs_ok_nh refs_ok_ip refs_ok_app : go.

(** ** Loops that return *)

Lemma mapM_total {E A B} (f : A -> outcome E B) (P : A -> B -> Prop) l :
  (forall x, x ∈ l -> exists y, f x = Ret y /\ P x y) ->
  exists ys, mapM f l = Ret ys /\ Forall2 P l ys.
Proof.
  induction l as [|x l IH]; intros H; [exists []; split; [done|constructor]|].
  destruct (H x ltac:(left)) as (y & Hy & Py).
  destruct IH as (ys & Hys & Pys); [intros; apply H; by right|].
  exists (y :: ys). simpl. rewrite Hy. simpl. rewrite Hys. split; [done|by constructor].
Qed.

Lemma goRem_pos a b : 0 <= a -> 0 < b -> exists k, goRem a b = Ret k /\ 0 <= k < b.
Proof.
  intros Ha Hb. unfold goRem. rewrite (proj2 (Z.eqb_neq b 0)) by lia.
  exists (Z.rem a b). split; [done|]. apply Z.rem_bound_pos; lia.
Qed.

Lemma index_total {A} (l : list A) i : 0 <= i < Z.of_nat (length l) ->
  exists x, index l i = Ret x /\ l !! Z.to_nat i = Some x.
Proof.
  intros Hi. unfold index. rewrite (proj2 (Z.ltb_ge i 0)) by lia.
  destruct (lookup_lt_is_Some_2 l (Z.to_nat i)) as [x Hx]; [lia|]. rewrite Hx. eauto.
Qed.

(** ** The iterator returns *)

(** Granularities are [uint64]s. *)
Definition config_typed (c : option WeightConfig) : Prop :=
  match c with Some (WCMP g) => 0 <= g < 2 ^ 64 | _ => True end.
Definition weights_typed (l : list NHGWeightParams) : Prop := Forall (fun s => config_typed (Config s)) l.

Record it_ok (it : NHGBucketIterator) : Prop := {
  ok_lbIdx : (lbIdx it < length (lbBuckets it))%nat;
  ok_weightIdx : (weightIdx it < length (weightBuckets it))%nat;
  ok_lb : Forall (fun b => 0 < numLoadBalancingNH b) (lbBuckets it);
  ok_weight : Forall (fun b => config_typed (config b)) (weightBuckets it);
  ok_max : 0 <= maxNHsAvailable it
}.

Lemma groupWeights_length cfg n : config_typed cfg -> 0 <= n ->
  exists ws, groupWeights cfg n = Ret ws /\ Z.of_nat (length ws) = n.
Proof.
  intros Hc Hn.
  assert (makeLen n = Ret (Z.to_nat n)) as Hm by (unfold makeLen; rewrite (proj2 (Z.ltb_ge n 0)); [done|lia]).
  destruct (decide (n = 0)) as [->|Hnz].
  { destruct cfg as [[]|]; simpl; eexists; (split; [reflexivity|done]). }
  destruct cfg as [[|g|]|]; unfold groupWeights; rewrite ?Hm.
  2: { destruct (Z_of_nat_complete n Hn) as [[|m] ->]; [lia|]. rewrite computeNHGWeights_shape by done.
    eexists. split; [reflexivity|]. destruct m as [|k]; [done|].
    destruct (_ && _); rewrite length_app, length_replicate; simpl; lia. }
  all: simpl; eexists; (split; [reflexivity|]); rewrite length_replicate; lia.
Qed.

Lemma advance_bound counts idx created n : (idx < length counts)%nat -> length counts = n ->
  ((advance counts idx created).1 < n)%nat.
Proof. intros Hi <-. unfold advance. case_bool_decide; simpl; [destruct (_ <=? _); simpl; lia|done]. Qed.

Lemma Next_ok it : it_ok it ->
  exists ws it', Next it = Ret (ws, it') /\ it_ok it' /\
    maxNHsAvailable it' = maxNHsAvailable it /\ Z.of_nat (length ws) <= maxNHsAvailable it.
Proof.
  intros [H1 H2 H3 H4 H5]. unfold Next.
  pose proof (advance_bound (lb_numNHG <$> lbBuckets it) (lbIdx it) (lbCreated it) _
    ltac:(by rewrite length_fmap) (length_fmap _ _)) as B1.
  pose proof (advance_bound (w_numNHG <$> weightBuckets it) (weightIdx it) (weightCreated it) _
    ltac:(by rewrite length_fmap) (length_fmap _ _)) as B2.
  destruct (advance (lb_numNHG <$> _) _ _) as [i c], (advance (w_numNHG <$> _) _ _) as [j d].
  simpl in B1, B2.
  destruct (lookup_lt_is_Some_2 _ _ B1) as [b Hb], (lookup_lt_is_Some_2 _ _ B2) as [w Hw].
  rewrite Hb, Hw.
  pose proof (Forall_lookup_1 _ _ _ _ H3 Hb) as Hpos. pose proof (Forall_lookup_1 _ _ _ _ H4 Hw) as Hty.
  destruct (groupWeights_length (config w) (Z.min (numLoadBalancingNH b) (maxNHsAvailable it)) Hty)
    as (ws & Hws & Hlen); [simpl in Hpos; lia|].
  rewrite Hws. simpl. eexists ws, _. split; [reflexivity|].
  split; [|split; [done|lia]].
  split; simpl; [lia|lia|done|done|lia].
Qed.

Lemma zip_with_Forall {A B C} (f : A -> B -> C) (P : C -> Prop) l k :
  (forall x y, y ∈ k -> P (f x y)) -> Forall P (zip_with f l k).
Proof.
  revert k; induction l as [|x l IH]; intros [|y k] H; simpl; constructor.
  - apply H. left.
  - apply IH. intros; apply H; by right.
Qed.

Lemma NewNHGBucketIterator_ok numNHG lb w maxNHs : 0 <= numNHG -> 0 <= maxNHs ->
  validateNHGLoadBalance lb = Ret tt -> validateNHGWeight w = Ret tt -> weights_typed w ->
  exists it, NewNHGBucketIterator numNHG lb w maxNHs = Ret it /\ it_ok it /\ maxNHsAvailable it = maxNHs.
Proof.
  intros Hn Hmax Hlb Hw Hty.
  apply validateNHGLoadBalance_iff in Hlb as (Nlb & Olb & _).
  apply validateNHGWeight_iff in Hw as (Nw & _ & _).
  destruct (partitionNHG_total numNHG lb lb_Pct Nlb) as [lbc Elb].
  destruct (partitionNHG_total numNHG w w_Pct Nw) as [wc Ew].
  pose proof (partitionNHG_counts _ _ _ _ Elb) as [Llb _].
  pose proof (partitionNHG_counts _ _ _ _ Ew) as [Lw _].
  unfold NewNHGBucketIterator, computeNHGBuckets, computeNHGWeightBuckets. rewrite Elb, Ew. simpl.
  eexists. split; [reflexivity|]. split; [|done].
  assert (length lb <> 0)%nat by (destruct lb; [done|simpl; lia]).
  assert (length w <> 0)%nat by (destruct w; [done|simpl; lia]).
  split; simpl; [rewrite length_zip_with; lia..| | |done].
  - apply zip_with_Forall. intros x y Hy%list_elem_of_In. simpl.
    apply (proj1 (forallb_forall _ _) Olb) in Hy. unfold lb_ok in Hy. lia.
  - apply zip_with_Forall. intros x y Hy. simpl. unfold weights_typed in Hty.
    rewrite Forall_forall in Hty. by apply Hty.
Qed.

(** ** The group loop *)

Definition only_hops (cs : list NHGCall) : Prop :=
  Forall (fun c => match c with NHG_AddNextHop _ _ => True | _ => False end) cs.

Lemma only_hops_omap {B} (f : NHGCall -> option B) cs :
  only_hops cs -> (forall i w, f (NHG_AddNextHop i w) = None) -> omap f cs = [].
Proof.
  intros H Hf. induction H as [|c cs Hc _ IH]; [done|]. destruct c; try done.
  rewrite omap_cons_eq, Hf. exact IH.
Qed.

(** The calls that start a group of the network instance [ni] with identifier [id]. *)
Record starts_group (seen : list GRIBIEntry) (ni : string) (id : Z) (cs : list NHGCall) : Prop := {
  sg_NI : nhg_NI cs = Some ni;
  sg_id : nhg_id cs = Some id;
  sg_hops : nhg_hops cs = [];
  sg_backup : forall b, nhg_backup cs = Some b -> (ni, b) ∈ nhg_keys seen
}.

Lemma group_entry seen ni id cs hops :
  starts_group seen ni id cs -> only_hops hops ->
  (forall i, i ∈ nhg_hops hops -> (ni, i) ∈ nh_keys seen) ->
  refs_ok seen (NextHopGroupEntry (cs ++ hops)) /\
  nhg_key (NextHopGroupEntry (cs ++ hops)) = Some (ni, id).
Proof.
  intros [H1 H2 H3 H4] Hh Hin.
  assert (nhg_NI (cs ++ hops) = Some ni) as E1.
  { unfold nhg_NI, last_of in *. rewrite omap_app, (only_hops_omap _ hops), app_nil_r by done. done. }
  assert (nhg_id (cs ++ hops) = Some id) as E2.
  { unfold nhg_id, last_of in *. rewrite omap_app, (only_hops_omap _ hops), app_nil_r by done. done. }
  assert (nhg_backup (cs ++ hops) = nhg_backup cs) as E3.
  { unfold nhg_backup, last_of in *. rewrite omap_app, (only_hops_omap _ hops), app_nil_r by done. done. }
  assert (nhg_hops (cs ++ hops) = nhg_hops hops) as E4.
  { unfold nhg_hops in *. by rewrite omap_app, H3. }
  split; [split; intros k Hk; simpl in Hk|by simpl; rewrite E1, E2].
  - rewrite E1, E4 in Hk. apply list_elem_of_omap in Hk as (i & Hi & [= <-]). by apply Hin.
  - rewrite E1, E3 in Hk. destruct (nhg_backup cs) as [b|] eqn:Eb; [|by apply elem_of_nil in Hk].
    simpl in Hk. apply list_elem_of_singleton in Hk as ->. by apply H4.
Qed.

Lemma addNextHops_ok baseNH numNH nhOffset weights : 0 <= nhOffset -> (weights <> [] -> 0 < numNH) ->
  forall j, 0 <= j -> exists hops, addNextHops baseNH numNH nhOffset j weights = Ret hops /\ only_hops hops /\
    (forall i, i ∈ nhg_hops hops -> exists k, 0 <= k < numNH /\ i = uint64 (baseNH + uint64 k)).
Proof.
  intros Ho Hn. induction weights as [|w weights IH]; intros j Hj.
  { exists []. split; [done|]. split; [constructor|]. intros i Hi. by apply elem_of_nil in Hi. }
  specialize (Hn ltac:(done)).
  destruct (goRem_pos (nhOffset + j) numNH) as (k & Hk & Bk); [lia..|].
  destruct (IH ltac:(done) (j + 1)) as (hops & Hh & Oh & Ih); [lia|].
  exists (NHG_AddNextHop (uint64 (baseNH + uint64 k)) w :: hops). simpl. rewrite Hk. simpl. rewrite Hh.
  split; [done|]. split; [by constructor|].
  intros i [->|Hi]%elem_of_cons; [by exists k|by apply Ih].
Qed.

(** Entries other than prefixes. *)
Definition not_ip (e : GRIBIEntry) : Prop :=
  match e with IPv4Entry _ | IPv6Entry _ => False | _ => True end.

(** The loop returns; its groups refer to the [numNH] next hops of their base, to
    the backup group the calls name, and have the identifiers the calls give. *)
Lemma groupLoop_ok seen ni (f : Z -> Z) calls baseNH numNH n : forall i it off,
  (forall i, starts_group seen ni (f i) (calls i)) ->
  (forall k, 0 <= k < numNH -> (ni, uint64 (baseNH + uint64 k)) ∈ nh_keys seen) ->
  it_ok it -> maxNHsAvailable it = numNH -> 0 <= off ->
  exists es off', groupLoop calls baseNH numNH i n it off = Ret (es, off') /\ 0 <= off' /\
    Forall (refs_ok seen) es /\ nhg_keys es = (fun j => (ni, f j)) <$> seqZ i (Z.of_nat n) /\ nh_keys es = [] /\
    Forall not_ip es.
Proof.
  induction n as [|n IH]; intros i it off Hcalls Hnh Hit Hmax Hoff.
  { exists [], off. by repeat (split || constructor). }
  destruct (Next_ok it Hit) as (ws & it' & Hnext & Hit' & Hmax' & Hlen).
  destruct (addNextHops_ok baseNH numNH off ws Hoff) with (j := 0) as (hops & Hh & Oh & Ih); [|lia|].
  { intros Hne. destruct ws; [done|]. simpl in Hlen. lia. }
  destruct (IH (i + 1) it' (off + Z.of_nat (length ws)) Hcalls Hnh Hit') as (es & off' & Hl & H0 & Hf & Hk & Hk' & Hni);
    [lia|lia|].
  destruct (group_entry seen ni (f i) (calls i) hops (Hcalls i) Oh) as [Hr Hkey].
  { intros x (k & Hk0 & ->)%Ih. by apply Hnh. }
  exists (NextHopGroupEntry (calls i ++ hops) :: es), off'.
  cbn [groupLoop]. rewrite Hnext. simpl mbind. rewrite Hh. simpl mbind. rewrite Hl. simpl mbind.
  split; [done|]. split; [done|]. split; [by constructor|].
  split; [|split; [exact Hk'|by constructor]].
  rewrite omap_cons_eq, Hkey, Hk, (seqZ_cons i (Z.of_nat (S n))) by lia. rewrite fmap_cons.
  do 2 f_equal. f_equal; lia.
Qed.

(** ** Addresses *)

(** Stepped lists of at most 2^20 addresses that stay below 2^32. *)
Lemma steps4 startIP stepIP count ip step :
  parseV4 startIP = Some ip -> parseV4 stepIP = Some step -> 0 < be_val step ->
  0 < count <= 2 ^ 20 -> 0 <= be_val ip -> be_val ip + be_val step * 2 ^ 20 < 2 ^ 32 ->
  exists l, fatal (GenerateIPsWithStep startIP count stepIP) = Ret l /\ Z.of_nat (length l) = count.
Proof.
  intros Hs Ht Hst Hc Hip Hb.
  pose proof (GenerateIPsWithStep_cases startIP stepIP count ip step Hs Ht ltac:(lia)) as H.
  simpl in H. destruct (GenerateIPsWithStep startIP count stepIP) as [l|e| |]; simpl.
  - exists l. split; [done|]. tauto.
  - exfalso. nia.
  - done.
  - done.
Qed.

Lemma steps6 startIP stepIP count ip step :
  parseV6 startIP = Some ip -> parseV6 stepIP = Some step -> 0 < be_val step ->
  0 < count <= 2 ^ 20 -> be_val ip + be_val step * 2 ^ 20 < 2 ^ 128 ->
  exists l, fatal (GenerateIPv6sWithStep startIP count stepIP) = Ret l /\ Z.of_nat (length l) = count.
Proof.
  intros Hs Ht Hst Hc Hb.
  pose proof (GenerateIPv6sWithStep_cases startIP stepIP count ip step Hs Ht ltac:(lia)) as H.
  simpl in H. destruct (GenerateIPv6sWithStep startIP count stepIP) as [l|e| |]; simpl.
  - exists l. split; [done|]. destruct H as (_ & _ & ->). rewrite length_map, length_seq. lia.
  - exfalso. nia.
  - done.
  - done.
Qed.

(** The address lists of the builders. *)
Lemma ate_ips n : 0 < n <= 2 ^ 20 ->
  exists l, fatal (GenerateIPsWithStep ATEPort2IPv4Start n PortIPv4Step) = Ret l /\ Z.of_nat (length l) = n.
Proof.
  intros Hn. apply (steps4 _ _ _ [193; 51; 0; 2] [0; 0; 0; 4]);
    [vm_compute; reflexivity..|lia|vm_compute; discriminate|vm_compute; reflexivity].
Qed.

Definition host_start (s : string) : Prop :=
  exists ip, parseV4 s = Some ip /\ 0 <= be_val ip /\ be_val ip + 2 ^ 20 < 2 ^ 32.

Lemma host_ips s n : host_start s -> 0 < n <= 2 ^ 20 ->
  exists l, fatal (GenerateIPsWithStep s n CommonPrefixStep) = Ret l /\ Z.of_nat (length l) = n.
Proof.
  intros (ip & Hs & H0 & Hb) Hn. apply (steps4 _ _ _ ip [0; 0; 0; 1]);
    [done|vm_compute; reflexivity..|lia|lia|]. change (be_val [0; 0; 0; 1]) with 1. lia.
Qed.

Lemma host_ips_NoDup s n l : host_start s -> 0 < n <= 2 ^ 20 ->
  fatal (GenerateIPsWithStep s n CommonPrefixStep) = Ret l -> NoDup l.
Proof.
  intros (ip & Hs & _) Hn Hl.
  pose proof (GenerateIPsWithStep_cases s CommonPrefixStep n ip [0; 0; 0; 1] Hs
    ltac:(vm_compute; reflexivity) ltac:(lia)) as H.
  destruct (GenerateIPsWithStep s n CommonPrefixStep) as [l'|e| |]; simpl in H, Hl; [|discriminate Hl..].
  injection Hl as ->. tauto.
Qed.

Lemma start_constants :
  host_start IPv4PrefixStartAddress /\ host_start TransitVRF111PrefixStart /\ host_start TransitVRF222PrefixStart.
Proof.
  split_and!; eexists; (split; [vm_compute; reflexivity|vm_compute; split; [discriminate|reflexivity]]).
Qed.

(** The start address of the [vi]-th encapsulation VRF, as the code prints it. *)
Definition encap_text_ok (vi : Z) : bool :=
  match parseV4 ("200." +:+ Itoa vi +:+ ".0.1"), parseV6 ("2001:db8:" +:+ hex16 vi +:+ "::1") with
  | Some ip4, Some ip6 =>
      (0 <=? be_val ip4) && (be_val ip4 + 2 ^ 20 <? 2 ^ 32) && (be_val ip6 + 2 ^ 20 <? 2 ^ 128)
  | _, _ => false
  end.

Lemma encap_texts vi : 0 <= vi < 256 -> encap_text_ok vi = true.
Proof. apply byte_cases. vm_compute. reflexivity. Qed.

Lemma encap_ips vi n : 0 <= vi < 256 -> 0 < n <= 2 ^ 20 ->
  exists l, fatal (GenerateIPsWithStep ("200." +:+ Itoa vi +:+ ".0.1") n CommonPrefixStep) = Ret l /\
    Z.of_nat (length l) = n.
Proof.
  intros Hv Hn. pose proof (encap_texts vi Hv) as H. unfold encap_text_ok in H.
  destruct (parseV4 _) as [ip4|] eqn:E4; [|done]. destruct (parseV6 _); [|done].
  apply host_ips; [|done]. exists ip4. split; [done|]. lia.
Qed.

Lemma encap_ip6s vi n : 0 <= vi < 256 -> 0 < n <= 2 ^ 20 ->
  exists l, fatal (GenerateIPv6sWithStep ("2001:db8:" +:+ hex16 vi +:+ "::1") n CommonIPv6PrefixStep) = Ret l /\
    Z.of_nat (length l) = n.
Proof.
  intros Hv Hn. pose proof (encap_texts vi Hv) as H. unfold encap_text_ok in H.
  destruct (parseV4 _) as [ip4|] eqn:E4; [|done]. destruct (parseV6 _) as [ip6|] eqn:E6; [|done].
  apply (steps6 _ _ _ ip6 (be_bytes 16 1)); [done|vm_compute; reflexivity..|lia|].
  change (be_val (be_bytes 16 1)) with 1. lia.
Qed.
