(* ===== verification/GribiProgram.v ===== *)
(** * The full scale program

    Theorems on [GribiScale]: under stated bounds on the parameters every builder
    returns, its entries come after what they refer to, the identifiers of
    different builders are disjoint, and on a device that accepts what it is sent
    the whole program runs to the end and leaves exactly these entries. *)
From stdpp Require Import base list gmap strings.
From Stdlib Require Import ZArith Lia.
From S2P Require Import Prelude.
From S2P Require Import GoStrings.
From S2P Require Import Net.
From S2P Require Import IPUtil.
From S2P Require Import Gribi.
From S2P Require Import NhgBuckets.
From S2P Require Import GribiScale.
From S2P Require Import GribiRefs.
Local Open Scope Z_scope.

(** ** Parameters

    What the builders need beyond [validateScaleParams]: counts that are indexed
    or divided by are positive, address lists fit, granularities are [uint64]s. *)

Record scale_ok (p : ScaleParams) : Prop := {
  so_valid : validateScaleParams p = Ret tt;
  so_typed : weights_typed (DefaultNHGWeight p) /\ weights_typed (TransitNHGWeight p) /\
             weights_typed (EncapNHGWeight p);
  so_default : 1 <= NumDefaultIPv4 p <= 2 ^ 20;
  so_transit : 1 <= NumTransitNH p /\ 1 <= NumTransitNHG p /\ 1 <= NumTransitIPv4 p <= 2 ^ 20;
  so_repair : 1 <= NumRepairNHG p <= 2 ^ 19 /\ 1 <= NumRepairIPv4 p <= 2 ^ 20;
  so_encap : NumEncapVRFs p <= 256 /\ 1 <= NumUniqueEncapNH p <= 2 ^ 20 /\
             1 <= NumEncapIPv4PerVRF p <= 2 ^ 20 /\ 1 <= NumEncapIPv6PerVRF p <= 2 ^ 20;
  so_vlans : NumPort2VLANs p <= 2 ^ 20
}.

Lemma fatal_checks p : validateScaleParams p = Ret tt ->
  (validateNHGLoadBalance (DefaultNHGLoadBalance p) = Ret tt /\ validateNHGWeight (DefaultNHGWeight p) = Ret tt) /\
  (validateNHGLoadBalance (EncapNHGLoadBalance p) = Ret tt /\ validateNHGWeight (EncapNHGWeight p) = Ret tt) /\
  (validateNHGLoadBalance (TransitNHGLoadBalance p) = Ret tt /\ validateNHGWeight (TransitNHGWeight p) = Ret tt) /\
  0 < NumEncapVRFs p <= NumEncapDefaultNHG p /\ 0 <= NumDecapEntries p /\ 0 < NumPort2VLANs p.
Proof.
  unfold validateScaleParams. intros H.
  destruct (validateNHGLoadBalance (DefaultNHGLoadBalance p)) as [[]| | |]; try discriminate H.
  destruct (validateNHGWeight (DefaultNHGWeight p)) as [[]| | |]; try discriminate H. cbn [mbind outcome_bind] in H.
  destruct (Z.leb_spec (NumEncapVRFs p) 0); try discriminate H.
  destruct (Z.ltb_spec (NumEncapDefaultNHG p) (NumEncapVRFs p)); try discriminate H.
  destruct (_ && _); try discriminate H.
  destruct (validateNHGLoadBalance (EncapNHGLoadBalance p)) as [[]| | |]; try discriminate H.
  destruct (validateNHGWeight (EncapNHGWeight p)) as [[]| | |]; try discriminate H. cbn [mbind outcome_bind] in H.
  destruct (Z.ltb_spec (NumDecapEntries p) 0); try discriminate H.
  destruct (_ || _); try discriminate H.
  destruct (validateNHGLoadBalance (TransitNHGLoadBalance p)) as [[]| | |]; try discriminate H.
  destruct (validateNHGWeight (TransitNHGWeight p)) as [[]| | |]; try discriminate H. cbn [mbind outcome_bind] in H.
  destruct (Z.leb_spec (NumPort2VLANs p) 0); try discriminate H.
  split_and!; try done; lia.
Qed.

(** ** Next hops in a range *)

Lemma nh_range {A} (f : A -> go GRIBIEntry) (g : A -> key) l :
  (forall x, x ∈ l -> exists cs, f x = Ret (NextHopEntry cs) /\ nh_key (NextHopEntry cs) = Some (g x)) ->
  exists es, mapM f l = Ret es /\ nh_keys es = g <$> l /\ nhg_keys es = [] /\
    (forall seen, Forall (refs_ok seen) es) /\ Forall not_ip es.
Proof.
  induction l as [|x l IH]; intros H.
  { exists []. repeat split; constructor. }
  destruct (H x ltac:(left)) as (cs & Hf & Hk).
  destruct IH as (es & Hes & Hks & Hgs & Hr & Hn); [intros; apply H; by right|].
  exists (NextHopEntry cs :: es). simpl mapM. rewrite Hf. simpl mbind. rewrite Hes.
  split; [done|]. rewrite !omap_cons_eq, Hk, Hks. split; [done|]. split; [exact Hgs|].
  split; [intros seen; constructor; [apply refs_ok_nh|apply Hr]|by constructor].
Qed.

Lemma range_key (g : Z -> key) n k : 0 <= k < n -> g k ∈ g <$> seqZ 0 n.
Proof. intros Hk. apply list_elem_of_fmap. exists k. split; [done|]. apply elem_of_seqZ. lia. Qed.

(** Prefix entries that all point to groups already there. *)
Lemma ip_range {A B} (f : A -> go B) (sel : B -> GRIBIEntry) l seen :
  (forall x, x ∈ l -> exists y, f x = Ret y /\ refs_ok seen (sel y) /\
     nh_key (sel y) = None /\ nhg_key (sel y) = None) ->
  exists ys, mapM f l = Ret ys /\ length ys = length l /\
    Forall (refs_ok seen) (sel <$> ys) /\ nh_keys (sel <$> ys) = [] /\ nhg_keys (sel <$> ys) = [].
Proof.
  induction l as [|x l IH]; intros H.
  { exists []. repeat split; constructor. }
  destruct (H x ltac:(left)) as (y & Hf & Hr & Hk1 & Hk2).
  destruct IH as (ys & Hys & Hlen & Hrs & Hn & Hg); [intros; apply H; by right|].
  exists (y :: ys). simpl mapM. rewrite Hf. simpl mbind. rewrite Hys.
  split; [done|]. split; [simpl; by rewrite Hlen|].
  rewrite fmap_cons, !omap_cons_eq, Hk1, Hk2. by repeat (split; [by constructor|]).
Qed.

(** ** Entries of the helpers *)

Definition plain (c : NHCall) : Prop :=
  match c with NH_WithNetworkInstance _ | NH_WithIndex _ => False | _ => True end.

Lemma plain_omap {B} (f : NHCall -> option B) cs :
  Forall plain cs -> (forall c, plain c -> f c = None) -> omap f cs = [].
Proof.
  intros H Hf. induction H as [|c cs Hc _ IH]; [done|]. by rewrite omap_cons_eq, (Hf c Hc).
Qed.

Lemma eachOpt_total f opts : Forall is_Some opts -> (forall o, Forall plain (f o)) ->
  exists cs, eachOpt f opts = Ret cs /\ Forall plain cs.
Proof.
  intros H Hf. induction H as [|o opts [o' ->] _ (cs & Hcs & Hp)]; [by exists []|].
  exists (f o' ++ cs). simpl. rewrite Hcs. split; [done|]. by apply Forall_app.
Qed.

Lemma nh_plain_key ni id cs : Forall plain cs ->
  nh_key (NextHopEntry (NH_WithNetworkInstance ni :: NH_WithIndex id :: cs)) = Some (ni, id).
Proof.
  intros H. unfold nh_key, nh_NI, nh_index, last_of. rewrite !omap_cons_eq.
  by rewrite !(plain_omap _ cs H) by by intros [].
Qed.

(** Run a loop over the options. *)
Ltac each_opt :=
  try match goal with
  | Ho : Forall is_Some ?o |- context [eachOpt ?f ?o] =>
      let E := fresh in
      destruct (eachOpt_total f o Ho) as (? & E & ?);
      [ intros ?; rewrite ?Forall_app; repeat (case_match || split || constructor) | rewrite E ]
  end.

(** Whatever the address, the helper builds the next hop it was asked for. *)
Lemma nhEntry_ok fib id address ni opts : Forall is_Some opts ->
  exists cs, nhEntry fib id address ni opts = Ret (NextHopEntry cs) /\ nh_key (NextHopEntry cs) = Some (ni, id).
Proof.
  intros Ho. unfold nhEntry, NHEntry. cbv zeta.
  repeat case_decide; each_opt; simpl; eexists; (split; [reflexivity|]); apply nh_plain_key;
    by repeat constructor.
Qed.

Lemma nhgEntry_ok fib order seen id weights ni backups :
  order weights ≡ₚ weights ->
  (forall i w, (i, w) ∈ weights -> (ni, i) ∈ nh_keys seen) ->
  (forall b, b ∈ backups -> (ni, b) ∈ nhg_keys seen) ->
  let e := nhgEntry fib order id weights ni (backupOption <$> backups) in
  refs_ok seen e /\ nhg_key e = Some (ni, id) /\ nh_key e = None.
Proof.
  intros Hp Hw Hb. unfold nhgEntry, NHGEntry. simpl fst.
  set (hops := (fun '(nhIndex, weight) => NHG_AddNextHop nhIndex weight) <$> order weights).
  set (bs := (backupOption <$> backups) ≫= _).
  assert (only_hops hops) as Oh.
  { apply Forall_fmap, Forall_forall. by intros [i w] _. }
  assert (nhg_hops hops = fst <$> order weights) as Eh.
  { unfold hops, nhg_hops. clear Hp Oh bs hops. induction (order weights) as [|[i w] l IH]; [done|].
    rewrite !fmap_cons, omap_cons_eq. by f_equal. }
  assert (Forall (fun c => exists b, c = NHG_WithBackupNHG b /\ b ∈ backups) bs) as Ob.
  { apply Forall_forall. intros c (o & Hc & (b & -> & Hin)%list_elem_of_fmap)%list_elem_of_bind. simpl in Hc.
    destruct (_ =? 0); [by apply elem_of_nil in Hc|]. apply list_elem_of_singleton in Hc as ->. eauto. }
  assert (forall B (f : NHGCall -> option B), (forall b, f (NHG_WithBackupNHG b) = None) -> omap f bs = []) as Nb.
  { intros B f Hf. induction Ob as [|c l (b & -> & _) _ IH]; [done|]. by rewrite omap_cons_eq, Hf. }
  set (cs := [NHG_WithNetworkInstance ni; NHG_WithID id] ++ hops ++ bs).
  assert (nhg_NI cs = Some ni) as E1.
  { unfold nhg_NI, last_of, cs. by rewrite !omap_app, (only_hops_omap _ hops), Nb by done. }
  assert (nhg_id cs = Some id) as E2.
  { unfold nhg_id, last_of, cs. by rewrite !omap_app, (only_hops_omap _ hops), Nb by done. }
  assert (nhg_hops cs = fst <$> order weights) as E3.
  { unfold nhg_hops, cs in *. rewrite !omap_app, Eh, Nb by done. apply app_nil_r. }
  assert (forall b, nhg_backup cs = Some b -> b ∈ backups) as E4.
  { unfold nhg_backup, last_of, cs. intros b Hl. rewrite !omap_app, (only_hops_omap _ hops) in Hl by done.
    simpl in Hl. apply last_Some_elem_of, list_elem_of_omap in Hl as (c & Hc & Hcb).
    rewrite Forall_forall in Ob. apply Ob in Hc as (b' & -> & Hin). by injection Hcb as ->. }
  change (refs_ok seen (NextHopGroupEntry cs) /\ nhg_key (NextHopGroupEntry cs) = Some (ni, id) /\
          nh_key (NextHopGroupEntry cs) = None).
  split; [|unfold nhg_key; by rewrite E1, E2]. split; intros k Hk; unfold nh_refs, nhg_refs in Hk.
  - rewrite E1, E3 in Hk. apply list_elem_of_omap in Hk as (i & Hi & [= <-]).
    apply list_elem_of_fmap in Hi as ([i' w] & -> & Hi). rewrite Hp in Hi. by eapply Hw.
  - rewrite E1 in Hk. destruct (nhg_backup cs) as [b|] eqn:Eb; [|by apply elem_of_nil in Hk].
    simpl in Hk. apply list_elem_of_singleton in Hk as ->. apply Hb. by apply E4.
Qed.

(** Next hops, then groups over them, then prefixes over the groups. *)
Lemma layers A B C : (forall seen, Forall (refs_ok seen) A) -> Forall (refs_ok A) B ->
  Forall (refs_ok (A ++ B)) C -> forall seen, ordered seen (A ++ B ++ C).
Proof.
  intros HA HB HC seen. apply (ordered_mono []); [by intros k Hk%elem_of_nil..|].
  rewrite !ordered_app. simpl. split_and!; by apply ordered_Forall.
Qed.

Lemma seqZ_step {A} (f : Z -> A) i n : 0 < n -> f <$> seqZ i n = f i :: (f <$> seqZ (i + 1) (n - 1)).
Proof. intros Hn. by rewrite seqZ_cons by lia. Qed.

(** ** Identifiers of a range *)

Definition ids (ni : string) (base n : Z) : list key := (fun i => (ni, uint64 (base + uint64 i))) <$> seqZ 0 n.

Lemma ids_elem ni base n k : 0 <= k < n -> (ni, uint64 (base + uint64 k)) ∈ ids ni base n.
Proof. apply (range_key (fun i => (ni, uint64 (base + uint64 i)))). Qed.

(** Ranges that stay below 2^64 do not wrap. *)
Lemma ids_small ni base n : 0 <= base -> base + n <= 2 ^ 64 -> ids ni base n = pair ni <$> seqZ base n.
Proof.
  intros Hb Hn. unfold ids.
  replace (seqZ base n) with (Z.add base <$> seqZ 0 n) by (rewrite fmap_add_seqZ; f_equal; lia).
  rewrite <- list_fmap_compose.
  apply list_fmap_ext. intros j x Hx. apply lookup_seqZ in Hx as [-> Hj]. simpl. f_equal.
  rewrite (uint64_small (0 + Z.of_nat j)) by lia. apply uint64_small. lia.
Qed.

(** The prefix is programmed in the VRF by an entry of the list. *)
Definition announces4 (es : list GRIBIEntry) (vrf pfx : string) : Prop :=
  exists id nhgNI, IPv4Entry (ipCallsFor vrf pfx id nhgNI) ∈ es.
Definition announces6 (es : list GRIBIEntry) (vrf pfx : string) : Prop :=
  exists id nhgNI, IPv6Entry (ipCallsFor vrf pfx id nhgNI) ∈ es.

(** ** Default VRF *)

Lemma announces4_app l k vrf pfx : announces4 (l ++ k) vrf pfx <-> announces4 l vrf pfx \/ announces4 k vrf pfx.
Proof. unfold announces4. setoid_rewrite elem_of_app. naive_solver. Qed.

Lemma not_ip_announces es vrf pfx : Forall not_ip es -> ~ announces4 es vrf pfx.
Proof. intros H (id & m & Hin). rewrite Forall_forall in H. by apply H in Hin. Qed.

Definition backupPick (hosts : list string) (part i : Z) : go string :=
  let prefixIdx := part + i in
  idx ← (if Z.of_nat (length hosts) <=? prefixIdx
         then goRem i (Z.of_nat (length hosts)) else Ret prefixIdx);
  index hosts idx.

(** The hosts the two halves select: those below twice the half. *)
Lemma pick_hosts (hosts : list string) part i :
  1 <= part <= Z.of_nat (length hosts) -> (length hosts = 1%nat \/ 2 * part <= Z.of_nat (length hosts)) ->
  0 <= i < part ->
  (exists h, index hosts i = Ret h /\ hosts !! Z.to_nat i = Some h) /\
  (exists h j, backupPick hosts part i = Ret h /\ hosts !! Z.to_nat j = Some h /\
     (2 * part <= Z.of_nat (length hosts) -> j = part + i) /\ 0 <= j).
Proof.
  intros Hp Hc Hi. split; [by apply index_total; lia|]. unfold backupPick.
  destruct (Z.leb_spec (Z.of_nat (length hosts)) (part + i)) as [H|H].
  - assert (length hosts = 1%nat) as E by lia. rewrite E. replace i with 0 by lia.
    destruct (index_total hosts 0) as (h & Eh & Lh); [lia|]. simpl. exists h, 0. split_and!; [done|done|lia|lia].
  - destruct (index_total hosts (part + i)) as (h & Eh & Lh); [lia|]. simpl.
    exists h, (part + i). split_and!; [done|done|lia|lia].
Qed.

Lemma picked_hosts (hosts : list string) part pfx :
  1 <= part <= Z.of_nat (length hosts) -> (length hosts = 1%nat \/ 2 * part <= Z.of_nat (length hosts)) ->
  (exists i h, 0 <= i < part /\ index hosts i = Ret h /\ pfx = cidr h IPv4HostMask) \/
  (exists i h, 0 <= i < part /\ backupPick hosts part i = Ret h /\ pfx = cidr h IPv4HostMask) <->
  exists j h, 0 <= j < Z.min (Z.of_nat (length hosts)) (2 * part) /\ hosts !! Z.to_nat j = Some h /\
    pfx = cidr h IPv4HostMask.
Proof.
  intros Hp Hc. split.
  - intros [(i & h & Hi & Ep & ->)|(i & h & Hi & Ep & ->)];
      destruct (pick_hosts hosts part i Hp Hc Hi) as [(h1 & P1 & L1) (h2 & j & P2 & L2 & Hj & J0)].
    + rewrite P1 in Ep. injection Ep as <-. exists i, h1. split_and!; [lia|lia|done|done].
    + rewrite P2 in Ep. injection Ep as <-. exists j, h2. split_and!; [lia| |done|done].
      apply lookup_lt_Some in L2. destruct (decide (2 * part <= Z.of_nat (length hosts))); lia.
  - intros (j & h & Hj & Hh & ->). destruct (decide (j < part)) as [Hlt|Hge].
    + left. destruct (pick_hosts hosts part j Hp Hc ltac:(lia)) as [(h1 & P1 & L1) _].
      rewrite Hh in L1. injection L1 as <-. exists j, h. split_and!; [lia|lia|done|done].
    + right. destruct (pick_hosts hosts part (j - part) Hp Hc ltac:(lia)) as [_ (h2 & j' & P2 & L2 & Hj' & J0)].
      rewrite Hj' in L2 by lia. replace (part + (j - part)) with j in L2 by lia.
      rewrite Hh in L2. injection L2 as <-. exists (j - part), h. split_and!; [lia|lia|done|done].
Qed.

Lemma half_bounds n : 1 <= n -> 1 <= Z.max (Z.quot n 2) 1 <= n /\
  (n = 1 \/ 2 * Z.max (Z.quot n 2) 1 <= n) /\ (Z.even n = true -> 2 * Z.max (Z.quot n 2) 1 = n) /\
  (n <> 1 -> Z.even n = false -> 2 * Z.max (Z.quot n 2) 1 = n - 1).
Proof.
  intros Hn. rewrite Z.quot_div_nonneg by lia.
  pose proof (Z.div_mod n 2 ltac:(lia)). pose proof (Z.mod_pos_bound n 2 ltac:(lia)).
  destruct (Z.even n) eqn:E.
  - apply Z.even_spec in E as [k ->]. split_and!; try done; lia.
  - rewrite <- Z.negb_odd in E. apply negb_false_iff, Z.odd_spec in E as [k ->]. split_and!; try done; lia.
Qed.

Section DefaultVRF.
Context (ni : string) (p : ScaleParams) (Hok : scale_ok p).

Let numNH := Z.max (Z.quot (NumDefaultNH p) 2) 1.
Let numNHG := Z.max (Z.quot (NumDefaultNHG p) 2) 1.

Lemma primaryVLANs_bounds : 1 <= primaryVLANs p <= NumPort2VLANs p.
Proof.
  destruct (fatal_checks p (so_valid p Hok)) as (_ & _ & _ & _ & _ & Hv).
  unfold primaryVLANs, ShutdownVLANPct. rewrite Z.quot_div_nonneg by lia.
  assert (NumPort2VLANs p * 50 / 100 <= NumPort2VLANs p) by (apply Z.div_le_upper_bound; lia). lia.
Qed.

Lemma primaryVLAN_ok i : 0 <= i -> exists v, primaryVLAN p i = Ret v /\ 0 <= v < primaryVLANs p.
Proof. intros Hi. apply goRem_pos; [done|]. pose proof primaryVLANs_bounds. lia. Qed.

Lemma backupVLAN_ok i : 0 <= i -> exists v, backupVLAN p i = Ret v /\ 0 <= v < NumPort2VLANs p /\
  (1 < NumPort2VLANs p -> primaryVLANs p <= v).
Proof.
  intros Hi. unfold backupVLAN. pose proof primaryVLANs_bounds as Hb.
  destruct (Z.ltb_spec 0 (NumPort2VLANs p - primaryVLANs p)) as [H|H].
  - destruct (goRem_pos i (NumPort2VLANs p - primaryVLANs p)) as (k & -> & Hk); [lia..|].
    exists (primaryVLANs p + k). split; [done|]. lia.
  - destruct (goRem_pos i (primaryVLANs p)) as (k & -> & Hk); [lia..|].
    exists k. split; [done|]. split; [lia|].
    intros H1. exfalso. unfold primaryVLANs, ShutdownVLANPct in *. rewrite Z.quot_div_nonneg in H, Hb by lia.
    assert (NumPort2VLANs p * 50 / 100 < NumPort2VLANs p) by (apply Z.div_lt_upper_bound; lia). lia.
Qed.

Lemma default_nhs ips base vlan : Z.of_nat (length ips) = NumPort2VLANs p ->
  (forall i, 0 <= i -> exists v, vlan i = Ret v /\ 0 <= v < NumPort2VLANs p) ->
  exists es, mapM (fun i =>
      vlanIdx ← vlan i;
      ip ← index ips vlanIdx;
      Ret (NextHopEntry [NH_WithNetworkInstance ni; NH_WithIndex (uint64 (base + uint64 i)); NH_WithIPAddress ip]))
      (seqZ 0 numNH) = Ret es /\
    nh_keys es = ids ni base numNH /\ nhg_keys es = [] /\ (forall seen, Forall (refs_ok seen) es) /\
    Forall not_ip es.
Proof.
  intros Hl Hv. apply nh_range. intros i Hi%elem_of_seqZ.
  destruct (Hv i) as (v & Ev & Bv); [lia|]. destruct (index_total ips v) as (ip & Eip & _); [lia|].
  rewrite Ev. simpl mbind. rewrite Eip. eexists. by split.
Qed.

Lemma default_nhgs seen baseNHG baseNH : (forall k, k ∈ ids ni baseNH numNH -> k ∈ nh_keys seen) ->
  exists es, (iter ← NewNHGBucketIterator numNHG (DefaultNHGLoadBalance p) (DefaultNHGWeight p) numNH;
    '(groups, _) ← groupLoop
      (fun i => [NHG_WithNetworkInstance ni; NHG_WithID (uint64 (baseNHG + uint64 i))])
      baseNH numNH 0 (Z.to_nat numNHG) iter 0;
    Ret groups) = Ret es /\
    Forall (refs_ok seen) es /\ nhg_keys es = ids ni baseNHG numNHG /\ nh_keys es = [] /\ Forall not_ip es.
Proof.
  intros Hin. destruct (fatal_checks p (so_valid p Hok)) as ((V1 & V2) & _).
  destruct (NewNHGBucketIterator_ok numNHG (DefaultNHGLoadBalance p) (DefaultNHGWeight p) numNH)
    as (it & Hit & Hio & Hmax); [lia|lia|done|done|apply (so_typed p Hok)|].
  rewrite Hit. simpl mbind.
  destruct (groupLoop_ok seen ni (fun i => uint64 (baseNHG + uint64 i))
    (fun i => [NHG_WithNetworkInstance ni; NHG_WithID (uint64 (baseNHG + uint64 i))])
    baseNH numNH (Z.to_nat numNHG) 0 it 0) as (es & off & Hl & _ & Hr & Hk & Hk' & Hni); try done.
  { intros k Hk. apply Hin. by apply ids_elem. }
  rewrite Hl. exists es. split; [done|]. split; [done|]. split; [|done].
  rewrite Hk, Z2Nat.id by lia. done.
Qed.

(** The prefixes of one half: the hosts [pick] selects, pointing in turn to the groups. *)
Lemma default_prefixes seen base pick (hosts : list string) m :
  (forall k, k ∈ ids ni base numNHG -> k ∈ nhg_keys seen) ->
  (forall i, 0 <= i < m -> exists h, pick i = Ret h /\ h ∈ hosts) ->
  exists ys, mapM (fun i =>
      host ← pick i;
      k ← goRem i numNHG;
      Ret (host, IPv4Entry (ipCallsFor ni (cidr host IPv4HostMask) (uint64 (base + uint64 k)) ni)))
      (seqZ 0 m) = Ret ys /\
    Forall2 (fun i y => pick i = Ret y.1 /\ exists id, y.2 = IPv4Entry (ipCallsFor ni (cidr y.1 IPv4HostMask) id ni))
      (seqZ 0 m) ys /\
    Forall (refs_ok seen) (snd <$> ys) /\ nh_keys (snd <$> ys) = [] /\ nhg_keys (snd <$> ys) = [].
Proof.
  intros Hin Hp. set (f := fun i => _ ≫= _).
  assert (forall i, i ∈ seqZ 0 m -> exists h k, pick i = Ret h /\ 0 <= k < numNHG /\
    f i = Ret (h, IPv4Entry (ipCallsFor ni (cidr h IPv4HostMask) (uint64 (base + uint64 k)) ni))) as Hf.
  { intros i Hi%elem_of_seqZ. destruct (Hp i) as (h & Eh & _); [lia|].
    destruct (goRem_pos i numNHG) as (k & Ek & Bk); [lia|lia|].
    exists h, k. unfold f. rewrite Eh. simpl mbind. rewrite Ek. done. }
  destruct (ip_range f snd (seqZ 0 m) seen) as (ys & Hys & _ & Hr & Hn & Hg).
  { intros i Hi. destruct (Hf i Hi) as (h & k & Eh & Bk & Ef). eexists. split; [exact Ef|]. simpl.
    split; [|done].
    apply (refs_ok_ip IPv4Entry); [by left|]. apply Hin. by apply ids_elem. }
  destruct (mapM_total f (fun i y => pick i = Ret y.1 /\
      exists id, y.2 = IPv4Entry (ipCallsFor ni (cidr y.1 IPv4HostMask) id ni)) (seqZ 0 m)) as (ys' & Hys' & HF).
  { intros i Hi. destruct (Hf i Hi) as (h & k & Eh & Bk & Ef). eexists. split; [exact Ef|]. simpl. eauto. }
  rewrite Hys in Hys'. injection Hys' as <-. exists ys. by split_and!.
Qed.

(** What the builder gives: entries in dependency order with the identifiers of
    two halves, and exactly the prefixes of the hosts below twice the half. *)
Record default_result (d : DefaultVRF) (hosts : list string) : Prop := {
  dr_ordered : forall seen, ordered seen (d_entries d);
  dr_nh : nh_keys (d_entries d) = ids ni NHBaseDefault numNH ++ ids ni (uint64 (NHBaseDefault + uint64 numNH)) numNH;
  dr_nhg : nhg_keys (d_entries d) =
    ids ni NHGBaseDefault numNHG ++ ids ni (uint64 (NHGBaseDefault + uint64 numNHG)) numNHG;
  dr_primary : primaryPrefixes d <> [];
  dr_backup : backupPrefixes d <> [];
  dr_hosts : Z.of_nat (length hosts) = NumDefaultIPv4 p /\ NoDup hosts;
  dr_want : exists first last, hosts !! 0%nat = Some first /\ hosts !! (length hosts - 1)%nat = Some last /\
    d_want d = [cidr first IPv4HostMask; cidr last IPv4HostMask];
  dr_shape : Forall (fun e => not_ip e \/ exists q id n, e = IPv4Entry (ipCallsFor ni q id n)) (d_entries d);
  dr_announced : forall pfx, announces4 (d_entries d) ni pfx <->
    exists j h, 0 <= j < Z.min (NumDefaultIPv4 p) (2 * Z.max (Z.quot (NumDefaultIPv4 p) 2) 1) /\
      hosts !! Z.to_nat j = Some h /\ pfx = cidr h IPv4HostMask
}.

(** The prefix entries of one half announce the prefixes [pick] selects. *)
Lemma announced_half (pick : Z -> go string) part ys pfx :
  Forall2 (fun i y => pick i = Ret y.1 /\ exists id, y.2 = IPv4Entry (ipCallsFor ni (cidr y.1 IPv4HostMask) id ni))
    (seqZ 0 part) ys ->
  announces4 (snd <$> ys) ni pfx <-> exists i h, 0 <= i < part /\ pick i = Ret h /\ pfx = cidr h IPv4HostMask.
Proof.
  intros HF. split.
  - intros (id & m & (y & Hy & Hin)%list_elem_of_fmap).
    apply list_elem_of_lookup in Hin as [k Hk].
    destruct (Forall2_lookup_r _ _ _ _ _ HF Hk) as (i & Hi & Hp & id' & Ey).
    apply lookup_seqZ in Hi as [-> Hlt]. rewrite Ey in Hy. injection Hy as -> _ _.
    exists (0 + Z.of_nat k), y.1. split_and!; [lia|lia|done|done].
  - intros (i & h & Hi & Hp & ->).
    destruct (Forall2_lookup_l _ _ _ _ _ HF (lookup_seqZ_lt 0 part (Z.to_nat i) ltac:(lia))) as (y & Hy & Hpy & id & Ey).
    rewrite Z.add_0_l, Z2Nat.id, Hp in Hpy by lia. injection Hpy as ->.
    exists id, ni. apply list_elem_of_fmap. exists y. split; [done|]. by eapply list_elem_of_lookup_2.
Qed.

Lemma half_shape (pick : Z -> go string) part ys :
  Forall2 (fun i y => pick i = Ret y.1 /\ exists id, y.2 = IPv4Entry (ipCallsFor ni (cidr y.1 IPv4HostMask) id ni))
    (seqZ 0 part) ys ->
  Forall (fun e => not_ip e \/ exists q id n, e = IPv4Entry (ipCallsFor ni q id n)) (snd <$> ys).
Proof.
  intros HF. apply Forall_fmap. apply Forall_forall. intros y [k Hk]%list_elem_of_lookup.
  destruct (Forall2_lookup_r _ _ _ _ _ HF Hk) as (i & _ & _ & id & Ey). right. simpl. rewrite Ey. eauto.
Qed.

(** The next hops and groups of the two halves. *)
Lemma default_nh_nhg ips : Z.of_nat (length ips) = NumPort2VLANs p ->
  let nextHop base (vlan : Z -> go Z) i :=
    vlanIdx ← vlan i;
    ip ← index ips vlanIdx;
    Ret (NextHopEntry [NH_WithNetworkInstance ni; NH_WithIndex (uint64 (base + uint64 i)); NH_WithIPAddress ip]) in
  let buildNHGs baseNHG baseNH :=
    iter ← NewNHGBucketIterator numNHG (DefaultNHGLoadBalance p) (DefaultNHGWeight p) numNH;
    '(groups, _) ← groupLoop
      (fun i => [NHG_WithNetworkInstance ni; NHG_WithID (uint64 (baseNHG + uint64 i))])
      baseNH numNH 0 (Z.to_nat numNHG) iter 0;
    Ret groups in
  let nhB := uint64 (NHBaseDefault + uint64 numNH) in
  let nhgB := uint64 (NHGBaseDefault + uint64 numNHG) in
  exists nh1 nh2 g1 g2,
    mapM (nextHop NHBaseDefault (primaryVLAN p)) (seqZ 0 numNH) = Ret nh1 /\
    mapM (nextHop nhB (backupVLAN p)) (seqZ 0 numNH) = Ret nh2 /\
    buildNHGs NHGBaseDefault NHBaseDefault = Ret g1 /\ buildNHGs nhgB nhB = Ret g2 /\
    (forall seen, Forall (refs_ok seen) (nh1 ++ nh2)) /\ Forall (refs_ok (nh1 ++ nh2)) (g1 ++ g2) /\
    nh_keys (nh1 ++ nh2) = ids ni NHBaseDefault numNH ++ ids ni nhB numNH /\ nhg_keys (nh1 ++ nh2) = [] /\
    nhg_keys (g1 ++ g2) = ids ni NHGBaseDefault numNHG ++ ids ni nhgB numNHG /\ nh_keys (g1 ++ g2) = [] /\
    Forall not_ip (nh1 ++ nh2) /\ Forall not_ip (g1 ++ g2).
Proof.
  intros Lips nextHop buildNHGs nhB nhgB.
  destruct (default_nhs ips NHBaseDefault (primaryVLAN p) Lips) as (nh1 & E1 & K1 & G1 & R1 & N1).
  { intros i Hi. destruct (primaryVLAN_ok i Hi) as (v & Ev & Bv). pose proof primaryVLANs_bounds.
    exists v. split; [done|lia]. }
  destruct (default_nhs ips nhB (backupVLAN p) Lips) as (nh2 & E2 & K2 & G2 & R2 & N2).
  { intros i Hi. destruct (backupVLAN_ok i Hi) as (v & Ev & Bv & _). eauto. }
  destruct (default_nhgs (nh1 ++ nh2) NHGBaseDefault NHBaseDefault) as (g1 & E3 & R3 & K3 & G3 & N3).
  { intros k Hk. rewrite omap_app, elem_of_app, K1. by left. }
  destruct (default_nhgs (nh1 ++ nh2) nhgB nhB) as (g2 & E4 & R4 & K4 & G4 & N4).
  { intros k Hk. rewrite omap_app, elem_of_app, K2. by right. }
  exists nh1, nh2, g1, g2. rewrite !omap_app, K1, K2, G1, G2, K3, K4, G3, G4.
  do 4 (split; [done|]). rewrite !Forall_app. split; [intros seen; by rewrite Forall_app|]. by split_and!.
Qed.

Lemma default_ok : exists d hosts, BuildDefaultVRF_entries ni p = Ret d /\ default_result d hosts.
Proof.
  destruct (fatal_checks p (so_valid p Hok)) as (_ & _ & _ & _ & _ & Hv).
  destruct (ate_ips (NumPort2VLANs p)) as (ips & Eips & Lips); [split; [lia|apply (so_vlans p Hok)]|].
  pose proof (so_default p Hok) as Hd.
  destruct (host_ips IPv4PrefixStartAddress (NumDefaultIPv4 p)) as (hosts & Ehosts & Lhosts);
    [apply start_constants|lia|].
  pose proof (host_ips_NoDup IPv4PrefixStartAddress (NumDefaultIPv4 p) hosts (proj1 start_constants)
    ltac:(lia) Ehosts) as Nd.
  set (part := Z.max (Z.quot (NumDefaultIPv4 p) 2) 1).
  destruct (half_bounds (NumDefaultIPv4 p) ltac:(lia)) as (B1 & B2 & _). fold part in B1, B2.
  pose proof (fun i => pick_hosts hosts part i ltac:(lia) ltac:(lia)) as Hpick.
  destruct (default_nh_nhg ips Lips)
    as (nh1 & nh2 & g1 & g2 & E1 & E2 & E3 & E4 & R1 & R2 & K1 & K2 & K3 & K4 & N1 & N2).
  set (seen := (nh1 ++ nh2) ++ g1 ++ g2).
  assert (nhg_keys seen = nhg_keys (g1 ++ g2)) as Ks by (unfold seen; by rewrite omap_app, K2).
  destruct (default_prefixes seen NHGBaseDefault (index hosts) hosts part) as (y1 & E5 & F5 & R5 & K5 & G5).
  { intros k Hk. rewrite Ks, K3, elem_of_app. by left. }
  { intros i Hi. destruct (Hpick i Hi) as [(h & Eh & Lh) _]. exists h. split; [done|by eapply list_elem_of_lookup_2]. }
  destruct (default_prefixes seen _ (backupPick hosts part) hosts part
    ltac:(intros k Hk; rewrite Ks, K3, elem_of_app; right; exact Hk)) as (y2 & E6 & F6 & R6 & K6 & G6).
  { intros i Hi. destruct (Hpick i Hi) as [_ (h & j & Eh & Lh & _)]. exists h. split; [done|by eapply list_elem_of_lookup_2]. }
  destruct (index_total hosts 0) as (first & Ef & Lf); [lia|].
  destruct (index_total hosts (Z.of_nat (length hosts) - 1)) as (last & El & Ll); [lia|].
  exists {| d_nh := nh1 ++ nh2; d_nhg := g1 ++ g2; d_ipv4 := (snd <$> y1) ++ (snd <$> y2);
            d_want := [cidr first IPv4HostMask; cidr last IPv4HostMask];
            primaryPrefixes := fst <$> y1; backupPrefixes := fst <$> y2 |}, hosts.
  split.
  { unfold BuildDefaultVRF_entries. rewrite Eips. cbn [mbind outcome_bind]. rewrite Ehosts. cbn [mbind outcome_bind].
    fold numNH numNHG part. unfold backupPick in E6.
    rewrite E1. cbn [mbind outcome_bind]. rewrite E2. cbn [mbind outcome_bind].
    rewrite E3. cbn [mbind outcome_bind]. rewrite E4. cbn [mbind outcome_bind].
    rewrite E5. cbn [mbind outcome_bind]. rewrite E6. cbn [mbind outcome_bind].
    rewrite Ef. cbn [mbind outcome_bind]. rewrite El. done. }
  apply Forall2_length in F5 as L5. apply Forall2_length in F6 as L6. rewrite length_seqZ in L5, L6.
  split; unfold d_entries; cbn [d_nh d_nhg d_ipv4 d_want primaryPrefixes backupPrefixes].
  - apply layers; [done|done|]. by apply Forall_app.
  - rewrite omap_app, K1, omap_app, K4, omap_app, K5, K6. apply app_nil_r.
  - rewrite omap_app, K2, omap_app, K3, omap_app, G5, G6. apply app_nil_r.
  - destruct y1; [simpl in L5; lia|done].
  - destruct y2; [simpl in L6; lia|done].
  - done.
  - exists first, last. replace (length hosts - 1)%nat with (Z.to_nat (Z.of_nat (length hosts) - 1)) by lia. done.
  - rewrite !Forall_app. rewrite !Forall_app in N1, N2.
    split_and!; try (eapply Forall_impl; [apply N1 || apply N2|]; by left);
      [eapply half_shape; exact F5|eapply half_shape; exact F6].
  - intros pfx. rewrite (announces4_app (nh1 ++ nh2)), (announces4_app (g1 ++ g2)), (announces4_app (snd <$> y1)).
    rewrite (announced_half _ _ _ _ F5), (announced_half _ _ _ _ F6).
    pose proof (picked_hosts hosts part pfx ltac:(lia) ltac:(lia)) as HP. rewrite Lhosts in HP.
    pose proof (not_ip_announces _ ni pfx N1). pose proof (not_ip_announces _ ni pfx N2). tauto.
Qed.
End DefaultVRF.

(** ** Static groups *)

Section OtherVRFs.
Context (fib : Z) (order : list (Z * Z) -> list (Z * Z)) (Horder : forall l, order l ≡ₚ l).
Context (ni : string) (p : ScaleParams) (Hok : scale_ok p).

(** A single next hop and a group over it. *)
Lemma nh_nhg_pair seen nhCs nhId nhgId backups :
  nh_key (NextHopEntry nhCs) = Some (ni, nhId) -> (forall b, b ∈ backups -> (ni, b) ∈ nhg_keys seen) ->
  let nhg := nhgEntry fib order nhgId [(nhId, 1)] ni (backupOption <$> backups) in
  ordered seen [NextHopEntry nhCs; nhg] /\ nhg_key nhg = Some (ni, nhgId) /\ nh_key nhg = None.
Proof.
  intros Hk Hb. simpl.
  destruct (nhgEntry_ok fib order (seen ++ [NextHopEntry nhCs]) nhgId [(nhId, 1)] ni backups (Horder _))
    as (R & K & N).
  - intros i w [= -> ->]%list_elem_of_singleton. rewrite omap_app, elem_of_app, omap_cons_eq, Hk. right. left.
  - intros b Hin. rewrite omap_app, elem_of_app. left. by apply Hb.
  - split; [|done]. split; [apply refs_ok_nh|]. by split.
Qed.

Lemma static_ok : exists es, BuildStaticGroups_entries fib order ni = Ret es /\
  (forall seen, ordered seen es) /\
  nh_keys es = [(ni, StaticS1NHG); (ni, StaticS2NHG)] /\ nhg_keys es = [(ni, StaticS1NHG); (ni, StaticS2NHG)].
Proof.
  unfold BuildStaticGroups_entries.
  destruct (nhEntry_ok fib StaticS1NHG "VRFOnly" ni [vrfOption RepairVRFStr]) as (c1 & E1 & K1); [by repeat constructor|].
  destruct (nhEntry_ok fib StaticS2NHG "Decap" ni [vrfOption ni]) as (c2 & E2 & K2); [by repeat constructor|].
  rewrite E1. cbn [mbind outcome_bind]. rewrite E2. cbn [mbind outcome_bind].
  eexists. split; [reflexivity|].
  pose proof (fun seen => nh_nhg_pair seen c1 StaticS1NHG StaticS1NHG [] K1 ltac:(by intros b ?%elem_of_nil)) as P1.
  pose proof (fun seen => nh_nhg_pair seen c2 StaticS2NHG StaticS2NHG [] K2 ltac:(by intros b ?%elem_of_nil)) as P2.
  cbv beta zeta in P1, P2. change (backupOption <$> []) with (@nil (option NHGOptions)) in P1, P2.
  destruct (P1 []) as (_ & G1 & N1), (P2 []) as (_ & G2 & N2).
  split; [|by rewrite !omap_cons_eq, K1, K2, G1, G2, N1, N2].
  intros seen. apply (ordered_app _ [_; _] [_; _]). split; [apply P1|apply P2].
Qed.

(** ** Repair VRF *)

(** The number of next hops the loop uses up to group [i]. *)
Definition repair_hops (single : bool) (i : Z) : Z :=
  if single then i else Z.min i (Z.quot (NumRepairNHG p) 2) + 2 * Z.max 0 (i - Z.quot (NumRepairNHG p) 2).

Lemma repair_hops_mono single i j : 0 <= i <= j -> repair_hops single i <= repair_hops single j.
Proof. unfold repair_hops. destruct single; lia. Qed.

Lemma repair_hop seen dsts k : 0 <= k < Z.of_nat (length dsts) ->
  exists cs, (dst ← index dsts k;
    nhEntry fib (uint64 (NHBaseRepair + k)) "DecapEncap" ni [tunnelOption IPv4OuterSrc222 dst TransitVRF222Str]) =
    Ret (NextHopEntry cs) /\ nh_key (NextHopEntry cs) = Some (ni, uint64 (NHBaseRepair + k)) /\
    refs_ok seen (NextHopEntry cs).
Proof.
  intros Hk. destruct (index_total dsts k Hk) as (d & Ed & _). rewrite Ed. cbn [mbind outcome_bind].
  destruct (nhEntry_ok fib (uint64 (NHBaseRepair + k)) "DecapEncap" ni
    [tunnelOption IPv4OuterSrc222 d TransitVRF222Str]) as (cs & E & K); [by repeat constructor|].
  exists cs. split_and!; [done|done|apply refs_ok_nh].
Qed.

Lemma repairLoop_ok single s2 dsts : Z.of_nat (length dsts) = 2 * NumRepairNHG p -> forall n i seen,
  (ni, s2) ∈ nhg_keys seen -> 0 <= i -> i + Z.of_nat n = NumRepairNHG p ->
  exists es off, repairLoop fib order single ni s2 p dsts i n (repair_hops single i) = Ret (es, off) /\
    ordered seen es /\ Forall not_ip es /\
    nhg_keys es = (fun j => (ni, uint64 (NHGBaseRepair + uint64 j))) <$> seqZ i (Z.of_nat n) /\
    nh_keys es = (fun j => (ni, uint64 (NHBaseRepair + j))) <$>
      seqZ (repair_hops single i) (repair_hops single (i + Z.of_nat n) - repair_hops single i).
Proof.
  intros Hl n. induction n as [|n IH]; intros i seen Hs Hi Hn.
  { exists [], (repair_hops single i). split_and!; [done|done|constructor|done|].
    rewrite seqZ_nil; [done|]. rewrite Z.add_0_r. lia. }
  destruct (so_repair p Hok) as [HR _].
  assert (Z.quot (NumRepairNHG p) 2 = NumRepairNHG p / 2) as Eq by (apply Z.quot_div_nonneg; lia).
  pose proof (Z.div_mod (NumRepairNHG p) 2 ltac:(lia)) as Dm. pose proof (Z.mod_pos_bound (NumRepairNHG p) 2 ltac:(lia)).
  set (k := repair_hops single i).
  assert (0 <= k <= 2 * i) as Bk by (unfold k, repair_hops; destruct single; lia).
  assert (k < 2 ^ 64 - 2) as Bk' by lia.
  cbn [repairLoop].
  destruct ((i <? Z.quot (NumRepairNHG p) 2) || single) eqn:Eb.
  - assert (repair_hops single (i + 1) = k + 1) as Ek.
    { unfold k, repair_hops. destruct single; [lia|]. rewrite orb_false_r in Eb. lia. }
    destruct (repair_hop seen dsts k) as (cs & E & K & _); [lia|]. rewrite E. cbn [mbind outcome_bind].
    destruct (nh_nhg_pair seen cs _ (uint64 (NHGBaseRepair + uint64 i)) [s2] K) as (O & G & N).
    { intros b ->%list_elem_of_singleton. done. }
    rewrite (uint64_small (k + 1)) by lia. rewrite <- Ek.
    destruct (IH (i + 1) (seen ++ [NextHopEntry cs; nhgEntry fib order (uint64 (NHGBaseRepair + uint64 i))
      [(uint64 (NHBaseRepair + k), 1)] ni [backupOption s2]])) as (es & off & El & Oe & Ne & Ge & Ke); [|lia|lia|].
    { rewrite omap_app, elem_of_app. by left. }
    rewrite El. cbn [mbind outcome_bind]. eexists _, _. split; [reflexivity|].
    split; [by apply (ordered_app _ [_; _])|]. split; [by constructor; [|constructor]|].
    change (backupOption <$> [s2]) with [backupOption s2] in *.
    rewrite !omap_cons_eq, K, G, N, Ge, Ke. split.
    + rewrite (seqZ_step _ i) by lia. do 3 f_equal. lia.
    + fold k. replace (i + 1 + Z.of_nat n) with (i + Z.of_nat (S n)) by lia.
      assert (k + 1 <= repair_hops single (i + Z.of_nat (S n))) by (rewrite <- Ek; apply repair_hops_mono; lia).
      rewrite (seqZ_step _ k), Ek by lia. do 3 f_equal. lia.
  - assert (repair_hops single (i + 1) = k + 2 /\ k + 1 < Z.of_nat (length dsts)) as [Ek Bd].
    { unfold k, repair_hops in *. destruct single; [by rewrite orb_true_r in Eb|]. rewrite orb_false_r in Eb. lia. }
    destruct (repair_hop seen dsts k) as (c0 & E0 & K0 & R0); [lia|]. rewrite E0. cbn [mbind outcome_bind].
    rewrite !(uint64_small (k + 1)), !(uint64_small (k + 2)) by lia.
    destruct (repair_hop seen dsts (k + 1)) as (c1 & E1 & K1 & R1); [lia|]. rewrite E1. cbn [mbind outcome_bind].
    rewrite (Z.add_assoc _ k 1) in K1.
    destruct (nhgEntry_ok fib order ((seen ++ [NextHopEntry c0]) ++ [NextHopEntry c1])
      (uint64 (NHGBaseRepair + uint64 i)) [(uint64 (NHBaseRepair + k), 1); (uint64 (NHBaseRepair + k + 1), 1)]
      ni [s2] (Horder _)) as (R & G & N).
    { intros j w Hj. rewrite !omap_app, !elem_of_app, !omap_cons_eq, K0, K1.
      apply elem_of_cons in Hj as [[= -> ->]|[= -> ->]%list_elem_of_singleton]; [left; right|right]; left. }
    { intros b ->%list_elem_of_singleton. rewrite !omap_app, !elem_of_app. by left; left. }
    change (backupOption <$> [s2]) with [backupOption s2] in *.
    rewrite <- Ek.
    destruct (IH (i + 1) (seen ++ [NextHopEntry c0; NextHopEntry c1; nhgEntry fib order (uint64 (NHGBaseRepair + uint64 i))
      [(uint64 (NHBaseRepair + k), 1); (uint64 (NHBaseRepair + k + 1), 1)] ni [backupOption s2]]))
      as (es & off & El & Oe & Ne & Ge & Ke); [|lia|lia|].
    { rewrite omap_app, elem_of_app. by left. }
    rewrite El. cbn [mbind outcome_bind]. eexists _, _. split; [reflexivity|].
    split.
    { apply (ordered_app _ [_; _; _]). split; [|exact Oe].
      split; [apply refs_ok_nh|]. split; [apply refs_ok_nh|]. by split. }
    split; [by repeat (constructor; [done|])|].
    rewrite !omap_cons_eq, K0, K1, G, N, Ge, Ke. split.
    + rewrite (seqZ_step _ i) by lia. do 3 f_equal. lia.
    + fold k. replace (i + 1 + Z.of_nat n) with (i + Z.of_nat (S n)) by lia.
      assert (k + 2 <= repair_hops single (i + Z.of_nat (S n))) by (rewrite <- Ek; apply repair_hops_mono; lia).
      rewrite (seqZ_step _ k), (seqZ_step _ (k + 1)), Ek by lia. rewrite Z.add_assoc.
      do 3 f_equal. f_equal; lia.
Qed.

(** ** Routes *)

Lemma routes_ok (mk : list IPCall -> GRIBIEntry) seen vrf mask (g : Z -> Z) n hosts :
  (mk = IPv4Entry \/ mk = IPv6Entry) -> 0 < n -> (forall k, 0 <= k < n -> (ni, g k) ∈ nhg_keys seen) ->
  exists es, imapM (fun i host => k ← goRem i n; Ret (mk (ipCallsFor vrf (cidr host mask) (g k) ni))) hosts = Ret es /\
    Forall (refs_ok seen) es /\ nh_keys es = [] /\ nhg_keys es = [] /\
    (forall h, h ∈ hosts -> exists id, mk (ipCallsFor vrf (cidr h mask) id ni) ∈ es).
Proof.
  intros Hmk Hn Hin. unfold imapM. set (f := fun '(i, host) => _).
  assert (forall x, x ∈ zip (seqZ 0 (Z.of_nat (length hosts))) hosts ->
    exists k, f x = Ret (mk (ipCallsFor vrf (cidr x.2 mask) (g k) ni)) /\ 0 <= k < n) as Hf.
  { intros [i h] (m & Hm)%list_elem_of_lookup. apply lookup_zip_with_Some in Hm as (? & ? & [= <- <-] & Hi & _).
    apply lookup_seqZ in Hi as [-> _]. destruct (goRem_pos (0 + Z.of_nat m) n) as (k & Ek & Bk); [lia..|].
    exists k. simpl. by rewrite Ek. }
  destruct (ip_range f id (zip (seqZ 0 (Z.of_nat (length hosts))) hosts) seen) as (es & Ees & Les & R & K1 & K2).
  { intros x Hx. destruct (Hf x Hx) as (k & Ef & Bk). eexists. split; [exact Ef|].
    split; [apply refs_ok_ip; [done|by apply Hin]|]. by destruct Hmk as [-> | ->]. }
  rewrite list_fmap_id in R, K1, K2. exists es. split_and!; try done.
  intros h (m & Hm)%list_elem_of_lookup.
  destruct (mapM_total f (fun x y => exists id, y = mk (ipCallsFor vrf (cidr x.2 mask) id ni))
    (zip (seqZ 0 (Z.of_nat (length hosts))) hosts)) as (es' & Ees' & F).
  { intros x Hx. destruct (Hf x Hx) as (k & Ef & Bk). eauto. }
  rewrite Ees in Ees'. injection Ees' as <-.
  assert (zip (seqZ 0 (Z.of_nat (length hosts))) hosts !! m = Some (Z.of_nat m, h)) as Hz.
  { apply lookup_zip_with_Some. exists (Z.of_nat m), h. split_and!; [done| |done].
    apply lookup_lt_Some in Hm. apply lookup_seqZ. lia. }
  destruct (Forall2_lookup_l _ _ _ _ _ F Hz) as (y & Hy & i & ->). exists i. by eapply list_elem_of_lookup_2.
Qed.

(** The first and the last of the hosts, which the builders check afterwards. *)
Lemma first_last (hosts : list string) : 0 < Z.of_nat (length hosts) ->
  exists first last, index hosts 0 = Ret first /\ index hosts (Z.of_nat (length hosts) - 1) = Ret last /\
    first ∈ hosts /\ last ∈ hosts.
Proof.
  intros Hl. destruct (index_total hosts 0) as (a & Ea & La); [lia|].
  destruct (index_total hosts (Z.of_nat (length hosts) - 1)) as (b & Eb & Lb); [lia|].
  exists a, b. split_and!; try done; by eapply list_elem_of_lookup_2.
Qed.

(** The prefixes to check are among those the entries program. *)
Definition wanted4 (es : list GRIBIEntry) (want : list (string * list string)) : Prop :=
  Forall (fun w => Forall (announces4 es w.1) w.2) want.
Definition wanted6 (es : list GRIBIEntry) (want : list (string * list string)) : Prop :=
  Forall (fun w => Forall (announces6 es w.1) w.2) want.

Lemma repair_ok single s2 seen : (ni, s2) ∈ nhg_keys seen ->
  exists es want, BuildRepairVRF_entries fib order single ni s2 p = Ret (es, want) /\ ordered seen es /\
    nhg_keys es = ids ni NHGBaseRepair (NumRepairNHG p) /\
    nh_keys es = (fun j => (ni, uint64 (NHBaseRepair + j))) <$> seqZ 0 (repair_hops single (NumRepairNHG p)) /\
    wanted4 es want.
Proof.
  intros Hs. destruct (so_repair p Hok) as [HR HI].
  destruct (host_ips TransitVRF222PrefixStart (NumRepairNHG p * 2)) as (dsts & Ed & Ld); [apply start_constants|lia|].
  destruct (host_ips TransitVRF111PrefixStart (NumRepairIPv4 p)) as (hosts & Eh & Lh); [apply start_constants|lia|].
  assert (repair_hops single 0 = 0) as E0.
  { unfold repair_hops. rewrite Z.quot_div_nonneg by lia. pose proof (Z.div_pos (NumRepairNHG p) 2). destruct single; lia. }
  destruct (repairLoop_ok single s2 dsts ltac:(lia) (Z.to_nat (NumRepairNHG p)) 0 seen Hs ltac:(lia) ltac:(lia))
    as (es & off & El & Oe & Ne & Ge & Ke).
  rewrite E0 in El, Ke. rewrite Z2Nat.id in Ge, Ke by lia. rewrite Z.add_0_l, Z.sub_0_r in Ke.
  destruct (routes_ok IPv4Entry (seen ++ es) RepairVRFStr IPv4HostMask (fun k => uint64 (NHGBaseRepair + uint64 k))
    (NumRepairNHG p) hosts) as (ips & Ei & Ri & K1 & K2 & An); [by left|lia| |].
  { intros k Hk. rewrite omap_app, elem_of_app, Ge. right.
    by apply (range_key (fun j => (ni, uint64 (NHGBaseRepair + uint64 j)))). }
  destruct (first_last hosts ltac:(lia)) as (a & b & Ea & Eb & Ia & Ib).
  unfold BuildRepairVRF_entries. rewrite Ed. cbn [mbind outcome_bind]. rewrite El. cbn [mbind outcome_bind].
  rewrite Eh. cbn [mbind outcome_bind]. rewrite Ei. cbn [mbind outcome_bind].
  rewrite Ea. cbn [mbind outcome_bind]. rewrite Eb. cbn [mbind outcome_bind].
  eexists _, _. split; [reflexivity|]. rewrite !omap_app, Ge, Ke, K1, K2, !app_nil_r.
  split; [apply ordered_app; split; [done|by apply ordered_Forall]|]. split; [done|]. split; [done|].
  assert (forall h, h ∈ hosts -> announces4 (es ++ ips) RepairVRFStr (cidr h IPv4HostMask)) as Han.
  { intros h Hh. destruct (An h Hh) as [id Hid]. exists id, ni. apply elem_of_app. by right. }
  repeat constructor; by apply Han.
Qed.

(** ** Transit VRFs *)

Lemma transit_nhs prefixes base n : prefixes <> [] ->
  exists es, mapM (fun k =>
      m ← goRem k (Z.of_nat (length prefixes));
      ip ← index prefixes m;
      Ret (NextHopEntry [NH_WithNetworkInstance ni; NH_WithIndex (uint64 (base + uint64 k)); NH_WithIPAddress ip]))
      (seqZ 0 n) = Ret es /\
    nh_keys es = ids ni base n /\ nhg_keys es = [] /\ (forall seen, Forall (refs_ok seen) es) /\ Forall not_ip es.
Proof.
  intros Hne. apply nh_range. intros k Hk%elem_of_seqZ.
  assert (0 < Z.of_nat (length prefixes)) by (destruct prefixes; [done|simpl; lia]).
  destruct (goRem_pos k (Z.of_nat (length prefixes))) as (m & Em & Bm); [lia..|].
  destruct (index_total prefixes m Bm) as (ip & Ei & _).
  rewrite Em. cbn [mbind outcome_bind]. rewrite Ei. eexists. by split.
Qed.

Lemma buildTransitVRF_ok seen vrf start prefixes baseNH nhCount baseNHG nhgCount backup :
  prefixes <> [] -> host_start start -> 0 <= nhCount -> 0 <= nhgCount -> (ni, backup) ∈ nhg_keys seen ->
  exists es want, buildTransitVRF ni p vrf start prefixes baseNH nhCount baseNHG nhgCount backup = Ret (es, want) /\
    ordered seen es /\ wanted4 es want /\
    let z := (nhCount =? 0) || (nhgCount =? 0) in
    nh_keys es = (if z then [] else ids ni baseNH nhCount) /\
    nhg_keys es = (if z then [] else ids ni baseNHG nhgCount).
Proof.
  intros Hne Hst H1 H2 Hb. unfold buildTransitVRF.
  destruct ((nhCount =? 0) || (nhgCount =? 0)) eqn:Ez.
  { eexists _, _. split; [reflexivity|]. by repeat split; constructor. }
  assert (0 < nhCount /\ 0 < nhgCount) as [P1 P2] by lia.
  destruct (fatal_checks p (so_valid p Hok)) as (_ & _ & (V1 & V2) & _).
  destruct (transit_nhs prefixes baseNH nhCount Hne) as (nhs & En & K1 & G1 & R1 & _).
  destruct (NewNHGBucketIterator_ok nhgCount (TransitNHGLoadBalance p) (TransitNHGWeight p) nhCount)
    as (it & Hit & Hio & Hmax); [lia|lia|done|done|apply (so_typed p Hok)|].
  assert (forall i, starts_group (seen ++ nhs) ni (uint64 (baseNHG + uint64 i))
    [NHG_WithNetworkInstance ni; NHG_WithID (uint64 (baseNHG + uint64 i)); NHG_WithBackupNHG backup]) as Hst'.
  { intros i. split; try done. intros b [= <-]. rewrite omap_app, elem_of_app. by left. }
  destruct (groupLoop_ok _ _ _ _ baseNH nhCount (Z.to_nat nhgCount) 0 it 0 Hst')
    as (es & off & El & _ & Re & Ge & Ke & _); [|done|done|lia|].
  { intros k Hk. rewrite omap_app, elem_of_app, K1. right. by apply ids_elem. }
  rewrite Z2Nat.id in Ge by lia. fold (ids ni baseNHG nhgCount) in Ge.
  destruct (so_transit p Hok) as (_ & _ & HT).
  destruct (host_ips start (NumTransitIPv4 p) Hst ltac:(lia)) as (hosts & Eh & Lh).
  destruct (routes_ok IPv4Entry ((seen ++ nhs) ++ es) vrf IPv4HostMask (fun k => uint64 (baseNHG + uint64 k))
    nhgCount hosts) as (ips & Ei & Ri & K2 & K3 & An); [by left|lia| |].
  { intros k Hk. rewrite omap_app, elem_of_app, Ge. right. by apply ids_elem. }
  destruct (first_last hosts ltac:(lia)) as (a & b & Ea & _ & Ia & _).
  rewrite En. cbn [mbind outcome_bind]. rewrite Hit. cbn [mbind outcome_bind]. rewrite El. cbn [mbind outcome_bind].
  rewrite Eh. cbn [mbind outcome_bind]. rewrite Ei. cbn [mbind outcome_bind]. rewrite Ea. cbn [mbind outcome_bind].
  eexists _, _. split; [reflexivity|]. rewrite !omap_app, K1, G1, Ge, Ke, K2, K3, !app_nil_r.
  split; [rewrite !ordered_app; split_and!; by apply ordered_Forall|]. split; [|done].
  destruct (An a Ia) as [id Hid].
  repeat constructor. exists id, ni. rewrite !elem_of_app. auto.
Qed.

Definition transit_halves (n : Z) : Z * Z := (Z.max (Z.quot n 2) 1, n - Z.max (Z.quot n 2) 1).

Lemma transit_ok seen primary backup s1 s2 : primary <> [] -> backup <> [] ->
  (ni, s1) ∈ nhg_keys seen -> (ni, s2) ∈ nhg_keys seen ->
  exists es want, BuildTransitVRFs_entries ni primary backup s1 s2 p = Ret (es, want) /\
    ordered seen es /\ wanted4 es want /\
    let '(nh1, nh2) := transit_halves (NumTransitNH p) in
    let '(nhg1, nhg2) := transit_halves (NumTransitNHG p) in
    let z := (nh2 =? 0) || (nhg2 =? 0) in
    nh_keys es = ids ni (uint64 NHBaseTransit) nh1 ++
      (if z then [] else ids ni (uint64 (NHBaseTransit + uint64 nh1)) nh2) /\
    nhg_keys es = ids ni (uint64 NHGBaseTransit) nhg1 ++
      (if z then [] else ids ni (uint64 (NHGBaseTransit + uint64 nhg1)) nhg2).
Proof.
  intros Hp Hb H1 H2. unfold BuildTransitVRFs_entries, transit_halves.
  destruct (so_transit p Hok) as (T1 & T2 & _).
  pose proof (half_bounds (NumTransitNH p) T1) as (B1 & _). pose proof (half_bounds (NumTransitNHG p) T2) as (B2 & _).
  set (nh1 := Z.max (Z.quot (NumTransitNH p) 2) 1) in *. set (nhg1 := Z.max (Z.quot (NumTransitNHG p) 2) 1) in *.
  destruct (buildTransitVRF_ok seen TransitVRF111Str TransitVRF111PrefixStart primary (uint64 (NHBaseTransit + 0)) nh1
    (uint64 (NHGBaseTransit + 0)) nhg1 s1 Hp (proj1 (proj2 start_constants)) ltac:(lia) ltac:(lia) H1)
    as (e1 & w1 & E1 & O1 & W1 & K1 & G1).
  destruct (buildTransitVRF_ok (seen ++ e1) TransitVRF222Str TransitVRF222PrefixStart backup
    (uint64 (NHBaseTransit + uint64 nh1)) (NumTransitNH p - nh1)
    (uint64 (NHGBaseTransit + uint64 nhg1)) (NumTransitNHG p - nhg1) s2 Hb (proj2 (proj2 start_constants))
    ltac:(lia) ltac:(lia)) as (e2 & w2 & E2 & O2 & W2 & K2 & G2); [rewrite omap_app, elem_of_app; by left|].
  rewrite E1. cbn [mbind outcome_bind]. rewrite E2. cbn [mbind outcome_bind].
  eexists _, _. split; [reflexivity|]. split; [by apply ordered_app|]. split.
  - apply Forall_app. split; (eapply Forall_impl; [done|]; intros w Hw; eapply Forall_impl; [exact Hw|]);
      intros pfx Ha; apply announces4_app; auto.
  - rewrite !omap_app, K1, K2, G1, G2.
    rewrite (proj2 (Z.eqb_neq nh1 0)), (proj2 (Z.eqb_neq nhg1 0)) by lia. done.
Qed.

(** ** Encapsulation VRFs *)

Definition encapPerVrf : Z := Z.max (Z.quot (NumEncapDefaultNHG p) (NumEncapVRFs p)) 1.

(** The groups made before the [vi]-th VRF; the last one takes the rest. *)
Definition encapOffset (vi : Z) : Z :=
  if vi =? NumEncapVRFs p then NumEncapDefaultNHG p else vi * encapPerVrf.

Lemma encapPerVrf_bounds :
  1 <= encapPerVrf /\ (NumEncapVRFs p - 1) * encapPerVrf + 1 <= NumEncapDefaultNHG p.
Proof.
  destruct (fatal_checks p (so_valid p Hok)) as (_ & _ & _ & HV & _).
  unfold encapPerVrf. rewrite Z.quot_div_nonneg by lia.
  pose proof (Z.div_mod (NumEncapDefaultNHG p) (NumEncapVRFs p) ltac:(lia)).
  pose proof (Z.mod_pos_bound (NumEncapDefaultNHG p) (NumEncapVRFs p) ltac:(lia)).
  assert (1 <= NumEncapDefaultNHG p / NumEncapVRFs p) by (apply Z.div_le_lower_bound; lia).
  rewrite Z.max_l by lia. split; [lia|]. nia.
Qed.

Definition encapNHBase : Z := uint64 (NHBaseEncap + 1).
Definition encapNHGBase : Z := uint64 (NHGBaseEncap + 1).

(** What holds before the [vi]-th VRF. *)
Record encap_inv (seen : list GRIBIEntry) (vi : Z) (st : EncapState) : Prop := {
  ei_ordered : ordered seen (e_entries st);
  ei_nh : nh_keys (e_entries st) = (ni, NHBaseEncap) :: ids ni encapNHBase (NumUniqueEncapNH p);
  ei_nhg : nhg_keys (e_entries st) = (ni, NHGBaseEncap) :: ids ni encapNHGBase (encapOffset vi);
  ei_offset : 0 <= e_nhOffset st;
  ei_want4 : wanted4 (e_entries st) (e_want4 st);
  ei_want6 : wanted6 (e_entries st) (e_want6 st)
}.

Lemma wanted4_app es l want : wanted4 es want -> wanted4 (es ++ l) want.
Proof.
  intros H. eapply Forall_impl; [exact H|]. intros w Hw. eapply Forall_impl; [exact Hw|].
  intros pfx Ha. apply announces4_app. by left.
Qed.

Lemma wanted6_app es l want : wanted6 es want -> wanted6 (es ++ l) want.
Proof.
  intros H. eapply Forall_impl; [exact H|]. intros w Hw. eapply Forall_impl; [exact Hw|].
  intros pfx (id & m & Ha). exists id, m. apply elem_of_app. by left.
Qed.

Lemma encapRoutes_ok mk seen vrf mask any nhgIdx off per hosts :
  (mk = IPv4Entry \/ mk = IPv6Entry) -> 0 < per -> 0 < Z.of_nat (length hosts) ->
  (forall k, 0 <= k < per -> (ni, uint64 (nhgIdx + uint64 (off + k))) ∈ nhg_keys seen) ->
  exists es a b, encapRoutes mk vrf ni mask any nhgIdx off per hosts = Ret (es, [a; b; any]) /\
    Forall (refs_ok seen) es /\ nh_keys es = [] /\ nhg_keys es = [] /\
    (exists id, mk (ipCallsFor vrf a id ni) ∈ es) /\ (exists id, mk (ipCallsFor vrf b id ni) ∈ es).
Proof.
  intros Hmk Hp Hl Hin. unfold encapRoutes.
  destruct (routes_ok mk seen vrf mask (fun k => uint64 (nhgIdx + uint64 (off + k))) per hosts Hmk Hp Hin)
    as (es & Ee & R & K & G & An).
  destruct (first_last hosts Hl) as (a & b & Ea & Eb & Ia & Ib).
  rewrite Ee. cbn [mbind outcome_bind]. rewrite Ea. cbn [mbind outcome_bind]. rewrite Eb. cbn [mbind outcome_bind].
  exists es, (cidr a mask), (cidr b mask). split_and!; try done; by apply An.
Qed.

(** Groups in the range after [off]. *)
Lemma ids_app base a b : 0 <= a -> 0 <= b ->
  ids ni base (a + b) = ids ni base a ++ ((fun i => (ni, uint64 (base + uint64 (a + i)))) <$> seqZ 0 b).
Proof.
  intros Ha Hb. unfold ids. rewrite seqZ_app, fmap_app by done. f_equal.
  replace (seqZ (0 + a) b) with (Z.add a <$> seqZ 0 b) by (rewrite fmap_add_seqZ; f_equal; lia).
  by rewrite <- list_fmap_compose.
Qed.

(** One VRF added: groups, routes, and the two fallback routes. *)
Lemma encap_extend seen vi st vrf gs r4 r6 a4 b4 a6 b6 per off' :
  encap_inv seen vi st -> encapOffset (vi + 1) = encapOffset vi + per -> 0 <= encapOffset vi -> 0 <= per -> 0 <= off' ->
  let cur := seen ++ e_entries st in
  Forall (refs_ok cur) gs -> nh_keys gs = [] ->
  nhg_keys gs = ((fun i => (ni, uint64 (encapNHGBase + uint64 (encapOffset vi + i)))) <$> seqZ 0 per) ->
  Forall (refs_ok (cur ++ gs)) r4 -> nh_keys r4 = [] -> nhg_keys r4 = [] ->
  (exists id, IPv4Entry (ipCallsFor vrf a4 id ni) ∈ r4) -> (exists id, IPv4Entry (ipCallsFor vrf b4 id ni) ∈ r4) ->
  Forall (refs_ok (cur ++ gs)) r6 -> nh_keys r6 = [] -> nhg_keys r6 = [] ->
  (exists id, IPv6Entry (ipCallsFor vrf a6 id ni) ∈ r6) -> (exists id, IPv6Entry (ipCallsFor vrf b6 id ni) ∈ r6) ->
  encap_inv seen (vi + 1)
    {| e_entries := e_entries st ++ gs ++ r4 ++ r6 ++
         [IPv4Entry (ipCallsFor vrf "0.0.0.0/0" NHGBaseEncap ni); IPv6Entry (ipCallsFor vrf "::/0" NHGBaseEncap ni)];
       e_want4 := e_want4 st ++ [(vrf, [a4; b4; "0.0.0.0/0"])];
       e_want6 := e_want6 st ++ [(vrf, [a6; b6; "::/0"])];
       e_nhOffset := off' |}.
Proof.
  intros [O K G Hoff W4 W6] Eo Po Pp Po' cur Rg Kg Gg R4 K4 G4 [i4 A4] [j4 B4] R6 K6 G6 [i6 A6] [j6 B6].
  set (fb := [IPv4Entry _; IPv6Entry _]).
  assert (Forall (refs_ok (cur ++ gs)) fb) as Rf.
  { assert ((ni, NHGBaseEncap) ∈ nhg_keys (cur ++ gs)) as Hin.
    { unfold cur. rewrite !omap_app, !elem_of_app, G. left; right. left. }
    repeat constructor; first [apply (refs_ok_ip IPv4Entry)|apply (refs_ok_ip IPv6Entry)]; auto. }
  split; cbn [e_entries e_want4 e_want6 e_nhOffset]; try done.
  - apply ordered_app. split; [done|]. apply ordered_app. split; [by apply ordered_Forall|].
    apply ordered_Forall. by rewrite !Forall_app.
  - rewrite !omap_app, K, Kg, K4, K6. apply app_nil_r.
  - rewrite !omap_app, G, Gg, G4, G6, Eo, ids_app by done. simpl. by rewrite !app_nil_r.
  - apply Forall_app. split; [by apply wanted4_app|].
    repeat constructor; [exists i4, ni|exists j4, ni|exists NHGBaseEncap, ni];
      rewrite !elem_of_app; auto. do 4 right. left.
  - apply Forall_app. split; [by apply wanted6_app|].
    repeat constructor; [exists i6, ni|exists j6, ni|exists NHGBaseEncap, ni];
      rewrite !elem_of_app; auto. do 4 right. right. left.
Qed.

Lemma encapVRF_ok seen vi vrf st : 0 <= vi < NumEncapVRFs p -> encap_inv seen vi st ->
  exists st', encapVRF ni p encapNHBase NHGBaseEncap encapNHGBase encapPerVrf st (vi, vrf) = Ret st' /\
    encap_inv seen (vi + 1) st'.
Proof.
  intros Hvi [O K G Hoff W4 W6]. pose proof encapPerVrf_bounds as [P1 P2].
  destruct (fatal_checks p (so_valid p Hok)) as (_ & (V1 & V2) & _ & HV & _).
  destruct (so_encap p Hok) as (B1 & B2 & B3 & B4).
  unfold encapVRF. set (off := vi * encapPerVrf).
  set (per := if vi =? NumEncapVRFs p - 1 then NumEncapDefaultNHG p - off else encapPerVrf).
  assert (0 < per /\ 0 <= off /\ encapOffset vi = off /\ encapOffset (vi + 1) = off + per) as (Pper & Poff & Eo & Eo').
  { unfold encapOffset. rewrite (proj2 (Z.eqb_neq vi _)) by lia. fold off. unfold per, off.
    destruct (Z.eqb_spec vi (NumEncapVRFs p - 1)), (Z.eqb_spec (vi + 1) (NumEncapVRFs p)); try lia; nia. }
  destruct (NewNHGBucketIterator_ok per (EncapNHGLoadBalance p) (EncapNHGWeight p) (NumUniqueEncapNH p))
    as (it & Hit & Hio & Hmax); [lia|lia|done|done|apply (so_typed p Hok)|].
  set (cur := seen ++ e_entries st).
  assert (forall i, starts_group cur ni (uint64 (encapNHGBase + uint64 (off + i)))
    [NHG_WithNetworkInstance ni; NHG_WithID (uint64 (encapNHGBase + uint64 (off + i)))]) as Hsg by (intros i; by split).
  destruct (groupLoop_ok _ _ _ _ encapNHBase (NumUniqueEncapNH p) (Z.to_nat per) 0 it (e_nhOffset st) Hsg)
    as (gs & off' & Eg & Ho' & Rg & Gg & Kg & _); [|done|done|done|].
  { intros k Hk. unfold cur. rewrite omap_app, elem_of_app, K. right. apply elem_of_cons. right. by apply ids_elem. }
  rewrite Z2Nat.id in Gg by lia.
  assert (forall k, 0 <= k < per -> (ni, uint64 (encapNHGBase + uint64 (off + k))) ∈ nhg_keys (cur ++ gs)) as Hin.
  { intros k Hk. rewrite omap_app, elem_of_app, Gg. right.
    by apply (range_key (fun j => (ni, uint64 (encapNHGBase + uint64 (off + j))))). }
  destruct (encap_ips vi (NumEncapIPv4PerVRF p)) as (h4 & E4 & L4); [lia|lia|].
  destruct (encap_ip6s vi (NumEncapIPv6PerVRF p)) as (h6 & E6 & L6); [lia|lia|].
  destruct (encapRoutes_ok IPv4Entry (cur ++ gs) vrf IPv4HostMask "0.0.0.0/0" encapNHGBase off per h4)
    as (r4 & a4 & b4 & Er4 & R4 & K4 & G4 & A4 & A4'); [by left|lia|lia|done|].
  destruct (encapRoutes_ok IPv6Entry (cur ++ gs) vrf IPv6HostMask "::/0" encapNHGBase off per h6)
    as (r6 & a6 & b6 & Er6 & R6 & K6 & G6 & A6 & A6'); [by right|lia|lia|done|].
  rewrite Hit. cbn [mbind outcome_bind]. rewrite Eg. cbn [mbind outcome_bind].
  rewrite E4. cbn [mbind outcome_bind]. rewrite Er4. cbn [mbind outcome_bind].
  rewrite E6. cbn [mbind outcome_bind]. rewrite Er6. cbn [mbind outcome_bind].
  eexists. split; [reflexivity|]. rewrite <- Eo in Gg, Eo'.
  apply encap_extend with (per := per); try done; try lia.
Qed.

Lemma foldM_indexed {S X} (I : Z -> S -> Prop) (body : S -> Z * X -> go S) (l : list X) : forall i s,
  (forall j x s, i <= j < i + Z.of_nat (length l) -> I j s -> exists s', body s (j, x) = Ret s' /\ I (j + 1) s') ->
  I i s -> exists s', foldM body s (zip (seqZ i (Z.of_nat (length l))) l) = Ret s' /\ I (i + Z.of_nat (length l)) s'.
Proof.
  induction l as [|x l IH]; intros i s Hstep Hi.
  { exists s. simpl. by rewrite Z.add_0_r. }
  destruct (Hstep i x s) as (s1 & E1 & I1); [simpl; lia|done|].
  destruct (IH (i + 1) s1) as (s2 & E2 & I2); [|done|].
  { intros j y t Hj Ht. apply Hstep; [simpl; lia|done]. }
  exists s2. rewrite seqZ_cons by (simpl; lia). cbn [zip zip_with foldM]. rewrite E1. cbn [mbind outcome_bind].
  replace (Z.pred (Z.of_nat (length (x :: l)))) with (Z.of_nat (length l)) by (simpl; lia).
  split; [exact E2|]. by replace (i + Z.of_nat (length (x :: l))) with (i + 1 + Z.of_nat (length l)) by (simpl; lia).
Qed.

(** ** Decapsulation VRF *)

Lemma decapEntry_ok i : 0 <= i -> exists cs pfx, let nhgIdx := uint64 (NHGBaseDecap + uint64 i) in
  let nhg := nhgEntry fib order nhgIdx [(uint64 (NHBaseDecap + uint64 i), 1)] ni [] in
  let es := [NextHopEntry cs; nhg; IPv4Entry (ipCallsFor DecapVRFStr pfx nhgIdx ni)] in
  decapEntry fib order ni i = Ret (es, pfx) /\ (forall seen, ordered seen es) /\
  nh_keys es = [(ni, uint64 (NHBaseDecap + uint64 i))] /\ nhg_keys es = [(ni, nhgIdx)].
Proof.
  intros Hi. unfold decapEntry.
  destruct (goRem_pos i (Z.of_nat (length decapPrefixLens))) as (m & Em & Bm); [done|done|].
  destruct (index_total decapPrefixLens m Bm) as (len & El & _).
  destruct (nhEntry_ok fib (uint64 (NHBaseDecap + uint64 i)) "Decap" ni []) as (cs & Ec & K); [constructor|].
  rewrite Em. cbn [mbind outcome_bind]. rewrite El. cbn [mbind outcome_bind]. rewrite Ec. cbn [mbind outcome_bind].
  pose proof (fun seen => nh_nhg_pair seen cs _ (uint64 (NHGBaseDecap + uint64 i)) [] K
    ltac:(by intros b ?%elem_of_nil)) as P.
  cbv beta zeta in P. change (backupOption <$> []) with (@nil (option NHGOptions)) in P.
  destruct (P []) as (_ & G & N).
  eexists cs, _. split; [reflexivity|]. split; [|by rewrite !omap_cons_eq, K, G, N].
  intros seen. apply (ordered_app _ [_; _]). split; [apply P|]. split; [|done].
  apply (refs_ok_ip IPv4Entry); [by left|]. rewrite omap_app, elem_of_app, !omap_cons_eq, G. right. simpl. left.
Qed.

Lemma decaps_ok n : exists ds, mapM (decapEntry fib order ni) (seqZ 0 n) = Ret ds /\
  (forall seen, ordered seen (mjoin (fst <$> ds))) /\
  nh_keys (mjoin (fst <$> ds)) = ids ni NHBaseDecap n /\ nhg_keys (mjoin (fst <$> ds)) = ids ni NHGBaseDecap n /\
  forall d, d ∈ ds -> announces4 (mjoin (fst <$> ds)) DecapVRFStr d.2.
Proof.
  unfold ids.
  assert (Forall (fun i => 0 <= i) (seqZ 0 n)) as Hpos.
  { apply Forall_forall. intros i Hi%elem_of_seqZ. lia. }
  induction Hpos as [|i l Hi _ (ds & Ed & Od & Kd & Gd & Ad)].
  { exists []. split_and!; try done. by intros d ?%elem_of_nil. }
  destruct (decapEntry_ok i Hi) as (cs & pfx & Ee & Oe & Ke & Ge).
  set (es := [NextHopEntry cs; _; _]) in *.
  exists ((es, pfx) :: ds). cbn [mapM]. rewrite Ee. cbn [mbind outcome_bind]. rewrite Ed. cbn [mbind outcome_bind].
  split; [done|]. rewrite fmap_cons. change (mjoin ((es, pfx).1 :: (fst <$> ds))) with (es ++ mjoin (fst <$> ds)).
  rewrite !omap_app, Ke, Ge, Kd, Gd. split; [intros seen; by apply ordered_app|]. split; [done|]. split; [done|].
  intros d [->|Hd]%elem_of_cons; apply announces4_app; [left|right; by apply Ad].
  exists (uint64 (NHGBaseDecap + uint64 i)), ni. right. right. left.
Qed.

(** ** All of them *)

Lemma encapNHs_ok : exists es dsts,
  fatal (GenerateIPsWithStep TransitVRF111PrefixStart (Z.min (NumUniqueEncapNH p) (NumTransitIPv4 p)) CommonPrefixStep)
    = Ret dsts /\
  mapM (fun i =>
    k ← goRem i (Z.min (NumUniqueEncapNH p) (NumTransitIPv4 p));
    dst ← index dsts k;
    nhEntry fib (uint64 (encapNHBase + uint64 i)) "Encap" ni [tunnelOption IPv4OuterSrc111 dst TransitVRF111Str])
    (seqZ 0 (NumUniqueEncapNH p)) = Ret es /\
  nh_keys es = ids ni encapNHBase (NumUniqueEncapNH p) /\ nhg_keys es = [] /\ forall seen, Forall (refs_ok seen) es.
Proof.
  destruct (so_encap p Hok) as (_ & B & _). destruct (so_transit p Hok) as (_ & _ & T).
  destruct (host_ips TransitVRF111PrefixStart (Z.min (NumUniqueEncapNH p) (NumTransitIPv4 p)))
    as (dsts & Ed & Ld); [apply start_constants|lia|].
  destruct (nh_range (fun i =>
    k ← goRem i (Z.min (NumUniqueEncapNH p) (NumTransitIPv4 p));
    dst ← index dsts k;
    nhEntry fib (uint64 (encapNHBase + uint64 i)) "Encap" ni [tunnelOption IPv4OuterSrc111 dst TransitVRF111Str])
    (fun i => (ni, uint64 (encapNHBase + uint64 i))) (seqZ 0 (NumUniqueEncapNH p))) as (es & Ee & K & G & R & _).
  { intros i Hi%elem_of_seqZ.
    destruct (goRem_pos i (Z.min (NumUniqueEncapNH p) (NumTransitIPv4 p))) as (k & Ek & Bk); [lia|lia|].
    destruct (index_total dsts k) as (dst & Ex & _); [lia|].
    rewrite Ek. cbn [mbind outcome_bind]. rewrite Ex. cbn [mbind outcome_bind].
    apply nhEntry_ok. by repeat constructor. }
  exists es, dsts. by split_and!.
Qed.

Lemma length_BuildEncapVRFs n : 0 <= n -> Z.of_nat (length (BuildEncapVRFs n)) = n.
Proof. intros Hn. unfold BuildEncapVRFs. rewrite length_fmap, length_seqZ. lia. Qed.

Lemma encapDecap_ok seen : exists st, BuildEncapDecapVRFs_entries fib order ni p = Ret st /\
  ordered seen (e_entries st) /\ wanted4 (e_entries st) (e_want4 st) /\ wanted6 (e_entries st) (e_want6 st) /\
  nh_keys (e_entries st) = (ni, NHBaseEncap) :: ids ni encapNHBase (NumUniqueEncapNH p) ++ ids ni NHBaseDecap (NumDecapEntries p) /\
  nhg_keys (e_entries st) = (ni, NHGBaseEncap) :: ids ni encapNHGBase (NumEncapDefaultNHG p) ++ ids ni NHGBaseDecap (NumDecapEntries p).
Proof.
  destruct (fatal_checks p (so_valid p Hok)) as (_ & _ & _ & HV & HD & _).
  destruct encapNHs_ok as (nhs & dsts & Ed & En & Kn & Gn & Rn).
  destruct (nhEntry_ok fib NHBaseEncap "VRFOnly" ni [vrfOption ni]) as (cf & Ef & Kf); [by repeat constructor|].
  set (fnhg := nhgEntry fib order NHGBaseEncap [(NHBaseEncap, 1)] ni []).
  set (st0 := {| e_entries := NextHopEntry cf :: nhs ++ [fnhg]; e_want4 := []; e_want6 := []; e_nhOffset := 0 |}).
  destruct (nhgEntry_ok fib order (seen ++ NextHopEntry cf :: nhs) NHGBaseEncap [(NHBaseEncap, 1)] ni [] (Horder _))
    as (R & G & N); [|by intros b ?%elem_of_nil|].
  { intros i w [= -> ->]%list_elem_of_singleton. rewrite omap_app, elem_of_app, omap_cons_eq, Kf. right. left. }
  change (backupOption <$> []) with (@nil (option NHGOptions)) in R, G, N. fold fnhg in R, G, N.
  assert (encap_inv seen 0 st0) as I0.
  { split; cbn [e_entries e_want4 e_want6 e_nhOffset st0]; try done; try by constructor.
    - apply (ordered_app _ (NextHopEntry cf :: nhs)). split; [|by split].
      apply ordered_Forall. constructor; [apply refs_ok_nh|done].
    - rewrite omap_cons_eq, Kf, omap_app, Kn, omap_cons_eq, N. by rewrite app_nil_r.
    - rewrite omap_cons_eq, omap_app, Gn, omap_cons_eq, G. unfold encapOffset.
      rewrite (proj2 (Z.eqb_neq 0 _)) by lia. done. }
  destruct (foldM_indexed (encap_inv seen)
    (encapVRF ni p encapNHBase NHGBaseEncap encapNHGBase encapPerVrf) (BuildEncapVRFs (NumEncapVRFs p)) 0 st0)
    as (st & Es & [Oe Ke Ge He W4 W6]); [|done|].
  { intros j x t Hj Ht. rewrite length_BuildEncapVRFs in Hj by lia. apply encapVRF_ok; [lia|done]. }
  rewrite length_BuildEncapVRFs in Ge by lia. unfold encapOffset in Ge. rewrite Z.add_0_l, Z.eqb_refl in Ge.
  destruct (decaps_ok (NumDecapEntries p)) as (ds & Eds & Od & Kd & Gd & Ad).
  unfold BuildEncapDecapVRFs_entries. rewrite Ed. cbn [mbind outcome_bind]. rewrite Ef. cbn [mbind outcome_bind].
  fold encapNHBase encapNHGBase fnhg. rewrite En. cbn [mbind outcome_bind].
  unfold goQuot. rewrite (proj2 (Z.eqb_neq (NumEncapVRFs p) 0)) by lia. cbn [mbind outcome_bind].
  fold encapPerVrf st0. rewrite Es. cbn [mbind outcome_bind]. rewrite Eds. cbn [mbind outcome_bind].
  eexists. split; [reflexivity|]. cbn [e_entries e_want4 e_want6].
  split; [by apply ordered_app|]. split; [|split; [by apply wanted6_app|by rewrite !omap_app, Ke, Ge, Kd, Gd]].
  apply Forall_app. split; [by apply wanted4_app|].
  set (wanted := _ <$> filter _ _).
  assert (Forall (announces4 (e_entries st ++ mjoin (fst <$> ds)) DecapVRFStr) wanted) as Hw.
  { apply Forall_fmap, Forall_forall. intros [i d] [_ Hin]%list_elem_of_filter.
    apply announces4_app. right. apply Ad. apply list_elem_of_lookup in Hin as [m Hm].
    apply lookup_zip_with_Some in Hm as (? & ? & [= <- <-] & _ & Hd). by eapply list_elem_of_lookup_2. }
  destruct wanted; [constructor|]. by constructor.
Qed.
End OtherVRFs.

(** ** The whole program *)

Section Program.
Context (fib : Z) (order : list (Z * Z) -> list (Z * Z)).

(** The entries of the five builders, in the order in which [RunFullScaleTest]
    calls them. *)
Record Program := {
  pr_default : DefaultVRF;
  pr_static : list GRIBIEntry;
  pr_repair : list GRIBIEntry * list (string * list string);
  pr_transit : list GRIBIEntry * list (string * list string);
  pr_encap : EncapState
}.

Definition build (single : bool) (ni : string) (p : ScaleParams) : go Program :=
  d ← BuildDefaultVRF_entries ni p;
  s ← BuildStaticGroups_entries fib order ni;
  r ← BuildRepairVRF_entries fib order single ni StaticS2NHG p;
  t ← BuildTransitVRFs_entries ni (primaryPrefixes d) (backupPrefixes d) StaticS1NHG StaticS2NHG p;
  e ← BuildEncapDecapVRFs_entries fib order ni p;
  Ret {| pr_default := d; pr_static := s; pr_repair := r; pr_transit := t; pr_encap := e |}.

Definition program_entries (pr : Program) : list GRIBIEntry :=
  d_entries (pr_default pr) ++ pr_static pr ++ fst (pr_repair pr) ++ fst (pr_transit pr) ++ e_entries (pr_encap pr).

Context (Horder : forall l, order l ≡ₚ l).

(** Everything the builders give, in one place. *)
Lemma build_ok single ni p : scale_ok p -> exists pr hosts, build single ni p = Ret pr /\
  default_result ni p (pr_default pr) hosts /\
  ordered [] (program_entries pr) /\
  wanted4 (fst (pr_repair pr)) (snd (pr_repair pr)) /\ wanted4 (fst (pr_transit pr)) (snd (pr_transit pr)) /\
  wanted4 (e_entries (pr_encap pr)) (e_want4 (pr_encap pr)) /\
  wanted6 (e_entries (pr_encap pr)) (e_want6 (pr_encap pr)) /\
  nh_keys (program_entries pr) = nh_keys (d_entries (pr_default pr)) ++ [(ni, StaticS1NHG); (ni, StaticS2NHG)] ++
    ((fun j => (ni, uint64 (NHBaseRepair + j))) <$> seqZ 0 (repair_hops p single (NumRepairNHG p))) ++
    nh_keys (fst (pr_transit pr)) ++
    (ni, NHBaseEncap) :: ids ni encapNHBase (NumUniqueEncapNH p) ++ ids ni NHBaseDecap (NumDecapEntries p) /\
  nhg_keys (program_entries pr) = nhg_keys (d_entries (pr_default pr)) ++ [(ni, StaticS1NHG); (ni, StaticS2NHG)] ++
    ids ni NHGBaseRepair (NumRepairNHG p) ++ nhg_keys (fst (pr_transit pr)) ++
    (ni, NHGBaseEncap) :: ids ni encapNHGBase (NumEncapDefaultNHG p) ++ ids ni NHGBaseDecap (NumDecapEntries p) /\
  let '(nh1, nh2) := transit_halves (NumTransitNH p) in
  let '(nhg1, nhg2) := transit_halves (NumTransitNHG p) in
  let z := (nh2 =? 0) || (nhg2 =? 0) in
  nh_keys (fst (pr_transit pr)) = ids ni (uint64 NHBaseTransit) nh1 ++
    (if z then [] else ids ni (uint64 (NHBaseTransit + uint64 nh1)) nh2) /\
  nhg_keys (fst (pr_transit pr)) = ids ni (uint64 NHGBaseTransit) nhg1 ++
    (if z then [] else ids ni (uint64 (NHGBaseTransit + uint64 nhg1)) nhg2).
Proof.
  intros Hok.
  destruct (default_ok ni p Hok) as (d & hosts & Ed & Dr).
  destruct (static_ok fib order Horder ni) as (s & Es & Os & Ks & Gs).
  assert ((ni, StaticS1NHG) ∈ nhg_keys (d_entries d ++ s) /\ (ni, StaticS2NHG) ∈ nhg_keys (d_entries d ++ s)) as [S1 S2].
  { rewrite omap_app, !elem_of_app, Gs. split; right; [left|right; left]. }
  destruct (repair_ok fib order Horder ni p Hok single StaticS2NHG (d_entries d ++ s) S2)
    as (r & wr & Er & Or & Gr & Kr & Wr).
  destruct (transit_ok ni p Hok ((d_entries d ++ s) ++ r) (primaryPrefixes d) (backupPrefixes d)
    StaticS1NHG StaticS2NHG (dr_primary _ _ _ _ Dr) (dr_backup _ _ _ _ Dr)) as (t & wt & Et & Ot & Wt & Kt);
    [rewrite omap_app, elem_of_app; by left..|].
  destruct (encapDecap_ok fib order Horder ni p Hok (((d_entries d ++ s) ++ r) ++ t)) as (e & Ee & Oe & W4 & W6 & Ke & Ge).
  unfold build. rewrite Ed. cbn [mbind outcome_bind]. rewrite Es. cbn [mbind outcome_bind].
  rewrite Er. cbn [mbind outcome_bind]. rewrite Et. cbn [mbind outcome_bind]. rewrite Ee. cbn [mbind outcome_bind].
  eexists _, hosts. split; [reflexivity|]. unfold program_entries.
  cbn [pr_default pr_static pr_repair pr_transit pr_encap fst snd].
  split; [done|]. split.
  { rewrite !ordered_app. split; [apply (dr_ordered _ _ _ _ Dr)|]. split; [apply Os|].
    split; [exact Or|]. split; [exact Ot|exact Oe]. }
  split_and!; try done.
  - by rewrite !omap_app, Ks, Kr, Ke.
  - by rewrite !omap_app, Gs, Gr, Ge.
Qed.

(** C5: for parameters that pass the validation, have granularities of 64 bits,
    at least one prefix, group and next hop of each kind, and address lists of at
    most 2^20 entries, all builders return, and in the order in which they are
    called every next-hop group comes after its next hops and its backup group,
    and every prefix after its group, wrap-around of identifiers included. *)
Theorem program_dependency_order single ni p (Hok : scale_ok p) :
  exists pr, build single ni p = Ret pr /\ ordered [] (program_entries pr).
Proof. destruct (build_ok single ni p Hok) as (pr & hosts & E & _ & O & _). eauto. Qed.

(** ** Identifiers *)

(** Counts that keep the ranges of the builders apart. *)
Record ids_fit (p : ScaleParams) : Prop := {
  fit_defaultNH : NumDefaultNH p <= 8000;
  fit_defaultNHG : NumDefaultNHG p <= 7000;
  fit_transitNH : NumTransitNH p <= 20000;
  fit_transitNHG : NumTransitNHG p <= 12000;
  fit_repairNHG : NumRepairNHG p <= 10000;
  fit_encapNH : NumUniqueEncapNH p < 70000;
  fit_encapNHG : NumEncapDefaultNHG p < 38100;
  fit_decap : NumDecapEntries p <= 2 ^ 32
}.

Lemma halves_range n lim : n <= lim -> 2 <= lim -> 2 <= 2 * Z.max (Z.quot n 2) 1 <= lim.
Proof.
  intros Hn Hl. destruct (decide (0 <= n)) as [H|H].
  - rewrite Z.quot_div_nonneg by lia. pose proof (Z.mul_div_le n 2 ltac:(lia)). lia.
  - assert (Z.quot n 2 <= 0).
    { rewrite <- (Z.opp_involutive n), Z.quot_opp_l by lia.
      pose proof (Z.quot_pos (- n) 2 ltac:(lia) ltac:(lia)). lia. }
    lia.
Qed.

Lemma NoDup_ranges (l k : list Z) : NoDup l -> NoDup k -> (forall x, x ∈ l -> x ∈ k -> False) -> NoDup (l ++ k).
Proof. intros Hl Hk Hd. apply NoDup_app. split_and!; [done|eauto|done]. Qed.

Lemma NoDup_keys (ni : string) (l : list Z) : NoDup l -> NoDup (pair ni <$> l).
Proof. apply NoDup_fmap_2. by intros x y [= ->]. Qed.

(** Lists of ranges and single identifiers that lie apart. *)
Ltac ranges_apart :=
  repeat match goal with
  | |- NoDup (_ ++ _) => apply NoDup_ranges
  | |- NoDup (_ :: _) => apply NoDup_cons; split
  | |- NoDup (if ?z then _ else _) => destruct z
  | |- NoDup (seqZ _ _) => apply NoDup_seqZ
  | |- NoDup [] => apply NoDup_nil_2
  | |- forall x, x ∈ _ -> x ∈ _ -> False => intros x
  | |- _ ∉ _ => intros ?
  end;
  repeat match goal with
  | |- context [if ?z then _ else _] => destruct z
  | H : context [if ?z then _ else _] |- _ => destruct z
  end;
  repeat match goal with
  | H : context [_ ∈ _ ] |- _ => revert H
  end;
  repeat first [rewrite elem_of_app | rewrite elem_of_cons | rewrite elem_of_nil | rewrite elem_of_seqZ]; lia.

(** The identifiers of the program as ranges of integers. *)
Definition nh_ranges (single : bool) (p : ScaleParams) : list Z :=
  let a := Z.max (Z.quot (NumDefaultNH p) 2) 1 in
  let '(c1, c2) := transit_halves (NumTransitNH p) in
  let '(_, d2) := transit_halves (NumTransitNHG p) in
  (seqZ 1000 a ++ seqZ (1000 + a) a) ++ [9001; 9002] ++ seqZ 30000 (repair_hops p single (NumRepairNHG p)) ++
  (seqZ 10000 c1 ++ (if (c2 =? 0) || (d2 =? 0) then [] else seqZ (10000 + c1) c2)) ++
  50000 :: seqZ 50001 (NumUniqueEncapNH p) ++ seqZ 120000 (NumDecapEntries p).

Definition nhg_ranges (p : ScaleParams) : list Z :=
  let b := Z.max (Z.quot (NumDefaultNHG p) 2) 1 in
  let '(_, c2) := transit_halves (NumTransitNH p) in
  let '(d1, d2) := transit_halves (NumTransitNHG p) in
  (seqZ 2000 b ++ seqZ (2000 + b) b) ++ [9001; 9002] ++ seqZ 32000 (NumRepairNHG p) ++
  (seqZ 20000 d1 ++ (if (c2 =? 0) || (d2 =? 0) then [] else seqZ (20000 + d1) d2)) ++
  82000 :: seqZ 82001 (NumEncapDefaultNHG p) ++ seqZ 120100 (NumDecapEntries p).

Lemma fmap_if {A B} (f : A -> B) (z : bool) l : (if z then [] else f <$> l) = f <$> (if z then [] else l).
Proof. by destruct z. Qed.

Lemma repair_hops_bound single p : 1 <= NumRepairNHG p <= 10000 ->
  0 <= repair_hops p single (NumRepairNHG p) <= 20000.
Proof.
  intros R. unfold repair_hops. rewrite Z.quot_div_nonneg by lia. pose proof (Z.div_pos (NumRepairNHG p) 2).
  destruct single; lia.
Qed.

Lemma ids_nat ni base n : 0 <= base -> base + n <= 2 ^ 64 ->
  (fun j => (ni, uint64 (base + j))) <$> seqZ 0 n = @pair string Z ni <$> seqZ base n.
Proof.
  intros Hb Hn. replace (seqZ base n) with (Z.add base <$> seqZ 0 n) by (rewrite fmap_add_seqZ; f_equal; lia).
  rewrite <- list_fmap_compose. apply list_fmap_ext. intros i x Hx. apply lookup_seqZ in Hx as [-> Hx]. simpl.
  by rewrite uint64_small by lia.
Qed.

Lemma program_ids single ni p : scale_ok p -> ids_fit p -> exists pr, build single ni p = Ret pr /\
  nh_keys (program_entries pr) = pair ni <$> nh_ranges single p /\
  nhg_keys (program_entries pr) = pair ni <$> nhg_ranges p.
Proof.
  intros Hok Hfit. destruct (build_ok single ni p Hok) as (pr & hosts & E & Dr & _ & _ & _ & _ & _ & K & G & KG).
  exists pr. split; [done|]. destruct Hfit.
  destruct (so_transit p Hok) as (T1 & T2 & _), (so_repair p Hok) as (R1 & _), (so_encap p Hok) as (_ & U & _).
  destruct (fatal_checks p (so_valid p Hok)) as (_ & _ & _ & V & D & _).
  pose proof (halves_range (NumDefaultNH p) 8000 ltac:(lia) ltac:(lia)) as H1.
  pose proof (halves_range (NumDefaultNHG p) 7000 ltac:(lia) ltac:(lia)) as H2.
  pose proof (half_bounds (NumTransitNH p) T1) as (H3 & _). pose proof (half_bounds (NumTransitNHG p) T2) as (H4 & _).
  pose proof (repair_hops_bound single p ltac:(lia)) as HR.
  unfold nh_ranges, nhg_ranges. unfold transit_halves in KG |- *. destruct KG as [KT GT].
  rewrite K, G, (dr_nh _ _ _ _ Dr), (dr_nhg _ _ _ _ Dr), KT, GT.
  unfold NHBaseDefault, NHGBaseDefault, StaticS1NHG, StaticS2NHG, NHBaseTransit, NHGBaseTransit, NHBaseRepair,
    NHGBaseRepair, NHBaseEncap, NHGBaseEncap, NHBaseDecap, NHGBaseDecap, encapNHBase, encapNHGBase in *.
  set (a := Z.max (Z.quot (NumDefaultNH p) 2) 1) in *. set (b := Z.max (Z.quot (NumDefaultNHG p) 2) 1) in *.
  set (c := Z.max (Z.quot (NumTransitNH p) 2) 1) in *. set (d := Z.max (Z.quot (NumTransitNHG p) 2) 1) in *.
  unfold NHBaseEncap, NHGBaseEncap. rewrite ids_nat by lia.
  rewrite (uint64_small a), (uint64_small b), (uint64_small c), (uint64_small d) by lia.
  rewrite !uint64_small by lia. rewrite !ids_small by lia. rewrite !fmap_if.
  split; by rewrite !fmap_app, !fmap_cons, ?fmap_app.
Qed.

(** when the counts stay within the gaps between the base constants, no
    next-hop index and no next-hop group identifier is used twice in the whole
    program: the ranges of the five builders do not overlap. *)
Theorem program_ids_distinct single ni p (Hok : scale_ok p) (Hfit : ids_fit p) :
  exists pr, build single ni p = Ret pr /\
    NoDup (nh_keys (program_entries pr)) /\ NoDup (nhg_keys (program_entries pr)).
Proof.
  destruct (program_ids single ni p Hok Hfit) as (pr & E & K & G). exists pr. rewrite K, G. destruct Hfit.
  destruct (so_transit p Hok) as (T1 & T2 & _), (so_repair p Hok) as (R1 & _).
  pose proof (halves_range (NumDefaultNH p) 8000 ltac:(lia) ltac:(lia)) as H1.
  pose proof (halves_range (NumDefaultNHG p) 7000 ltac:(lia) ltac:(lia)) as H2.
  pose proof (half_bounds (NumTransitNH p) T1) as (H3 & _). pose proof (half_bounds (NumTransitNHG p) T2) as (H4 & _).
  pose proof (repair_hops_bound single p ltac:(lia)) as HR.
  split; [done|]. split; apply NoDup_keys; unfold nh_ranges, nhg_ranges, transit_halves; ranges_apart.
Qed.
End Program.
