(* ===== verification/GribiRun.v ===== *)
(** * Running the full scale program

    The program of [GribiScale] against a device that keeps the promises of the
    gRIBI specification.  The device, the client library and the test are
    parameters; [ProgrammingDevice] states what is promised: sessions, elections,
    acknowledgements of entries whose references are known, persistence and the AFT.
    The program runs to the end, programs exactly the entries of the builders and
    reports no error; with an odd number of default prefixes it stops at a check for
    a prefix it never sent. *)
From stdpp Require Import base list gmap strings.
From Stdlib Require Import ZArith Lia.
From S2P Require Import Prelude.
From S2P Require Import GoStrings.
From S2P Require Import IPUtil.
From S2P Require Import Gribi.
From S2P Require Import NhgBuckets.
From S2P Require Import GribiScale.
From S2P Require Import GribiRefs.
From S2P Require Import GribiProgram.
Local Open Scope Z_scope.

(** ** Batches *)

Lemma chunks_concat {A} size fuel (l : list A) : (0 < size)%nat -> (length l <= fuel)%nat ->
  mjoin (chunks size fuel l) = l.
Proof.
  intros Hs. revert l. induction fuel as [|fuel IH]; intros [|x l] Hl; try done; [simpl in Hl; lia|].
  cbn [chunks]. change (mjoin (?a :: ?b)) with (a ++ mjoin b).
  rewrite IH; [apply take_drop|]. rewrite length_drop. simpl in *. lia.
Qed.

Lemma chunks_small {A} size fuel (l : list A) :
  Forall (fun c => (length c <= size)%nat) (chunks size fuel l).
Proof.
  revert l. induction fuel as [|fuel IH]; intros [|x l]; cbn [chunks]; constructor; auto.
  rewrite length_take. lia.
Qed.

Lemma batches_concat {A} size (l : list A) : mjoin (batches size l) = l.
Proof.
  unfold batches. apply chunks_concat; [|lia]. unfold DefaultGRIBIBatchSize. destruct (Z.leb_spec size 0); lia.
Qed.

(** ** What a device promises *)

Definition ip_prefix (cs : list IPCall) : option string :=
  last_of (fun c => match c with IP_WithPrefix p => Some p | _ => None end) cs.

(** A prefix among the IPv4 entries of a network instance. *)
Definition present4 (es : list GRIBIEntry) (vrf pfx : string) : Prop :=
  exists cs, IPv4Entry cs ∈ es /\ ip_NI cs = Some vrf /\ ip_prefix cs = Some pfx.

(** The options of a result that says an operation is added and in the FIB; their
    order does not matter. *)
Definition asks {E F} `{!Fluent E F} (calls : list OpCall) (op : OpCall) : Prop :=
  calls ≡ₚ [Op_WithOperationType OpAdd; Op_WithProgrammingResult InstalledInFIB; op].

(** An operation on a prefix. *)
Definition prefix_op (op : OpCall) : Prop :=
  match op with Op_WithIPv4Operation p | Op_WithIPv6Operation p => p <> "" | _ => False end.

(** The connection of a persistent client of a single primary that asks for
    acknowledgements of the FIB. *)
Definition persistent_connection (id : Uint128) : list ConnCall :=
  [Conn_WithStub; Conn_WithElectedPrimaryClient; Conn_WithInitialElectionID (Low id) (High id);
   Conn_WithPersistence; Conn_WithFIBACK].

(** [serving e]: the device answers within the timeouts of the client.
    [programmed e]: the operations it has accepted, oldest first.
    [room es]: it has the network instances and the resources for these operations.
    [session h id es e]: the client [h] is connected, has announced the election
    identifier [id] last, has sent the entries [es] and has all answers.
    [reported e]: the calls of [t.Errorf] so far. *)
Class ProgrammingDevice (E F : Type) `{!Fluent E F} `{!ElectionServer E F} `{!TestEnv E} := {
  serving : E -> Prop;
  programmed : E -> list GRIBIEntry;
  room : list GRIBIEntry -> Prop;
  session : option F -> Uint128 -> list GRIBIEntry -> E -> Prop;
  reported : E -> nat;
  serving_ok : forall e, serving e -> u128_ok (serverElectionID e);
  session_connected : forall h id es e, session h id es e -> connected h e;
  session_serving : forall h id es e, session h id es e -> serving e;
  room_app : forall es es', room (es ++ es') -> room es;
  (* a new client connects; its identifier takes part in the election *)
  session_start : forall id e, serving e -> u128_ok id -> exists h e1 e2 e3 e4 e5,
    NewClient e = (Ret h, e1) /\ ConnectionConfig (Some h) (persistent_connection id) e1 = (Ret tt, e2) /\
    fluent_Start (Some h) e2 = (Ret tt, e3) /\ fluent_StartSending (Some h) e3 = (Ret tt, e4) /\
    fluent_Await (Some h) e4 = (Ret tt, e5) /\ session (Some h) id [] e5 /\
    programmed e5 = programmed e /\ reported e5 = reported e /\
    u128 (serverElectionID e5) = Z.max (u128 (serverElectionID e)) (u128 id);
  (* an election update is answered and programs nothing *)
  session_update : forall h id es id' e e1 e2, session h id es e -> u128_ok id' ->
    Modify_UpdateElectionID h (Low id') (High id') e = (Ret tt, e1) -> fluent_Await h e1 = (Ret tt, e2) ->
    session h id' es e2 /\ programmed e2 = programmed e /\ reported e2 = reported e;
  (* the primary's entries are accepted when they refer to entries that are there *)
  session_add : forall h es new e, session h (serverElectionID e) es e -> ordered (programmed e) new ->
    room (programmed e ++ new) -> exists e1 e2,
    Modify_AddEntry h new e = (Ret tt, e1) /\ fluent_Await h e1 = (Ret tt, e2) /\
    session h (serverElectionID e2) (es ++ new) e2 /\ programmed e2 = programmed e ++ new /\
    reported e2 = reported e /\ serverElectionID e2 = serverElectionID e;
  (* the results of a session whose entries were accepted: no failure, and the
     checker finds an acknowledgement of exactly the prefixes that were sent *)
  session_results : forall h id es e, session h id es e -> exists rs, Results h e = (Ret rs, e) /\
    Forall (fun r => isFailure r = false) rs /\
    forall wants : list (list OpCall * OpCall), Forall (fun w => asks w.1 w.2) wants ->
      (Forall (fun w => Some w.2 ∈ operation_of <$> es) wants -> HasResultsCache rs (AsResult <$> wants.*1) = true) /\
      (HasResultsCache rs (AsResult <$> wants.*1) = true ->
       Forall (fun w => prefix_op w.2 -> Some w.2 ∈ operation_of <$> es) wants);
  (* the AFT of a prefix that was accepted names a group *)
  aft_read : forall h id es e vrf pfx, session h id es e -> present4 (programmed e) vrf pfx ->
    exists n, aft_NextHopGroup vrf pfx e = (Ret n, e) /\ n <> 0;
  (* entries of a persistent client stay when it disconnects *)
  session_stop : forall h id es e, session h id es e -> exists e', fluent_Stop h e = (Ret tt, e') /\ serving e' /\
    programmed e' = programmed e /\ reported e' = reported e /\ serverElectionID e' = serverElectionID e
}.

(** ** Sessions *)

Section Sessions.
Context {E F : Type} `{FL : !Fluent E F} `{ES : !ElectionServer E F} `{TE : !TestEnv E}.
Context `{PD : !ProgrammingDevice E F}.

(** From [e] to [e'] the entries [es] were accepted, no error was reported and at
    most one election was won. *)
Record sent (e : E) (es : list GRIBIEntry) (e' : E) : Prop := {
  sent_programmed : programmed e' = programmed e ++ es;
  sent_reported : reported e' = reported e;
  sent_id : u128 (serverElectionID e') <= Z.max (u128 (serverElectionID e)) 1 + 1 }.

Lemma election_step h id es id' e : session h id es e -> u128_ok id' -> exists e1 e2 rs r,
  Modify_UpdateElectionID h (Low id') (High id') e = (Ret tt, e1) /\ fluent_Await h e1 = (Ret tt, e2) /\
  Results h e2 = (Ret (rs ++ [r]), e2) /\ CurrentServerElectionID r = Some (serverElectionID e2) /\
  u128 (serverElectionID e2) = Z.max (u128 (serverElectionID e)) (u128 id') /\
  session h id' es e2 /\ programmed e2 = programmed e /\ reported e2 = reported e.
Proof.
  intros Hs Hid. destruct (update_election h id' e (session_connected _ _ _ _ Hs) Hid)
    as (e1 & e2 & rs & r & H1 & H2 & H3 & H4 & H5 & _).
  destruct (session_update _ _ _ _ _ _ _ Hs Hid H1 H2) as (S & P & R). eauto 20.
Qed.

Lemma BecomeLeader_session h id es e : session h id es e -> u128 (serverElectionID e) < 2 ^ 128 - 1 ->
  exists e', BecomeLeader h e = (Ret (serverElectionID e'), e') /\ session h (serverElectionID e') es e' /\ sent e [] e'.
Proof.
  intros Hs Hmax.
  destruct (election_step _ _ _ {| Low := 1; High := 0 |} _ Hs ltac:(split; simpl; lia))
    as (e1 & e2 & rs & r & H1 & H2 & H3 & H4 & H5 & S2 & P2 & R2).
  pose proof (connected_ok _ _ (session_connected _ _ _ _ S2)) as Ok2. pose proof (u128_range _ Ok2).
  change (u128 {| Low := 1; High := 0 |}) with 1 in H5.
  destruct (Increment_value _ Ok2) as [Ok Hv]. rewrite Z.mod_small in Hv by lia.
  destruct (election_step _ _ _ (Increment (serverElectionID e2)) _ S2 Ok)
    as (e3 & e4 & rs' & r' & G1 & G2 & _ & _ & G5 & S4 & P4 & R4).
  pose proof (connected_ok _ _ (session_connected _ _ _ _ S4)) as Ok4.
  assert (serverElectionID e4 = Increment (serverElectionID e2)) as Eid by (apply u128_inj; [done..|lia]).
  exists e4. rewrite Eid. split_and!; [|done|split; [by rewrite app_nil_r, P4|congruence|rewrite Eid; lia]].
  unfold BecomeLeader, LearnElectionID, UpdateElectionID.
  erewrite (bind_run _ _ e (serverElectionID e2) e2); [|
    rewrite (bind_run _ _ _ _ _ H1), (bind_run _ _ _ _ _ (orFatal_run _ _ _ _ H2)), (bind_run _ _ _ _ _ H3), last_snoc, H4;
    by destruct (serverElectionID e2)].
  by erewrite (bind_run _ _ e2 tt e4); [|rewrite (bind_run _ _ _ _ _ G1); by apply orFatal_run].
Qed.

Lemma client_Start_session c e : FIBACK c = true -> Persistence c = true -> serving e -> exists h e',
  client_Start (c, e) = (Ret tt, (set_electionID (set_fluentC c (Some h)) {| Low := 1; High := 0 |}, e')) /\
  session (Some h) {| Low := 1; High := 0 |} [] e' /\ programmed e' = programmed e /\ reported e' = reported e /\
  u128 (serverElectionID e') = Z.max (u128 (serverElectionID e)) 1.
Proof.
  intros Hf Hp He. destruct (session_start {| Low := 1; High := 0 |} e He ltac:(split; simpl; lia))
    as (h & e1 & e2 & e3 & e4 & e5 & H1 & H2 & H3 & H4 & H5 & S & P & R & I).
  exists h, e5. split; [|done]. unfold client_Start.
  rewrite (bind_run _ _ _ _ _ (onEnv_run (fun _ => NewClient) c e _ _ H1)).
  do 2 (erewrite (bind_run (modifyClient _)) by reflexivity).
  set (c' := set_electionID _ _).
  erewrite bind_run; [|apply onEnv_run; cbn [Low High electionID fluentC set_electionID set_fluentC Persistence FIBACK c'];
    rewrite Hf, Hp; exact H2].
  erewrite bind_run; [|apply onEnv_run; exact H3].
  erewrite bind_run; [|apply onEnv_run; exact H4].
  unfold AwaitTimeout, awaitTimeout. apply onEnv_run. exact H5.
Qed.

Lemma NewGRIBIClient_session e : serving e -> u128 (serverElectionID e) < 2 ^ 128 - 1 -> exists c e',
  NewGRIBIClient e = (Ret c, e') /\ session (fluentC c) (serverElectionID e') [] e' /\ sent e [] e'.
Proof.
  intros He Hmax. set (c0 := {| FIBACK := true; Persistence := true; fluentC := None;
    electionID := {| Low := 0; High := 0 |} |} : Client F).
  destruct (client_Start_session c0 e eq_refl eq_refl He) as (h & e1 & Hrun & Hs & P & R & I).
  pose proof (u128_range _ (serving_ok e He)).
  destruct (BecomeLeader_session _ _ _ _ Hs ltac:(lia)) as (e2 & Hb & S2 & [P2 R2 I2]).
  set (c1 := set_electionID (set_fluentC c0 (Some h)) {| Low := 1; High := 0 |}) in *.
  exists (set_electionID c1 (serverElectionID e2)), e2.
  split_and!; [|exact S2|split; [congruence|congruence|lia]].
  unfold NewGRIBIClient. fold c0.
  rewrite (bind_run _ _ e (tt, c1) e1) by (unfold orFatal, runMethod; by rewrite Hrun).
  assert (client_BecomeLeader (c1, e1) = (Ret (serverElectionID e2), (set_electionID c1 (serverElectionID e2), e2))) as Hl.
  { unfold client_BecomeLeader.
    by rewrite (bind_run _ _ _ _ _ (onEnv_run (fun c => BecomeLeader (fluentC c)) c1 e1 _ _ Hb)). }
  by rewrite (bind_run _ _ e1 (serverElectionID e2, set_electionID c1 (serverElectionID e2)) e2)
    by (unfold runMethod; by rewrite Hl).
Qed.

(** ** Batches in a session *)

Lemma Validate_clean (e : E) rs : Forall (fun r => isFailure r = false) rs -> ValidateGRIBIResults rs e = (Ret false, e).
Proof.
  intros H. unfold ValidateGRIBIResults.
  assert (forall st, foldl countFailure st rs = st) as Hf.
  { induction H as [|r rs Hr _ IH]; intros st; [done|]. simpl. unfold countFailure at 2. rewrite Hr. apply IH. }
  by rewrite Hf.
Qed.

Context (vendor : Vendor) (Hvendor : vendor <> ARISTA).

Lemma batch_session c chunk es e : session (fluentC c) (serverElectionID e) es e -> ordered (programmed e) chunk ->
  room (programmed e ++ chunk) -> exists e',
  (_ ← AddEntries chunk []; match vendor with ARISTA => mret tt | _ => orFatal AwaitTimeout end) (c, e) =
    (Ret tt, (c, e')) /\
  session (fluentC c) (serverElectionID e') (es ++ chunk) e' /\ programmed e' = programmed e ++ chunk /\
  reported e' = reported e /\ serverElectionID e' = serverElectionID e.
Proof.
  intros Hs Ho Hr. destruct (session_add _ _ _ _ Hs Ho Hr) as (e1 & e2 & H1 & H2 & HS). exists e2. split; [|done].
  assert (AddEntries chunk [] (c, e) = (Ret tt, (c, e1))) as Ha.
  { unfold AddEntries.
    by rewrite (bind_run _ _ _ _ _ (onEnv_run (fun c => Modify_AddEntry (fluentC c) chunk) c e _ _ H1)). }
  rewrite (bind_run _ _ _ _ _ Ha).
  assert (orFatal AwaitTimeout (c, e1) = (Ret tt, (c, e2))) as Hw.
  { apply orFatal_run. exact (onEnv_run (fun c => fluent_Await (fluentC c)) c e1 _ _ H2). }
  by destruct vendor.
Qed.

Lemma batch_loop c bs : forall es e, session (fluentC c) (serverElectionID e) es e ->
  ordered (programmed e) (mjoin bs) -> room (programmed e ++ mjoin bs) -> exists e',
  forEach (fun chunk =>
    _ ← AddEntries chunk [];
    match vendor with ARISTA => mret tt | _ => orFatal AwaitTimeout end) bs (c, e) = (Ret tt, (c, e')) /\
  session (fluentC c) (serverElectionID e') (es ++ mjoin bs) e' /\ programmed e' = programmed e ++ mjoin bs /\
  reported e' = reported e /\ serverElectionID e' = serverElectionID e.
Proof.
  induction bs as [|b bs IH]; intros es e Hs Ho Hr; [exists e; by rewrite !app_nil_r|].
  change (mjoin (b :: bs)) with (b ++ mjoin bs) in *. apply ordered_app in Ho as [Ho1 Ho2].
  rewrite app_assoc in Hr. destruct (batch_session c b es e Hs Ho1 (room_app _ _ Hr)) as (e1 & H1 & S1 & P1 & R1 & I1).
  rewrite <- P1 in Ho2, Hr. destruct (IH _ _ S1 Ho2 Hr) as (e2 & H2 & S2 & P2 & R2 & I2).
  exists e2. cbn [forEach]. rewrite (bind_run _ _ _ _ _ H1). split; [exact H2|].
  rewrite !app_assoc. rewrite P2, P1. split_and!; congruence.
Qed.

Lemma BatchModify_session es size e : serving e -> u128 (serverElectionID e) < 2 ^ 128 - 1 ->
  ordered (programmed e) es -> room (programmed e ++ es) -> exists c e',
  BatchModify vendor es size e = (Ret c, e') /\ session (fluentC c) (serverElectionID e') es e' /\ sent e es e'.
Proof.
  intros He Hmax Ho Hr. destruct (NewGRIBIClient_session e He Hmax) as (c & e1 & H1 & S1 & [P1 R1 I1]).
  rewrite app_nil_r in P1. rewrite <- P1 in Ho, Hr. rewrite <- (batches_concat size es) in Ho, Hr.
  destruct (batch_loop c (batches size es) [] e1 S1 Ho Hr) as (e2 & H2 & S2 & P2 & R2 & I2).
  rewrite batches_concat in S2, P2. exists c, e2.
  split_and!; [|exact S2|split; [congruence|congruence|by rewrite I2]].
  unfold BatchModify. rewrite (bind_run _ _ _ _ _ H1).
  rewrite (bind_run _ _ e1 (tt, c) e2) by (unfold runMethod; by rewrite H2).
  destruct (session_results _ _ _ _ S2) as (rs & H3 & Hclean & _).
  rewrite (bind_run _ _ _ _ _ H3). by rewrite (bind_run _ _ _ _ _ (Validate_clean e2 rs Hclean)).
Qed.

(** ** Checks *)

Lemma announces4_operation es vrf pfx : announces4 es vrf pfx -> Some (Op_WithIPv4Operation pfx) ∈ operation_of <$> es.
Proof.
  intros (id & n & Hin). apply list_elem_of_fmap. exists (IPv4Entry (ipCallsFor vrf pfx id n)). split; [|done].
  done.
Qed.
Lemma announces6_operation es vrf pfx : announces6 es vrf pfx -> Some (Op_WithIPv6Operation pfx) ∈ operation_of <$> es.
Proof.
  intros (id & n & Hin). apply list_elem_of_fmap. exists (IPv6Entry (ipCallsFor vrf pfx id n)). split; [|done].
  done.
Qed.
Lemma announces4_present es vrf pfx : announces4 es vrf pfx -> present4 es vrf pfx.
Proof.
  intros (id & n & Hin). exists (ipCallsFor vrf pfx id n). split; [done|]. unfold ip_NI, ip_prefix, last_of, ipCallsFor.
  done.
Qed.

(** What the checker says of prefixes, asked with options [calls]. *)
Lemma cache_answers h id es e (calls : string -> list OpCall) op : session h id es e ->
  (forall pfx, asks (calls pfx) (op pfx)) -> exists rs, Results h e = (Ret rs, e) /\ forall pfxs,
  (Forall (fun pfx => Some (op pfx) ∈ operation_of <$> es) pfxs ->
     HasResultsCache rs ((fun pfx => AsResult (calls pfx)) <$> pfxs) = true) /\
  (HasResultsCache rs ((fun pfx => AsResult (calls pfx)) <$> pfxs) = true ->
     Forall (fun pfx => prefix_op (op pfx) -> Some (op pfx) ∈ operation_of <$> es) pfxs).
Proof.
  intros Hs Ha. destruct (session_results _ _ _ _ Hs) as (rs & Hr & _ & H). exists rs. split; [done|]. intros pfxs.
  destruct (H ((fun pfx => (calls pfx, op pfx)) <$> pfxs)) as [H1 H2].
  { apply Forall_fmap, Forall_forall. intros pfx _. apply Ha. }
  rewrite !Forall_fmap in H1. rewrite !Forall_fmap in H2. rewrite <- !list_fmap_compose in H1, H2. by split.
Qed.

Lemma asks_fib op : asks [Op_WithOperationType OpAdd; Op_WithProgrammingResult InstalledInFIB; op] op.
Proof. unfold asks. reflexivity. Qed.
Lemma asks_first op : asks [op; Op_WithOperationType OpAdd; Op_WithProgrammingResult InstalledInFIB] op.
Proof. exact (Permutation_cons_append [_; _] op). Qed.

(** A check of prefixes that were all sent does nothing. *)
Lemma verifyPrefixes_run rs op (es : list GRIBIEntry) want (e : E) :
  (forall pfxs, Forall (fun pfx => Some (op pfx) ∈ operation_of <$> es) pfxs -> HasResultsCache rs
     ((fun pfx => AsResult [Op_WithOperationType OpAdd; Op_WithProgrammingResult InstalledInFIB; op pfx]) <$> pfxs) = true) ->
  Forall (fun w : string * list string => Forall (fun pfx => Some (op pfx) ∈ operation_of <$> es) w.2) want ->
  verifyPrefixes rs op want e = (Ret tt, e).
Proof.
  intros Hc H. unfold verifyPrefixes. induction H as [|[vrf pfxs] want Hw _ IH]; [done|].
  cbn [forEach]. rewrite (bind_run _ _ e tt e); [apply IH|].
  unfold chkHasResultsCache. by rewrite (Hc pfxs Hw).
Qed.

Lemma VerifyFIB_session c id es e want4 want6 : session (fluentC c) id es e -> wanted4 es want4 -> wanted6 es want6 ->
  VerifyFIBProgrammed c want4 want6 e = (Ret tt, e).
Proof.
  intros Hs H4 H6. unfold VerifyFIBProgrammed.
  destruct (cache_answers _ _ _ _ _ Op_WithIPv4Operation Hs (fun pfx => asks_fib _)) as (rs & Hr & H).
  destruct (cache_answers _ _ _ _ _ Op_WithIPv6Operation Hs (fun pfx => asks_fib _)) as (rs' & Hr' & H').
  rewrite Hr in Hr'. injection Hr' as <-. rewrite (bind_run _ _ _ _ _ Hr).
  rewrite (bind_run _ _ _ tt e); (eapply verifyPrefixes_run; [intros pfxs; apply H || apply H'|]).
  - eapply Forall_impl; [exact H6|]. intros w Hw. eapply Forall_impl; [exact Hw|]. intros pfx. apply announces6_operation.
  - eapply Forall_impl; [exact H4|]. intros w Hw. eapply Forall_impl; [exact Hw|]. intros pfx. apply announces4_operation.
Qed.

Lemma VerifyHierarchical_session c id es e want : session (fluentC c) id es e -> wanted4 es want ->
  wanted4 (programmed e) want -> VerifyHierarchicalResolution c want e = (Ret tt, e).
Proof.
  intros Hs H4 Hp. unfold VerifyHierarchicalResolution.
  destruct (cache_answers _ _ _ _ _ Op_WithIPv4Operation Hs (fun pfx => asks_first _)) as (rs & Hr & H).
  rewrite (bind_run _ _ _ _ _ Hr). revert Hp.
  induction H4 as [|[vrf pfxs] want Hw _ IH]; intros Hp; [done|].
  apply Forall_cons in Hp as [Hv Hp]. cbn [fst snd] in Hv, Hw.
  cbn [forEach]. rewrite (bind_run _ _ e tt e); [by apply IH|].
  rewrite (bind_run _ _ e tt e).
  - clear Hw. induction Hv as [|pfx pfxs Hx _ IHp]; [done|]. cbn [forEach].
    rewrite (bind_run _ _ e tt e); [apply IHp|].
    destruct (aft_read _ _ _ _ _ _ Hs (announces4_present _ _ _ Hx)) as (n & Hn & Hz).
    rewrite (bind_run _ _ _ _ _ Hn). by rewrite (proj2 (Z.eqb_neq _ _) Hz).
  - unfold chkHasResultsCache. rewrite (proj1 (H pfxs)); [done|].
    eapply Forall_impl; [exact Hw|]. intros pfx. apply announces4_operation.
Qed.

Lemma closeClient_session c id es e : session (fluentC c) id es e -> exists e', closeClient c e = (Ret tt, e') /\ serving e' /\
  programmed e' = programmed e /\ reported e' = reported e /\ serverElectionID e' = serverElectionID e.
Proof.
  intros Hs. destruct (session_stop _ _ _ _ Hs) as (e1 & H1 & H).
  assert (exists c', client_Close (c, e) = (Ret tt, (c', if fluentC c is Some _ then e1 else e))) as [c' Hc].
  { unfold client_Close. rewrite (bind_run getState _ (c, e) (c, e) (c, e)) by done.
    destruct (fluentC c) as [h|]; [|by eexists].
    rewrite (bind_run _ _ _ _ _ (onEnv_run (fun _ => fluent_Stop (Some h)) c e _ _ H1)). by eexists. }
  exists (if fluentC c is Some _ then e1 else e). split.
  - unfold closeClient. by rewrite (bind_run _ _ e (tt, c') (if fluentC c is Some _ then e1 else e)) by (unfold runMethod; by rewrite Hc).
  - destruct (fluentC c); [done|]. split; [exact (session_serving _ _ _ _ Hs)|done].
Qed.

(** ** The builders *)

(** The program in a new session: it is sent, checked and closed. *)
Lemma closed_session {A} (m : gost E A) a c id es e e' e0 : session (fluentC c) id es e' -> sent e es e' ->
  (forall e'', closeClient c e' = (Ret tt, e'') -> m e0 = (Ret a, e'')) ->
  exists e'', m e0 = (Ret a, e'') /\ serving e'' /\ sent e es e''.
Proof.
  intros Hs [P R I] Hm. destruct (closeClient_session _ _ _ _ Hs) as (e2 & Hc & V & P2 & R2 & I2).
  exists e2. split_and!; [by apply Hm|done|split; congruence].
Qed.

Context (order : list (Z * Z) -> list (Z * Z)) (Horder : forall l, order l ≡ₚ l).
Context (ni : string) (p : ScaleParams) (Hok : scale_ok p).

(** The last default prefix is programmed when the count is even (or one). *)
Lemma default_wanted dd hosts : default_result ni p dd hosts ->
  Z.even (NumDefaultIPv4 p) = true \/ NumDefaultIPv4 p = 1 -> wanted4 (d_entries dd) [(ni, d_want dd)].
Proof.
  intros Dr He. destruct (dr_hosts _ _ _ _ Dr) as [Hl _]. destruct (dr_want _ _ _ _ Dr) as (a & b & Ha & Hb & ->).
  pose proof (so_default p Hok) as Hd. destruct (half_bounds (NumDefaultIPv4 p) ltac:(lia)) as (B1 & _ & B2 & _).
  repeat constructor; simpl; apply (dr_announced _ _ _ _ Dr).
  - exists 0, a. split; [lia|done].
  - exists (NumDefaultIPv4 p - 1), b. rewrite <- Hl. replace (Z.to_nat (Z.of_nat (length hosts) - 1)) with (length hosts - 1)%nat by lia.
    split; [|done]. rewrite Hl. destruct He as [He%B2|He]; lia.
Qed.

(** A device that can take the entries [es] next. *)
Record ready (es : list GRIBIEntry) (e : E) : Prop := {
  r_serving : serving e;
  r_id : u128 (serverElectionID e) < 2 ^ 128 - 1;
  r_ordered : ordered (programmed e) es;
  r_room : room (programmed e ++ es) }.

Lemma BatchModify_ready es size e : ready es e -> exists c e',
  BatchModify vendor es size e = (Ret c, e') /\ session (fluentC c) (serverElectionID e') es e' /\ sent e es e'.
Proof. intros []. by apply BatchModify_session. Qed.

Lemma BuildDefaultVRF_run dd e : ready (d_entries dd) e -> BuildDefaultVRF_entries ni p = Ret dd ->
  wanted4 (d_entries dd) [(ni, d_want dd)] -> exists e',
  BuildDefaultVRF vendor ni p e = (Ret (primaryPrefixes dd, backupPrefixes dd), e') /\ serving e' /\ sent e (d_entries dd) e'.
Proof.
  intros Hr Ed Hw. destruct (BatchModify_ready _ (GRIBIBatchSize p) _ Hr) as (c & e1 & H1 & S1 & Hs).
  apply (closed_session _ _ _ _ _ _ _ e S1 Hs). intros e2 Hc. unfold BuildDefaultVRF.
  rewrite (bind_run _ _ e dd e) by (unfold lift; by rewrite Ed). rewrite (bind_run _ _ _ _ _ H1).
  rewrite (bind_run _ _ _ _ _ (VerifyFIB_session c _ _ _ _ [] S1 Hw ltac:(constructor))).
  by rewrite (bind_run _ _ _ _ _ Hc).
Qed.

Lemma BuildStaticGroups_run es size e : ready es e -> BuildStaticGroups_entries InstalledInFIB order ni = Ret es -> exists e',
  BuildStaticGroups vendor order ni size e = (Ret (StaticS1NHG, StaticS2NHG), e') /\ serving e' /\ sent e es e'.
Proof.
  intros Hr Es. destruct (BatchModify_ready _ size _ Hr) as (c & e1 & H1 & S1 & Hs).
  apply (closed_session _ _ _ _ _ _ _ e S1 Hs). intros e2 Hc. unfold BuildStaticGroups.
  rewrite (bind_run _ _ e es e) by (unfold lift; by rewrite Es). rewrite (bind_run _ _ _ _ _ H1).
  by rewrite (bind_run _ _ _ _ _ Hc).
Qed.

Abbreviation single := (negb (repairReencapIntoMultipleBackupTunnels vendor)).

Lemma BuildRepairVRF_run es want e : ready es e -> wanted4 es want ->
  BuildRepairVRF_entries InstalledInFIB order single ni StaticS2NHG p = Ret (es, want) -> exists e',
  BuildRepairVRF vendor order ni StaticS2NHG p e = (Ret tt, e') /\ serving e' /\ sent e es e'.
Proof.
  intros Hr Hw Es. destruct (BatchModify_ready _ (GRIBIBatchSize p) _ Hr) as (c & e1 & H1 & S1 & Hs).
  apply (closed_session _ _ _ _ _ _ _ e S1 Hs). intros e2 Hc. unfold BuildRepairVRF.
  rewrite (bind_run _ _ e (es, want) e) by (unfold lift; by rewrite Es). rewrite (bind_run _ _ _ _ _ H1).
  by rewrite (bind_run _ _ _ _ _ (VerifyFIB_session c _ _ _ want [] S1 Hw ltac:(constructor))).
Qed.

Lemma BuildTransitVRFs_run prim back es want e : ready es e -> wanted4 es want ->
  BuildTransitVRFs_entries ni prim back StaticS1NHG StaticS2NHG p = Ret (es, want) -> exists e',
  BuildTransitVRFs vendor ni prim back StaticS1NHG StaticS2NHG p e = (Ret tt, e') /\ serving e' /\ sent e es e'.
Proof.
  intros Hr Hw Es. destruct (BatchModify_ready _ (GRIBIBatchSize p) _ Hr) as (c & e1 & H1 & S1 & Hs).
  apply (closed_session _ _ _ _ _ _ _ e S1 Hs). intros e2 Hc. unfold BuildTransitVRFs.
  rewrite (bind_run _ _ e (es, want) e) by (unfold lift; by rewrite Es). rewrite (bind_run _ _ _ _ _ H1).
  rewrite (bind_run _ _ _ _ _ (VerifyFIB_session c _ _ _ want [] S1 Hw ltac:(constructor))).
  assert (wanted4 (programmed e1) want) as Hp.
  { rewrite (sent_programmed _ _ _ Hs). eapply Forall_impl; [exact Hw|]. intros w H. eapply Forall_impl; [exact H|].
    intros pfx Hx. apply announces4_app. by right. }
  by rewrite (bind_run _ _ _ _ _ (VerifyHierarchical_session c _ _ _ want S1 Hw Hp)).
Qed.

Lemma BuildEncapDecapVRFs_run st e : ready (e_entries st) e -> wanted4 (e_entries st) (e_want4 st) ->
  wanted6 (e_entries st) (e_want6 st) -> BuildEncapDecapVRFs_entries InstalledInFIB order ni p = Ret st -> exists e',
  BuildEncapDecapVRFs vendor order ni p e = (Ret tt, e') /\ serving e' /\ sent e (e_entries st) e'.
Proof.
  intros Hr H4 H6 Es. destruct (BatchModify_ready _ (GRIBIBatchSize p) _ Hr) as (c & e1 & H1 & S1 & Hs).
  apply (closed_session _ _ _ _ _ _ _ e S1 Hs). intros e2 Hc. unfold BuildEncapDecapVRFs.
  rewrite (bind_run _ _ e st e) by (unfold lift; by rewrite Es). rewrite (bind_run _ _ _ _ _ H1).
  by rewrite (bind_run _ _ _ _ _ (VerifyFIB_session c _ _ _ _ _ S1 H4 H6)).
Qed.

(** The next part of a program on the device that took the part before it. *)
Lemma ready_next done es rest e : serving e -> programmed e = done -> u128 (serverElectionID e) < 2 ^ 128 - 1 ->
  ordered [] (done ++ es ++ rest) -> room (done ++ es ++ rest) -> ready es e.
Proof.
  intros V <- I O R. rewrite app_assoc in O, R. apply ordered_app in O as [O _]. apply ordered_app in O as [_ O].
  by split; [..|exact (room_app _ _ R)].
Qed.


(** ** An odd number of default prefixes *)

(** An operation on a prefix comes from an entry that announces it. *)
Lemma operation_announces es vrf pfx :
  Forall (fun e => not_ip e \/ exists q id n, e = IPv4Entry (ipCallsFor vrf q id n)) es ->
  Some (Op_WithIPv4Operation pfx) ∈ operation_of <$> es -> announces4 es vrf pfx.
Proof.
  intros Hs (x & Hx & Hin)%list_elem_of_fmap. rewrite Forall_forall in Hs.
  destruct (Hs x Hin) as [Hn|(q & id & n & ->)].
  - exfalso. destruct x as [cs|cs|cs|cs]; try done; unfold operation_of in Hx; by destruct (last _).
  - assert (operation_of (IPv4Entry (ipCallsFor vrf q id n)) = Some (Op_WithIPv4Operation q)) as Hq by done.
    rewrite Hq in Hx. injection Hx as ->. by exists id, n.
Qed.

(** The code ends in a fatal error. *)
Definition stops {A} (m : gost E A) (e : E) : Prop := fst (m e) = Panic.

(** with an odd number of default prefixes, three or more, the two halves do
    not cover the last prefix, which is nevertheless checked: on a device that can
    take the program, the programming step stops the test. *)
Theorem odd_default_prefixes_stop e (Hodd : Z.even (NumDefaultIPv4 p) = false) (H1 : NumDefaultIPv4 p <> 1)
    (Hs : serving e) (Hp : programmed e = []) (Hid : u128 (serverElectionID e) < 2 ^ 128 - 7)
    (Hroom : forall pr, build InstalledInFIB order single ni p = Ret pr -> room (program_entries pr)) :
  stops (RunFullScaleTest_program vendor order ni p) e.
Proof.
  unfold stops. destruct (build_ok InstalledInFIB order Horder single ni p Hok) as (pr & hosts & Eb & Dr & O & _).
  specialize (Hroom pr Eb). unfold build in Eb.
  destruct (BuildDefaultVRF_entries ni p) as [dd| | |] eqn:Ed; try discriminate Eb. cbn [mbind outcome_bind] in Eb.
  assert (pr_default pr = dd) as Edd.
  { repeat (case_match; try discriminate Eb; cbn [mbind outcome_bind] in Eb).
    revert Eb. repeat (match goal with |- context [?m ≫= _] => destruct m; cbn [mbind outcome_bind]; try discriminate end).
    by intros [= <-]. }
  unfold program_entries in O, Hroom. rewrite Edd in O, Hroom, Dr.
  destruct (BatchModify_ready (d_entries dd) (GRIBIBatchSize p) e) as (c & e1 & Hm & S1 & _).
  { eapply (ready_next []); [done|done|lia|exact O|exact Hroom]. }
  destruct (dr_want _ _ _ _ Dr) as (a & b & Ha & Hb & Ew). destruct (dr_hosts _ _ _ _ Dr) as [Hl Nd].
  pose proof (so_default p Hok) as Hn. destruct (half_bounds (NumDefaultIPv4 p) ltac:(lia)) as (_ & _ & _ & B).
  assert (~ announces4 (d_entries dd) ni (cidr b IPv4HostMask)) as Hna.
  { intros (j & h & Hj & Hh & Heq)%(dr_announced _ _ _ _ Dr). unfold cidr in Heq. apply str_app_inj_r in Heq as ->.
    pose proof (NoDup_lookup _ _ _ _ Nd Hb Hh) as X. rewrite B in Hj by done. lia. }
  destruct (cache_answers _ _ _ _ _ Op_WithIPv4Operation S1 (fun pfx => asks_fib _)) as (rs & Hr & Hc).
  assert (VerifyFIBProgrammed c [(ni, d_want dd)] [] e1 = (Panic, e1)) as Hv.
  { unfold VerifyFIBProgrammed. rewrite (bind_run _ _ _ _ _ Hr).
    unfold mbind at 1, gost_bind, verifyPrefixes. cbn [forEach]. unfold mbind at 1, gost_bind, chkHasResultsCache.
    destruct (HasResultsCache _ _) eqn:E2; [|done]. exfalso. apply Hc in E2. rewrite Ew in E2.
    apply Forall_cons in E2 as [_ E2]. apply Forall_cons in E2 as [E2 _]. apply Hna.
    eapply operation_announces; [apply (dr_shape _ _ _ _ Dr)|]. apply E2. unfold prefix_op, cidr. by destruct b. }
  unfold RunFullScaleTest_program, BuildDefaultVRF, mbind at 1, gost_bind.
  rewrite (bind_run _ _ e dd e) by (unfold lift; by rewrite Ed). rewrite (bind_run _ _ _ _ _ Hm).
  unfold mbind at 1, gost_bind. by rewrite Hv.
Qed.
End Sessions.

(** ** A device that keeps the promises *)

Import RefDevice.

#[global] Instance device_env : TestEnv Device := {
  Errorf := fun d => (Ret tt, {| dev_id := dev_id d; dev_client := dev_client d; dev_entries := dev_entries d;
                                 dev_results := dev_results d; dev_errors := S (dev_errors d) |});
  aft_NextHopGroup vrf pfx := fun d =>
    (Ret (if existsb (fun e => match e with
                               | IPv4Entry cs => bool_decide (ip_NI cs = Some vrf /\ ip_prefix cs = Some pfx)
                               | _ => false end) (dev_entries d) then 1 else 0), d)
}.

(** The results of a session: elections and the acknowledgements of its entries. *)
Definition answers (es : list GRIBIEntry) (rs : list OpResult) : Prop :=
  (forall r, r ∈ rs -> (exists id, r = elected id) \/ r ∈ ack_of <$> es) /\ (forall x, x ∈ es -> ack_of x ∈ rs).

Lemma answers_elected es rs id : answers es rs -> answers es (rs ++ [elected id]).
Proof.
  intros [H1 H2]. split; [|intros; apply elem_of_app; auto].
  intros r [Hr| ->%list_elem_of_singleton]%elem_of_app; eauto.
Qed.
Lemma answers_ack es rs new : answers es rs -> answers (es ++ new) (rs ++ (ack_of <$> new)).
Proof.
  intros [H1 H2]. split.
  - intros r [[Hr|Hr]%H1|Hr]%elem_of_app; [by left|right..]; rewrite fmap_app, elem_of_app; auto.
  - intros x [Hx|Hx]%elem_of_app; apply elem_of_app; [auto|right]. by apply list_elem_of_fmap_2.
Qed.

(** The result that is asked for, whatever the order of the options. *)
Lemma asks_result calls x op : asks calls op -> operation_of x = Some op -> result_of calls = ack_of x.
Proof.
  intros Ha Hx. assert (exists a b c, calls = [a; b; c]) as (a & b & c & ->).
  { pose proof (Permutation_length Ha) as Hl. destruct calls as [|a [|b [|c [|]]]]; try discriminate Hl. eauto. }
  assert (Op_WithOperationType OpAdd ∈ [a; b; c]) as M1 by (rewrite Ha; set_solver).
  assert (Op_WithProgrammingResult 1 ∈ [a; b; c]) as M2 by (rewrite Ha; set_solver).
  assert (op ∈ [a; b; c]) as M3 by (rewrite Ha; set_solver).
  unfold ack_of. rewrite Hx. clear Ha.
  assert (match op with Op_WithOperationType _ | Op_WithProgrammingResult _ => False | _ => True end) as Hop.
  { destruct x; unfold operation_of in Hx; destruct (last _); by simplify_option_eq. }
  rewrite !elem_of_cons, elem_of_nil in M1, M2, M3.
  destruct op; try (by destruct Hop);
    destruct M1 as [<-|[<-|[<-|[]]]], M2 as [E|[E|[E|[]]]], M3 as [E'|[E'|[E'|[]]]]; subst; try discriminate; done.
Qed.

Lemma has_result_iff rs w : has_result rs w = true <->
  exists r, r ∈ rs /\ Details r = Details w /\ op_ProgrammingResult r = op_ProgrammingResult w.
Proof.
  unfold has_result. rewrite existsb_exists. split; intros (r & Hr & H); exists r.
  - apply list_elem_of_In in Hr. apply andb_true_iff in H as [H1%bool_decide_eq_true_1 H2%Z.eqb_eq]. done.
  - rewrite <- list_elem_of_In. split; [done|]. apply andb_true_iff. by rewrite bool_decide_eq_true, Z.eqb_eq.
Qed.

(** The result asked for a prefix, and the entries whose acknowledgement it is. *)
Lemma asks_prefix calls op : asks calls op -> prefix_op op -> result_of calls = result_of [Op_WithProgrammingResult 1; op].
Proof.
  intros Ha Hp. destruct op as [| |q|q| |]; try done.
  - exact (asks_result calls (IPv4Entry [IP_WithPrefix q]) _ Ha eq_refl).
  - exact (asks_result calls (IPv6Entry [IP_WithPrefix q]) _ Ha eq_refl).
Qed.

Lemma ack_prefix x op : prefix_op op -> Details (ack_of x) = Details (result_of [Op_WithProgrammingResult 1; op]) ->
  operation_of x = Some op.
Proof.
  intros Hp. unfold ack_of.
  assert (match operation_of x with Some (Op_WithOperationType _) | Some (Op_WithProgrammingResult _) => False | _ => True end).
  { destruct x; unfold operation_of; by destruct (last _). }
  destruct op as [| |q|q| |], (operation_of x) as [[]|]; try done; simpl; intros Heq; congruence.
Qed.

Definition dev_session (h : option unit) (id : Uint128) (es : list GRIBIEntry) (d : Device) : Prop :=
  h = Some tt /\ u128_ok (dev_id d) /\ dev_client d = id /\ answers es (dev_results d).

Lemma learn_session id es lo hi d : dev_session (Some tt) id es d -> u128_ok {| Low := lo; High := hi |} ->
  dev_session (Some tt) {| Low := lo; High := hi |} es (learn lo hi d).
Proof.
  intros (_ & Hok & _ & Ha) Hid. split_and!; [done| |done|by apply answers_elected]. simpl. by case_match.
Qed.

Lemma learn_max lo hi d : u128 (dev_id (learn lo hi d)) = Z.max (u128 (dev_id d)) (u128 {| Low := lo; High := hi |}).
Proof. simpl. destruct (Z.ltb_spec (u128 (dev_id d)) (u128 {| Low := lo; High := hi |})); lia. Qed.

Lemma answers_results es rs : answers es rs -> Forall (fun r => isFailure r = false) rs /\
  forall wants : list (list OpCall * OpCall), Forall (fun w => asks w.1 w.2) wants ->
    (Forall (fun w => Some w.2 ∈ operation_of <$> es) wants -> HasResultsCache rs (AsResult <$> wants.*1) = true) /\
    (HasResultsCache rs (AsResult <$> wants.*1) = true ->
     Forall (fun w => prefix_op w.2 -> Some w.2 ∈ operation_of <$> es) wants).
Proof.
  intros [A1 A2]. split.
  { apply Forall_forall. intros r [[id ->]|(x & -> & _)%list_elem_of_fmap]%A1; [done|].
    unfold ack_of, result_of. destruct (operation_of x) as [[]|] eqn:Hx; try done.
    destruct x; unfold operation_of in Hx; destruct (last _); discriminate Hx. }
  intros wants Hw. cbn [HasResultsCache device_fluent AsResult]. rewrite forallb_forall. rewrite Forall_forall in Hw. split.
  - intros Hs w (calls & -> & ([c op] & -> & Hin)%list_elem_of_fmap)%list_elem_of_In%list_elem_of_fmap.
    rewrite Forall_forall in Hs. destruct (list_elem_of_fmap_1 _ _ _ (Hs _ Hin)) as (x & Hx & Hin').
    apply has_result_iff. exists (ack_of x). split; [by apply A2|].
    by rewrite <- (asks_result c x op (Hw _ Hin) (eq_sym Hx)).
  - intros Hs. apply Forall_forall. intros [c op] Hin Hp.
    assert (has_result rs (result_of c) = true) as (r & Hr & Hd & He)%has_result_iff.
    { apply Hs, list_elem_of_In, list_elem_of_fmap_2. apply (list_elem_of_fmap_2 fst _ _ Hin). }
    rewrite (asks_prefix c op (Hw _ Hin) Hp) in Hd, He.
    apply A1 in Hr as [[id ->]|(x & -> & Hx)%list_elem_of_fmap]; [discriminate Hd|].
    apply list_elem_of_fmap. exists x. split; [|done]. symmetry. simpl in Hd. by apply ack_prefix.
Qed.

#[global] Program Instance device_programming : ProgrammingDevice Device unit := {
  serving d := u128_ok (dev_id d);
  programmed := dev_entries;
  room _ := True;
  session := dev_session;
  reported := dev_errors
}.
Next Obligation. done. Qed.
Next Obligation. by intros h id es e (-> & ? & _). Qed.
Next Obligation. by intros h id es e (_ & ? & _). Qed.
Next Obligation. done. Qed.
Next Obligation.
  intros [lo hi] d Hs Hid. exists tt. do 5 eexists. do 5 (split; [reflexivity|]). cbn [configure persistent_connection foldl Low High].
  split_and!; [|done|done|exact (learn_max lo hi (attach d))].
  apply (learn_session (dev_client d)); [|done]. split_and!; [done|exact Hs|done|]. split; [|by intros x Hx%elem_of_nil].
  by intros r Hr%elem_of_nil.
Qed.
Next Obligation.
  intros h id es [lo hi] e e1 e2 Hs Hid [= <-] [= <-]. pose proof Hs as [-> _]. split; [|done]. by eapply learn_session.
Qed.
Next Obligation.
  intros h es new d (-> & Hok & Hc & Ha) _ _. exists (accept new d), (accept new d). do 2 (split; [reflexivity|]).
  unfold accept. rewrite decide_True by done. split_and!; try done. split_and!; try done. by apply answers_ack.
Qed.
Next Obligation.
  intros h id es d (-> & _ & _ & Ha). exists (dev_results d). split; [done|]. by apply answers_results.
Qed.
Next Obligation.
  intros h id es d vrf pfx _ (cs & Hin & Hn & Hp). eexists. split; [reflexivity|].
  rewrite (proj2 (existsb_exists _ _)); [done|]. exists (IPv4Entry cs). split; [by apply list_elem_of_In|].
  by apply bool_decide_eq_true_2.
Qed.
Next Obligation. intros h id es d (_ & ? & _). by exists d. Qed.

(** The parameters of the largest full scale test
    ([feature/gribi/gribi_full_scale/otg_tests/gribi_full_scale_t3]). *)
Definition t3Params (numDefaultIPv4 : Z) : ScaleParams := {|
  GRIBIBatchSize := 2000;
  NumDefaultNH := 1000; NumDefaultNHG := 1000; NumDefaultIPv4 := numDefaultIPv4;
  DefaultNHGLoadBalance := [{| lb_Pct := 40; NumNextHops := 8 |}; {| lb_Pct := 40; NumNextHops := 16 |};
    {| lb_Pct := 15; NumNextHops := 32 |}; {| lb_Pct := 5; NumNextHops := 64 |}];
  DefaultNHGWeight := [{| w_Pct := 70; Config := Some WCMP1in512 |}; {| w_Pct := 30; Config := Some WCMP1in1024 |}];
  NumTransitNH := 4000; NumTransitNHG := 2000;
  TransitNHGLoadBalance := [{| lb_Pct := 100; NumNextHops := 2 |}];
  TransitNHGWeight := [{| w_Pct := 100; Config := Some WCMP1in64 |}];
  NumTransitIPv4 := 200000; NumRepairIPv4 := 200000; NumRepairNHG := 2000;
  NumEncapVRFs := 16; NumEncapIPv4PerVRF := 9000; NumEncapIPv6PerVRF := 11000;
  NumUniqueEncapNH := 32000; NumEncapDefaultNHG := 8000;
  EncapNHGLoadBalance := encapLoadBalance; EncapNHGWeight := encapWeight;
  NumDecapEntries := 50; DecapDestsSubsetPct := 100; NumPort2VLANs := 640; TrafficLossTol := 5; TrafficRateMpps := 30000000 |}.

Lemma t3_ok n : 1 <= n <= 2 ^ 20 -> scale_ok (t3Params n).
Proof.
  intros Hn. split; try (cbn; lia); [reflexivity|].
  split_and!; repeat (apply Forall_nil_2 || (apply Forall_cons; split)); cbn; lia.
Qed.

Lemma t3_fit n : ids_fit (t3Params n).
Proof. split; cbn; lia. Qed.

Definition blank : Device :=
  {| dev_id := {| Low := 5; High := 0 |}; dev_client := {| Low := 0; High := 0 |}; dev_entries := [];
     dev_results := []; dev_errors := 0 |}.


Lemma odd_default_prefixes_stop_witness :
  stops (RunFullScaleTest_program CISCO id "DEFAULT" (t3Params 1001)) blank.
Proof.
  apply (odd_default_prefixes_stop CISCO ltac:(discriminate) id (fun l => reflexivity l) "DEFAULT" (t3Params 1001));
    [apply t3_ok; lia|reflexivity|discriminate|split; simpl; lia|reflexivity|reflexivity|exact (fun _ _ => I)].
Defined.

Lemma program_dependency_order_witness :
  exists pr, build InstalledInFIB id true "DEFAULT" (t3Params 1000) = Ret pr /\ ordered [] (program_entries pr).
Proof.
  apply (program_dependency_order InstalledInFIB id (fun l => reflexivity l)). apply t3_ok. lia.
Defined.

Lemma program_ids_distinct_witness :
  exists pr, build InstalledInFIB id true "DEFAULT" (t3Params 1000) = Ret pr /\
    NoDup (nh_keys (program_entries pr)) /\ NoDup (nhg_keys (program_entries pr)).
Proof.
  apply (program_ids_distinct InstalledInFIB id (fun l => reflexivity l)); [apply t3_ok; lia|apply t3_fit].
Defined.
