(* ===== verification/TeScale.v ===== *)
(** * Traffic engineering scale configuration

    [src/internal/tescale/scale.go]: the pools of addresses and identifiers and
    [BuildVRFConfig], which fills four VRFs.  The pools and the four
    configurations are the state of the code; next-hop and group identifiers are
    [uint64]s. *)
From stdpp Require Import base list gmap strings.
From Stdlib Require Import ZArith Lia.
From S2P Require Import Prelude.
From S2P Require Import GoStrings.
From S2P Require Import Net.
From S2P Require Import IPUtil.
From S2P Require Import Gribi.
From S2P Require Import GribiScale.
From S2P Require Import GribiRefs.
Local Open Scope Z_scope.

Definition VRFT := "vrf_t".
Definition VRFR := "vrf_r".
Definition VRFRD := "vrf_rd".
Definition V4TunnelIPBlock := "198.18.0.1/16".
Definition V4VIPIPBlock := "198.18.196.1/22".
Definition tunnelSrcIP := "198.18.204.1".

(** ** Pools *)

Record IPPool := { ips : list string; pool_index : Z }.
Definition NewIPPool (entries : list string) : IPPool := {| ips := entries; pool_index := -1 |}.

Definition NextIP (p : IPPool) : go string * IPPool :=
  let i := pool_index p + 1 in
  (index (ips p) i, {| ips := ips p; pool_index := i |}).

Definition AllIPs (p : IPPool) : list string := ips p.

Record IDPool := { nhIndex : Z; nhgIndex : Z }.
Definition NewIDPool (base : Z) : IDPool := {| nhIndex := base; nhgIndex := base |}.
Definition NextNHID (p : IDPool) : Z * IDPool :=
  let i := uint64 (nhIndex p + 1) in (i, {| nhIndex := i; nhgIndex := nhgIndex p |}).
Definition NextNHGID (p : IDPool) : Z * IDPool :=
  let i := uint64 (nhgIndex p + 1) in (i, {| nhIndex := nhIndex p; nhgIndex := i |}).

(** ** Configurations *)

Record VRFConfig := {
  Name : string;
  NHs : list GRIBIEntry;
  NHGs : list GRIBIEntry;
  V4Entries : list GRIBIEntry
}.

Record Param := {
  V4TunnelCount : Z;
  V4TunnelNHGCount : Z;
  V4TunnelNHGSplitCount : Z;
  EgressNHGSplitCount : Z;
  V4ReEncapNHGCount : Z
}.

(** The variables of [BuildVRFConfig] that its loops change. *)
Record Build := {
  b_ids : IDPool;
  b_vips : IPPool;
  b_nhs : list GRIBIEntry;      (* vrfDefault.NHs *)
  b_nhgs : list GRIBIEntry;     (* vrfDefault.NHGs *)
  b_default : list GRIBIEntry;  (* vrfDefault.V4Entries *)
  b_t : list GRIBIEntry;        (* vrfTConf.V4Entries *)
  b_r : list GRIBIEntry;        (* vrfRConf.V4Entries *)
  b_rd : list GRIBIEntry;       (* vrfRDConf.V4Entries *)
  b_nhgID : Z                   (* nhgID *)
}.

(** Assignments to single variables. *)
Definition put_ids (p : IDPool) (st : Build) : Build :=
  {| b_ids := p; b_vips := b_vips st; b_nhs := b_nhs st; b_nhgs := b_nhgs st; b_default := b_default st;
     b_t := b_t st; b_r := b_r st; b_rd := b_rd st; b_nhgID := b_nhgID st |}.
Definition put_vips (p : IPPool) (st : Build) : Build :=
  {| b_ids := b_ids st; b_vips := p; b_nhs := b_nhs st; b_nhgs := b_nhgs st; b_default := b_default st;
     b_t := b_t st; b_r := b_r st; b_rd := b_rd st; b_nhgID := b_nhgID st |}.
Definition put_nhgID (i : Z) (st : Build) : Build :=
  {| b_ids := b_ids st; b_vips := b_vips st; b_nhs := b_nhs st; b_nhgs := b_nhgs st; b_default := b_default st;
     b_t := b_t st; b_r := b_r st; b_rd := b_rd st; b_nhgID := i |}.
Definition put_nh (calls : list NHCall) (st : Build) : Build :=
  {| b_ids := b_ids st; b_vips := b_vips st; b_nhs := b_nhs st ++ [NextHopEntry calls]; b_nhgs := b_nhgs st;
     b_default := b_default st; b_t := b_t st; b_r := b_r st; b_rd := b_rd st; b_nhgID := b_nhgID st |}.
Definition put_nhg (calls : list NHGCall) (st : Build) : Build :=
  {| b_ids := b_ids st; b_vips := b_vips st; b_nhs := b_nhs st; b_nhgs := b_nhgs st ++ [NextHopGroupEntry calls];
     b_default := b_default st; b_t := b_t st; b_r := b_r st; b_rd := b_rd st; b_nhgID := b_nhgID st |}.

Inductive Table := TabDefault | TabT | TabR | TabRD.
#[global] Instance Table_eq_dec : EqDecision Table.
Proof. solve_decision. Defined.
Definition table (t : Table) (st : Build) : list GRIBIEntry :=
  match t with TabDefault => b_default st | TabT => b_t st | TabR => b_r st | TabRD => b_rd st end.
Definition put_v4 (t : Table) (calls : list IPCall) (st : Build) : Build :=
  let put t' := if decide (t = t') then table t' st ++ [IPv4Entry calls] else table t' st in
  {| b_ids := b_ids st; b_vips := b_vips st; b_nhs := b_nhs st; b_nhgs := b_nhgs st;
     b_default := put TabDefault; b_t := put TabT; b_r := put TabR; b_rd := put TabRD; b_nhgID := b_nhgID st |}.

Definition upd (f : Build -> Build) : gost Build unit := fun st => (Ret tt, f st).

Definition nextNH : gost Build Z := fun st => let '(i, p) := NextNHID (b_ids st) in (Ret i, put_ids p st).
Definition nextNHG : gost Build Z := fun st => let '(i, p) := NextNHGID (b_ids st) in (Ret i, put_ids p st).
Definition nextVIP : gost Build string := fun st => let '(r, p) := NextIP (b_vips st) in (r, put_vips p st).
Definition setNHGID (i : Z) : gost Build unit := upd (put_nhgID i).
Definition setVIPs (p : IPPool) : gost Build unit := upd (put_vips p).
Definition addNH (calls : list NHCall) : gost Build unit := upd (put_nh calls).
Definition addNHG (calls : list NHGCall) : gost Build unit := upd (put_nhg calls).
Definition addV4 (t : Table) (calls : list IPCall) : gost Build unit := upd (put_v4 t calls).

Definition getNHGID : gost Build Z := fun st => (Ret (b_nhgID st), st).

(** [IPv4Entry().WithPrefix(ip+"/32").WithNextHopGroup(id).WithNetworkInstance(ni)...] *)
Definition v4Calls (ip : string) (id : Z) (ni nhgNI : string) : list IPCall :=
  [IP_WithPrefix (ip +:+ "/32"); IP_WithNextHopGroup id; IP_WithNetworkInstance ni;
   IP_WithNextHopGroupNetworkInstance nhgNI].

Section BuildVRFConfig.
Context (defaultVRF : string) (param : Param).

(** The inner loop over [V4TunnelNHGSplitCount]: next hops to VIPs. *)
Fixpoint splitLoop (n : nat) (calls : list NHGCall) : gost Build (list NHGCall) :=
  match n with
  | O => mret calls
  | S n =>
      vip ← nextVIP;
      nhID ← nextNH;
      _ ← addNH [NH_WithIndex nhID; NH_WithNetworkInstance defaultVRF; NH_WithIPAddress vip];
      splitLoop n (calls ++ [NHG_AddNextHop nhID 1])
  end.

(** The loops over the tunnel addresses for VRF_T and VRF_RD: a new group every
    [ratio] addresses. *)
Definition tunnelStep (tab : Table) (vrf : string) (backup ratio : Z) (p : Z * string) : gost Build unit :=
  let '(idx, ip) := p in
  m ← lift (goRem idx ratio);
  _ ← (if m =? 0 then
         nhgID ← nextNHG;
         _ ← setNHGID nhgID;
         calls ← splitLoop (Z.to_nat (V4TunnelNHGSplitCount param))
           [NHG_WithID nhgID; NHG_WithNetworkInstance defaultVRF; NHG_WithBackupNHG backup];
         addNHG calls
       else mret tt);
  nhgID ← getNHGID;
  addV4 tab (v4Calls ip nhgID vrf defaultVRF).

(** The inner loop over [EgressNHGSplitCount] of the default VRF. *)
Fixpoint egressLoop (egress : list string) (i : Z) (n : nat) (calls : list NHGCall) : gost Build (list NHGCall) :=
  match n with
  | O => mret calls
  | S n =>
      vip ← lift (index egress i);
      nhID ← nextNH;
      _ ← addNH [NH_WithIndex nhID; NH_WithNetworkInstance defaultVRF; NH_WithIPAddress vip];
      egressLoop egress (i + 1) n (calls ++ [NHG_AddNextHop nhID 1])
  end.

Definition vipStep (egress : list string) (ip : string) : gost Build unit :=
  nhgID ← nextNHG;
  calls ← egressLoop egress 0 (Z.to_nat (EgressNHGSplitCount param))
    [NHG_WithID nhgID; NHG_WithNetworkInstance defaultVRF];
  _ ← addNHG calls;
  addV4 TabDefault (v4Calls ip nhgID defaultVRF defaultVRF).

(** The loop of VRF_R: [calls] is the group under construction. *)
Fixpoint reencapLoop (tunnels : list string) (backup ratio : Z) (idx : Z) (l : list string)
    (calls : list NHGCall) : gost Build (list NHGCall) :=
  match l with
  | [] => mret calls
  | ip :: l =>
      nhID ← nextNH;
      k ← lift (goRem (idx + 1) (Z.of_nat (length tunnels)));
      dst ← lift (index tunnels k);
      _ ← addNH [NH_WithIndex nhID; NH_WithDecapsulateHeader IPinIP; NH_WithEncapsulateHeader IPinIP;
                 NH_WithNetworkInstance defaultVRF; NH_WithIPinIP tunnelSrcIP dst];
      m ← lift (if idx =? 0 then Ret 1 else goRem idx ratio);
      calls ← (if m =? 0 then
                 _ ← addNHG calls;
                 nhgID ← nextNHG;
                 _ ← setNHGID nhgID;
                 mret [NHG_WithID nhgID; NHG_WithNetworkInstance defaultVRF; NHG_WithBackupNHG backup]
               else mret calls);
      nhgID ← getNHGID;
      _ ← addV4 TabR (v4Calls ip nhgID VRFR defaultVRF);
      reencapLoop tunnels backup ratio (idx + 1) l (calls ++ [NHG_AddNextHop nhID 1])
  end.

Definition indexed (l : list string) : list (Z * string) := zip (seqZ 0 (Z.of_nat (length l))) l.

Definition vipCount : Z := V4TunnelNHGCount param * V4TunnelNHGSplitCount param + 2.

Definition buildVRFs (egressIPs tunnels vips : list string) : gost Build unit :=
  (* VRF_T *)
  nhgRedirectToVrfR ← nextNHG;
  _ ← setNHGID nhgRedirectToVrfR;
  nhID ← nextNH;
  _ ← addNH [NH_WithIndex nhID; NH_WithNetworkInstance defaultVRF; NH_WithNextHopNetworkInstance VRFR];
  _ ← addNHG [NHG_WithID nhgRedirectToVrfR; NHG_AddNextHop nhID 1; NHG_WithNetworkInstance defaultVRF];
  tunnelNHGRatio ← lift (goQuot (V4TunnelCount param) (V4TunnelNHGCount param));
  _ ← forEach (tunnelStep TabT VRFT nhgRedirectToVrfR tunnelNHGRatio) (indexed tunnels);
  (* Default VRF *)
  _ ← forEach (vipStep egressIPs) vips;
  (* VRF_R *)
  nhID ← nextNH;
  nhgDecapToDefault ← nextNHG;
  _ ← setNHGID nhgDecapToDefault;
  _ ← addNH [NH_WithIndex nhID; NH_WithDecapsulateHeader IPinIP; NH_WithNetworkInstance defaultVRF;
             NH_WithNextHopNetworkInstance defaultVRF];
  _ ← addNHG [NHG_WithID nhgDecapToDefault; NHG_AddNextHop nhID 1; NHG_WithNetworkInstance defaultVRF];
  reEncapNHGRatio ← lift (goQuot (V4TunnelCount param) (V4ReEncapNHGCount param));
  nhgID ← nextNHG;
  _ ← setNHGID nhgID;
  calls ← reencapLoop tunnels nhgDecapToDefault reEncapNHGRatio 0 tunnels
    [NHG_WithID nhgID; NHG_WithNetworkInstance defaultVRF; NHG_WithBackupNHG nhgDecapToDefault];
  _ ← addNHG calls;
  _ ← setVIPs (NewIPPool vips);
  (* VRF_RP *)
  forEach (tunnelStep TabRD VRFRD nhgRedirectToVrfR tunnelNHGRatio) (indexed tunnels).

Definition startBuild (vips : list string) : Build :=
  {| b_ids := NewIDPool 10000; b_vips := NewIPPool vips; b_nhs := []; b_nhgs := []; b_default := [];
     b_t := []; b_r := []; b_rd := []; b_nhgID := 0 |}.

Definition BuildVRFConfig (egressIPs : list string) : go (list VRFConfig) :=
  tunnels ← GenerateIPs V4TunnelIPBlock (V4TunnelCount param);
  vips ← GenerateIPs V4VIPIPBlock vipCount;
  match buildVRFs egressIPs tunnels vips (startBuild vips) with
  | (Ret _, st) =>
      Ret [{| Name := defaultVRF; NHs := b_nhs st; NHGs := b_nhgs st; V4Entries := b_default st |};
           {| Name := VRFT; NHs := []; NHGs := []; V4Entries := b_t st |};
           {| Name := VRFR; NHs := []; NHGs := []; V4Entries := b_r st |};
           {| Name := VRFRD; NHs := []; NHGs := []; V4Entries := b_rd st |}]
  | (Fail e, _) => Fail e
  | (Panic, _) => Panic
  | (NoFuel, _) => NoFuel
  end.
End BuildVRFConfig.

(** ** Assignments return *)

Lemma returns_upd (f : Build -> Build) st (Q : unit -> Build -> Prop) : Q tt (f st) -> returns (upd f) st Q.
Proof. exists tt, (f st). by split. Qed.

(** ** What a configuration must satisfy *)

Section Correctness.
Context (defaultVRF : string) (param : Param) (vips egress : list string).

Definition nh_addr (cs : list NHCall) : option string :=
  last_of (fun c => match c with NH_WithIPAddress ip => Some ip | _ => None end) cs.
Definition hops_of (e : GRIBIEntry) : list Z := match e with NextHopGroupEntry cs => nhg_hops cs | _ => [] end.

(** The first [n] identifiers of a pool that starts at 10000. *)
Definition issued (n : nat) : list Z := uint64 <$> seqZ 10001 (Z.of_nat n).

(** A next hop that names an address names a VIP or an egress address. *)
Definition target_ok (e : GRIBIEntry) : Prop :=
  match e with
  | NextHopEntry cs => match nh_addr cs with Some ip => ip ∈ vips \/ ip ∈ egress | None => True end
  | _ => False
  end.

(** The group [id] is among [nhgs], with backup group [b]. *)
Definition served (nhgs : list GRIBIEntry) (b : option Z) (id : Z) : Prop :=
  exists cs, NextHopGroupEntry cs ∈ nhgs /\ nhg_NI cs = Some defaultVRF /\ nhg_id cs = Some id /\ nhg_backup cs = b.

(** The network instance of the entries of a table, and the backup of the groups
    that they use: [b1] redirects to VRF_R, [b2] decapsulates to the default VRF. *)
Definition table_NI (t : Table) : string :=
  match t with TabDefault => defaultVRF | TabT => VRFT | TabR => VRFR | TabRD => VRFRD end.
Definition table_backup (b1 : Z) (b2 : option Z) (t : Table) : option Z :=
  match t with TabDefault => None | TabT | TabRD => Some b1 | TabR => b2 end.

(** Group [b] has a single next hop, which [calls] describe. *)
Definition single (calls : list NHCall) (nhs nhgs : list GRIBIEntry) (b : Z) : Prop :=
  exists h, NextHopEntry (NH_WithIndex h :: calls) ∈ nhs /\
    NextHopGroupEntry [NHG_WithID b; NHG_AddNextHop h 1; NHG_WithNetworkInstance defaultVRF] ∈ nhgs.
Definition redirects := single [NH_WithNetworkInstance defaultVRF; NH_WithNextHopNetworkInstance VRFR].
Definition decaps := single [NH_WithDecapsulateHeader IPinIP; NH_WithNetworkInstance defaultVRF;
                             NH_WithNextHopNetworkInstance defaultVRF].

(** The entry for address [ip] in table [t], for a group that satisfies [P]. *)
Definition entry_for (P : Z -> Prop) (t : Table) (ip : string) (e : GRIBIEntry) : Prop :=
  exists id, e = IPv4Entry (v4Calls ip id (table_NI t) defaultVRF) /\ P id.

(** What the default VRF's next hops and groups satisfy: identifiers in the order
    they were issued, every next hop in exactly one group, backup groups among
    the groups. *)
Record hops_ok (nhs nhgs : list GRIBIEntry) (open : list Z) : Prop := {
  h_nhs : nh_keys nhs = (fun i => (defaultVRF, i)) <$> issued (length nhs);
  h_nhgs : nhg_keys nhgs = (fun i => (defaultVRF, i)) <$> issued (length nhgs);
  h_hops : concat (hops_of <$> nhgs) ++ open = issued (length nhs);
  h_backups : Forall (fun e => forall k, k ∈ nhg_refs e -> k ∈ nhg_keys nhgs) nhgs;
  h_targets : Forall target_ok nhs
}.

(** The invariant of the loops: [a] and [c] count next hops and groups with an
    identifier but no entry yet, [open] are the next hops of the group under
    construction and [pend] its identifier when entries of VRF_R use it already,
    [pre t] the addresses of table [t]. *)
Record good (b1 : Z) (b2 : option Z) (a c : Z) (open : list Z) (pend : option Z) (pre : Table -> list string) (st : Build) : Prop := {
  g_hops : hops_ok (b_nhs st) (b_nhgs st) open;
  g_nhIndex : nhIndex (b_ids st) = uint64 (10000 + Z.of_nat (length (b_nhs st)) + a);
  g_nhgIndex : nhgIndex (b_ids st) = uint64 (10000 + Z.of_nat (length (b_nhgs st)) + c);
  g_b1 : redirects (b_nhs st) (b_nhgs st) b1;
  g_b2 : forall b, b2 = Some b -> decaps (b_nhs st) (b_nhgs st) b;
  g_tables : forall t, Forall2 (entry_for (fun id => served (b_nhgs st) (table_backup b1 b2 t) id \/
                                                     t = TabR /\ pend = Some id) t) (pre t) (table t st)
}.

Definition ext (t : Table) (l : list string) (pre : Table -> list string) : Table -> list string :=
  fun t' => if decide (t = t') then pre t' ++ l else pre t'.

Lemma issued_S n : issued (S n) = issued n ++ [uint64 (10001 + Z.of_nat n)].
Proof. unfold issued. by rewrite Nat2Z.inj_succ, <- Z.add_1_r, seqZ_app, fmap_app by lia. Qed.

Lemma uint64_add_one v : uint64 (uint64 v + 1) = uint64 (v + 1).
Proof. unfold uint64. apply Zplus_mod_idemp_l. Qed.

Lemma served_mono nhgs e b id : served nhgs b id -> served (nhgs ++ [e]) b id.
Proof. intros (cs & Hin & Hr). exists cs. split; [apply elem_of_app; by left|done]. Qed.

Lemma single_mono calls nhs nhgs l k b : single calls nhs nhgs b -> single calls (nhs ++ l) (nhgs ++ k) b.
Proof. intros (h & H1 & H2). exists h. split; apply elem_of_app; by left. Qed.

Lemma single_nh calls nhs nhgs l b : single calls nhs nhgs b -> single calls (nhs ++ l) nhgs b.
Proof. intros H. rewrite <- (app_nil_r nhgs). by apply single_mono. Qed.

Lemma single_nhg calls nhs nhgs l b : single calls nhs nhgs b -> single calls nhs (nhgs ++ l) b.
Proof. intros H. rewrite <- (app_nil_r nhs). by apply single_mono. Qed.

Lemma single_key calls nhs nhgs b : single calls nhs nhgs b -> (defaultVRF, b) ∈ nhg_keys nhgs.
Proof. intros (h & _ & H). apply list_elem_of_omap. eexists. split; [exact H|done]. Qed.
Local Hint Resolve single_nh single_nhg single_key : core.

Lemma entry_mono (P Q : Z -> Prop) t l k : (forall id, P id -> Q id) ->
  Forall2 (entry_for P t) l k -> Forall2 (entry_for Q t) l k.
Proof. intros H HF. eapply Forall2_impl; [exact HF|]. intros ip e (id & -> & Hp). exists id. auto. Qed.

(** *** The primitive steps *)

Section Steps.
Context {b1 : Z} {b2 : option Z} {a c : Z} {open : list Z} {pend : option Z} {pre : Table -> list string} {st : Build}.
Context (G : good b1 b2 a c open pend pre st).

Lemma good_vips p : good b1 b2 a c open pend pre (put_vips p st).
Proof. destruct G. by split. Qed.
Lemma good_nhgID p : good b1 b2 a c open pend pre (put_nhgID p st).
Proof. destruct G. by split. Qed.

Lemma good_ext pre' : (forall t, pre' t = pre t) -> good b1 b2 a c open pend pre' st.
Proof. intros E. destruct G as [? ? ? ? ? H]. split; try done. intros t. rewrite E. apply H. Qed.

Lemma good_nextNH Q :
  (forall st', good b1 b2 (a + 1) c open pend pre st' ->
     b_nhs st' = b_nhs st -> b_vips st' = b_vips st -> b_nhgID st' = b_nhgID st ->
     b_nhgs st' = b_nhgs st -> Q (uint64 (10001 + Z.of_nat (length (b_nhs st)) + a)) st') ->
  returns nextNH st Q.
Proof.
  intros H. eexists _, _. split; [reflexivity|]. destruct G as [? Hn ? ? ? Ht]. rewrite Hn, uint64_add_one.
  replace (10000 + Z.of_nat (length (b_nhs st)) + a + 1) with (10001 + Z.of_nat (length (b_nhs st)) + a) by lia.
  apply H; try done. split; try done. simpl. f_equal. lia.
Qed.

Lemma good_nextNHG Q :
  (forall st', good b1 b2 a (c + 1) open pend pre st' ->
     b_nhgs st' = b_nhgs st -> b_vips st' = b_vips st ->
     b_nhs st' = b_nhs st -> Q (uint64 (10001 + Z.of_nat (length (b_nhgs st)) + c)) st') ->
  returns nextNHG st Q.
Proof.
  intros H. eexists _, _. split; [reflexivity|]. destruct G as [? ? Hn ? ? Ht]. rewrite Hn, uint64_add_one.
  replace (10000 + Z.of_nat (length (b_nhgs st)) + c + 1) with (10001 + Z.of_nat (length (b_nhgs st)) + c) by lia.
  apply H; try done. split; try done. simpl. f_equal. lia.
Qed.

Lemma good_addNH cs :
  mkKey (nh_NI cs) (nh_index cs) = Some (defaultVRF, uint64 (10001 + Z.of_nat (length (b_nhs st)))) ->
  target_ok (NextHopEntry cs) ->
  good b1 b2 (a - 1) c (open ++ [uint64 (10001 + Z.of_nat (length (b_nhs st)))]) pend pre (put_nh cs st).
Proof.
  intros Hk Ht. destruct G as [[H1 H2 H3 H4 H5] Hi ? HB1 HB2 HT].
  split; try done; [|simpl; rewrite Hi, length_app; simpl; f_equal; lia|by apply single_nh|intros b Hb; by apply single_nh, HB2].
  split; simpl; try done; rewrite ?length_app, ?Nat.add_1_r, ?issued_S.
  - rewrite omap_app, fmap_app, H1. f_equal. simpl. by rewrite Hk.
  - by rewrite app_assoc, H3.
  - apply Forall_app. split; [done|]. by constructor.
Qed.

Lemma good_addNHG cs rest :
  mkKey (nhg_NI cs) (nhg_id cs) = Some (defaultVRF, uint64 (10001 + Z.of_nat (length (b_nhgs st)))) ->
  open = nhg_hops cs ++ rest ->
  (forall b, nhg_backup cs = Some b -> b = b1 \/ b2 = Some b) ->
  good b1 b2 a (c - 1) rest pend pre (put_nhg cs st).
Proof.
  intros Hk -> Hb. destruct G as [[H1 H2 H3 H4 H5] ? Hi HB1 HB2 HT].
  assert (forall k, k ∈ nhg_keys (b_nhgs st) -> k ∈ nhg_keys (b_nhgs st ++ [NextHopGroupEntry cs])) as Hm
    by (intros k Hin; rewrite omap_app; apply elem_of_app; by left).
  split; simpl; auto; [| | |intros b Hb'; by apply single_nhg, HB2|].
  - split; try done; rewrite ?length_app, ?Nat.add_1_r, ?issued_S; simpl.
    + rewrite omap_app, fmap_app, H2. f_equal. simpl. by rewrite Hk.
    + rewrite fmap_app, concat_app, <- H3, <- !app_assoc. simpl. by rewrite app_nil_r.
    + apply Forall_app. split; [eapply Forall_impl; [exact H4|]; auto|]. constructor; [|constructor].
      intros k. simpl. destruct (nhg_NI cs) as [n|] eqn:En; [|by intros ?%elem_of_nil].
      destruct (nhg_id cs) as [i|] eqn:Ei; [|done]. injection Hk as -> ->.
      destruct (nhg_backup cs) as [b|] eqn:Eb; [|by intros ?%elem_of_nil].
      intros ->%list_elem_of_singleton. apply Hm. destruct (Hb b eq_refl) as [->|E]; [|apply HB2 in E]; by eapply single_key.
  - rewrite Hi, length_app. simpl. f_equal. lia.
  - by apply single_nhg.
  - intros t. assert (table t (put_nhg cs st) = table t st) as -> by by destruct t.
    eapply entry_mono; [|exact (HT t)]. intros id [Hs|Hp]; [left; by apply served_mono|by right].
Qed.

Lemma good_addV4 t ip id :
  served (b_nhgs st) (table_backup b1 b2 t) id \/ t = TabR /\ pend = Some id ->
  good b1 b2 a c open pend (ext t [ip] pre) (put_v4 t (v4Calls ip id (table_NI t) defaultVRF) st).
Proof.
  intros Hs. destruct G as [? ? ? ? ? HT]. split; try done. intros t'. unfold ext.
  assert (table t' (put_v4 t (v4Calls ip id (table_NI t) defaultVRF) st) =
    if decide (t = t') then table t' st ++ [IPv4Entry (v4Calls ip id (table_NI t) defaultVRF)] else table t' st) as ->
    by by destruct t'.
  case_decide as E; [subst t'|apply HT]. apply Forall2_app; [apply HT|]. constructor; [|constructor].
  by exists id.
Qed.
End Steps.

(** The group under construction is complete: its entries are served. *)
Lemma good_close b1 b2 a c open pre st cs id pend :
  good b1 b2 a c open (Some id) pre (put_nhg cs st) ->
  nhg_NI cs = Some defaultVRF -> nhg_id cs = Some id -> nhg_backup cs = b2 ->
  good b1 b2 a c open pend pre (put_nhg cs st).
Proof.
  intros [? ? ? ? ? HT] Hn Hi Hb. split; try done. intros t. eapply entry_mono; [|exact (HT t)].
  intros i [Hs|(-> & [= ->])]; [by left|]. left. exists cs. split_and!; try done. simpl.
  apply elem_of_app. right. left.
Qed.

(** *** The loops *)

Definition same_head (cs cs' : list NHGCall) : Prop :=
  nhg_NI cs' = nhg_NI cs /\ nhg_id cs' = nhg_id cs /\ nhg_backup cs' = nhg_backup cs.

Lemma same_head_hop cs cs' i w : same_head (cs ++ [NHG_AddNextHop i w]) cs' -> same_head cs cs'.
Proof.
  unfold same_head, nhg_NI, nhg_id, nhg_backup, last_of. rewrite !omap_app. simpl. by rewrite !app_nil_r.
Qed.

Lemma nhg_hops_hop cs i w : nhg_hops (cs ++ [NHG_AddNextHop i w]) = nhg_hops cs ++ [i].
Proof. unfold nhg_hops. by rewrite omap_app. Qed.

(** The pool of VIPs after [n] of them were taken. *)
Definition taken (n : Z) : IPPool := {| ips := vips; pool_index := n - 1 |}.

Lemma nextVIP_run n st : b_vips st = taken n -> 0 <= n < Z.of_nat (length vips) ->
  exists ip, ip ∈ vips /\ nextVIP st = (Ret ip, put_vips (taken (n + 1)) st).
Proof.
  intros Hv Hn. destruct (index_total vips n Hn) as (ip & Hi & Hl). exists ip.
  split; [by apply list_elem_of_lookup_2 in Hl|]. unfold nextVIP, NextIP. rewrite Hv. simpl.
  replace (n - 1 + 1) with n by lia. rewrite Hi. unfold taken. by replace (n + 1 - 1) with n by lia.
Qed.

(** A next hop to address [ip] is created and added to the group under construction. *)
Lemma addHop_run b1 b2 c pend pre st calls ip (A : Type) (k : Z -> gost Build A) Q :
  good b1 b2 0 c (nhg_hops calls) pend pre st -> ip ∈ vips \/ ip ∈ egress ->
  (forall nhID st', good b1 b2 0 c (nhg_hops (calls ++ [NHG_AddNextHop nhID 1])) pend pre st' ->
     b_nhgs st' = b_nhgs st -> b_vips st' = b_vips st -> b_nhgID st' = b_nhgID st -> returns (k nhID) st' Q) ->
  returns (nhID ← nextNH;
           _ ← addNH [NH_WithIndex nhID; NH_WithNetworkInstance defaultVRF; NH_WithIPAddress ip];
           k nhID) st Q.
Proof.
  intros G Hip Hk. apply returns_bind. apply (good_nextNH G). intros st1 G1 E1 E2 E3 E4.
  apply returns_bind, returns_upd. rewrite Z.add_0_r.
  apply Hk; [|done..]. rewrite nhg_hops_hop. rewrite <- E1.
  replace 0 with (0 + 1 - 1) at 1 by lia. apply (good_addNH G1); done.
Qed.

Lemma splitLoop_ok b1 b2 c pend pre n : forall calls st i,
  good b1 b2 0 c (nhg_hops calls) pend pre st -> b_vips st = taken i ->
  0 <= i -> i + Z.of_nat n <= Z.of_nat (length vips) ->
  returns (splitLoop defaultVRF n calls) st (fun calls' st' =>
    good b1 b2 0 c (nhg_hops calls') pend pre st' /\ same_head calls calls' /\
    b_nhgs st' = b_nhgs st /\ b_nhgID st' = b_nhgID st /\ b_vips st' = taken (i + Z.of_nat n)).
Proof.
  induction n as [|n IH]; intros calls st i G Hv Hi Hn.
  - apply returns_ret. rewrite Z.add_0_r. done.
  - cbn [splitLoop]. destruct (nextVIP_run i st Hv ltac:(lia)) as (ip & Hip & Hr).
    apply returns_bind. exists ip, (put_vips (taken (i + 1)) st). split; [done|].
    eapply (addHop_run _ _ _ _ _ _ calls); [by apply good_vips|by left|].
    intros nhID st' G' E1 E2 E3. eapply returns_mono; [apply (IH _ _ (i + 1)); [exact G'|done|lia|lia]|].
    intros calls' st'' (G'' & Hh & H1 & H2 & H3). split_and!; [done| | | |].
    + by eapply same_head_hop.
    + by rewrite H1, E1.
    + by rewrite H2, E3.
    + rewrite H3. f_equal. lia.
Qed.

Lemma egressLoop_ok b1 b2 c pend pre n : forall i calls st,
  good b1 b2 0 c (nhg_hops calls) pend pre st ->
  0 <= i -> i + Z.of_nat n <= Z.of_nat (length egress) ->
  returns (egressLoop defaultVRF egress i n calls) st (fun calls' st' =>
    good b1 b2 0 c (nhg_hops calls') pend pre st' /\ same_head calls calls' /\ b_nhgs st' = b_nhgs st).
Proof.
  induction n as [|n IH]; intros i calls st G Hi Hn; [by apply returns_ret|].
  cbn [egressLoop]. destruct (index_total egress i ltac:(lia)) as (ip & Hip & Hl).
  apply returns_bind. eapply returns_lift; [exact Hip|].
  apply list_elem_of_lookup_2 in Hl. eapply (addHop_run _ _ _ _ _ _ calls); [done|by right|].
  intros nhID st' G' E1 E2 E3. eapply returns_mono; [apply (IH (i + 1)); [exact G'|lia|lia]|].
  intros calls' st'' (G'' & Hh & H1). split_and!; [done|by eapply same_head_hop|congruence].
Qed.

(** A complete group, added as the last one, serves its identifier. *)
Lemma served_last nhgs cs b id :
  nhg_NI cs = Some defaultVRF -> nhg_id cs = Some id -> nhg_backup cs = b ->
  served (nhgs ++ [NextHopGroupEntry cs]) b id.
Proof. intros H1 H2 H3. exists cs. split_and!; try done. apply elem_of_app. right. left. Qed.

Lemma ext_cons t x l pre t' : ext t (x :: l) pre t' = ext t l (ext t [x] pre) t'.
Proof. unfold ext. case_decide; [by rewrite <- app_assoc|done]. Qed.
Lemma ext_nil t pre t' : ext t [] pre t' = pre t'.
Proof. unfold ext. case_decide; [by rewrite app_nil_r|done]. Qed.

Lemma vips_ok b1 b2 l : forall pre st,
  good b1 b2 0 0 [] None pre st -> EgressNHGSplitCount param <= Z.of_nat (length egress) ->
  returns (forEach (vipStep defaultVRF param egress) l) st (fun _ st' =>
    good b1 b2 0 0 [] None (ext TabDefault l pre) st').
Proof.
  induction l as [|ip l IH]; intros pre st G He.
  { apply returns_ret. apply (good_ext G), ext_nil. }
  cbn [forEach]. apply returns_bind. unfold vipStep. apply returns_bind, (good_nextNHG G).
  intros st1 G1 E1 E2 E3. rewrite Z.add_0_r. set (id := uint64 _). apply returns_bind.
  eapply returns_mono; [apply (egressLoop_ok b1 b2 (0 + 1) None pre _ 0 [NHG_WithID id; NHG_WithNetworkInstance defaultVRF]);
    [exact G1|lia|lia]|].
  intros calls st2 (G2 & (Hn & Hi & Hb) & E4). simpl in Hn, Hi, Hb.
  apply returns_bind, returns_upd. apply returns_upd.
  eapply returns_mono; [apply (IH (ext TabDefault [ip] pre)); [|done]|].
  - change defaultVRF with (table_NI TabDefault) at 2. apply good_addV4; [|left; by apply served_last].
    replace 0 with (0 + 1 - 1) at 2 by lia. apply (good_addNHG G2); [|by rewrite app_nil_r|].
    + by rewrite Hn, Hi, E4, E1.
    + rewrite Hb. discriminate.
  - intros [] st' G'. eapply good_ext; [exact G'|]. intros. apply ext_cons.
Qed.

(** The groups started before address [k], one every [r] addresses. *)
Definition groupsBefore (r k : Z) : Z := (k + r - 1) / r.

Lemma groupsBefore_succ r k : 0 < r -> 0 <= k ->
  groupsBefore r (k + 1) = groupsBefore r k + (if Z.rem k r =? 0 then 1 else 0).
Proof.
  intros Hr Hk. unfold groupsBefore. rewrite Z.rem_mod_nonneg by lia.
  pose proof (Z.div_mod k r ltac:(lia)) as Hd. pose proof (Z.mod_pos_bound k r Hr) as Hm.
  set (q := k / r) in *. set (m := k mod r) in *. destruct (Z.eqb_spec m 0) as [E|E].
  - rewrite <- (Z.div_unique_pos (k + 1 + r - 1) r (q + 1) 0) by lia.
    rewrite <- (Z.div_unique_pos (k + r - 1) r q (r - 1)) by lia. lia.
  - rewrite <- (Z.div_unique_pos (k + 1 + r - 1) r (q + 1) m) by lia.
    rewrite <- (Z.div_unique_pos (k + r - 1) r (q + 1) (m - 1)) by lia. lia.
Qed.

Lemma groupsBefore_mono r k k' : 0 < r -> k <= k' -> groupsBefore r k <= groupsBefore r k'.
Proof. intros Hr Hk. apply Z.div_le_mono; lia. Qed.

(** A group of [V4TunnelNHGSplitCount] next hops to fresh VIPs. *)
Lemma newGroup_ok b1 b2 pre st i :
  let split := V4TunnelNHGSplitCount param in
  good b1 b2 0 0 [] None pre st -> b_vips st = taken i -> 0 <= split -> 0 <= i ->
  i + split <= Z.of_nat (length vips) ->
  returns (nhgID ← nextNHG;
           _ ← setNHGID nhgID;
           calls ← splitLoop defaultVRF (Z.to_nat split)
             [NHG_WithID nhgID; NHG_WithNetworkInstance defaultVRF; NHG_WithBackupNHG b1];
           addNHG calls) st (fun _ st' =>
    good b1 b2 0 0 [] None pre st' /\ b_vips st' = taken (i + split) /\ served (b_nhgs st') (Some b1) (b_nhgID st')).
Proof.
  intros split G Hv Hs Hi Hn. apply returns_bind, (good_nextNHG G). intros st1 G1 E1 E2 E3.
  rewrite Z.add_0_r. set (id := uint64 _). apply returns_bind, returns_upd. apply returns_bind.
  eapply returns_mono; [apply (splitLoop_ok b1 b2 (0 + 1) None pre _
    [NHG_WithID id; NHG_WithNetworkInstance defaultVRF; NHG_WithBackupNHG b1] _ i);
    [by apply good_nhgID|by rewrite <- Hv|done|lia]|].
  intros calls st2 (G2 & (Hcn & Hci & Hcb) & E4 & E5 & E6). simpl in Hcn, Hci, Hcb. apply returns_upd. split_and!.
  - replace 0 with (0 + 1 - 1) at 2 by lia. apply (good_addNHG G2); [|by rewrite app_nil_r|].
    + by rewrite Hcn, Hci, E4; simpl; rewrite E1.
    + rewrite Hcb. intros b [= <-]. by left.
  - simpl. rewrite E6. f_equal. lia.
  - simpl. rewrite E5. by apply served_last.
Qed.

Lemma tunnels_ok b1 b2 tab r l : forall k pre st,
  let split := V4TunnelNHGSplitCount param in
  tab = TabT \/ tab = TabRD -> 0 < r -> 0 <= k -> 0 <= split ->
  split * groupsBefore r (k + Z.of_nat (length l)) <= Z.of_nat (length vips) ->
  good b1 b2 0 0 [] None pre st -> b_vips st = taken (split * groupsBefore r k) ->
  (Z.rem k r <> 0 -> served (b_nhgs st) (Some b1) (b_nhgID st)) ->
  returns (forEach (tunnelStep defaultVRF param tab (table_NI tab) b1 r) (zip (seqZ k (Z.of_nat (length l))) l)) st
    (fun _ st' => good b1 b2 0 0 [] None (ext tab l pre) st').
Proof.
  induction l as [|ip l IH]; intros k pre st split Ht Hr Hk Hs Hn G Hv Hg.
  { apply returns_ret. apply (good_ext G), ext_nil. }
  rewrite length_cons, Nat2Z.inj_succ, seqZ_cons, Z.pred_succ by lia. cbn [zip zip_with forEach].
  rewrite length_cons, Nat2Z.inj_succ in Hn.
  assert (0 <= groupsBefore r k) by (apply Z.div_pos; lia).
  pose proof (groupsBefore_succ r k Hr Hk) as Hsucc.
  pose proof (groupsBefore_mono r (k + 1) (k + Z.succ (Z.of_nat (length l))) Hr ltac:(lia)) as Hmono.
  assert (table_backup b1 b2 tab = Some b1) as Hb by by destruct Ht as [->| ->].
  apply returns_bind. unfold tunnelStep at 1. apply returns_bind.
  eapply returns_lift; [unfold goRem; rewrite (proj2 (Z.eqb_neq r 0)) by lia; reflexivity|].
  apply returns_bind.
  eapply (returns_mono _ _ (fun _ st' => good b1 b2 0 0 [] None pre st' /\
    b_vips st' = taken (split * groupsBefore r (k + 1)) /\ served (b_nhgs st') (Some b1) (b_nhgID st'))).
  - rewrite Hsucc. destruct (Z.eqb_spec (Z.rem k r) 0) as [E|E].
    + rewrite Z.mul_add_distr_l, Z.mul_1_r. apply newGroup_ok; try done; nia.
    + rewrite Z.add_0_r. apply returns_ret. auto.
  - intros [] st1 (G1 & Hv1 & Hg1). apply returns_bind. exists (b_nhgID st1), st1. split; [done|].
    apply returns_upd. eapply returns_mono; [apply (IH (k + 1) (ext tab [ip] pre)); try done; try lia|].
    + by replace (k + 1 + Z.of_nat (length l)) with (k + Z.succ (Z.of_nat (length l))) by lia.
    + apply good_addV4; [done|]. rewrite Hb. by left.
    + intros [] st' G'. eapply good_ext; [exact G'|]. intros. apply ext_cons.
Qed.

(** The group under construction in VRF_R is the next one to be added. *)
Definition building (b2 : Z) (calls : list NHGCall) (st : Build) : Prop :=
  b_nhgID st = uint64 (10001 + Z.of_nat (length (b_nhgs st))) /\
  nhg_NI calls = Some defaultVRF /\ nhg_id calls = Some (b_nhgID st) /\ nhg_backup calls = Some b2.

Lemma building_hop b2 calls st st' i w :
  building b2 calls st -> b_nhgs st' = b_nhgs st -> b_nhgID st' = b_nhgID st ->
  building b2 (calls ++ [NHG_AddNextHop i w]) st'.
Proof.
  unfold building, nhg_NI, nhg_id, nhg_backup, last_of. rewrite !omap_app. simpl. rewrite !app_nil_r.
  by intros H -> ->.
Qed.

Lemma building_close b1 b2 rest pre calls st :
  good b1 (Some b2) 0 1 (nhg_hops calls ++ rest) (Some (b_nhgID st)) pre st -> building b2 calls st ->
  forall pend, good b1 (Some b2) 0 0 rest pend pre (put_nhg calls st).
Proof.
  intros G (E & Hn & Hi & Hb) pend. eapply good_close; [|done..].
  replace 0 with (1 - 1) at 2 by lia. apply (good_addNHG G); [|done|].
  - by rewrite Hn, Hi, E.
  - rewrite Hb. intros b [= <-]. by right.
Qed.

(** The next hop for the [idx]-th address: decapsulation and a tunnel to the next one. *)
Lemma addReencap_run b1 b2 pend pre open st idx tunnels (A : Type) (k : Z -> gost Build A) Q :
  good b1 (Some b2) 0 1 open pend pre st -> 0 <= idx -> tunnels <> [] ->
  (forall nhID st', good b1 (Some b2) 0 1 (open ++ [nhID]) pend pre st' ->
     b_nhgs st' = b_nhgs st -> b_nhgID st' = b_nhgID st -> returns (k nhID) st' Q) ->
  returns (nhID ← nextNH;
           j ← lift (goRem (idx + 1) (Z.of_nat (length tunnels)));
           dst ← lift (index tunnels j);
           _ ← addNH [NH_WithIndex nhID; NH_WithDecapsulateHeader IPinIP; NH_WithEncapsulateHeader IPinIP;
                      NH_WithNetworkInstance defaultVRF; NH_WithIPinIP tunnelSrcIP dst];
           k nhID) st Q.
Proof.
  intros G Hi Ht Hk. apply returns_bind, (good_nextNH G). intros st1 G1 E1 E2 E3 E4. rewrite Z.add_0_r.
  assert (0 < Z.of_nat (length tunnels)) by (destruct tunnels; [done|simpl; lia]).
  destruct (goRem_pos (idx + 1) (Z.of_nat (length tunnels))) as (j & Hj & Hb); [lia|lia|].
  destruct (index_total tunnels j Hb) as (dst & Hd & _).
  apply returns_bind. eapply returns_lift; [exact Hj|]. apply returns_bind. eapply returns_lift; [exact Hd|].
  apply returns_bind, returns_upd. apply Hk; [|done..]. rewrite <- E1.
  replace 0 with (0 + 1 - 1) at 1 by lia. by apply (good_addNH G1).
Qed.

Lemma reencap_ok b1 b2 tunnels r l : forall idx calls pre st,
  tunnels <> [] -> 0 < r -> 0 <= idx ->
  good b1 (Some b2) 0 1 (nhg_hops calls) (Some (b_nhgID st)) pre st -> building b2 calls st ->
  returns (reencapLoop defaultVRF tunnels b2 r idx l calls) st (fun calls' st' =>
    good b1 (Some b2) 0 1 (nhg_hops calls') (Some (b_nhgID st')) (ext TabR l pre) st' /\ building b2 calls' st').
Proof.
  induction l as [|ip l IH]; intros idx calls pre st Ht Hr Hi G HB.
  { apply returns_ret. split; [apply (good_ext G), ext_nil|done]. }
  cbn [reencapLoop]. eapply addReencap_run; [exact G|done|done|]. intros nhID st1 G1 E1 E2.
  apply returns_bind. eapply (returns_lift _ (if idx =? 0 then 1 else Z.rem idx r)).
  { destruct (idx =? 0); [done|]. unfold goRem. by rewrite (proj2 (Z.eqb_neq r 0)) by lia. }
  apply returns_bind.
  eapply (returns_mono _ _ (fun calls' st' => good b1 (Some b2) 0 1 (nhg_hops calls' ++ [nhID]) (Some (b_nhgID st')) pre st' /\
    building b2 calls' st')).
  - rewrite <- E2 in G1. assert (building b2 calls st1) as HB1 by (unfold building in *; by rewrite E1, E2).
    destruct (_ =? 0); [|by apply returns_ret].
    apply returns_bind, returns_upd. pose proof (building_close _ _ _ _ _ _ G1 HB1 None) as G2.
    apply returns_bind, (good_nextNHG G2). intros st3 G3 E3 E4 E5. rewrite Z.add_0_r in *. set (id := uint64 _).
    apply returns_bind, returns_upd. apply returns_ret. split; [|by split; [simpl; rewrite E3|]].
    destruct G3 as [? ? ? ? ? HT]. split; try done. intros t. eapply entry_mono; [|exact (HT t)].
    intros i [Hs|[_ [=]]]. by left.
  - intros calls' st2 (G2 & HB2). apply returns_bind. exists (b_nhgID st2), st2. split; [done|].
    apply returns_bind, returns_upd. eapply returns_mono; [apply (IH (idx + 1) _ (ext TabR [ip] pre)); try done; try lia|].
    + rewrite nhg_hops_hop. change VRFR with (table_NI TabR). apply (good_addV4 G2). by right.
    + by eapply building_hop.
    + intros cs st' (G' & HB'). split; [|done]. eapply good_ext; [exact G'|]. intros. apply ext_cons.
Qed.

(** *** The whole function *)

Lemma good_set_b2 b1 b pre st :
  good b1 None 0 0 [] None pre st -> pre TabR = [] -> decaps (b_nhs st) (b_nhgs st) b ->
  good b1 (Some b) 0 0 [] None pre st.
Proof.
  intros [? ? ? ? _ HT] Hp Hd. split; try done; [by intros ? [= <-]|].
  intros t. specialize (HT t). destruct t; try done. rewrite Hp in *.
  apply Forall2_nil_inv_l in HT. rewrite HT. constructor.
Qed.

Definition emptyPre : Table -> list string := fun _ => [].

Lemma redirect_ok (A : Type) (k : Z -> gost Build A) Q :
  (forall st, good 10001 None 0 0 [] None emptyPre st -> b_vips st = taken 0 -> returns (k 10001) st Q) ->
  returns (nhgRedirectToVrfR ← nextNHG;
           _ ← setNHGID nhgRedirectToVrfR;
           nhID ← nextNH;
           _ ← addNH [NH_WithIndex nhID; NH_WithNetworkInstance defaultVRF; NH_WithNextHopNetworkInstance VRFR];
           _ ← addNHG [NHG_WithID nhgRedirectToVrfR; NHG_AddNextHop nhID 1; NHG_WithNetworkInstance defaultVRF];
           k nhgRedirectToVrfR) (startBuild vips) Q.
Proof.
  intros Hk. do 5 (apply returns_bind; eexists _, _; split; [reflexivity|]).
  replace (uint64 _) with 10001 by reflexivity. apply Hk; [|done].
  split; try done.
  - split; try done; [|by constructor]. constructor; [|constructor]. by intros k' ?%elem_of_nil.
  - exists 10001. split; left.
  - intros t. destruct t; constructor.
Qed.

Lemma decap_ok b1 pre st (A : Type) (k : Z -> gost Build A) Q :
  good b1 None 0 0 [] None pre st -> pre TabR = [] ->
  (forall b st', good b1 (Some b) 0 0 [] None pre st' -> returns (k b) st' Q) ->
  returns (nhID ← nextNH;
           nhgDecapToDefault ← nextNHG;
           _ ← setNHGID nhgDecapToDefault;
           _ ← addNH [NH_WithIndex nhID; NH_WithDecapsulateHeader IPinIP; NH_WithNetworkInstance defaultVRF;
                      NH_WithNextHopNetworkInstance defaultVRF];
           _ ← addNHG [NHG_WithID nhgDecapToDefault; NHG_AddNextHop nhID 1; NHG_WithNetworkInstance defaultVRF];
           k nhgDecapToDefault) st Q.
Proof.
  intros G Hp Hk. apply returns_bind, (good_nextNH G). intros st1 G1 E1 _ _ E2. rewrite Z.add_0_r.
  apply returns_bind, (good_nextNHG G1). intros st2 G2 E3 _ E4. rewrite Z.add_0_r.
  set (g := uint64 _). set (h := uint64 _).
  assert (h = uint64 (10001 + Z.of_nat (length (b_nhs st2)))) as Hh by by rewrite E4, E1.
  assert (g = uint64 (10001 + Z.of_nat (length (b_nhgs st2)))) as Hg by by rewrite E3.
  pose proof (good_addNH (good_nhgID G2 g) [NH_WithIndex h; NH_WithDecapsulateHeader IPinIP;
    NH_WithNetworkInstance defaultVRF; NH_WithNextHopNetworkInstance defaultVRF]) as G3.
  simpl in G3. rewrite <- Hh in G3. specialize (G3 eq_refl I).
  pose proof (good_addNHG G3 [NHG_WithID g; NHG_AddNextHop h 1; NHG_WithNetworkInstance defaultVRF] []) as G4.
  simpl in G4. rewrite <- Hg in G4. specialize (G4 eq_refl eq_refl ltac:(discriminate)).
  do 3 (apply returns_bind, returns_upd). apply Hk. apply good_set_b2; [exact G4|done|].
  eexists. split; simpl; apply elem_of_app; right; left.
Qed.

(** The four tables that [BuildVRFConfig] must fill, and the groups they need. *)
Definition vrfs_ok (tunnels : list string) (nhs nhgs d t r rd : list GRIBIEntry) : Prop :=
  exists b1 b2, hops_ok nhs nhgs [] /\ redirects nhs nhgs b1 /\ decaps nhs nhgs b2 /\
    Forall2 (entry_for (served nhgs None) TabDefault) vips d /\
    Forall2 (entry_for (served nhgs (Some b1)) TabT) tunnels t /\
    Forall2 (entry_for (served nhgs (Some b2)) TabR) tunnels r /\
    Forall2 (entry_for (served nhgs (Some b1)) TabRD) tunnels rd.

Lemma good_vrfs b1 b2 pre st tunnels :
  good b1 (Some b2) 0 0 [] None pre st ->
  (forall t, pre t = match t with TabDefault => vips | _ => tunnels end) ->
  vrfs_ok tunnels (b_nhs st) (b_nhgs st) (b_default st) (b_t st) (b_r st) (b_rd st).
Proof.
  intros [? ? ? ? HB HT] Hp. exists b1, b2. split_and!; try done; [by apply HB|..].
  all: [> specialize (HT TabDefault)|specialize (HT TabT)|specialize (HT TabR)|specialize (HT TabRD)];
    rewrite Hp in HT; eapply entry_mono; try exact HT; intros id [Hs|[_ [=]]]; exact Hs.
Qed.

Definition ratio (n : Z) : Z := Z.quot (V4TunnelCount param) n.

(** Both divisors give a positive ratio, and there are enough VIPs and egress addresses. *)
Record sizes_ok (tunnels : list string) : Prop := {
  s_groups : 0 < V4TunnelNHGCount param <= V4TunnelCount param;
  s_reencap : 0 < V4ReEncapNHGCount param <= V4TunnelCount param;
  s_split : 0 <= V4TunnelNHGSplitCount param;
  s_tunnels : tunnels <> [];
  s_vips : V4TunnelNHGSplitCount param *
    groupsBefore (ratio (V4TunnelNHGCount param)) (Z.of_nat (length tunnels)) <= Z.of_nat (length vips);
  s_egress : EgressNHGSplitCount param <= Z.of_nat (length egress)
}.

Lemma ratio_pos n : 0 < n <= V4TunnelCount param -> 0 < ratio n /\ goQuot (V4TunnelCount param) n = Ret (ratio n).
Proof.
  intros Hn. unfold ratio, goQuot. rewrite (proj2 (Z.eqb_neq n 0)) by lia. split; [|done].
  apply Z.quot_str_pos. lia.
Qed.

Lemma groupsBefore_0 r : 0 < r -> groupsBefore r 0 = 0.
Proof. intros Hr. apply Z.div_small. lia. Qed.

Lemma tunnels_start b1 b2 tab tunnels pre st :
  sizes_ok tunnels -> tab = TabT \/ tab = TabRD -> good b1 b2 0 0 [] None pre st -> b_vips st = taken 0 ->
  returns (forEach (tunnelStep defaultVRF param tab (table_NI tab) b1 (ratio (V4TunnelNHGCount param)))
             (indexed tunnels)) st (fun _ st' => good b1 b2 0 0 [] None (ext tab tunnels pre) st').
Proof.
  intros [Hg Hre Hsp Hne Hv He] Ht G Hp. destruct (ratio_pos _ Hg) as [Hr _].
  apply tunnels_ok; try done. by rewrite groupsBefore_0, Z.mul_0_r.
Qed.

Lemma buildVRFs_ok tunnels : sizes_ok tunnels ->
  returns (buildVRFs defaultVRF param egress tunnels vips) (startBuild vips) (fun _ st =>
    vrfs_ok tunnels (b_nhs st) (b_nhgs st) (b_default st) (b_t st) (b_r st) (b_rd st)).
Proof.
  intros Hsz. pose proof Hsz as [Hg Hre Hsp Hne Hv He].
  destruct (ratio_pos _ Hg) as [Hr Hq]. destruct (ratio_pos _ Hre) as [Hr' Hq'].
  unfold buildVRFs. apply redirect_ok. intros st G Hp.
  apply returns_bind. eapply returns_lift; [exact Hq|]. apply returns_bind.
  eapply returns_mono; [apply (tunnels_start _ _ TabT _ _ _ Hsz ltac:(by left) G Hp)|]. clear G Hp. intros [] st1 G1.
  apply returns_bind. eapply returns_mono; [apply (vips_ok _ _ _ _ _ G1 He)|]. clear G1. intros [] st2 G2.
  apply (decap_ok _ _ _ _ _ _ G2); [done|]. clear G2. intros b2 st3 G3.
  apply returns_bind. eapply returns_lift; [exact Hq'|]. apply returns_bind, (good_nextNHG G3).
  intros st4 G4 E1 _ _. rewrite Z.add_0_r. apply returns_bind, returns_upd. apply returns_bind.
  eapply returns_mono; [apply (reencap_ok 10001 b2 tunnels _ tunnels 0); try done|].
  { apply good_nhgID. destruct G4 as [? ? ? ? ? HT]. split; try done. intros t. eapply entry_mono; [|exact (HT t)].
    intros i [Hs|[_ [=]]]. by left. }
  { split; [simpl; by rewrite E1|done]. }
  clear G3 G4. intros calls st5 (G5 & HB).
  rewrite <- (app_nil_r (nhg_hops calls)) in G5. apply returns_bind, returns_upd. apply returns_bind, returns_upd.
  eapply returns_mono; [apply (tunnels_start 10001 (Some b2) TabRD); [done|by right|apply good_vips;
    by apply building_close|done]|].
  intros [] st' G'. eapply good_vrfs; [exact G'|]. by intros [].
Qed.
End Correctness.

(** C13: when each ratio of tunnels to groups is positive and there are enough VIPs
    and egress addresses, [BuildVRFConfig] returns the four VRFs: one entry per
    address, in order, each for a group of the default VRF; the groups of VRF_T and
    also those of VRF_RD back up to the group that redirects to VRF_R, those of VRF_R
    to the one that decapsulates to the default VRF; identifiers are issued in order
    and every next hop is in exactly one group.  For VRF_RD this is not what the
    comment of the source says: the groups of that VRF are to decapsulate to the
    default, but the code names the redirect to VRF_R, as for VRF_T. *)
Theorem BuildVRFConfig_scaled (defaultVRF : string) (param : Param) (egress : list string) :
  0 < V4TunnelNHGCount param <= V4TunnelCount param -> V4TunnelCount param <= 65536 ->
  0 < V4ReEncapNHGCount param <= V4TunnelCount param -> 0 <= V4TunnelNHGSplitCount param ->
  V4TunnelNHGSplitCount param * groupsBefore (ratio param (V4TunnelNHGCount param)) (V4TunnelCount param)
    <= Z.min (vipCount param) 1024 ->
  EgressNHGSplitCount param <= Z.of_nat (length egress) ->
  exists tunnels vips nhs nhgs d t r rd,
    GenerateIPs V4TunnelIPBlock (V4TunnelCount param) = Ret tunnels /\
    Z.of_nat (length tunnels) = V4TunnelCount param /\
    GenerateIPs V4VIPIPBlock (vipCount param) = Ret vips /\
    BuildVRFConfig defaultVRF param egress =
      Ret [{| Name := defaultVRF; NHs := nhs; NHGs := nhgs; V4Entries := d |};
           {| Name := VRFT; NHs := []; NHGs := []; V4Entries := t |};
           {| Name := VRFR; NHs := []; NHGs := []; V4Entries := r |};
           {| Name := VRFRD; NHs := []; NHGs := []; V4Entries := rd |}] /\
    vrfs_ok defaultVRF vips egress tunnels nhs nhgs d t r rd.
Proof.
  intros Hg HT Hre Hs Hv He.
  assert (0 <= vipCount param) as H0 by (unfold vipCount; nia).
  destruct (GenerateIPs_cases V4TunnelIPBlock (V4TunnelCount param)
    {| net_IP := [198; 18; 0; 0]; net_Mask := [255; 255; 0; 0]; net_ones := 16 |})
    as (tunnels & Ht & _ & Lt & _); [reflexivity|reflexivity|lia|].
  destruct (GenerateIPs_cases V4VIPIPBlock (vipCount param)
    {| net_IP := [198; 18; 196; 0]; net_Mask := [255; 255; 252; 0]; net_ones := 22 |})
    as (vips & Hvips & _ & Lv & _); [reflexivity|reflexivity|lia|].
  simpl in Lt, Lv. change (2 ^ 16) with 65536 in Lt. change (2 ^ 10) with 1024 in Lv.
  rewrite Z.min_l in Lt by lia.
  destruct (buildVRFs_ok defaultVRF param vips egress tunnels) as ([] & st & Hb & Hok).
  { split; try done; [intros ->; simpl in Lt; lia|]. by rewrite Lt, Lv. }
  exists tunnels, vips. do 6 eexists. split; [exact Ht|]. split; [exact Lt|]. split; [exact Hvips|].
  split; [|exact Hok]. unfold BuildVRFConfig. rewrite Ht. cbn [mbind outcome_bind]. rewrite Hvips.
  cbn [mbind outcome_bind]. by rewrite Hb.
Qed.

Definition smallScale : Param :=
  {| V4TunnelCount := 8; V4TunnelNHGCount := 4; V4TunnelNHGSplitCount := 2; EgressNHGSplitCount := 2;
     V4ReEncapNHGCount := 2 |}.

Lemma BuildVRFConfig_scaled_witness : exists cfgs,
  BuildVRFConfig "DEFAULT" smallScale ["192.0.2.1"; "192.0.2.5"] = Ret cfgs /\ length cfgs = 4%nat.
Proof.
  destruct (BuildVRFConfig_scaled "DEFAULT" smallScale ["192.0.2.1"; "192.0.2.5"])
    as (? & ? & ? & ? & ? & ? & ? & ? & ? & ? & ? & H & _); [vm_compute; try split; discriminate || reflexivity..|].
  rewrite H. eexists. by split.
Defined.

(** The pool of VIPs is sized for [V4TunnelNHGCount] groups, but a group starts
    every [V4TunnelCount / V4TunnelNHGCount] tunnels, rounded down: with a remainder
    there are more groups, and the pool can run out. *)
Example uneven_split_panics :
  BuildVRFConfig "DEFAULT"
    {| V4TunnelCount := 10; V4TunnelNHGCount := 4; V4TunnelNHGSplitCount := 3; EgressNHGSplitCount := 1;
       V4ReEncapNHGCount := 2 |} ["192.0.2.1"] = Panic.
Proof. vm_compute. reflexivity. Qed.
