(* ===== verification/Deviations.v ===== *)
(** * Deviations

    [src/internal/deviations]: the deviations of the device under test are looked
    up in the test's metadata by vendor, hardware model and software version, and
    each accessor of [deviations.go] reads one field of the message; those of
    [byexceptions.go] look at a command line flag first.  The message is the
    struct [Metadata_Deviations] of [src/proto/metadata_go_proto/metadata.pb.go]:
    a map from field names to values, in which an unset field reads as the zero
    value of its type.  Matching of regular expressions is a parameter. *)
From stdpp Require Import base list gmap strings.
From Stdlib Require Import ZArith Lia SpecFloat.
From S2P Require Import Prelude.
From S2P Require Import GoStrings.
Local Open Scope Z_scope.

(** ** The message *)

Inductive Kind := KBool | KString | KUint32 | KUint64 | KInt32 | KDouble.
#[global] Instance Kind_eq_dec : EqDecision Kind.
Proof. solve_decision. Defined.

Inductive Value :=
| VBool (b : bool)
| VString (s : string)
| VUint32 (z : Z)
| VUint64 (z : Z)
| VInt32 (z : Z)
| VDouble (x : spec_float).

Definition denote (k : Kind) : Type :=
  match k with KBool => bool | KString => string | KUint32 | KUint64 | KInt32 => Z | KDouble => spec_float end.
Definition zero (k : Kind) : denote k :=
  match k with
  | KBool => false | KString => "" | KUint32 | KUint64 | KInt32 => 0 | KDouble => S754_zero false
  end.
Definition payload (k : Kind) (v : Value) : option (denote k) :=
  match k, v with
  | KBool, VBool b => Some b
  | KString, VString s => Some s
  | KUint32, VUint32 z | KUint64, VUint64 z | KInt32, VInt32 z => Some z
  | KDouble, VDouble x => Some x
  | _, _ => None
  end.

(** The fields of the struct and their types. *)
Definition fields : list (string * Kind) := [
  ("Ipv4MissingEnabled", KBool);
  ("TracerouteFragmentation", KBool);
  ("TracerouteL4ProtocolUdp", KBool);
  ("PrepolicyReceivedRoutes", KBool);
  ("HierarchicalWeightResolutionTolerance", KDouble);
  ("IsisMultiTopologyUnsupported", KBool);
  ("IsisInterfaceLevel1DisableRequired", KBool);
  ("IsisSingleTopologyRequired", KBool);
  ("IsisInstanceEnabledRequired", KBool);
  ("MissingIsisInterfaceAfiSafiEnable", KBool);
  ("IsisGlobalAuthenticationNotRequired", KBool);
  ("IsisExplicitLevelAuthenticationConfig", KBool);
  ("IsisRestartSuppressUnsupported", KBool);
  ("IpNeighborMissing", KBool);
  ("OsactivateNoreboot", KBool);
  ("OsinstallForStandbyRp", KBool);
  ("LldpInterfaceConfigOverrideGlobal", KBool);
  ("MissingBgpLastNotificationErrorCode", KBool);
  ("InterfaceRefConfigUnsupported", KBool);
  ("StatePathUnsupported", KBool);
  ("Ipv6EnableForGribiNhDmac", KBool);
  ("EcnProfileRequiredDefinition", KBool);
  ("Ipv6DiscardedPktsUnsupported", KBool);
  ("DropWeightLeavesUnsupported", KBool);
  ("CliTakesPrecedenceOverOc", KBool);
  ("SchedulerInputWeightLimit", KBool);
  ("SwitchChipIdUnsupported", KBool);
  ("BackplaneFacingCapacityUnsupported", KBool);
  ("InterfaceCountersFromContainer", KBool);
  ("NoMixOfTaggedAndUntaggedSubinterfaces", KBool);
  ("SwVersionUnsupported", KBool);
  ("StorageComponentUnsupported", KBool);
  ("ExplicitPortSpeed", KBool);
  ("ExplicitInterfaceInDefaultVrf", KBool);
  ("SubinterfacePacketCountersMissing", KBool);
  ("ConnectRetry", KBool);
  ("GribiMacOverrideWithStaticArp", KBool);
  ("RoutePolicyUnderAfiUnsupported", KBool);
  ("GnoiFabricComponentRebootUnsupported", KBool);
  ("OmitL2Mtu", KBool);
  ("SkipControllerCardPowerAdmin", KBool);
  ("BannerDelimiter", KString);
  ("BgpToleranceValue", KInt32);
  ("LinkQualWaitAfterDeleteRequired", KBool);
  ("GnoiStatusEmptySubcomponent", KBool);
  ("NetworkInstanceTableDeletionRequired", KBool);
  ("BgpMd5RequiresReset", KBool);
  ("DequeueDeleteNotCountedAsDrops", KBool);
  ("GribiRibackOnly", KBool);
  ("AggregateAtomicUpdate", KBool);
  ("MissingValueForDefaults", KBool);
  ("StaticProtocolName", KString);
  ("GnoiSubcomponentPath", KBool);
  ("InterfaceConfigVrfBeforeAddress", KBool);
  ("DeprecatedVlanId", KBool);
  ("GribiMacOverrideStaticArpStaticRoute", KBool);
  ("InterfaceEnabled", KBool);
  ("QosOctets", KBool);
  ("CpuMissingAncestor", KBool);
  ("RequireRoutedSubinterface_0", KBool);
  ("GnoiSwitchoverReasonMissingUserInitiated", KBool);
  ("DefaultNetworkInstance", KString);
  ("P4RtUnsetelectionidPrimaryAllowed", KBool);
  ("BkupArbitrationRespCode", KBool);
  ("BackupNhgRequiresVrfWithDecap", KBool);
  ("IsisInterfaceAfiUnsupported", KBool);
  ("P4RtModifyTableEntryUnsupported", KBool);
  ("OsComponentParentIsSupervisorOrLinecard", KBool);
  ("OsComponentParentIsChassis", KBool);
  ("IsisRequireSameL1MetricWithL2Metric", KBool);
  ("BgpSetMedRequiresEqualOspfSetMetric", KBool);
  ("P4RtGdpRequiresDot1QSubinterface", KBool);
  ("AtePortLinkStateOperationsUnsupported", KBool);
  ("SetNativeUser", KBool);
  ("LinecardCpuUtilizationUnsupported", KBool);
  ("ConsistentComponentNamesUnsupported", KBool);
  ("ControllerCardCpuUtilizationUnsupported", KBool);
  ("FabricDropCounterUnsupported", KBool);
  ("LinecardMemoryUtilizationUnsupported", KBool);
  ("QosVoqDropCounterUnsupported", KBool);
  ("AteIpv6FlowLabelUnsupported", KBool);
  ("IsisTimersCsnpIntervalUnsupported", KBool);
  ("IsisCounterManualAddressDropFromAreasUnsupported", KBool);
  ("IsisCounterPartChangesUnsupported", KBool);
  ("TransceiverThresholdsUnsupported", KBool);
  ("InterfaceLoopbackModeRawGnmi", KBool);
  ("SkipTcpNegotiatedMssCheck", KBool);
  ("IsisLspMetadataLeafsUnsupported", KBool);
  ("QosQueueRequiresId", KBool);
  ("QosBufferAllocationConfigRequired", KBool);
  ("BgpGlobalExtendedNextHopEncodingUnsupported", KBool);
  ("BgpLlgrOcUndefined", KBool);
  ("TunnelStatePathUnsupported", KBool);
  ("TunnelConfigPathUnsupported", KBool);
  ("EcnSameMinMaxThresholdUnsupported", KBool);
  ("QosSchedulerConfigRequired", KBool);
  ("QosSetWeightConfigUnsupported", KBool);
  ("QosGetStatePathUnsupported", KBool);
  ("IsisLevelEnabled", KBool);
  ("InterfaceRefInterfaceIdFormat", KBool);
  ("MemberLinkLoopbackUnsupported", KBool);
  ("SkipPlqInterfaceOperStatusCheck", KBool);
  ("BgpExplicitPrefixLimitReceived", KBool);
  ("BgpMissingOcMaxPrefixesConfiguration", KBool);
  ("SkipBgpSessionCheckWithoutAfisafi", KBool);
  ("MismatchedHardwareResourceNameInComponent", KBool);
  ("GnoiSubcomponentRebootStatusUnsupported", KBool);
  ("SkipNonBgpRouteExportCheck", KBool);
  ("IsisMetricStyleTelemetryUnsupported", KBool);
  ("StaticRouteNextHopInterfaceRefUnsupported", KBool);
  ("SkipStaticNexthopCheck", KBool);
  ("Ipv6RouterAdvertisementConfigUnsupported", KBool);
  ("PrefixLimitExceededTelemetryUnsupported", KBool);
  ("SkipSettingAllowMultipleAs", KBool);
  ("GribiDecapMixedPlenUnsupported", KBool);
  ("SkipIsisSetLevel", KBool);
  ("SkipIsisSetMetricStyleType", KBool);
  ("SkipSettingDisableMetricPropagation", KBool);
  ("BgpConditionsMatchCommunitySetUnsupported", KBool);
  ("PfRequireMatchDefaultRule", KBool);
  ("MissingPortToOpticalChannelComponentMapping", KBool);
  ("SkipContainerOp", KBool);
  ("ReorderCallsForVendorCompatibilty", KBool);
  ("AddMissingBaseConfigViaCli", KBool);
  ("SkipMacaddressCheck", KBool);
  ("BgpRibOcPathUnsupported", KBool);
  ("SkipPrefixSetMode", KBool);
  ("SetMetricAsPreference", KBool);
  ("Ipv6StaticRouteWithIpv4NextHopRequiresStaticArp", KBool);
  ("PfRequireSequentialOrderPbrRules", KBool);
  ("MissingStaticRouteNextHopMetricTelemetry", KBool);
  ("UnsupportedStaticRouteNextHopRecurse", KBool);
  ("MissingStaticRouteDropNextHopTelemetry", KBool);
  ("MissingZrOpticalChannelTunableParametersTelemetry", KBool);
  ("PlqReflectorStatsUnsupported", KBool);
  ("PlqGeneratorCapabilitiesMaxMtu", KUint32);
  ("PlqGeneratorCapabilitiesMaxPps", KUint64);
  ("BgpExtendedCommunityIndexUnsupported", KBool);
  ("BgpCommunitySetRefsUnsupported", KBool);
  ("RibWecmp", KBool);
  ("TableConnectionsUnsupported", KBool);
  ("UseVendorNativeTagSetConfig", KBool);
  ("SkipBgpSendCommunityType", KBool);
  ("BgpActionsSetCommunityMethodUnsupported", KBool);
  ("SetNoPeerGroup", KBool);
  ("BgpCommunityMemberIsAString", KBool);
  ("Ipv4StaticRouteWithIpv6NhUnsupported", KBool);
  ("Ipv6StaticRouteWithIpv4NhUnsupported", KBool);
  ("StaticRouteWithDropNh", KBool);
  ("StaticRouteWithExplicitMetric", KBool);
  ("BgpDefaultPolicyUnsupported", KBool);
  ("ExplicitEnableBgpOnDefaultVrf", KBool);
  ("RoutingPolicyTagSetEmbedded", KBool);
  ("SkipAfiSafiPathForBgpMultipleAs", KBool);
  ("CommunityMemberRegexUnsupported", KBool);
  ("SamePolicyAttachedToAllAfis", KBool);
  ("SkipSettingStatementForPolicy", KBool);
  ("SkipCheckingAttributeIndex", KBool);
  ("FlattenPolicyWithMultipleStatements", KBool);
  ("DefaultRoutePolicyUnsupported", KBool);
  ("SlaacPrefixLength128", KBool);
  ("BgpMaxMultipathPathsUnsupported", KBool);
  ("MultipathUnsupportedNeighborOrAfisafi", KBool);
  ("ModelNameUnsupported", KBool);
  ("CommunityMatchWithRedistributionUnsupported", KBool);
  ("InstallPositionAndInstallComponentUnsupported", KBool);
  ("EncapTunnelShutBackupNhgZeroTraffic", KBool);
  ("MaxEcmpPaths", KBool);
  ("WecmpAutoUnsupported", KBool);
  ("RoutingPolicyChainingUnsupported", KBool);
  ("IsisLoopbackRequired", KBool);
  ("WeightedEcmpFixedPacketVerification", KBool);
  ("OverrideDefaultNhScale", KBool);
  ("BgpExtendedCommunitySetUnsupported", KBool);
  ("BgpSetExtCommunitySetRefsUnsupported", KBool);
  ("BgpDeleteLinkBandwidthUnsupported", KBool);
  ("QosInqueueDropCounterUnsupported", KBool);
  ("BgpExplicitExtendedCommunityEnable", KBool);
  ("MatchTagSetConditionUnsupported", KBool);
  ("PeerGroupDefEbgpVrfUnsupported", KBool);
  ("RedisConnectedUnderEbgpVrfUnsupported", KBool);
  ("BgpAfiSafiInDefaultNiBeforeOtherNi", KBool);
  ("DefaultImportExportPolicyUnsupported", KBool);
  ("Ipv6RouterAdvertisementIntervalUnsupported", KBool);
  ("DecapNhWithNexthopNiUnsupported", KBool);
  ("CommunityInvertAnyUnsupported", KBool);
  ("SflowSourceAddressUpdateUnsupported", KBool);
  ("LinkLocalMaskLen", KBool);
  ("UseParentComponentForTemperatureTelemetry", KBool);
  ("ComponentMfgDateUnsupported", KBool);
  ("OtnChannelTribUnsupported", KBool);
  ("EthChannelIngressParametersUnsupported", KBool);
  ("EthChannelAssignmentCiscoNumbering", KBool);
  ("InterfaceCountersUpdateDelayed", KBool);
  ("ChassisGetRpcUnsupported", KBool);
  ("PowerDisableEnableLeafRefValidation", KBool);
  ("SshServerCountersUnsupported", KBool);
  ("OperationalModeUnsupported", KBool);
  ("BgpSessionStateIdleInPassiveMode", KBool);
  ("EnableMultipathUnderAfiSafi", KBool);
  ("OtnChannelAssignmentCiscoNumbering", KBool);
  ("CiscoPreFecBerInactiveValue", KBool);
  ("BgpAfiSafiWildcardNotSupported", KBool);
  ("EnableTableConnections", KBool);
  ("NoZeroSuppression", KBool);
  ("IsisInterfaceLevelPassiveUnsupported", KBool);
  ("IsisDisSysidUnsupported", KBool);
  ("IsisDatabaseOverloadsUnsupported", KBool);
  ("TcDefaultImportPolicyUnsupported", KBool);
  ("TcMetricPropagationUnsupported", KBool);
  ("TcAttributePropagationUnsupported", KBool);
  ("TcSubscriptionUnsupported", KBool);
  ("DefaultBgpInstanceName", KString);
  ("ChannelAssignmentRateClassParametersUnsupported", KBool);
  ("QosSchedulerIngressPolicerUnsupported", KBool);
  ("GribiEncapHeaderUnsupported", KBool);
  ("P4RtCapabilitiesUnsupported", KBool);
  ("GnmiGetOnRootUnsupported", KBool);
  ("PacketProcessingAggregateDropsUnsupported", KBool);
  ("FragmentTotalDropsUnsupported", KBool);
  ("BgpPrefixsetReqRoutepolRef", KBool);
  ("OperStatusForIcUnsupported", KBool);
  ("ExplicitDcoConfig", KBool);
  ("VerifyExpectedBreakoutSupportedConfig", KBool);
  ("BgpAspathsetUnsupported", KBool);
  ("SrIgpConfigUnsupported", KBool);
  ("SetIsisAuthWithInterfaceAuthenticationContainer", KBool);
  ("GreGueTunnelInterfaceOcUnsupported", KBool);
  ("LoadIntervalNotSupported", KBool);
  ("SkipOpticalChannelOutputPowerInterval", KBool);
  ("SkipTransceiverDescription", KBool);
  ("ContainerzOcUnsupported", KBool);
  ("BgpDistanceOcPathUnsupported", KBool);
  ("IsisMplsUnsupported", KBool);
  ("AutoNegotiateUnsupported", KBool);
  ("DuplexModeUnsupported", KBool);
  ("PortSpeedUnsupported", KBool);
  ("BgpSetMedActionUnsupported", KBool);
  ("NextHopGroupConfigUnsupported", KBool);
  ("QosShaperConfigUnsupported", KBool);
  ("QosShaperStateUnsupported", KBool);
  ("EthernetOverMplsogreUnsupported", KBool);
  ("SflowUnsupported", KBool);
  ("MplsUnsupported", KBool);
  ("MacsecUnsupported", KBool);
  ("GueGreDecapUnsupported", KBool);
  ("MplsLabelClassificationUnsupported", KBool);
  ("LocalProxyUnsupported", KBool);
  ("StaticMplsUnsupported", KBool);
  ("QosClassificationUnsupported", KBool);
  ("PolicyForwardingUnsupported", KBool);
  ("CfmUnsupported", KBool);
  ("LabelRangeUnsupported", KBool);
  ("StaticArpUnsupported", KBool);
  ("InterfacePolicyForwardingUnsupported", KBool);
  ("UseOldOcPathStaticLspNh", KBool);
  ("ConfigLeafCreateRequired", KBool);
  ("SkipInterfaceNameCheck", KBool);
  ("FrBreakoutFix", KBool);
  ("NumPhysicalChannelsUnsupported", KBool);
  ("UnsupportedQosOutputServicePolicy", KBool);
  ("InterfaceOutputQueueNonStandardName", KBool);
  ("MplsExpIngressClassifierOcUnsupported", KBool);
  ("DefaultNoIgpMetricPropagation", KBool);
  ("SkipBgpPeerGroupSendCommunityType", KBool);
  ("ExplicitSwapSrcDstMacNeededForLoopbackMode", KBool);
  ("LinkLocalInsteadOfNh", KBool);
  ("LowScaleAft", KBool);
  ("MissingSystemDescriptionConfigPath", KBool);
  ("NonIntervalFecErrorCounter", KBool);
  ("NtpSourceAddressUnsupported", KBool);
  ("StaticMplsLspOcUnsupported", KBool);
  ("GreDecapsulationOcUnsupported", KBool);
  ("IsisSrgbSrlbUnsupported", KBool);
  ("IsisSrPrefixSegmentConfigUnsupported", KBool);
  ("IsisSrNodeSegmentConfigUnsupported", KBool);
  ("PolicyForwardingToNextHopOcUnsupported", KBool);
  ("SflowIngressMinSamplingRate", KUint32);
  ("QosRemarkOcUnsupported", KBool);
  ("PolicyForwardingGreEncapsulationOcUnsupported", KBool);
  ("PolicyRuleCountersOcUnsupported", KBool);
  ("OtnToEthAssignment", KBool);
  ("NetworkInstanceImportExportPolicyOcUnsupported", KBool);
  ("SkipOrigin", KBool);
  ("PredefinedMaxEcmpPaths", KBool);
  ("DecapsulateGueOcUnsupported", KBool);
  ("LinePortUnsupported", KBool);
  ("UseBgpSetCommunityOptionTypeReplace", KBool);
  ("GlobalMaxEcmpPathsUnsupported", KBool);
  ("QosTwoRateThreeColorPolicerOcUnsupported", KBool);
  ("LoadBalancePolicyOcUnsupported", KBool);
  ("GribiRecordsUnsupported", KBool);
  ("BreakoutModeUnsupportedForEightHundredGb", KBool);
  ("PortSpeedDuplexModeUnsupportedForInterfaceConfig", KBool);
  ("ExplicitBreakoutInterfaceConfig", KBool);
  ("CiscoxrLaserFt", KString);
  ("TelemetryNotSupportedForLowPriorityNh", KBool);
  ("MatchAsPathSetUnsupported", KBool);
  ("SameAfiSafiAndPeergroupPoliciesUnsupported", KBool);
  ("SyslogOcUnsupported", KBool);
  ("TransceiverConfigEnableUnsupported", KBool);
  ("AftSummaryOcUnsupported", KBool);
  ("IsisLspTlvsOcUnsupported", KBool);
  ("IsisAdjacencyStreamUnsupported", KBool);
  ("SidPerInterfaceCounterUnsupported", KBool);
  ("LocalhostForContainerz", KBool);
  ("AggregateBandwidthPolicyActionUnsupported", KBool);
  ("AutoLinkBandwidthUnsupported", KBool);
  ("AdvertisedCumulativeLbwOcUnsupported", KBool);
  ("DisableHardwareNexthopProxy", KBool);
  ("UrpfConfigOcUnsupported", KBool);
  ("StaticRouteNextNetworkInstanceOcUnsupported", KBool);
  ("GnpsiOcUnsupported", KBool);
  ("BgpGrHelperDisableUnsupported", KBool);
  ("BgpGracefulRestartUnderAfiSafiUnsupported", KBool);
  ("SyslogNonDefaultVrfUnsupported", KBool);
  ("SkipSamplingQosCounters", KBool);
  ("DefaultNiGnmiServerName", KString);
  ("BgpLocalAggregateUnsupported", KBool);
  ("ConfigAclWithPrefixlistUnsupported", KBool);
  ("ConfigAclValueAnyOcUnsupported", KBool);
  ("ConfigAclOcUnsupported", KBool);
  ("InterfaceCountersInUnknownProtosUnsupported", KBool);
  ("AggregateSidCounterOutPktsUnsupported", KBool);
  ("IsisSrNoPhpRequired", KBool);
  ("MatchCommunitySetMatchSetOptionsAllUnsupported", KBool);
  ("BmpOcUnsupported", KBool);
  ("BgpCommunityTypeSliceInputUnsupported", KBool);
  ("IbgpMultipathPathUnsupported", KBool);
  ("ContainerzPluginRpcUnsupported", KBool);
  ("NonStandardGrpcPort", KBool);
  ("TemperatureSensorCheck", KBool);
  ("CpuUtilizationQueryAgainstBaseControllerCardComponent", KBool);
  ("CpuUtilizationQueryAgainstBaseLinecardComponent", KBool);
  ("NoQueueDropUnsupported", KBool);
  ("InterfaceEthernetInblockErrorsUnsupported", KBool);
  ("RetainGnmiCfgAfterReboot", KBool);
  ("CiscoxrTransceiverFt", KString);
  ("TransceiverStateUnsupported", KBool);
  ("SubnetMaskChangeRequired", KBool);
  ("Ciscoxr8000IntegratedCircuitResourceFt", KString);
  ("BgpDefaultPolicyBehaviorAcceptRoute", KBool);
  ("ReducedEcmpSetOnMixedEncapDecapNh", KBool);
  ("TerminalDeviceChannelAdminStateUnsupported", KBool);
  ("BgpRibStreamingConfigRequired", KBool);
  ("AclCountersEnableOcUnsupported", KBool);
  ("SkipAclCountersVerificationDuringUpdate", KBool);
  ("AclIcmpTypeCodeConfigurationUnsupported", KBool);
  ("Ipv6RouterAdvertisementSuppressUnsupported", KBool);
  ("BgpConfigDuringGracefulRestartUnsupported", KBool);
  ("RoutingRestartViaGnoiUnsupported", KBool);
  ("BgpRplDirectlyUnderPeerGroupUnsupported", KBool);
  ("WecmpSetWeightUnsupported", KBool);
  ("ExplicitlyApplyAllowAllImportPolicy", KBool);
  ("QosFt", KString);
  ("SystemMountPointStateFt", KString);
  ("ArpFt", KString);
  ("PrefixLimitConfigUnsupported", KBool);
  ("SshServerHostCertificateTelemetryUnsupported", KBool);
  ("SendMaxUnsupported", KBool);
  ("AcctzShellCmdAccountingUnsupported", KBool);
  ("AcctzRecordsAuthzStatusDenyUnsupported", KBool);
  ("FpgaFt", KString);
  ("OcAaaUserRoleLeafStringTypeUnsupported", KBool);
  ("AcctzRecordFailCommandUnsupported", KBool);
  ("AcctzRecordFailGrpcUnsupported", KBool);
  ("BgpGracefulRestartPeerGroupUnsupported", KBool);
  ("GrpcServerServicesUnsupported", KBool);
  ("StaticRouteToNhgOcUnsupported", KBool);
  ("Subinterface_0StateUnsupported", KBool);
  ("FragmentPuntUnsupported", KBool);
  ("FragmentPuntPktsUnsupported", KBool);
  ("FragmentPuntFt", KString);
  ("DefaultSubinterfacePacketCountersMissing", KBool);
  ("AcctzRecordSessionChannelIdUnsupported", KBool);
  ("CarrierFt", KString);
  ("FabricFt", KString);
  ("MacsecStateFt", KString);
  ("MacsecCountersFt", KString);
  ("EnableMplsStaticOnInterface", KBool);
  ("SecondaryControllerCardCpuUtilizationUnsupported", KBool);
  ("SecondaryControllerCardMemoryUtilizationUnsupported", KBool);
  ("InterfaceCountersInFcsErrorsUnsupported", KBool);
  ("MplsStaticPseudowireOcUnsupported", KBool);
  ("VlanClientEncapsulationOcUnsupported", KBool);
  ("NexthopGroupPseudowireCountersOcUnsupported", KBool);
  ("PerFlowLoadBalancingUnsupported", KBool);
  ("BgpMultipathPathsUnderPeerGroupUnsupported", KBool);
  ("CiscoxrVendordropFt", KString);
  ("LacpInterfaceMemberStateInterfaceUnsupported", KBool);
  ("ContainerzRetrieveLogsUnsupported", KBool);
  ("RequireTransportSecurity", KBool);
  ("ExtendedRouteRetentionOcUnsupported", KBool);
  ("ExrrStaleRouteTimeUnsupported", KBool);
  ("GnoiBgpGracefulRestartUnsupported", KBool);
  ("DhcpRelayOcUnsupported", KBool);
  ("P4RtExplicitTableEntryPerController", KBool);
  ("UseInterfaceNameForIbgpNeighborTransportIpv4LocalAddress", KBool);
  ("InterfaceIdFormatRequiredForPolicyForwarding", KBool);
  ("UseChassisAggregateUtilization", KBool);
  ("UnreferencedAftFibAckUnsupported", KBool);
  ("ForwardingViableFailoverWithIndirectNhUnsupported", KBool);
  ("StaticRouteNexthopInterfaceStateOcUnsupported", KBool);
  ("LacpInterfaceFallbackOcUnsupported", KBool);
  ("VlanSubinterfaceOcUnsupported", KBool);
  ("MaxOutFibRouteCount", KUint32);
  ("IpsecOcUnsupported", KBool);
  ("StaticRouteInVrfOcUnsupported", KBool);
  ("IpRoutingInVrfOcUnsupported", KBool);
  ("MacsecOcUnsupported", KBool);
  ("AftsGlobalFilterPolicyOcUnsupported", KBool);
  ("BgpDynamicNeighborPrefixUnsupported", KBool);
  ("ContainerzTlsInsecureSkipVerify", KBool);
  ("AftsGlobalFilterPolicyConfigReferenceValidationUnsupported", KBool);
  ("VrfSelectionPolicyNonDefaultNiUnsupported", KBool);
  ("GribiAaaRoleBasedAuthzUnsupported", KBool);
  ("P4RtAaaRoleBasedAuthzUnsupported", KBool);
  ("SwitchoverStabilizeDelayM", KUint32);
  ("GnoiRequiresFreshDialAfterSwitchover", KBool);
  ("ContainerzRequireExplicitConfigSave", KBool)
].

Definition Metadata_Deviations := gmap string Value.
Definition kind_of (f : string) : option Kind :=
  match find (fun p => String.eqb p.1 f) fields with Some p => Some p.2 | None => None end.

(** The values that the struct can hold. *)
Definition well_typed (d : Metadata_Deviations) : Prop :=
  map_Forall (fun f v => forall k, kind_of f = Some k -> is_Some (payload k v)) d.

(** The generated getter of field [f].  A value of another type cannot be stored in
    the struct; here it is an error. *)
Definition Get (k : Kind) (f : string) (d : Metadata_Deviations) : go (denote k) :=
  match d !! f with
  | None => Ret (zero k)
  | Some v => match payload k v with Some a => Ret a | None => Fail (errors_New ("type of " +:+ f)) end
  end.

(** The value of field [f], the zero value when it is unset. *)
Definition field_value (k : Kind) (f : string) (d : Metadata_Deviations) : denote k :=
  default (zero k) (d !! f ≫= payload k).

(** ** Lookup *)

Record Platform := { Vendor : string; HardwareModelRegex : string; SoftwareVersionRegex : string }.
Record PlatformExceptions := { GetPlatform : Platform; GetDeviations : Metadata_Deviations }.
Record Device := { dev_Vendor : string; dev_Model : string; dev_Version : string }.

(** [regexp.MatchString pattern s] *)
Class Regexp := MatchString : string -> string -> go bool.

Section Deviations.
Context {re : Regexp}.

(** The metadata of the test and the flags of the command line. *)
Context (exceptions : list PlatformExceptions) (flags : gmap string bool).

(** [if regex := ...; regex != "" { match, err := regexp.MatchString(regex, s); ... }] *)
Definition regexAllows (regex s : string) : go bool :=
  if String.eqb regex "" then Ret true else MatchString regex s.

Fixpoint lookupLoop (dvc : Device) (matched : option PlatformExceptions) (l : list PlatformExceptions) :
    go (option PlatformExceptions) :=
  match l with
  | [] => Ret matched
  | e :: l =>
      if String.eqb (Vendor (GetPlatform e)) "" then Fail (errors_New "vendor should be specified in textproto")
      else if negb (String.eqb (dev_Vendor dvc) (Vendor (GetPlatform e))) then lookupLoop dvc matched l
      else
        matchHw ← regexAllows (HardwareModelRegex (GetPlatform e)) (dev_Model dvc);
        if negb matchHw then lookupLoop dvc matched l
        else
          matchSw ← regexAllows (SoftwareVersionRegex (GetPlatform e)) (dev_Version dvc);
          if negb matchSw then lookupLoop dvc matched l
          else
            match matched with
            | Some _ => Fail (errors_New "cannot have more than one match within platform_exceptions fields")
            | None => lookupLoop dvc (Some e) l
            end
  end.

Definition lookupDeviations (dvc : Device) : go (option PlatformExceptions) := lookupLoop dvc None exceptions.

(** [log.Exitf] ends the process. *)
Definition mustLookupDeviations (dvc : Device) : go Metadata_Deviations :=
  match lookupDeviations dvc with
  | Ret None => Ret ∅
  | Ret (Some e) => Ret (GetDeviations e)
  | Fail _ | Panic => Panic
  | NoFuel => NoFuel
  end.

Definition lookupDUTDeviations (dut : Device) : go Metadata_Deviations := mustLookupDeviations dut.
Definition lookupATEDeviations (ate : Device) : go Metadata_Deviations := mustLookupDeviations ate.

(** ** Accessors that read one field *)

Definition BannerDelimiter (dut : Device) : go string := d ← lookupDUTDeviations dut; Get KString "BannerDelimiter" d.
Definition OmitL2MTU (dut : Device) : go bool := d ← lookupDUTDeviations dut; Get KBool "OmitL2Mtu" d.
Definition GRIBIMACOverrideStaticARPStaticRoute (dut : Device) : go bool := d ← lookupDUTDeviations dut; Get KBool "GribiMacOverrideStaticArpStaticRoute" d.
Definition AggregateAtomicUpdate (dut : Device) : go bool := d ← lookupDUTDeviations dut; Get KBool "AggregateAtomicUpdate" d.
Definition ISISRestartSuppressUnsupported (dut : Device) : go bool := d ← lookupDUTDeviations dut; Get KBool "IsisRestartSuppressUnsupported" d.
Definition BgpGrHelperDisableUnsupported (dut : Device) : go bool := d ← lookupDUTDeviations dut; Get KBool "BgpGrHelperDisableUnsupported" d.
Definition BgpGracefulRestartUnderAfiSafiUnsupported (dut : Device) : go bool := d ← lookupDUTDeviations dut; Get KBool "BgpGracefulRestartUnderAfiSafiUnsupported" d.
Definition MissingBgpLastNotificationErrorCode (dut : Device) : go bool := d ← lookupDUTDeviations dut; Get KBool "MissingBgpLastNotificationErrorCode" d.
Definition GRIBIMACOverrideWithStaticARP (dut : Device) : go bool := d ← lookupDUTDeviations dut; Get KBool "GribiMacOverrideWithStaticArp" d.
Definition CLITakesPrecedenceOverOC (dut : Device) : go bool := d ← lookupDUTDeviations dut; Get KBool "CliTakesPrecedenceOverOc" d.
Definition BGPTrafficTolerance (dut : Device) : go Z := d ← lookupDUTDeviations dut; Get KInt32 "BgpToleranceValue" d.
Definition SwitchChipIDUnsupported (dut : Device) : go bool := d ← lookupDUTDeviations dut; Get KBool "SwitchChipIdUnsupported" d.
Definition BackplaneFacingCapacityUnsupported (dut : Device) : go bool := d ← lookupDUTDeviations dut; Get KBool "BackplaneFacingCapacityUnsupported" d.
Definition SchedulerInputWeightLimit (dut : Device) : go bool := d ← lookupDUTDeviations dut; Get KBool "SchedulerInputWeightLimit" d.
Definition ECNProfileRequiredDefinition (dut : Device) : go bool := d ← lookupDUTDeviations dut; Get KBool "EcnProfileRequiredDefinition" d.
Definition ISISGlobalAuthenticationNotRequired (dut : Device) : go bool := d ← lookupDUTDeviations dut; Get KBool "IsisGlobalAuthenticationNotRequired" d.
Definition ISISExplicitLevelAuthenticationConfig (dut : Device) : go bool := d ← lookupDUTDeviations dut; Get KBool "IsisExplicitLevelAuthenticationConfig" d.
Definition ISISSingleTopologyRequired (dut : Device) : go bool := d ← lookupDUTDeviations dut; Get KBool "IsisSingleTopologyRequired" d.
Definition ISISMultiTopologyUnsupported (dut : Device) : go bool := d ← lookupDUTDeviations dut; Get KBool "IsisMultiTopologyUnsupported" d.
Definition ISISInterfaceLevel1DisableRequired (dut : Device) : go bool := d ← lookupDUTDeviations dut; Get KBool "IsisInterfaceLevel1DisableRequired" d.
Definition MissingIsisInterfaceAfiSafiEnable (dut : Device) : go bool := d ← lookupDUTDeviations dut; Get KBool "MissingIsisInterfaceAfiSafiEnable" d.
Definition Ipv6DiscardedPktsUnsupported (dut : Device) : go bool := d ← lookupDUTDeviations dut; Get KBool "Ipv6DiscardedPktsUnsupported" d.
Definition LinkQualWaitAfterDeleteRequired (dut : Device) : go bool := d ← lookupDUTDeviations dut; Get KBool "LinkQualWaitAfterDeleteRequired" d.
Definition StatePathsUnsupported (dut : Device) : go bool := d ← lookupDUTDeviations dut; Get KBool "StatePathUnsupported" d.
Definition DropWeightLeavesUnsupported (dut : Device) : go bool := d ← lookupDUTDeviations dut; Get KBool "DropWeightLeavesUnsupported" d.
Definition SwVersionUnsupported (dut : Device) : go bool := d ← lookupDUTDeviations dut; Get KBool "SwVersionUnsupported" d.
Definition InterfaceEnabled (dut : Device) : go bool := d ← lookupDUTDeviations dut; Get KBool "InterfaceEnabled" d.
Definition InterfaceCountersFromContainer (dut : Device) : go bool := d ← lookupDUTDeviations dut; Get KBool "InterfaceCountersFromContainer" d.
Definition IPv4MissingEnabled (dut : Device) : go bool := d ← lookupDUTDeviations dut; Get KBool "Ipv4MissingEnabled" d.
Definition IPNeighborMissing (dut : Device) : go bool := d ← lookupDUTDeviations dut; Get KBool "IpNeighborMissing" d.
Definition GRIBIRIBAckOnly (dut : Device) : go bool := d ← lookupDUTDeviations dut; Get KBool "GribiRibackOnly" d.
Definition MissingValueForDefaults (dut : Device) : go bool := d ← lookupDUTDeviations dut; Get KBool "MissingValueForDefaults" d.
Definition TraceRouteL4ProtocolUDP (dut : Device) : go bool := d ← lookupDUTDeviations dut; Get KBool "TracerouteL4ProtocolUdp" d.
Definition LLDPInterfaceConfigOverrideGlobal (dut : Device) : go bool := d ← lookupDUTDeviations dut; Get KBool "LldpInterfaceConfigOverrideGlobal" d.
Definition SubinterfacePacketCountersMissing (dut : Device) : go bool := d ← lookupDUTDeviations dut; Get KBool "SubinterfacePacketCountersMissing" d.
Definition DefaultSubinterfacePacketCountersMissing (dut : Device) : go bool := d ← lookupDUTDeviations dut; Get KBool "DefaultSubinterfacePacketCountersMissing" d.
Definition MissingPrePolicyReceivedRoutes (dut : Device) : go bool := d ← lookupDUTDeviations dut; Get KBool "PrepolicyReceivedRoutes" d.
Definition DeprecatedVlanID (dut : Device) : go bool := d ← lookupDUTDeviations dut; Get KBool "DeprecatedVlanId" d.
Definition OSActivateNoReboot (dut : Device) : go bool := d ← lookupDUTDeviations dut; Get KBool "OsactivateNoreboot" d.
Definition ConnectRetry (dut : Device) : go bool := d ← lookupDUTDeviations dut; Get KBool "ConnectRetry" d.
Definition InstallOSForStandbyRP (dut : Device) : go bool := d ← lookupDUTDeviations dut; Get KBool "OsinstallForStandbyRp" d.
Definition GNOIStatusWithEmptySubcomponent (dut : Device) : go bool := d ← lookupDUTDeviations dut; Get KBool "GnoiStatusEmptySubcomponent" d.
Definition NetworkInstanceTableDeletionRequired (dut : Device) : go bool := d ← lookupDUTDeviations dut; Get KBool "NetworkInstanceTableDeletionRequired" d.
Definition ExplicitPortSpeed (dut : Device) : go bool := d ← lookupDUTDeviations dut; Get KBool "ExplicitPortSpeed" d.
Definition ExplicitInterfaceInDefaultVRF (dut : Device) : go bool := d ← lookupDUTDeviations dut; Get KBool "ExplicitInterfaceInDefaultVrf" d.
Definition RibWecmp (dut : Device) : go bool := d ← lookupDUTDeviations dut; Get KBool "RibWecmp" d.
Definition InterfaceConfigVRFBeforeAddress (dut : Device) : go bool := d ← lookupDUTDeviations dut; Get KBool "InterfaceConfigVrfBeforeAddress" d.
Definition BGPMD5RequiresReset (dut : Device) : go bool := d ← lookupDUTDeviations dut; Get KBool "BgpMd5RequiresReset" d.
Definition ExplicitIPv6EnableForGRIBI (dut : Device) : go bool := d ← lookupDUTDeviations dut; Get KBool "Ipv6EnableForGribiNhDmac" d.
Definition ISISInstanceEnabledRequired (dut : Device) : go bool := d ← lookupDUTDeviations dut; Get KBool "IsisInstanceEnabledRequired" d.
Definition GNOISubcomponentPath (dut : Device) : go bool := d ← lookupDUTDeviations dut; Get KBool "GnoiSubcomponentPath" d.
Definition NoMixOfTaggedAndUntaggedSubinterfaces (dut : Device) : go bool := d ← lookupDUTDeviations dut; Get KBool "NoMixOfTaggedAndUntaggedSubinterfaces" d.
Definition DequeueDeleteNotCountedAsDrops (dut : Device) : go bool := d ← lookupDUTDeviations dut; Get KBool "DequeueDeleteNotCountedAsDrops" d.
Definition RoutePolicyUnderAFIUnsupported (dut : Device) : go bool := d ← lookupDUTDeviations dut; Get KBool "RoutePolicyUnderAfiUnsupported" d.
Definition StorageComponentUnsupported (dut : Device) : go bool := d ← lookupDUTDeviations dut; Get KBool "StorageComponentUnsupported" d.
Definition GNOIFabricComponentRebootUnsupported (dut : Device) : go bool := d ← lookupDUTDeviations dut; Get KBool "GnoiFabricComponentRebootUnsupported" d.
Definition SkipControllerCardPowerAdmin (dut : Device) : go bool := d ← lookupDUTDeviations dut; Get KBool "SkipControllerCardPowerAdmin" d.
Definition QOSOctets (dut : Device) : go bool := d ← lookupDUTDeviations dut; Get KBool "QosOctets" d.
Definition ISISInterfaceAfiUnsupported (dut : Device) : go bool := d ← lookupDUTDeviations dut; Get KBool "IsisInterfaceAfiUnsupported" d.
Definition P4RTModifyTableEntryUnsupported (dut : Device) : go bool := d ← lookupDUTDeviations dut; Get KBool "P4RtModifyTableEntryUnsupported" d.
Definition OSComponentParentIsSupervisorOrLinecard (dut : Device) : go bool := d ← lookupDUTDeviations dut; Get KBool "OsComponentParentIsSupervisorOrLinecard" d.
Definition OSComponentParentIsChassis (dut : Device) : go bool := d ← lookupDUTDeviations dut; Get KBool "OsComponentParentIsChassis" d.
Definition ISISRequireSameL1MetricWithL2Metric (dut : Device) : go bool := d ← lookupDUTDeviations dut; Get KBool "IsisRequireSameL1MetricWithL2Metric" d.
Definition BGPSetMedRequiresEqualOspfSetMetric (dut : Device) : go bool := d ← lookupDUTDeviations dut; Get KBool "BgpSetMedRequiresEqualOspfSetMetric" d.
Definition SetNativeUser (dut : Device) : go bool := d ← lookupDUTDeviations dut; Get KBool "SetNativeUser" d.
Definition P4RTGdpRequiresDot1QSubinterface (dut : Device) : go bool := d ← lookupDUTDeviations dut; Get KBool "P4RtGdpRequiresDot1QSubinterface" d.
Definition LinecardCPUUtilizationUnsupported (dut : Device) : go bool := d ← lookupDUTDeviations dut; Get KBool "LinecardCpuUtilizationUnsupported" d.
Definition ConsistentComponentNamesUnsupported (dut : Device) : go bool := d ← lookupDUTDeviations dut; Get KBool "ConsistentComponentNamesUnsupported" d.
Definition ControllerCardCPUUtilizationUnsupported (dut : Device) : go bool := d ← lookupDUTDeviations dut; Get KBool "ControllerCardCpuUtilizationUnsupported" d.
Definition FabricDropCounterUnsupported (dut : Device) : go bool := d ← lookupDUTDeviations dut; Get KBool "FabricDropCounterUnsupported" d.
Definition LinecardMemoryUtilizationUnsupported (dut : Device) : go bool := d ← lookupDUTDeviations dut; Get KBool "LinecardMemoryUtilizationUnsupported" d.
Definition QOSVoqDropCounterUnsupported (dut : Device) : go bool := d ← lookupDUTDeviations dut; Get KBool "QosVoqDropCounterUnsupported" d.
Definition ISISTimersCsnpIntervalUnsupported (dut : Device) : go bool := d ← lookupDUTDeviations dut; Get KBool "IsisTimersCsnpIntervalUnsupported" d.
Definition ISISCounterManualAddressDropFromAreasUnsupported (dut : Device) : go bool := d ← lookupDUTDeviations dut; Get KBool "IsisCounterManualAddressDropFromAreasUnsupported" d.
Definition ISISCounterPartChangesUnsupported (dut : Device) : go bool := d ← lookupDUTDeviations dut; Get KBool "IsisCounterPartChangesUnsupported" d.
Definition SkipTCPNegotiatedMSSCheck (dut : Device) : go bool := d ← lookupDUTDeviations dut; Get KBool "SkipTcpNegotiatedMssCheck" d.
Definition TransceiverThresholdsUnsupported (dut : Device) : go bool := d ← lookupDUTDeviations dut; Get KBool "TransceiverThresholdsUnsupported" d.
Definition InterfaceLoopbackModeRawGnmi (dut : Device) : go bool := d ← lookupDUTDeviations dut; Get KBool "InterfaceLoopbackModeRawGnmi" d.
Definition ISISLspMetadataLeafsUnsupported (dut : Device) : go bool := d ← lookupDUTDeviations dut; Get KBool "IsisLspMetadataLeafsUnsupported" d.
Definition QOSQueueRequiresID (dut : Device) : go bool := d ← lookupDUTDeviations dut; Get KBool "QosQueueRequiresId" d.
Definition BgpLlgrOcUndefined (dut : Device) : go bool := d ← lookupDUTDeviations dut; Get KBool "BgpLlgrOcUndefined" d.
Definition QOSBufferAllocationConfigRequired (dut : Device) : go bool := d ← lookupDUTDeviations dut; Get KBool "QosBufferAllocationConfigRequired" d.
Definition BGPGlobalExtendedNextHopEncodingUnsupported (dut : Device) : go bool := d ← lookupDUTDeviations dut; Get KBool "BgpGlobalExtendedNextHopEncodingUnsupported" d.
Definition TunnelStatePathUnsupported (dut : Device) : go bool := d ← lookupDUTDeviations dut; Get KBool "TunnelStatePathUnsupported" d.
Definition TunnelConfigPathUnsupported (dut : Device) : go bool := d ← lookupDUTDeviations dut; Get KBool "TunnelConfigPathUnsupported" d.
Definition EcnSameMinMaxThresholdUnsupported (dut : Device) : go bool := d ← lookupDUTDeviations dut; Get KBool "EcnSameMinMaxThresholdUnsupported" d.
Definition QosSchedulerConfigRequired (dut : Device) : go bool := d ← lookupDUTDeviations dut; Get KBool "QosSchedulerConfigRequired" d.
Definition QosSetWeightConfigUnsupported (dut : Device) : go bool := d ← lookupDUTDeviations dut; Get KBool "QosSetWeightConfigUnsupported" d.
Definition QosGetStatePathUnsupported (dut : Device) : go bool := d ← lookupDUTDeviations dut; Get KBool "QosGetStatePathUnsupported" d.
Definition InterfaceRefInterfaceIDFormat (dut : Device) : go bool := d ← lookupDUTDeviations dut; Get KBool "InterfaceRefInterfaceIdFormat" d.
Definition ISISLevelEnabled (dut : Device) : go bool := d ← lookupDUTDeviations dut; Get KBool "IsisLevelEnabled" d.
Definition MemberLinkLoopbackUnsupported (dut : Device) : go bool := d ← lookupDUTDeviations dut; Get KBool "MemberLinkLoopbackUnsupported" d.
Definition SkipPlqInterfaceOperStatusCheck (dut : Device) : go bool := d ← lookupDUTDeviations dut; Get KBool "SkipPlqInterfaceOperStatusCheck" d.
Definition BGPExplicitPrefixLimitReceived (dut : Device) : go bool := d ← lookupDUTDeviations dut; Get KBool "BgpExplicitPrefixLimitReceived" d.
Definition BGPMissingOCMaxPrefixesConfiguration (dut : Device) : go bool := d ← lookupDUTDeviations dut; Get KBool "BgpMissingOcMaxPrefixesConfiguration" d.
Definition SkipBgpSessionCheckWithoutAfisafi (dut : Device) : go bool := d ← lookupDUTDeviations dut; Get KBool "SkipBgpSessionCheckWithoutAfisafi" d.
Definition MismatchedHardwareResourceNameInComponent (dut : Device) : go bool := d ← lookupDUTDeviations dut; Get KBool "MismatchedHardwareResourceNameInComponent" d.
Definition GNOISubcomponentRebootStatusUnsupported (dut : Device) : go bool := d ← lookupDUTDeviations dut; Get KBool "GnoiSubcomponentRebootStatusUnsupported" d.
Definition SkipNonBgpRouteExportCheck (dut : Device) : go bool := d ← lookupDUTDeviations dut; Get KBool "SkipNonBgpRouteExportCheck" d.
Definition ISISMetricStyleTelemetryUnsupported (dut : Device) : go bool := d ← lookupDUTDeviations dut; Get KBool "IsisMetricStyleTelemetryUnsupported" d.
Definition StaticRouteNextHopInterfaceRefUnsupported (dut : Device) : go bool := d ← lookupDUTDeviations dut; Get KBool "StaticRouteNextHopInterfaceRefUnsupported" d.
Definition SkipStaticNexthopCheck (dut : Device) : go bool := d ← lookupDUTDeviations dut; Get KBool "SkipStaticNexthopCheck" d.
Definition Ipv6RouterAdvertisementConfigUnsupported (dut : Device) : go bool := d ← lookupDUTDeviations dut; Get KBool "Ipv6RouterAdvertisementConfigUnsupported" d.
Definition PrefixLimitExceededTelemetryUnsupported (dut : Device) : go bool := d ← lookupDUTDeviations dut; Get KBool "PrefixLimitExceededTelemetryUnsupported" d.
Definition SkipSettingAllowMultipleAS (dut : Device) : go bool := d ← lookupDUTDeviations dut; Get KBool "SkipSettingAllowMultipleAs" d.
Definition GribiDecapMixedPlenUnsupported (dut : Device) : go bool := d ← lookupDUTDeviations dut; Get KBool "GribiDecapMixedPlenUnsupported" d.
Definition SkipIsisSetLevel (dut : Device) : go bool := d ← lookupDUTDeviations dut; Get KBool "SkipIsisSetLevel" d.
Definition SkipIsisSetMetricStyleType (dut : Device) : go bool := d ← lookupDUTDeviations dut; Get KBool "SkipIsisSetMetricStyleType" d.
Definition SkipSettingDisableMetricPropagation (dut : Device) : go bool := d ← lookupDUTDeviations dut; Get KBool "SkipSettingDisableMetricPropagation" d.
Definition BGPConditionsMatchCommunitySetUnsupported (dut : Device) : go bool := d ← lookupDUTDeviations dut; Get KBool "BgpConditionsMatchCommunitySetUnsupported" d.
Definition PfRequireMatchDefaultRule (dut : Device) : go bool := d ← lookupDUTDeviations dut; Get KBool "PfRequireMatchDefaultRule" d.
Definition MissingPortToOpticalChannelMapping (dut : Device) : go bool := d ← lookupDUTDeviations dut; Get KBool "MissingPortToOpticalChannelComponentMapping" d.
Definition SkipContainerOp (dut : Device) : go bool := d ← lookupDUTDeviations dut; Get KBool "SkipContainerOp" d.
Definition ReorderCallsForVendorCompatibilty (dut : Device) : go bool := d ← lookupDUTDeviations dut; Get KBool "ReorderCallsForVendorCompatibilty" d.
Definition AddMissingBaseConfigViaCli (dut : Device) : go bool := d ← lookupDUTDeviations dut; Get KBool "AddMissingBaseConfigViaCli" d.
Definition SkipMacaddressCheck (dut : Device) : go bool := d ← lookupDUTDeviations dut; Get KBool "SkipMacaddressCheck" d.
Definition BGPRibOcPathUnsupported (dut : Device) : go bool := d ← lookupDUTDeviations dut; Get KBool "BgpRibOcPathUnsupported" d.
Definition SkipPrefixSetMode (dut : Device) : go bool := d ← lookupDUTDeviations dut; Get KBool "SkipPrefixSetMode" d.
Definition SetMetricAsPreference (dut : Device) : go bool := d ← lookupDUTDeviations dut; Get KBool "SetMetricAsPreference" d.
Definition IPv6StaticRouteWithIPv4NextHopRequiresStaticARP (dut : Device) : go bool := d ← lookupDUTDeviations dut; Get KBool "Ipv6StaticRouteWithIpv4NextHopRequiresStaticArp" d.
Definition PfRequireSequentialOrderPbrRules (dut : Device) : go bool := d ← lookupDUTDeviations dut; Get KBool "PfRequireSequentialOrderPbrRules" d.
Definition MissingStaticRouteNextHopMetricTelemetry (dut : Device) : go bool := d ← lookupDUTDeviations dut; Get KBool "MissingStaticRouteNextHopMetricTelemetry" d.
Definition UnsupportedStaticRouteNextHopRecurse (dut : Device) : go bool := d ← lookupDUTDeviations dut; Get KBool "UnsupportedStaticRouteNextHopRecurse" d.
Definition MissingStaticRouteDropNextHopTelemetry (dut : Device) : go bool := d ← lookupDUTDeviations dut; Get KBool "MissingStaticRouteDropNextHopTelemetry" d.
Definition MissingZROpticalChannelTunableParametersTelemetry (dut : Device) : go bool := d ← lookupDUTDeviations dut; Get KBool "MissingZrOpticalChannelTunableParametersTelemetry" d.
Definition PLQReflectorStatsUnsupported (dut : Device) : go bool := d ← lookupDUTDeviations dut; Get KBool "PlqReflectorStatsUnsupported" d.
Definition PLQGeneratorCapabilitiesMaxMTU (dut : Device) : go Z := d ← lookupDUTDeviations dut; Get KUint32 "PlqGeneratorCapabilitiesMaxMtu" d.
Definition PLQGeneratorCapabilitiesMaxPPS (dut : Device) : go Z := d ← lookupDUTDeviations dut; Get KUint64 "PlqGeneratorCapabilitiesMaxPps" d.
Definition BgpExtendedCommunityIndexUnsupported (dut : Device) : go bool := d ← lookupDUTDeviations dut; Get KBool "BgpExtendedCommunityIndexUnsupported" d.
Definition BgpCommunitySetRefsUnsupported (dut : Device) : go bool := d ← lookupDUTDeviations dut; Get KBool "BgpCommunitySetRefsUnsupported" d.
Definition TableConnectionsUnsupported (dut : Device) : go bool := d ← lookupDUTDeviations dut; Get KBool "TableConnectionsUnsupported" d.
Definition UseVendorNativeTagSetConfig (dut : Device) : go bool := d ← lookupDUTDeviations dut; Get KBool "UseVendorNativeTagSetConfig" d.
Definition SkipBgpSendCommunityType (dut : Device) : go bool := d ← lookupDUTDeviations dut; Get KBool "SkipBgpSendCommunityType" d.
Definition BgpActionsSetCommunityMethodUnsupported (dut : Device) : go bool := d ← lookupDUTDeviations dut; Get KBool "BgpActionsSetCommunityMethodUnsupported" d.
Definition SetNoPeerGroup (dut : Device) : go bool := d ← lookupDUTDeviations dut; Get KBool "SetNoPeerGroup" d.
Definition BgpCommunityMemberIsAString (dut : Device) : go bool := d ← lookupDUTDeviations dut; Get KBool "BgpCommunityMemberIsAString" d.
Definition IPv4StaticRouteWithIPv6NextHopUnsupported (dut : Device) : go bool := d ← lookupDUTDeviations dut; Get KBool "Ipv4StaticRouteWithIpv6NhUnsupported" d.
Definition IPv6StaticRouteWithIPv4NextHopUnsupported (dut : Device) : go bool := d ← lookupDUTDeviations dut; Get KBool "Ipv6StaticRouteWithIpv4NhUnsupported" d.
Definition StaticRouteWithDropNhUnsupported (dut : Device) : go bool := d ← lookupDUTDeviations dut; Get KBool "StaticRouteWithDropNh" d.
Definition StaticRouteWithExplicitMetric (dut : Device) : go bool := d ← lookupDUTDeviations dut; Get KBool "StaticRouteWithExplicitMetric" d.
Definition BgpDefaultPolicyUnsupported (dut : Device) : go bool := d ← lookupDUTDeviations dut; Get KBool "BgpDefaultPolicyUnsupported" d.
Definition ExplicitEnableBGPOnDefaultVRF (dut : Device) : go bool := d ← lookupDUTDeviations dut; Get KBool "ExplicitEnableBgpOnDefaultVrf" d.
Definition RoutingPolicyTagSetEmbedded (dut : Device) : go bool := d ← lookupDUTDeviations dut; Get KBool "RoutingPolicyTagSetEmbedded" d.
Definition SkipAfiSafiPathForBgpMultipleAs (dut : Device) : go bool := d ← lookupDUTDeviations dut; Get KBool "SkipAfiSafiPathForBgpMultipleAs" d.
Definition CommunityMemberRegexUnsupported (dut : Device) : go bool := d ← lookupDUTDeviations dut; Get KBool "CommunityMemberRegexUnsupported" d.
Definition SamePolicyAttachedToAllAfis (dut : Device) : go bool := d ← lookupDUTDeviations dut; Get KBool "SamePolicyAttachedToAllAfis" d.
Definition SkipSettingStatementForPolicy (dut : Device) : go bool := d ← lookupDUTDeviations dut; Get KBool "SkipSettingStatementForPolicy" d.
Definition SkipCheckingAttributeIndex (dut : Device) : go bool := d ← lookupDUTDeviations dut; Get KBool "SkipCheckingAttributeIndex" d.
Definition FlattenPolicyWithMultipleStatements (dut : Device) : go bool := d ← lookupDUTDeviations dut; Get KBool "FlattenPolicyWithMultipleStatements" d.
Definition SlaacPrefixLength128 (dut : Device) : go bool := d ← lookupDUTDeviations dut; Get KBool "SlaacPrefixLength128" d.
Definition DefaultRoutePolicyUnsupported (dut : Device) : go bool := d ← lookupDUTDeviations dut; Get KBool "DefaultRoutePolicyUnsupported" d.
Definition CommunityMatchWithRedistributionUnsupported (dut : Device) : go bool := d ← lookupDUTDeviations dut; Get KBool "CommunityMatchWithRedistributionUnsupported" d.
Definition BgpMaxMultipathPathsUnsupported (dut : Device) : go bool := d ← lookupDUTDeviations dut; Get KBool "BgpMaxMultipathPathsUnsupported" d.
Definition MultipathUnsupportedNeighborOrAfisafi (dut : Device) : go bool := d ← lookupDUTDeviations dut; Get KBool "MultipathUnsupportedNeighborOrAfisafi" d.
Definition ModelNameUnsupported (dut : Device) : go bool := d ← lookupDUTDeviations dut; Get KBool "ModelNameUnsupported" d.
Definition InstallPositionAndInstallComponentUnsupported (dut : Device) : go bool := d ← lookupDUTDeviations dut; Get KBool "InstallPositionAndInstallComponentUnsupported" d.
Definition EncapTunnelShutBackupNhgZeroTraffic (dut : Device) : go bool := d ← lookupDUTDeviations dut; Get KBool "EncapTunnelShutBackupNhgZeroTraffic" d.
Definition MaxEcmpPaths (dut : Device) : go bool := d ← lookupDUTDeviations dut; Get KBool "MaxEcmpPaths" d.
Definition WecmpAutoUnsupported (dut : Device) : go bool := d ← lookupDUTDeviations dut; Get KBool "WecmpAutoUnsupported" d.
Definition RoutingPolicyChainingUnsupported (dut : Device) : go bool := d ← lookupDUTDeviations dut; Get KBool "RoutingPolicyChainingUnsupported" d.
Definition ISISLoopbackRequired (dut : Device) : go bool := d ← lookupDUTDeviations dut; Get KBool "IsisLoopbackRequired" d.
Definition WeightedEcmpFixedPacketVerification (dut : Device) : go bool := d ← lookupDUTDeviations dut; Get KBool "WeightedEcmpFixedPacketVerification" d.
Definition OverrideDefaultNhScale (dut : Device) : go bool := d ← lookupDUTDeviations dut; Get KBool "OverrideDefaultNhScale" d.
Definition BgpExtendedCommunitySetUnsupported (dut : Device) : go bool := d ← lookupDUTDeviations dut; Get KBool "BgpExtendedCommunitySetUnsupported" d.
Definition BgpSetExtCommunitySetRefsUnsupported (dut : Device) : go bool := d ← lookupDUTDeviations dut; Get KBool "BgpSetExtCommunitySetRefsUnsupported" d.
Definition BgpDeleteLinkBandwidthUnsupported (dut : Device) : go bool := d ← lookupDUTDeviations dut; Get KBool "BgpDeleteLinkBandwidthUnsupported" d.
Definition QOSInQueueDropCounterUnsupported (dut : Device) : go bool := d ← lookupDUTDeviations dut; Get KBool "QosInqueueDropCounterUnsupported" d.
Definition BgpExplicitExtendedCommunityEnable (dut : Device) : go bool := d ← lookupDUTDeviations dut; Get KBool "BgpExplicitExtendedCommunityEnable" d.
Definition MatchTagSetConditionUnsupported (dut : Device) : go bool := d ← lookupDUTDeviations dut; Get KBool "MatchTagSetConditionUnsupported" d.
Definition PeerGroupDefEbgpVrfUnsupported (dut : Device) : go bool := d ← lookupDUTDeviations dut; Get KBool "PeerGroupDefEbgpVrfUnsupported" d.
Definition RedisConnectedUnderEbgpVrfUnsupported (dut : Device) : go bool := d ← lookupDUTDeviations dut; Get KBool "RedisConnectedUnderEbgpVrfUnsupported" d.
Definition BgpAfiSafiInDefaultNiBeforeOtherNi (dut : Device) : go bool := d ← lookupDUTDeviations dut; Get KBool "BgpAfiSafiInDefaultNiBeforeOtherNi" d.
Definition DefaultImportExportPolicyUnsupported (dut : Device) : go bool := d ← lookupDUTDeviations dut; Get KBool "DefaultImportExportPolicyUnsupported" d.
Definition CommunityInvertAnyUnsupported (dut : Device) : go bool := d ← lookupDUTDeviations dut; Get KBool "CommunityInvertAnyUnsupported" d.
Definition Ipv6RouterAdvertisementIntervalUnsupported (dut : Device) : go bool := d ← lookupDUTDeviations dut; Get KBool "Ipv6RouterAdvertisementIntervalUnsupported" d.
Definition DecapNHWithNextHopNIUnsupported (dut : Device) : go bool := d ← lookupDUTDeviations dut; Get KBool "DecapNhWithNexthopNiUnsupported" d.
Definition SflowSourceAddressUpdateUnsupported (dut : Device) : go bool := d ← lookupDUTDeviations dut; Get KBool "SflowSourceAddressUpdateUnsupported" d.
Definition LinkLocalMaskLen (dut : Device) : go bool := d ← lookupDUTDeviations dut; Get KBool "LinkLocalMaskLen" d.
Definition UseParentComponentForTemperatureTelemetry (dut : Device) : go bool := d ← lookupDUTDeviations dut; Get KBool "UseParentComponentForTemperatureTelemetry" d.
Definition ComponentMfgDateUnsupported (dut : Device) : go bool := d ← lookupDUTDeviations dut; Get KBool "ComponentMfgDateUnsupported" d.
Definition InterfaceCountersUpdateDelayed (dut : Device) : go bool := d ← lookupDUTDeviations dut; Get KBool "InterfaceCountersUpdateDelayed" d.
Definition OTNChannelTribUnsupported (dut : Device) : go bool := d ← lookupDUTDeviations dut; Get KBool "OtnChannelTribUnsupported" d.
Definition EthChannelIngressParametersUnsupported (dut : Device) : go bool := d ← lookupDUTDeviations dut; Get KBool "EthChannelIngressParametersUnsupported" d.
Definition EthChannelAssignmentCiscoNumbering (dut : Device) : go bool := d ← lookupDUTDeviations dut; Get KBool "EthChannelAssignmentCiscoNumbering" d.
Definition ChassisGetRPCUnsupported (dut : Device) : go bool := d ← lookupDUTDeviations dut; Get KBool "ChassisGetRpcUnsupported" d.
Definition PowerDisableEnableLeafRefValidation (dut : Device) : go bool := d ← lookupDUTDeviations dut; Get KBool "PowerDisableEnableLeafRefValidation" d.
Definition SSHServerCountersUnsupported (dut : Device) : go bool := d ← lookupDUTDeviations dut; Get KBool "SshServerCountersUnsupported" d.
Definition OperationalModeUnsupported (dut : Device) : go bool := d ← lookupDUTDeviations dut; Get KBool "OperationalModeUnsupported" d.
Definition BgpSessionStateIdleInPassiveMode (dut : Device) : go bool := d ← lookupDUTDeviations dut; Get KBool "BgpSessionStateIdleInPassiveMode" d.
Definition EnableMultipathUnderAfiSafi (dut : Device) : go bool := d ← lookupDUTDeviations dut; Get KBool "EnableMultipathUnderAfiSafi" d.
Definition OTNChannelAssignmentCiscoNumbering (dut : Device) : go bool := d ← lookupDUTDeviations dut; Get KBool "OtnChannelAssignmentCiscoNumbering" d.
Definition CiscoPreFECBERInactiveValue (dut : Device) : go bool := d ← lookupDUTDeviations dut; Get KBool "CiscoPreFecBerInactiveValue" d.
Definition BgpAfiSafiWildcardNotSupported (dut : Device) : go bool := d ← lookupDUTDeviations dut; Get KBool "BgpAfiSafiWildcardNotSupported" d.
Definition NoZeroSuppression (dut : Device) : go bool := d ← lookupDUTDeviations dut; Get KBool "NoZeroSuppression" d.
Definition IsisInterfaceLevelPassiveUnsupported (dut : Device) : go bool := d ← lookupDUTDeviations dut; Get KBool "IsisInterfaceLevelPassiveUnsupported" d.
Definition IsisDisSysidUnsupported (dut : Device) : go bool := d ← lookupDUTDeviations dut; Get KBool "IsisDisSysidUnsupported" d.
Definition IsisDatabaseOverloadsUnsupported (dut : Device) : go bool := d ← lookupDUTDeviations dut; Get KBool "IsisDatabaseOverloadsUnsupported" d.
Definition EnableTableConnections (dut : Device) : go bool := d ← lookupDUTDeviations dut; Get KBool "EnableTableConnections" d.
Definition TcDefaultImportPolicyUnsupported (dut : Device) : go bool := d ← lookupDUTDeviations dut; Get KBool "TcDefaultImportPolicyUnsupported" d.
Definition TcMetricPropagationUnsupported (dut : Device) : go bool := d ← lookupDUTDeviations dut; Get KBool "TcMetricPropagationUnsupported" d.
Definition TcAttributePropagationUnsupported (dut : Device) : go bool := d ← lookupDUTDeviations dut; Get KBool "TcAttributePropagationUnsupported" d.
Definition TcSubscriptionUnsupported (dut : Device) : go bool := d ← lookupDUTDeviations dut; Get KBool "TcSubscriptionUnsupported" d.
Definition ChannelRateClassParametersUnsupported (dut : Device) : go bool := d ← lookupDUTDeviations dut; Get KBool "ChannelAssignmentRateClassParametersUnsupported" d.
Definition QosSchedulerIngressPolicer (dut : Device) : go bool := d ← lookupDUTDeviations dut; Get KBool "QosSchedulerIngressPolicerUnsupported" d.
Definition GribiEncapHeaderUnsupported (dut : Device) : go bool := d ← lookupDUTDeviations dut; Get KBool "GribiEncapHeaderUnsupported" d.
Definition P4RTCapabilitiesUnsupported (dut : Device) : go bool := d ← lookupDUTDeviations dut; Get KBool "P4RtCapabilitiesUnsupported" d.
Definition GNMIGetOnRootUnsupported (dut : Device) : go bool := d ← lookupDUTDeviations dut; Get KBool "GnmiGetOnRootUnsupported" d.
Definition PacketProcessingAggregateDropsUnsupported (dut : Device) : go bool := d ← lookupDUTDeviations dut; Get KBool "PacketProcessingAggregateDropsUnsupported" d.
Definition FragmentTotalDropsUnsupported (dut : Device) : go bool := d ← lookupDUTDeviations dut; Get KBool "FragmentTotalDropsUnsupported" d.
Definition BgpPrefixsetReqRoutepolRef (dut : Device) : go bool := d ← lookupDUTDeviations dut; Get KBool "BgpPrefixsetReqRoutepolRef" d.
Definition OperStatusForIcUnsupported (dut : Device) : go bool := d ← lookupDUTDeviations dut; Get KBool "OperStatusForIcUnsupported" d.
Definition BgpAspathsetUnsupported (dut : Device) : go bool := d ← lookupDUTDeviations dut; Get KBool "BgpAspathsetUnsupported" d.
Definition ExplicitDcoConfig (dut : Device) : go bool := d ← lookupDUTDeviations dut; Get KBool "ExplicitDcoConfig" d.
Definition VerifyExpectedBreakoutSupportedConfig (dut : Device) : go bool := d ← lookupDUTDeviations dut; Get KBool "VerifyExpectedBreakoutSupportedConfig" d.
Definition SrIgpConfigUnsupported (dut : Device) : go bool := d ← lookupDUTDeviations dut; Get KBool "SrIgpConfigUnsupported" d.
Definition SetISISAuthWithInterfaceAuthenticationContainer (dut : Device) : go bool := d ← lookupDUTDeviations dut; Get KBool "SetIsisAuthWithInterfaceAuthenticationContainer" d.
Definition GreGueTunnelInterfaceOcUnsupported (dut : Device) : go bool := d ← lookupDUTDeviations dut; Get KBool "GreGueTunnelInterfaceOcUnsupported" d.
Definition LoadIntervalNotSupported (dut : Device) : go bool := d ← lookupDUTDeviations dut; Get KBool "LoadIntervalNotSupported" d.
Definition SkipOpticalChannelOutputPowerInterval (dut : Device) : go bool := d ← lookupDUTDeviations dut; Get KBool "SkipOpticalChannelOutputPowerInterval" d.
Definition SkipTransceiverDescription (dut : Device) : go bool := d ← lookupDUTDeviations dut; Get KBool "SkipTransceiverDescription" d.
Definition ContainerzOCUnsupported (dut : Device) : go bool := d ← lookupDUTDeviations dut; Get KBool "ContainerzOcUnsupported" d.
Definition ContainerzRetrieveLogsUnsupported (dut : Device) : go bool := d ← lookupDUTDeviations dut; Get KBool "ContainerzRetrieveLogsUnsupported" d.
Definition NextHopGroupOCUnsupported (dut : Device) : go bool := d ← lookupDUTDeviations dut; Get KBool "NextHopGroupConfigUnsupported" d.
Definition QosShaperOCUnsupported (dut : Device) : go bool := d ← lookupDUTDeviations dut; Get KBool "QosShaperConfigUnsupported" d.
Definition EthernetOverMPLSogreOCUnsupported (dut : Device) : go bool := d ← lookupDUTDeviations dut; Get KBool "EthernetOverMplsogreUnsupported" d.
Definition SflowOCUnsupported (dut : Device) : go bool := d ← lookupDUTDeviations dut; Get KBool "SflowUnsupported" d.
Definition MplsOCUnsupported (dut : Device) : go bool := d ← lookupDUTDeviations dut; Get KBool "MplsUnsupported" d.
Definition MacsecOCUnsupported (dut : Device) : go bool := d ← lookupDUTDeviations dut; Get KBool "MacsecUnsupported" d.
Definition GueGreDecapOCUnsupported (dut : Device) : go bool := d ← lookupDUTDeviations dut; Get KBool "GueGreDecapUnsupported" d.
Definition MplsLabelClassificationOCUnsupported (dut : Device) : go bool := d ← lookupDUTDeviations dut; Get KBool "MplsLabelClassificationUnsupported" d.
Definition LocalProxyOCUnsupported (dut : Device) : go bool := d ← lookupDUTDeviations dut; Get KBool "LocalProxyUnsupported" d.
Definition StaticMplsOCUnsupported (dut : Device) : go bool := d ← lookupDUTDeviations dut; Get KBool "StaticMplsUnsupported" d.
Definition QosClassificationOCUnsupported (dut : Device) : go bool := d ← lookupDUTDeviations dut; Get KBool "QosClassificationUnsupported" d.
Definition PolicyForwardingOCUnsupported (dut : Device) : go bool := d ← lookupDUTDeviations dut; Get KBool "PolicyForwardingUnsupported" d.
Definition InterfacePolicyForwardingOCUnsupported (dut : Device) : go bool := d ← lookupDUTDeviations dut; Get KBool "InterfacePolicyForwardingUnsupported" d.
Definition GueGreDecapUnsupported (dut : Device) : go bool := d ← lookupDUTDeviations dut; Get KBool "GueGreDecapUnsupported" d.
Definition StaticMplsUnsupported (dut : Device) : go bool := d ← lookupDUTDeviations dut; Get KBool "StaticMplsUnsupported" d.
Definition QosShaperStateOCUnsupported (dut : Device) : go bool := d ← lookupDUTDeviations dut; Get KBool "QosShaperStateUnsupported" d.
Definition CfmOCUnsupported (dut : Device) : go bool := d ← lookupDUTDeviations dut; Get KBool "CfmUnsupported" d.
Definition LabelRangeOCUnsupported (dut : Device) : go bool := d ← lookupDUTDeviations dut; Get KBool "LabelRangeUnsupported" d.
Definition StaticArpOCUnsupported (dut : Device) : go bool := d ← lookupDUTDeviations dut; Get KBool "StaticArpUnsupported" d.
Definition BgpDistanceOcPathUnsupported (dut : Device) : go bool := d ← lookupDUTDeviations dut; Get KBool "BgpDistanceOcPathUnsupported" d.
Definition IsisMplsUnsupported (dut : Device) : go bool := d ← lookupDUTDeviations dut; Get KBool "IsisMplsUnsupported" d.
Definition AutoNegotiateUnsupported (dut : Device) : go bool := d ← lookupDUTDeviations dut; Get KBool "AutoNegotiateUnsupported" d.
Definition DuplexModeUnsupported (dut : Device) : go bool := d ← lookupDUTDeviations dut; Get KBool "DuplexModeUnsupported" d.
Definition PortSpeedUnsupported (dut : Device) : go bool := d ← lookupDUTDeviations dut; Get KBool "PortSpeedUnsupported" d.
Definition PolicyForwardingToNextHopOcUnsupported (dut : Device) : go bool := d ← lookupDUTDeviations dut; Get KBool "PolicyForwardingToNextHopOcUnsupported" d.
Definition BGPSetMedActionUnsupported (dut : Device) : go bool := d ← lookupDUTDeviations dut; Get KBool "BgpSetMedActionUnsupported" d.
Definition ReducedEcmpSetOnMixedEncapDecapNh (dut : Device) : go bool := d ← lookupDUTDeviations dut; Get KBool "ReducedEcmpSetOnMixedEncapDecapNh" d.
Definition NumPhysyicalChannelsUnsupported (dut : Device) : go bool := d ← lookupDUTDeviations dut; Get KBool "NumPhysicalChannelsUnsupported" d.
Definition UseOldOCPathStaticLspNh (dut : Device) : go bool := d ← lookupDUTDeviations dut; Get KBool "UseOldOcPathStaticLspNh" d.
Definition ConfigLeafCreateRequired (dut : Device) : go bool := d ← lookupDUTDeviations dut; Get KBool "ConfigLeafCreateRequired" d.
Definition FrBreakoutFix (dut : Device) : go bool := d ← lookupDUTDeviations dut; Get KBool "FrBreakoutFix" d.
Definition SkipInterfaceNameCheck (dut : Device) : go bool := d ← lookupDUTDeviations dut; Get KBool "SkipInterfaceNameCheck" d.
Definition UnsupportedQoSOutputServicePolicy (dut : Device) : go bool := d ← lookupDUTDeviations dut; Get KBool "UnsupportedQosOutputServicePolicy" d.
Definition InterfaceOutputQueueNonStandardName (dut : Device) : go bool := d ← lookupDUTDeviations dut; Get KBool "InterfaceOutputQueueNonStandardName" d.
Definition MplsExpIngressClassifierOcUnsupported (dut : Device) : go bool := d ← lookupDUTDeviations dut; Get KBool "MplsExpIngressClassifierOcUnsupported" d.
Definition DefaultNoIgpMetricPropagation (dut : Device) : go bool := d ← lookupDUTDeviations dut; Get KBool "DefaultNoIgpMetricPropagation" d.
Definition SkipBgpPeerGroupSendCommunityType (dut : Device) : go bool := d ← lookupDUTDeviations dut; Get KBool "SkipBgpPeerGroupSendCommunityType" d.
Definition ExplicitSwapSrcDstMacNeededForLoopbackMode (dut : Device) : go bool := d ← lookupDUTDeviations dut; Get KBool "ExplicitSwapSrcDstMacNeededForLoopbackMode" d.
Definition LinkLocalInsteadOfNh (dut : Device) : go bool := d ← lookupDUTDeviations dut; Get KBool "LinkLocalInsteadOfNh" d.
Definition LowScaleAft (dut : Device) : go bool := d ← lookupDUTDeviations dut; Get KBool "LowScaleAft" d.
Definition MissingSystemDescriptionConfigPath (dut : Device) : go bool := d ← lookupDUTDeviations dut; Get KBool "MissingSystemDescriptionConfigPath" d.
Definition NonIntervalFecErrorCounter (dut : Device) : go bool := d ← lookupDUTDeviations dut; Get KBool "NonIntervalFecErrorCounter" d.
Definition NtpSourceAddressUnsupported (dut : Device) : go bool := d ← lookupDUTDeviations dut; Get KBool "NtpSourceAddressUnsupported" d.
Definition StaticMplsLspOCUnsupported (dut : Device) : go bool := d ← lookupDUTDeviations dut; Get KBool "StaticMplsLspOcUnsupported" d.
Definition GreDecapsulationOCUnsupported (dut : Device) : go bool := d ← lookupDUTDeviations dut; Get KBool "GreDecapsulationOcUnsupported" d.
Definition IsisSrgbSrlbUnsupported (dut : Device) : go bool := d ← lookupDUTDeviations dut; Get KBool "IsisSrgbSrlbUnsupported" d.
Definition IsisSrPrefixSegmentConfigUnsupported (dut : Device) : go bool := d ← lookupDUTDeviations dut; Get KBool "IsisSrPrefixSegmentConfigUnsupported" d.
Definition IsisSrNodeSegmentConfigUnsupported (dut : Device) : go bool := d ← lookupDUTDeviations dut; Get KBool "IsisSrNodeSegmentConfigUnsupported" d.
Definition IsisSrNoPhpRequired (dut : Device) : go bool := d ← lookupDUTDeviations dut; Get KBool "IsisSrNoPhpRequired" d.
Definition SflowIngressMinSamplingRate (dut : Device) : go Z := d ← lookupDUTDeviations dut; Get KUint32 "SflowIngressMinSamplingRate" d.
Definition QosRemarkOCUnsupported (dut : Device) : go bool := d ← lookupDUTDeviations dut; Get KBool "QosRemarkOcUnsupported" d.
Definition PolicyForwardingGreEncapsulationOcUnsupported (dut : Device) : go bool := d ← lookupDUTDeviations dut; Get KBool "PolicyForwardingGreEncapsulationOcUnsupported" d.
Definition PolicyRuleCountersOCUnsupported (dut : Device) : go bool := d ← lookupDUTDeviations dut; Get KBool "PolicyRuleCountersOcUnsupported" d.
Definition OTNToETHAssignment (dut : Device) : go bool := d ← lookupDUTDeviations dut; Get KBool "OtnToEthAssignment" d.
Definition NetworkInstanceImportExportPolicyOCUnsupported (dut : Device) : go bool := d ← lookupDUTDeviations dut; Get KBool "NetworkInstanceImportExportPolicyOcUnsupported" d.
Definition SkipOrigin (dut : Device) : go bool := d ← lookupDUTDeviations dut; Get KBool "SkipOrigin" d.
Definition PredefinedMaxEcmpPaths (dut : Device) : go bool := d ← lookupDUTDeviations dut; Get KBool "PredefinedMaxEcmpPaths" d.
Definition DecapsulateGueOCUnsupported (dut : Device) : go bool := d ← lookupDUTDeviations dut; Get KBool "DecapsulateGueOcUnsupported" d.
Definition LinePortUnsupported (dut : Device) : go bool := d ← lookupDUTDeviations dut; Get KBool "LinePortUnsupported" d.
Definition UseBgpSetCommunityOptionTypeReplace (dut : Device) : go bool := d ← lookupDUTDeviations dut; Get KBool "UseBgpSetCommunityOptionTypeReplace" d.
Definition GlobalMaxEcmpPathsUnsupported (dut : Device) : go bool := d ← lookupDUTDeviations dut; Get KBool "GlobalMaxEcmpPathsUnsupported" d.
Definition QosTwoRateThreeColorPolicerOCUnsupported (dut : Device) : go bool := d ← lookupDUTDeviations dut; Get KBool "QosTwoRateThreeColorPolicerOcUnsupported" d.
Definition LoadBalancePolicyOCUnsupported (dut : Device) : go bool := d ← lookupDUTDeviations dut; Get KBool "LoadBalancePolicyOcUnsupported" d.
Definition GribiRecordsUnsupported (dut : Device) : go bool := d ← lookupDUTDeviations dut; Get KBool "GribiRecordsUnsupported" d.
Definition CiscoxrLaserFt (dut : Device) : go string := d ← lookupDUTDeviations dut; Get KString "CiscoxrLaserFt" d.
Definition BreakoutModeUnsupportedForEightHundredGb (dut : Device) : go bool := d ← lookupDUTDeviations dut; Get KBool "BreakoutModeUnsupportedForEightHundredGb" d.
Definition PortSpeedDuplexModeUnsupportedForInterfaceConfig (dut : Device) : go bool := d ← lookupDUTDeviations dut; Get KBool "PortSpeedDuplexModeUnsupportedForInterfaceConfig" d.
Definition ExplicitBreakoutInterfaceConfig (dut : Device) : go bool := d ← lookupDUTDeviations dut; Get KBool "ExplicitBreakoutInterfaceConfig" d.
Definition TelemetryNotSupportedForLowPriorityNh (dut : Device) : go bool := d ← lookupDUTDeviations dut; Get KBool "TelemetryNotSupportedForLowPriorityNh" d.
Definition MatchAsPathSetUnsupported (dut : Device) : go bool := d ← lookupDUTDeviations dut; Get KBool "MatchAsPathSetUnsupported" d.
Definition SameAfiSafiAndPeergroupPoliciesUnsupported (dut : Device) : go bool := d ← lookupDUTDeviations dut; Get KBool "SameAfiSafiAndPeergroupPoliciesUnsupported" d.
Definition SyslogOCUnsupported (dut : Device) : go bool := d ← lookupDUTDeviations dut; Get KBool "SyslogOcUnsupported" d.
Definition SIDPerInterfaceCounterUnsupported (dut : Device) : go bool := d ← lookupDUTDeviations dut; Get KBool "SidPerInterfaceCounterUnsupported" d.
Definition TransceiverConfigEnableUnsupported (dut : Device) : go bool := d ← lookupDUTDeviations dut; Get KBool "TransceiverConfigEnableUnsupported" d.
Definition AFTSummaryOCUnsupported (dut : Device) : go bool := d ← lookupDUTDeviations dut; Get KBool "AftSummaryOcUnsupported" d.
Definition ISISLSPTlvsOCUnsupported (dut : Device) : go bool := d ← lookupDUTDeviations dut; Get KBool "IsisLspTlvsOcUnsupported" d.
Definition ISISAdjacencyStreamUnsupported (dut : Device) : go bool := d ← lookupDUTDeviations dut; Get KBool "IsisAdjacencyStreamUnsupported" d.
Definition LocalhostForContainerz (dut : Device) : go bool := d ← lookupDUTDeviations dut; Get KBool "LocalhostForContainerz" d.
Definition AggregateBandwidthPolicyActionUnsupported (dut : Device) : go bool := d ← lookupDUTDeviations dut; Get KBool "AggregateBandwidthPolicyActionUnsupported" d.
Definition AutoLinkBandwidthUnsupported (dut : Device) : go bool := d ← lookupDUTDeviations dut; Get KBool "AutoLinkBandwidthUnsupported" d.
Definition AdvertisedCumulativeLBwOCUnsupported (dut : Device) : go bool := d ← lookupDUTDeviations dut; Get KBool "AdvertisedCumulativeLbwOcUnsupported" d.
Definition DisableHardwareNexthopProxy (dut : Device) : go bool := d ← lookupDUTDeviations dut; Get KBool "DisableHardwareNexthopProxy" d.
Definition URPFConfigOCUnsupported (dut : Device) : go bool := d ← lookupDUTDeviations dut; Get KBool "InterfacePolicyForwardingUnsupported" d.
Definition StaticRouteNextNetworkInstanceOCUnsupported (dut : Device) : go bool := d ← lookupDUTDeviations dut; Get KBool "StaticRouteNextNetworkInstanceOcUnsupported" d.
Definition GnpsiOcUnsupported (dut : Device) : go bool := d ← lookupDUTDeviations dut; Get KBool "GnpsiOcUnsupported" d.
Definition SyslogNonDefaultVrfUnsupported (dut : Device) : go bool := d ← lookupDUTDeviations dut; Get KBool "SyslogNonDefaultVrfUnsupported" d.
Definition BgpLocalAggregateUnsupported (dut : Device) : go bool := d ← lookupDUTDeviations dut; Get KBool "BgpLocalAggregateUnsupported" d.
Definition SkipSamplingQosCounters (dut : Device) : go bool := d ← lookupDUTDeviations dut; Get KBool "SkipSamplingQosCounters" d.
Definition ConfigACLWithPrefixListNotSupported (dut : Device) : go bool := d ← lookupDUTDeviations dut; Get KBool "ConfigAclWithPrefixlistUnsupported" d.
Definition ConfigACLValueAnyOcUnsupported (dut : Device) : go bool := d ← lookupDUTDeviations dut; Get KBool "ConfigAclValueAnyOcUnsupported" d.
Definition ConfigACLOcUnsupported (dut : Device) : go bool := d ← lookupDUTDeviations dut; Get KBool "ConfigAclOcUnsupported" d.
Definition BgpRibStreamingConfigRequired (dut : Device) : go bool := d ← lookupDUTDeviations dut; Get KBool "BgpRibStreamingConfigRequired" d.
Definition InterfaceCountersInUnknownProtosUnsupported (dut : Device) : go bool := d ← lookupDUTDeviations dut; Get KBool "InterfaceCountersInUnknownProtosUnsupported" d.
Definition AggregateSIDCounterOutPktsUnsupported (dut : Device) : go bool := d ← lookupDUTDeviations dut; Get KBool "AggregateSidCounterOutPktsUnsupported" d.
Definition MatchCommunitySetMatchSetOptionsAllUnsupported (dut : Device) : go bool := d ← lookupDUTDeviations dut; Get KBool "MatchCommunitySetMatchSetOptionsAllUnsupported" d.
Definition BMPOCUnsupported (dut : Device) : go bool := d ← lookupDUTDeviations dut; Get KBool "BmpOcUnsupported" d.
Definition BgpCommunityTypeSliceInputUnsupported (dut : Device) : go bool := d ← lookupDUTDeviations dut; Get KBool "BgpCommunityTypeSliceInputUnsupported" d.
Definition IbgpMultipathPathUnsupported (dut : Device) : go bool := d ← lookupDUTDeviations dut; Get KBool "IbgpMultipathPathUnsupported" d.
Definition GetRetainGnmiCfgAfterReboot (dut : Device) : go bool := d ← lookupDUTDeviations dut; Get KBool "RetainGnmiCfgAfterReboot" d.
Definition ContainerzPluginRPCUnsupported (dut : Device) : go bool := d ← lookupDUTDeviations dut; Get KBool "ContainerzPluginRpcUnsupported" d.
Definition NonStandardGRPCPort (dut : Device) : go bool := d ← lookupDUTDeviations dut; Get KBool "NonStandardGrpcPort" d.
Definition ContainerzTLSInsecureSkipVerify (dut : Device) : go bool := d ← lookupDUTDeviations dut; Get KBool "ContainerzTlsInsecureSkipVerify" d.
Definition SwitchoverStabilizeDelayM (dut : Device) : go Z := d ← lookupDUTDeviations dut; Get KUint32 "SwitchoverStabilizeDelayM" d.
Definition GnoiRequiresFreshDialAfterSwitchover (dut : Device) : go bool := d ← lookupDUTDeviations dut; Get KBool "GnoiRequiresFreshDialAfterSwitchover" d.
Definition ContainerzRequireExplicitConfigSave (dut : Device) : go bool := d ← lookupDUTDeviations dut; Get KBool "ContainerzRequireExplicitConfigSave" d.
Definition TemperatureSensorCheck (dut : Device) : go bool := d ← lookupDUTDeviations dut; Get KBool "TemperatureSensorCheck" d.
Definition CPUUtilizationQueryAgainstBaseControllerCardComponent (dut : Device) : go bool := d ← lookupDUTDeviations dut; Get KBool "CpuUtilizationQueryAgainstBaseControllerCardComponent" d.
Definition CPUUtilizationQueryAgainstBaseLinecardComponent (dut : Device) : go bool := d ← lookupDUTDeviations dut; Get KBool "CpuUtilizationQueryAgainstBaseLinecardComponent" d.
Definition NoQueueDropUnsupported (dut : Device) : go bool := d ← lookupDUTDeviations dut; Get KBool "NoQueueDropUnsupported" d.
Definition InterfaceEthernetInblockErrorsUnsupported (dut : Device) : go bool := d ← lookupDUTDeviations dut; Get KBool "InterfaceEthernetInblockErrorsUnsupported" d.
Definition ForwardingViableFailoverWithIndirectNHUnsupported (dut : Device) : go bool := d ← lookupDUTDeviations dut; Get KBool "ForwardingViableFailoverWithIndirectNhUnsupported" d.
Definition CiscoxrTransceiverFt (dut : Device) : go string := d ← lookupDUTDeviations dut; Get KString "CiscoxrTransceiverFt" d.
Definition TransceiverStateUnsupported (dut : Device) : go bool := d ← lookupDUTDeviations dut; Get KBool "TransceiverStateUnsupported" d.
Definition SubnetMaskChangeRequired (dut : Device) : go bool := d ← lookupDUTDeviations dut; Get KBool "SubnetMaskChangeRequired" d.
Definition Ciscoxr8000IntegratedCircuitResourceFt (dut : Device) : go string := d ← lookupDUTDeviations dut; Get KString "Ciscoxr8000IntegratedCircuitResourceFt" d.
Definition CiscoxrVendordropFt (dut : Device) : go string := d ← lookupDUTDeviations dut; Get KString "CiscoxrVendordropFt" d.
Definition BgpDefaultPolicyBehaviorAcceptRoute (dut : Device) : go bool := d ← lookupDUTDeviations dut; Get KBool "BgpDefaultPolicyBehaviorAcceptRoute" d.
Definition TerminalDeviceChannelAdminStateUnsupported (dut : Device) : go bool := d ← lookupDUTDeviations dut; Get KBool "TerminalDeviceChannelAdminStateUnsupported" d.
Definition ACLCountersEnableOCUnsupported (dut : Device) : go bool := d ← lookupDUTDeviations dut; Get KBool "AclCountersEnableOcUnsupported" d.
Definition SkipACLCountersVerificationDuringUpdate (dut : Device) : go bool := d ← lookupDUTDeviations dut; Get KBool "SkipAclCountersVerificationDuringUpdate" d.
Definition ACLIcmpTypeCodeConfigurationUnsupported (dut : Device) : go bool := d ← lookupDUTDeviations dut; Get KBool "AclIcmpTypeCodeConfigurationUnsupported" d.
Definition Ipv6RouterAdvertisementSuppressUnsupported (dut : Device) : go bool := d ← lookupDUTDeviations dut; Get KBool "Ipv6RouterAdvertisementSuppressUnsupported" d.
Definition BgpConfigDuringGracefulRestartUnsupported (dut : Device) : go bool := d ← lookupDUTDeviations dut; Get KBool "BgpConfigDuringGracefulRestartUnsupported" d.
Definition RoutingRestartViaGnoiUnsupported (dut : Device) : go bool := d ← lookupDUTDeviations dut; Get KBool "RoutingRestartViaGnoiUnsupported" d.
Definition BgpRplDirectlyUnderPeerGroupUnsupported (dut : Device) : go bool := d ← lookupDUTDeviations dut; Get KBool "BgpRplDirectlyUnderPeerGroupUnsupported" d.
Definition WecmpSetWeightUnsupported (dut : Device) : go bool := d ← lookupDUTDeviations dut; Get KBool "WecmpSetWeightUnsupported" d.
Definition ExplicitlyApplyAllowAllImportPolicy (dut : Device) : go bool := d ← lookupDUTDeviations dut; Get KBool "ExplicitlyApplyAllowAllImportPolicy" d.
Definition QosFt (dut : Device) : go string := d ← lookupDUTDeviations dut; Get KString "QosFt" d.
Definition SystemMountPointStateFt (dut : Device) : go string := d ← lookupDUTDeviations dut; Get KString "SystemMountPointStateFt" d.
Definition ArpFT (dut : Device) : go string := d ← lookupDUTDeviations dut; Get KString "ArpFt" d.
Definition PrefixLimitConfigUnsupported (dut : Device) : go bool := d ← lookupDUTDeviations dut; Get KBool "PrefixLimitConfigUnsupported" d.
Definition SSHServerHostCertificateTelemetryUnsupported (dut : Device) : go bool := d ← lookupDUTDeviations dut; Get KBool "SshServerHostCertificateTelemetryUnsupported" d.
Definition SendMaxUnsupported (dut : Device) : go bool := d ← lookupDUTDeviations dut; Get KBool "SendMaxUnsupported" d.
Definition OcAaaUserRoleLeafStringTypeUnsupported (dut : Device) : go bool := d ← lookupDUTDeviations dut; Get KBool "OcAaaUserRoleLeafStringTypeUnsupported" d.
Definition AcctzShellCmdAccountingUnsupported (dut : Device) : go bool := d ← lookupDUTDeviations dut; Get KBool "AcctzShellCmdAccountingUnsupported" d.
Definition AcctzRecordsAuthzStatusDenyUnsupported (dut : Device) : go bool := d ← lookupDUTDeviations dut; Get KBool "AcctzRecordsAuthzStatusDenyUnsupported" d.
Definition FpgaFt (dut : Device) : go string := d ← lookupDUTDeviations dut; Get KString "FpgaFt" d.
Definition AcctzRecordFailCommandUnsupported (dut : Device) : go bool := d ← lookupDUTDeviations dut; Get KBool "AcctzRecordFailCommandUnsupported" d.
Definition AcctzRecordFailGrpcUnsupported (dut : Device) : go bool := d ← lookupDUTDeviations dut; Get KBool "AcctzRecordFailGrpcUnsupported" d.
Definition BgpGracefulRestartPeerGroupUnsupported (dut : Device) : go bool := d ← lookupDUTDeviations dut; Get KBool "BgpGracefulRestartPeerGroupUnsupported" d.
Definition GrpcServerServicesUnsupported (dut : Device) : go bool := d ← lookupDUTDeviations dut; Get KBool "GrpcServerServicesUnsupported" d.
Definition StaticRouteToNHGOCUnsupported (dut : Device) : go bool := d ← lookupDUTDeviations dut; Get KBool "StaticRouteToNhgOcUnsupported" d.
Definition Subinterface0StateUnsupported (dut : Device) : go bool := d ← lookupDUTDeviations dut; Get KBool "Subinterface_0StateUnsupported" d.
Definition FragmentPuntUnsupported (dut : Device) : go bool := d ← lookupDUTDeviations dut; Get KBool "FragmentPuntUnsupported" d.
Definition FragmentPuntPktsUnsupported (dut : Device) : go bool := d ← lookupDUTDeviations dut; Get KBool "FragmentPuntPktsUnsupported" d.
Definition FragmentPuntFt (dut : Device) : go string := d ← lookupDUTDeviations dut; Get KString "FragmentPuntFt" d.
Definition AcctzRecordSessionChannelIdUnsupported (dut : Device) : go bool := d ← lookupDUTDeviations dut; Get KBool "AcctzRecordSessionChannelIdUnsupported" d.
Definition CarrierFt (dut : Device) : go string := d ← lookupDUTDeviations dut; Get KString "CarrierFt" d.
Definition FabricFt (dut : Device) : go string := d ← lookupDUTDeviations dut; Get KString "FabricFt" d.
Definition MacsecStateFt (dut : Device) : go string := d ← lookupDUTDeviations dut; Get KString "MacsecStateFt" d.
Definition MacsecCountersFt (dut : Device) : go string := d ← lookupDUTDeviations dut; Get KString "MacsecCountersFt" d.
Definition EnableMplsStaticOnInterface (dut : Device) : go bool := d ← lookupDUTDeviations dut; Get KBool "EnableMplsStaticOnInterface" d.
Definition SecondaryControllerCardCpuUtilizationUnsupported (dut : Device) : go bool := d ← lookupDUTDeviations dut; Get KBool "SecondaryControllerCardCpuUtilizationUnsupported" d.
Definition SecondaryControllerCardMemoryUtilizationUnsupported (dut : Device) : go bool := d ← lookupDUTDeviations dut; Get KBool "SecondaryControllerCardMemoryUtilizationUnsupported" d.
Definition InterfaceCountersInFcsErrorsUnsupported (dut : Device) : go bool := d ← lookupDUTDeviations dut; Get KBool "InterfaceCountersInFcsErrorsUnsupported" d.
Definition MplsStaticPseudowireOcUnsupported (dut : Device) : go bool := d ← lookupDUTDeviations dut; Get KBool "MplsStaticPseudowireOcUnsupported" d.
Definition VlanClientEncapsulationOcUnsupported (dut : Device) : go bool := d ← lookupDUTDeviations dut; Get KBool "VlanClientEncapsulationOcUnsupported" d.
Definition NexthopGroupPseudowireCountersOcUnsupported (dut : Device) : go bool := d ← lookupDUTDeviations dut; Get KBool "NexthopGroupPseudowireCountersOcUnsupported" d.
Definition PerFlowLoadBalancingUnsupported (dut : Device) : go bool := d ← lookupDUTDeviations dut; Get KBool "PerFlowLoadBalancingUnsupported" d.
Definition BgpMultipathPathsUnderPeerGroupUnsupported (dut : Device) : go bool := d ← lookupDUTDeviations dut; Get KBool "BgpMultipathPathsUnderPeerGroupUnsupported" d.
Definition LACPInterfaceMemberStateInterfaceUnsupported (dut : Device) : go bool := d ← lookupDUTDeviations dut; Get KBool "LacpInterfaceMemberStateInterfaceUnsupported" d.
Definition RequireTransportSecurity (dut : Device) : go bool := d ← lookupDUTDeviations dut; Get KBool "RequireTransportSecurity" d.
Definition ExtendedRouteRetentionOcUnsupported (dut : Device) : go bool := d ← lookupDUTDeviations dut; Get KBool "ExtendedRouteRetentionOcUnsupported" d.
Definition ExrrStaleRouteTimeUnsupported (dut : Device) : go bool := d ← lookupDUTDeviations dut; Get KBool "ExrrStaleRouteTimeUnsupported" d.
Definition GnoiBgpGracefulRestartUnsupported (dut : Device) : go bool := d ← lookupDUTDeviations dut; Get KBool "GnoiBgpGracefulRestartUnsupported" d.
Definition DhcpRelayOcUnsupported (dut : Device) : go bool := d ← lookupDUTDeviations dut; Get KBool "DhcpRelayOcUnsupported" d.
Definition P4RTExplicitTableEntryPerController (dut : Device) : go bool := d ← lookupDUTDeviations dut; Get KBool "P4RtExplicitTableEntryPerController" d.
Definition UseInterfaceNameForIBGPNeighborTransportIpv4LocalAddress (dut : Device) : go bool := d ← lookupDUTDeviations dut; Get KBool "UseInterfaceNameForIbgpNeighborTransportIpv4LocalAddress" d.
Definition InterfaceIDFormatRequiredForPolicyForwarding (dut : Device) : go bool := d ← lookupDUTDeviations dut; Get KBool "InterfaceIdFormatRequiredForPolicyForwarding" d.
Definition UseChassisAggregateUtilization (dut : Device) : go bool := d ← lookupDUTDeviations dut; Get KBool "UseChassisAggregateUtilization" d.
Definition UnreferencedAftFibAckUnsupported (dut : Device) : go bool := d ← lookupDUTDeviations dut; Get KBool "UnreferencedAftFibAckUnsupported" d.
Definition StaticRouteNexthopInterfaceStateOcUnsupported (dut : Device) : go bool := d ← lookupDUTDeviations dut; Get KBool "StaticRouteNexthopInterfaceStateOcUnsupported" d.
Definition LacpInterfaceFallbackOCUnsupported (dut : Device) : go bool := d ← lookupDUTDeviations dut; Get KBool "LacpInterfaceFallbackOcUnsupported" d.
Definition BgpDynamicNeighborPrefixUnsupported (dut : Device) : go bool := d ← lookupDUTDeviations dut; Get KBool "BgpDynamicNeighborPrefixUnsupported" d.
Definition VlanSubinterfaceOCUnsupported (dut : Device) : go bool := d ← lookupDUTDeviations dut; Get KBool "VlanSubinterfaceOcUnsupported" d.
Definition IpsecOcUnsupported (dut : Device) : go bool := d ← lookupDUTDeviations dut; Get KBool "IpsecOcUnsupported" d.
Definition StaticRouteInVrfOcUnsupported (dut : Device) : go bool := d ← lookupDUTDeviations dut; Get KBool "StaticRouteInVrfOcUnsupported" d.
Definition IpRoutingInVrfOcUnsupported (dut : Device) : go bool := d ← lookupDUTDeviations dut; Get KBool "IpRoutingInVrfOcUnsupported" d.
Definition MacsecOcUnsupported (dut : Device) : go bool := d ← lookupDUTDeviations dut; Get KBool "MacsecOcUnsupported" d.
Definition AftsGlobalFilterPolicyOCUnsupported (dut : Device) : go bool := d ← lookupDUTDeviations dut; Get KBool "AftsGlobalFilterPolicyOcUnsupported" d.
Definition AftsGlobalFilterPolicyConfigReferenceValidationUnsupported (dut : Device) : go bool := d ← lookupDUTDeviations dut; Get KBool "AftsGlobalFilterPolicyConfigReferenceValidationUnsupported" d.
Definition VrfSelectionPolicyNonDefaultNIUnsupported (dut : Device) : go bool := d ← lookupDUTDeviations dut; Get KBool "VrfSelectionPolicyNonDefaultNiUnsupported" d.
Definition GribiAaaRoleBasedAuthzUnsupported (dut : Device) : go bool := d ← lookupDUTDeviations dut; Get KBool "GribiAaaRoleBasedAuthzUnsupported" d.
Definition P4RTAaaRoleBasedAuthzUnsupported (dut : Device) : go bool := d ← lookupDUTDeviations dut; Get KBool "P4RtAaaRoleBasedAuthzUnsupported" d.

(** ** Accessors with a default *)

Definition DefaultNetworkInstance (dut : Device) : go string :=
  d ← lookupDUTDeviations dut;
  s ← Get KString "DefaultNetworkInstance" d;
  if negb (String.eqb s "") then Ret s else Ret "DEFAULT".

Definition StaticProtocolName (dut : Device) : go string :=
  d ← lookupDUTDeviations dut;
  s ← Get KString "StaticProtocolName" d;
  if negb (String.eqb s "") then Ret s else Ret "DEFAULT".

Definition DefaultBgpInstanceName (dut : Device) : go string :=
  d ← lookupDUTDeviations dut;
  s ← Get KString "DefaultBgpInstanceName" d;
  if negb (String.eqb s "") then Ret s else Ret "DEFAULT".

Definition DefaultNiGnmiServerName (dut : Device) : go string :=
  d ← lookupDUTDeviations dut;
  s ← Get KString "DefaultNiGnmiServerName" d;
  if negb (String.eqb s "") then Ret s else Ret "DEFAULT".

Definition MaxOutFIBRouteCount (dut : Device) : go Z :=
  d ← lookupDUTDeviations dut;
  routeCount ← Get KUint32 "MaxOutFibRouteCount" d;
  if negb (routeCount =? 0) then Ret routeCount else Ret 2500000.

(** The float64 nearest to 0.2 *)
Definition minHWRT : spec_float := S754_finite false 7205759403792794 (-55).

Definition HierarchicalWeightResolutionTolerance (dut : Device) : go spec_float :=
  d ← lookupDUTDeviations dut;
  hwrt ← Get KDouble "HierarchicalWeightResolutionTolerance" d;
  if SFltb hwrt minHWRT then Ret minHWRT else Ret hwrt.

(** ** Accessors with a flag

    [flags] holds the flags that the command line sets. *)

Definition isFlagSet (name : string) : bool := bool_decide (is_Some (flags !! name)).
Definition flagBool (name : string) (value : bool) : bool := default value (flags !! name).

Definition cpuMissingAncestor : bool := flagBool "deviation_cpu_missing_ancestor" false.
Definition interfaceRefConfigUnsupported : bool := flagBool "deviation_interface_ref_config_unsupported" false.
Definition requireRoutedSubinterface0 : bool := flagBool "deviation_require_routed_subinterface_0" false.
Definition gnoiSwitchoverReasonMissingUserInitiated : bool := flagBool "deviation_gnoi_switchover_reason_missing_user_initiated" false.
Definition p4rtUnsetElectionIDPrimaryAllowed : bool := flagBool "deviation_p4rt_unsetelectionid_primary_allowed" false.
Definition p4rtBackupArbitrationResponseCode : bool := flagBool "deviation_bkup_arbitration_resp_code" false.
Definition backupNHGRequiresVrfWithDecap : bool := flagBool "deviation_backup_nhg_requires_vrf_with_decap" false.
Definition atePortLinkStateOperationsUnsupported : bool := flagBool "deviation_ate_port_link_state_operations_unsupported" false.
Definition ateIPv6FlowLabelUnsupported : bool := flagBool "deviation_ate_ipv6_flow_label_unsupported" false.

Definition CPUMissingAncestor (dut : Device) : go bool :=
  if isFlagSet "deviation_cpu_missing_ancestor" then Ret cpuMissingAncestor else d ← lookupDUTDeviations dut; Get KBool "CpuMissingAncestor" d.
Definition InterfaceRefConfigUnsupported (dut : Device) : go bool :=
  if isFlagSet "deviation_interface_ref_config_unsupported" then Ret interfaceRefConfigUnsupported else d ← lookupDUTDeviations dut; Get KBool "InterfaceRefConfigUnsupported" d.
Definition RequireRoutedSubinterface0 (dut : Device) : go bool :=
  if isFlagSet "deviation_require_routed_subinterface_0" then Ret requireRoutedSubinterface0 else d ← lookupDUTDeviations dut; Get KBool "RequireRoutedSubinterface_0" d.
Definition GNOISwitchoverReasonMissingUserInitiated (dut : Device) : go bool :=
  if isFlagSet "deviation_gnoi_switchover_reason_missing_user_initiated" then Ret gnoiSwitchoverReasonMissingUserInitiated else d ← lookupDUTDeviations dut; Get KBool "GnoiSwitchoverReasonMissingUserInitiated" d.
Definition P4rtUnsetElectionIDPrimaryAllowed (dut : Device) : go bool :=
  if isFlagSet "deviation_p4rt_unsetelectionid_primary_allowed" then Ret p4rtUnsetElectionIDPrimaryAllowed else d ← lookupDUTDeviations dut; Get KBool "P4RtUnsetelectionidPrimaryAllowed" d.
Definition P4rtBackupArbitrationResponseCode (dut : Device) : go bool :=
  if isFlagSet "deviation_bkup_arbitration_resp_code" then Ret p4rtBackupArbitrationResponseCode else d ← lookupDUTDeviations dut; Get KBool "BkupArbitrationRespCode" d.
Definition BackupNHGRequiresVrfWithDecap (dut : Device) : go bool :=
  if isFlagSet "deviation_backup_nhg_requires_vrf_with_decap" then Ret backupNHGRequiresVrfWithDecap else d ← lookupDUTDeviations dut; Get KBool "BackupNhgRequiresVrfWithDecap" d.
Definition ATEPortLinkStateOperationsUnsupported (ate : Device) : go bool :=
  if isFlagSet "deviation_ate_port_link_state_operations_unsupported" then Ret atePortLinkStateOperationsUnsupported else d ← lookupATEDeviations ate; Get KBool "AtePortLinkStateOperationsUnsupported" d.
Definition ATEIPv6FlowLabelUnsupported (ate : Device) : go bool :=
  if isFlagSet "deviation_ate_ipv6_flow_label_unsupported" then Ret ateIPv6FlowLabelUnsupported else d ← lookupATEDeviations ate; Get KBool "AteIpv6FlowLabelUnsupported" d.

(** ** The accessors, with the field and the type of each *)

Record Entry := { e_name : string; e_field : string; e_kind : Kind; e_read : Device -> go (denote e_kind) }.
Definition entry (k : Kind) (name f : string) (read : Device -> go (denote k)) : Entry :=
  {| e_name := name; e_field := f; e_kind := k; e_read := read |}.

Definition accessors : list Entry := [
  entry KString "BannerDelimiter" "BannerDelimiter" BannerDelimiter;
  entry KBool "OmitL2MTU" "OmitL2Mtu" OmitL2MTU;
  entry KBool "GRIBIMACOverrideStaticARPStaticRoute" "GribiMacOverrideStaticArpStaticRoute" GRIBIMACOverrideStaticARPStaticRoute;
  entry KBool "AggregateAtomicUpdate" "AggregateAtomicUpdate" AggregateAtomicUpdate;
  entry KBool "ISISRestartSuppressUnsupported" "IsisRestartSuppressUnsupported" ISISRestartSuppressUnsupported;
  entry KBool "BgpGrHelperDisableUnsupported" "BgpGrHelperDisableUnsupported" BgpGrHelperDisableUnsupported;
  entry KBool "BgpGracefulRestartUnderAfiSafiUnsupported" "BgpGracefulRestartUnderAfiSafiUnsupported" BgpGracefulRestartUnderAfiSafiUnsupported;
  entry KBool "MissingBgpLastNotificationErrorCode" "MissingBgpLastNotificationErrorCode" MissingBgpLastNotificationErrorCode;
  entry KBool "GRIBIMACOverrideWithStaticARP" "GribiMacOverrideWithStaticArp" GRIBIMACOverrideWithStaticARP;
  entry KBool "CLITakesPrecedenceOverOC" "CliTakesPrecedenceOverOc" CLITakesPrecedenceOverOC;
  entry KInt32 "BGPTrafficTolerance" "BgpToleranceValue" BGPTrafficTolerance;
  entry KBool "SwitchChipIDUnsupported" "SwitchChipIdUnsupported" SwitchChipIDUnsupported;
  entry KBool "BackplaneFacingCapacityUnsupported" "BackplaneFacingCapacityUnsupported" BackplaneFacingCapacityUnsupported;
  entry KBool "SchedulerInputWeightLimit" "SchedulerInputWeightLimit" SchedulerInputWeightLimit;
  entry KBool "ECNProfileRequiredDefinition" "EcnProfileRequiredDefinition" ECNProfileRequiredDefinition;
  entry KBool "ISISGlobalAuthenticationNotRequired" "IsisGlobalAuthenticationNotRequired" ISISGlobalAuthenticationNotRequired;
  entry KBool "ISISExplicitLevelAuthenticationConfig" "IsisExplicitLevelAuthenticationConfig" ISISExplicitLevelAuthenticationConfig;
  entry KBool "ISISSingleTopologyRequired" "IsisSingleTopologyRequired" ISISSingleTopologyRequired;
  entry KBool "ISISMultiTopologyUnsupported" "IsisMultiTopologyUnsupported" ISISMultiTopologyUnsupported;
  entry KBool "ISISInterfaceLevel1DisableRequired" "IsisInterfaceLevel1DisableRequired" ISISInterfaceLevel1DisableRequired;
  entry KBool "MissingIsisInterfaceAfiSafiEnable" "MissingIsisInterfaceAfiSafiEnable" MissingIsisInterfaceAfiSafiEnable;
  entry KBool "Ipv6DiscardedPktsUnsupported" "Ipv6DiscardedPktsUnsupported" Ipv6DiscardedPktsUnsupported;
  entry KBool "LinkQualWaitAfterDeleteRequired" "LinkQualWaitAfterDeleteRequired" LinkQualWaitAfterDeleteRequired;
  entry KBool "StatePathsUnsupported" "StatePathUnsupported" StatePathsUnsupported;
  entry KBool "DropWeightLeavesUnsupported" "DropWeightLeavesUnsupported" DropWeightLeavesUnsupported;
  entry KBool "SwVersionUnsupported" "SwVersionUnsupported" SwVersionUnsupported;
  entry KBool "InterfaceEnabled" "InterfaceEnabled" InterfaceEnabled;
  entry KBool "InterfaceCountersFromContainer" "InterfaceCountersFromContainer" InterfaceCountersFromContainer;
  entry KBool "IPv4MissingEnabled" "Ipv4MissingEnabled" IPv4MissingEnabled;
  entry KBool "IPNeighborMissing" "IpNeighborMissing" IPNeighborMissing;
  entry KBool "GRIBIRIBAckOnly" "GribiRibackOnly" GRIBIRIBAckOnly;
  entry KBool "MissingValueForDefaults" "MissingValueForDefaults" MissingValueForDefaults;
  entry KBool "TraceRouteL4ProtocolUDP" "TracerouteL4ProtocolUdp" TraceRouteL4ProtocolUDP;
  entry KBool "LLDPInterfaceConfigOverrideGlobal" "LldpInterfaceConfigOverrideGlobal" LLDPInterfaceConfigOverrideGlobal;
  entry KBool "SubinterfacePacketCountersMissing" "SubinterfacePacketCountersMissing" SubinterfacePacketCountersMissing;
  entry KBool "DefaultSubinterfacePacketCountersMissing" "DefaultSubinterfacePacketCountersMissing" DefaultSubinterfacePacketCountersMissing;
  entry KBool "MissingPrePolicyReceivedRoutes" "PrepolicyReceivedRoutes" MissingPrePolicyReceivedRoutes;
  entry KBool "DeprecatedVlanID" "DeprecatedVlanId" DeprecatedVlanID;
  entry KBool "OSActivateNoReboot" "OsactivateNoreboot" OSActivateNoReboot;
  entry KBool "ConnectRetry" "ConnectRetry" ConnectRetry;
  entry KBool "InstallOSForStandbyRP" "OsinstallForStandbyRp" InstallOSForStandbyRP;
  entry KBool "GNOIStatusWithEmptySubcomponent" "GnoiStatusEmptySubcomponent" GNOIStatusWithEmptySubcomponent;
  entry KBool "NetworkInstanceTableDeletionRequired" "NetworkInstanceTableDeletionRequired" NetworkInstanceTableDeletionRequired;
  entry KBool "ExplicitPortSpeed" "ExplicitPortSpeed" ExplicitPortSpeed;
  entry KBool "ExplicitInterfaceInDefaultVRF" "ExplicitInterfaceInDefaultVrf" ExplicitInterfaceInDefaultVRF;
  entry KBool "RibWecmp" "RibWecmp" RibWecmp;
  entry KBool "InterfaceConfigVRFBeforeAddress" "InterfaceConfigVrfBeforeAddress" InterfaceConfigVRFBeforeAddress;
  entry KBool "BGPMD5RequiresReset" "BgpMd5RequiresReset" BGPMD5RequiresReset;
  entry KBool "ExplicitIPv6EnableForGRIBI" "Ipv6EnableForGribiNhDmac" ExplicitIPv6EnableForGRIBI;
  entry KBool "ISISInstanceEnabledRequired" "IsisInstanceEnabledRequired" ISISInstanceEnabledRequired;
  entry KBool "GNOISubcomponentPath" "GnoiSubcomponentPath" GNOISubcomponentPath;
  entry KBool "NoMixOfTaggedAndUntaggedSubinterfaces" "NoMixOfTaggedAndUntaggedSubinterfaces" NoMixOfTaggedAndUntaggedSubinterfaces;
  entry KBool "DequeueDeleteNotCountedAsDrops" "DequeueDeleteNotCountedAsDrops" DequeueDeleteNotCountedAsDrops;
  entry KBool "RoutePolicyUnderAFIUnsupported" "RoutePolicyUnderAfiUnsupported" RoutePolicyUnderAFIUnsupported;
  entry KBool "StorageComponentUnsupported" "StorageComponentUnsupported" StorageComponentUnsupported;
  entry KBool "GNOIFabricComponentRebootUnsupported" "GnoiFabricComponentRebootUnsupported" GNOIFabricComponentRebootUnsupported;
  entry KBool "SkipControllerCardPowerAdmin" "SkipControllerCardPowerAdmin" SkipControllerCardPowerAdmin;
  entry KBool "QOSOctets" "QosOctets" QOSOctets;
  entry KBool "ISISInterfaceAfiUnsupported" "IsisInterfaceAfiUnsupported" ISISInterfaceAfiUnsupported;
  entry KBool "P4RTModifyTableEntryUnsupported" "P4RtModifyTableEntryUnsupported" P4RTModifyTableEntryUnsupported;
  entry KBool "OSComponentParentIsSupervisorOrLinecard" "OsComponentParentIsSupervisorOrLinecard" OSComponentParentIsSupervisorOrLinecard;
  entry KBool "OSComponentParentIsChassis" "OsComponentParentIsChassis" OSComponentParentIsChassis;
  entry KBool "ISISRequireSameL1MetricWithL2Metric" "IsisRequireSameL1MetricWithL2Metric" ISISRequireSameL1MetricWithL2Metric;
  entry KBool "BGPSetMedRequiresEqualOspfSetMetric" "BgpSetMedRequiresEqualOspfSetMetric" BGPSetMedRequiresEqualOspfSetMetric;
  entry KBool "SetNativeUser" "SetNativeUser" SetNativeUser;
  entry KBool "P4RTGdpRequiresDot1QSubinterface" "P4RtGdpRequiresDot1QSubinterface" P4RTGdpRequiresDot1QSubinterface;
  entry KBool "LinecardCPUUtilizationUnsupported" "LinecardCpuUtilizationUnsupported" LinecardCPUUtilizationUnsupported;
  entry KBool "ConsistentComponentNamesUnsupported" "ConsistentComponentNamesUnsupported" ConsistentComponentNamesUnsupported;
  entry KBool "ControllerCardCPUUtilizationUnsupported" "ControllerCardCpuUtilizationUnsupported" ControllerCardCPUUtilizationUnsupported;
  entry KBool "FabricDropCounterUnsupported" "FabricDropCounterUnsupported" FabricDropCounterUnsupported;
  entry KBool "LinecardMemoryUtilizationUnsupported" "LinecardMemoryUtilizationUnsupported" LinecardMemoryUtilizationUnsupported;
  entry KBool "QOSVoqDropCounterUnsupported" "QosVoqDropCounterUnsupported" QOSVoqDropCounterUnsupported;
  entry KBool "ISISTimersCsnpIntervalUnsupported" "IsisTimersCsnpIntervalUnsupported" ISISTimersCsnpIntervalUnsupported;
  entry KBool "ISISCounterManualAddressDropFromAreasUnsupported" "IsisCounterManualAddressDropFromAreasUnsupported" ISISCounterManualAddressDropFromAreasUnsupported;
  entry KBool "ISISCounterPartChangesUnsupported" "IsisCounterPartChangesUnsupported" ISISCounterPartChangesUnsupported;
  entry KBool "SkipTCPNegotiatedMSSCheck" "SkipTcpNegotiatedMssCheck" SkipTCPNegotiatedMSSCheck;
  entry KBool "TransceiverThresholdsUnsupported" "TransceiverThresholdsUnsupported" TransceiverThresholdsUnsupported;
  entry KBool "InterfaceLoopbackModeRawGnmi" "InterfaceLoopbackModeRawGnmi" InterfaceLoopbackModeRawGnmi;
  entry KBool "ISISLspMetadataLeafsUnsupported" "IsisLspMetadataLeafsUnsupported" ISISLspMetadataLeafsUnsupported;
  entry KBool "QOSQueueRequiresID" "QosQueueRequiresId" QOSQueueRequiresID;
  entry KBool "BgpLlgrOcUndefined" "BgpLlgrOcUndefined" BgpLlgrOcUndefined;
  entry KBool "QOSBufferAllocationConfigRequired" "QosBufferAllocationConfigRequired" QOSBufferAllocationConfigRequired;
  entry KBool "BGPGlobalExtendedNextHopEncodingUnsupported" "BgpGlobalExtendedNextHopEncodingUnsupported" BGPGlobalExtendedNextHopEncodingUnsupported;
  entry KBool "TunnelStatePathUnsupported" "TunnelStatePathUnsupported" TunnelStatePathUnsupported;
  entry KBool "TunnelConfigPathUnsupported" "TunnelConfigPathUnsupported" TunnelConfigPathUnsupported;
  entry KBool "EcnSameMinMaxThresholdUnsupported" "EcnSameMinMaxThresholdUnsupported" EcnSameMinMaxThresholdUnsupported;
  entry KBool "QosSchedulerConfigRequired" "QosSchedulerConfigRequired" QosSchedulerConfigRequired;
  entry KBool "QosSetWeightConfigUnsupported" "QosSetWeightConfigUnsupported" QosSetWeightConfigUnsupported;
  entry KBool "QosGetStatePathUnsupported" "QosGetStatePathUnsupported" QosGetStatePathUnsupported;
  entry KBool "InterfaceRefInterfaceIDFormat" "InterfaceRefInterfaceIdFormat" InterfaceRefInterfaceIDFormat;
  entry KBool "ISISLevelEnabled" "IsisLevelEnabled" ISISLevelEnabled;
  entry KBool "MemberLinkLoopbackUnsupported" "MemberLinkLoopbackUnsupported" MemberLinkLoopbackUnsupported;
  entry KBool "SkipPlqInterfaceOperStatusCheck" "SkipPlqInterfaceOperStatusCheck" SkipPlqInterfaceOperStatusCheck;
  entry KBool "BGPExplicitPrefixLimitReceived" "BgpExplicitPrefixLimitReceived" BGPExplicitPrefixLimitReceived;
  entry KBool "BGPMissingOCMaxPrefixesConfiguration" "BgpMissingOcMaxPrefixesConfiguration" BGPMissingOCMaxPrefixesConfiguration;
  entry KBool "SkipBgpSessionCheckWithoutAfisafi" "SkipBgpSessionCheckWithoutAfisafi" SkipBgpSessionCheckWithoutAfisafi;
  entry KBool "MismatchedHardwareResourceNameInComponent" "MismatchedHardwareResourceNameInComponent" MismatchedHardwareResourceNameInComponent;
  entry KBool "GNOISubcomponentRebootStatusUnsupported" "GnoiSubcomponentRebootStatusUnsupported" GNOISubcomponentRebootStatusUnsupported;
  entry KBool "SkipNonBgpRouteExportCheck" "SkipNonBgpRouteExportCheck" SkipNonBgpRouteExportCheck;
  entry KBool "ISISMetricStyleTelemetryUnsupported" "IsisMetricStyleTelemetryUnsupported" ISISMetricStyleTelemetryUnsupported;
  entry KBool "StaticRouteNextHopInterfaceRefUnsupported" "StaticRouteNextHopInterfaceRefUnsupported" StaticRouteNextHopInterfaceRefUnsupported;
  entry KBool "SkipStaticNexthopCheck" "SkipStaticNexthopCheck" SkipStaticNexthopCheck;
  entry KBool "Ipv6RouterAdvertisementConfigUnsupported" "Ipv6RouterAdvertisementConfigUnsupported" Ipv6RouterAdvertisementConfigUnsupported;
  entry KBool "PrefixLimitExceededTelemetryUnsupported" "PrefixLimitExceededTelemetryUnsupported" PrefixLimitExceededTelemetryUnsupported;
  entry KBool "SkipSettingAllowMultipleAS" "SkipSettingAllowMultipleAs" SkipSettingAllowMultipleAS;
  entry KBool "GribiDecapMixedPlenUnsupported" "GribiDecapMixedPlenUnsupported" GribiDecapMixedPlenUnsupported;
  entry KBool "SkipIsisSetLevel" "SkipIsisSetLevel" SkipIsisSetLevel;
  entry KBool "SkipIsisSetMetricStyleType" "SkipIsisSetMetricStyleType" SkipIsisSetMetricStyleType;
  entry KBool "SkipSettingDisableMetricPropagation" "SkipSettingDisableMetricPropagation" SkipSettingDisableMetricPropagation;
  entry KBool "BGPConditionsMatchCommunitySetUnsupported" "BgpConditionsMatchCommunitySetUnsupported" BGPConditionsMatchCommunitySetUnsupported;
  entry KBool "PfRequireMatchDefaultRule" "PfRequireMatchDefaultRule" PfRequireMatchDefaultRule;
  entry KBool "MissingPortToOpticalChannelMapping" "MissingPortToOpticalChannelComponentMapping" MissingPortToOpticalChannelMapping;
  entry KBool "SkipContainerOp" "SkipContainerOp" SkipContainerOp;
  entry KBool "ReorderCallsForVendorCompatibilty" "ReorderCallsForVendorCompatibilty" ReorderCallsForVendorCompatibilty;
  entry KBool "AddMissingBaseConfigViaCli" "AddMissingBaseConfigViaCli" AddMissingBaseConfigViaCli;
  entry KBool "SkipMacaddressCheck" "SkipMacaddressCheck" SkipMacaddressCheck;
  entry KBool "BGPRibOcPathUnsupported" "BgpRibOcPathUnsupported" BGPRibOcPathUnsupported;
  entry KBool "SkipPrefixSetMode" "SkipPrefixSetMode" SkipPrefixSetMode;
  entry KBool "SetMetricAsPreference" "SetMetricAsPreference" SetMetricAsPreference;
  entry KBool "IPv6StaticRouteWithIPv4NextHopRequiresStaticARP" "Ipv6StaticRouteWithIpv4NextHopRequiresStaticArp" IPv6StaticRouteWithIPv4NextHopRequiresStaticARP;
  entry KBool "PfRequireSequentialOrderPbrRules" "PfRequireSequentialOrderPbrRules" PfRequireSequentialOrderPbrRules;
  entry KBool "MissingStaticRouteNextHopMetricTelemetry" "MissingStaticRouteNextHopMetricTelemetry" MissingStaticRouteNextHopMetricTelemetry;
  entry KBool "UnsupportedStaticRouteNextHopRecurse" "UnsupportedStaticRouteNextHopRecurse" UnsupportedStaticRouteNextHopRecurse;
  entry KBool "MissingStaticRouteDropNextHopTelemetry" "MissingStaticRouteDropNextHopTelemetry" MissingStaticRouteDropNextHopTelemetry;
  entry KBool "MissingZROpticalChannelTunableParametersTelemetry" "MissingZrOpticalChannelTunableParametersTelemetry" MissingZROpticalChannelTunableParametersTelemetry;
  entry KBool "PLQReflectorStatsUnsupported" "PlqReflectorStatsUnsupported" PLQReflectorStatsUnsupported;
  entry KUint32 "PLQGeneratorCapabilitiesMaxMTU" "PlqGeneratorCapabilitiesMaxMtu" PLQGeneratorCapabilitiesMaxMTU;
  entry KUint64 "PLQGeneratorCapabilitiesMaxPPS" "PlqGeneratorCapabilitiesMaxPps" PLQGeneratorCapabilitiesMaxPPS;
  entry KBool "BgpExtendedCommunityIndexUnsupported" "BgpExtendedCommunityIndexUnsupported" BgpExtendedCommunityIndexUnsupported;
  entry KBool "BgpCommunitySetRefsUnsupported" "BgpCommunitySetRefsUnsupported" BgpCommunitySetRefsUnsupported;
  entry KBool "TableConnectionsUnsupported" "TableConnectionsUnsupported" TableConnectionsUnsupported;
  entry KBool "UseVendorNativeTagSetConfig" "UseVendorNativeTagSetConfig" UseVendorNativeTagSetConfig;
  entry KBool "SkipBgpSendCommunityType" "SkipBgpSendCommunityType" SkipBgpSendCommunityType;
  entry KBool "BgpActionsSetCommunityMethodUnsupported" "BgpActionsSetCommunityMethodUnsupported" BgpActionsSetCommunityMethodUnsupported;
  entry KBool "SetNoPeerGroup" "SetNoPeerGroup" SetNoPeerGroup;
  entry KBool "BgpCommunityMemberIsAString" "BgpCommunityMemberIsAString" BgpCommunityMemberIsAString;
  entry KBool "IPv4StaticRouteWithIPv6NextHopUnsupported" "Ipv4StaticRouteWithIpv6NhUnsupported" IPv4StaticRouteWithIPv6NextHopUnsupported;
  entry KBool "IPv6StaticRouteWithIPv4NextHopUnsupported" "Ipv6StaticRouteWithIpv4NhUnsupported" IPv6StaticRouteWithIPv4NextHopUnsupported;
  entry KBool "StaticRouteWithDropNhUnsupported" "StaticRouteWithDropNh" StaticRouteWithDropNhUnsupported;
  entry KBool "StaticRouteWithExplicitMetric" "StaticRouteWithExplicitMetric" StaticRouteWithExplicitMetric;
  entry KBool "BgpDefaultPolicyUnsupported" "BgpDefaultPolicyUnsupported" BgpDefaultPolicyUnsupported;
  entry KBool "ExplicitEnableBGPOnDefaultVRF" "ExplicitEnableBgpOnDefaultVrf" ExplicitEnableBGPOnDefaultVRF;
  entry KBool "RoutingPolicyTagSetEmbedded" "RoutingPolicyTagSetEmbedded" RoutingPolicyTagSetEmbedded;
  entry KBool "SkipAfiSafiPathForBgpMultipleAs" "SkipAfiSafiPathForBgpMultipleAs" SkipAfiSafiPathForBgpMultipleAs;
  entry KBool "CommunityMemberRegexUnsupported" "CommunityMemberRegexUnsupported" CommunityMemberRegexUnsupported;
  entry KBool "SamePolicyAttachedToAllAfis" "SamePolicyAttachedToAllAfis" SamePolicyAttachedToAllAfis;
  entry KBool "SkipSettingStatementForPolicy" "SkipSettingStatementForPolicy" SkipSettingStatementForPolicy;
  entry KBool "SkipCheckingAttributeIndex" "SkipCheckingAttributeIndex" SkipCheckingAttributeIndex;
  entry KBool "FlattenPolicyWithMultipleStatements" "FlattenPolicyWithMultipleStatements" FlattenPolicyWithMultipleStatements;
  entry KBool "SlaacPrefixLength128" "SlaacPrefixLength128" SlaacPrefixLength128;
  entry KBool "DefaultRoutePolicyUnsupported" "DefaultRoutePolicyUnsupported" DefaultRoutePolicyUnsupported;
  entry KBool "CommunityMatchWithRedistributionUnsupported" "CommunityMatchWithRedistributionUnsupported" CommunityMatchWithRedistributionUnsupported;
  entry KBool "BgpMaxMultipathPathsUnsupported" "BgpMaxMultipathPathsUnsupported" BgpMaxMultipathPathsUnsupported;
  entry KBool "MultipathUnsupportedNeighborOrAfisafi" "MultipathUnsupportedNeighborOrAfisafi" MultipathUnsupportedNeighborOrAfisafi;
  entry KBool "ModelNameUnsupported" "ModelNameUnsupported" ModelNameUnsupported;
  entry KBool "InstallPositionAndInstallComponentUnsupported" "InstallPositionAndInstallComponentUnsupported" InstallPositionAndInstallComponentUnsupported;
  entry KBool "EncapTunnelShutBackupNhgZeroTraffic" "EncapTunnelShutBackupNhgZeroTraffic" EncapTunnelShutBackupNhgZeroTraffic;
  entry KBool "MaxEcmpPaths" "MaxEcmpPaths" MaxEcmpPaths;
  entry KBool "WecmpAutoUnsupported" "WecmpAutoUnsupported" WecmpAutoUnsupported;
  entry KBool "RoutingPolicyChainingUnsupported" "RoutingPolicyChainingUnsupported" RoutingPolicyChainingUnsupported;
  entry KBool "ISISLoopbackRequired" "IsisLoopbackRequired" ISISLoopbackRequired;
  entry KBool "WeightedEcmpFixedPacketVerification" "WeightedEcmpFixedPacketVerification" WeightedEcmpFixedPacketVerification;
  entry KBool "OverrideDefaultNhScale" "OverrideDefaultNhScale" OverrideDefaultNhScale;
  entry KBool "BgpExtendedCommunitySetUnsupported" "BgpExtendedCommunitySetUnsupported" BgpExtendedCommunitySetUnsupported;
  entry KBool "BgpSetExtCommunitySetRefsUnsupported" "BgpSetExtCommunitySetRefsUnsupported" BgpSetExtCommunitySetRefsUnsupported;
  entry KBool "BgpDeleteLinkBandwidthUnsupported" "BgpDeleteLinkBandwidthUnsupported" BgpDeleteLinkBandwidthUnsupported;
  entry KBool "QOSInQueueDropCounterUnsupported" "QosInqueueDropCounterUnsupported" QOSInQueueDropCounterUnsupported;
  entry KBool "BgpExplicitExtendedCommunityEnable" "BgpExplicitExtendedCommunityEnable" BgpExplicitExtendedCommunityEnable;
  entry KBool "MatchTagSetConditionUnsupported" "MatchTagSetConditionUnsupported" MatchTagSetConditionUnsupported;
  entry KBool "PeerGroupDefEbgpVrfUnsupported" "PeerGroupDefEbgpVrfUnsupported" PeerGroupDefEbgpVrfUnsupported;
  entry KBool "RedisConnectedUnderEbgpVrfUnsupported" "RedisConnectedUnderEbgpVrfUnsupported" RedisConnectedUnderEbgpVrfUnsupported;
  entry KBool "BgpAfiSafiInDefaultNiBeforeOtherNi" "BgpAfiSafiInDefaultNiBeforeOtherNi" BgpAfiSafiInDefaultNiBeforeOtherNi;
  entry KBool "DefaultImportExportPolicyUnsupported" "DefaultImportExportPolicyUnsupported" DefaultImportExportPolicyUnsupported;
  entry KBool "CommunityInvertAnyUnsupported" "CommunityInvertAnyUnsupported" CommunityInvertAnyUnsupported;
  entry KBool "Ipv6RouterAdvertisementIntervalUnsupported" "Ipv6RouterAdvertisementIntervalUnsupported" Ipv6RouterAdvertisementIntervalUnsupported;
  entry KBool "DecapNHWithNextHopNIUnsupported" "DecapNhWithNexthopNiUnsupported" DecapNHWithNextHopNIUnsupported;
  entry KBool "SflowSourceAddressUpdateUnsupported" "SflowSourceAddressUpdateUnsupported" SflowSourceAddressUpdateUnsupported;
  entry KBool "LinkLocalMaskLen" "LinkLocalMaskLen" LinkLocalMaskLen;
  entry KBool "UseParentComponentForTemperatureTelemetry" "UseParentComponentForTemperatureTelemetry" UseParentComponentForTemperatureTelemetry;
  entry KBool "ComponentMfgDateUnsupported" "ComponentMfgDateUnsupported" ComponentMfgDateUnsupported;
  entry KBool "InterfaceCountersUpdateDelayed" "InterfaceCountersUpdateDelayed" InterfaceCountersUpdateDelayed;
  entry KBool "OTNChannelTribUnsupported" "OtnChannelTribUnsupported" OTNChannelTribUnsupported;
  entry KBool "EthChannelIngressParametersUnsupported" "EthChannelIngressParametersUnsupported" EthChannelIngressParametersUnsupported;
  entry KBool "EthChannelAssignmentCiscoNumbering" "EthChannelAssignmentCiscoNumbering" EthChannelAssignmentCiscoNumbering;
  entry KBool "ChassisGetRPCUnsupported" "ChassisGetRpcUnsupported" ChassisGetRPCUnsupported;
  entry KBool "PowerDisableEnableLeafRefValidation" "PowerDisableEnableLeafRefValidation" PowerDisableEnableLeafRefValidation;
  entry KBool "SSHServerCountersUnsupported" "SshServerCountersUnsupported" SSHServerCountersUnsupported;
  entry KBool "OperationalModeUnsupported" "OperationalModeUnsupported" OperationalModeUnsupported;
  entry KBool "BgpSessionStateIdleInPassiveMode" "BgpSessionStateIdleInPassiveMode" BgpSessionStateIdleInPassiveMode;
  entry KBool "EnableMultipathUnderAfiSafi" "EnableMultipathUnderAfiSafi" EnableMultipathUnderAfiSafi;
  entry KBool "OTNChannelAssignmentCiscoNumbering" "OtnChannelAssignmentCiscoNumbering" OTNChannelAssignmentCiscoNumbering;
  entry KBool "CiscoPreFECBERInactiveValue" "CiscoPreFecBerInactiveValue" CiscoPreFECBERInactiveValue;
  entry KBool "BgpAfiSafiWildcardNotSupported" "BgpAfiSafiWildcardNotSupported" BgpAfiSafiWildcardNotSupported;
  entry KBool "NoZeroSuppression" "NoZeroSuppression" NoZeroSuppression;
  entry KBool "IsisInterfaceLevelPassiveUnsupported" "IsisInterfaceLevelPassiveUnsupported" IsisInterfaceLevelPassiveUnsupported;
  entry KBool "IsisDisSysidUnsupported" "IsisDisSysidUnsupported" IsisDisSysidUnsupported;
  entry KBool "IsisDatabaseOverloadsUnsupported" "IsisDatabaseOverloadsUnsupported" IsisDatabaseOverloadsUnsupported;
  entry KBool "EnableTableConnections" "EnableTableConnections" EnableTableConnections;
  entry KBool "TcDefaultImportPolicyUnsupported" "TcDefaultImportPolicyUnsupported" TcDefaultImportPolicyUnsupported;
  entry KBool "TcMetricPropagationUnsupported" "TcMetricPropagationUnsupported" TcMetricPropagationUnsupported;
  entry KBool "TcAttributePropagationUnsupported" "TcAttributePropagationUnsupported" TcAttributePropagationUnsupported;
  entry KBool "TcSubscriptionUnsupported" "TcSubscriptionUnsupported" TcSubscriptionUnsupported;
  entry KBool "ChannelRateClassParametersUnsupported" "ChannelAssignmentRateClassParametersUnsupported" ChannelRateClassParametersUnsupported;
  entry KBool "QosSchedulerIngressPolicer" "QosSchedulerIngressPolicerUnsupported" QosSchedulerIngressPolicer;
  entry KBool "GribiEncapHeaderUnsupported" "GribiEncapHeaderUnsupported" GribiEncapHeaderUnsupported;
  entry KBool "P4RTCapabilitiesUnsupported" "P4RtCapabilitiesUnsupported" P4RTCapabilitiesUnsupported;
  entry KBool "GNMIGetOnRootUnsupported" "GnmiGetOnRootUnsupported" GNMIGetOnRootUnsupported;
  entry KBool "PacketProcessingAggregateDropsUnsupported" "PacketProcessingAggregateDropsUnsupported" PacketProcessingAggregateDropsUnsupported;
  entry KBool "FragmentTotalDropsUnsupported" "FragmentTotalDropsUnsupported" FragmentTotalDropsUnsupported;
  entry KBool "BgpPrefixsetReqRoutepolRef" "BgpPrefixsetReqRoutepolRef" BgpPrefixsetReqRoutepolRef;
  entry KBool "OperStatusForIcUnsupported" "OperStatusForIcUnsupported" OperStatusForIcUnsupported;
  entry KBool "BgpAspathsetUnsupported" "BgpAspathsetUnsupported" BgpAspathsetUnsupported;
  entry KBool "ExplicitDcoConfig" "ExplicitDcoConfig" ExplicitDcoConfig;
  entry KBool "VerifyExpectedBreakoutSupportedConfig" "VerifyExpectedBreakoutSupportedConfig" VerifyExpectedBreakoutSupportedConfig;
  entry KBool "SrIgpConfigUnsupported" "SrIgpConfigUnsupported" SrIgpConfigUnsupported;
  entry KBool "SetISISAuthWithInterfaceAuthenticationContainer" "SetIsisAuthWithInterfaceAuthenticationContainer" SetISISAuthWithInterfaceAuthenticationContainer;
  entry KBool "GreGueTunnelInterfaceOcUnsupported" "GreGueTunnelInterfaceOcUnsupported" GreGueTunnelInterfaceOcUnsupported;
  entry KBool "LoadIntervalNotSupported" "LoadIntervalNotSupported" LoadIntervalNotSupported;
  entry KBool "SkipOpticalChannelOutputPowerInterval" "SkipOpticalChannelOutputPowerInterval" SkipOpticalChannelOutputPowerInterval;
  entry KBool "SkipTransceiverDescription" "SkipTransceiverDescription" SkipTransceiverDescription;
  entry KBool "ContainerzOCUnsupported" "ContainerzOcUnsupported" ContainerzOCUnsupported;
  entry KBool "ContainerzRetrieveLogsUnsupported" "ContainerzRetrieveLogsUnsupported" ContainerzRetrieveLogsUnsupported;
  entry KBool "NextHopGroupOCUnsupported" "NextHopGroupConfigUnsupported" NextHopGroupOCUnsupported;
  entry KBool "QosShaperOCUnsupported" "QosShaperConfigUnsupported" QosShaperOCUnsupported;
  entry KBool "EthernetOverMPLSogreOCUnsupported" "EthernetOverMplsogreUnsupported" EthernetOverMPLSogreOCUnsupported;
  entry KBool "SflowOCUnsupported" "SflowUnsupported" SflowOCUnsupported;
  entry KBool "MplsOCUnsupported" "MplsUnsupported" MplsOCUnsupported;
  entry KBool "MacsecOCUnsupported" "MacsecUnsupported" MacsecOCUnsupported;
  entry KBool "GueGreDecapOCUnsupported" "GueGreDecapUnsupported" GueGreDecapOCUnsupported;
  entry KBool "MplsLabelClassificationOCUnsupported" "MplsLabelClassificationUnsupported" MplsLabelClassificationOCUnsupported;
  entry KBool "LocalProxyOCUnsupported" "LocalProxyUnsupported" LocalProxyOCUnsupported;
  entry KBool "StaticMplsOCUnsupported" "StaticMplsUnsupported" StaticMplsOCUnsupported;
  entry KBool "QosClassificationOCUnsupported" "QosClassificationUnsupported" QosClassificationOCUnsupported;
  entry KBool "PolicyForwardingOCUnsupported" "PolicyForwardingUnsupported" PolicyForwardingOCUnsupported;
  entry KBool "InterfacePolicyForwardingOCUnsupported" "InterfacePolicyForwardingUnsupported" InterfacePolicyForwardingOCUnsupported;
  entry KBool "GueGreDecapUnsupported" "GueGreDecapUnsupported" GueGreDecapUnsupported;
  entry KBool "StaticMplsUnsupported" "StaticMplsUnsupported" StaticMplsUnsupported;
  entry KBool "QosShaperStateOCUnsupported" "QosShaperStateUnsupported" QosShaperStateOCUnsupported;
  entry KBool "CfmOCUnsupported" "CfmUnsupported" CfmOCUnsupported;
  entry KBool "LabelRangeOCUnsupported" "LabelRangeUnsupported" LabelRangeOCUnsupported;
  entry KBool "StaticArpOCUnsupported" "StaticArpUnsupported" StaticArpOCUnsupported;
  entry KBool "BgpDistanceOcPathUnsupported" "BgpDistanceOcPathUnsupported" BgpDistanceOcPathUnsupported;
  entry KBool "IsisMplsUnsupported" "IsisMplsUnsupported" IsisMplsUnsupported;
  entry KBool "AutoNegotiateUnsupported" "AutoNegotiateUnsupported" AutoNegotiateUnsupported;
  entry KBool "DuplexModeUnsupported" "DuplexModeUnsupported" DuplexModeUnsupported;
  entry KBool "PortSpeedUnsupported" "PortSpeedUnsupported" PortSpeedUnsupported;
  entry KBool "PolicyForwardingToNextHopOcUnsupported" "PolicyForwardingToNextHopOcUnsupported" PolicyForwardingToNextHopOcUnsupported;
  entry KBool "BGPSetMedActionUnsupported" "BgpSetMedActionUnsupported" BGPSetMedActionUnsupported;
  entry KBool "ReducedEcmpSetOnMixedEncapDecapNh" "ReducedEcmpSetOnMixedEncapDecapNh" ReducedEcmpSetOnMixedEncapDecapNh;
  entry KBool "NumPhysyicalChannelsUnsupported" "NumPhysicalChannelsUnsupported" NumPhysyicalChannelsUnsupported;
  entry KBool "UseOldOCPathStaticLspNh" "UseOldOcPathStaticLspNh" UseOldOCPathStaticLspNh;
  entry KBool "ConfigLeafCreateRequired" "ConfigLeafCreateRequired" ConfigLeafCreateRequired;
  entry KBool "FrBreakoutFix" "FrBreakoutFix" FrBreakoutFix;
  entry KBool "SkipInterfaceNameCheck" "SkipInterfaceNameCheck" SkipInterfaceNameCheck;
  entry KBool "UnsupportedQoSOutputServicePolicy" "UnsupportedQosOutputServicePolicy" UnsupportedQoSOutputServicePolicy;
  entry KBool "InterfaceOutputQueueNonStandardName" "InterfaceOutputQueueNonStandardName" InterfaceOutputQueueNonStandardName;
  entry KBool "MplsExpIngressClassifierOcUnsupported" "MplsExpIngressClassifierOcUnsupported" MplsExpIngressClassifierOcUnsupported;
  entry KBool "DefaultNoIgpMetricPropagation" "DefaultNoIgpMetricPropagation" DefaultNoIgpMetricPropagation;
  entry KBool "SkipBgpPeerGroupSendCommunityType" "SkipBgpPeerGroupSendCommunityType" SkipBgpPeerGroupSendCommunityType;
  entry KBool "ExplicitSwapSrcDstMacNeededForLoopbackMode" "ExplicitSwapSrcDstMacNeededForLoopbackMode" ExplicitSwapSrcDstMacNeededForLoopbackMode;
  entry KBool "LinkLocalInsteadOfNh" "LinkLocalInsteadOfNh" LinkLocalInsteadOfNh;
  entry KBool "LowScaleAft" "LowScaleAft" LowScaleAft;
  entry KBool "MissingSystemDescriptionConfigPath" "MissingSystemDescriptionConfigPath" MissingSystemDescriptionConfigPath;
  entry KBool "NonIntervalFecErrorCounter" "NonIntervalFecErrorCounter" NonIntervalFecErrorCounter;
  entry KBool "NtpSourceAddressUnsupported" "NtpSourceAddressUnsupported" NtpSourceAddressUnsupported;
  entry KBool "StaticMplsLspOCUnsupported" "StaticMplsLspOcUnsupported" StaticMplsLspOCUnsupported;
  entry KBool "GreDecapsulationOCUnsupported" "GreDecapsulationOcUnsupported" GreDecapsulationOCUnsupported;
  entry KBool "IsisSrgbSrlbUnsupported" "IsisSrgbSrlbUnsupported" IsisSrgbSrlbUnsupported;
  entry KBool "IsisSrPrefixSegmentConfigUnsupported" "IsisSrPrefixSegmentConfigUnsupported" IsisSrPrefixSegmentConfigUnsupported;
  entry KBool "IsisSrNodeSegmentConfigUnsupported" "IsisSrNodeSegmentConfigUnsupported" IsisSrNodeSegmentConfigUnsupported;
  entry KBool "IsisSrNoPhpRequired" "IsisSrNoPhpRequired" IsisSrNoPhpRequired;
  entry KUint32 "SflowIngressMinSamplingRate" "SflowIngressMinSamplingRate" SflowIngressMinSamplingRate;
  entry KBool "QosRemarkOCUnsupported" "QosRemarkOcUnsupported" QosRemarkOCUnsupported;
  entry KBool "PolicyForwardingGreEncapsulationOcUnsupported" "PolicyForwardingGreEncapsulationOcUnsupported" PolicyForwardingGreEncapsulationOcUnsupported;
  entry KBool "PolicyRuleCountersOCUnsupported" "PolicyRuleCountersOcUnsupported" PolicyRuleCountersOCUnsupported;
  entry KBool "OTNToETHAssignment" "OtnToEthAssignment" OTNToETHAssignment;
  entry KBool "NetworkInstanceImportExportPolicyOCUnsupported" "NetworkInstanceImportExportPolicyOcUnsupported" NetworkInstanceImportExportPolicyOCUnsupported;
  entry KBool "SkipOrigin" "SkipOrigin" SkipOrigin;
  entry KBool "PredefinedMaxEcmpPaths" "PredefinedMaxEcmpPaths" PredefinedMaxEcmpPaths;
  entry KBool "DecapsulateGueOCUnsupported" "DecapsulateGueOcUnsupported" DecapsulateGueOCUnsupported;
  entry KBool "LinePortUnsupported" "LinePortUnsupported" LinePortUnsupported;
  entry KBool "UseBgpSetCommunityOptionTypeReplace" "UseBgpSetCommunityOptionTypeReplace" UseBgpSetCommunityOptionTypeReplace;
  entry KBool "GlobalMaxEcmpPathsUnsupported" "GlobalMaxEcmpPathsUnsupported" GlobalMaxEcmpPathsUnsupported;
  entry KBool "QosTwoRateThreeColorPolicerOCUnsupported" "QosTwoRateThreeColorPolicerOcUnsupported" QosTwoRateThreeColorPolicerOCUnsupported;
  entry KBool "LoadBalancePolicyOCUnsupported" "LoadBalancePolicyOcUnsupported" LoadBalancePolicyOCUnsupported;
  entry KBool "GribiRecordsUnsupported" "GribiRecordsUnsupported" GribiRecordsUnsupported;
  entry KString "CiscoxrLaserFt" "CiscoxrLaserFt" CiscoxrLaserFt;
  entry KBool "BreakoutModeUnsupportedForEightHundredGb" "BreakoutModeUnsupportedForEightHundredGb" BreakoutModeUnsupportedForEightHundredGb;
  entry KBool "PortSpeedDuplexModeUnsupportedForInterfaceConfig" "PortSpeedDuplexModeUnsupportedForInterfaceConfig" PortSpeedDuplexModeUnsupportedForInterfaceConfig;
  entry KBool "ExplicitBreakoutInterfaceConfig" "ExplicitBreakoutInterfaceConfig" ExplicitBreakoutInterfaceConfig;
  entry KBool "TelemetryNotSupportedForLowPriorityNh" "TelemetryNotSupportedForLowPriorityNh" TelemetryNotSupportedForLowPriorityNh;
  entry KBool "MatchAsPathSetUnsupported" "MatchAsPathSetUnsupported" MatchAsPathSetUnsupported;
  entry KBool "SameAfiSafiAndPeergroupPoliciesUnsupported" "SameAfiSafiAndPeergroupPoliciesUnsupported" SameAfiSafiAndPeergroupPoliciesUnsupported;
  entry KBool "SyslogOCUnsupported" "SyslogOcUnsupported" SyslogOCUnsupported;
  entry KBool "SIDPerInterfaceCounterUnsupported" "SidPerInterfaceCounterUnsupported" SIDPerInterfaceCounterUnsupported;
  entry KBool "TransceiverConfigEnableUnsupported" "TransceiverConfigEnableUnsupported" TransceiverConfigEnableUnsupported;
  entry KBool "AFTSummaryOCUnsupported" "AftSummaryOcUnsupported" AFTSummaryOCUnsupported;
  entry KBool "ISISLSPTlvsOCUnsupported" "IsisLspTlvsOcUnsupported" ISISLSPTlvsOCUnsupported;
  entry KBool "ISISAdjacencyStreamUnsupported" "IsisAdjacencyStreamUnsupported" ISISAdjacencyStreamUnsupported;
  entry KBool "LocalhostForContainerz" "LocalhostForContainerz" LocalhostForContainerz;
  entry KBool "AggregateBandwidthPolicyActionUnsupported" "AggregateBandwidthPolicyActionUnsupported" AggregateBandwidthPolicyActionUnsupported;
  entry KBool "AutoLinkBandwidthUnsupported" "AutoLinkBandwidthUnsupported" AutoLinkBandwidthUnsupported;
  entry KBool "AdvertisedCumulativeLBwOCUnsupported" "AdvertisedCumulativeLbwOcUnsupported" AdvertisedCumulativeLBwOCUnsupported;
  entry KBool "DisableHardwareNexthopProxy" "DisableHardwareNexthopProxy" DisableHardwareNexthopProxy;
  entry KBool "URPFConfigOCUnsupported" "InterfacePolicyForwardingUnsupported" URPFConfigOCUnsupported;
  entry KBool "StaticRouteNextNetworkInstanceOCUnsupported" "StaticRouteNextNetworkInstanceOcUnsupported" StaticRouteNextNetworkInstanceOCUnsupported;
  entry KBool "GnpsiOcUnsupported" "GnpsiOcUnsupported" GnpsiOcUnsupported;
  entry KBool "SyslogNonDefaultVrfUnsupported" "SyslogNonDefaultVrfUnsupported" SyslogNonDefaultVrfUnsupported;
  entry KBool "BgpLocalAggregateUnsupported" "BgpLocalAggregateUnsupported" BgpLocalAggregateUnsupported;
  entry KBool "SkipSamplingQosCounters" "SkipSamplingQosCounters" SkipSamplingQosCounters;
  entry KBool "ConfigACLWithPrefixListNotSupported" "ConfigAclWithPrefixlistUnsupported" ConfigACLWithPrefixListNotSupported;
  entry KBool "ConfigACLValueAnyOcUnsupported" "ConfigAclValueAnyOcUnsupported" ConfigACLValueAnyOcUnsupported;
  entry KBool "ConfigACLOcUnsupported" "ConfigAclOcUnsupported" ConfigACLOcUnsupported;
  entry KBool "BgpRibStreamingConfigRequired" "BgpRibStreamingConfigRequired" BgpRibStreamingConfigRequired;
  entry KBool "InterfaceCountersInUnknownProtosUnsupported" "InterfaceCountersInUnknownProtosUnsupported" InterfaceCountersInUnknownProtosUnsupported;
  entry KBool "AggregateSIDCounterOutPktsUnsupported" "AggregateSidCounterOutPktsUnsupported" AggregateSIDCounterOutPktsUnsupported;
  entry KBool "MatchCommunitySetMatchSetOptionsAllUnsupported" "MatchCommunitySetMatchSetOptionsAllUnsupported" MatchCommunitySetMatchSetOptionsAllUnsupported;
  entry KBool "BMPOCUnsupported" "BmpOcUnsupported" BMPOCUnsupported;
  entry KBool "BgpCommunityTypeSliceInputUnsupported" "BgpCommunityTypeSliceInputUnsupported" BgpCommunityTypeSliceInputUnsupported;
  entry KBool "IbgpMultipathPathUnsupported" "IbgpMultipathPathUnsupported" IbgpMultipathPathUnsupported;
  entry KBool "GetRetainGnmiCfgAfterReboot" "RetainGnmiCfgAfterReboot" GetRetainGnmiCfgAfterReboot;
  entry KBool "ContainerzPluginRPCUnsupported" "ContainerzPluginRpcUnsupported" ContainerzPluginRPCUnsupported;
  entry KBool "NonStandardGRPCPort" "NonStandardGrpcPort" NonStandardGRPCPort;
  entry KBool "ContainerzTLSInsecureSkipVerify" "ContainerzTlsInsecureSkipVerify" ContainerzTLSInsecureSkipVerify;
  entry KUint32 "SwitchoverStabilizeDelayM" "SwitchoverStabilizeDelayM" SwitchoverStabilizeDelayM;
  entry KBool "GnoiRequiresFreshDialAfterSwitchover" "GnoiRequiresFreshDialAfterSwitchover" GnoiRequiresFreshDialAfterSwitchover;
  entry KBool "ContainerzRequireExplicitConfigSave" "ContainerzRequireExplicitConfigSave" ContainerzRequireExplicitConfigSave;
  entry KBool "TemperatureSensorCheck" "TemperatureSensorCheck" TemperatureSensorCheck;
  entry KBool "CPUUtilizationQueryAgainstBaseControllerCardComponent" "CpuUtilizationQueryAgainstBaseControllerCardComponent" CPUUtilizationQueryAgainstBaseControllerCardComponent;
  entry KBool "CPUUtilizationQueryAgainstBaseLinecardComponent" "CpuUtilizationQueryAgainstBaseLinecardComponent" CPUUtilizationQueryAgainstBaseLinecardComponent;
  entry KBool "NoQueueDropUnsupported" "NoQueueDropUnsupported" NoQueueDropUnsupported;
  entry KBool "InterfaceEthernetInblockErrorsUnsupported" "InterfaceEthernetInblockErrorsUnsupported" InterfaceEthernetInblockErrorsUnsupported;
  entry KBool "ForwardingViableFailoverWithIndirectNHUnsupported" "ForwardingViableFailoverWithIndirectNhUnsupported" ForwardingViableFailoverWithIndirectNHUnsupported;
  entry KString "CiscoxrTransceiverFt" "CiscoxrTransceiverFt" CiscoxrTransceiverFt;
  entry KBool "TransceiverStateUnsupported" "TransceiverStateUnsupported" TransceiverStateUnsupported;
  entry KBool "SubnetMaskChangeRequired" "SubnetMaskChangeRequired" SubnetMaskChangeRequired;
  entry KString "Ciscoxr8000IntegratedCircuitResourceFt" "Ciscoxr8000IntegratedCircuitResourceFt" Ciscoxr8000IntegratedCircuitResourceFt;
  entry KString "CiscoxrVendordropFt" "CiscoxrVendordropFt" CiscoxrVendordropFt;
  entry KBool "BgpDefaultPolicyBehaviorAcceptRoute" "BgpDefaultPolicyBehaviorAcceptRoute" BgpDefaultPolicyBehaviorAcceptRoute;
  entry KBool "TerminalDeviceChannelAdminStateUnsupported" "TerminalDeviceChannelAdminStateUnsupported" TerminalDeviceChannelAdminStateUnsupported;
  entry KBool "ACLCountersEnableOCUnsupported" "AclCountersEnableOcUnsupported" ACLCountersEnableOCUnsupported;
  entry KBool "SkipACLCountersVerificationDuringUpdate" "SkipAclCountersVerificationDuringUpdate" SkipACLCountersVerificationDuringUpdate;
  entry KBool "ACLIcmpTypeCodeConfigurationUnsupported" "AclIcmpTypeCodeConfigurationUnsupported" ACLIcmpTypeCodeConfigurationUnsupported;
  entry KBool "Ipv6RouterAdvertisementSuppressUnsupported" "Ipv6RouterAdvertisementSuppressUnsupported" Ipv6RouterAdvertisementSuppressUnsupported;
  entry KBool "BgpConfigDuringGracefulRestartUnsupported" "BgpConfigDuringGracefulRestartUnsupported" BgpConfigDuringGracefulRestartUnsupported;
  entry KBool "RoutingRestartViaGnoiUnsupported" "RoutingRestartViaGnoiUnsupported" RoutingRestartViaGnoiUnsupported;
  entry KBool "BgpRplDirectlyUnderPeerGroupUnsupported" "BgpRplDirectlyUnderPeerGroupUnsupported" BgpRplDirectlyUnderPeerGroupUnsupported;
  entry KBool "WecmpSetWeightUnsupported" "WecmpSetWeightUnsupported" WecmpSetWeightUnsupported;
  entry KBool "ExplicitlyApplyAllowAllImportPolicy" "ExplicitlyApplyAllowAllImportPolicy" ExplicitlyApplyAllowAllImportPolicy;
  entry KString "QosFt" "QosFt" QosFt;
  entry KString "SystemMountPointStateFt" "SystemMountPointStateFt" SystemMountPointStateFt;
  entry KString "ArpFT" "ArpFt" ArpFT;
  entry KBool "PrefixLimitConfigUnsupported" "PrefixLimitConfigUnsupported" PrefixLimitConfigUnsupported;
  entry KBool "SSHServerHostCertificateTelemetryUnsupported" "SshServerHostCertificateTelemetryUnsupported" SSHServerHostCertificateTelemetryUnsupported;
  entry KBool "SendMaxUnsupported" "SendMaxUnsupported" SendMaxUnsupported;
  entry KBool "OcAaaUserRoleLeafStringTypeUnsupported" "OcAaaUserRoleLeafStringTypeUnsupported" OcAaaUserRoleLeafStringTypeUnsupported;
  entry KBool "AcctzShellCmdAccountingUnsupported" "AcctzShellCmdAccountingUnsupported" AcctzShellCmdAccountingUnsupported;
  entry KBool "AcctzRecordsAuthzStatusDenyUnsupported" "AcctzRecordsAuthzStatusDenyUnsupported" AcctzRecordsAuthzStatusDenyUnsupported;
  entry KString "FpgaFt" "FpgaFt" FpgaFt;
  entry KBool "AcctzRecordFailCommandUnsupported" "AcctzRecordFailCommandUnsupported" AcctzRecordFailCommandUnsupported;
  entry KBool "AcctzRecordFailGrpcUnsupported" "AcctzRecordFailGrpcUnsupported" AcctzRecordFailGrpcUnsupported;
  entry KBool "BgpGracefulRestartPeerGroupUnsupported" "BgpGracefulRestartPeerGroupUnsupported" BgpGracefulRestartPeerGroupUnsupported;
  entry KBool "GrpcServerServicesUnsupported" "GrpcServerServicesUnsupported" GrpcServerServicesUnsupported;
  entry KBool "StaticRouteToNHGOCUnsupported" "StaticRouteToNhgOcUnsupported" StaticRouteToNHGOCUnsupported;
  entry KBool "Subinterface0StateUnsupported" "Subinterface_0StateUnsupported" Subinterface0StateUnsupported;
  entry KBool "FragmentPuntUnsupported" "FragmentPuntUnsupported" FragmentPuntUnsupported;
  entry KBool "FragmentPuntPktsUnsupported" "FragmentPuntPktsUnsupported" FragmentPuntPktsUnsupported;
  entry KString "FragmentPuntFt" "FragmentPuntFt" FragmentPuntFt;
  entry KBool "AcctzRecordSessionChannelIdUnsupported" "AcctzRecordSessionChannelIdUnsupported" AcctzRecordSessionChannelIdUnsupported;
  entry KString "CarrierFt" "CarrierFt" CarrierFt;
  entry KString "FabricFt" "FabricFt" FabricFt;
  entry KString "MacsecStateFt" "MacsecStateFt" MacsecStateFt;
  entry KString "MacsecCountersFt" "MacsecCountersFt" MacsecCountersFt;
  entry KBool "EnableMplsStaticOnInterface" "EnableMplsStaticOnInterface" EnableMplsStaticOnInterface;
  entry KBool "SecondaryControllerCardCpuUtilizationUnsupported" "SecondaryControllerCardCpuUtilizationUnsupported" SecondaryControllerCardCpuUtilizationUnsupported;
  entry KBool "SecondaryControllerCardMemoryUtilizationUnsupported" "SecondaryControllerCardMemoryUtilizationUnsupported" SecondaryControllerCardMemoryUtilizationUnsupported;
  entry KBool "InterfaceCountersInFcsErrorsUnsupported" "InterfaceCountersInFcsErrorsUnsupported" InterfaceCountersInFcsErrorsUnsupported;
  entry KBool "MplsStaticPseudowireOcUnsupported" "MplsStaticPseudowireOcUnsupported" MplsStaticPseudowireOcUnsupported;
  entry KBool "VlanClientEncapsulationOcUnsupported" "VlanClientEncapsulationOcUnsupported" VlanClientEncapsulationOcUnsupported;
  entry KBool "NexthopGroupPseudowireCountersOcUnsupported" "NexthopGroupPseudowireCountersOcUnsupported" NexthopGroupPseudowireCountersOcUnsupported;
  entry KBool "PerFlowLoadBalancingUnsupported" "PerFlowLoadBalancingUnsupported" PerFlowLoadBalancingUnsupported;
  entry KBool "BgpMultipathPathsUnderPeerGroupUnsupported" "BgpMultipathPathsUnderPeerGroupUnsupported" BgpMultipathPathsUnderPeerGroupUnsupported;
  entry KBool "LACPInterfaceMemberStateInterfaceUnsupported" "LacpInterfaceMemberStateInterfaceUnsupported" LACPInterfaceMemberStateInterfaceUnsupported;
  entry KBool "RequireTransportSecurity" "RequireTransportSecurity" RequireTransportSecurity;
  entry KBool "ExtendedRouteRetentionOcUnsupported" "ExtendedRouteRetentionOcUnsupported" ExtendedRouteRetentionOcUnsupported;
  entry KBool "ExrrStaleRouteTimeUnsupported" "ExrrStaleRouteTimeUnsupported" ExrrStaleRouteTimeUnsupported;
  entry KBool "GnoiBgpGracefulRestartUnsupported" "GnoiBgpGracefulRestartUnsupported" GnoiBgpGracefulRestartUnsupported;
  entry KBool "DhcpRelayOcUnsupported" "DhcpRelayOcUnsupported" DhcpRelayOcUnsupported;
  entry KBool "P4RTExplicitTableEntryPerController" "P4RtExplicitTableEntryPerController" P4RTExplicitTableEntryPerController;
  entry KBool "UseInterfaceNameForIBGPNeighborTransportIpv4LocalAddress" "UseInterfaceNameForIbgpNeighborTransportIpv4LocalAddress" UseInterfaceNameForIBGPNeighborTransportIpv4LocalAddress;
  entry KBool "InterfaceIDFormatRequiredForPolicyForwarding" "InterfaceIdFormatRequiredForPolicyForwarding" InterfaceIDFormatRequiredForPolicyForwarding;
  entry KBool "UseChassisAggregateUtilization" "UseChassisAggregateUtilization" UseChassisAggregateUtilization;
  entry KBool "UnreferencedAftFibAckUnsupported" "UnreferencedAftFibAckUnsupported" UnreferencedAftFibAckUnsupported;
  entry KBool "StaticRouteNexthopInterfaceStateOcUnsupported" "StaticRouteNexthopInterfaceStateOcUnsupported" StaticRouteNexthopInterfaceStateOcUnsupported;
  entry KBool "LacpInterfaceFallbackOCUnsupported" "LacpInterfaceFallbackOcUnsupported" LacpInterfaceFallbackOCUnsupported;
  entry KBool "BgpDynamicNeighborPrefixUnsupported" "BgpDynamicNeighborPrefixUnsupported" BgpDynamicNeighborPrefixUnsupported;
  entry KBool "VlanSubinterfaceOCUnsupported" "VlanSubinterfaceOcUnsupported" VlanSubinterfaceOCUnsupported;
  entry KBool "IpsecOcUnsupported" "IpsecOcUnsupported" IpsecOcUnsupported;
  entry KBool "StaticRouteInVrfOcUnsupported" "StaticRouteInVrfOcUnsupported" StaticRouteInVrfOcUnsupported;
  entry KBool "IpRoutingInVrfOcUnsupported" "IpRoutingInVrfOcUnsupported" IpRoutingInVrfOcUnsupported;
  entry KBool "MacsecOcUnsupported" "MacsecOcUnsupported" MacsecOcUnsupported;
  entry KBool "AftsGlobalFilterPolicyOCUnsupported" "AftsGlobalFilterPolicyOcUnsupported" AftsGlobalFilterPolicyOCUnsupported;
  entry KBool "AftsGlobalFilterPolicyConfigReferenceValidationUnsupported" "AftsGlobalFilterPolicyConfigReferenceValidationUnsupported" AftsGlobalFilterPolicyConfigReferenceValidationUnsupported;
  entry KBool "VrfSelectionPolicyNonDefaultNIUnsupported" "VrfSelectionPolicyNonDefaultNiUnsupported" VrfSelectionPolicyNonDefaultNIUnsupported;
  entry KBool "GribiAaaRoleBasedAuthzUnsupported" "GribiAaaRoleBasedAuthzUnsupported" GribiAaaRoleBasedAuthzUnsupported;
  entry KBool "P4RTAaaRoleBasedAuthzUnsupported" "P4RtAaaRoleBasedAuthzUnsupported" P4RTAaaRoleBasedAuthzUnsupported
].

Definition defaulted : list (string * (Device -> go string)) := [
  ("DefaultNetworkInstance", DefaultNetworkInstance);
  ("StaticProtocolName", StaticProtocolName);
  ("DefaultBgpInstanceName", DefaultBgpInstanceName);
  ("DefaultNiGnmiServerName", DefaultNiGnmiServerName)].

(** Flag, name of the accessor, field and accessor. *)
Definition flagged : list (string * string * string * (Device -> go bool)) := [
  ("deviation_cpu_missing_ancestor", "CPUMissingAncestor", "CpuMissingAncestor", CPUMissingAncestor);
  ("deviation_interface_ref_config_unsupported", "InterfaceRefConfigUnsupported", "InterfaceRefConfigUnsupported", InterfaceRefConfigUnsupported);
  ("deviation_require_routed_subinterface_0", "RequireRoutedSubinterface0", "RequireRoutedSubinterface_0", RequireRoutedSubinterface0);
  ("deviation_gnoi_switchover_reason_missing_user_initiated", "GNOISwitchoverReasonMissingUserInitiated", "GnoiSwitchoverReasonMissingUserInitiated", GNOISwitchoverReasonMissingUserInitiated);
  ("deviation_p4rt_unsetelectionid_primary_allowed", "P4rtUnsetElectionIDPrimaryAllowed", "P4RtUnsetelectionidPrimaryAllowed", P4rtUnsetElectionIDPrimaryAllowed);
  ("deviation_bkup_arbitration_resp_code", "P4rtBackupArbitrationResponseCode", "BkupArbitrationRespCode", P4rtBackupArbitrationResponseCode);
  ("deviation_backup_nhg_requires_vrf_with_decap", "BackupNHGRequiresVrfWithDecap", "BackupNhgRequiresVrfWithDecap", BackupNHGRequiresVrfWithDecap);
  ("deviation_ate_port_link_state_operations_unsupported", "ATEPortLinkStateOperationsUnsupported", "AtePortLinkStateOperationsUnsupported", ATEPortLinkStateOperationsUnsupported);
  ("deviation_ate_ipv6_flow_label_unsupported", "ATEIPv6FlowLabelUnsupported", "AteIpv6FlowLabelUnsupported", ATEIPv6FlowLabelUnsupported)
].
End Deviations.

(** ** Names of accessors and fields *)

(** The accessor of a field is named after it; letters may differ in case, and the
    field may have underscores. *)
Fixpoint canonical (s : string) : string :=
  match s with
  | EmptyString => EmptyString
  | String c s => if Ascii.eqb c (Ascii.Ascii true true true true true false true false) then canonical s else String (lower_ascii c) (canonical s)
  end.
Definition canonical_fields : list (string * (string * Kind)) :=
  Eval vm_compute in map (fun f => (canonical f.1, f)) fields.
Definition own_field (name : string) : option (string * Kind) :=
  let n := canonical name in snd <$> find (fun f => String.eqb f.1 n) canonical_fields.

(** The accessors whose name is not that of their field, and the field of each. *)
Definition renamed : list (string * string) := [
  ("BGPTrafficTolerance", "BgpToleranceValue");
  ("StatePathsUnsupported", "StatePathUnsupported");
  ("MissingPrePolicyReceivedRoutes", "PrepolicyReceivedRoutes");
  ("InstallOSForStandbyRP", "OsinstallForStandbyRp");
  ("GNOIStatusWithEmptySubcomponent", "GnoiStatusEmptySubcomponent");
  ("ExplicitIPv6EnableForGRIBI", "Ipv6EnableForGribiNhDmac");
  ("MissingPortToOpticalChannelMapping", "MissingPortToOpticalChannelComponentMapping");
  ("IPv4StaticRouteWithIPv6NextHopUnsupported", "Ipv4StaticRouteWithIpv6NhUnsupported");
  ("IPv6StaticRouteWithIPv4NextHopUnsupported", "Ipv6StaticRouteWithIpv4NhUnsupported");
  ("StaticRouteWithDropNhUnsupported", "StaticRouteWithDropNh");
  ("ChannelRateClassParametersUnsupported", "ChannelAssignmentRateClassParametersUnsupported");
  ("QosSchedulerIngressPolicer", "QosSchedulerIngressPolicerUnsupported");
  ("NextHopGroupOCUnsupported", "NextHopGroupConfigUnsupported");
  ("QosShaperOCUnsupported", "QosShaperConfigUnsupported");
  ("EthernetOverMPLSogreOCUnsupported", "EthernetOverMplsogreUnsupported");
  ("SflowOCUnsupported", "SflowUnsupported");
  ("MplsOCUnsupported", "MplsUnsupported");
  ("MacsecOCUnsupported", "MacsecUnsupported");
  ("GueGreDecapOCUnsupported", "GueGreDecapUnsupported");
  ("MplsLabelClassificationOCUnsupported", "MplsLabelClassificationUnsupported");
  ("LocalProxyOCUnsupported", "LocalProxyUnsupported");
  ("StaticMplsOCUnsupported", "StaticMplsUnsupported");
  ("QosClassificationOCUnsupported", "QosClassificationUnsupported");
  ("PolicyForwardingOCUnsupported", "PolicyForwardingUnsupported");
  ("InterfacePolicyForwardingOCUnsupported", "InterfacePolicyForwardingUnsupported");
  ("QosShaperStateOCUnsupported", "QosShaperStateUnsupported");
  ("CfmOCUnsupported", "CfmUnsupported");
  ("LabelRangeOCUnsupported", "LabelRangeUnsupported");
  ("StaticArpOCUnsupported", "StaticArpUnsupported");
  ("NumPhysyicalChannelsUnsupported", "NumPhysicalChannelsUnsupported");
  ("ConfigACLWithPrefixListNotSupported", "ConfigAclWithPrefixlistUnsupported");
  ("GetRetainGnmiCfgAfterReboot", "RetainGnmiCfgAfterReboot");
  ("P4rtBackupArbitrationResponseCode", "BkupArbitrationRespCode")
].
Definition field_for (name : string) : option (string * Kind) :=
  match find (fun p => String.eqb p.1 name) renamed with
  | Some p => find (fun f => String.eqb f.1 p.2) fields
  | None => own_field name
  end.

(** ** Lookup finds the one matching platform *)

Section Correctness.
Context {re : Regexp} (exceptions : list PlatformExceptions).

(** Whether an exception applies to a device. *)
Definition applies (dvc : Device) (e : PlatformExceptions) : go bool :=
  if negb (String.eqb (dev_Vendor dvc) (Vendor (GetPlatform e))) then Ret false
  else
    hw ← regexAllows (HardwareModelRegex (GetPlatform e)) (dev_Model dvc);
    if negb hw then Ret false else regexAllows (SoftwareVersionRegex (GetPlatform e)) (dev_Version dvc).

(** Every exception names a vendor and its regular expressions are valid. *)
Definition valid_exceptions (dvc : Device) (l : list PlatformExceptions) : Prop :=
  Forall (fun e => Vendor (GetPlatform e) <> "" /\ exists b, applies dvc e = Ret b) l.

Definition selected (dvc : Device) (l : list PlatformExceptions) : list PlatformExceptions :=
  filter (fun e => applies dvc e = Ret true) l.

(** One iteration of the loop. *)
Lemma lookupLoop_cons dvc matched e l b : Vendor (GetPlatform e) <> "" -> applies dvc e = Ret b ->
  lookupLoop dvc matched (e :: l) =
    if b then match matched with
              | Some _ => Fail (errors_New "cannot have more than one match within platform_exceptions fields")
              | None => lookupLoop dvc (Some e) l
              end
    else lookupLoop dvc matched l.
Proof.
  intros Hv. unfold applies. cbn [lookupLoop]. rewrite (proj2 (String.eqb_neq _ _) Hv).
  destruct (String.eqb (dev_Vendor dvc) _); simpl; [|by intros [= <-]].
  destruct (regexAllows (HardwareModelRegex _) _) as [[]| | |]; simpl; try done; [|by intros [= <-]].
  intros ->. by destruct b.
Qed.

Lemma lookupLoop_spec dvc l : valid_exceptions dvc l -> forall matched,
  lookupLoop dvc matched l =
    match option_list matched ++ selected dvc l with
    | [] => Ret None
    | [e] => Ret (Some e)
    | _ => Fail (errors_New "cannot have more than one match within platform_exceptions fields")
    end.
Proof.
  induction 1 as [|e l [Hv [b Hb]] Hl IH]; intros matched; [by destruct matched|].
  rewrite (lookupLoop_cons _ _ _ _ _ Hv Hb). unfold selected in *. rewrite filter_cons.
  case_decide as Ha; destruct b; try congruence; [|apply IH].
  destruct matched as [e'|]; [done|]. rewrite IH. done.
Qed.

(** ** Accessors *)

Lemma Get_well_typed k f d : well_typed d -> kind_of f = Some k -> Get k f d = Ret (field_value k f d).
Proof.
  intros Hd Hk. unfold Get, field_value. destruct (d !! f) as [v|] eqn:E; [|done].
  destruct (Hd f v E k Hk) as [a Ha]. simpl. by rewrite Ha.
Qed.

(** An entry of the table is the accessor of its field. *)
Definition reads_field (e : Entry) : Prop :=
  kind_of (e_field e) = Some (e_kind e) /\
  e_read e = fun dut => d ← lookupDUTDeviations exceptions dut; Get (e_kind e) (e_field e) d.

Lemma accessors_read : Forall reads_field (accessors exceptions).
Proof. unfold accessors. repeat (constructor; [split; reflexivity|]). constructor. Qed.

Lemma defaulted_read : Forall (fun p => kind_of p.1 = Some KString /\
  p.2 = fun dut => d ← lookupDUTDeviations exceptions dut; s ← Get KString p.1 d;
                   if negb (String.eqb s "") then Ret s else Ret "DEFAULT") (defaulted exceptions).
Proof. unfold defaulted. repeat (constructor; [split; reflexivity|]). constructor. Qed.

Lemma flagged_read flags : Forall (fun '(name, _, f, read) => kind_of f = Some KBool /\
  read = fun dev => if isFlagSet flags name then Ret (flagBool flags name false)
                    else d ← mustLookupDeviations exceptions dev; Get KBool f d) (flagged exceptions flags).
Proof. unfold flagged. repeat (constructor; [split; reflexivity|]). constructor. Qed.
End Correctness.

(** among exceptions that name a vendor and have valid regular expressions, the
    lookup returns the one that applies to the device, none when there is none, and
    an error when several apply. *)
Theorem lookupDeviations_unique {re : Regexp} exceptions dvc : valid_exceptions dvc exceptions ->
  lookupDeviations exceptions dvc =
    match selected dvc exceptions with
    | [] => Ret None
    | [e] => Ret (Some e)
    | _ => Fail (errors_New "cannot have more than one match within platform_exceptions fields")
    end.
Proof. intros H. apply (lookupLoop_spec dvc exceptions H None). Qed.

(** The field of each accessor's table entry is the one its name stands for; only
    [URPFConfigOCUnsupported] is filed under another field. *)
Lemma accessors_named {re : Regexp} exceptions :
  Forall (fun e => field_for (e_name e) = Some (e_field e, e_kind e) \/ e_name e = "URPFConfigOCUnsupported")
    (accessors exceptions).
Proof.
  assert (forallb (fun e => bool_decide (field_for (e_name e) = Some (e_field e, e_kind e)) ||
    String.eqb (e_name e) "URPFConfigOCUnsupported") (accessors exceptions) = true) as H by (vm_compute; reflexivity).
  rewrite forallb_forall in H. apply Forall_forall. intros e He%list_elem_of_In%H.
  by apply orb_true_iff in He as [He%bool_decide_eq_true|He%String.eqb_eq]; [left|right].
Qed.

Lemma flagged_named {re : Regexp} exceptions flags :
  Forall (fun '(_, name, f, _) => field_for name = Some (f, KBool)) (flagged exceptions flags).
Proof. unfold flagged. repeat (constructor; [vm_compute; reflexivity|]). constructor. Qed.

(** The fields of all accessors. *)
Definition accessor_names {re : Regexp} exceptions flags : list string :=
  (e_name <$> accessors exceptions) ++ (fst <$> defaulted exceptions) ++
  ((fun '(_, n, _, _) => n) <$> flagged exceptions flags) ++
  ["MaxOutFibRouteCount"; "HierarchicalWeightResolutionTolerance"].


(** *** Witnesses

    A matcher for patterns without operators, and a test's metadata. *)
Definition literalRegexp : Regexp := fun pattern s => Ret (bool_decide (is_Some (String.index 0 pattern s))).

Definition someExceptions : list PlatformExceptions :=
  [{| GetPlatform := {| Vendor := "CISCO"; HardwareModelRegex := "8808"; SoftwareVersionRegex := "" |};
      GetDeviations := {[ "UrpfConfigOcUnsupported" := VBool true; "DefaultNetworkInstance" := VString "default" ]} |};
   {| GetPlatform := {| Vendor := "ARISTA"; HardwareModelRegex := ""; SoftwareVersionRegex := "" |};
      GetDeviations := ∅ |}].
Definition someDevice : Device := {| dev_Vendor := "CISCO"; dev_Model := "CISCO-8808"; dev_Version := "24.1" |}.
Definition someMessage : Metadata_Deviations :=
  {[ "UrpfConfigOcUnsupported" := VBool true; "DefaultNetworkInstance" := VString "default" ]}.

Lemma someMessage_typed : well_typed someMessage.
Proof.
  apply map_Forall_lookup_2. intros f v Hf k Hk. unfold someMessage in Hf.
  apply lookup_insert_Some in Hf as [[<- <-]|[_ Hf]]; [by injection Hk as <-; eexists|].
  apply lookup_singleton_Some in Hf as [<- <-]. injection Hk as <-. by eexists.
Qed.

Lemma lookupDeviations_unique_witness :
  @lookupDeviations literalRegexp someExceptions someDevice = Ret (head someExceptions).
Proof.
  rewrite (@lookupDeviations_unique literalRegexp someExceptions someDevice); [reflexivity|].
  repeat constructor; try discriminate; eexists; reflexivity.
Defined.

