(* ===== verification/Gnxi.v ===== *)
(** * RPCs of the device

    [src/internal/security/gnxi]: the table of the RPCs of a device
    ([rpcs.go]) and a function for each that executes it ([rpcexec.go]).  The
    clients of the device are a class of operations with a result or an error; a
    stream is the list of its messages and the error that ends it. *)
From stdpp Require Import base list gmap strings.
From Stdlib Require Import ZArith Lia.
From S2P Require Import Prelude.
From S2P Require Import GoStrings.

(** ** Errors of gRPC calls *)

Inductive Code :=
| OK | Canceled | Unknown | InvalidArgument | DeadlineExceeded | NotFound | AlreadyExists | PermissionDenied
| ResourceExhausted | FailedPrecondition | Aborted | OutOfRange | Unimplemented | Internal | Unavailable
| DataLoss | Unauthenticated.
#[global] Instance Code_eq_dec : EqDecision Code.
Proof. solve_decision. Defined.

Definition Code_String (c : Code) : string :=
  match c with
  | OK => "OK" | Canceled => "Canceled" | Unknown => "Unknown" | InvalidArgument => "InvalidArgument"
  | DeadlineExceeded => "DeadlineExceeded" | NotFound => "NotFound" | AlreadyExists => "AlreadyExists"
  | PermissionDenied => "PermissionDenied" | ResourceExhausted => "ResourceExhausted"
  | FailedPrecondition => "FailedPrecondition" | Aborted => "Aborted" | OutOfRange => "OutOfRange"
  | Unimplemented => "Unimplemented" | Internal => "Internal" | Unavailable => "Unavailable"
  | DataLoss => "DataLoss" | Unauthenticated => "Unauthenticated"
  end.

(** [io.EOF], an error with a status, or another error. *)
Inductive Err := EOF | Status (c : Code) (msg : string) | OtherErr (msg : string).
#[global] Instance Err_eq_dec : EqDecision Err.
Proof. solve_decision. Defined.

Definition Err_Error (e : Err) : string :=
  match e with
  | EOF => "EOF"
  | Status c msg => "rpc error: code = " +:+ Code_String c +:+ " desc = " +:+ msg
  | OtherErr msg => msg
  end.

(** [status.Code(err)]; [None] is a nil error. *)
Definition status_Code (err : option Err) : Code :=
  match err with None => OK | Some (Status c _) => c | Some _ => Unknown end.

(** ** The device *)

(** The options of a connection: here only its credentials. *)
Inductive DialOption := WithTransportCredentials (conf : string).

Record Stream (M : Type) := { msgs : list M; last_err : Err }.
Arguments msgs {M} s.
Arguments last_err {M} s.

(** A [ModifyResponse]: whether [SessionParamsResult] is set. *)
Record ModifyResponse := { SessionParamsResult : bool }.

Record UploadRequest := { Version : string; CreatedOn : Z; Policy : string }.
Inductive RotateAuthzRequest :=
| Upload (r : UploadRequest) (forceOverwrite : bool)
| Finalize (forceOverwrite : bool).
Inductive Action := ACTION_UNSPECIFIED | ACTION_DENY | ACTION_PERMIT.
#[global] Instance Action_eq_dec : EqDecision Action.
Proof. solve_decision. Defined.
Record GetResponse := { resp_Version : string; resp_CreatedOn : Z; resp_Policy : string }.

Class GrpcDevice (E : Type) := {
  Conn : Type;
  RotateStream : Type;
  ModifyStream : Type;
  dut_Name : string;
  DialGNMI : list DialOption -> gost E (Conn + Err);
  DialGNOI : list DialOption -> gost E (Conn + Err);
  DialGNSI : list DialOption -> gost E (Conn + Err);
  DialGRIBI : list DialOption -> gost E (Conn + Err);
  (* ygnmi on the path /system/config/hostname or /system/state/hostname *)
  ygnmi_NewClient : Conn -> gost E (Conn + Err);
  ygnmi_Get_config : Conn -> gost E (string + Err);
  ygnmi_Replace_config : Conn -> string -> gost E (unit + Err);
  ygnmi_Get_state : Conn -> gost E (string + Err);
  gnmi_Capabilities : Conn -> gost E (unit + Err);
  System_Time : Conn -> gost E (unit + Err);
  System_Ping : Conn -> string -> gost E (Stream unit + Err);
  Authz_Get : Conn -> gost E (GetResponse + Err);
  Authz_Probe : Conn -> string -> string -> gost E (Action + Err);
  Authz_Rotate : Conn -> gost E (RotateStream + Err);
  Rotate_Send : RotateStream -> RotateAuthzRequest -> gost E (unit + Err);
  Rotate_Recv : RotateStream -> gost E (unit + Err);
  (* the messages that are still to come *)
  Rotate_Drain : RotateStream -> gost E (Stream unit);
  Rotate_CloseSend : RotateStream -> gost E unit;
  gribi_Flush : Conn -> Z -> gost E (unit + Err);
  gribi_Get : Conn -> gost E (Stream unit + Err);
  gribi_Modify : Conn -> gost E (ModifyStream + Err);
  (* a ModifyRequest with the session parameters SINGLE_PRIMARY and PRESERVE *)
  Modify_Send_params : ModifyStream -> gost E (unit + Err);
  Modify_Drain : ModifyStream -> gost E (Stream ModifyResponse);
  Nanosecond : gost E Z;
  UnixMicro : gost E Z;
  t_Errorf : gost E unit
}.

Section Gnxi.
Context {E : Type} `{!GrpcDevice E}.

Definition ExecRPCFunction : Type := list DialOption -> gost E (option Err).

Record RPC := { Service : string; Name : string; FQN : string; Path : string; Exec : ExecRPCFunction }.

(** [v, err := m; if err != nil { return err }] *)
Definition try {A} (m : gost E (A + Err)) (k : A -> gost E (option Err)) : gost E (option Err) :=
  r ← m; match r with inl a => k a | inr e => mret (Some e) end.

(** [_, err = m; return err] *)
Definition tail {A} (m : gost E (A + Err)) : gost E (option Err) := try m (fun _ => mret None).

(** ** rpcexec.go

    Functions that are not implemented. *)

Definition unimplemented (path : string) : ExecRPCFunction := fun _ =>
  mret (Some (Status Unimplemented ("exec function for RPC " +:+ path +:+ " is not implemented"))).

Definition AllRPC : ExecRPCFunction := unimplemented "*".
Definition GnmiAllRPC : ExecRPCFunction := unimplemented "/gnmi.gNMI/*".
Definition GnoiBgpAllRPC : ExecRPCFunction := unimplemented "/gnoi.bgp.BGP/*".
Definition GnoiBgpClearBGPNeighbor : ExecRPCFunction := unimplemented "/gnoi.bgp.BGP/ClearBGPNeighbor".
Definition GnoiDiagAllRPC : ExecRPCFunction := unimplemented "/gnoi.diag.Diag/*".
Definition GnoiDiagGetBERTResult : ExecRPCFunction := unimplemented "/gnoi.diag.Diag/GetBERTResult".
Definition GnoiDiagStopBERT : ExecRPCFunction := unimplemented "/gnoi.diag.Diag/StopBERT".
Definition GnoiDiagStartBERT : ExecRPCFunction := unimplemented "/gnoi.diag.Diag/StartBERT".
Definition GnoiFactoryresetAllRPC : ExecRPCFunction := unimplemented "/gnoi.factory_reset.FactoryReset/*".
Definition GnoiFactoryresetStart : ExecRPCFunction := unimplemented "/gnoi.factory_reset.FactoryReset/Start".
Definition GnoiFileAllRPC : ExecRPCFunction := unimplemented "/gnoi.file.File/*".
Definition GnoiFilePut : ExecRPCFunction := unimplemented "/gnoi.file.File/Put".
Definition GnoiFileRemove : ExecRPCFunction := unimplemented "/gnoi.file.File/Remove".
Definition GnoiFileStat : ExecRPCFunction := unimplemented "/gnoi.file.File/Stat".
Definition GnoiFileTransferToRemote : ExecRPCFunction := unimplemented "/gnoi.file.File/TransferToRemote".
Definition GnoiFileGet : ExecRPCFunction := unimplemented "/gnoi.file.File/Get".
Definition GnoiHealthzAcknowledge : ExecRPCFunction := unimplemented "/gnoi.healthz.Healthz/Acknowledge".
Definition GnoiHealthzAllRPC : ExecRPCFunction := unimplemented "/gnoi.healthz.Healthz/*".
Definition GnoiHealthzArtifact : ExecRPCFunction := unimplemented "/gnoi.healthz.Healthz/Artifact".
Definition GnoiHealthzCheck : ExecRPCFunction := unimplemented "/gnoi.healthz.Healthz/Check".
Definition GnoiHealthzList : ExecRPCFunction := unimplemented "/gnoi.healthz.Healthz/List".
Definition GnoiHealthzGet : ExecRPCFunction := unimplemented "/gnoi.healthz.Healthz/Get".
Definition GnoiLayer2AllRPC : ExecRPCFunction := unimplemented "/gnoi.layer2.Layer2/*".
Definition GnoiLayer2ClearLLDPInterface : ExecRPCFunction := unimplemented "/gnoi.layer2.Layer2/ClearLLDPInterface".
Definition GnoiLayer2ClearSpanningTree : ExecRPCFunction := unimplemented "/gnoi.layer2.Layer2/ClearSpanningTree".
Definition GnoiLayer2PerformBERT : ExecRPCFunction := unimplemented "/gnoi.layer2.Layer2/PerformBERT".
Definition GnoiLayer2SendWakeOnLAN : ExecRPCFunction := unimplemented "/gnoi.layer2.Layer2/SendWakeOnLAN".
Definition GnoiLayer2ClearNeighborDiscovery : ExecRPCFunction := unimplemented "/gnoi.layer2.Layer2/ClearNeighborDiscovery".
Definition GnoiLinkqualificationCreate : ExecRPCFunction := unimplemented "/gnoi.packet_link_qualification.LinkQualification/Create".
Definition GnoiMplsAllRPC : ExecRPCFunction := unimplemented "/gnoi.mpls.MPLS/*".
Definition GnoiMplsClearLSPCounters : ExecRPCFunction := unimplemented "/gnoi.mpls.MPLS/ClearLSPCounters".
Definition GnoiMplsMPLSPing : ExecRPCFunction := unimplemented "/gnoi.mpls.MPLS/MPLSPing".
Definition GnoiMplsClearLSP : ExecRPCFunction := unimplemented "/gnoi.mpls.MPLS/ClearLSP".
Definition GnoiOtdrAllRPC : ExecRPCFunction := unimplemented "/gnoi.optical.OTDR/*".
Definition GnoiWavelengthrouterAdjustSpectrum : ExecRPCFunction := unimplemented "/gnoi.optical.WavelengthRouter/AdjustSpectrum".
Definition GnoiWavelengthrouterAllRPC : ExecRPCFunction := unimplemented "/gnoi.optical.WavelengthRouter/*".
Definition GnoiWavelengthrouterCancelAdjustPSD : ExecRPCFunction := unimplemented "/gnoi.optical.WavelengthRouter/CancelAdjustPSD".
Definition GnoiWavelengthrouterCancelAdjustSpectrum : ExecRPCFunction := unimplemented "/gnoi.optical.WavelengthRouter/CancelAdjustSpectrum".
Definition GnoiOsActivate : ExecRPCFunction := unimplemented "/gnoi.os.OS/Activate".
Definition GnoiOsAllRPC : ExecRPCFunction := unimplemented "/gnoi.os.OS/*".
Definition GnoiOsVerify : ExecRPCFunction := unimplemented "/gnoi.os.OS/Verify".
Definition GnoiOsInstall : ExecRPCFunction := unimplemented "/gnoi.os.OS/Install".
Definition GnoiOtdrInitiate : ExecRPCFunction := unimplemented "/gnoi.optical.OTDR/Initiate".
Definition GnoiLinkqualificationAllRPC : ExecRPCFunction := unimplemented "/gnoi.packet_link_qualification.LinkQualification/*".
Definition GnoiLinkqualificationCapabilities : ExecRPCFunction := unimplemented "/gnoi.packet_link_qualification.LinkQualification/Capabilities".
Definition GnoiLinkqualificationDelete : ExecRPCFunction := unimplemented "/gnoi.packet_link_qualification.LinkQualification/Delete".
Definition GnoiLinkqualificationGet : ExecRPCFunction := unimplemented "/gnoi.packet_link_qualification.LinkQualification/Get".
Definition GnoiLinkqualificationList : ExecRPCFunction := unimplemented "/gnoi.packet_link_qualification.LinkQualification/List".
Definition GnoiSystemAllRPC : ExecRPCFunction := unimplemented "/gnoi.system.System/*".
Definition GnoiSystemCancelReboot : ExecRPCFunction := unimplemented "/gnoi.system.System/CancelReboot".
Definition GnoiSystemKillProcess : ExecRPCFunction := unimplemented "/gnoi.system.System/KillProcess".
Definition GnoiSystemReboot : ExecRPCFunction := unimplemented "/gnoi.system.System/Reboot".
Definition GnoiSystemRebootStatus : ExecRPCFunction := unimplemented "/gnoi.system.System/RebootStatus".
Definition GnoiSystemSetPackage : ExecRPCFunction := unimplemented "/gnoi.system.System/SetPackage".
Definition GnoiSystemSwitchControlProcessor : ExecRPCFunction := unimplemented "/gnoi.system.System/SwitchControlProcessor".
Definition GnoiSystemTraceroute : ExecRPCFunction := unimplemented "/gnoi.system.System/Traceroute".
Definition GnoiWavelengthrouterAdjustPSD : ExecRPCFunction := unimplemented "/gnoi.optical.WavelengthRouter/AdjustPSD".
Definition GnsiAccountingpullAllRPC : ExecRPCFunction := unimplemented "/gnsi.accounting.v1.AccountingPull/*".
Definition GnsiAccountingpushRecordStream : ExecRPCFunction := unimplemented "/gnsi.accounting.v1.AccountingPush/RecordStream".
Definition GnsiAccountingpushAllRPC : ExecRPCFunction := unimplemented "/gnsi.accounting.v1.AccountingPush/*".
Definition GnsiAccountingpullRecordStream : ExecRPCFunction := unimplemented "/gnsi.accounting.v1.AccountingPull/RecordStream".
Definition GnsiAuthzAllRPC : ExecRPCFunction := unimplemented "/gnsi.authz.v1.Authz/*".
Definition GnsiCertzAddProfile : ExecRPCFunction := unimplemented "/gnsi.certz.v1.Certz/AddProfile".
Definition GnsiCertzAllRPC : ExecRPCFunction := unimplemented "/gnsi.certz.v1.Certz/*".
Definition GnsiCertzCanGenerateCSR : ExecRPCFunction := unimplemented "/gnsi.certz.v1.Certz/CanGenerateCSR".
Definition GnsiCertzDeleteProfile : ExecRPCFunction := unimplemented "/gnsi.certz.v1.Certz/DeleteProfile".
Definition GnsiCertzGetProfileList : ExecRPCFunction := unimplemented "/gnsi.certz.v1.Certz/GetProfileList".
Definition GnsiCertzRotate : ExecRPCFunction := unimplemented "/gnsi.certz.v1.Certz/Rotate".
Definition GnsiCredentialzAllRPC : ExecRPCFunction := unimplemented "/gnsi.credentialz.v1.Credentialz/*".
Definition GnsiCredentialzCanGenerateKey : ExecRPCFunction := unimplemented "/gnsi.credentialz.v1.Credentialz/CanGenerateKey".
Definition GnsiCredentialzGetPublicKeys : ExecRPCFunction := unimplemented "/gnsi.credentialz.v1.Credentialz/GetPublicKeys".
Definition GnsiCredentialzRotateHostCredentials : ExecRPCFunction := unimplemented "/gnsi.credentialz.v1.Credentialz/RotateHostCredentials".
Definition GnsiCredentialzRotateAccountCredentials : ExecRPCFunction := unimplemented "/gnsi.credentialz.v1.Credentialz/RotateAccountCredentials".
Definition GnsiPathzAllRPC : ExecRPCFunction := unimplemented "/gnsi.pathz.v1.Pathz/*".
Definition GnsiPathzGet : ExecRPCFunction := unimplemented "/gnsi.pathz.v1.Pathz/Get".
Definition GnsiPathzProbe : ExecRPCFunction := unimplemented "/gnsi.pathz.v1.Pathz/Probe".
Definition GnsiPathzRotate : ExecRPCFunction := unimplemented "/gnsi.pathz.v1.Pathz/Rotate".
Definition GribiAllRPC : ExecRPCFunction := unimplemented "/gribi.gRIBI/*".
Definition P4P4runtimeAllRPC : ExecRPCFunction := unimplemented "/p4.v1.P4Runtime/*".
Definition P4P4runtimeCapabilities : ExecRPCFunction := unimplemented "/p4.v1.P4Runtime/Capabilities".
Definition P4P4runtimeGetForwardingPipelineConfig : ExecRPCFunction := unimplemented "/p4.v1.P4Runtime/GetForwardingPipelineConfig".
Definition P4P4runtimeRead : ExecRPCFunction := unimplemented "/p4.v1.P4Runtime/Read".
Definition P4P4runtimeSetForwardingPipelineConfig : ExecRPCFunction := unimplemented "/p4.v1.P4Runtime/SetForwardingPipelineConfig".
Definition P4P4runtimeStreamChannel : ExecRPCFunction := unimplemented "/p4.v1.P4Runtime/StreamChannel".
Definition P4P4runtimeWrite : ExecRPCFunction := unimplemented "/p4.v1.P4Runtime/Write".
Definition GnsiAcctzAllRPC : ExecRPCFunction := unimplemented "/gnsi.acctz.v1.Acctz/*".
Definition GnsiAcctzRecordSubscribe : ExecRPCFunction := unimplemented "/gnsi.acctz.v1.Acctz/RecordSubscribe".
Definition GnsiCredentialzRotateHostParameters : ExecRPCFunction := unimplemented "/gnsi.acctz.v1.Acctz/RecordSubscribe".

(** Functions that call the device. *)

Definition GnmiGet : ExecRPCFunction := fun opts =>
  try (DialGNMI opts) (fun gnmiC =>
  try (ygnmi_NewClient gnmiC) (fun ygnmiC =>
  r ← ygnmi_Get_config ygnmiC;
  match r with
  | inl _ => mret None
  | inr e => if Contains (Err_Error e) "value not present" then mret None else mret (Some e)
  end)).

Definition GnmiSet : ExecRPCFunction := fun opts =>
  try (DialGNMI opts) (fun gnmiC =>
  try (ygnmi_NewClient gnmiC) (fun ygnmiC => tail (ygnmi_Replace_config ygnmiC "test"))).

Definition GnmiSubscribe : ExecRPCFunction := fun opts =>
  try (DialGNMI opts) (fun gnmiC =>
  try (ygnmi_NewClient gnmiC) (fun ygnmiC => tail (ygnmi_Get_state ygnmiC))).

Definition GnmiCapabilities : ExecRPCFunction := fun opts =>
  try (DialGNMI opts) (fun gnmiC => tail (gnmi_Capabilities gnmiC)).

Definition GnoiSystemTime : ExecRPCFunction := fun opts =>
  try (DialGNOI opts) (fun gnoiC => tail (System_Time gnoiC)).

(** [for { _, err := s.Recv(); switch { case err == io.EOF: return nil; case err != nil: return err } }] *)
Fixpoint recvAll {M} (l : list M) (last : Err) : option Err :=
  match l with
  | _ :: l => recvAll l last
  | [] => match last with EOF => None | e => Some e end
  end.

Definition GnoiSystemPing : ExecRPCFunction := fun opts =>
  try (DialGNOI opts) (fun gnoiC =>
  try (System_Ping gnoiC dut_Name) (fun pingC => mret (recvAll (msgs pingC) (last_err pingC)))).

Definition GnsiAuthzGet : ExecRPCFunction := fun opts =>
  try (DialGNSI opts) (fun gnsiC => tail (Authz_Get gnsiC)).

Definition GnsiAuthzProbe : ExecRPCFunction := fun opts =>
  try (DialGNSI opts) (fun gnsiC => tail (Authz_Probe gnsiC "dummy" "*")).

(** The receive loop of [GnsiAuthzRotate]: the case for [io.EOF] comes after the one
    for any error and is never taken. *)
Fixpoint recvInvalid {M} (l : list M) (last : Err) : option Err :=
  match l with
  | _ :: l => recvInvalid l last
  | [] =>
      if Contains (Err_Error last) "invalid policy" || bool_decide (status_Code (Some last) = InvalidArgument) ||
         Contains (Err_Error last) "InvalidArgument"
      then None else Some last
  end.

Definition GnsiAuthzRotate : ExecRPCFunction := fun opts =>
  try (DialGNSI opts) (fun gnsiC =>
  try (Authz_Rotate gnsiC) (fun gnsiCStream =>
  now ← Nanosecond;
  try (Rotate_Send gnsiCStream (Upload {| Version := "0.0"; CreatedOn := now; Policy := "" |} false)) (fun _ =>
  s ← Rotate_Drain gnsiCStream;
  mret (recvInvalid (msgs s) (last_err s))))).

Definition GribiFlush : ExecRPCFunction := fun opts =>
  try (DialGRIBI opts) (fun gribiC => tail (gribi_Flush gribiC 1)).

Definition GribiGet : ExecRPCFunction := fun opts =>
  try (DialGRIBI opts) (fun gribiC =>
  try (gribi_Get gribiC) (fun getStream => mret (recvAll (msgs getStream) (last_err getStream)))).

(** The receive loop of [GribiModify] ends at the first result for the session parameters. *)
Fixpoint recvParams (l : list ModifyResponse) (last : Err) : option Err :=
  match l with
  | m :: l => if SessionParamsResult m then None else recvParams l last
  | [] => match last with EOF => None | e => Some e end
  end.

Definition GribiModify : ExecRPCFunction := fun opts =>
  try (DialGRIBI opts) (fun gribiC =>
  try (gribi_Modify gribiC) (fun mStream =>
  try (Modify_Send_params mStream) (fun _ =>
  s ← Modify_Drain mStream;
  mret (recvParams (msgs s) (last_err s))))).

(** ** rpcs.go *)

Definition ALL : RPC :=
  {| Service := "*"; Name := "*"; FQN := "*"; Path := "*"; Exec := AllRPC |}.
Definition gnmiALL : RPC :=
  {| Service := "gnmi.gNMI"; Name := "*"; FQN := "gnmi.gNMI.*"; Path := "/gnmi.gNMI/*"; Exec := GnmiAllRPC |}.
Definition gnmiGet : RPC :=
  {| Service := "gnmi.gNMI"; Name := "Get"; FQN := "gnmi.gNMI.Get"; Path := "/gnmi.gNMI/Get"; Exec := GnmiGet |}.
Definition gnmiSet : RPC :=
  {| Service := "gnmi.gNMI"; Name := "Set"; FQN := "gnmi.gNMI.Set"; Path := "/gnmi.gNMI/Set"; Exec := GnmiSet |}.
Definition gnmiSubscribe : RPC :=
  {| Service := "gnmi.gNMI"; Name := "Subscribe"; FQN := "gnmi.gNMI.Subscribe"; Path := "/gnmi.gNMI/Subscribe"; Exec := GnmiSubscribe |}.
Definition gnmiCapabilities : RPC :=
  {| Service := "gnmi.gNMI"; Name := "Capabilities"; FQN := "gnmi.gNMI.Capabilities"; Path := "/gnmi.gNMI/Capabilities"; Exec := GnmiCapabilities |}.
Definition gnoibgpALL : RPC :=
  {| Service := "gnoi.bgp.BGP"; Name := "*"; FQN := "gnoi.bgp.BGP.*"; Path := "/gnoi.bgp.BGP/*"; Exec := GnoiBgpAllRPC |}.
Definition gnoibgpClearBGPNeighbor : RPC :=
  {| Service := "gnoi.bgp.BGP"; Name := "ClearBGPNeighbor"; FQN := "gnoi.bgp.BGP.ClearBGPNeighbor"; Path := "/gnoi.bgp.BGP/ClearBGPNeighbor"; Exec := GnoiBgpClearBGPNeighbor |}.
Definition gnoidiagALL : RPC :=
  {| Service := "gnoi.diag.Diag"; Name := "*"; FQN := "gnoi.diag.Diag.*"; Path := "/gnoi.diag.Diag/*"; Exec := GnoiDiagAllRPC |}.
Definition gnoidiagGetBERTResult : RPC :=
  {| Service := "gnoi.diag.Diag"; Name := "GetBERTResult"; FQN := "gnoi.diag.Diag.GetBERTResult"; Path := "/gnoi.diag.Diag/GetBERTResult"; Exec := GnoiDiagGetBERTResult |}.
Definition gnoidiagStopBERT : RPC :=
  {| Service := "gnoi.diag.Diag"; Name := "StopBERT"; FQN := "gnoi.diag.Diag.StopBERT"; Path := "/gnoi.diag.Diag/StopBERT"; Exec := GnoiDiagStopBERT |}.
Definition gnoidiagStartBERT : RPC :=
  {| Service := "gnoi.diag.Diag"; Name := "StartBERT"; FQN := "gnoi.diag.Diag.StartBERT"; Path := "/gnoi.diag.Diag/StartBERT"; Exec := GnoiDiagStartBERT |}.
Definition gnoifactory_resetFactoryResetALL : RPC :=
  {| Service := "gnoi.factory_reset.FactoryReset"; Name := "*"; FQN := "gnoi.factory_reset.FactoryReset.*"; Path := "/gnoi.factory_reset.FactoryReset/*"; Exec := GnoiFactoryresetAllRPC |}.
Definition gnoifactory_resetFactoryResetStart : RPC :=
  {| Service := "gnoi.factory_reset.FactoryReset"; Name := "Start"; FQN := "gnoi.factory_reset.FactoryReset.Start"; Path := "/gnoi.factory_reset.FactoryReset/Start"; Exec := GnoiFactoryresetStart |}.
Definition gnoifileALL : RPC :=
  {| Service := "gnoi.file.File"; Name := "*"; FQN := "gnoi.file.File.*"; Path := "/gnoi.file.File/*"; Exec := GnoiFileAllRPC |}.
Definition gnoifilePut : RPC :=
  {| Service := "gnoi.file.File"; Name := "Put"; FQN := "gnoi.file.File.Put"; Path := "/gnoi.file.File/Put"; Exec := GnoiFilePut |}.
Definition gnoifileRemove : RPC :=
  {| Service := "gnoi.file.File"; Name := "Remove"; FQN := "gnoi.file.File.Remove"; Path := "/gnoi.file.File/Remove"; Exec := GnoiFileRemove |}.
Definition gnoifileStat : RPC :=
  {| Service := "gnoi.file.File"; Name := "Stat"; FQN := "gnoi.file.File.Stat"; Path := "/gnoi.file.File/Stat"; Exec := GnoiFileStat |}.
Definition gnoifileTransferToRemote : RPC :=
  {| Service := "gnoi.file.File"; Name := "TransferToRemote"; FQN := "gnoi.file.File.TransferToRemote"; Path := "/gnoi.file.File/TransferToRemote"; Exec := GnoiFileTransferToRemote |}.
Definition gnoifileGet : RPC :=
  {| Service := "gnoi.file.File"; Name := "Get"; FQN := "gnoi.file.File.Get"; Path := "/gnoi.file.File/Get"; Exec := GnoiFileGet |}.
Definition gnoihealthzAcknowledge : RPC :=
  {| Service := "gnoi.healthz.Healthz"; Name := "Acknowledge"; FQN := "gnoi.healthz.Healthz.Acknowledge"; Path := "/gnoi.healthz.Healthz/Acknowledge"; Exec := GnoiHealthzAcknowledge |}.
Definition gnoihealthzALL : RPC :=
  {| Service := "gnoi.healthz.Healthz"; Name := "*"; FQN := "gnoi.healthz.Healthz.*"; Path := "/gnoi.healthz.Healthz/*"; Exec := GnoiHealthzAllRPC |}.
Definition gnoihealthzArtifact : RPC :=
  {| Service := "gnoi.healthz.Healthz"; Name := "Artifact"; FQN := "gnoi.healthz.Healthz.Artifact"; Path := "/gnoi.healthz.Healthz/Artifact"; Exec := GnoiHealthzArtifact |}.
Definition gnoihealthzCheck : RPC :=
  {| Service := "gnoi.healthz.Healthz"; Name := "Check"; FQN := "gnoi.healthz.Healthz.Check"; Path := "/gnoi.healthz.Healthz/Check"; Exec := GnoiHealthzCheck |}.
Definition gnoihealthzList : RPC :=
  {| Service := "gnoi.healthz.Healthz"; Name := "List"; FQN := "gnoi.healthz.Healthz.List"; Path := "/gnoi.healthz.Healthz/List"; Exec := GnoiHealthzList |}.
Definition gnoihealthzGet : RPC :=
  {| Service := "gnoi.healthz.Healthz"; Name := "Get"; FQN := "gnoi.healthz.Healthz.Get"; Path := "/gnoi.healthz.Healthz/Get"; Exec := GnoiHealthzGet |}.
Definition gnoilayer2ALL : RPC :=
  {| Service := "gnoi.layer2.Layer2"; Name := "*"; FQN := "gnoi.layer2.Layer2.*"; Path := "/gnoi.layer2.Layer2/*"; Exec := GnoiLayer2AllRPC |}.
Definition gnoilayer2ClearLLDPInterface : RPC :=
  {| Service := "gnoi.layer2.Layer2"; Name := "ClearLLDPInterface"; FQN := "gnoi.layer2.Layer2.ClearLLDPInterface"; Path := "/gnoi.layer2.Layer2/ClearLLDPInterface"; Exec := GnoiLayer2ClearLLDPInterface |}.
Definition gnoilayer2ClearSpanningTree : RPC :=
  {| Service := "gnoi.layer2.Layer2"; Name := "ClearSpanningTree"; FQN := "gnoi.layer2.Layer2.ClearSpanningTree"; Path := "/gnoi.layer2.Layer2/ClearSpanningTree"; Exec := GnoiLayer2ClearSpanningTree |}.
Definition gnoilayer2PerformBERT : RPC :=
  {| Service := "gnoi.layer2.Layer2"; Name := "PerformBERT"; FQN := "gnoi.layer2.Layer2.PerformBERT"; Path := "/gnoi.layer2.Layer2/PerformBERT"; Exec := GnoiLayer2PerformBERT |}.
Definition gnoilayer2SendWakeOnLAN : RPC :=
  {| Service := "gnoi.layer2.Layer2"; Name := "SendWakeOnLAN"; FQN := "gnoi.layer2.Layer2.SendWakeOnLAN"; Path := "/gnoi.layer2.Layer2/SendWakeOnLAN"; Exec := GnoiLayer2SendWakeOnLAN |}.
Definition gnoilayer2ClearNeighborDiscovery : RPC :=
  {| Service := "gnoi.layer2.Layer2"; Name := "ClearNeighborDiscovery"; FQN := "gnoi.layer2.Layer2.ClearNeighborDiscovery"; Path := "/gnoi.layer2.Layer2/ClearNeighborDiscovery"; Exec := GnoiLayer2ClearNeighborDiscovery |}.
Definition gnoipacket_link_qualificationLinkQualificationCreate : RPC :=
  {| Service := "gnoi.packet_link_qualification.LinkQualification"; Name := "Create"; FQN := "gnoi.packet_link_qualification.LinkQualification.Create"; Path := "/gnoi.packet_link_qualification.LinkQualification/Create"; Exec := GnoiLinkqualificationCreate |}.
Definition gnoimplsALL : RPC :=
  {| Service := "gnoi.mpls.MPLS"; Name := "*"; FQN := "gnoi.mpls.MPLS.*"; Path := "/gnoi.mpls.MPLS/*"; Exec := GnoiMplsAllRPC |}.
Definition gnoimplsClearLSPCounters : RPC :=
  {| Service := "gnoi.mpls.MPLS"; Name := "ClearLSPCounters"; FQN := "gnoi.mpls.MPLS.ClearLSPCounters"; Path := "/gnoi.mpls.MPLS/ClearLSPCounters"; Exec := GnoiMplsClearLSPCounters |}.
Definition gnoimplsMPLSPing : RPC :=
  {| Service := "gnoi.mpls.MPLS"; Name := "MPLSPing"; FQN := "gnoi.mpls.MPLS.MPLSPing"; Path := "/gnoi.mpls.MPLS/MPLSPing"; Exec := GnoiMplsMPLSPing |}.
Definition gnoimplsClearLSP : RPC :=
  {| Service := "gnoi.mpls.MPLS"; Name := "ClearLSP"; FQN := "gnoi.mpls.MPLS.ClearLSP"; Path := "/gnoi.mpls.MPLS/ClearLSP"; Exec := GnoiMplsClearLSP |}.
Definition gnoiopticalOTDRALL : RPC :=
  {| Service := "gnoi.optical.OTDR"; Name := "*"; FQN := "gnoi.optical.OTDR.*"; Path := "/gnoi.optical.OTDR/*"; Exec := GnoiOtdrAllRPC |}.
Definition gnoiopticalWavelengthRouterAdjustSpectrum : RPC :=
  {| Service := "gnoi.optical.WavelengthRouter"; Name := "AdjustSpectrum"; FQN := "gnoi.optical.WavelengthRouter.AdjustSpectrum"; Path := "/gnoi.optical.WavelengthRouter/AdjustSpectrum"; Exec := GnoiWavelengthrouterAdjustSpectrum |}.
Definition gnoiopticalWavelengthRouterALL : RPC :=
  {| Service := "gnoi.optical.WavelengthRouter"; Name := "*"; FQN := "gnoi.optical.WavelengthRouter.*"; Path := "/gnoi.optical.WavelengthRouter/*"; Exec := GnoiWavelengthrouterAllRPC |}.
Definition gnoiopticalWavelengthRouterCancelAdjustPSD : RPC :=
  {| Service := "gnoi.optical.WavelengthRouter"; Name := "CancelAdjustPSD"; FQN := "gnoi.optical.WavelengthRouter.CancelAdjustPSD"; Path := "/gnoi.optical.WavelengthRouter/CancelAdjustPSD"; Exec := GnoiWavelengthrouterCancelAdjustPSD |}.
Definition gnoiopticalWavelengthRouterCancelAdjustSpectrum : RPC :=
  {| Service := "gnoi.optical.WavelengthRouter"; Name := "CancelAdjustSpectrum"; FQN := "gnoi.optical.WavelengthRouter.CancelAdjustSpectrum"; Path := "/gnoi.optical.WavelengthRouter/CancelAdjustSpectrum"; Exec := GnoiWavelengthrouterCancelAdjustSpectrum |}.
Definition gnoiosActivate : RPC :=
  {| Service := "gnoi.os.OS"; Name := "Activate"; FQN := "gnoi.os.OS.Activate"; Path := "/gnoi.os.OS/Activate"; Exec := GnoiOsActivate |}.
Definition gnoiosALL : RPC :=
  {| Service := "gnoi.os.OS"; Name := "*"; FQN := "gnoi.os.OS.*"; Path := "/gnoi.os.OS/*"; Exec := GnoiOsAllRPC |}.
Definition gnoiosVerify : RPC :=
  {| Service := "gnoi.os.OS"; Name := "Verify"; FQN := "gnoi.os.OS.Verify"; Path := "/gnoi.os.OS/Verify"; Exec := GnoiOsVerify |}.
Definition gnoiosInstall : RPC :=
  {| Service := "gnoi.os.OS"; Name := "Install"; FQN := "gnoi.os.OS.Install"; Path := "/gnoi.os.OS/Install"; Exec := GnoiOsInstall |}.
Definition gnoiopticalOTDRInitiate : RPC :=
  {| Service := "gnoi.optical.OTDR"; Name := "Initiate"; FQN := "gnoi.optical.OTDR.Initiate"; Path := "/gnoi.optical.OTDR/Initiate"; Exec := GnoiOtdrInitiate |}.
Definition gnoipacket_link_qualificationLinkQualificationALL : RPC :=
  {| Service := "gnoi.packet_link_qualification.LinkQualification"; Name := ""; FQN := "gnoi.packet_link_qualification.LinkQualification.*"; Path := "/gnoi.packet_link_qualification.LinkQualification/*"; Exec := GnoiLinkqualificationAllRPC |}.
Definition gnoipacket_link_qualificationLinkQualificationCapabilities : RPC :=
  {| Service := "gnoi.packet_link_qualification.LinkQualification"; Name := "Capabilities"; FQN := "gnoi.packet_link_qualification.LinkQualification.Capabilities"; Path := "/gnoi.packet_link_qualification.LinkQualification/Capabilities"; Exec := GnoiLinkqualificationCapabilities |}.
Definition gnoipacket_link_qualificationLinkQualificationDelete : RPC :=
  {| Service := "gnoi.packet_link_qualification.LinkQualification"; Name := "Delete"; FQN := "gnoi.packet_link_qualification.LinkQualification.Delete"; Path := "/gnoi.packet_link_qualification.LinkQualification/Delete"; Exec := GnoiLinkqualificationDelete |}.
Definition gnoipacket_link_qualificationLinkQualificationGet : RPC :=
  {| Service := "gnoi.packet_link_qualification.LinkQualification"; Name := "Get"; FQN := "gnoi.packet_link_qualification.LinkQualification.Get"; Path := "/gnoi.packet_link_qualification.LinkQualification/Get"; Exec := GnoiLinkqualificationGet |}.
Definition gnoipacket_link_qualificationLinkQualificationList : RPC :=
  {| Service := "gnoi.packet_link_qualification.LinkQualification"; Name := "List"; FQN := "gnoi.packet_link_qualification.LinkQualification.List"; Path := "/gnoi.packet_link_qualification.LinkQualification/List"; Exec := GnoiLinkqualificationList |}.
Definition gnoisystemALL : RPC :=
  {| Service := "gnoi.system.System"; Name := "*"; FQN := "gnoi.system.System.*"; Path := "/gnoi.system.System/*"; Exec := GnoiSystemAllRPC |}.
Definition gnoisystemCancelReboot : RPC :=
  {| Service := "gnoi.system.System"; Name := "CancelReboot"; FQN := "gnoi.system.System.CancelReboot"; Path := "/gnoi.system.System/CancelReboot"; Exec := GnoiSystemCancelReboot |}.
Definition gnoisystemKillProcess : RPC :=
  {| Service := "gnoi.system.System"; Name := "KillProcess"; FQN := "gnoi.system.System.KillProcess"; Path := "/gnoi.system.System/KillProcess"; Exec := GnoiSystemKillProcess |}.
Definition gnoisystemReboot : RPC :=
  {| Service := "gnoi.system.System"; Name := "Reboot"; FQN := "gnoi.system.System.Reboot"; Path := "/gnoi.system.System/Reboot"; Exec := GnoiSystemReboot |}.
Definition gnoisystemRebootStatus : RPC :=
  {| Service := "gnoi.system.System"; Name := "RebootStatus"; FQN := "gnoi.system.System.RebootStatus"; Path := "/gnoi.system.System/RebootStatus"; Exec := GnoiSystemRebootStatus |}.
Definition gnoisystemSetPackage : RPC :=
  {| Service := "gnoi.system.System"; Name := "SetPackage"; FQN := "gnoi.system.System.SetPackage"; Path := "/gnoi.system.System/SetPackage"; Exec := GnoiSystemSetPackage |}.
Definition gnoisystemSwitchControlProcessor : RPC :=
  {| Service := "gnoi.system.System"; Name := "SwitchControlProcessor"; FQN := "gnoi.system.System.SwitchControlProcessor"; Path := "/gnoi.system.System/SwitchControlProcessor"; Exec := GnoiSystemSwitchControlProcessor |}.
Definition gnoisystemTime : RPC :=
  {| Service := "gnoi.system.System"; Name := "Time"; FQN := "gnoi.system.System.Time"; Path := "/gnoi.system.System/Time"; Exec := GnoiSystemTime |}.
Definition gnoisystemTraceroute : RPC :=
  {| Service := "gnoi.system.System"; Name := "Traceroute"; FQN := "gnoi.system.System.Traceroute"; Path := "/gnoi.system.System/Traceroute"; Exec := GnoiSystemTraceroute |}.
Definition gnoisystemPing : RPC :=
  {| Service := "gnoi.system.System"; Name := "Ping"; FQN := "gnoi.system.System.Ping"; Path := "/gnoi.system.System/Ping"; Exec := GnoiSystemPing |}.
Definition gnoiopticalWavelengthRouterAdjustPSD : RPC :=
  {| Service := "gnoi.optical.WavelengthRouter"; Name := "AdjustPSD"; FQN := "gnoi.optical.WavelengthRouter.AdjustPSD"; Path := "/gnoi.optical.WavelengthRouter/AdjustPSD"; Exec := GnoiWavelengthrouterAdjustPSD |}.
Definition gnsiacctzv1AcctzALL : RPC :=
  {| Service := "gnsi.acctz.v1.Acctz"; Name := "*"; FQN := "gnsi.acctz.v1.Acctz.*"; Path := "/gnsi.acctz.v1.Acctz/*"; Exec := GnsiAcctzAllRPC |}.
Definition gnsiacctzv1AcctzRecordSubscribe : RPC :=
  {| Service := "gnsi.acctz.v1.Acctz"; Name := "RecordSubscribe"; FQN := "gnsi.acctz.v1.Acctz.RecordSubscribe"; Path := "/gnsi.acctz.v1.Acctz/RecordSubscribe"; Exec := GnsiAcctzRecordSubscribe |}.
Definition gnsiauthzv1AuthzALL : RPC :=
  {| Service := "gnsi.authz.v1.Authz"; Name := "*"; FQN := "gnsi.authz.v1.Authz.*"; Path := "/gnsi.authz.v1.Authz/*"; Exec := GnsiAuthzAllRPC |}.
Definition gnsiauthzv1AuthzGet : RPC :=
  {| Service := "gnsi.authz.v1.Authz"; Name := "Get"; FQN := "gnsi.authz.v1.Authz.Get"; Path := "/gnsi.authz.v1.Authz/Get"; Exec := GnsiAuthzGet |}.
Definition gnsiauthzv1AuthzProbe : RPC :=
  {| Service := "gnsi.authz.v1.Authz"; Name := "Probe"; FQN := "gnsi.authz.v1.Authz.Probe"; Path := "/gnsi.authz.v1.Authz/Probe"; Exec := GnsiAuthzProbe |}.
Definition gnsiauthzv1AuthzRotate : RPC :=
  {| Service := "gnsi.authz.v1.Authz"; Name := "Rotate"; FQN := "gnsi.authz.v1.Authz.Rotate"; Path := "/gnsi.authz.v1.Authz/Rotate"; Exec := GnsiAuthzRotate |}.
Definition gnsicertzv1CertzAddProfile : RPC :=
  {| Service := "gnsi.certz.v1.Certz"; Name := "AddProfile"; FQN := "gnsi.certz.v1.Certz.AddProfile"; Path := "/gnsi.certz.v1.Certz/AddProfile"; Exec := GnsiCertzAddProfile |}.
Definition gnsicertzv1CertzALL : RPC :=
  {| Service := "gnsi.certz.v1.Certz"; Name := "*"; FQN := "gnsi.certz.v1.Certz.*"; Path := "/gnsi.certz.v1.Certz/*"; Exec := GnsiCertzAllRPC |}.
Definition gnsicertzv1CertzCanGenerateCSR : RPC :=
  {| Service := "gnsi.certz.v1.Certz"; Name := "CanGenerateCSR"; FQN := "gnsi.certz.v1.Certz.CanGenerateCSR"; Path := "/gnsi.certz.v1.Certz/CanGenerateCSR"; Exec := GnsiCertzCanGenerateCSR |}.
Definition gnsicertzv1CertzDeleteProfile : RPC :=
  {| Service := "gnsi.certz.v1.Certz"; Name := "DeleteProfile"; FQN := "gnsi.certz.v1.Certz.DeleteProfile"; Path := "/gnsi.certz.v1.Certz/DeleteProfile"; Exec := GnsiCertzDeleteProfile |}.
Definition gnsicertzv1CertzGetProfileList : RPC :=
  {| Service := "gnsi.certz.v1.Certz"; Name := "GetProfileList"; FQN := "gnsi.certz.v1.Certz.GetProfileList"; Path := "/gnsi.certz.v1.Certz/GetProfileList"; Exec := GnsiCertzGetProfileList |}.
Definition gnsicertzv1CertzRotate : RPC :=
  {| Service := "gnsi.certz.v1.Certz"; Name := "Rotate"; FQN := "gnsi.certz.v1.Certz.Rotate"; Path := "/gnsi.certz.v1.Certz/Rotate"; Exec := GnsiCertzRotate |}.
Definition gnsicredentialzv1CredentialzALL : RPC :=
  {| Service := "gnsi.credentialz.v1.Credentialz"; Name := "*"; FQN := "gnsi.credentialz.v1.Credentialz.*"; Path := "/gnsi.credentialz.v1.Credentialz/*"; Exec := GnsiCredentialzAllRPC |}.
Definition gnsicredentialzv1CredentialzCanGenerateKey : RPC :=
  {| Service := "gnsi.credentialz.v1.Credentialz"; Name := "CanGenerateKey"; FQN := "gnsi.credentialz.v1.Credentialz.CanGenerateKey"; Path := "/gnsi.credentialz.v1.Credentialz/CanGenerateKey"; Exec := GnsiCredentialzCanGenerateKey |}.
Definition gnsicredentialzv1CredentialzGetPublicKeys : RPC :=
  {| Service := "gnsi.credentialz.v1.Credentialz"; Name := "GetPublicKeys"; FQN := "gnsi.credentialz.v1.Credentialz.GetPublicKeys"; Path := "/gnsi.credentialz.v1.Credentialz/GetPublicKeys"; Exec := GnsiCredentialzGetPublicKeys |}.
Definition gnsicredentialzv1CredentialzRotateHostParameters : RPC :=
  {| Service := "gnsi.credentialz.v1.Credentialz"; Name := "RotateHostParameters"; FQN := "gnsi.credentialz.v1.Credentialz.RotateHostParameters"; Path := "/gnsi.credentialz.v1.Credentialz/RotateHostParameters"; Exec := GnsiCredentialzRotateHostParameters |}.
Definition gnsicredentialzv1CredentialzRotateAccountCredentials : RPC :=
  {| Service := "gnsi.credentialz.v1.Credentialz"; Name := "RotateAccountCredentials"; FQN := "gnsi.credentialz.v1.Credentialz.RotateAccountCredentials"; Path := "/gnsi.credentialz.v1.Credentialz/RotateAccountCredentials"; Exec := GnsiCredentialzRotateAccountCredentials |}.
Definition gnsipathzv1PathzALL : RPC :=
  {| Service := "gnsi.pathz.v1.Pathz"; Name := "*"; FQN := "gnsi.pathz.v1.Pathz.*"; Path := "/gnsi.pathz.v1.Pathz/*"; Exec := GnsiPathzAllRPC |}.
Definition gnsipathzv1PathzGet : RPC :=
  {| Service := "gnsi.pathz.v1.Pathz"; Name := "Get"; FQN := "gnsi.pathz.v1.Pathz.Get"; Path := "/gnsi.pathz.v1.Pathz/Get"; Exec := GnsiPathzGet |}.
Definition gnsipathzv1PathzProbe : RPC :=
  {| Service := "gnsi.pathz.v1.Pathz"; Name := "Probe"; FQN := "gnsi.pathz.v1.Pathz.Probe"; Path := "/gnsi.pathz.v1.Pathz/Probe"; Exec := GnsiPathzProbe |}.
Definition gnsipathzv1PathzRotate : RPC :=
  {| Service := "gnsi.pathz.v1.Pathz"; Name := "Rotate"; FQN := "gnsi.pathz.v1.Pathz.Rotate"; Path := "/gnsi.pathz.v1.Pathz/Rotate"; Exec := GnsiPathzRotate |}.
Definition gribiALL : RPC :=
  {| Service := "gribi.gRIBI"; Name := "*"; FQN := "gribi.gRIBI.*"; Path := "/gribi.gRIBI/*"; Exec := GribiAllRPC |}.
Definition gribiFlush : RPC :=
  {| Service := "gribi.gRIBI"; Name := "Flush"; FQN := "gribi.gRIBI.Flush"; Path := "/gribi.gRIBI/Flush"; Exec := GribiFlush |}.
Definition gribiGet : RPC :=
  {| Service := "gribi.gRIBI"; Name := "Get"; FQN := "gribi.gRIBI.Get"; Path := "/gribi.gRIBI/Get"; Exec := GribiGet |}.
Definition gribiModify : RPC :=
  {| Service := "gribi.gRIBI"; Name := "Modify"; FQN := "gribi.gRIBI.Modify"; Path := "/gribi.gRIBI/Modify"; Exec := GribiModify |}.
Definition p4v1P4RuntimeALL : RPC :=
  {| Service := "p4.v1.P4Runtime"; Name := "*"; FQN := "p4.v1.P4Runtime.*"; Path := "/p4.v1.P4Runtime/*"; Exec := P4P4runtimeAllRPC |}.
Definition p4v1P4RuntimeCapabilities : RPC :=
  {| Service := "p4.v1.P4Runtime"; Name := "Capabilities"; FQN := "p4.v1.P4Runtime.Capabilities"; Path := "/p4.v1.P4Runtime/Capabilities"; Exec := P4P4runtimeCapabilities |}.
Definition p4v1P4RuntimeGetForwardingPipelineConfig : RPC :=
  {| Service := "p4.v1.P4Runtime"; Name := "GetForwardingPipelineConfig"; FQN := "p4.v1.P4Runtime.GetForwardingPipelineConfig"; Path := "/p4.v1.P4Runtime/GetForwardingPipelineConfig"; Exec := P4P4runtimeGetForwardingPipelineConfig |}.
Definition p4v1P4RuntimeRead : RPC :=
  {| Service := "p4.v1.P4Runtime"; Name := "Read"; FQN := "p4.v1.P4Runtime.Read"; Path := "/p4.v1.P4Runtime/Read"; Exec := P4P4runtimeRead |}.
Definition p4v1P4RuntimeSetForwardingPipelineConfig : RPC :=
  {| Service := "p4.v1.P4Runtime"; Name := "SetForwardingPipelineConfig"; FQN := "p4.v1.P4Runtime.SetForwardingPipelineConfig"; Path := "/p4.v1.P4Runtime/SetForwardingPipelineConfig"; Exec := P4P4runtimeSetForwardingPipelineConfig |}.
Definition p4v1P4RuntimeStreamChannel : RPC :=
  {| Service := "p4.v1.P4Runtime"; Name := "StreamChannel"; FQN := "p4.v1.P4Runtime.StreamChannel"; Path := "/p4.v1.P4Runtime/StreamChannel"; Exec := P4P4runtimeStreamChannel |}.
Definition p4v1P4RuntimeWrite : RPC :=
  {| Service := "p4.v1.P4Runtime"; Name := "Write"; FQN := "p4.v1.P4Runtime.Write"; Path := "/p4.v1.P4Runtime/Write"; Exec := P4P4runtimeWrite |}.

(** The fields of the struct [RPCs]. *)
Definition RPCs : list (string * RPC) := [
  ("AllRPC", ALL);
  ("GnmiAllRPC", gnmiALL);
  ("GnmiGet", gnmiGet);
  ("GnmiSet", gnmiSet);
  ("GnmiSubscribe", gnmiSubscribe);
  ("GnmiCapabilities", gnmiCapabilities);
  ("GnoiBgpAllRPC", gnoibgpALL);
  ("GnoiBgpClearBGPNeighbor", gnoibgpClearBGPNeighbor);
  ("GnoiDiagAllRPC", gnoidiagALL);
  ("GnoiDiagGetBERTResult", gnoidiagGetBERTResult);
  ("GnoiDiagStopBERT", gnoidiagStopBERT);
  ("GnoiDiagStartBERT", gnoidiagStartBERT);
  ("GnoiFactoryresetAllRPC", gnoifactory_resetFactoryResetALL);
  ("GnoiFactoryresetStart", gnoifactory_resetFactoryResetStart);
  ("GnoiFileAllRPC", gnoifileALL);
  ("GnoiFilePut", gnoifilePut);
  ("GnoiFileRemove", gnoifileRemove);
  ("GnoiFileStat", gnoifileStat);
  ("GnoiFileTransferToRemote", gnoifileTransferToRemote);
  ("GnoiFileGet", gnoifileGet);
  ("GnoiHealthzAcknowledge", gnoihealthzAcknowledge);
  ("GnoiHealthzAllRPC", gnoihealthzALL);
  ("GnoiHealthzArtifact", gnoihealthzArtifact);
  ("GnoiHealthzCheck", gnoihealthzCheck);
  ("GnoiHealthzList", gnoihealthzList);
  ("GnoiHealthzGet", gnoihealthzGet);
  ("GnoiLayer2AllRPC", gnoilayer2ALL);
  ("GnoiLayer2ClearLLDPInterface", gnoilayer2ClearLLDPInterface);
  ("GnoiLayer2ClearSpanningTree", gnoilayer2ClearSpanningTree);
  ("GnoiLayer2PerformBERT", gnoilayer2PerformBERT);
  ("GnoiLayer2SendWakeOnLAN", gnoilayer2SendWakeOnLAN);
  ("GnoiLayer2ClearNeighborDiscovery", gnoilayer2ClearNeighborDiscovery);
  ("GnoiLinkqualificationCreate", gnoipacket_link_qualificationLinkQualificationCreate);
  ("GnoiMplsAllRPC", gnoimplsALL);
  ("GnoiMplsClearLSPCounters", gnoimplsClearLSPCounters);
  ("GnoiMplsMPLSPing", gnoimplsMPLSPing);
  ("GnoiMplsClearLSP", gnoimplsClearLSP);
  ("GnoiOtdrAllRPC", gnoiopticalOTDRALL);
  ("GnoiWavelengthrouterAdjustSpectrum", gnoiopticalWavelengthRouterAdjustSpectrum);
  ("GnoiWavelengthrouterAllRPC", gnoiopticalWavelengthRouterALL);
  ("GnoiWavelengthrouterCancelAdjustPSD", gnoiopticalWavelengthRouterCancelAdjustPSD);
  ("GnoiWavelengthrouterCancelAdjustSpectrum", gnoiopticalWavelengthRouterCancelAdjustSpectrum);
  ("GnoiOsActivate", gnoiosActivate);
  ("GnoiOsAllRPC", gnoiosALL);
  ("GnoiOsVerify", gnoiosVerify);
  ("GnoiOsInstall", gnoiosInstall);
  ("GnoiOtdrInitiate", gnoiopticalOTDRInitiate);
  ("GnoiLinkqualificationAllRPC", gnoipacket_link_qualificationLinkQualificationALL);
  ("GnoiLinkqualificationCapabilities", gnoipacket_link_qualificationLinkQualificationCapabilities);
  ("GnoiLinkqualificationDelete", gnoipacket_link_qualificationLinkQualificationDelete);
  ("GnoiLinkqualificationGet", gnoipacket_link_qualificationLinkQualificationGet);
  ("GnoiLinkqualificationList", gnoipacket_link_qualificationLinkQualificationList);
  ("GnoiSystemAllRPC", gnoisystemALL);
  ("GnoiSystemCancelReboot", gnoisystemCancelReboot);
  ("GnoiSystemKillProcess", gnoisystemKillProcess);
  ("GnoiSystemReboot", gnoisystemReboot);
  ("GnoiSystemRebootStatus", gnoisystemRebootStatus);
  ("GnoiSystemSetPackage", gnoisystemSetPackage);
  ("GnoiSystemSwitchControlProcessor", gnoisystemSwitchControlProcessor);
  ("GnoiSystemTime", gnoisystemTime);
  ("GnoiSystemTraceroute", gnoisystemTraceroute);
  ("GnoiSystemPing", gnoisystemPing);
  ("GnoiWavelengthrouterAdjustPSD", gnoiopticalWavelengthRouterAdjustPSD);
  ("GnsiAcctzAllRPC", gnsiacctzv1AcctzALL);
  ("GnsiAcctzRecordSubscribe", gnsiacctzv1AcctzRecordSubscribe);
  ("GnsiAuthzAllRPC", gnsiauthzv1AuthzALL);
  ("GnsiAuthzGet", gnsiauthzv1AuthzGet);
  ("GnsiAuthzProbe", gnsiauthzv1AuthzProbe);
  ("GnsiAuthzRotate", gnsiauthzv1AuthzRotate);
  ("GnsiCertzAddProfile", gnsicertzv1CertzAddProfile);
  ("GnsiCertzAllRPC", gnsicertzv1CertzALL);
  ("GnsiCertzCanGenerateCSR", gnsicertzv1CertzCanGenerateCSR);
  ("GnsiCertzDeleteProfile", gnsicertzv1CertzDeleteProfile);
  ("GnsiCertzGetProfileList", gnsicertzv1CertzGetProfileList);
  ("GnsiCertzRotate", gnsicertzv1CertzRotate);
  ("GnsiCredentialzAllRPC", gnsicredentialzv1CredentialzALL);
  ("GnsiCredentialzCanGenerateKey", gnsicredentialzv1CredentialzCanGenerateKey);
  ("GnsiCredentialzGetPublicKeys", gnsicredentialzv1CredentialzGetPublicKeys);
  ("GnsiCredentialzRotateHostParameters", gnsicredentialzv1CredentialzRotateHostParameters);
  ("GnsiCredentialzRotateAccountCredentials", gnsicredentialzv1CredentialzRotateAccountCredentials);
  ("GnsiPathzAllRPC", gnsipathzv1PathzALL);
  ("GnsiPathzGet", gnsipathzv1PathzGet);
  ("GnsiPathzProbe", gnsipathzv1PathzProbe);
  ("GnsiPathzRotate", gnsipathzv1PathzRotate);
  ("GribiAllRPC", gribiALL);
  ("GribiFlush", gribiFlush);
  ("GribiGet", gribiGet);
  ("GribiModify", gribiModify);
  ("P4P4runtimeAllRPC", p4v1P4RuntimeALL);
  ("P4P4runtimeCapabilities", p4v1P4RuntimeCapabilities);
  ("P4P4runtimeGetForwardingPipelineConfig", p4v1P4RuntimeGetForwardingPipelineConfig);
  ("P4P4runtimeRead", p4v1P4RuntimeRead);
  ("P4P4runtimeSetForwardingPipelineConfig", p4v1P4RuntimeSetForwardingPipelineConfig);
  ("P4P4runtimeStreamChannel", p4v1P4RuntimeStreamChannel);
  ("P4P4runtimeWrite", p4v1P4RuntimeWrite)].

Definition RPCMAP : list (string * RPC) := [
  ("*", ALL);
  ("/gnmi.gNMI/*", gnmiALL);
  ("/gnmi.gNMI/Get", gnmiGet);
  ("/gnmi.gNMI/Set", gnmiSet);
  ("/gnmi.gNMI/Subscribe", gnmiSubscribe);
  ("/gnmi.gNMI/Capabilities", gnmiCapabilities);
  ("/gnoi.bgp.BGP/*", gnoibgpALL);
  ("/gnoi.bgp.BGP/ClearBGPNeighbor", gnoibgpClearBGPNeighbor);
  ("/gnoi.diag.Diag/*", gnoidiagALL);
  ("/gnoi.diag.Diag/GetBERTResult", gnoidiagGetBERTResult);
  ("/gnoi.diag.Diag/StopBERT", gnoidiagStopBERT);
  ("/gnoi.diag.Diag/StartBERT", gnoidiagStartBERT);
  ("/gnoi.factory_reset.FactoryReset/*", gnoifactory_resetFactoryResetALL);
  ("/gnoi.factory_reset.FactoryReset/Start", gnoifactory_resetFactoryResetStart);
  ("/gnoi.file.File/*", gnoifileALL);
  ("/gnoi.file.File/Put", gnoifilePut);
  ("/gnoi.file.File/Remove", gnoifileRemove);
  ("/gnoi.file.File/Stat", gnoifileStat);
  ("/gnoi.file.File/TransferToRemote", gnoifileTransferToRemote);
  ("/gnoi.file.File/Get", gnoifileGet);
  ("/gnoi.healthz.Healthz/Acknowledge", gnoihealthzAcknowledge);
  ("/gnoi.healthz.Healthz/*", gnoihealthzALL);
  ("/gnoi.healthz.Healthz/Artifact", gnoihealthzArtifact);
  ("/gnoi.healthz.Healthz/Check", gnoihealthzCheck);
  ("/gnoi.healthz.Healthz/List", gnoihealthzList);
  ("/gnoi.healthz.Healthz/Get", gnoihealthzGet);
  ("/gnoi.layer2.Layer2/*", gnoilayer2ALL);
  ("/gnoi.layer2.Layer2/ClearLLDPInterface", gnoilayer2ClearLLDPInterface);
  ("/gnoi.layer2.Layer2/ClearSpanningTree", gnoilayer2ClearSpanningTree);
  ("/gnoi.layer2.Layer2/PerformBERT", gnoilayer2PerformBERT);
  ("/gnoi.layer2.Layer2/SendWakeOnLAN", gnoilayer2SendWakeOnLAN);
  ("/gnoi.layer2.Layer2/ClearNeighborDiscovery", gnoilayer2ClearNeighborDiscovery);
  ("/gnoi.packet_link_qualification.LinkQualification/Create", gnoipacket_link_qualificationLinkQualificationCreate);
  ("/gnoi.mpls.MPLS/*", gnoimplsALL);
  ("/gnoi.mpls.MPLS/ClearLSPCounters", gnoimplsClearLSPCounters);
  ("/gnoi.mpls.MPLS/MPLSPing", gnoimplsMPLSPing);
  ("/gnoi.mpls.MPLS/ClearLSP", gnoimplsClearLSP);
  ("/gnoi.optical.OTDR/*", gnoiopticalOTDRALL);
  ("/gnoi.optical.WavelengthRouter/AdjustSpectrum", gnoiopticalWavelengthRouterAdjustSpectrum);
  ("/gnoi.optical.WavelengthRouter/*", gnoiopticalWavelengthRouterALL);
  ("/gnoi.optical.WavelengthRouter/CancelAdjustPSD", gnoiopticalWavelengthRouterCancelAdjustPSD);
  ("/gnoi.optical.WavelengthRouter/CancelAdjustSpectrum", gnoiopticalWavelengthRouterCancelAdjustSpectrum);
  ("/gnoi.os.OS/Activate", gnoiosActivate);
  ("/gnoi.os.OS/*", gnoiosALL);
  ("/gnoi.os.OS/Verify", gnoiosVerify);
  ("/gnoi.os.OS/Install", gnoiosInstall);
  ("/gnoi.optical.OTDR/Initiate", gnoiopticalOTDRInitiate);
  ("/gnoi.packet_link_qualification.LinkQualification/*", gnoipacket_link_qualificationLinkQualificationALL);
  ("/gnoi.packet_link_qualification.LinkQualification/Capabilities", gnoipacket_link_qualificationLinkQualificationCapabilities);
  ("/gnoi.packet_link_qualification.LinkQualification/Delete", gnoipacket_link_qualificationLinkQualificationDelete);
  ("/gnoi.packet_link_qualification.LinkQualification/Get", gnoipacket_link_qualificationLinkQualificationGet);
  ("/gnoi.packet_link_qualification.LinkQualification/List", gnoipacket_link_qualificationLinkQualificationList);
  ("/gnoi.system.System/*", gnoisystemALL);
  ("/gnoi.system.System/CancelReboot", gnoisystemCancelReboot);
  ("/gnoi.system.System/KillProcess", gnoisystemKillProcess);
  ("/gnoi.system.System/Reboot", gnoisystemReboot);
  ("/gnoi.system.System/RebootStatus", gnoisystemRebootStatus);
  ("/gnoi.system.System/SetPackage", gnoisystemSetPackage);
  ("/gnoi.system.System/SwitchControlProcessor", gnoisystemSwitchControlProcessor);
  ("/gnoi.system.System/Time", gnoisystemTime);
  ("/gnoi.system.System/Traceroute", gnoisystemTraceroute);
  ("/gnoi.system.System/Ping", gnoisystemPing);
  ("/gnoi.optical.WavelengthRouter/AdjustPSD", gnoiopticalWavelengthRouterAdjustPSD);
  ("/gnsi.acctz.v1.Acctz/*", gnsiacctzv1AcctzALL);
  ("/gnsi.acctz.v1.Acctz/RecordSubscribe", gnsiacctzv1AcctzRecordSubscribe);
  ("/gnsi.authz.v1.Authz/*", gnsiauthzv1AuthzALL);
  ("/gnsi.authz.v1.Authz/Get", gnsiauthzv1AuthzGet);
  ("/gnsi.authz.v1.Authz/Probe", gnsiauthzv1AuthzProbe);
  ("/gnsi.authz.v1.Authz/Rotate", gnsiauthzv1AuthzRotate);
  ("/gnsi.certz.v1.Certz/AddProfile", gnsicertzv1CertzAddProfile);
  ("/gnsi.certz.v1.Certz/*", gnsicertzv1CertzALL);
  ("/gnsi.certz.v1.Certz/CanGenerateCSR", gnsicertzv1CertzCanGenerateCSR);
  ("/gnsi.certz.v1.Certz/DeleteProfile", gnsicertzv1CertzDeleteProfile);
  ("/gnsi.certz.v1.Certz/GetProfileList", gnsicertzv1CertzGetProfileList);
  ("/gnsi.certz.v1.Certz/Rotate", gnsicertzv1CertzRotate);
  ("/gnsi.credentialz.v1.Credentialz/*", gnsicredentialzv1CredentialzALL);
  ("/gnsi.credentialz.v1.Credentialz/CanGenerateKey", gnsicredentialzv1CredentialzCanGenerateKey);
  ("/gnsi.credentialz.v1.Credentialz/GetPublicKeys", gnsicredentialzv1CredentialzGetPublicKeys);
  ("/gnsi.credentialz.v1.Credentialz/RotateHostParameters", gnsicredentialzv1CredentialzRotateHostParameters);
  ("/gnsi.credentialz.v1.Credentialz/RotateAccountCredentials", gnsicredentialzv1CredentialzRotateAccountCredentials);
  ("/gnsi.pathz.v1.Pathz/*", gnsipathzv1PathzALL);
  ("/gnsi.pathz.v1.Pathz/Get", gnsipathzv1PathzGet);
  ("/gnsi.pathz.v1.Pathz/Probe", gnsipathzv1PathzProbe);
  ("/gnsi.pathz.v1.Pathz/Rotate", gnsipathzv1PathzRotate);
  ("/gribi.gRIBI/*", gribiALL);
  ("/gribi.gRIBI/Flush", gribiFlush);
  ("/gribi.gRIBI/Get", gribiGet);
  ("/gribi.gRIBI/Modify", gribiModify);
  ("/p4.v1.P4Runtime/*", p4v1P4RuntimeALL);
  ("/p4.v1.P4Runtime/Capabilities", p4v1P4RuntimeCapabilities);
  ("/p4.v1.P4Runtime/GetForwardingPipelineConfig", p4v1P4RuntimeGetForwardingPipelineConfig);
  ("/p4.v1.P4Runtime/Read", p4v1P4RuntimeRead);
  ("/p4.v1.P4Runtime/SetForwardingPipelineConfig", p4v1P4RuntimeSetForwardingPipelineConfig);
  ("/p4.v1.P4Runtime/StreamChannel", p4v1P4RuntimeStreamChannel);
  ("/p4.v1.P4Runtime/Write", p4v1P4RuntimeWrite)].

(** The variables of the file with their names and the names of their functions. *)
Definition rpcVars : list (string * RPC * string) := [
  ("ALL", ALL, "AllRPC");
  ("gnmiALL", gnmiALL, "GnmiAllRPC");
  ("gnmiGet", gnmiGet, "GnmiGet");
  ("gnmiSet", gnmiSet, "GnmiSet");
  ("gnmiSubscribe", gnmiSubscribe, "GnmiSubscribe");
  ("gnmiCapabilities", gnmiCapabilities, "GnmiCapabilities");
  ("gnoibgpALL", gnoibgpALL, "GnoiBgpAllRPC");
  ("gnoibgpClearBGPNeighbor", gnoibgpClearBGPNeighbor, "GnoiBgpClearBGPNeighbor");
  ("gnoidiagALL", gnoidiagALL, "GnoiDiagAllRPC");
  ("gnoidiagGetBERTResult", gnoidiagGetBERTResult, "GnoiDiagGetBERTResult");
  ("gnoidiagStopBERT", gnoidiagStopBERT, "GnoiDiagStopBERT");
  ("gnoidiagStartBERT", gnoidiagStartBERT, "GnoiDiagStartBERT");
  ("gnoifactory_resetFactoryResetALL", gnoifactory_resetFactoryResetALL, "GnoiFactoryresetAllRPC");
  ("gnoifactory_resetFactoryResetStart", gnoifactory_resetFactoryResetStart, "GnoiFactoryresetStart");
  ("gnoifileALL", gnoifileALL, "GnoiFileAllRPC");
  ("gnoifilePut", gnoifilePut, "GnoiFilePut");
  ("gnoifileRemove", gnoifileRemove, "GnoiFileRemove");
  ("gnoifileStat", gnoifileStat, "GnoiFileStat");
  ("gnoifileTransferToRemote", gnoifileTransferToRemote, "GnoiFileTransferToRemote");
  ("gnoifileGet", gnoifileGet, "GnoiFileGet");
  ("gnoihealthzAcknowledge", gnoihealthzAcknowledge, "GnoiHealthzAcknowledge");
  ("gnoihealthzALL", gnoihealthzALL, "GnoiHealthzAllRPC");
  ("gnoihealthzArtifact", gnoihealthzArtifact, "GnoiHealthzArtifact");
  ("gnoihealthzCheck", gnoihealthzCheck, "GnoiHealthzCheck");
  ("gnoihealthzList", gnoihealthzList, "GnoiHealthzList");
  ("gnoihealthzGet", gnoihealthzGet, "GnoiHealthzGet");
  ("gnoilayer2ALL", gnoilayer2ALL, "GnoiLayer2AllRPC");
  ("gnoilayer2ClearLLDPInterface", gnoilayer2ClearLLDPInterface, "GnoiLayer2ClearLLDPInterface");
  ("gnoilayer2ClearSpanningTree", gnoilayer2ClearSpanningTree, "GnoiLayer2ClearSpanningTree");
  ("gnoilayer2PerformBERT", gnoilayer2PerformBERT, "GnoiLayer2PerformBERT");
  ("gnoilayer2SendWakeOnLAN", gnoilayer2SendWakeOnLAN, "GnoiLayer2SendWakeOnLAN");
  ("gnoilayer2ClearNeighborDiscovery", gnoilayer2ClearNeighborDiscovery, "GnoiLayer2ClearNeighborDiscovery");
  ("gnoipacket_link_qualificationLinkQualificationCreate", gnoipacket_link_qualificationLinkQualificationCreate, "GnoiLinkqualificationCreate");
  ("gnoimplsALL", gnoimplsALL, "GnoiMplsAllRPC");
  ("gnoimplsClearLSPCounters", gnoimplsClearLSPCounters, "GnoiMplsClearLSPCounters");
  ("gnoimplsMPLSPing", gnoimplsMPLSPing, "GnoiMplsMPLSPing");
  ("gnoimplsClearLSP", gnoimplsClearLSP, "GnoiMplsClearLSP");
  ("gnoiopticalOTDRALL", gnoiopticalOTDRALL, "GnoiOtdrAllRPC");
  ("gnoiopticalWavelengthRouterAdjustSpectrum", gnoiopticalWavelengthRouterAdjustSpectrum, "GnoiWavelengthrouterAdjustSpectrum");
  ("gnoiopticalWavelengthRouterALL", gnoiopticalWavelengthRouterALL, "GnoiWavelengthrouterAllRPC");
  ("gnoiopticalWavelengthRouterCancelAdjustPSD", gnoiopticalWavelengthRouterCancelAdjustPSD, "GnoiWavelengthrouterCancelAdjustPSD");
  ("gnoiopticalWavelengthRouterCancelAdjustSpectrum", gnoiopticalWavelengthRouterCancelAdjustSpectrum, "GnoiWavelengthrouterCancelAdjustSpectrum");
  ("gnoiosActivate", gnoiosActivate, "GnoiOsActivate");
  ("gnoiosALL", gnoiosALL, "GnoiOsAllRPC");
  ("gnoiosVerify", gnoiosVerify, "GnoiOsVerify");
  ("gnoiosInstall", gnoiosInstall, "GnoiOsInstall");
  ("gnoiopticalOTDRInitiate", gnoiopticalOTDRInitiate, "GnoiOtdrInitiate");
  ("gnoipacket_link_qualificationLinkQualificationALL", gnoipacket_link_qualificationLinkQualificationALL, "GnoiLinkqualificationAllRPC");
  ("gnoipacket_link_qualificationLinkQualificationCapabilities", gnoipacket_link_qualificationLinkQualificationCapabilities, "GnoiLinkqualificationCapabilities");
  ("gnoipacket_link_qualificationLinkQualificationDelete", gnoipacket_link_qualificationLinkQualificationDelete, "GnoiLinkqualificationDelete");
  ("gnoipacket_link_qualificationLinkQualificationGet", gnoipacket_link_qualificationLinkQualificationGet, "GnoiLinkqualificationGet");
  ("gnoipacket_link_qualificationLinkQualificationList", gnoipacket_link_qualificationLinkQualificationList, "GnoiLinkqualificationList");
  ("gnoisystemALL", gnoisystemALL, "GnoiSystemAllRPC");
  ("gnoisystemCancelReboot", gnoisystemCancelReboot, "GnoiSystemCancelReboot");
  ("gnoisystemKillProcess", gnoisystemKillProcess, "GnoiSystemKillProcess");
  ("gnoisystemReboot", gnoisystemReboot, "GnoiSystemReboot");
  ("gnoisystemRebootStatus", gnoisystemRebootStatus, "GnoiSystemRebootStatus");
  ("gnoisystemSetPackage", gnoisystemSetPackage, "GnoiSystemSetPackage");
  ("gnoisystemSwitchControlProcessor", gnoisystemSwitchControlProcessor, "GnoiSystemSwitchControlProcessor");
  ("gnoisystemTime", gnoisystemTime, "GnoiSystemTime");
  ("gnoisystemTraceroute", gnoisystemTraceroute, "GnoiSystemTraceroute");
  ("gnoisystemPing", gnoisystemPing, "GnoiSystemPing");
  ("gnoiopticalWavelengthRouterAdjustPSD", gnoiopticalWavelengthRouterAdjustPSD, "GnoiWavelengthrouterAdjustPSD");
  ("gnsiacctzv1AcctzALL", gnsiacctzv1AcctzALL, "GnsiAcctzAllRPC");
  ("gnsiacctzv1AcctzRecordSubscribe", gnsiacctzv1AcctzRecordSubscribe, "GnsiAcctzRecordSubscribe");
  ("gnsiauthzv1AuthzALL", gnsiauthzv1AuthzALL, "GnsiAuthzAllRPC");
  ("gnsiauthzv1AuthzGet", gnsiauthzv1AuthzGet, "GnsiAuthzGet");
  ("gnsiauthzv1AuthzProbe", gnsiauthzv1AuthzProbe, "GnsiAuthzProbe");
  ("gnsiauthzv1AuthzRotate", gnsiauthzv1AuthzRotate, "GnsiAuthzRotate");
  ("gnsicertzv1CertzAddProfile", gnsicertzv1CertzAddProfile, "GnsiCertzAddProfile");
  ("gnsicertzv1CertzALL", gnsicertzv1CertzALL, "GnsiCertzAllRPC");
  ("gnsicertzv1CertzCanGenerateCSR", gnsicertzv1CertzCanGenerateCSR, "GnsiCertzCanGenerateCSR");
  ("gnsicertzv1CertzDeleteProfile", gnsicertzv1CertzDeleteProfile, "GnsiCertzDeleteProfile");
  ("gnsicertzv1CertzGetProfileList", gnsicertzv1CertzGetProfileList, "GnsiCertzGetProfileList");
  ("gnsicertzv1CertzRotate", gnsicertzv1CertzRotate, "GnsiCertzRotate");
  ("gnsicredentialzv1CredentialzALL", gnsicredentialzv1CredentialzALL, "GnsiCredentialzAllRPC");
  ("gnsicredentialzv1CredentialzCanGenerateKey", gnsicredentialzv1CredentialzCanGenerateKey, "GnsiCredentialzCanGenerateKey");
  ("gnsicredentialzv1CredentialzGetPublicKeys", gnsicredentialzv1CredentialzGetPublicKeys, "GnsiCredentialzGetPublicKeys");
  ("gnsicredentialzv1CredentialzRotateHostParameters", gnsicredentialzv1CredentialzRotateHostParameters, "GnsiCredentialzRotateHostParameters");
  ("gnsicredentialzv1CredentialzRotateAccountCredentials", gnsicredentialzv1CredentialzRotateAccountCredentials, "GnsiCredentialzRotateAccountCredentials");
  ("gnsipathzv1PathzALL", gnsipathzv1PathzALL, "GnsiPathzAllRPC");
  ("gnsipathzv1PathzGet", gnsipathzv1PathzGet, "GnsiPathzGet");
  ("gnsipathzv1PathzProbe", gnsipathzv1PathzProbe, "GnsiPathzProbe");
  ("gnsipathzv1PathzRotate", gnsipathzv1PathzRotate, "GnsiPathzRotate");
  ("gribiALL", gribiALL, "GribiAllRPC");
  ("gribiFlush", gribiFlush, "GribiFlush");
  ("gribiGet", gribiGet, "GribiGet");
  ("gribiModify", gribiModify, "GribiModify");
  ("p4v1P4RuntimeALL", p4v1P4RuntimeALL, "P4P4runtimeAllRPC");
  ("p4v1P4RuntimeCapabilities", p4v1P4RuntimeCapabilities, "P4P4runtimeCapabilities");
  ("p4v1P4RuntimeGetForwardingPipelineConfig", p4v1P4RuntimeGetForwardingPipelineConfig, "P4P4runtimeGetForwardingPipelineConfig");
  ("p4v1P4RuntimeRead", p4v1P4RuntimeRead, "P4P4runtimeRead");
  ("p4v1P4RuntimeSetForwardingPipelineConfig", p4v1P4RuntimeSetForwardingPipelineConfig, "P4P4runtimeSetForwardingPipelineConfig");
  ("p4v1P4RuntimeStreamChannel", p4v1P4RuntimeStreamChannel, "P4P4runtimeStreamChannel");
  ("p4v1P4RuntimeWrite", p4v1P4RuntimeWrite, "P4P4runtimeWrite")].
End Gnxi.
Arguments RPC E : clear implicits.
Arguments ExecRPCFunction E : clear implicits.

(** ** The table *)

Section Table.
Context {E : Type} `{!GrpcDevice E}.

(** The RPCs that have an implementation. *)
Definition implementedPaths : list string :=
  ["/gnmi.gNMI/Get"; "/gnmi.gNMI/Set"; "/gnmi.gNMI/Subscribe"; "/gnmi.gNMI/Capabilities";
   "/gnoi.system.System/Time"; "/gnoi.system.System/Ping"; "/gnsi.authz.v1.Authz/Get";
   "/gnsi.authz.v1.Authz/Probe"; "/gnsi.authz.v1.Authz/Rotate"; "/gribi.gRIBI/Flush"; "/gribi.gRIBI/Get";
   "/gribi.gRIBI/Modify"].

(** The names of an RPC agree with each other. *)
Definition rpc_named (r : RPC E) : Prop :=
  FQN r = Service r +:+ "." +:+ Name r /\ Path r = "/" +:+ Service r +:+ "/" +:+ Name r.

(** The entry of a service that lost its name, and the one with the text of another. *)
Definition linkQualificationAll := "/gnoi.packet_link_qualification.LinkQualification/*".
Definition rotateHostParameters := "/gnsi.credentialz.v1.Credentialz/RotateHostParameters".

Definition execs_own (r : RPC E) : Prop :=
  Path r ∈ implementedPaths \/ Exec r = unimplemented (Path r).

Lemma RPCMAP_entries :
  Forall (fun p => Path p.2 = p.1 /\
    (p.1 = "*" \/ p.1 = linkQualificationAll /\ Name p.2 = "" \/ rpc_named p.2) /\
    (p.1 = rotateHostParameters /\ Exec p.2 = unimplemented "/gnsi.acctz.v1.Acctz/RecordSubscribe" \/
     execs_own p.2)) (@RPCMAP E _).
Proof.
  unfold RPCMAP, execs_own, rpc_named, linkQualificationAll, rotateHostParameters.
  repeat match goal with
  | |- Forall _ (_ :: _) => constructor; [split; [reflexivity|split]|]
  | |- Forall _ [] => constructor
  end.
  all: cbn [fst snd].
  all: first
    [ right; right; reflexivity
    | left; split; reflexivity
    | right; left; (apply (bool_decide_unpack _); vm_compute; exact I)
    | right; right; split; reflexivity
    | left; reflexivity
    | right; left; split; reflexivity ].
Qed.

(** The table of RPCs is keyed by the paths of its entries, without duplicates,
    and lists the same RPCs as the struct; the names of an entry agree and its
    function is its own, except for one entry without a name and one whose
    function reports another RPC. *)
Theorem rpc_table :
  NoDup (RPCMAP (E := E)).*1 /\ (RPCMAP (E := E)).*2 = (RPCs (E := E)).*2 /\
  forall path r, (path, r) ∈ RPCMAP -> Path r = path /\
    (path <> "*" -> path <> linkQualificationAll -> rpc_named r) /\
    (path <> rotateHostParameters -> execs_own r).
Proof.
  split; [apply (bool_decide_unpack _); vm_compute; exact I|]. split; [reflexivity|].
  intros path r Hr. pose proof (proj1 (Forall_forall _ _) RPCMAP_entries _ Hr) as (H1 & H2 & H3).
  simpl in *. split; [done|]. split; intros; naive_solver.
Qed.

(** The entries that the theorem excepts. *)
Lemma rpc_table_exceptions :
  Name (gnoipacket_link_qualificationLinkQualificationALL (E := E)) = "" /\
  Exec (gnsicredentialzv1CredentialzRotateHostParameters (E := E)) =
    unimplemented "/gnsi.acctz.v1.Acctz/RecordSubscribe".
Proof. split; reflexivity. Qed.
End Table.
