(* ===== verification/GnxiGen.v ===== *)
(** * The generator of the RPC table

    [src/internal/security/gen/generate.go] writes [rpcs.go] from the service
    descriptors of the protocol buffer files.  The descriptors and the title
    casing of [golang.org/x/text/cases] are outside the repository: the first are
    an argument, the second an argument with its documented behaviour on words
    of ASCII letters and digits.  The templates range over a map, that is in the
    order of its keys. *)
From stdpp Require Import base list gmap strings sorting.
From Stdlib Require Import ZArith Lia Ascii.
From S2P Require Import Prelude.
From S2P Require Import GoStrings.
From S2P Require Import Gnxi.

(** A method of a service descriptor. *)
Record Method := { m_Name : string; m_FullName : string }.

(** The entries of [rpcMap]. *)
Record GenRPC := { g_Name : string; g_Service : string; g_FQN : string; g_Path : string }.
#[global] Instance GenRPC_eq_dec : EqDecision GenRPC.
Proof. solve_decision. Defined.

Abbreviation RpcMap := (gmap string GenRPC).

(** ** The loops of [main]

    [serviceName] starts as the key of the file and is overwritten by the name of
    the service at its first method. *)

(** The key and the entry of a method, and the name of its service. *)
Definition methodEntry (serviceName : string) (m : Method) : go (string * (string * GenRPC)) :=
  let enumName := ToUpper serviceName +:+ "_" +:+ ToUpper (m_Name m) in
  match LastIndex (m_FullName m) "." with
  | None => Panic
  | Some lastPointIdx =>
      let service := str_take lastPointIdx (m_FullName m) in
      let path := if (0 <? lastPointIdx)%nat
                  then "/" +:+ service +:+ "/" +:+ str_drop (S lastPointIdx) (m_FullName m) else "" in
      Ret (service, (enumName, {| g_Name := m_Name m; g_Service := service; g_FQN := m_FullName m;
                                  g_Path := path |}))
  end.

Definition genMethod (st : string * RpcMap) (m : Method) : go (string * RpcMap) :=
  '(service, (enumName, rpc)) ← methodEntry st.1 m;
  Ret (service, <[enumName := rpc]> st.2).

Definition serviceAll (serviceName : string) : string * GenRPC :=
  (ToUpper serviceName +:+ "_ALL",
   {| g_Name := "*"; g_Service := serviceName; g_FQN := serviceName +:+ ".*";
      g_Path := "/" +:+ serviceName +:+ "/*" |}).

Definition genService (st : string * RpcMap) (methods : list Method) : go (string * RpcMap) :=
  '(serviceName, rpcMap) ← foldM genMethod st methods;
  Ret (serviceName, <[(serviceAll serviceName).1 := (serviceAll serviceName).2]> rpcMap).

Definition genFile (rpcMap : RpcMap) (f : string * list (list Method)) : go RpcMap :=
  '(_, rpcMap) ← foldM genService (f.1, rpcMap) f.2;
  Ret rpcMap.

Definition allEntry : GenRPC := {| g_Name := "*"; g_Service := "*"; g_FQN := "*"; g_Path := "*" |}.

Definition main_rpcMap (services : list (string * list (list Method))) : go RpcMap :=
  foldM genFile {["ALL" := allEntry]} services.

(** ** The functions of the templates *)

Definition EqualFold (a b : string) : bool := String.eqb (ToLower a) (ToLower b).

Fixpoint joinParts (prev : string) (parts : list string) : string :=
  match parts with
  | [] => ""
  | part :: parts => if negb (EqualFold part prev) then part +:+ joinParts part parts else joinParts prev parts
  end.

Definition varName (service name : string) : string :=
  (if negb (String.eqb service "*") then joinParts "" (split_on "."%char service) else "") +:+
  (if negb (String.eqb name "*") then name else "ALL").

Section Templates.
Context (caser : string -> string).

(** With the flag [gen_exec_func] set. *)
Definition funcName (service name : string) : string :=
  (if negb (String.eqb service "*") then
     let parts := split_on "."%char service in
     caser (default "" (head parts)) +:+
     (if (2 <? length parts)%nat then caser (default "" (last parts)) else "")
   else "") +:+
  (if negb (String.eqb name "*") then name else "AllRPC").

(** What the template writes for an entry: the variable, its fields and its function. *)
Definition render (g : GenRPC) : string * GenRPC * string :=
  (varName (g_Service g) (g_Name g), g, funcName (g_Service g) (g_Name g)).

Definition rpcsFile (rpcMap : RpcMap) : list (string * GenRPC * string) :=
  render <$> omap (fun k => rpcMap !! k) (sort_Strings ((map_to_list rpcMap).*1)).

Definition generate (services : list (string * list (list Method))) : go (list (string * GenRPC * string)) :=
  rpcMap ← main_rpcMap services; Ret (rpcsFile rpcMap).
End Templates.

(** ** Descriptors

    The methods of a service, as a descriptor lists them: a method is named after
    its service. *)

Definition service (fullName : string) (methods : list string) : list Method :=
  (fun m => {| m_Name := m; m_FullName := fullName +:+ "." +:+ m |}) <$> methods.

(** ** The entries that a run of the generator adds *)

Abbreviation pairs := (list (string * GenRPC)).

Definition insertAll (m : RpcMap) (l : pairs) : RpcMap := foldl (fun m p => <[p.1 := p.2]> m) m l.

Fixpoint methodsPairs (sn : string) (ms : list Method) : go (string * pairs) :=
  match ms with
  | [] => Ret (sn, [])
  | m :: ms => '(sn, p) ← methodEntry sn m; '(sn, l) ← methodsPairs sn ms; Ret (sn, p :: l)
  end.

Fixpoint servicesPairs (sn : string) (svcs : list (list Method)) : go pairs :=
  match svcs with
  | [] => Ret []
  | ms :: svcs =>
      '(sn, l) ← methodsPairs sn ms;
      l' ← servicesPairs sn svcs;
      Ret (l ++ serviceAll sn :: l')
  end.

Definition filePairs (f : string * list (list Method)) : go pairs := servicesPairs f.1 f.2.

Lemma genMethods_pairs ms : forall sn m,
  foldM genMethod (sn, m) ms = ('(sn', l) ← methodsPairs sn ms; Ret (sn', insertAll m l)).
Proof.
  induction ms as [|x ms IH]; intros sn m; [done|]. cbn [foldM methodsPairs].
  change (genMethod (sn, m) x) with ('(service, (enumName, rpc)) ← methodEntry sn x; Ret (service, <[enumName := rpc]> m)).
  destruct (methodEntry sn x) as [[sn1 [k r]]| | |]; [|done..]. cbn [mbind outcome_bind]. rewrite IH.
  by destruct (methodsPairs sn1 ms) as [[]| | |].
Qed.

Lemma genServices_pairs svcs : forall sn m,
  ('(_, m') ← foldM genService (sn, m) svcs; Ret m') = (l ← servicesPairs sn svcs; Ret (insertAll m l)).
Proof.
  induction svcs as [|ms svcs IH]; intros sn m; [done|]. cbn [foldM servicesPairs].
  change (genService (sn, m) ms) with ('(sn, m) ← foldM genMethod (sn, m) ms;
    Ret (sn, <[(serviceAll sn).1 := (serviceAll sn).2]> m)).
  rewrite genMethods_pairs. destruct (methodsPairs sn ms) as [[sn1 l]| | |]; [|done..].
  cbn [mbind outcome_bind]. rewrite IH. destruct (servicesPairs sn1 svcs) as [l'| | |]; [|done..].
  cbn [mbind outcome_bind]. unfold insertAll. by rewrite foldl_app.
Qed.

Lemma genFile_pairs m f : genFile m f = (l ← filePairs f; Ret (insertAll m l)).
Proof. apply genServices_pairs. Qed.

Lemma genFiles_pairs fs ls : mapM filePairs fs = Ret ls -> forall m,
  foldM genFile m fs = Ret (insertAll m (concat ls)).
Proof.
  revert ls. induction fs as [|f fs IH]; intros ls Hl m; simpl in Hl; [by injection Hl as <-|].
  destruct (filePairs f) as [l| | |] eqn:Ef; try discriminate Hl. cbn [mbind outcome_bind] in Hl.
  destruct (mapM filePairs fs) as [ls'| | |] eqn:El; try discriminate Hl. injection Hl as <-.
  cbn [foldM]. rewrite genFile_pairs, Ef. cbn [mbind outcome_bind]. rewrite (IH ls' eq_refl).
  unfold insertAll. cbn [concat]. by rewrite foldl_app.
Qed.

(** *** The order of the files does not matter *)

Lemma insertAll_map l : NoDup l.*1 -> forall m, insertAll m l = list_to_map l ∪ m.
Proof.
  induction l as [|[k r] l IH]; intros Hd m; [symmetry; apply map_empty_union|].
  apply NoDup_cons in Hd as [Hk Hd]. change (insertAll m ((k, r) :: l)) with (insertAll (<[k:=r]> m) l).
  rewrite (IH Hd). simpl. rewrite <- insert_union_r, insert_union_l; [done|]. by apply not_elem_of_list_to_map.
Qed.

Lemma mapM_perm {A B} (f : A -> go B) l l' ls :
  l ≡ₚ l' -> mapM f l = Ret ls -> exists ls', mapM f l' = Ret ls' /\ ls ≡ₚ ls'.
Proof.
  intros Hp. revert ls. induction Hp as [|x l l' Hp IH|x y l|l1 l2 l3 H1 IH1 H2 IH2]; intros ls Hl; simpl in *.
  - injection Hl as <-. by exists [].
  - destruct (f x) as [a| | |]; try discriminate Hl. simpl in *.
    destruct (mapM f l) as [ls1| | |]; try discriminate Hl. injection Hl as <-.
    destruct (IH ls1 eq_refl) as (ls' & -> & Hp'). exists (a :: ls'). split; [done|by constructor].
  - destruct (f y) as [b| | |]; try discriminate Hl. simpl in *.
    destruct (f x) as [a| | |]; try discriminate Hl. simpl in *.
    destruct (mapM f l) as [ls1| | |]; try discriminate Hl. injection Hl as <-.
    exists (a :: b :: ls1). split; [done|constructor].
  - destruct (IH1 ls Hl) as (ls2 & E2 & P2). destruct (IH2 ls2 E2) as (ls3 & E3 & P3).
    exists ls3. split; [done|by etrans].
Qed.

Lemma main_rpcMap_perm fs fs' ls :
  fs ≡ₚ fs' -> mapM filePairs fs = Ret ls -> NoDup (concat ls).*1 -> main_rpcMap fs' = main_rpcMap fs.
Proof.
  intros Hp Hl Hd. destruct (mapM_perm _ _ _ _ Hp Hl) as (ls' & Hl' & P).
  assert (concat ls ≡ₚ concat ls') as Pc.
  { clear -P. induction P; simpl; [done|by f_equiv| |by etrans].
    rewrite !app_assoc. by rewrite (Permutation_app_comm x y). }
  unfold main_rpcMap. rewrite (genFiles_pairs _ _ Hl), (genFiles_pairs _ _ Hl'). f_equal.
  rewrite !insertAll_map; [|done|by rewrite <- Pc]. f_equal. symmetry. by apply list_to_map_proper.
Qed.

(** ** Names of generated entries *)

Definition gen_named (g : GenRPC) : Prop :=
  g_FQN g = g_Service g +:+ "." +:+ g_Name g /\ g_Path g = "/" +:+ g_Service g +:+ "/" +:+ g_Name g.

(** A descriptor names a method after its service, which is not empty; the name has no dot. *)
Definition method_ok (m : Method) : Prop :=
  exists svc, svc <> "" /\ m_FullName m = svc +:+ "." +:+ m_Name m /\ IndexByte (m_Name m) "."%char = None.

Lemma prefix_dot c s : String.prefix "." (String c s) = Ascii.eqb c "."%char.
Proof.
  cbn [String.prefix]. destruct (ascii_dec "." c) as [<-|H]; [by destruct s|].
  symmetry. apply Ascii.eqb_neq. congruence.
Qed.

Lemma LastIndex_none s : IndexByte s "."%char = None -> LastIndex s "." = None.
Proof.
  induction s as [|c s IH]; [done|]. cbn [IndexByte LastIndex]. rewrite prefix_dot.
  destruct (Ascii.eqb c "."%char); [done|]. intros H. rewrite IH; [done|]. by destruct (IndexByte s _).
Qed.

Lemma LastIndex_dot svc name : IndexByte name "."%char = None ->
  LastIndex (svc +:+ "." +:+ name) "." = Some (String.length svc).
Proof.
  intros Hn. induction svc as [|c svc IH].
  - change ("" +:+ "." +:+ name) with (String "."%char name). cbn [LastIndex]. rewrite LastIndex_none by done.
    by rewrite prefix_dot.
  - rewrite str_app_cons. cbn [LastIndex]. by rewrite IH.
Qed.

Lemma str_take_app a b : str_take (String.length a) (a +:+ b) = a.
Proof.
  unfold str_take. induction a as [|c a IH]; [by destruct b|]. rewrite str_app_cons. cbn [String.length String.substring].
  by rewrite IH.
Qed.

Lemma str_drop_dot a b : str_drop (S (String.length a)) (a +:+ "." +:+ b) = b.
Proof. induction a as [|c a IH]; [done|]. rewrite str_app_cons. exact IH. Qed.

Lemma methodEntry_ok sn m : method_ok m ->
  exists svc g, methodEntry sn m = Ret (svc, (ToUpper sn +:+ "_" +:+ ToUpper (m_Name m), g)) /\ gen_named g.
Proof.
  intros (svc & Hne & Hf & Hn). unfold methodEntry. rewrite Hf, LastIndex_dot, str_take_app, str_drop_dot by done.
  assert ((0 <? String.length svc)%nat = true) as -> by (destruct svc; done).
  eexists svc, _. split; [reflexivity|]. by split.
Qed.

Lemma serviceAll_named sn : gen_named (serviceAll sn).2.
Proof. split; [|]; reflexivity. Qed.

Lemma methodsPairs_named ms : Forall method_ok ms -> forall sn,
  exists sn' l, methodsPairs sn ms = Ret (sn', l) /\ Forall (fun p => gen_named p.2) l.
Proof.
  induction 1 as [|m ms Hm Hms IH]; intros sn; [by exists sn, []|].
  destruct (methodEntry_ok sn m Hm) as (svc & g & E & Hg). destruct (IH svc) as (sn' & l & El & Hl).
  simpl. rewrite E. simpl. rewrite El. simpl. eexists _, _. split; [reflexivity|]. by constructor.
Qed.

Lemma servicesPairs_named svcs : Forall (Forall method_ok) svcs -> forall sn,
  exists l, servicesPairs sn svcs = Ret l /\ Forall (fun p => gen_named p.2) l.
Proof.
  induction 1 as [|ms svcs Hm Hms IH]; intros sn; [by exists []|].
  destruct (methodsPairs_named ms Hm sn) as (sn' & l & E & Hl). destruct (IH sn') as (l' & E' & Hl').
  simpl. rewrite E. simpl. rewrite E'. simpl. eexists. split; [reflexivity|].
  apply Forall_app. split; [done|]. constructor; [apply serviceAll_named|done].
Qed.

Lemma insertAll_named l : Forall (fun p => gen_named p.2) l -> forall m,
  map_Forall (fun _ g => g = allEntry \/ gen_named g) m ->
  map_Forall (fun _ g => g = allEntry \/ gen_named g) (insertAll m l).
Proof.
  induction 1 as [|[k g] l Hg Hl IH]; intros m Hm; [done|]. simpl. apply IH.
  apply map_Forall_insert_2; [by right|done].
Qed.

(** For descriptors that name every method after its service the generator
    returns, and the names of every entry agree: the fully qualified name and the
    path are made of the service and the name, apart from the entry for all RPCs. *)
Theorem generator_names caser fs (Hfs : Forall (fun f => Forall (Forall method_ok) f.2) fs) :
  exists l, generate caser fs = Ret l /\
    Forall (fun '(var, g, fn) => (g = allEntry \/ gen_named g) /\
      var = varName (g_Service g) (g_Name g) /\ fn = funcName caser (g_Service g) (g_Name g)) l.
Proof.
  assert (forall m, map_Forall (fun _ g => g = allEntry \/ gen_named g) m ->
    exists m', foldM genFile m fs = Ret m' /\ map_Forall (fun _ g => g = allEntry \/ gen_named g) m') as H.
  { induction Hfs as [|f fs Hf Hr IH]; intros m Hm; [by exists m|]. cbn [foldM]. rewrite genFile_pairs.
    destruct (servicesPairs_named f.2 Hf f.1) as (l & El & Hl). unfold filePairs. rewrite El. cbn [mbind outcome_bind].
    apply IH. by apply insertAll_named. }
  destruct (H {["ALL" := allEntry]}) as (m & Em & Hm); [apply map_Forall_singleton; by left|].
  unfold generate, main_rpcMap. rewrite Em. cbn [mbind outcome_bind]. eexists. split; [reflexivity|].
  apply Forall_fmap, Forall_forall. intros g (k & _ & Hk)%list_elem_of_omap. simpl. split; [by apply (Hm k)|done].
Qed.

(** The pairs of a map in the order of their keys. *)
Lemma sorted_by_keys {A} (m : gmap string A) : exists kes : list (string * A),
  kes ≡ₚ map_to_list m /\ StronglySorted String.le kes.*1 /\ sort_Strings ((map_to_list m).*1) = kes.*1.
Proof.
  destruct (Permutation_map_inv fst _ (sort_Strings_perm (map_to_list m).*1)) as (kes & E & Hp).
  exists kes. change (kes.*1) with (map fst kes). rewrite <- E. split; [by symmetry|]. split; [apply sort_Strings_sorted|done].
Qed.

(** ** What the generator is to write *)

(** A file: its key in [services] and its services with the names of their methods. *)
Abbreviation File := (string * list (string * list string))%type.
Definition descriptor (f : File) : string * list (list Method) := (f.1, (fun s => service s.1 s.2) <$> f.2).

(** A service has a name and methods; the names of methods have no dots. *)
Definition service_ok (s : string * list string) : Prop :=
  s.1 <> "" /\ s.2 <> [] /\ Forall (fun n => IndexByte n "."%char = None) s.2.

Definition method_entry (svc name : string) : GenRPC :=
  {| g_Name := name; g_Service := svc; g_FQN := svc +:+ "." +:+ name; g_Path := "/" +:+ svc +:+ "/" +:+ name |}.
Definition enum_name (prefix name : string) : string := ToUpper prefix +:+ "_" +:+ ToUpper name.

(** The entries of a service with their keys: the first method is filed under the
    name [sn] that the loop starts with, the key of the file or the service before. *)
Definition keyed_methods (sn svc : string) (names : list string) : list (string * GenRPC) :=
  match names with
  | [] => []
  | n :: names => (enum_name sn n, method_entry svc n) :: ((fun n => (enum_name svc n, method_entry svc n)) <$> names)
  end.
Fixpoint keyed_services (sn : string) (svcs : list (string * list string)) : list (string * GenRPC) :=
  match svcs with
  | [] => []
  | (svc, names) :: svcs =>
      keyed_methods sn svc names ++ (enum_name svc "ALL", method_entry svc "*") :: keyed_services svc svcs
  end.
Definition keyed_entries (files : list File) : list (string * GenRPC) :=
  ("ALL", allEntry) :: (files ≫= fun f => keyed_services f.1 f.2).

Lemma methodEntry_service sn svc n : svc <> "" -> IndexByte n "."%char = None ->
  methodEntry sn {| m_Name := n; m_FullName := svc +:+ "." +:+ n |} = Ret (svc, (enum_name sn n, method_entry svc n)).
Proof.
  intros Hs Hn. unfold methodEntry. cbn [m_FullName m_Name].
  rewrite LastIndex_dot, str_take_app, str_drop_dot by done. by destruct svc.
Qed.

Lemma methodsPairs_service svc names : svc <> "" -> Forall (fun n => IndexByte n "."%char = None) names -> forall sn,
  methodsPairs sn (service svc names) = Ret (if names is [] then sn else svc, keyed_methods sn svc names).
Proof.
  assert (forall n ns, service svc (n :: ns) = {| m_Name := n; m_FullName := svc +:+ "." +:+ n |} :: service svc ns) as Hcons by done.
  intros Hs. assert (forall names, Forall (fun n => IndexByte n "."%char = None) names ->
    methodsPairs svc (service svc names) = Ret (svc, (fun n => (enum_name svc n, method_entry svc n)) <$> names)) as Hrest.
  { induction 1 as [|n ns Hn _ IH]; [done|]. rewrite Hcons. cbn [methodsPairs].
    rewrite (methodEntry_service svc svc n Hs Hn). cbn [mbind outcome_bind]. by rewrite IH. }
  intros Hf sn. destruct Hf as [|n ns Hn Hf]; [done|]. rewrite Hcons. cbn [methodsPairs].
  rewrite (methodEntry_service sn svc n Hs Hn). cbn [mbind outcome_bind]. by rewrite (Hrest ns Hf).
Qed.

Lemma servicesPairs_file svcs : Forall service_ok svcs -> forall sn,
  servicesPairs sn ((fun s => service s.1 s.2) <$> svcs) = Ret (keyed_services sn svcs).
Proof.
  induction 1 as [|[svc names] svcs (Hs & Hne & Hn) _ IH]; intros sn; [done|]. rewrite fmap_cons. cbn [servicesPairs fst snd] in *.
  rewrite (methodsPairs_service svc names Hs Hn). cbn [mbind outcome_bind]. rewrite IH.
  by destruct names.
Qed.

Lemma filePairs_descriptors files : Forall (fun f => Forall service_ok f.2) files ->
  mapM filePairs (descriptor <$> files) = Ret ((fun f => keyed_services f.1 f.2) <$> files).
Proof.
  induction 1 as [|f files Hf _ IH]; [done|]. rewrite !fmap_cons. cbn [mapM].
  assert (filePairs (descriptor f) = Ret (keyed_services f.1 f.2)) as ->; [by apply servicesPairs_file|].
  cbn [mbind outcome_bind]. by rewrite IH.
Qed.

Lemma main_rpcMap_files files fs : Forall (fun f => Forall service_ok f.2) files -> NoDup (keyed_entries files).*1 ->
  fs ≡ₚ descriptor <$> files -> main_rpcMap fs = Ret (list_to_map (keyed_entries files)).
Proof.
  intros Hok Hnd Hp. apply NoDup_cons in Hnd as [Hall Hnd].
  pose proof (filePairs_descriptors files Hok) as Hf.
  assert (concat ((fun f => keyed_services f.1 f.2) <$> files) = (files ≫= fun f => keyed_services f.1 f.2)) as Hc.
  { clear. induction files as [|f files IH]; [done|]. cbn [fmap list_fmap concat mbind list_bind]. by rewrite <- IH. }
  rewrite (main_rpcMap_perm _ _ _ (symmetry Hp) Hf) by (by rewrite Hc).
  unfold main_rpcMap. rewrite (genFiles_pairs _ _ Hf), Hc. f_equal. rewrite insertAll_map by done.
  unfold keyed_entries. rewrite list_to_map_cons.
  apply map_eq. intros k. destruct (decide (k = "ALL")) as [->|Hk].
  - rewrite lookup_insert_eq, lookup_union_r; [by rewrite lookup_singleton_eq|]. by apply not_elem_of_list_to_map.
  - rewrite lookup_insert_ne by done. rewrite lookup_union_l; [done|]. by rewrite lookup_singleton_ne.
Qed.

(** ** The committed table *)

(** Title casing of a word of ASCII letters and digits. *)
Definition title (w : string) : string :=
  match w with EmptyString => "" | String c w => String (upper_ascii c) (ToLower w) end.
Definition word_char (c : ascii) : bool :=
  let n := nat_of_ascii c in
  ((48 <=? n) && (n <=? 57) || (65 <=? n) && (n <=? 90) || (97 <=? n) && (n <=? 122))%nat.
Fixpoint is_word (w : string) : bool :=
  match w with EmptyString => true | String c w => word_char c && is_word w end.

Definition caser_ok (caser : string -> string) : Prop := forall w, is_word w = true -> caser w = title w.

(** The first and the last part of the name of the service are words, or it stands for all services. *)
Definition wordy (g : GenRPC) : bool :=
  String.eqb (g_Service g) "*" ||
  is_word (default "" (head (split_on "."%char (g_Service g)))) &&
  is_word (default "" (last (split_on "."%char (g_Service g)))).

Lemma render_title caser g : caser_ok caser -> wordy g = true -> render caser g = render title g.
Proof.
  intros Hc H. unfold render, funcName. unfold wordy in H. destruct (String.eqb (g_Service g) "*"); [done|].
  apply andb_true_iff in H as [H1 H2]. cbv zeta. cbn [negb]. by rewrite (Hc _ H1), (Hc _ H2).
Qed.

(** The entry that the generator writes for a service and a method. *)
Definition entry_of (service name : string) : GenRPC :=
  if String.eqb service "*" then allEntry else method_entry service name.

Section Committed.
Context {E : Type} `{!GrpcDevice E}.

Definition data (r : RPC E) : GenRPC :=
  {| g_Name := Name r; g_Service := Service r; g_FQN := FQN r; g_Path := Path r |}.

(** What [rpcs.go] holds. *)
Definition committed : list (string * GenRPC * string) := (fun '(v, r, f) => (v, data r, f)) <$> rpcVars.

Lemma committed_rows :
  forallb (fun '(v, g, f) => bool_decide (v = "gnoipacket_link_qualificationLinkQualificationALL" /\ g_Name g = "") ||
    bool_decide ((v, g, f) = render title (entry_of (g_Service g) (g_Name g))) && wordy (entry_of (g_Service g) (g_Name g)))
    committed = true.
Proof. vm_compute. reflexivity. Qed.

End Committed.
