(* ===== verification/Authz.v ===== *)
(** * Authorization policies

    [src/internal/security/authz/authz.go]: policies and their JSON form, the
    rotation of a policy on a device ([Rotate]), [Get], and [Verify], which checks
    that a user may or may not call an RPC.  The text of JSON is a parameter, its
    structure is modelled; a slice is an option because a nil slice and an empty
    one are different to [cmp.Equal]. *)
From stdpp Require Import base list gmap strings.
From Stdlib Require Import ZArith Lia.
From S2P Require Import Prelude.
From S2P Require Import GoStrings.
From S2P Require Import Gnxi.
From S2P Require Import GnxiGen.

Local Open Scope Z_scope.

Record Spiffe := { ID : string; TLSConf : string }.

(** ** Policies *)

Record Rule := { rule_Name : string; Principals : option (list string); Paths : option (list string) }.
#[global] Instance Rule_eq_dec : EqDecision Rule.
Proof. solve_decision. Defined.

Record AuthorizationPolicy := {
  policy_Name : string;
  AllowRules : option (list Rule);
  DenyRules : option (list Rule)
}.
#[global] Instance AuthorizationPolicy_eq_dec : EqDecision AuthorizationPolicy.
Proof. solve_decision. Defined.

(** [append] to a slice that may be nil *)
Definition append {A} (l : option (list A)) (x : A) : option (list A) := Some (default [] l ++ [x]).

Definition NewAuthorizationPolicy (name : string) : AuthorizationPolicy :=
  {| policy_Name := name; AllowRules := None; DenyRules := None |}.

(** ** JSON *)

Inductive Json :=
| JNull
| JString (s : string)
| JOther  (* a number or a boolean *)
| JArray (l : list Json)
| JObject (l : list (string * Json)).

(** The printer and the parser of [encoding/json]. *)
Class JsonText := { print_json : Json -> string; parse_json : string -> option Json }.

Definition slice_json {A} (f : A -> Json) (l : option (list A)) : Json :=
  match l with None => JNull | Some l => JArray (f <$> l) end.

Definition rule_json (r : Rule) : Json :=
  JObject [("name", JString (rule_Name r));
           ("source", JObject [("principals", slice_json JString (Principals r))]);
           ("request", JObject [("paths", slice_json JString (Paths r))])].

(** A field with [omitempty] is left out when the slice is empty. *)
Definition omitempty {A} (key : string) (f : A -> Json) (l : option (list A)) : list (string * Json) :=
  match l with None | Some [] => [] | _ => [(key, slice_json f l)] end.

Definition policy_json (p : AuthorizationPolicy) : Json :=
  JObject (("name", JString (policy_Name p)) ::
           omitempty "allow_rules" rule_json (AllowRules p) ++ omitempty "deny_rules" rule_json (DenyRules p)).

(** Decoding into a value: null leaves a string or a struct unchanged and makes a
    slice nil; keys match without regard to case; other keys are ignored; a value
    of the wrong type is an error. *)
Definition typeError {A} : go A := Fail (errors_New "json: cannot unmarshal").

Definition decode_string (old : string) (j : Json) : go string :=
  match j with JNull => Ret old | JString s => Ret s | _ => typeError end.

Definition decode_slice {A} (f : Json -> go A) (j : Json) : go (option (list A)) :=
  match j with
  | JNull => Ret None
  | JArray l => l ← mapM f l; Ret (Some l)
  | _ => typeError
  end.

Definition decode_struct {A} (field : A -> string * Json -> go A) (old : A) (j : Json) : go A :=
  match j with JNull => Ret old | JObject l => foldM field old l | _ => typeError end.

Definition zero_rule : Rule := {| rule_Name := ""; Principals := None; Paths := None |}.

Definition source_field (r : Rule) (kv : string * Json) : go Rule :=
  if EqualFold kv.1 "principals" then
    l ← decode_slice (decode_string "") kv.2;
    Ret {| rule_Name := rule_Name r; Principals := l; Paths := Paths r |}
  else Ret r.
Definition request_field (r : Rule) (kv : string * Json) : go Rule :=
  if EqualFold kv.1 "paths" then
    l ← decode_slice (decode_string "") kv.2;
    Ret {| rule_Name := rule_Name r; Principals := Principals r; Paths := l |}
  else Ret r.
Definition rule_field (r : Rule) (kv : string * Json) : go Rule :=
  if EqualFold kv.1 "name" then
    s ← decode_string (rule_Name r) kv.2;
    Ret {| rule_Name := s; Principals := Principals r; Paths := Paths r |}
  else if EqualFold kv.1 "source" then decode_struct source_field r kv.2
  else if EqualFold kv.1 "request" then decode_struct request_field r kv.2
  else Ret r.
Definition policy_field (p : AuthorizationPolicy) (kv : string * Json) : go AuthorizationPolicy :=
  if EqualFold kv.1 "name" then
    s ← decode_string (policy_Name p) kv.2;
    Ret {| policy_Name := s; AllowRules := AllowRules p; DenyRules := DenyRules p |}
  else if EqualFold kv.1 "allow_rules" then
    l ← decode_slice (decode_struct rule_field zero_rule) kv.2;
    Ret {| policy_Name := policy_Name p; AllowRules := l; DenyRules := DenyRules p |}
  else if EqualFold kv.1 "deny_rules" then
    l ← decode_slice (decode_struct rule_field zero_rule) kv.2;
    Ret {| policy_Name := policy_Name p; AllowRules := AllowRules p; DenyRules := l |}
  else Ret p.

Section Json.
Context `{!JsonText}.

Definition Marshal (p : AuthorizationPolicy) : go string := Ret (print_json (policy_json p)).

Definition Unmarshal (p : AuthorizationPolicy) (text : string) : go AuthorizationPolicy :=
  match parse_json text with
  | None => Fail (errors_New "invalid character")
  | Some j => decode_struct policy_field p j
  end.

(** [LoadPolicyFromJSONFile] from the text of the file: the last policy of a name wins. *)
Definition LoadPolicyFromJSONFile (file : option string) : go (gmap string AuthorizationPolicy) :=
  match file ≫= parse_json with
  | None => Panic
  | Some j =>
      match decode_slice (decode_struct policy_field (NewAuthorizationPolicy "")) j with
      | Ret policies => Ret (foldl (fun m p => <[policy_Name p := p]> m) ∅ (default [] policies))
      | _ => Panic
      end
  end.
End Json.

(** ** Rotation and verification *)

(** An error of a call ends the test. *)
Definition mustCall {S A} (m : gost S (A + Err)) : gost S A :=
  r ← m; match r with inl a => mret a | inr _ => lift Panic end.

Definition orPanic {A} (m : go A) : go A := match m with Fail _ => Panic | m => m end.

Section Device.
Context {E : Type} `{!GrpcDevice E, !JsonText}.

Definition createRule (name : string) (users : option (list string)) (rpcs : list (RPC E)) : Rule :=
  {| rule_Name := name; Principals := users;
     Paths := foldl (fun paths rpc => append paths (Path rpc)) None rpcs |}.

Definition AddAllowRules (p : AuthorizationPolicy) (name : string) (users : option (list string))
    (rpcs : list (RPC E)) : AuthorizationPolicy :=
  {| policy_Name := policy_Name p; AllowRules := append (AllowRules p) (createRule name users rpcs);
     DenyRules := DenyRules p |}.

Definition AddDenyRules (p : AuthorizationPolicy) (name : string) (users : option (list string))
    (rpcs : list (RPC E)) : AuthorizationPolicy :=
  {| policy_Name := policy_Name p; AllowRules := AllowRules p;
     DenyRules := append (DenyRules p) (createRule name users rpcs) |}.

Definition Get : gost E (option GetResponse * AuthorizationPolicy) :=
  gnsiC ← mustCall (DialGNSI []);
  r ← Authz_Get gnsiC;
  match r with
  | inr e =>
      if bool_decide (status_Code (Some e) = FailedPrecondition) then mret (None, NewAuthorizationPolicy "")
      else lift Panic
  | inl resp =>
      _ ← (if String.eqb (resp_Version resp) "" then t_Errorf else mret tt);
      now ← UnixMicro;
      _ ← (if now <? resp_CreatedOn resp then t_Errorf else mret tt);
      p ← lift (orPanic (Unmarshal (NewAuthorizationPolicy "") (resp_Policy resp)));
      mret (Some resp, p)
  end.

(** Upload, check what the device reports, finalize, check again. *)
Definition rotateSteps (p : AuthorizationPolicy) (createdOn : Z) (version : string) (forceOverwrite : bool)
    (rotateStream : RotateStream) : gost E unit :=
  policy ← lift (orPanic (Marshal p));
  _ ← mustCall (Rotate_Send rotateStream
        (Upload {| Version := version; CreatedOn := createdOn; Policy := policy |} forceOverwrite));
  _ ← mustCall (Rotate_Recv rotateStream);
  '(_, tempPolicy) ← Get;
  _ ← (if bool_decide (p = tempPolicy) then mret tt else lift Panic);
  _ ← mustCall (Rotate_Send rotateStream (Finalize false));
  _ ← mustCall (Rotate_Recv rotateStream);
  '(_, finalPolicy) ← Get;
  if bool_decide (p = finalPolicy) then mret tt else lift Panic.

(** [defer rotateStream.CloseSend()] runs whether the test goes on or ends. *)
Definition closing (rotateStream : RotateStream) (m : gost E unit) : gost E unit := fun e =>
  let '(r, e) := m e in
  let '(_, e) := Rotate_CloseSend rotateStream e in
  (r, e).

Definition Rotate (p : AuthorizationPolicy) (createdOn : Z) (version : string) (forceOverwrite : bool) :
    gost E unit :=
  gnsiC ← mustCall (DialGNSI []);
  rotateStream ← mustCall (Authz_Rotate gnsiC);
  closing rotateStream (rotateSteps p createdOn version forceOverwrite rotateStream).

Inductive verifyOpt := ExceptDeny | HardVerify.
#[export] Instance verifyOpt_eq_dec : EqDecision verifyOpt.
Proof. solve_decision. Defined.

(** The options of [Verify]: the expected action, the expected code, and whether to
    execute the RPC. *)
Definition applyOpt (st : Action * Code * bool) (o : verifyOpt) : Action * Code * bool :=
  let '(expectedRes, expectedExecErr, hardVerify) := st in
  match o with
  | ExceptDeny => (ACTION_DENY, PermissionDenied, hardVerify)
  | HardVerify => (expectedRes, expectedExecErr, false)
  end.

Definition Verify (spiffe : Spiffe) (rpc : RPC E) (opts : list verifyOpt) : gost E unit :=
  let '(expectedRes, expectedExecErr, hardVerify) := foldl applyOpt (ACTION_PERMIT, OK, false) opts in
  gnsiC ← mustCall (DialGNSI []);
  action ← mustCall (Authz_Probe gnsiC (ID spiffe) (Path rpc));
  if negb (bool_decide (action = expectedRes)) then lift Panic
  else if hardVerify then
    err ← Exec rpc [WithTransportCredentials (TLSConf spiffe)];
    if bool_decide (status_Code err = expectedExecErr) then mret tt else lift Panic
  else mret tt.
End Device.

(** ** The JSON form of a policy *)

(** A slice with [omitempty] that is empty must be nil to be read back. *)
Definition policy_canonical (p : AuthorizationPolicy) : Prop := AllowRules p <> Some [] /\ DenyRules p <> Some [].

Lemma decode_slice_json {A} (dec : Json -> go A) (enc : A -> Json) l :
  (forall x, dec (enc x) = Ret x) -> decode_slice dec (slice_json enc l) = Ret l.
Proof.
  intros H. destruct l as [l|]; [|done]. cbn [slice_json decode_slice].
  induction l as [|x l IH]; [done|]. change (enc <$> x :: l) with (enc x :: (enc <$> l)). cbn [mapM]. rewrite H.
  cbn [mbind outcome_bind] in *. by destruct (mapM dec (enc <$> l)); simplify_eq/=.
Qed.

Lemma decode_rule r : decode_struct rule_field zero_rule (rule_json r) = Ret r.
Proof.
  destruct r as [n us ps]. unfold rule_json. cbn [decode_struct foldM rule_Name Principals Paths].
  replace (rule_field zero_rule ("name", JString n)) with
    (Ret (E := error) {| rule_Name := n; Principals := None; Paths := None |}) by reflexivity.
  cbn [mbind outcome_bind]. set (r1 := Build_Rule n None None).
  replace (rule_field r1 ("source", JObject [("principals", slice_json JString us)])) with
    (r ← (l ← decode_slice (decode_string "") (slice_json JString us); Ret (E := error) (Build_Rule n l None)); Ret r)
    by (by destruct us).
  rewrite decode_slice_json by done. cbn [mbind outcome_bind]. set (r2 := Build_Rule n us None).
  replace (rule_field r2 ("request", JObject [("paths", slice_json JString ps)])) with
    (r ← (l ← decode_slice (decode_string "") (slice_json JString ps); Ret (E := error) (Build_Rule n us l)); Ret r)
    by (by destruct ps).
  by rewrite decode_slice_json by done.
Qed.

(** The rules of one kind: left out when nil, otherwise decoded to themselves. *)
Lemma decode_rules key (set_rules : AuthorizationPolicy -> option (list Rule) -> AuthorizationPolicy) p l rest :
  (forall j, policy_field p (key, j) = (l ← decode_slice (decode_struct rule_field zero_rule) j; Ret (set_rules p l))) ->
  set_rules p None = p -> l <> Some [] ->
  foldM policy_field p (omitempty key rule_json l ++ rest) = foldM policy_field (set_rules p l) rest.
Proof.
  intros Hf Hn Hl. destruct l as [[|r l]|]; [done| |by rewrite Hn].
  unfold omitempty. cbn [app foldM]. rewrite Hf, (decode_slice_json _ rule_json); [done|]. apply decode_rule.
Qed.

Lemma policy_json_roundtrip p : policy_canonical p ->
  decode_struct policy_field (NewAuthorizationPolicy "") (policy_json p) = Ret p.
Proof.
  intros [Ha Hd]. destruct p as [n al de]. cbn [AllowRules DenyRules] in *. unfold policy_json.
  cbn [decode_struct foldM policy_Name AllowRules DenyRules].
  replace (policy_field (NewAuthorizationPolicy "") ("name", JString n)) with
    (Ret (E := error) (NewAuthorizationPolicy n)) by reflexivity. cbn [mbind outcome_bind].
  rewrite (decode_rules "allow_rules" (fun p l => Build_AuthorizationPolicy (policy_Name p) l (DenyRules p)))
    by (done || (intros j; by destruct j)).
  rewrite <- (app_nil_r (omitempty "deny_rules" rule_json de)).
  rewrite (decode_rules "deny_rules" (fun p l => Build_AuthorizationPolicy (policy_Name p) (AllowRules p) l))
    by (done || (intros j; by destruct j)).
  done.
Qed.

(** ** What the server promises

    The Authz service of gNSI: at most one rotation is open; an upload takes effect at
    once and is undone when the stream closes before it is finalized; [Probe]
    answers as the policy in force decides, deny rules first.  Which patterns
    of a rule match which names is left to the server: a name that a rule lists
    matches. *)
Class AuthzServer (E : Type) `{!GrpcDevice E} `{!JsonText} := {
  serving : E -> Prop;                                        (* reachable *)
  in_force : E -> option GetResponse;
  rotation : E -> option (RotateStream * option GetResponse); (* the open stream, the policy to go back to *)
  clock : E -> Z;
  errors : E -> nat;                                          (* calls of [t.Errorf] *)
  rule_applies : Rule -> string -> string -> bool;
  same (e e' : E) : Prop :=
    serving e' /\ in_force e' = in_force e /\ rotation e' = rotation e /\ clock e <= clock e' /\ errors e' = errors e;
  applies_listed : forall r us ps u path, Principals r = Some us -> Paths r = Some ps -> u ∈ us -> path ∈ ps ->
    rule_applies r u path = true;
  verdict (p : AuthorizationPolicy) (u path : string) : Action :=
    if existsb (fun r => rule_applies r u path) (default [] (DenyRules p)) then ACTION_DENY
    else if existsb (fun r => rule_applies r u path) (default [] (AllowRules p)) then ACTION_PERMIT
    else ACTION_DENY;
  dial : forall e, serving e -> exists c e', DialGNSI [] e = (Ret (inl c), e') /\ same e e';
  get_policy : forall c e r, serving e -> in_force e = Some r ->
    exists e', Authz_Get c e = (Ret (inl r), e') /\ same e e';
  time : forall e, serving e -> exists t e', UnixMicro e = (Ret t, e') /\ clock e <= t /\ same e e';
  open_rotation : forall c e, serving e -> rotation e = None -> exists st e',
    Authz_Rotate c e = (Ret (inl st), e') /\ serving e' /\ in_force e' = in_force e /\
    rotation e' = Some (st, in_force e) /\ clock e <= clock e' /\ errors e' = errors e;
  upload : forall st old u force p e, serving e -> rotation e = Some (st, old) ->
    Unmarshal (NewAuthorizationPolicy "") (Policy u) = Ret p ->
    force = true \/ resp_Version <$> in_force e <> Some (Version u) -> exists e1 e2,
    Rotate_Send st (Upload u force) e = (Ret (inl tt), e1) /\ Rotate_Recv st e1 = (Ret (inl tt), e2) /\
    serving e2 /\ rotation e2 = Some (st, old) /\ clock e <= clock e2 /\ errors e2 = errors e /\
    in_force e2 = Some {| resp_Version := Version u; resp_CreatedOn := CreatedOn u; resp_Policy := Policy u |};
  finalize : forall st old force e, serving e -> rotation e = Some (st, old) -> exists e1 e2,
    Rotate_Send st (Finalize force) e = (Ret (inl tt), e1) /\ Rotate_Recv st e1 = (Ret (inl tt), e2) /\
    serving e2 /\ rotation e2 = None /\ clock e <= clock e2 /\ errors e2 = errors e /\ in_force e2 = in_force e;
  close_stream : forall st e, serving e -> exists e', Rotate_CloseSend st e = (Ret tt, e') /\ serving e' /\
    rotation e' = None /\ errors e' = errors e /\
    in_force e' = match rotation e with Some (_, old) => old | None => in_force e end;
  probe_policy : forall c u path e r p, serving e -> in_force e = Some r ->
    Unmarshal (NewAuthorizationPolicy "") (resp_Policy r) = Ret p ->
    exists e', Authz_Probe c u path e = (Ret (inl (verdict p u path)), e') /\ same e e'
}.

(** ** Rotation *)

Section Rotation.
Context {E : Type} `{GD : !GrpcDevice E} `{JT : !JsonText} `{AS : !AuthzServer E}.

(** The text of [p] is read back as what was written. *)
Definition text_ok (p : AuthorizationPolicy) : Prop :=
  parse_json (print_json (policy_json p)) = Some (policy_json p).

(** Empty slices of rules become nil. *)
Definition canon (p : AuthorizationPolicy) : AuthorizationPolicy :=
  let nilled l := match l with Some [] => None | l => l end in
  {| policy_Name := policy_Name p; AllowRules := nilled (AllowRules p); DenyRules := nilled (DenyRules p) |}.

Lemma canon_canonical p : policy_canonical (canon p).
Proof. destruct p as [n [[]|] [[]|]]; by split. Qed.
Lemma canon_id p : policy_canonical p -> canon p = p.
Proof. destruct p as [n [[]|] [[]|]]; intros [Ha Hd]; done. Qed.
Lemma canon_json p : policy_json (canon p) = policy_json p.
Proof. by destruct p as [n [[]|] [[]|]]. Qed.

Lemma Unmarshal_Marshal p text : text_ok p -> Marshal p = Ret text ->
  Unmarshal (NewAuthorizationPolicy "") text = Ret (canon p).
Proof.
  intros Ht [= <-]. unfold Unmarshal. rewrite Ht, <- canon_json. apply policy_json_roundtrip, canon_canonical.
Qed.

(** The response of the server after an upload. *)
Definition uploaded (p : AuthorizationPolicy) (createdOn : Z) (version : string) : GetResponse :=
  {| resp_Version := version; resp_CreatedOn := createdOn; resp_Policy := print_json (policy_json p) |}.

Lemma same_trans (e1 e2 e3 : E) : same e1 e2 -> same e2 e3 -> same e1 e3.
Proof. intros (_ & H1 & H2 & H3 & H4) (G0 & G1 & G2 & G3 & G4). unfold same. split_and!; try congruence; lia. Qed.

Lemma mustCall_run {A} (m : gost E (A + Err)) e a e' : m e = (Ret (inl a), e') -> mustCall m e = (Ret a, e').
Proof. intros H. unfold mustCall. by rewrite (bind_run _ _ _ _ _ H). Qed.

Lemma Get_run p createdOn version e : serving e -> text_ok p -> version <> "" -> createdOn <= clock e ->
  in_force e = Some (uploaded p createdOn version) ->
  exists e', Get e = (Ret (Some (uploaded p createdOn version), canon p), e') /\ same e e'.
Proof.
  intros Hs Ht Hv Hc Hi. destruct (dial e Hs) as (c & e1 & H1 & S1). pose proof S1 as (Hs1 & I1 & _ & C1 & _).
  destruct (get_policy c e1 _ Hs1 (eq_trans I1 Hi)) as (e2 & H2 & S2). pose proof S2 as (Hs2 & _ & _ & C2 & _).
  destruct (time e2 Hs2) as (t & e3 & H3 & Hle & S3).
  exists e3. split; [|by eapply same_trans; [eapply same_trans|]]. unfold Get.
  rewrite (bind_run _ _ _ _ _ (mustCall_run _ _ _ _ H1)), (bind_run _ _ _ _ _ H2).
  cbn [uploaded resp_Version resp_CreatedOn resp_Policy]. rewrite (proj2 (String.eqb_neq _ _) Hv).
  rewrite (bind_run _ _ e2 tt e2) by done. rewrite (bind_run _ _ _ _ _ H3).
  rewrite (proj2 (Z.ltb_ge t createdOn)) by lia. rewrite (bind_run _ _ e3 tt e3) by done.
  rewrite (bind_run _ _ e3 (canon p) e3); [done|]. unfold lift. by rewrite (Unmarshal_Marshal p _ Ht eq_refl).
Qed.

(** The steps on an open stream, for a policy that is read back as it is or not. *)
Lemma rotateSteps_run p createdOn version force st old e : serving e -> rotation e = Some (st, old) ->
  text_ok p -> version <> "" -> createdOn <= clock e -> force = true \/ resp_Version <$> in_force e <> Some version ->
  exists e', rotateSteps p createdOn version force st e = (if bool_decide (p = canon p) then Ret tt else Panic, e') /\
    serving e' /\ errors e' = errors e /\ in_force e' = Some (uploaded p createdOn version) /\
    rotation e' = if bool_decide (p = canon p) then None else Some (st, old).
Proof.
  intros Hs Hrot Ht Hv Hc Hf.
  set (u := {| Version := version; CreatedOn := createdOn; Policy := print_json (policy_json p) |}).
  destruct (upload st old u force (canon p) e Hs Hrot (Unmarshal_Marshal p _ Ht eq_refl) Hf)
    as (e1 & e2 & H1 & H2 & Hs2 & R2 & C2 & E2 & I2).
  destruct (Get_run p createdOn version e2 Hs2 Ht Hv ltac:(lia) I2) as (e3 & H3 & Hs3 & I3 & R3 & C3 & E3).
  assert (in_force e3 = Some (uploaded p createdOn version)) as Hin by (rewrite I3; exact I2).
  assert (forall k : unit -> gost E unit, (_ ← mustCall (Rotate_Send st (Upload u force)); _ ← mustCall (Rotate_Recv st);
    '(_, t) ← Get; _ ← (if bool_decide (p = t) then mret tt else lift Panic); k tt) e =
    (_ ← (if bool_decide (p = canon p) then mret tt else lift Panic); k tt) e3) as Hfirst.
  { intros k. by rewrite (bind_run _ _ _ _ _ (mustCall_run _ _ _ _ H1)), (bind_run _ _ _ _ _ (mustCall_run _ _ _ _ H2)),
      (bind_run _ _ _ _ _ H3). }
  unfold rotateSteps. rewrite (bind_run _ _ e (print_json (policy_json p)) e) by done. fold u.
  rewrite (Hfirst (fun _ => _ ← mustCall (Rotate_Send st (Finalize false)); _ ← mustCall (Rotate_Recv st);
    '(_, t) ← Get; if bool_decide (p = t) then mret tt else lift Panic)).
  case_bool_decide as Hp; [|exists e3; split_and!; [reflexivity|done|congruence|exact Hin|congruence]].
  rewrite (bind_run _ _ e3 tt e3) by done.
  destruct (finalize st old false e3 Hs3 ltac:(congruence)) as (e4 & e5 & H4 & H5 & Hs5 & R5 & C5 & E5 & I5).
  destruct (Get_run p createdOn version e5 Hs5 Ht Hv ltac:(lia) ltac:(congruence)) as (e6 & H6 & Hs6 & I6 & R6 & C6 & E6).
  exists e6. rewrite (bind_run _ _ _ _ _ (mustCall_run _ _ _ _ H4)), (bind_run _ _ _ _ _ (mustCall_run _ _ _ _ H5)),
    (bind_run _ _ _ _ _ H6). rewrite bool_decide_true by done.
  split_and!; [reflexivity|done|congruence..].
Qed.

(** rotating a policy on a server that accepts it returns with the policy in force
    and final; a policy with an empty but not nil list of rules is read back
    differently, which ends the test and leaves the server with the policy it had. *)
Theorem Rotate_applies p createdOn version force e (Hs : serving e) (Hr : rotation e = None) (Ht : text_ok p)
    (Hv : version <> "") (Hc : createdOn <= clock e)
    (Ha : force = true \/ resp_Version <$> in_force e <> Some version) :
  exists e', Rotate p createdOn version force e = (if bool_decide (p = canon p) then Ret tt else Panic, e') /\
    serving e' /\ rotation e' = None /\ errors e' = errors e /\
    in_force e' = if bool_decide (p = canon p) then Some (uploaded p createdOn version) else in_force e.
Proof.
  destruct (dial e Hs) as (c & e1 & H1 & Hs1 & I1 & R1 & C1 & E1).
  destruct (open_rotation c e1 Hs1 (eq_trans R1 Hr)) as (st & e2 & H2 & Hs2 & I2 & R2 & C2 & E2).
  destruct (rotateSteps_run p createdOn version force st (in_force e1) e2 Hs2 R2 Ht Hv ltac:(lia))
    as (e3 & H3 & Hs3 & E3 & I3 & R3); [by rewrite I2, I1|].
  destruct (close_stream st e3 Hs3) as (e4 & H4 & Hs4 & R4 & E4 & I4).
  exists e4. split.
  - unfold Rotate. rewrite (bind_run _ _ _ _ _ (mustCall_run _ _ _ _ H1)), (bind_run _ _ _ _ _ (mustCall_run _ _ _ _ H2)).
    unfold closing. by rewrite H3, H4.
  - rewrite R3 in I4. split_and!; [done..|congruence|]. case_bool_decide; congruence.
Qed.
End Rotation.

(** ** Verification *)

Section Verification.
Context {E : Type} `{!GrpcDevice E}.

Lemma applyOpt_fold opts : forall a c, foldl applyOpt (a, c, false) opts =
  (if bool_decide (ExceptDeny ∈ opts) then ACTION_DENY else a,
   if bool_decide (ExceptDeny ∈ opts) then PermissionDenied else c, false).
Proof.
  induction opts as [|o opts IH]; intros a c; [done|]. destruct o; cbn [foldl applyOpt]; rewrite IH.
  - rewrite (bool_decide_true (ExceptDeny ∈ ExceptDeny :: opts)) by left. by case_bool_decide.
  - rewrite (bool_decide_ext (ExceptDeny ∈ HardVerify :: opts) (ExceptDeny ∈ opts)); [done|].
    rewrite elem_of_cons. naive_solver.
Qed.

(** C22: [Verify] never executes the RPC, with the option [HardVerify] or without: it
    does the same for all RPCs with the same path; it passes exactly when the device
    answers the probe with deny, if a denial is expected, or permit otherwise. *)
Theorem Verify_only_probes spiffe (rpc rpc' : RPC E) opts e conn e1 action e2
    (Hp : Path rpc = Path rpc')
    (Hd : DialGNSI [] e = (Ret (inl conn), e1))
    (Ha : Authz_Probe conn (ID spiffe) (Path rpc) e1 = (Ret (inl action), e2)) :
  Verify spiffe rpc opts = Verify spiffe rpc' opts /\
  Verify spiffe rpc opts e =
    (if bool_decide (action = if bool_decide (ExceptDeny ∈ opts) then ACTION_DENY else ACTION_PERMIT)
     then Ret tt else Panic, e2).
Proof.
  unfold Verify. rewrite !applyOpt_fold, Hp. split; [done|]. unfold mustCall.
  rewrite (bind_run _ _ e conn e1) by by rewrite (bind_run _ _ _ _ _ Hd).
  rewrite (bind_run _ _ e1 action e2) by (rewrite <- Hp; by rewrite (bind_run _ _ _ _ _ Ha)).
  by case_bool_decide.
Qed.
End Verification.

(** ** From rules to verdicts *)

Section EndToEnd.
Context {E : Type} `{GD : !GrpcDevice E} `{JT : !JsonText} `{AS : !AuthzServer E}.

(** A call of [AddDenyRules] or [AddAllowRules]. *)
Record AddCall := { a_deny : bool; a_name : string; a_users : list string; a_rpcs : list (RPC E) }.
Definition addRule (p : AuthorizationPolicy) (c : AddCall) : AuthorizationPolicy :=
  if a_deny c then AddDenyRules p (a_name c) (Some (a_users c)) (a_rpcs c)
  else AddAllowRules p (a_name c) (Some (a_users c)) (a_rpcs c).
(** A policy that a test builds: a new one, and rules added in any order. *)
Definition policyOf (name : string) (calls : list AddCall) : AuthorizationPolicy :=
  foldl addRule (NewAuthorizationPolicy name) calls.
Definition ruleOf (c : AddCall) : Rule := createRule (a_name c) (Some (a_users c)) (a_rpcs c).

Lemma policyOf_rules name calls :
  policy_canonical (policyOf name calls) /\
  default [] (DenyRules (policyOf name calls)) = ruleOf <$> filter (fun c => a_deny c = true) calls /\
  default [] (AllowRules (policyOf name calls)) = ruleOf <$> filter (fun c => a_deny c = false) calls.
Proof.
  induction calls as [|c calls (Hc & Hd & Ha)] using rev_ind; [done|].
  unfold policyOf in *. rewrite foldl_app. cbn [foldl]. set (p := foldl _ _ calls) in *. clearbody p.
  assert (forall x (l : list Rule), Some (l ++ [x]) <> Some []) as Hne by (intros x [] [=]).
  rewrite !filter_app, !fmap_app. unfold addRule, append. destruct Hc as [Hc1 Hc2].
  destruct (a_deny c) eqn:E1; rewrite !filter_cons, !filter_nil, E1; cbn [AddDenyRules AddAllowRules AllowRules DenyRules].
  - rewrite decide_True, decide_False by done. rewrite fmap_nil, app_nil_r, <- Ha.
    split; [split; [done|apply Hne]|]. split; [|done]. unfold append. simpl. by rewrite Hd.
  - rewrite decide_False, decide_True by done. rewrite fmap_nil, app_nil_r, <- Hd.
    split; [split; [apply Hne|done]|]. split; [done|]. unfold append. simpl. by rewrite Ha.
Qed.

Lemma createRule_Paths (name : string) users (rpcs : list (RPC E)) rpc : rpc ∈ rpcs ->
  exists l, Paths (createRule name users rpcs) = Some l /\ Path rpc ∈ l.
Proof.
  intros Hin. unfold createRule. simpl.
  assert (forall acc, rpcs <> [] -> foldl (fun paths r => append paths (Path r)) acc rpcs =
    Some (default [] acc ++ (Path <$> rpcs))) as Hfold.
  { clear Hin. induction rpcs as [|r rpcs IH]; intros acc Hne; [done|]. simpl.
    destruct rpcs as [|r' rpcs]; [done|]. rewrite IH by done. simpl. by rewrite <- app_assoc. }
  rewrite Hfold by (by intros ->; apply elem_of_nil in Hin). simpl. eexists. split; [done|]. by apply list_elem_of_fmap_2.
Qed.

(** The rule of a call applies to the users and the RPCs it lists. *)
Lemma rule_holds calls c user rpc (deny : bool) : c ∈ calls -> a_deny c = deny -> user ∈ a_users c -> rpc ∈ a_rpcs c ->
  existsb (fun r => rule_applies r user (Path rpc)) (ruleOf <$> filter (fun c => a_deny c = deny) calls) = true.
Proof.
  intros Hc Hd Hu Hr. apply existsb_exists. exists (ruleOf c). split.
  - apply list_elem_of_In, list_elem_of_fmap_2, list_elem_of_filter. done.
  - destruct (createRule_Paths (a_name c) (Some (a_users c)) (a_rpcs c) rpc Hr) as (l & Hl & Hp).
    by apply (applies_listed _ (a_users c) l).
Qed.

Lemma Verify_run spiffe rpc opts p r e : serving e -> in_force e = Some r ->
  Unmarshal (NewAuthorizationPolicy "") (resp_Policy r) = Ret p -> exists e',
  Verify spiffe rpc opts e =
    (if bool_decide (verdict p (ID spiffe) (Path rpc) = if bool_decide (ExceptDeny ∈ opts) then ACTION_DENY else ACTION_PERMIT)
     then Ret tt else Panic, e') /\ same e e'.
Proof.
  intros Hs Hi Hu. destruct (dial e Hs) as (c & e1 & H1 & S1). pose proof S1 as (Hs1 & I1 & _).
  destruct (probe_policy c (ID spiffe) (Path rpc) e1 r p Hs1 (eq_trans I1 Hi) Hu) as (e2 & H2 & S2).
  exists e2. split; [|by eapply same_trans]. unfold Verify. rewrite applyOpt_fold.
  rewrite (bind_run _ _ _ _ _ (mustCall_run _ _ _ _ H1)), (bind_run _ _ _ _ _ (mustCall_run _ _ _ _ H2)).
  by case_bool_decide.
Qed.

End EndToEnd.

(** ** A small server

    An instance of [AuthzServer], for concrete runs: a rule applies to the names it
    lists.  No theorem depends on it. *)
Module RefServer.
Record Server := {
  active : option GetResponse;
  saved : option (option GetResponse);
  now : Z;
  faults : nat
}.
Definition lists (l : option (list string)) (s : string) : bool := bool_decide (s ∈ default [] l).

Section Instance_.
Context `{!JsonText}.

Definition decide_policy (p : AuthorizationPolicy) (u path : string) : Action :=
  let listed r := lists (Principals r) u && lists (Paths r) path in
  if existsb listed (default [] (DenyRules p)) then ACTION_DENY
  else if existsb listed (default [] (AllowRules p)) then ACTION_PERMIT else ACTION_DENY.
Definition probe (s : Server) (user rpc : string) : Action :=
  match active s with
  | None => ACTION_DENY
  | Some r => match Unmarshal (NewAuthorizationPolicy "") (resp_Policy r) with Ret p => decide_policy p user rpc | _ => ACTION_DENY end
  end.
Definition send (q : RotateAuthzRequest) (s : Server) : go (unit + Err) * Server :=
  match q with
  | Upload r force =>
      if negb force && bool_decide (resp_Version <$> active s = Some (Version r))
      then (Ret (inr (Status AlreadyExists "version")), s)
      else (Ret (inl tt), {| active := Some {| resp_Version := Version r; resp_CreatedOn := CreatedOn r;
                                               resp_Policy := Policy r |};
                             saved := saved s; now := now s; faults := faults s |})
  | Finalize _ => (Ret (inl tt), {| active := active s; saved := None; now := now s; faults := faults s |})
  end.

Definition ok {A} (a : A) : gost Server (A + Err) := fun s => (Ret (inl a), s).
Definition no_stream {A} : gost Server (A + Err) := fun s => (Ret (inr (Status Gnxi.Unimplemented "")), s).

#[export] Instance server_device : GrpcDevice Server := {
  Conn := unit; RotateStream := unit; ModifyStream := unit; dut_Name := "dut";
  DialGNMI _ := ok tt; DialGNOI _ := ok tt; DialGNSI _ := ok tt; DialGRIBI _ := ok tt;
  ygnmi_NewClient _ := ok tt; ygnmi_Get_config _ := ok ""; ygnmi_Replace_config _ _ := ok tt;
  ygnmi_Get_state _ := ok ""; gnmi_Capabilities _ := ok tt; System_Time _ := ok tt;
  System_Ping _ _ := no_stream;
  Authz_Get _ := fun s => (Ret (match active s with Some r => inl r | None => inr (Status FailedPrecondition "") end), s);
  Authz_Probe _ user rpc := fun s => (Ret (inl (probe s user rpc)), s);
  Authz_Rotate _ := fun s => (Ret (inl tt), {| active := active s; saved := Some (active s); now := now s; faults := faults s |});
  Rotate_Send _ q := send q;
  Rotate_Recv _ := ok tt;
  Rotate_Drain _ := mret {| msgs := []; last_err := EOF |};
  Rotate_CloseSend _ := fun s => (Ret tt, {| active := default (active s) (saved s); saved := None; now := now s;
                                             faults := faults s |});
  gribi_Flush _ _ := ok tt; gribi_Get _ := no_stream; gribi_Modify _ := ok tt; Modify_Send_params _ := ok tt;
  Modify_Drain _ := mret {| msgs := []; last_err := EOF |};
  Nanosecond := mret 0;
  UnixMicro := fun s => (Ret (now s), s);
  t_Errorf := fun s => (Ret tt, {| active := active s; saved := saved s; now := now s; faults := S (faults s) |})
}.

#[export] Program Instance server_authz : AuthzServer Server := {
  serving _ := True;
  in_force := active;
  rotation s := pair tt <$> saved s;
  clock := now;
  errors := faults;
  rule_applies r u path := lists (Principals r) u && lists (Paths r) path
}.
Next Obligation.
  intros r us ps u path H1 H2 Hu Hp. unfold lists. rewrite H1, H2. apply andb_true_iff. by split; apply bool_decide_eq_true_2.
Qed.
Next Obligation. intros e _. exists tt, e. done. Qed.
Next Obligation. intros c e r _ Hr. simpl in *. rewrite Hr. by exists e. Qed.
Next Obligation. intros e _. exists (now e), e. done. Qed.
Next Obligation. intros c e _ _. exists tt. eexists. split; [reflexivity|]. done. Qed.
Next Obligation.
  intros [] old u force p e _ Hr _ Hf. simpl in *. eexists _, _. split.
  { destruct Hf as [->|Hf]; [reflexivity|]. rewrite bool_decide_false, andb_false_r by done. reflexivity. }
  by split_and!.
Qed.
Next Obligation. intros [] old force e _ Hr. eexists _, _. split; [reflexivity|]. by split_and!. Qed.
Next Obligation. intros [] e _. eexists. split; [reflexivity|]. split_and!; try done. simpl. by destruct (saved e). Qed.
Next Obligation. intros c u path e r p _ Hr Hp. simpl in *. exists e. unfold probe. rewrite Hr, Hp. done. Qed.
End Instance_.
End RefServer.
Import RefServer.

(** ** Witnesses *)

Definition alice : Spiffe := {| ID := "alice"; TLSConf := "" |}.
Definition sampleCalls `{!GrpcDevice Server} : list (AddCall (E := Server)) :=
  [{| a_deny := true; a_name := "set"; a_users := ["alice"]; a_rpcs := [gnmiSet] |};
   {| a_deny := false; a_name := "get"; a_users := ["alice"]; a_rpcs := [gnmiGet] |}].
(** The policy of these calls: one user may get the state and not set it. *)
Definition samplePolicy : AuthorizationPolicy :=
  {| policy_Name := "policy";
     AllowRules := Some [{| rule_Name := "get"; Principals := Some ["alice"]; Paths := Some ["/gnmi.gNMI/Get"] |}];
     DenyRules := Some [{| rule_Name := "set"; Principals := Some ["alice"]; Paths := Some ["/gnmi.gNMI/Set"] |}] |}.
(** A text for this policy. *)
Definition sampleText : JsonText :=
  {| print_json j := "policy"; parse_json s := if String.eqb s "policy" then Some (policy_json samplePolicy) else None |}.
Definition emptyServer : Server := {| active := None; saved := None; now := 10; faults := 0 |}.

Abbreviation sampleDevice := (@server_device sampleText).
Abbreviation sampleAuthz := (@server_authz sampleText).

Lemma Rotate_applies_witness :
  exists e', @Rotate Server sampleDevice sampleText samplePolicy 5 "1" false emptyServer = (Ret tt, e').
Proof.
  destruct (@Rotate_applies Server sampleDevice sampleText sampleAuthz samplePolicy 5 "1" false emptyServer
    I eq_refl eq_refl ltac:(discriminate) ltac:(discriminate) ltac:(right; discriminate)) as (e' & H & _).
  exists e'. exact H.
Defined.

Lemma Verify_only_probes_witness :
  fst (@Verify Server sampleDevice alice (@gnmiGet Server sampleDevice) [HardVerify] emptyServer) = Panic.
Proof.
  rewrite (proj2 (@Verify_only_probes Server sampleDevice alice (@gnmiGet Server sampleDevice)
    (@gnmiGet Server sampleDevice) [HardVerify] emptyServer () emptyServer ACTION_DENY emptyServer
    eq_refl eq_refl eq_refl)).
  reflexivity.
Defined.


(** A file with two services. *)
Definition twoServices : list File := [("gnmi", [("gnmi.gNMI", ["Capabilities"; "Get"])]); ("p4rt", [("p4.v1.P4Runtime", ["Write"])])].


Lemma generator_names_witness : exists l,
  generate title [("gnmi", [service "gnmi.gNMI" ["Capabilities"; "Get"]])] = Ret l /\ length l = 4%nat.
Proof.
  destruct (generator_names title [("gnmi", [service "gnmi.gNMI" ["Capabilities"; "Get"]])]) as (l & H & _).
  - repeat constructor; exists "gnmi.gNMI"; done.
  - exists l. split; [exact H|]. vm_compute in H. injection H as <-. reflexivity.
Defined.
