(* ===== verification/OcPaths.v ===== *)
(** * OpenConfig path specifications

    [src/tools/internal/ocpaths]: the validation of a list of OpenConfig paths
    against the YANG schema ([ValidatePaths]) and the download of the schema
    ([ClonePublicRepo]).  Schema entries and the YANG parser (goyang, models-ci)
    and the names of the platform components (the generated OpenConfig package)
    are parameters; a nil [*yang.Entry] is [None]. *)
From stdpp Require Import base list gmap strings sorting.
From Stdlib Require Import Lia Ascii.
From S2P Require Import Prelude GoStrings.

(** ** The messages of [ocpaths.proto] that are read here *)

(** A nil message and an empty one have the same getters. *)
Record OCPathConstraint := { PlatformType : option string }.
Record PbOCPath := {
  Name : string;
  OcpathConstraint : option OCPathConstraint;
  Featureprofileid : string
}.
#[global] Instance OCPathConstraint_eq_dec : EqDecision OCPathConstraint.
Proof. solve_decision. Defined.
#[global] Instance PbOCPath_eq_dec : EqDecision PbOCPath.
Proof. solve_decision. Defined.

Definition GetPlatformType (c : option OCPathConstraint) : string :=
  default "" (c ≫= PlatformType).

(** ** Paths *)

Record OCPathKey := { Path : string; Key_PlatformType : string }.
#[global] Instance OCPathKey_eq_dec : EqDecision OCPathKey.
Proof. solve_decision. Defined.
#[global] Instance OCPathKey_countable : Countable OCPathKey.
Proof.
  refine (inj_countable' (fun k => (Path k, Key_PlatformType k)) (fun p => {| Path := p.1; Key_PlatformType := p.2 |}) _).
  by intros [].
Defined.

Record OCPath := { Key : OCPathKey; FeatureprofileID : string }.
#[global] Instance OCPath_eq_dec : EqDecision OCPath.
Proof. solve_decision. Defined.

Definition convertOCPath (p : PbOCPath) : OCPath :=
  {| Key := {| Path := Name p; Key_PlatformType := GetPlatformType (OcpathConstraint p) |};
     FeatureprofileID := Featureprofileid p |}.

(** *** [featureprofileIDRegex]: the language of [^([a-z0-9]+_)*[a-z0-9]+$] *)

Definition idChar (c : ascii) : bool :=
  let n := nat_of_ascii c in
  ((97 <=? n) && (n <=? 122)) || ((48 <=? n) && (n <=? 57)).

(** [[a-z0-9]+] *)
Inductive idWord : string -> Prop :=
| idWord_one c : idChar c = true -> idWord (String c "")
| idWord_more c s : idChar c = true -> idWord s -> idWord (String c s).
Inductive idRegex : string -> Prop :=
| idRegex_last w : idWord w -> idRegex w
| idRegex_word w s : idWord w -> idRegex s -> idRegex (w +:+ "_" +:+ s).

(** The matcher: [word] tells that the last byte read ends a word. *)
Fixpoint matchID (word : bool) (s : string) : bool :=
  match s with
  | EmptyString => word
  | String c s =>
      if idChar c then matchID true s
      else if Ascii.eqb c "_" then word && matchID false s
      else false
  end.
Definition featureprofileIDMatcher (s : string) : bool := matchID false s.

(** *** The schema *)

(** [yang.Entry] of goyang. *)
Class Goyang (Entry : Type) := {
  entry_Name : Entry -> string;
  entry_Kind : Entry -> string;
  entry_Dir : Entry -> gmap string Entry;
  Find : Entry -> string -> option Entry;
  IsLeaf : Entry -> bool;
  IsLeafList : Entry -> bool;
  (** [&yang.Entry{Dir: m}] *)
  newRoot : gmap string Entry -> Entry;
  newRoot_Dir m : entry_Dir (newRoot m) = m
}.

(** [yangutil.GetAllYANGFiles] and [yangentry.Parse]; the modules are listed in
    the order in which the map is ranged over. *)
Class YangParser (Entry : Type) := {
  GetAllYANGFiles : string -> go (list string);
  yangentry_Parse : list string -> list string -> list (string * Entry) * list error
}.

(** The names of the hardware and software component identities. *)
Class ComponentNames := { validComponentNames : gset string }.

Definition componentPrefix : string := "/components/component".

Section Paths.
Context {Entry : Type} {GY : Goyang Entry} {YP : YangParser Entry} {CN : ComponentNames}.

Definition addModule (dir : gmap string Entry) (m : string * Entry) : gmap string Entry :=
  if negb (HasPrefix (entry_Name m.2) "openconfig-") then dir
  else entry_Dir m.2 ∪ dir.

(** When the files do not parse, the error returned is the [err] of the call
    before, which is nil there. *)
Definition getSchemaFakeroot (publicPath : string) : go (option Entry) :=
  files ← GetAllYANGFiles publicPath;
  let '(modules, errs) := yangentry_Parse files [publicPath] in
  match errs with
  | _ :: _ => Ret None
  | [] => Ret (Some (newRoot (foldl addModule ∅ modules)))
  end.

(** The remaining path after the deepest entry that is found. *)
Fixpoint entryNotFound (deepest : Entry) (eles : list string) : string :=
  match eles with
  | [] => ""
  | ele :: rest =>
      match entry_Dir deepest !! ele with
      | None => Join eles "/"
      | Some next => entryNotFound next rest
      end
  end.

(** The three checks of [validatePath] after those of the slashes. *)
Definition validateEntry (path : string) (root : Entry) : go unit :=
  match Find root path with
  | None =>
      let rest := entryNotFound root (tail (split_on "/" path)) in
      Fail (errors_New ("path not found: " +:+ path +:+ ", remaining path: " +:+ rest))
  | Some entry =>
      if negb (IsLeaf entry) && negb (IsLeafList entry)
      then Fail (errors_New ("path " +:+ path +:+ " is not a leaf: got kind " +:+ entry_Kind entry))
      else Ret tt
  end.
Definition validateComponent (path component : string) : go unit :=
  let isComponentPath := HasPrefix path componentPrefix in
  if negb isComponentPath && negb (String.eqb component "")
  then Fail (errors_New ("non-component path " +:+ path +:+ " has component value " +:+ component))
  else if negb isComponentPath then Ret tt
  else if negb (bool_decide (component ∈ validComponentNames))
  then Fail (errors_New ("path " +:+ path +:+ " has invalid component " +:+ component))
  else Ret tt.
Definition validateID (path id : string) : go unit :=
  if negb (String.eqb id "") && negb (featureprofileIDMatcher id)
  then Fail (errors_New ("unexpected featureprofileID string " +:+ id +:+ " for path " +:+ path))
  else Ret tt.

(** The assignments to [ocpath] write back the values read from it. *)
Definition validatePath (ocpath : OCPath) (root : option Entry) : go unit :=
  let path := Path (Key ocpath) in
  if negb (HasPrefix path "/") then Fail (errors_New ("path does not begin with slash: " +:+ path))
  else if HasSuffix path "/" then Fail (errors_New ("path must not end with slash: " +:+ path))
  else
  match root with
  | None => Panic
  | Some root =>
      _ ← validateEntry path root;
      _ ← validateComponent path (Key_PlatformType (Key ocpath));
      validateID path (FeatureprofileID ocpath)
  end.

(** [insert] of a path that is not nil. *)
Definition insert (dstMap : gmap OCPathKey OCPath) (src : OCPath) : go (gmap OCPathKey OCPath) :=
  match dstMap !! Key src with
  | Some _ => Fail (errors_New ("duplicate entry: " +:+ Path (Key src) +:+ " " +:+ Key_PlatformType (Key src)))
  | None => Ret (<[Key src := src]> dstMap)
  end.

Record validation := {
  ocpaths : gmap OCPathKey OCPath;
  invalidOCPaths : gmap OCPathKey OCPath;
  errs : list error
}.

Definition validateStep (root : option Entry) (st : validation) (p : PbOCPath) : go validation :=
  let ocpath := convertOCPath p in
  match validatePath ocpath root with
  | Fail e =>
      Ret {| ocpaths := ocpaths st; invalidOCPaths := <[Key ocpath := ocpath]> (invalidOCPaths st); errs := errs st ++ [e] |}
  | Ret _ =>
      match insert (ocpaths st) ocpath with
      | Fail e => Ret {| ocpaths := ocpaths st; invalidOCPaths := invalidOCPaths st; errs := errs st ++ [e] |}
      | Ret m => Ret {| ocpaths := m; invalidOCPaths := invalidOCPaths st; errs := errs st |}
      | Panic => Panic
      | NoFuel => NoFuel
      end
  | Panic => Panic
  | NoFuel => NoFuel
  end.

(** An empty map is returned as nil. *)
Definition nilIfEmpty (m : gmap OCPathKey OCPath) : option (gmap OCPathKey OCPath) :=
  if bool_decide (m = ∅) then None else Some m.

(** The two maps and the collected errors; [Fail] is the early return. *)
Definition ValidatePaths (ocpathsProto : list PbOCPath) (publicPath : string)
  : go (option (gmap OCPathKey OCPath) * option (gmap OCPathKey OCPath) * list error) :=
  root ← getSchemaFakeroot publicPath;
  st ← foldM (validateStep root) {| ocpaths := ∅; invalidOCPaths := ∅; errs := [] |} ocpathsProto;
  Ret (nilIfEmpty (ocpaths st), nilIfEmpty (invalidOCPaths st), errs st).
End Paths.

(** ** Downloading a repository *)

(** What [os.Stat] and [git] are to this code: the paths that exist, and the
    three steps of running a command. *)
Class Shell (W : Type) := {
  Stat : W -> string -> bool;
  StderrPipe : list string -> gost W unit;
  Start : list string -> gost W unit;
  Wait : list string -> gost W unit
}.

Section Clone.
Context {W : Type} {SH : Shell W}.

(** [cmd.StderrPipe], [cmd.Start] and [cmd.Wait] of [git args]; [repo] is the
    repository named in the errors. *)
Definition runGit (repo : string) (args : list string) : gost W unit := fun w =>
  match StderrPipe args w with
  | (Ret _, w) =>
      match Start args w with
      | (Ret _, w) =>
          match Wait args w with
          | (Ret _, w) => (Ret tt, w)
          | (Fail e, w) =>
              (Fail (errors_New ("failed to clone " +:+ repo +:+ " repo: " +:+ err_msg e +:+ ", command failed during execution")), w)
          | (Panic, w) => (Panic, w)
          | (NoFuel, w) => (NoFuel, w)
          end
      | (Fail e, w) =>
          (Fail (errors_New ("failed to clone " +:+ repo +:+ " repo: " +:+ err_msg e +:+ ", command failed to start")), w)
      | (Panic, w) => (Panic, w)
      | (NoFuel, w) => (NoFuel, w)
      end
  | (Fail e, w) => (Fail e, w)
  | (Panic, w) => (Panic, w)
  | (NoFuel, w) => (NoFuel, w)
  end.

Definition publicArgs (publicPath branch : string) : list string :=
  ["clone"; "--depth"; "1"; "https://github.com/openconfig/public.git"; publicPath]
  ++ (if negb (String.eqb branch "") then ["-b"; branch; "--single-branch"] else []).

Definition ClonePublicRepo (downloadPath branch : string) : gost W string :=
  if String.eqb downloadPath "" then lift (Fail (errors_New "must provide download path"))
  else
    let publicPath := JoinPath [downloadPath; "public"] in
    w ← getState;
    if Stat w publicPath then mret publicPath
    else
      _ ← runGit "public" (publicArgs publicPath branch);
      mret publicPath.
End Clone.

(** * Theorems *)

(** ** The identifier expression *)

Lemma idRegex_cons c s : idChar c = true -> idRegex s -> idRegex (String c s).
Proof.
  intros Hc [w Hw|w t Hw Ht]; [by apply idRegex_last, idWord_more|].
  rewrite <- str_app_cons. by apply idRegex_word; [apply idWord_more|].
Qed.

Lemma matchID_sound s :
  (matchID false s = true -> idRegex s)
  /\ (matchID true s = true -> forall c, idChar c = true -> idRegex (String c s)).
Proof.
  induction s as [|d s [IHf IHt]]; cbn [matchID]; [by split; [|eauto using idRegex, idWord]|].
  destruct (idChar d) eqn:Hd; [by eauto using idRegex_cons|].
  destruct (Ascii.eqb_spec d "_") as [->|]; [|done]. split; [done|].
  intros H c Hc. by apply (idRegex_word (String c "")); [constructor|apply IHf].
Qed.

Lemma matchID_word b w t : idWord w -> matchID b (w +:+ t) = matchID true t.
Proof.
  intros Hw. revert b. induction Hw as [c Hc|c w Hc _ IH]; intros b; rewrite str_app_cons; cbn [matchID]; by rewrite Hc.
Qed.

(** The matcher decides the regular expression. *)
Lemma featureprofileIDMatcher_spec s : featureprofileIDMatcher s = true <-> idRegex s.
Proof.
  split; [apply matchID_sound|]. induction 1 as [w Hw|w s Hw _ IH]; unfold featureprofileIDMatcher in *.
  - by rewrite <- (str_app_nil_r w), matchID_word.
  - by rewrite matchID_word.
Qed.

(** ** One path *)

Section PathTheorems.
Context {Entry : Type} {GY : Goyang Entry} {YP : YangParser Entry} {CN : ComponentNames}.

(** [m] returns if [P] holds and reports an error if it does not. *)
Definition decides (m : go unit) (P : Prop) : Prop :=
  (m = Ret tt /\ P) \/ ((exists e, m = Fail e) /\ ~ P).

Lemma decides_bind m k P Q : decides m P -> decides k Q -> decides (_ ← m; k) (P /\ Q).
Proof. intros [[-> ?]|[[e ->] ?]] [[-> ?]|[[e' ->] ?]]; unfold decides; cbn; naive_solver. Qed.

Lemma decides_iff m P Q : (P <-> Q) -> decides m P -> decides m Q.
Proof. unfold decides. tauto. Qed.

(** What a path must be: a leaf of the schema, with a component exactly when it
    is below the components, and a well-formed feature profile if there is one. *)
Definition slashed (path : string) : Prop := HasPrefix path "/" = true /\ HasSuffix path "/" = false.
Definition leaf (root : Entry) (path : string) : Prop :=
  exists e, Find root path = Some e /\ (IsLeaf e = true \/ IsLeafList e = true).
Definition component_ok (path component : string) : Prop :=
  if HasPrefix path componentPrefix then component ∈ validComponentNames else component = "".
Definition wanted (root : Entry) (p : OCPath) : Prop :=
  slashed (Path (Key p)) /\ leaf root (Path (Key p))
  /\ component_ok (Path (Key p)) (Key_PlatformType (Key p))
  /\ (FeatureprofileID p = "" \/ idRegex (FeatureprofileID p)).

Lemma validateEntry_decides path root : decides (validateEntry path root) (leaf root path).
Proof.
  unfold validateEntry, leaf, decides. destruct (Find root path) as [e|]; [|right; naive_solver].
  destruct (IsLeaf e) eqn:H1, (IsLeafList e) eqn:H2; cbn; [left; naive_solver..|right; split; [eauto|]].
  intros (e' & [= <-] & [|]); congruence.
Qed.

Lemma validateComponent_decides path c : decides (validateComponent path c) (component_ok path c).
Proof.
  unfold validateComponent, component_ok, decides. destruct (HasPrefix path componentPrefix); cbn.
  - case_bool_decide; cbn; naive_solver.
  - destruct (String.eqb_spec c ""); cbn; naive_solver.
Qed.

Lemma validateID_decides path id : decides (validateID path id) (id = "" \/ idRegex id).
Proof.
  unfold validateID, decides. rewrite <- featureprofileIDMatcher_spec.
  destruct (String.eqb_spec id ""), (featureprofileIDMatcher id); cbn; naive_solver.
Qed.

Lemma validatePath_decides p (root : Entry) : decides (validatePath p (Some root)) (wanted root p).
Proof.
  unfold validatePath, wanted, slashed.
  destruct (HasPrefix (Path (Key p)) "/"); [|right; naive_solver].
  destruct (HasSuffix (Path (Key p)) "/"); [right; naive_solver|]. cbn [negb].
  eapply decides_iff; [|apply decides_bind, decides_bind;
    [apply validateEntry_decides|apply validateComponent_decides|apply validateID_decides]].
  tauto.
Qed.

(** Without a schema. *)
Lemma validateStep_nil p st :
  (slashed (Name p) /\ validateStep (None : option Entry) st p = Panic)
  \/ (~ slashed (Name p) /\ exists st', validateStep (None : option Entry) st p = Ret st').
Proof.
  unfold validateStep, validatePath, slashed. cbn [convertOCPath Key Path].
  destruct (HasPrefix (Name p) "/"), (HasSuffix (Name p) "/"); cbn; naive_solver.
Qed.

#[global] Instance wanted_dec root p : Decision (wanted root p).
Proof.
  destruct (validatePath p (Some root)) eqn:E; [left|right|exfalso..];
    destruct (validatePath_decides p root) as [[??]|[[??]?]]; congruence.
Defined.

(** ** A list of paths *)

(** What the loop has collected after the paths [l]. *)
Record collected (root : Entry) (l : list OCPath) (st : validation) : Prop := {
  collected_valid k : ocpaths st !! k = head (filter (fun p => Key p = k /\ wanted root p) l);
  collected_invalid k : invalidOCPaths st !! k = last (filter (fun p => Key p = k /\ ~ wanted root p) l);
  collected_count : length (errs st) + size (ocpaths st) = length l;
  collected_errs : errs st = [] <-> Forall (wanted root) l /\ NoDup (Key <$> l)
}.

Lemma head_filter_snoc {A} (P : A -> Prop) {D : forall x, Decision (P x)} l x :
  head (filter P (l ++ [x])) = match head (filter P l) with Some y => Some y | None => if decide (P x) then Some x else None end.
Proof. rewrite filter_app. destruct (filter P l); [|done]. rewrite filter_cons, filter_nil. by case_decide. Qed.

Lemma last_filter_snoc {A} (P : A -> Prop) {D : forall x, Decision (P x)} l x :
  last (filter P (l ++ [x])) = if decide (P x) then Some x else last (filter P l).
Proof. rewrite filter_app, filter_cons, filter_nil. case_decide; [by rewrite last_snoc|by rewrite app_nil_r]. Qed.

Lemma filter_nil_iff {A} (P : A -> Prop) {D : forall x, Decision (P x)} l :
  filter P l = [] <-> Forall (fun x => ~ P x) l.
Proof.
  rewrite Forall_forall. split; [intros H x Hx HP; by apply (filter_nil_not_elem_of P l x)|].
  intros H. destruct (filter P l) as [|y ys] eqn:E; [done|]. exfalso.
  assert (y ∈ filter P l) as Hy by (rewrite E; left). apply list_elem_of_filter in Hy as [??]. by apply (H y).
Qed.

Lemma head_filter_None {A} (P : A -> Prop) {D : forall x, Decision (P x)} l :
  head (filter P l) = None <-> Forall (fun x => ~ P x) l.
Proof. rewrite <- (filter_nil_iff P). destruct (filter P l); cbn; split; congruence. Qed.

Lemma keys_snoc (l : list OCPath) x :
  NoDup (Key <$> l ++ [x]) <-> NoDup (Key <$> l) /\ Forall (fun p => Key p <> Key x) l.
Proof.
  rewrite fmap_app, NoDup_app, Forall_forall. split.
  - intros (? & H & _). split; [done|]. intros p Hp Hk. apply (H (Key p)); [by apply list_elem_of_fmap_2|].
    rewrite Hk. left.
  - intros [? H]. split; [done|]. split; [|apply NoDup_singleton].
    intros k Hk. apply list_elem_of_fmap in Hk as (p & -> & Hp). intros Hin%list_elem_of_singleton. by apply (H p).
Qed.

(** The two cases of one round of the loop. *)
Lemma collected_bad root l x st e :
  collected root l st -> ~ wanted root x ->
  collected root (l ++ [x])
    {| ocpaths := ocpaths st; invalidOCPaths := <[Key x := x]> (invalidOCPaths st); errs := errs st ++ [e] |}.
Proof.
  intros [Hv Hi Hc He] Hw. constructor; cbn [ocpaths invalidOCPaths errs].
  - intros k. rewrite Hv, head_filter_snoc. rewrite decide_False by tauto. by case_match.
  - intros k. rewrite last_filter_snoc, <- Hi. destruct (decide (Key x = k)) as [<-|Hk].
    + by rewrite lookup_insert_eq, decide_True.
    + rewrite lookup_insert_ne by done. by rewrite decide_False by tauto.
  - rewrite !length_app. cbn. lia.
  - split; [by destruct (errs st)|]. rewrite Forall_app, Forall_singleton. tauto.
Qed.

Lemma collected_new root l x st :
  collected root l st -> wanted root x -> ocpaths st !! Key x = None ->
  collected root (l ++ [x])
    {| ocpaths := <[Key x := x]> (ocpaths st); invalidOCPaths := invalidOCPaths st; errs := errs st |}.
Proof.
  intros [Hv Hi Hc He] Hw Hnew. constructor; cbn [ocpaths invalidOCPaths errs].
  - intros k. rewrite head_filter_snoc. destruct (decide (Key x = k)) as [<-|Hk].
    + rewrite lookup_insert_eq, <- Hv, Hnew. by rewrite decide_True.
    + rewrite lookup_insert_ne, <- Hv by done. rewrite decide_False by tauto. by case_match.
  - intros k. rewrite last_filter_snoc, <- Hi. by rewrite decide_False by tauto.
  - rewrite map_size_insert_None, length_app by done. cbn. lia.
  - rewrite He, Forall_app, Forall_singleton, keys_snoc.
    rewrite Hv, head_filter_None in Hnew. rewrite Forall_forall in Hnew.
    split; [|tauto]. intros [Ha Hn]. split; [by split|]. split; [done|].
    rewrite Forall_forall in Ha |- *. naive_solver.
Qed.

Lemma collected_dup root l x y st e :
  collected root l st -> wanted root x -> ocpaths st !! Key x = Some y ->
  collected root (l ++ [x])
    {| ocpaths := ocpaths st; invalidOCPaths := invalidOCPaths st; errs := errs st ++ [e] |}.
Proof.
  intros [Hv Hi Hc He] Hw Hdup. constructor; cbn [ocpaths invalidOCPaths errs].
  - intros k. rewrite Hv, head_filter_snoc. case_match eqn:E; [done|].
    rewrite decide_False; [done|]. intros [<- _]. rewrite <- Hv in E. congruence.
  - intros k. rewrite last_filter_snoc, <- Hi. by rewrite decide_False by tauto.
  - rewrite !length_app. cbn. lia.
  - split; [by destruct (errs st)|]. rewrite Forall_app, keys_snoc. intros [_ [_ Hn]]. exfalso.
    rewrite Hv in Hdup. assert (y ∈ filter (fun p => Key p = Key x /\ wanted root p) l) as Hy.
    { destruct (filter _ l); [done|]. injection Hdup as <-. left. }
    apply list_elem_of_filter in Hy as [[Hk _] Hy]. rewrite Forall_forall in Hn. by apply (Hn y).
Qed.

Lemma validateStep_collected root l p st :
  collected root l st ->
  exists st', validateStep (Some root) st p = Ret st' /\ collected root (l ++ [convertOCPath p]) st'.
Proof.
  intros Hst. unfold validateStep. set (x := convertOCPath p).
  destruct (validatePath_decides x root) as [[-> Hw]|[[e ->] Hw]]; [|eauto using collected_bad].
  unfold insert. destruct (ocpaths st !! Key x) eqn:E; eauto using collected_new, collected_dup.
Qed.

Lemma collected_nil root : collected root [] {| ocpaths := ∅; invalidOCPaths := ∅; errs := [] |}.
Proof. constructor; try done. split; [by repeat constructor|done]. Qed.

Lemma validate_loop root protos l st :
  collected root l st ->
  exists st', foldM (validateStep (Some root)) st protos = Ret st' /\ collected root (l ++ (convertOCPath <$> protos)) st'.
Proof.
  revert l st. induction protos as [|p protos IH]; intros l st Hst; cbn [foldM fmap list_fmap].
  - exists st. by rewrite app_nil_r.
  - destruct (validateStep_collected root l p st Hst) as (st1 & -> & H1). cbn [mbind outcome_bind].
    destruct (IH _ _ H1) as (st2 & -> & H2). exists st2. by rewrite <- app_assoc in H2.
Qed.

Lemma nilIfEmpty_lookup m k : default ∅ (nilIfEmpty m) !! k = m !! k.
Proof. unfold nilIfEmpty. case_bool_decide; by subst. Qed.

(** The top level of the schema: under each name the node of the last OpenConfig
    module that has one, so that the order of the modules only matters when two
    of them share a top-level name. *)
Lemma schema_lookup dir modules name :
  foldl addModule dir modules !! name
  = match last (omap (fun m : string * Entry =>
                  if HasPrefix (entry_Name m.2) "openconfig-" then entry_Dir m.2 !! name else None) modules) with
    | Some e => Some e
    | None => dir !! name
    end.
Proof.
  induction modules as [|m modules IH] using rev_ind; [done|].
  rewrite foldl_app, omap_app. cbn [foldl omap list_omap]. unfold addModule at 1.
  destruct (HasPrefix (entry_Name m.2) "openconfig-"); cbn [negb]; [|by rewrite app_nil_r].
  rewrite lookup_union. destruct (entry_Dir m.2 !! name); [rewrite last_snoc|rewrite app_nil_r].
  - by destruct (foldl _ _ _ !! name).
  - rewrite IH. case_match; [done|]. by destruct (dir !! name).
Qed.

Lemma ValidatePaths_returns protos publicPath root :
  getSchemaFakeroot publicPath = Ret (Some root) ->
  let l := convertOCPath <$> protos in
  exists valid invalid es,
    ValidatePaths protos publicPath = Ret (valid, invalid, es)
    /\ (forall k, default ∅ valid !! k = head (filter (fun p => Key p = k /\ wanted root p) l))
    /\ (forall k, default ∅ invalid !! k = last (filter (fun p => Key p = k /\ ~ wanted root p) l))
    /\ length es + size (default ∅ valid) = length protos
    /\ (es = [] <-> Forall (wanted root) l /\ NoDup (Key <$> l)).
Proof.
  intros Hroot l. unfold ValidatePaths. rewrite Hroot. cbn [mbind outcome_bind].
  destruct (validate_loop root protos [] _ (collected_nil root)) as (st & -> & [Hv Hi Hc He]).
  do 3 eexists. split; [done|]. rewrite app_nil_l in *.
  split; [intros k; by rewrite nilIfEmpty_lookup|]. split; [intros k; by rewrite nilIfEmpty_lookup|]. split; [|done].
  rewrite length_fmap in Hc. rewrite <- Hc. f_equal. unfold nilIfEmpty. case_bool_decide as E; [by rewrite E|done].
Qed.

(** once the schema is read, [ValidatePaths] returns: the first map holds
    under each key the first path that is a leaf of the schema with the component
    its path calls for and a well-formed feature profile, the second map the last
    path with that key that is not, nothing else; every path either enters the
    first map or adds an error, and there is no error exactly when all the paths
    are valid and no two have the same key. *)
Theorem ValidatePaths_spec protos publicPath root :
  getSchemaFakeroot publicPath = Ret (Some root) ->
  let l := convertOCPath <$> protos in
  exists valid invalid es,
    ValidatePaths protos publicPath = Ret (valid, invalid, es)
    /\ (forall k, default ∅ valid !! k = head (filter (fun p => Key p = k /\ wanted root p) l))
    /\ (forall k, default ∅ invalid !! k = last (filter (fun p => Key p = k /\ ~ wanted root p) l))
    /\ length es + size (default ∅ valid) = length protos
    /\ (es = [] <-> Forall (wanted root) l /\ NoDup (Key <$> l)).
Proof. apply ValidatePaths_returns. Qed.

(** when the YANG files do not parse, no error is returned for that and the
    schema is nil: [ValidatePaths] then panics exactly when one of the paths has a
    leading and no trailing slash, and otherwise returns, without an error when
    there are no paths. *)
Theorem ValidatePaths_unparsed protos publicPath files modules e es :
  GetAllYANGFiles publicPath = Ret files ->
  yangentry_Parse files [publicPath] = (modules, e :: es) ->
  (ValidatePaths protos publicPath = Panic <-> Exists (fun p => slashed (Name p)) protos)
  /\ (ValidatePaths [] publicPath = Ret (None, None, [])).
Proof.
  intros Hf Hp. assert (getSchemaFakeroot publicPath = Ret None) as Hroot.
  { unfold getSchemaFakeroot. rewrite Hf. cbn. by rewrite Hp. }
  unfold ValidatePaths. rewrite Hroot. cbn [mbind outcome_bind]. split; [|done].
  generalize {| ocpaths := ∅; invalidOCPaths := ∅; errs := [] |}.
  induction protos as [|p protos IH]; intros st; cbn [foldM]; [by rewrite Exists_nil|].
  rewrite Exists_cons.
  destruct (validateStep_nil p st) as [[Hs ->]|[Hs [st' ->]]]; cbn [mbind outcome_bind]; [split; auto|].
  rewrite IH. tauto.
Qed.
End PathTheorems.

(** ** A schema for the witnesses *)

Module Ref.
Inductive entry := Entry (name kind : string) (children : list (string * entry)).

Definition children (e : entry) : gmap string entry := let '(Entry _ _ l) := e in list_to_map l.
Fixpoint walk (e : entry) (eles : list string) : option entry :=
  match eles with
  | [] => Some e
  | ele :: eles => children e !! ele ≫= fun e => walk e eles
  end.

#[refine] Instance goyang : Goyang entry := {|
  entry_Name e := let '(Entry n _ _) := e in n;
  entry_Kind e := let '(Entry _ k _) := e in k;
  entry_Dir := children;
  Find e path := walk e (tail (split_on "/" path));
  IsLeaf e := let '(Entry _ k _) := e in String.eqb k "Leaf";
  IsLeafList e := let '(Entry _ k _) := e in String.eqb k "LeafList";
  newRoot m := Entry "" "Directory" (map_to_list m)
|}.
Proof. intros m. apply list_to_map_to_list. Defined.

Definition dir (name : string) (l : list entry) : string * entry :=
  (name, Entry name "Directory" ((fun e => (entry_Name e, e)) <$> l)).
Definition leaf (name : string) : entry := Entry name "Leaf" [].

Definition modules : list (string * entry) :=
  [dir "openconfig-platform" [(dir "components" [(dir "component" [leaf "name"]).2]).2];
   dir "openconfig-system" [(dir "system" [leaf "hostname"]).2];
   dir "ietf-yang-types" [leaf "hostname"]].

Instance parser : YangParser entry := {|
  GetAllYANGFiles path := Ret [path];
  yangentry_Parse files _ := if bool_decide (files = ["broken"]) then ([], [errors_New "syntax error"]) else (modules, [])
|}.
Definition root : entry := newRoot (foldl addModule ∅ modules).
Instance names : ComponentNames := {| validComponentNames := {["CHASSIS"; "LINECARD"]} |}.

Definition path (name : string) (platform : option string) (id : string) : PbOCPath :=
  {| Name := name; OcpathConstraint := (fun p => {| PlatformType := Some p |}) <$> platform; Featureprofileid := id |}.
Definition paths : list PbOCPath :=
  [path "/system/hostname" None "system_hostname";
   path "/components/component/name" (Some "CHASSIS") "";
   path "/components/component/name" None "";
   path "/system/hostname" None "system__hostname";
   path "/system" None ""].
End Ref.
#[local] Existing Instances Ref.goyang Ref.parser Ref.names.

Lemma ValidatePaths_spec_witness :
  let l := convertOCPath <$> Ref.paths in
  exists valid invalid es,
    ValidatePaths Ref.paths "public" = Ret (valid, invalid, es)
    /\ (forall k, default ∅ valid !! k = head (filter (fun p => Key p = k /\ wanted Ref.root p) l))
    /\ (forall k, default ∅ invalid !! k = last (filter (fun p => Key p = k /\ ~ wanted Ref.root p) l))
    /\ length es + size (default ∅ valid) = length Ref.paths
    /\ (es = [] <-> Forall (wanted Ref.root) l /\ NoDup (Key <$> l)).
Proof. apply (ValidatePaths_spec Ref.paths "public" Ref.root). reflexivity. Defined.

(** Two paths are valid, one of the others repeats the key of a valid one. *)
Example ValidatePaths_example :
  match ValidatePaths Ref.paths "public" with
  | Ret (Some valid, Some invalid, es) => (size valid, size invalid, length es) = (2, 3, 3)
  | _ => False
  end.
Proof. vm_compute. reflexivity. Qed.

Lemma ValidatePaths_unparsed_witness :
  ValidatePaths Ref.paths "broken" = Panic.
Proof.
  apply (ValidatePaths_unparsed Ref.paths "broken" ["broken"] [] (errors_New "syntax error") []);
    [reflexivity..|]. apply Exists_cons_hd. split; reflexivity.
Defined.
