(* ===== verification/OcRpcs.v ===== *)
(** * OpenConfig RPC specifications

    [src/tools/internal/ocrpcs]: the RPCs that the protocol buffer files of an
    OpenConfig repository declare ([Read], with the visitor of [visitor.go]) and
    the validation of a list of RPCs against them ([ValidateRPCs]).  The parser of
    protocol buffer files (go-protoparser) is a parameter, and so are the file
    system and git. *)
From stdpp Require Import base list gmap strings sorting.
From Stdlib Require Import Lia Ascii.
From S2P Require Import Prelude GoStrings.
From S2P Require Import OcPaths.

(** ** The visitor *)

(** The elements that [parser.Visitor] distinguishes. *)
Inductive element :=
| Comment
| EmptyStatement
| Enum
| EnumField
| Extend
| Extensions
| Field
| GroupField
| Import
| MapField
| Message
| Oneof
| OneofField
| Option
| Package (name : string)
| Reserved
| RPC (rpcName : string)
| Service (serviceName : string)
| Syntax.

(** An element of a parsed file and the elements of its body. *)
Inductive visitee := Visitee (e : element) (body : list visitee).
Definition elem (v : visitee) : element := let '(Visitee e _) := v in e.
Definition body (v : visitee) : list visitee := let '(Visitee _ b) := v in b.

Record rpcServiceAccumulator := {
  packageName : string;
  currentService : string;
  acc_rpcs : list string
}.
Definition newAccumulator : rpcServiceAccumulator :=
  {| packageName := ""; currentService := ""; acc_rpcs := [] |}.

Definition VisitPackage (v : rpcServiceAccumulator) (name : string) : rpcServiceAccumulator * bool :=
  ({| packageName := name; currentService := currentService v; acc_rpcs := acc_rpcs v |}, false).
Definition rpcName (pkg service rpc : string) : string := pkg +:+ "." +:+ service +:+ "." +:+ rpc.
Definition VisitRPC (v : rpcServiceAccumulator) (name : string) : rpcServiceAccumulator * bool :=
  let pkg := TrimPrefix (packageName v) "openconfig." in
  ({| packageName := packageName v; currentService := currentService v;
      acc_rpcs := acc_rpcs v ++ [rpcName pkg (currentService v) name] |}, false).
Definition VisitService (v : rpcServiceAccumulator) (name : string) : rpcServiceAccumulator * bool :=
  ({| packageName := packageName v; currentService := name; acc_rpcs := acc_rpcs v |}, true).

(** The [Visit] methods, by the element they are called for; the result tells
    whether the body is visited. *)
Definition visit (v : rpcServiceAccumulator) (e : element) : rpcServiceAccumulator * bool :=
  match e with
  | Package name => VisitPackage v name
  | RPC name => VisitRPC v name
  | Service name => VisitService v name
  | Comment | EmptyStatement | Enum | EnumField | Extend | Extensions | Field | GroupField | Import | MapField
  | Message | Oneof | OneofField | Option | Reserved | Syntax => (v, false)
  end.

(** What a visitor sees of a file: its elements in order, and the body of an
    element whose [Visit] method returned true right after it. *)
Fixpoint traverse {A} (f : A -> element -> A * bool) (v : visitee) (a : A) : A :=
  let '(Visitee e body) := v in
  let '(a, next) := f a e in
  if next then
    (fix all (l : list visitee) (a : A) := match l with [] => a | v :: l => all l (traverse f v a) end) body a
  else a.
Definition traverseAll {A} (f : A -> element -> A * bool) (l : list visitee) (a : A) : A :=
  foldl (fun a v => traverse f v a) a l.

Class ProtoParser := {
  protoparser_Parse : string -> go (list visitee);
  Accept {A} : (A -> element -> A * bool) -> list visitee -> A -> A;
  Accept_spec {A} (f : A -> element -> A * bool) l a : Accept f l a = traverseAll f l a
}.

(** ** Reading a repository *)

(** A call of the function that [filepath.Walk] is given: the error it is called
    with, the name of the file and the content [os.Open] gives access to. *)
Record walkEntry := { walk_err : option error; Info_Name : string; content : go string }.

Class Files (W : Type) := { Walk : W -> string -> list walkEntry }.

Section Rpcs.
Context {W : Type} {SH : Shell W} {FS : Files W} {PP : ProtoParser}.

Definition apiURL (api : string) : string := "https://github.com/openconfig/" +:+ api +:+ ".git".
Definition apiArgs (api repoPath : string) : list string :=
  ["clone"; "--single-branch"; "--depth"; "1"; apiURL api; repoPath].

Definition cloneAPIRepo (downloadPath api : string) : gost W string :=
  if String.eqb downloadPath "" then lift (Fail (errors_New "must provide download path"))
  else
    let repoPath := JoinPath [downloadPath; api] in
    w ← getState;
    if Stat w repoPath then mret repoPath
    else
      _ ← runGit api (apiArgs api repoPath);
      mret repoPath.

(** The function given to [filepath.Walk], with the set it fills. *)
Definition readEntry (rpcs : gset string) (e : walkEntry) : go (gset string) :=
  match walk_err e with
  | Some err => Fail err
  | None =>
      if HasSuffix (Info_Name e) ".proto" then
        text ← content e;
        match protoparser_Parse text with
        | Ret got => Ret (rpcs ∪ list_to_set (acc_rpcs (Accept visit got newAccumulator)))
        | Fail err => Fail (errors_New ("failed to parse, err " +:+ err_msg err))
        | Panic => Panic
        | NoFuel => NoFuel
        end
      else Ret rpcs
  end.

Definition Read (downloadPath api : string) : gost W (gset string) :=
  repoPath ← cloneAPIRepo downloadPath api;
  w ← getState;
  lift (foldM readEntry ∅ (Walk w repoPath)).

(** ** Validation *)

Definition checkMethod (api : string) (rpcs : gset string) (st : nat * list error) (name : string) : nat * list error :=
  if bool_decide (name ∈ rpcs) then (S st.1, st.2)
  else (st.1, st.2 ++ [errors_New ("RPC not found in openconfig repo " +:+ api +:+ ": " +:+ name)]).

(** The loop over the protocols, in the order in which the map is ranged over. *)
Fixpoint validateProtocols (downloadPath : string) (protocols : list (string * list string)) (st : nat * list error)
  : gost W (nat * list error) :=
  match protocols with
  | [] => mret st
  | (api, methods) :: protocols =>
      rpcs ← Read downloadPath api;
      validateProtocols downloadPath protocols (foldl (checkMethod api rpcs) st methods)
  end.

(** The number of valid RPCs and the collected errors; [Fail] is the early return. *)
Definition ValidateRPCs (downloadPath : string) (protocols : list (string * list string)) : gost W (nat * list error) :=
  validateProtocols downloadPath protocols (0, []).
End Rpcs.

(** * Theorems *)

(** ** The RPCs of a file *)

(** The methods of the services of [l], in order, in package [pkg]. *)
Definition service_rpcs (pkg service : string) (b : list visitee) : list string :=
  omap (fun v => match elem v with RPC name => Some (rpcName pkg service name) | _ => None end) b.
Fixpoint declared (pkg : string) (l : list visitee) : list string :=
  match l with
  | [] => []
  | Visitee (Service s) b :: l => service_rpcs pkg s b ++ declared pkg l
  | _ :: l => declared pkg l
  end.
(** Those of a file: the package statement comes before the services. *)
Fixpoint file_rpcs (l : list visitee) : list string :=
  match l with
  | [] => []
  | Visitee (Package pkg) _ :: l => declared (TrimPrefix pkg "openconfig.") l
  | _ :: l => file_rpcs l
  end.

(** What the grammar allows where. *)
Definition inService (v : visitee) : bool :=
  match elem v with Package _ | Service _ => false | _ => true end.
Definition topLevel (v : visitee) : bool :=
  match elem v with Package _ | RPC _ => false | Service _ => forallb inService (body v) | _ => true end.
Definition preamble (v : visitee) : bool :=
  match elem v with Package _ | RPC _ | Service _ => false | _ => true end.
Fixpoint wf_file (l : list visitee) : bool :=
  match l with
  | [] => true
  | Visitee (Package _) _ :: l => forallb topLevel l
  | v :: l => preamble v && wf_file l
  end.

Lemma traverse_eq {A} (f : A -> element -> A * bool) e b a :
  traverse f (Visitee e b) a = let '(a, next) := f a e in if next then traverseAll f b a else a.
Proof.
  cbn [traverse]. destruct (f a e) as [a' []]; [|done]. unfold traverseAll.
  revert a'. induction b as [|v b IH]; intros a'; [done|]. apply IH.
Qed.

Lemma visit_service b : forall pkg s l, forallb inService b = true ->
  traverseAll visit b {| packageName := pkg; currentService := s; acc_rpcs := l |}
  = {| packageName := pkg; currentService := s; acc_rpcs := l ++ service_rpcs (TrimPrefix pkg "openconfig.") s b |}.
Proof.
  induction b as [|[e c] b IH]; intros pkg s l Hb; [by rewrite app_nil_r|].
  cbn [forallb] in Hb. apply andb_true_iff in Hb as [He Hb].
  unfold traverseAll. cbn [foldl]. fold (@traverseAll rpcServiceAccumulator). rewrite traverse_eq.
  unfold service_rpcs. destruct e; try done; cbn [visit VisitRPC packageName currentService acc_rpcs omap list_omap elem];
    change (foldl _ ?a b) with (traverseAll visit b a); rewrite IH by done; [done..| |done].
  by rewrite <- app_assoc.
Qed.

Lemma visit_topLevel l : forall v, forallb topLevel l = true ->
  acc_rpcs (traverseAll visit l v) = acc_rpcs v ++ declared (TrimPrefix (packageName v) "openconfig.") l.
Proof.
  induction l as [|[e b] l IH]; intros v Hl; [by rewrite app_nil_r|].
  cbn [forallb] in Hl. apply andb_true_iff in Hl as [He Hl].
  unfold traverseAll. cbn [foldl]. change (foldl _ ?a l) with (traverseAll visit l a). rewrite traverse_eq.
  destruct e; try done; cbn [visit declared]; try by apply IH.
  cbn [VisitService]. rewrite visit_service by done. rewrite IH by done. cbn. by rewrite <- app_assoc.
Qed.

Lemma visit_file l : forall v, wf_file l = true ->
  acc_rpcs (traverseAll visit l v) = acc_rpcs v ++ file_rpcs l.
Proof.
  induction l as [|[e b] l IH]; intros v Hl; [by rewrite app_nil_r|].
  unfold traverseAll. cbn [foldl]. change (foldl _ ?a l) with (traverseAll visit l a). rewrite traverse_eq.
  destruct e; try done; try (by apply IH).
  cbn [visit VisitPackage]. by rewrite visit_topLevel.
Qed.

(** ** The RPCs of a repository *)

Section RpcTheorems.
Context {W : Type} {SH : Shell W} {FS : Files W} {PP : ProtoParser}.

(** The files that [Read] parses, and a repository all of whose files it can read. *)
Definition parsed (e : walkEntry) (l : list visitee) : Prop :=
  HasSuffix (Info_Name e) ".proto" = true /\ exists text, content e = Ret text /\ protoparser_Parse text = Ret l.
Definition readable (e : walkEntry) : Prop :=
  walk_err e = None
  /\ (HasSuffix (Info_Name e) ".proto" = true -> exists l, parsed e l /\ wf_file l = true).
Definition repo_declares (es : list walkEntry) (name : string) : Prop :=
  exists e l, e ∈ es /\ parsed e l /\ name ∈ file_rpcs l.

Lemma parsed_det e l l' : parsed e l -> parsed e l' -> l = l'.
Proof. intros (_ & t & H1 & H2) (_ & t' & H1' & H2'). congruence. Qed.

Lemma readEntry_spec rpcs e :
  readable e ->
  exists rpcs', readEntry rpcs e = Ret rpcs'
    /\ forall name, name ∈ rpcs' <-> name ∈ rpcs \/ repo_declares [e] name.
Proof.
  intros [He Hr]. unfold readEntry. rewrite He.
  destruct (HasSuffix (Info_Name e) ".proto") eqn:Hs.
  - destruct (Hr eq_refl) as (l & Hp & Hwf). assert (Hp' := Hp). destruct Hp as (_ & text & Ht & Hl).
    rewrite Ht. cbn [mbind outcome_bind]. rewrite Hl. eexists. split; [done|]. intros name.
    rewrite Accept_spec, visit_file by done. rewrite elem_of_union, elem_of_list_to_set. cbn. f_equiv. split.
    + intros Hn. exists e, l. by rewrite list_elem_of_singleton.
    + intros (e' & l' & ->%list_elem_of_singleton & Hp & Hn). by rewrite (parsed_det e l l').
  - exists rpcs. split; [done|]. intros name. split; [auto|].
    intros [|(e' & l' & ->%list_elem_of_singleton & [Hs' _] & _)]; [done|congruence].
Qed.

Lemma repo_declares_cons e es name :
  repo_declares (e :: es) name <-> repo_declares [e] name \/ repo_declares es name.
Proof.
  split.
  - intros (e' & l & [->|H]%elem_of_cons & Hp & Hn); [left; exists e, l|right; by exists e', l].
    by rewrite list_elem_of_singleton.
  - intros [(e' & l & H & Hp & Hn)|(e' & l & H & Hp & Hn)]; exists e', l; (split; [|done]).
    + apply list_elem_of_singleton in H as ->. left.
    + by right.
Qed.

Lemma readAll_spec es rpcs :
  Forall readable es ->
  exists rpcs', foldM readEntry rpcs es = Ret rpcs'
    /\ forall name, name ∈ rpcs' <-> name ∈ rpcs \/ repo_declares es name.
Proof.
  revert rpcs. induction es as [|e es IH]; intros rpcs Hes; cbn [foldM].
  - exists rpcs. split; [done|]. intros name. split; [auto|]. intros [|(e & l & H & _)]; [done|by apply elem_of_nil in H].
  - apply Forall_cons in Hes as [He Hes]. destruct (readEntry_spec rpcs e He) as (r1 & -> & H1).
    cbn [mbind outcome_bind]. destruct (IH r1 Hes) as (r2 & -> & H2). exists r2. split; [done|].
    intros name. rewrite H2, H1, (repo_declares_cons e es). tauto.
Qed.

(** ** Validation *)

(** Neither path is the other or below it. *)
Definition apart (p q : string) : Prop :=
  HasPrefix (p +:+ "/") (q +:+ "/") = false /\ HasPrefix (q +:+ "/") (p +:+ "/") = false.

(** [git clone] of a repository into a path that does not exist.  When the
    repository is available, it creates the path with the files of the repository;
    otherwise it fails and leaves no such path behind.  It leaves other paths alone. *)
Class GitLaws := {
  upstream : string -> list walkEntry;
  available : string -> bool;
  clone_spec repo api p w :
    Stat w p = false -> available (apiURL api) = true ->
    exists w', runGit repo (apiArgs api p) w = (Ret tt, w')
      /\ Stat w' p = true /\ Walk w' p = upstream (apiURL api)
      /\ forall q, apart p q -> Stat w' q = Stat w q /\ Walk w' q = Walk w q;
  clone_fails repo api p w :
    Stat w p = false -> available (apiURL api) = false ->
    exists e w', runGit repo (apiArgs api p) w = (Fail e, w')
      /\ Stat w' p = false
      /\ forall q, apart p q -> Stat w' q = Stat w q /\ Walk w' q = Walk w q
}.
Context {GL : GitLaws}.

(** The repository of [api], if it was downloaded, is the one upstream. *)
Definition current (downloadPath : string) (w : W) (api : string) : Prop :=
  let p := JoinPath [downloadPath; api] in
  Stat w p = true -> Walk w p = upstream (apiURL api).

Definition api_declares (api name : string) : Prop := repo_declares (upstream (apiURL api)) name.

(** The same as a set. *)
Definition api_rpcs (api : string) : gset string :=
  match foldM readEntry ∅ (upstream (apiURL api)) with Ret rpcs => rpcs | _ => ∅ end.

Lemma api_rpcs_spec api :
  Forall readable (upstream (apiURL api)) ->
  foldM readEntry ∅ (upstream (apiURL api)) = Ret (api_rpcs api)
  /\ forall name, name ∈ api_rpcs api <-> api_declares api name.
Proof.
  intros Hr. unfold api_rpcs. destruct (readAll_spec _ ∅ Hr) as (rpcs & -> & Hrpcs).
  split; [done|]. intros name. rewrite Hrpcs. set_solver.
Qed.

(** The APIs that the protocols may name: their paths below the download path do
    not overlap, and their repositories can be read. *)
Record apis_ok (dl : string) (apis : list string) : Prop := {
  apis_dl : dl <> "";
  apis_apart a b : a ∈ apis -> b ∈ apis -> a <> b -> apart (JoinPath [dl; a]) (JoinPath [dl; b]);
  apis_readable a : a ∈ apis -> Forall readable (upstream (apiURL a))
}.

(** A repository that was downloaded before or can be. *)
Definition obtainable (dl : string) (w : W) (api : string) : bool :=
  Stat w (JoinPath [dl; api]) || available (apiURL api).

(** A download adds repositories that are available and keeps them up to date. *)
Definition extends (dl : string) (apis : list string) (w w' : W) : Prop :=
  Forall (current dl w') apis
  /\ (forall a, a ∈ apis -> Stat w (JoinPath [dl; a]) = true -> Stat w' (JoinPath [dl; a]) = true)
  /\ forall a, a ∈ apis -> obtainable dl w' a = obtainable dl w a.

Lemma extends_trans dl apis w1 w2 w3 : extends dl apis w1 w2 -> extends dl apis w2 w3 -> extends dl apis w1 w3.
Proof. intros (_ & H1 & O1) (Hc & H2 & O2). split; [done|]. split; [auto|]. intros a Ha. by rewrite O2, O1. Qed.

(** What is left alone extends what was there, once the path of one repository is settled. *)
Lemma extends_frame dl apis api w w' :
  apis_ok dl apis -> api ∈ apis -> Forall (current dl w) apis -> current dl w' api ->
  (Stat w (JoinPath [dl; api]) = true -> Stat w' (JoinPath [dl; api]) = true) ->
  obtainable dl w' api = obtainable dl w api ->
  (forall q, apart (JoinPath [dl; api]) q -> Stat w' q = Stat w q /\ Walk w' q = Walk w q) -> extends dl apis w w'.
Proof.
  intros [_ Hap _] Hin Hc Hc' Hst Hob Hframe. rewrite Forall_forall in Hc.
  assert (forall a, a ∈ apis -> api <> a ->
    Stat w' (JoinPath [dl; a]) = Stat w (JoinPath [dl; a]) /\ Walk w' (JoinPath [dl; a]) = Walk w (JoinPath [dl; a])) as Hf
    by (intros a Ha Hne; apply Hframe; auto).
  split; [|split]; [rewrite Forall_forall|..]; intros a Ha; destruct (decide (api = a)) as [<-|Hne]; try done;
    destruct (Hf a Ha Hne) as [Es Ew]; unfold current, obtainable; rewrite ?Es, ?Ew; [by apply Hc|done..].
Qed.

Lemma cloneAPIRepo_spec dl api w :
  dl <> "" -> current dl w api -> obtainable dl w api = true ->
  returns (cloneAPIRepo dl api) w (fun p w' =>
    p = JoinPath [dl; api] /\ Stat w' p = true /\ Walk w' p = upstream (apiURL api)
    /\ forall q, apart p q -> Stat w' q = Stat w q /\ Walk w' q = Walk w q).
Proof.
  intros Hdl Hc Ho. unfold cloneAPIRepo. rewrite (proj2 (String.eqb_neq _ _) Hdl).
  unfold current, obtainable in Hc, Ho. generalize dependent (JoinPath [dl; api]). intros p Hc Ho.
  apply returns_bind. exists w, w. split; [done|]. destruct (Stat w p) eqn:Hs; [by apply returns_ret; auto|].
  destruct (clone_spec api api _ _ Hs Ho) as (w' & Hrun & H). apply returns_bind. exists tt, w'. split; [done|].
  apply returns_ret. split; [done|]. exact H.
Qed.

Lemma Read_spec dl apis api w :
  apis_ok dl apis -> api ∈ apis -> Forall (current dl w) apis -> obtainable dl w api = true ->
  returns (Read dl api) w (fun rpcs w' =>
    rpcs = api_rpcs api /\ Stat w' (JoinPath [dl; api]) = true /\ extends dl apis w w').
Proof.
  intros Hok Hin Hc Ho. pose proof Hok as [Hdl _ Hr]. unfold Read. apply returns_bind.
  eapply returns_mono; [apply cloneAPIRepo_spec; [done| |done]; by rewrite Forall_forall in Hc; apply Hc|].
  intros p w' (-> & Hs & Hw & Hframe).
  apply returns_bind. exists w', w'. split; [done|]. eapply returns_lift; [rewrite Hw; by apply api_rpcs_spec, Hr|].
  split; [done|]. split; [done|]. apply (extends_frame dl apis api); try done.
  - by intros _.
  - rewrite Ho. unfold obtainable. by rewrite Hs.
Qed.

(** A repository that is neither there nor available: an error, and no change. *)
Lemma Read_fails dl apis api w :
  apis_ok dl apis -> api ∈ apis -> Forall (current dl w) apis -> obtainable dl w api = false ->
  exists e w', Read dl api w = (Fail e, w') /\ extends dl apis w w'.
Proof.
  intros Hok Hin Hc Ho. pose proof Hok as [Hdl _ _]. pose proof Ho as [Hs Hav]%orb_false_iff.
  destruct (clone_fails api api _ w Hs Hav) as (e & w' & Hrun & Hs' & Hframe).
  exists e, w'. split.
  - unfold Read, cloneAPIRepo. rewrite (proj2 (String.eqb_neq _ _) Hdl). unfold mbind, gost_bind, getState.
    cbn zeta. rewrite Hs. unfold gost_bind. by rewrite Hrun.
  - apply (extends_frame dl apis api); try done.
    + intros H. congruence.
    + intros H. congruence.
    + rewrite Ho. unfold obtainable. by rewrite Hs', Hav.
Qed.

(** The listed methods that the repository of their protocol declares, and the others. *)
Lemma checkMethods_spec api rpcs methods st :
  (foldl (checkMethod api rpcs) st methods).1 = st.1 + length (filter (fun n => n ∈ rpcs) methods)
  /\ length (foldl (checkMethod api rpcs) st methods).2 = length st.2 + length (filter (fun n => n ∉ rpcs) methods).
Proof.
  revert st. induction methods as [|n methods IH]; intros st; cbn [foldl]; [cbn; lia|].
  destruct (IH (checkMethod api rpcs st n)) as [-> ->]. rewrite !filter_cons. unfold checkMethod.
  case_bool_decide as Hn.
  - rewrite (decide_True _ _ Hn), decide_False by tauto. cbn. lia.
  - rewrite (decide_False _ _ Hn), decide_True by done. cbn. rewrite length_app. cbn. lia.
Qed.

(** The listed methods, each with its protocol. *)
Definition listed (protocols : list (string * list string)) : list (string * string) :=
  protocols ≫= fun p => pair p.1 <$> p.2.

Lemma filter_pair (P : string * string -> Prop) {D : forall x, Decision (P x)} api l :
  length (filter P (pair api <$> l)) = length (filter (fun n => P (api, n)) l).
Proof.
  induction l as [|n l IH]; [done|]. cbn [fmap list_fmap]. rewrite !filter_cons.
  destruct (decide (P (api, n))); cbn; by rewrite IH.
Qed.

Lemma filter_complement {A} (P : A -> Prop) {D : forall x, Decision (P x)} l :
  length (filter P l) + length (filter (fun x => ~ P x) l) = length l.
Proof. rewrite <- (filter_app_complement P l) at 3. by rewrite length_app. Qed.

Lemma validateProtocols_spec dl apis protocols : forall w st,
  apis_ok dl apis -> protocols.*1 ⊆ apis -> Forall (current dl w) apis ->
  Forall (fun api => obtainable dl w api = true) protocols.*1 ->
  returns (validateProtocols dl protocols st) w (fun r w' =>
    r.1 = st.1 + length (filter (fun m => m.2 ∈ api_rpcs m.1) (listed protocols))
    /\ length r.2 = length st.2 + length (filter (fun m => m.2 ∉ api_rpcs m.1) (listed protocols))
    /\ Forall (fun api => Stat w' (JoinPath [dl; api]) = true) protocols.*1
    /\ extends dl apis w w').
Proof.
  induction protocols as [|[api methods] protocols IH]; intros w st Hok Hsub Hcur Hob.
  { apply returns_ret. cbn [listed mbind list_bind]. rewrite !filter_nil. cbn [length fmap list_fmap].
    split; [lia|]. split; [lia|]. split; [constructor|by split]. }
  cbn [fmap list_fmap fst] in *. assert (api ∈ apis) as Hin by (apply Hsub; left).
  apply Forall_cons in Hob as [Ho Hob].
  cbn [validateProtocols]. apply returns_bind. eapply returns_mono; [by apply Read_spec|].
  intros rpcs w1 (-> & Hs1 & Hx1).
  eapply returns_mono; [apply IH; [done| |apply Hx1|]; [by intros a Ha; apply Hsub; right|]|].
  { rewrite Forall_forall in *. intros a Ha. destruct Hx1 as (_ & _ & Hx1). rewrite Hx1; [by apply Hob|]. apply Hsub. by right. }
  intros r w2 (H1 & H2 & H3 & Hx2). destruct (checkMethods_spec api (api_rpcs api) methods st) as [E1 E2].
  assert (listed ((api, methods) :: protocols) = (pair api <$> methods) ++ listed protocols) as -> by done.
  rewrite !filter_app, !length_app, !filter_pair. cbn [fst snd]. rewrite H1, H2, E1, E2.
  split; [lia|]. split; [lia|]. split; [|by eapply extends_trans]. constructor; [by apply Hx2|done].
Qed.

Lemma validateProtocols_fails dl apis protocols : forall w st,
  apis_ok dl apis -> protocols.*1 ⊆ apis -> Forall (current dl w) apis ->
  Exists (fun api => obtainable dl w api = false) protocols.*1 ->
  exists e w', validateProtocols dl protocols st w = (Fail e, w') /\ extends dl apis w w'.
Proof.
  induction protocols as [|[api methods] protocols IH]; intros w st Hok Hsub Hcur Hob; [by apply Exists_nil in Hob|].
  cbn [fmap list_fmap fst] in *. assert (api ∈ apis) as Hin by (apply Hsub; left). cbn [validateProtocols].
  destruct (obtainable dl w api) eqn:Ho.
  - destruct (Read_spec dl apis api w Hok Hin Hcur Ho) as (rpcs & w1 & Hr & _ & _ & Hx1).
    rewrite (bind_run _ _ _ _ _ Hr).
    destruct (IH w1 (foldl (checkMethod api rpcs) st methods)) as (e & w' & Hv & Hx2);
      [done|by intros a Ha; apply Hsub; right|apply Hx1| |exists e, w'; split; [done|by eapply extends_trans]].
    apply Exists_cons in Hob as [Hob|Hob]; [congruence|]. rewrite Exists_exists in *. destruct Hob as (a & Ha & Hf).
    exists a. split; [done|]. destruct Hx1 as (_ & _ & Hx1). rewrite Hx1; [done|]. apply Hsub. by right.
  - destruct (Read_fails dl apis api w Hok Hin Hcur Ho) as (e & w' & Hr & Hx). exists e, w'. split; [|done].
    unfold mbind, gost_bind. by rewrite Hr.
Qed.

Lemma listed_api protocols api name : (api, name) ∈ listed protocols -> api ∈ protocols.*1.
Proof.
  intros Hin. unfold listed in Hin. apply list_elem_of_bind in Hin as ([a ms] & Hin & Hp).
  apply list_elem_of_fmap in Hin as (n & [= -> ->] & Hn). by apply (list_elem_of_fmap_2 fst _ (a, ms)).
Qed.

(** What [ValidateRPCs] reports. *)
Lemma ValidateRPCs_returns dl apis protocols w :
  apis_ok dl apis -> protocols.*1 ⊆ apis -> Forall (current dl w) apis ->
  Forall (fun api => obtainable dl w api = true) protocols.*1 ->
  returns (ValidateRPCs dl protocols) w (fun r w' =>
    r.1 = length (filter (fun m => m.2 ∈ api_rpcs m.1) (listed protocols))
    /\ r.1 + length r.2 = length (listed protocols)
    /\ (r.2 = [] <-> forall api name, (api, name) ∈ listed protocols -> api_declares api name)
    /\ Forall (fun api => Stat w' (JoinPath [dl; api]) = true) protocols.*1
    /\ extends dl apis w w').
Proof.
  intros Hok Hsub Hcur Hob. eapply returns_mono; [by apply validateProtocols_spec|].
  intros r w' (H1 & H2 & H3). cbn in H1, H2. split; [done|]. split; [|split; [|done]].
  - rewrite H1, H2. apply (filter_complement (fun m => m.2 ∈ api_rpcs m.1)).
  - assert (forall api name, (api, name) ∈ listed protocols -> name ∈ api_rpcs api <-> api_declares api name) as Hd.
    { intros api name Hin. by apply api_rpcs_spec, (apis_readable _ _ Hok), Hsub, (listed_api _ _ name). }
    rewrite <- length_zero_iff_nil, H2, length_zero_iff_nil, filter_nil_iff, Forall_forall. split.
    + intros He api name Hin. rewrite <- Hd by done.
      destruct (decide (name ∈ api_rpcs api)) as [|Hn]; [done|]. by destruct (He (api, name)).
    + intros Hall [api name] Hin Hn. by apply Hn, Hd; [|apply Hall].
Qed.

(** [ValidateRPCs] downloads each repository that is missing and, when all of them
    are there or available, returns: the
    count is the number of listed methods that the service definitions of their
    repository declare, there is one error for every other method, and so no error
    exactly when all the listed methods are declared, whatever the order of the
    protocols and whichever repositories were there before. *)
Theorem ValidateRPCs_spec dl apis protocols w :
  apis_ok dl apis -> protocols.*1 ⊆ apis -> Forall (current dl w) apis ->
  Forall (fun api => obtainable dl w api = true) protocols.*1 ->
  returns (ValidateRPCs dl protocols) w (fun r w' =>
    r.1 = length (filter (fun m => m.2 ∈ api_rpcs m.1) (listed protocols))
    /\ r.1 + length r.2 = length (listed protocols)
    /\ (r.2 = [] <-> forall api name, (api, name) ∈ listed protocols -> api_declares api name)
    /\ Forall (fun api => Stat w' (JoinPath [dl; api]) = true) protocols.*1).
Proof.
  intros Hok Hsub Hcur Hob. eapply returns_mono; [by apply ValidateRPCs_returns|]. tauto.
Qed.
End RpcTheorems.

(** ** Repositories for the witness *)

Module RefRepo.
Definition service (name : string) (rpcs : list string) : visitee :=
  Visitee (Service name) ((fun r => Visitee (RPC r) []) <$> rpcs).
Definition proto (pkg : string) (services : list visitee) : list visitee :=
  [Visitee Syntax []; Visitee (Package pkg) []; Visitee Message [Visitee Field []]] ++ services.

#[refine] Instance parser : ProtoParser := {|
  protoparser_Parse text :=
    if String.eqb text "gnmi" then Ret (proto "gnmi" [service "gNMI" ["Get"; "Set"]])
    else if String.eqb text "healthz" then Ret (proto "openconfig.gnoi.healthz" [service "Healthz" ["Get"]])
    else Fail (errors_New "syntax error");
  Accept A f l a := traverseAll f l a
|}.
Proof. done. Defined.

Definition file (name text : string) : walkEntry := {| walk_err := None; Info_Name := name; content := Ret text |}.
Definition repository (url : string) : list walkEntry :=
  if String.eqb url (apiURL "gnmi") then [file "README.md" "text"; file "gnmi.proto" "gnmi"]
  else [file "healthz.proto" "healthz"].

(** The file system: the downloaded repositories by path. *)
Abbreviation world := (gmap string (list walkEntry)).
Instance shell : Shell world := {|
  Stat w p := bool_decide (is_Some (w !! p));
  StderrPipe _ := mret tt;
  Start _ := mret tt;
  Wait args := fun w =>
    match args with
    | [_; _; _; _; url; p] => (Ret tt, <[p := repository url]> w)
    | _ => (Fail (errors_New "usage"), w)
    end
|}.
Instance fs : Files world := {| Walk w p := default [] (w !! p) |}.

Lemma apart_ne p q : apart p q -> p <> q.
Proof. intros [H _] ->. apply not_true_iff_false in H. apply H, HasPrefix_spec. exists "". by rewrite str_app_nil_r. Qed.

#[refine] Instance git : GitLaws := {| upstream := repository; available _ := true |}.
Proof.
  2: done.
  intros repo api p w Hs _. exists (<[p := repository (apiURL api)]> w). repeat split.
  - cbn [Stat shell]. rewrite lookup_insert_eq. by apply bool_decide_eq_true.
  - cbn [Walk fs]. by rewrite lookup_insert_eq.
  - cbn [Stat shell]. by rewrite lookup_insert_ne by (by apply apart_ne).
  - cbn [Walk fs]. by rewrite lookup_insert_ne by (by apply apart_ne).
Defined.

Definition protocols : list (string * list string) :=
  [("gnmi", ["gnmi.gNMI.Get"; "gnmi.gNMI.Remove"]); ("gnoi", ["gnoi.healthz.Healthz.Get"])].
Definition w : world := {["tmp/gnoi" := repository (apiURL "gnoi")]}.

Lemma readable_repo url : Forall (readable (PP := parser)) (repository url).
Proof.
  unfold repository. destruct (String.eqb url (apiURL "gnmi")); repeat constructor; try done;
    intros _; eexists; (split; [split; [reflexivity|eexists; split; reflexivity]|reflexivity]).
Qed.
End RefRepo.
#[local] Existing Instances RefRepo.parser RefRepo.shell RefRepo.fs RefRepo.git.

Lemma RefRepo_ok : apis_ok "tmp" ["gnmi"; "gnoi"].
Proof.
  constructor; [done| |intros; apply RefRepo.readable_repo]. intros a b Ha Hb Hne.
  rewrite !elem_of_cons, elem_of_nil in Ha, Hb.
  destruct Ha as [->|[->|[]]], Hb as [->|[->|[]]]; try congruence; split; reflexivity.
Qed.

Lemma ValidateRPCs_spec_witness :
  returns (ValidateRPCs "tmp" RefRepo.protocols) RefRepo.w (fun r w' => r.1 = 2 /\ r.1 + length r.2 = 3).
Proof.
  eapply returns_mono; [apply (ValidateRPCs_spec "tmp" ["gnmi"; "gnoi"] RefRepo.protocols RefRepo.w)|].
  - apply RefRepo_ok.
  - by intros a.
  - repeat constructor; unfold current; done.
  - repeat constructor.
  - intros r w' (H1 & H2 & _). rewrite H2, H1. split; vm_compute; reflexivity.
Defined.
