(* ===== verification/MdSpec.v ===== *)
(** * Specifications in README files

    [src/tools/internal/mdocspec] and [src/tools/internal/canonicalocspec]: the
    extraction of the coverage section (YAML) and of the canonical OpenConfig
    blocks (JSON) of a README, and the parsing of the coverage section into paths
    and RPCs.  The Markdown, YAML and OpenConfig parsers are parameters. *)
From stdpp Require Import base list gmap strings sorting.
From Stdlib Require Import Lia Ascii.
From S2P Require Import Prelude GoStrings.
From S2P Require Import OcPaths.

(** ** Markdown documents *)

(** The nodes of a goldmark document as this code sees them; a line is the text of
    its segment and [Info] the text of the info string of a code block. *)
Inductive nodeKind :=
| Heading (Level : nat) (Lines : list string)
| FencedCodeBlock (Info : option string) (Lines : list string)
| OtherNode.
Inductive node := Node (k : nodeKind) (children : list node).
Definition kind (n : node) : nodeKind := let '(Node k _) := n in k.

Inductive WalkStatus := WalkStop | WalkSkipChildren | WalkContinue.

(** A call of the function that [ast.Walk] is given: a node, the siblings after it
    and whether the node is entered or left. *)
Record call := { call_node : node; siblings : list node; entering : bool }.

Fixpoint calls (n : node) (next : list node) : list call :=
  let '(Node _ children) := n in
  {| call_node := n; siblings := next; entering := true |} ::
  (fix all (l : list node) := match l with [] => [] | c :: l => calls c l ++ all l end) children
  ++ [{| call_node := n; siblings := next; entering := false |}].

Fixpoint runCalls {S} (f : call -> gost S WalkStatus) (l : list call) : gost S unit :=
  match l with
  | [] => mret tt
  | c :: l => st ← f c; match st with WalkStop => mret tt | _ => runCalls f l end
  end.

(** goldmark: the parser, and [ast.Walk], which visits the nodes depth first until
    the function stops it or fails. *)
Class Goldmark := {
  parseMarkdown : string -> node;
  ast_Walk {S} : node -> (call -> gost S WalkStatus) -> gost S unit;
  ast_Walk_spec {S} n (f : call -> gost S WalkStatus) s :
    (forall c s, (f c s).1 <> Ret WalkSkipChildren) -> ast_Walk n f s = runCalls f (calls n []) s
}.

(** ** Rendering *)

Definition OCSpecHeading : string := "OpenConfig Path and RPC Coverage".
Definition CanonicalOCHeading : string := "Canonical OC".
Definition yamlLang : string := "yaml".
Definition jsonLang : string := "json".

(** The buffer that is written and the shared [MDJSONSpecs]. *)
Record mdState := { buf : string; CanonicalOCs : list string }.
#[global] Instance mdState_eq_dec : EqDecision mdState.
Proof. solve_decision. Defined.

(** [bytes.Buffer.Write], which never fails. *)
Definition Write (b : string) : gost mdState unit := fun s =>
  (Ret tt, {| buf := buf s +:+ b; CanonicalOCs := CanonicalOCs s |}).

Definition processYAMLBlock (lines : list string) (write : string -> gost mdState unit) : gost mdState WalkStatus :=
  _ ← forEach write lines; mret WalkStop.

Definition processJSONBlock (lines : list string) (_ : string -> gost mdState unit) : gost mdState WalkStatus := fun s =>
  let curBytes := foldl String.append "" lines in
  (Ret WalkContinue,
   if String.eqb curBytes "" then s else {| buf := buf s; CanonicalOCs := CanonicalOCs s ++ [curBytes] |}).

(** The level of the heading. *)
Definition fetchHeading (n : node) (specHeading : string) : option nat :=
  match kind n with
  | Heading level (line :: _) => if String.eqb line specHeading then Some level else None
  | _ => None
  end.

(** The lines of the block. *)
Definition codeBlock (n : node) (lang : string) : option (list string) :=
  match kind n with
  | FencedCodeBlock (Some l) lines => if negb (String.eqb l "") && String.eqb l lang then Some lines else None
  | _ => None
  end.

(** The loop over the siblings after the heading. *)
Fixpoint nextBlock (level : nat) (lang : string) (next : list node) : option (list string) :=
  match next with
  | [] => None
  | n :: next =>
      let rest := match codeBlock n lang with Some c => Some c | None => nextBlock level lang next end in
      match kind n with
      | Heading l _ => if l <=? level then None else rest
      | _ => rest
      end
  end.

Definition renderCodeBlock (write : string -> gost mdState unit) (specHeading lang : string)
    (processCodeBlock : list string -> (string -> gost mdState unit) -> gost mdState WalkStatus)
    (c : call) : gost mdState WalkStatus :=
  if negb (entering c) then mret WalkContinue
  else match fetchHeading (call_node c) specHeading with
       | None => mret WalkContinue
       | Some level =>
           match nextBlock level lang (siblings c) with
           | Some lines => processCodeBlock lines write
           | None => mret WalkContinue
           end
       end.

Section Render.
Context {GM : Goldmark}.

Definition yamlRender (write : string -> gost mdState unit) (n : node) : gost mdState unit :=
  ast_Walk n (renderCodeBlock write OCSpecHeading yamlLang processYAMLBlock).
Definition jsonRender (write : string -> gost mdState unit) (n : node) : gost mdState unit :=
  ast_Walk n (renderCodeBlock write CanonicalOCHeading jsonLang processJSONBlock).

(** [goldmark.New] with the JSON extension clears the shared list. *)
Definition jsonExtend : gost mdState unit := fun s => (Ret tt, {| buf := buf s; CanonicalOCs := [] |}).
End Render.

(** ** The coverage section *)

(** A decoded YAML value; [YOther] is a number, a boolean, null or a mapping. *)
Inductive yaml_any := YString (s : string) | YSeq (l : list yaml_any) | YOther.

#[global] Instance YString_inj : Inj (=) (=) YString.
Proof. by intros s t [= ->]. Qed.

Abbreviation yaml_spec := (gmap string (gmap string (gmap string yaml_any))).

(** [yaml.Unmarshal] into the nested maps, which returns, and the order in which the attributes
    of a path are ranged over. *)
Class Yaml := {
  yaml_Unmarshal : string -> go yaml_spec;
  yaml_returns source : (exists s, yaml_Unmarshal source = Ret s) \/ (exists e, yaml_Unmarshal source = Fail e);
  attributes : string -> gmap string yaml_any -> list (string * yaml_any);
  attributes_perm name m : attributes name m ≡ₚ map_to_list m
}.

Definition addPlatformType (name : string) (platformTypes : gset string) (p : yaml_any) : go (gset string) :=
  match p with
  | YString sp =>
      if bool_decide (sp ∈ platformTypes)
      then Fail (errors_New ("mdocspec: path " +:+ name +:+ ": got duplicate element " +:+ sp +:+ " for `platform_type`"))
      else Ret ({[sp]} ∪ platformTypes)
  | _ => Fail (errors_New ("mdocspec: path " +:+ name +:+ ": `platform_type` element must be string"))
  end.

Definition pathAttribute (name : string) (platformTypes : gset string) (attr : string * yaml_any) : go (gset string) :=
  if String.eqb attr.1 "platform_type" then
    match attr.2 with
    | YSeq [] => Fail (errors_New ("mdocspec: path " +:+ name +:+ ": `platform_type` attribute must not be empty"))
    | YSeq ps => foldM (addPlatformType name) platformTypes ps
    | _ => Fail (errors_New ("mdocspec: path " +:+ name +:+ ": `platform_type` attribute, but expected []any"))
    end
  else if String.eqb attr.1 "value" || String.eqb attr.1 "values" then Ret platformTypes
  else Fail (errors_New ("mdocspec: path " +:+ name +:+ ": only `platform_type` is expected, got " +:+ attr.1)).

Definition specPath (name : string) (platformType : option string) : PbOCPath :=
  {| Name := name; OcpathConstraint := (fun t => {| PlatformType := Some t |}) <$> platformType; Featureprofileid := "" |}.

Definition keys {A} (m : gmap string A) : list string := (map_to_list m).*1.

Section ParseYAML.
Context {GM : Goldmark} {YM : Yaml}.

(** One path of the section. *)
Definition pathEntries (name : string) (attrs : gmap string yaml_any) : go (list PbOCPath) :=
  platformTypes ← foldM (pathAttribute name) ∅ (attributes name attrs);
  if bool_decide (size platformTypes = 0) then Ret [specPath name None]
  else Ret ((fun t => specPath name (Some t)) <$> sort_Strings (elements platformTypes)).

Definition parsePaths (paths : gmap string (gmap string yaml_any)) : go (list PbOCPath) :=
  foldM (fun acc name => es ← pathEntries name (default ∅ (paths !! name)); Ret (acc ++ es)) [] (sort_Strings (keys paths)).

(** The methods of one protocol. *)
Definition protocolMethods (name : string) (methods : gmap string yaml_any) : list string :=
  (fun method => name +:+ "." +:+ method) <$> sort_Strings (keys methods).

Definition addProtocol (rpcs : gmap string (gmap string yaml_any)) (st : gmap string (list string) * bool) (name : string)
  : gmap string (list string) * bool :=
  let methods := default ∅ (rpcs !! name) in
  (<[name := protocolMethods name methods]> st.1, st.2 || bool_decide (0 < length (keys methods))).

Definition parseYAML (source : string) : go (list PbOCPath * gmap string (list string)) :=
  match yaml_Unmarshal source with
  | Fail e => Fail (errors_New ("mdocspec: error parsing YAML: " +:+ err_msg e))
  | Panic => Panic
  | NoFuel => NoFuel
  | Ret s =>
      protoPaths ← parsePaths (default ∅ (s !! "paths"));
      match s !! "rpcs" with
      | None => Fail (errors_New "mdocspec: YAML does not have mandatory top-level `rpcs` attribute")
      | Some rpcs =>
          let '(protoRPCs, hasMethod) := foldl (addProtocol rpcs) (∅, false) (sort_Strings (keys rpcs)) in
          if negb hasMethod then Fail (errors_New "mdocspec: YAML does not have least one RPC method specified")
          else Ret (protoPaths, protoRPCs)
      end
  end.

(** [mdocspec.Parse]; the buffer starts empty and the shared state is not used. *)
Definition notFound : error := Errorf ("did not detect valid yaml block under a heading titled " +:+ OCSpecHeading) [ErrNotFound].
Definition Parse (source : string) : go (list PbOCPath * gmap string (list string)) :=
  match yamlRender Write (parseMarkdown source) {| buf := ""; CanonicalOCs := [] |} with
  | (Ret _, st) => if String.eqb (buf st) "" then Fail notFound else parseYAML (buf st)
  | (Fail e, _) => Fail (errors_New ("MDOCSpec.Convert: " +:+ err_msg e))
  | (Panic, _) => Panic
  | (NoFuel, _) => NoFuel
  end.
End ParseYAML.

(** ** Canonical OpenConfig blocks *)

(** [oc.Unmarshal] into an empty root of the generated package. *)
Class OcRoot (R : Type) := {
  oc_Unmarshal : string -> go R;
  oc_returns source : (exists r, oc_Unmarshal source = Ret r) \/ (exists e, oc_Unmarshal source = Fail e)
}.

Section Canonical.
Context {GM : Goldmark} {R : Type} {OR : OcRoot R}.

Definition getCanonicalOC (source : string) : go R := oc_Unmarshal source.

Definition canonicalNotFound : error := errors_New ("did not detect valid json block under a heading titled " +:+ CanonicalOCHeading).

(** [canonicalocspec.Parse], on the list shared between calls. *)
Definition canonicalParse (source : string) : gost mdState (list R) := fun s =>
  match (_ ← jsonExtend; jsonRender Write (parseMarkdown source)) s with
  | (Ret _, s) =>
      (match CanonicalOCs s with
       | [] => Fail canonicalNotFound
       | ocs => mapM getCanonicalOC ocs
       end, s)
  | (Fail e, s) => (Fail (errors_New ("MDJSONSpecs.Convert: " +:+ err_msg e)), s)
  | (Panic, s) => (Panic, s)
  | (NoFuel, s) => (NoFuel, s)
  end.
End Canonical.

(** * Theorems *)

(** ** The blocks of a document *)

Definition text (lines : list string) : string := foldr String.append "" lines.

(** The siblings after a heading that belong to its section. *)
Definition ends (level : nat) (n : node) : bool :=
  match kind n with Heading l _ => l <=? level | _ => false end.
Fixpoint sectionOf (level : nat) (next : list node) : list node :=
  match next with
  | [] => []
  | n :: next => if ends level n then [] else n :: sectionOf level next
  end.

(** The first block of the language in the section of a heading, when the heading
    is entered; and these blocks for all the headings of a document, in order. *)
Definition blockAt (heading lang : string) (c : call) : option (list string) :=
  if entering c then
    level ← fetchHeading (call_node c) heading;
    head (omap (fun n => codeBlock n lang) (sectionOf level (siblings c)))
  else None.
Definition blocks (heading lang : string) (doc : node) : list (list string) :=
  omap (blockAt heading lang) (calls doc []).

Lemma nextBlock_spec level lang next :
  nextBlock level lang next = head (omap (fun n => codeBlock n lang) (sectionOf level next)).
Proof.
  induction next as [|n next IH]; [done|]. cbn [nextBlock sectionOf]. unfold ends.
  destruct (kind n) eqn:Hk; [destruct (_ <=? _); [done|]|..]; cbn [omap list_omap]; rewrite IH; by destruct (codeBlock n lang).
Qed.

Lemma renderCodeBlock_eq write heading lang process c :
  renderCodeBlock write heading lang process c
  = match blockAt heading lang c with Some lines => process lines write | None => mret WalkContinue end.
Proof.
  unfold renderCodeBlock, blockAt. destruct (entering c); cbn [negb]; [|done].
  destruct (fetchHeading (call_node c) heading); cbn [mbind option_bind]; [by rewrite nextBlock_spec|done].
Qed.

Lemma foldl_append l s : foldl String.append s l = s +:+ text l.
Proof.
  revert s. induction l as [|x l IH]; intros s; cbn; [by rewrite str_app_nil_r|]. by rewrite IH, str_app_assoc.
Qed.

Lemma write_lines lines st :
  forEach Write lines st = (Ret tt, {| buf := buf st +:+ text lines; CanonicalOCs := CanonicalOCs st |}).
Proof.
  revert st. induction lines as [|x lines IH]; intros st; cbn [forEach text foldr].
  - rewrite str_app_nil_r. by destruct st.
  - rewrite (bind_run _ _ _ tt {| buf := buf st +:+ x; CanonicalOCs := CanonicalOCs st |}) by done.
    rewrite IH. cbn. by rewrite str_app_assoc.
Qed.

(** The YAML renderer writes the first block, the JSON renderer collects them all. *)
Lemma run_yaml heading lang l st :
  runCalls (renderCodeBlock Write heading lang processYAMLBlock) l st
  = (Ret tt, {| buf := buf st +:+ text (default [] (head (omap (blockAt heading lang) l))); CanonicalOCs := CanonicalOCs st |}).
Proof.
  induction l as [|c l IH]; cbn [runCalls omap list_omap].
  - cbn. rewrite str_app_nil_r. by destruct st.
  - rewrite renderCodeBlock_eq. destruct (blockAt heading lang c) as [lines|]; [|exact IH].
    unfold processYAMLBlock. erewrite bind_run; [|by rewrite (bind_run _ _ _ _ _ (write_lines lines st))]. done.
Qed.

Lemma processJSONBlock_eq lines write st :
  processJSONBlock lines write st
  = (Ret WalkContinue, {| buf := buf st; CanonicalOCs := CanonicalOCs st ++ filter (fun t => t <> "") [text lines] |}).
Proof.
  unfold processJSONBlock. rewrite foldl_append, filter_cons, filter_nil. change ("" +:+ text lines) with (text lines).
  destruct (String.eqb_spec (text lines) "") as [E|E].
  - rewrite decide_False by tauto. rewrite app_nil_r. by destruct st.
  - by rewrite decide_True by done.
Qed.

Lemma run_json heading lang l st :
  runCalls (renderCodeBlock Write heading lang processJSONBlock) l st
  = (Ret tt, {| buf := buf st;
                CanonicalOCs := CanonicalOCs st ++ filter (fun t => t <> "") (text <$> omap (blockAt heading lang) l) |}).
Proof.
  revert st. induction l as [|c l IH]; intros st; cbn [runCalls omap list_omap].
  - cbn. rewrite app_nil_r. by destruct st.
  - rewrite renderCodeBlock_eq. destruct (blockAt heading lang c) as [lines|]; [|apply IH].
    rewrite (bind_run _ _ _ _ _ (processJSONBlock_eq lines Write st)), IH. cbn [fmap list_fmap buf CanonicalOCs].
    by rewrite <- app_assoc, <- filter_app.
Qed.

Section Blocks.
Context {GM : Goldmark}.

Lemma render_no_skip write heading lang process c s :
  (forall lines s, (process lines write s).1 <> Ret WalkSkipChildren) ->
  (renderCodeBlock write heading lang process c s).1 <> Ret WalkSkipChildren.
Proof. intros H. rewrite renderCodeBlock_eq. by destruct (blockAt heading lang c). Qed.

Lemma yamlRender_spec n st :
  yamlRender Write n st
  = (Ret tt, {| buf := buf st +:+ text (default [] (head (blocks OCSpecHeading yamlLang n))); CanonicalOCs := CanonicalOCs st |}).
Proof.
  unfold yamlRender. rewrite ast_Walk_spec; [apply run_yaml|]. intros c s. apply render_no_skip.
  intros lines s'. unfold processYAMLBlock. by rewrite (bind_run _ _ _ _ _ (write_lines lines s')).
Qed.

Lemma jsonRender_spec n st :
  jsonRender Write n st
  = (Ret tt, {| buf := buf st;
                CanonicalOCs := CanonicalOCs st ++ filter (fun t => t <> "") (text <$> blocks CanonicalOCHeading jsonLang n) |}).
Proof.
  unfold jsonRender. rewrite ast_Walk_spec; [apply run_json|]. intros c s. by apply render_no_skip.
Qed.
End Blocks.

Lemma Parse_eq {GM : Goldmark} {YM : Yaml} source :
  let yaml := text (default [] (head (blocks OCSpecHeading yamlLang (parseMarkdown source)))) in
  Parse source = if String.eqb yaml "" then Fail notFound else parseYAML yaml.
Proof. unfold Parse. by rewrite yamlRender_spec. Qed.

Lemma canonicalParse_eq {GM : Goldmark} {R} {OR : OcRoot R} source st :
  let jsons := filter (fun t => t <> "") (text <$> blocks CanonicalOCHeading jsonLang (parseMarkdown source)) in
  canonicalParse source st
  = (match jsons with [] => Fail canonicalNotFound | _ => mapM oc_Unmarshal jsons end,
     {| buf := buf st; CanonicalOCs := jsons |}).
Proof.
  cbn zeta. unfold canonicalParse. rewrite (bind_run jsonExtend _ _ tt {| buf := buf st; CanonicalOCs := [] |}) by done.
  rewrite jsonRender_spec. cbn [CanonicalOCs buf app]. by destruct (filter _ _).
Qed.

(** [Parse] of a README reads the first YAML block in the section of the first
    heading, in document order, that is named exactly and has such a block, and
    reports that none was found when there is none or it is empty; [Parse] of the
    canonical specifications reads the first non-empty JSON block of every section
    so named, and neither depends on what was parsed before. *)
Theorem sections_spec {GM : Goldmark} {YM : Yaml} {R} {OR : OcRoot R} source st :
  let doc := parseMarkdown source in
  let yaml := text (default [] (head (blocks OCSpecHeading yamlLang doc))) in
  let jsons := filter (fun t => t <> "") (text <$> blocks CanonicalOCHeading jsonLang doc) in
  Parse source = (if String.eqb yaml "" then Fail notFound else parseYAML yaml)
  /\ canonicalParse source st
     = (match jsons with [] => Fail canonicalNotFound | _ => mapM oc_Unmarshal jsons end,
        {| buf := buf st; CanonicalOCs := jsons |}).
Proof. split; [apply Parse_eq|apply canonicalParse_eq]. Qed.

(** ** The coverage section *)

(** What the section must be. *)
Definition types_of (a : yaml_any) (ts : list string) : Prop := a = YSeq (YString <$> ts) /\ ts <> [] /\ NoDup ts.
Definition attr_ok (attr : string * yaml_any) : Prop :=
  (attr.1 = "platform_type" /\ exists ts, types_of attr.2 ts) \/ attr.1 = "value" \/ attr.1 = "values".
Definition path_ok (attrs : gmap string yaml_any) : Prop :=
  forall k v, attrs !! k = Some v -> attr_ok (k, v).
Definition section_paths (s : yaml_spec) : gmap string (gmap string yaml_any) := default ∅ (s !! "paths").
Definition section_ok (s : yaml_spec) : Prop :=
  (forall name attrs, section_paths s !! name = Some attrs -> path_ok attrs)
  /\ exists rpcs name methods, s !! "rpcs" = Some rpcs /\ rpcs !! name = Some methods /\ methods <> ∅.

(** A path of the section: one for each platform type, one without if there is none. *)
Definition listed_under (attrs : gmap string yaml_any) (p : PbOCPath) : Prop :=
  (attrs !! "platform_type" = None /\ p = specPath (Name p) None)
  \/ exists a ts t, attrs !! "platform_type" = Some a /\ types_of a ts /\ t ∈ ts /\ p = specPath (Name p) (Some t).
Definition path_listed (s : yaml_spec) (p : PbOCPath) : Prop :=
  exists attrs, section_paths s !! Name p = Some attrs /\ listed_under attrs p.

(** The order of the result. *)
Definition str_before (a b : string) : Prop := String.le a b /\ a <> b.
Definition path_before (p q : PbOCPath) : Prop :=
  str_before (Name p) (Name q)
  \/ (Name p = Name q /\ str_before (GetPlatformType (OcpathConstraint p)) (GetPlatformType (OcpathConstraint q))).

Lemma addPlatformTypes_spec name ps : forall types,
  (exists ts, ps = YString <$> ts /\ NoDup ts /\ (forall t, t ∈ ts -> t ∉ types)
     /\ foldM (addPlatformType name) types ps = Ret (types ∪ list_to_set ts))
  \/ ((exists e, foldM (addPlatformType name) types ps = Fail e)
      /\ ~ exists ts, ps = YString <$> ts /\ NoDup ts /\ forall t, t ∈ ts -> t ∉ types).
Proof.
  induction ps as [|p ps IH]; intros types; cbn [foldM].
  { left. exists []. split; [done|]. split; [constructor|]. split; [by intros t ?%elem_of_nil|].
    f_equal. set_solver. }
  destruct p as [sp|l|]; cbn [addPlatformType].
  2, 3: right; split; [by eexists|]; intros ([|] & [=] & _).
  case_bool_decide as Hsp; cbn [mbind outcome_bind].
  { right. split; [by eexists|]. intros ([|x ts] & [= E1 E2] & _ & Hd). subst. apply (Hd x); [left|done]. }
  destruct (IH ({[sp]} ∪ types)) as [(ts & -> & Hnd & Hd & Hf)|[Hf Hno]].
  - left. exists (sp :: ts). split; [done|]. split; [constructor; [intros Hin; apply (Hd sp Hin); set_solver|done]|].
    split; [intros t [->|Ht]%elem_of_cons; [done|]; specialize (Hd t Ht); set_solver|].
    rewrite Hf. f_equal. set_solver.
  - right. split; [done|]. intros ([|x ts] & [= E1 E2] & Hnd & Hd). subst. apply Hno. exists ts.
    apply NoDup_cons in Hnd as [Hx Hnd]. split; [done|]. split; [done|].
    intros t Ht. assert (t ∉ types) by (apply Hd; by right). set_solver.
Qed.

Lemma pathAttribute_spec name types attr :
  (attr.1 = "platform_type" -> types = ∅) ->
  (attr_ok attr /\ exists types', pathAttribute name types attr = Ret types'
     /\ forall t, t ∈ types' <-> t ∈ types \/ (attr.1 = "platform_type" /\ exists ts, types_of attr.2 ts /\ t ∈ ts))
  \/ (~ attr_ok attr /\ exists e, pathAttribute name types attr = Fail e).
Proof.
  intros Hty. unfold pathAttribute, attr_ok. destruct attr as [k v]; cbn [fst snd] in *.
  destruct (String.eqb_spec k "platform_type") as [->|Hk].
  - rewrite (Hty eq_refl). destruct v as [|[|p ps]|];
      try (right; split; [|by eexists]; by intros [[_ ([|] & [=] & ? & ?)]|[[=]|[=]]]).
    destruct (addPlatformTypes_spec name (p :: ps) ∅) as [(ts & E & Hnd & _ & ->)|[[e ->] Hno]].
    + left. assert (types_of (YSeq (p :: ps)) ts) as Hts by (rewrite E; repeat split; [by destruct ts|done]).
      split; [by eauto|]. eexists; split; [done|]. intros t. rewrite elem_of_union, elem_of_list_to_set.
      split; [naive_solver set_solver|]. intros [?|(_ & ts' & [E' _] & Ht)]; [set_solver|].
      right. injection E' as E'. rewrite E in E'. apply (inj (fmap YString)) in E' as ->. done.
    + right. split; [|by eexists]. intros [[_ (ts & [= E] & ? & ?)]|[[=]|[=]]]. apply Hno. exists ts. set_solver.
  - destruct (String.eqb_spec k "value"), (String.eqb_spec k "values"); cbn [orb];
      [left; split; [by auto|]; eexists; split; [done|]; naive_solver..|].
    right. split; [|by eexists]. naive_solver.
Qed.

Lemma pathAttributes_spec name l : forall types,
  NoDup l.*1 -> ("platform_type" ∈ l.*1 -> types = ∅) ->
  (Forall attr_ok l /\ exists types', foldM (pathAttribute name) types l = Ret types'
     /\ forall t, t ∈ types' <-> t ∈ types \/ exists a ts, ("platform_type", a) ∈ l /\ types_of a ts /\ t ∈ ts)
  \/ (~ Forall attr_ok l /\ exists e, foldM (pathAttribute name) types l = Fail e).
Proof.
  induction l as [|[k v] l IH]; intros types Hnd Hty; cbn [foldM].
  { left. split; [constructor|]. exists types. split; [done|]. intros t. split; [auto|].
    intros [|(a & ts & []%elem_of_nil & _)]; done. }
  cbn [fmap list_fmap fst] in Hnd, Hty. apply NoDup_cons in Hnd as [Hk Hnd].
  destruct (pathAttribute_spec name types (k, v)) as [[Hok (ty1 & -> & H1)]|[Hno [e ->]]];
    [cbn; intros ->; apply Hty; left| |right; rewrite Forall_cons; split; [tauto|by eexists]].
  cbn [mbind outcome_bind fst snd] in *.
  destruct (IH ty1 Hnd) as [[Hl (ty2 & -> & H2)]|[Hl Hf]].
  - intros Hin. assert (types = ∅) as -> by (apply Hty; by right).
    apply elem_of_equiv_empty_L. intros t [|[-> _]]%H1; [set_solver|done].
  - left. rewrite Forall_cons. split; [done|]. exists ty2. split; [done|]. intros t. rewrite H2, H1. split.
    + intros [[|(-> & ts & ? & ?)]|(a & ts & ? & ?)]; [by auto|right; exists v, ts|right; exists a, ts];
        (split; [|done]); [left|by right].
    + intros [|(a & ts & [[= <- <-]|Hin]%elem_of_cons & ?)]; [by auto|left; right; by eauto|right; by eauto].
  - right. rewrite Forall_cons. split; [tauto|done].
Qed.

Section ParseYAMLTheorems.
Context {GM : Goldmark} {YM : Yaml}.

Lemma attributes_lookup name attrs k v : (k, v) ∈ attributes name attrs <-> attrs !! k = Some v.
Proof. rewrite attributes_perm. apply elem_of_map_to_list. Qed.

Lemma attributes_nodup name attrs : NoDup (attributes name attrs).*1.
Proof. rewrite attributes_perm. apply NoDup_fst_map_to_list. Qed.

(** The entries of one path. *)
Definition entries_ok (name : string) (attrs : gmap string yaml_any) (es : list PbOCPath) : Prop :=
  StronglySorted path_before es
  /\ forall p, p ∈ es <->
       (attrs !! "platform_type" = None /\ p = specPath name None)
       \/ exists a ts t, attrs !! "platform_type" = Some a /\ types_of a ts /\ t ∈ ts /\ p = specPath name (Some t).

Lemma StronglySorted_strict l : StronglySorted String.le l -> NoDup l -> StronglySorted str_before l.
Proof.
  induction 1 as [|x l Hl IH Hx]; intros Hnd; [constructor|]. apply NoDup_cons in Hnd as [Hni Hnd].
  constructor; [by apply IH|]. rewrite Forall_forall in Hx |- *. intros y Hy. split; [by apply Hx|]. by intros ->.
Qed.

Lemma sorted_platforms name l :
  StronglySorted str_before l -> StronglySorted path_before ((fun t => specPath name (Some t)) <$> l).
Proof.
  induction 1 as [|x l Hl IH Hx]; cbn [fmap list_fmap]; constructor; [done|].
  rewrite Forall_fmap. eapply Forall_impl; [done|]. intros y Hy. right. by split.
Qed.

Lemma pathEntries_spec name attrs :
  (path_ok attrs /\ exists es, pathEntries name attrs = Ret es /\ entries_ok name attrs es)
  \/ (~ path_ok attrs /\ exists e, pathEntries name attrs = Fail e).
Proof.
  assert (path_ok attrs <-> Forall attr_ok (attributes name attrs)) as Hok.
  { rewrite Forall_forall. split.
    - intros H [k v] Hin. by apply H, (attributes_lookup name).
    - intros H k v Hv. by apply H, attributes_lookup. }
  unfold pathEntries. rewrite Hok.
  destruct (pathAttributes_spec name (attributes name attrs) ∅) as [[Ho (types & -> & Ht)]|[Hno [e ->]]];
    [apply attributes_nodup|done| |by right; eauto].
  left. split; [done|]. cbn [mbind outcome_bind].
  assert (forall t, t ∈ types <-> exists a ts, attrs !! "platform_type" = Some a /\ types_of a ts /\ t ∈ ts) as Ht'.
  { intros t. rewrite Ht. setoid_rewrite attributes_lookup. set_solver. }
  case_bool_decide as Hs; eexists; (split; [done|]).
  - apply size_empty_inv, leibniz_equiv in Hs as ->. split; [repeat constructor|]. intros p.
    rewrite list_elem_of_singleton. assert (attrs !! "platform_type" = None) as Hnone.
    { destruct (attrs !! "platform_type") as [a|] eqn:Ha; [|done]. exfalso.
      apply Hok in Ho. destruct (Ho _ _ Ha) as [[_ (ts & Hts)]|[[=]|[=]]]. cbn in Hts.
      assert (Hts' := Hts). destruct Hts' as (_ & Hne & _). destruct ts as [|t ts]; [done|].
      assert (t ∈ (∅ : gset string)) as []%elem_of_empty. apply Ht'. exists a, (t :: ts). split; [done|]. split; [done|left]. }
    split; [by auto|]. intros [[_ ->]|(a & ts & t & Ha & _)]; [done|congruence].
  - split.
    + apply sorted_platforms, StronglySorted_strict; [apply sort_Strings_sorted|].
      rewrite sort_Strings_perm. apply NoDup_elements.
    + intros p. rewrite list_elem_of_fmap. setoid_rewrite sort_Strings_perm. setoid_rewrite elem_of_elements.
      setoid_rewrite Ht'. split; [naive_solver|]. intros [[Hnone _]|Hsome]; [|naive_solver].
      exfalso. apply Hs, size_empty_iff. intros t. rewrite Ht', Hnone. set_solver.
Qed.

Lemma entries_ok_listed name attrs es p :
  entries_ok name attrs es -> p ∈ es <-> Name p = name /\ listed_under attrs p.
Proof.
  intros [_ H]. rewrite H. unfold listed_under. split.
  - intros [[? ->]|(a & ts & t & ? & ? & ? & ->)]; naive_solver.
  - intros [<- [[? ?]|(a & ts & t & ? & ? & ? & ?)]]; naive_solver.
Qed.

Lemma StronglySorted_app {A} (R : A -> A -> Prop) l k :
  StronglySorted R l -> StronglySorted R k -> (forall x y, x ∈ l -> y ∈ k -> R x y) -> StronglySorted R (l ++ k).
Proof.
  induction 1 as [|x l Hl IH Hx]; intros Hk Hlk; [done|]. cbn. constructor.
  - apply IH; [done|]. intros; apply Hlk; [by right|done].
  - apply Forall_app. split; [done|]. rewrite Forall_forall. intros y Hy. apply Hlk; [left|done].
Qed.

Lemma parsePaths_loop (paths : gmap string (gmap string yaml_any)) names : forall acc,
  StronglySorted str_before names ->
  let ok := Forall (fun name => path_ok (default ∅ (paths !! name))) names in
  let run := foldM (fun acc name => es ← pathEntries name (default ∅ (paths !! name)); Ret (acc ++ es)) acc names in
  (ok /\ exists es, run = Ret (acc ++ es) /\ StronglySorted path_before es
     /\ forall p, p ∈ es <-> Name p ∈ names /\ listed_under (default ∅ (paths !! Name p)) p)
  \/ (~ ok /\ exists e, run = Fail e).
Proof.
  induction names as [|name names IH]; intros acc Hs; cbn zeta; cbn [foldM].
  { left. split; [constructor|]. exists []. rewrite app_nil_r. split; [done|]. split; [constructor|].
    intros p. rewrite !elem_of_nil. tauto. }
  apply StronglySorted_inv in Hs as [Hs Hhd]. rewrite Forall_forall in Hhd.
  destruct (pathEntries_spec name (default ∅ (paths !! name))) as [[Hok (es & -> & Hes)]|[Hno [e ->]]];
    cbn [mbind outcome_bind]; [|right; rewrite Forall_cons; split; [tauto|by eexists]].
  destruct (IH (acc ++ es) Hs) as [[Hall (es' & -> & Hs' & Hin')]|[Hno Hf]];
    [|right; rewrite Forall_cons; split; [tauto|done]].
  left. rewrite Forall_cons. split; [done|]. exists (es ++ es'). rewrite app_assoc. split; [done|].
  assert (forall p, p ∈ es <-> Name p = name /\ listed_under (default ∅ (paths !! Name p)) p) as Hin.
  { intros p. rewrite (entries_ok_listed _ _ _ _ Hes). split; intros [-> H]; by split. }
  split.
  - apply StronglySorted_app; [apply Hes|done|]. intros p q Hp%Hin Hq%Hin'. left.
    destruct Hp as [-> _]. apply Hhd. tauto.
  - intros p. rewrite elem_of_app, Hin, Hin', elem_of_cons. tauto.
Qed.

Lemma elem_of_keys {A} (m : gmap string A) k : k ∈ keys m <-> is_Some (m !! k).
Proof.
  unfold keys. rewrite list_elem_of_fmap. split.
  - intros ([k' v] & -> & H%elem_of_map_to_list). by eexists.
  - intros [v H%elem_of_map_to_list]. by exists (k, v).
Qed.

Lemma sorted_keys {A} (m : gmap string A) : StronglySorted str_before (sort_Strings (keys m)).
Proof.
  apply StronglySorted_strict; [apply sort_Strings_sorted|]. rewrite sort_Strings_perm. apply NoDup_fst_map_to_list.
Qed.

Lemma parsePaths_spec (paths : gmap string (gmap string yaml_any)) :
  ((forall name attrs, paths !! name = Some attrs -> path_ok attrs)
   /\ exists es, parsePaths paths = Ret es /\ StronglySorted path_before es
        /\ forall p, p ∈ es <-> exists attrs, paths !! Name p = Some attrs /\ listed_under attrs p)
  \/ (~ (forall name attrs, paths !! name = Some attrs -> path_ok attrs) /\ exists e, parsePaths paths = Fail e).
Proof.
  assert (Forall (fun name => path_ok (default ∅ (paths !! name))) (sort_Strings (keys paths))
          <-> forall name attrs, paths !! name = Some attrs -> path_ok attrs) as Hiff.
  { rewrite Forall_forall. setoid_rewrite sort_Strings_perm. setoid_rewrite elem_of_keys. split.
    - intros H name attrs Ha. specialize (H name). rewrite Ha in H. by apply H.
    - intros H name [attrs Ha]. rewrite Ha. by apply (H name). }
  unfold parsePaths.
  destruct (parsePaths_loop paths (sort_Strings (keys paths)) [] (sorted_keys paths)) as [[Hok (es & -> & Hs & Hin)]|[Hno Hf]].
  - left. split; [by apply Hiff|]. exists es. split; [done|]. split; [done|]. intros p. rewrite Hin, sort_Strings_perm, elem_of_keys.
    split.
    + intros [[attrs Ha] H]. rewrite Ha in H. by exists attrs.
    + intros (attrs & Ha & H). rewrite Ha. by split; [eexists|].
  - right. rewrite <- Hiff. done.
Qed.

(** The RPCs of the section. *)
Lemma addProtocols_spec rpcs names st :
  let r := foldl (addProtocol rpcs) st names in
  (forall api, r.1 !! api = if decide (api ∈ names) then Some (protocolMethods api (default ∅ (rpcs !! api))) else st.1 !! api)
  /\ (r.2 = true <-> st.2 = true \/ exists api, api ∈ names /\ default ∅ (rpcs !! api) <> ∅).
Proof.
  revert st. induction names as [|name names IH]; intros st; cbn zeta; cbn [foldl].
  { split; [intros api; by rewrite decide_False by (by intros ?%elem_of_nil)|].
    split; [auto|]. intros [|(api & []%elem_of_nil & _)]; done. }
  destruct (IH (addProtocol rpcs st name)) as [H1 H2]. cbn zeta in H1, H2. split.
  - intros api. rewrite H1. cbn [addProtocol fst]. destruct (decide (api ∈ names)) as [Hin|Hin].
    + by rewrite decide_True by (by right).
    + destruct (decide (name = api)) as [->|Hne].
      * by rewrite lookup_insert_eq, decide_True by left.
      * rewrite lookup_insert_ne by done. rewrite decide_False; [done|]. by intros [->|]%elem_of_cons.
  - rewrite H2. cbn [addProtocol snd]. rewrite orb_true_iff, bool_decide_eq_true.
    assert (0 < length (keys (default ∅ (rpcs !! name))) <-> default ∅ (rpcs !! name) <> ∅) as ->.
    { unfold keys. rewrite length_fmap, length_map_to_list, <- map_size_non_empty_iff. lia. }
    setoid_rewrite elem_of_cons. split; [|naive_solver].
    intros [[|]|(api & ? & ?)]; eauto 6.
Qed.

Lemma compare_app p a b : String.compare (p +:+ a) (p +:+ b) = String.compare a b.
Proof.
  induction p as [|c p IH]; [done|]. rewrite !str_app_cons. cbn [String.compare].
  unfold Ascii.compare. by rewrite N.compare_refl.
Qed.

Lemma str_before_app p a b : str_before a b -> str_before (p +:+ a) (p +:+ b).
Proof.
  intros [Hle Hne]. split; [unfold String.le, String.leb in *; by rewrite compare_app|].
  intros E. by apply Hne, (inj (String.append p)).
Qed.

(** The methods of a protocol in the result: named in full, sorted, each once. *)
Definition methods_ok (api : string) (methods : gmap string yaml_any) (ms : list string) : Prop :=
  StronglySorted str_before ms
  /\ forall m, m ∈ ms <-> exists method, is_Some (methods !! method) /\ m = api +:+ "." +:+ method.

Lemma protocolMethods_ok api methods : methods_ok api methods (protocolMethods api methods).
Proof.
  unfold protocolMethods. split.
  - induction (sorted_keys methods) as [|x l Hl IH Hx]; cbn [fmap list_fmap]; constructor; [done|].
    rewrite Forall_fmap. eapply Forall_impl; [done|]. intros y Hy. cbn. by do 2 apply str_before_app.
  - intros m. rewrite list_elem_of_fmap. setoid_rewrite sort_Strings_perm. setoid_rewrite elem_of_keys. naive_solver.
Qed.

Lemma addProtocols_all rpcs :
  let r := foldl (addProtocol rpcs) (∅, false) (sort_Strings (keys rpcs)) in
  (forall api, r.1 !! api = protocolMethods api <$> rpcs !! api)
  /\ (r.2 = true <-> exists name methods, rpcs !! name = Some methods /\ methods <> ∅).
Proof.
  destruct (addProtocols_spec rpcs (sort_Strings (keys rpcs)) (∅, false)) as [H1 H2]. cbn zeta in *. split.
  - intros api. rewrite H1. case_decide as Hin; rewrite sort_Strings_perm, elem_of_keys in Hin.
    + destruct Hin as [ms ->]. done.
    + apply eq_None_not_Some in Hin as ->. apply lookup_empty.
  - rewrite H2. cbn [snd]. setoid_rewrite sort_Strings_perm. setoid_rewrite elem_of_keys. split.
    + intros [|(api & [ms Hms] & Hne)]; [done|]. rewrite Hms in Hne. eauto.
    + intros (api & ms & Hms & Hne). right. exists api. by rewrite Hms.
Qed.

Lemma parseYAML_cases source s :
  yaml_Unmarshal source = Ret s ->
  (section_ok s /\ exists paths protocols,
     parseYAML source = Ret (paths, protocols)
     /\ StronglySorted path_before paths
     /\ (forall p, p ∈ paths <-> path_listed s p)
     /\ forall api ms, protocols !! api = Some ms <->
          exists rpcs methods, s !! "rpcs" = Some rpcs /\ rpcs !! api = Some methods /\ ms = protocolMethods api methods
            /\ methods_ok api methods ms)
  \/ (~ section_ok s /\ exists e, parseYAML source = Fail e).
Proof.
  intros Hs. unfold parseYAML, section_ok. rewrite Hs. fold (section_paths s).
  destruct (parsePaths_spec (section_paths s)) as [[Hok (es & -> & Hsort & Hin)]|[Hno [e ->]]];
    cbn [mbind outcome_bind]; [|right; split; [tauto|by eexists]].
  destruct (s !! "rpcs") as [rpcs|] eqn:Hr; [|right; split; [naive_solver|by eexists]].
  destruct (addProtocols_all rpcs) as [H1 H2]. cbn zeta in *.
  destruct (foldl (addProtocol rpcs) (∅, false) (sort_Strings (keys rpcs))) as [ps has]. cbn [fst snd] in *.
  destruct has; cbn [negb]; [left|right].
  - split; [split; [done|]; destruct H2 as [(name & ms & ? & ?) _]; [done|]; by exists rpcs, name, ms|].
    exists es, ps. split; [done|]. split; [done|]. split; [done|]. intros api ms. rewrite H1, fmap_Some. split.
    + intros (methods & Hm & ->). exists rpcs, methods. split; [done|]. split; [done|]. split; [done|apply protocolMethods_ok].
    + intros (rpcs' & methods & [= <-] & Hm & -> & _). by exists methods.
  - split; [|by eexists]. intros [_ (rpcs' & name & ms & [= <-] & Hm)]. assert (false = true) by (apply H2; eauto). done.
Qed.

(** on a section that decodes, [parseYAML] fails exactly when an attribute of a
    path is unknown, or its platform types are not a list of distinct strings that
    is not empty, or there is no RPC method; otherwise the paths are those listed,
    one for each platform type, sorted by name and platform type without
    duplicates, and every protocol has its methods, named in full and sorted,
    whatever the order in which the maps are ranged over. *)
Theorem parseYAML_spec source s :
  yaml_Unmarshal source = Ret s ->
  (section_ok s /\ exists paths protocols,
     parseYAML source = Ret (paths, protocols)
     /\ StronglySorted path_before paths
     /\ (forall p, p ∈ paths <-> path_listed s p)
     /\ forall api ms, protocols !! api = Some ms <->
          exists rpcs methods, s !! "rpcs" = Some rpcs /\ rpcs !! api = Some methods /\ ms = protocolMethods api methods
            /\ methods_ok api methods ms)
  \/ (~ section_ok s /\ exists e, parseYAML source = Fail e).
Proof. apply parseYAML_cases. Qed.
End ParseYAMLTheorems.

(** ** Witness *)

Module RefSection.
(** A section with a path on two platforms and one method. *)
Definition decoded : yaml_spec :=
  {["paths" := {["/a" := ∅; "/b" := {["platform_type" := YSeq [YString "LINECARD"; YString "CHASSIS"]; "values" := YOther]}]};
    "rpcs" := {["gnmi" := {["gNMI.Get" := YOther]}]}]}.
#[refine] Instance yaml : Yaml := {| yaml_Unmarshal _ := Ret decoded; attributes _ m := map_to_list m |}.
Proof.
  - intros b. left. by eexists.
  - done.
Defined.
End RefSection.

Lemma parseYAML_spec_witness :
  let YM := RefSection.yaml in
  (section_ok RefSection.decoded /\ exists paths protocols,
     parseYAML "text" = Ret (paths, protocols)
     /\ StronglySorted path_before paths
     /\ (forall p, p ∈ paths <-> path_listed RefSection.decoded p)
     /\ forall api ms, protocols !! api = Some ms <->
          exists rpcs methods, RefSection.decoded !! "rpcs" = Some rpcs /\ rpcs !! api = Some methods
            /\ ms = protocolMethods api methods /\ methods_ok api methods ms)
  \/ (~ section_ok RefSection.decoded /\ exists e, parseYAML "text" = Fail e).
Proof. intros YM. apply (parseYAML_spec (YM := RefSection.yaml) "text" RefSection.decoded). reflexivity. Defined.

(** It is accepted. *)
Example RefSection_accepted :
  match parseYAML (YM := RefSection.yaml) "text" with Ret (paths, _) => length paths = 3 | _ => False end.
Proof. vm_compute. reflexivity. Qed.
