(* ===== verification/Readme.v ===== *)
(** * README validation

    The commands [src/tools/validate_readme_spec] and
    [src/tools/validate_readme_canonicalocspec], and [FeatureDir] of
    [src/tools/internal/fpciutil]: which README files are checked, how each is
    checked, and which are reported.  [log.Exit] is [Fail]: the command ends with
    an error. *)
From stdpp Require Import base list gmap strings sorting.
From Stdlib Require Import Lia Ascii.
From S2P Require Import Prelude GoStrings.
From S2P Require Import OcPaths OcRpcs MdSpec.

(** ** Files of the source tree, which the commands only read *)

Record dirEntry := { dir_path : string; dir_Name : string; dir_err : option error }.

Class Tree := {
  isDir : string -> bool;
  (** the calls of the function that [filepath.WalkDir] is given *)
  WalkDir : string -> list dirEntry;
  ReadFile : string -> go string;
  (** the path of the file [filepathutil.go], if it is known *)
  Caller : option string
}.

Definition READMEname : string := "README.md".

Section Readme.
Context {TR : Tree}.

Fixpoint featureLoop (fuel : nat) (newpath : string) : go string :=
  match fuel with
  | 0 => NoFuel
  | S fuel =>
      if String.eqb newpath "." || String.eqb newpath "/" then Fail (errors_New "feature root not found")
      else
        let featurepath := JoinPath [newpath; "feature"] in
        if isDir featurepath then Ret featurepath else featureLoop fuel (Dir newpath)
  end.

(** Every round shortens the path. *)
Definition FeatureDir : go string :=
  match Caller with
  | None => Fail (errors_New "could not detect caller")
  | Some path => featureLoop (S (S (String.length path))) (Dir path)
  end.

Definition addReadme (files : list string) (d : dirEntry) : go (list string) :=
  match dir_err d with
  | Some e => Fail e
  | None => Ret (if String.eqb (dir_Name d) READMEname then files ++ [dir_path d] else files)
  end.
Definition readmeFiles (featureDir : string) : go (list string) := foldM addReadme [] (WalkDir featureDir).

(** The files to check, from the arguments and the flag [-feature-dir]. *)
Definition selectFiles (args : list string) (featureDir : string) : go (list string) :=
  let walk dir :=
    match readmeFiles dir with
    | Fail e => Fail (errors_New ("Error gathering README.md files for validation: " +:+ err_msg e))
    | r => r
    end in
  match args, featureDir with
  | _ :: _, String _ _ =>
      Fail (errors_New "If -feature-dir flag is specified, README files must not be specified as positional arguments.")
  | _ :: _, EmptyString => Ret args
  | [], EmptyString =>
      match FeatureDir with
      | Ret dir => walk dir
      | Fail e => Fail (errors_New ("Unable to locate feature root: " +:+ err_msg e))
      | Panic => Panic
      | NoFuel => NoFuel
      end
  | [], dir => walk dir
  end.

(** ** The loop over the files, with the set of files in error

    [check] is the check of one file: whether it is in error. *)
Fixpoint validateLoop {S} (exempt : gset string) (check : string -> gost S bool) (erred : gset string) (files : list string)
  : gost S (gset string) :=
  match files with
  | [] => mret erred
  | file :: files =>
      if bool_decide (file ∈ exempt) then validateLoop exempt check erred files
      else
        bad ← check file;
        validateLoop exempt check (if bad : bool then {[file]} ∪ erred else erred) files
  end.
Definition validateFiles {S} (exempt : gset string) (check : string -> gost S bool) (files : list string)
  : gost S (gset string) := validateLoop exempt check ∅ files.

Definition report {S} (erred : gset string) : gost S unit :=
  if bool_decide (0 < size erred)
  then lift (Fail (errors_New ("The following files have errors:" +:+ Join (elements erred) (String (ascii_of_nat 10) ""))))
  else mret tt.

Definition readFile {S} (file : string) : gost S string :=
  match ReadFile file with
  | Fail _ => lift (Fail (errors_New ("Error reading file: " +:+ file)))
  | r => lift r
  end.

(** ** [validate_readme_spec] *)

Record Config := { DownloadPath : string; FeatureDirFlag : string; NonTestREADMEs : gset string }.

Section Spec.
Context {Entry : Type} {GY : Goyang Entry} {YP : YangParser Entry} {CN : ComponentNames}.
Context {W : Type} {SH : Shell W} {FS : Files W} {PP : ProtoParser}.
Context {GM : Goldmark} {YM : Yaml}.
(** [os.MkdirAll], whose error is only printed, and the order in which the
    protocols of a README are ranged over. *)
Context (MkdirAll : string -> W -> W).
Context (rangeProtocols : gmap string (list string) -> list (string * list string)).

Definition checkPaths (ocPaths : list PbOCPath) (publicPath : string) : go bool :=
  match ValidatePaths ocPaths publicPath with
  | Ret (_, _, []) => Ret false
  | Ret _ | Fail _ => Ret true
  | Panic => Panic
  | NoFuel => NoFuel
  end.
Definition checkRPCs (downloadPath : string) (ocRPCs : gmap string (list string)) : gost W bool := fun w =>
  match ValidateRPCs downloadPath (rangeProtocols ocRPCs) w with
  | (Ret (_, []), w) => (Ret false, w)
  | (Ret _, w) | (Fail _, w) => (Ret true, w)
  | (Panic, w) => (Panic, w)
  | (NoFuel, w) => (NoFuel, w)
  end.

Definition checkReadme (downloadPath publicPath file : string) : gost W bool :=
  b ← readFile file;
  match Parse b with
  | Ret (ocPaths, ocRPCs) =>
      badPaths ← lift (checkPaths ocPaths publicPath);
      badRPCs ← checkRPCs downloadPath ocRPCs;
      mret (badPaths || badRPCs)
  | Fail _ => mret true
  | Panic => lift Panic
  | NoFuel => lift NoFuel
  end.

Definition specMain (config : Config) (args : list string) : gost W unit :=
  files ← lift (selectFiles args (FeatureDirFlag config));
  _ ← (fun w => (Ret tt, MkdirAll (DownloadPath config) w));
  publicPath ← ClonePublicRepo (DownloadPath config) "";
  erred ← validateFiles (NonTestREADMEs config) (checkReadme (DownloadPath config) publicPath) files;
  report erred.
End Spec.

(** ** [validate_readme_canonicalocspec] *)

Section CanonicalSpec.
Context {GM : Goldmark} {R : Type} {OR : OcRoot R}.
(** [ygot.ValidateGoStruct] *)
Context (ValidateGoStruct : R -> option error).

Definition isValidOC (canonicalOC : R) : option error := ValidateGoStruct canonicalOC.

(** The loop over the structs: whether one is invalid. *)
Definition errored (ocStructs : list R) : bool :=
  foldl (fun errored oc => match isValidOC oc with Some _ => true | None => errored end) false ocStructs.

Definition checkStructs (b : string) : gost mdState bool := fun s =>
  match canonicalParse b s with
  | (Ret ocStructs, s) => (Ret (errored ocStructs), s)
  | (Fail _, s) => (Ret true, s)
  | (Panic, s) => (Panic, s)
  | (NoFuel, s) => (NoFuel, s)
  end.
Definition checkCanonical (file : string) : gost mdState bool :=
  b ← readFile file; checkStructs b.

Definition canonicalMain (featureDir : string) (exempt : gset string) (args : list string) : gost mdState unit :=
  files ← lift (selectFiles args featureDir);
  erred ← validateFiles exempt checkCanonical files;
  report erred.
End CanonicalSpec.
End Readme.

(** * Theorems *)

(** ** The loop *)

(** If every check returns, and keeps an invariant, the files in error are those
    that are not exempt and whose check says so. *)
Lemma validateLoop_spec {S} (I : S -> Prop) (bad : string -> Prop) exempt (check : string -> gost S bool) files :
  (forall file st, file ∈ files -> file ∉ exempt -> I st ->
     returns (check file) st (fun b st' => I st' /\ (b = true <-> bad file))) ->
  forall erred st, I st ->
  returns (validateLoop exempt check erred files) st (fun r st' =>
    I st' /\ forall file, file ∈ r <-> file ∈ erred \/ (file ∈ files /\ file ∉ exempt /\ bad file)).
Proof.
  induction files as [|f files IH]; intros Hcheck erred st HI; cbn [validateLoop].
  { apply returns_ret. split; [done|]. intros file. rewrite elem_of_nil. tauto. }
  assert (forall erred st, I st -> returns (validateLoop exempt check erred files) st (fun r st' =>
    I st' /\ forall file, file ∈ r <-> file ∈ erred \/ (file ∈ files /\ file ∉ exempt /\ bad file))) as IH'.
  { apply IH. intros file st' Hin. apply Hcheck. by right. }
  case_bool_decide as Hex.
  - eapply returns_mono; [by apply IH'|]. intros r st' [HI' Hr]. split; [done|]. intros file. rewrite Hr, elem_of_cons.
    naive_solver.
  - apply returns_bind. eapply returns_mono; [apply Hcheck; [left|done|done]|]. intros b st1 [HI1 Hb].
    eapply returns_mono; [by apply IH'|]. intros r st' [HI' Hr]. split; [done|]. intros file. rewrite Hr, elem_of_cons.
    destruct b; [rewrite elem_of_union, elem_of_singleton|].
    + assert (bad f) by by apply Hb. naive_solver.
    + assert (~ bad f) by (intros H%Hb; done). naive_solver.
Qed.

(** The exit of a command that found the files [erred] in error. *)
Definition exit (erred : gset string) : go unit :=
  if bool_decide (erred = ∅) then Ret tt
  else Fail (errors_New ("The following files have errors:" +:+ Join (elements erred) (String (ascii_of_nat 10) ""))).

Lemma report_exit {S} erred (st : S) : report erred st = (exit erred, st).
Proof.
  unfold report, exit. case_bool_decide as H; case_bool_decide as He; try done; subst.
  - exfalso. rewrite size_empty in H. lia.
  - exfalso. apply He, leibniz_equiv, size_empty_inv. lia.
Qed.

Section ReadmeTheorems.
Context {TR : Tree}.
Context {Entry : Type} {GY : Goyang Entry} {YP : YangParser Entry} {CN : ComponentNames}.
Context {W : Type} {SH : Shell W} {FS : Files W} {PP : ProtoParser} {GL : GitLaws}.
Context {GM : Goldmark} {YM : Yaml}.
Context (rangeProtocols : gmap string (list string) -> list (string * list string)).
Context (rangeProtocols_perm : forall m, rangeProtocols m ≡ₚ map_to_list m).

(** ** [validate_readme_spec] *)

(** A README that is accepted, where [usable] tells the protocols whose
    repositories can be had. *)
Definition good_readme (usable : string -> bool) (root : Entry) (b : string) : Prop :=
  exists ocPaths ocRPCs, Parse b = Ret (ocPaths, ocRPCs)
    /\ Forall (fun p => wanted root (convertOCPath p)) ocPaths
    /\ (forall api, is_Some (ocRPCs !! api) -> usable api = true)
    /\ forall api ms name, ocRPCs !! api = Some ms -> name ∈ ms -> api_declares api name.

(** The paths of a section have distinct keys, so that [insert] finds no duplicate. *)
Lemma path_before_keys l : StronglySorted path_before l -> NoDup (Key <$> (convertOCPath <$> l)).
Proof.
  induction 1 as [|p l Hl IH Hp]; cbn [fmap list_fmap]; constructor; [|done].
  rewrite list_elem_of_fmap. intros (q & Hk & Hq). apply list_elem_of_fmap in Hq as (q' & -> & Hq).
  rewrite Forall_forall in Hp. injection Hk as H1 H2. destruct (Hp q' Hq) as [[_ Hne]|[_ [_ Hne]]]; congruence.
Qed.

Lemma Parse_returns b :
  (exists ocPaths ocRPCs, Parse b = Ret (ocPaths, ocRPCs) /\ StronglySorted path_before ocPaths)
  \/ (exists e, Parse b = Fail e).
Proof.
  rewrite Parse_eq. cbn zeta. case_match; [by right; eexists|].
  match goal with |- context [parseYAML ?y] => generalize y end. intros yaml.
  destruct (yaml_returns yaml) as [[s Hs]|[e He]].
  - destruct (parseYAML_cases yaml s Hs) as [(_ & ps & protos & -> & Hsort & _)|[_ [e ->]]]; eauto 6.
  - right. unfold parseYAML. rewrite He. by eexists.
Qed.

Lemma checkPaths_spec ocPaths publicPath root :
  getSchemaFakeroot publicPath = Ret (Some root) -> StronglySorted path_before ocPaths ->
  exists b, checkPaths ocPaths publicPath = Ret b
    /\ (b = false <-> Forall (fun p => wanted root (convertOCPath p)) ocPaths).
Proof.
  intros Hroot Hsort. unfold checkPaths.
  destruct (ValidatePaths_returns ocPaths publicPath root Hroot) as (valid & invalid & es & -> & _ & _ & _ & He).
  rewrite Forall_fmap in He. assert (es = [] <-> Forall (fun p => wanted root (convertOCPath p)) ocPaths) as Hes.
  { rewrite He. pose proof (path_before_keys _ Hsort). tauto. }
  destruct es; eexists; (split; [done|]); rewrite <- Hes; by split.
Qed.

Lemma listed_range ocRPCs api name :
  (api, name) ∈ listed (rangeProtocols ocRPCs) <-> exists ms, ocRPCs !! api = Some ms /\ name ∈ ms.
Proof.
  unfold listed. rewrite list_elem_of_bind. setoid_rewrite rangeProtocols_perm. split.
  - intros ([a ms] & Hin & Hp%elem_of_map_to_list). apply list_elem_of_fmap in Hin as (n & [= -> ->] & Hn). by exists ms.
  - intros (ms & Hms & Hn). exists (api, ms). split; [by apply list_elem_of_fmap_2|by apply elem_of_map_to_list].
Qed.

(** The state between two files: what was downloaded is up to date, and what can be
    had does not change. *)
Definition steady (dl : string) (apis : list string) (usable : string -> bool) (w : W) : Prop :=
  Forall (current dl w) apis /\ forall a, a ∈ apis -> obtainable dl w a = usable a.

Lemma steady_extends dl apis usable w w' : steady dl apis usable w -> extends dl apis w w' -> steady dl apis usable w'.
Proof. intros [_ H] (Hc & _ & Ho). split; [done|]. intros a Ha. by rewrite Ho, H. Qed.

Lemma checkRPCs_spec dl apis usable ocRPCs w :
  apis_ok dl apis -> (forall api, is_Some (ocRPCs !! api) -> api ∈ apis) -> steady dl apis usable w ->
  returns (checkRPCs rangeProtocols dl ocRPCs) w (fun b w' =>
    steady dl apis usable w'
    /\ (b = false <-> (forall api, is_Some (ocRPCs !! api) -> usable api = true) /\
         forall api ms name, ocRPCs !! api = Some ms -> name ∈ ms -> api_declares api name)).
Proof.
  intros Hok Hsub Hst. pose proof Hst as [Hcur Hus].
  assert (forall api, api ∈ (rangeProtocols ocRPCs).*1 <-> is_Some (ocRPCs !! api)) as Hkeys.
  { intros api. rewrite rangeProtocols_perm, list_elem_of_fmap. split.
    - intros ([a ms] & -> & Hp%elem_of_map_to_list). by eexists.
    - intros [ms Hms]. exists (api, ms). split; [done|by apply elem_of_map_to_list]. }
  assert ((rangeProtocols ocRPCs).*1 ⊆ apis) as Hin by (intros api Ha; by apply Hsub, Hkeys).
  unfold checkRPCs. destruct (decide (Forall (fun api => obtainable dl w api = true) (rangeProtocols ocRPCs).*1)) as [Hob|Hob].
  - destruct (ValidateRPCs_returns dl apis (rangeProtocols ocRPCs) w Hok Hin Hcur Hob)
      as ([n es] & w' & Hv & _ & _ & Hes & _ & Hx).
    assert (forall api, is_Some (ocRPCs !! api) -> usable api = true) as Hu.
    { intros api Ha. rewrite <- Hus by auto. rewrite Forall_forall in Hob. by apply Hob, Hkeys. }
    setoid_rewrite listed_range in Hes. cbn [snd] in Hes.
    assert (es = [] <-> forall api ms name, ocRPCs !! api = Some ms -> name ∈ ms -> api_declares api name) as Hes'
      by (rewrite Hes; naive_solver).
    destruct es as [|e es]; eexists _, w'; rewrite Hv; (split; [done|]); (split; [by eapply steady_extends|]);
      rewrite <- Hes'; by split; [|intros []].
  - apply not_Forall_Exists in Hob; [|apply _].
    assert (Exists (fun api => obtainable dl w api = false) (rangeProtocols ocRPCs).*1) as Hno.
    { eapply Exists_impl; [exact Hob|]. intros api H. by apply not_true_iff_false. }
    destruct (validateProtocols_fails dl apis (rangeProtocols ocRPCs) w (0, []) Hok Hin Hcur Hno) as (e & w' & Hv & Hx).
    unfold ValidateRPCs. exists true, w'. rewrite Hv. split; [done|]. split; [by eapply steady_extends|].
    split; [done|]. intros [Hu _]. exfalso. apply Exists_exists in Hno as (api & Ha & Hf).
    rewrite Hus in Hf by auto. rewrite Hu in Hf; [done|]. by apply Hkeys.
Qed.

(** The protocols of the README are among [apis]. *)
Definition names_apis (apis : list string) (b : string) : Prop :=
  forall ocPaths ocRPCs, Parse b = Ret (ocPaths, ocRPCs) -> forall api, is_Some (ocRPCs !! api) -> api ∈ apis.

Lemma checkReadme_spec dl apis usable publicPath root file b w :
  ReadFile file = Ret b -> getSchemaFakeroot publicPath = Ret (Some root) ->
  apis_ok dl apis -> names_apis apis b -> steady dl apis usable w ->
  returns (checkReadme rangeProtocols dl publicPath file) w (fun bad w' =>
    steady dl apis usable w' /\ (bad = true <-> ~ good_readme usable root b)).
Proof.
  intros Hb Hroot Hok Hapis Hst. unfold checkReadme, readFile. rewrite Hb. apply returns_bind, (returns_lift _ b); [done|].
  destruct (Parse_returns b) as [(ocPaths & ocRPCs & Hp & Hsort)|[e Hp]]; rewrite Hp.
  2: { apply returns_ret. split; [done|]. split; [|done]. intros _ (? & ? & ? & _). congruence. }
  destruct (checkPaths_spec ocPaths publicPath root Hroot Hsort) as (b1 & Hb1 & H1).
  apply returns_bind, (returns_lift _ b1); [done|]. apply returns_bind.
  eapply returns_mono; [by apply checkRPCs_spec; [|apply (Hapis _ _ Hp)|]|].
  intros b2 w' [Hst' H2]. apply returns_ret. split; [done|].
  assert (b1 || b2 = false <-> good_readme usable root b) as Hgood.
  { rewrite orb_false_iff, H1, H2. unfold good_readme. rewrite Hp. naive_solver. }
  rewrite <- Hgood. by destruct (b1 || b2).
Qed.

Definition accepted (usable : string -> bool) (root : Entry) (file : string) : Prop :=
  exists b, ReadFile file = Ret b /\ good_readme usable root b.

(** A file that can be read, or not. *)
Definition readable_readme (apis : list string) (file : string) : Prop :=
  exists b, ReadFile file = Ret b /\ names_apis apis b.

(** Of the files one, that is not exempt, cannot be read: the loop ends there. *)
Lemma validateLoop_unreadable dl apis usable publicPath root exempt files : getSchemaFakeroot publicPath = Ret (Some root) ->
  apis_ok dl apis ->
  (forall file, file ∈ files -> file ∉ exempt -> readable_readme apis file \/ exists e, ReadFile file = Fail e) ->
  forall file e, file ∈ files -> file ∉ exempt -> ReadFile file = Fail e -> forall erred w, steady dl apis usable w ->
  exists f w', validateLoop exempt (checkReadme rangeProtocols dl publicPath) erred files w =
    (Fail (errors_New ("Error reading file: " +:+ f)), w') /\ f ∈ files /\ exists e, ReadFile f = Fail e.
Proof.
  intros Hroot Hok Hall file e Hin Hex Hf. induction files as [|f files IH]; intros erred w Hst; [by apply elem_of_nil in Hin|].
  cbn [validateLoop].
  assert (f <> file -> forall erred w, steady dl apis usable w -> exists g w', validateLoop exempt (checkReadme rangeProtocols dl publicPath) erred
    files w = (Fail (errors_New ("Error reading file: " +:+ g)), w') /\ g ∈ f :: files /\ exists e, ReadFile g = Fail e) as Hnext.
  { intros Hne erred' w' Hw'. destruct (IH ltac:(intros; apply Hall; [by right|done])
      ltac:(by apply elem_of_cons in Hin as [->|]) erred' w' Hw') as (g & w2 & Hg & Hgin & Hge).
    exists g, w2. split; [done|]. split; [by right|done]. }
  case_bool_decide as Hx; [apply Hnext; [congruence|done]|].
  destruct (Hall f ltac:(left) Hx) as [(b & Hb & Hn)|[e' He]].
  - destruct (checkReadme_spec dl apis usable publicPath root f b w Hb Hroot Hok Hn Hst) as (bad & w1 & Hc & Hst1 & _).
    rewrite (bind_run _ _ _ _ _ Hc). apply Hnext; [congruence|done].
  - exists f, w. unfold mbind, gost_bind, checkReadme, readFile. rewrite He.
    split; [done|]. split; [left|by eexists].
Qed.

(** C24: [validate_readme_spec].  An error in selecting the files or in cloning the
    public repository ends it with that error.  Otherwise, when the YANG files of the
    public repository parse (if they do not, the tool panics at a README with paths:
    [OcPaths.ValidatePaths_unparsed]), the protocols have directories that do not
    overlap, and those that can be cloned hold service definitions that parse: if a
    README that is not exempt cannot be read, the tool ends with that error;
    otherwise it ends and reports exactly the files that are not exempt and not
    accepted, and ends without an error exactly when there are none.  A README is
    accepted when its coverage section parses, every path of it is a leaf of the
    schema with the component its path calls for, the repository of each of its
    protocols was downloaded before or can be cloned, and every RPC of it is declared
    there.  A README is thus reported, too, when a repository cannot be cloned. *)
Theorem specMain_reports MkdirAll config args w :
  let dl := DownloadPath config in
  let main := specMain MkdirAll rangeProtocols config args in
  (forall e, selectFiles args (FeatureDirFlag config) = Fail e -> main w = (Fail e, w)) /\
  forall files, selectFiles args (FeatureDirFlag config) = Ret files ->
  (forall e w1, ClonePublicRepo dl "" (MkdirAll dl w) = (Fail e, w1) -> main w = (Fail e, w1)) /\
  forall publicPath w1 root apis, ClonePublicRepo dl "" (MkdirAll dl w) = (Ret publicPath, w1) ->
  getSchemaFakeroot publicPath = Ret (Some root) -> apis_ok dl apis -> Forall (current dl w1) apis ->
  (forall file, file ∈ files -> file ∉ NonTestREADMEs config -> readable_readme apis file \/ exists e, ReadFile file = Fail e) ->
  (exists f w', main w = (Fail (errors_New ("Error reading file: " +:+ f)), w') /\ f ∈ files /\ exists e, ReadFile f = Fail e) \/
  ((forall file, file ∈ files -> file ∉ NonTestREADMEs config -> readable_readme apis file) /\
   exists erred w', main w = (exit erred, w')
    /\ forall file, file ∈ erred <->
         file ∈ files /\ file ∉ NonTestREADMEs config /\ ~ accepted (obtainable dl w1) root file).
Proof.
  intros dl main. split; [intros e He; subst main; unfold specMain, mbind, gost_bind, lift; by rewrite He|].
  intros files Hfiles.
  assert (main w = (publicPath ← ClonePublicRepo dl "";
    erred ← validateFiles (NonTestREADMEs config) (checkReadme rangeProtocols dl publicPath) files; report erred) (MkdirAll dl w))
    as Hmain.
  { subst main. unfold specMain. rewrite (bind_run _ _ w files w) by (unfold lift; by rewrite Hfiles).
    by rewrite (bind_run _ _ w tt (MkdirAll dl w)). }
  rewrite Hmain. split; [intros e w1 He; unfold mbind, gost_bind; by rewrite He|].
  intros publicPath w1 root apis Hclone Hroot Hok Hcur Hall. rewrite (bind_run _ _ _ _ _ Hclone).
  assert (steady dl apis (obtainable dl w1) w1) as Hst by done. unfold validateFiles.
  destruct (decide (Exists (fun f => f ∉ NonTestREADMEs config /\ (match ReadFile f with Fail _ => true | _ => false end) = true) files))
    as [Hx|Hx].
  - left. apply Exists_exists in Hx as (file & Hin & Hex & Hf). destruct (ReadFile file) as [|e| |] eqn:He; try done.
    destruct (validateLoop_unreadable dl apis (obtainable dl w1) publicPath root _ files Hroot Hok Hall file e Hin Hex He ∅ w1 Hst)
      as (f & w' & Hrun & Hf'). exists f, w'. split; [|done]. unfold mbind, gost_bind. by rewrite Hrun.
  - right. assert (forall file, file ∈ files -> file ∉ NonTestREADMEs config -> readable_readme apis file) as Hread.
    { intros file Hin Hex. destruct (Hall file Hin Hex) as [|[e He]]; [done|]. exfalso. apply Hx, Exists_exists.
      exists file. by rewrite He. }
    split; [done|].
    destruct (validateLoop_spec (steady dl apis (obtainable dl w1)) (fun file => ~ accepted (obtainable dl w1) root file)
                (NonTestREADMEs config) (checkReadme rangeProtocols dl publicPath) files) with (erred := (∅ : gset string)) (st := w1)
      as (erred & w' & Hrun & _ & Herred); [|done|].
    + intros file st Hin Hex Hst'. destruct (Hread file Hin Hex) as (b & Hb & Hapis).
      eapply returns_mono; [by apply checkReadme_spec|]. intros bad st' [Hs' ->]. split; [done|].
      unfold accepted. split; [|eauto]. intros H (b' & Hb' & Hg). congruence.
    + exists erred, w'. rewrite (bind_run _ _ _ _ _ Hrun), report_exit. split; [done|]. intros file. rewrite Herred. set_solver.
Qed.
End ReadmeTheorems.

(** ** [validate_readme_canonicalocspec] *)

Section CanonicalTheorems.
Context {TR : Tree} {GM : Goldmark} {R : Type} {OR : OcRoot R}.
Context (ValidateGoStruct : R -> option error).

(** A README with canonical blocks, all of which decode into valid configurations. *)
Definition canonical_blocks (b : string) : list string :=
  filter (fun t => t <> "") (text <$> blocks CanonicalOCHeading jsonLang (parseMarkdown b)).
Definition valid_block (t : string) : Prop := exists r, oc_Unmarshal t = Ret r /\ ValidateGoStruct r = None.
Definition good_canonical (b : string) : Prop := canonical_blocks b <> [] /\ Forall valid_block (canonical_blocks b).

Lemma errored_spec rs : errored ValidateGoStruct rs = false <-> Forall (fun r => ValidateGoStruct r = None) rs.
Proof.
  unfold errored, isValidOC. enough (forall b,
    foldl (fun errored oc => match ValidateGoStruct oc with Some _ => true | None => errored end) b rs = false
    <-> b = false /\ Forall (fun r => ValidateGoStruct r = None) rs) as H by (rewrite H; tauto).
  induction rs as [|r rs IH]; intros b; cbn [foldl]; [rewrite Forall_nil; tauto|].
  rewrite IH, Forall_cons. destruct (ValidateGoStruct r); naive_solver.
Qed.

Lemma mapM_blocks ts :
  (exists rs, mapM oc_Unmarshal ts = Ret rs /\ (errored ValidateGoStruct rs = false <-> Forall valid_block ts))
  \/ ((exists e, mapM oc_Unmarshal ts = Fail e) /\ ~ Forall valid_block ts).
Proof.
  setoid_rewrite errored_spec. induction ts as [|t ts IH]; cbn [mapM]; [left; exists []; by rewrite !Forall_nil|].
  rewrite (Forall_cons valid_block). destruct (oc_returns t) as [[r Hr]|[e He]].
  - assert (ValidateGoStruct r = None <-> valid_block t) as Ht.
    { unfold valid_block. rewrite Hr. split; [by eauto|]. by intros (r' & [= <-] & ?). }
    rewrite Hr. cbn [mbind outcome_bind]. destruct IH as [(rs & -> & Hrs)|[[e ->] Hno]]; [left|right; split; [by eexists|tauto]].
    exists (r :: rs). split; [done|]. rewrite !Forall_cons. tauto.
  - rewrite He. right. split; [by eexists|]. intros [(r & Hr & _) _]. congruence.
Qed.

Lemma checkCanonical_spec file b st :
  ReadFile file = Ret b ->
  returns (checkCanonical ValidateGoStruct file) st (fun bad st' => bad = true <-> ~ good_canonical b).
Proof.
  intros Hb. unfold checkCanonical, readFile. rewrite Hb. apply returns_bind, (returns_lift _ b); [done|].
  unfold returns, checkStructs. rewrite canonicalParse_eq. cbn zeta. fold (canonical_blocks b). unfold good_canonical.
  destruct (canonical_blocks b) as [|t ts] eqn:E; [eexists _, _; split; [done|]; tauto|].
  destruct (mapM_blocks (t :: ts)) as [(rs & -> & Hrs)|[[e ->] Hno]]; eexists _, _; (split; [done|]); [|tauto].
  rewrite <- Hrs. assert (t :: ts <> []) by done. destruct (errored ValidateGoStruct rs); intuition congruence.
Qed.

(** [validate_readme_canonicalocspec], once the files are selected and can be
    read, ends, and reports exactly the files that are not exempt and have no
    canonical block or one that does not decode into a valid configuration; what
    the shared list held before has no effect. *)
Theorem canonicalMain_reports featureDir exempt args files st :
  selectFiles args featureDir = Ret files ->
  (forall file, file ∈ files -> file ∉ exempt -> exists b, ReadFile file = Ret b) ->
  exists erred st', canonicalMain ValidateGoStruct featureDir exempt args st = (exit erred, st')
    /\ forall file, file ∈ erred <->
         file ∈ files /\ file ∉ exempt /\ ~ exists b, ReadFile file = Ret b /\ good_canonical b.
Proof.
  intros Hfiles Hread. unfold canonicalMain. rewrite (bind_run _ _ st files st) by (unfold lift; by rewrite Hfiles).
  destruct (validateLoop_spec (fun _ => True) (fun file => ~ exists b, ReadFile file = Ret b /\ good_canonical b)
              exempt (checkCanonical ValidateGoStruct) files) with (erred := (∅ : gset string)) (st := st)
    as (erred & st' & Hrun & _ & Herred); [|done|].
  - intros file st' Hin Hex _. destruct (Hread file Hin Hex) as [b Hb].
    eapply returns_mono; [by apply checkCanonical_spec|]. intros bad _ ->. split; [done|].
    split; [|eauto]. intros H (b' & Hb' & Hg). congruence.
  - exists erred, st'. rewrite (bind_run _ _ _ _ _ Hrun), report_exit. split; [done|]. intros file. rewrite Herred. set_solver.
Qed.
End CanonicalTheorems.

(** ** The search for the feature directory *)

Definition cost (l : list string) : nat := sum_list_with (fun e => if String.eqb e "" then 0 else S (String.length e)) l.
Definition weight (l : list string) : nat := sum_list_with (fun e => S (String.length e)) l.

Lemma cost_app l k : cost (l ++ k) = cost l + cost k.
Proof. apply sum_list_with_app. Qed.

Ltac weigh := unfold cost, weight in *; cbn in *; lia.

Lemma clean_weight rooted l st : weight (foldl (clean_step rooted) st l) <= weight st + cost l.
Proof.
  revert st. induction l as [|e l IH]; intros st; cbn [foldl]; [weigh|].
  etrans; [apply IH|]. enough (weight (clean_step rooted st e) <= weight st + cost [e]) by (change (e :: l) with ([e] ++ l); rewrite cost_app; lia).
  unfold clean_step. destruct (String.eqb_spec e "") as [->|He]; [weigh|]. cbn [orb cost sum_list_with].
  rewrite (proj2 (String.eqb_neq _ _) He). destruct (String.eqb e "."); [lia|].
  destruct (String.eqb e ".."); [|weigh]. destruct st as [|top st]; [destruct rooted; weigh|].
  destruct (String.eqb top ".."); weigh.
Qed.

Lemma cost_split c s : cost (split_on c s) <= S (String.length s).
Proof.
  enough (weight (split_on c s) = S (String.length s)) as <-.
  { induction (split_on c s) as [|e l IH]; unfold cost, weight in *; cbn in *; [lia|]. destruct (String.eqb e ""); lia. }
  induction s as [|d s IH]; [done|]. cbn [split_on]. destruct (Ascii.eqb d c); [weigh|].
  destruct (split_on c s); weigh.
Qed.

Lemma split_snoc c s : split_on c (s +:+ String c "") = split_on c s ++ [""].
Proof.
  induction s as [|d s IH].
  - change (split_on c (String c "") = [""; ""]). cbn [split_on]. by rewrite Ascii.eqb_refl.
  - rewrite str_app_cons. cbn [split_on]. rewrite IH. destruct (Ascii.eqb d c); [done|].
    destruct (split_on c s) eqn:E; [by apply split_on_nonempty in E|done].
Qed.

Lemma Join_length l : String.length (Join l "/") = weight l - 1.
Proof.
  induction l as [|w l IH]; [done|]. destruct l as [|x l]; [weigh|].
  rewrite Join_cons, !str_length_app, IH by done. cbn. lia.
Qed.

(** Cleaning a path that ends in a slash makes it shorter. *)
Lemma Clean_slash s : String.length (Clean (s +:+ "/")) <= Nat.max 1 (String.length s).
Proof.
  unfold Clean, components. set (rooted := HasPrefix (s +:+ "/") "/"). set (l := rev _).
  assert (weight l <= cost (split_on "/" (s +:+ "/"))) as Hl.
  { unfold l, weight. rewrite <- Permutation_rev. apply (clean_weight rooted _ []). }
  rewrite split_snoc, cost_app in Hl. change (cost [""]) with 0 in Hl. destruct s as [|c s].
  { assert (l = []) as -> by (destruct l; [done|weigh]). done. }
  assert (weight l + (if rooted then 1 else 0) <= S (String.length (String c s))) as Hl'.
  { unfold rooted, HasPrefix. rewrite str_app_cons. cbn [String.prefix].
    pose proof (cost_split "/" (String c s)). pose proof (cost_split "/" s).
    destruct (ascii_dec "/" c) as [<-|]; cbn [String.length] in *; [|lia].
    change (split_on "/" (String "/" s)) with ("" :: split_on "/" s) in Hl.
    change (cost ("" :: split_on "/" s)) with (cost (split_on "/" s)) in Hl.
    replace (String.prefix "" (s +:+ "/")) with true by (by destruct s). lia. }
  destruct rooted; cbn [render].
  - rewrite str_length_app, Join_length. weigh.
  - destruct l eqn:E; [cbn; lia|]. rewrite Join_length. weigh.
Qed.

Lemma LastIndexByte_split s c i : LastIndexByte s c = Some i -> exists a b, s = a +:+ String c b /\ str_take (S i) s = a +:+ String c "".
Proof.
  unfold str_take. revert i. induction s as [|d s IH]; intros i; [done|]. cbn [LastIndexByte].
  destruct (LastIndexByte s c) as [j|] eqn:E.
  - intros [= <-]. destruct (IH j eq_refl) as (a & b & -> & Ht). exists (String d a), b. split; [done|].
    cbn [String.substring]. by rewrite Ht.
  - destruct (Ascii.eqb_spec d c) as [->|]; [|done]. intros [= <-]. exists "", s. split; [done|]. by destruct s.
Qed.

Lemma Dir_shorter p : String.length (Dir p) <= Nat.max 1 (String.length p - 1).
Proof.
  unfold Dir. destruct (LastIndexByte p "/") as [i|] eqn:E; [|cbn; lia].
  destruct (LastIndexByte_split _ _ _ E) as (a & b & -> & ->). etrans; [apply Clean_slash|].
  rewrite str_length_app. cbn. lia.
Qed.

(** [ascends p d]: going up from [p] leads to [d] past directories that are not
    the root and have no feature directory. *)
Inductive ascends {TR : Tree} : string -> string -> Prop :=
| ascends_here p : ascends p p
| ascends_up p d : p <> "." -> p <> "/" -> isDir (JoinPath [p; "feature"]) = false -> ascends (Dir p) d -> ascends p d.

Definition featureAt {TR : Tree} (d : string) (r : go string) : Prop :=
  ((d = "." \/ d = "/") /\ exists e, r = Fail e)
  \/ (d <> "." /\ d <> "/" /\ isDir (JoinPath [d; "feature"]) = true /\ r = Ret (JoinPath [d; "feature"])).

(** One round. *)
Lemma featureLoop_step {TR : Tree} fuel p :
  featureAt p (featureLoop (S fuel) p)
  \/ (p <> "." /\ p <> "/" /\ isDir (JoinPath [p; "feature"]) = false /\ featureLoop (S fuel) p = featureLoop fuel (Dir p)).
Proof.
  unfold featureAt. cbn [featureLoop]. destruct (String.eqb_spec p "."); [left; left; eauto|].
  destruct (String.eqb_spec p "/"); [left; left; eauto|]. cbn [orb].
  destruct (isDir (JoinPath [p; "feature"])) eqn:E; [left; right|right]; eauto 6.
Qed.

Lemma Dir_short p : String.length p <= 1 -> p <> "/" -> Dir p = ".".
Proof.
  destruct p as [|c [|d p]]; cbn [String.length]; [done| |lia]. intros _ Hc. unfold Dir. cbn [LastIndexByte].
  destruct (Ascii.eqb_spec c "/") as [->|]; done.
Qed.

Lemma featureLoop_short {TR : Tree} n p :
  String.length p <= 1 -> exists d, ascends p d /\ featureAt d (featureLoop (S (S n)) p).
Proof.
  intros Hs. destruct (featureLoop_step (S n) p) as [H|(H1 & H2 & H3 & ->)]; [exists p; by split; [constructor|]|].
  exists ".". rewrite Dir_short by done. split; [|left; split; [auto|by eexists]].
  apply ascends_up; [done..|]. rewrite Dir_short by done. constructor.
Qed.

Lemma featureLoop_spec {TR : Tree} n : forall p, String.length p <= S n ->
  exists d, ascends p d /\ featureAt d (featureLoop (S (S n)) p).
Proof.
  induction n as [|n IH]; intros p Hp; [by apply featureLoop_short|].
  destruct (featureLoop_step (S (S n)) p) as [H|(H1 & H2 & H3 & ->)]; [exists p; by split; [constructor|]|].
  destruct (IH (Dir p)) as (d & Hd & Hf); [pose proof (Dir_shorter p); lia|].
  exists d. split; [by apply ascends_up|done].
Qed.

(** the search for the feature directory ends, and finds the feature directory
    of the nearest directory above the source file that has one, or fails when
    there is none below the root. *)
Theorem FeatureDir_spec {TR : Tree} path :
  Caller = Some path -> exists d, ascends (Dir path) d /\ featureAt d FeatureDir.
Proof.
  intros Hc. unfold FeatureDir. rewrite Hc. apply featureLoop_spec. pose proof (Dir_shorter path). lia.
Qed.

(** ** Witnesses *)

Module RefReadme.
Definition heading : node := Node (Heading 2 [OCSpecHeading]) [].
Definition block (lang : string) (lines : list string) : node := Node (FencedCodeBlock (Some lang) lines) [].
Definition doc (l : list node) : node := Node OtherNode l.

(** Two README files: one with a coverage section, one whose section has a path
    that is not in the schema. *)
#[refine] Instance goldmark : Goldmark := {|
  parseMarkdown b :=
    if String.eqb b "good" then doc [heading; Node OtherNode []; block "yaml" ["good"]; heading; block "yaml" ["other"]]
    else if String.eqb b "json" then doc [Node (Heading 2 [CanonicalOCHeading]) []; block "json" ["{"; "}"]]
    else doc [heading; Node (Heading 2 ["Other"]) []; block "yaml" ["good"]; Node (Heading 1 [OCSpecHeading]) []; block "yaml" ["bad"]];
  ast_Walk S n f := runCalls f (calls n [])
|}.
Proof. done. Defined.

Definition rpcs : gmap string (gmap string yaml_any) := {["gnmi" := {["gNMI.Get" := YOther]}]}.
Definition sectionWith (paths : gmap string (gmap string yaml_any)) : yaml_spec := {["paths" := paths; "rpcs" := rpcs]}.
Definition good : yaml_spec :=
  sectionWith {["/system/hostname" := ∅;
                "/components/component/name" := {["platform_type" := YSeq [YString "LINECARD"; YString "CHASSIS"]; "value" := YOther]}]}.
Definition bad : yaml_spec := sectionWith {["/system/domain" := ∅]}.

#[refine] Instance yaml : Yaml := {|
  yaml_Unmarshal b := Ret (if String.eqb b "good" then good else bad);
  attributes _ m := map_to_list m
|}.
Proof.
  - intros b. left. by eexists.
  - done.
Defined.

Instance tree : Tree := {|
  isDir p := String.eqb p "/src/feature";
  WalkDir _ := [{| dir_path := "/src/feature"; dir_Name := "feature"; dir_err := None |};
                {| dir_path := "/src/feature/README.md"; dir_Name := "README.md"; dir_err := None |};
                {| dir_path := "/src/feature/a/README.md"; dir_Name := "README.md"; dir_err := None |};
                {| dir_path := "/src/feature/a/x.go"; dir_Name := "x.go"; dir_err := None |}];
  ReadFile f := Ret (if String.eqb f "/src/feature/README.md" then "good" else "bad");
  Caller := Some "/src/tools/internal/fpciutil/filepathutil.go"
|}.

Definition files : list string := ["/src/feature/README.md"; "/src/feature/a/README.md"].
Definition config : Config := {| DownloadPath := "tmp"; FeatureDirFlag := ""; NonTestREADMEs := ∅ |}.
Definition w : RefRepo.world := {["tmp/public" := []]}.
End RefReadme.
#[local] Existing Instances OcPaths.Ref.goyang OcPaths.Ref.parser OcPaths.Ref.names.
#[local] Existing Instances RefRepo.parser RefRepo.shell RefRepo.fs RefRepo.git.
#[local] Existing Instances RefReadme.goldmark RefReadme.yaml RefReadme.tree.

Lemma FeatureDir_spec_witness : exists d, ascends (Dir "/src/tools/internal/fpciutil/filepathutil.go") d /\ featureAt d FeatureDir.
Proof. apply (FeatureDir_spec "/src/tools/internal/fpciutil/filepathutil.go"). reflexivity. Defined.

Lemma names_apis_check apis b :
  match Parse b with Ret (_, m) => bool_decide (Forall (fun k => k ∈ apis) (keys m)) | _ => true end = true -> names_apis apis b.
Proof.
  intros H ocPaths ocRPCs Hp api Hapi. rewrite Hp in H. apply bool_decide_eq_true in H. rewrite Forall_forall in H.
  apply H. by apply elem_of_keys.
Qed.

Lemma specMain_reports_witness :
  exists erred w', specMain (fun _ w => w) map_to_list RefReadme.config [] RefReadme.w = (exit erred, w')
    /\ forall file, file ∈ erred <->
         file ∈ RefReadme.files /\ file ∉ NonTestREADMEs RefReadme.config
         /\ ~ accepted (obtainable "tmp" RefReadme.w) OcPaths.Ref.root file.
Proof.
  assert (selectFiles [] (FeatureDirFlag RefReadme.config) = Ret RefReadme.files) as Hsel by (vm_compute; reflexivity).
  destruct (proj2 (proj2 (specMain_reports map_to_list (fun m => reflexivity _) (fun _ w => w) RefReadme.config [] RefReadme.w)
             RefReadme.files Hsel) "tmp/public" RefReadme.w OcPaths.Ref.root ["gnmi"; "gnoi"])
    as [(f & w' & _ & _ & e & He)|[_ H]].
  - vm_compute. reflexivity.
  - reflexivity.
  - apply RefRepo_ok.
  - repeat constructor; intros H; vm_compute in H; congruence.
  - intros file _ _. left. eexists. split; [reflexivity|]. apply names_apis_check.
    destruct (String.eqb file "/src/feature/README.md"); vm_compute; reflexivity.
  - exfalso. discriminate He.
  - exact H.
Defined.

#[refine] Instance RefRoot : OcRoot string := {| oc_Unmarshal t := if String.eqb t "{}" then Ret t else Fail (errors_New "bad") |}.
Proof. intros t. destruct (String.eqb t "{}"); [left|right]; by eexists. Defined.

Lemma canonicalMain_reports_witness :
  exists erred st', canonicalMain (fun _ : string => None) "" ∅ ["a.md"] {| buf := ""; CanonicalOCs := ["x"] |} = (exit erred, st')
    /\ forall file, file ∈ erred <->
         file ∈ ["a.md"] /\ file ∉ (∅ : gset string)
         /\ ~ exists b, ReadFile file = Ret b /\ good_canonical (fun _ : string => None) b.
Proof.
  apply (canonicalMain_reports (fun _ : string => None) "" ∅ ["a.md"] ["a.md"]); [reflexivity|].
  intros file _ _. eexists. reflexivity.
Defined.
