(* ===== verification/IsisGrid.v ===== *)
(** Simulated IS-IS topologies of the traffic generator
    ([src/internal/otg_helpers/otg_config_helpers]): the grid of simulated
    routers of [otgisisblockhelpers.go] and the LAGs, emulated routers and
    traffic flows of [otgisistopology.go].

    A gosnappi configuration is the data its setters store; a [gosnappi.Device]
    is a pointer to an item of the configuration, here its index. *)
From stdpp Require Import base list sets list_numbers strings pretty.
From Stdlib Require Import ZArith Lia Ascii.
From S2P Require Import Prelude GoStrings Net IPUtil.
Open Scope Z_scope.

(** * The configuration *)

Record Ipv4Addr := { ip4_name : string; ip4_address : string; ip4_gateway : string; ip4_prefix : Z }.
(** The prefix of a simulated link's address is left to its default. *)
Record Ipv6Addr :=
  { ip6_name : string; ip6_address : string; ip6_gateway : string; ip6_prefix : option Z }.

Inductive Connection := Unconnected | SimulatedLink (remote : string) | LagName (lag : string).

Record Ethernet := {
  eth_name : string;
  eth_mac : string;
  eth_connection : Connection;
  eth_ipv4 : list Ipv4Addr;
  eth_ipv6 : list Ipv6Addr;
  eth_vlans : list (string * Z) }.

Inductive NetworkType := POINT_TO_POINT.
Inductive LevelType := LEVEL_2.

Record IsisAdvanced := { enable3Way : bool; autoMtu : bool; autoArea : bool; autoProtocols : bool }.

Record IsisInterface := {
  inf_name : string;
  inf_eth : string;
  inf_type : NetworkType;
  inf_level : option LevelType;
  inf_metric : option Z;
  inf_advanced : option IsisAdvanced }.

Inductive OriginType := INTERNAL.
Record IsisRoute := {
  rt_name : string;
  rt_metric : Z;
  rt_origin : OriginType;
  rt_addresses : list (string * Z * Z) }.  (* address, prefix length, count *)

(** [None] is a field that was not set. *)
Record Isis := {
  isis_name : string;
  isis_system : string;
  isis_hostname : option string;
  isis_teRtrID : option string;
  isis_wideMetric : option bool;
  isis_lspFilter : option bool;
  isis_areas : list string;
  isis_helloPadding : option bool;
  isis_refresh : option Z;
  isis_lifetime : option Z;
  isis_interfaces : list IsisInterface;
  isis_v4routes : list IsisRoute;
  isis_v6routes : list IsisRoute }.

Definition newIsis : Isis := {|
  isis_name := ""; isis_system := ""; isis_hostname := None; isis_teRtrID := None;
  isis_wideMetric := None; isis_lspFilter := None; isis_areas := []; isis_helloPadding := None;
  isis_refresh := None; isis_lifetime := None; isis_interfaces := []; isis_v4routes := [];
  isis_v6routes := [] |}.

(** [Device.Isis()] adds an empty message on its first call. *)
Record Device := { dev_name : string; dev_ethernets : list Ethernet; dev_isis : option Isis }.
Definition Device_Isis (d : Device) : Isis := default newIsis (dev_isis d).

Record PortLacp := { lacp_activity : string; lacp_portNumber : Z; lacp_portPriority : Z; lacp_timeout : Z }.
Record LagPort := { lp_name : string; lp_lacp : PortLacp; lp_mac : string; lp_ethName : string }.
Record Lag := {
  lag_name : string;
  lag_actorKey : Z;
  lag_systemPriority : Z;
  lag_systemId : string;
  lag_ports : list LagPort }.
Record Layer1 := { l1_name : string; l1_ports : list string; l1_autoNeg : bool; l1_ieee : bool;
                   l1_speed : string; l1_rsFec : bool }.

Record Config := {
  cfg_ports : list string;
  cfg_lags : list Lag;
  cfg_devices : list Device;
  cfg_layer1 : list Layer1 }.

Definition NewConfig : Config := {| cfg_ports := []; cfg_lags := []; cfg_devices := []; cfg_layer1 := [] |}.

Definition set_devices (c : Config) (ds : list Device) : Config :=
  {| cfg_ports := cfg_ports c; cfg_lags := cfg_lags c; cfg_devices := ds; cfg_layer1 := cfg_layer1 c |}.

(** * The grid ([otgisisblockhelpers.go]) *)

Record V4IsisStRouteInfo := { v4_addressFirstOctet : string; v4_prefix : Z; v4_count : Z }.
Record V6IsisStRouteInfo := { v6_addressFirstOctet : string; v6_prefix : Z; v6_count : Z }.

(** A nil [net.IP] is the empty list.  The configuration, which the struct
    points to, is part of the state below. *)
Record GridIsisData := {
  blockName : string;
  row : Z;
  col : Z;
  systemIDFirstOctet : string;
  linkIP4FirstOctet : Z;
  nextLinkIP4ToUse : list Z;
  linkIP6FirstOctet : string;
  v4StRoute : option V4IsisStRouteInfo;
  v6StRoute : option V6IsisStRouteInfo;
  linkMultiplier : Z }.

Definition NewGridIsisData : GridIsisData := {|
  blockName := ""; row := 0; col := 0; systemIDFirstOctet := ""; linkIP4FirstOctet := 0;
  nextLinkIP4ToUse := []; linkIP6FirstOctet := ""; v4StRoute := None; v6StRoute := None;
  linkMultiplier := 0 |}.

Definition SetRow (r : Z) (v : GridIsisData) : GridIsisData :=
  {| blockName := blockName v; row := r; col := col v; systemIDFirstOctet := systemIDFirstOctet v;
     linkIP4FirstOctet := linkIP4FirstOctet v; nextLinkIP4ToUse := nextLinkIP4ToUse v;
     linkIP6FirstOctet := linkIP6FirstOctet v; v4StRoute := v4StRoute v; v6StRoute := v6StRoute v;
     linkMultiplier := linkMultiplier v |}.
Definition SetCol (c : Z) (v : GridIsisData) : GridIsisData :=
  {| blockName := blockName v; row := row v; col := c; systemIDFirstOctet := systemIDFirstOctet v;
     linkIP4FirstOctet := linkIP4FirstOctet v; nextLinkIP4ToUse := nextLinkIP4ToUse v;
     linkIP6FirstOctet := linkIP6FirstOctet v; v4StRoute := v4StRoute v; v6StRoute := v6StRoute v;
     linkMultiplier := linkMultiplier v |}.
Definition SetSystemIDFirstOctet (oct : string) (v : GridIsisData) : GridIsisData :=
  {| blockName := blockName v; row := row v; col := col v; systemIDFirstOctet := oct;
     linkIP4FirstOctet := linkIP4FirstOctet v; nextLinkIP4ToUse := nextLinkIP4ToUse v;
     linkIP6FirstOctet := linkIP6FirstOctet v; v4StRoute := v4StRoute v; v6StRoute := v6StRoute v;
     linkMultiplier := linkMultiplier v |}.
Definition set_next (ip : list Z) (v : GridIsisData) : GridIsisData :=
  {| blockName := blockName v; row := row v; col := col v; systemIDFirstOctet := systemIDFirstOctet v;
     linkIP4FirstOctet := linkIP4FirstOctet v; nextLinkIP4ToUse := ip;
     linkIP6FirstOctet := linkIP6FirstOctet v; v4StRoute := v4StRoute v; v6StRoute := v6StRoute v;
     linkMultiplier := linkMultiplier v |}.
Definition SetLinkIP4FirstOctet (oct : Z) (v : GridIsisData) : GridIsisData :=
  {| blockName := blockName v; row := row v; col := col v; systemIDFirstOctet := systemIDFirstOctet v;
     linkIP4FirstOctet := oct; nextLinkIP4ToUse := default [] (ParseIP (Itoa oct +:+ ".0.0.0"));
     linkIP6FirstOctet := linkIP6FirstOctet v; v4StRoute := v4StRoute v; v6StRoute := v6StRoute v;
     linkMultiplier := linkMultiplier v |}.
Definition SetLinkIP6FirstOctet (oct : string) (v : GridIsisData) : GridIsisData :=
  {| blockName := blockName v; row := row v; col := col v; systemIDFirstOctet := systemIDFirstOctet v;
     linkIP4FirstOctet := linkIP4FirstOctet v; nextLinkIP4ToUse := nextLinkIP4ToUse v;
     linkIP6FirstOctet := oct; v4StRoute := v4StRoute v; v6StRoute := v6StRoute v;
     linkMultiplier := linkMultiplier v |}.
Definition SetLinkMultiplier (k : Z) (v : GridIsisData) : GridIsisData :=
  {| blockName := blockName v; row := row v; col := col v; systemIDFirstOctet := systemIDFirstOctet v;
     linkIP4FirstOctet := linkIP4FirstOctet v; nextLinkIP4ToUse := nextLinkIP4ToUse v;
     linkIP6FirstOctet := linkIP6FirstOctet v; v4StRoute := v4StRoute v; v6StRoute := v6StRoute v;
     linkMultiplier := k |}.
Definition SetBlockName (n : string) (v : GridIsisData) : GridIsisData :=
  {| blockName := n; row := row v; col := col v; systemIDFirstOctet := systemIDFirstOctet v;
     linkIP4FirstOctet := linkIP4FirstOctet v; nextLinkIP4ToUse := nextLinkIP4ToUse v;
     linkIP6FirstOctet := linkIP6FirstOctet v; v4StRoute := v4StRoute v; v6StRoute := v6StRoute v;
     linkMultiplier := linkMultiplier v |}.

(** [V4RouteInfo] installs the default route and returns a pointer to it, which
    the caller's setters change: the continuation [f]. *)
Definition V4RouteInfo (f : V4IsisStRouteInfo -> V4IsisStRouteInfo) (v : GridIsisData) : GridIsisData :=
  {| blockName := blockName v; row := row v; col := col v; systemIDFirstOctet := systemIDFirstOctet v;
     linkIP4FirstOctet := linkIP4FirstOctet v; nextLinkIP4ToUse := nextLinkIP4ToUse v;
     linkIP6FirstOctet := linkIP6FirstOctet v;
     v4StRoute := Some (f {| v4_addressFirstOctet := "10"; v4_prefix := 32; v4_count := 1 |});
     v6StRoute := v6StRoute v; linkMultiplier := linkMultiplier v |}.
Definition V6RouteInfo (f : V6IsisStRouteInfo -> V6IsisStRouteInfo) (v : GridIsisData) : GridIsisData :=
  {| blockName := blockName v; row := row v; col := col v; systemIDFirstOctet := systemIDFirstOctet v;
     linkIP4FirstOctet := linkIP4FirstOctet v; nextLinkIP4ToUse := nextLinkIP4ToUse v;
     linkIP6FirstOctet := linkIP6FirstOctet v; v4StRoute := v4StRoute v;
     v6StRoute := Some (f {| v6_addressFirstOctet := "10"; v6_prefix := 64; v6_count := 1 |});
     linkMultiplier := linkMultiplier v |}.

Definition V4_SetAddressFirstOctet (a : string) (r : V4IsisStRouteInfo) : V4IsisStRouteInfo :=
  {| v4_addressFirstOctet := a; v4_prefix := v4_prefix r; v4_count := v4_count r |}.
Definition V4_SetPrefix (p : Z) (r : V4IsisStRouteInfo) : V4IsisStRouteInfo :=
  {| v4_addressFirstOctet := v4_addressFirstOctet r; v4_prefix := p; v4_count := v4_count r |}.
Definition V4_SetCount (n : Z) (r : V4IsisStRouteInfo) : V4IsisStRouteInfo :=
  {| v4_addressFirstOctet := v4_addressFirstOctet r; v4_prefix := v4_prefix r; v4_count := n |}.
Definition V6_SetAddressFirstOctet (a : string) (r : V6IsisStRouteInfo) : V6IsisStRouteInfo :=
  {| v6_addressFirstOctet := a; v6_prefix := v6_prefix r; v6_count := v6_count r |}.
Definition V6_SetPrefix (p : Z) (r : V6IsisStRouteInfo) : V6IsisStRouteInfo :=
  {| v6_addressFirstOctet := v6_addressFirstOctet r; v6_prefix := p; v6_count := v6_count r |}.
Definition V6_SetCount (n : Z) (r : V6IsisStRouteInfo) : V6IsisStRouteInfo :=
  {| v6_addressFirstOctet := v6_addressFirstOctet r; v6_prefix := v6_prefix r; v6_count := n |}.

Record GridIsisTopo := {
  topo_blockName : string;
  gridNodes : list (list nat);
  topo_devices : list nat;
  topo_linkIP4FirstOctet : Z;
  topo_linkIP6FirstOctet : string;
  topo_linkMultiplier : Z }.

(** The configuration and the grid data, which hold the link address to use next. *)
Record World := { w_config : Config; w_grid : GridIsisData }.

Definition set_next_ip (ip : list Z) : gost World unit :=
  fun w => (Ret tt, {| w_config := w_config w; w_grid := set_next ip (w_grid w) |}).
Definition get_next_ip : gost World (list Z) := fun w => (Ret (nextLinkIP4ToUse (w_grid w)), w).

Definition get_device (d : nat) : gost World Device :=
  fun w => (match cfg_devices (w_config w) !! d with Some x => Ret x | None => Panic end, w).
Definition mod_device (d : nat) (f : Device -> Device) : gost World unit :=
  fun w => (Ret tt, {| w_config := set_devices (w_config w) (alter f d (cfg_devices (w_config w)));
                       w_grid := w_grid w |}).
(** [config.Devices().Add()]. *)
Definition add_device (x : Device) : gost World nat :=
  fun w => (Ret (length (cfg_devices (w_config w))),
            {| w_config := set_devices (w_config w) (cfg_devices (w_config w) ++ [x]); w_grid := w_grid w |}).

(** [d.Ethernets().Add()], the message a pointer to which the code keeps, and
    [d.Isis().Interfaces().Add()]. *)
Definition with_ethernet (e : Ethernet) (x : Device) : Device :=
  {| dev_name := dev_name x; dev_ethernets := dev_ethernets x ++ [e]; dev_isis := dev_isis x |}.
Definition add_ethernet (d : nat) (e : Ethernet) : gost World (nat * nat) :=
  x ← get_device d; _ ← mod_device d (with_ethernet e); mret (d, length (dev_ethernets x)).

Definition isis_add_interface (i : Isis) (n : IsisInterface) : Isis := {|
  isis_name := isis_name i; isis_system := isis_system i; isis_hostname := isis_hostname i;
  isis_teRtrID := isis_teRtrID i; isis_wideMetric := isis_wideMetric i; isis_lspFilter := isis_lspFilter i;
  isis_areas := isis_areas i; isis_helloPadding := isis_helloPadding i; isis_refresh := isis_refresh i;
  isis_lifetime := isis_lifetime i; isis_interfaces := isis_interfaces i ++ [n];
  isis_v4routes := isis_v4routes i; isis_v6routes := isis_v6routes i |}.
Definition with_interface (n : IsisInterface) (x : Device) : Device :=
  {| dev_name := dev_name x; dev_ethernets := dev_ethernets x;
     dev_isis := Some (isis_add_interface (Device_Isis x) n) |}.

Definition with_eth (k : nat) (f : Ethernet -> Ethernet) (x : Device) : Device :=
  {| dev_name := dev_name x; dev_ethernets := alter f k (dev_ethernets x); dev_isis := dev_isis x |}.
Definition eth_add_ipv4 (a : Ipv4Addr) (e : Ethernet) : Ethernet :=
  {| eth_name := eth_name e; eth_mac := eth_mac e; eth_connection := eth_connection e;
     eth_ipv4 := eth_ipv4 e ++ [a]; eth_ipv6 := eth_ipv6 e; eth_vlans := eth_vlans e |}.
Definition eth_add_ipv6 (a : Ipv6Addr) (e : Ethernet) : Ethernet :=
  {| eth_name := eth_name e; eth_mac := eth_mac e; eth_connection := eth_connection e;
     eth_ipv4 := eth_ipv4 e; eth_ipv6 := eth_ipv6 e ++ [a]; eth_vlans := eth_vlans e |}.
Definition add_ipv4 (p : nat * nat) (a : Ipv4Addr) : gost World unit :=
  mod_device (fst p) (with_eth (snd p) (eth_add_ipv4 a)).
Definition add_ipv6 (p : nat * nat) (a : Ipv6Addr) : gost World unit :=
  mod_device (fst p) (with_eth (snd p) (eth_add_ipv6 a)).

(** ** createSimDev *)

(** [fmt.Sprintf("%02x", n)] of a non-negative [int], which has at most sixteen digits. *)
Fixpoint hex_digits (fuel : nat) (n : Z) (acc : string) : string :=
  match fuel with
  | O => acc
  | S fuel =>
      let acc := String (hex_char false (n mod 16)) acc in
      if n / 16 =? 0 then acc else hex_digits fuel (n / 16) acc
  end.
Definition Sprintf_02x (n : Z) : string :=
  let s := hex_digits 16 n "" in
  if (String.length s <? 2)%nat then "0" +:+ s else s.

(** [strings.Repeat("0", n)]. *)
Fixpoint Repeat0 (n : nat) : string :=
  match n with O => "" | S n => String "0" (Repeat0 n) end.

Definition createSimDev (nodeIDx : nat) (sysFirst : string) (srcIdx dstIDx : Z)
    (v4RouteInfo : option V4IsisStRouteInfo) (v6RouteInfo : option V6IsisStRouteInfo)
    (bName : string) : gost World nat :=
  let otgIdx := Z.of_nat nodeIDx + 1 in
  let deviceName :=
    if dstIDx =? -1 then bName +:+ "_" +:+ sysFirst +:+ "d" +:+ Itoa otgIdx +:+ ".sim." +:+ Itoa srcIdx
    else bName +:+ "_" +:+ sysFirst +:+ "d" +:+ Itoa otgIdx +:+ ".sim." +:+ Itoa srcIdx +:+ "." +:+ Itoa dstIDx in
  let teRtrID :=
    if dstIDx =? -1 then sysFirst +:+ ".10.0." +:+ Itoa srcIdx
    else sysFirst +:+ "." +:+ Itoa srcIdx +:+ "." +:+ Itoa dstIDx +:+ ".1" in
  dev ← add_device {| dev_name := deviceName; dev_ethernets := []; dev_isis := None |};
  let systemIDLastOctets := Sprintf_02x otgIdx in
  if (10 <? String.length systemIDLastOctets)%nat then lift (Fail (errors_New "ran out of system ID space"))
  else
    let systemID := sysFirst +:+ Repeat0 (10 - String.length systemIDLastOctets) +:+ systemIDLastOctets in
    let isisName := deviceName +:+ ".isis" in
    let v4routes :=
      match v4RouteInfo with
      | None => []
      | Some r =>
          let ipv4Prefix :=
            if dstIDx =? -1 then v4_addressFirstOctet r +:+ ".0." +:+ Itoa (srcIdx + 1) +:+ ".0"
            else v4_addressFirstOctet r +:+ "." +:+ Itoa (srcIdx + 1) +:+ "." +:+ Itoa (dstIDx + 1) +:+ ".0" in
          [ {| rt_name := isisName +:+ ".isis.v4routes"; rt_metric := 10; rt_origin := INTERNAL;
               rt_addresses := [(ipv4Prefix, uint32 (v4_prefix r), uint32 (v4_count r))] |} ]
      end in
    let v6routes :=
      match v6RouteInfo with
      | None => []
      | Some r =>
          let ipv6Prefix :=
            if dstIDx =? -1 then v6_addressFirstOctet r +:+ ":" +:+ Itoa (srcIdx + 1) +:+ "::0"
            else v6_addressFirstOctet r +:+ ":" +:+ Itoa (srcIdx + 1) +:+ ":" +:+ Itoa (dstIDx + 1) +:+ "::0" in
          [ {| rt_name := isisName +:+ ".isis.v6routes"; rt_metric := 10; rt_origin := INTERNAL;
               rt_addresses := [(ipv6Prefix, uint32 (v6_prefix r), uint32 (v6_count r))] |} ]
      end in
    _ ← mod_device dev (fun x =>
      {| dev_name := dev_name x; dev_ethernets := dev_ethernets x;
         dev_isis := Some {|
           isis_name := isisName; isis_system := systemID; isis_hostname := Some deviceName;
           isis_teRtrID := Some teRtrID; isis_wideMetric := Some false; isis_lspFilter := None;
           isis_areas := []; isis_helloPadding := None; isis_refresh := None; isis_lifetime := None;
           isis_interfaces := []; isis_v4routes := v4routes; isis_v6routes := v6routes |} |});
    mret dev.

(** ** createLink *)

(** The copy in [next] is incremented from its last byte. *)
Definition nextIP (ip : list Z) : list Z := rev (incBytes (rev ip)).

(** [ip4 := ip.To4(); ip4 == nil || ip4[0] != byte(oct)]. *)
Definition outside (ip : list Z) (oct : Z) : bool :=
  match To4 ip with
  | Some (b :: _) => negb (b =? oct mod 256)
  | _ => true
  end.

Definition simEthernet (name remote : string) : Ethernet :=
  {| eth_name := name; eth_mac := ""; eth_connection := SimulatedLink remote;
     eth_ipv4 := []; eth_ipv6 := []; eth_vlans := [] |}.
Definition simInterface (name eth : string) : IsisInterface :=
  {| inf_name := name; inf_eth := eth; inf_type := POINT_TO_POINT; inf_level := None;
     inf_metric := None; inf_advanced := None |}.

(** The IPv4 part of one round. *)
Definition linkIPv4 (oct : Z) (p1 p2 : nat * nat) (eth1Name eth2Name : string) : gost World unit :=
  if oct =? 0 then mret tt
  else
    ip ← get_next_ip;
    let ip1 := IP_String ip in
    _ ← set_next_ip (nextIP ip);
    if outside (nextIP ip) oct then lift (Fail (errors_New "no free ipv4 address in the major subnet"))
    else
      let ip2 := IP_String (nextIP ip) in
      _ ← set_next_ip (nextIP (nextIP ip));
      _ ← add_ipv4 p1 {| ip4_name := eth1Name +:+ "ip4"; ip4_address := ip1; ip4_gateway := ip2; ip4_prefix := 31 |};
      add_ipv4 p2 {| ip4_name := eth2Name +:+ "ip4"; ip4_address := ip2; ip4_gateway := ip1; ip4_prefix := 31 |}.

(** The IPv6 part of round [i]. *)
Definition linkIPv6 (oct6 : string) (idx1 idx2 i : Z) (p1 p2 : nat * nat) (eth1Name eth2Name : string) :
    gost World unit :=
  if String.eqb oct6 "" then mret tt
  else
    let ip1 := oct6 +:+ "::" +:+ Itoa idx1 +:+ ":" +:+ Itoa idx2 +:+ ":" +:+ Itoa (i * 2 + 1) in
    let ip2 := oct6 +:+ "::" +:+ Itoa idx1 +:+ ":" +:+ Itoa idx2 +:+ ":" +:+ Itoa (i * 2 + 2) in
    _ ← add_ipv6 p1 {| ip6_name := eth1Name +:+ "ip6"; ip6_address := ip1; ip6_gateway := ip2; ip6_prefix := None |};
    add_ipv6 p2 {| ip6_name := eth2Name +:+ "ip6"; ip6_address := ip2; ip6_gateway := ip1; ip6_prefix := None |}.

(** The body of the loop of [createLink]. *)
Definition linkRound (d1 d2 : nat) (idx1 idx2 oct4 : Z) (oct6 : string) (i : nat) : gost World unit :=
  x1 ← get_device d1;
  x2 ← get_device d2;
  let len {A} (l : list A) := Z.of_nat (length l) in
  let eth1Name := dev_name x1 +:+ "eth" +:+ Itoa (len (dev_ethernets x1) + 1) in
  let eth2Name := dev_name x2 +:+ "eth" +:+ Itoa (len (dev_ethernets x2) + 1) in
  let isisInf1Name := dev_name x1 +:+ "Isisinf" +:+ Itoa (len (isis_interfaces (Device_Isis x1)) + 1) in
  let isisInf2Name := dev_name x2 +:+ "Isisinf" +:+ Itoa (len (isis_interfaces (Device_Isis x2)) + 1) in
  d1eth ← add_ethernet d1 (simEthernet eth1Name eth2Name);
  _ ← mod_device d1 (with_interface (simInterface isisInf1Name eth1Name));
  d2eth ← add_ethernet d2 (simEthernet eth2Name eth1Name);
  _ ← mod_device d2 (with_interface (simInterface isisInf2Name eth2Name));
  _ ← linkIPv4 oct4 d1eth d2eth eth1Name eth2Name;
  linkIPv6 oct6 idx1 idx2 (Z.of_nat i) d1eth d2eth eth1Name eth2Name.

Definition createLink (d1 d2 : nat) (IDx1 IDx2 : nat) (oct4 : Z) (oct6 : string) (multiplier : Z) :
    gost World unit :=
  let idx1 := Z.of_nat IDx1 + 1 in
  let idx2 := Z.of_nat IDx2 + 1 in
  forEach (linkRound d1 d2 idx1 idx2 oct4 oct6) (seq 0 (Z.to_nat multiplier)).

(** ** GenerateTopology, Connect *)

Definition node_at (nodes : list (list nat)) (rowIdx colIdx : nat) : go nat :=
  match nodes !! rowIdx with
  | Some r => match r !! colIdx with Some k => Ret k | None => Panic end
  | None => Panic
  end.
Definition device_of (devices : list nat) (k : nat) : go nat :=
  match devices !! k with Some d => Ret d | None => Panic end.

(** The two nested loops that create the devices, row by row: [k] is [nodeIDx]. *)
Fixpoint createNodes (v : GridIsisData) (k : nat) (cells : list (nat * nat)) : gost World (list nat) :=
  match cells with
  | [] => mret []
  | (r, c) :: cells =>
      dev ← createSimDev k (systemIDFirstOctet v) (Z.of_nat r) (Z.of_nat c) (v4StRoute v) (v6StRoute v) (blockName v);
      devs ← createNodes v (S k) cells;
      mret (dev :: devs)
  end.

(** The cells of a grid in the order of the nested loops, and the [nodeIDx] of a cell. *)
Definition cells (rows cols : nat) : list (nat * nat) :=
  r ← seq 0 rows; c ← seq 0 cols; [(r, c)].
Definition nodes_of (rows cols : nat) : list (list nat) :=
  map (fun r => map (fun c => (r * cols + c)%nat) (seq 0 cols)) (seq 0 rows).

(** The body of the loops over the nodes: links to the right and down. *)
Definition linkCell (v : GridIsisData) (nodes : list (list nat)) (devices : list nat) (rc : nat * nat) :
    gost World unit :=
  let '(rowIdx, colIdx) := rc in
  let link val1 val2 :=
    d1 ← lift (device_of devices val1); d2 ← lift (device_of devices val2);
    createLink d1 d2 val1 val2 (linkIP4FirstOctet v) (linkIP6FirstOctet v) (linkMultiplier v) in
  val1 ← lift (node_at nodes rowIdx colIdx);
  _ ← (if Z.of_nat colIdx + 1 =? col v then mret tt
       else val2 ← lift (node_at nodes rowIdx (colIdx + 1)); link val1 val2);
  if Z.of_nat rowIdx + 1 =? row v then mret tt
  else val2 ← lift (node_at nodes (rowIdx + 1) colIdx); link val1 val2.

Definition GenerateTopology : gost World GridIsisTopo := fun w =>
  let v := w_grid w in
  let topo nodes devices := {|
    topo_blockName := blockName v; gridNodes := nodes; topo_devices := devices;
    topo_linkIP4FirstOctet := linkIP4FirstOctet v; topo_linkIP6FirstOctet := linkIP6FirstOctet v;
    topo_linkMultiplier := linkMultiplier v |} in
  if (row v <=? 1) || (col v <=? 1) then (Fail (errors_New "grid must have more than one row or col"), w)
  else if (255 <? row v) || (255 <? col v) then
    (Fail (errors_New "grid col and row must be less than or equal to 255"), w)
  else if (String.length (systemIDFirstOctet v) =? 0)%nat then
    (Fail (errors_New "system ID first octet for ISIS must be configured"), w)
  else
    let rows := Z.to_nat (row v) in
    let cols := Z.to_nat (col v) in
    let nodes := nodes_of rows cols in
    (devices ← createNodes v 0 (cells rows cols);
     _ ← forEach (linkCell v nodes devices) (cells rows cols);
     mret (topo nodes devices)) w.

(** [t.devices] has an entry for each node, so [emuIdx] numbers the emulated router. *)
Definition Connect (v : GridIsisTopo) (emuDev : nat) (rowIdx colIdx : nat) : gost World unit :=
  devIdx ← lift (node_at (gridNodes v) rowIdx colIdx);
  simDev ← lift (device_of (topo_devices v) devIdx);
  createLink emuDev simDev (length (topo_devices v)) devIdx (topo_linkIP4FirstOctet v)
    (topo_linkIP6FirstOctet v) 1.

Definition GridIsisTopo_Device (v : GridIsisTopo) (rowIdx colIdx : nat) : go nat :=
  devIdx ← node_at (gridNodes v) rowIdx colIdx; device_of (topo_devices v) devIdx.

(** * Emulated routers and flows ([otgisistopology.go]) *)

Record Pfx := { pfx_FirstOctet : string; pfx_Len : Z; pfx_Count : Z }.

Record ISISOTGBlock := {
  b_Name : string;
  b_Col : Z;
  b_Row : Z;
  b_ISISIDFirstOct : string;
  b_LinkIP4FirstOct : Z;
  b_V4Pfx : Pfx;
  b_V6Pfx : Pfx;
  b_LinkMultiplier : Z }.

Record AteEmulatedRouterData := {
  er_Name : string;
  er_DUTIPv4 : string;
  er_ATEIPv4 : string;
  er_LinkIPv4PLen : Z;
  er_DUTIPv6 : string;
  er_ATEIPv6 : string;
  er_LinkIPv6PLen : Z;
  er_EthMAC : string;
  er_ISISAreaAddress : string;
  er_ISISSysID : string;
  er_VlanID : Z;
  er_ISISBlocks : list ISISOTGBlock;
  er_ISISLSPRefreshInterval : Z;
  er_ISISSPLifetime : Z }.

(** A port of the traffic generator: its identifier and whether its PMD is 100GBASE-FR. *)
Record OndatraPort := { op_ID : string; op_100GBASEFR : bool }.

Record ATEPortData := { ap_Mac : string; ap_OndatraPortIdx : Z }.
Record ATELagData := {
  l_Name : string;
  l_Mac : string;
  l_Ports : list ATEPortData;
  l_Erouters : list AteEmulatedRouterData }.

(** [TrafficFlowsMap] in the order of the iteration. *)
Record ATEData := {
  a_Lags : list ATELagData;
  a_TrafficFlowsMap : list (AteEmulatedRouterData * list AteEmulatedRouterData);
  a_ConfigureISIS : bool }.

(** A flow with the fields the code sets.  [fl_src] and [fl_dst] are a start
    address and a count; the rate is in tenths of a percent. *)
Record Flow := {
  fl_name : string;
  fl_tx : list string;
  fl_rx : list string;
  fl_size : Z;
  fl_metrics : bool;
  fl_rate : Z;
  fl_vlan : option Z;
  fl_src : string * Z;
  fl_dst : string * Z }.

Definition createAppendIPV4Flow (flowName srcIP : string) (srcCount : Z) (dstIP : string) (dstCount : Z)
    (srcRouter dstRouter : string) (srcVlanID : Z) : Flow := {|
  fl_name := flowName;
  fl_tx := [srcRouter +:+ ".IPv4"];
  fl_rx := [dstRouter +:+ ".IPv4"];
  fl_size := 1400;
  fl_metrics := true;
  fl_rate := 1;
  fl_vlan := if srcVlanID =? 0 then None else Some srcVlanID;
  fl_src := (srcIP, uint32 srcCount);
  fl_dst := (dstIP, uint32 dstCount) |}.

(** The number of link addresses of a block. *)
Definition linkCount (b : ISISOTGBlock) : Z :=
  ((b_Col b - 1) * b_Row b + (b_Row b - 1) * b_Col b) * b_LinkMultiplier b * 2.

Definition createAllTrafficFlows (src dst : AteEmulatedRouterData) (dstBlocks : list ISISOTGBlock) : list Flow :=
  map (fun b =>
    createAppendIPV4Flow (er_Name src +:+ "_to_" +:+ b_Name b +:+ "_Flow")
      (er_ATEIPv4 src) 1 (Itoa (b_LinkIP4FirstOct b) +:+ ".0.0.0") (linkCount b)
      (er_Name src +:+ ".Eth1") (er_Name dst +:+ ".Eth1") (uint32 (er_VlanID src))) dstBlocks.

Definition AppendTrafficFlows (a : ATEData) (flows : list Flow) : list Flow :=
  flows ++ (sd ← a_TrafficFlowsMap a; d ← snd sd; createAllTrafficFlows (fst sd) d (er_ISISBlocks d)).

(** The chain of setters of [createISISBlock]. *)
Definition blockGrid (block : ISISOTGBlock) : GridIsisData :=
  let gridSt :=
    SetBlockName (b_Name block) (SetLinkMultiplier (b_LinkMultiplier block)
      (SetLinkIP4FirstOctet (b_LinkIP4FirstOct block) (SetSystemIDFirstOctet (b_ISISIDFirstOct block)
        (SetCol (b_Col block) (SetRow (b_Row block) NewGridIsisData))))) in
  let gridSt :=
    if String.eqb (pfx_FirstOctet (b_V4Pfx block)) "" then gridSt
    else V4RouteInfo (fun r => V4_SetCount (pfx_Count (b_V4Pfx block)) (V4_SetPrefix (pfx_Len (b_V4Pfx block))
           (V4_SetAddressFirstOctet (pfx_FirstOctet (b_V4Pfx block)) r))) gridSt in
  if String.eqb (pfx_FirstOctet (b_V6Pfx block)) "" then gridSt
  else V6RouteInfo (fun r => V6_SetCount (pfx_Count (b_V6Pfx block)) (V6_SetPrefix (pfx_Len (b_V6Pfx block))
         (V6_SetAddressFirstOctet (pfx_FirstOctet (b_V6Pfx block)) r))) gridSt.

(** [t.Fatalf] on an error of the topology. *)
Definition createISISBlock (block : ISISOTGBlock) (emulatedRouterIdx : nat) : gost Config unit := fun top =>
  match GenerateTopology {| w_config := top; w_grid := blockGrid block |} with
  | (Ret gridTopo, w) =>
      match cfg_devices (w_config w) !! emulatedRouterIdx with
      | None => (Panic, w_config w)
      | Some _ =>
          match Connect gridTopo emulatedRouterIdx 0 1 w with
          | (Ret _, w) => (Ret tt, w_config w)
          | (_, w) => (Panic, w_config w)
          end
      end
  | (_, w) => (Panic, w_config w)
  end.

Definition configureOTGISIS (er : AteEmulatedRouterData) (x : Device) : go Device :=
  let isisName := er_Name er +:+ "_IXIA_Emulated" in
  let i := Device_Isis x in
  match dev_ethernets x with
  | [] => Panic
  | e0 :: _ =>
      let inf := {|
        inf_name := er_Name er +:+ ".ISISInt"; inf_eth := eth_name e0; inf_type := POINT_TO_POINT;
        inf_level := Some LEVEL_2; inf_metric := Some 10;
        inf_advanced := Some {| enable3Way := true; autoMtu := true; autoArea := true; autoProtocols := true |} |} in
      Ret {| dev_name := dev_name x; dev_ethernets := dev_ethernets x;
             dev_isis := Some {|
               isis_name := isisName; isis_system := er_ISISSysID er; isis_hostname := Some isisName;
               isis_teRtrID := isis_teRtrID i; isis_wideMetric := Some true; isis_lspFilter := Some false;
               isis_areas := [er_ISISAreaAddress er]; isis_helloPadding := Some false;
               isis_refresh := if er_ISISLSPRefreshInterval er =? 0 then isis_refresh i
                               else Some (uint32 (er_ISISLSPRefreshInterval er));
               isis_lifetime := if er_ISISSPLifetime er =? 0 then isis_lifetime i
                                else Some (uint32 (er_ISISSPLifetime er));
               isis_interfaces := isis_interfaces i ++ [inf];
               isis_v4routes := isis_v4routes i; isis_v6routes := isis_v6routes i |} |}
  end.

(** The device of an emulated router, before IS-IS is configured. *)
Definition emulatedRouter (lag : string) (er : AteEmulatedRouterData) : Device := {|
  dev_name := er_Name er;
  dev_ethernets := [ {|
    eth_name := er_Name er +:+ ".Eth"; eth_mac := er_EthMAC er; eth_connection := LagName lag;
    eth_ipv4 := [ {| ip4_name := er_Name er +:+ ".Eth1" +:+ ".IPv4"; ip4_address := er_ATEIPv4 er;
                     ip4_gateway := er_DUTIPv4 er; ip4_prefix := uint32 (er_LinkIPv4PLen er) |} ];
    eth_ipv6 := [ {| ip6_name := er_Name er +:+ ".Eth1" +:+ ".IPv6"; ip6_address := er_ATEIPv6 er;
                     ip6_gateway := er_DUTIPv6 er; ip6_prefix := Some (uint32 (er_LinkIPv6PLen er)) |} ];
    eth_vlans := if er_VlanID er =? 0 then []
                 else [(er_Name er +:+ ".Eth1" +:+ ".VLAN", uint32 (er_VlanID er))] |} ];
  dev_isis := None |}.

Definition configureRouter (configureISIS : bool) (lag : string) (er : AteEmulatedRouterData) : gost Config unit :=
  top ← getState;
  let emulatedRouterIdx := length (cfg_devices top) in
  if configureISIS then
    x ← lift (configureOTGISIS er (emulatedRouter lag er));
    _ ← (fun top => (Ret tt, set_devices top (cfg_devices top ++ [x])));
    forEach (fun b => createISISBlock b emulatedRouterIdx) (er_ISISBlocks er)
  else fun top => (Ret tt, set_devices top (cfg_devices top ++ [emulatedRouter lag er])).

(** The name of the member's Ethernet has the index [i] of the LAG. *)
Definition lagMembers (ports : string -> OndatraPort) (i : nat) (l : ATELagData) : list (OndatraPort * LagPort) :=
  map (fun p =>
    let op := ports ("port" +:+ Itoa (ap_OndatraPortIdx p + 1)) in
    (op, {| lp_name := op_ID op;
            lp_lacp := {| lacp_activity := "active"; lacp_portNumber := 1; lacp_portPriority := 1; lacp_timeout := 0 |};
            lp_mac := ap_Mac p;
            lp_ethName := l_Name l +:+ "." +:+ Itoa (Z.of_nat i + 1) |})) (l_Ports l).

(** The LAG with its ports. *)
Definition addLag (l : ATELagData) (members : list (OndatraPort * LagPort)) (top : Config) : Config := {|
  cfg_ports := cfg_ports top ++ map (fun m => op_ID (fst m)) members;
  cfg_lags := cfg_lags top ++ [ {| lag_name := l_Name l; lag_actorKey := 1; lag_systemPriority := 1;
                                   lag_systemId := l_Mac l; lag_ports := map snd members |} ];
  cfg_devices := cfg_devices top; cfg_layer1 := cfg_layer1 top |}.

Definition configureLag (ports : string -> OndatraPort) (configureISIS : bool) (il : nat * ATELagData) :
    gost Config unit := fun top =>
  let '(i, l) := il in
  forEach (configureRouter configureISIS (l_Name l)) (l_Erouters l) (addLag l (lagMembers ports i l) top).

Definition ConfigureATE (ports : string -> OndatraPort) (d : ATEData) : go Config :=
  let lags := zip (seq 0 (length (a_Lags d))) (a_Lags d) in
  let pmd100GFRPorts :=
    map (fun m => op_ID (fst m))
      (filter (fun m => op_100GBASEFR (fst m) = true) (il ← lags; lagMembers ports (fst il) (snd il))) in
  match forEach (configureLag ports (a_ConfigureISIS d)) lags NewConfig with
  | (Ret _, top) =>
      Ret {| cfg_ports := cfg_ports top; cfg_lags := cfg_lags top; cfg_devices := cfg_devices top;
             cfg_layer1 := match pmd100GFRPorts with
                           | [] => cfg_layer1 top
                           | _ => cfg_layer1 top ++ [ {| l1_name := "L1"; l1_ports := pmd100GFRPorts;
                                    l1_autoNeg := true; l1_ieee := false; l1_speed := "speed_100_gbps";
                                    l1_rsFec := false |} ]
                           end |}
  | (_, _) => Panic
  end.

(** * Lemmas *)

(** ** Link addresses *)

Definition dev_addrs (x : Device) : list string := e ← dev_ethernets x; map ip4_address (eth_ipv4 e).
Definition eth_link (e : Ethernet) : list (string * string) :=
  match eth_connection e with SimulatedLink r => [(eth_name e, r)] | _ => [] end.
Definition dev_links (x : Device) : list (string * string) := dev_ethernets x ≫= eth_link.

(** The IPv4 addresses and the simulated links (local and remote interface) of
    a list of devices. *)
Definition dev_ip4Names (x : Device) : list string := e ← dev_ethernets x; map ip4_name (eth_ipv4 e).
Definition ip4Names (ds : list Device) : list string := ds ≫= dev_ip4Names.
Definition linkAddrs (ds : list Device) : list string := ds ≫= dev_addrs.
Definition links (ds : list Device) : list (string * string) := ds ≫= dev_links.

Abbreviation devs w := (cfg_devices (w_config w)).
Definition dev_system (x : Device) : string := isis_system (Device_Isis x).

Definition valid (w : World) (p : nat * nat) : Prop :=
  exists x e, devs w !! fst p = Some x /\ dev_ethernets x !! snd p = Some e.

(** What adding links does: new addresses and links, everything else stays. *)
Record grows (A : list string) (L : list (string * string)) (w w' : World) : Prop := {
  gr_grid : set_next [] (w_grid w') = set_next [] (w_grid w);
  gr_cfg : set_devices (w_config w') [] = set_devices (w_config w) [];
  gr_names : map dev_name (devs w') = map dev_name (devs w);
  gr_systems : map dev_system (devs w') = map dev_system (devs w);
  gr_valid p : valid w p -> valid w' p;
  gr_ip4 : ip4Names (devs w) ⊆ ip4Names (devs w');
  gr_addrs : linkAddrs (devs w') ≡ₚ linkAddrs (devs w) ++ A;
  gr_links : links (devs w') ≡ₚ links (devs w) ++ L }.

Lemma grows_refl w : grows [] [] w w.
Proof. split; try done; by rewrite app_nil_r. Qed.

Lemma grows_trans A1 A2 L1 L2 w1 w2 w3 :
  grows A1 L1 w1 w2 -> grows A2 L2 w2 w3 -> grows (A1 ++ A2) (L1 ++ L2) w1 w3.
Proof.
  intros [] []. split; try congruence; eauto; [set_solver|..].
  - rewrite gr_addrs1, gr_addrs0. by rewrite app_assoc.
  - rewrite gr_links1, gr_links0. by rewrite app_assoc.
Qed.

Lemma grows_length A L w w' : grows A L w w' -> length (devs w') = length (devs w).
Proof. intros H. rewrite <- !(length_map dev_name). by rewrite (gr_names _ _ _ _ H). Qed.

Lemma bind_alter {X Y} (M : X -> list Y) f d (l : list X) x extra :
  l !! d = Some x -> M (f x) ≡ₚ M x ++ extra -> (alter f d l ≫= M) ≡ₚ (l ≫= M) ++ extra.
Proof.
  intros Hd HM. rewrite <- (take_drop_middle l d x Hd) at 2.
  assert (alter f d l = take d l ++ f x :: drop (S d) l) as ->.
  { rewrite <- (take_drop_middle l d x Hd) at 1. rewrite alter_app_r_alt, length_take.
    - rewrite Nat.min_l, Nat.sub_diag; [done|]. apply lookup_lt_Some in Hd. lia.
    - rewrite length_take. lia. }
  rewrite !bind_app, !bind_cons, HM. solve_Permutation.
Qed.

Lemma bind_alter_subseteq {X Y} (M : X -> list Y) f d (l : list X) x :
  l !! d = Some x -> M x ⊆ M (f x) -> (l ≫= M) ⊆ (alter f d l ≫= M).
Proof.
  intros Hd HM y. rewrite !list_elem_of_bind. intros (z & Hz & [i Hi]%list_elem_of_lookup).
  destruct (decide (d = i)) as [<-|Hne].
  - exists (f x). rewrite Hd in Hi. injection Hi as <-. split; [by apply HM|].
    apply list_elem_of_lookup. exists d. rewrite list_lookup_alter. case_decide; [|done]. by rewrite Hd.
  - exists z. split; [done|]. apply list_elem_of_lookup. exists i. by rewrite list_lookup_alter_ne.
Qed.

Lemma map_alter_id {X Y} (h : X -> Y) f d (l : list X) x :
  l !! d = Some x -> h (f x) = h x -> map h (alter f d l) = map h l.
Proof.
  intros Hd Hh. revert d Hd. induction l as [|y l IH]; intros [|d] Hd; simplify_eq/=; [by f_equal|].
  f_equal. by apply IH.
Qed.

Lemma mod_device_grows d f w x A L :
  devs w !! d = Some x -> dev_name (f x) = dev_name x -> dev_system (f x) = dev_system x ->
  (length (dev_ethernets x) <= length (dev_ethernets (f x)))%nat ->
  dev_ip4Names x ⊆ dev_ip4Names (f x) ->
  dev_addrs (f x) ≡ₚ dev_addrs x ++ A -> dev_links (f x) ≡ₚ dev_links x ++ L ->
  exists w', mod_device d f w = (Ret tt, w') /\ grows A L w w' /\ w_grid w' = w_grid w /\
    devs w' !! d = Some (f x).
Proof.
  intros Hd Hn Hs Hl HN HA HL. eexists. split; [reflexivity|]. split; [|split; [done|]].
  2:{ cbn. rewrite list_lookup_alter. case_decide; [|done]. by rewrite Hd. }
  split; cbn; try done.
  - by eapply map_alter_id.
  - by eapply map_alter_id.
  - intros [p k] (y & e & Hy & He). cbn in *. destruct (decide (p = d)) as [->|Hne].
    + rewrite Hd in Hy. injection Hy as <-. apply lookup_lt_Some in He.
      destruct (lookup_lt_is_Some_2 (dev_ethernets (f x)) k) as [e' He']; [lia|].
      exists (f x), e'. cbn. split; [|done]. rewrite list_lookup_alter. case_decide; [|done]. by rewrite Hd.
    + exists y, e. cbn. split; [|done]. by rewrite list_lookup_alter_ne by done.
  - by eapply bind_alter_subseteq.
  - by eapply bind_alter.
  - by eapply bind_alter.
Qed.

Lemma get_device_run w d x : devs w !! d = Some x -> get_device d w = (Ret x, w).
Proof. intros H. unfold get_device. by rewrite H. Qed.

Lemma grows_device A L w w' d : grows A L w w' -> is_Some (devs w !! d) -> is_Some (devs w' !! d).
Proof. intros H. rewrite !lookup_lt_is_Some. by rewrite (grows_length _ _ _ _ H). Qed.

(** Adding an interface keeps the devices and gives a valid pointer. *)
Lemma add_ethernet_grows d e w : is_Some (devs w !! d) ->
  exists p w', add_ethernet d e w = (Ret p, w') /\
    grows (map ip4_address (eth_ipv4 e)) (eth_link e) w w' /\ w_grid w' = w_grid w /\ valid w' p.
Proof.
  intros [x Hx].
  destruct (mod_device_grows d (with_ethernet e) w x (map ip4_address (eth_ipv4 e)) (eth_link e))
    as (w' & Hw & Hg & Hn & Hd); try done.
  - cbn. rewrite length_app. lia.
  - unfold dev_ip4Names. cbn. rewrite bind_app. set_solver.
  - unfold dev_addrs. cbn. by rewrite bind_app, bind_cons, app_nil_r.
  - unfold dev_links. cbn. by rewrite bind_app, bind_cons, app_nil_r.
  - exists (d, length (dev_ethernets x)), w'. split; [|split_and!; try done].
    + unfold add_ethernet. rewrite (bind_run _ _ _ _ _ (get_device_run _ _ _ Hx)).
      by rewrite (bind_run _ _ _ _ _ Hw).
    + exists (with_ethernet e x), e. split; [done|]. cbn. by rewrite lookup_app_r, Nat.sub_diag.
Qed.

Lemma with_interface_grows d n w : is_Some (devs w !! d) ->
  exists w', mod_device d (with_interface n) w = (Ret tt, w') /\ grows [] [] w w' /\ w_grid w' = w_grid w.
Proof.
  intros [x Hx]. destruct (mod_device_grows d (with_interface n) w x [] []) as (w' & ? & ? & ? & ?); try done.
  - by rewrite app_nil_r.
  - by rewrite app_nil_r.
  - eauto.
Qed.

Lemma with_eth_grows p f A w : valid w p ->
  (forall e, map ip4_address (eth_ipv4 (f e)) = map ip4_address (eth_ipv4 e) ++ A) ->
  (forall e, eth_link (f e) = eth_link e) ->
  (forall e, map ip4_name (eth_ipv4 e) ⊆ map ip4_name (eth_ipv4 (f e))) ->
  exists w', mod_device (fst p) (with_eth (snd p) f) w = (Ret tt, w') /\ grows A [] w w' /\
    w_grid w' = w_grid w.
Proof.
  intros (x & e & Hx & He) HA HL HN.
  destruct (mod_device_grows (fst p) (with_eth (snd p) f) w x A []) as (w' & ? & ? & ? & ?); try done.
  - cbn. by rewrite length_alter.
  - by eapply bind_alter_subseteq.
  - unfold dev_addrs. cbn. eapply bind_alter; [done|]. by rewrite HA.
  - unfold dev_links. cbn. eapply bind_alter; [done|]. by rewrite HL, app_nil_r.
  - eauto.
Qed.

(** ** The next link address *)

(** The sixteen bytes of the IPv4 address [v]; [2 ^ 32] is one past the last. *)
Definition ip_bytes (v : Z) : list Z := be_bytes 16 (65535 * 2 ^ 32 + v).

Lemma nextIP_bytes v : 0 <= v <= 2 ^ 32 -> nextIP (ip_bytes v) = ip_bytes (v + 1).
Proof.
  intros Hv. unfold nextIP, ip_bytes.
  destruct (is_bytes_be_bytes 16 (65535 * 2 ^ 32 + v)) as [Hl Hb].
  destruct (incBytes_spec (rev (be_bytes 16 (65535 * 2 ^ 32 + v))) (Forall_rev Hb)) as [Hi Hval].
  rewrite length_rev, rev_involutive, Hl in *.
  rewrite <- (be_bytes_val 16 _ Hi), Hval, be_val_bytes.
  rewrite Z.add_mod_idemp_l by lia. rewrite <- Z.add_assoc.
  rewrite Z.mod_small; [done|]. change (256 ^ Z.of_nat 16) with (2 ^ 128). lia.
Qed.

Lemma ip_bytes_v4 v : 0 <= v < 2 ^ 32 -> ip_bytes v = v4InV6Prefix ++ be_bytes 4 v.
Proof.
  intros Hv. assert (is_bytes 16 (v4InV6Prefix ++ be_bytes 4 v)) as H16.
  { destruct (is_bytes_be_bytes 4 v) as [Hl Hb]. split; [done|]. apply Forall_app. split; [|done].
    unfold v4InV6Prefix. apply Forall_app. split; [apply Forall_replicate; lia|].
    rewrite !Forall_cons. split_and!; try lia. constructor. }
  rewrite <- (be_bytes_val 16 _ H16). unfold ip_bytes. f_equal.
  unfold be_val. rewrite foldl_app. change (foldl _ 0 v4InV6Prefix) with 65535. cbn [be_bytes foldl].
  change (Z.of_nat 3) with 3. change (Z.of_nat 2) with 2. change (Z.of_nat 1) with 1. change (Z.of_nat 0) with 0.
  pose proof (be_val_bytes 4 v) as E. rewrite Z.mod_small in E by (change (256 ^ Z.of_nat 4) with (2 ^ 32); lia).
  unfold be_val in E. cbn [be_bytes foldl] in E.
  change (Z.of_nat 3) with 3 in E. change (Z.of_nat 2) with 2 in E. change (Z.of_nat 1) with 1 in E.
  change (Z.of_nat 0) with 0 in E. lia.
Qed.

Lemma ip_bytes_String v : 0 <= v < 2 ^ 32 -> IP_String (ip_bytes v) = v4text v.
Proof. intros Hv. by rewrite ip_bytes_v4. Qed.

Lemma ip_bytes_outside v oct : 0 < oct < 256 -> 0 <= v <= 2 ^ 32 ->
  outside (ip_bytes (v + 1)) oct = negb (oct * 2 ^ 24 <=? v + 1) || negb (v + 1 <? (oct + 1) * 2 ^ 24).
Proof.
  intros Ho Hv. unfold outside. destruct (Z.lt_ge_cases (v + 1) (2 ^ 32)) as [Hlt|Hge].
  - rewrite ip_bytes_v4 by lia. change (To4 (v4InV6Prefix ++ be_bytes 4 (v + 1))) with (Some (be_bytes 4 (v + 1))).
    cbn [be_bytes]. change (256 ^ Z.of_nat 3) with (2 ^ 24).
    rewrite (Z.mod_small oct) by lia.
    assert (0 <= (v + 1) / 2 ^ 24 < 256) by (split; [apply Z.div_pos|apply Z.div_lt_upper_bound]; lia).
    rewrite Z.mod_small by lia.
    pose proof (Z.div_mod (v + 1) (2 ^ 24) ltac:(lia)). pose proof (Z.mod_pos_bound (v + 1) (2 ^ 24) ltac:(lia)).
    destruct (Z.eqb_spec ((v + 1) / 2 ^ 24) oct), (Z.leb_spec (oct * 2 ^ 24) (v + 1)),
      (Z.ltb_spec (v + 1) ((oct + 1) * 2 ^ 24)); cbn; try done; nia.
  - assert (To4 (ip_bytes (v + 1)) = None) as ->.
    { assert (v + 1 = 2 ^ 32 \/ v + 1 = 2 ^ 32 + 1) as [-> | ->] by lia; reflexivity. }
    destruct (Z.ltb_spec (v + 1) ((oct + 1) * 2 ^ 24)); [lia|]. by rewrite orb_true_r.
Qed.

(** ** Links *)

Definition flip_link (l : string * string) : string * string := (snd l, fst l).
(** The remote interface of every link has the link back. *)
Definition paired (L : list (string * string)) : Prop := map flip_link L ≡ₚ L.

Lemma paired_nil : paired [].
Proof. constructor. Qed.
#[export] Hint Resolve paired_nil : core.

Lemma paired_app L1 L2 : paired L1 -> paired L2 -> paired (L1 ++ L2).
Proof. unfold paired. intros H1 H2. by rewrite map_app, H1, H2. Qed.

Lemma seqZ_two v : seqZ v (2 * 1) = [v; v + 1].
Proof. rewrite !seqZ_cons by lia. by rewrite seqZ_nil. Qed.

Lemma foldr_const {X} (c : Z) (l : list X) : foldr (fun _ n => c + n) 0 l = c * Z.of_nat (length l).
Proof. induction l as [|x l IH]; cbn [foldr length]; lia. Qed.

Section Links.
Context (oct : Z) (oct_ok : 0 < oct < 256).

(** [m] takes [2 * k] addresses from [v] on, or fails when the /8 has not that many left. *)
Definition allocates (k : Z) (m : gost World unit) (w : World) : Prop :=
  forall v, nextLinkIP4ToUse (w_grid w) = ip_bytes v -> oct * 2 ^ 24 <= v <= (oct + 1) * 2 ^ 24 ->
  if v + 2 * k <=? (oct + 1) * 2 ^ 24 then
    exists w' L, m w = (Ret tt, w') /\ grows (map v4text (seqZ v (2 * k))) L w w' /\ paired L /\
      nextLinkIP4ToUse (w_grid w') = ip_bytes (v + 2 * k)
  else exists e w' A L, m w = (Fail e, w') /\ grows A L w w' /\ paired L.

Lemma set_next_grows ip w : exists w',
  set_next_ip ip w = (Ret tt, w') /\ grows [] [] w w' /\ nextLinkIP4ToUse (w_grid w') = ip.
Proof. eexists. split; [reflexivity|]. split; [|done]. split; try done; by rewrite app_nil_r. Qed.

Lemma linkIPv4_allocates p1 p2 n1 n2 w : valid w p1 -> valid w p2 ->
  allocates 1 (linkIPv4 oct p1 p2 n1 n2) w.
Proof.
  intros H1 H2 v Hv Hr. unfold linkIPv4. destruct (Z.eqb_spec oct 0); [lia|].
  rewrite (bind_run get_next_ip _ w _ w eq_refl), Hv. rewrite nextIP_bytes by lia.
  destruct (set_next_grows (ip_bytes (v + 1)) w) as (w1 & E1 & G1 & N1).
  rewrite (bind_run _ _ _ _ _ E1), ip_bytes_outside by lia.
  destruct (Z.leb_spec (v + 2 * 1) ((oct + 1) * 2 ^ 24)) as [Hle|Hgt].
  - destruct (Z.leb_spec (oct * 2 ^ 24) (v + 1)); [|lia].
    destruct (Z.ltb_spec (v + 1) ((oct + 1) * 2 ^ 24)); [|lia]. cbn [negb orb].
    rewrite nextIP_bytes, !ip_bytes_String by lia.
    destruct (set_next_grows (ip_bytes (v + 1 + 1)) w1) as (w2 & E2 & G2 & N2).
    rewrite (bind_run _ _ _ _ _ E2).
    set (a1 := {| ip4_name := n1 +:+ "ip4" |}). set (a2 := {| ip4_name := n2 +:+ "ip4" |}).
    destruct (with_eth_grows p1 (eth_add_ipv4 a1) [v4text v] w2) as (w3 & E3 & G3 & N3); [| |done|..].
    { by apply (gr_valid _ _ _ _ G2), (gr_valid _ _ _ _ G1). }
    { intros e. cbn. by rewrite map_app. }
    { intros e. cbn. rewrite map_app. set_solver. }
    unfold add_ipv4 at 1. rewrite (bind_run _ _ _ _ _ E3).
    destruct (with_eth_grows p2 (eth_add_ipv4 a2) [v4text (v + 1)] w3) as (w4 & E4 & G4 & N4); [| |done|..].
    { by apply (gr_valid _ _ _ _ G3), (gr_valid _ _ _ _ G2), (gr_valid _ _ _ _ G1). }
    { intros e. cbn. by rewrite map_app. }
    { intros e. cbn. rewrite map_app. set_solver. }
    exists w4, []. split; [exact E4|]. split_and!; [|done|rewrite N4, N3, N2; f_equal; lia].
    pose proof (grows_trans _ _ _ _ _ _ _ G1 (grows_trans _ _ _ _ _ _ _ G2 (grows_trans _ _ _ _ _ _ _ G3 G4))) as G.
    by rewrite seqZ_two.
  - destruct (Z.ltb_spec (v + 1) ((oct + 1) * 2 ^ 24)); [lia|]. rewrite orb_true_r.
    do 2 eexists. exists [], []. split; [reflexivity|]. by split.
Qed.

Lemma linkIPv6_grows oct6 i1 i2 i p1 p2 n1 n2 w : valid w p1 -> valid w p2 ->
  exists w', linkIPv6 oct6 i1 i2 i p1 p2 n1 n2 w = (Ret tt, w') /\ grows [] [] w w' /\ w_grid w' = w_grid w.
Proof.
  intros H1 H2. unfold linkIPv6. destruct (String.eqb oct6 "").
  { exists w. split; [done|]. split; [apply grows_refl|done]. }
  set (a1 := {| ip6_name := n1 +:+ "ip6" |}). set (a2 := {| ip6_name := n2 +:+ "ip6" |}).
  destruct (with_eth_grows p1 (eth_add_ipv6 a1) [] w H1) as (w1 & E1 & G1 & N1); [intros; by rewrite app_nil_r|done|done|].
  unfold add_ipv6 at 1. rewrite (bind_run _ _ _ _ _ E1).
  destruct (with_eth_grows p2 (eth_add_ipv6 a2) [] w1 (gr_valid _ _ _ _ G1 _ H2)) as (w2 & E2 & G2 & N2);
    [intros; by rewrite app_nil_r|done|done|].
  exists w2. split; [exact E2|]. split; [by apply (grows_trans _ _ _ _ _ _ _ G1 G2)|congruence].
Qed.

Lemma linkRound_allocates d1 d2 idx1 idx2 oct6 i w :
  is_Some (devs w !! d1) -> is_Some (devs w !! d2) ->
  allocates 1 (linkRound d1 d2 idx1 idx2 oct oct6 i) w.
Proof.
  intros [x1 H1] [x2 H2] v Hv Hr. unfold linkRound.
  rewrite (bind_run _ _ _ _ _ (get_device_run _ _ _ H1)), (bind_run _ _ _ _ _ (get_device_run _ _ _ H2)).
  cbv zeta beta. set (eth1 := dev_name x1 +:+ "eth" +:+ _). set (eth2 := dev_name x2 +:+ "eth" +:+ _).
  destruct (add_ethernet_grows d1 (simEthernet eth1 eth2) w) as (p1 & wa & Ea & Ga & Na & Va); [by eexists|].
  rewrite (bind_run _ _ _ _ _ Ea).
  set (n1 := simInterface _ eth1). set (n2 := simInterface _ eth2).
  destruct (with_interface_grows d1 n1 wa) as (wb & Eb & Gb & Nb); [by apply (grows_device _ _ _ _ _ Ga); eexists|].
  rewrite (bind_run _ _ _ _ _ Eb).
  pose proof (grows_trans _ _ _ _ _ _ _ Ga Gb) as Gab.
  destruct (add_ethernet_grows d2 (simEthernet eth2 eth1) wb) as (p2 & wc & Ec & Gc & Nc & Vc);
    [by apply (grows_device _ _ _ _ _ Gab); eexists|].
  rewrite (bind_run _ _ _ _ _ Ec).
  pose proof (grows_trans _ _ _ _ _ _ _ Gab Gc) as Gac.
  destruct (with_interface_grows d2 n2 wc) as (wd & Ed & Gd & Nd); [by apply (grows_device _ _ _ _ _ Gac); eexists|].
  rewrite (bind_run _ _ _ _ _ Ed).
  pose proof (grows_trans _ _ _ _ _ _ _ Gac Gd) as G0. cbn in G0.
  assert (valid wd p1 /\ valid wd p2) as [V1 V2].
  { split; [apply (gr_valid _ _ _ _ Gd), (gr_valid _ _ _ _ Gc), (gr_valid _ _ _ _ Gb)|apply (gr_valid _ _ _ _ Gd)]; done. }
  assert (paired [(eth1, eth2); (eth2, eth1)]) as P0 by (unfold paired; cbn; apply perm_swap).
  pose proof (linkIPv4_allocates p1 p2 eth1 eth2 wd V1 V2 v ltac:(congruence) Hr) as H4.
  destruct (v + 2 * 1 <=? (oct + 1) * 2 ^ 24).
  - destruct H4 as (we & L & Ee & Ge & Pe & Ne). rewrite (bind_run _ _ _ _ _ Ee).
    destruct (linkIPv6_grows oct6 idx1 idx2 (Z.of_nat i) p1 p2 eth1 eth2 we) as (wf & Ef & Gf & Nf);
      [by apply (gr_valid _ _ _ _ Ge)..|].
    exists wf. eexists. split; [exact Ef|]. split_and!.
    + pose proof (grows_trans _ _ _ _ _ _ _ G0 (grows_trans _ _ _ _ _ _ _ Ge Gf)) as G.
      rewrite app_nil_r in G. exact G.
    + apply paired_app; [done|]. by rewrite app_nil_r.
    + congruence.
  - destruct H4 as (e & we & A & L & Ee & Ge & Pe). exists e, we. do 2 eexists. split.
    + unfold mbind at 1, gost_bind at 1. by rewrite Ee.
    + split; [exact (grows_trans _ _ _ _ _ _ _ G0 Ge)|by apply paired_app].
Qed.

(** Sequential composition: what is allocated adds up. *)
Lemma allocates_seq k1 k2 m1 m2 w : 0 <= k1 -> 0 <= k2 -> allocates k1 m1 w ->
  (forall w' A L, grows A L w w' -> allocates k2 m2 w') -> allocates (k1 + k2) (_ ← m1; m2) w.
Proof.
  intros Hk1 Hk2 H1 H2 v Hv Hr. specialize (H1 v Hv Hr).
  destruct (Z.leb_spec (v + 2 * k1) ((oct + 1) * 2 ^ 24)) as [Hle|Hgt].
  - destruct H1 as (w1 & L1 & E1 & G1 & P1 & N1). rewrite (bind_run _ _ _ _ _ E1).
    specialize (H2 _ _ _ G1 (v + 2 * k1) N1 ltac:(lia)).
    replace (v + 2 * (k1 + k2)) with (v + 2 * k1 + 2 * k2) by lia. case_match.
    + destruct H2 as (w2 & L2 & E2 & G2 & P2 & N2). exists w2, (L1 ++ L2). split_and!; try done; [|by apply paired_app].
      rewrite Z.mul_add_distr_l, seqZ_app, map_app by lia. by eapply grows_trans.
    + destruct H2 as (e & w2 & A2 & L2 & E2 & G2 & P2). exists e, w2. do 2 eexists. split; [done|].
      split; [exact (grows_trans _ _ _ _ _ _ _ G1 G2)|by apply paired_app].
  - destruct H1 as (e & w1 & A1 & L1 & E1 & G1 & P1).
    destruct (Z.leb_spec (v + 2 * (k1 + k2)) ((oct + 1) * 2 ^ 24)); [lia|].
    exists e, w1, A1, L1. split_and!; try done. unfold mbind, gost_bind. by rewrite E1.
Qed.

Lemma allocates_ret w : allocates 0 (mret tt) w.
Proof.
  intros v Hv Hr. rewrite Z.mul_0_r, Z.add_0_r. destruct (Z.leb_spec v ((oct + 1) * 2 ^ 24)); [|lia].
  exists w, []. split; [done|]. rewrite seqZ_nil by lia. by split_and!; [apply grows_refl| |].
Qed.

Lemma allocates_forEach {X} (body : X -> gost World unit) (cost : X -> Z) l : 
  forall w, (forall x, x ∈ l -> 0 <= cost x) ->
  (forall x w' A L, x ∈ l -> grows A L w w' -> allocates (cost x) (body x) w') ->
  allocates (foldr (fun x n => cost x + n) 0 l) (forEach body l) w.
Proof.
  induction l as [|x l IH]; intros w Hc Hb; [apply allocates_ret|]. cbn [foldr forEach].
  apply allocates_seq.
  - apply Hc. by left.
  - clear -Hc. induction l as [|y l IH]; cbn; [lia|].
    pose proof (Hc y ltac:(by right; left)). enough (0 <= foldr (fun x n => cost x + n) 0 l) by lia.
    apply IH. intros z [->|Hz]%elem_of_cons; apply Hc; [by left|by right; right].
  - eapply Hb; [by left|apply grows_refl].
  - intros w' A L G. apply IH; [intros; apply Hc; by right|].
    intros y w'' A' L' Hy G'. eapply Hb; [by right|exact (grows_trans _ _ _ _ _ _ _ G G')].
Qed.

Lemma createLink_allocates d1 d2 i1 i2 oct6 k w :
  is_Some (devs w !! d1) -> is_Some (devs w !! d2) ->
  allocates (Z.max 0 k) (createLink d1 d2 i1 i2 oct oct6 k) w.
Proof.
  intros H1 H2. unfold createLink.
  replace (Z.max 0 k) with (foldr (fun (_ : nat) n => 1 + n) 0 (seq 0 (Z.to_nat k))).
  - apply allocates_forEach; [done|]. intros i w' A L _ G.
    apply linkRound_allocates; by eapply grows_device.
  - rewrite foldr_const, length_seq. lia.
Qed.
End Links.

(** ** Devices *)

Lemma hex_digit_char d : 0 <= d < 16 -> hex_digit (hex_char false d) = Some d.
Proof.
  intros Hd. assert (forallb (fun d => bool_decide (hex_digit (hex_char false d) = Some d))
    (map Z.of_nat (seq 0 16)) = true) as H by (by vm_compute).
  rewrite forallb_forall in H. apply (bool_decide_eq_true_1 _), H, in_map_iff. exists (Z.to_nat d).
  split; [lia|]. apply in_seq. lia.
Qed.

Lemma hex_digits_value fuel : forall n acc, 0 <= n < 16 ^ Z.of_nat fuel ->
  hex_value 0 (hex_digits fuel n acc) = hex_value n acc.
Proof.
  induction fuel as [|fuel IH]; intros n acc Hn.
  { change (16 ^ Z.of_nat 0) with 1 in Hn. by replace n with 0 by lia. }
  rewrite Nat2Z.inj_succ, Z.pow_succ_r in Hn by lia. cbn [hex_digits].
  pose proof (Z.mod_pos_bound n 16 ltac:(lia)). pose proof (Z.div_mod n 16 ltac:(lia)).
  assert (hex_value (n / 16) (String (hex_char false (n mod 16)) acc) = hex_value n acc) as E.
  { cbn [hex_value]. rewrite hex_digit_char by done. f_equal. lia. }
  destruct (Z.eqb_spec (n / 16) 0) as [Hz|Hz]; [by rewrite <- E, Hz|].
  rewrite IH; [done|]. split; [apply Z.div_pos; lia|apply Z.div_lt_upper_bound; lia].
Qed.

Lemma hex_digits_length fuel : forall k n acc, 0 <= n < 16 ^ Z.of_nat (S k) ->
  (String.length (hex_digits fuel n acc) <= S k + String.length acc)%nat.
Proof.
  induction fuel as [|fuel IH]; intros k n acc Hn; [cbn; lia|]. cbn [hex_digits].
  destruct (Z.eqb_spec (n / 16) 0) as [Hz|Hz]; [cbn; lia|]. destruct k as [|k].
  { exfalso. apply Hz. apply Z.div_small. change (16 ^ Z.of_nat 1) with 16 in Hn. lia. }
  etransitivity; [apply (IH k)|cbn; lia]. rewrite Nat2Z.inj_succ, Z.pow_succ_r in Hn by lia.
  split; [apply Z.div_pos; lia|apply Z.div_lt_upper_bound; lia].
Qed.

Lemma Repeat0_length n : String.length (Repeat0 n) = n.
Proof. induction n; cbn; auto. Qed.

Lemma hex_value_zeros n s : hex_value 0 (Repeat0 n +:+ s) = hex_value 0 s.
Proof. induction n; [done|]. cbn [Repeat0]. by rewrite str_app_cons. Qed.

(** The last five octets of the system ID of node [k]. *)
Definition systemID_tail (k : nat) : string :=
  let s := Sprintf_02x (Z.of_nat k + 1) in Repeat0 (10 - String.length s) +:+ s.

Lemma Sprintf_02x_facts n : 0 <= n < 16 ^ 10 ->
  (String.length (Sprintf_02x n) <= 10)%nat /\ hex_value 0 (Sprintf_02x n) = Some n.
Proof.
  intros Hn. unfold Sprintf_02x. pose proof (hex_digits_length 16 9 n "" Hn) as Hl.
  pose proof (hex_digits_value 16 n "" ltac:(change (16 ^ Z.of_nat 16) with (16 ^ 10 * 16 ^ 6); lia)) as Hv.
  change (String.length "") with 0%nat in Hl.
  destruct (Nat.ltb_spec (String.length (hex_digits 16 n "")) 2) as [H2|H2]; [|split; [lia|done]].
  split; [rewrite str_length_app; cbn [String.length]; lia|]. by rewrite str_app_cons.
Qed.

Lemma systemID_tail_facts k : Z.of_nat k < 65536 ->
  String.length (systemID_tail k) = 10%nat /\ hex_value 0 (systemID_tail k) = Some (Z.of_nat k + 1).
Proof.
  intros Hk. unfold systemID_tail. destruct (Sprintf_02x_facts (Z.of_nat k + 1)) as [Hl Hv]; [lia|].
  rewrite str_length_app, Repeat0_length, hex_value_zeros. split; [lia|done].
Qed.

(** The device of node [k], the only thing [createSimDev] adds. *)
Lemma createSimDev_run k sys r c r4 r6 name w : Z.of_nat k < 65536 ->
  exists x, createSimDev k sys r c r4 r6 name w =
    (Ret (length (devs w)), {| w_config := set_devices (w_config w) (devs w ++ [x]); w_grid := w_grid w |}) /\
    dev_ethernets x = [] /\ dev_system x = sys +:+ systemID_tail k.
Proof.
  intros Hk. destruct (Sprintf_02x_facts (Z.of_nat k + 1)) as [Hl _]; [lia|].
  unfold createSimDev. cbv zeta.
  rewrite (bind_run (add_device _) _ w (length (devs w)) _ eq_refl).
  destruct (Nat.ltb_spec 10 (String.length (Sprintf_02x (Z.of_nat k + 1)))); [lia|].
  rewrite (bind_run (mod_device _ _) _ _ tt _ eq_refl). cbn [w_config w_grid set_devices cfg_devices].
  rewrite alter_app_r_alt, Nat.sub_diag by lia. cbn [alter list_alter].
  eexists. split; [reflexivity|]. done.
Qed.

Lemma createNodes_run v : forall cs k w, Z.of_nat (k + length cs) <= 65536 ->
  exists xs, createNodes v k cs w =
    (Ret (seq (length (devs w)) (length cs)),
     {| w_config := set_devices (w_config w) (devs w ++ xs); w_grid := w_grid w |}) /\
    Forall (fun x => dev_ethernets x = []) xs /\
    map dev_system xs = map (fun i => systemIDFirstOctet v +:+ systemID_tail i) (seq k (length cs)).
Proof.
  induction cs as [|[r c] cs IH]; intros k w Hk.
  { exists []. split; [|done]. rewrite app_nil_r. by destruct w as [[] ?]. }
  cbn [createNodes length seq] in *.
  destruct (createSimDev_run k (systemIDFirstOctet v) (Z.of_nat r) (Z.of_nat c) (v4StRoute v) (v6StRoute v)
    (blockName v) w) as (x & E & He & Hs); [lia|].
  rewrite (bind_run _ _ _ _ _ E).
  destruct (IH (S k) {| w_config := set_devices (w_config w) (devs w ++ [x]); w_grid := w_grid w |})
    as (xs & E' & He' & Hs'); [lia|].
  rewrite (bind_run _ _ _ _ _ E'). exists (x :: xs). cbn. rewrite length_app, Nat.add_1_r, <- app_assoc.
  split; [reflexivity|]. split; [by constructor|]. by rewrite Hs, Hs'.
Qed.

(** ** The grid *)

Definition sumZ {X} (f : X -> Z) (l : list X) : Z := foldr (fun x n => f x + n) 0 l.

Lemma sumZ_app {X} (f : X -> Z) l1 l2 : sumZ f (l1 ++ l2) = sumZ f l1 + sumZ f l2.
Proof. unfold sumZ. induction l1 as [|x l1 IH]; cbn [foldr app]; lia. Qed.

Lemma sumZ_ext {X} (f g : X -> Z) l : (forall x, x ∈ l -> f x = g x) -> sumZ f l = sumZ g l.
Proof.
  intros H. unfold sumZ. induction l as [|x l IH]; [done|]. cbn [foldr]. f_equal; [apply H; by left|].
  apply IH. intros; apply H; by right.
Qed.

Lemma sumZ_bind {X Y} (f : Y -> Z) (g : X -> list Y) l : sumZ f (l ≫= g) = sumZ (fun x => sumZ f (g x)) l.
Proof. induction l as [|x l IH]; [done|]. rewrite bind_cons, sumZ_app. cbn [sumZ foldr]. by rewrite IH. Qed.

Lemma sumZ_singles {X Y} (f : Y -> Z) (g : X -> Y) l : sumZ f (x ← l; [g x]) = sumZ (fun x => f (g x)) l.
Proof. rewrite sumZ_bind. apply sumZ_ext. intros x _. cbn. lia. Qed.

(** The cells before the last one count. *)
Lemma sumZ_before a m n : (0 < n)%nat ->
  sumZ (fun i => a + (if Z.of_nat i + 1 =? Z.of_nat n then 0 else m)) (seq 0 n) = a * Z.of_nat n + m * (Z.of_nat n - 1).
Proof.
  intros Hn. destruct n as [|n]; [lia|]. clear Hn. rewrite seq_S, sumZ_app. cbn [sumZ foldr Nat.add].
  replace (Z.of_nat n + 1 =? Z.of_nat (S n)) with true by (symmetry; apply Z.eqb_eq; lia).
  rewrite (sumZ_ext _ (fun _ => a + m)).
  - unfold sumZ. rewrite foldr_const, length_seq. lia.
  - intros i Hi%elem_of_seq. destruct (Z.eqb_spec (Z.of_nat i + 1) (Z.of_nat (S n))); lia.
Qed.

(** The cost of a cell: a link to the right and one down, where there are such neighbours. *)
Definition cell_cost (rows cols : nat) (m : Z) (rc : nat * nat) : Z :=
  (if Z.of_nat (snd rc) + 1 =? Z.of_nat cols then 0 else m) +
  (if Z.of_nat (fst rc) + 1 =? Z.of_nat rows then 0 else m).

Lemma grid_cost rows cols m : (0 < rows)%nat -> (0 < cols)%nat ->
  sumZ (cell_cost rows cols m) (cells rows cols) =
  ((Z.of_nat cols - 1) * Z.of_nat rows + (Z.of_nat rows - 1) * Z.of_nat cols) * m.
Proof.
  intros Hr Hc. unfold cells. rewrite sumZ_bind.
  rewrite (sumZ_ext _ (fun r => (m * (Z.of_nat cols - 1)) +
     (if Z.of_nat r + 1 =? Z.of_nat rows then 0 else m * Z.of_nat cols))).
  - rewrite sumZ_before by done. lia.
  - intros r _. rewrite sumZ_singles. unfold cell_cost. cbn [fst snd].
    rewrite (sumZ_ext _ (fun c => (if Z.of_nat r + 1 =? Z.of_nat rows then 0 else m) +
      (if Z.of_nat c + 1 =? Z.of_nat cols then 0 else m))) by (intros; lia).
    rewrite sumZ_before by done. case_match; lia.
Qed.

Lemma cells_elem rows cols r c : (r, c) ∈ cells rows cols <-> (r < rows)%nat /\ (c < cols)%nat.
Proof.
  unfold cells. rewrite list_elem_of_bind. setoid_rewrite list_elem_of_bind.
  setoid_rewrite list_elem_of_singleton. setoid_rewrite elem_of_seq. split; [|intros []].
  - intros (r' & (c' & [= -> ->] & ?) & ?). lia.
  - exists r. split; [|lia]. exists c. split; [done|lia].
Qed.

Lemma length_bind_const {X Y} (g : X -> list Y) n l :
  (forall x, length (g x) = n) -> length (l ≫= g) = (length l * n)%nat.
Proof. intros H. induction l as [|x l IH]; [done|]. rewrite bind_cons, length_app, H, IH. done. Qed.

Lemma cells_length rows cols : length (cells rows cols) = (rows * cols)%nat.
Proof.
  unfold cells. rewrite (length_bind_const _ cols), length_seq; [done|]. intros r.
  rewrite (length_bind_const _ 1), length_seq; [lia|done].
Qed.

Lemma node_at_run rows cols r c : (r < rows)%nat -> (c < cols)%nat ->
  node_at (nodes_of rows cols) r c = Ret (r * cols + c)%nat.
Proof.
  intros Hr Hc. unfold node_at, nodes_of.
  rewrite !list_lookup_fmap, lookup_seq_lt by done. cbn.
  by rewrite list_lookup_fmap, lookup_seq_lt by done.
Qed.

Lemma device_of_run n len k : (k < len)%nat -> device_of (seq n len) k = Ret (n + k)%nat.
Proof. intros Hk. unfold device_of. by rewrite lookup_seq_lt by done. Qed.

Lemma allocates_eq oct k m m' w : m w = m' w -> allocates oct k m' w -> allocates oct k m w.
Proof. unfold allocates. by intros ->. Qed.

Lemma linkCell_allocates v rows cols n r c w :
  0 < linkIP4FirstOctet v < 256 -> 0 <= linkMultiplier v ->
  row v = Z.of_nat rows -> col v = Z.of_nat cols ->
  (r < rows)%nat -> (c < cols)%nat -> (n + rows * cols <= length (devs w))%nat ->
  allocates (linkIP4FirstOctet v) (cell_cost rows cols (linkMultiplier v) (r, c))
    (linkCell v (nodes_of rows cols) (seq n (rows * cols)) (r, c)) w.
Proof.
  intros Ho Hm Hrow Hcol Hr Hc Hlen.
  assert (forall a b w' A L, (a < rows * cols)%nat -> (b < rows * cols)%nat -> grows A L w w' ->
    allocates (linkIP4FirstOctet v) (linkMultiplier v)
      (d1 ← lift (device_of (seq n (rows * cols)) a); d2 ← lift (device_of (seq n (rows * cols)) b);
       createLink d1 d2 a b (linkIP4FirstOctet v) (linkIP6FirstOctet v) (linkMultiplier v)) w') as Hlink.
  { intros a b w' A L Ha Hb G. pose proof (grows_length _ _ _ _ G). eapply allocates_eq.
    { rewrite (lift_run _ _ _ _ (device_of_run _ _ _ Ha)). apply (lift_run _ _ _ _ (device_of_run _ _ _ Hb)). }
    rewrite <- (Z.max_r 0 (linkMultiplier v)) at 1 by done.
    apply createLink_allocates; [done|..]; apply lookup_lt_is_Some; lia. }
  unfold linkCell. eapply allocates_eq.
  { exact (lift_run _ _ _ _ (node_at_run _ _ _ _ Hr Hc)). }
  unfold cell_cost. cbn [fst snd]. rewrite <- Hcol, <- Hrow.
  apply allocates_seq; [case_match; lia|case_match; lia|..].
  - destruct (Z.eqb_spec (Z.of_nat c + 1) (col v)) as [Hl|Hl]; [apply allocates_ret|].
    eapply allocates_eq; [apply (lift_run _ _ _ _ (node_at_run rows cols r (c + 1) Hr ltac:(lia)))|].
    eapply Hlink; [nia|nia|apply grows_refl].
  - intros w' A L G. destruct (Z.eqb_spec (Z.of_nat r + 1) (row v)) as [Hl|Hl]; [apply allocates_ret|].
    eapply allocates_eq; [apply (lift_run _ _ _ _ (node_at_run rows cols (r + 1) c ltac:(lia) Hc))|].
    eapply Hlink; [nia|nia|exact G].
Qed.

(** The parameters of a grid that [GenerateTopology] accepts, with the first address of the /8. *)
Definition grid_ok (v : GridIsisData) : Prop :=
  1 < row v <= 255 /\ 1 < col v <= 255 /\ systemIDFirstOctet v <> "" /\ 0 < linkIP4FirstOctet v < 256 /\
  0 <= linkMultiplier v /\ nextLinkIP4ToUse v = ip_bytes (linkIP4FirstOctet v * 2 ^ 24).

Definition grid_addrs (v : GridIsisData) : Z :=
  ((col v - 1) * row v + (row v - 1) * col v) * linkMultiplier v * 2.

(** What a grid adds to the configuration. *)
Record grid_added (v : GridIsisData) (w w' : World) : Prop := {
  ga_length : length (devs w') = (length (devs w) + Z.to_nat (row v) * Z.to_nat (col v))%nat;
  ga_systems : map dev_system (devs w') = map dev_system (devs w) ++
    map (fun i => systemIDFirstOctet v +:+ systemID_tail i) (seq 0 (Z.to_nat (row v) * Z.to_nat (col v)));
  ga_addrs : linkAddrs (devs w') ≡ₚ linkAddrs (devs w) ++
    map v4text (seqZ (linkIP4FirstOctet v * 2 ^ 24) (grid_addrs v));
  ga_ip4 : ip4Names (devs w) ⊆ ip4Names (devs w');
  ga_links : exists L, links (devs w') ≡ₚ links (devs w) ++ L /\ paired L;
  ga_next : nextLinkIP4ToUse (w_grid w') = ip_bytes (linkIP4FirstOctet v * 2 ^ 24 + grid_addrs v);
  ga_grid : set_next [] (w_grid w') = set_next [] v }.

Lemma GenerateTopology_cases w : let v := w_grid w in grid_ok v ->
  if grid_addrs v <=? 2 ^ 24 then
    exists topo w', GenerateTopology w = (Ret topo, w') /\ grid_added v w w' /\
      gridNodes topo = nodes_of (Z.to_nat (row v)) (Z.to_nat (col v)) /\
      topo_devices topo = seq (length (devs w)) (Z.to_nat (row v) * Z.to_nat (col v)) /\
      topo_linkIP4FirstOctet topo = linkIP4FirstOctet v
  else exists e w', GenerateTopology w = (Fail e, w').
Proof.
  intros v (Hrow & Hcol & Hsys & Hoct & Hm & Hnext).
  set (rows := Z.to_nat (row v)). set (cols := Z.to_nat (col v)).
  assert (Z.of_nat rows = row v /\ Z.of_nat cols = col v) as [Er Ec] by (unfold rows, cols; lia).
  unfold GenerateTopology. fold v.
  destruct (Z.leb_spec (row v) 1), (Z.leb_spec (col v) 1), (Z.ltb_spec 255 (row v)), (Z.ltb_spec 255 (col v));
    try lia. cbn [orb].
  destruct (Nat.eqb_spec (String.length (systemIDFirstOctet v)) 0) as [He|_].
  { destruct (systemIDFirstOctet v); done. }
  cbv zeta. fold rows cols.
  destruct (createNodes_run v (cells rows cols) 0 w) as (xs & E & He & Hs); [rewrite cells_length; nia|].
  rewrite (bind_run _ _ _ _ _ E). rewrite cells_length in *.
  set (w1 := {| w_config := _ |}) in *.
  assert (length xs = (rows * cols)%nat) as Hxs.
  { apply (f_equal length) in Hs. by rewrite !length_map, length_seq in Hs. }
  assert (linkAddrs (devs w1) = linkAddrs (devs w) /\ links (devs w1) = links (devs w)) as [HA1 HL1].
  { cbn. unfold linkAddrs, links. rewrite !bind_app. clear -He.
    assert ((xs ≫= dev_addrs) = [] /\ (xs ≫= dev_links) = []) as [-> ->]; [|by rewrite !app_nil_r].
    induction He as [|x xs Hx He [IH1 IH2]]; [done|]. rewrite !bind_cons, IH1, IH2. unfold dev_addrs, dev_links.
    by rewrite Hx. }
  pose proof (allocates_forEach (linkIP4FirstOctet v) (linkCell v (nodes_of rows cols) (seq (length (devs w)) (rows * cols)))
    (cell_cost rows cols (linkMultiplier v)) (cells rows cols) w1) as Hall.
  specialize (Hall ltac:(intros [r c] _; unfold cell_cost; cbn [fst snd]; do 2 case_match; lia)).
  assert (allocates (linkIP4FirstOctet v) (sumZ (cell_cost rows cols (linkMultiplier v)) (cells rows cols))
    (forEach (linkCell v (nodes_of rows cols) (seq (length (devs w)) (rows * cols))) (cells rows cols)) w1) as Hal.
  { apply Hall. intros [r c] w' A L [Hr Hc]%cells_elem G. apply linkCell_allocates; try done; try congruence.
    rewrite (grows_length _ _ _ _ G). cbn. rewrite length_app. lia. }
  clear Hall. rewrite grid_cost, Er, Ec in Hal by lia.
  specialize (Hal (linkIP4FirstOctet v * 2 ^ 24) Hnext ltac:(lia)).
  replace (2 * (((col v - 1) * row v + (row v - 1) * col v) * linkMultiplier v)) with (grid_addrs v) in Hal
    by (unfold grid_addrs; lia).
  destruct (Z.leb_spec (grid_addrs v) (2 ^ 24)), (Z.leb_spec (linkIP4FirstOctet v * 2 ^ 24 + grid_addrs v)
    ((linkIP4FirstOctet v + 1) * 2 ^ 24)); try lia.
  - destruct Hal as (w2 & L & E2 & G & P & N). rewrite (bind_run _ _ _ _ _ E2).
    eexists _, w2. split; [reflexivity|]. split; [|done]. split.
    + rewrite (grows_length _ _ _ _ G). cbn. rewrite length_app. fold rows cols. lia.
    + rewrite (gr_systems _ _ _ _ G). cbn. by rewrite map_app, Hs.
    + by rewrite (gr_addrs _ _ _ _ G), HA1.
    + etransitivity; [|exact (gr_ip4 _ _ _ _ G)]. cbn. unfold ip4Names. rewrite bind_app. set_solver.
    + exists L. by rewrite (gr_links _ _ _ _ G), HL1.
    + exact N.
    + exact (gr_grid _ _ _ _ G).
  - destruct Hal as (e & w2 & A & L & E2 & G & P). exists e, w2. unfold mbind, gost_bind. by rewrite E2.
Qed.

(** ** Blocks *)

Definition block_ok (b : ISISOTGBlock) : Prop :=
  1 < b_Row b <= 255 /\ 1 < b_Col b <= 255 /\ b_ISISIDFirstOct b <> "" /\ 0 < b_LinkIP4FirstOct b < 256 /\
  0 <= b_LinkMultiplier b.

(** The first address of the block's /8. *)
Definition block_start (b : ISISOTGBlock) : Z := b_LinkIP4FirstOct b * 2 ^ 24.

Definition octet_text_ok (o : Z) : bool :=
  bool_decide (ParseIP (Itoa o +:+ ".0.0.0") = Some (ip_bytes (o * 2 ^ 24))).

Lemma octet_text_parses o : 0 <= o < 256 -> ParseIP (Itoa o +:+ ".0.0.0") = Some (ip_bytes (o * 2 ^ 24)).
Proof.
  intros Ho. assert (octet_text_ok o = true) as H by (apply byte_cases; [by vm_compute|done]).
  unfold octet_text_ok in H. by apply bool_decide_eq_true in H.
Qed.

Lemma blockGrid_fields b : block_ok b -> let v := blockGrid b in
  grid_ok v /\ row v = b_Row b /\ col v = b_Col b /\ systemIDFirstOctet v = b_ISISIDFirstOct b /\
  linkIP4FirstOctet v = b_LinkIP4FirstOct b /\ grid_addrs v = linkCount b.
Proof.
  intros (Hr & Hc & Hs & Ho & Hm) v.
  assert (row v = b_Row b /\ col v = b_Col b /\ systemIDFirstOctet v = b_ISISIDFirstOct b /\
    linkIP4FirstOctet v = b_LinkIP4FirstOct b /\ linkMultiplier v = b_LinkMultiplier b /\
    nextLinkIP4ToUse v = default [] (ParseIP (Itoa (b_LinkIP4FirstOct b) +:+ ".0.0.0")))
    as (Er & Ec & Es & Eo & Em & En).
  { unfold v, blockGrid. by destruct (String.eqb (pfx_FirstOctet (b_V4Pfx b)) ""),
      (String.eqb (pfx_FirstOctet (b_V6Pfx b)) ""). }
  rewrite octet_text_parses in En by lia. cbn [default from_option] in En. unfold id in En.
  unfold grid_ok, grid_addrs, linkCount. rewrite Er, Ec, Es, Eo, Em, En. split_and!; done || lia.
Qed.

(** What a block adds to the configuration: the addresses of the links of the
    grid, and two of the link to the emulated router. *)
Record block_added (b : ISISOTGBlock) (top top' : Config) : Prop := {
  ba_length : (length (cfg_devices top) <= length (cfg_devices top'))%nat;
  ba_systems : map dev_system (cfg_devices top') = map dev_system (cfg_devices top) ++
    map (fun i => b_ISISIDFirstOct b +:+ systemID_tail i) (seq 0 (Z.to_nat (b_Row b) * Z.to_nat (b_Col b)));
  ba_addrs : linkAddrs (cfg_devices top') ≡ₚ linkAddrs (cfg_devices top) ++
    map v4text (seqZ (block_start b) (linkCount b + 2));
  ba_ip4 : ip4Names (cfg_devices top) ⊆ ip4Names (cfg_devices top');
  ba_links : exists L, links (cfg_devices top') ≡ₚ links (cfg_devices top) ++ L /\ paired L }.

Lemma Connect_run b topo idx w w1 : block_ok b -> let v := blockGrid b in
  grid_added v w w1 -> linkCount b <= 2 ^ 24 -> (idx < length (devs w))%nat ->
  gridNodes topo = nodes_of (Z.to_nat (row v)) (Z.to_nat (col v)) ->
  topo_devices topo = seq (length (devs w)) (Z.to_nat (row v) * Z.to_nat (col v)) ->
  topo_linkIP4FirstOctet topo = linkIP4FirstOctet v ->
  if linkCount b + 2 <=? 2 ^ 24 then
    exists w', Connect topo idx 0 1 w1 = (Ret tt, w') /\ block_added b (w_config w) (w_config w')
  else exists e w', Connect topo idx 0 1 w1 = (Fail e, w').
Proof.
  intros Hb v Ha Hle Hidx Hn Hd Ho. destruct (blockGrid_fields b Hb) as (Hok & Er & Ec & Es & Eo & Ea). fold v in Hok, Er, Ec, Es, Eo, Ea.
  destruct Hb as (Hr & Hc & Hs & Hoct & Hm).
  assert (Connect topo idx 0 1 w1 = createLink idx (length (devs w) + 1) (length (topo_devices topo)) 1
    (linkIP4FirstOctet v) (topo_linkIP6FirstOctet topo) 1 w1) as ->.
  { unfold Connect. rewrite Hn, Hd, Ho.
    rewrite (lift_run _ _ _ _ (node_at_run (Z.to_nat (row v)) (Z.to_nat (col v)) 0 1 ltac:(lia) ltac:(lia))).
    by rewrite (lift_run _ _ _ _ (device_of_run (length (devs w)) (Z.to_nat (row v) * Z.to_nat (col v)) 1 ltac:(nia))). }
  pose proof (createLink_allocates (linkIP4FirstOctet v) ltac:(lia) idx (length (devs w) + 1)
    (length (topo_devices topo)) 1 (topo_linkIP6FirstOctet topo) 1 w1) as Hal.
  pose proof (ga_length _ _ _ Ha) as Hlen. change (Z.max 0 1) with 1 in Hal.
  specialize (Hal ltac:(apply lookup_lt_is_Some; nia) ltac:(apply lookup_lt_is_Some; nia) _ (ga_next _ _ _ Ha)).
  rewrite Eo, Ea in *. assert (0 <= linkCount b) as H0 by (unfold linkCount; nia).
  specialize (Hal ltac:(lia)). change (2 * 1) with 2 in Hal.
  destruct (Z.leb_spec (linkCount b + 2) (2 ^ 24)), (Z.leb_spec (b_LinkIP4FirstOct b * 2 ^ 24 + linkCount b + 2)
    ((b_LinkIP4FirstOct b + 1) * 2 ^ 24)); try lia.
  - destruct Hal as (w' & L & E & G & P & N). exists w'. split; [done|].
    destruct (ga_links _ _ _ Ha) as (L0 & HL0 & P0). split.
    + rewrite (grows_length _ _ _ _ G). lia.
    + rewrite (gr_systems _ _ _ _ G), (ga_systems _ _ _ Ha). by rewrite Es, Er, Ec.
    + rewrite (gr_addrs _ _ _ _ G), (ga_addrs _ _ _ Ha), Eo, Ea, <- app_assoc, <- map_app. unfold block_start.
      by rewrite <- seqZ_app by lia.
    + etransitivity; [exact (ga_ip4 _ _ _ Ha)|exact (gr_ip4 _ _ _ _ G)].
    + exists (L0 ++ L). split; [|by apply paired_app]. by rewrite (gr_links _ _ _ _ G), HL0, app_assoc.
  - destruct Hal as (e & w' & A & L & E & _). eauto.
Qed.

Lemma createISISBlock_cases b idx top : block_ok b -> (idx < length (cfg_devices top))%nat ->
  if linkCount b + 2 <=? 2 ^ 24 then
    exists top', createISISBlock b idx top = (Ret tt, top') /\ block_added b top top'
  else exists top', createISISBlock b idx top = (Panic, top').
Proof.
  intros Hb Hidx. destruct (blockGrid_fields b Hb) as (Hok & Er & Ec & Es & Eo & Ea).
  pose proof (GenerateTopology_cases {| w_config := top; w_grid := blockGrid b |} Hok) as H.
  cbn [w_grid w_config] in H. unfold createISISBlock. rewrite Ea in H.
  destruct (Z.leb_spec (linkCount b) (2 ^ 24)) as [Hle|Hgt].
  - destruct H as (topo & w1 & E & Ha & Hn & Hd & Ho). rewrite E.
    destruct (lookup_lt_is_Some_2 (devs w1) idx) as [y Hy]; [pose proof (ga_length _ _ _ Ha); cbn in *; lia|].
    rewrite Hy. pose proof (Connect_run b topo idx _ w1 Hb Ha Hle Hidx Hn Hd Ho) as HC.
    destruct (linkCount b + 2 <=? 2 ^ 24).
    + destruct HC as (w' & -> & HB). by exists (w_config w').
    + destruct HC as (e & w' & ->). by exists (w_config w').
  - destruct H as (e & w' & ->). destruct (Z.leb_spec (linkCount b + 2) (2 ^ 24)); [lia|]. by exists (w_config w').
Qed.

(** ** Flows *)

(** The destination addresses of a flow. *)
Definition flow_dsts (f : Flow) : list string :=
  match ParseIP (fst (fl_dst f)) ≫= To4 with
  | Some ip => map (fun i => v4text (be_val ip + i)) (seqZ 0 (snd (fl_dst f)))
  | None => []
  end.

(** [createISISBlock] does not run out of addresses. *)
Definition block_fits (b : ISISOTGBlock) : Prop := block_ok b /\ linkCount b + 2 <= 2 ^ 24.

Lemma linkCount_nonneg b : block_ok b -> 0 <= linkCount b.
Proof. intros (? & ? & ? & ? & ?). unfold linkCount. nia. Qed.

Lemma block_flow_dsts src dst b : block_fits b ->
  createAllTrafficFlows src dst [b] ≫= flow_dsts = map v4text (seqZ (block_start b) (linkCount b)).
Proof.
  intros [Hb Hf]. pose proof (linkCount_nonneg b Hb) as H0. destruct Hb as (Hr & Hc & Hs & Ho & Hm).
  cbn [createAllTrafficFlows map]. rewrite bind_cons, app_nil_r. unfold flow_dsts. cbn [fl_dst fst snd createAppendIPV4Flow].
  assert (ParseIP (Itoa (b_LinkIP4FirstOct b) +:+ ".0.0.0") ≫= To4 = Some (be_bytes 4 (block_start b))) as ->.
  { rewrite octet_text_parses, ip_bytes_v4 by lia. done. }
  rewrite be_val_bytes. change (256 ^ Z.of_nat 4) with (2 ^ 32). rewrite Z.mod_small by (unfold block_start; lia).
  unfold uint32. rewrite Z.mod_small by lia. rewrite <- (map_map (Z.add (block_start b)) v4text).
  f_equal. rewrite <- (Z.add_0_r (block_start b)) at 2. apply fmap_add_seqZ.
Qed.

(** ** Configurations that grow *)

Record top_le (top top' : Config) : Prop := {
  tl_length : (length (cfg_devices top) <= length (cfg_devices top'))%nat;
  tl_ip4 : ip4Names (cfg_devices top) ⊆ ip4Names (cfg_devices top');
  tl_addrs : linkAddrs (cfg_devices top) ⊆ linkAddrs (cfg_devices top') }.

#[export] Instance top_le_preorder : PreOrder top_le.
Proof. split; [by intros top; split|]. intros t1 t2 t3 [] []. split; [lia|set_solver..]. Qed.

Lemma forEach_grows {X} (body : X -> gost Config unit) (Q : X -> Config -> Prop) l : forall top,
  (forall x t t', Q x t -> top_le t t' -> Q x t') ->
  (forall x t, x ∈ l -> top_le top t -> exists t', body x t = (Ret tt, t') /\ top_le t t' /\ Q x t') ->
  exists top', forEach body l top = (Ret tt, top') /\ top_le top top' /\ forall x, x ∈ l -> Q x top'.
Proof.
  induction l as [|x l IH]; intros top HQ Hb.
  { exists top. split; [done|]. split; [done|]. intros x Hx. by apply elem_of_nil in Hx. }
  destruct (Hb x top) as (t1 & E1 & L1 & Q1); [by left|done|].
  destruct (IH t1 HQ) as (t2 & E2 & L2 & Q2).
  { intros y t Hy Ht. apply Hb; [by right|by etransitivity]. }
  exists t2. cbn [forEach]. rewrite (bind_run _ _ _ _ _ E1). split; [done|]. split; [by etransitivity|].
  intros y [->|Hy]%elem_of_cons; [by eapply HQ|by apply Q2].
Qed.

(** What the configuration has for an emulated router: the IPv4 address a flow
    names, and the link addresses of its blocks. *)
Definition router_in (isis : bool) (er : AteEmulatedRouterData) (top : Config) : Prop :=
  er_Name er +:+ ".Eth1" +:+ ".IPv4" ∈ ip4Names (cfg_devices top) /\
  (isis = true -> forall b, b ∈ er_ISISBlocks er ->
    map v4text (seqZ (block_start b) (linkCount b)) ⊆ linkAddrs (cfg_devices top)).

Lemma router_in_mono isis er t t' : router_in isis er t -> top_le t t' -> router_in isis er t'.
Proof.
  intros [H1 H2] [_ Ht1 Ht2]. split; [by apply Ht1|].
  intros Hi b Hb. etransitivity; [by apply H2|done].
Qed.

Lemma block_added_le b top top' : block_ok b -> block_added b top top' ->
  top_le top top' /\ map v4text (seqZ (block_start b) (linkCount b)) ⊆ linkAddrs (cfg_devices top').
Proof.
  intros Hb [Hl _ Ha Hi _]. pose proof (linkCount_nonneg b Hb). split; [split; [done|done|]|].
  - intros y Hy. rewrite Ha. set_solver.
  - intros y Hy. rewrite Ha, seqZ_app, map_app by lia. set_solver.
Qed.

Lemma configureRouter_run isis lag er top : (isis = true -> Forall block_fits (er_ISISBlocks er)) ->
  exists top', configureRouter isis lag er top = (Ret tt, top') /\ top_le top top' /\ router_in isis er top'.
Proof.
  intros Hb. unfold configureRouter. rewrite (bind_run getState _ top top top eq_refl).
  set (name := er_Name er +:+ ".Eth1" +:+ ".IPv4").
  assert (forall x, dev_ethernets x = dev_ethernets (emulatedRouter lag er) ->
    top_le top (set_devices top (cfg_devices top ++ [x])) /\
    name ∈ ip4Names (cfg_devices (set_devices top (cfg_devices top ++ [x])))) as Hadd.
  { intros x Hx. split; [split|]; cbn [set_devices cfg_devices].
    - rewrite length_app. lia.
    - unfold ip4Names. rewrite bind_app. set_solver.
    - unfold linkAddrs. rewrite bind_app. set_solver.
    - unfold ip4Names. rewrite bind_app, bind_cons. apply elem_of_app. right. unfold dev_ip4Names. rewrite Hx. cbn. by left. }
  destruct isis.
  - specialize (Hb eq_refl). cbn [configureOTGISIS emulatedRouter dev_ethernets].
    set (x := {| dev_name := _ |}). destruct (Hadd x eq_refl) as [L1 N1].
    rewrite (lift_run _ x _ _ eq_refl).
    rewrite (bind_run _ _ top tt (set_devices top (cfg_devices top ++ [x])) eq_refl).
    destruct (forEach_grows (fun b => createISISBlock b (length (cfg_devices top)))
      (fun b t => map v4text (seqZ (block_start b) (linkCount b)) ⊆ linkAddrs (cfg_devices t))
      (er_ISISBlocks er) (set_devices top (cfg_devices top ++ [x]))) as (t' & E & L2 & Q).
    + intros b t t' Hq [_ _ Ht]. by etransitivity.
    + intros b t Hbl [Ht _ _]. rewrite Forall_forall in Hb. destruct (Hb b Hbl) as [Hok Hf].
      cbn [set_devices cfg_devices] in Ht. rewrite length_app in Ht. cbn [length] in Ht.
      pose proof (createISISBlock_cases b (length (cfg_devices top)) t Hok ltac:(lia)) as HC.
      destruct (Z.leb_spec (linkCount b + 2) (2 ^ 24)); [|lia]. destruct HC as (t' & E & HA).
      exists t'. split; [done|]. by apply block_added_le.
    + exists t'. split; [exact E|]. split; [by etransitivity|]. split; [by apply L2|by intros _].
  - destruct (Hadd (emulatedRouter lag er) eq_refl) as [L1 N1]. eexists. split; [reflexivity|]. by split.
Qed.

Lemma ConfigureATE_run ports d :
  (a_ConfigureISIS d = true -> forall l er, l ∈ a_Lags d -> er ∈ l_Erouters l -> Forall block_fits (er_ISISBlocks er)) ->
  exists top, ConfigureATE ports d = Ret top /\
    forall l er, l ∈ a_Lags d -> er ∈ l_Erouters l -> router_in (a_ConfigureISIS d) er top.
Proof.
  intros Hb. unfold ConfigureATE. set (lags := zip _ _).
  destruct (forEach_grows (configureLag ports (a_ConfigureISIS d))
    (fun il t => forall er, er ∈ l_Erouters (snd il) -> router_in (a_ConfigureISIS d) er t) lags NewConfig)
    as (top & E & _ & HQ).
  - intros il t t' Hq Ht er Her. eapply router_in_mono; eauto.
  - intros [i l] t Hl%elem_of_zip_r _. cbn [configureLag snd].
    destruct (forEach_grows (configureRouter (a_ConfigureISIS d) (l_Name l)) (router_in (a_ConfigureISIS d))
      (l_Erouters l) (addLag l (lagMembers ports i l) t)) as (t' & E & L & Q).
    + apply router_in_mono.
    + intros er t1 Her _. apply configureRouter_run. intros Hi. by eapply Hb.
    + exists t'. split; [exact E|]. split; [|exact Q]. by destruct L.
  - rewrite E. eexists. split; [reflexivity|]. intros l er Hl Her.
    assert (exists i, (i, l) ∈ lags) as [i Hi]; [|exact (HQ _ Hi er Her)].
    apply list_elem_of_lookup in Hl as [i Hi]. exists i. apply list_elem_of_lookup. exists i.
    unfold lags. rewrite lookup_zip_with, lookup_seq_lt by (by eapply lookup_lt_Some). cbn. by rewrite Hi.
Qed.

(** * Properties *)

Lemma seqZ_text_NoDup v n : 0 <= v -> v + n <= 2 ^ 32 -> NoDup (map v4text (seqZ v n)).
Proof.
  intros Hv Hn. apply (NoDup_fmap_2_strong v4text); [|apply NoDup_seqZ].
  intros x y Hx%elem_of_seqZ Hy%elem_of_seqZ. apply v4text_inj; lia.
Qed.

(** C32: [createISISBlock] on a block with valid parameters: when the links of
    the grid and the link to the emulated router fit the block's /8, it returns,
    the simulated links come in pairs of opposite ends, no link address is used
    twice, and the link addresses it adds are the destinations of the flow that
    [createAllTrafficFlows] makes for the block plus the two of the link to the
    router, outside the grid; when they do not fit, the test fails. *)
Theorem block_addresses_are_flow_destinations src dst b idx top :
  block_ok b -> (idx < length (cfg_devices top))%nat ->
  if linkCount b + 2 <=? 2 ^ 24 then
    exists top' router L, createISISBlock b idx top = (Ret tt, top') /\
      let dsts := createAllTrafficFlows src dst [b] ≫= flow_dsts in
      linkAddrs (cfg_devices top') ≡ₚ linkAddrs (cfg_devices top) ++ dsts ++ router /\
      length router = 2%nat /\ NoDup (dsts ++ router) /\
      links (cfg_devices top') ≡ₚ links (cfg_devices top) ++ L /\ paired L
  else exists top', createISISBlock b idx top = (Panic, top').
Proof.
  intros Hb Hidx. pose proof (createISISBlock_cases b idx top Hb Hidx) as H.
  pose proof (linkCount_nonneg b Hb) as H0.
  destruct (Z.leb_spec (linkCount b + 2) (2 ^ 24)) as [Hf|]; [|done].
  destruct H as (top' & E & HA). destruct (ba_links _ _ _ HA) as (L & HL & P).
  exists top', (map v4text (seqZ (block_start b + linkCount b) 2)), L. split; [done|]. cbv zeta.
  rewrite block_flow_dsts by done. rewrite <- map_app, <- seqZ_app by lia. split; [exact (ba_addrs _ _ _ HA)|].
  split; [done|]. split; [|done]. destruct Hb as (_ & _ & _ & Ho & _).
  apply seqZ_text_NoDup; unfold block_start; lia.
Qed.

Definition sample_block : ISISOTGBlock := {|
  b_Name := "block1"; b_Col := 2; b_Row := 3; b_ISISIDFirstOct := "64"; b_LinkIP4FirstOct := 100;
  b_V4Pfx := {| pfx_FirstOctet := "101"; pfx_Len := 32; pfx_Count := 1 |};
  b_V6Pfx := {| pfx_FirstOctet := ""; pfx_Len := 0; pfx_Count := 0 |}; b_LinkMultiplier := 2 |}.
Definition sample_router : AteEmulatedRouterData := {|
  er_Name := "R1"; er_DUTIPv4 := "192.0.2.1"; er_ATEIPv4 := "192.0.2.2"; er_LinkIPv4PLen := 30;
  er_DUTIPv6 := "2001:db8::1"; er_ATEIPv6 := "2001:db8::2"; er_LinkIPv6PLen := 126;
  er_EthMAC := "02:11:01:00:00:04"; er_ISISAreaAddress := "490001"; er_ISISSysID := "640000000001";
  er_VlanID := 10; er_ISISBlocks := [sample_block]; er_ISISLSPRefreshInterval := 0; er_ISISSPLifetime := 0 |}.
Definition sample_lag : ATELagData := {|
  l_Name := "lag1"; l_Mac := "02:11:01:00:00:01";
  l_Ports := [ {| ap_Mac := "02:11:01:00:00:02"; ap_OndatraPortIdx := 0 |};
               {| ap_Mac := "02:11:01:00:00:03"; ap_OndatraPortIdx := 1 |} ];
  l_Erouters := [sample_router] |}.
Definition sample_ate : ATEData := {|
  a_Lags := [sample_lag]; a_TrafficFlowsMap := [(sample_router, [sample_router])]; a_ConfigureISIS := true |}.

Lemma sample_block_ok : block_ok sample_block.
Proof. unfold block_ok. cbn. split_and!; done || lia. Qed.

Lemma block_addresses_witness :
  exists top' router L,
    createISISBlock sample_block 0 (set_devices NewConfig [emulatedRouter "lag1" sample_router]) = (Ret tt, top') /\
    let dsts := createAllTrafficFlows sample_router sample_router [sample_block] ≫= flow_dsts in
    linkAddrs (cfg_devices top') ≡ₚ ["192.0.2.2"] ++ dsts ++ router /\
    length router = 2%nat /\ NoDup (dsts ++ router) /\
    links (cfg_devices top') ≡ₚ [] ++ L /\ paired L.
Proof.
  exact (block_addresses_are_flow_destinations sample_router sample_router sample_block 0
    (set_devices NewConfig [emulatedRouter "lag1" sample_router]) sample_block_ok (Nat.lt_0_succ 0)).
Defined.

Lemma str_app_inj_length a b c d : String.length a = String.length b -> a +:+ c = b +:+ d -> a = b.
Proof.
  revert b. induction a as [|x a IH]; intros [|y b] Hl E; try discriminate Hl; [done|].
  rewrite !str_app_cons in E. injection E as -> E. injection Hl as Hl. f_equal. by apply IH.
Qed.

Lemma systemIDs_NoDup oct n : Z.of_nat n <= 65536 -> NoDup (map (fun i => oct +:+ systemID_tail i) (seq 0 n)).
Proof.
  intros Hn. apply (NoDup_fmap_2_strong (fun i => oct +:+ systemID_tail i)); [|apply NoDup_seq].
  intros i j Hi%elem_of_seq Hj%elem_of_seq E. apply (inj (String.app oct)) in E.
  destruct (systemID_tail_facts i) as [_ Vi]; [lia|]. destruct (systemID_tail_facts j) as [_ Vj]; [lia|].
  rewrite E, Vj in Vi. injection Vi as Vi. lia.
Qed.

(** The system IDs that a block gives to its routers are twelve digits when
    the block's octet has two, are pairwise different, and are different from
    those of a block with another octet. *)
Theorem block_systemIDs_unique b1 b2 idx1 idx2 top t1 t2 :
  block_fits b1 -> block_fits b2 -> String.length (b_ISISIDFirstOct b1) = 2%nat ->
  String.length (b_ISISIDFirstOct b2) = 2%nat -> b_ISISIDFirstOct b1 <> b_ISISIDFirstOct b2 ->
  (idx1 < length (cfg_devices top))%nat -> (idx2 < length (cfg_devices t1))%nat ->
  createISISBlock b1 idx1 top = (Ret tt, t1) -> createISISBlock b2 idx2 t1 = (Ret tt, t2) ->
  exists ids1 ids2, map dev_system (cfg_devices t2) = map dev_system (cfg_devices top) ++ ids1 ++ ids2 /\
    Z.of_nat (length ids1) = b_Row b1 * b_Col b1 /\ Z.of_nat (length ids2) = b_Row b2 * b_Col b2 /\
    NoDup (ids1 ++ ids2) /\ Forall (fun id => String.length id = 12%nat) (ids1 ++ ids2).
Proof.
  intros [H1 F1] [H2 F2] L1 L2 Hne Hi1 Hi2 E1 E2.
  pose proof (createISISBlock_cases b1 idx1 top H1 Hi1) as C1. destruct (Z.leb_spec (linkCount b1 + 2) (2 ^ 24)); [|lia].
  pose proof (createISISBlock_cases b2 idx2 t1 H2 Hi2) as C2. destruct (Z.leb_spec (linkCount b2 + 2) (2 ^ 24)); [|lia].
  destruct C1 as (t1' & E1' & A1), C2 as (t2' & E2' & A2). rewrite E1 in E1'. rewrite E2 in E2'.
  injection E1' as <-. injection E2' as <-.
  destruct H1 as (R1 & K1 & _), H2 as (R2 & K2 & _).
  assert (forall b i, String.length (b_ISISIDFirstOct b) = 2%nat -> 1 < b_Row b <= 255 -> 1 < b_Col b <= 255 ->
    i ∈ seq 0 (Z.to_nat (b_Row b) * Z.to_nat (b_Col b)) -> String.length (b_ISISIDFirstOct b +:+ systemID_tail i) = 12%nat) as Hlen.
  { intros b i Hl Hr Hc Hi%elem_of_seq. rewrite str_length_app, Hl.
    destruct (systemID_tail_facts i) as [-> _]; [nia|done]. }
  eexists _, _. rewrite (ba_systems _ _ _ A2), (ba_systems _ _ _ A1), <- app_assoc. split; [reflexivity|].
  rewrite !length_map, !length_seq. split; [lia|]. split; [lia|]. split.
  - apply NoDup_app. split; [apply systemIDs_NoDup; nia|]. split; [|apply systemIDs_NoDup; nia].
    intros x (i & -> & Hi)%list_elem_of_fmap (j & E & Hj)%list_elem_of_fmap. apply Hne.
    eapply str_app_inj_length; [|exact E]. congruence.
  - apply Forall_app. split; apply Forall_forall; intros x (i & -> & Hi)%list_elem_of_fmap; by apply Hlen.
Qed.

Definition second_block : ISISOTGBlock := {|
  b_Name := "block2"; b_Col := 2; b_Row := 2; b_ISISIDFirstOct := "65"; b_LinkIP4FirstOct := 110;
  b_V4Pfx := {| pfx_FirstOctet := ""; pfx_Len := 0; pfx_Count := 0 |};
  b_V6Pfx := {| pfx_FirstOctet := "2001"; pfx_Len := 64; pfx_Count := 5 |}; b_LinkMultiplier := 1 |}.
Definition sample_top : Config := set_devices NewConfig [emulatedRouter "lag1" sample_router].

Lemma block_systemIDs_witness :
  let t1 := snd (createISISBlock sample_block 0 sample_top) in
  let t2 := snd (createISISBlock second_block 0 t1) in
  exists ids1 ids2, map dev_system (cfg_devices t2) = [""] ++ ids1 ++ ids2 /\
    Z.of_nat (length ids1) = 6 /\ Z.of_nat (length ids2) = 4 /\
    NoDup (ids1 ++ ids2) /\ Forall (fun id => String.length id = 12%nat) (ids1 ++ ids2).
Proof.
  apply (block_systemIDs_unique sample_block second_block 0 0 sample_top
    (snd (createISISBlock sample_block 0 sample_top))).
  - split; [exact sample_block_ok|]. vm_compute. congruence.
  - split; [|vm_compute; congruence]. unfold block_ok. cbn. split_and!; done || lia.
  - reflexivity.
  - reflexivity.
  - cbn. congruence.
  - cbn. lia.
  - vm_compute. lia.
  - vm_compute. reflexivity.
  - vm_compute. reflexivity.
Defined.

(** For every map of traffic flows between routers of the LAGs, in every
    order: [ConfigureATE] returns when the blocks fit their /8, and each flow
    that [AppendTrafficFlows] makes is sent and received by IPv4 addresses of the
    configuration and, with IS-IS configured, every destination of the flow is an
    address of the configuration. *)
Theorem flows_match_configuration ports d :
  (a_ConfigureISIS d = true ->
   forall l er, l ∈ a_Lags d -> er ∈ l_Erouters l -> Forall block_fits (er_ISISBlocks er)) ->
  (forall src dsts er, (src, dsts) ∈ a_TrafficFlowsMap d -> er ∈ src :: dsts ->
   exists l, l ∈ a_Lags d /\ er ∈ l_Erouters l) ->
  exists top, ConfigureATE ports d = Ret top /\
    forall f, f ∈ AppendTrafficFlows d [] ->
      fl_tx f ++ fl_rx f ⊆ ip4Names (cfg_devices top) /\
      (a_ConfigureISIS d = true -> flow_dsts f ⊆ linkAddrs (cfg_devices top)).
Proof.
  intros Hb Hm. destruct (ConfigureATE_run ports d Hb) as (top & E & HR). exists top. split; [done|].
  intros f Hf. unfold AppendTrafficFlows in Hf. rewrite app_nil_l in Hf.
  apply list_elem_of_bind in Hf as ([src dsts] & Hf & Hsd). cbn [fst snd] in Hf.
  apply list_elem_of_bind in Hf as (dst & Hf & Hdst).
  apply list_elem_of_fmap in Hf as (b & -> & Hbl).
  destruct (Hm src dsts src Hsd ltac:(by left)) as (l1 & Hl1 & Hs).
  destruct (Hm src dsts dst Hsd ltac:(by right)) as (l2 & Hl2 & Hd).
  destruct (HR l1 src Hl1 Hs) as [Hsrc _], (HR l2 dst Hl2 Hd) as [Hdst' Hblocks].
  split.
  - cbn [fl_tx fl_rx createAppendIPV4Flow app]. rewrite !str_app_assoc.
    intros y [->|[->|[]%elem_of_nil]%elem_of_cons]%elem_of_cons; done.
  - intros Hi. specialize (Hb Hi l2 dst Hl2 Hd). rewrite Forall_forall in Hb.
    pose proof (block_flow_dsts src dst b (Hb b Hbl)) as Hfd.
    cbn [createAllTrafficFlows map] in Hfd. rewrite bind_cons, app_nil_r in Hfd. rewrite Hfd. by apply Hblocks.
Qed.

Definition sample_port (name : string) : OndatraPort := {| op_ID := name; op_100GBASEFR := true |}.

Lemma flows_match_configuration_witness :
  exists top, ConfigureATE sample_port sample_ate = Ret top /\
    forall f, f ∈ AppendTrafficFlows sample_ate [] ->
      fl_tx f ++ fl_rx f ⊆ ip4Names (cfg_devices top) /\
      (a_ConfigureISIS sample_ate = true -> flow_dsts f ⊆ linkAddrs (cfg_devices top)).
Proof.
  apply (flows_match_configuration sample_port sample_ate).
  - intros _ l er ->%list_elem_of_singleton ->%list_elem_of_singleton. apply Forall_singleton.
    split; [exact sample_block_ok|]. vm_compute. congruence.
  - intros src dsts er [= -> ->]%list_elem_of_singleton Her. exists sample_lag. split; [by left|].
    set_solver.
Defined.

(** The Ethernet interfaces of the member ports of a LAG all have the same
    name, made of the LAG and its index, so the names of a LAG of two ports are
    not unique. *)
Theorem lag_members_share_name ports i l :
  map (fun m => lp_ethName (snd m)) (lagMembers ports i l) =
  replicate (length (l_Ports l)) (l_Name l +:+ "." +:+ Itoa (Z.of_nat i + 1)).
Proof. unfold lagMembers. rewrite map_map. induction (l_Ports l) as [|p ps IH]; [done|]. cbn. by f_equal. Qed.
