(* ===== verification/VrfPolicy.v ===== *)
(** VRF selection policies ([src/internal/vrfpolicy/vrfpolicy.go]): the two
    policy-forwarding tables the tests of traffic engineering install, and what
    they decide for a packet. *)
From stdpp Require Import base list gmap sets strings sorting.
From Stdlib Require Import ZArith Lia.
From S2P Require Import Prelude GoStrings Net Deviations.
Open Scope Z_scope.

(** * Constants and rule data *)

Definition VRFPolicyW : string := "vrf_selection_policy_w".
Definition VRFPolicyC : string := "vrf_selection_policy_c".
Definition niDecapTeVrf : string := "DECAP_TE_VRF".
Definition niEncapTeVrfA : string := "ENCAP_TE_VRF_A".
Definition niEncapTeVrfB : string := "ENCAP_TE_VRF_B".
Definition niEncapTeVrfC : string := "ENCAP_TE_VRF_C".
Definition niEncapTeVrfD : string := "ENCAP_TE_VRF_D".
Definition niRepairVrf : string := "REPAIR_VRF".
Definition niDefault : string := "DEFAULT".
Definition dscpEncapA1 : Z := 10.
Definition dscpEncapA2 : Z := 18.
Definition dscpEncapB1 : Z := 20.
Definition dscpEncapB2 : Z := 28.
Definition ipv4OuterSrc111WithMask : string := "198.51.100.111/32".
Definition ipv4OuterSrc222WithMask : string := "198.51.100.222/32".
Definition niTeVrf111 : string := "TE_VRF_111".
Definition niTeVrf222 : string := "TE_VRF_222".

(** A nil [dscpSet] is the empty list, the zero protocol stands for none. *)
Record ipInfo := { protocol : Z; dscpSet : list Z; sourceAddr : string }.
Record action := {
  decapNI : string; postDecapNI : string; decapFallbackNI : string; networkInstance : string }.
Record policyFwRule := { seqID : Z; ipv4 : option ipInfo; ipv6 : option ipInfo; rule_action : action }.

(** * The OpenConfig tree: the leaves that the code sets *)

Record OcIp := { DscpSet : list Z; Protocol : option Z; SourceAddress : option string }.
Inductive Ethertype := ETHERTYPE_IPV4 | ETHERTYPE_IPV6.
Record OcAction := {
  DecapNetworkInstance : option string;
  PostDecapNetworkInstance : option string;
  DecapFallbackNetworkInstance : option string;
  NetworkInstance : option string }.
Record Rule := {
  r_Ipv4 : option OcIp;
  r_Ipv6 : option OcIp;
  r_L2 : option Ethertype;
  r_Action : option OcAction }.

Definition emptyIp : OcIp := {| DscpSet := []; Protocol := None; SourceAddress := None |}.
Definition emptyAction : OcAction :=
  {| DecapNetworkInstance := None; PostDecapNetworkInstance := None; DecapFallbackNetworkInstance := None;
     NetworkInstance := None |}.
Definition emptyRule : Rule := {| r_Ipv4 := None; r_Ipv6 := None; r_L2 := None; r_Action := None |}.

Inductive Policy_Type := VRF_SELECTION_POLICY.
Record Policy := { p_Type : option Policy_Type; p_Rule : gmap Z Rule }.
Record InterfaceRef := { ref_Interface : string; ref_Subinterface : Z }.
Record PfInterface := { ApplyVrfSelectionPolicy : option string; pf_InterfaceRef : option InterfaceRef }.
Record PolicyForwarding := { pf_Policy : gmap string Policy; pf_Interface : gmap string PfInterface }.

Definition GetOrCreateRule (p : Policy) (k : Z) : Rule := default emptyRule (p_Rule p !! k).
Definition set_rule (p : Policy) (k : Z) (r : Rule) : Policy :=
  {| p_Type := p_Type p; p_Rule := <[k := r]> (p_Rule p) |}.

(** ** buildVRFSelectionPolicy *)

(** [if s != "" { field = ygot.String(s) }]. *)
Definition set_string (s : string) (field : option string) : option string :=
  if String.eqb s "" then field else Some s.

(** The body of the loop; a rule with neither part dereferences nil. *)
Definition addRule (niPf : Policy) (pfRule : policyFwRule) : go Policy :=
  let pfR := GetOrCreateRule niPf (seqID pfRule) in
  let setDscp (l : list Z) (i : OcIp) := match l with [] => DscpSet i | _ => l end in
  pfR ← match ipv4 pfRule with
        | Some v4 =>
            let i := default emptyIp (r_Ipv4 pfR) in
            Ret {| r_Ipv4 := Some {| DscpSet := setDscp (dscpSet v4) i;
                                     Protocol := if protocol v4 =? 0 then Protocol i else Some (protocol v4);
                                     SourceAddress := set_string (sourceAddr v4) (SourceAddress i) |};
                   r_Ipv6 := r_Ipv6 pfR; r_L2 := r_L2 pfR; r_Action := r_Action pfR |}
        | None =>
            match ipv6 pfRule with
            | None => Panic
            | Some v6 =>
                let i := default emptyIp (r_Ipv6 pfR) in
                Ret {| r_Ipv4 := r_Ipv4 pfR;
                       r_Ipv6 := Some {| DscpSet := setDscp (dscpSet v6) i; Protocol := Protocol i;
                                         SourceAddress := SourceAddress i |};
                       r_L2 := r_L2 pfR; r_Action := r_Action pfR |}
            end
        end;
  let a := default emptyAction (r_Action pfR) in
  let act := rule_action pfRule in
  Ret (set_rule niPf (seqID pfRule) {|
    r_Ipv4 := r_Ipv4 pfR; r_Ipv6 := r_Ipv6 pfR; r_L2 := r_L2 pfR;
    r_Action := Some {|
      DecapNetworkInstance := set_string (decapNI act) (DecapNetworkInstance a);
      PostDecapNetworkInstance := set_string (postDecapNI act) (PostDecapNetworkInstance a);
      DecapFallbackNetworkInstance := set_string (decapFallbackNI act) (DecapFallbackNetworkInstance a);
      NetworkInstance := set_string (networkInstance act) (NetworkInstance a) |} |}).

Definition buildVRFSelectionPolicy (policyName : string) (pfRules : list policyFwRule) : go PolicyForwarding :=
  niPf ← foldM addRule {| p_Type := Some VRF_SELECTION_POLICY; p_Rule := ∅ |} pfRules;
  Ret {| pf_Policy := {[ policyName := niPf ]}; pf_Interface := ∅ |}.

(** * The rules *)

Definition encapA : list Z := [dscpEncapA1; dscpEncapA2].
Definition encapB : list Z := [dscpEncapB1; dscpEncapB2].

Definition v4rule (seq proto : Z) (dscps : list Z) (src post fallback : string) : policyFwRule := {|
  seqID := seq;
  ipv4 := Some {| protocol := proto; dscpSet := dscps; sourceAddr := src |};
  ipv6 := None;
  rule_action := {| decapNI := niDecapTeVrf; postDecapNI := post; decapFallbackNI := fallback;
                    networkInstance := "" |} |}.
Definition v4dscp (seq : Z) (dscps : list Z) (ni : string) : policyFwRule := {|
  seqID := seq; ipv4 := Some {| protocol := 0; dscpSet := dscps; sourceAddr := "" |}; ipv6 := None;
  rule_action := {| decapNI := ""; postDecapNI := ""; decapFallbackNI := ""; networkInstance := ni |} |}.
Definition v6dscp (seq : Z) (dscps : list Z) (ni : string) : policyFwRule := {|
  seqID := seq; ipv4 := None; ipv6 := Some {| protocol := 0; dscpSet := dscps; sourceAddr := "" |};
  rule_action := {| decapNI := ""; postDecapNI := ""; decapFallbackNI := ""; networkInstance := ni |} |}.

(** [pfRule10.seqID = 910] and so on under the deviation for sequential rules. *)
Definition renumber (sequential : bool) (seq : Z) : Z := if sequential then seq + 900 else seq.

Definition pfRuleListW (sequential : bool) : list policyFwRule := [
  v4rule 1 4 encapA ipv4OuterSrc222WithMask niEncapTeVrfA niTeVrf222;
  v4rule 2 41 encapA ipv4OuterSrc222WithMask niEncapTeVrfA niTeVrf222;
  v4rule 3 4 encapA ipv4OuterSrc111WithMask niEncapTeVrfA niTeVrf111;
  v4rule 4 41 encapA ipv4OuterSrc111WithMask niEncapTeVrfA niTeVrf111;
  v4rule 5 4 encapB ipv4OuterSrc222WithMask niEncapTeVrfB niTeVrf222;
  v4rule 6 41 encapB ipv4OuterSrc222WithMask niEncapTeVrfB niTeVrf222;
  v4rule 7 4 encapB ipv4OuterSrc111WithMask niEncapTeVrfB niTeVrf111;
  v4rule 8 41 encapB ipv4OuterSrc111WithMask niEncapTeVrfB niTeVrf111;
  v4rule 9 4 [] ipv4OuterSrc222WithMask niDefault niTeVrf222;
  v4rule (renumber sequential 10) 41 [] ipv4OuterSrc222WithMask niDefault niTeVrf222;
  v4rule (renumber sequential 11) 4 [] ipv4OuterSrc111WithMask niDefault niTeVrf111;
  v4rule (renumber sequential 12) 41 [] ipv4OuterSrc111WithMask niDefault niTeVrf111 ].

Definition pfRuleListC (sequential : bool) : list policyFwRule := [
  v4rule 1 4 encapA ipv4OuterSrc222WithMask niEncapTeVrfA niTeVrf222;
  v4rule 2 41 encapA ipv4OuterSrc222WithMask niEncapTeVrfA niTeVrf222;
  v4rule 3 4 encapA ipv4OuterSrc111WithMask niEncapTeVrfA niTeVrf111;
  v4rule 4 41 encapA ipv4OuterSrc111WithMask niEncapTeVrfA niTeVrf111;
  v4rule 5 4 encapB ipv4OuterSrc222WithMask niEncapTeVrfB niTeVrf222;
  v4rule 6 41 encapB ipv4OuterSrc222WithMask niEncapTeVrfB niTeVrf222;
  v4rule 7 4 encapB ipv4OuterSrc111WithMask niEncapTeVrfB niTeVrf111;
  v4rule 8 41 encapB ipv4OuterSrc111WithMask niEncapTeVrfB niTeVrf111;
  v4rule 9 4 [] ipv4OuterSrc222WithMask niDefault niTeVrf222;
  v4rule (renumber sequential 10) 41 [] ipv4OuterSrc222WithMask niDefault niTeVrf222;
  v4rule (renumber sequential 11) 4 [] ipv4OuterSrc111WithMask niDefault niTeVrf111;
  v4rule (renumber sequential 12) 41 [] ipv4OuterSrc111WithMask niDefault niTeVrf111;
  v4dscp (renumber sequential 13) encapA niEncapTeVrfA;
  v6dscp (renumber sequential 14) encapA niEncapTeVrfA;
  v4dscp (renumber sequential 15) encapB niEncapTeVrfB;
  v6dscp (renumber sequential 16) encapB niEncapTeVrfB ].

(** A rule with an action of its own: the default rules set [NetworkInstance]. *)
Definition defaultRule (l2 : option Ethertype) (r : Rule) : Rule :=
  let a := default emptyAction (r_Action r) in
  {| r_Ipv4 := r_Ipv4 r; r_Ipv6 := r_Ipv6 r; r_L2 := match l2 with Some e => Some e | None => r_L2 r end;
     r_Action := Some {| DecapNetworkInstance := DecapNetworkInstance a;
                         PostDecapNetworkInstance := PostDecapNetworkInstance a;
                         DecapFallbackNetworkInstance := DecapFallbackNetworkInstance a;
                         NetworkInstance := Some niDefault |} |}.

(** The default rule numbered [seq], or one per ethertype at [seq4] and [seq4 + 1]. *)
Definition addDefault (matchDefault : bool) (seq seq4 : Z) (p : Policy) : Policy :=
  if matchDefault then
    let p := set_rule p seq4 (defaultRule (Some ETHERTYPE_IPV4) (GetOrCreateRule p seq4)) in
    set_rule p (seq4 + 1) (defaultRule (Some ETHERTYPE_IPV6) (GetOrCreateRule p (seq4 + 1)))
  else set_rule p seq (defaultRule None (GetOrCreateRule p seq)).

(** [niP.GetPolicy(name)], changed in place; nil panics in the setters. *)
Definition mod_policy (name : string) (f : Policy -> Policy) (niP : PolicyForwarding) : go PolicyForwarding :=
  match pf_Policy niP !! name with
  | None => Panic
  | Some p => Ret {| pf_Policy := <[name := f p]> (pf_Policy niP); pf_Interface := pf_Interface niP |}
  end.

(** * The gNMI operations *)

Inductive GnmiOp :=
| ReplaceVrf (name : string)  (* gnmi.Replace of a network instance of type L3VRF *)
| ReplacePolicyForwarding (ni : string) (pf : PolicyForwarding)
| DeletePfInterface (ni interfaceID : string).
Definition emit (op : GnmiOp) : gost (list GnmiOp) unit := fun tr => (Ret tt, tr ++ [op]).

Definition vrfs : list string :=
  [niDecapTeVrf; niEncapTeVrfA; niEncapTeVrfB; niEncapTeVrfC; niEncapTeVrfD; niTeVrf111; niTeVrf222; niRepairVrf].
Definition configNonDefaultNetworkInstance : gost (list GnmiOp) unit :=
  forEach (fun vrf => emit (ReplaceVrf vrf)) vrfs.

Section Policies.
Context {re : Regexp} (exceptions : list PlatformExceptions) (flags : gmap string bool).

Definition BuildVRFSelectionPolicyW (dut : Device) : gost (list GnmiOp) PolicyForwarding :=
  _ ← configNonDefaultNetworkInstance;
  sequential ← lift (PfRequireSequentialOrderPbrRules exceptions dut);
  niP ← lift (buildVRFSelectionPolicy VRFPolicyW (pfRuleListW sequential));
  matchDefault ← lift (PfRequireMatchDefaultRule exceptions dut);
  lift (mod_policy VRFPolicyW (addDefault matchDefault 13 913) niP).

Definition BuildVRFSelectionPolicyC (dut : Device) : gost (list GnmiOp) PolicyForwarding :=
  _ ← configNonDefaultNetworkInstance;
  sequential ← lift (PfRequireSequentialOrderPbrRules exceptions dut);
  niP ← lift (buildVRFSelectionPolicy VRFPolicyC (pfRuleListC sequential));
  matchDefault ← lift (PfRequireMatchDefaultRule exceptions dut);
  lift (mod_policy VRFPolicyC (addDefault matchDefault 17 917) niP).

(** The identifier of an interface: [||] does not evaluate its second operand
    when the first holds. *)
Definition pfInterfaceID (dut : Device) (name : string) : go string :=
  a ← InterfaceRefInterfaceIDFormat exceptions dut;
  b ← (if a : bool then Ret true else InterfaceIDFormatRequiredForPolicyForwarding exceptions dut);
  Ret (if b : bool then name +:+ ".0" else name).

(** [port1] is the name of the port. *)
Definition ConfigureVRFSelectionPolicy (dut : Device) (port1 policyName : string) : gost (list GnmiOp) unit :=
  interfaceID ← lift (pfInterfaceID dut port1);
  niForwarding ←
    (if String.eqb policyName VRFPolicyC then
       _ ← lift (DefaultNetworkInstance exceptions dut); BuildVRFSelectionPolicyC dut
     else if String.eqb policyName VRFPolicyW then
       _ ← lift (DefaultNetworkInstance exceptions dut); BuildVRFSelectionPolicyW dut
     else lift Panic);
  ni ← lift (DefaultNetworkInstance exceptions dut);
  noRef ← lift (InterfaceRefConfigUnsupported exceptions flags dut);
  let interface1 := {|
    ApplyVrfSelectionPolicy := Some policyName;
    pf_InterfaceRef := if noRef : bool then None else Some {| ref_Interface := port1; ref_Subinterface := 0 |} |} in
  emit (ReplacePolicyForwarding ni
    {| pf_Policy := pf_Policy niForwarding; pf_Interface := <[interfaceID := interface1]> (pf_Interface niForwarding) |}).

Definition DeletePolicyForwarding (dut : Device) (ingressPort : string) : gost (list GnmiOp) unit :=
  interfaceID ← lift (pfInterfaceID dut ingressPort);
  ni ← lift (DefaultNetworkInstance exceptions dut);
  emit (DeletePfInterface ni interfaceID).
End Policies.

(** * What a policy decides *)

(** A packet: its version, the protocol and DSCP of its outer header and its
    source address (the four bytes of an IPv4 address). *)
Record Packet := { pk_v6 : bool; pk_protocol : Z; pk_dscp : Z; pk_src : list Z }.

Definition in_prefix (prefix : string) (ip : list Z) : bool :=
  match ParseCIDR prefix with
  | Some n => bool_decide (and_bytes ip (net_Mask n) = net_IP n)
  | None => false
  end.

Definition ip_matches (i : OcIp) (p : Packet) : bool :=
  match DscpSet i with [] => true | l => existsb (Z.eqb (pk_dscp p)) l end &&
  match Protocol i with None => true | Some k => pk_protocol p =? k end &&
  match SourceAddress i with None => true | Some s => in_prefix s (pk_src p) end.

(** All the parts of a rule that are present match. *)
Definition rule_matches (r : Rule) (p : Packet) : bool :=
  match r_Ipv4 r with None => true | Some i => negb (pk_v6 p) && ip_matches i p end &&
  match r_Ipv6 r with None => true | Some i => pk_v6 p && ip_matches i p end &&
  match r_L2 r with
  | None => true
  | Some ETHERTYPE_IPV4 => negb (pk_v6 p)
  | Some ETHERTYPE_IPV6 => pk_v6 p
  end.

(** The rules in the order of their sequence numbers, and the first that matches. *)
Definition seq_le (x y : Z * Rule) : Prop := fst x <= fst y.
#[export] Instance seq_le_dec x y : Decision (seq_le x y).
Proof. unfold seq_le. apply _. Defined.
Definition ordered (p : Policy) : list (Z * Rule) := merge_sort seq_le (map_to_list (p_Rule p)).
Fixpoint first_match (rules : list (Z * Rule)) (p : Packet) : option OcAction :=
  match rules with
  | [] => None
  | (_, r) :: rules => if rule_matches r p then r_Action r else first_match rules p
  end.

Definition decapAction (post fallback : string) : OcAction :=
  {| DecapNetworkInstance := Some niDecapTeVrf; PostDecapNetworkInstance := Some post;
     DecapFallbackNetworkInstance := Some fallback; NetworkInstance := None |}.
Definition forwardAction (ni : string) : OcAction :=
  {| DecapNetworkInstance := None; PostDecapNetworkInstance := None; DecapFallbackNetworkInstance := None;
     NetworkInstance := Some ni |}.

(** The VRF of a DSCP. *)
Definition encapVrf (dscp : Z) : string :=
  if (dscp =? dscpEncapA1) || (dscp =? dscpEncapA2) then niEncapTeVrfA
  else if (dscp =? dscpEncapB1) || (dscp =? dscpEncapB2) then niEncapTeVrfB
  else niDefault.

(** IPv4 packets with an IPv4 or IPv6 payload from one of the two tunnel
    sources are looked up for decapsulation; the VRF after it depends on the
    DSCP and the fallback on the source. *)
Definition decap_spec (p : Packet) : option OcAction :=
  if negb (pk_v6 p) && ((pk_protocol p =? 4) || (pk_protocol p =? 41)) then
    if in_prefix ipv4OuterSrc222WithMask (pk_src p) then Some (decapAction (encapVrf (pk_dscp p)) niTeVrf222)
    else if in_prefix ipv4OuterSrc111WithMask (pk_src p) then Some (decapAction (encapVrf (pk_dscp p)) niTeVrf111)
    else None
  else None.

(** Policy W sends the other packets to the default VRF, policy C by their DSCP. *)
Definition spec_W (p : Packet) : OcAction := default (forwardAction niDefault) (decap_spec p).
Definition spec_C (p : Packet) : OcAction := default (forwardAction (encapVrf (pk_dscp p))) (decap_spec p).

(** The rules up to the default ones, which come first when the rules are
    renumbered but the default rule is not. *)
Definition shadowed_spec (p : Packet) : OcAction :=
  match decap_spec p with
  | Some a =>
      if negb (String.eqb (encapVrf (pk_dscp p)) niDefault) ||
         ((pk_protocol p =? 4) && in_prefix ipv4OuterSrc222WithMask (pk_src p)) then a
      else forwardAction niDefault
  | None => forwardAction niDefault
  end.

(** * Lemmas *)

Definition policyW (sequential matchDefault : bool) : go PolicyForwarding :=
  niP ← buildVRFSelectionPolicy VRFPolicyW (pfRuleListW sequential);
  mod_policy VRFPolicyW (addDefault matchDefault 13 913) niP.
Definition policyC (sequential matchDefault : bool) : go PolicyForwarding :=
  niP ← buildVRFSelectionPolicy VRFPolicyC (pfRuleListC sequential);
  mod_policy VRFPolicyC (addDefault matchDefault 17 917) niP.

Definition ordered_of (name : string) (m : go PolicyForwarding) : list (Z * Rule) :=
  match m with Ret pf => match pf_Policy pf !! name with Some p => ordered p | None => [] end | _ => [] end.


(** Decide a lookup in a computed table by cases on what the rules test. *)
Ltac decide_policy p :=
  match goal with |- first_match ?l _ = _ =>
    let l' := eval vm_compute in l in replace l with l' by (vm_compute; reflexivity)
  end;
  cbn [first_match]; unfold rule_matches, ip_matches; cbn -[in_prefix Z.eqb];
  unfold spec_W, spec_C, shadowed_spec, decap_spec, encapVrf, ipv4OuterSrc222WithMask, ipv4OuterSrc111WithMask,
    dscpEncapA1, dscpEncapA2, dscpEncapB1, dscpEncapB2;
  generalize (in_prefix "198.51.100.222/32" (pk_src p)), (in_prefix "198.51.100.111/32" (pk_src p)), (pk_v6 p),
    (pk_dscp p =? 10), (pk_dscp p =? 18), (pk_dscp p =? 20), (pk_dscp p =? 28), (pk_protocol p =? 4),
    (pk_protocol p =? 41);
  intros [] [] [] [] [] [] [] [] []; reflexivity.

(** What a policy decides under the deviations. *)
Definition spec_of (name : string) (sequential matchDefault : bool) (p : Packet) : OcAction :=
  if sequential && negb matchDefault then shadowed_spec p
  else if String.eqb name VRFPolicyC then spec_C p else spec_W p.

Lemma policyW_decides sequential matchDefault p :
  first_match (ordered_of VRFPolicyW (policyW sequential matchDefault)) p =
  Some (spec_of VRFPolicyW sequential matchDefault p).
Proof. unfold spec_of. destruct sequential, matchDefault; cbn [andb negb String.eqb]; decide_policy p. Qed.

Lemma policyC_decides sequential matchDefault p :
  first_match (ordered_of VRFPolicyC (policyC sequential matchDefault)) p =
  Some (spec_of VRFPolicyC sequential matchDefault p).
Proof. unfold spec_of. destruct sequential, matchDefault; cbn [andb negb String.eqb]; decide_policy p. Qed.

Definition policy_of (name : string) (sequential matchDefault : bool) : go PolicyForwarding :=
  if String.eqb name VRFPolicyC then policyC sequential matchDefault else policyW sequential matchDefault.

(** The policy is there, without interfaces. *)
Lemma policy_of_present name sequential matchDefault : name = VRFPolicyW \/ name = VRFPolicyC ->
  exists pf pol, policy_of name sequential matchDefault = Ret pf /\ pf_Policy pf !! name = Some pol /\
    pf_Interface pf = ∅ /\ (forall p, first_match (ordered pol) p = Some (spec_of name sequential matchDefault p)).
Proof.
  intros Hn. assert (forall p, first_match (ordered_of name (policy_of name sequential matchDefault)) p =
    Some (spec_of name sequential matchDefault p)) as Hd.
  { intros p. destruct Hn as [-> | ->]; [apply policyW_decides|apply policyC_decides]. }
  assert (match policy_of name sequential matchDefault with
    | Ret pf => bool_decide (is_Some (pf_Policy pf !! name)) && bool_decide (size (pf_Interface pf) = 0%nat)
    | _ => false end = true) as H.
  { destruct Hn as [-> | ->], sequential, matchDefault; vm_compute; reflexivity. }
  unfold ordered_of in Hd. destruct (policy_of name sequential matchDefault) as [pf| | |]; try discriminate H.
  apply andb_true_iff in H as [[pol Hpol]%bool_decide_eq_true H0%bool_decide_eq_true].
  exists pf, pol. rewrite Hpol in Hd. split_and!; try done. by apply map_size_empty_inv.
Qed.

Lemma configVrfs_run tr : configNonDefaultNetworkInstance tr = (Ret tt, tr ++ map ReplaceVrf vrfs).
Proof. unfold configNonDefaultNetworkInstance. cbn. unfold mbind, gost_bind, emit. cbn. by rewrite <- !app_assoc. Qed.

#[local] Opaque buildVRFSelectionPolicy mod_policy configNonDefaultNetworkInstance lookupDUTDeviations.

Section Installed.
Context {re : Regexp} (exceptions : list PlatformExceptions) (flags : gmap string bool) (dut : Device).
Context (sequential matchDefault noRef : bool) (port id ni : string).
Context (Hseq : PfRequireSequentialOrderPbrRules exceptions dut = Ret sequential).
Context (Hmd : PfRequireMatchDefaultRule exceptions dut = Ret matchDefault).
Context (Hid : pfInterfaceID exceptions dut port = Ret id).
Context (Hni : DefaultNetworkInstance exceptions dut = Ret ni).
Context (Href : InterfaceRefConfigUnsupported exceptions flags dut = Ret noRef).

Lemma BuildW_run pf tr : policyW sequential matchDefault = Ret pf ->
  BuildVRFSelectionPolicyW exceptions dut tr = (Ret pf, tr ++ map ReplaceVrf vrfs).
Proof.
  intros E. unfold policyW in E. apply bind_Ret in E as (niP & EP & EM). unfold BuildVRFSelectionPolicyW.
  rewrite (bind_run _ _ _ _ _ (configVrfs_run tr)), (lift_run _ _ _ _ Hseq), (lift_run _ _ _ _ EP),
    (lift_run _ _ _ _ Hmd). unfold lift. by rewrite EM.
Qed.

Lemma BuildC_run pf tr : policyC sequential matchDefault = Ret pf ->
  BuildVRFSelectionPolicyC exceptions dut tr = (Ret pf, tr ++ map ReplaceVrf vrfs).
Proof.
  intros E. unfold policyC in E. apply bind_Ret in E as (niP & EP & EM). unfold BuildVRFSelectionPolicyC.
  rewrite (bind_run _ _ _ _ _ (configVrfs_run tr)), (lift_run _ _ _ _ Hseq), (lift_run _ _ _ _ EP),
    (lift_run _ _ _ _ Hmd). unfold lift. by rewrite EM.
Qed.

Lemma Configure_run name tr : name = VRFPolicyW \/ name = VRFPolicyC ->
  exists pf pol, ConfigureVRFSelectionPolicy exceptions flags dut port name tr =
      (Ret tt, tr ++ map ReplaceVrf vrfs ++ [ReplacePolicyForwarding ni pf]) /\
    pf_Policy pf !! name = Some pol /\
    pf_Interface pf = {[ id := {| ApplyVrfSelectionPolicy := Some name;
      pf_InterfaceRef := if noRef then None else Some {| ref_Interface := port; ref_Subinterface := 0 |} |} ]} /\
    forall p, first_match (ordered pol) p = Some (spec_of name sequential matchDefault p).
Proof.
  intros Hn. destruct (policy_of_present name sequential matchDefault Hn) as (pf0 & pol & E0 & Hpol & Hif & Hd).
  assert ((if String.eqb name VRFPolicyC then
       _ ← lift (DefaultNetworkInstance exceptions dut); BuildVRFSelectionPolicyC exceptions dut
     else if String.eqb name VRFPolicyW then
       _ ← lift (DefaultNetworkInstance exceptions dut); BuildVRFSelectionPolicyW exceptions dut
     else lift Panic) tr = (Ret pf0, tr ++ map ReplaceVrf vrfs)) as EB.
  { unfold policy_of in E0. destruct (String.eqb_spec name VRFPolicyC) as [_|Hc].
    - rewrite (lift_run _ _ _ _ Hni). exact (BuildC_run _ _ E0).
    - destruct (String.eqb_spec name VRFPolicyW) as [_|Hw]; [|clear -Hn Hc Hw; tauto].
      rewrite (lift_run _ _ _ _ Hni). exact (BuildW_run _ _ E0). }
  unfold ConfigureVRFSelectionPolicy. rewrite (lift_run _ _ _ _ Hid), (bind_run _ _ _ _ _ EB).
  rewrite (lift_run _ _ _ _ Hni), (lift_run _ _ _ _ Href).
  eexists _, pol. unfold emit. rewrite <- app_assoc. split; [reflexivity|]. split; [exact Hpol|]. cbn [pf_Interface].
  rewrite Hif. split; [reflexivity|exact Hd].
Qed.
End Installed.

(** The network instances an action refers to. *)
Definition action_instances (a : OcAction) : list string :=
  omap id [DecapNetworkInstance a; PostDecapNetworkInstance a; DecapFallbackNetworkInstance a; NetworkInstance a].

Lemma spec_instances name p : action_instances (spec_of name false false p) ⊆ niDefault :: vrfs.
Proof.
  unfold spec_of. cbn [andb]. unfold spec_C, spec_W, decap_spec, encapVrf.
  repeat case_match; cbn [default from_option action_instances decapAction forwardAction omap list_omap];
    unfold id; cbn; set_solver.
Qed.

Lemma in_prefix_source ip a b c d s : is_bytes 4 ip ->
  ParseCIDR s = Some {| net_IP := [a; b; c; d]; net_Mask := [255; 255; 255; 255]; net_ones := 32 |} ->
  in_prefix s ip = bool_decide (ip = [a; b; c; d]).
Proof.
  intros [Hl Hb] E. unfold in_prefix. rewrite E. cbn [net_Mask net_IP].
  enough (and_bytes ip [255; 255; 255; 255] = ip) as -> by done.
  destruct ip as [|w [|x [|y [|z [|? ?]]]]]; try done. rewrite !Forall_cons in Hb.
  destruct Hb as (Hw & Hx & Hy & Hz & _). cbn [and_bytes zip_with].
  change 255 with (Z.ones 8). rewrite !Z.land_ones by lia. by rewrite !Z.mod_small by (change (2 ^ 8) with 256; lia).
Qed.

(** The sources the rules name are the two hosts. *)
Lemma in_prefix_222 ip : is_bytes 4 ip -> in_prefix ipv4OuterSrc222WithMask ip = bool_decide (ip = [198; 51; 100; 222]).
Proof. intros H. by apply in_prefix_source. Qed.
Lemma in_prefix_111 ip : is_bytes 4 ip -> in_prefix ipv4OuterSrc111WithMask ip = bool_decide (ip = [198; 51; 100; 111]).
Proof. intros H. by apply in_prefix_source. Qed.

(** * Properties *)

(** C33: [ConfigureVRFSelectionPolicy] on a device whose deviations do not ask for
    renumbered rules without default rules per ethertype: it creates the VRFs,
    then replaces the policy-forwarding configuration of the default network
    instance by one that applies the policy to the port; the first rule that
    matches a packet, in the order of the sequence numbers, exists and is the one
    the specification of the policy names, for every packet and whatever numbers
    the deviations give to the rules.  The instances a rule names are created VRFs
    or the literal [DEFAULT]: this instance is not created here, and it is not the
    device's default instance where a deviation gives that another name ([ni]).
    [DeletePolicyForwarding] deletes the same interface. *)
Theorem vrf_policy_decides {re : Regexp} exceptions flags dut sequential matchDefault noRef port id ni name tr :
  PfRequireSequentialOrderPbrRules exceptions dut = Ret sequential ->
  PfRequireMatchDefaultRule exceptions dut = Ret matchDefault ->
  pfInterfaceID exceptions dut port = Ret id -> DefaultNetworkInstance exceptions dut = Ret ni ->
  InterfaceRefConfigUnsupported exceptions flags dut = Ret noRef ->
  name = VRFPolicyW \/ name = VRFPolicyC -> sequential && negb matchDefault = false ->
  exists pf pol, ConfigureVRFSelectionPolicy exceptions flags dut port name tr =
      (Ret tt, tr ++ map ReplaceVrf vrfs ++ [ReplacePolicyForwarding ni pf]) /\
    pf_Policy pf !! name = Some pol /\
    ApplyVrfSelectionPolicy <$> (pf_Interface pf !! id) = Some (Some name) /\
    (forall p, let a := if String.eqb name VRFPolicyC then spec_C p else spec_W p in
      first_match (ordered pol) p = Some a /\ action_instances a ⊆ niDefault :: vrfs) /\
    forall tr', DeletePolicyForwarding exceptions dut port tr' = (Ret tt, tr' ++ [DeletePfInterface ni id]).
Proof.
  intros Hseq Hmd Hid Hni Href Hn Hdev.
  destruct (Configure_run exceptions flags dut sequential matchDefault noRef port id ni Hseq Hmd Hid Hni Href name tr Hn)
    as (pf & pol & E & Hpol & Hif & Hd).
  exists pf, pol. split; [exact E|]. split; [exact Hpol|]. split; [by rewrite Hif, lookup_singleton_eq|]. split.
  - intros p a. rewrite Hd. unfold spec_of. rewrite Hdev. split; [reflexivity|exact (spec_instances name p)].
  - intros tr'. unfold DeletePolicyForwarding. by rewrite (lift_run _ _ _ _ Hid), (lift_run _ _ _ _ Hni).
Qed.

Definition no_regexp : Regexp := fun _ _ => Ret false.
Definition sample_dut : Device := {| dev_Vendor := "CISCO"; dev_Model := "8808"; dev_Version := "7.11" |}.
Definition exceptions_with (fields : list (string * Value)) : list PlatformExceptions :=
  [ {| GetPlatform := {| Vendor := "CISCO"; HardwareModelRegex := ""; SoftwareVersionRegex := "" |};
       GetDeviations := list_to_map fields |} ].
Definition cisco_exceptions : list PlatformExceptions :=
  exceptions_with [("PfRequireSequentialOrderPbrRules", VBool true); ("PfRequireMatchDefaultRule", VBool true)].

Lemma vrf_policy_decides_witness :
  exists pf pol, @ConfigureVRFSelectionPolicy no_regexp cisco_exceptions ∅ sample_dut "FourHundredGigE0/0/0/1" VRFPolicyC [] =
      (Ret tt, [] ++ map ReplaceVrf vrfs ++ [ReplacePolicyForwarding "DEFAULT" pf]) /\
    pf_Policy pf !! VRFPolicyC = Some pol /\
    ApplyVrfSelectionPolicy <$> (pf_Interface pf !! "FourHundredGigE0/0/0/1") = Some (Some VRFPolicyC) /\
    (forall p, let a := if String.eqb VRFPolicyC VRFPolicyC then spec_C p else spec_W p in
      first_match (ordered pol) p = Some a /\ action_instances a ⊆ niDefault :: vrfs) /\
    forall tr', @DeletePolicyForwarding no_regexp cisco_exceptions sample_dut "FourHundredGigE0/0/0/1" tr' =
      (Ret tt, tr' ++ [DeletePfInterface "DEFAULT" "FourHundredGigE0/0/0/1"]).
Proof.
  apply (@vrf_policy_decides no_regexp cisco_exceptions ∅ sample_dut true true false
    "FourHundredGigE0/0/0/1" "FourHundredGigE0/0/0/1" "DEFAULT" VRFPolicyC []).
  - vm_compute. reflexivity.
  - vm_compute. reflexivity.
  - vm_compute. reflexivity.
  - vm_compute. reflexivity.
  - vm_compute. reflexivity.
  - right. reflexivity.
  - reflexivity.
Defined.

(** When the deviations ask for renumbered rules but not for default rules
    per ethertype, the default rule keeps its number 13 or 17 and comes before the
    rules numbered from 910 on: IPv6 in IPv4 from a tunnel source and everything
    from the second source, with a DSCP of no encapsulation VRF, is not
    decapsulated, and policy C does not look at the DSCP of other packets. *)
Theorem renumbered_rules_are_shadowed {re : Regexp} exceptions flags dut noRef port id ni name tr :
  PfRequireSequentialOrderPbrRules exceptions dut = Ret true ->
  PfRequireMatchDefaultRule exceptions dut = Ret false ->
  pfInterfaceID exceptions dut port = Ret id -> DefaultNetworkInstance exceptions dut = Ret ni ->
  InterfaceRefConfigUnsupported exceptions flags dut = Ret noRef ->
  name = VRFPolicyW \/ name = VRFPolicyC ->
  exists pf pol, ConfigureVRFSelectionPolicy exceptions flags dut port name tr =
      (Ret tt, tr ++ map ReplaceVrf vrfs ++ [ReplacePolicyForwarding ni pf]) /\
    pf_Policy pf !! name = Some pol /\
    forall p, decap_spec p = None \/ encapVrf (pk_dscp p) = niDefault /\
        (pk_protocol p <> 4 \/ in_prefix ipv4OuterSrc222WithMask (pk_src p) = false) ->
      first_match (ordered pol) p = Some (forwardAction niDefault).
Proof.
  intros Hseq Hmd Hid Hni Href Hn.
  destruct (Configure_run exceptions flags dut true false noRef port id ni Hseq Hmd Hid Hni Href name tr Hn)
    as (pf & pol & E & Hpol & _ & Hd).
  exists pf, pol. split; [exact E|]. split; [exact Hpol|]. intros p Hp. rewrite Hd. unfold spec_of. cbn [andb negb].
  unfold shadowed_spec. destruct (decap_spec p) as [a|]; [|reflexivity].
  destruct Hp as [Hp|[Hv Hp]]; [discriminate Hp|]. rewrite Hv, String.eqb_refl.
  destruct Hp as [Hp| ->]; [by destruct (Z.eqb_spec (pk_protocol p) 4)|by rewrite andb_false_r].
Qed.

Definition seq_exceptions : list PlatformExceptions :=
  exceptions_with [("PfRequireSequentialOrderPbrRules", VBool true)].

Lemma renumbered_rules_are_shadowed_witness :
  exists pf pol, @ConfigureVRFSelectionPolicy no_regexp seq_exceptions ∅ sample_dut "Ethernet1" VRFPolicyW [] =
      (Ret tt, [] ++ map ReplaceVrf vrfs ++ [ReplacePolicyForwarding "DEFAULT" pf]) /\
    pf_Policy pf !! VRFPolicyW = Some pol /\
    forall p, decap_spec p = None \/ encapVrf (pk_dscp p) = niDefault /\
        (pk_protocol p <> 4 \/ in_prefix ipv4OuterSrc222WithMask (pk_src p) = false) ->
      first_match (ordered pol) p = Some (forwardAction niDefault).
Proof.
  apply (@renumbered_rules_are_shadowed no_regexp seq_exceptions ∅ sample_dut false "Ethernet1" "Ethernet1" "DEFAULT" VRFPolicyW []).
  - vm_compute. reflexivity.
  - vm_compute. reflexivity.
  - vm_compute. reflexivity.
  - vm_compute. reflexivity.
  - vm_compute. reflexivity.
  - left. reflexivity.
Defined.

(** A policy of another name is a fatal error before anything is sent. *)
Lemma unsupported_policy {re : Regexp} exceptions flags dut port id name tr :
  pfInterfaceID exceptions dut port = Ret id -> name <> VRFPolicyW -> name <> VRFPolicyC ->
  ConfigureVRFSelectionPolicy exceptions flags dut port name tr = (Panic, tr).
Proof.
  intros Hid Hw Hc. unfold ConfigureVRFSelectionPolicy. rewrite (lift_run _ _ _ _ Hid).
  destruct (String.eqb_spec name VRFPolicyC); [done|]. by destruct (String.eqb_spec name VRFPolicyW).
Qed.
