(* ===== verification/Registry.v ===== *)
(** Tools that list the tests of the repository: the registry
    ([src/tools/sort_testregistry], [src/tools/sync_test_registry]) and the wiki
    ([src/tools/wikidoc]).

    A file system is a map from paths to contents; the walk of a directory, the
    text form of messages and the formatting of text protos are parameters. *)
From stdpp Require Import base list gmap sets strings sorting pretty.
From Stdlib Require Import ZArith Lia Ascii OrdersEx.
From S2P Require Import Prelude GoStrings Version TestTracker.

(** * Messages *)

Record Test := {
  t_Id : string;
  t_Version : Z;
  t_Description : string;
  t_Readme : list string;
  t_Exec : string }.
#[export] Instance Test_eq_dec : EqDecision Test.
Proof. solve_decision. Defined.
Record TestRegistry := { r_Name : string; r_Test : list Test }.
#[export] Instance TestRegistry_eq_dec : EqDecision TestRegistry.
Proof. solve_decision. Defined.

(** The fields of [mpb.Metadata] the tools read. *)
Record Metadata := { md_Uuid : string; md_PlanId : string; md_Description : string }.

Class Prototext := {
  UnmarshalRegistry : string -> go TestRegistry;
  UnmarshalMetadata : string -> go Metadata;
  MarshalRegistry : TestRegistry -> go string;
  Format : string -> go string  (* txtpbfmt's parser.Format *) }.

(** What [filepath.WalkDir] calls its function with. *)
Record walkEntry := { e_path : string; e_isDir : bool; e_name : string; e_err : option error }.

Record Files := {
  contents : gmap string string;
  readOnly : gset string  (* paths that cannot be written *) }.

Definition ReadFile (path : string) : gost Files string :=
  fun fs => (match contents fs !! path with Some s => Ret s | None => Fail (errors_New "no such file") end, fs).
Definition WriteFile (path s : string) : gost Files unit := fun fs =>
  if decide (path ∈ readOnly fs) then (Fail (errors_New "permission denied"), fs)
  else (Ret tt, {| contents := <[path := s]> (contents fs); readOnly := readOnly fs |}).

(** [log.Exitf] on an error. *)
Definition orExit {A} (m : gost Files A) : gost Files A :=
  fun fs => match m fs with (Fail _, fs) => (Panic, fs) | r => r end.

(** * sort_testregistry *)

(** One iteration: the identifiers in the order they appear and the entries of
    each, without entries equal to an earlier one ([proto.Equal]). *)
Definition addTest (st : list string * gmap string (list Test)) (t : Test) : list string * gmap string (list Test) :=
  let '(ids, tests) := st in
  let '(ids, tests) :=
    match tests !! t_Id t with
    | Some _ => (ids, tests)
    | None => (ids ++ [t_Id t], <[t_Id t := []]> tests)
    end in
  let existing := default [] (tests !! t_Id t) in
  if bool_decide (t ∈ existing) then (ids, tests) else (ids, <[t_Id t := existing ++ [t]]> tests).

Definition sortRegistry (r : TestRegistry) : TestRegistry :=
  let '(ids, tests) := foldl addTest ([], ∅) (r_Test r) in
  {| r_Name := r_Name r; r_Test := i ← sort_Strings ids; default [] (tests !! i) |}.

Definition nl : string := String (ascii_of_nat 10) EmptyString.
Definition registryHeader : string :=
  "# proto-file: /proto/testregistry.proto" +:+ nl +:+ "# proto-message: TestRegistry" +:+ nl +:+ nl.
Definition generatedNote : string :=
  "# Auto-generated file. Use `make sync-test-registry` to re-generate." +:+ nl +:+ nl.

Section Tools.
Context {P : Prototext}.

Definition sort_main (file : string) : gost Files unit :=
  orExit (f ← ReadFile file;
          r ← lift (UnmarshalRegistry f);
          s ← lift (MarshalRegistry (sortRegistry r));
          WriteFile file (registryHeader +:+ s)).

(** * sync_test_registry *)

Definition githubURL (path : string) : string :=
  "https://github.com/openconfig/featureprofiles/blob/main/" +:+ path.

(** [dirs dir]: the entries of [os.ReadDir] in order, a name and whether it is a directory. *)
Definition findExecURL (dirs : string -> go (list (string * bool))) (dir : string) : string :=
  match dirs dir with
  | Ret files =>
      match filter (fun f => negb (snd f) = true /\ HasSuffix (fst f) "_test.go" = true) files with
      | f :: _ => githubURL (JoinPath [dir; fst f])
      | [] => ""
      end
  | _ => ""
  end.

Definition metadataTest (dirs : string -> go (list (string * bool))) (path : string) (m : Metadata) : Test :=
  let dir := Dir path in
  {| t_Id := md_PlanId m; t_Version := 0%Z; t_Description := md_Description m;
     t_Readme := [githubURL (JoinPath [dir; "README.md"])]; t_Exec := findExecURL dirs dir |}.

Definition processMetadataFile (read : string -> go string) (dirs : string -> go (list (string * bool)))
    (path : string) (tests : gmap string Test) : go (gmap string Test) :=
  f ← read path;
  m ← UnmarshalMetadata f;
  if String.eqb (md_PlanId m) "" then Fail (errors_New "plan_id is empty")
  else
    match tests !! md_PlanId m with
    | Some _ => Fail (errors_New "duplicate plan_id found")
    | None => Ret (<[md_PlanId m := metadataTest dirs path m]> tests)
    end.

Definition loadStep (read : string -> go string) (dirs : string -> go (list (string * bool)))
    (tests : gmap string Test) (d : walkEntry) : go (gmap string Test) :=
  match e_err d with
  | Some e => Fail e
  | None =>
      if negb (e_isDir d) && String.eqb (e_name d) "metadata.textproto"
      then processMetadataFile read dirs (e_path d) tests else Ret tests
  end.

Definition loadTestsFromDir (read : string -> go string) (dirs : string -> go (list (string * bool)))
    (walk : list walkEntry) : go (gmap string Test) := foldM (loadStep read dirs) ∅ walk.

(** [order] are the identifiers in the order of the iteration. *)
Definition generateRegistry (name : string) (tests : gmap string Test) (order : list string) : TestRegistry :=
  {| r_Name := name; r_Test := omap (fun id => tests !! id) (sort_Strings order) |}.

Definition writeRegistry (path : string) (r : TestRegistry) : gost Files unit :=
  s ← lift (MarshalRegistry r);
  formatted ← lift (Format (registryHeader +:+ generatedNote +:+ s));
  WriteFile path formatted.

(** The name of an existing registry stays. *)
Definition registryName (f : go string) : string :=
  match f with
  | Ret f =>
      match UnmarshalRegistry f with
      | Ret r => if String.eqb (r_Name r) "" then "WBB Test Registry" else r_Name r
      | _ => "WBB Test Registry"
      end
  | _ => "WBB Test Registry"
  end.

Definition sync_main (registryFile : string) (dirs : string -> go (list (string * bool))) (walk : list walkEntry)
    (order : gmap string Test -> list string) : gost Files unit := fun fs =>
  let read p := fst (ReadFile p fs) in
  match loadTestsFromDir read dirs walk with
  | Ret tests =>
      orExit (writeRegistry registryFile (generateRegistry (registryName (read registryFile)) tests (order tests))) fs
  | Fail _ | Panic => (Panic, fs)
  | NoFuel => (NoFuel, fs)
  end.

(** * wikidoc *)

Record testDoc := { d_Name : string; d_Title : string; d_Path : string }.

Definition fetchStep (read : string -> go string) (opens : string -> bool) (docMap : gmap string testDoc)
    (e : walkEntry) : go (gmap string testDoc) :=
  match e_err e with
  | Some err => Fail err
  | None =>
      if negb (String.eqb (Base (e_path e)) "metadata.textproto") then Ret docMap
      else
        bytes ← read (e_path e);
        match UnmarshalMetadata bytes with
        | Ret md =>
            let readmePath := Dir (e_path e) +:+ "/README.md" in
            if negb (opens readmePath) then Ret docMap
            else Ret (<[md_Uuid md := {| d_Name := Base (Dir (e_path e)); d_Path := readmePath;
                                         d_Title := md_PlanId md +:+ ": " +:+ md_Description md |}]> docMap)
        | Fail _ => Fail (errors_New "cannot unmarshal")
        | Panic => Panic
        | NoFuel => NoFuel
        end
  end.

(** The documents in the order of the iteration over the map. *)
Definition fetchTestDocs (read : string -> go string) (opens : string -> bool)
    (order : gmap string testDoc -> list string) (walk : list walkEntry) : go (list testDoc) :=
  docMap ← foldM (fetchStep read opens) ∅ walk;
  Ret (omap (fun u => docMap !! u) (order docMap)).
End Tools.

(** ** sortTests *)

Definition is_lower (c : ascii) : bool := let n := nat_of_ascii c in (97 <=? n)%nat && (n <=? 122)%nat.

(** The matches of [[0-9]+|[a-z]+]: the maximal runs of digits and of letters. *)
Fixpoint FindAllString (s : string) : list string :=
  match s with
  | EmptyString => []
  | String c s' =>
      let rest := FindAllString s' in
      if is_digit c || is_lower c then
        match s', rest with
        | String c' _, t :: ts =>
            if (is_digit c && is_digit c') || (is_lower c && is_lower c') then String c t :: ts
            else String c EmptyString :: t :: ts
        | _, ts => String c EmptyString :: ts
        end
      else rest
  end.

(** The loop over the common tokens, then the lengths. *)
Fixpoint tokensLess (xs ys : list string) : bool :=
  match xs, ys with
  | x :: xs, y :: ys =>
      if String.eqb x y then tokensLess xs ys
      else
        match Atoi_digits x, Atoi_digits y with
        | Some iv, Some jv => (iv <? jv)%Z
        | _, _ => str_lt x y
        end
  | [], _ :: _ => true
  | _, [] => false
  end.

Definition titleTokens (d : testDoc) : list string := FindAllString (ToLower (d_Title d)).
Definition docLess (x y : testDoc) : bool := tokensLess (titleTokens x) (titleTokens y).
Definition sortTests (docs : list testDoc) : list testDoc := sortSlice docLess docs.

(** ** Output *)

Definition wikiPath : string := "/testplans/".

Definition writeTestDocs (docs : list testDoc) (rootPath : string) : gost Files unit :=
  forEach (fun doc =>
    f ← ReadFile (d_Path doc);
    WriteFile (rootPath +:+ wikiPath +:+ d_Name doc +:+ ".md") f) docs.

(** [text/template]: parsing, and the text a template makes of the documents. *)
Class Template (T : Type) := {
  Template_Parse : string -> go T;
  Template_Execute : T -> list testDoc -> string }.

(** [os.Create] empties the file before the template is read. *)
Definition writeSidebar {T} `{!Template T} (docs : list testDoc) (tmplFile rootPath : string) : gost Files unit :=
  let f := rootPath +:+ "/_Sidebar.md" in
  _ ← WriteFile f "";
  sidebar ← ReadFile tmplFile;
  t ← lift (Template_Parse sidebar);
  WriteFile f (Template_Execute t docs).

(** [MkdirAll] does not fail; [log.Fatal] on every error. *)
Definition wikidoc_main {T} `{!Prototext, !Template T} (featureRoot outputRoot sidebarTmpl : string)
    (opens : string -> bool) (order : gmap string testDoc -> list string) (walk : list walkEntry) :
    gost Files unit := fun fs =>
  if String.eqb featureRoot "" then (Panic, fs)
  else if String.eqb outputRoot "" then (Panic, fs)
  else
    orExit (docs ← lift (fetchTestDocs (fun p => fst (ReadFile p fs)) opens order walk);
            let docs := sortTests docs in
            _ ← writeTestDocs docs outputRoot;
            writeSidebar docs sidebarTmpl outputRoot) fs.

(** * Lemmas *)

(** ** Sorting the registry *)

(** The list without the elements equal to an earlier one. *)
Definition firsts (l : list Test) : list Test :=
  foldl (fun acc t => if bool_decide (t ∈ acc) then acc else acc ++ [t]) [] l.

Lemma firsts_snoc l t : firsts (l ++ [t]) = if bool_decide (t ∈ firsts l) then firsts l else firsts l ++ [t].
Proof. unfold firsts. by rewrite foldl_app. Qed.

Lemma firsts_facts l : NoDup (firsts l) /\ forall t, t ∈ firsts l <-> t ∈ l.
Proof.
  induction l as [|t l [IHn IHe]] using rev_ind; [split; [constructor|done]|].
  rewrite firsts_snoc. setoid_rewrite elem_of_app. setoid_rewrite list_elem_of_singleton.
  case_bool_decide as Ht; [split; [done|naive_solver]|]. split.
  - apply NoDup_app. split; [done|]. split; [|apply NoDup_singleton]. by intros x Hx ->%list_elem_of_singleton.
  - intros x. rewrite elem_of_app, list_elem_of_singleton. naive_solver.
Qed.

Lemma firsts_NoDup l : NoDup l -> firsts l = l.
Proof.
  induction l as [|t l IH] using rev_ind; [done|]. intros (Hl & Hd & _)%NoDup_app. rewrite firsts_snoc, IH by done.
  rewrite bool_decide_eq_false_2; [done|]. intros Ht. apply (Hd t Ht). by left.
Qed.

Abbreviation of_id i := (fun t => t_Id t = i).

(** What the loop has collected from the tests [l]. *)
Record collected (l : list Test) (ids : list string) (tests : gmap string (list Test)) : Prop := {
  co_ids i : i ∈ ids <-> i ∈ map t_Id l;
  co_NoDup : NoDup ids;
  co_some i : i ∈ ids <-> is_Some (tests !! i);
  co_tests i ts : tests !! i = Some ts -> ts = filter (of_id i) (firsts l) }.

Lemma collected_default l ids tests i : collected l ids tests ->
  default [] (tests !! i) = filter (of_id i) (firsts l).
Proof.
  intros [Hids _ Hsome Hts]. destruct (tests !! i) as [ts|] eqn:E; [by apply Hts|]. symmetry.
  destruct (filter (of_id i) (firsts l)) as [|t ts] eqn:F; [done|].
  assert (t ∈ filter (of_id i) (firsts l)) as [Hi Ht]%list_elem_of_filter by (rewrite F; by left).
  apply (proj2 (firsts_facts l)) in Ht. assert (i ∈ ids) as [? Hs]%Hsome; [|congruence].
  apply Hids. apply list_elem_of_fmap. exists t. split; [by symmetry|done].
Qed.

Lemma addTest_collected l st t : collected l (fst st) (snd st) ->
  collected (l ++ [t]) (fst (addTest st t)) (snd (addTest st t)).
Proof.
  destruct st as [ids tests]. cbn [fst snd]. intros HC. pose proof HC as [Hids Hnd Hsome Hts].
  assert (exists ids' tests', addTest (ids, tests) t = (ids', tests') /\ NoDup ids' /\
    (forall i, i ∈ ids' <-> i ∈ ids \/ i = t_Id t) /\
    (forall i, tests' !! i = if decide (i = t_Id t) then
       Some (default [] (tests !! i) ++ (if bool_decide (t ∈ default [] (tests !! i)) then [] else [t]))
     else tests !! i)) as (ids' & tests' & -> & Hnd' & Hids' & Htests').
  { unfold addTest. destruct (tests !! t_Id t) as [ts0|] eqn:E.
    - assert (t_Id t ∈ ids) as Hin by (apply Hsome; eauto). rewrite E. cbn [default from_option]. unfold id.
      case_bool_decide as Ht; eexists _, _; (split; [reflexivity|]); (split; [done|]); (split; [naive_solver|]); intros i.
      + destruct (decide (i = t_Id t)) as [->|Hne]; [|done]. rewrite E. cbn. unfold id. rewrite bool_decide_eq_true_2 by done. by rewrite app_nil_r.
      + destruct (decide (i = t_Id t)) as [->|Hne]; [|by rewrite lookup_insert_ne].
        rewrite lookup_insert_eq, E. cbn. unfold id. by rewrite bool_decide_eq_false_2.
    - assert (t_Id t ∉ ids) as Hnin by (intros [? Hin]%Hsome; congruence).
      rewrite lookup_insert_eq. cbn [default from_option]. unfold id. rewrite bool_decide_eq_false_2 by apply not_elem_of_nil.
      eexists _, _. split; [reflexivity|]. split; [|split].
      + apply NoDup_app. split; [done|]. split; [|apply NoDup_singleton]. by intros x Hx ->%list_elem_of_singleton.
      + intros i. by rewrite elem_of_app, list_elem_of_singleton.
      + intros i. destruct (decide (i = t_Id t)) as [->|Hne]; [|by rewrite !lookup_insert_ne].
        rewrite lookup_insert_eq, E. cbn. unfold id. by rewrite bool_decide_eq_false_2 by apply not_elem_of_nil. }
  cbn [fst snd]. split; [| done | |].
  - intros i. rewrite Hids', Hids, map_app, elem_of_app. cbn. by rewrite list_elem_of_singleton.
  - intros i. rewrite Hids', Htests'. case_decide; [split; [intros _; by eexists|intros _; by right]|].
    rewrite <- Hsome. naive_solver.
  - intros i ts. rewrite Htests', firsts_snoc. pose proof (collected_default l ids tests i HC) as Hdef.
    pose proof (firsts_facts l) as [_ Hel]. case_decide as Hi.
    + intros [= <-]. rewrite Hdef. subst i.
      assert (bool_decide (t ∈ filter (of_id (t_Id t)) (firsts l)) = bool_decide (t ∈ firsts l)) as ->.
      { apply bool_decide_ext. rewrite list_elem_of_filter. naive_solver. }
      case_bool_decide; [by rewrite app_nil_r|]. rewrite filter_app. f_equal. by rewrite filter_cons_True.
    + intros ->%Hts. case_bool_decide; [done|]. rewrite filter_app, filter_cons_False by naive_solver.
      by rewrite app_nil_r.
Qed.

Lemma addTests_collected l : collected l (fst (foldl addTest ([], ∅) l)) (snd (foldl addTest ([], ∅) l)).
Proof.
  induction l as [|t l IH] using rev_ind.
  - split; cbn; [done|constructor| |].
    + intros i. rewrite lookup_empty. split; [by intros ?%elem_of_nil|by intros []].
    + intros i ts. by rewrite lookup_empty.
  - rewrite foldl_app. cbn [foldl]. by apply addTest_collected.
Qed.

Definition id_le (x y : Test) : Prop := String.le (t_Id x) (t_Id y).

(** The tests of each identifier, identifiers in order. *)
Lemma sortRegistry_shape r : exists ids, NoDup ids /\ StronglySorted String.le ids /\
  (forall i, i ∈ ids <-> i ∈ map t_Id (r_Test r)) /\
  r_Test (sortRegistry r) = (i ← ids; filter (of_id i) (firsts (r_Test r))).
Proof.
  unfold sortRegistry. pose proof (addTests_collected (r_Test r)) as HC.
  destruct (foldl addTest ([], ∅) (r_Test r)) as [ids tests]. cbn [fst snd] in HC.
  exists (sort_Strings ids). pose proof (sort_Strings_perm ids) as Hp. split_and!.
  - rewrite Hp. apply HC.
  - apply sort_Strings_sorted.
  - intros i. rewrite Hp. apply HC.
  - cbn [r_Test]. clear Hp. induction (sort_Strings ids) as [|i l IH]; [done|]. rewrite !bind_cons, IH.
    by rewrite (collected_default _ _ _ i HC).
Qed.

Lemma filter_bind_of_id ids l i : NoDup ids ->
  filter (of_id i) (j ← ids; filter (of_id j) l) = if decide (i ∈ ids) then filter (of_id i) l else [].
Proof.
  induction 1 as [|j ids Hj Hn IH]; [done|]. rewrite bind_cons, filter_app, IH.
  assert (filter (of_id i) (filter (of_id j) l) = if decide (i = j) then filter (of_id i) l else []) as ->.
  { clear. induction l as [|t l IHl]; [by case_decide|]. destruct (decide (t_Id t = j)) as [Hj|Hj].
    - rewrite (filter_cons_True _ t l) by done. destruct (decide (i = j)) as [->|Hi].
      + by rewrite !filter_cons_True, IHl.
      + rewrite filter_cons_False by congruence. done.
    - rewrite (filter_cons_False (of_id j)) by done. rewrite IHl. case_decide as Hi; [|done]. subst.
      by rewrite filter_cons_False. }
  destruct (decide (i = j)) as [->|Hi].
  - rewrite (decide_False (P := j ∈ ids)) by done. rewrite decide_True by (by left). by rewrite app_nil_r.
  - cbn [app]. destruct (decide (i ∈ ids)); [by rewrite decide_True by (by right)|].
    rewrite decide_False; [done|]. by intros [?|?]%elem_of_cons.
Qed.


Lemma bind_of_id_elem (ids : list string) (l : list Test) t : t ∈ (i ← ids; filter (of_id i) l) <-> t ∈ l /\ t_Id t ∈ ids.
Proof.
  rewrite list_elem_of_bind. setoid_rewrite list_elem_of_filter. split; [by intros (i & [<- Ht] & Hi)|].
  intros [Ht Hi]. by exists (t_Id t).
Qed.

Lemma bind_of_id_sorted ids (l : list Test) : StronglySorted String.le ids -> StronglySorted id_le (i ← ids; filter (of_id i) l).
Proof.
  induction 1 as [|i ids Hs IH Hi]; [constructor|]. rewrite bind_cons. apply StronglySorted_app_2; [|clear|done].
  - intros x y [Hx _]%list_elem_of_filter [_ Hy]%bind_of_id_elem. rewrite Forall_forall in Hi.
    unfold id_le. rewrite Hx. by apply Hi.
  - induction l as [|t l IH]; [constructor|]. rewrite filter_cons. case_decide as Ht; [|done].
    constructor; [done|]. apply Forall_forall. intros y [Hy _]%list_elem_of_filter. unfold id_le. by rewrite Ht, Hy.
Qed.

Lemma bind_of_id_NoDup (ids : list string) (l : list Test) : NoDup ids -> NoDup l -> NoDup (i ← ids; filter (of_id i) l).
Proof.
  intros Hi Hl. induction Hi as [|i ids Hn Hi IH]; [constructor|]. rewrite bind_cons. apply NoDup_app.
  split; [by apply NoDup_filter|]. split; [|done].
  intros t [Ht _]%list_elem_of_filter [_ Hid]%bind_of_id_elem. by rewrite Ht in Hid.
Qed.

(** A sorted list is determined by its part of each identifier. *)
Lemma sorted_of_id_unique l1 l2 : StronglySorted id_le l1 -> StronglySorted id_le l2 ->
  (forall i, filter (of_id i) l1 = filter (of_id i) l2) -> l1 = l2.
Proof.
  intros H1. revert l2. induction H1 as [|a l1 Hs1 IH Ha]; intros l2 H2 Hf.
  { destruct l2 as [|b l2]; [done|]. specialize (Hf (t_Id b)). by rewrite filter_cons_True in Hf. }
  destruct l2 as [|b l2]; [specialize (Hf (t_Id a)); by rewrite filter_cons_True in Hf|].
  apply StronglySorted_inv in H2 as [Hs2 Hb].
  assert (forall x y l l', Forall (id_le y) l' -> (forall i, filter (of_id i) (x :: l) = filter (of_id i) (y :: l')) ->
    id_le y x) as Hle.
  { intros x y l l' Hy He. specialize (He (t_Id x)). rewrite filter_cons_True in He by done.
    assert (x ∈ filter (of_id (t_Id x)) (y :: l')) as [_ Hx]%list_elem_of_filter by (rewrite <- He; by left).
    apply elem_of_cons in Hx as [->|Hx]; [unfold id_le; reflexivity|]. rewrite Forall_forall in Hy. by apply Hy. }
  assert (t_Id a = t_Id b) as E.
  { apply (anti_symm String.le); [eapply Hle; [exact Ha|intros; symmetry; apply Hf]|eapply Hle; [exact Hb|exact Hf]]. }
  pose proof (Hf (t_Id a)) as Hab. rewrite !filter_cons_True in Hab by done. injection Hab as -> _. f_equal.
  apply IH; [done|]. intros i. specialize (Hf i). rewrite !filter_cons in Hf. case_decide; by simplify_eq.
Qed.

Lemma sortRegistry_facts r : let out := r_Test (sortRegistry r) in
  r_Name (sortRegistry r) = r_Name r /\ (forall t, t ∈ out <-> t ∈ r_Test r) /\ NoDup out /\ StronglySorted id_le out /\
  (forall i, filter (of_id i) out = filter (of_id i) (firsts (r_Test r))).
Proof.
  destruct (sortRegistry_shape r) as (ids & Hn & Hs & Hel & E). cbn zeta. rewrite E.
  pose proof (firsts_facts (r_Test r)) as [Hf He]. split_and!.
  - unfold sortRegistry. by destruct (foldl addTest ([], ∅) (r_Test r)).
  - intros t. rewrite bind_of_id_elem, He, Hel. split; [naive_solver|]. intros Ht. split; [done|].
    apply list_elem_of_fmap. by exists t.
  - by apply bind_of_id_NoDup.
  - by apply bind_of_id_sorted.
  - intros i. rewrite filter_bind_of_id by done. case_decide as Hi; [done|].
    destruct (filter (of_id i) (firsts (r_Test r))) as [|t ts] eqn:F; [done|]. exfalso. apply Hi.
    assert (t ∈ filter (of_id i) (firsts (r_Test r))) as [Ht Hin]%list_elem_of_filter by (rewrite F; by left).
    apply Hel, list_elem_of_fmap. exists t. split; [done|]. by apply He.
Qed.

(** A registry that is sorted and has no duplicates stays as it is. *)
Lemma sortRegistry_fixed r : NoDup (r_Test r) -> StronglySorted id_le (r_Test r) -> sortRegistry r = r.
Proof.
  intros Hn Hs. destruct (sortRegistry_facts r) as (En & _ & _ & Hs' & Hf).
  destruct r as [name tests], (sortRegistry _) as [name' tests'] eqn:E. cbn in *. subst name'. f_equal.
  apply sorted_of_id_unique; [done..|]. intros i. by rewrite Hf, firsts_NoDup.
Qed.

(** [sort_testregistry] keeps the name and the set of the entries, drops
    exactly the entries equal to an earlier one, orders the entries by identifier
    and keeps the order of the entries of one identifier; a second run changes
    nothing. *)
Theorem sortRegistry_correct r : let out := sortRegistry r in
  r_Name out = r_Name r /\ (forall t, t ∈ r_Test out <-> t ∈ r_Test r) /\ NoDup (r_Test out) /\
  StronglySorted id_le (r_Test out) /\
  (forall i, filter (of_id i) (r_Test out) = filter (of_id i) (firsts (r_Test r))) /\
  sortRegistry out = out.
Proof.
  destruct (sortRegistry_facts r) as (En & He & Hn & Hs & Hf). cbn zeta. split_and!; try done.
  by apply sortRegistry_fixed.
Qed.

(** ** Generating the registry *)

Section Sync.
Context {P : Prototext} (read : string -> go string) (dirs : string -> go (list (string * bool))).

Definition is_metadata (d : walkEntry) : bool := negb (e_isDir d) && String.eqb (e_name d) "metadata.textproto".
Definition metadata_of (d : walkEntry) : go Metadata := f ← read (e_path d); UnmarshalMetadata f.
Definition test_of (d : walkEntry) (m : Metadata) : string * Test := (md_PlanId m, metadataTest dirs (e_path d) m).

(** The metadata files of the walk are fine: readable, with different plan identifiers. *)
Definition files_ok (walk : list walkEntry) (ms : list Metadata) : Prop :=
  Forall (fun d => e_err d = None) walk /\
  Forall2 (fun d m => metadata_of d = Ret m /\ md_PlanId m <> "") (filter (fun d => is_metadata d = true) walk) ms.

Lemma loadStep_spec t0 d t1 : loadStep read dirs t0 d = Ret t1 <->
  e_err d = None /\
  if is_metadata d then exists m, metadata_of d = Ret m /\ md_PlanId m <> "" /\ t0 !! md_PlanId m = None /\
    t1 = <[md_PlanId m := metadataTest dirs (e_path d) m]> t0
  else t1 = t0.
Proof.
  unfold loadStep. destruct (e_err d); [split; [done|by intros []]|]. fold (is_metadata d).
  destruct (is_metadata d); [|split; [by intros [= ->]|by intros [_ ->]]].
  unfold processMetadataFile, metadata_of. destruct (read (e_path d)) as [f| | |]; cbn; try (split; [done|naive_solver]).
  destruct (UnmarshalMetadata f) as [m| | |]; cbn; try (split; [done|naive_solver]).
  destruct (String.eqb_spec (md_PlanId m) "") as [He|He]; [split; [done|naive_solver]|].
  destruct (t0 !! md_PlanId m) as [x|] eqn:E; split.
  - done.
  - intros (_ & m' & [= <-] & _ & E' & _). congruence.
  - intros [= <-]. split; [done|]. by exists m.
  - intros (_ & m' & [= <-] & _ & _ & ->). done.
Qed.

Abbreviation metas walk := (filter (fun d => is_metadata d = true) walk).

(** A walk that succeeds read different identifiers, none of them known before. *)
Lemma loadTests_inv walk : forall t0 t1, foldM (loadStep read dirs) t0 walk = Ret t1 ->
  exists ms, files_ok walk ms /\ NoDup (map md_PlanId ms) /\ Forall (fun m => t0 !! md_PlanId m = None) ms /\
    forall i t, t1 !! i = Some t <-> t0 !! i = Some t \/ (i, t) ∈ zip_with test_of (metas walk) ms.
Proof.
  unfold files_ok. induction walk as [|d walk IH]; intros t0 t1; cbn [foldM].
  { intros [= <-]. exists []. split_and!; try constructor; cbn; [naive_solver|]. by intros [?|?%elem_of_nil]. }
  rewrite bind_Ret. intros (t & [He Hd]%loadStep_spec & (ms & [Hw H2] & Hnd & Hfr & Hel)%IH). rewrite filter_cons.
  destruct (is_metadata d) eqn:Em; [rewrite decide_True by done|rewrite decide_False by congruence].
  - destruct Hd as (m & Hm & Hne & Hnone & ->). rewrite Forall_forall in Hfr.
    exists (m :: ms). split_and!; [by constructor|by constructor|..].
    + cbn. constructor; [|done]. intros (m' & E & Hm')%list_elem_of_fmap. specialize (Hfr m' Hm').
      by rewrite E, lookup_insert_eq in Hfr.
    + constructor; [done|]. apply Forall_forall. intros m' Hm'. specialize (Hfr m' Hm').
      rewrite lookup_insert in Hfr. by case_decide.
    + intros i t. rewrite Hel. cbn [zip_with]. rewrite elem_of_cons. unfold test_of at 2.
      rewrite lookup_insert. case_decide as Hi; [subst i|].
      * split; [intros [[= <-]|?]; [by right; left|by right; right]|].
        intros [Ht|[[= ->]|?]]; [congruence|by left|by right].
      * split; [intros [?|?]; [by left|by right; right]|]. intros [?|[[= -> _]|?]]; [by left|done|by right].
  - subst t. exists ms. split_and!; try done. by constructor.
Qed.

Lemma loadTests_ok walk : forall t0 ms, files_ok walk ms -> NoDup (map md_PlanId ms) ->
  Forall (fun m => t0 !! md_PlanId m = None) ms -> exists t1, foldM (loadStep read dirs) t0 walk = Ret t1.
Proof.
  unfold files_ok. induction walk as [|d walk IH]; intros t0 ms [Hw H2] Hnd Hfr; cbn [foldM]; [by eexists|].
  apply Forall_cons in Hw as [He Hw]. rewrite filter_cons in H2.
  destruct (is_metadata d) eqn:Em; [rewrite decide_True in H2 by done|rewrite decide_False in H2 by congruence].
  - apply Forall2_cons_inv_l in H2 as (m & ms' & [Hm Hne] & H2 & ->). cbn in Hnd.
    apply NoDup_cons in Hnd as [Hni Hnd]. apply Forall_cons in Hfr as [Hm0 Hfr].
    assert (loadStep read dirs t0 d = Ret (<[md_PlanId m := metadataTest dirs (e_path d) m]> t0)) as ->.
    { apply loadStep_spec. rewrite Em. split; [done|]. by exists m. }
    apply (IH _ ms'); [done|done|]. apply Forall_forall. intros m' Hm'. rewrite Forall_forall in Hfr.
    rewrite lookup_insert_ne; [by apply Hfr|]. intros E. apply Hni, list_elem_of_fmap. by exists m'.
  - assert (loadStep read dirs t0 d = Ret t0) as -> by (apply loadStep_spec; by rewrite Em). by apply (IH _ ms).
Qed.

Definition tests_of (walk : list walkEntry) (ms : list Metadata) : list Test :=
  zip_with (fun d m => metadataTest dirs (e_path d) m) (metas walk) ms.

Lemma tests_of_zip walk ms i t : (i, t) ∈ zip_with test_of (metas walk) ms <-> t ∈ tests_of walk ms /\ t_Id t = i.
Proof.
  unfold tests_of. rewrite !elem_of_lookup_zip_with. unfold test_of. split.
  - intros (k & d & m & [= -> ->] & ? & ?). split; [by exists k, d, m|done].
  - intros [(k & d & m & -> & ? & ?) <-]. by exists k, d, m.
Qed.

Lemma tests_of_ids walk ms : files_ok walk ms -> map t_Id (tests_of walk ms) = map md_PlanId ms.
Proof.
  intros [_ H2]. unfold tests_of. induction H2 as [|d m ds ms _ H2 IH]; [done|]. cbn. by rewrite IH.
Qed.

(** The identifiers of the registry are the keys, in order. *)
Lemma generateRegistry_ids name tests order : (forall i t, tests !! i = Some t -> t_Id t = i) ->
  order ≡ₚ (map_to_list tests).*1 ->
  map t_Id (r_Test (generateRegistry name tests order)) = sort_Strings order /\
  forall t, t ∈ r_Test (generateRegistry name tests order) <-> tests !! t_Id t = Some t.
Proof.
  intros Hid Ho. assert (forall i, i ∈ sort_Strings order -> is_Some (tests !! i)) as Hs.
  { intros i Hi. rewrite sort_Strings_perm, Ho in Hi. apply list_elem_of_fmap in Hi as ([j t] & -> & Hj).
    apply elem_of_map_to_list in Hj. by eexists. }
  cbn [generateRegistry r_Test]. split.
  - induction (sort_Strings order) as [|i l IH]; [done|]. destruct (Hs i) as [t Ht]; [by left|].
    cbn. rewrite Ht. cbn. rewrite (Hid i t Ht). f_equal. apply IH. intros j Hj. apply Hs. by right.
  - intros t. rewrite list_elem_of_omap. split; [intros (i & _ & Hi); by rewrite (Hid i t Hi)|].
    intros Ht. exists (t_Id t). split; [|done]. rewrite sort_Strings_perm, Ho. apply list_elem_of_fmap.
    exists (t_Id t, t). split; [done|]. by apply elem_of_map_to_list.
Qed.

Lemma loadTests_cases walk order name : (forall m, order m ≡ₚ (map_to_list m).*1) ->
  match loadTestsFromDir read dirs walk with
  | Ret tests =>
      exists ms, files_ok walk ms /\ NoDup (map md_PlanId ms) /\
        let r := generateRegistry name tests (order tests) in
        r_Test r ≡ₚ tests_of walk ms /\ StronglySorted id_le (r_Test r) /\ NoDup (map t_Id (r_Test r))
  | _ => ~ exists ms, files_ok walk ms /\ NoDup (map md_PlanId ms)
  end.
Proof.
  intros Ho. destruct (loadTestsFromDir read dirs walk) as [tests| | |] eqn:E.
  2-4: (intros (ms & Hok & Hnd); destruct (loadTests_ok walk ∅ ms Hok Hnd) as [t1 E1];
    [by apply Forall_true; intros; apply lookup_empty|]; unfold loadTestsFromDir in E; congruence).
  unfold loadTestsFromDir in E. destruct (loadTests_inv walk ∅ tests E) as (ms & Hok & Hnd & _ & Hel).
  assert (forall i t, tests !! i = Some t <-> t ∈ tests_of walk ms /\ t_Id t = i) as Hel'.
  { intros i t. rewrite Hel, lookup_empty, tests_of_zip. naive_solver. }
  destruct (generateRegistry_ids name tests (order tests)) as [Hids Hin]; [intros i t; rewrite Hel'; by intros []|apply Ho|].
  set (r := generateRegistry name tests (order tests)) in *.
  assert (NoDup (map t_Id (r_Test r))) as Hn.
  { rewrite Hids, sort_Strings_perm, Ho. apply NoDup_fst_map_to_list. }
  exists ms. split; [done|]. split; [done|]. cbn zeta. split_and!; [| |done].
  - apply NoDup_Permutation; [exact (NoDup_fmap_1 t_Id _ Hn)|apply (NoDup_fmap_1 t_Id)|].
    + change (NoDup (map t_Id (tests_of walk ms))). by rewrite tests_of_ids.
    + intros t. rewrite Hin, Hel'. naive_solver.
  - pose proof (sort_Strings_sorted (order tests)) as Hs. rewrite <- Hids in Hs. clear -Hs.
    induction (r_Test r) as [|t l IH]; [constructor|]. cbn in Hs. apply StronglySorted_inv in Hs as [Hs Ht].
    constructor; [by apply IH|]. apply (proj1 (Forall_fmap _ _ _)) in Ht. exact Ht.
Qed.
End Sync.

(** C34: [sync_test_registry] loads the metadata files of the feature directory
    exactly when each can be read and parsed, has a plan identifier, and no two
    have the same one; the registry then has one entry per metadata file, in the
    order of the identifiers whatever the order of the iteration over the map, and
    [sort_testregistry] leaves it as it is. *)
Theorem sync_registry_correct {P : Prototext} read dirs walk order name :
  (forall m, order m ≡ₚ (map_to_list m).*1) ->
  match loadTestsFromDir read dirs walk with
  | Ret tests =>
      exists ms, files_ok read walk ms /\ NoDup (map md_PlanId ms) /\
        let r := generateRegistry name tests (order tests) in
        r_Test r ≡ₚ tests_of dirs walk ms /\ StronglySorted id_le (r_Test r) /\ NoDup (map t_Id (r_Test r)) /\
        sortRegistry r = r
  | _ => ~ exists ms, files_ok read walk ms /\ NoDup (map md_PlanId ms)
  end.
Proof.
  intros Ho. pose proof (loadTests_cases read dirs walk order name Ho) as H.
  destruct (loadTestsFromDir read dirs walk) as [tests| | |]; [|exact H..].
  destruct H as (ms & Hok & Hnd & Hp & Hs & Hn). exists ms. cbn zeta. split_and!; try done.
  apply sortRegistry_fixed; [|done]. exact (NoDup_fmap_1 t_Id _ Hn).
Qed.

(** A text form of messages for the examples: the identifier of a registry's name
    and of a metadata file. *)
Definition plainText : Prototext := {|
  UnmarshalRegistry s := Ret {| r_Name := s; r_Test := [] |};
  UnmarshalMetadata s := Ret {| md_Uuid := s; md_PlanId := s; md_Description := "test " +:+ s |};
  MarshalRegistry r := Ret (r_Name r +:+ Join (map t_Id (r_Test r)) ",");
  Format s := Ret s |}.
Definition sample_walk : list walkEntry := [
  {| e_path := "feature/bgp/metadata.textproto"; e_isDir := false; e_name := "metadata.textproto"; e_err := None |};
  {| e_path := "feature/bgp"; e_isDir := true; e_name := "bgp"; e_err := None |};
  {| e_path := "feature/aft/metadata.textproto"; e_isDir := false; e_name := "metadata.textproto"; e_err := None |} ].
Definition sample_read (p : string) : go string :=
  if String.eqb p "feature/bgp/metadata.textproto" then Ret "RT-1.1" else Ret "AFT-1.1".

Lemma sync_registry_witness :
  match @loadTestsFromDir plainText sample_read (fun _ => Ret [("x_test.go", false)]) sample_walk with
  | Ret tests =>
      exists ms, @files_ok plainText sample_read sample_walk ms /\ NoDup (map md_PlanId ms) /\
        let r := generateRegistry "WBB" tests (map_to_list tests).*1 in
        r_Test r ≡ₚ tests_of (fun _ => Ret [("x_test.go", false)]) sample_walk ms /\ StronglySorted id_le (r_Test r) /\
        NoDup (map t_Id (r_Test r)) /\ sortRegistry r = r
  | _ => ~ exists ms, @files_ok plainText sample_read sample_walk ms /\ NoDup (map md_PlanId ms)
  end.
Proof.
  apply (@sync_registry_correct plainText sample_read (fun _ => Ret [("x_test.go", false)]) sample_walk
    (fun m => (map_to_list m).*1) "WBB"). intros m. reflexivity.
Defined.

Lemma sample_walk_loads :
  match @loadTestsFromDir plainText sample_read (fun _ => Ret [("x_test.go", false)]) sample_walk with
  | Ret tests => bool_decide (map t_Id (r_Test (generateRegistry "WBB" tests (map_to_list tests).*1)) = ["AFT-1.1"; "RT-1.1"])
  | _ => false
  end = true.
Proof. vm_compute. reflexivity. Qed.

(** ** The order of the wiki's titles *)

(** A token that is a number without leading zeros that fits an [int], or a word. *)
Definition good_token (t : string) : Prop :=
  match Atoi_digits t with
  | Some n => Itoa n = t
  | None => match t with String c _ => is_lower c = true | EmptyString => False end
  end.

Definition tokenLess (x y : string) : bool :=
  match Atoi_digits x, Atoi_digits y with
  | Some iv, Some jv => (iv <? jv)%Z
  | _, _ => str_lt x y
  end.

Lemma Atoi_digits_head t n : Atoi_digits t = Some n -> exists c s, t = String c s /\ is_digit c = true.
Proof.
  unfold Atoi_digits. destruct t as [|c s]; [done|]. cbn [digits_value]. intros H. exists c, s. split; [done|].
  unfold is_digit. destruct (digit_val c); [by apply bool_decide_eq_true_2; eexists|done].
Qed.

Lemma digit_below_lower c d s t : is_digit c = true -> is_lower d = true -> str_lt (String c s) (String d t) = true.
Proof.
  unfold is_digit, is_lower, digit_val. intros [k Hk]%bool_decide_eq_true [H1%Nat.leb_le H2%Nat.leb_le]%andb_true_iff.
  assert (nat_of_ascii c < 97) as Hc.
  { assert (match Ascii.is_nat c with Some _ => nat_of_ascii c <? 97 | None => true end = true) as H.
    { destruct c as [[] [] [] [] [] [] [] []]; vm_compute; reflexivity. }
    destruct (Ascii.is_nat c); [by apply Nat.ltb_lt|done]. }
  unfold str_lt, String.ltb. cbn [String.compare]. unfold Ascii.compare.
  rewrite (proj2 (N.compare_lt_iff _ _)); [done|].
  unfold nat_of_ascii in *. lia.
Qed.

Lemma tokenLess_number_word x y n : Atoi_digits x = Some n -> Atoi_digits y = None -> good_token y ->
  str_lt x y = true.
Proof.
  intros Hx Hy Gy. unfold good_token in Gy. rewrite Hy in Gy. destruct y as [|d t]; [done|].
  destruct (Atoi_digits_head _ _ Hx) as (c & s & -> & Hc). by apply digit_below_lower.
Qed.

Lemma word_not_below_number x y n : Atoi_digits x = None -> Atoi_digits y = Some n -> good_token x ->
  str_lt x y = true -> False.
Proof.
  intros Hx Hy Gx H. pose proof (str_lt_trans _ _ _ H (tokenLess_number_word y x n Hy Hx Gx)) as Hxx.
  by rewrite str_lt_irrefl in Hxx.
Qed.

(** On good tokens the comparison is a strict total order. *)
Lemma tokenLess_trans x y z : good_token x -> good_token y -> good_token z ->
  tokenLess x y = true -> tokenLess y z = true -> tokenLess x z = true.
Proof.
  intros Gx Gy Gz. unfold tokenLess.
  destruct (Atoi_digits x) as [a|] eqn:Ex, (Atoi_digits y) as [b|] eqn:Ey, (Atoi_digits z) as [c|] eqn:Ez;
    rewrite ?Z.ltb_lt; try lia; try (intros; by eapply str_lt_trans); intros H1 H2; try lia;
    try (by eapply tokenLess_number_word); exfalso; by eauto using word_not_below_number.
Qed.

Lemma tokenLess_irrefl x : tokenLess x x = false.
Proof. unfold tokenLess. destruct (Atoi_digits x); [apply Z.ltb_irrefl|apply str_lt_irrefl]. Qed.

Lemma tokenLess_total x y : good_token x -> good_token y -> x <> y -> tokenLess x y = true \/ tokenLess y x = true.
Proof.
  intros Gx Gy Hne. unfold tokenLess.
  destruct (Atoi_digits x) as [a|] eqn:Ex, (Atoi_digits y) as [b|] eqn:Ey.
  - rewrite !Z.ltb_lt. assert (a <> b); [|lia]. intros ->. unfold good_token in *. rewrite Ex in Gx. rewrite Ey in Gy.
    congruence.
  - left. by eapply tokenLess_number_word.
  - right. by eapply tokenLess_number_word.
  - rewrite !str_lt_spec. destruct (String_as_OT.compare_spec x y); [done|by left|by right].
Qed.

Lemma tokensLess_cons x xs y ys : tokensLess (x :: xs) (y :: ys) =
  if String.eqb x y then tokensLess xs ys else tokenLess x y.
Proof. done. Qed.

Abbreviation good ts := (Forall good_token ts).

Lemma tokensLess_irrefl xs : tokensLess xs xs = false.
Proof. induction xs as [|x xs IH]; [done|]. rewrite tokensLess_cons. by rewrite String.eqb_refl. Qed.

Lemma tokensLess_trans xs : forall ys zs, good xs -> good ys -> good zs ->
  tokensLess xs ys = true -> tokensLess ys zs = true -> tokensLess xs zs = true.
Proof.
  induction xs as [|x xs IH]; intros [|y ys] [|z zs] Gx Gy Gz; try done.
  rewrite !tokensLess_cons. apply Forall_cons in Gx as [Gx Gxs], Gy as [Gy Gys], Gz as [Gz Gzs].
  destruct (String.eqb_spec x y) as [->|Hxy], (String.eqb_spec y z) as [->|Hyz].
  - by apply IH.
  - by intros _.
  - destruct (String.eqb_spec x z); [done|]. by intros H _.
  - intros H1 H2. pose proof (tokenLess_trans x y z Gx Gy Gz H1 H2) as H.
    destruct (String.eqb_spec x z) as [->|]; [|done]. by rewrite tokenLess_irrefl in H.
Qed.

Lemma tokensLess_total xs : forall ys, good xs -> good ys -> xs <> ys ->
  tokensLess xs ys = true \/ tokensLess ys xs = true.
Proof.
  induction xs as [|x xs IH]; intros [|y ys] Gx Gy Hne; [done|by left|by right|].
  apply Forall_cons in Gx as [Gx Gxs], Gy as [Gy Gys]. rewrite !tokensLess_cons.
  destruct (String.eqb_spec x y) as [->|Hxy].
  - rewrite String.eqb_refl. apply IH; [done|done|congruence].
  - destruct (String.eqb_spec y x); [by subst|]. by apply tokenLess_total.
Qed.

(** Sorted by [docLess], as [sort.Slice] leaves the documents when the order is strict. *)
Abbreviation sorted_docs := (StronglySorted (notAfter docLess)).

Lemma docLess_unique l1 l2 : Forall (fun d => good (titleTokens d)) l1 ->
  (forall x y, x ∈ l1 -> y ∈ l1 -> titleTokens x = titleTokens y -> x = y) ->
  l1 ≡ₚ l2 -> sorted_docs l1 -> sorted_docs l2 -> l1 = l2.
Proof.
  intros HG Hinj Hp H1 H2. apply (StronglySorted_unique_strong (notAfter docLess)); [|done..].
  intros x y Hx Hy%(elem_of_Permutation_proper y _ _ (symmetry Hp)) Hxy Hyx. apply Hinj; [done|done|].
  rewrite Forall_forall in HG. unfold notAfter, docLess in *.
  destruct (decide (titleTokens x = titleTokens y)) as [|Hne]; [done|].
  destruct (tokensLess_total _ _ (HG x Hx) (HG y Hy) Hne); congruence.
Qed.

Lemma tokensLess_asym xs : forall ys, tokensLess xs ys = true -> tokensLess ys xs = true -> False.
Proof.
  induction xs as [|x xs IH]; intros [|y ys]; try done. rewrite !tokensLess_cons.
  destruct (String.eqb_spec x y) as [->|Hxy]; [rewrite String.eqb_refl; apply IH|].
  destruct (String.eqb_spec y x); [by subst|]. unfold tokenLess.
  destruct (Atoi_digits x), (Atoi_digits y); rewrite ?Z.ltb_lt; try lia;
    intros H1 H2; pose proof (str_lt_trans _ _ _ H1 H2) as H; by rewrite str_lt_irrefl in H.
Qed.

#[local] Instance notAfter_docLess_total : Total (notAfter docLess).
Proof.
  intros x y. unfold notAfter, docLess. destruct (tokensLess (titleTokens y) (titleTokens x)) eqn:E; [|by left].
  right. apply not_true_iff_false. intros H. by eapply tokensLess_asym.
Qed.

Lemma notAfter_good_trans x y z : good (titleTokens x) -> good (titleTokens y) -> good (titleTokens z) ->
  notAfter docLess x y -> notAfter docLess y z -> notAfter docLess x z.
Proof.
  intros Gx Gy Gz. unfold notAfter, docLess. intros Hxy Hyz. apply not_true_iff_false. intros Hzx.
  destruct (decide (titleTokens x = titleTokens y)) as [E|Hne]; [rewrite E in Hzx; congruence|].
  destruct (tokensLess_total _ _ Gx Gy Hne) as [H|H]; [|congruence].
  pose proof (tokensLess_trans _ _ _ Gz Gx Gy Hzx H). congruence.
Qed.

Lemma Sorted_good docs : Forall (fun d => good (titleTokens d)) docs -> Sorted (notAfter docLess) docs -> sorted_docs docs.
Proof.
  induction docs as [|d docs IH]; intros HG Hs; [constructor|]. apply Forall_cons in HG as [Gd HG].
  apply Sorted_inv in Hs as [Hs Hd]. specialize (IH HG Hs). constructor; [done|].
  inversion Hd as [|e l He]; subst; [constructor|]. apply StronglySorted_inv in IH as [_ IH].
  apply Forall_cons in HG as [Ge HG]. constructor; [done|]. rewrite Forall_forall in *. intros f Hf.
  apply (notAfter_good_trans d e f); [done|done|by apply HG|done|by apply IH].
Qed.

Lemma sortTests_sorted docs : Forall (fun d => good (titleTokens d)) docs -> sorted_docs (sortTests docs).
Proof.
  intros HG. apply Sorted_good; [|apply Sorted_merge_sort; apply _].
  rewrite Forall_forall in *. intros d Hd. apply HG. by rewrite <- (sortSlice_perm docLess docs).
Qed.

(** When the numbers in the titles have no leading zeros and fit an [int] and
    no two titles have the same words and numbers, the order of the wiki's sidebar
    is determined by the set of tests: the documents sorted by [sortTests] are the
    only arrangement that the comparison of [sortTests] accepts, whatever order the
    map of the documents was iterated in. *)
Theorem wiki_order_determined docs docs' out :
  Forall (fun d => Forall good_token (titleTokens d)) docs ->
  (forall x y, x ∈ docs -> y ∈ docs -> titleTokens x = titleTokens y -> x = y) ->
  docs' ≡ₚ docs -> out ≡ₚ docs -> Sorted (notAfter docLess) out ->
  out = sortTests docs' /\ sortTests docs' = sortTests docs.
Proof.
  intros HG Hinj Hp Ho Hs.
  assert (forall l l', l ≡ₚ docs -> l' ≡ₚ docs -> Sorted (notAfter docLess) l -> Sorted (notAfter docLess) l' -> l = l') as Huniq.
  { intros l l' Hl Hl' Sl Sl'. assert (forall k, k ≡ₚ docs -> Forall (fun d => good (titleTokens d)) k) as HGk.
    { intros k Hk. rewrite Forall_forall in *. intros d Hd. apply HG. by rewrite <- Hk. }
    apply docLess_unique; [by apply HGk| |by rewrite Hl, Hl'|apply Sorted_good; auto|apply Sorted_good; auto].
    intros x y Hx Hy. apply Hinj; by rewrite <- Hl. }
  assert (forall l, Sorted (notAfter docLess) (sortTests l)) as HS by (intros l; apply Sorted_merge_sort; apply _).
  split; apply Huniq; auto; unfold sortTests; by rewrite sortSlice_perm.
Qed.

Ltac sorted_computed :=
  lazymatch goal with
  | |- Sorted _ [] => apply Sorted_nil
  | |- Sorted _ (_ :: _) => apply Sorted_cons; [sorted_computed|]
  end;
  lazymatch goal with
  | |- HdRel _ _ [] => apply HdRel_nil
  | |- HdRel _ _ (_ :: _) => apply HdRel_cons; vm_compute; reflexivity
  | |- _ => idtac
  end.

Definition sample_doc (name title : string) : testDoc := {| d_Name := name; d_Title := title; d_Path := name +:+ "/README.md" |}.
Definition sample_docs : list testDoc := [sample_doc "b" "RT-10.1: B"; sample_doc "a" "RT-2.1: A"].

Lemma wiki_order_witness :
  [sample_doc "a" "RT-2.1: A"; sample_doc "b" "RT-10.1: B"] = sortTests sample_docs /\
  sortTests sample_docs = sortTests sample_docs.
Proof.
  apply (wiki_order_determined sample_docs sample_docs).
  - repeat (apply Forall_cons; split); try apply Forall_nil; vm_compute; try done; repeat constructor.
  - unfold sample_docs. intros x y [->|[->|[]%elem_of_nil]%elem_of_cons]%elem_of_cons
      [->|[->|[]%elem_of_nil]%elem_of_cons]%elem_of_cons E; try reflexivity; vm_compute in E; discriminate E.
  - reflexivity.
  - apply Permutation_swap.
  - sorted_computed.
Defined.

(** With leading zeros the comparison of [sortTests] is not a strict weak
    order: two titles that it orders can both be unordered with a third, so the
    sidebar depends on the order of the iteration over a map. *)
Theorem wiki_order_leading_zeros :
  let a := sample_doc "a" "XX-1: A" in let b := sample_doc "b" "XX-1: B" in let c := sample_doc "c" "XX-01: C" in
  docLess a b = true /\ docLess a c = false /\ docLess c a = false /\ docLess b c = false /\ docLess c b = false /\
  Sorted (notAfter docLess) [b; c; a] /\ Sorted (notAfter docLess) [a; b; c].
Proof. cbn zeta. split_and!; first [sorted_computed|vm_compute; reflexivity]. Qed.

(** ** The pages of the wiki *)

Definition page (root name : string) : string := root +:+ wikiPath +:+ name +:+ ".md".

Lemma page_inj root x y : page root x = page root y -> x = y.
Proof. unfold page. intros H. apply (inj (String.app root)), (inj (String.app wikiPath)) in H. by apply str_app_inj_r in H. Qed.

Section Pages.
Context (root : string) (text : testDoc -> string).

(** The README of every document can be read, its page can be written, and is not a README itself. *)
Definition pages_ok (docs : list testDoc) (fs : Files) : Prop :=
  Forall (fun d => contents fs !! d_Path d = Some (text d) /\ (page root (d_Name d) ∉ readOnly fs) /\
    forall d', d' ∈ docs -> d_Path d' <> page root (d_Name d)) docs.

Lemma writeTestDocs_run docs : forall fs, pages_ok docs fs ->
  writeTestDocs docs root fs =
    (Ret tt, {| contents := foldl (fun m d => <[page root (d_Name d) := text d]> m) (contents fs) docs;
                readOnly := readOnly fs |}).
Proof.
  unfold writeTestDocs, pages_ok. induction docs as [|d docs IH]; intros fs Hok.
  { cbn. by destruct fs. }
  apply Forall_cons in Hok as [(Hr & Hw & Hp) Hok]. cbn [forEach foldl].
  set (fs1 := {| contents := <[page root (d_Name d) := text d]> (contents fs); readOnly := readOnly fs |}).
  rewrite (bind_run _ _ fs tt fs1).
  - rewrite (IH fs1); [done|]. rewrite Forall_forall in *. intros d' Hd'. destruct (Hok d' Hd') as (Hr' & Hw' & Hp').
    split_and!; [|done|intros d'' Hd''; apply Hp'; by right].
    cbn. rewrite lookup_insert_ne; [done|]. intros E. apply (Hp d'); [by right|done].
  - rewrite (bind_run _ _ fs (text d) fs); [|unfold ReadFile; by rewrite Hr].
    unfold WriteFile. rewrite decide_False by done. done.
Qed.

Lemma pages_last docs : forall (m : gmap string string) n, foldl (fun m d => <[page root (d_Name d) := text d]> m) m docs !! page root n =
  match last (filter (fun d => d_Name d = n) docs) with Some d => Some (text d) | None => m !! page root n end.
Proof.
  induction docs as [|d docs IH] using rev_ind; intros m n; [done|]. rewrite foldl_app, filter_app. cbn [foldl].
  destruct (decide (d_Name d = n)) as [<-|Hne].
  - rewrite lookup_insert_eq, filter_cons_True, filter_nil by done. by rewrite last_snoc.
  - rewrite filter_cons_False, filter_nil by done. rewrite app_nil_r, lookup_insert_ne; [apply IH|].
    intros E%page_inj. done.
Qed.

(** [writeTestDocs] writes the page of each directory name once per document
    of that name; the page has the README of the last of these documents.  Two
    tests in directories of the same name share a page, and the README of one of
    them is not in the wiki. *)
Theorem wiki_pages docs fs n : pages_ok docs fs ->
  exists fs', writeTestDocs docs root fs = (Ret tt, fs') /\
    contents fs' !! page root n =
      match last (filter (fun d => d_Name d = n) docs) with
      | Some d => Some (text d)
      | None => contents fs !! page root n
      end.
Proof. intros Hok. eexists. split; [by apply writeTestDocs_run|]. cbn. apply pages_last. Qed.
End Pages.

Definition prefix_set_docs : list testDoc := [
  {| d_Name := "prefix_set_test"; d_Title := "RT-1.33: BGP Policy"; d_Path := "bgp/prefix_set_test/README.md" |};
  {| d_Name := "prefix_set_test"; d_Title := "PF-1.1: PF"; d_Path := "policy_forwarding/prefix_set_test/README.md" |} ].
Definition prefix_set_files : Files := {|
  contents := {[ "bgp/prefix_set_test/README.md" := "BGP"; "policy_forwarding/prefix_set_test/README.md" := "PF" ]};
  readOnly := ∅ |}.

Lemma wiki_pages_witness :
  exists fs', writeTestDocs prefix_set_docs "out" prefix_set_files = (Ret tt, fs') /\
    contents fs' !! page "out" "prefix_set_test" = Some "PF".
Proof.
  apply (wiki_pages "out" (fun d => if String.eqb (d_Path d) "bgp/prefix_set_test/README.md" then "BGP" else "PF")
    prefix_set_docs prefix_set_files "prefix_set_test").
  unfold pages_ok, prefix_set_docs. apply Forall_cons; split; [|apply Forall_cons; split; [|by constructor]].
  all: split; [vm_compute; reflexivity|]; split; [set_solver|].
  all: intros d' [->|[->|[]%elem_of_nil]%elem_of_cons]%elem_of_cons; cbn; discriminate.
Defined.
