(* ===== verification/Components.v ===== *)
(** Components of a device ([src/internal/components/components.go]): the cached
    queries by type, the search for the controller cards and for the optical
    channel of a port.  What a device answers to a query is an argument. *)
From stdpp Require Import base list gmap sets strings.
From Stdlib Require Import ZArith Lia.
From S2P Require Import Prelude GoStrings Deviations.

(** * Data *)

(** [oc.Component_Type_Union]: a hardware or a software type. *)
Inductive ComponentType := Hardware (ty : string) | Software (ty : string).
#[export] Instance ComponentType_eq_dec : EqDecision ComponentType.
Proof. solve_decision. Defined.
#[export] Instance ComponentType_countable : Countable ComponentType.
Proof.
  apply (inj_countable' (fun c => match c with Hardware s => inl s | Software s => inr s end)
    (fun x => match x with inl s => Hardware s | inr s => Software s end)). by intros [].
Defined.

Inductive OperStatus := OPER_UNSET | ACTIVE | INACTIVE | DISABLED.
#[export] Instance OperStatus_eq_dec : EqDecision OperStatus.
Proof. solve_decision. Defined.

(** [None] is an unset type or leaf. *)
Record Component := {
  c_Name : string;
  c_Type : option ComponentType;
  c_OperStatus : OperStatus;
  c_MfgName : option string;
  c_PartNo : option string;
  c_Description : option string;
  c_SoftwareVersion : option string }.

(** * The cache of the package *)

Abbreviation Cache := (gmap string (list Component)).

(** [getAll] is what [gnmi.GetAll] returns now; it is not called when the
    components of the device are cached. *)
Definition fetchCachedComponents (dutName : string) (getAll : go (list Component)) : gost Cache (list Component) :=
  fun cache =>
    match cache !! dutName with
    | Some cached => (Ret cached, cache)
    | None =>
        match getAll with
        | Ret components => (Ret components, <[dutName := components]> cache)
        | m => (m, cache)
        end
    end.

(** A type switch: a software type is not of the hardware enumeration. *)
Definition hasHardwareType (ty : string) (c : Component) : bool :=
  match c_Type c with Some (Hardware v) => String.eqb v ty | _ => false end.
Definition hasSoftwareType (ty : string) (c : Component) : bool :=
  match c_Type c with Some (Software v) => String.eqb v ty | _ => false end.

Definition names_where (f : Component -> bool) (cs : list Component) : list string :=
  map c_Name (filter (fun c => f c = true) cs).

Definition FindComponentsByType (dutName : string) (getAll : go (list Component)) (cType : string) :
    gost Cache (list string) :=
  components ← fetchCachedComponents dutName getAll;
  mret (names_where (hasHardwareType cType) components).

(** This one always asks the device. *)
Definition FindActiveComponentsByType (getAll : go (list Component)) (cType : string) : go (list string) :=
  components ← getAll;
  Ret (names_where (fun c => hasHardwareType cType c && bool_decide (c_OperStatus c = ACTIVE)) components).

Definition FindSWComponentsByType (dutName : string) (getAll : go (list Component)) (cType : string) :
    gost Cache (list string) :=
  components ← fetchCachedComponents dutName getAll;
  mret (names_where (hasSoftwareType cType) components).

Definition FindMatchingStrings (components : list string) (matches : string -> bool) : list string :=
  filter (fun c => matches c = true) components.

(** ** Paths *)

Record PathElem := { pe_Name : string; pe_Key : gmap string string }.
Record Path := { pa_Origin : string; pa_Elem : list PathElem }.

Definition GetSubcomponentPath (name : string) (useNameOnly : bool) : Path :=
  if useNameOnly then {| pa_Origin := ""; pa_Elem := [ {| pe_Name := name; pe_Key := ∅ |} ] |}
  else {| pa_Origin := "openconfig";
          pa_Elem := [ {| pe_Name := "components"; pe_Key := ∅ |};
                       {| pe_Name := "component"; pe_Key := {[ "name" := name ]} |} ] |}.

(** * The ygnmi helper *)

(** [typeCache] of [Y]: nil in a [Y] that was not made by [New]. *)
Abbreviation TypeCache := (option (gmap ComponentType (list string))).

(** [lookupAll]: the values of [/components/component/type], the type when it is
    present and the name in the path.  The receiver is a copy: a map made here is
    lost, an existing one is shared. *)
Definition FindByType (lookupAll : go (list (option ComponentType * string))) (want : ComponentType)
    (typeCache : TypeCache) : go (list string) * TypeCache :=
  match typeCache ≫= (fun m => m !! want) with
  | Some cached => (Ret cached, typeCache)
  | None =>
      match lookupAll with
      | Ret values =>
          let names := map snd (filter (fun v => fst v = Some want) values) in
          match names with
          | [] => (Fail (errors_New "none of the components match"), typeCache)
          | _ => (Ret names, (fun m => <[want := names]> m) <$> typeCache)
          end
      | Fail e => (Fail e, typeCache)
      | Panic => (Panic, typeCache)
      | NoFuel => (NoFuel, typeCache)
      end
  end.

(** * Controller cards *)

Inductive Role := ROLE_UNSET | PRIMARY | SECONDARY.
#[export] Instance Role_eq_dec : EqDecision Role.
Proof. solve_decision. Defined.

(** [watch s]: the role of [s] was present in time; [get s]: the role read after that. *)
Definition standbyStep (watch : string -> bool) (get : string -> go Role) (st : string * string) (supervisor : string) :
    go (string * string) :=
  let '(activeCC, standbyCC) := st in
  if negb (watch supervisor) then Panic
  else
    role ← get supervisor;
    if decide (role = SECONDARY) then Ret (activeCC, supervisor)
    else if decide (role = PRIMARY) then Ret (supervisor, standbyCC)
    else Panic.

Definition FindStandbyControllerCard (watch : string -> bool) (get : string -> go Role) (supervisors : list string) :
    go (string * string) :=
  '(activeCC, standbyCC) ← foldM (standbyStep watch get) ("", "") supervisors;
  if String.eqb standbyCC "" || String.eqb activeCC "" then Panic else Ret (standbyCC, activeCC).

(** * Optical channels *)

(** [transceiver]: the transceiver of the port's interface; [channel x]: the
    optical channel of channel 0 of transceiver [x]. *)
Definition OpticalChannelComponentFromPort {re : Regexp} (exceptions : list PlatformExceptions) (dut : Device)
    (transceiver : go string) (channel : string -> go string) : go string :=
  missing ← MissingPortToOpticalChannelMapping exceptions dut;
  if missing : bool then
    if String.eqb (dev_Vendor dut) "ARISTA" then t ← transceiver; Ret (t +:+ "-Optical0") else Panic
  else
    transceiverName ← transceiver;
    if String.eqb transceiverName "" then Panic
    else
      opticalChannelName ← channel transceiverName;
      if String.eqb opticalChannelName "" then Panic else Ret opticalChannelName.

(** * Lemmas *)

Lemma names_where_elem f cs n : n ∈ names_where f cs <-> exists c, c ∈ cs /\ f c = true /\ c_Name c = n.
Proof.
  unfold names_where. rewrite list_elem_of_fmap. setoid_rewrite list_elem_of_filter. naive_solver.
Qed.

(** The names [FindByType] returns: never none. *)
Lemma FindByType_Ret lookupAll want cache names cache' : (forall m, cache = Some m -> forall t l, m !! t = Some l -> l <> []) ->
  FindByType lookupAll want cache = (Ret names, cache') -> names <> [].
Proof.
  intros Hc. unfold FindByType. destruct cache as [m|]; cbn [mbind option_bind].
  - destruct (m !! want) as [l|] eqn:E; [intros [= <- _]; by eapply Hc|].
    destruct lookupAll; try done. case_match; [done|]. intros [= <- _]. done.
  - destruct lookupAll; try done. case_match; [done|]. intros [= <- _]. done.
Qed.

(** * Properties *)

(** The cache of components: once a device answered, every later search by a
    hardware or software type gives the components of that type in the first
    answer, whatever the device would answer now, and does not change the cache;
    before, it gives those of the present answer and a failure leaves no entry. *)
Theorem components_cached dutName getAll getAll' cType cache : 
  match fetchCachedComponents dutName getAll cache with
  | (Ret cs, cache') =>
      cs = default cs (cache !! dutName) /\ (cache !! dutName = None -> getAll = Ret cs) /\
      (forall d, d <> dutName -> cache' !! d = cache !! d) /\
      FindComponentsByType dutName getAll' cType cache' = (Ret (names_where (hasHardwareType cType) cs), cache') /\
      FindSWComponentsByType dutName getAll' cType cache' = (Ret (names_where (hasSoftwareType cType) cs), cache')
  | (_, cache') => cache' = cache
  end.
Proof.
  unfold FindComponentsByType, FindSWComponentsByType, mbind, gost_bind. unfold fetchCachedComponents.
  destruct (cache !! dutName) as [cs|] eqn:E; [rewrite E; by split_and!|].
  destruct getAll as [cs| | |]; try done. split_and!; try done.
  - intros d Hd. by rewrite lookup_insert_ne.
  - by rewrite lookup_insert_eq.
  - by rewrite lookup_insert_eq.
Qed.

Lemma standby_fold watch get : forall l a s a' s',
  foldM (standbyStep watch get) (a, s) l = Ret (a', s') <->
  Forall (fun x => watch x = true /\ (get x = Ret PRIMARY \/ get x = Ret SECONDARY)) l /\
  a' = default a (last (filter (fun x => get x = Ret PRIMARY) l)) /\
  s' = default s (last (filter (fun x => get x = Ret SECONDARY) l)).
Proof.
  induction l as [|x l IH]; intros a s a' s'; cbn [foldM].
  { split; [intros [= <- <-]; by split_and!|by intros (_ & -> & ->)]. }
  rewrite bind_Ret, Forall_cons, !filter_cons.
  assert (forall (y : string) z d, default d (last (y :: z)) = default y (last z)) as Hl.
  { intros y z d. rewrite last_cons. by destruct (last z). }
  unfold standbyStep at 1. destruct (watch x); cbn [negb]; [|split; [by intros ([] & ? & _)|naive_solver]].
  destruct (get x) as [r| | |] eqn:E; try (split; [intros ([] & H & _); by rewrite ?E in H|naive_solver]).
  destruct r.
  - split; [intros ([] & H & _); discriminate H|naive_solver].
  - rewrite decide_True by done. rewrite decide_False by done. rewrite Hl. split.
    + intros ([a1 s1] & H & Hr). cbn in H. injection H as <- <-. apply IH in Hr. naive_solver.
    + intros ([_ Hf] & -> & ->). exists (x, s). split; [done|]. by apply IH.
  - rewrite decide_False by done. rewrite decide_True by done. rewrite Hl. split.
    + intros ([a1 s1] & H & Hr). cbn in H. injection H as <- <-. apply IH in Hr. naive_solver.
    + intros ([_ Hf] & -> & ->). exists (a, x). split; [done|]. by apply IH.
Qed.

(** [FindStandbyControllerCard] returns exactly when every controller card
    reports the primary or the secondary role in time and both roles are held by a
    card with a name; it returns the last card of each role, the standby first. *)
Theorem FindStandbyControllerCard_correct watch get supervisors standby active :
  FindStandbyControllerCard watch get supervisors = Ret (standby, active) <->
  Forall (fun x => watch x = true /\ (get x = Ret PRIMARY \/ get x = Ret SECONDARY)) supervisors /\
  last (filter (fun x => get x = Ret PRIMARY) supervisors) = Some active /\
  last (filter (fun x => get x = Ret SECONDARY) supervisors) = Some standby /\ active <> "" /\ standby <> "".
Proof.
  unfold FindStandbyControllerCard. rewrite bind_Ret. split.
  - intros ([a s] & (Hf & Ha & Hs)%standby_fold & H). cbn in H.
    destruct (String.eqb_spec s ""), (String.eqb_spec a ""); try discriminate H. injection H as <- <-.
    split; [done|]. destruct (last (filter (fun x => get x = Ret PRIMARY) supervisors)); cbn in Ha; subst; [|done].
    by destruct (last (filter (fun x => get x = Ret SECONDARY) supervisors)); cbn in *; subst.
  - intros (Hf & Ha & Hs & Hna & Hns). exists (active, standby). split.
    + apply standby_fold. rewrite Ha, Hs. done.
    + cbn. destruct (String.eqb_spec standby ""); [done|]. by destruct (String.eqb_spec active "").
Qed.
