(* ===== verification/RunProps.v ===== *)
(** Run data of a test ([src/internal/rundata]): the properties a test run
    reports about its build, repository, testbed and devices.

    The build information, the git repository, the call stack, the flags and the
    answers of the devices are arguments. *)
From stdpp Require Import base list gmap sets strings sorting pretty.
From Stdlib Require Import ZArith Lia Ascii.
From S2P Require Import Prelude GoStrings Components.

Abbreviation Props := (gmap string string).

(** * local.go *)

Record BuildInfo := {
  bi_GoVersion : string;
  bi_Path : string;
  bi_Main_Path : string;
  bi_Main_Version : string;
  bi_Main_Sum : string;
  bi_Settings : list (string * string) }.

Definition buildInfo (bi : option BuildInfo) (m : Props) : Props :=
  match bi with
  | None => m
  | Some bi =>
      let m := <["build.go_version" := bi_GoVersion bi]> m in
      let m := <["build.path" := bi_Path bi]> m in
      let m := <["build.main.path" := bi_Main_Path bi]> m in
      let m := <["build.main.version" := bi_Main_Version bi]> m in
      let m := <["build.main.sum" := bi_Main_Sum bi]> m in
      foldl (fun m s => <["build.settings." +:+ fst s := snd s]> m) m (bi_Settings bi)
  end.

(** What go-git answers about a repository: the URLs of [origin], the hash of
    [HEAD], the hash and time of a commit, the working tree with its root, its
    status text and whether it is clean. *)
Record Repository := {
  Remote_origin : go (list string);
  Repo_Head : go string;
  CommitObject : string -> go (string * Z);
  Worktree : go string;
  Worktree_Status : go (string * bool) }.

Definition gitOrigin (repo : Repository) : go string :=
  urls ← Remote_origin repo;
  match urls with
  | [] => Fail (errors_New "origin has no URLs")
  | u :: _ => Ret u
  end.

Definition gitHead (repo : Repository) : go (string * Z) :=
  head ← Repo_Head repo; CommitObject repo head.

(** An error other than the first is only logged. *)
Definition gitInfoWithRepo (repo : Repository) (m : Props) : string * Props :=
  match Worktree repo with
  | Ret root =>
      let m := match gitOrigin repo with Ret origin => <["git.origin" := origin]> m | _ => m end in
      let m := match gitHead repo with
               | Ret (h, t) => <["git.commit_timestamp" := Itoa t]> (<["git.commit" := h]> m)
               | _ => m
               end in
      let m := match Worktree_Status repo with
               | Ret (text, clean) =>
                   <["git.clean" := if clean : bool then "true" else "false"]> (<["git.status" := text]> m)
               | _ => m
               end in
      (root, m)
  | _ => ("", m)
  end.

(** [open dir] is [PlainOpenWithOptions] with [DetectDotGit]. *)
Definition gitInfo (cwd : go string) (open : string -> go Repository) (m : Props) : string * Props :=
  match (cwd ← cwd; open cwd) with
  | Ret repo => gitInfoWithRepo repo m
  | _ => ("", m)
  end.

Definition part : string := "/featureprofiles/".

Definition fpPath (testPath : string) : string :=
  match LastIndex testPath part with
  | None => ""
  | Some i =>
      let i := i + String.length part in
      match LastIndexByte testPath "/"%char with
      | None => ""
      | Some j => if j <? i then "" else str_take (j - i) (str_drop i testPath)
      end
  end.

(** The first file of the call stack with the suffix.  [frames.Next] reports
    whether more frames follow, so the last frame is not looked at. *)
Fixpoint testFrame (files : list string) : option string :=
  match files with
  | [] => None
  | [_] => None
  | f :: fs => if HasSuffix f "_test.go" then Some f else testFrame fs
  end.

Definition testPath (wd : string) (files : list string) : string :=
  match testFrame files with
  | None => ""
  | Some file =>
      if String.eqb wd "" then fpPath file
      else
        let dir := Dir file in
        let prefix := Clean wd +:+ "/" in
        if HasPrefix dir prefix then str_drop (String.length prefix) dir else ""
  end.

Record Flag := { f_Name : string; f_Value : string; f_DefValue : string }.

(** [fs.Visit] goes through the flags that were set, in order of their names. *)
Definition deviationInfo (set_flags : list Flag) (m : Props) : Props :=
  foldl (fun m f =>
    if negb (HasPrefix (f_Name f) "deviation_") then m
    else if String.eqb (f_DefValue f) (f_Value f) then m
    else <["deviation." +:+ str_drop (String.length "deviation_") (f_Name f) := f_Value f]> m) m set_flags.

Record Local := {
  lo_build : option BuildInfo;
  lo_cwd : go string;
  lo_open : string -> go Repository;
  lo_files : list string;
  lo_flags : list Flag }.

Definition local (env : Local) (m : Props) : Props :=
  let m := buildInfo (lo_build env) m in
  let '(wd, m) := gitInfo (lo_cwd env) (lo_open env) m in
  let tp := testPath wd (lo_files env) in
  let m := if String.eqb tp "" then m else <["test.path" := tp]> m in
  deviationInfo (lo_flags env) m.

(** * dut.go *)

Record DUTInfo := { Vendor : string; Model : string; OSVer : string }.

(** What a device answers to the queries. *)
Record Gnmi := {
  g_types : go (list (option ComponentType * string));
  g_component : string -> go Component;
  g_componentVersion : string -> go string;
  g_lldp : go string;
  g_systemVersion : go string }.

Definition chassisType : ComponentType := Hardware "CHASSIS".
Definition osType : ComponentType := Software "OPERATING_SYSTEM".

(** [y.FindByType] in a [Y] without a cache. *)
Definition findByType (y : Gnmi) (ty : ComponentType) : go (list string) := fst (FindByType (g_types y) ty None).

(** [ids[0]], a panic on an empty slice. *)
Definition first_id (ids : list string) : go string :=
  match ids with [] => Panic | id :: _ => Ret id end.

Definition setFromSystem (y : Gnmi) (di : DUTInfo) : DUTInfo :=
  if String.eqb (OSVer di) "" then
    match g_systemVersion y with
    | Ret softVer => {| Vendor := Vendor di; Model := Model di; OSVer := softVer |}
    | _ => di
    end
  else di.

(** The leaves of the chassis. *)
Definition fromChassis (c : Component) (di : DUTInfo) : DUTInfo :=
  let vendor := if String.eqb (Vendor di) "" then default (Vendor di) (c_MfgName c) else Vendor di in
  let model := if String.eqb (Model di) "" then default (Model di) (c_PartNo c) else Model di in
  let model :=
    match c_Description c with
    | Some desc =>
        if HasPrefix vendor "Cisco" || HasPrefix vendor "Nokia" || String.eqb model "" then desc else model
    | None => model
    end in
  let osver := if String.eqb (OSVer di) "" then default (OSVer di) (c_SoftwareVersion c) else OSVer di in
  {| Vendor := vendor; Model := model; OSVer := osver |}.

Definition setFromComponentChassis (y : Gnmi) (di : DUTInfo) : go DUTInfo :=
  if negb (String.eqb (Vendor di) "") && negb (String.eqb (Model di) "") && negb (String.eqb (OSVer di) "") then Ret di
  else
    match findByType y chassisType with
    | Ret chassisIDs =>
        chassisID ← first_id chassisIDs;
        match g_component y chassisID with
        | Ret component => Ret (fromChassis component di)
        | _ => Ret di
        end
    | _ => Ret di
    end.

Definition setFromComponentOS (y : Gnmi) (di : DUTInfo) : go DUTInfo :=
  if negb (String.eqb (OSVer di) "") then Ret di
  else
    match findByType y osType with
    | Ret osIDs =>
        osID ← first_id osIDs;
        match g_componentVersion y osID with
        | Ret softVer => Ret {| Vendor := Vendor di; Model := Model di; OSVer := softVer |}
        | _ => Ret di
        end
    | _ => Ret di
    end.

Definition juniper : string := "Juniper Networks, Inc.".
Definition srlinux : string := "SRLinux-v".

(** [strings.Split(lldp, " ")[0][len(srlinux):]]; an error leaves [lldp] empty. *)
Definition setFromLLDP (y : Gnmi) (di : DUTInfo) : DUTInfo :=
  if negb (String.eqb (Vendor di) "") && negb (String.eqb (OSVer di) "") then di
  else
    let lldp := match g_lldp y with Ret s => s | _ => "" end in
    let vendor := if Contains lldp juniper then juniper else Vendor di in
    if HasPrefix lldp srlinux then
      {| Vendor := if String.eqb vendor "" then "Nokia" else vendor;
         Model := Model di;
         OSVer := if String.eqb (OSVer di) ""
                  then str_drop (String.length srlinux) (default "" (head (split_on " "%char lldp))) else OSVer di |}
    else {| Vendor := vendor; Model := Model di; OSVer := OSVer di |}.

(** ** Short names *)

Definition vendors : list string :=
  ["ARISTA"; "CISCO"; "DELL"; "JUNIPER"; "IXIA"; "CIENA"; "PALOALTO"; "ZPE"; "NOKIA"].

Definition shortVendor (di : DUTInfo) : string :=
  if String.eqb (Vendor di) "" then ""
  else
    let fullUpper := ToUpper (Vendor di) in
    match filter (fun v => Contains fullUpper v = true) vendors with
    | v :: _ => v
    | [] =>
        if Contains fullUpper "PALO ALTO" then "PALOALTO" else default "" (head (split_on " "%char fullUpper))
    end.

Definition newline : ascii := ascii_of_nat 10.
(** The text up to a newline, which [.] does not match. *)
Definition line_of (s : string) : string := default "" (head (split_on newline s)).

(** The group of the regular expression [ciscoRE]: after the leftmost "Cisco "
    that a space of the same line follows, the text up to the first such space. *)
Fixpoint ciscoRE (s : string) : option string :=
  match (if HasPrefix s "Cisco " then
           let rest := line_of (str_drop 6 s) in
           match IndexByte rest " "%char with Some k => Some (str_take k rest) | None => None end
         else None) with
  | Some g => Some g
  | None => match s with EmptyString => None | String _ s' => ciscoRE s' end
  end.

(** A space and an opening bracket at the last place of the line where a closing
    bracket follows; the group ends at the last closing bracket. *)
Fixpoint bracketRE (s : string) : option string :=
  match s with
  | EmptyString => None
  | String _ s' =>
      match bracketRE s' with
      | Some g => Some g
      | None =>
          if HasPrefix s " [" then
            let rest := str_drop 2 s in
            match LastIndexByte rest "]"%char with Some k => Some (str_take k rest) | None => None end
          else None
      end
  end.

(** The group of [jnpRE], for the leftmost "JNP" that matches. *)
Fixpoint jnpRE (s : string) : option string :=
  match (if HasPrefix s "JNP" then bracketRE (line_of (str_drop 3 s)) else None) with
  | Some g => Some g
  | None => match s with EmptyString => None | String _ s' => jnpRE s' end
  end.

Definition shortModel (di : DUTInfo) : string :=
  match ciscoRE (Model di) with
  | Some g => g
  | None => match jnpRE (Model di) with Some g => g | None => Model di end
  end.

Definition put (di : DUTInfo) (id : string) (m : Props) : Props :=
  let m := if String.eqb (Vendor di) "" then m
           else <[id +:+ ".vendor" := shortVendor di]> (<[id +:+ ".vendor.full" := Vendor di]> m) in
  let m := if String.eqb (Model di) "" then m
           else <[id +:+ ".model" := shortModel di]> (<[id +:+ ".model.full" := Model di]> m) in
  if String.eqb (OSVer di) "" then m else <[id +:+ ".os_version" := OSVer di]> m.

(** [newClient] is [ygnmi.NewClient]. *)
Definition NewDUTInfo (newClient : go Gnmi) : go DUTInfo :=
  match newClient with
  | Ret y =>
      let di := setFromSystem y {| Vendor := ""; Model := ""; OSVer := "" |} in
      di ← setFromComponentChassis y di;
      di ← setFromComponentOS y di;
      Ret (setFromLLDP y di)
  | _ => Fail (errors_New "could not create ygnmiClient for dut")
  end.

(** The devices of the reservation in the order of the iteration, each with
    what dialing it gives and the client on the connection. *)
Definition dutsInfo (duts : list (string * go (go Gnmi))) (m : Props) : go Props :=
  foldM (fun m d =>
    match snd d with
    | Ret gnmic =>
        match NewDUTInfo gnmic with
        | Ret dInfo => Ret (put dInfo (fst d) m)
        | Fail _ => Ret m
        | Panic => Panic
        | NoFuel => NoFuel
        end
    | _ => Ret m
    end) m duts.

(** * rundata.go *)

(** The device names and their numbers of ports, ATEs and DUTs, in the order of the iterations. *)
Definition topology (ates duts : list (string * nat)) : string :=
  let top := foldl (fun m d => <[fst d := snd d]> m) (∅ : gmap string nat) (ates ++ duts) in
  let topKeys := sort_Strings (map fst ates ++ map fst duts) in
  Join (map (fun k => k +:+ ":" +:+ Itoa (Z.of_nat (default 0 (top !! k)))) topKeys) ",".

Record TestMetadata := { tm_Uuid : string; tm_PlanId : string; tm_Description : string }.

Record Reservation := {
  resv_ATEs : list (string * nat);
  resv_DUTs : list (string * nat);
  resv_dials : list (string * go (go Gnmi)) }.

Definition set_nonempty (k v : string) (m : Props) : Props := if String.eqb v "" then m else <[k := v]> m.

Definition Properties (md : TestMetadata) (env : Local) (knownIssueURL : string) (collectDUTInfo : bool)
    (resv : option Reservation) : go Props :=
  let m := local env ∅ in
  let m := set_nonempty "test.uuid" (tm_Uuid md) m in
  let m := set_nonempty "test.plan_id" (tm_PlanId md) m in
  let m := set_nonempty "test.description" (tm_Description md) m in
  let m := set_nonempty "known_issue_url" knownIssueURL m in
  match resv with
  | None => Ret m
  | Some r =>
      let m := <["topology" := topology (resv_ATEs r) (resv_DUTs r)]> m in
      if collectDUTInfo then dutsInfo (resv_dials r) m else Ret m
  end.

Definition Timing (timeBegin now : Z) : Props :=
  <["time.end" := Itoa now]> (<["time.begin" := Itoa timeBegin]> ∅).

(** * Lemmas *)

(** ** Paths *)

Lemma str_drop_app a b : str_drop (String.length a) (a +:+ b) = b.
Proof. induction a as [|c a IH]; [done|]. by rewrite str_app_cons. Qed.

Lemma testFrame_cons x y files : testFrame (x :: y :: files) =
  if HasSuffix x "_test.go" then Some x else testFrame (y :: files).
Proof. done. Qed.

Lemma testFrame_spec files f : testFrame files = Some f <->
  exists l1 l2, files = l1 ++ f :: l2 /\ l2 <> [] /\ HasSuffix f "_test.go" = true /\
    Forall (fun x => HasSuffix x "_test.go" = false) l1.
Proof.
  induction files as [|x files IH]; [split; [done|by intros ([] & l2 & ? & _)]|].
  destruct files as [|y files].
  { split; [done|]. intros (l1 & l2 & E & Hne & _). destruct l1 as [|? [|? ?]]; simplify_eq/=. }
  rewrite testFrame_cons. destruct (HasSuffix x "_test.go") eqn:E.
  - split.
    + intros [= <-]. exists [], (y :: files). by split_and!.
    + intros (l1 & l2 & Hf & _ & _ & Hl). destruct l1 as [|x' l1]; simplify_eq/=; [done|].
      apply Forall_cons in Hl as [Hx _]. congruence.
  - rewrite IH. split; intros (l1 & l2 & Hf & Hne & Hs & Hl).
    + exists (x :: l1), l2. split_and!; try done; [by rewrite Hf|by constructor].
    + destruct l1 as [|x' l1]; simplify_eq/=; [congruence|]. apply Forall_cons in Hl as [_ Hl]. by exists l1, l2.
Qed.

Lemma HasPrefix_drop s p : HasPrefix s p = true -> p +:+ str_drop (String.length p) s = s.
Proof. intros [r ->]%HasPrefix_spec. by rewrite str_drop_app. Qed.

(** ** Keys of a device *)

Lemma app_suffix a b s t : a +:+ s = b +:+ t -> String.length s <= String.length t -> exists c, t = c +:+ s /\ a = b +:+ c.
Proof.
  revert a. induction b as [|x b IH]; intros a E Hl.
  { exists a. by split. }
  destruct a as [|y a].
  - exfalso. apply (f_equal String.length) in E. rewrite str_app_cons in E. cbn in E.
    change ("" +:+ s) with s in E. rewrite str_length_app in E. lia.
  - rewrite !str_app_cons in E. injection E as -> E. destruct (IH a E Hl) as (c & -> & ->). exists c. by rewrite str_app_cons.
Qed.

Definition suffixes : list string := [".vendor.full"; ".vendor"; ".model.full"; ".model"; ".os_version"].

(** No key of one device is a key of another. *)
Lemma key_inj id1 id2 s1 s2 : s1 ∈ suffixes -> s2 ∈ suffixes -> id1 +:+ s1 = id2 +:+ s2 -> id1 = id2 /\ s1 = s2.
Proof.
  intros H1 H2 E.
  assert (forall s t, s ∈ suffixes -> t ∈ suffixes -> HasSuffix t s = true -> s = t) as Hs.
  { assert (forallb (fun s => forallb (fun t => implb (HasSuffix t s) (String.eqb s t)) suffixes) suffixes = true) as H
      by (vm_compute; reflexivity).
    rewrite forallb_forall in H. intros s t Hs%list_elem_of_In Ht%list_elem_of_In Hst.
    specialize (H s Hs). rewrite forallb_forall in H. specialize (H t Ht). rewrite Hst in H. by apply String.eqb_eq. }
  assert (exists c, (s2 = c +:+ s1 /\ id1 = id2 +:+ c) \/ (s1 = c +:+ s2 /\ id2 = id1 +:+ c)) as [c Hc].
  { destruct (Nat.le_ge_cases (String.length s1) (String.length s2)) as [Hl|Hl].
    - destruct (app_suffix _ _ _ _ E Hl) as (c & ? & ?). exists c. by left.
    - destruct (app_suffix _ _ _ _ (symmetry E) Hl) as (c & ? & ?). exists c. by right. }
  assert (s1 = s2) as ->.
  { destruct Hc as [[Hc _]|[Hc _]]; [|symmetry]; apply Hs; try done; apply HasSuffix_spec; by exists c. }
  split; [|done]. by apply str_app_inj_r in E.
Qed.

(** The properties of one device. *)
Definition dut_props (di : DUTInfo) (id : string) : Props := put di id ∅.

Lemma put_union di id m : put di id m = dut_props di id ∪ m.
Proof.
  unfold dut_props, put.
  destruct (String.eqb (Vendor di) ""), (String.eqb (Model di) ""), (String.eqb (OSVer di) "");
    rewrite <- ?insert_union_l; by rewrite (left_id_L ∅ (∪)).
Qed.

Lemma dut_props_keys di id k : is_Some (dut_props di id !! k) -> exists s, s ∈ suffixes /\ k = id +:+ s.
Proof.
  unfold dut_props, put.
  destruct (String.eqb (Vendor di) ""), (String.eqb (Model di) ""), (String.eqb (OSVer di) "");
    rewrite ?lookup_insert; repeat case_decide; subst; rewrite ?lookup_empty; intros [v Hv]; try discriminate Hv;
    eexists; (split; [|reflexivity]); unfold suffixes; set_solver.
Qed.

Lemma dut_props_disjoint d1 d2 id1 id2 : id1 <> id2 -> dut_props d1 id1 ##ₘ dut_props d2 id2.
Proof.
  intros Hne. apply map_disjoint_spec. intros k x y H1 H2.
  destruct (dut_props_keys d1 id1 k) as (s1 & Hs1 & ->); [by eexists|].
  destruct (dut_props_keys d2 id2 (id1 +:+ s1)) as (s2 & Hs2 & E); [by eexists|].
  by destruct (key_inj _ _ _ _ Hs1 Hs2 E).
Qed.

(** ** Devices *)

Lemma findByType_first y ty ids : findByType y ty = Ret ids -> exists id, first_id ids = Ret id.
Proof.
  unfold findByType. destruct (FindByType (g_types y) ty None) as [r c] eqn:E. cbn. intros ->.
  apply FindByType_Ret in E; [|done]. destruct ids as [|id ids]; [done|]. by exists id.
Qed.

(** The first non-empty of two texts. *)
Definition orElse (s t : string) : string := if String.eqb s "" then t else s.
Definition answer (m : go string) : string := match m with Ret s => s | _ => "" end.

(** The chassis and the software version of the operating system, when the device has them. *)
Definition chassis (y : Gnmi) : option Component :=
  match findByType y chassisType with
  | Ret (id :: _) => match g_component y id with Ret c => Some c | _ => None end
  | _ => None
  end.
Definition osComponent (y : Gnmi) : string :=
  match findByType y osType with
  | Ret (id :: _) => answer (g_componentVersion y id)
  | _ => ""
  end.

Lemma setFromSystem_spec y : setFromSystem y {| Vendor := ""; Model := ""; OSVer := "" |} =
  {| Vendor := ""; Model := ""; OSVer := answer (g_systemVersion y) |}.
Proof. unfold setFromSystem, answer. cbn. by destruct (g_systemVersion y). Qed.

Lemma setFromComponentChassis_spec y di : Vendor di = "" ->
  setFromComponentChassis y di = Ret (match chassis y with Some c => fromChassis c di | None => di end).
Proof.
  intros Hv. unfold setFromComponentChassis, chassis. rewrite Hv. cbn [String.eqb negb andb].
  destruct (findByType y chassisType) as [ids| | |] eqn:E; [|done..].
  destruct (findByType_first _ _ _ E) as [id Hid]. destruct ids as [|id' ids]; [done|]. cbn in Hid. injection Hid as ->.
  cbn. by destruct (g_component y id).
Qed.

Lemma setFromComponentOS_spec y di : setFromComponentOS y di =
  Ret {| Vendor := Vendor di; Model := Model di; OSVer := orElse (OSVer di) (osComponent y) |}.
Proof.
  unfold setFromComponentOS, osComponent, orElse. destruct di as [v mo o]. cbn [Vendor Model OSVer].
  destruct (String.eqb_spec o "") as [->|]; cbn [negb]; [|done].
  destruct (findByType y osType) as [ids| | |] eqn:E; [|done..].
  destruct (findByType_first _ _ _ E) as [id Hid]. destruct ids as [|id' ids]; [done|]. cbn in Hid. injection Hid as ->.
  cbn. unfold answer. by destruct (g_componentVersion y id).
Qed.

(** The version in a system description of SR Linux. *)
Definition lldpVersion (lldp : string) : string :=
  if HasPrefix lldp srlinux then str_drop (String.length srlinux) (default "" (head (split_on " "%char lldp))) else "".

Lemma setFromLLDP_osver y di : OSVer (setFromLLDP y di) =
  if String.eqb (Vendor di) "" || String.eqb (OSVer di) "" then orElse (OSVer di) (lldpVersion (answer (g_lldp y)))
  else OSVer di.
Proof.
  unfold setFromLLDP, lldpVersion, orElse. fold (answer (g_lldp y)).
  destruct (String.eqb_spec (Vendor di) "") as [Ev|Ev], (String.eqb_spec (OSVer di) "") as [Eo|Eo]; cbn [negb andb orb]; try done.
  all: destruct (HasPrefix (answer (g_lldp y)) srlinux); cbn [OSVer]; done.
Qed.

Lemma orElse_assoc a b c : orElse (orElse a b) c = orElse a (orElse b c).
Proof.
  unfold orElse. destruct (String.eqb_spec a "") as [->|Ha]; [done|].
  destruct (String.eqb_spec a ""); [done|]. done.
Qed.

Lemma fromChassis_osver c o : OSVer (fromChassis c {| Vendor := ""; Model := ""; OSVer := o |}) =
  orElse o (default "" (c_SoftwareVersion c)).
Proof. unfold fromChassis, orElse. cbn. destruct (String.eqb_spec o "") as [->|]; [|done]. by destruct (c_SoftwareVersion c). Qed.

(** [NewDUTInfo] on a client never panics and never fails, whatever the
    device answers; the OS version is the first non-empty one of the system, of the
    chassis, of the operating system and of the LLDP description; the vendor is the
    manufacturer of the chassis when it has one and either the OS version is known
    or the LLDP description names no other; the model is the part number of the
    chassis, replaced by its description for Cisco and Nokia and when there is no
    part number. *)
Theorem NewDUTInfo_precedence y : exists di, NewDUTInfo (Ret y) = Ret di /\
  let c := chassis y in
  let sw := orElse (answer (g_systemVersion y)) (orElse (default "" (c ≫= c_SoftwareVersion)) (osComponent y)) in
  let mfg := default "" (c ≫= c_MfgName) in
  OSVer di = orElse sw (lldpVersion (answer (g_lldp y))) /\
  (mfg <> "" -> sw <> "" \/ Contains (answer (g_lldp y)) juniper = false -> Vendor di = mfg) /\
  (forall d, c ≫= c_Description = Some d -> HasPrefix mfg "Cisco" = true \/ HasPrefix mfg "Nokia" = true -> Model di = d) /\
  (HasPrefix mfg "Cisco" = false -> HasPrefix mfg "Nokia" = false ->
   Model di = orElse (default "" (c ≫= c_PartNo)) (default "" (c ≫= c_Description))).
Proof.
  cbn zeta. unfold NewDUTInfo. rewrite setFromSystem_spec, setFromComponentChassis_spec by done.
  set (o := answer (g_systemVersion y)). cbn [mbind outcome_bind].
  set (di1 := match chassis y with Some c => fromChassis c _ | None => _ end).
  assert (OSVer di1 = orElse o (default "" (chassis y ≫= c_SoftwareVersion)) /\
    Vendor di1 = default "" (chassis y ≫= c_MfgName) /\
    Model di1 = (let mfg := default "" (chassis y ≫= c_MfgName) in
                 let p := default "" (chassis y ≫= c_PartNo) in
                 match chassis y ≫= c_Description with
                 | Some d => if HasPrefix mfg "Cisco" || HasPrefix mfg "Nokia" || String.eqb p "" then d else p
                 | None => p end)) as (Ho & Hv & Hm).
  { unfold di1. destruct (chassis y) as [c|]; cbn [mbind option_bind].
    - split_and!; [apply fromChassis_osver|done|done].
    - cbn. split_and!; [|done|done]. unfold orElse. by destruct (String.eqb_spec o ""). }
  rewrite setFromComponentOS_spec. cbn [mbind outcome_bind].
  set (di2 := {| Vendor := Vendor di1 |}). eexists. split; [reflexivity|].
  assert (OSVer di2 = orElse o (orElse (default "" (chassis y ≫= c_SoftwareVersion)) (osComponent y))) as Ho2.
  { unfold di2. cbn. by rewrite Ho, orElse_assoc. }
  assert (Model (setFromLLDP y di2) = Model di1) as Hm2.
  { unfold setFromLLDP. repeat case_match; done. }
  split_and!.
  - rewrite setFromLLDP_osver, Ho2. destruct (String.eqb_spec (Vendor di2) ""); cbn [orb]; [done|].
    set (sw := orElse o _). unfold orElse. by destruct (String.eqb sw "").
  - rewrite <- Hv, <- Ho2. change (Vendor di1) with (Vendor di2). intros Hmfg Hor. unfold setFromLLDP.
    fold (answer (g_lldp y)). destruct (String.eqb_spec (Vendor di2) ""); [done|]. cbn [negb andb].
    destruct (String.eqb_spec (OSVer di2) "") as [E|E]; cbn [negb]; [|done]. destruct Hor as [|Hj]; [done|]. rewrite Hj.
    destruct (HasPrefix (answer (g_lldp y)) srlinux); cbn [Vendor]; [|done].
    by destruct (String.eqb_spec (Vendor di2) "").
  - intros d Hd Hp. rewrite Hm2, Hm. cbv zeta. rewrite Hd. destruct Hp as [-> | ->]; [done|]. by rewrite orb_true_r.
  - intros Hc Hn. rewrite Hm2, Hm. cbv zeta. rewrite Hc, Hn. cbn [orb]. unfold orElse.
    destruct (chassis y ≫= c_Description); cbn [default from_option]; [done|].
    by destruct (String.eqb_spec (default "" (chassis y ≫= c_PartNo)) "").
Qed.

Lemma NewDUTInfo_safe c : match NewDUTInfo c with Ret _ | Fail _ => True | _ => False end.
Proof.
  destruct c as [y| | |]; [|done..]. unfold NewDUTInfo. rewrite setFromSystem_spec, setFromComponentChassis_spec by done.
  cbn [mbind outcome_bind]. by rewrite setFromComponentOS_spec.
Qed.

(** The information of a device of the reservation, if it could be collected. *)
Definition info_of (d : string * go (go Gnmi)) : option DUTInfo :=
  match snd d with
  | Ret gnmic => match NewDUTInfo gnmic with Ret di => Some di | _ => None end
  | _ => None
  end.
Definition props_of (d : string * go (go Gnmi)) : Props :=
  match info_of d with Some di => dut_props di (fst d) | None => ∅ end.

Lemma dutsInfo_run duts : forall m, dutsInfo duts m = Ret (foldl (fun m d => props_of d ∪ m) m duts).
Proof.
  unfold dutsInfo. induction duts as [|d duts IH]; intros m; [done|]. cbn [foldM foldl].
  unfold props_of at 2, info_of. destruct (snd d) as [c| | |]; try (cbn; rewrite (left_id_L ∅ (∪)); apply IH).
  pose proof (NewDUTInfo_safe c) as Hs. destruct (NewDUTInfo c) as [di| | |]; try done; cbn.
  - rewrite put_union. apply IH.
  - rewrite (left_id_L ∅ (∪)). apply IH.
Qed.

Lemma props_of_disjoint d1 d2 : fst d1 <> fst d2 -> props_of d1 ##ₘ props_of d2.
Proof.
  intros Hne. unfold props_of. destruct (info_of d1), (info_of d2); try (apply map_disjoint_empty_l || apply map_disjoint_empty_r).
  by apply dut_props_disjoint.
Qed.

Lemma dutsInfo_lookup duts : forall m k v, NoDup (map fst duts) ->
  foldl (fun m d => props_of d ∪ m) m duts !! k = Some v <->
  (exists d, d ∈ duts /\ props_of d !! k = Some v) \/ (m !! k = Some v /\ forall d, d ∈ duts -> props_of d !! k = None).
Proof.
  induction duts as [|d duts IH]; intros m k v Hn; cbn [foldl].
  { split; [intros H; right; split; [done|]; by intros d Hd%elem_of_nil|]. intros [(d & Hd%elem_of_nil & _)|[? _]]; done. }
  cbn in Hn. apply NoDup_cons in Hn as [Hd Hn]. rewrite IH by done. rewrite lookup_union_Some_raw.
  assert (forall d', d' ∈ duts -> is_Some (props_of d !! k) -> props_of d' !! k = None) as Hdis.
  { intros d' Hd' [x Hx]. destruct (props_of d' !! k) as [w|] eqn:E; [|done]. exfalso.
    eapply (map_disjoint_spec (props_of d) (props_of d')); [|exact Hx|exact E]. apply props_of_disjoint.
    intros Ef. apply Hd, list_elem_of_fmap. by exists d'. }
  setoid_rewrite elem_of_cons. split.
  - intros [(d' & Hd' & Hv)|[[Hv|[Hv Hm]] Hall]].
    + left. exists d'. by split; [right|].
    + left. exists d. by split; [left|].
    + right. split; [done|]. intros d' [->|Hd']; [done|by apply Hall].
  - intros [(d' & [->|Hd'] & Hv)|[Hm Hall]].
    + right. split; [by left|]. intros d' Hd'. apply Hdis; [done|by eexists].
    + left. by exists d'.
    + right. split; [|intros d' Hd'; apply Hall; by right]. right. split; [apply Hall; by left|done].
Qed.

(** ** Topology *)

Lemma foldl_insert_union (l : list (string * nat)) : forall m, NoDup (map fst l) ->
  foldl (fun m d => <[fst d := snd d]> m) m l = (list_to_map l : gmap string nat) ∪ m.
Proof.
  induction l as [|[k v] l IH]; intros m Hn; [cbn; by rewrite (left_id_L ∅ (∪))|].
  cbn in Hn. apply NoDup_cons in Hn as [Hk Hn]. cbn [foldl fst snd]. rewrite IH by done. cbn [list_to_map foldr fst snd uncurry].
  rewrite <- insert_union_l. symmetry. apply insert_union_r, not_elem_of_list_to_map_1. exact Hk.
Qed.

Lemma topology_perm ates ates' duts duts' : NoDup (map fst ates) -> NoDup (map fst duts) ->
  ates ≡ₚ ates' -> duts ≡ₚ duts' -> topology ates duts = topology ates' duts'.
Proof.
  intros Ha Hd Pa Pd. unfold topology.
  assert (map fst ates ≡ₚ map fst ates' /\ map fst duts ≡ₚ map fst duts') as [Ka Kd] by (by rewrite Pa, Pd).
  rewrite (sort_Strings_unique (map fst ates ++ map fst duts) (map fst ates' ++ map fst duts')) by (by rewrite Ka, Kd).
  rewrite !foldl_app, !foldl_insert_union by (by rewrite <- ?Ka, <- ?Kd).
  rewrite (list_to_map_proper duts duts'), (list_to_map_proper ates ates'); done.
Qed.

(** The properties before the ones of the devices. *)
Definition base_props (md : TestMetadata) (env : Local) (knownIssueURL : string) : Props :=
  set_nonempty "known_issue_url" knownIssueURL (set_nonempty "test.description" (tm_Description md)
    (set_nonempty "test.plan_id" (tm_PlanId md) (set_nonempty "test.uuid" (tm_Uuid md) (local env ∅)))).

(** [Properties] returns a map for every reservation, metadata and answer of
    the devices, and the map does not depend on the order in which the maps of the
    reservation are iterated: it has the topology, the properties of every device
    whose information could be collected, under its own identifier, and elsewhere
    the properties of the run. *)
Theorem Properties_order_irrelevant md env url ates ates' duts duts' dials dials' :
  NoDup (map fst ates) -> NoDup (map fst duts) -> NoDup (map fst dials) ->
  ates ≡ₚ ates' -> duts ≡ₚ duts' -> dials ≡ₚ dials' ->
  exists m, Properties md env url true (Some {| resv_ATEs := ates; resv_DUTs := duts; resv_dials := dials |}) = Ret m /\
    Properties md env url true (Some {| resv_ATEs := ates'; resv_DUTs := duts'; resv_dials := dials' |}) = Ret m /\
    forall k v, m !! k = Some v <->
      (exists d di, d ∈ dials /\ info_of d = Some di /\ dut_props di (fst d) !! k = Some v) \/
      (<["topology" := topology ates duts]> (base_props md env url) !! k = Some v /\
       forall d di, d ∈ dials -> info_of d = Some di -> dut_props di (fst d) !! k = None).
Proof.
  intros Ha Hd Hn Pa Pd Pn. unfold Properties. cbn [resv_ATEs resv_DUTs resv_dials]. rewrite !dutsInfo_run.
  rewrite <- (topology_perm ates ates' duts duts' Ha Hd Pa Pd). fold (base_props md env url).
  set (b := <["topology" := _]> _). eexists. split; [reflexivity|]. split.
  - f_equal. apply map_eq. intros k. apply option_eq. intros v.
    rewrite !dutsInfo_lookup by (try done; by rewrite <- Pn). by setoid_rewrite Pn.
  - intros k v. rewrite dutsInfo_lookup by done. unfold props_of. split.
    + intros [(d & Hin & Hv)|[Hb Hall]].
      * left. destruct (info_of d) as [di|] eqn:E; [|by rewrite lookup_empty in Hv]. by exists d, di.
      * right. split; [done|]. intros d di Hin E. specialize (Hall d Hin). by rewrite E in Hall.
    + intros [(d & di & Hin & E & Hv)|[Hb Hall]].
      * left. exists d. by rewrite E.
      * right. split; [done|]. intros d Hin. destruct (info_of d) as [di|] eqn:E; [by apply Hall|apply lookup_empty].
Qed.

Definition sample_gnmi (vendor version : string) : Gnmi := {|
  g_types := Ret [(Some chassisType, "Chassis"); (Some osType, "OS")];
  g_component _ := Ret {| c_Name := "Chassis"; c_Type := Some chassisType; c_OperStatus := ACTIVE;
    c_MfgName := Some vendor; c_PartNo := Some "PN"; c_Description := Some "Cisco 8808 8-slot Chassis";
    c_SoftwareVersion := None |};
  g_componentVersion _ := Ret version; g_lldp := Fail (errors_New "none"); g_systemVersion := Fail (errors_New "none") |}.
Definition sample_env : Local := {|
  lo_build := None; lo_cwd := Fail (errors_New "none"); lo_open _ := Panic;
  lo_files := ["/src/featureprofiles/feature/bgp/tests/a/a_test.go"; "goexit.s"]; lo_flags := [] |}.
Definition sample_md : TestMetadata := {| tm_Uuid := "u"; tm_PlanId := "RT-1.1"; tm_Description := "" |}.
Definition sample_dials : list (string * go (go Gnmi)) :=
  [("dut1", Ret (Ret (sample_gnmi "Cisco Systems" "7.11"))); ("dut2", Ret (Ret (sample_gnmi "Arista" "4.30")))].

Lemma Properties_witness :
  exists m, Properties sample_md sample_env "" true
      (Some {| resv_ATEs := [("ate", 2)]; resv_DUTs := [("dut1", 4); ("dut2", 1)]; resv_dials := sample_dials |}) = Ret m /\
    Properties sample_md sample_env "" true
      (Some {| resv_ATEs := [("ate", 2)]; resv_DUTs := [("dut2", 1); ("dut1", 4)]; resv_dials := rev sample_dials |}) = Ret m /\
    forall k v, m !! k = Some v <->
      (exists d di, d ∈ sample_dials /\ info_of d = Some di /\ dut_props di (fst d) !! k = Some v) \/
      (<["topology" := topology [("ate", 2)] [("dut1", 4); ("dut2", 1)]]> (base_props sample_md sample_env "") !! k = Some v /\
       forall d di, d ∈ sample_dials -> info_of d = Some di -> dut_props di (fst d) !! k = None).
Proof.
  apply Properties_order_irrelevant.
  - apply NoDup_singleton.
  - apply (bool_decide_eq_true_1 (NoDup ["dut1"; "dut2"])). vm_compute. reflexivity.
  - apply (bool_decide_eq_true_1 (NoDup ["dut1"; "dut2"])). vm_compute. reflexivity.
  - reflexivity.
  - apply Permutation_swap.
  - apply Permutation_rev.
Defined.

(** The values of the example. *)
Example sample_values :
  match Properties sample_md sample_env "" true
      (Some {| resv_ATEs := [("ate", 2)]; resv_DUTs := [("dut1", 4); ("dut2", 1)]; resv_dials := sample_dials |}) with
  | Ret m => bool_decide (m !! "topology" = Some "ate:2,dut1:4,dut2:1" /\ m !! "dut1.model" = Some "8808" /\
      m !! "dut1.vendor" = Some "CISCO" /\ m !! "dut2.model" = Some "PN" /\ m !! "dut2.os_version" = Some "4.30" /\
      m !! "test.path" = Some "feature/bgp/tests/a" /\ m !! "test.description" = None)
  | _ => false
  end = true.
Proof. vm_compute. reflexivity. Qed.

(** In a git working tree [testPath] looks at the first file of the call
    stack that is a test file and not the last frame; a non-empty result is the
    path of the directory of that file below the working tree. *)
Theorem testPath_relative wd files p : wd <> "" -> testPath wd files = p -> p <> "" ->
  exists l1 f l2, files = l1 ++ f :: l2 /\ l2 <> [] /\ HasSuffix f "_test.go" = true /\
    Forall (fun x => HasSuffix x "_test.go" = false) l1 /\ Dir f = Clean wd +:+ "/" +:+ p.
Proof.
  intros Hwd <- Hne. unfold testPath in *. destruct (testFrame files) as [f|] eqn:E; [|done].
  apply testFrame_spec in E as (l1 & l2 & Hf & Hl2 & Hs & Hl1). exists l1, f, l2. split_and!; try done.
  destruct (String.eqb_spec wd ""); [done|]. destruct (HasPrefix (Dir f) (Clean wd +:+ "/")) eqn:Hp; [|done].
  rewrite <- (HasPrefix_drop _ _ Hp) at 1. by rewrite str_app_assoc.
Qed.

Lemma testPath_witness : exists l1 f l2,
  ["/go/src/testing.go"; "/fp/feature/bgp/a_test.go"; "goexit.s"] = l1 ++ f :: l2 /\ l2 <> [] /\
  HasSuffix f "_test.go" = true /\ Forall (fun x => HasSuffix x "_test.go" = false) l1 /\
  Dir f = Clean "/fp/" +:+ "/" +:+ "feature/bgp".
Proof.
  apply (testPath_relative "/fp/" ["/go/src/testing.go"; "/fp/feature/bgp/a_test.go"; "goexit.s"] "feature/bgp").
  - discriminate.
  - vm_compute. reflexivity.
  - discriminate.
Defined.
