(* ===== verification/SampleStream.v ===== *)
(** Streams of gNMI samples ([src/internal/samplestream/samplestream.go]).

    A subscription in SAMPLE mode delivers values while the test runs; [Next]
    sleeps for the interval and returns the last value received.  Time is the
    sequence of these sleeps: the environment is the list of the values that are
    delivered during each. *)
From stdpp Require Import base list.
From Stdlib Require Import Lia.
From S2P Require Import Prelude.

Section Stream.
Context {T : Type}.

(** A delivered value, [None] when it is not present. *)
Abbreviation sample := (option T).

(** [lastVal] is nil before the first value.  [sleeps] are the deliveries of the
    coming sleeps; nothing is delivered when it runs out. *)
Record Stream := { lastVal : option T; data : list T; sleeps : list (list sample); closed : bool }.

(** A stream whose watch has started. *)
Definition started (deliveries : list (list sample)) : Stream :=
  {| lastVal := None; data := []; sleeps := deliveries; closed := false |}.

(** [New] starts the watch; it ends the test when there is no gNMI client. *)
Definition New (client : bool) (deliveries : list (list sample)) : go Stream :=
  if client then Ret (started deliveries) else Panic.

(** The callback of the watch. *)
Definition receive (s : Stream) (v : sample) : Stream :=
  match v with
  | None => s
  | Some v => {| lastVal := Some v; data := data s ++ [v]; sleeps := sleeps s; closed := closed s |}
  end.

(** One sleep of [interval + intervalTolerance]; a cancelled watch delivers nothing. *)
Definition sleep (s : Stream) : Stream :=
  match sleeps s with
  | [] => s
  | vs :: rest =>
      let s := {| lastVal := lastVal s; data := data s; sleeps := rest; closed := closed s |} in
      if closed s then s else foldl receive s vs
  end.

Definition Next (s : Stream) : option T * Stream := let s := sleep s in (lastVal s, s).

(** The loop of the goroutine, for the sleeps that end before the timer fires. *)
Fixpoint awaitLoop (rounds : nat) (pred : T -> bool) (s : Stream) : (option T * bool) * Stream :=
  match lastVal s with
  | Some v =>
      if pred v then ((Some v, true), s)
      else match rounds with O => ((Some v, false), s) | S rounds => awaitLoop rounds pred (sleep s) end
  | None => match rounds with O => ((None, false), s) | S rounds => awaitLoop rounds pred (sleep s) end
  end.

(** The first sleep comes before the timer is started. *)
Definition AwaitNext (rounds : nat) (pred : T -> bool) (s : Stream) : (option T * bool) * Stream :=
  awaitLoop rounds pred (sleep s).

Fixpoint Nexts (count : nat) (s : Stream) : list (option T) * Stream :=
  match count with
  | O => ([], s)
  | S count =>
      let '(v, s) := Next s in
      let '(vs, s) := Nexts count s in
      (v :: vs, s)
  end.

Definition All (s : Stream) : list T := data s.

Definition Close (s : Stream) : Stream :=
  {| lastVal := lastVal s; data := data s; sleeps := sleeps s; closed := true |}.

(** * Lemmas *)

(** [lastVal] is the last of the received values. *)
Definition stream_ok (s : Stream) : Prop := lastVal s = last (data s).

Lemma receive_all vs : forall s, stream_ok s ->
  stream_ok (foldl receive s vs) /\ data (foldl receive s vs) = data s ++ omap id vs /\
  sleeps (foldl receive s vs) = sleeps s /\ closed (foldl receive s vs) = closed s.
Proof.
  induction vs as [|[v|] vs IH]; intros s Hs; cbn [foldl receive].
  - split_and!; try done. cbn. by rewrite app_nil_r.
  - destruct (IH {| lastVal := Some v; data := data s ++ [v]; sleeps := sleeps s; closed := closed s |})
      as (H1 & H2 & H3 & H4); [unfold stream_ok; cbn; by rewrite last_snoc|].
    split_and!; try done. rewrite H2. cbn. by rewrite <- app_assoc.
  - by apply IH.
Qed.

Lemma sleep_spec s : stream_ok s -> stream_ok (sleep s) /\ closed (sleep s) = closed s /\
  sleeps (sleep s) = tail (sleeps s) /\
  data (sleep s) = data s ++ (if closed s then [] else omap id (default [] (head (sleeps s)))).
Proof.
  intros Hs. unfold sleep. destruct (sleeps s) as [|vs rest] eqn:Esl; cbn [head tail default from_option].
  { split_and!; [done|done|done|]. destruct (closed s); cbn; by rewrite app_nil_r. }
  cbn [closed]. destruct (closed s) eqn:Ec; [by rewrite app_nil_r|].
  destruct (receive_all vs {| lastVal := lastVal s; data := data s; sleeps := rest; closed := false |} Hs)
    as (H1 & H2 & H3 & H4). cbn in *. by split_and!.
Qed.

(** The values received after [n] sleeps of an open stream. *)
Definition received (s : Stream) (n : nat) : list T := data s ++ omap id (concat (take n (sleeps s))).

Lemma received_sleep s n : stream_ok s -> closed s = false -> received (sleep s) n = received s (S n).
Proof.
  intros Hs Hc. destruct (sleep_spec s Hs) as (_ & _ & Hsl & Hd). unfold received. rewrite Hsl, Hd, Hc.
  destruct (sleeps s) as [|vs rest]; cbn [head tail default from_option take concat]; [by rewrite !take_nil, app_nil_r|].
  by rewrite <- app_assoc, omap_app.
Qed.

(** The loop, from a stream that has slept [n] times. *)
Definition await_result (rounds : nat) (pred : T -> bool) (got : nat -> list T) (r : (option T * bool) * Stream) : Prop :=
  match r with
  | ((v, true), s') =>
      exists n x, n <= rounds /\ v = Some x /\ last (got n) = Some x /\ pred x = true /\
        (forall k y, k < n -> last (got k) = Some y -> pred y = false) /\ stream_ok s' /\ All s' = got n
  | ((v, false), s') =>
      v = last (got rounds) /\ (forall k y, k <= rounds -> last (got k) = Some y -> pred y = false) /\ stream_ok s'
  end.

Lemma await_later rounds pred (got : nat -> list T) r : (forall y, last (got 0) = Some y -> pred y = false) ->
  await_result rounds pred (fun n => got (S n)) r -> await_result (S rounds) pred got r.
Proof.
  intros H0. destruct r as [[v []] s']; cbn.
  - intros (n & x & Hn & Hv & Hl & Hp & Hk & Hok & HA). exists (S n), x. split_and!; try done; [lia|].
    intros [|k] y Hlt; [apply H0|]. apply Hk. lia.
  - intros (Hv & Hk & Hok). split_and!; try done. intros [|k] y Hle; [apply H0|]. apply Hk. lia.
Qed.

Lemma await_found rounds pred t x : stream_ok t -> lastVal t = Some x -> pred x = true ->
  await_result rounds pred (received t) ((Some x, true), t).
Proof.
  intros Ht El Ep. exists 0, x. unfold received, stream_ok in *. rewrite take_0, app_nil_r.
  split_and!; try done; [lia|congruence|intros; lia].
Qed.

Lemma await_none pred t : stream_ok t -> (forall x, lastVal t = Some x -> pred x = false) ->
  await_result 0 pred (received t) ((lastVal t, false), t).
Proof.
  intros Ht Hp. unfold stream_ok in Ht.
  assert (received t 0 = data t) as E0 by (unfold received; by rewrite take_0, app_nil_r).
  cbn. rewrite E0. split_and!; try done. intros k y Hk. replace k with 0 by lia. rewrite E0, <- Ht. apply Hp.
Qed.

Lemma awaitLoop_correct pred rounds : forall t, stream_ok t -> closed t = false ->
  await_result rounds pred (received t) (awaitLoop rounds pred t).
Proof.
  induction rounds as [|rounds IH]; intros t Ht Hc; cbn [awaitLoop].
  - destruct (lastVal t) as [v|] eqn:El; [destruct (pred v) eqn:Ep|].
    + by apply await_found.
    + rewrite <- El. apply await_none; [done|]. intros x. rewrite El. by intros [= <-].
    + rewrite <- El. apply await_none; [done|]. intros x. by rewrite El.
  - assert ((forall x, lastVal t = Some x -> pred x = false) ->
      await_result (S rounds) pred (received t) (awaitLoop rounds pred (sleep t))) as Hstep.
    { intros Hp. apply await_later.
      - intros y. unfold received. rewrite take_0, app_nil_r, <- Ht. apply Hp.
      - destruct (sleep_spec t Ht) as (Ht1 & Hc1 & _ & _). rewrite Hc in Hc1. specialize (IH (sleep t) Ht1 Hc1).
        assert (forall n, received t (S n) = received (sleep t) n) as E by (intros; by rewrite received_sleep).
        destruct (awaitLoop rounds pred (sleep t)) as [[v []] s']; cbn in *; [|rewrite E]; by setoid_rewrite E. }
    destruct (lastVal t) as [v|] eqn:El; [destruct (pred v) eqn:Ep|].
    + by apply await_found.
    + apply Hstep. by intros x [= <-].
    + by apply Hstep.
Qed.

(** * Properties *)

(** C35: [AwaitNext] on an open stream: it answers true exactly when, after the
    first sleep or one of those that end before the timer, the last value received
    satisfies the predicate, and then returns the first such value; otherwise it
    returns the last value received, if any. *)
Theorem AwaitNext_correct rounds pred s : stream_ok s -> closed s = false ->
  await_result rounds pred (fun n => received s (S n)) (AwaitNext rounds pred s).
Proof.
  intros Hs Hc. unfold AwaitNext. destruct (sleep_spec s Hs) as (Hs1 & Hc1 & _ & _). rewrite Hc in Hc1.
  pose proof (awaitLoop_correct pred rounds (sleep s) Hs1 Hc1) as H.
  assert (forall n, received s (S n) = received (sleep s) n) as E by (intros; by rewrite received_sleep).
  destruct (awaitLoop rounds pred (sleep s)) as [[v []] s']; cbn in *; [|rewrite E]; by setoid_rewrite E.
Qed.

(** A stream that stops delivering keeps its last value: [Next] returns the
    last value that was ever received, also when none arrived during the sleep. *)
Theorem Next_returns_old_values s : stream_ok s -> default [] (head (sleeps s)) = [] ->
  fst (Next s) = last (All s) /\ All (snd (Next s)) = All s.
Proof.
  intros Hs Hn. unfold Next, All. cbn [fst snd]. destruct (sleep_spec s Hs) as (Hs1 & _ & _ & Hd).
  rewrite Hn in Hd. assert (data (sleep s) = data s) as E by (rewrite Hd; destruct (closed s); by rewrite app_nil_r).
  unfold stream_ok in Hs1. by rewrite Hs1, E.
Qed.
End Stream.
Arguments Stream T : clear implicits.

Definition sample_stream : Stream nat := started [[Some 3]; []; [Some 5; None]].

Lemma AwaitNext_witness :
  await_result 4 (fun n => 4 <? n) (fun n => received sample_stream (S n)) (AwaitNext 4 (fun n => 4 <? n) sample_stream).
Proof. apply (AwaitNext_correct 4 (fun n => 4 <? n) sample_stream); reflexivity. Defined.

Example sample_await : fst (AwaitNext 4 (fun n => 4 <? n) sample_stream) = (Some 5, true).
Proof. reflexivity. Qed.

Lemma Next_returns_old_values_witness :
  fst (Next (snd (Next sample_stream))) = last (All (snd (Next sample_stream))) /\
  All (snd (Next (snd (Next sample_stream)))) = All (snd (Next sample_stream)).
Proof. apply (Next_returns_old_values (snd (Next sample_stream))); reflexivity. Defined.
