(* ===== verification/Floats.v ===== *)
(** The [float64] and [float32] of Go: binary64 and binary32 numbers with every operation rounded to the
    nearest even, as [SpecFloat] of the Standard Library defines them. *)
From stdpp Require Import base list.
From Stdlib Require Import ZArith Lia SpecFloat.
From S2P Require Import Prelude.
Open Scope Z_scope.

Abbreviation float := spec_float.

(** [float64(n)] of an integer. *)
Definition Zf (n : Z) : float := binary_normalize 53 1024 n 0 false.
(** The decimal constant [n / d] for [n] and [d] below 2^53: correctly rounded. *)
Definition lit (n d : Z) : float := SFdiv 53 1024 (Zf n) (Zf d).
Definition fadd (x y : float) : float := SFadd 53 1024 x y.
Definition fsub (x y : float) : float := SFsub 53 1024 x y.
Definition fmul (x y : float) : float := SFmul 53 1024 x y.
(** [math.Abs] *)
Definition fabs (x : float) : float := SFabs x.
Definition flt (x y : float) : bool := SFltb x y.
Definition fle (x y : float) : bool := SFleb x y.
Definition feq (x y : float) : bool := SFeqb x y.
Definition is_nan (x : float) : bool := match x with S754_nan => true | _ => false end.

(** The [float32] of Go. *)
Definition Zf32 (n : Z) : float := binary_normalize 24 128 n 0 false.
Definition fmul32 (x y : float) : float := SFmul 24 128 x y.
Definition fdiv32 (x y : float) : float := SFdiv 24 128 x y.
Definition fdiv (x y : float) : float := SFdiv 53 1024 x y.

(** * The order of floats *)

Lemma SFcompare_swap x y : SFcompare y x = CompOpp <$> SFcompare x y.
Proof.
  destruct x as [s1|s1| |s1 m1 e1], y as [s2|s2| |s2 m2 e2]; simpl; try destruct s1; try destruct s2; try done.
  all: rewrite (Z.compare_antisym e1 e2); destruct (e1 ?= e2) eqn:E; simpl; try done.
  all: change (Pos.compare_cont Eq m2 m1) with (m2 ?= m1)%positive;
    change (Pos.compare_cont Eq m1 m2) with (m1 ?= m2)%positive; by rewrite (Pos.compare_antisym m1 m2).
Qed.

Lemma SFcompare_refl x : is_nan x = false -> SFcompare x x = Some Eq.
Proof.
  destruct x as [s|s| |s m e]; simpl; try done; destruct s; try done; intros _.
  all: rewrite Z.compare_refl; change (Pos.compare_cont Eq m m) with (m ?= m)%positive; by rewrite Pos.compare_refl.
Qed.

(** A number that is not above a bound is not strictly above it. *)
Lemma fle_not_flt x y : fle x y = true -> flt y x = false.
Proof.
  unfold fle, flt, SFleb, SFltb. rewrite (SFcompare_swap x y). by destruct (SFcompare x y) as [[]|].
Qed.

Lemma feq_refl x : is_nan x = false -> feq x x = true.
Proof. intros H. unfold feq, SFeqb. by rewrite SFcompare_refl. Qed.

Lemma feq_sym x y : feq x y = feq y x.
Proof. unfold feq, SFeqb. rewrite (SFcompare_swap x y). by destruct (SFcompare x y) as [[]|]. Qed.

Lemma fle_not_nan x y : fle x y = true -> is_nan x = false /\ is_nan y = false.
Proof. unfold fle, SFleb. destruct x, y; simpl; intros; done. Qed.

#[export] Hint Resolve fle_not_flt feq_refl : go.
