(* ===== verification/Optics.v ===== *)
(** Configuration of pluggable optics ([src/internal/cfgplugins/interface.go]):
    the lists of tunable parameters and their defaults, the indexes of the logical
    channels, the configuration of all ports of a device and of single channels.

    The configuration is the list of the gNMI operations; a leaf that may be unset
    is an [option].  Enumerations are the names of their values. *)
From stdpp Require Import base list gmap strings pretty sorting.
From Stdlib Require Import ZArith Lia Ascii.
From S2P Require Import Prelude GoStrings Version TestTracker Deviations Components Floats.
Open Scope Z_scope.

(** * Ports *)

Inductive PMD := PMD400GBASEZR | PMD400GBASEZRP | PMD800GBASEZR | PMD800GBASEZRP | OtherPMD (name : string).
#[export] Instance PMD_eq_dec : EqDecision PMD.
Proof. solve_decision. Defined.
Record Port := { p_Name : string; p_PMD : PMD }.

Definition is400 (p : PMD) : bool := match p with PMD400GBASEZR | PMD400GBASEZRP => true | _ => false end.
Definition is800 (p : PMD) : bool := match p with PMD800GBASEZR | PMD800GBASEZRP => true | _ => false end.

(** What the device answers about its ports: the hardware port and the
    transceiver of an interface, the part number of a component and the optical
    channel of channel 0 of a transceiver.  [gnmi.Get] ends the test when there is
    no value, which is [Panic]. *)
Record Inventory := {
  hardwarePort : string -> option string;
  transceiver : string -> option string;
  partNo : string -> option string;
  channel0 : string -> option string }.

Definition gnmiGet {A} (v : option A) : go A := match v with Some x => Ret x | None => Panic end.
Abbreviation gnmiLookup := gnmiGet (only parsing).

(** * Tunable parameters *)

Definition ListString (l : list N) : string := Join (map pretty l) ",".
Definition append (v : N) : gost (list N) unit := fun l => (Ret tt, l ++ [v]).
(** [Set] of a list of [bits]-bit numbers appends to the list; what was appended
    before an error remains. *)
Fixpoint ListSet (bits : N) (parts : list string) : gost (list N) unit :=
  match parts with
  | [] => mret tt
  | s :: parts => v ← lift (ParseUint s bits); _ ← append v; ListSet bits parts
  end.
Definition OperationalModeList_Set (value : string) : gost (list N) unit := ListSet 16 (split_on ","%char value).
Definition FrequencyList_Set (value : string) : gost (list N) unit := ListSet 64 (split_on ","%char value).

Definition firstPort (ports : list Port) : go Port := match ports with [] => Panic | p :: _ => Ret p end.

Definition OperationalModeList_Default (dut : Device) (ports : list Port) : go (list Z) :=
  p ← firstPort ports;
  let vendor := dev_Vendor dut in
  let others := existsb (String.eqb vendor) ["ARISTA"; "JUNIPER"; "NOKIA"] in
  match p_PMD p with
  | PMD400GBASEZR => if String.eqb vendor "CISCO" then Ret [5003] else if others then Ret [1] else Panic
  | PMD400GBASEZRP => if String.eqb vendor "CISCO" then Ret [6004] else if others then Ret [5] else Panic
  | PMD800GBASEZR => Ret [1; 3]
  | PMD800GBASEZRP => Ret [8; 4]
  | OtherPMD _ => Panic
  end.

Definition lBandPNs : list string := [
  "DP04QSDD-LLH-240"; "DP04QSDD-LLH-24B"; "DP04QSDD-LLH-00A"; "DP08SFP8-LRB-240";
  "DP08SFP8-LRB-24B"; "C-OS08LEXNC-GG"; "176-6490-9G1"; "176-6480-9M0"].

Definition FrequencyList_Default (inv : Inventory) (ports : list Port) : go (list Z) :=
  p ← firstPort ports;
  match p_PMD p with
  | PMD400GBASEZR | PMD800GBASEZR => Ret [196100000]
  | PMD400GBASEZRP | PMD800GBASEZRP =>
      tr ← gnmiLookup (transceiver inv (p_Name p));
      match partNo inv tr with
      | Some pn => if existsb (String.eqb pn) lBandPNs then Ret [190000000] else Ret [196100000]
      | None => Ret [196100000]
      end
  | OtherPMD _ => Panic
  end.

Definition TargetOpticalPowerList_Default (ports : list Port) : go (list float) :=
  p ← firstPort ports;
  match p_PMD p with
  | PMD400GBASEZR => Ret [Zf (-10)]
  | PMD400GBASEZRP => Ret [Zf (-7)]
  | PMD800GBASEZR => Ret [Zf (-7)]
  | PMD800GBASEZRP => Ret [Zf (-4)]
  | OtherPMD _ => Panic
  end.

(** * Indexes of the logical channels *)

Definition uint32 (n : Z) : Z := n mod 2 ^ 32.

Definition portLess (x y : Port) : bool := str_lt (p_Name x) (p_Name y).

(** The loop of both functions over the sorted ports, for the bases they use. *)
Definition assignIndex (base400 base800 : Z) (m : gmap string Z) (ip : nat * Port) : go (gmap string Z) :=
  let '(idx, p) := ip in
  if is400 (p_PMD p) then Ret (<[p_Name p := uint32 (base400 + uint32 (Z.of_nat idx))]> m)
  else if is800 (p_PMD p) then Ret (<[p_Name p := uint32 (base800 + uint32 (Z.of_nat idx))]> m)
  else Panic.
Definition numbered (ports : list Port) : list (nat * Port) :=
  let sorted := sortSlice portLess ports in zip (seq 0 (length sorted)) sorted.
Definition AssignOTNIndexes (ports : list Port) : go (gmap string Z) :=
  foldM (assignIndex 4000 8000) ∅ (numbered ports).
Definition AssignETHIndexes (ports : list Port) : go (gmap string Z) :=
  foldM (assignIndex 40000 80000) ∅ (numbered ports).

(** * Parameters and configuration *)

(** The maps have the name of the port as key. *)
Record ConfigParameters := {
  Enabled : bool;
  Frequency : Z;
  TargetOpticalPower : float;
  OperationalMode : Z;
  PortSpeed : string;
  FormFactor : string;
  NumPhysicalChannels : Z;
  RateClass : string;
  TribProtocol : string;
  Allocation : float;
  HWPortNames : gmap string string;
  TransceiverNames : gmap string string;
  TempSensorNames : gmap string string;
  OpticalChannelNames : gmap string string;
  OTNIndexes : gmap string Z;
  ETHIndexes : gmap string Z }.

(** The value of a map at a port, the zero value for a missing key. *)
Definition name_at (m : gmap string string) (p : Port) : string := default "" (m !! p_Name p).
Definition index_at (m : gmap string Z) (p : Port) : Z := default 0 (m !! p_Name p).

Record EthernetConfig := { e_PortSpeed : string; e_DuplexMode : string }.
Record InterfaceConf := {
  ic_Name : string;
  ic_Type : string;
  ic_Enabled : bool;
  ic_Ethernet : option EthernetConfig }.
Record BreakoutGroup := { bg_Index : Z; bg_BreakoutSpeed : string; bg_NumBreakouts : Z; bg_NumPhysicalChannels : Z }.
Record OpticalChannelConf := {
  occ_OperationalMode : Z;
  occ_Frequency : Z;
  occ_TargetOutputPower : float;
  occ_LinePort : option string }.
Record ComponentConf := {
  cc_Name : string;
  cc_Group : gmap Z BreakoutGroup;
  cc_ModuleFunctionalType : option string;
  cc_OpticalChannel : option OpticalChannelConf }.
Record AssignmentConf := {
  ac_Index : Z;
  ac_LogicalChannel : option Z;
  ac_OpticalChannel : option string;
  ac_Description : string;
  ac_Allocation : float;
  ac_AssignmentType : string }.
Record Ingress := { in_Interface : option string; in_Transceiver : option string }.
Record ChannelConf := {
  chc_Description : string;
  chc_Index : Z;
  chc_LogicalChannelType : string;
  chc_RateClass : option string;
  chc_TribProtocol : option string;
  chc_AdminState : option string;
  chc_Ingress : option Ingress;
  chc_Assignment : gmap Z AssignmentConf }.

(** The replacements of a batch, each with the key of its path. *)
Inductive BatchOp :=
| ReplaceInterface (name : string) (i : InterfaceConf)
| ReplaceComponent (name : string) (c : ComponentConf)
| ReplaceChannel (index : Z) (c : ChannelConf).

(** [gnmi.Replace] outside a batch. *)
Definition replace (op : BatchOp) : gost (list BatchOp) unit := fun tr => (Ret tt, tr ++ [op]).

Definition ethernetCsmacd : string := "ethernetCsmacd".
Definition DIGITAL_COHERENT_OPTIC : string := "TYPE_DIGITAL_COHERENT_OPTIC".

Definition speedOf (speed : string) : EthernetConfig := {| e_PortSpeed := speed; e_DuplexMode := "FULL" |}.

Section Config.
Context {re : Regexp} (exceptions : list PlatformExceptions) (dut : Device) (inv : Inventory).

(** The port speed is configured unless the device does not support it or the
    optic is a 400G one; [updateInterfaceConfig] and [ToggleInterfaceState] build
    the same interface. *)
Definition interfaceConf (p : Port) (params : ConfigParameters) : go InterfaceConf :=
  noSpeed ← PortSpeedDuplexModeUnsupportedForInterfaceConfig exceptions dut;
  Ret {| ic_Name := p_Name p; ic_Type := ethernetCsmacd; ic_Enabled := Enabled params;
         ic_Ethernet := if noSpeed || is400 (p_PMD p) then None else Some (speedOf (PortSpeed params)) |}.

Definition updateInterfaceConfig (batch : list BatchOp) (p : Port) (params : ConfigParameters) : go (list BatchOp) :=
  i ← interfaceConf p params;
  Ret (batch ++ [ReplaceInterface (p_Name p) i]).

Definition ToggleInterfaceState (p : Port) (params : ConfigParameters) : gost (list BatchOp) unit :=
  i ← lift (interfaceConf p params);
  replace (ReplaceInterface (p_Name p) i).

(** [&&] reads the deviation first and the port speed only when it is set. *)
Definition updateHWPortConfig (batch : list BatchOp) (p : Port) (params : ConfigParameters) : go (list BatchOp) :=
  noBreakout ← BreakoutModeUnsupportedForEightHundredGb exceptions dut;
  if noBreakout && String.eqb (PortSpeed params) "SPEED_800GB" then Ret batch
  else if is400 (p_PMD p) then Ret batch
  else
    let name := name_at (HWPortNames params) p in
    let group := {| bg_Index := 1; bg_BreakoutSpeed := PortSpeed params; bg_NumBreakouts := 1;
                    bg_NumPhysicalChannels := NumPhysicalChannels params |} in
    let batch := batch ++ [ReplaceComponent name
      {| cc_Name := name; cc_Group := {[1 := group]}; cc_ModuleFunctionalType := None; cc_OpticalChannel := None |}] in
    explicit ← ExplicitBreakoutInterfaceConfig exceptions dut;
    if explicit : bool then
      let name := p_Name p +:+ "/1" in
      Ret (batch ++ [ReplaceInterface name
        {| ic_Name := name; ic_Type := ethernetCsmacd; ic_Enabled := Enabled params; ic_Ethernet := None |}])
    else Ret batch.

(** The transceiver with explicit digital coherent optics. *)
Definition dcoConf (name : string) : BatchOp := ReplaceComponent name
  {| cc_Name := name; cc_Group := ∅; cc_ModuleFunctionalType := Some DIGITAL_COHERENT_OPTIC;
     cc_OpticalChannel := None |}.

Definition updateTransceiverConfig (batch : list BatchOp) (p : Port) (params : ConfigParameters) : go (list BatchOp) :=
  explicit ← ExplicitDcoConfig exceptions dut;
  if negb explicit then Ret batch else Ret (batch ++ [dcoConf (name_at (TransceiverNames params) p)]).

Definition opticalConf (name : string) (o : OpticalChannelConf) : BatchOp := ReplaceComponent name
  {| cc_Name := name; cc_Group := ∅; cc_ModuleFunctionalType := None; cc_OpticalChannel := Some o |}.

Definition updateOpticalChannelConfig (batch : list BatchOp) (p : Port) (params : ConfigParameters) : list BatchOp :=
  batch ++ [opticalConf (name_at (OpticalChannelNames params) p)
    {| occ_OperationalMode := OperationalMode params; occ_Frequency := Frequency params;
       occ_TargetOutputPower := TargetOpticalPower params; occ_LinePort := None |}].

Definition toOptical (index : Z) (och : string) (allocation : float) : AssignmentConf := {|
  ac_Index := index; ac_LogicalChannel := None; ac_OpticalChannel := Some och;
  ac_Description := "OTN to Optical Channel"; ac_Allocation := allocation; ac_AssignmentType := "OPTICAL_CHANNEL" |}.
Definition toLogical (index channel : Z) (description : string) (allocation : float) : AssignmentConf := {|
  ac_Index := index; ac_LogicalChannel := Some channel; ac_OpticalChannel := None;
  ac_Description := description; ac_Allocation := allocation; ac_AssignmentType := "LOGICAL_CHANNEL" |}.

Definition otnConf (index : Z) (trib admin : option string) (assignment : gmap Z AssignmentConf) : ChannelConf := {|
  chc_Description := "OTN Logical Channel"; chc_Index := index; chc_LogicalChannelType := "PROT_OTN";
  chc_RateClass := None; chc_TribProtocol := trib; chc_AdminState := admin; chc_Ingress := None;
  chc_Assignment := assignment |}.

Definition updateOTNChannelConfig (batch : list BatchOp) (p : Port) (params : ConfigParameters) : go (list BatchOp) :=
  cisco ← OTNChannelAssignmentCiscoNumbering exceptions dut;
  let first := if cisco : bool then 1 else 0 in
  toETH ← OTNToETHAssignment exceptions dut;
  let index := index_at (OTNIndexes params) p in
  let optical := toOptical first (name_at (OpticalChannelNames params) p) (Allocation params) in
  noAdmin ← TerminalDeviceChannelAdminStateUnsupported exceptions dut;
  let admin := if negb noAdmin && negb toETH then Some "ENABLED" else None in
  let ch :=
    if toETH : bool then
      otnConf index None admin
        {[first := optical;
          first + 1 := toLogical (first + 1) (index_at (ETHIndexes params) p) "OTN to ETH" (Allocation params)]}
    else otnConf index (Some (TribProtocol params)) admin {[first := optical]} in
  Ret (batch ++ [ReplaceChannel index ch]).

(** [assignment[0].Index = ygot.Uint32(1)]: a missing entry is a nil pointer. *)
Definition setIndexOfZero (m : gmap Z AssignmentConf) : go (gmap Z AssignmentConf) :=
  match m !! 0 with
  | None => Panic
  | Some a => Ret (<[0 := {| ac_Index := 1; ac_LogicalChannel := ac_LogicalChannel a;
                             ac_OpticalChannel := ac_OpticalChannel a; ac_Description := ac_Description a;
                             ac_Allocation := ac_Allocation a; ac_AssignmentType := ac_AssignmentType a |}]> m)
  end.

Definition updateETHChannelConfig (batch : list BatchOp) (p : Port) (params : ConfigParameters) : go (list BatchOp) :=
  cisco ← EthChannelAssignmentCiscoNumbering exceptions dut;
  let assignmentIndex := if cisco : bool then 1 else 0 in
  noIngress ← EthChannelIngressParametersUnsupported exceptions dut;
  let ingress := if negb noIngress
                 then Some {| in_Interface := Some (p_Name p);
                              in_Transceiver := Some (name_at (TransceiverNames params) p) |}
                 else None in
  let assignment := {[assignmentIndex :=
    toLogical assignmentIndex (index_at (OTNIndexes params) p) "ETH to OTN" (Allocation params)]} in
  assignment ← (if cisco : bool then setIndexOfZero assignment else Ret assignment);
  noRate ← ChannelRateClassParametersUnsupported exceptions dut;
  noTrib ← OTNChannelTribUnsupported exceptions dut;
  noAdmin ← TerminalDeviceChannelAdminStateUnsupported exceptions dut;
  let index := index_at (ETHIndexes params) p in
  Ret (batch ++ [ReplaceChannel index {|
    chc_Description := "ETH Logical Channel"; chc_Index := index; chc_LogicalChannelType := "PROT_ETHERNET";
    chc_RateClass := if negb noRate then Some (RateClass params) else None;
    chc_TribProtocol := if negb noTrib then Some (TribProtocol params) else None;
    chc_AdminState := if negb noAdmin then Some "ENABLED" else None;
    chc_Ingress := ingress; chc_Assignment := assignment |}]).

(** ** All ports *)

(** What depends on the optic and the operational mode: form factor, port speed,
    physical channels, rate class, tributary protocol and allocation. *)
Record PortMode := {
  m_FormFactor : string; m_PortSpeed : string; m_Channels : Z; m_RateClass : string; m_Trib : string;
  m_Allocation : float }.
Definition mode400 (formFactor : string) (channels : Z) : PortMode := {|
  m_FormFactor := formFactor; m_PortSpeed := "SPEED_400GB"; m_Channels := channels;
  m_RateClass := "TRIB_RATE_400G"; m_Trib := "PROT_400GE"; m_Allocation := Zf 400 |}.
Definition mode800 : PortMode := {|
  m_FormFactor := "OSFP"; m_PortSpeed := "SPEED_800GB"; m_Channels := 8;
  m_RateClass := "TRIB_RATE_800G"; m_Trib := "PROT_800GE"; m_Allocation := Zf 800 |}.
Definition portMode (p : PMD) (operationalMode : Z) : go PortMode :=
  if is400 p then Ret (mode400 "QSFP56_DD" 8)
  else if is800 p then
    if existsb (Z.eqb operationalMode) [1; 2; 8] then Ret mode800
    else if existsb (Z.eqb operationalMode) [3; 4] then Ret (mode400 "OSFP" 4)
    else Panic
  else Panic.

Definition withPort (params : ConfigParameters) (p : Port) (hw tr och : string) (otn eth : gmap string Z)
    (m : PortMode) : ConfigParameters := {|
  Enabled := Enabled params; Frequency := Frequency params; TargetOpticalPower := TargetOpticalPower params;
  OperationalMode := OperationalMode params; PortSpeed := m_PortSpeed m; FormFactor := m_FormFactor m;
  NumPhysicalChannels := m_Channels m; RateClass := m_RateClass m; TribProtocol := m_Trib m;
  Allocation := m_Allocation m;
  HWPortNames := <[p_Name p := hw]> (HWPortNames params);
  TransceiverNames := <[p_Name p := tr]> (TransceiverNames params);
  TempSensorNames := <[p_Name p := "TempSensor-" +:+ tr]> (TempSensorNames params);
  OpticalChannelNames := <[p_Name p := och]> (OpticalChannelNames params);
  OTNIndexes := otn; ETHIndexes := eth |}.

Definition opticalChannelOf (p : Port) : go string :=
  OpticalChannelComponentFromPort exceptions dut (gnmiGet (transceiver inv (p_Name p)))
    (fun tr => gnmiGet (channel0 inv tr)).

(** One round of the loop: the parameters are those of the caller, changed in
    place, so the configuration of a port sees what earlier rounds stored. *)
Definition configPort (ports : list Port) (st : ConfigParameters * list BatchOp) (p : Port) :
    go (ConfigParameters * list BatchOp) :=
  let '(params, batch) := st in
  hw ← gnmiLookup (hardwarePort inv (p_Name p));
  tr ← gnmiLookup (transceiver inv (p_Name p));
  och ← opticalChannelOf p;
  otn ← AssignOTNIndexes ports;
  eth ← AssignETHIndexes ports;
  m ← portMode (p_PMD p) (OperationalMode params);
  let params := withPort params p hw tr och otn eth m in
  batch ← updateInterfaceConfig batch p params;
  batch ← updateHWPortConfig batch p params;
  batch ← updateTransceiverConfig batch p params;
  let batch := updateOpticalChannelConfig batch p params in
  batch ← updateOTNChannelConfig batch p params;
  batch ← updateETHChannelConfig batch p params;
  Ret (params, batch).

Definition resetNames (params : ConfigParameters) : ConfigParameters := {|
  Enabled := Enabled params; Frequency := Frequency params; TargetOpticalPower := TargetOpticalPower params;
  OperationalMode := OperationalMode params; PortSpeed := PortSpeed params; FormFactor := FormFactor params;
  NumPhysicalChannels := NumPhysicalChannels params; RateClass := RateClass params;
  TribProtocol := TribProtocol params; Allocation := Allocation params;
  HWPortNames := ∅; TransceiverNames := ∅; TempSensorNames := ∅; OpticalChannelNames := ∅;
  OTNIndexes := OTNIndexes params; ETHIndexes := ETHIndexes params |}.

(** [NewInterfaceConfigAll] adds to a batch and returns the parameters it filled in. *)
Definition NewInterfaceConfigAll (ports : list Port) (batch : list BatchOp) (params : ConfigParameters) :
    go (ConfigParameters * list BatchOp) :=
  foldM (configPort ports) (resetNames params, batch) ports.

(** ** Single interfaces and channels *)

(** The package variables [opmode] and [once]: [once.Do] counts as done also when
    its function ends the test. *)
Record Initialized := { opmode : Z; once_done : bool }.

Definition initialMode (ports : list Port) (initialOperationalMode : Z) : go Z :=
  if initialOperationalMode =? 0 then
    modes ← OperationalModeList_Default dut ports;
    match modes with [] => Panic | m :: _ => Ret m end
  else Ret initialOperationalMode.

Definition InterfaceGetOpMode : gost Initialized Z := fun s => (Ret (opmode s), s).
Definition InterfaceInitialize (ports : list Port) (initialOperationalMode : Z) : gost Initialized Z := fun s =>
  if once_done s then InterfaceGetOpMode s
  else
    match initialMode ports initialOperationalMode with
    | Ret m => InterfaceGetOpMode {| opmode := m; once_done := true |}
    | r => (r, {| opmode := opmode s; once_done := true |})
    end.

Definition ToggleInterface (intf : string) (isEnabled : bool) : gost (list BatchOp) unit :=
  replace (ReplaceInterface intf
    {| ic_Name := intf; ic_Type := ethernetCsmacd; ic_Enabled := isEnabled; ic_Ethernet := None |}).

(** [strings.ReplaceAll] for a non-empty [old]; every round shortens the string. *)
Fixpoint replaceAll (fuel : nat) (s old new : string) : string :=
  match fuel with
  | O => s
  | S fuel =>
      match Index s old with
      | None => s
      | Some i => str_take i s +:+ new +:+ replaceAll fuel (str_drop (i + String.length old) s) old new
      end
  end.
Definition ReplaceAll (s old new : string) : string := replaceAll (String.length s) s old new.

Definition OpticalChannelOpt : Type := OpticalChannelConf -> go OpticalChannelConf.
Definition WithLinePort (och : string) : OpticalChannelOpt := fun o =>
  unsupported ← LinePortUnsupported exceptions dut;
  Ret (if negb unsupported
       then {| occ_OperationalMode := occ_OperationalMode o; occ_Frequency := occ_Frequency o;
               occ_TargetOutputPower := occ_TargetOutputPower o;
               occ_LinePort := Some (ReplaceAll och "OpticalChannel" "Optics") |}
       else o).

Definition ConfigOpticalChannel (och : string) (frequency : Z) (targetOpticalPower : float) (operationalMode : Z)
    (opts : list OpticalChannelOpt) : gost (list BatchOp) unit :=
  o ← lift (foldM (fun o opt => opt o)
    {| occ_OperationalMode := operationalMode; occ_Frequency := frequency;
       occ_TargetOutputPower := targetOpticalPower; occ_LinePort := None |} opts);
  replace (opticalConf och o).

Definition targetOutputPowerdBm : Z := -10.
Definition targetFrequencyMHz : Z := 193100000.

Definition InterfaceConfig (mode : Z) (p : Port) : gost (list BatchOp) unit :=
  _ ← ToggleInterface (p_Name p) true;
  explicit ← lift (ExplicitDcoConfig exceptions dut);
  _ ← (if explicit : bool then
         tr ← lift (gnmiGet (transceiver inv (p_Name p)));
         replace (dcoConf tr)
       else mret tt);
  och ← lift (opticalChannelOf p);
  ConfigOpticalChannel och targetFrequencyMHz (Zf targetOutputPowerdBm) mode [].

(** [power] and [frequency]: the state of the optical channel of that name. *)
Definition ValidateInterfaceConfig (power : string -> option float) (frequency : string -> option Z) (p : Port)
    (targetPower : float) (targetFrequency : Z) (powerTolerance frequencyTolerance : float) : go unit :=
  och ← opticalChannelOf p;
  outputPower ← gnmiGet (power och);
  if flt powerTolerance (fabs (fsub outputPower targetPower)) then Panic
  else
    f ← gnmiGet (frequency och);
    if flt frequencyTolerance (fabs (fsub (Zf f) (Zf targetFrequency))) then Panic else Ret tt.

Definition ConfigOTNChannel (och : string) (otnIndex : Z) : gost (list BatchOp) unit :=
  noTrib ← lift (OTNChannelTribUnsupported exceptions dut);
  noAdmin ← lift (TerminalDeviceChannelAdminStateUnsupported exceptions dut);
  let admin := if negb noAdmin then Some "ENABLED" else None in
  replace (ReplaceChannel otnIndex
    (if noTrib : bool then otnConf otnIndex None admin {[0 := toOptical 1 och (Zf 400)]}
     else otnConf otnIndex (Some "PROT_400GE") admin {[0 := toOptical 0 och (Zf 400)]})).

Definition ConfigETHChannel (interfaceName transceiverName : string) (otnIndex ethIndex : Z) :
    gost (list BatchOp) unit :=
  noIngress ← lift (EthChannelIngressParametersUnsupported exceptions dut);
  let ingress := if negb noIngress then {| in_Interface := Some interfaceName; in_Transceiver := Some transceiverName |}
                 else {| in_Interface := None; in_Transceiver := None |} in
  let assignment := {[0 := toLogical 0 otnIndex "ETH to OTN" (Zf 400)]} in
  cisco ← lift (EthChannelAssignmentCiscoNumbering exceptions dut);
  assignment ← lift (if cisco : bool then setIndexOfZero assignment else Ret assignment);
  noAdmin ← lift (TerminalDeviceChannelAdminStateUnsupported exceptions dut);
  noRate ← lift (ChannelRateClassParametersUnsupported exceptions dut);
  replace (ReplaceChannel ethIndex {|
    chc_Description := "ETH Logical Channel"; chc_Index := ethIndex; chc_LogicalChannelType := "PROT_ETHERNET";
    chc_RateClass := if negb noRate then Some "TRIB_RATE_400G" else None;
    chc_TribProtocol := Some "PROT_400GE";
    chc_AdminState := if negb noAdmin then Some "ENABLED" else None;
    chc_Ingress := Some ingress; chc_Assignment := assignment |}).
End Config.

(** * Tunable parameters as flags *)

Lemma digits_no_comma s : forall acc n, digits_value acc s = Some n -> IndexByte s ","%char = None.
Proof.
  induction s as [|c s IH]; intros acc n; simpl; [done|].
  destruct (digit_val c) as [d|] eqn:E; [|done]. intros H.
  destruct (Ascii.eqb_spec c ",") as [->|]; [done|]. by rewrite (IH _ _ H).
Qed.

Lemma ParseUint_no_comma s bits n : ParseUint s bits = Ret n -> IndexByte s ","%char = None.
Proof.
  unfold ParseUint. destruct s as [|c s]; [done|]. destruct (digits_value 0 (String c s)) eqn:E; [|done].
  intros _. by apply digits_no_comma in E.
Qed.

Lemma ListSet_pretty bits l : Forall (fun n => n < 2 ^ bits)%N l ->
  forall acc, ListSet bits (map pretty l) acc = (Ret tt, acc ++ l).
Proof.
  induction 1 as [|n l Hn HF IH]; intros acc; simpl; [by rewrite app_nil_r|].
  rewrite (lift_run _ n) by by apply ParseUint_pretty.
  rewrite (bind_run _ _ _ tt (acc ++ [n])) by done. rewrite IH. by rewrite <- app_assoc.
Qed.

(** The flags of operational modes and frequencies: [Set] of what [String]
    prints for a non-empty list of numbers that fit appends exactly these numbers;
    the printed form of the empty list is refused and leaves the flag as it was. *)
Theorem tunable_flags_roundtrip bits l acc : Forall (fun n => n < 2 ^ bits)%N l ->
  ListSet bits (split_on ","%char (ListString l)) acc =
    match l with
    | [] => (Fail (errors_New "invalid syntax"), acc)
    | _ => (Ret tt, acc ++ l)
    end.
Proof.
  intros HF. destruct l as [|n l]; [done|]. unfold ListString. rewrite split_on_Join; [by apply ListSet_pretty|done|].
  apply Forall_fmap, Forall_forall. intros m Hm. simpl. rewrite Forall_forall in HF.
  apply (ParseUint_no_comma _ bits m), ParseUint_pretty, HF, Hm.
Qed.

Lemma tunable_flags_witness :
  OperationalModeList_Set (ListString [5003; 1]%N) [7%N] = (Ret tt, [7; 5003; 1]%N).
Proof. apply (tunable_flags_roundtrip 16 [5003; 1]%N [7%N]). repeat constructor. Defined.

(** * Channel indexes *)

Definition supported (p : Port) : Prop := is400 (p_PMD p) || is800 (p_PMD p) = true.
Definition base (base400 base800 : Z) (p : Port) : Z := if is400 (p_PMD p) then base400 else base800.

#[local] Instance portLess_total : Total (notAfter portLess).
Proof.
  intros x y. unfold notAfter, portLess. destruct (str_lt (p_Name y) (p_Name x)) eqn:E; [right|by left].
  by apply str_lt_asym.
Qed.
#[local] Instance portLess_trans : Transitive (notAfter portLess).
Proof.
  intros x y z. unfold notAfter, portLess. intros H1 H2. apply not_true_iff_false. intros H.
  destruct (str_lt_trichotomy (p_Name x) (p_Name y)) as [L|[E|L]]; [|congruence..].
  assert (str_lt (p_Name z) (p_Name y) = true) by eauto using str_lt_trans. congruence.
Qed.

(** The order of the ports after the sort does not depend on the order before. *)
Lemma sortedPorts_unique l1 l2 : NoDup (map p_Name l1) -> l1 ≡ₚ l2 -> sortSlice portLess l1 = sortSlice portLess l2.
Proof.
  intros Hnd Hp. apply (StronglySorted_unique_strong (notAfter portLess)).
  - intros x y Hx Hy Hxy Hyx. rewrite sortSlice_perm in Hx, Hy. rewrite <- Hp in Hy.
    apply list_elem_of_lookup in Hx as [i Hi], Hy as [j Hj].
    assert (p_Name x = p_Name y) as E.
    { unfold notAfter, portLess in *. destruct (str_lt_trichotomy (p_Name x) (p_Name y)) as [|[|]]; congruence. }
    assert (i = j) as ->; [|congruence].
    apply (NoDup_lookup _ i j (p_Name x) Hnd); rewrite list_lookup_fmap; [rewrite Hi|rewrite Hj]; simpl; congruence.
  - apply StronglySorted_merge_sort; apply _.
  - apply StronglySorted_merge_sort; apply _.
  - by rewrite !sortSlice_perm.
Qed.

Lemma assignIndex_spec b4 b8 l : forall k (m : gmap string Z), NoDup (map p_Name l) -> Forall supported l ->
  Z.of_nat (k + length l) <= 2 ^ 31 -> 0 <= b4 < 2 ^ 31 -> 0 <= b8 < 2 ^ 31 ->
  exists m', foldM (assignIndex b4 b8) m (zip (seq k (length l)) l) = Ret m' /\
    (forall i p, l !! i = Some p -> m' !! p_Name p = Some (base b4 b8 p + Z.of_nat (k + i))) /\
    (forall n, n ∉ map p_Name l -> m' !! n = m !! n).
Proof.
  induction l as [|p l IH]; intros k m Hnd HF Hk H4 H8; [by eexists|].
  apply NoDup_cons in Hnd as [Hp Hnd]. apply Forall_cons in HF as [Hs HF]. simpl length in Hk.
  assert (forall b, 0 <= b < 2 ^ 31 -> uint32 (b + uint32 (Z.of_nat k)) = b + Z.of_nat k) as Hu.
  { intros b Hb. unfold uint32. rewrite (Z.mod_small (Z.of_nat k)) by lia. apply Z.mod_small. lia. }
  assert (assignIndex b4 b8 m (k, p) = Ret (<[p_Name p := base b4 b8 p + Z.of_nat k]> m)) as Hrun.
  { unfold assignIndex, base, supported in *. rewrite !Hu by done.
    destruct (is400 (p_PMD p)); [done|]. simpl in Hs. by rewrite Hs. }
  destruct (IH (S k) (<[p_Name p := base b4 b8 p + Z.of_nat k]> m)) as (m' & Hm' & Hin & Hout); [done|done|lia|done|done|].
  exists m'. split; [|split].
  - cbn [length seq zip zip_with foldM]. rewrite Hrun. exact Hm'.
  - intros [|i] q Hq.
    + injection Hq as <-. rewrite Hout, lookup_insert_eq by done. do 2 f_equal. lia.
    + rewrite (Hin i q Hq). do 2 f_equal. lia.
  - intros n [Hn1 Hn2]%not_elem_of_cons. by rewrite Hout, lookup_insert_ne.
Qed.

(** The index of a port: the base of its optic plus its place in the order of the names. *)
Definition indexed (b4 b8 : Z) (ports : list Port) (m : gmap string Z) : Prop :=
  (forall i p, sortSlice portLess ports !! i = Some p -> m !! p_Name p = Some (base b4 b8 p + Z.of_nat i)) /\
  dom m = list_to_set (map p_Name ports).

Lemma assigned b4 b8 ports : NoDup (map p_Name ports) -> Forall supported ports ->
  Z.of_nat (length ports) <= 4000 -> 0 <= b4 < 2 ^ 31 -> 0 <= b8 < 2 ^ 31 ->
  exists m, foldM (assignIndex b4 b8) ∅ (numbered ports) = Ret m /\ indexed b4 b8 ports m.
Proof.
  intros Hnd HF Hl H4 H8. unfold numbered. set (l := sortSlice portLess ports).
  assert (l ≡ₚ ports) as Hp by apply sortSlice_perm.
  destruct (assignIndex_spec b4 b8 l 0 ∅) as (m & Hm & Hin & Hout); [by rewrite Hp|by rewrite Hp|rewrite Hp; lia|done|done|].
  exists m. split; [done|split; [exact Hin|]]. apply set_eq. intros n. rewrite elem_of_dom, elem_of_list_to_set.
  split.
  - intros [v Hv]. destruct (decide (n ∈ map p_Name l)) as [H|H]; [by rewrite Hp in H|].
    by rewrite Hout in Hv.
  - intros H. rewrite <- Hp in H. apply list_elem_of_fmap in H as (p & -> & [i Hi]%list_elem_of_lookup).
    rewrite (Hin i p Hi). by eexists.
Qed.

Lemma indexed_map b4 b8 ports m : indexed b4 b8 ports m ->
  map (index_at m) (sortSlice portLess ports) = imap (fun i p => base b4 b8 p + Z.of_nat i) (sortSlice portLess ports).
Proof.
  intros [H _]. apply list_eq. intros i. rewrite list_lookup_fmap, list_lookup_imap.
  destruct (sortSlice portLess ports !! i) as [p|] eqn:E; [|done]. simpl. unfold index_at. by rewrite (H i p E).
Qed.

Lemma base_cases b4 b8 p : base b4 b8 p = b4 \/ base b4 b8 p = b8.
Proof. unfold base. destruct (is400 (p_PMD p)); auto. Qed.

Lemma imap_base_NoDup b4 b8 l : Z.of_nat (length l) <= 4000 -> b4 + 4000 <= b8 ->
  NoDup (imap (fun i p => base b4 b8 p + Z.of_nat i) l).
Proof.
  intros Hl Hb. apply NoDup_alt. intros i j x Hi Hj. rewrite list_lookup_imap in Hi, Hj.
  destruct (l !! i) as [p|] eqn:Ep; [|done]. destruct (l !! j) as [q|] eqn:Eq; [|done]. simplify_eq/=.
  apply lookup_lt_Some in Ep, Eq. destruct (base_cases b4 b8 p), (base_cases b4 b8 q); lia.
Qed.

Lemma imap_base_bounds b4 b8 l x : Z.of_nat (length l) <= 4000 -> b4 <= b8 ->
  x ∈ imap (fun i p => base b4 b8 p + Z.of_nat i) l -> b4 <= x < b8 + 4000.
Proof.
  intros Hl Hb Hx. apply elem_of_lookup_imap in Hx as (i & p & -> & Hp). apply lookup_lt_Some in Hp.
  destruct (base_cases b4 b8 p); lia.
Qed.

(** The logical channels of at most 4000 ports with supported optics and distinct
    names: both functions return, their maps have exactly the ports as keys and do
    not depend on the order in which the device lists its ports, and all channels
    have different indexes. *)
Lemma channels_distinct ports ports' : NoDup (map p_Name ports) -> Forall supported ports ->
  Z.of_nat (length ports) <= 4000 -> ports ≡ₚ ports' ->
  exists otn eth, AssignOTNIndexes ports = Ret otn /\ AssignETHIndexes ports = Ret eth /\
    AssignOTNIndexes ports' = Ret otn /\ AssignETHIndexes ports' = Ret eth /\
    dom otn = list_to_set (map p_Name ports) /\ dom eth = list_to_set (map p_Name ports) /\
    NoDup (map (index_at otn) ports ++ map (index_at eth) ports).
Proof.
  intros Hnd HF Hl Hp.
  destruct (assigned 4000 8000 ports) as (otn & Ho & Io); [done|done|done|lia|lia|].
  destruct (assigned 40000 80000 ports) as (eth & He & Ie); [done|done|done|lia|lia|].
  exists otn, eth. unfold AssignOTNIndexes, AssignETHIndexes.
  assert (numbered ports' = numbered ports) as ->.
  { unfold numbered. by rewrite (sortedPorts_unique ports ports'). }
  repeat (split; [first [done | apply Io | apply Ie]|]).
  rewrite <- (sortSlice_perm portLess ports) at 1 2.
  rewrite (indexed_map _ _ _ _ Io), (indexed_map _ _ _ _ Ie).
  assert (Z.of_nat (length (sortSlice portLess ports)) <= 4000) as Hl' by by rewrite (sortSlice_perm portLess ports).
  apply NoDup_app. split; [|split]; [apply imap_base_NoDup; [done|lia]| |apply imap_base_NoDup; [done|lia]].
  intros x Hx%imap_base_bounds Hy%imap_base_bounds; [lia|done|lia|done|lia].
Qed.

(** * The configuration of all ports *)

Section ConfigAll.
Context {re : Regexp} (exceptions : list PlatformExceptions) (dut : Device) (inv : Inventory).

(** The operations that configure one port. *)
Definition configOps (params : ConfigParameters) (p : Port) : go (list BatchOp) :=
  batch ← updateInterfaceConfig exceptions dut [] p params;
  batch ← updateHWPortConfig exceptions dut batch p params;
  batch ← updateTransceiverConfig exceptions dut batch p params;
  let batch := updateOpticalChannelConfig batch p params in
  batch ← updateOTNChannelConfig exceptions dut batch p params;
  updateETHChannelConfig exceptions dut batch p params.

Definition appends (f : list BatchOp -> go (list BatchOp)) : Prop :=
  forall b, f b = app b <$> f [].

Lemma appends_bind f g : appends f -> appends g -> appends (fun b => f b ≫= g).
Proof.
  intros Hf Hg b. cbn beta. rewrite (Hf b). destruct (f []) as [x| | |]; simpl; [|done..].
  rewrite (Hg (b ++ x)), (Hg x). destruct (g []) as [y| | |]; simpl; [|done..]. by rewrite app_assoc.
Qed.

(** Case analysis on a deviation or a test that both sides of a goal make. *)
Ltac deviation_case :=
  match goal with
  | |- context [?m ≫= _] => destruct m eqn:?; cbn [mbind outcome_bind fmap outcome_fmap]; [|done..]
  | |- context [if ?c then _ else _] => destruct c
  end.

Lemma updates_append p params :
  appends (fun b => updateInterfaceConfig exceptions dut b p params) /\
  appends (fun b => updateHWPortConfig exceptions dut b p params) /\
  appends (fun b => updateTransceiverConfig exceptions dut b p params) /\
  appends (fun b => updateOTNChannelConfig exceptions dut b p params) /\
  appends (fun b => updateETHChannelConfig exceptions dut b p params).
Proof.
  unfold updateInterfaceConfig, updateHWPortConfig, updateTransceiverConfig, updateOTNChannelConfig, updateETHChannelConfig.
  repeat split; intros b; cbn beta; repeat deviation_case; simpl; rewrite <- ?app_assoc, ?app_nil_r; done.
Qed.

Lemma configOps_app params p batch :
  (b ← updateInterfaceConfig exceptions dut batch p params;
   b ← updateHWPortConfig exceptions dut b p params;
   b ← updateTransceiverConfig exceptions dut b p params;
   b ← updateOTNChannelConfig exceptions dut (updateOpticalChannelConfig b p params) p params;
   updateETHChannelConfig exceptions dut b p params) = app batch <$> configOps params p.
Proof.
  destruct (updates_append p params) as (H1 & H2 & H3 & H4 & H5).
  assert (appends (fun b => updateOTNChannelConfig exceptions dut (updateOpticalChannelConfig b p params) p params)) as H4'.
  { refine (appends_bind (fun b => Ret (updateOpticalChannelConfig b p params)) _ _ H4). by intros b. }
  exact (appends_bind _ _ H1 (appends_bind _ _ H2 (appends_bind _ _ H3 (appends_bind _ _ H4' H5))) batch).
Qed.

(** What the configuration of a port reads of the parameters. *)
Record sees (p : Port) (a b : ConfigParameters) : Prop := {
  s_Enabled : Enabled a = Enabled b;
  s_Frequency : Frequency a = Frequency b;
  s_Power : TargetOpticalPower a = TargetOpticalPower b;
  s_Mode : OperationalMode a = OperationalMode b;
  s_Speed : PortSpeed a = PortSpeed b;
  s_Channels : NumPhysicalChannels a = NumPhysicalChannels b;
  s_Rate : RateClass a = RateClass b;
  s_Trib : TribProtocol a = TribProtocol b;
  s_Allocation : Allocation a = Allocation b;
  s_hw : name_at (HWPortNames a) p = name_at (HWPortNames b) p;
  s_tr : name_at (TransceiverNames a) p = name_at (TransceiverNames b) p;
  s_och : name_at (OpticalChannelNames a) p = name_at (OpticalChannelNames b) p;
  s_otn : index_at (OTNIndexes a) p = index_at (OTNIndexes b) p;
  s_eth : index_at (ETHIndexes a) p = index_at (ETHIndexes b) p }.

Lemma sees_trans p a b c : sees p a b -> sees p b c -> sees p a c.
Proof. intros [] []. constructor; etrans; eassumption. Qed.

Lemma configOps_sees p a b : sees p a b -> configOps a p = configOps b p.
Proof.
  intros []. unfold configOps, updateInterfaceConfig, interfaceConf, updateHWPortConfig, updateTransceiverConfig,
    updateOpticalChannelConfig, updateOTNChannelConfig, updateETHChannelConfig.
  repeat match goal with H : _ = _ |- _ => rewrite ?H; clear H end. reflexivity.
Qed.

(** ** The loop over the ports *)

(** The shared parameters with the fields of one port's mode. *)
Definition withMode (params : ConfigParameters) (m : PortMode) : ConfigParameters := {|
  Enabled := Enabled params; Frequency := Frequency params; TargetOpticalPower := TargetOpticalPower params;
  OperationalMode := OperationalMode params; PortSpeed := m_PortSpeed m; FormFactor := m_FormFactor m;
  NumPhysicalChannels := m_Channels m; RateClass := m_RateClass m; TribProtocol := m_Trib m;
  Allocation := m_Allocation m; HWPortNames := HWPortNames params; TransceiverNames := TransceiverNames params;
  TempSensorNames := TempSensorNames params; OpticalChannelNames := OpticalChannelNames params;
  OTNIndexes := OTNIndexes params; ETHIndexes := ETHIndexes params |}.

(** The answers of the deviations that the configuration asks for. *)
Record Deviated := {
  o_noSpeed : bool; o_noBreakout : bool; o_breakoutInterface : bool; o_dco : bool; o_otnCisco : bool;
  o_toETH : bool; o_noAdmin : bool; o_ethCisco : bool; o_noIngress : bool; o_noRate : bool; o_noTrib : bool }.
Record answered (o : Deviated) : Prop := {
  a_noSpeed : PortSpeedDuplexModeUnsupportedForInterfaceConfig exceptions dut = Ret (o_noSpeed o);
  a_noBreakout : BreakoutModeUnsupportedForEightHundredGb exceptions dut = Ret (o_noBreakout o);
  a_breakoutInterface : ExplicitBreakoutInterfaceConfig exceptions dut = Ret (o_breakoutInterface o);
  a_dco : ExplicitDcoConfig exceptions dut = Ret (o_dco o);
  a_otnCisco : OTNChannelAssignmentCiscoNumbering exceptions dut = Ret (o_otnCisco o);
  a_toETH : OTNToETHAssignment exceptions dut = Ret (o_toETH o);
  a_noAdmin : TerminalDeviceChannelAdminStateUnsupported exceptions dut = Ret (o_noAdmin o);
  a_ethCisco : EthChannelAssignmentCiscoNumbering exceptions dut = Ret (o_ethCisco o);
  a_noIngress : EthChannelIngressParametersUnsupported exceptions dut = Ret (o_noIngress o);
  a_noRate : ChannelRateClassParametersUnsupported exceptions dut = Ret (o_noRate o);
  a_noTrib : OTNChannelTribUnsupported exceptions dut = Ret (o_noTrib o) }.

Lemma updates_total o params p : answered o -> o_ethCisco o = false ->
  (forall b, exists b', updateInterfaceConfig exceptions dut b p params = Ret b') /\
  (forall b, exists b', updateHWPortConfig exceptions dut b p params = Ret b') /\
  (forall b, exists b', updateTransceiverConfig exceptions dut b p params = Ret b') /\
  (forall b, exists b', updateOTNChannelConfig exceptions dut b p params = Ret b') /\
  (forall b, exists b', updateETHChannelConfig exceptions dut b p params = Ret b').
Proof.
  intros [] Hc. unfold updateInterfaceConfig, interfaceConf, updateHWPortConfig, updateTransceiverConfig,
    updateOTNChannelConfig, updateETHChannelConfig.
  repeat match goal with H : _ = Ret _ |- _ => rewrite ?H; clear H end. rewrite Hc.
  repeat split; intros b; cbn [mbind outcome_bind]; repeat case_match; by eexists.
Qed.

Lemma configOps_total o params p : answered o -> o_ethCisco o = false -> exists bs, configOps params p = Ret bs.
Proof.
  intros Ha Hc. destruct (updates_total o params p Ha Hc) as (H1 & H2 & H3 & H4 & H5). unfold configOps.
  destruct (H1 []) as [b1 ->]. cbn [mbind outcome_bind]. destruct (H2 b1) as [b2 ->]. cbn [mbind outcome_bind].
  destruct (H3 b2) as [b3 ->]. cbn [mbind outcome_bind].
  destruct (H4 (updateOpticalChannelConfig b3 p params)) as [b4 ->]. exact (H5 b4).
Qed.

(** The inventory of the ports: hardware port, transceiver and optical channel. *)
Definition inventoried (p : Port) (hw tr och : string) : Prop :=
  hardwarePort inv (p_Name p) = Some hw /\ transceiver inv (p_Name p) = Some tr /\
  opticalChannelOf exceptions dut inv p = Ret och.

Section Loop.
Context (o : Deviated) (Ha : answered o) (Hcisco : o_ethCisco o = false).
Context (ports : list Port) (modes : Port -> PortMode) (otn eth : gmap string Z).
Context (Hotn : AssignOTNIndexes ports = Ret otn) (Heth : AssignETHIndexes ports = Ret eth).
Context (hw tr och : string -> string).

Definition step (params : ConfigParameters) (p : Port) : ConfigParameters :=
  withPort params p (hw (p_Name p)) (tr (p_Name p)) (och (p_Name p)) otn eth (modes p).

Lemma configPort_run params batch p : inventoried p (hw (p_Name p)) (tr (p_Name p)) (och (p_Name p)) ->
  portMode (p_PMD p) (OperationalMode params) = Ret (modes p) ->
  exists bs, configOps (step params p) p = Ret bs /\
    configPort exceptions dut inv ports (params, batch) p = Ret (step params p, batch ++ bs).
Proof.
  intros (H1 & H2 & H3) Hm. destruct (configOps_total o (step params p) p Ha Hcisco) as [bs Hbs].
  exists bs. split; [done|]. unfold configPort. rewrite H1, H2. cbn [gnmiGet mbind outcome_bind].
  rewrite H3. cbn [mbind outcome_bind]. rewrite Hotn, Heth. cbn [mbind outcome_bind]. rewrite Hm.
  pose proof (configOps_app (step params p) p batch) as H. rewrite Hbs in H. cbn [fmap outcome_fmap] in H.
  cbn [mbind outcome_bind]. unfold step in *. revert H.
  repeat deviation_case; intros; try done. by simplify_eq/=.
Qed.

(** Later ports change only the mode of what the configuration of a port reads. *)
Lemma foldl_step_sees p l : forall params, p_Name p ∉ map p_Name l -> OTNIndexes params = otn ->
  ETHIndexes params = eth -> sees p (withMode params (modes p)) (withMode (foldl step params l) (modes p)).
Proof.
  induction l as [|q l IH]; intros params Hp; [by constructor|].
  apply not_elem_of_cons in Hp as [Hpq Hp]. intros. cbn [foldl].
  apply (sees_trans p _ (withMode (step params q) (modes p))); [|by apply IH].
  constructor; simpl; first [congruence | unfold name_at; simpl; by rewrite lookup_insert_ne by congruence].
Qed.

Lemma foldl_step_names l : forall params, NoDup (map p_Name l) -> forall p, p ∈ l ->
  let r := foldl step params l in
  name_at (HWPortNames r) p = hw (p_Name p) /\ name_at (TransceiverNames r) p = tr (p_Name p) /\
  name_at (TempSensorNames r) p = "TempSensor-" +:+ tr (p_Name p) /\
  name_at (OpticalChannelNames r) p = och (p_Name p).
Proof.
  induction l as [|q l IH] using rev_ind; intros params Hnd p Hp; [by apply not_elem_of_nil in Hp|].
  rewrite map_app in Hnd. apply NoDup_app in Hnd as (Hnd & _ & _). rewrite foldl_app. cbn [foldl].
  set (r0 := foldl step params l). unfold name_at. simpl.
  destruct (decide (p_Name q = p_Name p)) as [->|Hne]; [by rewrite !lookup_insert_eq|].
  rewrite !lookup_insert_ne by done. apply IH; [done|].
  apply elem_of_app in Hp as [|Hp%list_elem_of_singleton]; [done|congruence].
Qed.

Lemma foldl_step_fields l params q : last l = Some q -> let r := foldl step params l in
  OTNIndexes r = otn /\ ETHIndexes r = eth /\ withMode r (modes q) = r /\
  Enabled r = Enabled params /\ Frequency r = Frequency params /\
  TargetOpticalPower r = TargetOpticalPower params /\ OperationalMode r = OperationalMode params.
Proof.
  revert q. induction l as [|p l IH] using rev_ind; intros q; [done|]. rewrite last_snoc, foldl_app. intros [= <-]. simpl.
  split; [done|split; [done|split; [done|]]].
  destruct (last l) as [q|] eqn:E; [by destruct (IH q eq_refl) as (_ & _ & _ & ?)|].
  by apply last_None in E as ->.
Qed.

Lemma configPorts_run l : forall params batch, NoDup (map p_Name l) ->
  (forall p, p ∈ l -> inventoried p (hw (p_Name p)) (tr (p_Name p)) (och (p_Name p))) ->
  (forall p, p ∈ l -> portMode (p_PMD p) (OperationalMode params) = Ret (modes p)) ->
  exists bss, foldM (configPort exceptions dut inv ports) (params, batch) l =
      Ret (foldl step params l, batch ++ concat bss) /\
    Forall2 (fun p bs => configOps (withMode (foldl step params l) (modes p)) p = Ret bs) l bss.
Proof.
  induction l as [|p l IH]; intros params batch Hnd Hinv Hm; [exists []; by rewrite app_nil_r|].
  apply NoDup_cons in Hnd as [Hp Hnd].
  destruct (configPort_run params batch p) as (bs & Hbs & Hrun); [apply Hinv; by left|apply Hm; by left|].
  destruct (IH (step params p) (batch ++ bs)) as (bss & Hrest & HF); [done|intros; apply Hinv; by right|
    intros; apply Hm; by right|].
  exists (bs :: bss). split.
  - cbn [foldM]. rewrite Hrun. cbn [mbind outcome_bind]. rewrite Hrest. cbn [concat]. by rewrite app_assoc.
  - constructor; [|done]. cbn [foldl]. rewrite <- Hbs. symmetry.
    exact (configOps_sees p _ _ (foldl_step_sees p l (step params p) Hp eq_refl eq_refl)).
Qed.
End Loop.

Definition hwOf (n : string) : string := default "" (hardwarePort inv n).
Definition trOf (n : string) : string := default "" (transceiver inv n).
Definition ochOf (n : string) : string :=
  match opticalChannelOf exceptions dut inv {| p_Name := n; p_PMD := PMD400GBASEZR |} with Ret s => s | _ => "" end.

Lemma inventoried_of p hw tr och : inventoried p hw tr och ->
  inventoried p (hwOf (p_Name p)) (trOf (p_Name p)) (ochOf (p_Name p)).
Proof.
  intros (H1 & H2 & H3). unfold inventoried, hwOf, trOf. rewrite H1, H2. split; [done|split; [done|]].
  assert (ochOf (p_Name p) = och) as ->; [|done].
  unfold ochOf. change (opticalChannelOf exceptions dut inv {| p_Name := p_Name p; p_PMD := PMD400GBASEZR |})
    with (opticalChannelOf exceptions dut inv p). by rewrite H3.
Qed.

Lemma portMode_supported p mode m : portMode (p_PMD p) mode = Ret m -> supported p.
Proof. unfold portMode, supported. by destruct (is400 (p_PMD p)), (is800 (p_PMD p)). Qed.

(** The entry that the Cisco numbering changes is not the one that was made. *)
Lemma updateETH_cisco o b p params : answered o -> o_ethCisco o = true ->
  updateETHChannelConfig exceptions dut b p params = Panic.
Proof.
  intros [] Hc. unfold updateETHChannelConfig.
  repeat match goal with H : _ = Ret _ |- _ => rewrite ?H; clear H end. by rewrite Hc.
Qed.

Lemma configPort_cisco o ports params batch p hw tr och otn eth m : answered o -> o_ethCisco o = true ->
  inventoried p hw tr och -> AssignOTNIndexes ports = Ret otn -> AssignETHIndexes ports = Ret eth ->
  portMode (p_PMD p) (OperationalMode params) = Ret m ->
  configPort exceptions dut inv ports (params, batch) p = Panic.
Proof.
  intros Ha Hc (H1 & H2 & H3) Hotn Heth Hm. unfold configPort. rewrite H1, H2. cbn [gnmiGet mbind outcome_bind].
  rewrite H3. cbn [mbind outcome_bind]. rewrite Hotn, Heth. cbn [mbind outcome_bind]. rewrite Hm.
  cbn [mbind outcome_bind]. generalize (withPort params p hw tr och otn eth m) as ps. intros ps. pose proof Ha as [].
  unfold updateInterfaceConfig, interfaceConf, updateHWPortConfig, updateTransceiverConfig, updateOTNChannelConfig.
  rewrite a_noSpeed0, a_noBreakout0, a_breakoutInterface0, a_dco0, a_otnCisco0, a_toETH0, a_noAdmin0.
  cbn [mbind outcome_bind].
  destruct (o_noBreakout o && String.eqb (PortSpeed ps) "SPEED_800GB"), (is400 (p_PMD p)), (o_breakoutInterface o),
    (o_dco o); cbn [negb mbind outcome_bind]; by rewrite (updateETH_cisco o _ _ _ Ha Hc).
Qed.

(** C27: [NewInterfaceConfigAll] on at most 4000 ports with distinct names whose
    hardware port, transceiver and optical channel the device reports and whose
    optics support the operational mode; 400G and 800G optics may be mixed.
    Without the Cisco numbering of Ethernet channels it returns: the batch has, port
    by port, the operations that the parameters describe with the mode of that port's
    own optics; the parameters hold the names of the inventory and the channel
    indexes, all logical channels have different indexes, and the settings of the
    caller are kept.  The parameters are shared by all ports and are overwritten port
    by port: in the end they hold the mode (speed, form factor, channels, rate class,
    trib protocol, allocation) of the last port only, so they describe the batch of
    another port where its optics have the same mode.  With the Cisco numbering the
    function dereferences a nil pointer: it made the assignment with index 1 and
    changes the one with index 0. *)
Theorem NewInterfaceConfigAll_configures o ports batch params modes q : answered o -> last ports = Some q ->
  NoDup (map p_Name ports) -> Z.of_nat (length ports) <= 4000 ->
  (forall p, p ∈ ports -> exists hw tr och, inventoried p hw tr och) ->
  (forall p, p ∈ ports -> portMode (p_PMD p) (OperationalMode params) = Ret (modes p)) ->
  let r := NewInterfaceConfigAll exceptions dut inv ports batch params in
  if o_ethCisco o then r = Panic
  else exists params' bss, r = Ret (params', batch ++ concat bss) /\
    Forall2 (fun p bs => configOps (withMode params' (modes p)) p = Ret bs) ports bss /\
    withMode params' (modes q) = params' /\
    (forall p, p ∈ ports ->
      inventoried p (name_at (HWPortNames params') p) (name_at (TransceiverNames params') p)
        (name_at (OpticalChannelNames params') p) /\
      name_at (TempSensorNames params') p = "TempSensor-" +:+ name_at (TransceiverNames params') p) /\
    AssignOTNIndexes ports = Ret (OTNIndexes params') /\ AssignETHIndexes ports = Ret (ETHIndexes params') /\
    NoDup (map (index_at (OTNIndexes params')) ports ++ map (index_at (ETHIndexes params')) ports) /\
    Enabled params' = Enabled params /\ Frequency params' = Frequency params /\
    TargetOpticalPower params' = TargetOpticalPower params /\ OperationalMode params' = OperationalMode params.
Proof.
  intros Ha Hq Hnd Hl Hinv Hm. cbn zeta.
  destruct (channels_distinct ports ports) as (otn & eth & Ho & He & _ & _ & _ & _ & HD); [done| |done|done|].
  { apply Forall_forall. intros p Hp. exact (portMode_supported _ _ _ (Hm p Hp)). }
  destruct (o_ethCisco o) eqn:Hc.
  - destruct ports as [|p ports]; [done|]. unfold NewInterfaceConfigAll. cbn [foldM].
    destruct (Hinv p) as (hw & tr & och & Hi); [by left|].
    rewrite (configPort_cisco o _ _ _ p hw tr och otn eth (modes p) Ha Hc Hi Ho He); [done|]. apply Hm. by left.
  - destruct (configPorts_run o Ha Hc ports modes otn eth Ho He hwOf trOf ochOf ports (resetNames params) batch)
      as (bss & Hrun & HF); [done| |exact Hm|].
    { intros p Hp. destruct (Hinv p Hp) as (hw & tr & och & Hi). exact (inventoried_of _ _ _ _ Hi). }
    destruct (foldl_step_fields modes otn eth hwOf trOf ochOf ports (resetNames params) q Hq)
      as (E1 & E2 & E3 & E4 & E5 & E6 & E7).
    set (r := foldl _ _ ports) in *. exists r, bss. split; [exact Hrun|split; [exact HF|split; [exact E3|split]]].
    + intros p Hp. destruct (Hinv p Hp) as (hw & tr & och & Hi%inventoried_of).
      destruct (foldl_step_names modes otn eth hwOf trOf ochOf ports (resetNames params) Hnd p Hp) as (N1 & N2 & N3 & N4).
      fold r in N1, N2, N3, N4. by rewrite N1, N2, N3, N4.
    + rewrite E1, E2. repeat split; done.
Qed.
End ConfigAll.

(** * Examples *)

Definition sample_ports : list Port := [
  {| p_Name := "Ethernet9/1"; p_PMD := PMD800GBASEZR |}; {| p_Name := "Ethernet1/1"; p_PMD := PMD400GBASEZR |}].
Definition sample_inventory : Inventory := {|
  hardwarePort n := Some (n +:+ "-Port"); transceiver n := Some (n +:+ "-transceiver"); partNo n := None;
  channel0 n := Some (n +:+ "-Optical0") |}.
Definition sample_device : Device := {| dev_Vendor := "CISCO"; dev_Model := "8808"; dev_Version := "7.11" |}.
Definition plain_regexp : Regexp := fun _ _ => Ret false.
Definition cisco_numbering : list PlatformExceptions := [
  {| GetPlatform := {| Vendor := "CISCO"; HardwareModelRegex := ""; SoftwareVersionRegex := "" |};
     GetDeviations := {[ "EthChannelAssignmentCiscoNumbering" := VBool true ]} |}].
Definition sample_params : ConfigParameters := {|
  Enabled := false; Frequency := 196100000; TargetOpticalPower := Zf (-7); OperationalMode := 1; PortSpeed := "";
  FormFactor := ""; NumPhysicalChannels := 0; RateClass := ""; TribProtocol := ""; Allocation := Zf 0;
  HWPortNames := ∅; TransceiverNames := ∅; TempSensorNames := ∅; OpticalChannelNames := ∅;
  OTNIndexes := ∅; ETHIndexes := ∅ |}.
Definition no_deviation (cisco : bool) : Deviated := {|
  o_noSpeed := false; o_noBreakout := false; o_breakoutInterface := false; o_dco := false; o_otnCisco := false;
  o_toETH := false; o_noAdmin := false; o_ethCisco := cisco; o_noIngress := false; o_noRate := false;
  o_noTrib := false |}.

Lemma sample_answers cisco :
  @answered plain_regexp (if cisco : bool then cisco_numbering else []) sample_device (no_deviation cisco).
Proof. destruct cisco; split; vm_compute; reflexivity. Defined.

Lemma sample_inventoried cisco p : p ∈ sample_ports -> exists hw tr och,
  @inventoried plain_regexp (if cisco : bool then cisco_numbering else []) sample_device sample_inventory p hw tr och.
Proof.
  intros Hp. exists (p_Name p +:+ "-Port"), (p_Name p +:+ "-transceiver"), (p_Name p +:+ "-transceiver-Optical0").
  repeat (apply elem_of_cons in Hp as [->|Hp];
    [split; [|split]; destruct cisco; vm_compute; reflexivity|]).
  by apply not_elem_of_nil in Hp.
Qed.

Definition sample_modes (p : Port) : PortMode := if is400 (p_PMD p) then mode400 "QSFP56_DD" 8 else mode800.
Lemma sample_mode p : p ∈ sample_ports -> portMode (p_PMD p) (OperationalMode sample_params) = Ret (sample_modes p).
Proof.
  intros Hp. repeat (apply elem_of_cons in Hp as [->|Hp]; [reflexivity|]). by apply not_elem_of_nil in Hp.
Qed.

Lemma sample_names : NoDup (map p_Name sample_ports).
Proof. apply (bool_decide_unpack _). vm_compute. exact I. Qed.

Lemma NewInterfaceConfigAll_witness :
  @NewInterfaceConfigAll plain_regexp cisco_numbering sample_device sample_inventory sample_ports [] sample_params = Panic /\
  exists params' bss,
    @NewInterfaceConfigAll plain_regexp [] sample_device sample_inventory sample_ports [] sample_params =
      Ret (params', [] ++ concat bss) /\
    withMode params' (mode400 "QSFP56_DD" 8) = params' /\
    NoDup (map (index_at (OTNIndexes params')) sample_ports ++ map (index_at (ETHIndexes params')) sample_ports).
Proof.
  assert (Z.of_nat (length sample_ports) <= 4000) as Hl by (vm_compute; discriminate).
  split.
  - exact (@NewInterfaceConfigAll_configures plain_regexp cisco_numbering sample_device sample_inventory
      (no_deviation true) sample_ports [] sample_params sample_modes _ (sample_answers true) eq_refl sample_names Hl
      (sample_inventoried true) sample_mode).
  - destruct (@NewInterfaceConfigAll_configures plain_regexp [] sample_device sample_inventory
      (no_deviation false) sample_ports [] sample_params sample_modes _ (sample_answers false) eq_refl sample_names Hl
      (sample_inventoried false) sample_mode) as (ps & bss & Hr & _ & HW & _ & _ & _ & HN & _).
    exists ps, bss. exact (conj Hr (conj HW HN)).
Defined.

(** The operational mode is chosen once per process: later calls return what the
    first one chose, whatever they ask for; when the first one ended its test, they
    return the mode that was there before, zero at the start. *)
Lemma InterfaceInitialize_once dut ports ports' mode mode' s : once_done s = false ->
  let '(r, s1) := InterfaceInitialize dut ports mode s in
  InterfaceInitialize dut ports' mode' s1 = (Ret (match r with Ret m => m | _ => opmode s end), s1).
Proof. intros H. unfold InterfaceInitialize. rewrite H. by destruct (initialMode dut ports mode). Qed.
