(* ===== verification/Transceiver.v ===== *)
(** Telemetry of pluggable optics ([src/internal/telemetry/transceiver]): the
    tables of test cases of the validators, how each validator judges a case, when
    a sample stream counts as ready, and the sequence of steps of the two tests.

    A leaf that is not set reads as the zero value of its type.  Samples come from the streams of
    [SampleStream]. *)
From stdpp Require Import base list gmap strings.
From Stdlib Require Import ZArith Lia.
From S2P Require Import Prelude GoStrings Deviations SampleStream Floats Optics.
Open Scope Z_scope.

(** * Constants *)

Definition errorTolerance : float := lit 5 100.
(** The constant expressions [1 - errorTolerance] and [1 + errorTolerance] are exact. *)
Definition one_minus_tolerance : float := lit 95 100.
Definition one_plus_tolerance : float := lit 105 100.
Definition minAllowedCDValue : float := Zf (-200).
Definition maxAllowedCDValue : float := Zf 2400.
Definition inactiveCDValue : float := Zf 1.
Definition inactivePower : float := Zf (-30).
Definition powerLoss : float := Zf 2.
Definition powerReadingError : float := Zf 1.
Definition minAllowedCarrierFrequencyOffset : float := Zf (-3600).
Definition maxAllowedCarrierFrequencyOffset : float := Zf 3600.
Definition inactiveCarrierFrequencyOffset : float := Zf 1.
Definition minAllowedLaserBiasCurrent : float := Zf 0.
Definition maxAllowedLaserBiasCurrent : float := Zf 1000.
Definition minAllowedSupplyVoltage : float := Zf 3.
Definition maxAllowedSupplyVoltage : float := Zf 4.
Definition minAllowedTemperature : float := Zf 25.
Definition maxAllowedTemperature : float := Zf 80.
Definition minAllowedQValue : float := Zf 7.
Definition maxAllowedQValue : float := Zf 14.
Definition minAllowedPreFECBER : float := lit 1 1000000000.
Definition maxAllowedPreFECBER : float := lit 1 100.
Definition minAllowedESNR : float := Zf 10.
Definition maxAllowedESNR : float := Zf 25.
Definition inactiveQValue : float := Zf 0.
Definition inactiveESNR : float := Zf 0.
Definition inactivePreFECBER : list float := [Zf 0; lit 5 10; Zf 1].

(** * Test cases *)

(** The dynamic types of [got] and [want]; an enumeration has a type and a value. *)
Inductive Val :=
| VString (s : string)
| VFloat (x : float)
| VBool (b : bool)
| VUint (width n : Z)
| VEnum (ty v : string).

(** [cmp.Diff(got, want) == ""]: same type and value; NaN differs from itself. *)
Definition no_diff (x y : Val) : bool :=
  match x, y with
  | VString s, VString t => String.eqb s t
  | VFloat a, VFloat b => feq a b
  | VBool a, VBool b => Bool.eqb a b
  | VUint w n, VUint w' m => (w =? w') && (n =? m)
  | VEnum t v, VEnum t' v' => String.eqb t t' && String.eqb v v'
  | _, _ => false
  end.

Inductive OperStatus := UNSET | UP | DOWN.
#[export] Instance OperStatus_eq_dec : EqDecision OperStatus.
Proof. solve_decision. Defined.

(** A nil [want] is [None]. *)
Record testcase := {
  desc : string;
  path : string;
  got : Val;
  want : option Val;
  oneOf : list float;
  operStatus : OperStatus;
  minAllowed : float;
  maxAllowed : float;
  patternToMatch : string }.

(** A composite literal: the fields that are not listed have their zero values. *)
Definition Case (d p : string) (g : Val) (fields : list (testcase -> testcase)) : testcase :=
  foldl (fun tc f => f tc)
    {| desc := d; path := p; got := g; want := None; oneOf := []; operStatus := UNSET;
       minAllowed := Zf 0; maxAllowed := Zf 0; patternToMatch := "" |} fields.
Definition wants (v : Val) (tc : testcase) : testcase := {|
  desc := desc tc; path := path tc; got := got tc; want := Some v; oneOf := oneOf tc; operStatus := operStatus tc;
  minAllowed := minAllowed tc; maxAllowed := maxAllowed tc; patternToMatch := patternToMatch tc |}.
Definition anyOf (l : list float) (tc : testcase) : testcase := {|
  desc := desc tc; path := path tc; got := got tc; want := want tc; oneOf := l; operStatus := operStatus tc;
  minAllowed := minAllowed tc; maxAllowed := maxAllowed tc; patternToMatch := patternToMatch tc |}.
Definition status (s : OperStatus) (tc : testcase) : testcase := {|
  desc := desc tc; path := path tc; got := got tc; want := want tc; oneOf := oneOf tc; operStatus := s;
  minAllowed := minAllowed tc; maxAllowed := maxAllowed tc; patternToMatch := patternToMatch tc |}.
Definition atLeast (x : float) (tc : testcase) : testcase := {|
  desc := desc tc; path := path tc; got := got tc; want := want tc; oneOf := oneOf tc; operStatus := operStatus tc;
  minAllowed := x; maxAllowed := maxAllowed tc; patternToMatch := patternToMatch tc |}.
Definition atMost (x : float) (tc : testcase) : testcase := {|
  desc := desc tc; path := path tc; got := got tc; want := want tc; oneOf := oneOf tc; operStatus := operStatus tc;
  minAllowed := minAllowed tc; maxAllowed := x; patternToMatch := patternToMatch tc |}.
Definition like (s : string) (tc : testcase) : testcase := {|
  desc := desc tc; path := path tc; got := got tc; want := want tc; oneOf := oneOf tc; operStatus := operStatus tc;
  minAllowed := minAllowed tc; maxAllowed := maxAllowed tc; patternToMatch := s |}.

(** ** How a case is judged: the failures a subtest reports *)

(** A type assertion to [float64] that fails is reported and reads as zero. *)
Definition as_float (v : Val) : list string * float :=
  match v with VFloat x => ([], x) | _ => (["invalid type"], Zf 0) end.
Definition as_string (v : Val) : list string * string :=
  match v with VString s => ([], s) | _ => (["invalid type"], "") end.

Definition check_diff (tc : testcase) : list string :=
  match want tc with
  | Some w => if no_diff (got tc) w then [] else ["diff"]
  | None => ["diff"]
  end.
Definition check_range (tc : testcase) : list string :=
  let '(e, val) := as_float (got tc) in
  e ++ (if flt val (minAllowed tc) || flt (maxAllowed tc) val then ["out of range"] else []).
Definition check_max (tc : testcase) : list string :=
  let '(e, val) := as_float (got tc) in
  e ++ (if flt (maxAllowed tc) val then ["out of range"] else []).
Definition check_oneOf (tc : testcase) : list string :=
  let '(e, val) := as_float (got tc) in
  e ++ (if existsb (fun x => feq x val) (oneOf tc) then [] else ["none of the expected values"]).
(** [regexp.MustCompile] panics on a pattern that does not compile. *)
Definition check_pattern {re : Regexp} (tc : testcase) : go (list string) :=
  let '(e, val) := as_string (got tc) in
  match MatchString (patternToMatch tc) val with
  | Ret true => Ret e
  | Ret false => Ret (e ++ ["invalid"])
  | _ => Panic
  end.

(** The cases of another state of the interface are skipped. *)
Definition applies (wantOperStatus : OperStatus) (tc : testcase) : bool :=
  bool_decide (operStatus tc = UNSET) || bool_decide (operStatus tc = wantOperStatus).

Definition judge_optical (tc : testcase) : list string :=
  match operStatus tc with
  | UP => check_range tc
  | DOWN => check_max tc
  | UNSET => check_diff tc
  end.

Definition judge_transceiver {re : Regexp} (tc : testcase) : go (list string) :=
  if negb (String.eqb (patternToMatch tc) "") then check_pattern tc
  else Ret (match operStatus tc, want tc with
            | UP, Some _ | DOWN, Some _ => check_diff tc
            | UP, None => check_range tc
            | DOWN, None => check_max tc
            | UNSET, _ => check_diff tc
            end).

Definition judge_otn (tc : testcase) : list string :=
  match oneOf tc with
  | _ :: _ => check_oneOf tc
  | [] =>
      match operStatus tc, want tc with
      | UP, Some _ => check_diff tc
      | UP, None => check_range tc
      | _, _ => check_diff tc
      end
  end.

Definition judge_hwport {re : Regexp} (tc : testcase) : go (list string) :=
  if negb (String.eqb (patternToMatch tc) "") then check_pattern tc else Ret (check_diff tc).

Definition judge_sensor (tc : testcase) : list string :=
  match want tc with Some _ => check_diff tc | None => check_range tc end.

(** The failures of the subtests, each with the description of its case. *)
Definition report (judge : testcase -> go (list string)) (tcs : list testcase) : go (list (string * string)) :=
  ess ← mapM (fun tc => es ← judge tc; Ret (map (fun e => (desc tc, e)) es)) tcs;
  Ret (concat ess).

(** * Telemetry *)

Record Stats := { Instant : float; Avg : float; Min : float; Max : float }.

Record OpticalChannel := {
  oc_OperationalMode : Z;
  oc_Frequency : Z;
  oc_TargetOutputPower : float;
  oc_LaserBiasCurrent : Stats;
  oc_InputPower : Stats;
  oc_OutputPower : Stats;
  oc_ChromaticDispersion : Stats;
  oc_CarrierFrequencyOffset : Stats }.
Record PhysicalChannel := { ch_Index : Z; ch_InputPower : Stats; ch_OutputPower : Stats }.

(** The type of a component: [None] when unset, [inl] hardware, [inr] software. *)
Record Component := {
  c_Name : string;
  c_Parent : string;
  c_Location : string;
  c_Type : option (string + string);
  c_OperStatus : string;
  c_FirmwareVersion : string;
  c_HardwareVersion : string;
  c_SerialNo : string;
  c_PartNo : string;
  c_MfgName : string;
  c_MfgDate : string;
  c_Temperature_Instant : float;
  c_Temperature_Max : float;
  c_Temperature_AlarmStatus : bool;
  c_OpticalChannel : OpticalChannel;
  c_SupplyVoltage_Instant : float;
  c_FormFactor : string;
  c_Channel0 : PhysicalChannel;
  c_Group1 : BreakoutGroup }.

Record Assignment := {
  as_Index : Z;
  as_LogicalChannel : Z;
  as_OpticalChannel : string;
  as_Description : string;
  as_Allocation : float;
  as_AssignmentType : string }.
Record Channel := {
  tc_Index : Z;
  tc_Description : string;
  tc_LogicalChannelType : string;
  tc_LoopbackMode : string;
  tc_RateClass : string;
  tc_TribProtocol : string;
  tc_AdminState : string;
  tc_Assignment : Z -> Assignment;
  tc_Ingress_Interface : string;
  tc_Ingress_Transceiver : string;
  tc_QValue : Stats;
  tc_Esnr : Stats;
  tc_PreFecBer : Stats;
  tc_FecUncorrectableBlocks : Z }.

Record Interface := {
  i_Name : string;
  i_OperStatus : OperStatus;
  i_Type : string;
  i_Enabled : bool;
  i_PortSpeed : string }.

(** [GetType().(E_..._HARDWARE_COMPONENT)] panics on another type. *)
Definition hardware_type (c : Component) : go Val :=
  match c_Type c with Some (inl t) => Ret (VEnum "OPENCONFIG_HARDWARE_COMPONENT" t) | _ => Panic end.

Definition componentPath (name : string) : string := "openconfig/components/component[name=" +:+ name +:+ "]".
Definition logicalChannelPath (i : Z) : string :=
  "openconfig/terminal-device/logical-channels/channel[index=" +:+ Itoa i +:+ "]".
Definition interfacePath (name : string) : string := "openconfig/interfaces/interface[name=" +:+ name +:+ "]".

Definition status_string (s : OperStatus) : string :=
  match s with UNSET => "UNSET" | UP => "UP" | DOWN => "DOWN" end.

(** [min - math.Abs(min)*errorTolerance] and [max + math.Abs(max)*errorTolerance],
    with every operation rounded. *)
Definition marginBelow (s : Stats) : float := fsub (Min s) (fmul (fabs (Min s)) errorTolerance).
Definition marginAbove (s : Stats) : float := fadd (Max s) (fmul (fabs (Max s)) errorTolerance).

(** * The tables *)

Section Tables.
Context (p : Port) (params : ConfigParameters).

Definition ochPath (leaf : string) : string := componentPath (name_at (OpticalChannelNames params) p) +:+ leaf.
Definition trPath (leaf : string) : string := componentPath (name_at (TransceiverNames params) p) +:+ leaf.
Definition hwPath (leaf : string) : string := componentPath (name_at (HWPortNames params) p) +:+ leaf.
Definition sensorPath (leaf : string) : string := componentPath (name_at (TempSensorNames params) p) +:+ leaf.
Definition otnPath (leaf : string) : string := logicalChannelPath (index_at (OTNIndexes params) p) +:+ leaf.
Definition ethPath (leaf : string) : string := logicalChannelPath (index_at (ETHIndexes params) p) +:+ leaf.
Definition ifPath (leaf : string) : string := interfacePath (p_Name p) +:+ leaf.
Definition assignmentPath (i : Z) (leaf : string) : string :=
  "/logical-channel-assignments/assignment[index=" +:+ Itoa i +:+ "]" +:+ leaf.

(** ** Optical channel *)

Definition opticalInputCases (v : Component) : list testcase := [
  Case "Optical Channel Name Validation" (ochPath "/state/name")
    (VString (c_Name v)) [wants (VString (name_at (OpticalChannelNames params) p))];
  Case "Optical Channel Parent Validation" (ochPath "/state/parent")
    (VString (c_Parent v)) [wants (VString (name_at (TransceiverNames params) p))];
  Case "Optical Channel Operational Mode Validation" (ochPath "/optical-channel/state/operational-mode")
    (VUint 16 (oc_OperationalMode (c_OpticalChannel v))) [wants (VUint 16 (OperationalMode params))];
  Case "Optical Channel Frequency Validation" (ochPath "/optical-channel/state/frequency")
    (VFloat (Zf (oc_Frequency (c_OpticalChannel v))))
      [status UP; atLeast (fadd (Zf (Frequency params)) minAllowedCarrierFrequencyOffset);
        atMost (fadd (Zf (Frequency params)) maxAllowedCarrierFrequencyOffset)];
  Case "Optical Channel Target Output Power Validation" (ochPath "/optical-channel/state/target-output-power")
    (VFloat (oc_TargetOutputPower (c_OpticalChannel v))) [wants (VFloat (TargetOpticalPower params))];
  Case "Optical Channel Instant Laser Bias Current Validation"
    (ochPath "/optical-channel/state/laser-bias-current/instant")
    (VFloat (Instant (oc_LaserBiasCurrent (c_OpticalChannel v))))
      [status UP; atLeast minAllowedLaserBiasCurrent; atMost maxAllowedLaserBiasCurrent];
  Case "Optical Channel Instant Input Power Validation" (ochPath "/optical-channel/state/input-power/instant")
    (VFloat (Instant (oc_InputPower (c_OpticalChannel v))))
      [status UP; atLeast (marginBelow (oc_InputPower (c_OpticalChannel v)));
        atMost (marginAbove (oc_InputPower (c_OpticalChannel v)))];
  Case "Optical Channel Instant Input Power Validation" (ochPath "/optical-channel/state/input-power/instant")
    (VFloat (Instant (oc_InputPower (c_OpticalChannel v)))) [status DOWN; atMost inactivePower];
  Case "Optical Channel Average Input Power Validation" (ochPath "/optical-channel/state/input-power/avg")
    (VFloat (Avg (oc_InputPower (c_OpticalChannel v))))
      [status UP; atLeast (marginBelow (oc_InputPower (c_OpticalChannel v)));
        atMost (marginAbove (oc_InputPower (c_OpticalChannel v)))];
  Case "Optical Channel Average Input Power Validation" (ochPath "/optical-channel/state/input-power/avg")
    (VFloat (Avg (oc_InputPower (c_OpticalChannel v)))) [status DOWN; atMost inactivePower];
  Case "Optical Channel Minimum Input Power Validation" (ochPath "/optical-channel/state/input-power/min")
    (VFloat (Min (oc_InputPower (c_OpticalChannel v))))
      [status UP; atLeast (fsub (fsub (TargetOpticalPower params) powerLoss) powerReadingError);
        atMost (fadd (fadd (TargetOpticalPower params) powerLoss) powerReadingError)];
  Case "Optical Channel Minimum Input Power Validation" (ochPath "/optical-channel/state/input-power/min")
    (VFloat (Min (oc_InputPower (c_OpticalChannel v)))) [status DOWN; atMost inactivePower];
  Case "Optical Channel Maximum Input Power Validation" (ochPath "/optical-channel/state/input-power/max")
    (VFloat (Max (oc_InputPower (c_OpticalChannel v))))
      [status UP; atLeast (fsub (fsub (TargetOpticalPower params) powerLoss) powerReadingError);
        atMost (fadd (fadd (TargetOpticalPower params) powerLoss) powerReadingError)];
  Case "Optical Channel Maximum Input Power Validation" (ochPath "/optical-channel/state/input-power/max")
    (VFloat (Max (oc_InputPower (c_OpticalChannel v)))) [status DOWN; atMost inactivePower]].

Definition opticalOutputCases (v : Component) : list testcase := [
  Case "Optical Channel Instant Output Power Validation" (ochPath "/optical-channel/state/output-power/instant")
    (VFloat (Instant (oc_OutputPower (c_OpticalChannel v))))
      [status UP; atLeast (marginBelow (oc_OutputPower (c_OpticalChannel v)));
        atMost (marginAbove (oc_OutputPower (c_OpticalChannel v)))];
  Case "Optical Channel Instant Output Power Validation" (ochPath "/optical-channel/state/output-power/instant")
    (VFloat (Instant (oc_OutputPower (c_OpticalChannel v)))) [status DOWN; atMost inactivePower];
  Case "Optical Channel Average Output Power Validation" (ochPath "/optical-channel/state/output-power/avg")
    (VFloat (Avg (oc_OutputPower (c_OpticalChannel v))))
      [status UP; atLeast (marginBelow (oc_OutputPower (c_OpticalChannel v)));
        atMost (marginAbove (oc_OutputPower (c_OpticalChannel v)))];
  Case "Optical Channel Average Output Power Validation" (ochPath "/optical-channel/state/output-power/avg")
    (VFloat (Avg (oc_OutputPower (c_OpticalChannel v)))) [status DOWN; atMost inactivePower];
  Case "Optical Channel Minimum Output Power Validation" (ochPath "/optical-channel/state/output-power/min")
    (VFloat (Min (oc_OutputPower (c_OpticalChannel v))))
      [status UP; atLeast (fsub (TargetOpticalPower params) powerReadingError);
        atMost (fadd (TargetOpticalPower params) powerReadingError)];
  Case "Optical Channel Minimum Output Power Validation" (ochPath "/optical-channel/state/output-power/min")
    (VFloat (Min (oc_OutputPower (c_OpticalChannel v)))) [status DOWN; atMost inactivePower];
  Case "Optical Channel Maximum Output Power Validation" (ochPath "/optical-channel/state/output-power/max")
    (VFloat (Max (oc_OutputPower (c_OpticalChannel v))))
      [status UP; atLeast (fsub (TargetOpticalPower params) powerReadingError);
        atMost (fadd (TargetOpticalPower params) powerReadingError)];
  Case "Optical Channel Maximum Output Power Validation" (ochPath "/optical-channel/state/output-power/max")
    (VFloat (Max (oc_OutputPower (c_OpticalChannel v)))) [status DOWN; atMost inactivePower]].

Definition opticalQualityCases (v : Component) : list testcase := [
  Case "Optical Channel Instant Chromatic Dispersion Validation"
    (ochPath "/optical-channel/state/chromatic-dispersion/instant")
    (VFloat (Instant (oc_ChromaticDispersion (c_OpticalChannel v))))
      [status UP; atLeast (marginBelow (oc_ChromaticDispersion (c_OpticalChannel v)));
        atMost (marginAbove (oc_ChromaticDispersion (c_OpticalChannel v)))];
  Case "Optical Channel Instant Chromatic Dispersion Validation"
    (ochPath "/optical-channel/state/chromatic-dispersion/instant")
    (VFloat (Instant (oc_ChromaticDispersion (c_OpticalChannel v)))) [status DOWN; atMost inactiveCDValue];
  Case "Optical Channel Average Chromatic Dispersion Validation"
    (ochPath "/optical-channel/state/chromatic-dispersion/avg")
    (VFloat (Avg (oc_ChromaticDispersion (c_OpticalChannel v))))
      [status UP; atLeast (marginBelow (oc_ChromaticDispersion (c_OpticalChannel v)));
        atMost (marginAbove (oc_ChromaticDispersion (c_OpticalChannel v)))];
  Case "Optical Channel Average Chromatic Dispersion Validation"
    (ochPath "/optical-channel/state/chromatic-dispersion/avg")
    (VFloat (Avg (oc_ChromaticDispersion (c_OpticalChannel v)))) [status DOWN; atMost inactiveCDValue];
  Case "Optical Channel Minimum Chromatic Dispersion Validation"
    (ochPath "/optical-channel/state/chromatic-dispersion/min")
    (VFloat (Min (oc_ChromaticDispersion (c_OpticalChannel v))))
      [status UP; atLeast minAllowedCDValue; atMost maxAllowedCDValue];
  Case "Optical Channel Minimum Chromatic Dispersion Validation"
    (ochPath "/optical-channel/state/chromatic-dispersion/min")
    (VFloat (Min (oc_ChromaticDispersion (c_OpticalChannel v)))) [status DOWN; atMost inactiveCDValue];
  Case "Optical Channel Maximum Chromatic Dispersion Validation"
    (ochPath "/optical-channel/state/chromatic-dispersion/max")
    (VFloat (Max (oc_ChromaticDispersion (c_OpticalChannel v))))
      [status UP; atLeast minAllowedCDValue; atMost maxAllowedCDValue];
  Case "Optical Channel Maximum Chromatic Dispersion Validation"
    (ochPath "/optical-channel/state/chromatic-dispersion/max")
    (VFloat (Max (oc_ChromaticDispersion (c_OpticalChannel v)))) [status DOWN; atMost inactiveCDValue];
  Case "Optical Channel Instant Carrier Frequency Offset Validation"
    (ochPath "/optical-channel/state/carrier-frequency-offset/instant")
    (VFloat (Instant (oc_CarrierFrequencyOffset (c_OpticalChannel v))))
      [status UP; atLeast minAllowedCarrierFrequencyOffset; atMost maxAllowedCarrierFrequencyOffset];
  Case "Optical Channel Instant Carrier Frequency Offset Validation"
    (ochPath "/optical-channel/state/carrier-frequency-offset/instant")
    (VFloat (Instant (oc_CarrierFrequencyOffset (c_OpticalChannel v))))
      [status DOWN; atMost inactiveCarrierFrequencyOffset];
  Case "Optical Channel Average Carrier Frequency Offset Validation"
    (ochPath "/optical-channel/state/carrier-frequency-offset/avg")
    (VFloat (Avg (oc_CarrierFrequencyOffset (c_OpticalChannel v))))
      [status UP; atLeast minAllowedCarrierFrequencyOffset; atMost maxAllowedCarrierFrequencyOffset];
  Case "Optical Channel Average Carrier Frequency Offset Validation"
    (ochPath "/optical-channel/state/carrier-frequency-offset/avg")
    (VFloat (Avg (oc_CarrierFrequencyOffset (c_OpticalChannel v))))
      [status DOWN; atMost inactiveCarrierFrequencyOffset];
  Case "Optical Channel Minimum Carrier Frequency Offset Validation"
    (ochPath "/optical-channel/state/carrier-frequency-offset/min")
    (VFloat (Min (oc_CarrierFrequencyOffset (c_OpticalChannel v))))
      [status UP; atLeast minAllowedCarrierFrequencyOffset; atMost maxAllowedCarrierFrequencyOffset];
  Case "Optical Channel Minimum Carrier Frequency Offset Validation"
    (ochPath "/optical-channel/state/carrier-frequency-offset/min")
    (VFloat (Min (oc_CarrierFrequencyOffset (c_OpticalChannel v))))
      [status DOWN; atMost inactiveCarrierFrequencyOffset];
  Case "Optical Channel Maximum Carrier Frequency Offset Validation"
    (ochPath "/optical-channel/state/carrier-frequency-offset/max")
    (VFloat (Max (oc_CarrierFrequencyOffset (c_OpticalChannel v))))
      [status UP; atLeast minAllowedCarrierFrequencyOffset; atMost maxAllowedCarrierFrequencyOffset];
  Case "Optical Channel Maximum Carrier Frequency Offset Validation"
    (ochPath "/optical-channel/state/carrier-frequency-offset/max")
    (VFloat (Max (oc_CarrierFrequencyOffset (c_OpticalChannel v))))
      [status DOWN; atMost inactiveCarrierFrequencyOffset]].

(** ** Transceiver *)

Definition transceiverNameCases (v : Component) (ty : Val) : list testcase := [
  Case "Transceiver Name Validation" (trPath "/state/name")
    (VString (c_Name v)) [wants (VString (name_at (TransceiverNames params) p))];
  Case "Transceiver Parent Validation" (trPath "/state/parent")
    (VString (c_Parent v)) [wants (VString (name_at (HWPortNames params) p))];
  Case "Transceiver Location Validation" (trPath "/state/location")
    (VString (c_Location v))
      [like (ReplaceFirst (ReplaceFirst (name_at (TransceiverNames params) p) "Ethernet" "") "transceiver" "")];
  Case "Transceiver Type Validation" (trPath "/state/type")
    (ty) [wants (VEnum "OPENCONFIG_HARDWARE_COMPONENT" "TRANSCEIVER")];
  Case "Transceiver Oper-Status Validation" (trPath "/state/oper-status")
    (VEnum "COMPONENT_OPER_STATUS" (c_OperStatus v)) [status UP; wants (VEnum "COMPONENT_OPER_STATUS" "ACTIVE")];
  Case "Transceiver Firmware Version Validation" (trPath "/state/firmware-version")
    (VString (c_FirmwareVersion v)) [like ".+"];
  Case "Transceiver Hardware Version Validation" (trPath "/state/hardware-version")
    (VString (c_HardwareVersion v)) [like ".+"];
  Case "Transceiver Serial Number Validation" (trPath "/state/serial-no")
    (VString (c_SerialNo v)) [like ".+"];
  Case "Transceiver Part Number Validation" (trPath "/state/part-no")
    (VString (c_PartNo v)) [like ".+"];
  Case "Transceiver mfg-name Validation" (trPath "/state/mfg-name")
    (VString (c_MfgName v)) [like "(CIENA|CISCO|LUMENTUM|NOKIA|INFINERA|ACACIA|MARVEL)"];
  Case "Transceiver mfg-date Validation" (trPath "/state/mfg-date")
    (VString (c_MfgDate v)) [like "\d{4}-\d{2}-\d{2}"]].

Definition transceiverPowerCases (v : Component) : list testcase := [
  Case "Transceiver Supply Voltage Validation" (trPath "/transceiver/state/supply-voltage/instant")
    (VFloat (c_SupplyVoltage_Instant v)) [status UP; atLeast minAllowedSupplyVoltage; atMost maxAllowedSupplyVoltage];
  Case "Transceiver Physical Channel Index Validation"
    (trPath "/transceiver/state/physical-channels/channel[index=0]/index")
    (VUint 16 (ch_Index (c_Channel0 v))) [wants (VUint 16 0)];
  Case "Transceiver Physical Channel Instant Output Power Validation"
    (trPath "/transceiver/state/physical-channels/channel[index=0]/output-power/instant")
    (VFloat (Instant (ch_OutputPower (c_Channel0 v))))
      [status UP; atLeast (fsub (TargetOpticalPower params) powerReadingError);
        atMost (fadd (TargetOpticalPower params) powerReadingError)];
  Case "Transceiver Physical Channel Instant Output Power Validation"
    (trPath "/transceiver/state/physical-channels/channel[index=0]/output-power/instant")
    (VFloat (Instant (ch_OutputPower (c_Channel0 v)))) [status DOWN; atMost inactivePower];
  Case "Transceiver Physical Channel Instant Input Power Validation"
    (trPath "/transceiver/state/physical-channels/channel[index=0]/input-power/instant")
    (VFloat (Instant (ch_InputPower (c_Channel0 v))))
      [status UP; atLeast (marginBelow (ch_InputPower (c_Channel0 v)));
        atMost (marginAbove (ch_InputPower (c_Channel0 v)))];
  Case "Transceiver Physical Channel Instant Input Power Validation"
    (trPath "/transceiver/state/physical-channels/channel[index=0]/input-power/instant")
    (VFloat (Instant (ch_InputPower (c_Channel0 v)))) [status DOWN; atMost inactivePower];
  Case "Transceiver Physical Channel Average Input Power Validation"
    (trPath "/transceiver/state/physical-channels/channel[index=0]/input-power/avg")
    (VFloat (Avg (ch_InputPower (c_Channel0 v))))
      [status UP; atLeast (marginBelow (ch_InputPower (c_Channel0 v)));
        atMost (marginAbove (ch_InputPower (c_Channel0 v)))];
  Case "Transceiver Physical Channel Average Input Power Validation"
    (trPath "/transceiver/state/physical-channels/channel[index=0]/input-power/avg")
    (VFloat (Avg (ch_InputPower (c_Channel0 v)))) [status DOWN; atMost inactivePower];
  Case "Transceiver Physical Channel Minimum Input Power Validation"
    (trPath "/transceiver/state/physical-channels/channel[index=0]/input-power/min")
    (VFloat (Min (ch_InputPower (c_Channel0 v))))
      [status UP; atLeast (fsub (fsub (TargetOpticalPower params) powerLoss) powerReadingError);
        atMost (fadd (fadd (TargetOpticalPower params) powerLoss) powerReadingError)];
  Case "Transceiver Physical Channel Minimum Input Power Validation"
    (trPath "/transceiver/state/physical-channels/channel[index=0]/input-power/min")
    (VFloat (Min (ch_InputPower (c_Channel0 v)))) [status DOWN; atMost inactivePower];
  Case "Transceiver Physical Channel Maximum Input Power Validation"
    (trPath "/transceiver/state/physical-channels/channel[index=0]/input-power/max")
    (VFloat (Max (ch_InputPower (c_Channel0 v))))
      [status UP; atLeast (fsub (fsub (TargetOpticalPower params) powerLoss) powerReadingError);
        atMost (fadd (fadd (TargetOpticalPower params) powerLoss) powerReadingError)];
  Case "Transceiver Physical Channel Maximum Input Power Validation"
    (trPath "/transceiver/state/physical-channels/channel[index=0]/input-power/max")
    (VFloat (Max (ch_InputPower (c_Channel0 v)))) [status DOWN; atMost inactivePower]].

Definition transceiverTemperatureCase (v : Component) : list testcase := [
  Case "Transceiver Temperature Validation" (trPath "/state/temperature/instant")
    (VFloat (c_Temperature_Instant v)) [status UP; atLeast minAllowedTemperature; atMost maxAllowedTemperature]].

Definition transceiverFormFactorCase (v : Component) : list testcase := [
  Case "Transceiver Form Factor Validation" (trPath "/transceiver/state/form-factor")
    (VEnum "TRANSCEIVER_FORM_FACTOR_TYPE" (c_FormFactor v))
      [wants (VEnum "TRANSCEIVER_FORM_FACTOR_TYPE" (FormFactor params))]].

(** ** OTN channel; [first] is the index of the first assignment *)

Definition otnNameCases (first : Z) (v : Channel) : list testcase := [
  Case "OTN Index Validation" (otnPath "/state/index")
    (VUint 32 (tc_Index v)) [wants (VUint 32 (index_at (OTNIndexes params) p))];
  Case "OTN Description Validation" (otnPath "/state/description")
    (VString (tc_Description v)) [wants (VString "OTN Logical Channel")];
  Case "OTN Logical Channel Type Validation" (otnPath "/state/logical-channel-type")
    (VEnum "LOGICAL_ELEMENT_PROTOCOL_TYPE" (tc_LogicalChannelType v))
      [wants (VEnum "LOGICAL_ELEMENT_PROTOCOL_TYPE" "PROT_OTN")];
  Case "OTN Loopback Mode Validation" (otnPath "/state/loopback-mode")
    (VEnum "LoopbackModeType" (tc_LoopbackMode v)) [wants (VEnum "LoopbackModeType" "NONE")];
  Case "OTN to Optical Channel Assignment Index Validation" (otnPath (assignmentPath first "/state/index"))
    (VUint 32 (as_Index (tc_Assignment v first))) [wants (VUint 32 first)];
  Case "OTN to Optical Channel Assignment Optical Channel Validation"
    (otnPath (assignmentPath first "/state/optical-channel"))
    (VString (as_OpticalChannel (tc_Assignment v first))) [wants (VString (name_at (OpticalChannelNames params) p))];
  Case "OTN to Optical Channel Assignment Description Validation"
    (otnPath (assignmentPath first "/state/description"))
    (VString (as_Description (tc_Assignment v first))) [wants (VString "OTN to Optical Channel")];
  Case "OTN to Optical Channel Assignment Allocation Validation" (otnPath (assignmentPath first "/state/allocation"))
    (VFloat (as_Allocation (tc_Assignment v first))) [wants (VFloat (Allocation params))];
  Case "OTN to Optical Channel Assignment Type Validation" (otnPath (assignmentPath first "/state/assignment-type"))
    (VEnum "AssignmentType" (as_AssignmentType (tc_Assignment v first)))
      [wants (VEnum "AssignmentType" "OPTICAL_CHANNEL")]].

Definition otnSignalCases (v : Channel) : list testcase := [
  Case "Instant QValue Validation" (otnPath "/otn/state/q-value/instant")
    (VFloat (Instant (tc_QValue v)))
      [status UP; atLeast (fmul (Min (tc_QValue v)) one_minus_tolerance);
        atMost (fmul (Max (tc_QValue v)) one_plus_tolerance)];
  Case "Instant QValue Validation" (otnPath "/otn/state/q-value/instant")
    (VFloat (Instant (tc_QValue v))) [status DOWN; wants (VFloat inactiveQValue)];
  Case "Average QValue Validation" (otnPath "/otn/state/q-value/avg")
    (VFloat (Avg (tc_QValue v)))
      [status UP; atLeast (fmul (Min (tc_QValue v)) one_minus_tolerance);
        atMost (fmul (Max (tc_QValue v)) one_plus_tolerance)];
  Case "Average QValue Validation" (otnPath "/otn/state/q-value/avg")
    (VFloat (Avg (tc_QValue v))) [status DOWN; wants (VFloat inactiveQValue)];
  Case "Minimum QValue Validation" (otnPath "/otn/state/q-value/min")
    (VFloat (Min (tc_QValue v))) [status UP; atLeast minAllowedQValue; atMost maxAllowedQValue];
  Case "Minimum QValue Validation" (otnPath "/otn/state/q-value/min")
    (VFloat (Min (tc_QValue v))) [status DOWN; wants (VFloat inactiveQValue)];
  Case "Maximum QValue Validation" (otnPath "/otn/state/q-value/max")
    (VFloat (Max (tc_QValue v))) [status UP; atLeast minAllowedQValue; atMost maxAllowedQValue];
  Case "Maximum QValue Validation" (otnPath "/otn/state/q-value/max")
    (VFloat (Max (tc_QValue v))) [status DOWN; wants (VFloat inactiveQValue)];
  Case "Instant ESNR Validation" (otnPath "/otn/state/esnr/instant")
    (VFloat (Instant (tc_Esnr v)))
      [status UP; atLeast (fmul (Min (tc_Esnr v)) one_minus_tolerance);
        atMost (fmul (Max (tc_Esnr v)) one_plus_tolerance)];
  Case "Instant ESNR Validation" (otnPath "/otn/state/esnr/instant")
    (VFloat (Instant (tc_Esnr v))) [status DOWN; wants (VFloat inactiveESNR)];
  Case "Average ESNR Validation" (otnPath "/otn/state/esnr/avg")
    (VFloat (Avg (tc_Esnr v)))
      [status UP; atLeast (fmul (Min (tc_Esnr v)) one_minus_tolerance);
        atMost (fmul (Max (tc_Esnr v)) one_plus_tolerance)];
  Case "Average ESNR Validation" (otnPath "/otn/state/esnr/avg")
    (VFloat (Avg (tc_Esnr v))) [status DOWN; wants (VFloat inactiveESNR)];
  Case "Minimum ESNR Validation" (otnPath "/otn/state/esnr/min")
    (VFloat (Min (tc_Esnr v))) [status UP; atLeast minAllowedESNR; atMost maxAllowedESNR];
  Case "Minimum ESNR Validation" (otnPath "/otn/state/esnr/min")
    (VFloat (Min (tc_Esnr v))) [status DOWN; wants (VFloat inactiveESNR)];
  Case "Maximum ESNR Validation" (otnPath "/otn/state/esnr/max")
    (VFloat (Max (tc_Esnr v))) [status UP; atLeast minAllowedESNR; atMost maxAllowedESNR];
  Case "Maximum ESNR Validation" (otnPath "/otn/state/esnr/max")
    (VFloat (Max (tc_Esnr v))) [status DOWN; wants (VFloat inactiveESNR)]].

Definition otnErrorCases (v : Channel) : list testcase := [
  Case "Instant PreFECBER Validation" (otnPath "/otn/state/pre-fec-ber/instant")
    (VFloat (Instant (tc_PreFecBer v)))
      [status UP; atLeast (fmul (Min (tc_PreFecBer v)) one_minus_tolerance);
        atMost (fmul (Max (tc_PreFecBer v)) one_plus_tolerance)];
  Case "Instant PreFECBER Validation" (otnPath "/otn/state/pre-fec-ber/instant")
    (VFloat (Instant (tc_PreFecBer v))) [status DOWN; anyOf inactivePreFECBER];
  Case "Average PreFECBER Validation" (otnPath "/otn/state/pre-fec-ber/avg")
    (VFloat (Avg (tc_PreFecBer v)))
      [status UP; atLeast (fmul (Min (tc_PreFecBer v)) one_minus_tolerance);
        atMost (fmul (Max (tc_PreFecBer v)) one_plus_tolerance)];
  Case "Average PreFECBER Validation" (otnPath "/otn/state/pre-fec-ber/avg")
    (VFloat (Avg (tc_PreFecBer v))) [status DOWN; anyOf inactivePreFECBER];
  Case "Minimum PreFECBER Validation" (otnPath "/otn/state/pre-fec-ber/min")
    (VFloat (Min (tc_PreFecBer v))) [status UP; atLeast minAllowedPreFECBER; atMost maxAllowedPreFECBER];
  Case "Minimum PreFECBER Validation" (otnPath "/otn/state/pre-fec-ber/min")
    (VFloat (Min (tc_PreFecBer v))) [status DOWN; anyOf inactivePreFECBER];
  Case "Maximum PreFECBER Validation" (otnPath "/otn/state/pre-fec-ber/max")
    (VFloat (Max (tc_PreFecBer v))) [status UP; atLeast minAllowedPreFECBER; atMost maxAllowedPreFECBER];
  Case "Maximum PreFECBER Validation" (otnPath "/otn/state/pre-fec-ber/max")
    (VFloat (Max (tc_PreFecBer v))) [status DOWN; anyOf inactivePreFECBER]].

Definition otnBlocksCase (v : Channel) : list testcase := [
  Case "FEC Uncorrectable Block Count Validation" (otnPath "/otn/state/fec-uncorrectable-blocks")
    (VUint 64 (tc_FecUncorrectableBlocks v)) [status UP; wants (VUint 64 0)]].

Definition otnToETHCases (first : Z) (v : Channel) : list testcase := [
  Case "OTN to Logical Channel Assignment Index Validation" (otnPath (assignmentPath (first + 1) "/state/index"))
    (VUint 32 (as_Index (tc_Assignment v (first + 1)))) [wants (VUint 32 (first + 1))];
  Case "OTN to Logical Channel Assignment Optical Channel Validation"
    (otnPath (assignmentPath (first + 1) "/state/logical-channel"))
    (VUint 32 (as_LogicalChannel (tc_Assignment v (first + 1)))) [wants (VUint 32 (index_at (ETHIndexes params) p))];
  Case "OTN to Logical Channel Assignment Description Validation"
    (otnPath (assignmentPath (first + 1) "/state/description"))
    (VString (as_Description (tc_Assignment v (first + 1)))) [wants (VString "OTN to ETH")];
  Case "OTN to Logical Channel Assignment Allocation Validation"
    (otnPath (assignmentPath (first + 1) "/state/allocation"))
    (VFloat (as_Allocation (tc_Assignment v (first + 1)))) [wants (VFloat (Allocation params))];
  Case "OTN to Logical Channel Assignment Type Validation"
    (otnPath (assignmentPath (first + 1) "/state/assignment-type"))
    (VEnum "AssignmentType" (as_AssignmentType (tc_Assignment v (first + 1))))
      [wants (VEnum "AssignmentType" "LOGICAL_CHANNEL")]].

Definition otnTribCases (v : Channel) : list testcase := [
  Case "OTN Trib Protocol Validation" (otnPath "/state/trib-protocol")
    (VEnum "TRIBUTARY_PROTOCOL_TYPE" (tc_TribProtocol v))
      [wants (VEnum "TRIBUTARY_PROTOCOL_TYPE" (TribProtocol params))];
  Case "OTN Admin State Validation" (otnPath "/state/admin-state")
    (VEnum "AdminStateType" (tc_AdminState v)) [wants (VEnum "AdminStateType" "ENABLED")]].

(** ** Ethernet channel *)

Definition ethNameCases (first : Z) (v : Channel) : list testcase := [
  Case "ETH Index Validation" (ethPath "/state/index")
    (VUint 32 (tc_Index v)) [wants (VUint 32 (index_at (ETHIndexes params) p))];
  Case "ETH Description Validation" (ethPath "/state/description")
    (VString (tc_Description v)) [wants (VString "ETH Logical Channel")];
  Case "ETH Logical Channel Type Validation" (ethPath "/state/logical-channel-type")
    (VEnum "LOGICAL_ELEMENT_PROTOCOL_TYPE" (tc_LogicalChannelType v))
      [wants (VEnum "LOGICAL_ELEMENT_PROTOCOL_TYPE" "PROT_ETHERNET")];
  Case "ETH Loopback Mode Validation" (ethPath "/state/loopback-mode")
    (VEnum "LoopbackModeType" (tc_LoopbackMode v)) [wants (VEnum "LoopbackModeType" "NONE")];
  Case "ETH Assignment Index Validation" (ethPath (assignmentPath first "/state/index"))
    (VUint 32 (as_Index (tc_Assignment v first))) [wants (VUint 32 first)];
  Case "ETH Assignment Logical Channel Validation" (ethPath (assignmentPath first "/state/logical-channel"))
    (VUint 32 (as_LogicalChannel (tc_Assignment v first))) [wants (VUint 32 (index_at (OTNIndexes params) p))];
  Case "ETH Assignment Allocation Validation" (ethPath (assignmentPath first "/state/allocation"))
    (VFloat (as_Allocation (tc_Assignment v first))) [wants (VFloat (Allocation params))];
  Case "ETH Assignment Type Validation" (ethPath (assignmentPath first "/state/assignment-type"))
    (VEnum "AssignmentType" (as_AssignmentType (tc_Assignment v first)))
      [wants (VEnum "AssignmentType" "LOGICAL_CHANNEL")]].

Definition ethRateCase (v : Channel) : list testcase := [
  Case "ETH Rate Class Validation" (ethPath "/state/rate-class")
    (VEnum "TRIBUTARY_RATE_CLASS_TYPE" (tc_RateClass v))
      [wants (VEnum "TRIBUTARY_RATE_CLASS_TYPE" (RateClass params))]].

Definition ethTribCases (v : Channel) : list testcase := [
  Case "ETH Trib Protocol Validation" (ethPath "/state/trib-protocol")
    (VEnum "TRIBUTARY_PROTOCOL_TYPE" (tc_TribProtocol v))
      [wants (VEnum "TRIBUTARY_PROTOCOL_TYPE" (TribProtocol params))];
  Case "ETH Admin State Validation" (ethPath "/state/admin-state")
    (VEnum "AdminStateType" (tc_AdminState v)) [wants (VEnum "AdminStateType" "ENABLED")]].

Definition ethIngressCases (v : Channel) (tr : string) : list testcase := [
  Case "ETH Ingress Interface Validation" (ethPath "/ingress/state/interface")
    (VString (tc_Ingress_Interface v)) [wants (VString (p_Name p))];
  Case "ETH Ingress Transceiver Validation" (ethPath "/ingress/state/transceiver")
    (VString (tc_Ingress_Transceiver v)) [wants (VString tr)]].

(** ** Interface, hardware port and temperature sensor *)

Definition interfaceCases (wantOperStatus : OperStatus) (v : Interface) : list testcase := [
  Case "Interface Name Validation" (ifPath "/state/name")
    (VString (i_Name v)) [wants (VString (p_Name p))];
  Case "Interface OperStatus Validation" (ifPath "/state/oper-status")
    (VEnum "OperStatus" (status_string (i_OperStatus v))) [wants (VEnum "OperStatus" (status_string wantOperStatus))];
  Case "Interface Type Validation" (ifPath "/state/type")
    (VEnum "InterfaceType" (i_Type v)) [wants (VEnum "InterfaceType" ethernetCsmacd)];
  Case "Interface Enabled Validation" (ifPath "/state/enabled")
    (VBool (i_Enabled v)) [wants (VBool (bool_decide (wantOperStatus = UP)))]].

Definition interfaceSpeedCase (v : Interface) : list testcase := [
  Case "Interface Ethernet Speed Validation" (ifPath "/ethernet/state/port-speed")
    (VEnum "ETHERNET_SPEED" (i_PortSpeed v)) [wants (VEnum "ETHERNET_SPEED" (PortSpeed params))]].

Definition hwPortCases (v : Component) (ty : Val) : list testcase := [
  Case "HW Port Name Validation" (hwPath "/state/name")
    (VString (c_Name v)) [wants (VString (name_at (HWPortNames params) p))];
  Case "HW Port Location Validation" (hwPath "/state/location")
    (VString (c_Location v))
      [like (ReplaceFirst (ReplaceFirst (name_at (TransceiverNames params) p) "Ethernet" "") "-transceiver" "")];
  Case "HW Port Type Validation" (hwPath "/state/type")
    (ty) [wants (VEnum "OPENCONFIG_HARDWARE_COMPONENT" "PORT")];
  Case "HW Port Breakout Index Validation" (hwPath "/port/breakout-mode/groups/group[index=1]/state/index")
    (VUint 8 (bg_Index (c_Group1 v))) [wants (VUint 8 1)];
  Case "HW Port Breakout Speed Validation" (hwPath "/port/breakout-mode/groups/group[index=1]/state/breakout-speed")
    (VEnum "ETHERNET_SPEED" (bg_BreakoutSpeed (c_Group1 v))) [wants (VEnum "ETHERNET_SPEED" (PortSpeed params))];
  Case "HW Port Number of Breakouts Validation"
    (hwPath "/port/breakout-mode/groups/group[index=1]/state/num-breakouts")
    (VUint 8 (bg_NumBreakouts (c_Group1 v))) [wants (VUint 8 1)];
  Case "HW Port Number of Physical Channels Validation"
    (hwPath "/port/breakout-mode/groups/group[index=1]/state/num-physical-channels")
    (VUint 8 (bg_NumPhysicalChannels (c_Group1 v))) [wants (VUint 8 (NumPhysicalChannels params))]].

Definition sensorCases (v : Component) : list testcase := [
  Case "Temperature Sensor Name Validation" (sensorPath "/state/name")
    (VString (c_Name v)) [wants (VString (name_at (TempSensorNames params) p))];
  Case "Temperature Sensor Instant Temperature Validation" (sensorPath "/state/temperature/instant")
    (VFloat (c_Temperature_Instant v)) [atLeast minAllowedTemperature; atMost maxAllowedTemperature];
  Case "Temperature Sensor Max Temperature Validation" (sensorPath "/state/temperature/instant")
    (VFloat (c_Temperature_Max v)) [atLeast minAllowedTemperature; atMost maxAllowedTemperature];
  Case "Temperature Sensor Temperature Alarm Status Validation" (sensorPath "/state/temperature/instant")
    (VBool (c_Temperature_AlarmStatus v)) [wants (VBool false)]].

(** ** When a sample is ready *)

Definition isOpticalChannelStreamReady (operStatus : OperStatus) (v : Component) : bool :=
  match operStatus with
  | UP =>
      fle (Max (oc_InputPower (c_OpticalChannel v))) (fadd (TargetOpticalPower params) powerReadingError) &&
      fle (fsub (fsub (TargetOpticalPower params) powerLoss) powerReadingError) (Max (oc_InputPower (c_OpticalChannel v))) &&
      fle (Min (oc_InputPower (c_OpticalChannel v))) (fadd (TargetOpticalPower params) powerReadingError) &&
      fle (fsub (fsub (TargetOpticalPower params) powerLoss) powerReadingError) (Min (oc_InputPower (c_OpticalChannel v))) &&
      fle (Avg (oc_InputPower (c_OpticalChannel v))) (marginAbove (oc_InputPower (c_OpticalChannel v))) &&
      fle (marginBelow (oc_InputPower (c_OpticalChannel v))) (Avg (oc_InputPower (c_OpticalChannel v))) &&
      fle (Instant (oc_InputPower (c_OpticalChannel v))) (marginAbove (oc_InputPower (c_OpticalChannel v))) &&
      fle (marginBelow (oc_InputPower (c_OpticalChannel v))) (Instant (oc_InputPower (c_OpticalChannel v)))
  | _ =>
      fle (Max (oc_InputPower (c_OpticalChannel v))) inactivePower &&
      fle (Min (oc_InputPower (c_OpticalChannel v))) inactivePower &&
      fle (Avg (oc_InputPower (c_OpticalChannel v))) inactivePower &&
      fle (Instant (oc_InputPower (c_OpticalChannel v))) inactivePower
  end.

Definition isTransceiverStreamReady (operStatus : OperStatus) (v : Component) : bool :=
  match operStatus with
  | UP =>
      String.eqb (c_OperStatus v) "ACTIVE" &&
      fle (Max (ch_InputPower (c_Channel0 v))) (fadd (TargetOpticalPower params) powerReadingError) &&
      fle (fsub (fsub (TargetOpticalPower params) powerLoss) powerReadingError) (Max (ch_InputPower (c_Channel0 v))) &&
      fle (Min (ch_InputPower (c_Channel0 v))) (fadd (TargetOpticalPower params) powerReadingError) &&
      fle (fsub (fsub (TargetOpticalPower params) powerLoss) powerReadingError) (Min (ch_InputPower (c_Channel0 v))) &&
      fle (Avg (ch_InputPower (c_Channel0 v))) (marginAbove (ch_InputPower (c_Channel0 v))) &&
      fle (marginBelow (ch_InputPower (c_Channel0 v))) (Avg (ch_InputPower (c_Channel0 v))) &&
      fle (Instant (ch_InputPower (c_Channel0 v))) (marginAbove (ch_InputPower (c_Channel0 v))) &&
      fle (marginBelow (ch_InputPower (c_Channel0 v))) (Instant (ch_InputPower (c_Channel0 v))) &&
      fle (Instant (ch_OutputPower (c_Channel0 v))) (fadd (TargetOpticalPower params) powerReadingError) &&
      fle (fsub (fsub (TargetOpticalPower params) powerLoss) powerReadingError) (Instant (ch_OutputPower (c_Channel0 v)))
  | _ =>
      fle (Max (ch_InputPower (c_Channel0 v))) inactivePower &&
      fle (Min (ch_InputPower (c_Channel0 v))) inactivePower &&
      fle (Avg (ch_InputPower (c_Channel0 v))) inactivePower &&
      fle (Instant (ch_InputPower (c_Channel0 v))) inactivePower &&
      fle (Instant (ch_OutputPower (c_Channel0 v))) inactivePower
  end.

(** The loop over the inactive values of the error rate. *)
Definition isPreFECBERReady (v : Channel) : bool :=
  existsb (fun ipfb => feq (Min (tc_PreFecBer v)) ipfb && feq (Avg (tc_PreFecBer v)) ipfb &&
                       feq (Max (tc_PreFecBer v)) ipfb && feq (Instant (tc_PreFecBer v)) ipfb) inactivePreFECBER.

Definition isOTNChannelReady (operStatus : OperStatus) (v : Channel) : bool :=
  match operStatus with
  | UP =>
      fle (Min (tc_QValue v)) maxAllowedQValue &&
      fle minAllowedQValue (Min (tc_QValue v)) &&
      fle (Avg (tc_QValue v)) (fmul (Max (tc_QValue v)) one_plus_tolerance) &&
      fle (fmul (Min (tc_QValue v)) one_minus_tolerance) (Avg (tc_QValue v)) &&
      fle (Max (tc_QValue v)) maxAllowedQValue &&
      fle minAllowedQValue (Max (tc_QValue v)) &&
      fle (Instant (tc_QValue v)) (fmul (Max (tc_QValue v)) one_plus_tolerance) &&
      fle (fmul (Min (tc_QValue v)) one_minus_tolerance) (Instant (tc_QValue v)) &&
      fle (Min (tc_PreFecBer v)) maxAllowedPreFECBER &&
      fle minAllowedPreFECBER (Min (tc_PreFecBer v)) &&
      fle (Avg (tc_PreFecBer v)) (fmul (Max (tc_PreFecBer v)) one_plus_tolerance) &&
      fle (fmul (Min (tc_PreFecBer v)) one_minus_tolerance) (Avg (tc_PreFecBer v)) &&
      fle (Max (tc_PreFecBer v)) maxAllowedPreFECBER &&
      fle minAllowedPreFECBER (Max (tc_PreFecBer v)) &&
      fle (Instant (tc_PreFecBer v)) (fmul (Max (tc_PreFecBer v)) one_plus_tolerance) &&
      fle (fmul (Min (tc_PreFecBer v)) one_minus_tolerance) (Instant (tc_PreFecBer v)) &&
      fle (Min (tc_Esnr v)) maxAllowedESNR &&
      fle minAllowedESNR (Min (tc_Esnr v)) &&
      fle (Avg (tc_Esnr v)) (fmul (Max (tc_Esnr v)) one_plus_tolerance) &&
      fle (fmul (Min (tc_Esnr v)) one_minus_tolerance) (Avg (tc_Esnr v)) &&
      fle (Max (tc_Esnr v)) maxAllowedESNR &&
      fle minAllowedESNR (Max (tc_Esnr v)) &&
      fle (Instant (tc_Esnr v)) (fmul (Max (tc_Esnr v)) one_plus_tolerance) &&
      fle (fmul (Min (tc_Esnr v)) one_minus_tolerance) (Instant (tc_Esnr v))
  | _ =>
      isPreFECBERReady v &&
      feq (Min (tc_QValue v)) inactiveQValue &&
      feq (Avg (tc_QValue v)) inactiveQValue &&
      feq (Max (tc_QValue v)) inactiveQValue &&
      feq (Instant (tc_QValue v)) inactiveQValue &&
      feq (Min (tc_Esnr v)) inactiveESNR &&
      feq (Avg (tc_Esnr v)) inactiveESNR &&
      feq (Max (tc_Esnr v)) inactiveESNR &&
      feq (Instant (tc_Esnr v)) inactiveESNR
  end.

End Tables.

(** * The validators *)

Definition failures : Type := list (string * string).

(** [AwaitNext] and the two [t.Fatalf] after it: values in a stream are present. *)
Definition awaitReady {T} (rounds : nat) (ready : T -> bool) : gost (Stream T) T := fun s =>
  match AwaitNext rounds ready s with
  | ((Some v, true), s) => (Ret v, s)
  | (_, s) => (Panic, s)
  end.
(** [Next] and the [Val] of its result: a nil sample is dereferenced. *)
Definition nextValue {T} : gost (Stream T) T := fun s =>
  match Next s with
  | (Some v, s) => (Ret v, s)
  | (None, s) => (Panic, s)
  end.

Definition pure (judge : testcase -> list string) (tc : testcase) : go (list string) := Ret (judge tc).

Section Validators.
Context {re : Regexp} (exceptions : list PlatformExceptions) (dut : Device) (inv : Inventory) (rounds : nat).
Context (p : Port) (params : ConfigParameters).

Definition validateOpticalChannelTelemetry (want : OperStatus) : gost (Stream Component) failures :=
  v ← awaitReady rounds (isOpticalChannelStreamReady params want);
  let tcs := opticalInputCases p params v ++ opticalOutputCases p params v ++ opticalQualityCases p params v in
  lift (report (pure judge_optical) (filter (applies want) tcs)).

Definition validateTranscieverTelemetry (want : OperStatus) : gost (Stream Component) failures :=
  v ← awaitReady rounds (isTransceiverStreamReady params want);
  ty ← lift (hardware_type v);
  let tcs := transceiverNameCases p params v ty ++ transceiverPowerCases p params v in
  let tcs := if String.eqb (dev_Vendor dut) "NOKIA" then tcs else tcs ++ transceiverTemperatureCase p params v in
  let tcs := if String.eqb (dev_Vendor dut) "JUNIPER" then tcs else tcs ++ transceiverFormFactorCase p params v in
  lift (report judge_transceiver (filter (applies want) tcs)).

Definition validateOTNChannelTelemetry (want : OperStatus) : gost (Stream Channel) failures :=
  v ← awaitReady rounds (isOTNChannelReady want);
  cisco ← lift (OTNChannelAssignmentCiscoNumbering exceptions dut);
  let first := if cisco : bool then 1 else 0 in
  let tcs := otnNameCases p params first v ++ otnSignalCases p params v ++ otnErrorCases p params v in
  let tcs := if String.eqb (dev_Vendor dut) "JUNIPER" then tcs else tcs ++ otnBlocksCase p params v in
  toETH ← lift (OTNToETHAssignment exceptions dut);
  let tcs := if toETH : bool then tcs ++ otnToETHCases p params first v else tcs in
  noTrib ← lift (OTNChannelTribUnsupported exceptions dut);
  let tcs := if negb noTrib then tcs ++ otnTribCases p params v else tcs in
  lift (report (pure judge_otn) (filter (applies want) tcs)).

Definition validateEthernetChannelTelemetry : gost (Stream Channel) failures :=
  v ← nextValue;
  cisco ← lift (EthChannelAssignmentCiscoNumbering exceptions dut);
  let tcs := ethNameCases p params (if cisco : bool then 1 else 0) v in
  noRate ← lift (ChannelRateClassParametersUnsupported exceptions dut);
  let tcs := if negb noRate then tcs ++ ethRateCase p params v else tcs in
  noTrib ← lift (OTNChannelTribUnsupported exceptions dut);
  let tcs := if negb noTrib then tcs ++ ethTribCases p params v else tcs in
  noIngress ← lift (EthChannelIngressParametersUnsupported exceptions dut);
  tcs ← (if negb noIngress then
           tr ← lift (gnmiGet (transceiver inv (p_Name p)));
           mret (tcs ++ ethIngressCases p params v tr)
         else mret tcs);
  lift (report (pure check_diff) tcs).

Definition validateInterfaceTelemetry (want : OperStatus) : gost (Stream Interface) failures :=
  v ← awaitReady rounds (fun v => bool_decide (i_OperStatus v = want));
  noSpeed ← lift (PortSpeedDuplexModeUnsupportedForInterfaceConfig exceptions dut);
  let tcs := interfaceCases p want v in
  let tcs := if noSpeed || is400 (p_PMD p) then tcs else tcs ++ interfaceSpeedCase p params v in
  lift (report (pure check_diff) tcs).

Definition validateHWPortTelemetry : gost (Stream Component) failures :=
  if is400 (p_PMD p) then mret []
  else
    noBreakout ← lift (BreakoutModeUnsupportedForEightHundredGb exceptions dut);
    if noBreakout && String.eqb (PortSpeed params) "SPEED_800GB" then mret []
    else
      v ← nextValue;
      ty ← lift (hardware_type v);
      lift (report judge_hwport (hwPortCases p params v ty)).

Definition validateTempSensorTelemetry (want : OperStatus) : gost (Stream Component) failures :=
  if negb (String.eqb (dev_Vendor dut) "NOKIA") then mret []
  else
    v ← nextValue;
    lift (report (pure judge_sensor) (filter (applies want) (sensorCases p params v))).
End Validators.

(** * Reports *)

Lemma report_pass judge tcs : Forall (fun tc => judge tc = Ret []) tcs -> report judge tcs = Ret [].
Proof.
  intros HF. unfold report.
  assert (exists ess, mapM (fun tc => es ← judge tc; Ret (map (fun e => (desc tc, e)) es)) tcs = Ret ess /\ concat ess = [])
    as (ess & -> & He).
  { induction HF as [|tc tcs Htc HF (ess & Hm & He)]; [by exists []|]. exists ([] :: ess). split; [|done].
    cbn [mapM]. rewrite Htc. cbn [mbind outcome_bind map]. by rewrite Hm. }
  cbn [mbind outcome_bind]. by rewrite He.
Qed.

Lemma report_app judge l1 l2 fs : report judge l1 = Ret [] -> report judge l2 = Ret fs -> report judge (l1 ++ l2) = Ret fs.
Proof.
  unfold report. set (f := fun tc : testcase => _). intros H1 H2. revert H1.
  destruct (mapM f l1) as [e1| | |] eqn:E1; try discriminate. destruct (mapM f l2) as [e2| | |] eqn:E2; try discriminate H2.
  injection H2 as <-. intros [= H1].
  assert (mapM f (l1 ++ l2) = Ret (e1 ++ e2)) as ->; [|cbn; by rewrite concat_app, H1].
  clear H1. revert e1 E1. induction l1 as [|tc l1 IH]; cbn [mapM app]; [by intros ? [= <-]|].
  destruct (f tc) as [y| | |]; cbn; try discriminate. destruct (mapM f l1) as [ys| | |]; cbn; try discriminate.
  intros ? [= <-]. by rewrite (IH _ eq_refl).
Qed.

(** The cases of a table that apply to a state pass. *)
Definition passes (judge : testcase -> list string) (want : OperStatus) (tcs : list testcase) : Prop :=
  Forall (fun tc => applies want tc = true -> judge tc = []) tcs.

Lemma passes_app judge want l1 l2 : passes judge want l1 -> passes judge want l2 -> passes judge want (l1 ++ l2).
Proof. intros. by apply Forall_app. Qed.

Lemma report_passes judge want tcs : passes judge want tcs -> report (pure judge) (filter (applies want) tcs) = Ret [].
Proof.
  intros HF. apply report_pass, Forall_forall. intros tc Htc. apply list_elem_of_filter in Htc as [Ha Htc].
  unfold passes in HF. rewrite Forall_forall in HF. unfold pure. f_equal. apply HF; [done|]. by apply Is_true_true.
Qed.

Lemma range_pass tc x : got tc = VFloat x -> fle (minAllowed tc) x = true -> fle x (maxAllowed tc) = true ->
  check_range tc = [].
Proof.
  intros Hg H1%fle_not_flt H2%fle_not_flt. unfold check_range. rewrite Hg. cbn [as_float app]. by rewrite H1, H2.
Qed.

Lemma max_pass tc x : got tc = VFloat x -> fle x (maxAllowed tc) = true -> check_max tc = [].
Proof. intros Hg H%fle_not_flt. unfold check_max. rewrite Hg. cbn [as_float app]. by rewrite H. Qed.

Lemma diff_pass tc w : want tc = Some w -> no_diff (got tc) w = true -> check_diff tc = [].
Proof. intros Hw H. unfold check_diff. by rewrite Hw, H. Qed.

Lemma oneOf_pass tc x : got tc = VFloat x -> existsb (fun y => feq y x) (oneOf tc) = true -> check_oneOf tc = [].
Proof. intros Hg H. unfold check_oneOf. rewrite Hg. cbn [as_float app]. by rewrite H. Qed.

Lemma inactive_error_rates v : isPreFECBERReady v = true ->
  forall x, x ∈ [Min (tc_PreFecBer v); Avg (tc_PreFecBer v); Max (tc_PreFecBer v); Instant (tc_PreFecBer v)] ->
  existsb (fun y => feq y x) inactivePreFECBER = true.
Proof.
  unfold isPreFECBERReady. intros (i & Hi & H)%existsb_exists x Hx. apply existsb_exists. exists i. split; [done|].
  rewrite !andb_true_iff in H. destruct H as [[[H1 H2] H3] H4]. rewrite feq_sym.
  by repeat (apply elem_of_cons in Hx as [->|Hx]; [done|]); apply not_elem_of_nil in Hx.
Qed.

Ltac ready_split H :=
  repeat match type of H with
  | _ && _ = true => let H' := fresh "R" in apply andb_true_iff in H as [H H']
  end.

(** The judgement of a case is that check, by computation on its fields. *)
Ltac as_check check := lazymatch goal with |- ?judge ?tc = [] => change (check tc = []) end.

(** One case of a table: it does not apply, or its check follows from the context. *)
Ltac case_passes :=
  first
  [ let Ha := fresh in intros Ha; exfalso; lazy in Ha; discriminate Ha
  | intros _; first
    [ as_check check_range; eapply range_pass; [reflexivity|eassumption..]
    | as_check check_max; eapply max_pass; [reflexivity|eassumption]
    | as_check check_diff; eapply diff_pass; [reflexivity|eassumption]
    | as_check check_oneOf; eapply oneOf_pass; [reflexivity|]; match goal with HB : forall x, x ∈ _ -> existsb _ _ = true |- _ => apply HB; rewrite !elem_of_cons; tauto end ] ].

Ltac table_passes := repeat (apply Forall_cons; split; [case_passes|]); apply Forall_nil; exact I.

Lemma otn_ready_passes p params want v : want <> UNSET -> isOTNChannelReady want v = true ->
  passes judge_otn want (otnSignalCases p params v ++ otnErrorCases p params v).
Proof.
  intros Hw H. unfold passes, otnSignalCases, otnErrorCases. cbn [app]. destruct want; [done|..]; unfold isOTNChannelReady in H.
  - ready_split H. table_passes.
  - ready_split H. pose proof (inactive_error_rates v H) as HB. table_passes.
Qed.

(** * Readiness of the streams *)

Definition ever {T} (s : Stream T) : list T := data s ++ omap id (concat (sleeps s)).

Lemma received_ever {T} (s : Stream T) n x : x ∈ received s n -> x ∈ ever s.
Proof.
  unfold received, ever. rewrite !elem_of_app, !list_elem_of_omap. intros [|(y & Hy & E)]; [by left|right].
  exists y. split; [|done]. apply list_elem_of_In, in_concat in Hy as (l & Hl & Hy).
  apply list_elem_of_In, in_concat. exists l. split; [|done].
  apply list_elem_of_In. apply list_elem_of_In in Hl. revert Hl. apply subseteq_take.
Qed.

Lemma awaitReady_spec {T} rounds (ready : T -> bool) s : stream_ok s -> closed s = false ->
  (exists v s', awaitReady rounds ready s = (Ret v, s') /\ ready v = true /\ v ∈ ever s) \/
  (exists s', awaitReady rounds ready s = (Panic, s') /\
    forall k y, (k <= rounds)%nat -> last (received s (S k)) = Some y -> ready y = false).
Proof.
  intros Hs Hc. unfold awaitReady, AwaitNext. destruct (sleep_spec s Hs) as (Hs1 & Hc1 & _ & _). rewrite Hc in Hc1.
  pose proof (awaitLoop_correct ready rounds (sleep s) Hs1 Hc1) as H.
  destruct (awaitLoop rounds ready (sleep s)) as [[v []] s']; cbn in H.
  - destruct H as (n & x & _ & -> & Hl & Hp & _). left. exists x, s'. split; [done|split; [done|]].
    apply (received_ever s (S n)). rewrite <- received_sleep by done. by apply last_Some_elem_of.
  - destruct H as (_ & Hk & _). right. exists s'. split; [by destruct v|]. intros k y Hle.
    rewrite <- received_sleep by done. by apply Hk.
Qed.

(** * Configuration and validation agree *)

(** The state of an assignment and of a channel shows every leaf that is
    configured; an unconfigured channel is not looped back. *)
Record mirrors_assignment (c : AssignmentConf) (a : Assignment) : Prop := {
  ma_Index : as_Index a = ac_Index c;
  ma_Logical : forall l, ac_LogicalChannel c = Some l -> as_LogicalChannel a = l;
  ma_Optical : forall o, ac_OpticalChannel c = Some o -> as_OpticalChannel a = o;
  ma_Description : as_Description a = ac_Description c;
  ma_Allocation : as_Allocation a = ac_Allocation c;
  ma_Type : as_AssignmentType a = ac_AssignmentType c }.
Record mirrors (c : ChannelConf) (v : Channel) : Prop := {
  mr_Index : tc_Index v = chc_Index c;
  mr_Description : tc_Description v = chc_Description c;
  mr_Type : tc_LogicalChannelType v = chc_LogicalChannelType c;
  mr_Loopback : tc_LoopbackMode v = "NONE";
  mr_Rate : forall r, chc_RateClass c = Some r -> tc_RateClass v = r;
  mr_Trib : forall t, chc_TribProtocol c = Some t -> tc_TribProtocol v = t;
  mr_Admin : forall a, chc_AdminState c = Some a -> tc_AdminState v = a;
  mr_Interface : forall i n, chc_Ingress c = Some i -> in_Interface i = Some n -> tc_Ingress_Interface v = n;
  mr_Transceiver : forall i n, chc_Ingress c = Some i -> in_Transceiver i = Some n -> tc_Ingress_Transceiver v = n;
  mr_Assignment : forall i a, chc_Assignment c !! i = Some a -> mirrors_assignment a (tc_Assignment v i) }.

(** A case that compares a leaf with the value that was configured. *)
Ltac leaf_passes :=
  intros _; as_check check_diff; eapply diff_pass; [reflexivity|];
  cbn [got Case foldl wants status no_diff];
  repeat match goal with E : _ = _ |- context [?x] => lazymatch type of E with x = _ => rewrite E end end;
  rewrite ?String.eqb_refl, ?Z.eqb_refl, ?feq_refl by assumption; reflexivity.
Ltac leaves_pass := unfold passes; repeat (apply Forall_cons; split; [leaf_passes|]); apply Forall_nil; exact I.

Section Agreement.
Context {re : Regexp} (exceptions : list PlatformExceptions) (dut : Device) (inv : Inventory) (rounds : nat).
Context (p : Port) (params : ConfigParameters) (o : Deviated).
Context (Ha : answered exceptions dut o) (Hnan : is_nan (Allocation params) = false).

Lemma otn_names_pass want first v : 
  let a := tc_Assignment v first in
  tc_Index v = index_at (OTNIndexes params) p -> tc_Description v = "OTN Logical Channel" ->
  tc_LogicalChannelType v = "PROT_OTN" -> tc_LoopbackMode v = "NONE" ->
  mirrors_assignment (toOptical first (name_at (OpticalChannelNames params) p) (Allocation params)) a ->
  passes judge_otn want (otnNameCases p params first v).
Proof.
  intros a H1 H2 H3 H4 []. specialize (ma_Optical0 _ eq_refl). simpl in *. subst a. leaves_pass.
Qed.

Lemma otn_toETH_pass want first v :
  mirrors_assignment (toLogical (first + 1) (index_at (ETHIndexes params) p) "OTN to ETH" (Allocation params))
    (tc_Assignment v (first + 1)) ->
  passes judge_otn want (otnToETHCases p params first v).
Proof. intros []. specialize (ma_Logical0 _ eq_refl). simpl in *. leaves_pass. Qed.

Lemma otn_blocks_pass want v : (want = UP -> tc_FecUncorrectableBlocks v = 0) ->
  passes judge_otn want (otnBlocksCase p params v).
Proof.
  intros H. apply Forall_cons. split; [|by apply Forall_nil]. destruct want; [by intros E; lazy in E| |by intros E; lazy in E].
  specialize (H eq_refl). leaf_passes.
Qed.

Definition firstIndex (cisco : bool) : Z := if cisco then 1 else 0.

(** What is configured for the OTN channel of the port. *)
Lemma otn_configured i c : updateOTNChannelConfig exceptions dut [] p params = Ret [ReplaceChannel i c] ->
  let first := firstIndex (o_otnCisco o) in
  chc_Index c = index_at (OTNIndexes params) p /\ chc_Description c = "OTN Logical Channel" /\
  chc_LogicalChannelType c = "PROT_OTN" /\
  chc_Assignment c !! first = Some (toOptical first (name_at (OpticalChannelNames params) p) (Allocation params)) /\
  (o_toETH o = true -> chc_Assignment c !! (first + 1) =
     Some (toLogical (first + 1) (index_at (ETHIndexes params) p) "OTN to ETH" (Allocation params))) /\
  (o_toETH o = false -> chc_TribProtocol c = Some (TribProtocol params)) /\
  (o_toETH o = false -> o_noAdmin o = false -> chc_AdminState c = Some "ENABLED").
Proof.
  unfold updateOTNChannelConfig. destruct Ha. rewrite a_otnCisco, a_toETH, a_noAdmin. cbn [mbind outcome_bind].
  intros [= _ <-]. cbn zeta. fold (firstIndex (o_otnCisco o)). generalize (firstIndex (o_otnCisco o)) as first. intros first.
  destruct (o_toETH o), (o_noAdmin o); simpl; split_and!; try done; intros;
    first [by rewrite lookup_insert_eq | by rewrite lookup_singleton_eq
          | rewrite lookup_insert_ne by lia; by rewrite lookup_singleton_eq].
Qed.

(** What the two cases of trib protocol and admin state report about a sample. *)
Definition trib_failures (v : Channel) : failures :=
  (if String.eqb (tc_TribProtocol v) (TribProtocol params) then [] else [("OTN Trib Protocol Validation", "diff")]) ++
  (if String.eqb (tc_AdminState v) "ENABLED" then [] else [("OTN Admin State Validation", "diff")]).

Lemma trib_report want v : report (pure judge_otn) (filter (applies want) (otnTribCases p params v)) = Ret (trib_failures v).
Proof.
  unfold otnTribCases. rewrite !filter_cons_True by reflexivity. rewrite filter_nil.
  unfold report, pure, judge_otn, check_diff, trib_failures, Case. cbn -[String.eqb].
  change (String.eqb (String _ _) (String _ _)) with true. cbn [andb].
  by destruct (String.eqb (tc_TribProtocol v) (TribProtocol params)), (String.eqb (tc_AdminState v) "ENABLED").
Qed.

(** The cases before the trib cases, as the validator appends them. *)
Definition otnCommonCases (v : Channel) : list testcase :=
  let first := firstIndex (o_otnCisco o) in
  let tcs := otnNameCases p params first v ++ otnSignalCases p params v ++ otnErrorCases p params v in
  let tcs := if String.eqb (dev_Vendor dut) "JUNIPER" then tcs else tcs ++ otnBlocksCase p params v in
  if o_toETH o then tcs ++ otnToETHCases p params first v else tcs.

Lemma otn_common_pass i c want v :
  updateOTNChannelConfig exceptions dut [] p params = Ret [ReplaceChannel i c] -> want <> UNSET -> mirrors c v ->
  (want = UP -> dev_Vendor dut <> "JUNIPER" -> tc_FecUncorrectableBlocks v = 0) -> isOTNChannelReady want v = true ->
  passes judge_otn want (otnCommonCases v).
Proof.
  intros Hc Hw [M1 M2 M3 M4 _ MT MA _ _ MX] HB Hready.
  destruct (otn_configured i c Hc) as (E1 & E2 & E3 & E4 & E5 & _).
  assert (passes judge_otn want (otnNameCases p params (firstIndex (o_otnCisco o)) v ++
      otnSignalCases p params v ++ otnErrorCases p params v)) as H0.
  { apply passes_app; [|by apply otn_ready_passes]. apply otn_names_pass; try congruence. by apply MX. }
  unfold otnCommonCases. destruct (String.eqb_spec (dev_Vendor dut) "JUNIPER") as [|Hj], (o_toETH o);
    repeat (apply passes_app; [|first [apply otn_toETH_pass; auto | apply otn_blocks_pass; auto]]); done.
Qed.


(** The Ethernet channel: every case compares a leaf. *)
Lemma eth_names_pass first v :
  tc_Index v = index_at (ETHIndexes params) p -> tc_Description v = "ETH Logical Channel" ->
  tc_LogicalChannelType v = "PROT_ETHERNET" -> tc_LoopbackMode v = "NONE" ->
  mirrors_assignment (toLogical first (index_at (OTNIndexes params) p) "ETH to OTN" (Allocation params)) (tc_Assignment v first) ->
  passes check_diff UNSET (ethNameCases p params first v).
Proof. intros H1 H2 H3 H4 []. specialize (ma_Logical0 _ eq_refl). simpl in *. leaves_pass. Qed.

Lemma eth_rate_pass v : tc_RateClass v = RateClass params -> passes check_diff UNSET (ethRateCase p params v).
Proof. intros. leaves_pass. Qed.

Lemma eth_trib_pass v : tc_TribProtocol v = TribProtocol params -> tc_AdminState v = "ENABLED" ->
  passes check_diff UNSET (ethTribCases p params v).
Proof. intros. leaves_pass. Qed.

Lemma eth_ingress_pass v tr : tc_Ingress_Interface v = p_Name p -> tc_Ingress_Transceiver v = tr ->
  passes check_diff UNSET (ethIngressCases p params v tr).
Proof. intros. leaves_pass. Qed.

Lemma eth_configured i c : updateETHChannelConfig exceptions dut [] p params = Ret [ReplaceChannel i c] ->
  o_ethCisco o = false /\
  chc_Index c = index_at (ETHIndexes params) p /\ chc_Description c = "ETH Logical Channel" /\
  chc_LogicalChannelType c = "PROT_ETHERNET" /\
  chc_Assignment c !! 0 = Some (toLogical 0 (index_at (OTNIndexes params) p) "ETH to OTN" (Allocation params)) /\
  (o_noRate o = false -> chc_RateClass c = Some (RateClass params)) /\
  (o_noTrib o = false -> chc_TribProtocol c = Some (TribProtocol params)) /\
  (o_noAdmin o = false -> chc_AdminState c = Some "ENABLED") /\
  (o_noIngress o = false -> chc_Ingress c =
     Some {| in_Interface := Some (p_Name p); in_Transceiver := Some (name_at (TransceiverNames params) p) |}).
Proof.
  intros H. destruct (o_ethCisco o) eqn:Hc; [by rewrite (updateETH_cisco exceptions dut o) in H|]. split; [done|].
  revert H. unfold updateETHChannelConfig. destruct Ha.
  rewrite a_ethCisco, Hc, a_noIngress, a_noRate, a_noTrib, a_noAdmin. cbn [mbind outcome_bind].
  intros [= _ <-]. simpl. rewrite lookup_singleton_eq.
  split_and!; try done; intros E; by rewrite E.
Qed.

(** A list of cases for every state that pass. *)
Definition fine (tcs : list testcase) : Prop :=
  Forall (fun tc => applies UNSET tc = true) tcs /\ passes check_diff UNSET tcs.

Lemma fine_report tcs : fine tcs -> report (pure check_diff) tcs = Ret [].
Proof.
  intros [H HP]. apply report_pass. rewrite Forall_forall in H. unfold passes in HP. rewrite Forall_forall in HP.
  apply Forall_forall. intros tc Htc. unfold pure. by rewrite (HP tc Htc (H tc Htc)).
Qed.

Lemma fine_app l1 l2 : fine l1 -> fine l2 -> fine (l1 ++ l2).
Proof. intros [] []. split; [by apply Forall_app|by apply passes_app]. Qed.

Lemma fine_if (b : bool) l1 l2 : fine l1 -> (b = false -> fine l2) -> fine (if negb b then l1 ++ l2 else l1).
Proof. intros H1 H2. destruct b; [done|]. apply fine_app; auto. Qed.

(** The Ethernet channel that [updateETHChannelConfig] configures, on a device
    whose state shows the configuration and whose interface still names the same
    transceiver: [validateEthernetChannelTelemetry] finds no failure, unless no
    sample was ever received, where it dereferences a nil sample. *)
Theorem eth_configuration_validates i c s :
  updateETHChannelConfig exceptions dut [] p params = Ret [ReplaceChannel i c] ->
  (o_noTrib o = false -> o_noAdmin o = false) ->
  transceiver inv (p_Name p) = Some (name_at (TransceiverNames params) p) ->
  (forall v, v ∈ ever s -> mirrors c v) -> stream_ok s -> closed s = false ->
  fst (validateEthernetChannelTelemetry exceptions dut inv p params s) =
    match last (received s 1) with Some _ => Ret [] | None => Panic end.
Proof.
  intros Hc Ht Htr Hm Hs Hcl. destruct (eth_configured i c Hc) as (E0 & E1 & E2 & E3 & E4 & E5 & E6 & E7 & E8).
  destruct (sleep_spec s Hs) as (Hs1 & _ & _ & _).
  assert (lastVal (sleep s) = last (received s 1)) as Hl.
  { rewrite <- received_sleep by done. unfold received. by rewrite take_0, app_nil_r. }
  unfold validateEthernetChannelTelemetry. set (k := fun v : Channel => _).
  assert ((nextValue ≫= k) s = match last (received s 1) with Some v => k v (sleep s) | None => (Panic, sleep s) end) as ->.
  { unfold mbind, gost_bind, nextValue, Next. rewrite Hl. by destruct (last (received s 1)). }
  destruct (last (received s 1)) as [v|] eqn:Ev; [|done].
  destruct (Hm v) as [M1 M2 M3 M4 MR MT MA MI MJ MX].
  { apply (received_ever s 1). by apply last_Some_elem_of. }
  pose proof Ha as []. unfold k. clear k.
  rewrite (lift_run _ (o_ethCisco o)), (lift_run _ (o_noRate o)), (lift_run _ (o_noTrib o)), (lift_run _ (o_noIngress o)) by done.
  rewrite E0. set (tcs := if negb (o_noTrib o) then _ else _).
  assert (fine tcs) as HF.
  { unfold tcs. apply fine_if; [apply fine_if|].
    - split; [repeat constructor|]. apply eth_names_pass; try congruence. by apply MX.
    - intros En. split; [repeat constructor|]. apply eth_rate_pass. auto.
    - intros En. split; [repeat constructor|]. apply eth_trib_pass; auto. }
  destruct (o_noIngress o) eqn:En; cbn [negb].
  - cbn. by apply fine_report.
  - rewrite (bind_run _ _ _ (tcs ++ ethIngressCases p params v (name_at (TransceiverNames params) p)) (sleep s)).
    + cbn. apply fine_report, fine_app; [done|]. split; [repeat constructor|].
      apply eth_ingress_pass; [by eapply MI; [apply E8|]|by eapply MJ; [apply E8|]].
    + rewrite (lift_run _ (name_at (TransceiverNames params) p)); [done|]. by rewrite Htr.
Qed.
End Agreement.

(** * Examples *)

Definition sample_port : Port := {| p_Name := "Ethernet1/1"; p_PMD := PMD800GBASEZR |}.
Definition lineParams : ConfigParameters := {|
  Enabled := true; Frequency := 196100000; TargetOpticalPower := Zf (-10); OperationalMode := 1;
  PortSpeed := "SPEED_800GB"; FormFactor := "OSFP"; NumPhysicalChannels := 8; RateClass := "TRIB_RATE_800G";
  TribProtocol := "PROT_800GE"; Allocation := Zf 800;
  HWPortNames := {[ "Ethernet1/1" := "Ethernet1/1-Port" ]};
  TransceiverNames := {[ "Ethernet1/1" := "Ethernet1/1-transceiver" ]};
  TempSensorNames := {[ "Ethernet1/1" := "TempSensor-Ethernet1/1-transceiver" ]};
  OpticalChannelNames := {[ "Ethernet1/1" := "Ethernet1/1-Optical0" ]};
  OTNIndexes := {[ "Ethernet1/1" := 8000 ]}; ETHIndexes := {[ "Ethernet1/1" := 80000 ]} |}.
Definition flat (x : float) : Stats := {| Instant := x; Avg := x; Min := x; Max := x |}.

(** A transceiver that sends 2.5 dB below its target. *)
Definition weakTransceiver : Component := {|
  c_Name := "Ethernet1/1-transceiver"; c_Parent := "Ethernet1/1-Port"; c_Location := "1/1-"; c_Type := Some (inl "TRANSCEIVER");
  c_OperStatus := "ACTIVE"; c_FirmwareVersion := "1"; c_HardwareVersion := "1"; c_SerialNo := "1"; c_PartNo := "1";
  c_MfgName := "CISCO"; c_MfgDate := "2024-01-01"; c_Temperature_Instant := Zf 40; c_Temperature_Max := Zf 40;
  c_Temperature_AlarmStatus := false;
  c_OpticalChannel := {| oc_OperationalMode := 0; oc_Frequency := 0; oc_TargetOutputPower := Zf 0;
    oc_LaserBiasCurrent := flat (Zf 0); oc_InputPower := flat (Zf 0); oc_OutputPower := flat (Zf 0);
    oc_ChromaticDispersion := flat (Zf 0); oc_CarrierFrequencyOffset := flat (Zf 0) |};
  c_SupplyVoltage_Instant := lit 33 10; c_FormFactor := "OSFP";
  c_Channel0 := {| ch_Index := 0; ch_InputPower := flat (Zf (-11)); ch_OutputPower := flat (lit (-25) 2) |};
  c_Group1 := {| bg_Index := 0; bg_BreakoutSpeed := ""; bg_NumBreakouts := 0; bg_NumPhysicalChannels := 0 |} |}.

(** A transceiver sample counts as ready when its output power is within
    three decibels below the target, but the table allows one: a stream whose output
    power is 2.5 dB low is ready at once, and the validation reports exactly the
    output power as out of range instead of waiting for a better sample. *)
Theorem weak_transceiver_is_ready {re : Regexp} : 
  isTransceiverStreamReady lineParams UP weakTransceiver = true /\
  report judge_transceiver (filter (applies UP) (transceiverPowerCases sample_port lineParams weakTransceiver)) =
    Ret [("Transceiver Physical Channel Instant Output Power Validation", "out of range")].
Proof. split; vm_compute; reflexivity. Qed.

Definition lineAssignment (i : Z) : Assignment := {|
  as_Index := i; as_LogicalChannel := 8000; as_OpticalChannel := "Ethernet1/1-Optical0";
  as_Description := if i =? 0 then "OTN to Optical Channel" else ""; as_Allocation := Zf 800;
  as_AssignmentType := "OPTICAL_CHANNEL" |}.
Definition lineOTN : Channel := {|
  tc_Index := 8000; tc_Description := "OTN Logical Channel"; tc_LogicalChannelType := "PROT_OTN";
  tc_LoopbackMode := "NONE"; tc_RateClass := ""; tc_TribProtocol := "PROT_800GE"; tc_AdminState := "ENABLED";
  tc_Assignment := lineAssignment; tc_Ingress_Interface := ""; tc_Ingress_Transceiver := "";
  tc_QValue := flat (Zf 10); tc_Esnr := flat (Zf 18); tc_PreFecBer := flat (lit 1 1000);
  tc_FecUncorrectableBlocks := 0 |}.
Definition lineETH : Channel := {|
  tc_Index := 80000; tc_Description := "ETH Logical Channel"; tc_LogicalChannelType := "PROT_ETHERNET";
  tc_LoopbackMode := "NONE"; tc_RateClass := "TRIB_RATE_800G"; tc_TribProtocol := "PROT_800GE";
  tc_AdminState := "ENABLED";
  tc_Assignment i := {| as_Index := i; as_LogicalChannel := 8000; as_OpticalChannel := "";
                        as_Description := "ETH to OTN"; as_Allocation := Zf 800; as_AssignmentType := "LOGICAL_CHANNEL" |};
  tc_Ingress_Interface := "Ethernet1/1"; tc_Ingress_Transceiver := "Ethernet1/1-transceiver";
  tc_QValue := flat (Zf 0); tc_Esnr := flat (Zf 0); tc_PreFecBer := flat (Zf 0); tc_FecUncorrectableBlocks := 0 |}.

Definition otnLine : ChannelConf := otnConf 8000 (Some "PROT_800GE") (Some "ENABLED")
  {[0 := toOptical 0 "Ethernet1/1-Optical0" (Zf 800)]}.
Definition ethLine : ChannelConf := {|
  chc_Description := "ETH Logical Channel"; chc_Index := 80000; chc_LogicalChannelType := "PROT_ETHERNET";
  chc_RateClass := Some "TRIB_RATE_800G"; chc_TribProtocol := Some "PROT_800GE"; chc_AdminState := Some "ENABLED";
  chc_Ingress := Some {| in_Interface := Some "Ethernet1/1"; in_Transceiver := Some "Ethernet1/1-transceiver" |};
  chc_Assignment := {[0 := toLogical 0 8000 "ETH to OTN" (Zf 800)]} |}.

Lemma lineOTN_mirrors : mirrors otnLine lineOTN.
Proof.
  split; try done; try (by intros ? [= <-]). intros i a Hi. unfold otnLine in Hi. simpl in Hi.
  apply lookup_singleton_Some in Hi as [<- <-]. split; try done. by intros ? [= <-].
Qed.
Lemma lineETH_mirrors : mirrors ethLine lineETH.
Proof.
  split; try done; try (by intros ? [= <-]); try (by intros ? ? [= <-] [= <-]). intros i a Hi. unfold ethLine in Hi. simpl in Hi.
  apply lookup_singleton_Some in Hi as [<- <-]. split; try done. by intros ? [= <-].
Qed.
Lemma only_ever {T} (x : T) v : v ∈ ever (started [[Some x]]) -> v = x.
Proof. intros Hv. by apply list_elem_of_singleton in Hv. Qed.


Lemma eth_configuration_witness :
  fst (@validateEthernetChannelTelemetry plain_regexp [] sample_device sample_inventory sample_port lineParams
    (started [[Some lineETH]])) = Ret [].
Proof.
  apply (@eth_configuration_validates plain_regexp [] sample_device sample_inventory sample_port lineParams (no_deviation false)
    (sample_answers false) ltac:(vm_compute; reflexivity) 80000 ethLine (started [[Some lineETH]])).
  - vm_compute. reflexivity.
  - reflexivity.
  - reflexivity.
  - intros v ->%only_ever. exact lineETH_mirrors.
  - reflexivity.
  - reflexivity.
Defined.
