(* ===== verification/TransceiverRun.v ===== *)
(** The two telemetry tests of pluggable optics
    ([src/internal/telemetry/transceiver/zr_validation.go]): for every combination
    of the tunable parameters the ports are configured down, sample streams are
    opened, and the ports are brought up, down and up again, with the telemetry
    validated after each change.

    The state of a test is a store of the streams it opened, the deferred [Close]
    calls, what was pushed and validated in which order, and the failures.  The
    samples that a stream delivers are those of the device, for what was done
    before it was opened. *)
From stdpp Require Import base list gmap strings.
From Stdlib Require Import ZArith Lia.
From S2P Require Import Prelude GoStrings Deviations SampleStream Floats Optics Transceiver.
Open Scope Z_scope.

Create HintDb keep.

(** * State *)

(** A stream in the store of its type. *)
Inductive Ref := ChannelRef (i : nat) | InterfaceRef (i : nat) | ComponentRef (i : nat).

Inductive Validator := VInterface | VOTN | VEthernet | VTransceiver | VSensor | VOptical | VHWPort.
#[export] Instance Validator_eq_dec : EqDecision Validator.
Proof. solve_decision. Defined.

Inductive Event :=
| DefaultInstance (name : string)
| Pushed (ops : list BatchOp)
| Refused (* [samplestream.New] found no client *)
| Validated (k : Validator) (p : Port) (want : OperStatus).

Record World := {
  w_channels : list (Stream Channel);
  w_interfaces : list (Stream Interface);
  w_components : list (Stream Component);
  w_deferred : list Ref;
  w_trace : list Event;
  w_failures : failures }.

Definition start : World := {|
  w_channels := []; w_interfaces := []; w_components := []; w_deferred := []; w_trace := []; w_failures := [] |}.

Definition set_channels (f : list (Stream Channel) -> list (Stream Channel)) (w : World) : World := {|
  w_channels := f (w_channels w); w_interfaces := w_interfaces w; w_components := w_components w;
  w_deferred := w_deferred w; w_trace := w_trace w; w_failures := w_failures w |}.
Definition set_interfaces (f : list (Stream Interface) -> list (Stream Interface)) (w : World) : World := {|
  w_channels := w_channels w; w_interfaces := f (w_interfaces w); w_components := w_components w;
  w_deferred := w_deferred w; w_trace := w_trace w; w_failures := w_failures w |}.
Definition set_components (f : list (Stream Component) -> list (Stream Component)) (w : World) : World := {|
  w_channels := w_channels w; w_interfaces := w_interfaces w; w_components := f (w_components w);
  w_deferred := w_deferred w; w_trace := w_trace w; w_failures := w_failures w |}.
Definition add_deferred (r : Ref) (w : World) : World := {|
  w_channels := w_channels w; w_interfaces := w_interfaces w; w_components := w_components w;
  w_deferred := w_deferred w ++ [r]; w_trace := w_trace w; w_failures := w_failures w |}.
Definition add_event (e : Event) (w : World) : World := {|
  w_channels := w_channels w; w_interfaces := w_interfaces w; w_components := w_components w;
  w_deferred := w_deferred w; w_trace := w_trace w ++ [e]; w_failures := w_failures w |}.
Definition add_failures (fs : failures) (w : World) : World := {|
  w_channels := w_channels w; w_interfaces := w_interfaces w; w_components := w_components w;
  w_deferred := w_deferred w; w_trace := w_trace w; w_failures := w_failures w ++ fs |}.

Definition modify (f : World -> World) : gost World unit := fun w => (Ret tt, f w).
Definition emit (e : Event) : gost World unit := modify (add_event e).
Definition defer (r : Ref) : gost World unit := modify (add_deferred r).

Definition closeRef (r : Ref) (w : World) : World :=
  match r with
  | ChannelRef i => set_channels (alter Close i) w
  | InterfaceRef i => set_interfaces (alter Close i) w
  | ComponentRef i => set_components (alter Close i) w
  end.

(** What the device does after these events: whether it takes a configuration, whether
    the client of the next stream (after so many) is made, and what it delivers to a
    stream. *)
Record Samples := {
  takes : list Event -> Event -> bool;
  connects : list Event -> nat -> bool;
  channelSamples : list Event -> Z -> list (list (option Channel));
  interfaceSamples : list Event -> string -> list (list (option Interface));
  componentSamples : list Event -> string -> list (list (option Component)) }.

Section Run.
Context {re : Regexp} (exceptions : list PlatformExceptions) (dut : Device) (inv : Inventory).
Context (rounds : nat) (samples : Samples) (ports : list Port).

(** [samplestream.New] *)
Definition opened (w : World) : nat := length (w_channels w) + length (w_interfaces w) + length (w_components w).
Definition openStream {T} (get : World -> list (Stream T)) (set : (list (Stream T) -> list (Stream T)) -> World -> World)
    (deliveries : list Event -> list (list (option T))) : gost World nat := fun w =>
  match New (connects samples (w_trace w) (opened w)) (deliveries (w_trace w)) with
  | Ret s => (Ret (length (get w)), set (fun l => l ++ [s]) w)
  | _ => (Panic, add_event Refused w)
  end.
Definition openChannel (index : Z) : gost World nat :=
  openStream w_channels set_channels (fun tr => channelSamples samples tr index).
Definition openInterface (name : string) : gost World nat :=
  openStream w_interfaces set_interfaces (fun tr => interfaceSamples samples tr name).
Definition openComponent (name : string) : gost World nat :=
  openStream w_components set_components (fun tr => componentSamples samples tr name).

(** [batch.Set] and [gnmi.Replace] end the test when the device does not take the
    configuration. *)
Definition push (e : Event) : gost World unit := fun w =>
  if takes samples (w_trace w) e then emit e w else (Panic, w).

(** A validator works on its stream and reports failures; the streams outlive a
    validator that ends the test. *)
Definition onStream {T} (get : World -> list (Stream T)) (set : (list (Stream T) -> list (Stream T)) -> World -> World)
    (i : nat) (m : gost (Stream T) failures) : gost World unit := fun w =>
  match get w !! i with
  | None => (Panic, w)
  | Some s =>
      let '(r, s') := m s in
      let w := set (<[i := s']>) w in
      match r with
      | Ret fs => (Ret tt, add_failures fs w)
      | Fail e => (Fail e, w)
      | Panic => (Panic, w)
      | NoFuel => (NoFuel, w)
      end
  end.

Definition validate {T} get set (k : Validator) (p : Port) (want : OperStatus) (i : nat)
    (m : gost (Stream T) failures) : gost World unit :=
  _ ← emit (Validated k p want); onStream get set i m.
Abbreviation onChannel := (validate w_channels set_channels).
Abbreviation onInterface := (validate w_interfaces set_interfaces).
Abbreviation onComponent := (validate w_components set_components).

Definition with_enabled (b : bool) (params : ConfigParameters) : ConfigParameters := {|
  Enabled := b; Frequency := Frequency params; TargetOpticalPower := TargetOpticalPower params;
  OperationalMode := OperationalMode params; PortSpeed := PortSpeed params; FormFactor := FormFactor params;
  NumPhysicalChannels := NumPhysicalChannels params; RateClass := RateClass params;
  TribProtocol := TribProtocol params; Allocation := Allocation params; HWPortNames := HWPortNames params;
  TransceiverNames := TransceiverNames params; TempSensorNames := TempSensorNames params;
  OpticalChannelNames := OpticalChannelNames params; OTNIndexes := OTNIndexes params;
  ETHIndexes := ETHIndexes params |}.

(** [params.Enabled = b; cfgplugins.ToggleInterfaceState(t, dut, p, params)] for every port. *)
Definition toggleAll (b : bool) (params : ConfigParameters) : gost World unit :=
  forEach (fun p => i ← lift (interfaceConf exceptions dut p (with_enabled b params));
                    push (Pushed [ReplaceInterface (p_Name p) i])) ports.

(** ** Terminal device *)

Record TerminalStreams := { ts_eth : nat; ts_otn : nat; ts_interface : nat }.

Definition openTerminal (params : ConfigParameters) (p : Port) : gost World (string * TerminalStreams) :=
  eth ← openChannel (index_at (ETHIndexes params) p);
  otn ← openChannel (index_at (OTNIndexes params) p);
  itf ← openInterface (p_Name p);
  _ ← defer (ChannelRef eth);
  _ ← defer (ChannelRef otn);
  _ ← defer (InterfaceRef itf);
  mret (p_Name p, {| ts_eth := eth; ts_otn := otn; ts_interface := itf |}).

(** A missing entry of the maps is a nil stream. *)
Definition streamsOf {A} (streams : gmap string A) (p : Port) : gost World A :=
  lift (match streams !! p_Name p with Some s => Ret s | None => Panic end).

Definition validateTerminal (params : ConfigParameters) (streams : gmap string TerminalStreams) (want : OperStatus)
    (p : Port) : gost World unit :=
  s ← streamsOf streams p;
  _ ← onInterface VInterface p want (ts_interface s) (validateInterfaceTelemetry exceptions dut rounds p params want);
  _ ← onChannel VOTN p want (ts_otn s) (validateOTNChannelTelemetry exceptions dut rounds p params want);
  onChannel VEthernet p want (ts_eth s) (validateEthernetChannelTelemetry exceptions dut inv p params).

Definition closeTerminal (streams : gmap string TerminalStreams) (p : Port) : gost World unit :=
  s ← streamsOf streams p;
  _ ← modify (closeRef (ChannelRef (ts_eth s)));
  _ ← modify (closeRef (ChannelRef (ts_otn s)));
  modify (closeRef (InterfaceRef (ts_interface s))).

(** ** Platform *)

Record PlatformStreams := { ps_och : nat; ps_tr : nat; ps_hwPort : nat; ps_interface : nat; ps_sensor : nat }.

Definition openPlatform (params : ConfigParameters) (p : Port) : gost World (string * PlatformStreams) :=
  och ← openComponent (name_at (OpticalChannelNames params) p);
  tr ← openComponent (name_at (TransceiverNames params) p);
  hw ← openComponent (name_at (HWPortNames params) p);
  itf ← openInterface (p_Name p);
  sensor ← openComponent (name_at (TempSensorNames params) p);
  _ ← defer (ComponentRef och);
  _ ← defer (ComponentRef tr);
  _ ← defer (ComponentRef hw);
  _ ← defer (InterfaceRef itf);
  _ ← defer (ComponentRef sensor);
  mret (p_Name p, {| ps_och := och; ps_tr := tr; ps_hwPort := hw; ps_interface := itf; ps_sensor := sensor |}).

(** The temperature sensor is validated for the state DOWN in every phase. *)
Definition validatePlatform (params : ConfigParameters) (streams : gmap string PlatformStreams) (want : OperStatus)
    (p : Port) : gost World unit :=
  s ← streamsOf streams p;
  _ ← onInterface VInterface p want (ps_interface s) (validateInterfaceTelemetry exceptions dut rounds p params want);
  _ ← onComponent VTransceiver p want (ps_tr s) (validateTranscieverTelemetry dut rounds p params want);
  _ ← onComponent VSensor p DOWN (ps_sensor s) (validateTempSensorTelemetry dut p params DOWN);
  _ ← onComponent VOptical p want (ps_och s) (validateOpticalChannelTelemetry rounds p params want);
  onComponent VHWPort p want (ps_hwPort s) (validateHWPortTelemetry exceptions dut p params).

Definition closePlatform (streams : gmap string PlatformStreams) (p : Port) : gost World unit :=
  s ← streamsOf streams p;
  _ ← modify (closeRef (ComponentRef (ps_och s)));
  _ ← modify (closeRef (ComponentRef (ps_tr s)));
  _ ← modify (closeRef (ComponentRef (ps_hwPort s)));
  _ ← modify (closeRef (InterfaceRef (ps_interface s)));
  modify (closeRef (ComponentRef (ps_sensor s))).

(** ** The loop body and the tests *)

Definition newParams (operationalMode frequency : Z) (targetOpticalPower : float) : ConfigParameters := {|
  Enabled := false; Frequency := frequency; TargetOpticalPower := targetOpticalPower;
  OperationalMode := operationalMode; PortSpeed := ""; FormFactor := ""; NumPhysicalChannels := 0; RateClass := "";
  TribProtocol := ""; Allocation := Zf 0; HWPortNames := ∅; TransceiverNames := ∅; TempSensorNames := ∅;
  OpticalChannelNames := ∅; OTNIndexes := ∅; ETHIndexes := ∅ |}.

(** The body is the same for both tests, up to the streams, the validators and
    the order in which the streams are closed. *)
Definition pathsBody {A} (openPort : ConfigParameters -> Port -> gost World (string * A))
    (validatePort : ConfigParameters -> gmap string A -> OperStatus -> Port -> gost World unit)
    (closePort : gmap string A -> Port -> gost World unit) (mfp : Z * Z * float) : gost World unit :=
  let '(mode, frequency, power) := mfp in
  pb ← lift (NewInterfaceConfigAll exceptions dut inv ports [] (newParams mode frequency power));
  let '(params, batch) := pb in
  _ ← push (Pushed batch);
  opened ← mapS (openPort params) ports;
  let streams := list_to_map (rev opened) in
  _ ← forEach (validatePort params streams DOWN) ports;
  _ ← toggleAll true params;
  _ ← forEach (validatePort (with_enabled true params) streams UP) ports;
  _ ← toggleAll false params;
  _ ← forEach (validatePort (with_enabled false params) streams DOWN) ports;
  _ ← toggleAll true params;
  _ ← forEach (validatePort (with_enabled true params) streams UP) ports;
  forEach (closePort streams) ports.

Record TunableParamters := {
  OperationalModeList : list Z; FrequencyList : list Z; TargetOpticalPowerList : list float }.

Definition orDefault {A} (l : list A) (d : go (list A)) : go (list A) := match l with [] => d | _ => Ret l end.
Definition setToDefaults (tp : TunableParamters) : go TunableParamters :=
  modes ← orDefault (OperationalModeList tp) (OperationalModeList_Default dut ports);
  frequencies ← orDefault (FrequencyList tp) (FrequencyList_Default inv ports);
  powers ← orDefault (TargetOpticalPowerList tp) (TargetOpticalPowerList_Default ports);
  Ret {| OperationalModeList := modes; FrequencyList := frequencies; TargetOpticalPowerList := powers |}.

(** The order of the three nested loops. *)
Definition combinations (tp : TunableParamters) : list (Z * Z * float) :=
  mode ← OperationalModeList tp; frequency ← FrequencyList tp; power ← TargetOpticalPowerList tp;
  [(mode, frequency, power)].

Definition ConfigureDefaultNetworkInstance : gost World unit :=
  ni ← lift (DefaultNetworkInstance exceptions dut);
  push (DefaultInstance ni).

Definition pathsTest (body : Z * Z * float -> gost World unit) (tp : TunableParamters) : gost World unit :=
  _ ← ConfigureDefaultNetworkInstance;
  tp ← lift (setToDefaults tp);
  forEach body (combinations tp).

(** The deferred calls run last to first, also when the test was ended. *)
Definition withDefers (m : gost World unit) : gost World unit := fun w =>
  let '(r, w) := m w in
  (r, foldl (fun w d => closeRef d w) w (rev (w_deferred w))).

Definition TerminalDevicePathsTest (tp : TunableParamters) : gost World unit :=
  withDefers (pathsTest (pathsBody openTerminal validateTerminal closeTerminal) tp).
Definition PlatformPathsTest (tp : TunableParamters) : gost World unit :=
  withDefers (pathsTest (pathsBody openPlatform validatePlatform closePlatform) tp).
End Run.

(** * The order of events *)

(** The last state that was pushed for an interface. *)
Definition op_enabled (name : string) (e : option bool) (op : BatchOp) : option bool :=
  match op with ReplaceInterface n i => if String.eqb n name then Some (ic_Enabled i) else e | _ => e end.
Definition event_enabled (name : string) (e : option bool) (ev : Event) : option bool :=
  match ev with Pushed ops => foldl (op_enabled name) e ops | _ => e end.
Definition enabled_in (tr : list Event) (name : string) : option bool := foldl (event_enabled name) None tr.

Lemma enabled_snoc tr ev name : enabled_in (tr ++ [ev]) name = event_enabled name (enabled_in tr name) ev.
Proof. unfold enabled_in. by rewrite foldl_app. Qed.

(** The interface operations of a list all have the state [b]. *)
Definition all_state (b : bool) (ops : list BatchOp) : Prop :=
  forall n i, ReplaceInterface n i ∈ ops -> ic_Enabled i = b.

Lemma all_state_fold b name ops : forall e, all_state b ops ->
  (e = Some b \/ exists i, ReplaceInterface name i ∈ ops) -> foldl (op_enabled name) e ops = Some b.
Proof.
  induction ops as [|op ops IH]; intros e HS He; simpl.
  - destruct He as [|[i Hi]]; [done|by apply not_elem_of_nil in Hi].
  - apply IH; [intros n i Hi; apply (HS n i); by right|].
    assert (forall i, op = ReplaceInterface name i -> op_enabled name e op = Some b) as Hop.
    { intros i ->. simpl. rewrite String.eqb_refl. f_equal. apply (HS name i). by left. }
    destruct He as [->|[i [Hi|Hi]%elem_of_cons]]; [|left; by apply (Hop i)|right; by exists i].
    left. destruct op as [n i| |]; simpl; [|done..]. case_match; [|done]. f_equal. apply (HS n i). by left.
Qed.

Section Batch.
Context {re : Regexp} (exceptions : list PlatformExceptions) (dut : Device) (inv : Inventory).

Ltac batch_case := 
  repeat match goal with
  | H : _ ≫= _ = Ret _ |- _ => apply bind_Ret in H as (? & ? & H)
  | H : Ret _ = Ret _ |- _ => injection H as H; try subst
  end.

Lemma interfaceConf_enabled p params i : interfaceConf exceptions dut p params = Ret i -> ic_Enabled i = Enabled params.
Proof. unfold interfaceConf. intros H. batch_case. done. Qed.

Lemma configOps_interfaces params p bs : configOps exceptions dut params p = Ret bs ->
  all_state (Enabled params) bs /\ exists i, ReplaceInterface (p_Name p) i ∈ bs.
Proof.
  assert (forall ops ops', all_state (Enabled params) ops -> all_state (Enabled params) ops' ->
    all_state (Enabled params) (ops ++ ops')) as Happ.
  { intros ops ops' H1 H2 n i [Hi|Hi]%elem_of_app; eauto. }
  assert (forall op, (forall n i, op = ReplaceInterface n i -> ic_Enabled i = Enabled params) ->
    all_state (Enabled params) [op]) as Hone.
  { intros op Hop n i Hi%list_elem_of_singleton. by eapply Hop. }
  set (J := fun ops => all_state (Enabled params) ops /\ exists i, ReplaceInterface (p_Name p) i ∈ ops).
  assert (forall ops op, J ops -> (forall n i, op = ReplaceInterface n i -> ic_Enabled i = Enabled params) -> J (ops ++ [op])) as HJ.
  { intros ops op [HS [i Hi]] Hop. split; [by apply Happ; [|apply Hone]|]. exists i. apply elem_of_app. by left. }
  unfold configOps. intros H. apply bind_Ret in H as (b1 & H1 & H). apply bind_Ret in H as (b2 & H2 & H).
  apply bind_Ret in H as (b3 & H3 & H). apply bind_Ret in H as (b4 & H4 & H5).
  assert (J b1) as J1.
  { unfold updateInterfaceConfig in H1. apply bind_Ret in H1 as (i & Hi & H1). injection H1 as <-. split.
    - apply Hone. intros n j [= _ <-]. by apply interfaceConf_enabled in Hi.
    - exists i. by left. }
  assert (J b2) as J2.
  { unfold updateHWPortConfig in H2. batch_case.
    repeat (case_match; batch_case); repeat (apply HJ); try done; by intros n i [= _ <-]. }
  assert (J b3) as J3.
  { unfold updateTransceiverConfig in H3. batch_case. case_match; batch_case; [done|]. by apply HJ. }
  assert (J b4) as J4.
  { unfold updateOTNChannelConfig in H4. batch_case. apply HJ; [|done]. unfold updateOpticalChannelConfig. by apply HJ. }
  unfold updateETHChannelConfig in H5. batch_case. by apply HJ.
Qed.

Lemma configPort_interfaces ports params batch p params' batch' :
  configPort exceptions dut inv ports (params, batch) p = Ret (params', batch') ->
  Enabled params' = Enabled params /\ exists bs, batch' = batch ++ bs /\ all_state (Enabled params) bs /\
    exists i, ReplaceInterface (p_Name p) i ∈ bs.
Proof.
  unfold configPort. intros H.
  do 6 (apply bind_Ret in H as (? & _ & H)). set (ps := withPort _ _ _ _ _ _ _ _) in H.
  assert ((b ← updateInterfaceConfig exceptions dut batch p ps;
           b ← updateHWPortConfig exceptions dut b p ps;
           b ← updateTransceiverConfig exceptions dut b p ps;
           b ← updateOTNChannelConfig exceptions dut (updateOpticalChannelConfig b p ps) p ps;
           updateETHChannelConfig exceptions dut b p ps) = Ret batch' /\ ps = params') as [Hb <-].
  { do 5 (apply bind_Ret in H as (? & -> & H); cbn [mbind outcome_bind]). injection H as E1 E2. rewrite E2. split; [done|exact E1]. }
  rewrite configOps_app in Hb. apply fmap_Ret in Hb as (bs & Hbs & <-). split; [done|].
  exists bs. split; [done|]. exact (configOps_interfaces ps p bs Hbs).
Qed.

Lemma NewInterfaceConfigAll_interfaces ports params batch params' batch' :
  NewInterfaceConfigAll exceptions dut inv ports batch params = Ret (params', batch') ->
  Enabled params' = Enabled params /\ exists bs, batch' = batch ++ bs /\ all_state (Enabled params) bs /\
    forall p, p ∈ ports -> exists i, ReplaceInterface (p_Name p) i ∈ bs.
Proof.
  unfold NewInterfaceConfigAll. change (Enabled params) with (Enabled (resetNames params)).
  generalize (resetNames params) as ps. generalize ports at 1 as all. intros all. revert batch.
  induction ports as [|p l IH]; intros batch ps H; cbn [foldM] in H.
  - injection H as <- <-. split; [done|]. exists []. split; [by rewrite app_nil_r|]. split.
    + by intros n i Hi%not_elem_of_nil.
    + by intros p Hp%not_elem_of_nil.
  - apply bind_Ret in H as ([ps1 b1] & H1 & H). apply configPort_interfaces in H1 as (E1 & bs1 & -> & S1 & i & Hi).
    apply IH in H as (E2 & bs2 & -> & S2 & Hall). split; [congruence|].
    exists (bs1 ++ bs2). split; [by rewrite app_assoc|]. split.
    + rewrite E1 in S2. intros n j [Hj|Hj]%elem_of_app; eauto.
    + intros q [->|Hq]%elem_of_cons.
      * exists i. apply elem_of_app. by left.
      * destruct (Hall q Hq) as [j Hj]. exists j. apply elem_of_app. by right.
Qed.
End Batch.

(** * Streams stay closed *)

(** A computation on a stream that does not reopen it. *)
Definition keeps {T A} (m : gost (Stream T) A) : Prop := forall s, closed s = true -> closed (snd (m s)) = true.

Lemma keeps_ret {T A} (a : A) : keeps (T := T) (mret a).
Proof. by intros s. Qed.
Lemma keeps_lift {T A} (m : go A) : keeps (T := T) (lift m).
Proof. by intros s. Qed.
Lemma keeps_bind {T A B} (m : gost (Stream T) A) (k : A -> gost (Stream T) B) :
  keeps m -> (forall a, keeps (k a)) -> keeps (m ≫= k).
Proof.
  intros Hm Hk s Hs. specialize (Hm s Hs). unfold mbind, gost_bind. destruct (m s) as [[a| | |] s']; [by apply Hk|done..].
Qed.

Lemma sleep_closed {T} (s : Stream T) : closed s = true -> closed (sleep s) = true.
Proof. intros H. unfold sleep. destruct (sleeps s); [done|]. simpl. by rewrite H. Qed.
Lemma awaitLoop_closed {T} rounds (pred : T -> bool) : forall s, closed s = true -> closed (snd (awaitLoop rounds pred s)) = true.
Proof.
  induction rounds as [|rounds IH]; intros s Hs; cbn [awaitLoop]; destruct (lastVal s) as [v|]; try done;
    [by destruct (pred v)|destruct (pred v); [done|]|]; by apply IH, sleep_closed.
Qed.
Lemma keeps_await {T} rounds (ready : T -> bool) : keeps (awaitReady rounds ready).
Proof.
  intros s Hs. unfold awaitReady, AwaitNext. pose proof (awaitLoop_closed rounds ready (sleep s) (sleep_closed s Hs)) as H.
  by destruct (awaitLoop rounds ready (sleep s)) as [[[v|] []] s'].
Qed.
Lemma keeps_next {T} : keeps (T := T) nextValue.
Proof.
  intros s Hs. unfold nextValue, Next. pose proof (sleep_closed s Hs). by destruct (lastVal (sleep s)).
Qed.
#[export] Hint Resolve keeps_ret keeps_lift keeps_await keeps_next : keep.

Ltac keeps_tac := repeat first
  [ apply keeps_bind; [|intros ?] | progress auto with keep | match goal with |- keeps (if ?b then _ else _) => destruct b end ].

Section Keeps.
Context {re : Regexp} (exceptions : list PlatformExceptions) (dut : Device) (inv : Inventory) (rounds : nat).
Context (p : Port) (params : ConfigParameters) (want : OperStatus).

Lemma validators_keep :
  keeps (validateInterfaceTelemetry exceptions dut rounds p params want) /\
  keeps (validateOTNChannelTelemetry exceptions dut rounds p params want) /\
  keeps (validateEthernetChannelTelemetry exceptions dut inv p params) /\
  keeps (validateTranscieverTelemetry dut rounds p params want) /\
  keeps (validateTempSensorTelemetry dut p params want) /\
  keeps (validateOpticalChannelTelemetry rounds p params want) /\
  keeps (validateHWPortTelemetry exceptions dut p params).
Proof.
  unfold validateInterfaceTelemetry, validateOTNChannelTelemetry, validateEthernetChannelTelemetry,
    validateTranscieverTelemetry, validateTempSensorTelemetry, validateOpticalChannelTelemetry, validateHWPortTelemetry.
  split_and!; keeps_tac.
Qed.
End Keeps.

(** * Invariants of a run *)

Section Logic.
Context (ports : list Port) (leak : nat).

(** Every stream of a store is closed or will be. *)
Definition covered {T} (ref : nat -> Ref) (d : list Ref) (l : list (Stream T)) : Prop :=
  forall i s, l !! i = Some s -> closed s = true \/ ref i ∈ d.

Lemma covered_deferred {T} ref d d' (l : list (Stream T)) : covered ref d l -> d ⊆ d' -> covered ref d' l.
Proof. intros H Hd i s Hi. destruct (H i s Hi); auto. Qed.
Lemma covered_alter {T} ref d (l : list (Stream T)) i f : (forall s, closed s = true -> closed (f s) = true) ->
  covered ref d l -> covered ref d (alter f i l).
Proof.
  intros Hf H j s Hj. destruct (decide (i = j)) as [->|Hne]; [|rewrite list_lookup_alter_ne in Hj by done; by apply (H j)].
  rewrite list_lookup_alter_eq in Hj. destruct (l !! j) as [t|] eqn:Et; [|done]. injection Hj as <-.
  destruct (H j t Et); auto.
Qed.
Lemma covered_insert {T} ref d (l : list (Stream T)) i s s' : l !! i = Some s -> (closed s = true -> closed s' = true) ->
  covered ref d l -> covered ref d (<[i := s']> l).
Proof.
  intros Hi Hs H j t Hj. apply list_lookup_insert_Some in Hj as [(-> & <- & _)|[_ Hj]]; [|by apply (H j)].
  destruct (H j s Hi); auto.
Qed.
Lemma covered_snoc {T} ref d (l : list (Stream T)) s : covered ref d l -> ref (length l) ∈ d -> covered ref d (l ++ [s]).
Proof.
  intros H Hd i t Hi. apply lookup_app_Some in Hi as [Hi|[Hle Hi]]; [by apply (H i)|].
  apply list_lookup_singleton_Some in Hi as [Hi _]. right. by replace i with (length l) by lia.
Qed.

Definition stores_ok (w : World) : Prop :=
  covered ChannelRef (w_deferred w) (w_channels w) /\ covered InterfaceRef (w_deferred w) (w_interfaces w) /\
  covered ComponentRef (w_deferred w) (w_components w).

(** What is validated for a state of the ports comes after that state was pushed
    for the port and before any other state. *)
Definition trace_ok (tr : list Event) : Prop :=
  forall pre k p want post, tr = pre ++ Validated k p want :: post -> k <> VSensor ->
    p ∈ ports /\ enabled_in pre (p_Name p) = Some (bool_decide (want = UP)).

Lemma trace_ok_snoc tr e : trace_ok tr ->
  (forall k p want, e = Validated k p want -> k <> VSensor ->
     p ∈ ports /\ enabled_in tr (p_Name p) = Some (bool_decide (want = UP))) -> trace_ok (tr ++ [e]).
Proof.
  intros H He pre k p want post E Hk. destruct post as [|x post _] using rev_ind.
  - apply app_inj_tail in E as [-> ->]. by apply (He k p want).
  - rewrite app_comm_cons, app_assoc in E. apply app_inj_tail in E as [-> _]. by apply (H pre k p want post).
Qed.

Definition Inv (w : World) : Prop := stores_ok w /\ trace_ok (w_trace w).

(** The test ended in [samplestream.New]: all but the last [leak] streams are closed
    or will be. *)
Definition Leak (w : World) : Prop :=
  trace_ok (w_trace w) /\ last (w_trace w) = Some Refused /\
  exists c c' i i' k k', w_channels w = c ++ c' /\ w_interfaces w = i ++ i' /\ w_components w = k ++ k' /\
    covered ChannelRef (w_deferred w) c /\ covered InterfaceRef (w_deferred w) i /\ covered ComponentRef (w_deferred w) k /\
    (length c' + length i' + length k' <= leak)%nat.
Definition Final (w : World) : Prop := Inv w \/ Leak w.

Definition all_enabled (b : bool) (w : World) : Prop :=
  forall p, p ∈ ports -> enabled_in (w_trace w) (p_Name p) = Some b.

(** [m] ends in a final state, whatever its outcome, and keeps the invariant and
    leads from [P] to [Q] when it returns. *)
Definition triple {A} (P : World -> Prop) (m : gost World A) (Q : World -> Prop) : Prop :=
  forall w, Inv w -> P w -> Final (snd (m w)) /\ (forall a, fst (m w) = Ret a -> Inv (snd (m w)) /\ Q (snd (m w))).

(** Code that keeps the invariant whatever its outcome. *)
Lemma triple_intro {A} P (m : gost World A) Q :
  (forall w, Inv w -> P w -> Inv (snd (m w)) /\ (forall a, fst (m w) = Ret a -> Q (snd (m w)))) -> triple P m Q.
Proof. intros H w HI HP. destruct (H w HI HP) as [HI' HQ]. split; [by left|]. intros a Ha. split; [done|by apply (HQ a)]. Qed.

Lemma triple_ret {A} P (a : A) : triple P (mret a) P.
Proof. apply triple_intro. by intros w. Qed.
Lemma triple_lift {A} P (m : go A) : triple P (lift m) P.
Proof. apply triple_intro. by intros w. Qed.
Lemma triple_bind {A B} P Q R (m : gost World A) (k : A -> gost World B) :
  triple P m Q -> (forall a, triple Q (k a) R) -> triple P (m ≫= k) R.
Proof.
  intros Hm Hk w HI HP. destruct (Hm w HI HP) as [HF HQ]. unfold mbind, gost_bind.
  destruct (m w) as [[a| | |] w']; [|done..]. destruct (HQ a eq_refl). by apply Hk.
Qed.
Lemma triple_forEach {A} P (body : A -> gost World unit) l : (forall x, x ∈ l -> triple P (body x) P) ->
  triple P (forEach body l) P.
Proof.
  induction l as [|x l IH]; intros H; [apply triple_ret|]. cbn [forEach].
  apply triple_bind with P; [apply H; by left|]. intros _. apply IH. intros y Hy. apply H. by right.
Qed.
Lemma triple_mapS {A B} P (body : A -> gost World B) l : (forall x, x ∈ l -> triple P (body x) P) ->
  triple P (mapS body l) P.
Proof.
  induction l as [|x l IH]; intros H; [apply triple_ret|]. cbn [mapS].
  apply triple_bind with P; [apply H; by left|]. intros y.
  apply triple_bind with P; [apply IH; intros z Hz; apply H; by right|]. intros ys. apply triple_ret.
Qed.

Lemma triple_emit P Q e : (forall k p want, e = Validated k p want -> k <> VSensor -> p ∈ ports /\
    forall w, P w -> enabled_in (w_trace w) (p_Name p) = Some (bool_decide (want = UP))) ->
  (forall w, P w -> Q (add_event e w)) -> triple P (emit e) Q.
Proof.
  intros He HQ. apply triple_intro. intros w [HS HT] HP. split; [|intros _ _; by apply HQ]. split; [done|].
  apply trace_ok_snoc; [done|]. intros k p want E Hk. destruct (He k p want E Hk); auto.
Qed.

Lemma closeRef_stores r w : stores_ok w -> stores_ok (closeRef r w).
Proof. intros (H1 & H2 & H3). destruct r; split_and!; try done; by apply covered_alter. Qed.
Lemma triple_close b r : triple (all_enabled b) (modify (closeRef r)) (all_enabled b).
Proof.
  apply triple_intro. intros w [HS HT] HP. split; [split; [by apply closeRef_stores|by destruct r]|]. intros _ _. by destruct r.
Qed.
Lemma triple_push samples P Q e : triple P (emit e) Q -> triple P (push samples e) Q.
Proof. intros H w HI HP. unfold push. destruct (takes samples (w_trace w) e); [by apply H|]. split; [by left|done]. Qed.
End Logic.

Section Runs.
Context {re : Regexp} (exceptions : list PlatformExceptions) (dut : Device) (inv : Inventory).
Context (rounds : nat) (samples : Samples) (ports : list Port) (leak : nat).
Abbreviation triple := (triple ports leak).
Abbreviation all_enabled := (all_enabled ports).
Abbreviation Inv := (Inv ports).

(** The store of a validator: its streams can change, nothing else. *)
Record store {T} (get : World -> list (Stream T)) (set : (list (Stream T) -> list (Stream T)) -> World -> World) : Prop := {
  st_trace : forall f w, w_trace (set f w) = w_trace w;
  st_ok : forall i s s' w, get w !! i = Some s -> (closed s = true -> closed s' = true) -> stores_ok w ->
    stores_ok (set (<[i := s']>) w) }.

Lemma channel_store : store w_channels set_channels.
Proof. split; [done|]. intros i s s' w Hi Hs (H1 & H2 & H3). split_and!; try done. by apply (covered_insert _ _ _ i s). Qed.
Lemma interface_store : store w_interfaces set_interfaces.
Proof. split; [done|]. intros i s s' w Hi Hs (H1 & H2 & H3). split_and!; try done. by apply (covered_insert _ _ _ i s). Qed.
Lemma component_store : store w_components set_components.
Proof. split; [done|]. intros i s s' w Hi Hs (H1 & H2 & H3). split_and!; try done. by apply (covered_insert _ _ _ i s). Qed.

Lemma triple_onStream {T} get set b i (m : gost (Stream T) failures) : store get set -> keeps m ->
  triple (all_enabled b) (onStream get set i m) (all_enabled b).
Proof.
  intros [Htr Hok] Hm. apply triple_intro. intros w [HS HT] HP. unfold onStream. destruct (get w !! i) as [s|] eqn:Hi; [|by split].
  specialize (Hm s). destruct (m s) as [r s'] eqn:E. cbn [snd] in Hm.
  assert (Inv (set (<[i := s']>) w)) as HI by (split; [by apply (Hok i s)|by rewrite Htr]).
  assert (all_enabled b (set (<[i := s']>) w)) as HE by (intros p Hp; rewrite Htr; by apply HP).
  by destruct r; split; try done; intros.
Qed.

Lemma triple_validate {T} get set k p want i (m : gost (Stream T) failures) b : store get set -> keeps m ->
  p ∈ ports -> (k <> VSensor -> b = bool_decide (want = UP)) ->
  triple (all_enabled b) (validate get set k p want i m) (all_enabled b).
Proof.
  intros Hs Hm Hp Hb. unfold validate. apply triple_bind with (all_enabled b); [|intros _; by apply triple_onStream].
  apply triple_emit.
  - intros k' p' want' [= <- <- <-] Hk. split; [done|]. intros w HP. rewrite <- Hb by done. by apply HP.
  - intros w HP q Hq. simpl. rewrite enabled_snoc. by apply HP.
Qed.

(** Bringing all ports up or down. *)
Lemma triple_toggleAll b b' params : triple (all_enabled b) (toggleAll exceptions dut samples ports b' params) (all_enabled b').
Proof.
  unfold toggleAll.
  assert (forall l, triple (fun w => forall p, p ∈ ports -> p ∈ l \/ enabled_in (w_trace w) (p_Name p) = Some b')
    (forEach (fun p => i ← lift (interfaceConf exceptions dut p (with_enabled b' params));
                       push samples (Pushed [ReplaceInterface (p_Name p) i])) l) (all_enabled b')) as H.
  { induction l as [|q l IH]; cbn [forEach].
    - apply triple_intro. intros w HI HP. split; [done|]. intros _ _ p Hp. destruct (HP p Hp) as [Hn|]; [by apply not_elem_of_nil in Hn|done].
    - eapply triple_bind; [|intros _; exact IH]. intros w HI HP. unfold mbind, gost_bind, lift.
      destruct (interfaceConf exceptions dut q (with_enabled b' params)) as [i| | |] eqn:Ei; [|split; [by left|done]..].
      apply interfaceConf_enabled in Ei. simpl in Ei.
      refine (triple_push ports leak samples (fun w' => w' = w)
        (fun w => forall p, p ∈ ports -> p ∈ l \/ enabled_in (w_trace w) (p_Name p) = Some b') _ _ w HI eq_refl).
      apply triple_emit; [done|].
      intros ? -> p Hp. simpl. rewrite enabled_snoc. simpl.
      destruct (String.eqb_spec (p_Name q) (p_Name p)) as [|Hne]; [right; congruence|].
      destruct (HP p Hp) as [[->|]%elem_of_cons|]; [done|by left|by right]. }
  intros w HI HP. apply H; [done|]. intros p Hp. by left.
Qed.

Lemma triple_streamsOf {A} P (streams : gmap string A) p : triple P (streamsOf streams p) P.
Proof. apply triple_lift. Qed.

Lemma triple_validateTerminal params streams want p : p ∈ ports ->
  triple (all_enabled (bool_decide (want = UP))) (validateTerminal exceptions dut inv rounds params streams want p)
    (all_enabled (bool_decide (want = UP))).
Proof.
  intros Hp. destruct (validators_keep exceptions dut inv rounds p params want) as (K1 & K2 & K3 & _).
  unfold validateTerminal. eapply triple_bind; [apply triple_streamsOf|]. intros s.
  eapply triple_bind; [by apply triple_validate; [apply interface_store|..]|]. intros _.
  eapply triple_bind; [by apply triple_validate; [apply channel_store|..]|]. intros _.
  by apply triple_validate; [apply channel_store|..].
Qed.

Lemma triple_validatePlatform params streams want p : p ∈ ports ->
  triple (all_enabled (bool_decide (want = UP))) (validatePlatform exceptions dut rounds params streams want p)
    (all_enabled (bool_decide (want = UP))).
Proof.
  intros Hp. destruct (validators_keep exceptions dut inv rounds p params want) as (K1 & _ & _ & K4 & _ & K6 & K7).
  destruct (validators_keep exceptions dut inv rounds p params DOWN) as (_ & _ & _ & _ & K5 & _ & _).
  unfold validatePlatform. eapply triple_bind; [apply triple_streamsOf|]. intros s.
  eapply triple_bind; [by apply triple_validate; [apply interface_store|..]|]. intros _.
  do 3 (eapply triple_bind; [by apply triple_validate; [apply component_store|..]|]; intros _).
  by apply triple_validate; [apply component_store|..].
Qed.

(** ** Opening the streams of a port *)

(** The streams of a port that are opened before one cannot be. *)
Lemma leaked w w' c i k : Inv w -> w_trace w' = w_trace w ++ [Refused] -> w_deferred w' = w_deferred w ->
  w_channels w' = w_channels w ++ c -> w_interfaces w' = w_interfaces w ++ i -> w_components w' = w_components w ++ k ->
  (length c + length i + length k <= leak)%nat -> Leak ports leak w'.
Proof.
  intros [(H1 & H2 & H3) HT] Et Ed Ec Ei Ek Hl. split; [rewrite Et; by apply trace_ok_snoc|]. split; [rewrite Et; apply last_snoc|].
  exists (w_channels w), c, (w_interfaces w), i, (w_components w), k. by rewrite Ed.
Qed.

(** When [New] fails the streams [c], [i] and [k] of the port are open. *)
Ltac refused w c i k :=
  split; [right; eapply (leaked w _ c i k); [assumption|reflexivity|reflexivity|..|simpl; lia];
    cbn; rewrite ?app_nil_r, <- ?app_assoc; reflexivity|done].

Lemma triple_openTerminal b params p : (2 <= leak)%nat ->
  triple (all_enabled b) (openTerminal samples params p) (all_enabled b).
Proof.
  intros Hleak w HI HP. unfold openTerminal, openChannel, openInterface, openStream, New, mbind, gost_bind.
  set (s1 := started _). destruct (connects samples (w_trace w) _).
  2:{ refused w (@nil (Stream Channel)) (@nil (Stream Interface)) (@nil (Stream Component)). }
  set (s2 := started _). destruct (connects samples _ _).
  2:{ refused w [s1] (@nil (Stream Interface)) (@nil (Stream Component)). }
  set (s3 := started _). destruct (connects samples _ _).
  2:{ refused w [s1; s2] (@nil (Stream Interface)) (@nil (Stream Component)). }
  destruct HI as [(H1 & H2 & H3) HT].
  match goal with |- Final _ _ ?x /\ _ => assert (Inv x) as HI'; [|split; [by left|by intros a _]] end.
  split; [split_and!; cbn|done].
  - repeat apply covered_snoc; [by eapply covered_deferred; [exact H1|set_solver]|..]; rewrite ?length_app; set_solver.
  - apply covered_snoc; [by eapply covered_deferred; [exact H2|set_solver]|set_solver].
  - by eapply covered_deferred; [exact H3|set_solver].
Qed.

Lemma triple_openPlatform b params p : (4 <= leak)%nat ->
  triple (all_enabled b) (openPlatform samples params p) (all_enabled b).
Proof.
  intros Hleak w HI HP. unfold openPlatform, openComponent, openInterface, openStream, New, mbind, gost_bind.
  set (s1 := started _). destruct (connects samples (w_trace w) _).
  2:{ refused w (@nil (Stream Channel)) (@nil (Stream Interface)) (@nil (Stream Component)). }
  set (s2 := started _). destruct (connects samples _ _).
  2:{ refused w (@nil (Stream Channel)) (@nil (Stream Interface)) [s1]. }
  set (s3 := started _). destruct (connects samples _ _).
  2:{ refused w (@nil (Stream Channel)) (@nil (Stream Interface)) [s1; s2]. }
  set (s4 := started _). destruct (connects samples _ _).
  2:{ refused w (@nil (Stream Channel)) (@nil (Stream Interface)) [s1; s2; s3]. }
  set (s5 := started _). destruct (connects samples _ _).
  2:{ refused w (@nil (Stream Channel)) [s4] [s1; s2; s3]. }
  destruct HI as [(H1 & H2 & H3) HT].
  match goal with |- Final _ _ ?x /\ _ => assert (Inv x) as HI'; [|split; [by left|by intros a _]] end.
  split; [split_and!; cbn|done].
  - by eapply covered_deferred; [exact H1|set_solver].
  - apply covered_snoc; [by eapply covered_deferred; [exact H2|set_solver]|set_solver].
  - repeat apply covered_snoc; [by eapply covered_deferred; [exact H3|set_solver]|..]; rewrite ?length_app; set_solver.
Qed.

Lemma triple_closeTerminal b streams p : triple (all_enabled b) (closeTerminal streams p) (all_enabled b).
Proof.
  unfold closeTerminal. eapply triple_bind; [apply triple_streamsOf|]. intros s.
  repeat (eapply triple_bind; [apply triple_close|intros _]). apply triple_close.
Qed.
Lemma triple_closePlatform b streams p : triple (all_enabled b) (closePlatform streams p) (all_enabled b).
Proof.
  unfold closePlatform. eapply triple_bind; [apply triple_streamsOf|]. intros s.
  repeat (eapply triple_bind; [apply triple_close|intros _]). apply triple_close.
Qed.

(** ** The tests *)

Definition anything (w : World) : Prop := True.

Lemma triple_weaken {A} P Q Q' (m : gost World A) : triple P m Q -> (forall w, Q w -> Q' w) -> triple P m Q'.
Proof.
  intros H HQ w HI HP. destruct (H w HI HP) as [HI' H']. split; [done|]. intros a Ha. destruct (H' a Ha). auto.
Qed.

Lemma triple_pathsBody {A} openPort validatePort closePort mfp :
  (forall b params p, triple (all_enabled b) (openPort params p) (all_enabled b)) ->
  (forall params (streams : gmap string A) want p, p ∈ ports ->
     triple (all_enabled (bool_decide (want = UP))) (validatePort params streams want p)
       (all_enabled (bool_decide (want = UP)))) ->
  (forall b streams p, triple (all_enabled b) (closePort streams p) (all_enabled b)) ->
  triple anything (pathsBody exceptions dut inv samples ports openPort validatePort closePort mfp) anything.
Proof.
  intros Ho Hv Hc. destruct mfp as [[mode frequency] power]. unfold pathsBody.
  intros w HI _. unfold mbind at 1, gost_bind at 1, lift at 1.
  destruct (NewInterfaceConfigAll exceptions dut inv ports [] (newParams mode frequency power)) as [[params batch]| | |] eqn:E;
    [|split; [by left|done]..].
  apply NewInterfaceConfigAll_interfaces in E as (_ & bs & -> & HS & Hall). cbn [app] in *.
  assert (forall params streams want, triple (all_enabled (bool_decide (want = UP)))
    (forEach (validatePort params streams want) ports) (all_enabled (bool_decide (want = UP)))) as HV.
  { intros. apply triple_forEach. auto. }
  assert (triple anything (push samples (Pushed bs)) (all_enabled false)) as He.
  { apply triple_push, triple_emit; [done|]. intros w' _ p Hp. simpl. rewrite enabled_snoc. simpl.
    apply all_state_fold; [exact HS|]. right. by apply Hall. }
  refine (triple_bind ports leak _ _ _ _ _ He _ w HI I). intros _.
  eapply triple_bind; [apply triple_mapS; intros; apply Ho|]. intros opened.
  eapply triple_bind; [apply (HV _ _ DOWN)|]. intros _.
  eapply triple_bind; [apply (triple_toggleAll false true)|]. intros _.
  eapply triple_bind; [apply (HV _ _ UP)|]. intros _.
  eapply triple_bind; [apply (triple_toggleAll true false)|]. intros _.
  eapply triple_bind; [apply (HV _ _ DOWN)|]. intros _.
  eapply triple_bind; [apply (triple_toggleAll false true)|]. intros _.
  eapply triple_bind; [apply (HV _ _ UP)|]. intros _.
  eapply triple_weaken; [apply triple_forEach; intros; apply Hc|done].
Qed.

Lemma triple_pathsTest body tp : (forall mfp, triple anything (body mfp) anything) ->
  triple anything (pathsTest exceptions dut inv samples ports body tp) anything.
Proof.
  intros Hb. unfold pathsTest. apply triple_bind with anything.
  - unfold ConfigureDefaultNetworkInstance. apply triple_bind with anything; [apply triple_lift|].
    intros ni. by apply triple_push, triple_emit.
  - intros _. apply triple_bind with anything; [apply triple_lift|]. intros tp'. apply triple_forEach. auto.
Qed.

(** ** The deferred calls *)

Definition all_closed (w : World) : Prop :=
  Forall (fun s => closed s = true) (w_channels w) /\ Forall (fun s => closed s = true) (w_interfaces w) /\
  Forall (fun s => closed s = true) (w_components w).

Definition covers (l : list Ref) (w : World) : Prop :=
  covered ChannelRef l (w_channels w) /\ covered InterfaceRef l (w_interfaces w) /\ covered ComponentRef l (w_components w).

Lemma covered_nil {T} (ref : nat -> Ref) (st : list (Stream T)) : covered ref [] st -> Forall (fun s => closed s = true) st.
Proof. intros H. apply Forall_lookup. intros i s Hi. destruct (H i s Hi) as [|Hn]; [done|]. by apply not_elem_of_nil in Hn. Qed.
Lemma covered_other {T} (ref : nat -> Ref) r l (st : list (Stream T)) : (forall i, ref i <> r) ->
  covered ref (r :: l) st -> covered ref l st.
Proof.
  intros Hne H i s Hi. destruct (H i s Hi) as [|[Heq|]%elem_of_cons]; [by left|by destruct (Hne i)|by right].
Qed.
Lemma covered_same {T} (ref : nat -> Ref) i l (st : list (Stream T)) : (forall j, ref j = ref i -> j = i) ->
  covered ref (ref i :: l) st -> covered ref l (alter Close i st).
Proof.
  intros Hinj H j s Hj. destruct (decide (i = j)) as [->|Hne].
  - rewrite list_lookup_alter_eq in Hj. destruct (st !! j); [|done]. injection Hj as <-. by left.
  - rewrite list_lookup_alter_ne in Hj by done.
    destruct (H j s Hj) as [|[Heq|]%elem_of_cons]; [by left|by destruct Hne; symmetry; apply Hinj|by right].
Qed.

Lemma closeRef_covers r l w : covers (r :: l) w -> covers l (closeRef r w).
Proof.
  intros (H1 & H2 & H3). destruct r as [i|i|i]; split_and!; cbn;
    first [by apply covered_same; [intros ? [=]|] | by eapply covered_other; [|eassumption]].
Qed.

Lemma closeAll_covers l : forall w, covers l w ->
  let w' := foldl (fun w r => closeRef r w) w l in all_closed w' /\ w_trace w' = w_trace w.
Proof.
  induction l as [|r l IH]; intros w H; cbn [foldl].
  - destruct H as (H1 & H2 & H3). split; [|done]. split_and!; by eapply covered_nil.
  - destruct (IH (closeRef r w) (closeRef_covers r l w H)) as [HC HT]. split; [exact HC|]. rewrite HT. by destruct r.
Qed.

(** All but the last streams are closed. *)
Definition closed_but (n : nat) (w : World) : Prop := exists c c' i i' k k',
  w_channels w = c ++ c' /\ w_interfaces w = i ++ i' /\ w_components w = k ++ k' /\
  Forall (fun s => closed s = true) c /\ Forall (fun s => closed s = true) i /\ Forall (fun s => closed s = true) k /\
  (length c' + length i' + length k' <= n)%nat.

(** Closing the streams of a store also closes those of its first part. *)
Definition firsts (c i k : nat) (w : World) : World := {|
  w_channels := take c (w_channels w); w_interfaces := take i (w_interfaces w); w_components := take k (w_components w);
  w_deferred := w_deferred w; w_trace := w_trace w; w_failures := w_failures w |}.
Lemma closeRef_firsts c i k r w : firsts c i k (closeRef r w) = closeRef r (firsts c i k w).
Proof.
  assert (forall {T} n (l : list (Stream T)) j, take n (alter Close j l) = alter Close j (take n l)) as Ht.
  { intros T n l j. apply list_eq. intros x. destruct (decide (x < n)%nat) as [Hx|Hx].
    - rewrite lookup_take_lt by done. destruct (decide (j = x)) as [->|Hne].
      + by rewrite !list_lookup_alter_eq, lookup_take_lt.
      + by rewrite !list_lookup_alter_ne, lookup_take_lt.
    - rewrite lookup_take_ge by lia. destruct (decide (j = x)) as [->|Hne].
      + by rewrite list_lookup_alter_eq, lookup_take_ge by lia.
      + by rewrite list_lookup_alter_ne, lookup_take_ge by (done || lia). }
  destruct r; unfold firsts, closeRef, set_channels, set_interfaces, set_components; cbn; by rewrite Ht.
Qed.
Lemma closeAll_firsts c i k l : forall w,
  firsts c i k (foldl (fun w r => closeRef r w) w l) = foldl (fun w r => closeRef r w) (firsts c i k w) l.
Proof. induction l as [|r l IH]; intros w; [done|]. cbn [foldl]. by rewrite IH, closeRef_firsts. Qed.

Lemma closeRef_lengths r w : length (w_channels (closeRef r w)) = length (w_channels w) /\
  length (w_interfaces (closeRef r w)) = length (w_interfaces w) /\ length (w_components (closeRef r w)) = length (w_components w).
Proof. destruct r; cbn; by rewrite ?length_alter. Qed.
Lemma closeAll_lengths l : forall w, let w' := foldl (fun w r => closeRef r w) w l in
  length (w_channels w') = length (w_channels w) /\ length (w_interfaces w') = length (w_interfaces w) /\
  length (w_components w') = length (w_components w).
Proof.
  induction l as [|r l IH]; intros w; [done|]. cbn [foldl]. destruct (IH (closeRef r w)) as (-> & -> & ->). apply closeRef_lengths.
Qed.

(** The streams that the test leaves open, and what it validated when. *)
Definition ended (w : World) : Prop :=
  (all_closed w \/ last (w_trace w) = Some Refused /\ closed_but leak w) /\ trace_ok ports (w_trace w).

Lemma withDefers_safe m : triple anything m anything -> ended (snd (withDefers m start)).
Proof.
  intros H. destruct (H start) as [HF _]; [|done|].
  { split; [split_and!; intros i s Hn; by destruct i|]. intros pre k p want post E. by destruct pre. }
  unfold withDefers. destruct (m start) as [r w]. cbn [snd] in *.
  assert (w_deferred w ⊆ rev (w_deferred w)) as Hsub.
  { intros x Hx. apply list_elem_of_In, in_rev. rewrite rev_involutive. by apply list_elem_of_In. }
  set (l := rev (w_deferred w)) in *. destruct HF as [[(H1 & H2 & H3) HT]|(HT & Hlast & c & c' & i & i' & k & k' & Ec & Ei & Ek & H1 & H2 & H3 & Hl)].
  - destruct (closeAll_covers l w) as [HC HTr]; [split_and!; by eapply covered_deferred|].
    split; [by left|]. by rewrite HTr.
  - destruct (closeAll_covers l (firsts (length c) (length i) (length k) w)) as [(C1 & C2 & C3) HTr].
    { split_and!; cbn; [rewrite Ec|rewrite Ei|rewrite Ek]; rewrite take_app_length; by eapply covered_deferred. }
    rewrite <- closeAll_firsts in C1, C2, C3, HTr. cbn [w_trace firsts] in HTr.
    split; [right|by rewrite HTr]. split; [by rewrite HTr|].
    destruct (closeAll_lengths l w) as (L1 & L2 & L3). set (w' := foldl _ w l) in *. rewrite Ec, length_app in L1.
    rewrite Ei, length_app in L2. rewrite Ek, length_app in L3. cbn in C1, C2, C3.
    exists (take (length c) (w_channels w')), (drop (length c) (w_channels w')), (take (length i) (w_interfaces w')),
      (drop (length i) (w_interfaces w')), (take (length k) (w_components w')), (drop (length k) (w_components w')).
    rewrite !take_drop, !length_drop. split_and!; try done. lia.
Qed.
End Runs.

(** C25: Both tests, on any device and with any samples, and whether they pass,
    report failures or end early.  At the end every stream they opened is closed, except
    when the test ended because a stream could not be opened: the closes of a port are
    deferred only after all its streams are open, so then up to two streams of the
    terminal device test, or four of the platform test, stay open.  Every validation for
    the state UP or DOWN comes after the port was pushed that state and before it was
    pushed the other one, the temperature sensor apart, which is always validated for
    DOWN. *)
Theorem paths_tests_safe {re : Regexp} exceptions dut inv rounds samples ports tp :
  ended ports 2 (snd (TerminalDevicePathsTest exceptions dut inv rounds samples ports tp start)) /\
  ended ports 4 (snd (PlatformPathsTest exceptions dut inv rounds samples ports tp start)).
Proof.
  split; apply withDefers_safe, triple_pathsTest; intros mfp; apply triple_pathsBody.
  - intros. by apply triple_openTerminal.
  - intros. by apply triple_validateTerminal.
  - intros. apply triple_closeTerminal.
  - intros. by apply triple_openPlatform.
  - intros. by apply triple_validatePlatform.
  - intros. apply triple_closePlatform.
Qed.

(** * Example: a line that follows every change *)

Definition lineInterface (up : bool) : Interface := {|
  i_Name := "Ethernet1/1"; i_OperStatus := if up then UP else DOWN; i_Type := ethernetCsmacd; i_Enabled := up;
  i_PortSpeed := "SPEED_800GB" |}.
Definition followOTN (up : bool) : Channel := {|
  tc_Index := 8000; tc_Description := "OTN Logical Channel"; tc_LogicalChannelType := "PROT_OTN";
  tc_LoopbackMode := "NONE"; tc_RateClass := ""; tc_TribProtocol := "PROT_800GE"; tc_AdminState := "ENABLED";
  tc_Assignment i := {| as_Index := i; as_LogicalChannel := 0; as_OpticalChannel := "Ethernet1/1-transceiver-Optical0";
                        as_Description := "OTN to Optical Channel"; as_Allocation := Zf 800;
                        as_AssignmentType := "OPTICAL_CHANNEL" |};
  tc_Ingress_Interface := ""; tc_Ingress_Transceiver := "";
  tc_QValue := flat (if up then Zf 10 else Zf 0); tc_Esnr := flat (if up then Zf 18 else Zf 0);
  tc_PreFecBer := flat (if up then lit 1 1000 else lit 1 2); tc_FecUncorrectableBlocks := 0 |}.
Definition followSamples : Samples := {|
  takes _ _ := true; connects _ _ := true;
  channelSamples _ index := if index =? 8000 then [[Some (followOTN false)]; [Some (followOTN true)];
      [Some (followOTN false)]; [Some (followOTN true)]] else [[Some lineETH]];
  interfaceSamples _ _ := [[Some (lineInterface false)]; [Some (lineInterface true)]; [Some (lineInterface false)];
      [Some (lineInterface true)]];
  componentSamples _ _ := [] |}.

(** With one mode and the default frequency and power the test runs to its end and
    finds no failure: the default instance, the configuration, four rounds of three
    validations and three changes of the port. *)
Example terminal_run_passes :
  let '(r, w) := @TerminalDevicePathsTest plain_regexp [] sample_device sample_inventory 3 followSamples [sample_port]
    {| OperationalModeList := [1]; FrequencyList := []; TargetOpticalPowerList := [] |} start in
  r = Ret tt /\ w_failures w = [] /\ length (w_trace w) = 17%nat /\ length (w_channels w) = 2%nat.
Proof. vm_compute. repeat split. Qed.

(** When the third stream of the port cannot be opened the other two stay open. *)
Example refused_stream_leaks :
  let '(r, w) := @TerminalDevicePathsTest plain_regexp [] sample_device sample_inventory 3
    {| takes _ _ := true; connects _ n := (n <? 2)%nat; channelSamples := channelSamples followSamples;
       interfaceSamples := interfaceSamples followSamples; componentSamples := componentSamples followSamples |} [sample_port]
    {| OperationalModeList := [1]; FrequencyList := []; TargetOpticalPowerList := [] |} start in
  r = Panic /\ map closed (w_channels w) = [false; false].
Proof. vm_compute. repeat split. Qed.
