(* ===== verification/OtgFlows.v ===== *)
(** Traffic flows of the traffic generator: the part of a gosnappi configuration
    the repository sets for ports, devices, flows and captures, and the flow builder of
    [src/internal/otg_helpers/otg_config_helpers/otgflowhelpers.go].

    A gosnappi configuration is the data its setters store; a [gosnappi.Flow] is a
    pointer to an item of the configuration, here its index.  A choice holds what
    was set last. *)
From stdpp Require Import base list gmap strings.
From Stdlib Require Import ZArith Lia.
From S2P Require Import Prelude GoStrings Floats.
Open Scope string_scope.
Open Scope Z_scope.
Open Scope list_scope.

(** * Configuration *)

(** A pattern of a header field; without a step the generator uses its default. *)
Inductive pattern (A : Type) :=
| Value (v : A)
| Values (l : list A)
| Increment (start : A) (step : option A) (count : Z).
Arguments Value {A} v. Arguments Values {A} l. Arguments Increment {A} start step count.

Inductive Priority :=
| Dscp (phb : pattern Z)
| TosPrecedence (p : pattern Z)
| RawPriority (p : pattern Z).

Inductive Header :=
| Ethernet (src dst : option (pattern string))
| Vlan (id : pattern Z)
| Gre (protocol : pattern Z)
| Mpls (label trafficClass : pattern Z)
| Ipv4 (src dst : pattern string) (ttl : option (pattern Z)) (priority : option Priority)
| Ipv6 (src dst : pattern string) (hopLimit trafficClass : option (pattern Z))
| Tcp (srcPort dstPort : pattern Z)
| Udp (srcPort dstPort : pattern Z)
| Custom (bytes : string).

Inductive TxRx :=
| PortTxRx (tx : string) (rx : list string)
| DeviceTxRx (tx rx : list string).

Inductive Size := Fixed (n : Z) | WeightPairs (pairs : list (Z * float)).
Inductive Rate := Percentage (p : float) | Pps (n : Z).
Inductive Duration := FixedPackets (n : Z) | Continuous.

Record Flow := {
  fl_name : string; fl_metrics : bool; fl_txrx : option TxRx; fl_size : option Size;
  fl_rate : option Rate; fl_duration : option Duration; fl_packet : list Header;
}.

Record Ethernet4 := { ip_name : string; ip_address : string; ip_gateway : string; ip_prefix : Z }.
Record DeviceEthernet := {
  eth_name : string; eth_mac : string; eth_port : string; eth_mtu : option Z;
  eth_vlans : list (string * Z); eth_ipv4 : list Ethernet4; eth_ipv6 : list Ethernet4;
}.
Record Device := { dev_name : string; dev_ethernets : list DeviceEthernet }.
Record Capture := { cap_name : string; cap_ports : list string; cap_format : string }.

Record Config := {
  cfg_ports : list string; cfg_devices : list Device; cfg_flows : list Flow; cfg_captures : list Capture;
}.
(** [gosnappi.NewConfig()] *)
Definition NewConfig : Config := {| cfg_ports := []; cfg_devices := []; cfg_flows := []; cfg_captures := [] |}.

Definition set_flows (l : list Flow) (c : Config) : Config :=
  {| cfg_ports := cfg_ports c; cfg_devices := cfg_devices c; cfg_flows := l; cfg_captures := cfg_captures c |}.
Definition set_captures (l : list Capture) (c : Config) : Config :=
  {| cfg_ports := cfg_ports c; cfg_devices := cfg_devices c; cfg_flows := cfg_flows c; cfg_captures := l |}.
Definition add_port (name : string) (c : Config) : Config :=
  {| cfg_ports := cfg_ports c ++ [name]; cfg_devices := cfg_devices c; cfg_flows := cfg_flows c; cfg_captures := cfg_captures c |}.
Definition add_device (d : Device) (c : Config) : Config :=
  {| cfg_ports := cfg_ports c; cfg_devices := cfg_devices c ++ [d]; cfg_flows := cfg_flows c; cfg_captures := cfg_captures c |}.

Abbreviation otg := (gost Config).

Definition modify (f : Config -> Config) : otg unit := fun c => (Ret tt, f c).

(** [top.Flows().Add().SetName(name)] *)
Definition addFlow (name : string) : otg nat := fun c =>
  (Ret (length (cfg_flows c)),
   set_flows (cfg_flows c ++ [{| fl_name := name; fl_metrics := false; fl_txrx := None; fl_size := None;
                                 fl_rate := None; fl_duration := None; fl_packet := [] |}]) c).
Definition modFlow (i : nat) (f : Flow -> Flow) : otg unit := modify (fun c => set_flows (alter f i (cfg_flows c)) c).

Definition set_metrics (b : bool) (f : Flow) : Flow :=
  {| fl_name := fl_name f; fl_metrics := b; fl_txrx := fl_txrx f; fl_size := fl_size f; fl_rate := fl_rate f;
     fl_duration := fl_duration f; fl_packet := fl_packet f |}.
Definition set_txrx (x : TxRx) (f : Flow) : Flow :=
  {| fl_name := fl_name f; fl_metrics := fl_metrics f; fl_txrx := Some x; fl_size := fl_size f; fl_rate := fl_rate f;
     fl_duration := fl_duration f; fl_packet := fl_packet f |}.
Definition set_size (x : Size) (f : Flow) : Flow :=
  {| fl_name := fl_name f; fl_metrics := fl_metrics f; fl_txrx := fl_txrx f; fl_size := Some x; fl_rate := fl_rate f;
     fl_duration := fl_duration f; fl_packet := fl_packet f |}.
Definition set_rate (x : Rate) (f : Flow) : Flow :=
  {| fl_name := fl_name f; fl_metrics := fl_metrics f; fl_txrx := fl_txrx f; fl_size := fl_size f; fl_rate := Some x;
     fl_duration := fl_duration f; fl_packet := fl_packet f |}.
Definition set_duration (x : Duration) (f : Flow) : Flow :=
  {| fl_name := fl_name f; fl_metrics := fl_metrics f; fl_txrx := fl_txrx f; fl_size := fl_size f; fl_rate := fl_rate f;
     fl_duration := Some x; fl_packet := fl_packet f |}.
Definition add_header (h : Header) (f : Flow) : Flow :=
  {| fl_name := fl_name f; fl_metrics := fl_metrics f; fl_txrx := fl_txrx f; fl_size := fl_size f; fl_rate := fl_rate f;
     fl_duration := fl_duration f; fl_packet := fl_packet f ++ [h] |}.
(** [Size().WeightPairs().Custom().Add()]: choosing weight pairs drops a fixed size. *)
Definition add_weight (p : Z * float) (f : Flow) : Flow :=
  set_size (WeightPairs (match fl_size f with Some (WeightPairs l) => l | _ => [] end ++ [p])) f.

(** * otgflowhelpers.go *)

Definition IanaMPLSEthertype : Z := 34887.
Definition IanaIPv4Ethertype : Z := 2048.
Definition IanaIPv6Ethertype : Z := 34525.

Record GREFlowParams := { gre_Protocol : Z }.
Record VLANFlowParams := { VLANId : Z; VLANCount : Z }.
Record EthFlowParams := { SrcMAC : string; DstMAC : string; SrcMACCount : Z; DstMACCount : Z }.
Record IPv4FlowParams := {
  IPv4Src : string; IPv4Dst : string; IPv4SrcCount : Z; IPv4DstCount : Z; TTL : Z; TOS : Z; DSCP : Z;
  TOSCount : Z; DSCPCount : Z; RawPriority_ : Z; RawPriorityCount : Z;
}.
Record IPv6FlowParams := {
  IPv6Src : string; IPv6Dst : string; IPv6SrcCount : Z; IPv6DstCount : Z; HopLimit : Z; TrafficClass : Z; TrafficClassCount : Z;
}.
Record TCPFlowParams := { TCPSrcPort : Z; TCPDstPort : Z; TCPSrcCount : Z; TCPDstCount : Z }.
Record UDPFlowParams := { UDPSrcPort : Z; UDPDstPort : Z; UDPSrcCount : Z; UDPDstCount : Z }.
Record MPLSFlowParams := { MPLSLabel : Z; MPLSExp : Z; MPLSLabelCount : Z; MPLSExpCount : Z; MPLSLabelStep : Z }.
Record CustomFlowParams := { Bytes : string }.
Record SizeWeightPair := { sw_Size : Z; sw_Weight : float }.

(** The struct [Flow]; [flow] is the pointer that [CreateFlow] stores. *)
Record FlowParams := {
  TxNames : list string; RxNames : list string; TxPort : string; RxPorts : list string; FrameSize : Z; FlowName : string;
  Flowrate : float; PpsRate : Z; PacketsToSend : Z; IsTxRxPort : bool; SizeWeightProfile : option (list SizeWeightPair);
  VLANFlow : option VLANFlowParams; GREFlow : option GREFlowParams; EthFlow : option EthFlowParams;
  IPv4Flow : option IPv4FlowParams; IPv6Flow : option IPv6FlowParams; TCPFlow : option TCPFlowParams;
  UDPFlow : option UDPFlowParams; MPLSFlow : option MPLSFlowParams; CustomFlow : option CustomFlowParams;
  flow : option nat;
}.
Definition set_flow (i : nat) (f : FlowParams) : FlowParams := {|
  TxNames := TxNames f; RxNames := RxNames f; TxPort := TxPort f; RxPorts := RxPorts f; FrameSize := FrameSize f;
  FlowName := FlowName f; Flowrate := Flowrate f; PpsRate := PpsRate f; PacketsToSend := PacketsToSend f;
  IsTxRxPort := IsTxRxPort f; SizeWeightProfile := SizeWeightProfile f; VLANFlow := VLANFlow f; GREFlow := GREFlow f;
  EthFlow := EthFlow f; IPv4Flow := IPv4Flow f; IPv6Flow := IPv6Flow f; TCPFlow := TCPFlow f; UDPFlow := UDPFlow f;
  MPLSFlow := MPLSFlow f; CustomFlow := CustomFlow f; flow := Some i |}.

Definition when (b : bool) (m : otg unit) : otg unit := if b then m else mret tt.
Definition ZeroF : float := Zf 0.

Definition CreateFlow (f : FlowParams) : otg FlowParams :=
  i ← addFlow (FlowName f);
  _ ← modFlow i (set_metrics true);
  _ ← modFlow i (set_txrx (if IsTxRxPort f then PortTxRx (TxPort f) (RxPorts f) else DeviceTxRx (TxNames f) (RxNames f)));
  _ ← when (negb (FrameSize f =? 0)) (modFlow i (set_size (Fixed (FrameSize f))));
  _ ← when (negb (feq (Flowrate f) ZeroF)) (modFlow i (set_rate (Percentage (Flowrate f))));
  _ ← when (negb (PpsRate f =? 0)) (modFlow i (set_rate (Pps (PpsRate f))));
  _ ← when (negb (PacketsToSend f =? 0)) (modFlow i (set_duration (FixedPackets (PacketsToSend f))));
  _ ← match SizeWeightProfile f with
      | None => mret tt
      | Some l => forEach (fun p => modFlow i (add_weight (sw_Size p, sw_Weight p))) l
      end;
  mret (set_flow i f).

(** [if count != 0 { Increment().SetStart(v).SetCount(count) } else { SetValue(v) }] *)
Definition counted {A} (v : A) (count : Z) : pattern A := if count =? 0 then Value v else Increment v None count.
(** A field that is left alone when both numbers are zero. *)
Definition countedOpt (v count : Z) : option (pattern Z) :=
  if negb (v =? 0) || negb (count =? 0) then Some (counted v count) else None.

(** [f.flow.Packet().Add()], a nil dereference before [CreateFlow] and for missing parameters. *)
Definition addHeader {A} (f : FlowParams) (params : option A) (h : A -> Header) : otg unit :=
  match flow f, params with
  | Some i, Some p => modFlow i (add_header (h p))
  | _, _ => lift Panic
  end.

Definition AddEthHeader (f : FlowParams) : otg unit :=
  addHeader f (EthFlow f) (fun p =>
    Ethernet (Some (counted (SrcMAC p) (SrcMACCount p)))
             (if String.eqb (DstMAC p) "" then None else Some (counted (DstMAC p) (DstMACCount p)))).

Definition greProtocol (p : Z) : Z :=
  if p =? IanaMPLSEthertype then IanaMPLSEthertype
  else if p =? IanaIPv4Ethertype then IanaIPv4Ethertype
  else if p =? IanaIPv6Ethertype then IanaIPv6Ethertype
  else IanaIPv4Ethertype.
Definition AddGREHeader (f : FlowParams) : otg unit :=
  addHeader f (GREFlow f) (fun p => Gre (Value (greProtocol (gre_Protocol p)))).

Definition AddVLANHeader (f : FlowParams) : otg unit :=
  addHeader f (VLANFlow f) (fun p => Vlan (counted (VLANId p) (VLANCount p))).

Definition mplsLabel (p : MPLSFlowParams) : pattern Z :=
  if negb (MPLSLabelCount p =? 0) && negb (MPLSLabelStep p =? 0)
  then Increment (MPLSLabel p) (Some (MPLSLabelStep p)) (MPLSLabelCount p)
  else counted (MPLSLabel p) (MPLSLabelCount p).
Definition AddMPLSHeader (f : FlowParams) : otg unit :=
  addHeader f (MPLSFlow f) (fun p => Mpls (mplsLabel p) (counted (MPLSExp p) (MPLSExpCount p))).

(** The three settings of the priority, of which the last one remains. *)
Definition ipv4Priority (p : IPv4FlowParams) : option Priority :=
  let dscp := Dscp <$> countedOpt (DSCP p) (DSCPCount p) in
  let tos := TosPrecedence <$> countedOpt (TOS p) (TOSCount p) in
  let raw := RawPriority <$> countedOpt (RawPriority_ p) (RawPriorityCount p) in
  match raw, tos with Some x, _ => Some x | None, Some x => Some x | None, None => dscp end.
Definition AddIPv4Header (f : FlowParams) : otg unit :=
  addHeader f (IPv4Flow f) (fun p =>
    Ipv4 (counted (IPv4Src p) (IPv4SrcCount p)) (counted (IPv4Dst p) (IPv4DstCount p))
         (if TTL p =? 0 then None else Some (Value (TTL p))) (ipv4Priority p)).

Definition AddIPv6Header (f : FlowParams) : otg unit :=
  addHeader f (IPv6Flow f) (fun p =>
    Ipv6 (counted (IPv6Src p) (IPv6SrcCount p)) (counted (IPv6Dst p) (IPv6DstCount p))
         (if HopLimit p =? 0 then None else Some (Value (HopLimit p))) (countedOpt (TrafficClass p) (TrafficClassCount p))).

Definition AddTCPHeader (f : FlowParams) : otg unit :=
  addHeader f (TCPFlow f) (fun p =>
    Tcp (counted (TCPSrcPort p) (TCPSrcCount p)) (counted (TCPDstPort p) (TCPDstCount p))).
Definition AddUDPHeader (f : FlowParams) : otg unit :=
  addHeader f (UDPFlow f) (fun p =>
    Udp (counted (UDPSrcPort p) (UDPSrcCount p)) (counted (UDPDstPort p) (UDPDstCount p))).
Definition AddCustomHeader (f : FlowParams) : otg unit :=
  addHeader f (CustomFlow f) (fun p => Custom (Bytes p)).
Definition GetFlow (f : FlowParams) : option nat := flow f.
