(* ===== verification/PacketVal.v ===== *)
(** Validation of captured packets
    ([src/internal/otg_helpers/packetvalidationhelpers/packetvalidationhelpers.go]).

    A capture is written to a temporary file, opened as a source of packets, and a
    list of validations is run on it.  [PacketSource.Packets] of gopacket returns
    the same channel at every call, so the validations share the packets: each one
    takes packets from where the one before stopped.  A packet is what its decoder
    finds in it, layer by layer; decoding a payload is a parameter.  Addresses are
    in their text form. *)
From stdpp Require Import base list gmap strings.
From Stdlib Require Import ZArith Lia.
From S2P Require Import Prelude GoStrings OtgFlows.
Open Scope string_scope.
Open Scope Z_scope.
Open Scope list_scope.

(** * Packets *)

Inductive LayerType := LayerTypeIPv4 | LayerTypeIPv6 | LayerTypeOther (n : Z).

Record Dot1Q := { VLANIdentifier : Z }.
Record EthernetHdr := { EthernetType : Z }.
Record IPv4Hdr := { ip_Protocol : Z; ip_DstIP : string; ip_TTL : Z; ip_TOS : Z }.
Record IPv6Hdr := {
  ip6_DstIP : string; ip6_HopLimit : Z; ip6_TrafficClass : Z; ip6_FlowLabel : Z; ip6_NextHeader : Z;
}.
Record GREHdr := { gre_Payload : list Z; gre_NextLayerType : LayerType }.
Record MPLSHdr := { mpls_Label : Z; mpls_TrafficClass : Z; mpls_Payload : list Z }.
Record TCPHdr := { tcp_SrcPort : Z; tcp_DstPort : Z; tcp_Payload : list Z }.
Record UDPHdr := { udp_SrcPort : Z; udp_DstPort : Z; udp_Payload : list Z }.

(** The first layer of each type, [packet.Layer(t)]. *)
Record Packet := {
  pk_Ethernet : option EthernetHdr; pk_Dot1Q : option Dot1Q; pk_IPv4 : option IPv4Hdr; pk_IPv6 : option IPv6Hdr;
  pk_GRE : option GREHdr; pk_MPLS : option MPLSHdr; pk_TCP : option TCPHdr; pk_UDP : option UDPHdr;
}.

(** * Parameters of the validations *)

Definition MacsecEtherType : Z := 34917.
Definition ValidateVlanHeader := "ValidateVlanHeader".
Definition ValidateIPv4Header := "ValidateIPv4Header".
Definition ValidateIPv6Header := "ValidateIPv6Header".
Definition ValidateInnerIPv4Header := "ValidateInnerIPv4Header".
Definition ValidateInnerIPv6Header := "ValidateInnerIPv6Header".
Definition ValidateMPLSLayer := "ValidateMPLSLayer".
Definition ValidateTCPHeader := "ValidateTCPHeader".
Definition ValidateUDPHeader := "ValidateUDPHeader".
Definition ValidateBGPHeader := "ValidateBGPHeader".
Definition ValidateMacsecHeader := "ValidateMacsecHeader".

Record VlanLayer := { VlanID : Z }.
Record ValidationFlags := { ValidateFlowLabel : bool }.
Record IPv4Layer := { v4_Protocol : Z; v4_DstIP : string; v4_Tos : Z; v4_TTL : Z; v4_SkipProtocolCheck : bool }.
Record IPv6Layer := { v6_DstIP : string; v6_TrafficClass : Z; v6_HopLimit : Z; v6_NextHeader : Z; v6_FlowLabel : Z }.
Record GreLayer := { gl_Protocol : Z }.
Record MacsecLayer := { EtherType : Z }.
Record MPLSLayer := { Label : Z; Tc : Z; ControlWordHeader : bool; ControlWordSequence : Z }.
Record TCPLayer := { tl_SrcPort : Z; tl_DstPort : Z }.
Record UDPLayer := { ul_SrcPort : Z; ul_DstPort : Z }.
Record BGPLayer := { bgp_TYPE : Z; bgp_ErrorCode : Z; bgp_ErrorSubCode : Z }.

Record PacketValidation := {
  PortName : string; CaptureName : string; CaptureCount : Z;
  pv_Vlan : option VlanLayer; pv_IPv4 : option IPv4Layer; pv_IPv6 : option IPv6Layer; pv_Gre : option GreLayer;
  pv_MPLS : option MPLSLayer; pv_Macsec : option MacsecLayer; pv_TCP : option TCPLayer; pv_UDP : option UDPLayer;
  InnerIPLayerIPv4 : option IPv4Layer; InnerIPLayerIPv6 : option IPv6Layer; pv_BGP : option BGPLayer;
  pv_Flags : option ValidationFlags; Validations : list string;
}.

(** * The loops over the packets *)

(** What the body of [for packet := range packetSource.Packets()] does: go on, or
    return; [logged] are the failures reported with [t.Errorf]. *)
Inductive step (S : Type) :=
| Continue (s : S)
| Return (r : go unit) (logged : list string).
Arguments Continue {S} s. Arguments Return {S} r logged.

(** The result, the failures reported and the packets that remain in the channel. *)
Definition verdict : Type := go unit * list string * list Packet.

Fixpoint forPackets {S} (body : S -> Packet -> step S) (done : S -> go unit) (s : S) (l : list Packet) : verdict :=
  match l with
  | [] => (done s, [], [])
  | p :: l => match body s p with
              | Continue s => forPackets body done s l
              | Return r logged => (r, logged, l)
              end
  end.

Definition stop {S} (r : go unit) : step S := Return r [].
Definition reject {S} (msg : string) : step S := stop (Fail (errors_New msg)).
(** A check that returns an error, then the rest. *)
Definition require {S} (ok : bool) (msg : string) (rest : step S) : step S := if ok then rest else reject msg.
Definition notFound (msg : string) : unit -> go unit := fun _ => Fail (errors_New msg).
(** A parameter that is dereferenced when it is needed. *)
Definition deref {A S} (x : option A) (k : A -> step S) : step S :=
  match x with Some a => k a | None => stop Panic end.

Section Validators.
(** [gopacket.NewPacket] *)
Variable NewPacket : list Z -> LayerType -> Packet.

Definition vlanBody (pv : PacketValidation) (_ : unit) (packet : Packet) : step unit :=
  match pk_Dot1Q packet with
  | None => Continue tt
  | Some vlanHeader => deref (pv_Vlan pv) (fun w =>
      require (VLANIdentifier vlanHeader =? VlanID w) "vlan id is not set properly" (stop (Ret tt)))
  end.
Definition validateVlanHeader (pv : PacketValidation) (l : list Packet) : verdict :=
  forPackets (vlanBody pv) (notFound "no VLAN packets found") tt l.

Definition ipv4Body (w : IPv4Layer) (_ : unit) (packet : Packet) : step unit :=
  match pk_IPv4 packet with
  | None => Continue tt
  | Some ip =>
      if negb (String.eqb (v4_DstIP w) "") && negb (String.eqb (ip_DstIP ip) (v4_DstIP w)) then Continue tt
      else
        require (v4_SkipProtocolCheck w || (ip_Protocol ip =? v4_Protocol w)) "packet is not encapsulated properly"
          (require (String.eqb (v4_DstIP w) "" || String.eqb (ip_DstIP ip) (v4_DstIP w)) "IP Dst IP is not set properly"
            (require (ip_TTL ip =? v4_TTL w) "IP TTL value is altered"
              (require ((v4_Tos w =? 0) || (ip_TOS ip =? v4_Tos w)) "DSCP(TOS) value is altered" (stop (Ret tt)))))
  end.
Definition validateIPv4Header (pv : PacketValidation) (l : list Packet) : verdict :=
  match pv_IPv4 pv with
  | None => (Fail (errors_New "IPv4Layer configuration is missing"), [], l)
  | Some w => forPackets (ipv4Body w) (notFound "no IPv4 packets found") tt l
  end.

Definition flowLabelWanted (pv : PacketValidation) : bool :=
  match pv_Flags pv with Some f => ValidateFlowLabel f | None => false end.
Definition ipv6Body (pv : PacketValidation) (w : IPv6Layer) (_ : unit) (packet : Packet) : step unit :=
  match pk_IPv6 packet with
  | None => Continue tt
  | Some ip =>
      if negb (String.eqb (v6_DstIP w) "") && negb (String.eqb (ip6_DstIP ip) (v6_DstIP w)) then Continue tt
      else
        require (String.eqb (v6_DstIP w) "" || String.eqb (ip6_DstIP ip) (v6_DstIP w)) "IPv6 Dst IP is not set properly"
          (require (ip6_HopLimit ip =? v6_HopLimit w) "IPv6 HopLimit value is altered"
            (require ((v6_TrafficClass w =? 0) || (ip6_TrafficClass ip =? v6_TrafficClass w)) "traffic class value is altered"
              (require (negb (flowLabelWanted pv) || (ip6_FlowLabel ip =? v6_FlowLabel w)) "IPv6 flow label is not set properly"
                (require ((v6_NextHeader w =? 0) || (ip6_NextHeader ip =? v6_NextHeader w)) "next header value is altered"
                  (stop (Ret tt))))))
  end.
Definition validateIPv6Header (pv : PacketValidation) (l : list Packet) : verdict :=
  match pv_IPv6 pv with
  | None => (Fail (errors_New "IPv6Layer configuration is missing"), [], l)
  | Some w => forPackets (ipv6Body pv w) (notFound "no IPv6 packets found") tt l
  end.

(** The packet inside: [encapPacket] keeps its value from the packet before when
    there is no GRE layer, and is nil before the first one. *)
Definition encapsulated (viaUDP : bool) (udpType : LayerType) (encapPacket : option Packet) (packet : Packet) : go Packet :=
  if viaUDP then
    match pk_UDP packet with Some udp => Ret (NewPacket (udp_Payload udp) udpType) | None => Panic end
  else
    match pk_GRE packet with
    | Some gre => Ret (NewPacket (gre_Payload gre) (gre_NextLayerType gre))
    | None => match encapPacket with Some e => Ret e | None => Panic end
    end.

Definition innerIPv4Body (pv : PacketValidation) (w : IPv4Layer) (encapPacket : option Packet) (packet : Packet) :
    step (option Packet) :=
  deref (pv_UDP pv) (fun udpw =>
    let viaUDP := v4_Protocol w =? ul_DstPort udpw in
    match encapsulated viaUDP LayerTypeIPv4 encapPacket packet with
    | Ret encap =>
        match pk_IPv4 encap with
        | None => Continue (Some encap)
        | Some ip =>
            require (String.eqb (v4_DstIP w) "" || String.eqb (ip_DstIP ip) (v4_DstIP w)) "IP Dst IP is not set properly"
              (require (ip_TTL ip =? v4_TTL w) "IP TTL value is altered"
                (require (ip_TOS ip =? v4_Tos w) "DSCP(TOS) value is altered"
                  (require (viaUDP || (v4_Protocol w =? 0) || (ip_Protocol ip =? v4_Protocol w)) "protocol value is altered"
                    (stop (Ret tt)))))
        end
    | _ => stop Panic
    end).
Definition validateInnerIPv4Header (pv : PacketValidation) (l : list Packet) : verdict :=
  match InnerIPLayerIPv4 pv with
  | None => (Panic, [], l)
  | Some w => forPackets (innerIPv4Body pv w) (fun _ => Fail (errors_New "no inner IPv4 packets found")) None l
  end.

Definition innerIPv6Body (pv : PacketValidation) (w : IPv6Layer) (encapPacket : option Packet) (packet : Packet) :
    step (option Packet) :=
  deref (pv_UDP pv) (fun udpw =>
    let viaUDP := v6_NextHeader w =? ul_DstPort udpw in
    match encapsulated viaUDP LayerTypeIPv6 encapPacket packet with
    | Ret encap =>
        match pk_IPv6 encap with
        | None => Continue (Some encap)
        | Some ip =>
            require (String.eqb (ip6_DstIP ip) (v6_DstIP w)) "IPv6 Dst IP is not set properly"
              (require (ip6_HopLimit ip =? v6_HopLimit w) "IPv6 HopLimit value is altered"
                (require (ip6_TrafficClass ip =? v6_TrafficClass w) "traffic class value is altered"
                  (require ((v6_NextHeader w =? 0) || (ip6_NextHeader ip =? v6_NextHeader w)) "next header value is altered"
                    (stop (Ret tt)))))
        end
    | _ => stop Panic
    end).
Definition validateInnerIPv6Header (pv : PacketValidation) (l : list Packet) : verdict :=
  match InnerIPLayerIPv6 pv with
  | None => (Panic, [], l)
  | Some w => forPackets (innerIPv6Body pv w) (fun _ => Fail (errors_New "no inner IPv6 packets found")) None l
  end.

(** The control word is compared only to log it; a missing one is reported but accepted. *)
Definition mplsBody (pv : PacketValidation) (_ : unit) (packet : Packet) : step unit :=
  match pk_MPLS packet with
  | None => Continue tt
  | Some mpls => deref (pv_MPLS pv) (fun w =>
      require (mpls_Label mpls =? Label w) "mpls label is not set properly"
        (require (mpls_TrafficClass mpls =? Tc w) "mpls traffic class is not set properly"
          (Return (Ret tt)
             (if ControlWordHeader w && (Z.of_nat (length (mpls_Payload mpls)) <? 4)
              then ["Control Word header not found"] else []))))
  end.
Definition validateMPLSLayer (pv : PacketValidation) (l : list Packet) : verdict :=
  forPackets (mplsBody pv) (notFound "no MPLS packets found") tt l.

Definition tcpBody (pv : PacketValidation) (_ : unit) (packet : Packet) : step unit :=
  match pk_TCP packet with
  | None => Continue tt
  | Some tcp => deref (pv_TCP pv) (fun w =>
      require (tcp_DstPort tcp =? tl_DstPort w) "TCP Dst Port is not set properly"
        (require (tcp_SrcPort tcp =? tl_SrcPort w) "TCP Src Port is not set properly" (stop (Ret tt))))
  end.
Definition validateTCPHeader (pv : PacketValidation) (l : list Packet) : verdict :=
  forPackets (tcpBody pv) (notFound "no TCP packets found") tt l.

Definition udpBody (pv : PacketValidation) (_ : unit) (packet : Packet) : step unit :=
  match pk_UDP packet with
  | None => Continue tt
  | Some udp => deref (pv_UDP pv) (fun w =>
      require (udp_DstPort udp =? ul_DstPort w) "UDP Dst Port is not set properly"
        (require ((ul_SrcPort w =? 0) || (udp_SrcPort udp =? ul_SrcPort w)) "UDP Src Port is not set properly" (stop (Ret tt))))
  end.
Definition validateUDPHeader (pv : PacketValidation) (l : list Packet) : verdict :=
  forPackets (udpBody pv) (notFound "no UDP packets found") tt l.

Definition isAllFF (b : list Z) : bool := forallb (fun v => v =? 255) b.

(** The type, code and subcode: a packet is skipped only when all three differ. *)
Definition bgpBody (pv : PacketValidation) (_ : unit) (packet : Packet) : step unit :=
  match pk_TCP packet with
  | None => Continue tt
  | Some tcp =>
      let payload := tcp_Payload tcp in
      if (length payload <? 21)%nat then Continue tt
      else if negb (isAllFF (take 16 payload)) then Continue tt
      else deref (pv_BGP pv) (fun w =>
        let at_ i := nth i payload 0 in
        if negb (at_ 18%nat =? bgp_TYPE w) && negb (at_ 19%nat =? bgp_ErrorCode w) && negb (at_ 20%nat =? bgp_ErrorSubCode w)
        then Continue tt else stop (Ret tt))
  end.
Definition validateBGPHeader (pv : PacketValidation) (l : list Packet) : verdict :=
  forPackets (bgpBody pv) (notFound "BGP Notification not found") tt l.

Definition macsecType (pv : PacketValidation) : Z :=
  let etherType := match pv_Macsec pv with Some m => EtherType m | None => 0 end in
  if etherType =? 0 then MacsecEtherType else etherType.
Definition macsecBody (etherType : Z) (st : Z * Z) (packet : Packet) : step (Z * Z) :=
  let '(macsecCount, totalPackets) := st in
  let hit := match pk_Ethernet packet with Some eth => EthernetType eth =? etherType | None => false end in
  Continue (macsecCount + (if hit then 1 else 0), totalPackets + 1).
Definition macsecDone (st : Z * Z) : go unit :=
  let '(macsecCount, totalPackets) := st in
  if totalPackets =? 0 then Fail (errors_New "no packets captured, want at least 1 MACsec-encrypted packet")
  else if macsecCount =? 0 then Fail (errors_New "no MACsec-encrypted packets detected")
  else Ret tt.
Definition validateMacsecHeader (pv : PacketValidation) (l : list Packet) : verdict :=
  forPackets (macsecBody (macsecType pv)) macsecDone (0, 0) l.

(** ** CaptureAndValidatePackets *)

Definition runValidation (pv : PacketValidation) (validation : string) (l : list Packet) : verdict :=
  if String.eqb validation ValidateVlanHeader then validateVlanHeader pv l
  else if String.eqb validation ValidateIPv4Header then validateIPv4Header pv l
  else if String.eqb validation ValidateInnerIPv4Header then validateInnerIPv4Header pv l
  else if String.eqb validation ValidateIPv6Header then validateIPv6Header pv l
  else if String.eqb validation ValidateInnerIPv6Header then validateInnerIPv6Header pv l
  else if String.eqb validation ValidateMPLSLayer then validateMPLSLayer pv l
  else if String.eqb validation ValidateTCPHeader then validateTCPHeader pv l
  else if String.eqb validation ValidateUDPHeader then validateUDPHeader pv l
  else if String.eqb validation ValidateBGPHeader then validateBGPHeader pv l
  else if String.eqb validation ValidateMacsecHeader then validateMacsecHeader pv l
  else (Fail (errors_New ("unknown validation type: " +:+ validation)), [], l).

Fixpoint runValidations (pv : PacketValidation) (validations : list string) (l : list Packet) : verdict :=
  match validations with
  | [] => (Ret tt, [], l)
  | v :: vs =>
      match runValidation pv v l with
      | (Ret _, e1, rest) => let '(r, e2, rest) := runValidations pv vs rest in (r, e1 ++ e2, rest)
      | failed => failed
      end
  end.

(** The temporary file, its content and what [pcap.OpenOffline] reads in it. *)
Record CaptureFile := { createTemp : go string; writeBytes : go unit; openOffline : go (list Packet) }.

(** The temporary files that exist, the failures reported, and the source that
    [SourceObj] returns. *)
Record World := { w_temp : list string; w_errors : list string; w_source : option (list Packet) }.
Definition set_temp (l : list string) (w : World) : World :=
  {| w_temp := l; w_errors := w_errors w; w_source := w_source w |}.
Definition SourceObj (w : World) : option (list Packet) := w_source w.

Definition wrapErr {A} (msg : string) (e : error) : go A := Fail (errors_New (msg +:+ err_msg e)).

Definition CaptureAndValidatePackets (f : CaptureFile) (pv : PacketValidation) : gost World unit := fun w =>
  match createTemp f with
  | Fail e => (wrapErr "could not create temporary pcap file: " e, w)
  | Ret name =>
      match writeBytes f with
      | Fail e => (wrapErr "could not write bytes to pcap file: " e, set_temp (name :: w_temp w) w)
      | Ret _ =>
          match openOffline f with
          | Ret packets =>
              let '(r, errs, rest) := runValidations pv (Validations pv) packets in
              (r, {| w_temp := w_temp w; w_errors := w_errors w ++ errs; w_source := Some rest |})
          | _ => (Panic, w)
          end
      | _ => (Panic, set_temp (name :: w_temp w) w)
      end
  | _ => (Panic, w)
  end.
End Validators.

(** * Captures on the traffic generator *)

Inductive CaptureState := START | STOP.

(** What the traffic generator is told: control states and configurations. *)
Inductive otgAction := SetControlState (s : CaptureState) | PushConfig (c : Config) | StartProtocols | StartTraffic | StopTraffic.
Definition StartCapture (tr : list otgAction) : list otgAction := tr ++ [SetControlState START].
Definition StopCapture (tr : list otgAction) : list otgAction := tr ++ [SetControlState STOP].
Definition ClearCapture (top : Config) (tr : list otgAction) : Config * list otgAction :=
  let top := set_captures [] top in (top, tr ++ [PushConfig top]).
Definition ConfigurePacketCapture (pv : PacketValidation) (top : Config) : Config :=
  set_captures (cfg_captures top ++ [{| cap_name := CaptureName pv; cap_ports := [PortName pv]; cap_format := "pcap" |}]) top.

(** * What a validation accepts *)

Section Spec.
Variable NewPacket : list Z -> LayerType -> Packet.
Implicit Types (pv : PacketValidation) (p : Packet).

(** [want] is a text or number that is not checked when it is empty or zero. *)
Definition text_ok (want got : string) : Prop := want = "" \/ got = want.
Definition num_ok (want got : Z) : Prop := want = 0 \/ got = want.

Definition vlan_conforms pv p : Prop := exists h w, pk_Dot1Q p = Some h /\ pv_Vlan pv = Some w /\ VLANIdentifier h = VlanID w.
Definition ipv4_conforms (w : IPv4Layer) (ip : IPv4Hdr) : Prop :=
  (v4_SkipProtocolCheck w = true \/ ip_Protocol ip = v4_Protocol w) /\ text_ok (v4_DstIP w) (ip_DstIP ip) /\
  ip_TTL ip = v4_TTL w /\ num_ok (v4_Tos w) (ip_TOS ip).
Definition ipv6_conforms pv (w : IPv6Layer) (ip : IPv6Hdr) : Prop :=
  text_ok (v6_DstIP w) (ip6_DstIP ip) /\ ip6_HopLimit ip = v6_HopLimit w /\
  num_ok (v6_TrafficClass w) (ip6_TrafficClass ip) /\
  (flowLabelWanted pv = false \/ ip6_FlowLabel ip = v6_FlowLabel w) /\ num_ok (v6_NextHeader w) (ip6_NextHeader ip).
Definition mpls_conforms pv p : Prop :=
  exists h w, pk_MPLS p = Some h /\ pv_MPLS pv = Some w /\ mpls_Label h = Label w /\ mpls_TrafficClass h = Tc w.
Definition tcp_conforms pv p : Prop :=
  exists h w, pk_TCP p = Some h /\ pv_TCP pv = Some w /\ tcp_DstPort h = tl_DstPort w /\ tcp_SrcPort h = tl_SrcPort w.
Definition udp_conforms pv p : Prop :=
  exists h w, pk_UDP p = Some h /\ pv_UDP pv = Some w /\ udp_DstPort h = ul_DstPort w /\ num_ok (ul_SrcPort w) (udp_SrcPort h).

(** A BGP message that agrees in at least one of type, code and subcode. *)
Definition bgp_message p : option (list Z) :=
  match pk_TCP p with
  | Some h => if (21 <=? length (tcp_Payload h))%nat && isAllFF (take 16 (tcp_Payload h)) then Some (tcp_Payload h) else None
  | None => None
  end.
Definition bgp_similar (w : BGPLayer) (b : list Z) : bool :=
  (nth 18 b 0 =? bgp_TYPE w) || (nth 19 b 0 =? bgp_ErrorCode w) || (nth 20 b 0 =? bgp_ErrorSubCode w).

(** The packets that a validation without memory judges: the first one of them decides. *)
Definition concerns pv (v : string) p : bool :=
  if String.eqb v ValidateVlanHeader then bool_decide (is_Some (pk_Dot1Q p))
  else if String.eqb v ValidateIPv4Header then
    match pv_IPv4 pv, pk_IPv4 p with Some w, Some ip => bool_decide (text_ok (v4_DstIP w) (ip_DstIP ip)) | _, _ => false end
  else if String.eqb v ValidateIPv6Header then
    match pv_IPv6 pv, pk_IPv6 p with Some w, Some ip => bool_decide (text_ok (v6_DstIP w) (ip6_DstIP ip)) | _, _ => false end
  else if String.eqb v ValidateMPLSLayer then bool_decide (is_Some (pk_MPLS p))
  else if String.eqb v ValidateTCPHeader then bool_decide (is_Some (pk_TCP p))
  else if String.eqb v ValidateUDPHeader then bool_decide (is_Some (pk_UDP p))
  else if String.eqb v ValidateBGPHeader then
    match bgp_message p, pv_BGP pv with Some b, Some w => bgp_similar w b | Some _, None => true | None, _ => false end
  else false.
Definition conforms pv (v : string) p : Prop :=
  if String.eqb v ValidateVlanHeader then vlan_conforms pv p
  else if String.eqb v ValidateIPv4Header then exists w ip, pv_IPv4 pv = Some w /\ pk_IPv4 p = Some ip /\ ipv4_conforms w ip
  else if String.eqb v ValidateIPv6Header then exists w ip, pv_IPv6 pv = Some w /\ pk_IPv6 p = Some ip /\ ipv6_conforms pv w ip
  else if String.eqb v ValidateMPLSLayer then mpls_conforms pv p
  else if String.eqb v ValidateTCPHeader then tcp_conforms pv p
  else if String.eqb v ValidateUDPHeader then udp_conforms pv p
  else if String.eqb v ValidateBGPHeader then is_Some (pv_BGP pv)
  else False.

(** The packet inside the UDP or GRE payload, and what the inner validations ask of it. *)
Definition innerOf (viaUDP : bool) (udpType : LayerType) p : option Packet :=
  if viaUDP then (fun u => NewPacket (udp_Payload u) udpType) <$> pk_UDP p
  else (fun g => NewPacket (gre_Payload g) (gre_NextLayerType g)) <$> pk_GRE p.
Definition inner_passes {H} (viaUDP : bool) (udpType : LayerType) (header : Packet -> option H) (ok : H -> Prop)
    (l rest : list Packet) : Prop :=
  exists pre p e h, l = pre ++ p :: rest /\ Forall (fun q => (innerOf viaUDP udpType q ≫= header) = None) pre /\
    (if viaUDP then Forall (fun q => is_Some (innerOf viaUDP udpType q)) pre
     else forall q, head l = Some q -> is_Some (innerOf viaUDP udpType q)) /\
    innerOf viaUDP udpType p = Some e /\ header e = Some h /\ ok h.
Definition inner4_conforms (viaUDP : bool) (w : IPv4Layer) (ip : IPv4Hdr) : Prop :=
  text_ok (v4_DstIP w) (ip_DstIP ip) /\ ip_TTL ip = v4_TTL w /\ ip_TOS ip = v4_Tos w /\
  (viaUDP = false -> num_ok (v4_Protocol w) (ip_Protocol ip)).
Definition inner6_conforms (w : IPv6Layer) (ip : IPv6Hdr) : Prop :=
  ip6_DstIP ip = v6_DstIP w /\ ip6_HopLimit ip = v6_HopLimit w /\ ip6_TrafficClass ip = v6_TrafficClass w /\
  num_ok (v6_NextHeader w) (ip6_NextHeader ip).

(** [passes pv v l rest]: validation [v] accepts the packets [l] and leaves [rest]. *)
Definition passes pv (v : string) (l rest : list Packet) : Prop :=
  if String.eqb v ValidateInnerIPv4Header then exists w u, InnerIPLayerIPv4 pv = Some w /\ pv_UDP pv = Some u /\
    let viaUDP := v4_Protocol w =? ul_DstPort u in inner_passes viaUDP LayerTypeIPv4 pk_IPv4 (inner4_conforms viaUDP w) l rest
  else if String.eqb v ValidateInnerIPv6Header then exists w u, InnerIPLayerIPv6 pv = Some w /\ pv_UDP pv = Some u /\
    inner_passes (v6_NextHeader w =? ul_DstPort u) LayerTypeIPv6 pk_IPv6 (inner6_conforms w) l rest
  else if String.eqb v ValidateMacsecHeader then
    rest = [] /\ exists p h, p ∈ l /\ pk_Ethernet p = Some h /\ EthernetType h = macsecType pv
  else exists pre p, l = pre ++ p :: rest /\ Forall (fun q => concerns pv v q = false) pre /\
    concerns pv v p = true /\ conforms pv v p.

(** Every validation accepts what the ones before it left. *)
Fixpoint accepts pv (vs : list string) (l : list Packet) : Prop :=
  match vs with
  | [] => True
  | v :: vs => exists rest, passes pv v l rest /\ accepts pv vs rest
  end.
End Spec.

(** * Proofs *)

(** Bodies that return, and bodies that accept. *)
Definition is_return {S} (s : step S) : Prop := match s with Return _ _ => True | Continue _ => False end.
Definition accepted {S} (s : step S) : Prop := match s with Return (Ret _) _ => True | _ => False end.

Lemma is_return_require {S} b msg (k : step S) : is_return k -> is_return (require b msg k).
Proof. by destruct b. Qed.
Lemma is_return_deref {A S} (x : option A) (k : A -> step S) : (forall a, is_return (k a)) -> is_return (deref x k).
Proof. intros H. destruct x; [apply H|exact I]. Qed.
Lemma accepted_require {S} b msg (k : step S) : accepted (require b msg k) <-> b = true /\ accepted k.
Proof. destruct b; simpl; naive_solver. Qed.
Lemma accepted_deref {A S} (x : option A) (k : A -> step S) : accepted (deref x k) <-> exists a, x = Some a /\ accepted (k a).
Proof. destruct x; simpl; naive_solver. Qed.
Lemma is_return_stop {S} r : is_return (S := S) (stop r).
Proof. done. Qed.
Lemma is_return_Return {S} r e : is_return (S := S) (Return r e).
Proof. done. Qed.
Lemma accepted_Return {S} e : accepted (S := S) (Return (Ret tt) e) <-> True.
Proof. done. Qed.
Lemma accepted_stop {S} : accepted (S := S) (stop (Ret tt)) <-> True.
Proof. done. Qed.

Create HintDb step.
Create Rewrite HintDb step_iff.
#[export] Hint Resolve is_return_require is_return_deref is_return_stop is_return_Return : step.
#[export] Hint Rewrite @accepted_require @accepted_deref @accepted_stop @accepted_Return : step_iff.

#[export] Hint Rewrite Z.eqb_eq String.eqb_eq orb_true_iff negb_true_iff : step_iff.

Ltac steps := unfold num_ok, text_ok; autorewrite with step_iff.

(** A loop without memory is decided by the first packet that its body does not skip. *)
Lemma scan_spec body (c : Packet -> bool) (ok : Packet -> Prop) msg :
  (forall p, c p = false -> body tt p = Continue tt) ->
  (forall p, c p = true -> is_return (body tt p) /\ (accepted (body tt p) <-> ok p)) ->
  forall l rest, (exists e, forPackets body (notFound msg) tt l = (Ret tt, e, rest)) <->
    exists pre p, l = pre ++ p :: rest /\ Forall (fun q => c q = false) pre /\ c p = true /\ ok p.
Proof.
  intros Hskip Hjudge l. induction l as [|p l IH]; intros rest; cbn [forPackets].
  { split; [intros [e H]; discriminate H|]. intros (pre & p & H & _). by destruct pre. }
  destruct (c p) eqn:Ec.
  - destruct (Hjudge p Ec) as [Hret Hok]. destruct (body tt p) as [|r e] eqn:Eb; [done|]. split.
    + intros [e' [= -> <- <-]]. exists [], p. split_and!; [done|constructor|done|by apply Hok].
    + intros (pre & q & Hl & Hpre & Hq & Hoq). destruct pre as [|x pre].
      * injection Hl as <- <-. apply Hok in Hoq. destruct r as [[]|err| |]; try done. by exists e.
      * injection Hl as <- ->. apply Forall_cons in Hpre as [Hx _]. congruence.
  - rewrite (Hskip p Ec), IH. split; intros (pre & q & Hl & Hpre & H).
    + exists (p :: pre), q. subst l. by rewrite Forall_cons.
    + destruct pre as [|x pre]; [injection Hl as <- <-; destruct H; congruence|].
      injection Hl as <- ->. exists pre, q. apply Forall_cons in Hpre. tauto.
Qed.

Section Correct.
Variable NewPacket : list Z -> LayerType -> Packet.
Implicit Types (pv : PacketValidation) (p : Packet) (l rest : list Packet).


(** The packet that decides, with the packets before it that do not. *)
Abbreviation first_of c ok l rest :=
  (exists pre p, l = pre ++ p :: rest /\ Forall (fun q => c q = false) pre /\ c p = true /\ ok p).

(** A body that judges the packets with a layer [get]. *)
Lemma layer_spec {H} (get : Packet -> option H) body ok msg :
  (forall p, get p = None -> body tt p = Continue tt) ->
  (forall p h, get p = Some h -> is_return (body tt p) /\ (accepted (body tt p) <-> ok p)) ->
  forall l rest, (exists e, forPackets body (notFound msg) tt l = (Ret tt, e, rest)) <->
    first_of (fun p => bool_decide (is_Some (get p))) ok l rest.
Proof.
  intros Hnone Hsome. apply scan_spec; intros p; destruct (get p) as [h|] eqn:E.
  - rewrite bool_decide_true by eauto. done.
  - intros _. by apply Hnone.
  - intros _. by apply (Hsome p h).
  - by rewrite bool_decide_false by apply is_Some_None.
Qed.

(** Split a parameter that is dereferenced. *)
Ltac split_deref := try match goal with |- context [deref ?x _] => destruct x eqn:? end; cbn [deref].
Ltac judge := split; [auto with step|split_deref; [steps; naive_solver|split; [done|naive_solver]]].
Ltac by_layer := intros p h E; rewrite ?E; judge.

Lemma vlan_correct pv l rest :
  (exists e, validateVlanHeader pv l = (Ret tt, e, rest)) <-> passes NewPacket pv ValidateVlanHeader l rest.
Proof.
  apply (layer_spec pk_Dot1Q (vlanBody pv) (vlan_conforms pv)); unfold vlanBody, vlan_conforms; [by intros p ->|].
  by_layer.
Qed.

Lemma mpls_correct pv l rest :
  (exists e, validateMPLSLayer pv l = (Ret tt, e, rest)) <-> passes NewPacket pv ValidateMPLSLayer l rest.
Proof.
  apply (layer_spec pk_MPLS (mplsBody pv) (mpls_conforms pv)); unfold mplsBody, mpls_conforms; [by intros p ->|].
  by_layer.
Qed.
Lemma tcp_correct pv l rest :
  (exists e, validateTCPHeader pv l = (Ret tt, e, rest)) <-> passes NewPacket pv ValidateTCPHeader l rest.
Proof.
  apply (layer_spec pk_TCP (tcpBody pv) (tcp_conforms pv)); unfold tcpBody, tcp_conforms; [by intros p ->|]. by_layer.
Qed.
Lemma udp_correct pv l rest :
  (exists e, validateUDPHeader pv l = (Ret tt, e, rest)) <-> passes NewPacket pv ValidateUDPHeader l rest.
Proof.
  apply (layer_spec pk_UDP (udpBody pv) (udp_conforms pv)); unfold udpBody, udp_conforms; [by intros p ->|]. by_layer.
Qed.

(** The packets whose destination is not the wanted one are skipped. *)
Lemma text_ok_skip w g : bool_decide (text_ok w g) = negb (negb (String.eqb w "") && negb (String.eqb g w)).
Proof.
  rewrite negb_andb, !negb_involutive. apply eq_true_iff_eq. rewrite bool_decide_eq_true, orb_true_iff, !String.eqb_eq. done.
Qed.

Lemma ipv4_correct pv l rest :
  (exists e, validateIPv4Header pv l = (Ret tt, e, rest)) <-> passes NewPacket pv ValidateIPv4Header l rest.
Proof.
  unfold validateIPv4Header. destruct (pv_IPv4 pv) as [w|] eqn:Ew.
  2:{ split; [intros [e H]; discriminate H|]. intros (pre & p & _ & _ & Hc & _). cbn in Hc. by rewrite Ew in Hc. }
  apply scan_spec; intros p; cbn; rewrite Ew; unfold ipv4Body; destruct (pk_IPv4 p) as [ip|] eqn:E; try done;
    rewrite text_ok_skip.
  - intros H%negb_false_iff. by rewrite H.
  - intros H%negb_true_iff. rewrite H. split; [auto with step|]. unfold ipv4_conforms. steps. naive_solver.
Qed.
Lemma ipv6_correct pv l rest :
  (exists e, validateIPv6Header pv l = (Ret tt, e, rest)) <-> passes NewPacket pv ValidateIPv6Header l rest.
Proof.
  unfold validateIPv6Header. destruct (pv_IPv6 pv) as [w|] eqn:Ew.
  2:{ split; [intros [e H]; discriminate H|]. intros (pre & p & _ & _ & Hc & _). cbn in Hc. by rewrite Ew in Hc. }
  apply scan_spec; intros p; cbn; rewrite Ew; unfold ipv6Body; destruct (pk_IPv6 p) as [ip|] eqn:E; try done;
    rewrite text_ok_skip.
  - intros H%negb_false_iff. by rewrite H.
  - intros H%negb_true_iff. rewrite H. split; [auto 10 with step|]. unfold ipv6_conforms. steps. naive_solver.
Qed.

Lemma bgp_correct pv l rest :
  (exists e, validateBGPHeader pv l = (Ret tt, e, rest)) <-> passes NewPacket pv ValidateBGPHeader l rest.
Proof.
  apply scan_spec; intros p; cbn; unfold bgpBody, bgp_message; destruct (pk_TCP p) as [h|]; try done;
    rewrite Nat.leb_antisym; destruct (length (tcp_Payload h) <? 21)%nat; try done; cbn [negb andb];
    destruct (isAllFF (take 16 (tcp_Payload h))); try done; cbn [negb]; destruct (pv_BGP pv) as [w|]; try done;
    unfold bgp_similar; cbn [deref]; rewrite <- !negb_orb.
  - intros ->. done.
  - intros ->. cbn. split; [done|]. split; [by eexists|done].
Qed.

(** ** Inner headers *)

Section Inner.
Context {H : Type} (viaUDP : bool) (udpType : LayerType) (header : Packet -> option H) (check : H -> step (option Packet)).
Variable ok : H -> Prop.
Hypothesis check_returns : forall h, is_return (check h).
Hypothesis check_ok : forall h, accepted (check h) <-> ok h.

Definition innerBody (encapPacket : option Packet) (packet : Packet) : step (option Packet) :=
  match encapsulated NewPacket viaUDP udpType encapPacket packet with
  | Ret encap => match header encap with None => Continue (Some encap) | Some h => check h end
  | _ => stop Panic
  end.

(** Where the loop stands: the packet it keeps has no header of the type. *)
Definition kept (st : option Packet) : Prop := forall e, st = Some e -> header e = None.
(** Without a packet kept, the next one must have a payload; over UDP every one must. *)
Definition armed (st : option Packet) (l pre : list Packet) : Prop :=
  if viaUDP then Forall (fun q => is_Some (innerOf NewPacket viaUDP udpType q)) pre
  else st = None -> forall q, head l = Some q -> is_Some (innerOf NewPacket viaUDP udpType q).

Lemma encapsulated_spec st p :
  encapsulated NewPacket viaUDP udpType st p =
  match innerOf NewPacket viaUDP udpType p, st with
  | Some e, _ => Ret e
  | None, Some e => if viaUDP then Panic else Ret e
  | None, None => Panic
  end.
Proof. unfold encapsulated, innerOf. destruct viaUDP; [destruct (pk_UDP p)|destruct (pk_GRE p)]; by destruct st. Qed.

Abbreviation inner := (innerOf NewPacket viaUDP udpType).

(** The packet that decides, and the packets before it, from the state [st]. *)
Definition decided (st : option Packet) (l rest : list Packet) : Prop :=
  exists pre p e h, l = pre ++ p :: rest /\ Forall (fun q => (inner q ≫= header) = None) pre /\
    armed st l pre /\ inner p = Some e /\ header e = Some h /\ ok h.

Lemma decided_here st p l rest e h :
  inner p = Some e -> header e = Some h -> decided st (p :: l) rest <-> rest = l /\ ok h.
Proof.
  intros Ei Eh. split.
  - intros (pre & p0 & e0 & h0 & Hl & Hpre & _ & Hp0 & Hh0 & Hok). destruct pre as [|x pre].
    + injection Hl as <- <-. split; [done|]. congruence.
    + injection Hl as <- ->. apply Forall_cons in Hpre as [Hx _]. rewrite Ei in Hx. simpl in Hx. congruence.
  - intros [-> Hok]. exists [], p, e, h. split_and!; [done|constructor| |done..].
    unfold armed. destruct viaUDP; [constructor|intros _ q [= <-]; by rewrite Ei].
Qed.

Lemma decided_skip st p l rest e :
  inner p = Some e \/ (inner p = None /\ viaUDP = false /\ st = Some e) -> header e = None ->
  decided (Some e) l rest <-> decided st (p :: l) rest.
Proof.
  intros He Hh. unfold decided, armed. split.
  - intros (pre & p0 & e0 & h & -> & Hpre & Har & Hrest). exists (p :: pre), p0, e0, h. rewrite Forall_cons.
    split_and!; [done|destruct He as [->|[-> _]]; done|done| |tauto..].
    destruct viaUDP; [|destruct He as [He|(_ & _ & ->)]; [intros _ q [= <-]; by rewrite He|done]].
    destruct He as [He|(_ & [=] & _)]. rewrite Forall_cons. split; [by rewrite He|done].
  - intros (pre & p0 & e0 & h & Hl & Hpre & Har & Hp0 & Hh0 & Hok). destruct pre as [|x pre].
    { injection Hl as <- <-. destruct He as [He|(He & _)]; congruence. }
    injection Hl as <- ->. apply Forall_cons in Hpre as [_ Hpre]. exists pre, p0, e0, h.
    split_and!; [done|done| |done..]. destruct viaUDP; [by apply Forall_cons in Har as [_ Har]|done].
Qed.

Lemma decided_stuck st p l rest : inner p = None -> st = None \/ viaUDP = true -> ~ decided st (p :: l) rest.
Proof.
  intros Ei Hs (pre & p0 & e0 & h & Hl & _ & Har & Hp0 & _).
  destruct pre as [|x pre]; [injection Hl as <- <-; congruence|]. injection Hl as <- ->. unfold armed in Har. destruct viaUDP.
  - apply Forall_cons in Har as [[? Hx] _]. congruence.
  - destruct Hs as [->|[=]]. destruct (Har eq_refl p eq_refl). congruence.
Qed.

Lemma inner_loop msg l : forall st rest, kept st ->
  (exists e, forPackets innerBody (fun _ => Fail (errors_New msg)) st l = (Ret tt, e, rest)) <-> decided st l rest.
Proof.
  induction l as [|p l IH]; intros st rest Hst; cbn [forPackets].
  { split; [intros [e He]; discriminate He|]. intros (pre & p & e & h & Hl & _). by destruct pre. }
  unfold innerBody at 1. rewrite encapsulated_spec. destruct (inner p) as [e|] eqn:Ei.
  - destruct (header e) as [h|] eqn:Eh.
    2:{ rewrite IH by (intros e' [= <-]; done). apply decided_skip; [by left|done]. }
    rewrite (decided_here st p l rest e h Ei Eh), <- check_ok. pose proof (check_returns h) as Hr.
    destruct (check h) as [|r e1]; [done|]. destruct r as [[]|err| |]; naive_solver.
  - destruct st as [e|]; [destruct (sumbool_of_bool viaUDP) as [Ev|Ev]; rewrite Ev|].
    2:{ rewrite (Hst e eq_refl), IH by (intros e' [= <-]; by apply Hst). apply decided_skip; [by right|by apply Hst]. }
    all: split; [intros [e' He']; discriminate He'|]; intros Hd; exfalso; apply (decided_stuck _ _ _ _ Ei) in Hd; auto.
Qed.

Lemma decided_passes l rest : decided None l rest <-> inner_passes NewPacket viaUDP udpType header ok l rest.
Proof.
  unfold decided, inner_passes, armed.
  split; intros (pre & p & e & h & Hl & Hpre & Har & Hrest); exists pre, p, e, h; (split_and!; [done|done| |tauto..]);
    destruct viaUDP; auto.
Qed.
End Inner.

Lemma inner4_correct pv l rest :
  (exists e, validateInnerIPv4Header NewPacket pv l = (Ret tt, e, rest)) <-> passes NewPacket pv ValidateInnerIPv4Header l rest.
Proof.
  unfold validateInnerIPv4Header. destruct (InnerIPLayerIPv4 pv) as [w|] eqn:Ew.
  2:{ split; [intros [e H]; discriminate H|]. intros (w & u & H & _). congruence. }
  destruct (pv_UDP pv) as [u|] eqn:Eu.
  2:{ split; [|intros (w' & u & _ & H & _); congruence]. intros [e H]. destruct l; [discriminate H|].
      cbn in H. unfold innerIPv4Body in H. by rewrite Eu in H. }
  transitivity (decided (v4_Protocol w =? ul_DstPort u) LayerTypeIPv4 pk_IPv4
    (inner4_conforms (v4_Protocol w =? ul_DstPort u) w) None l rest).
  - etransitivity; [|apply (inner_loop _ _ _ (fun ip =>
      require (String.eqb (v4_DstIP w) "" || String.eqb (ip_DstIP ip) (v4_DstIP w)) "IP Dst IP is not set properly"
        (require (ip_TTL ip =? v4_TTL w) "IP TTL value is altered"
          (require (ip_TOS ip =? v4_Tos w) "DSCP(TOS) value is altered"
            (require ((v4_Protocol w =? ul_DstPort u) || (v4_Protocol w =? 0) || (ip_Protocol ip =? v4_Protocol w))
              "protocol value is altered" (stop (Ret tt))))))); [auto with step| |done]].
    + unfold innerIPv4Body. rewrite Eu. reflexivity.
    + intros ip. unfold inner4_conforms. destruct (v4_Protocol w =? ul_DstPort u); steps; naive_solver.
  - rewrite decided_passes. split; [intros H; exists w, u; done|].
    intros (w' & u' & [= <-]%(eq_trans (eq_sym Ew)) & [= <-]%(eq_trans (eq_sym Eu)) & H). exact H.
Qed.

Lemma inner6_correct pv l rest :
  (exists e, validateInnerIPv6Header NewPacket pv l = (Ret tt, e, rest)) <-> passes NewPacket pv ValidateInnerIPv6Header l rest.
Proof.
  unfold validateInnerIPv6Header. destruct (InnerIPLayerIPv6 pv) as [w|] eqn:Ew.
  2:{ split; [intros [e H]; discriminate H|]. intros (w & u & H & _). congruence. }
  destruct (pv_UDP pv) as [u|] eqn:Eu.
  2:{ split; [|intros (w' & u & _ & H & _); congruence]. intros [e H]. destruct l; [discriminate H|].
      cbn in H. unfold innerIPv6Body in H. by rewrite Eu in H. }
  transitivity (decided (v6_NextHeader w =? ul_DstPort u) LayerTypeIPv6 pk_IPv6 (inner6_conforms w) None l rest).
  - etransitivity; [|apply (inner_loop _ _ _ (fun ip =>
      require (String.eqb (ip6_DstIP ip) (v6_DstIP w)) "IPv6 Dst IP is not set properly"
        (require (ip6_HopLimit ip =? v6_HopLimit w) "IPv6 HopLimit value is altered"
          (require (ip6_TrafficClass ip =? v6_TrafficClass w) "traffic class value is altered"
            (require ((v6_NextHeader w =? 0) || (ip6_NextHeader ip =? v6_NextHeader w)) "next header value is altered"
              (stop (Ret tt))))))); [auto with step| |done]].
    + unfold innerIPv6Body. rewrite Eu. reflexivity.
    + intros ip. unfold inner6_conforms. steps. naive_solver.
  - rewrite decided_passes. split; [intros H; exists w, u; done|].
    intros (w' & u' & [= <-]%(eq_trans (eq_sym Ew)) & [= <-]%(eq_trans (eq_sym Eu)) & H). exact H.
Qed.

(** The count of the MACsec loop: how many frames have the type, and how many there are. *)
Definition is_macsec (t : Z) p : bool := match pk_Ethernet p with Some eth => EthernetType eth =? t | None => false end.
Lemma macsec_loop t l : forall c n,
  forPackets (macsecBody t) macsecDone (c, n) l =
  (macsecDone (c + Z.of_nat (length (filter (fun p => is_macsec t p = true) l)), n + Z.of_nat (length l)), [], []).
Proof.
  induction l as [|p l IH]; intros c n; cbn [forPackets macsecBody]; [by rewrite !Z.add_0_r|].
  fold (is_macsec t p). rewrite IH, filter_cons. destruct (is_macsec t p);
    [rewrite decide_True by done|rewrite decide_False by done]; cbn [length]; do 4 f_equal; lia.
Qed.
Lemma macsec_correct pv l rest :
  (exists e, validateMacsecHeader pv l = (Ret tt, e, rest)) <-> passes NewPacket pv ValidateMacsecHeader l rest.
Proof.
  unfold validateMacsecHeader. rewrite macsec_loop. cbn [Z.add].
  set (hits := filter (fun p => is_macsec (macsecType pv) p = true) l).
  assert (hits <> [] <-> exists p h, p ∈ l /\ pk_Ethernet p = Some h /\ EthernetType h = macsecType pv) as Hhits.
  { transitivity (exists p, p ∈ hits).
    - destruct hits as [|p]; split; [done|by intros [? ?%elem_of_nil]|intros _; exists p; by left|done].
    - unfold hits. setoid_rewrite list_elem_of_filter. unfold is_macsec. split.
      + intros (p & H & Hp). destruct (pk_Ethernet p) as [h|] eqn:E; [|done]. apply Z.eqb_eq in H. eauto.
      + intros (p & h & Hp & E & H). exists p. rewrite E, H, Z.eqb_refl. done. }
  assert (length hits <= length l)%nat as Hlen by apply length_filter.
  change (passes NewPacket pv ValidateMacsecHeader l rest) with
    (rest = [] /\ exists p h, p ∈ l /\ pk_Ethernet p = Some h /\ EthernetType h = macsecType pv).
  rewrite <- Hhits. unfold macsecDone. rewrite !Z.add_0_l. destruct hits as [|x hits]; cbn [length] in *.
  - destruct (Z.of_nat (length l) =? 0); split; try (intros [e H]; discriminate H); naive_solver.
  - destruct (Z.eqb_spec (Z.of_nat (length l)) 0); [lia|]. destruct (Z.eqb_spec (Z.of_nat (S (length hits))) 0); [lia|].
    naive_solver.
Qed.

(** ** All validations *)

Definition knownValidations : list string :=
  [ValidateVlanHeader; ValidateIPv4Header; ValidateInnerIPv4Header; ValidateIPv6Header; ValidateInnerIPv6Header;
   ValidateMPLSLayer; ValidateTCPHeader; ValidateUDPHeader; ValidateBGPHeader; ValidateMacsecHeader].

Lemma runValidation_correct pv v l rest :
  (exists e, runValidation NewPacket pv v l = (Ret tt, e, rest)) <-> passes NewPacket pv v l rest.
Proof.
  destruct (decide (v ∈ knownValidations)) as [Hv|Hv].
  - unfold knownValidations in Hv. rewrite !elem_of_cons in Hv.
    destruct Hv as [->|[->|[->|[->|[->|[->|[->|[->|[->|[->|Hv]]]]]]]]]]; [..|by apply elem_of_nil in Hv].
    + apply vlan_correct. + apply ipv4_correct. + apply inner4_correct. + apply ipv6_correct. + apply inner6_correct.
    + apply mpls_correct. + apply tcp_correct. + apply udp_correct. + apply bgp_correct. + apply macsec_correct.
  - unfold knownValidations in Hv. rewrite !not_elem_of_cons in Hv. destruct_and! Hv.
    unfold runValidation, passes, conforms.
    repeat match goal with H : v <> ?c |- context [String.eqb v ?c] => rewrite (proj2 (String.eqb_neq v c) H) end.
    split; [intros [e He]; discriminate He|]. intros (pre & p & _ & _ & _ & []).
Qed.

Lemma runValidations_correct pv vs : forall l,
  (exists e rest, runValidations NewPacket pv vs l = (Ret tt, e, rest)) <-> accepts NewPacket pv vs l.
Proof.
  induction vs as [|v vs IH]; intros l; cbn [runValidations accepts]; [naive_solver|].
  setoid_rewrite <- runValidation_correct. setoid_rewrite <- IH.
  destruct (runValidation NewPacket pv v l) as [[r e1] rest]. destruct r as [[]|err| |]; [|naive_solver..].
  destruct (runValidations NewPacket pv vs rest) as [[r e2] rest2] eqn:E. split.
  - intros (e & rest' & [= -> _ <-]). exists rest. split; [eauto|]. rewrite E. eauto.
  - intros (rest' & (e & He) & e' & rest'' & Hr). injection He as _ <-. rewrite E in Hr. injection Hr as -> _ _. eauto.
Qed.

(** A validation that passes takes at least one packet. *)
Lemma passes_consumes pv v l rest : passes NewPacket pv v l rest -> (length rest < length l)%nat.
Proof.
  unfold passes, inner_passes. repeat case_match.
  - intros (w & u & _ & _ & pre & p & e & h & -> & _). rewrite length_app. simpl. lia.
  - intros (w & u & _ & _ & pre & p & e & h & -> & _). rewrite length_app. simpl. lia.
  - intros (-> & p & h & Hp & _). destruct l; [by apply elem_of_nil in Hp|simpl; lia].
  - intros (pre & p & -> & _). rewrite length_app. simpl. lia.
Qed.
Lemma accepts_length pv vs l : accepts NewPacket pv vs l -> (length vs <= length l)%nat.
Proof.
  revert l. induction vs as [|v vs IH]; intros l; simpl; [lia|].
  intros (rest & Hp%passes_consumes & H%IH). lia.
Qed.
End Correct.

(** C31: CaptureAndValidatePackets returns no error exactly when every validation in
    turn finds, after the packets that the validations before it consumed, that the
    first packet that concerns it conforms to its parameters; so it needs at least
    one packet per validation, and no packet is validated twice.  The temporary file
    is removed whatever the validations return. *)
Theorem CaptureAndValidatePackets_consumes NewPacket f pv w name packets :
  createTemp f = Ret name -> writeBytes f = Ret tt -> openOffline f = Ret packets ->
  ((exists w', CaptureAndValidatePackets NewPacket f pv w = (Ret tt, w')) <-> accepts NewPacket pv (Validations pv) packets) /\
  (accepts NewPacket pv (Validations pv) packets -> (length (Validations pv) <= length packets)%nat) /\
  w_temp (CaptureAndValidatePackets NewPacket f pv w).2 = w_temp w.
Proof.
  intros Hc Hw Ho. unfold CaptureAndValidatePackets. rewrite Hc, Hw, Ho. rewrite <- runValidations_correct at 1.
  split_and!; [|apply accepts_length|by destruct (runValidations _ _ _ _) as [[r e] rest]].
  destruct (runValidations NewPacket pv (Validations pv) packets) as [[r e] rest]. destruct r as [[]|err| |]; naive_solver.
Qed.

(** A failed write leaves the temporary file behind. *)
Lemma write_error_leaks NewPacket f pv w name e :
  createTemp f = Ret name -> writeBytes f = Fail e -> w_temp (CaptureAndValidatePackets NewPacket f pv w).2 = name :: w_temp w.
Proof. intros Hc Hw. unfold CaptureAndValidatePackets. by rewrite Hc, Hw. Qed.

(** * Witness *)

Definition noLayers : PacketValidation :=
  {| PortName := "port2"; CaptureName := "cap"; CaptureCount := 0; pv_Vlan := None; pv_IPv4 := None; pv_IPv6 := None;
     pv_Gre := None; pv_MPLS := None; pv_Macsec := None; pv_TCP := None; pv_UDP := None; InnerIPLayerIPv4 := None;
     InnerIPLayerIPv6 := None; pv_BGP := None; pv_Flags := None; Validations := [] |}.
Definition with_IPv4 (w : IPv4Layer) (vs : list string) (pv : PacketValidation) : PacketValidation :=
  {| PortName := PortName pv; CaptureName := CaptureName pv; CaptureCount := CaptureCount pv; pv_Vlan := pv_Vlan pv;
     pv_IPv4 := Some w; pv_IPv6 := pv_IPv6 pv; pv_Gre := pv_Gre pv; pv_MPLS := pv_MPLS pv; pv_Macsec := pv_Macsec pv;
     pv_TCP := pv_TCP pv; pv_UDP := pv_UDP pv; InnerIPLayerIPv4 := InnerIPLayerIPv4 pv; InnerIPLayerIPv6 := InnerIPLayerIPv6 pv;
     pv_BGP := pv_BGP pv; pv_Flags := pv_Flags pv; Validations := vs |}.
Definition ipv4Packet (dst : string) (ttl : Z) : Packet :=
  {| pk_Ethernet := None; pk_Dot1Q := None; pk_IPv4 := Some {| ip_Protocol := 4; ip_DstIP := dst; ip_TTL := ttl; ip_TOS := 0 |};
     pk_IPv6 := None; pk_GRE := None; pk_MPLS := None; pk_TCP := None; pk_UDP := None |}.
Definition sampleValidation : PacketValidation :=
  with_IPv4 {| v4_Protocol := 4; v4_DstIP := "10.0.0.1"; v4_Tos := 0; v4_TTL := 64; v4_SkipProtocolCheck := false |}
    [ValidateIPv4Header; ValidateIPv4Header] noLayers.
Definition sampleFile (packets : list Packet) : CaptureFile :=
  {| createTemp := Ret "pcap1"; writeBytes := Ret tt; openOffline := Ret packets |}.
Definition emptyWorld : World := {| w_temp := []; w_errors := []; w_source := None |}.
Definition noDecoder (_ : list Z) (_ : LayerType) : Packet := ipv4Packet "" 0.

(** One packet that conforms is not enough for two validations; two are. *)
Lemma CaptureAndValidatePackets_witness :
  let p := ipv4Packet "10.0.0.1" 64 in
  (exists w, CaptureAndValidatePackets noDecoder (sampleFile [p; p]) sampleValidation emptyWorld = (Ret tt, w)) /\
  ~ (exists w, CaptureAndValidatePackets noDecoder (sampleFile [p]) sampleValidation emptyWorld = (Ret tt, w)).
Proof.
  intros p.
  destruct (CaptureAndValidatePackets_consumes noDecoder (sampleFile [p]) sampleValidation emptyWorld "pcap1" [p]
    eq_refl eq_refl eq_refl) as (Hiff & Hlen & _).
  split; [eexists; vm_compute; reflexivity|].
  intros H. apply Hiff, Hlen in H. vm_compute in H. lia.
Defined.
