(* ===== verification/ScaleTraffic.v ===== *)
(** Traffic of the gRIBI full scale test
    ([src/internal/cfgplugins/gribifullscale.go]): the flows of the five scenarios,
    the run of the traffic with the shutdown of subinterfaces in the repair tests,
    the loss checks ([src/internal/otg_helpers/otg_validation_helpers]) and the
    inspection of captured packets.

    The device and the traffic generator are arguments: the counters of the flows,
    whether a subinterface reaches a state, and the files of the captures. *)
From stdpp Require Import base list gmap strings.
From Stdlib Require Import ZArith Lia.
From S2P Require Import Prelude GoStrings Net IPUtil NhgBuckets GribiScale Floats OtgFlows PacketVal.
Open Scope string_scope.
Open Scope Z_scope.
Open Scope list_scope.

(** * Flows *)

Definition ATEPort1MAC := "02:00:01:01:01:01".
Definition ATEPort1IPv4 := "192.0.2.2".
Definition EncapIPv6InnerSrc := "2001:db8:ffff::1".
Definition TransitIPv4InnerDst := "172.16.0.2".
Definition RepairIPv4InnerDst := "172.16.0.3".

Definition ExpandDecapPrefixes (params : ScaleParams) : list string :=
  (fun i => "203." +:+ Itoa (Z.quot i 4) +:+ "." +:+ Itoa (Z.rem i 4 * 64) +:+ ".1") <$> seqZ 0 (NumDecapEntries params).

Definition portFlow (name : string) (frameSize pps : Z) (profile : option (list SizeWeightPair)) : FlowParams := {|
  TxNames := []; RxNames := []; TxPort := "port1"; RxPorts := ["port2"]; FrameSize := frameSize; FlowName := name;
  Flowrate := ZeroF; PpsRate := pps; PacketsToSend := 0; IsTxRxPort := true; SizeWeightProfile := profile;
  VLANFlow := None; GREFlow := None; EthFlow := None; IPv4Flow := None; IPv6Flow := None; TCPFlow := None; UDPFlow := None;
  MPLSFlow := None; CustomFlow := None; flow := None |}.

(** The first flow of the name is made continuous and returned; a fresh flow when there is none. *)
Definition findFlow (name : string) : otg nat := fun c =>
  match list_find (fun f => fl_name f = name) (cfg_flows c) with
  | Some (i, _) => (_ ← modFlow i (set_duration Continuous); mret i) c
  | None => (Ret (length (cfg_flows c)), c)
  end.

Definition NewPortFlow (name : string) (pktSize perFlowPPS : Z) : otg nat :=
  _ ← CreateFlow (portFlow name pktSize perFlowPPS None);
  findFlow name.

Definition imixProfile : list SizeWeightPair :=
  [{| sw_Size := 3000; sw_Weight := Zf32 7 |}; {| sw_Size := 1500; sw_Weight := Zf32 4 |}; {| sw_Size := 500; sw_Weight := Zf32 1 |}].
Definition NewIMIXPortFlow (name : string) (perGroupPPS : Z) : otg nat :=
  _ ← CreateFlow (portFlow name 0 perGroupPPS (Some imixProfile));
  findFlow name.

Definition CountBaseFlows (compactOTGFlows testRepair : bool) (params : ScaleParams) : Z :=
  let transitFlows := if compactOTGFlows then 1 else NumEncapVRFs params in
  if testRepair then transitFlows
  else
    let decapFlows := if compactOTGFlows then 1 else NumEncapVRFs params in
    let repairedFlows := if compactOTGFlows then 1 else NumEncapVRFs params in
    NumEncapVRFs params * 2 + decapFlows + NumEncapVRFs params * Z.of_nat (length outerSrcs) * 2 + transitFlows + repairedFlows.

Definition MakeFlowCreator (pktSize pps : Z) (imix : bool) : string -> otg nat :=
  if imix then fun name => NewIMIXPortFlow name pps else fun name => NewPortFlow name pktSize pps.

(** The values that [setIPv4Dst] accepts. *)
Record IPIncrement := { inc_Start : string; inc_Step : string; inc_Count : Z }.
Inductive dstValue := DstString (v : string) | DstList (v : list string) | DstIncrement (v : IPIncrement).
Definition setIPv4Dst (val : dstValue) : pattern string :=
  match val with
  | DstString v => Value v
  | DstList v => Values v
  | DstIncrement v => Increment (inc_Start v) (Some (inc_Step v)) (inc_Count v)
  end.

(** [f.Packet().Add()] for each header. *)
Definition addHeaders (f : nat) (hs : list Header) : otg unit := forEach (fun h => modFlow f (add_header h)) hs.
Definition ethHeader (dstMac : string) : Header := Ethernet (Some (Value ATEPort1MAC)) (Some (Value dstMac)).
Definition ipv4Header (src : string) (dst : pattern string) (dscpVals : list Z) : Header :=
  Ipv4 (Value src) dst None (Some (Dscp (Values dscpVals))).
Definition ipv6Header (src : string) (dst : pattern string) (classes : list Z) : Header :=
  Ipv6 (Value src) dst None (Some (Values classes)).

Definition createIPv4InIPv4Flow (newFlow : string -> otg nat) (name dstMac outerSrc : string) (dscpVals : list Z)
    (outerDst innerDst : dstValue) : otg nat :=
  f ← newFlow name;
  _ ← addHeaders f [ethHeader dstMac; ipv4Header outerSrc (setIPv4Dst outerDst) dscpVals;
                    ipv4Header ATEPort1IPv4 (setIPv4Dst innerDst) dscpVals];
  mret f.

(** The destinations of the encapsulation VRF [vi]. *)
Definition encapDst4 (vi : Z) (params : ScaleParams) : pattern string :=
  Increment ("200." +:+ Itoa vi +:+ ".0.1") (Some CommonPrefixStep) (uint32 (NumEncapIPv4PerVRF params)).
Definition encapDst6 (vi : Z) (params : ScaleParams) : pattern string :=
  Increment ("2001:db8:" +:+ hex16 vi +:+ "::1") (Some CommonIPv6PrefixStep) (uint32 (NumEncapIPv6PerVRF params)).
Definition dscpsOf (vi : Z) : list Z := let '(d1, d2) := EncapVRFDSCP vi in [d1; d2].
Definition classesOf (vi : Z) : list Z := let '(d1, d2) := EncapVRFDSCP vi in [uint32 (Z.shiftl d1 2); uint32 (Z.shiftl d2 2)].

(** [for vi := range encapVRFs] with the flows appended. *)
Fixpoint concatS {A B S} (f : A -> gost S (list B)) (l : list A) : gost S (list B) :=
  match l with
  | [] => mret []
  | x :: l => ys ← f x; zs ← concatS f l; mret (ys ++ zs)
  end.
Definition vrfIndexes (params : ScaleParams) : list Z :=
  seqZ 0 (Z.of_nat (length (BuildEncapVRFs (NumEncapVRFs params)))).

Definition BuildEncapFlows (pktSize pps : Z) (imix : bool) (dstMac : string) (params : ScaleParams) : otg (list nat) :=
  let newFlow := MakeFlowCreator pktSize pps imix in
  concatS (fun vi =>
    f4 ← newFlow ("encap_ipv4_vrf_" +:+ Itoa vi);
    _ ← addHeaders f4 [ethHeader dstMac; ipv4Header ATEPort1IPv4 (encapDst4 vi params) (dscpsOf vi)];
    f6 ← newFlow ("encap_ipv6_vrf_" +:+ Itoa vi);
    _ ← addHeaders f6 [ethHeader dstMac; ipv6Header EncapIPv6InnerSrc (encapDst6 vi params) (classesOf vi)];
    mret [f4; f6]) (vrfIndexes params).

(** The inner destinations of the decapsulation flow of VRF [vi]; the error of the
    generator is ignored, which leaves no addresses. *)
Definition decapInnerDsts (params : ScaleParams) (vi : Z) : go (list string) :=
  let atePort2Ips := match GenerateIPsWithStep ATEPort2IPv4Start (NumPort2VLANs params) PortIPv4Step with Ret l => l | _ => [] end in
  let subsetCount := Z.max 1 (Z.quot (NumPort2VLANs params * DecapDestsSubsetPct params) 100) in
  mapM (fun j => idx ← goRem (vi * subsetCount + j) (NumPort2VLANs params); index atePort2Ips idx) (seqZ 0 subsetCount).

Definition BuildDecapFlows (pktSize pps : Z) (imix : bool) (dstMac : string) (compact : bool) (params : ScaleParams) : otg (list nat) :=
  let outerDecapDsts := ExpandDecapPrefixes params in
  let newFlow := MakeFlowCreator pktSize pps imix in
  let createFlow name dscpVals innerDstIPs :=
    f ← createIPv4InIPv4Flow newFlow name dstMac IPv4OuterSrc111 dscpVals (DstList outerDecapDsts) (DstList innerDstIPs);
    mret [f] in
  if compact then
    createFlow "decap_vrf_all_src_111" (getAllEncapDSCPVals (NumEncapVRFs params))
      (match GenerateIPsWithStep ATEPort2IPv4Start (NumPort2VLANs params) PortIPv4Step with Ret l => l | _ => [] end)
  else
    concatS (fun vi =>
      innerDstIPs ← lift (decapInnerDsts params vi);
      createFlow ("decap_vrf_" +:+ Itoa vi +:+ "_src_111") (dscpsOf vi) innerDstIPs) (vrfIndexes params).

(** [outerSrc[len(outerSrc)-3:]] *)
Definition srcTag (outerSrc : string) : string := String.substring (String.length outerSrc - 3) 3 outerSrc.

Definition BuildReencapFlows (pktSize pps : Z) (imix : bool) (dstMac : string) (params : ScaleParams) : otg (list nat) :=
  let decapDsts := ExpandDecapPrefixes params in
  let newFlow := MakeFlowCreator pktSize pps imix in
  concatS (fun vi =>
    concatS (fun outerSrc =>
      f4 ← newFlow ("reencap_ipv4_vrf_" +:+ Itoa vi +:+ "_src_" +:+ srcTag outerSrc);
      _ ← addHeaders f4 [ethHeader dstMac; ipv4Header outerSrc (Values decapDsts) (dscpsOf vi);
                         ipv4Header ATEPort1IPv4 (encapDst4 vi params) (dscpsOf vi)];
      f6 ← newFlow ("reencap_ipv6_vrf_" +:+ Itoa vi +:+ "_src_" +:+ srcTag outerSrc);
      _ ← addHeaders f6 [ethHeader dstMac; ipv4Header outerSrc (Values decapDsts) (dscpsOf vi);
                         ipv6Header EncapIPv6InnerSrc (encapDst6 vi params) (classesOf vi)];
      mret [f4; f6]) outerSrcs) (vrfIndexes params).

(** [BuildTransitFlows] and [BuildRepairedFlows] differ in the prefix of the names
    and the addresses. *)
Definition tunnelFlows (prefix outerSrc start innerDst : string) (pktSize pps : Z) (imix : bool) (dstMac : string)
    (compact : bool) (params : ScaleParams) : otg (list nat) :=
  let newFlow := MakeFlowCreator pktSize pps imix in
  let createFlow name dscpVals :=
    f ← createIPv4InIPv4Flow newFlow name dstMac outerSrc dscpVals
      (DstIncrement {| inc_Start := start; inc_Step := CommonPrefixStep; inc_Count := uint32 (NumTransitIPv4 params) |})
      (DstString innerDst);
    mret [f] in
  if compact then createFlow (prefix +:+ "all") (getAllEncapDSCPVals (NumEncapVRFs params))
  else concatS (fun vi => createFlow (prefix +:+ Itoa vi) (dscpsOf vi)) (vrfIndexes params).
Definition BuildTransitFlows := tunnelFlows "transit_encap_te_vrf_" IPv4OuterSrc111 TransitVRF111PrefixStart TransitIPv4InnerDst.
Definition BuildRepairedFlows := tunnelFlows "repaired_encap_te_vrf_" IPv4OuterSrc222 TransitVRF222PrefixStart RepairIPv4InnerDst.

(** * Loss on flows ([otgvalidationhelpers.go]) *)

(** [100 * float32(outPkts-inPkts) / float32(outPkts)] on uint64 counters. *)
Definition lossPct (outPkts inPkts : Z) : float :=
  fdiv32 (fmul32 (Zf32 100) (Zf32 (uint64 (outPkts - inPkts)))) (Zf32 outPkts).
Definition ReturnLossPercentage (counters : Z * Z) : go float :=
  if counters.1 =? 0 then Panic else Ret (lossPct counters.1 counters.2).
Definition ValidateLossOnFlows (counters : Z * Z) (tolerancePct : float) : go unit :=
  if counters.1 =? 0 then Panic
  else if flt tolerancePct (lossPct counters.1 counters.2) then Fail (errors_New "Get(traffic loss for flow)")
  else Ret tt.

(** The ports of a validation, [portStatus] of each. *)
Definition ValidatePortIsActive (up : string -> bool) (ports : list string) : go unit :=
  foldM (fun _ port => if up port then Ret tt else Fail (errors_New "Get(OTG port status)")) tt ports.
(** [resolved] is whether the watch saw a link layer address; [IsIPv4Interfaceresolved],
    [IsIPv6Interfaceresolved] and the two functions of [interface.go] differ in the path. *)
Definition Interfaceresolved (family : string) (resolved : string -> bool) (names : list string) : go unit :=
  foldM (fun _ intf => if resolved (intf +:+ ".Eth") then Ret tt
                       else Fail (errors_New (family +:+ " " +:+ intf +:+ " gateway not resolved"))) tt names.

(** The share of the packets that each of two ports of a LAG receives. *)
Definition ecmpShare (expectedPkts pkts : Z) : float :=
  fdiv (fmul (fabs (fsub (Zf expectedPkts) (Zf pkts))) (Zf 100)) (Zf expectedPkts).
Definition ValidateECMPonLAG (totalPkts p1Pkts p2Pkts : Z) : go unit :=
  let expectedPkts := Z.quot totalPkts 2 in
  if flt (Zf 2) (ecmpShare expectedPkts p1Pkts) then Fail (errors_New "port 1 packet count out of expected range")
  else if flt (Zf 2) (ecmpShare expectedPkts p2Pkts) then Fail (errors_New "port 2 packet count out of expected range")
  else Ret tt.

(** * The run of the traffic *)

Inductive TrafficScenario := ScenarioEncap | ScenarioDecap | ScenarioReencap | ScenarioTransit | ScenarioRepaired.
#[export] Instance TrafficScenario_eq_dec : EqDecision TrafficScenario.
Proof. solve_decision. Defined.
Definition scenarioName (s : TrafficScenario) : string :=
  match s with
  | ScenarioEncap => "Encap" | ScenarioDecap => "Decap" | ScenarioReencap => "Reencap"
  | ScenarioTransit => "Transit" | ScenarioRepaired => "Repaired"
  end.

Record FlowExpectation := {
  Scenario : TrafficScenario; ExpectedOuterSrc : string; ExpectedDSCPs : list Z; WantEncapPresent : bool;
  DecapPrefixSet : list string;
}.

(** The state of the test: the configuration, what the traffic generator was told,
    the admin state of the subinterfaces of port 2, the failures, and the captures. *)
Record Test := {
  t_top : OtgFlows.Config; t_otg : list otgAction; t_admin : gmap Z bool; t_errors : list string; t_capture : World;
}.
Definition set_top (c : OtgFlows.Config) (t : Test) : Test :=
  {| t_top := c; t_otg := t_otg t; t_admin := t_admin t; t_errors := t_errors t; t_capture := t_capture t |}.
Definition act (f : list otgAction -> list otgAction) : gost Test unit := fun t =>
  (Ret tt, {| t_top := t_top t; t_otg := f (t_otg t); t_admin := t_admin t; t_errors := t_errors t; t_capture := t_capture t |}).
Definition tell (a : otgAction) : gost Test unit := act (fun tr => tr ++ [a]).
Definition Errorf_ (msg : string) : gost Test unit := fun t =>
  (Ret tt, {| t_top := t_top t; t_otg := t_otg t; t_admin := t_admin t; t_errors := t_errors t ++ [msg]; t_capture := t_capture t |}).
(** Code on the configuration. *)
Definition onTop {A} (m : otg A) : gost Test A := fun t => let '(r, c) := m (t_top t) in (r, set_top c t).
(** [if err := ...; err != nil { t.Errorf(...) }]: an error is reported, a panic ends the test. *)
Definition report {A} (msg : string) (m : go A) : gost Test unit :=
  match m with Ret _ => mret tt | Fail e => Errorf_ (msg +:+ err_msg e) | _ => lift Panic end.
(** A deferred function runs however the code ends; when it ends the test, the test
    has ended that way. *)
Definition finally (m d : gost Test unit) : gost Test unit := fun t =>
  let '(r, t) := m t in
  let '(rd, t) := d t in
  (match rd with Ret _ => r | _ => rd end, t).

Definition set_admin (m : gmap Z bool) (t : Test) : Test :=
  {| t_top := t_top t; t_otg := t_otg t; t_admin := m; t_errors := t_errors t; t_capture := t_capture t |}.
(** What becomes of a gNMI Set: it is answered; it is refused; or the call fails
    although the device took the configuration. *)
Inductive SetResult := Applied | Refused | Unanswered.

Section Run.
(** [sets]: the result of the Set that enables, or disables, subinterfaces;
    [reaches i b]: whether subinterface [i] is seen up, or down, in time, or the
    subscription fails; [counters] are the packets sent and received of a flow;
    [captures] what a port captured. *)
Variables (sets : bool -> SetResult) (reaches : Z -> bool -> go bool) (counters : string -> Z * Z) (captures : string -> CaptureFile).
Variable NewPacket : list Z -> LayerType -> Packet.
(** The orders in which Go ranges over the maps. *)
Variables (orderFlows : gmap string FlowExpectation -> list string)
  (orderScenarios : list TrafficScenario -> list TrafficScenario).

(** One Set for all subinterfaces; [sb.Set] ends the test when the call fails. *)
Definition setDUTSubinterfaceAdminState (startIdx endIdx : Z) (enabled : bool) : gost Test unit := fun t =>
  let t' := set_admin (foldl (fun m i => <[i := enabled]> m) (t_admin t) (seqZ startIdx (endIdx - startIdx + 1))) t in
  match sets enabled with
  | Applied => (Ret tt, t')
  | Refused => (Panic, t)
  | Unanswered => (Panic, t')
  end.

Definition verifySubinterfaceStatus (startIdx endIdx : Z) (enabled : bool) : gost Test unit :=
  forEach (fun i =>
    ok ← lift (reaches i enabled);
    if ok : bool then mret tt else Errorf_ "oper status not reached") (seqZ startIdx (endIdx - startIdx + 1)).

(** [addFlows] *)
Definition expectation (compactOTGFlows testRepair : bool) (params : ScaleParams) (sc : TrafficScenario) (outerSrc : string)
    (wantEncap : bool) (flowsPerVRF : Z) (fi : nat) : FlowExpectation :=
  let isCompacted := compactOTGFlows && bool_decide (sc = ScenarioDecap \/ sc = ScenarioTransit \/ sc = ScenarioRepaired) in
  {| Scenario := sc;
     ExpectedOuterSrc := if testRepair && bool_decide (sc = ScenarioTransit) then IPv4OuterSrc222 else outerSrc;
     ExpectedDSCPs := if isCompacted then getAllEncapDSCPVals (NumEncapVRFs params)
                      else dscpsOf (Z.quot (Z.of_nat fi) flowsPerVRF);
     WantEncapPresent := wantEncap; DecapPrefixSet := ExpandDecapPrefixes params |}.
Definition flowName (c : OtgFlows.Config) (i : nat) : string := match cfg_flows c !! i with Some f => fl_name f | None => "" end.

Record builder := { b_build : otg (list nat); b_scenario : TrafficScenario; b_outerSrc : string; b_needCapture : bool; b_multiplier : Z }.
Definition builders (pktSize pps : Z) (imix : bool) (dstMac : string) (compact : bool) (params : ScaleParams) : list builder := [
  {| b_build := BuildEncapFlows pktSize pps imix dstMac params; b_scenario := ScenarioEncap;
     b_outerSrc := IPv4OuterSrc111; b_needCapture := true; b_multiplier := 2 |};
  {| b_build := BuildDecapFlows pktSize pps imix dstMac compact params; b_scenario := ScenarioDecap;
     b_outerSrc := ""; b_needCapture := false; b_multiplier := 1 |};
  {| b_build := BuildReencapFlows pktSize pps imix dstMac params; b_scenario := ScenarioReencap;
     b_outerSrc := ""; b_needCapture := true; b_multiplier := 4 |};
  {| b_build := BuildTransitFlows pktSize pps imix dstMac compact params; b_scenario := ScenarioTransit;
     b_outerSrc := IPv4OuterSrc111; b_needCapture := true; b_multiplier := 1 |};
  {| b_build := BuildRepairedFlows pktSize pps imix dstMac compact params; b_scenario := ScenarioRepaired;
     b_outerSrc := IPv4OuterSrc222; b_needCapture := true; b_multiplier := 1 |}].

(** The builders that run, with the expectations of their flows. *)
Fixpoint buildAll (compact testRepair : bool) (params : ScaleParams) (bs : list builder)
    (expectations : gmap string FlowExpectation) : otg (list nat * gmap string FlowExpectation) :=
  match bs with
  | [] => mret ([], expectations)
  | b :: bs =>
      if testRepair && negb (bool_decide (b_scenario b = ScenarioTransit)) then buildAll compact testRepair params bs expectations
      else
        flows ← b_build b;
        top ← getState;
        let expectations := foldl (fun m '(fi, f) =>
          <[flowName top f := expectation compact testRepair params (b_scenario b) (b_outerSrc b) (b_needCapture b) (b_multiplier b) fi]> m)
          expectations (zip (seq 0 (length flows)) flows) in
        '(rest, expectations) ← buildAll compact testRepair params bs expectations;
        mret (flows ++ rest, expectations)
  end.

Definition perFlowPPS (compact testRepair : bool) (params : ScaleParams) : Z :=
  let pps := TrafficRateMpps params / uint64 (Z.max (CountBaseFlows compact testRepair params) 1) in
  if pps =? 0 then 1 else pps.

(** ** ValidateCapturedPackets *)

(** The representative of each scenario: the first flow of the map that has it. *)
Definition representatives (expectations : gmap string FlowExpectation) : list (TrafficScenario * FlowExpectation) :=
  foldl (fun seen name => match expectations !! name with
    | Some exp => if bool_decide (Scenario exp ∈ seen.*1) then seen else seen ++ [(Scenario exp, exp)]
    | None => seen end) [] (orderFlows expectations).

Definition capturedLayer (exp : FlowExpectation) (scenario : TrafficScenario) : IPv4Layer :=
  let tosByte := match ExpectedDSCPs exp with [] => 0 | d :: _ => uint8 (Z.shiftl d 2) end in
  match scenario with
  | ScenarioEncap | ScenarioTransit | ScenarioRepaired =>
      {| v4_Protocol := 4; v4_DstIP := ExpectedOuterSrc exp; v4_Tos := tosByte; v4_TTL := 0; v4_SkipProtocolCheck := false |}
  | ScenarioDecap =>
      {| v4_Protocol := 0; v4_DstIP := ""; v4_Tos := tosByte; v4_TTL := 0; v4_SkipProtocolCheck := true |}
  | ScenarioReencap =>
      {| v4_Protocol := 4; v4_DstIP := ""; v4_Tos := tosByte; v4_TTL := 0; v4_SkipProtocolCheck := false |}
  end.
Definition capturedValidation (capVal : PacketValidation) (exp : FlowExpectation) (scenario : TrafficScenario) : PacketValidation :=
  with_IPv4 (capturedLayer exp scenario) [ValidateIPv4Header]
    {| PortName := PortName capVal; CaptureName := CaptureName capVal; CaptureCount := 0; pv_Vlan := None; pv_IPv4 := None;
       pv_IPv6 := None; pv_Gre := None; pv_MPLS := None; pv_Macsec := None; pv_TCP := None; pv_UDP := None;
       InnerIPLayerIPv4 := None; InnerIPLayerIPv6 := None; pv_BGP := None; pv_Flags := None; Validations := [] |}.

(** The failures that the validation itself reports with [t.Errorf] count too. *)
Definition validateScenario (capVal : PacketValidation) (se : TrafficScenario * FlowExpectation) : gost Test unit := fun t =>
  let pv := capturedValidation capVal se.2 se.1 in
  let '(r, w) := CaptureAndValidatePackets NewPacket (captures (PortName pv)) pv (t_capture t) in
  report ("Scenario " +:+ scenarioName se.1 +:+ ": CaptureAndValidatePackets: ") r
    {| t_top := t_top t; t_otg := t_otg t; t_admin := t_admin t; t_errors := t_errors t; t_capture := w |}.

Definition ValidateCapturedPackets (capVal : PacketValidation) (expectations : gmap string FlowExpectation) : gost Test unit :=
  let seen := representatives expectations in
  forEach (fun sc => match list_find (fun se => se.1 = sc) seen with
    | Some (_, se) => validateScenario capVal se
    | None => mret tt end) (orderScenarios (fst <$> seen)).

(** ** RunEndToEndTrafficValidation *)

Definition capturePort2 : PacketValidation := {|
  PortName := "port2"; CaptureName := "cap_port2"; CaptureCount := 0; pv_Vlan := None; pv_IPv4 := None; pv_IPv6 := None;
  pv_Gre := None; pv_MPLS := None; pv_Macsec := None; pv_TCP := None; pv_UDP := None; InnerIPLayerIPv4 := None;
  InnerIPLayerIPv6 := None; pv_BGP := None; pv_Flags := None; Validations := [] |}.

Definition clearAndConfigureCapture : gost Test unit := fun t =>
  let '(top, tr) := ClearCapture (t_top t) (t_otg t) in
  (Ret tt, {| t_top := ConfigurePacketCapture capturePort2 top; t_otg := tr; t_admin := t_admin t; t_errors := t_errors t;
              t_capture := t_capture t |}).
Definition pushTop : gost Test unit := t ← getState; tell (PushConfig (t_top t)).
Definition whenT (b : bool) (m : gost Test unit) : gost Test unit := if b then m else mret tt.

(** The flows are built, the configuration is pushed. *)
Definition prepareTraffic (dstMac : string) (imix testRepair enablePacketCapture compact : bool) (params : ScaleParams) :
    gost Test (list nat * gmap string FlowExpectation) :=
  let pktSize := if imix then 0 else 64 in
  _ ← onTop (modify (set_flows []));
  built ← onTop (buildAll compact testRepair params (builders pktSize (perFlowPPS compact testRepair params) imix dstMac compact params) ∅);
  _ ← whenT enablePacketCapture clearAndConfigureCapture;
  _ ← pushTop;
  _ ← tell StartProtocols;
  _ ← whenT enablePacketCapture (act StartCapture);
  mret built.

Definition checkLoss (params : ScaleParams) (allFlows : list nat) : gost Test unit :=
  forEach (fun f => t ← getState;
    report "Zero-loss check: " (ValidateLossOnFlows (counters (flowName (t_top t) f)) (Zf32 (TrafficLossTol params)))) allFlows.

Definition runTraffic (enablePacketCapture : bool) (params : ScaleParams) (built : list nat * gmap string FlowExpectation) :
    gost Test unit :=
  _ ← tell StartTraffic;
  _ ← tell StopTraffic;
  _ ← whenT enablePacketCapture (act StopCapture);
  _ ← checkLoss params built.1;
  whenT enablePacketCapture (ValidateCapturedPackets capturePort2 built.2).

Definition downCount (params : ScaleParams) : Z := Z.max (Z.quot (NumPort2VLANs params * ShutdownVLANPct) 100) 1.

Definition RunEndToEndTrafficValidation (dstMac : string) (imix testRepair enablePacketCapture compact : bool)
    (params : ScaleParams) : gost Test unit :=
  built ← prepareTraffic dstMac imix testRepair enablePacketCapture compact params;
  if testRepair then
    _ ← setDUTSubinterfaceAdminState 1 (downCount params) false;
    finally
      (_ ← verifySubinterfaceStatus 1 (downCount params) false;
       runTraffic enablePacketCapture params built)
      (_ ← setDUTSubinterfaceAdminState 1 (downCount params) true;
       verifySubinterfaceStatus 1 (downCount params) true)
  else runTraffic enablePacketCapture params built.

(** ** The traffic cases of RunFullScaleTest *)

Record TrafficTestCase := { tc_Name : string; UseIMIX : bool; TestRepair : bool }.
Definition testCases : list TrafficTestCase := [
  {| tc_Name := "FixedSize_64B"; UseIMIX := false; TestRepair := false |};
  {| tc_Name := "IMIX_Profile"; UseIMIX := true; TestRepair := false |};
  {| tc_Name := "FixedSize_64B_Repair"; UseIMIX := false; TestRepair := true |};
  {| tc_Name := "IMIX_Profile_Repair"; UseIMIX := true; TestRepair := true |}].
(** A case that stopped has failed; [t.Run] goes on with the next. *)
Definition runCase (dstMac : string) (enablePacketCapture compact : bool) (params : ScaleParams) (tc : TrafficTestCase) :
    gost Test unit := fun t =>
  match RunEndToEndTrafficValidation dstMac (UseIMIX tc) (TestRepair tc) enablePacketCapture compact params t with
  | (Ret _, t) => (Ret tt, t)
  | (_, t) => Errorf_ (tc_Name tc) t
  end.
Definition RunFullScaleTest_traffic (dstMac : string) (enablePacketCapture compact : bool) (params : ScaleParams) : gost Test unit :=
  forEach (runCase dstMac enablePacketCapture compact params) testCases.
End Run.
