(* ===== verification/FlowSpecs.v ===== *)
(** The flows of the gRIBI full scale traffic as a list, and the proof that the
    builders of [ScaleTraffic] add exactly these flows: every builder finds the flow
    it created again by its name, so the proof depends on the names being different. *)
From stdpp Require Import base list gmap strings pretty.
From Stdlib Require Import ZArith Lia.
From S2P Require Import Prelude GoStrings Net IPUtil NhgBuckets GribiScale GribiRefs GribiProgram GribiRun Floats OtgFlows PacketVal ScaleTraffic.
Open Scope string_scope.
Open Scope Z_scope.
Open Scope list_scope.

(** * The reference list *)

(** A flow is given by its name and its headers. *)
Definition spec : Type := string * list Header.

Section Specs.
Context (dstMac : string) (compact : bool) (p : ScaleParams).

Definition tunnelled (src : string) (dst inner : pattern string) (dscps : list Z) : list Header :=
  [ethHeader dstMac; ipv4Header src dst dscps; ipv4Header ATEPort1IPv4 inner dscps].
Definition encapSpecs : list spec :=
  seqZ 0 (NumEncapVRFs p) ≫= fun vi =>
    [("encap_ipv4_vrf_" +:+ Itoa vi, [ethHeader dstMac; ipv4Header ATEPort1IPv4 (encapDst4 vi p) (dscpsOf vi)]);
     ("encap_ipv6_vrf_" +:+ Itoa vi, [ethHeader dstMac; ipv6Header EncapIPv6InnerSrc (encapDst6 vi p) (classesOf vi)])].

(** The addresses of the traffic generator on the subinterfaces of port 2. *)
Definition ateAddresses : list string :=
  match GenerateIPsWithStep ATEPort2IPv4Start (NumPort2VLANs p) PortIPv4Step with Ret l => l | _ => [] end.
Definition subsetCount : Z := Z.max 1 (Z.quot (NumPort2VLANs p * DecapDestsSubsetPct p) 100).
Definition subsetOf (vi : Z) : list string :=
  (fun j => ateAddresses !!! Z.to_nat (Z.rem (vi * subsetCount + j) (NumPort2VLANs p))) <$> seqZ 0 subsetCount.
Definition decapSpecs : list spec :=
  if compact then
    [("decap_vrf_all_src_111", tunnelled IPv4OuterSrc111 (Values (ExpandDecapPrefixes p)) (Values ateAddresses) (getAllEncapDSCPVals (NumEncapVRFs p)))]
  else
    seqZ 0 (NumEncapVRFs p) ≫= fun vi =>
      [("decap_vrf_" +:+ Itoa vi +:+ "_src_111",
        tunnelled IPv4OuterSrc111 (Values (ExpandDecapPrefixes p)) (Values (subsetOf vi)) (dscpsOf vi))].
Definition reencapSpecs : list spec :=
  seqZ 0 (NumEncapVRFs p) ≫= fun vi => outerSrcs ≫= fun src =>
    [("reencap_ipv4_vrf_" +:+ Itoa vi +:+ "_src_" +:+ srcTag src,
      tunnelled src (Values (ExpandDecapPrefixes p)) (encapDst4 vi p) (dscpsOf vi));
     ("reencap_ipv6_vrf_" +:+ Itoa vi +:+ "_src_" +:+ srcTag src,
      [ethHeader dstMac; ipv4Header src (Values (ExpandDecapPrefixes p)) (dscpsOf vi);
       ipv6Header EncapIPv6InnerSrc (encapDst6 vi p) (classesOf vi)])].
Definition tunnelSpecs (prefix src start inner : string) : list spec :=
  let dst := Increment start (Some CommonPrefixStep) (uint32 (NumTransitIPv4 p)) in
  if compact then [(prefix +:+ "all", tunnelled src dst (Value inner) (getAllEncapDSCPVals (NumEncapVRFs p)))]
  else seqZ 0 (NumEncapVRFs p) ≫= fun vi => [(prefix +:+ Itoa vi, tunnelled src dst (Value inner) (dscpsOf vi))].
Definition transitSpecs := tunnelSpecs "transit_encap_te_vrf_" IPv4OuterSrc111 TransitVRF111PrefixStart TransitIPv4InnerDst.
Definition repairedSpecs := tunnelSpecs "repaired_encap_te_vrf_" IPv4OuterSrc222 TransitVRF222PrefixStart RepairIPv4InnerDst.

Definition scenarioSpecs (sc : TrafficScenario) : list spec :=
  match sc with
  | ScenarioEncap => encapSpecs | ScenarioDecap => decapSpecs | ScenarioReencap => reencapSpecs
  | ScenarioTransit => transitSpecs | ScenarioRepaired => repairedSpecs
  end.
Definition scenarios (repair : bool) : list TrafficScenario :=
  if repair then [ScenarioTransit] else [ScenarioEncap; ScenarioDecap; ScenarioReencap; ScenarioTransit; ScenarioRepaired].
Definition flowSpecs (repair : bool) : list spec := scenarios repair ≫= scenarioSpecs.
End Specs.

(** The flow that is configured for a name and headers. *)
Definition sizeOf (imix : bool) (pktSize : Z) : Size :=
  if imix then WeightPairs [(3000, Zf32 7); (1500, Zf32 4); (500, Zf32 1)] else Fixed pktSize.
Definition portFlowOf (imix : bool) (pktSize pps : Z) (s : spec) : Flow :=
  {| fl_name := s.1; fl_metrics := true; fl_txrx := Some (PortTxRx "port1" ["port2"]); fl_size := Some (sizeOf imix pktSize);
     fl_rate := Some (Pps pps); fl_duration := Some Continuous; fl_packet := s.2 |}.

(** * The builders *)

Lemma set_flows_set l l' c : set_flows l (set_flows l' c) = set_flows l c.
Proof. done. Qed.

Lemma modFlow_last f l x c : modFlow (length l) f (set_flows (l ++ [x]) c) = (Ret tt, set_flows (l ++ [f x]) c).
Proof.
  assert (alter f (length l) (l ++ [x]) = l ++ [f x]) as H by (induction l as [|y l IH]; [done|]; cbn; by f_equal).
  unfold modFlow, modify. cbn [cfg_flows set_flows]. by rewrite H.
Qed.
Lemma bind_last {A} f l x c (k : unit -> otg A) :
  (modFlow (length l) f ≫= k) (set_flows (l ++ [x]) c) = k tt (set_flows (l ++ [f x]) c).
Proof. apply bind_run, modFlow_last. Qed.
Lemma bind_ret_run {S A B} (a : A) (k : A -> gost S B) s : (mret a ≫= k) s = k a s.
Proof. done. Qed.
Lemma bind_assoc_run {S A B C} (m : gost S A) (k : A -> gost S B) (h : B -> gost S C) s :
  ((m ≫= k) ≫= h) s = (m ≫= fun a => k a ≫= h) s.
Proof. unfold mbind, gost_bind. by destruct (m s) as [[]]. Qed.

Lemma findFlow_last name l x c : fl_name x = name -> name ∉ fl_name <$> l ->
  findFlow name (set_flows (l ++ [x]) c) = (Ret (length l), set_flows (l ++ [set_duration Continuous x]) c).
Proof.
  intros Hx Hn. unfold findFlow. cbn [cfg_flows set_flows].
  assert (list_find (fun f => fl_name f = name) (l ++ [x]) = Some (length l, x)) as ->.
  { apply list_find_Some. split_and!; [by rewrite list_lookup_middle|done|]. intros j y Hj Hlt <-.
    apply Hn. rewrite lookup_app_l in Hj by done. apply (list_elem_of_fmap_2 fl_name), list_elem_of_lookup_2 with j. done. }
  by rewrite (bind_run _ _ _ _ _ (modFlow_last _ _ _ _)).
Qed.

Section Builds.
Context (imix : bool) (pktSize pps : Z) (Hsize : imix = false -> pktSize <> 0) (Hpps : pps <> 0).
Abbreviation mk := (portFlowOf imix pktSize pps).

Lemma CreateFlow_run name c :
  CreateFlow (portFlow name (if imix then 0 else pktSize) pps (if imix then Some imixProfile else None)) c =
  (Ret (set_flow (length (cfg_flows c)) (portFlow name (if imix then 0 else pktSize) pps (if imix then Some imixProfile else None))),
   set_flows (cfg_flows c ++ [{| fl_name := name; fl_metrics := true; fl_txrx := Some (PortTxRx "port1" ["port2"]);
     fl_size := Some (sizeOf imix pktSize); fl_rate := Some (Pps pps); fl_duration := None; fl_packet := [] |}]) c).
Proof using Hsize Hpps.
  unfold CreateFlow. rewrite (bind_run (addFlow _) _ c _ _ eq_refl).
  cbn [portFlow FlowName FrameSize Flowrate PpsRate PacketsToSend SizeWeightProfile IsTxRxPort TxPort RxPorts].
  rewrite (proj2 (Z.eqb_neq pps 0) Hpps). change (feq ZeroF ZeroF) with true. destruct imix.
  - cbn [Z.eqb negb when forEach imixProfile]. repeat first [rewrite bind_last|rewrite bind_ret_run|rewrite bind_assoc_run].
    reflexivity.
  - rewrite (proj2 (Z.eqb_neq pktSize 0)) by auto. cbn [Z.eqb negb when]. repeat first [rewrite bind_last|rewrite bind_ret_run]. reflexivity.
Qed.

Lemma newFlow_run name c : name ∉ fl_name <$> cfg_flows c ->
  MakeFlowCreator pktSize pps imix name c = (Ret (length (cfg_flows c)), set_flows (cfg_flows c ++ [mk (name, [])]) c).
Proof using Hsize Hpps.
  intros Hn. pose proof (CreateFlow_run name c) as Hc. revert Hc. unfold MakeFlowCreator.
  destruct imix; intros Hc; unfold NewIMIXPortFlow, NewPortFlow; rewrite (bind_run _ _ _ _ _ Hc); by rewrite findFlow_last.
Qed.

Lemma addHeaders_last hs name hs0 l c :
  addHeaders (length l) hs (set_flows (l ++ [mk (name, hs0)]) c) = (Ret tt, set_flows (l ++ [mk (name, hs0 ++ hs)]) c).
Proof.
  revert hs0. unfold addHeaders. induction hs as [|h hs IH]; intros hs0; cbn [forEach]; [by rewrite app_nil_r|].
  rewrite bind_last. change (add_header h (mk (name, hs0))) with (mk (name, hs0 ++ [h])).
  by rewrite IH, <- app_assoc.
Qed.

(** Code that adds the flows of a list, when no flow has one of their names. *)
Definition builds (m : otg (list nat)) (specs : list spec) : Prop := forall c,
  NoDup ((fl_name <$> cfg_flows c) ++ specs.*1) ->
  m c = (Ret (seq (length (cfg_flows c)) (length specs)), set_flows (cfg_flows c ++ (mk <$> specs)) c).

Lemma names_mk specs : fl_name <$> (mk <$> specs) = specs.*1.
Proof. rewrite <- list_fmap_compose. by apply list_fmap_ext. Qed.

Lemma set_flows_same c : set_flows (cfg_flows c) c = c.
Proof. by destruct c. Qed.

Lemma builds_nil : builds (mret []) [].
Proof. intros c _. by rewrite app_nil_r, set_flows_same. Qed.

Lemma builds_app {m k} s1 s2 : builds m s1 -> builds k s2 -> builds (ys ← m; zs ← k; mret (ys ++ zs)) (s1 ++ s2).
Proof.
  intros Hm Hk c. rewrite fmap_app, app_assoc. intros Hn. pose proof Hn as (Hn1 & _ & _)%NoDup_app.
  rewrite (bind_run _ _ _ _ _ (Hm c Hn1)). 
  rewrite <- names_mk, <- fmap_app in Hn. rewrite (bind_run _ _ _ _ _ (Hk (set_flows _ c) Hn)).
  cbn [cfg_flows set_flows]. unfold mret, gost_ret.
  by rewrite set_flows_set, fmap_app, app_assoc, !length_app, length_fmap, seq_app.
Qed.

Lemma builds_concat {A} (f : A -> otg (list nat)) (g : A -> list spec) l :
  (forall x, x ∈ l -> builds (f x) (g x)) -> builds (concatS f l) (l ≫= g).
Proof.
  induction l as [|x l IH]; intros H; [apply builds_nil|]. cbn [concatS mbind list_bind].
  apply builds_app; [apply H; by left|]. apply IH. intros y Hy. apply H. by right.
Qed.

Lemma builds_one name hs {B} (k : nat -> otg B) c : name ∉ fl_name <$> cfg_flows c ->
  (f ← MakeFlowCreator pktSize pps imix name; _ ← addHeaders f hs; k f) c =
  k (length (cfg_flows c)) (set_flows (cfg_flows c ++ [mk (name, hs)]) c).
Proof using Hsize Hpps.
  intros Hn. rewrite (bind_run _ _ _ _ _ (newFlow_run name c Hn)).
  by rewrite (bind_run _ _ _ _ _ (addHeaders_last hs name [] _ _)).
Qed.

Lemma builds_single name hs :
  builds (f ← MakeFlowCreator pktSize pps imix name; _ ← addHeaders f hs; mret [f]) [(name, hs)].
Proof using Hsize Hpps. intros c (_ & Hn & _)%NoDup_app. rewrite builds_one; [done|]. intros H. apply (Hn _ H). by left. Qed.

Lemma builds_pair n4 h4 n6 h6 :
  builds (f4 ← MakeFlowCreator pktSize pps imix n4; _ ← addHeaders f4 h4;
          f6 ← MakeFlowCreator pktSize pps imix n6; _ ← addHeaders f6 h6; mret [f4; f6]) [(n4, h4); (n6, h6)].
Proof using Hsize Hpps.
  intros c (_ & Hn & Hd)%NoDup_app. cbn in Hn, Hd. rewrite builds_one by (intros H; apply (Hn _ H); by left).
  rewrite builds_one.
  - cbn [cfg_flows set_flows]. rewrite length_app, set_flows_set. cbn. unfold mret, gost_ret. by rewrite Nat.add_1_r, <- app_assoc.
  - cbn [cfg_flows set_flows]. rewrite fmap_app. intros [H|H]%elem_of_app.
    + apply (Hn _ H). right. by left.
    + apply NoDup_cons in Hd as [Hd _]. apply Hd. apply list_elem_of_singleton in H. cbn in H. subst. by left.
Qed.

Lemma builds_tunnelled dstMac name src dscps dst inner :
  builds (f ← createIPv4InIPv4Flow (MakeFlowCreator pktSize pps imix) name dstMac src dscps dst inner; mret [f])
    [(name, tunnelled dstMac src (setIPv4Dst dst) (setIPv4Dst inner) dscps)].
Proof using Hsize Hpps.
  intros c (_ & Hn & _)%NoDup_app. unfold createIPv4InIPv4Flow.
  rewrite (bind_run _ _ _ _ _ (builds_one name _ mret c ltac:(intros H; apply (Hn _ H); by left))). done.
Qed.
End Builds.

(** ** Each scenario *)

Lemma vrf_indexes p : 0 <= NumEncapVRFs p -> vrfIndexes p = seqZ 0 (NumEncapVRFs p).
Proof. intros H. unfold vrfIndexes, BuildEncapVRFs. rewrite length_fmap, length_seqZ. f_equal. lia. Qed.

Lemma decap_dsts p vi : 0 < NumPort2VLANs p <= 2 ^ 20 -> 0 <= vi -> decapInnerDsts p vi = Ret (subsetOf p vi).
Proof.
  intros Hn Hv. destruct (ate_ips _ Hn) as (l & Hl & Hlen).
  assert (ateAddresses p = l) as Hl'.
  { unfold ateAddresses. destruct (GenerateIPsWithStep _ _ _); simpl in Hl; congruence. }
  unfold decapInnerDsts. apply mapM_map. intros j [Hj _]%elem_of_seqZ. fold (subsetCount p) (ateAddresses p).
  assert (1 <= subsetCount p) by (unfold subsetCount; lia). unfold goRem. rewrite (proj2 (Z.eqb_neq (NumPort2VLANs p) 0)) by lia.
  cbn [mbind outcome_bind]. rewrite Hl'.
  assert (0 <= Z.rem (vi * subsetCount p + j) (NumPort2VLANs p) < NumPort2VLANs p) as Hr by (apply Z.rem_bound_pos; nia).
  destruct (index_total l (Z.rem (vi * subsetCount p + j) (NumPort2VLANs p))) as (x & Hx & Hlx); [lia|].
  rewrite Hx. f_equal. symmetry. by apply list_lookup_total_correct.
Qed.

Section Scenarios.
Context (imix : bool) (pktSize pps : Z) (Hsize : imix = false -> pktSize <> 0) (Hpps : pps <> 0).
Context (dstMac : string) (compact : bool) (p : ScaleParams) (Hok : scale_ok p).
Abbreviation builds := (builds imix pktSize pps).

Lemma vrfs_ok : vrfIndexes p = seqZ 0 (NumEncapVRFs p).
Proof using Hok. apply vrf_indexes. pose proof (fatal_checks p (so_valid p Hok)). lia. Qed.

Lemma encap_builds : builds (BuildEncapFlows pktSize pps imix dstMac p) (encapSpecs dstMac p).
Proof using Hsize Hpps Hok.
  unfold BuildEncapFlows. rewrite vrfs_ok. apply builds_concat. intros vi _. by apply builds_pair.
Qed.

Lemma decap_builds : builds (BuildDecapFlows pktSize pps imix dstMac compact p) (decapSpecs dstMac compact p).
Proof using Hsize Hpps Hok.
  unfold BuildDecapFlows, decapSpecs. destruct compact; [by apply builds_tunnelled|].
  rewrite vrfs_ok. apply builds_concat. intros vi [Hvi _]%elem_of_seqZ.
  pose proof (fatal_checks p (so_valid p Hok)). pose proof (so_vlans p Hok).
  intros c Hc. rewrite (lift_run _ _ _ _ (decap_dsts p vi ltac:(lia) Hvi)). by apply builds_tunnelled.
Qed.

Lemma reencap_builds : builds (BuildReencapFlows pktSize pps imix dstMac p) (reencapSpecs dstMac p).
Proof using Hsize Hpps Hok.
  unfold BuildReencapFlows. rewrite vrfs_ok. apply builds_concat. intros vi _. apply builds_concat. intros src _. by apply builds_pair.
Qed.

Lemma tunnel_builds prefix src start inner :
  builds (tunnelFlows prefix src start inner pktSize pps imix dstMac compact p) (tunnelSpecs dstMac compact p prefix src start inner).
Proof using Hsize Hpps Hok.
  unfold tunnelFlows, tunnelSpecs. destruct compact; [by apply builds_tunnelled|].
  rewrite vrfs_ok. apply builds_concat. intros vi _. by apply builds_tunnelled.
Qed.

Lemma scenario_builds b : b ∈ builders pktSize pps imix dstMac compact p ->
  builds (b_build b) (scenarioSpecs dstMac compact p (b_scenario b)).
Proof using Hsize Hpps Hok.
  unfold builders. rewrite !elem_of_cons. intros [->|[->|[->|[->|[->|Hb]]]]]; [..|by apply elem_of_nil in Hb].
  - apply encap_builds. - apply decap_builds. - apply reencap_builds. - apply tunnel_builds. - apply tunnel_builds.
Qed.
End Scenarios.

(** ** The names are different *)

Definition tag (name : string) : string := String.substring 0 3 name.
Definition scenarioTag (sc : TrafficScenario) : string :=
  match sc with
  | ScenarioEncap => "enc" | ScenarioDecap => "dec" | ScenarioReencap => "ree" | ScenarioTransit => "tra" | ScenarioRepaired => "rep"
  end.

Lemma names_bind {A} (f : A -> list spec) l : (l ≫= f).*1 = l ≫= fun x => (f x).*1.
Proof. induction l as [|x l IH]; [done|]. cbn. by rewrite fmap_app, IH. Qed.

Section Names.
Context (dstMac : string) (compact : bool) (p : ScaleParams).

Lemma scenario_tag sc s : s ∈ scenarioSpecs dstMac compact p sc -> tag s.1 = scenarioTag sc.
Proof.
  destruct sc; cbn [scenarioSpecs]; unfold encapSpecs, decapSpecs, reencapSpecs, transitSpecs, repairedSpecs, tunnelSpecs;
    try destruct compact; intros Hs;
    repeat match type of Hs with _ ∈ _ ≫= _ => apply list_elem_of_bind in Hs as (? & Hs & _) end;
    repeat (apply elem_of_cons in Hs as [->|Hs]; [reflexivity|]); by apply elem_of_nil in Hs.
Qed.

(** Names that are a prefix and a number. *)
Lemma numbered_NoDup (prefix suffix : string) n : NoDup (seqZ 0 n ≫= fun vi => [prefix +:+ Itoa vi +:+ suffix]).
Proof.
  apply NoDup_bind; [|intros; apply NoDup_singleton|apply NoDup_seqZ].
  intros x y s _ _ ->%list_elem_of_singleton H%list_elem_of_singleton.
  apply str_app_inj_l, str_app_inj_r in H. by apply (inj pretty) in H.
Qed.

Lemma encap_NoDup : NoDup (encapSpecs dstMac p).*1.
Proof.
  unfold encapSpecs. rewrite names_bind. apply NoDup_bind; [|intros vi _; cbn; apply NoDup_cons; split; [|apply NoDup_singleton]|apply NoDup_seqZ].
  - intros x y s _ _. cbn [fmap list_fmap fst]. rewrite !elem_of_cons. intros [->|[->|[]%elem_of_nil]] [H|[H|[]%elem_of_nil]];
      try discriminate H; apply str_app_inj_l in H; by apply (inj pretty) in H.
  - rewrite list_elem_of_singleton. intros H. discriminate H.
Qed.

Lemma reencap_NoDup : NoDup (reencapSpecs dstMac p).*1.
Proof.
  unfold reencapSpecs. rewrite names_bind. apply NoDup_bind; [..|apply NoDup_seqZ].
  - intros x y s _ _. cbn [fmap list_fmap fst outerSrcs mbind list_bind app]. rewrite !elem_of_cons.
    intros Hx Hy. destruct Hx as [->|[->|[->|[->|[]%elem_of_nil]]]]; destruct Hy as [H|[H|[H|[H|[]%elem_of_nil]]]];
      try discriminate H; apply str_app_inj_l, str_app_inj_len in H as [H H']; try discriminate H'; try done; by apply (inj pretty) in H.
  - intros vi _. cbn [fmap list_fmap fst outerSrcs mbind list_bind app].
    repeat (apply NoDup_cons; split; [rewrite ?elem_of_cons; intros Hx|]); [..|apply NoDup_nil_2].
    + destruct Hx as [H|[H|[H|[]%elem_of_nil]]]; try discriminate H; by apply str_app_inj_l, str_app_inj_l in H.
    + destruct Hx as [H|[H|[]%elem_of_nil]]; try discriminate H; by apply str_app_inj_l, str_app_inj_l in H.
    + destruct Hx as [H|[]%elem_of_nil]; discriminate H.
    + by apply elem_of_nil in Hx.
Qed.

Lemma tunnel_NoDup prefix src start inner : NoDup (tunnelSpecs dstMac compact p prefix src start inner).*1.
Proof.
  unfold tunnelSpecs. destruct compact; [apply NoDup_singleton|]. rewrite names_bind.
  pose proof (numbered_NoDup prefix "" (NumEncapVRFs p)) as H. erewrite list_bind_ext in H; [exact H| |done].
  intros vi. cbn. by rewrite str_app_nil_r.
Qed.

Lemma scenario_NoDup sc : NoDup (scenarioSpecs dstMac compact p sc).*1.
Proof.
  destruct sc; [apply encap_NoDup| |apply reencap_NoDup|apply tunnel_NoDup|apply tunnel_NoDup].
  cbn. unfold decapSpecs. destruct compact; [apply NoDup_singleton|]. rewrite names_bind. apply numbered_NoDup.
Qed.

Lemma flow_names_NoDup repair : NoDup (flowSpecs dstMac compact p repair).*1.
Proof.
  unfold flowSpecs. rewrite names_bind. apply NoDup_bind; [|intros sc _; apply scenario_NoDup|].
  - intros sc sc' n _ _ (s & -> & Hs%scenario_tag)%list_elem_of_fmap (s' & E & Hs'%scenario_tag)%list_elem_of_fmap.
    rewrite E, Hs' in Hs. by destruct sc, sc'.
  - destruct repair; [apply NoDup_singleton|]. cbn [scenarios]. repeat (apply NoDup_cons; split; [set_solver|]). apply NoDup_nil_2.
Qed.

(** The number of flows is the number that the rate is divided by. *)
Lemma length_bind_each {A B} (f : A -> list B) k l : (forall x, length (f x) = k) -> length (l ≫= f) = (length l * k)%nat.
Proof. intros H. induction l as [|x l IH]; [done|]. cbn. rewrite length_app, H, IH. done. Qed.

Lemma count_flows repair : 0 <= NumEncapVRFs p ->
  Z.of_nat (length (flowSpecs dstMac compact p repair)) = CountBaseFlows compact repair p.
Proof.
  intros Hn. assert (forall k (f : Z -> list spec), (forall x, length (f x) = k) ->
    Z.of_nat (length (seqZ 0 (NumEncapVRFs p) ≫= f)) = NumEncapVRFs p * Z.of_nat k) as Hb.
  { intros k f Hf. rewrite (length_bind_each f k) by done. rewrite length_seqZ. lia. }
  assert (forall a b c d, Z.of_nat (length (tunnelSpecs dstMac compact p a b c d)) = if compact then 1 else NumEncapVRFs p) as Ht.
  { intros. unfold tunnelSpecs. destruct compact; [done|]. rewrite (Hb 1%nat) by done. lia. }
  unfold flowSpecs, CountBaseFlows, scenarios. destruct repair; cbn [mbind list_bind scenarioSpecs];
    rewrite ?length_app, ?Nat2Z.inj_add; unfold transitSpecs, repairedSpecs; rewrite !Ht; [cbn; lia|].
  unfold encapSpecs, reencapSpecs, decapSpecs. rewrite (Hb 2%nat), (Hb 4%nat) by done. cbn [length outerSrcs].
  destruct compact; cbn [length]; [lia|]. rewrite (Hb 1%nat) by done. lia.
Qed.
End Names.

(** ** All flows and what is expected of them *)

Definition insertAll {V} (m : gmap string V) (l : list (string * V)) : gmap string V := foldl (fun m '(k, v) => <[k := v]> m) m l.

Lemma insertAll_app {V} (m : gmap string V) l l' : insertAll m (l ++ l') = insertAll (insertAll m l) l'.
Proof. apply foldl_app. Qed.
Lemma insertAll_not {V} (m : gmap string V) l k : k ∉ l.*1 -> insertAll m l !! k = m !! k.
Proof.
  revert m. induction l as [|[k' v] l IH]; intros m; [done|]. cbn. rewrite not_elem_of_cons. intros [Hne Hk].
  etransitivity; [apply IH; exact Hk|]. by rewrite lookup_insert_ne.
Qed.
Lemma insertAll_in {V} (m : gmap string V) l k v : NoDup l.*1 -> (k, v) ∈ l -> insertAll m l !! k = Some v.
Proof.
  revert m. induction l as [|[k' v'] l IH]; intros m; [by intros _ ?%elem_of_nil|]. cbn. intros [Hk' Hl]%NoDup_cons.
  intros [[= -> ->]|Hin]%elem_of_cons; [|by apply IH].
  etransitivity; [apply insertAll_not; exact Hk'|]. apply lookup_insert_eq.
Qed.

Section All.
Context (imix : bool) (pktSize pps : Z) (Hsize : imix = false -> pktSize <> 0) (Hpps : pps <> 0).
Context (dstMac : string) (compact repair : bool) (p : ScaleParams) (Hok : scale_ok p).
Abbreviation specsOf := (scenarioSpecs dstMac compact p).
Abbreviation mk := (portFlowOf imix pktSize pps).

(** The names of the flows of a builder with their expectations. *)
Definition expected (b : builder) : list (string * FlowExpectation) :=
  imap (fun fi s => (s.1, expectation compact repair p (b_scenario b) (b_outerSrc b) (b_needCapture b) (b_multiplier b) fi))
    (specsOf (b_scenario b)).
Definition active (bs : list builder) : list builder :=
  filter (fun b => repair = false \/ b_scenario b = ScenarioTransit) bs.

Lemma zip_flows {V} (E : nat -> V) top pre (specs : list spec) : forall j,
  cfg_flows top = pre ++ (mk <$> specs) ->
  (fun '(fi, f) => (flowName top f, E fi)) <$> zip (seq j (length specs)) (seq (length pre) (length specs)) =
  imap (fun fi s => (s.1, E (j + fi)%nat)) specs.
Proof.
  revert pre. induction specs as [|s specs IH]; intros pre j Hc; [done|]. cbn [length seq zip zip_with fmap list_fmap imap].
  f_equal.
  - unfold flowName. rewrite Hc. cbn [fmap list_fmap]. rewrite list_lookup_middle by done. by rewrite Nat.add_0_r.
  - replace (S (length pre)) with (length (pre ++ [mk s])) by (rewrite length_app; cbn; lia).
    etransitivity; [apply IH; rewrite Hc; cbn; by rewrite <- app_assoc|].
    apply imap_ext. intros i x _. cbn. do 2 f_equal. lia.
Qed.

Lemma register_run {V} (E : nat -> V) top Z : forall ex,
  foldl (fun m '(fi, f) => <[flowName top f := E fi]> m) ex Z = insertAll ex ((fun '(fi, f) => (flowName top f, E fi)) <$> Z).
Proof. induction Z as [|[fi f] Z IH]; intros ex; [done|]. apply IH. Qed.

Lemma buildAll_run bs : forall ex c, (forall b, b ∈ bs -> builds imix pktSize pps (b_build b) (specsOf (b_scenario b))) ->
  NoDup ((fl_name <$> cfg_flows c) ++ (active bs ≫= fun b => specsOf (b_scenario b)).*1) ->
  buildAll compact repair p bs ex c =
  (Ret (seq (length (cfg_flows c)) (length (active bs ≫= fun b => specsOf (b_scenario b))), insertAll ex (active bs ≫= expected)),
   set_flows (cfg_flows c ++ (mk <$> (active bs ≫= fun b => specsOf (b_scenario b)))) c).
Proof.
  induction bs as [|b bs IH]; intros ex c Hb; [intros _; cbn; by rewrite app_nil_r, set_flows_same|].
  unfold active. rewrite filter_cons. fold (active bs).
  assert (forall b, b ∈ bs -> builds imix pktSize pps (b_build b) (specsOf (b_scenario b))) as Hbs by (intros; apply Hb; by right).
  cbn [buildAll]. destruct (decide (repair = false \/ b_scenario b = ScenarioTransit)) as [Ha|Ha].
  - replace (repair && negb (bool_decide (b_scenario b = ScenarioTransit))) with false
      by (destruct Ha as [->| ->]; [done|by rewrite bool_decide_true, andb_false_r]).
    cbn [mbind list_bind]. rewrite fmap_app, app_assoc. intros Hn. pose proof Hn as (Hn1 & _ & _)%NoDup_app.
    rewrite (bind_run _ _ _ _ _ (Hb b ltac:(by left) c Hn1)), (bind_run getState _ _ _ _ eq_refl).
    rewrite <- (names_mk imix pktSize pps), <- fmap_app in Hn. rewrite length_seq.
    rewrite (register_run (expectation compact repair p (b_scenario b) (b_outerSrc b) (b_needCapture b) (b_multiplier b))).
    rewrite (zip_flows _ (set_flows _ c) _ _ 0 eq_refl). cbn [Nat.add]. fold (expected b).
    rewrite (bind_run _ _ _ _ _ (IH _ (set_flows _ c) Hbs Hn)). unfold mret, gost_ret. cbn [cfg_flows set_flows].
    by rewrite set_flows_set, fmap_app, <- app_assoc, !length_app, length_fmap, seq_app, insertAll_app.
  - replace (repair && negb (bool_decide (b_scenario b = ScenarioTransit))) with true
      by (rewrite bool_decide_false by tauto; destruct repair; tauto).
    apply IH. done.
Qed.
End All.

(** ** The traffic that is configured *)

(** The DSCP values in the first IP header of a flow. *)
Definition sentDSCPs (hs : list Header) : list Z :=
  match hs with
  | _ :: Ipv4 _ _ _ (Some (Dscp (Values l))) :: _ => l
  | _ :: Ipv6 _ _ _ (Some (Values l)) :: _ => (fun c => Z.shiftr c 2) <$> l
  | _ => []
  end.

Lemma lookup_bind_const {A B} (f : A -> list B) k l : forall i s, (0 < k)%nat -> (forall x, length (f x) = k) ->
  (l ≫= f) !! i = Some s -> exists x, l !! (i / k)%nat = Some x /\ s ∈ f x.
Proof.
  induction l as [|x l IH]; intros i s Hk Hf; [done|]. cbn [mbind list_bind]. rewrite lookup_app_Some, Hf. intros [H|[Hle H]].
  - exists x. rewrite Nat.div_small by (apply lookup_lt_Some in H; by rewrite Hf in H). split; [done|]. by apply list_elem_of_lookup_2 in H.
  - apply IH in H as (y & Hy & Hs); [|done..]. exists y. split; [|done].
    replace i with (i - k + 1 * k)%nat by lia. rewrite Nat.div_add, Nat.add_1_r by lia. done.
Qed.

Lemma classes_dscps vi : (fun c => Z.shiftr c 2) <$> classesOf vi = dscpsOf vi.
Proof.
  assert (forall d, Z.shiftr (uint32 (Z.shiftl (uint8 d) 2)) 2 = uint8 d) as H.
  { intros d. unfold uint32, uint8. rewrite Z.shiftl_mul_pow2, Z.shiftr_div_pow2 by lia.
    pose proof (Z.mod_pos_bound d (2 ^ 8)). rewrite Z.mod_small by lia. by rewrite Z.div_mul. }
  unfold classesOf, dscpsOf, EncapVRFDSCP. cbn. by rewrite !H.
Qed.

Section Configured.
Context (dstMac : string) (imix compact repair : bool) (p : ScaleParams) (Hok : scale_ok p).
Abbreviation pps := (perFlowPPS compact repair p).
Abbreviation pktSize := (if imix then 0 else 64).
Abbreviation all := (builders pktSize pps imix dstMac compact p).

Lemma spec_dscps b fi s : b ∈ all -> scenarioSpecs dstMac compact p (b_scenario b) !! fi = Some s ->
  sentDSCPs s.2 = ExpectedDSCPs (expectation compact repair p (b_scenario b) (b_outerSrc b) (b_needCapture b) (b_multiplier b) fi).
Proof.
  assert (forall (k : nat) (f : Z -> list spec), (0 < k)%nat -> (forall x, length (f x) = k) ->
    (seqZ 0 (NumEncapVRFs p) ≫= f) !! fi = Some s ->
    s ∈ f (Z.quot (Z.of_nat fi) (Z.of_nat k))) as Hb.
  { intros k f Hk Hf H. apply (lookup_bind_const f k) in H as (x & [Hx _]%lookup_seqZ & Hs); [|done..].
    rewrite Z.add_0_l, Nat2Z.inj_div in Hx. by rewrite Z.quot_div_nonneg, <- Hx by lia. }
  unfold builders. rewrite !elem_of_cons. intros [->|[->|[->|[->|[->|[]%elem_of_nil]]]]];
    cbn [b_scenario b_outerSrc b_needCapture b_multiplier scenarioSpecs];
    unfold encapSpecs, decapSpecs, reencapSpecs, transitSpecs, repairedSpecs, tunnelSpecs, expectation; cbn [ExpectedDSCPs].
  - rewrite bool_decide_false, andb_false_r by naive_solver. intros H. apply (Hb 2%nat) in H; [|lia|done].
    rewrite !elem_of_cons in H. destruct H as [->|[->|[]%elem_of_nil]]; [done|apply classes_dscps].
  - rewrite bool_decide_true, andb_true_r by naive_solver. destruct compact.
    + intros H%list_elem_of_lookup_2. by apply list_elem_of_singleton in H as ->.
    + intros H. apply (Hb 1%nat) in H; [|lia|done]. by apply list_elem_of_singleton in H as ->.
  - rewrite bool_decide_false, andb_false_r by naive_solver. intros H. apply (Hb 4%nat) in H; [|lia|done].
    cbn [outerSrcs mbind list_bind app] in H. rewrite !elem_of_cons in H. by destruct H as [->|[->|[->|[->|[]%elem_of_nil]]]].
  - rewrite bool_decide_true, andb_true_r by naive_solver. destruct compact.
    + intros H%list_elem_of_lookup_2. by apply list_elem_of_singleton in H as ->.
    + intros H. apply (Hb 1%nat) in H; [|lia|done]. by apply list_elem_of_singleton in H as ->.
  - rewrite bool_decide_true, andb_true_r by naive_solver. destruct compact.
    + intros H%list_elem_of_lookup_2. by apply list_elem_of_singleton in H as ->.
    + intros H. apply (Hb 1%nat) in H; [|lia|done]. by apply list_elem_of_singleton in H as ->.
Qed.

Lemma active_specs : (active repair all ≫= fun b => scenarioSpecs dstMac compact p (b_scenario b)) = flowSpecs dstMac compact p repair.
Proof.
  unfold active, flowSpecs, builders. destruct repair;
    repeat (rewrite filter_cons_True by (cbn; tauto) || rewrite filter_cons_False by (cbn; intros [H|H]; discriminate H));
    reflexivity.
Qed.
Definition expectations : gmap string FlowExpectation := insertAll ∅ (active repair all ≫= expected dstMac compact repair p).

Lemma expected_names bs : (bs ≫= expected dstMac compact repair p).*1 = (bs ≫= fun b => scenarioSpecs dstMac compact p (b_scenario b)).*1.
Proof.
  induction bs as [|b bs IH]; [done|]. cbn. rewrite !fmap_app, IH. f_equal. unfold expected. rewrite fmap_imap. symmetry.
  etransitivity; [symmetry; apply imap_const|]. by apply imap_ext.
Qed.

Lemma expectation_of s : s ∈ flowSpecs dstMac compact p repair ->
  exists ex, expectations !! s.1 = Some ex /\ ExpectedDSCPs ex = sentDSCPs s.2 /\ s ∈ scenarioSpecs dstMac compact p (Scenario ex).
Proof.
  rewrite <- active_specs. intros (b & Hs & Hb)%list_elem_of_bind. apply list_elem_of_lookup in Hs as [fi Hs].
  exists (expectation compact repair p (b_scenario b) (b_outerSrc b) (b_needCapture b) (b_multiplier b) fi).
  split; [|split; [|cbn [Scenario expectation]; by eapply list_elem_of_lookup_2]].
  - apply insertAll_in; [rewrite expected_names, active_specs; apply flow_names_NoDup|].
    apply list_elem_of_bind. exists b. split; [|exact Hb]. apply list_elem_of_lookup_2 with fi. unfold expected. by rewrite list_lookup_imap, Hs.
  - symmetry. apply spec_dscps; [|done]. unfold active in Hb. by apply list_elem_of_filter in Hb as [_ Hb].
Qed.
Lemma no_expectation k : k ∉ (flowSpecs dstMac compact p repair).*1 -> expectations !! k = None.
Proof. intros H. unfold expectations. rewrite insertAll_not; [done|]. by rewrite expected_names, active_specs. Qed.

Lemma count_bounds : 1 <= CountBaseFlows compact repair p < 2 ^ 64.
Proof using Hok.
  pose proof (fatal_checks p (so_valid p Hok)) as H. pose proof (so_encap p Hok) as He. unfold CountBaseFlows. cbn [outerSrcs length].
  destruct compact, repair; lia.
Qed.
Lemma rate_pos : 0 <= TrafficRateMpps p -> 1 <= pps.
Proof.
  intros H. unfold perFlowPPS. pose proof (Z.mod_pos_bound (Z.max (CountBaseFlows compact repair p) 1) (2 ^ 64)).
  destruct (Z.eqb_spec (TrafficRateMpps p / uint64 (Z.max (CountBaseFlows compact repair p) 1)) 0) as [|Hne]; [lia|].
  enough (0 <= TrafficRateMpps p / uint64 (Z.max (CountBaseFlows compact repair p) 1)) by lia.
  destruct (Z.eq_dec (uint64 (Z.max (CountBaseFlows compact repair p) 1)) 0) as [->|]; [by rewrite Z.div_0_r|].
  apply Z.div_pos; unfold uint64 in *; lia.
Qed.
(** Rounding down loses less than one packet per second and flow. *)
Lemma rate_bounds : CountBaseFlows compact repair p <= TrafficRateMpps p ->
  CountBaseFlows compact repair p * pps <= TrafficRateMpps p < CountBaseFlows compact repair p * (pps + 1).
Proof using Hok.
  intros H. pose proof count_bounds as Hc. unfold perFlowPPS. rewrite Z.max_l by lia. unfold uint64. rewrite Z.mod_small by lia.
  pose proof (Z.div_mod (TrafficRateMpps p) (CountBaseFlows compact repair p) ltac:(lia)).
  pose proof (Z.mod_pos_bound (TrafficRateMpps p) (CountBaseFlows compact repair p) ltac:(lia)).
  pose proof (Z.div_le_lower_bound (TrafficRateMpps p) (CountBaseFlows compact repair p) 1 ltac:(lia) ltac:(lia)).
  destruct (Z.eqb_spec (TrafficRateMpps p / CountBaseFlows compact repair p) 0); nia.
Qed.

(** With more flows than packets per second every flow sends one, and together they
    exceed the rate. *)
Lemma rate_clamped : 0 <= TrafficRateMpps p < CountBaseFlows compact repair p ->
  pps = 1 /\ TrafficRateMpps p < CountBaseFlows compact repair p * pps.
Proof using Hok.
  intros H. pose proof count_bounds as Hc. assert (pps = 1) as ->; [|lia].
  unfold perFlowPPS. rewrite Z.max_l by lia. unfold uint64. rewrite Z.mod_small by lia. by rewrite Z.div_small by lia.
Qed.

Lemma prepare_run cap t : 0 <= TrafficRateMpps p -> exists t',
  prepareTraffic dstMac imix repair cap compact p t = (Ret (seq 0 (length (flowSpecs dstMac compact p repair)), expectations), t') /\
  cfg_flows (t_top t') = (portFlowOf imix 64 pps <$> flowSpecs dstMac compact p repair) /\ t_errors t' = t_errors t.
Proof using Hok.
  intros Hr. unfold prepareTraffic. rewrite (bind_run (onTop (modify _)) _ t tt (set_top (set_flows [] (t_top t)) t) eq_refl).
  pose proof (rate_pos Hr) as Hp.
  assert (buildAll compact repair p all ∅ (set_flows [] (t_top t)) = (Ret (seq 0 (length (flowSpecs dstMac compact p repair)), expectations),
    set_flows (portFlowOf imix 64 pps <$> flowSpecs dstMac compact p repair) (t_top t))) as Hb.
  { rewrite (buildAll_run imix pktSize pps dstMac compact repair p).
    - rewrite active_specs. cbn [set_flows cfg_flows length app]. rewrite set_flows_set. unfold expectations. by destruct imix.
    - intros b. apply scenario_builds; [by intros ->|lia|done].
    - rewrite active_specs. apply flow_names_NoDup. }
  assert (onTop (buildAll compact repair p all ∅) (set_top (set_flows [] (t_top t)) t) =
    (Ret (seq 0 (length (flowSpecs dstMac compact p repair)), expectations),
     set_top (set_flows (portFlowOf imix 64 pps <$> flowSpecs dstMac compact p repair) (t_top t)) t)) as Ho.
  { unfold onTop. cbn [t_top set_top]. by rewrite Hb. }
  rewrite (bind_run _ _ _ _ _ Ho). destruct cap; eexists; (split; [reflexivity|]); done.
Qed.
End Configured.

(** C9: the traffic of the full scale test is configured as meant for all
    parameters that the code accepts (sizes within the address blocks): the flows are
    exactly those of the reference list, in its order, with different names, from port 1
    to port 2, continuous; there are as many as the rate is divided by.  When the rate
    is at least one packet per second and flow, together they send the configured rate
    up to less than a packet per second and flow; below that every flow sends one packet
    per second, and together they exceed the configured rate.  The DSCP values that the
    capture is to show for a flow are those that the flow is sent with. *)
Theorem traffic_configured dstMac imix compact repair cap p t :
  scale_ok p -> 0 <= TrafficRateMpps p < 2 ^ 64 ->
  exists ex t',
    let specs := flowSpecs dstMac compact p repair in
    let pps := perFlowPPS compact repair p in
    let total := Z.of_nat (length specs) * pps in
    prepareTraffic dstMac imix repair cap compact p t = (Ret (seq 0 (length specs), ex), t') /\
    cfg_flows (t_top t') = (portFlowOf imix 64 pps <$> specs) /\ NoDup specs.*1 /\
    Z.of_nat (length specs) = CountBaseFlows compact repair p /\
    (if Z.of_nat (length specs) <=? TrafficRateMpps p
     then total <= TrafficRateMpps p < total + Z.of_nat (length specs)
     else pps = 1 /\ TrafficRateMpps p < total) /\
    (forall s, s ∈ specs -> exists e, ex !! s.1 = Some e /\ ExpectedDSCPs e = sentDSCPs s.2) /\
    (forall k, k ∉ specs.*1 -> ex !! k = None).
Proof.
  intros Hok Hr. pose proof (count_bounds compact repair p Hok) as Hc.
  destruct (prepare_run dstMac imix compact repair p Hok cap t ltac:(lia)) as (t' & Hrun & Hfl & _).
  exists (expectations dstMac imix compact repair p), t'. cbn zeta.
  rewrite (count_flows dstMac compact p repair) by (pose proof (fatal_checks p (so_valid p Hok)); lia).
  split_and!; [done|done|apply flow_names_NoDup|done| | |apply no_expectation].
  2:{ intros s Hs. destruct (expectation_of dstMac imix compact repair p s Hs) as (e & ? & ? & _). by exists e. }
  destruct (Z.leb_spec (CountBaseFlows compact repair p) (TrafficRateMpps p)) as [Hle|Hlt].
  - pose proof (rate_bounds compact repair p Hok Hle). lia.
  - apply rate_clamped; [done|lia].
Qed.

Definition idleTest : Test := {| t_top := NewConfig; t_otg := []; t_admin := ∅; t_errors := []; t_capture := emptyWorld |}.

(** The largest test: 144 flows of 208333 packets per second, 30 million together. *)
Lemma traffic_configured_witness :
  exists t', (prepareTraffic "02:00:00:00:00:01" false false true false (t3Params 1000) idleTest).2 = t' /\
    length (cfg_flows (t_top t')) = 144%nat /\ perFlowPPS false false (t3Params 1000) = 208333.
Proof.
  destruct (traffic_configured "02:00:00:00:00:01" false false false true (t3Params 1000) idleTest) as (ex & t' & Hrun & Hfl & _ & Hlen & _);
    [apply t3_ok; lia|split; [vm_compute; discriminate|reflexivity]|].
  exists t'. cbn zeta in Hrun. rewrite Hrun. split_and!; [done| |reflexivity].
  rewrite Hfl, length_fmap. apply Nat2Z.inj. rewrite Hlen. reflexivity.
Defined.
