(* ===== verification/ScaleFlows.v ===== *)
(** Theorems on the traffic of the gRIBI full scale test: the flows that are built
    and their rate, the subinterfaces after a repair test, and what the inspection of
    captured packets can report. *)
From stdpp Require Import base list gmap strings.
From Stdlib Require Import ZArith Lia.
From S2P Require Import Prelude GoStrings Net IPUtil NhgBuckets GribiScale GribiRefs GribiProgram GribiRun Floats OtgFlows PacketVal ScaleTraffic FlowSpecs.
Open Scope string_scope.
Open Scope Z_scope.
Open Scope list_scope.

(** * Code that relates the states before and after *)

Section Keeps.
Context (R : Test -> Test -> Prop) `{!PreOrder R}.

Definition keeps {A} (m : gost Test A) : Prop := forall t, R t (m t).2.

Lemma stays_ret {A} (a : A) : keeps (mret a).
Proof. intros t. reflexivity. Qed.
Lemma stays_lift {A} (m : go A) : keeps (lift m).
Proof. intros t. reflexivity. Qed.
Lemma keeps_getState : keeps getState.
Proof. intros t. reflexivity. Qed.
Lemma stays_bind {A B} (m : gost Test A) (k : A -> gost Test B) : keeps m -> (forall a, keeps (k a)) -> keeps (m ≫= k).
Proof.
  intros Hm Hk t. specialize (Hm t). unfold mbind, gost_bind. destruct (m t) as [[a|e| |] t']; [|done..].
  simpl in Hm. etransitivity; [exact Hm|apply Hk].
Qed.
Lemma keeps_forEach {A} (f : A -> gost Test unit) l : (forall x, keeps (f x)) -> keeps (forEach f l).
Proof. intros Hf. induction l as [|x l IH]; [apply stays_ret|]. apply stays_bind; auto. Qed.
Lemma keeps_whenT b m : keeps m -> keeps (whenT b m).
Proof. by destruct b; [|intros _; apply stays_ret]. Qed.
Lemma keeps_finally m d : keeps m -> keeps d -> keeps (finally m d).
Proof.
  intros Hm Hd t. specialize (Hm t). unfold finally. destruct (m t) as [r t']. specialize (Hd t').
  destruct (d t') as [r' t'']. simpl in *. by etransitivity.
Qed.
Lemma keeps_report {A} msg (m : go A) : (forall msg, keeps (Errorf_ msg)) -> keeps (report msg m).
Proof. intros He. destruct m; [apply stays_ret|apply He|apply stays_lift..]. Qed.
End Keeps.

Create HintDb keeps.
#[export] Hint Resolve stays_ret stays_lift keeps_getState stays_bind keeps_forEach keeps_whenT keeps_finally keeps_report : keeps.

(** ** The admin state changes only where it is set *)

Definition same_admin (t t' : Test) : Prop := t_admin t' = t_admin t.
#[export] Instance same_admin_preorder : PreOrder same_admin.
Proof. split; [done|]. unfold same_admin. intros x y z. congruence. Qed.

Section Admin.
Variables (sets : bool -> SetResult) (reaches : Z -> bool -> go bool) (counters : string -> Z * Z) (captures : string -> CaptureFile).
Variable NewPacket : list Z -> LayerType -> Packet.
Variables (orderFlows : gmap string FlowExpectation -> list string)
  (orderScenarios : list TrafficScenario -> list TrafficScenario).

Lemma admin_Errorf msg : keeps same_admin (Errorf_ msg).
Proof. by intros t. Qed.
Lemma admin_act f : keeps same_admin (act f).
Proof. by intros t. Qed.
Lemma admin_onTop {A} (m : otg A) : keeps same_admin (onTop m).
Proof. intros t. unfold onTop. by destruct (m (t_top t)). Qed.
Lemma admin_clear : keeps same_admin clearAndConfigureCapture.
Proof. by intros t. Qed.
#[local] Hint Resolve admin_Errorf admin_act admin_onTop admin_clear : keeps.

Lemma admin_verify a b e : keeps same_admin (verifySubinterfaceStatus reaches a b e).
Proof. apply keeps_forEach; [apply _|]. intros i. apply stays_bind; [apply _|apply stays_lift, _|]. intros []; auto with keeps. Qed.
Lemma admin_scenario capVal se : keeps same_admin (validateScenario captures NewPacket capVal se).
Proof.
  intros t. unfold validateScenario. destruct (CaptureAndValidatePackets _ _ _ _) as [r w].
  destruct r; done.
Qed.
Lemma admin_captured capVal ex :
  keeps same_admin (ValidateCapturedPackets captures NewPacket orderFlows orderScenarios capVal ex).
Proof.
  apply keeps_forEach; [apply _|]. intros sc.
  destruct (list_find _ _) as [[i se]|]; [apply admin_scenario|apply stays_ret; apply _].
Qed.
#[local] Hint Resolve admin_verify admin_captured : keeps.

Lemma admin_prepare dstMac imix repair cap compact p : keeps same_admin (prepareTraffic dstMac imix repair cap compact p).
Proof. unfold prepareTraffic, pushTop, tell. eauto 20 with keeps typeclass_instances. Qed.
Lemma admin_traffic cap p built :
  keeps same_admin (runTraffic counters captures NewPacket orderFlows orderScenarios cap p built).
Proof. unfold runTraffic, checkLoss, tell. eauto 20 with keeps typeclass_instances. Qed.
End Admin.

(** ** Repair tests *)

Lemma foldl_insert_lookup (b : bool) l (m : gmap Z bool) i :
  foldl (fun m i => <[i := b]> m) m l !! i = if decide (i ∈ l) then Some b else m !! i.
Proof.
  induction l as [|x l IH] using rev_ind; [done|]. rewrite foldl_snoc. destruct (decide (i = x)) as [->|Hne].
  - rewrite lookup_insert_eq, decide_True; [done|]. apply elem_of_app. right. by left.
  - rewrite lookup_insert_ne, IH by done. apply decide_ext. rewrite elem_of_app, list_elem_of_singleton. tauto.
Qed.

Section Repair.
Context (sets : bool -> SetResult) (reaches : Z -> bool -> go bool) (counters : string -> Z * Z) (captures : string -> CaptureFile)
  (NewPacket : list Z -> LayerType -> Packet) (orderFlows : gmap string FlowExpectation -> list string)
  (orderScenarios : list TrafficScenario -> list TrafficScenario).
Abbreviation run := (RunEndToEndTrafficValidation sets reaches counters captures NewPacket orderFlows orderScenarios).

Lemma admin_of_set b e t : t_admin (setDUTSubinterfaceAdminState sets 1 b e t).2 =
  match sets e with Refused => t_admin t | _ => foldl (fun m i => <[i := e]> m) (t_admin t) (seqZ 1 b) end.
Proof. unfold setDUTSubinterfaceAdminState. replace (b - 1 + 1) with b by lia. by destruct (sets e). Qed.

(** The code behind the shutdown, which is undone by the deferred function. *)
Lemma repair_admin_run p (body : gost Test unit) t i : keeps same_admin body ->
  t_admin ((_ ← setDUTSubinterfaceAdminState sets 1 (downCount p) false;
            finally body (_ ← setDUTSubinterfaceAdminState sets 1 (downCount p) true;
                          verifySubinterfaceStatus reaches 1 (downCount p) true)) t).2 !! i =
  if decide (i ∈ seqZ 1 (downCount p)) then
    match sets false, sets true with
    | Refused, _ => t_admin t !! i
    | Unanswered, _ | Applied, Refused => Some false
    | Applied, _ => Some true
    end
  else t_admin t !! i.
Proof.
  intros Hb. unfold mbind at 1, gost_bind at 1. pose proof (admin_of_set (downCount p) false t) as H1.
  destruct (setDUTSubinterfaceAdminState sets 1 (downCount p) false t) as [r t2] eqn:E1. unfold setDUTSubinterfaceAdminState in E1.
  destruct (sets false) eqn:Ef; injection E1 as <- _; cbn [snd] in *.
  2: by rewrite H1; case_decide. 2: by rewrite H1, foldl_insert_lookup.
  unfold finally. pose proof (Hb t2) as H3. destruct (body t2) as [r t3]. cbn [snd] in H3.
  unfold mbind at 1, gost_bind at 1. pose proof (admin_of_set (downCount p) true t3) as H4.
  destruct (setDUTSubinterfaceAdminState sets 1 (downCount p) true t3) as [r4 t4] eqn:E4. unfold setDUTSubinterfaceAdminState in E4.
  destruct (sets true); injection E4 as <- _; cbn [snd] in *; unfold same_admin in H3; rewrite H3 in H4.
  2,3: rewrite H4, ?H1, ?foldl_insert_lookup; case_decide; rewrite ?foldl_insert_lookup, ?decide_False by done; done.
  pose proof (admin_verify reaches 1 (downCount p) true t4) as H5.
  destruct (verifySubinterfaceStatus reaches 1 (downCount p) true t4) as [r5 t5]. cbn [snd] in *.
  unfold same_admin in *. rewrite H5, H4, H1, !foldl_insert_lookup. by case_decide.
Qed.

Lemma repair_admin dstMac imix cap compact p t :
  let t' := (run dstMac imix true cap compact p t).2 in
  t_admin t' = t_admin t \/
  forall i, t_admin t' !! i = if decide (i ∈ seqZ 1 (downCount p)) then
    match sets false, sets true with
    | Refused, _ => t_admin t !! i
    | Unanswered, _ | Applied, Refused => Some false
    | Applied, _ => Some true
    end
  else t_admin t !! i.
Proof.
  cbn zeta. unfold RunEndToEndTrafficValidation.
  pose proof (admin_prepare dstMac imix true cap compact p t) as Hp.
  destruct (prepareTraffic dstMac imix true cap compact p t) as [r t1] eqn:E. cbn [snd] in Hp.
  destruct r as [built|e| |]; [right|left; unfold mbind at 1, gost_bind at 1; rewrite E; exact Hp..].
  intros i. rewrite (bind_run _ _ _ _ _ E), <- Hp. apply repair_admin_run.
  apply stays_bind; [apply _|apply admin_verify|]. intros _. apply admin_traffic.
Qed.
End Repair.

(** C28: after a traffic validation a subinterface of the device is disabled that was
    not disabled before only when a Set of the test itself failed: in a repair test the
    Set that shuts the subinterfaces down failed although the device took it (the
    function that enables them is deferred only afterwards), or the device refused the
    Set of the deferred function.  Otherwise, however the validation ends, also when a
    flow had no packets, a capture could not be opened or a status was not seen, the
    subinterfaces are enabled again. *)
Theorem traffic_restores_subinterfaces sets reaches counters captures NewPacket orderFlows orderScenarios
    dstMac imix repair cap compact p t i :
  t_admin (RunEndToEndTrafficValidation sets reaches counters captures NewPacket orderFlows orderScenarios
             dstMac imix repair cap compact p t).2 !! i = Some false ->
  t_admin t !! i = Some false \/
  (repair = true /\ 1 <= i <= downCount p /\ (sets false = Unanswered \/ sets false = Applied /\ sets true = Refused)).
Proof.
  destruct repair.
  - destruct (repair_admin sets reaches counters captures NewPacket orderFlows orderScenarios dstMac imix cap compact p t) as [->|H];
      [by left|]. rewrite H. case_decide as Hi; [|by left]. apply elem_of_seqZ in Hi.
    destruct (sets false), (sets true); try done; intros Hf; try (left; exact Hf); right; (split; [done|split; [lia|tauto]]).
  - assert (keeps same_admin (RunEndToEndTrafficValidation sets reaches counters captures NewPacket orderFlows orderScenarios
      dstMac imix false cap compact p)) as Hk.
    { apply stays_bind; [apply _|apply admin_prepare|]. intros built. apply admin_traffic. }
    rewrite (Hk t). by left.
Qed.

(** * Captured packets *)

(** ** Failures are only added *)

Definition more_errors (t t' : Test) : Prop := exists e, t_errors t' = t_errors t ++ e.
#[export] Instance more_errors_preorder : PreOrder more_errors.
Proof.
  split; [intros t; exists []; by rewrite app_nil_r|]. intros x y z [e He] [e' He']. exists (e ++ e'). by rewrite He', He, app_assoc.
Qed.

Section Captured.
Context (counters : string -> Z * Z) (captures : string -> CaptureFile)
  (NewPacket : list Z -> LayerType -> Packet) (orderFlows : gmap string FlowExpectation -> list string)
  (orderScenarios : list TrafficScenario -> list TrafficScenario).

Lemma errors_scenario capVal se : keeps more_errors (validateScenario captures NewPacket capVal se).
Proof.
  intros t. unfold validateScenario. destruct (CaptureAndValidatePackets _ _ _ _) as [r w].
  destruct r; simpl; try (exists []; by rewrite app_nil_r). by eexists.
Qed.

(** Every packet has the TTL that the scenarios ask for only when it is zero. *)
Lemma scenario_needs_zero_TTL capVal se packets t t' name :
  createTemp (captures (PortName capVal)) = Ret name -> writeBytes (captures (PortName capVal)) = Ret tt ->
  openOffline (captures (PortName capVal)) = Ret packets ->
  (forall p ip, p ∈ packets -> pk_IPv4 p = Some ip -> ip_TTL ip <> 0) ->
  validateScenario captures NewPacket capVal se t = (Ret tt, t') -> t_errors t' <> t_errors t.
Proof.
  intros Hc Hw Ho Httl. unfold validateScenario, CaptureAndValidatePackets.
  set (pv := capturedValidation capVal se.2 se.1). change (PortName pv) with (PortName capVal). rewrite Hc, Hw, Ho.
  destruct (runValidations NewPacket pv (Validations pv) packets) as [[r e] rest] eqn:Er.
  assert (r <> Ret tt) as Hr.
  { intros ->. assert (accepts NewPacket pv (Validations pv) packets) as (rest' & (pre & p & -> & _ & _ & w & ip & Hw' & Hip & Hok) & _)
      by (apply runValidations_correct; eauto).
    assert (ip_TTL ip = 0) as H0.
    { destruct Hok as (_ & _ & H & _). rewrite H. injection Hw' as <-. by destruct se as [[] ?]. }
    apply (Httl p ip); [set_solver|done|done]. }
  destruct r as [[]|err| |]; simpl; [done| |done..]. intros [= <-]. simpl.
  intros H. apply (f_equal length) in H. rewrite length_app in H. simpl in H. lia.
Qed.

Lemma errors_Errorf msg : keeps more_errors (Errorf_ msg).
Proof. intros t. by eexists. Qed.
Lemma errors_act f : keeps more_errors (act f).
Proof. intros t. exists []. by rewrite app_nil_r. Qed.
Lemma errors_admin sets a b e : keeps more_errors (setDUTSubinterfaceAdminState sets a b e).
Proof. intros t. exists []. unfold setDUTSubinterfaceAdminState. rewrite app_nil_r. by destruct (sets e). Qed.
#[local] Hint Resolve errors_Errorf errors_act errors_admin : keeps.
Lemma errors_verify reaches a b e : keeps more_errors (verifySubinterfaceStatus reaches a b e).
Proof. apply keeps_forEach; [apply _|]. intros i. apply stays_bind; [apply _|apply stays_lift, _|]. intros []; eauto with keeps typeclass_instances. Qed.
Lemma errors_loss p l : keeps more_errors (checkLoss counters p l).
Proof. unfold checkLoss. eauto 20 with keeps typeclass_instances. Qed.

(** Code that does not return without reporting a failure. *)
Definition fails (m : gost Test unit) : Prop := forall t t', m t = (Ret tt, t') -> t_errors t' <> t_errors t.

Lemma more_longer t t' t'' : more_errors t t' -> more_errors t' t'' -> t_errors t'' = t_errors t ->
  t_errors t' = t_errors t /\ t_errors t'' = t_errors t'.
Proof.
  intros [e He] [e' He'] H. rewrite He', He in H. apply (f_equal length) in H as Hl. rewrite !length_app in Hl.
  destruct e; [|simpl in Hl; lia]. destruct e'; [|simpl in Hl; lia]. by rewrite He', He, !app_nil_r.
Qed.
Lemma fails_after {A} (m : gost Test A) k : keeps more_errors m -> (forall a, keeps more_errors (k a)) ->
  (forall a, fails (k a)) -> fails (m ≫= k).
Proof.
  intros Hm Hk Hf t t' H E. apply bind_run_inv in H as (a & t1 & H1 & H2). pose proof (Hm t) as M1. pose proof (Hk a t1) as M2.
  rewrite H1 in M1. rewrite H2 in M2. destruct (more_longer _ _ _ M1 M2 E) as [_ E2]. by apply (Hf a t1 t').
Qed.
Lemma fails_before (m : gost Test unit) k : keeps more_errors m -> (forall a, keeps more_errors (k a)) ->
  fails m -> fails (m ≫= k).
Proof.
  intros Hm Hk Hf t t' H E. apply bind_run_inv in H as ([] & t1 & H1 & H2). pose proof (Hm t) as M1. pose proof (Hk tt t1) as M2.
  rewrite H1 in M1. rewrite H2 in M2. destruct (more_longer _ _ _ M1 M2 E) as [E1 _]. by apply (Hf t t1).
Qed.
Lemma fails_finally m d : keeps more_errors m -> keeps more_errors d -> fails m -> fails (finally m d).
Proof.
  intros Hm Hd Hf t t'. unfold finally. pose proof (Hm t) as M1. destruct (m t) as [r t1] eqn:H1. pose proof (Hd t1) as M2.
  destruct (d t1) as [r' t2]. intros [= Hr <-] E. assert (r = Ret tt) as -> by (by destruct r'). destruct (more_longer _ _ _ M1 M2 E) as [E1 _]. by apply (Hf t t1).
Qed.
Lemma fails_forEach {A} (f : A -> gost Test unit) l x : x ∈ l -> (forall y, keeps more_errors (f y)) -> fails (f x) -> fails (forEach f l).
Proof.
  intros Hx Hk Hf. induction l as [|y l IH]; [by apply elem_of_nil in Hx|]. cbn [forEach].
  assert (keeps more_errors (forEach f l)) as Hl by (apply keeps_forEach; [apply _|done]).
  apply elem_of_cons in Hx as [->|Hx]; [by apply fails_before|]. by apply fails_after; auto.
Qed.

Lemma errors_captured capVal ex : keeps more_errors (ValidateCapturedPackets captures NewPacket orderFlows orderScenarios capVal ex).
Proof.
  apply keeps_forEach; [apply _|]. intros sc. destruct (list_find _ _) as [[i se]|]; [apply errors_scenario|apply stays_ret; apply _].
Qed.

Lemma representatives_nonempty ex k e : ex !! k = Some e -> k ∈ orderFlows ex -> representatives orderFlows ex <> [].
Proof.
  intros Hk Hin. unfold representatives.
  assert (forall seen : list (TrafficScenario * FlowExpectation), seen <> [] \/ k ∈ orderFlows ex -> foldl (fun seen name => match ex !! name with
    | Some exp => if bool_decide (Scenario exp ∈ seen.*1) then seen else seen ++ [(Scenario exp, exp)]
    | None => seen end) seen (orderFlows ex) <> []) as H; [|apply H; by right].
  clear Hin. induction (orderFlows ex) as [|x l IH]; intros seen; cbn [foldl]; [by intros [?| ?%elem_of_nil]|]. intros Hs. apply IH.
  destruct (decide (x = k)) as [->|Hne].
  - left. rewrite Hk. case_bool_decide as Hd; [intros ->; by apply elem_of_nil in Hd|by destruct seen].
  - destruct Hs as [Hs|[->|Hs]%elem_of_cons]; [left|done|by right]. destruct (ex !! x); [|done]. case_bool_decide; [done|by destruct seen].
Qed.

Section Rejected.
Context (name : string) (packets : list Packet) (Hfile : captures "port2" =
  {| createTemp := Ret name; writeBytes := Ret tt; openOffline := Ret packets |}).
Context (Httl : forall p ip, p ∈ packets -> pk_IPv4 p = Some ip -> ip_TTL ip <> 0).
Context (Hflows : forall ex k, is_Some (ex !! k) -> k ∈ orderFlows ex) (Hscen : forall l, orderScenarios l ≡ₚ l).

Lemma captured_fails ex k e : ex !! k = Some e ->
  fails (ValidateCapturedPackets captures NewPacket orderFlows orderScenarios capturePort2 ex).
Proof using All.
  intros Hk. pose proof (representatives_nonempty ex k e Hk (Hflows ex k ltac:(eauto))) as Hr. unfold ValidateCapturedPackets.
  destruct (representatives orderFlows ex) as [|se seen] eqn:Es; [done|].
  apply (fails_forEach _ _ se.1); [rewrite Hscen; by left| |].
  { intros sc. destruct (list_find _ _) as [[i se']|]; [apply errors_scenario|apply stays_ret; apply _]. }
  destruct (list_find (fun se' => se'.1 = se.1) (se :: seen)) as [[i se']|] eqn:Ef.
  - intros t t'. apply (scenario_needs_zero_TTL _ _ packets _ _ name); [cbn; by rewrite Hfile..|done].
  - apply list_find_None in Ef. apply Forall_cons in Ef as [Ef _]. done.
Qed.

Lemma traffic_fails p built k e : built.2 !! k = Some e ->
  fails (runTraffic counters captures NewPacket orderFlows orderScenarios true p built).
Proof using All.
  intros Hk. unfold runTraffic, tell, whenT.
  repeat (apply fails_after; [auto using errors_act, errors_loss|intros ?|intros ?]).
  all: try (by apply (captured_fails _ k e)). all: repeat (apply stays_bind; [apply _| |intros ?]);
    auto using errors_act, errors_loss, errors_captured.
Qed.
End Rejected.

Lemma errors_traffic p built : keeps more_errors (runTraffic counters captures NewPacket orderFlows orderScenarios true p built).
Proof.
  unfold runTraffic, tell, whenT. repeat (apply stays_bind; [apply _| |intros ?]); auto using errors_act, errors_loss, errors_captured.
Qed.
End Captured.

(** C29: with packet capture the traffic validation cannot pass: the scenarios compare
    the TTL of the captured packet with a TTL that is never set, so unless the first
    packet has TTL zero, which no router forwards, every run stops or reports a failure. *)
Theorem capture_never_passes sets reaches counters captures NewPacket orderFlows orderScenarios dstMac imix repair compact p t name packets :
  scale_ok p -> 0 <= TrafficRateMpps p ->
  (forall ex k, is_Some (ex !! k) -> k ∈ orderFlows ex) -> (forall l, orderScenarios l ≡ₚ l) ->
  captures "port2" = {| createTemp := Ret name; writeBytes := Ret tt; openOffline := Ret packets |} ->
  (forall pkt ip, pkt ∈ packets -> pk_IPv4 pkt = Some ip -> ip_TTL ip <> 0) ->
  let '(r, t') := RunEndToEndTrafficValidation sets reaches counters captures NewPacket orderFlows orderScenarios
                    dstMac imix repair true compact p t in
  ~ (r = Ret tt /\ t_errors t' = t_errors t).
Proof.
  intros Hok Hr Hflows Hscen Hfile Httl. unfold RunEndToEndTrafficValidation.
  destruct (prepare_run dstMac imix compact repair p Hok true t Hr) as (t1 & Hrun & _ & Herr). rewrite (bind_run _ _ _ _ _ Hrun), <- Herr.
  pose proof (fatal_checks p (so_valid p Hok)) as Hf.
  destruct (flowSpecs dstMac compact p repair) as [|s specs] eqn:Es.
  { pose proof (count_flows dstMac compact p repair ltac:(lia)) as Hc. rewrite Es in Hc. pose proof (count_bounds compact repair p Hok). cbn in Hc. lia. }
  destruct (expectation_of dstMac imix compact repair p s) as (e & He & _); [rewrite Es; by left|].
  set (built := (seq 0 (length (s :: specs)), expectations dstMac imix compact repair p)).
  pose proof (traffic_fails counters captures NewPacket orderFlows orderScenarios name packets Hfile Httl Hflows Hscen p built s.1 e He) as Ht.
  pose proof (errors_traffic counters captures NewPacket orderFlows orderScenarios p built) as Hk.
  match goal with |- let '(_, _) := ?m t1 in _ => assert (fails m) as Hm; [|destruct (m t1) eqn:E; intros [-> H]; by apply (Hm _ _ E)] end.
  destruct repair; [|done]. apply fails_after; [apply errors_admin|intros _|intros _].
  - apply keeps_finally; [apply _|..]; apply stays_bind; auto using errors_verify, errors_admin; apply _.
  - apply fails_finally; [apply stays_bind; auto using errors_verify; apply _|apply stays_bind; auto using errors_verify, errors_admin; apply _|].
    apply fails_after; auto using errors_verify.
Qed.

(** * Witnesses *)

(** A small test on four subinterfaces, of which the last one is disabled beforehand. *)
Definition smallParams : ScaleParams := {|
  GRIBIBatchSize := 10; NumDefaultNH := 2; NumDefaultNHG := 2; NumDefaultIPv4 := 2;
  DefaultNHGLoadBalance := [{| lb_Pct := 100; NumNextHops := 2 |}]; DefaultNHGWeight := TransitNHGWeight (t3Params 1);
  NumTransitNH := 2; NumTransitNHG := 2; TransitNHGLoadBalance := [{| lb_Pct := 100; NumNextHops := 2 |}];
  TransitNHGWeight := TransitNHGWeight (t3Params 1);
  NumTransitIPv4 := 2; NumRepairIPv4 := 2; NumRepairNHG := 2; NumEncapVRFs := 2; NumEncapIPv4PerVRF := 2; NumEncapIPv6PerVRF := 2;
  NumUniqueEncapNH := 4; NumEncapDefaultNHG := 4; EncapNHGLoadBalance := [{| lb_Pct := 100; NumNextHops := 2 |}];
  EncapNHGWeight := TransitNHGWeight (t3Params 1);
  NumDecapEntries := 2; DecapDestsSubsetPct := 50; NumPort2VLANs := 4; TrafficLossTol := 5; TrafficRateMpps := 1000 |}.
Lemma small_ok : scale_ok smallParams.
Proof.
  split; try (cbn; lia); [reflexivity|].
  split_and!; repeat (apply Forall_nil_2 || (apply Forall_cons; split)); cbn; lia.
Qed.
Definition disabled4 : Test := set_admin {[ 4 := false ]} idleTest.
Definition keysOf (m : gmap string FlowExpectation) : list string := (map_to_list m).*1.
Definition goodCapture (_ : string) : CaptureFile := sampleFile [ipv4Packet "10.0.0.1" 64].
Definition noLoss (_ : string) : Z * Z := (100, 100).

Lemma traffic_restores_subinterfaces_witness :
  t_admin disabled4 !! 4 = Some false /\
  (RunEndToEndTrafficValidation (fun _ => Applied) (fun _ _ => Ret true) noLoss goodCapture noDecoder keysOf id
     "02:00:00:00:00:01" true true false true smallParams disabled4).1 = Ret tt.
Proof.
  split; [|vm_compute; reflexivity].
  destruct (traffic_restores_subinterfaces (fun _ => Applied) (fun _ _ => Ret true) noLoss goodCapture noDecoder keysOf id
    "02:00:00:00:00:01" true true false true smallParams disabled4 4) as [H|(_ & _ & [[=]|[_ [=]]])]; [|exact H].
  vm_compute. reflexivity.
Defined.

(** When the deferred Set is refused the subinterfaces stay disabled. *)
Example refused_set_leaves_disabled :
  let r := RunEndToEndTrafficValidation (fun e => if e : bool then Refused else Applied) (fun _ _ => Ret true) noLoss goodCapture
    noDecoder keysOf id "02:00:00:00:00:01" true true false true smallParams idleTest in
  r.1 = Panic /\ t_admin r.2 !! 1 = Some false.
Proof. vm_compute. split; reflexivity. Qed.

(** Without the capture this run passes; with it, it does not. *)
Lemma capture_never_passes_witness :
  let run cap := RunEndToEndTrafficValidation (fun _ => Applied) (fun _ _ => Ret true) noLoss goodCapture noDecoder keysOf id "02:00:00:00:00:01" false false cap
                   false smallParams idleTest in
  (let '(r, t') := run false in r = Ret tt /\ t_errors t' = []) /\
  (let '(r, t') := run true in ~ (r = Ret tt /\ t_errors t' = [])).
Proof.
  split; [vm_compute; split; reflexivity|].
  apply (capture_never_passes (fun _ => Applied) (fun _ _ => Ret true) noLoss goodCapture noDecoder keysOf id "02:00:00:00:00:01" false false false
    smallParams idleTest "pcap1" [ipv4Packet "10.0.0.1" 64]).
  - apply small_ok.
  - discriminate.
  - intros ex k [e He]. apply list_elem_of_fmap. exists (k, e). split; [done|]. by apply elem_of_map_to_list.
  - done.
  - reflexivity.
  - intros pkt ip ->%list_elem_of_singleton [= <-]. discriminate.
Defined.
