(* ===== verification/ScaleTopo.v ===== *)
(** The topology of the gRIBI full scale test: the interfaces of the device
    ([src/internal/attrs/attrs.go] and the first part of
    [src/internal/cfgplugins/gribifullscale.go]), the ports and devices of the traffic
    generator, and the VRF selection policy for any number of encapsulation VRFs
    ([ConfigureVRFSelectionPolicyOC] of [src/internal/cfgplugins/policyforwarding.go]).

    The device is what is written to it, in order.  The CLI texts of the hardware
    profiles and whether the device accepts them are arguments; a reboot is an event. *)
From stdpp Require Import base list gmap strings.
From Stdlib Require Import ZArith Lia.
From S2P Require Import Prelude GoStrings Net IPUtil NhgBuckets GribiScale Deviations VrfPolicy Floats OtgFlows ScaleTraffic.
Open Scope string_scope.
Open Scope Z_scope.
Open Scope list_scope.

(** * OpenConfig interfaces: the leaves that the code sets *)

Record OcAddress := { PrefixLength : option Z; addr_Secondary : bool }.
Record OcIpConfig := { ipc_Enabled : option bool; ipc_Mtu : option Z; ipc_Address : gmap string OcAddress }.
Record OcVlan := { VlanId : option Z; SingleTagged : option Z }.
Record OcSubinterface := { sub_Vlan : option OcVlan; sub_Ipv4 : option OcIpConfig; sub_Ipv6 : option OcIpConfig }.
Inductive DuplexMode := FULL | HALF.
Record OcInterface := {
  intf_Name : string; Description : option string; ethernetCsmacd : bool; intf_Enabled : option bool; intf_Mtu : option Z;
  MacAddress : option string; intf_Duplex : option DuplexMode; intf_Subinterface : gmap Z OcSubinterface;
}.

Definition emptyIpConfig : OcIpConfig := {| ipc_Enabled := None; ipc_Mtu := None; ipc_Address := ∅ |}.
Definition emptyVlan : OcVlan := {| VlanId := None; SingleTagged := None |}.
Definition emptySubinterface : OcSubinterface := {| sub_Vlan := None; sub_Ipv4 := None; sub_Ipv6 := None |}.
Definition newInterface (name : string) : OcInterface := {|
  intf_Name := name; Description := None; ethernetCsmacd := false; intf_Enabled := None; intf_Mtu := None;
  MacAddress := None; intf_Duplex := None; intf_Subinterface := ∅ |}.

(** [s.GetOrCreateIpv4()] and the like, changed in place. *)
Definition mod_ipv4 (f : OcIpConfig -> OcIpConfig) (s : OcSubinterface) : OcSubinterface :=
  {| sub_Vlan := sub_Vlan s; sub_Ipv4 := Some (f (default emptyIpConfig (sub_Ipv4 s))); sub_Ipv6 := sub_Ipv6 s |}.
Definition mod_ipv6 (f : OcIpConfig -> OcIpConfig) (s : OcSubinterface) : OcSubinterface :=
  {| sub_Vlan := sub_Vlan s; sub_Ipv4 := sub_Ipv4 s; sub_Ipv6 := Some (f (default emptyIpConfig (sub_Ipv6 s))) |}.
Definition mod_vlan (f : OcVlan -> OcVlan) (s : OcSubinterface) : OcSubinterface :=
  {| sub_Vlan := Some (f (default emptyVlan (sub_Vlan s))); sub_Ipv4 := sub_Ipv4 s; sub_Ipv6 := sub_Ipv6 s |}.
Definition mod_sub (k : Z) (f : OcSubinterface -> OcSubinterface) (i : OcInterface) : OcInterface := {|
  intf_Name := intf_Name i; Description := Description i; ethernetCsmacd := ethernetCsmacd i; intf_Enabled := intf_Enabled i;
  intf_Mtu := intf_Mtu i; MacAddress := MacAddress i; intf_Duplex := intf_Duplex i;
  intf_Subinterface := <[k := f (default emptySubinterface (intf_Subinterface i !! k))]> (intf_Subinterface i) |}.
Definition set_intf_mtu (v : Z) (i : OcInterface) : OcInterface := {|
  intf_Name := intf_Name i; Description := Description i; ethernetCsmacd := ethernetCsmacd i; intf_Enabled := intf_Enabled i;
  intf_Mtu := Some v; MacAddress := MacAddress i; intf_Duplex := intf_Duplex i; intf_Subinterface := intf_Subinterface i |}.
Definition set_ip_enabled (c : OcIpConfig) : OcIpConfig := {| ipc_Enabled := Some true; ipc_Mtu := ipc_Mtu c; ipc_Address := ipc_Address c |}.
Definition set_ip_mtu (v : Z) (c : OcIpConfig) : OcIpConfig := {| ipc_Enabled := ipc_Enabled c; ipc_Mtu := Some v; ipc_Address := ipc_Address c |}.
(** [GetOrCreateAddress(ip)], then [f]. *)
Definition mod_address (ip : string) (f : OcAddress -> OcAddress) (c : OcIpConfig) : OcIpConfig := {|
  ipc_Enabled := ipc_Enabled c; ipc_Mtu := ipc_Mtu c;
  ipc_Address := <[ip := f (default {| PrefixLength := None; addr_Secondary := false |} (ipc_Address c !! ip))]> (ipc_Address c) |}.
Definition set_prefixLength (len : Z) (a : OcAddress) : OcAddress := {| PrefixLength := Some len; addr_Secondary := addr_Secondary a |}.
Definition set_secondary (len : Z) (a : OcAddress) : OcAddress := {| PrefixLength := Some len; addr_Secondary := true |}.
Definition applyIf {A} (b : bool) (f : A -> A) (x : A) : A := if b then f x else x.

Definition uint16 (v : Z) : Z := v mod 2 ^ 16.

(** * attrs.go *)

Record Attributes := {
  a_IPv4 : string; a_IPv4Sec : string; a_IPv6 : string; a_IPv6Sec : string; a_MAC : string; a_Name : string; a_Desc : string;
  a_Subinterface : Z; a_IPv4Len : Z; a_IPv4LenSec : Z; a_IPv6Len : Z; a_MTU : Z; a_ID : Z; a_Duplex : string;
}.
Definition IPv4CIDR (a : Attributes) : string := a_IPv4 a +:+ "/" +:+ Itoa (a_IPv4Len a).
Definition IPv6CIDR (a : Attributes) : string := a_IPv6 a +:+ "/" +:+ Itoa (a_IPv6Len a).

Definition nonempty (s : string) : bool := negb (String.eqb s "").
(** [a && b] *)
Definition andAlso (a b : go bool) : go bool := x ← a; if x : bool then b else Ret false.
Definition notGo (a : go bool) : go bool := x ← a; Ret (negb x).

Section Attrs.
Context {re : Regexp} (exceptions : list PlatformExceptions) (dut : Deviations.Device).

(** The part of the physical interface. *)
Definition configPhysical (a : Attributes) (intf : OcInterface) : go OcInterface :=
  enabled ← InterfaceEnabled exceptions dut;
  withMtu ← andAlso (Ret (0 <? a_MTU a)) (notGo (OmitL2MTU exceptions dut));
  Ret {| intf_Name := intf_Name intf;
         Description := if nonempty (a_Desc a) then Some (a_Desc a) else Description intf;
         ethernetCsmacd := true;
         intf_Enabled := if enabled : bool then Some true else intf_Enabled intf;
         intf_Mtu := if withMtu : bool then Some (uint16 (a_MTU a + 14)) else intf_Mtu intf;
         MacAddress := if nonempty (a_MAC a) then Some (a_MAC a) else MacAddress intf;
         intf_Duplex := if nonempty (a_Duplex a) then
                          if String.eqb (a_Duplex a) "FULL" then Some FULL
                          else if String.eqb (a_Duplex a) "HALF" then Some HALF else intf_Duplex intf
                        else intf_Duplex intf;
         intf_Subinterface := intf_Subinterface intf |}.

Definition configIPv4 (a : Attributes) (s : OcSubinterface) : go OcSubinterface :=
  if nonempty (a_IPv4 a) then
    enabled ← andAlso (InterfaceEnabled exceptions dut) (notGo (IPv4MissingEnabled exceptions dut));
    Ret (mod_ipv4 (fun s4 =>
      mod_address (a_IPv4 a) (applyIf (0 <? a_IPv4Len a) (set_prefixLength (a_IPv4Len a)))
        (applyIf (0 <? a_MTU a) (set_ip_mtu (a_MTU a)) (applyIf enabled set_ip_enabled s4))) s)
  else Ret s.
Definition configIPv4Sec (a : Attributes) (s : OcSubinterface) : go OcSubinterface :=
  if nonempty (a_IPv4Sec a) then
    enabled ← andAlso (InterfaceEnabled exceptions dut) (notGo (IPv4MissingEnabled exceptions dut));
    Ret (mod_ipv4 (fun s4 =>
      mod_address (a_IPv4Sec a) (applyIf (0 <? a_IPv4LenSec a) (set_secondary (a_IPv4LenSec a)))
        (applyIf enabled set_ip_enabled s4)) s)
  else Ret s.
Definition configIPv6 (a : Attributes) (s : OcSubinterface) : go OcSubinterface :=
  if nonempty (a_IPv6 a) then
    enabled ← InterfaceEnabled exceptions dut;
    Ret (mod_ipv6 (fun s6 =>
      mod_address (a_IPv6 a) (applyIf (0 <? a_IPv6Len a) (set_prefixLength (a_IPv6Len a)))
        (applyIf enabled set_ip_enabled (applyIf (0 <? a_MTU a) (set_ip_mtu (a_MTU a)) s6))) s)
  else Ret s.

Definition ConfigOCInterface (a : Attributes) (intf : OcInterface) : go OcInterface :=
  intf ← configPhysical a intf;
  let s := default emptySubinterface (intf_Subinterface intf !! a_Subinterface a) in
  s ← configIPv4 a s;
  s ← configIPv4Sec a s;
  s ← configIPv6 a s;
  Ret (mod_sub (a_Subinterface a) (fun _ => s) intf).
Definition NewOCInterface (a : Attributes) (name : string) : go OcInterface := ConfigOCInterface a (newInterface name).
End Attrs.

(** Interfaces of the older traffic generator API. *)
Record AteInterface := {
  ate_Name : string; ate_Port : string; ate_MTU : option Z; ate_IPv4 : option (string * string); ate_IPv6 : option (string * string);
}.
Definition AddToATE (a peer : Attributes) (ap : string) (top : list AteInterface) : list AteInterface :=
  top ++ [{| ate_Name := a_Name a; ate_Port := ap; ate_MTU := if 0 <? a_MTU a then Some (a_MTU a) else None;
             ate_IPv4 := if nonempty (a_IPv4 a) then Some (IPv4CIDR a, a_IPv4 peer) else None;
             ate_IPv6 := if nonempty (a_IPv6 a) then Some (IPv6CIDR a, a_IPv6 peer) else None |}].

Definition AddToOTG (a peer : Attributes) (ap : string) (top : OtgFlows.Config) : OtgFlows.Config :=
  add_device {| dev_name := a_Name a; dev_ethernets := [{|
      eth_name := a_Name a +:+ ".Eth"; eth_mac := a_MAC a; eth_port := ap;
      eth_mtu := if 0 <? a_MTU a then Some (a_MTU a) else None; eth_vlans := [];
      eth_ipv4 := if nonempty (a_IPv4 a) then [{| ip_name := a_Name a +:+ ".IPv4"; ip_address := a_IPv4 a; ip_gateway := a_IPv4 peer;
                                                  ip_prefix := a_IPv4Len a |}] else [];
      eth_ipv6 := if nonempty (a_IPv6 a) then [{| ip_name := a_Name a +:+ ".IPv6"; ip_address := a_IPv6 a; ip_gateway := a_IPv6 peer;
                                                  ip_prefix := a_IPv6Len a |}] else [] |}] |}
    (add_port ap top).

(** * The device of the full scale test *)

Definition MTU : Z := 9216.
Definition DUTPort1IPv4 := "192.0.2.1".
Definition DUTPort1IPv6 := "2001:0:0:1::1".
Definition ATEPort1IPv6 := "2001:0:0:2::2".
Definition DUTPort2IPv4 := "193.0.2.1".
Definition ATEPort2IPv4 := "193.0.2.2".
Definition DUTPort2IPv6 := "3001:0:0:1::1".
Definition ATEPort2IPv6 := "3001:0:0:2::2".
Definition ATEPort2MAC := "02:00:02:00:00:01".
Definition DUTPort2IPv4Start := "193.51.0.1".
Definition DUTPort2IPv6Start := "5001:0:0:1::1".
Definition ATEPort2IPv6Start := "5001:0:0:1::2".
Definition PortIPv6Step := "0:0:0:1::".
Definition StartVLANPort2 : Z := 200.
Definition IPv4IntfMask : Z := 30.
Definition IPv6IntfMask : Z := 126.
Definition NoMixVlanIDBase : Z := 10.
Definition VRFPolC := "vrf_selection_policy_c".

Definition attributes (name desc mac v4 v6 : string) (mtu : Z) : Attributes := {|
  a_IPv4 := v4; a_IPv4Sec := ""; a_IPv6 := v6; a_IPv6Sec := ""; a_MAC := mac; a_Name := name; a_Desc := desc; a_Subinterface := 0;
  a_IPv4Len := IPv4IntfMask; a_IPv4LenSec := 0; a_IPv6Len := IPv6IntfMask; a_MTU := mtu; a_ID := 0; a_Duplex := "" |}.
Definition dutPort1Attr := attributes "DUT Ingress Port1" "dutPort1" "" DUTPort1IPv4 DUTPort1IPv6 MTU.
Definition atePort1Attr := attributes "ATE-Ingress-Port1" "" ATEPort1MAC ATEPort1IPv4 ATEPort1IPv6 0.
Definition dutPort2Attr := attributes "DUT Ingress Port2" "dutPort2" "" DUTPort2IPv4 DUTPort2IPv6 MTU.
Definition atePort2Attr := attributes "ATE-Ingress-Port2" "" ATEPort2MAC ATEPort2IPv4 ATEPort2IPv6 0.

(** The updates of a batch and what is sent to the device. *)
Inductive Update :=
| UpdInterface (intf : OcInterface)
| UpdSubinterface (port : string) (index : Z) (s : OcSubinterface)
| UpdInstance (name : string) (l3vrf : bool)
| UpdInstanceType (name : string)
| UpdInstanceInterface (ni id : string) (intf : string) (sub : Z).
Inductive DutOp :=
| SetBatch (l : list Update)
| UpdateDefaultInstance (ni : string)
| CliConfig (text : string)
| RebootChassis
| ReplacePF (ni : string) (pf : PolicyForwarding).
(** The batch, the tree that the subinterfaces are made in, and the log. *)
Record Dut := { d_batch : list Update; d_root : gmap (string * Z) OcSubinterface; d_ops : list DutOp }.
Abbreviation dutm := (gost Dut).

Definition BatchUpdate (u : Update) : dutm unit := fun d =>
  (Ret tt, {| d_batch := d_batch d ++ [u]; d_root := d_root d; d_ops := d_ops d |}).
Definition send (op : DutOp) : dutm unit := fun d =>
  (Ret tt, {| d_batch := d_batch d; d_root := d_root d; d_ops := d_ops d ++ [op] |}).
(** [vrfBatch.Set(t, dut)] *)
Definition Set_ : dutm unit := d ← getState; send (SetBatch (d_batch d)).
Definition mod_root (port : string) (index : Z) (f : OcSubinterface -> OcSubinterface) : dutm OcSubinterface := fun d =>
  let s := f (default emptySubinterface (d_root d !! (port, index))) in
  (Ret s, {| d_batch := d_batch d; d_root := <[(port, index) := s]> (d_root d); d_ops := d_ops d |}).
Definition whenD (b : bool) (m : dutm unit) : dutm unit := if b then m else mret tt.

Inductive FeatureType := FeatureVrfSelectionExtended | FeatureOptimizeFIBAndCounters | FeatureSecondaryDefaultLookup.

Section Dut.
Context {re : Regexp} (exceptions : list PlatformExceptions) (flags : gmap string bool) (dut : Deviations.Device).
(** The names of the two ports of the device, the tables of CLI texts, and whether the
    device accepts a text. *)
Context (dp1 dp2 : string).
Context (aristaTcamProfileMap nokiaHardwareInitMap : FeatureType -> string) (accepts : string -> bool).

Definition assignInterfaceToDefaultNI (intfName : string) (subintIndex : Z) : dutm unit :=
  explicit ← lift (ExplicitInterfaceInDefaultVRF exceptions dut);
  whenD explicit (
    defaultNI ← lift (DefaultNetworkInstance exceptions dut);
    BatchUpdate (UpdInstanceInterface defaultNI (intfName +:+ "." +:+ Itoa subintIndex) intfName subintIndex)).

Definition vlanOf (deprecated : bool) (id : Z) (v : OcVlan) : OcVlan :=
  if deprecated then {| VlanId := Some id; SingleTagged := SingleTagged v |}
  else {| VlanId := VlanId v; SingleTagged := Some id |}.

Definition configureDUTInterface (p : string) (a : Attributes) (configureVlan : bool) : dutm unit :=
  intf ← lift (NewOCInterface exceptions dut a p);
  withMtu ← lift (andAlso (notGo (OmitL2MTU exceptions dut)) (Ret (0 <? a_MTU a)));
  let intf := applyIf withMtu (set_intf_mtu (uint16 (uint16 (a_MTU a) + 22))) intf in
  tagged ← lift (andAlso (Ret configureVlan) (NoMixOfTaggedAndUntaggedSubinterfaces exceptions dut));
  intf ← lift (if tagged : bool then
                 deprecated ← DeprecatedVlanID exceptions dut;
                 Ret (mod_sub (a_Subinterface a) (mod_vlan (vlanOf deprecated NoMixVlanIDBase)) intf)
               else Ret intf);
  _ ← BatchUpdate (UpdInterface intf);
  assignInterfaceToDefaultNI p (a_Subinterface a).

Definition CreateDUTSubinterface (port : string) (index vlanID : Z) (ipv4Addr ipv6Addr : string) : dutm unit :=
  deprecated ← lift (if vlanID =? 0 then Ret false else DeprecatedVlanID exceptions dut);
  enabled ← lift (InterfaceEnabled exceptions dut);
  s ← mod_root port index (fun s =>
        let s := applyIf (negb (vlanID =? 0)) (mod_vlan (vlanOf deprecated vlanID)) s in
        let s := mod_ipv4 (fun s4 => applyIf enabled set_ip_enabled
                   (set_ip_mtu MTU (mod_address ipv4Addr (set_prefixLength IPv4IntfMask) s4))) s in
        mod_ipv6 (fun s6 => applyIf enabled set_ip_enabled
          (set_ip_mtu MTU (mod_address ipv6Addr (set_prefixLength IPv6IntfMask) s6))) s);
  _ ← BatchUpdate (UpdSubinterface port index s);
  assignInterfaceToDefaultNI port index.

(** [vlanID] of subinterface [i] on both ends. *)
Definition vlanAt (startVLANPort i : Z) : go Z :=
  noMix ← NoMixOfTaggedAndUntaggedSubinterfaces exceptions dut;
  Ret (if noMix : bool then uint16 (uint16 (startVLANPort + i) + 1) else uint16 (startVLANPort + i)).

Definition ConfigureDUTSubinterfaces (dutPort prefixFmtV4 prefixFmtV6 : string) (startVLANPort subIntCount : Z) : dutm unit :=
  dutIPsV4 ← lift (fatal (GenerateIPsWithStep prefixFmtV4 subIntCount PortIPv4Step));
  dutIPsV6 ← lift (fatal (GenerateIPv6sWithStep prefixFmtV6 subIntCount PortIPv6Step));
  forEach (fun i =>
    vlanID ← lift (vlanAt startVLANPort i);
    v4 ← lift (index dutIPsV4 i);
    v6 ← lift (index dutIPsV6 i);
    CreateDUTSubinterface dutPort (uint32 (i + 1)) vlanID v4 v6) (seqZ 0 subIntCount).

(** ** Hardware profiles *)

Definition NewDUTHardwareInit (feature : FeatureType) : string :=
  if String.eqb (dev_Vendor dut) "ARISTA" then
    if String.eqb (ToLower (dev_Model dut)) "ceos" then "" else aristaTcamProfileMap feature
  else if String.eqb (dev_Vendor dut) "NOKIA" then nokiaHardwareInitMap feature
  else "".
Definition PushDUTHardwareInitConfig (hardwareInitConf : string) : dutm unit :=
  if String.eqb hardwareInitConf "" then mret tt
  else if accepts hardwareInitConf then send (CliConfig hardwareInitConf) else lift Panic.

Definition ConfigureTcam : dutm bool :=
  let hardwareVrfCfg := NewDUTHardwareInit FeatureVrfSelectionExtended in
  let hardwarePfCfg := NewDUTHardwareInit FeatureOptimizeFIBAndCounters in
  if nonempty hardwareVrfCfg && nonempty hardwarePfCfg then
    _ ← PushDUTHardwareInitConfig hardwareVrfCfg;
    _ ← PushDUTHardwareInitConfig hardwarePfCfg;
    _ ← send (CliConfig "write memory");
    mret true
  else mret false.
Definition EnableSecondaryDefaultLookup : dutm bool :=
  let cliConfig := NewDUTHardwareInit FeatureSecondaryDefaultLookup in
  if nonempty cliConfig then _ ← PushDUTHardwareInitConfig cliConfig; mret true else mret false.
Definition ConfigureHardwareInit : dutm unit :=
  rebootRequired ←
    (if String.eqb (dev_Vendor dut) "ARISTA" then ConfigureTcam
     else if String.eqb (dev_Vendor dut) "NOKIA" then EnableSecondaryDefaultLookup else mret false);
  whenD rebootRequired (send RebootChassis).

Definition CreateGRIBIScaleVRFs (numEncapVRFs : Z) : dutm unit :=
  defaultNI ← lift (DefaultNetworkInstance exceptions dut);
  _ ← BatchUpdate (UpdInstance defaultNI false);
  _ ← forEach (fun vrf => BatchUpdate (UpdInstance vrf true)) (BuildAllNonDefaultVRFs (BuildEncapVRFs numEncapVRFs));
  Set_.

(** ** The VRF selection policy *)

(** The policy and the next sequence number. *)
Definition builderState : Type := Policy * Z.
(** [r := pol.GetOrCreateRule(seq); f(r); seq++] *)
Definition nextRule (f : Rule -> Rule) (st : builderState) : builderState :=
  let '(pol, seq) := st in (set_rule pol seq (f (GetOrCreateRule pol seq)), uint32 (seq + 1)).

Definition set_ipv4 (f : OcIp -> OcIp) (r : Rule) : Rule :=
  {| r_Ipv4 := Some (f (default emptyIp (r_Ipv4 r))); r_Ipv6 := r_Ipv6 r; r_L2 := r_L2 r; r_Action := r_Action r |}.
Definition set_ipv6 (f : OcIp -> OcIp) (r : Rule) : Rule :=
  {| r_Ipv4 := r_Ipv4 r; r_Ipv6 := Some (f (default emptyIp (r_Ipv6 r))); r_L2 := r_L2 r; r_Action := r_Action r |}.
Definition set_l2 (e : Ethertype) (r : Rule) : Rule :=
  {| r_Ipv4 := r_Ipv4 r; r_Ipv6 := r_Ipv6 r; r_L2 := Some e; r_Action := r_Action r |}.
Definition set_action (f : OcAction -> OcAction) (r : Rule) : Rule :=
  {| r_Ipv4 := r_Ipv4 r; r_Ipv6 := r_Ipv6 r; r_L2 := r_L2 r; r_Action := Some (f (default emptyAction (r_Action r))) |}.
Definition set_dscps (l : list Z) (i : OcIp) : OcIp :=
  {| DscpSet := l; Protocol := Protocol i; SourceAddress := SourceAddress i |}.
Definition set_tunnel (proto : Z) (src : string) (i : OcIp) : OcIp :=
  {| DscpSet := DscpSet i; Protocol := Some proto; SourceAddress := Some src |}.
Definition set_decap (decap post fallback : string) (a : OcAction) : OcAction :=
  {| DecapNetworkInstance := Some decap; PostDecapNetworkInstance := Some post; DecapFallbackNetworkInstance := Some fallback;
     NetworkInstance := NetworkInstance a |}.
Definition set_instance (ni : string) (a : OcAction) : OcAction :=
  {| DecapNetworkInstance := DecapNetworkInstance a; PostDecapNetworkInstance := PostDecapNetworkInstance a;
     DecapFallbackNetworkInstance := DecapFallbackNetworkInstance a; NetworkInstance := Some ni |}.

Definition hostCIDR (src : string) : string := src +:+ "/" +:+ Itoa IPv4HostMask.
Definition fallbackOf (src : string) : string := if String.eqb src IPv4OuterSrc111 then TransitVRF111Str else TransitVRF222Str.

(** The rules of the three loops and the default rules, as functions on the rule. *)
Definition decapRules (encapVRFs : list string) : list (Rule -> Rule) :=
  zip (seqZ 0 (Z.of_nat (length encapVRFs))) encapVRFs ≫= fun '(i, vrf) =>
  [IPv4OuterSrc222; IPv4OuterSrc111] ≫= fun src =>
  (fun proto r => set_action (set_decap DecapVRFStr vrf (fallbackOf src))
                    (set_ipv4 (fun ip => set_dscps (dscpsOf i) (set_tunnel proto (hostCIDR src) ip)) r)) <$> [4; 41].
Definition plainDecapRules (defaultVRF : string) : list (Rule -> Rule) :=
  (fun '(proto, src, fallback) r => set_action (set_decap DecapVRFStr defaultVRF fallback) (set_ipv4 (set_tunnel proto (hostCIDR src)) r)) <$>
  [(4, IPv4OuterSrc222, TransitVRF222Str); (41, IPv4OuterSrc222, TransitVRF222Str);
   (4, IPv4OuterSrc111, TransitVRF111Str); (41, IPv4OuterSrc111, TransitVRF111Str)].
Definition encapRules (encapVRFs : list string) : list (Rule -> Rule) :=
  zip (seqZ 0 (Z.of_nat (length encapVRFs))) encapVRFs ≫= fun '(i, vrf) =>
  [fun r => set_action (set_instance vrf) (set_ipv4 (set_dscps (dscpsOf i)) r);
   fun r => set_action (set_instance vrf) (set_ipv6 (set_dscps (dscpsOf i)) r)].
Definition defaultRules (matchDefault : bool) (defaultVRF : string) : list (Rule -> Rule) :=
  if matchDefault then
    [fun r => set_action (set_instance defaultVRF) (set_l2 ETHERTYPE_IPV4 r);
     fun r => set_action (set_instance defaultVRF) (set_l2 ETHERTYPE_IPV6 r)]
  else [set_action (set_instance defaultVRF)].

Definition scalePolicy (encapVRFs : list string) (defaultVRF : string) (matchDefault : bool) : Policy :=
  (foldl (fun st f => nextRule f st) ({| p_Type := Some VRF_SELECTION_POLICY; p_Rule := ∅ |}, 1)
    (decapRules encapVRFs ++ plainDecapRules defaultVRF ++ encapRules encapVRFs ++ defaultRules matchDefault defaultVRF)).1.

Definition ConfigureVRFSelectionPolicyOC (encapVRFs : list string) : dutm unit :=
  defaultVRF ← lift (DefaultNetworkInstance exceptions dut);
  matchDefault ← lift (PfRequireMatchDefaultRule exceptions dut);
  withZero ← lift (InterfaceRefInterfaceIDFormat exceptions dut);
  noRef ← lift (InterfaceRefConfigUnsupported exceptions flags dut);
  send (ReplacePF defaultVRF {|
    pf_Policy := {[ VRFPolC := scalePolicy encapVRFs defaultVRF matchDefault ]};
    pf_Interface := {[ (if withZero : bool then dp1 +:+ ".0" else dp1) := {|
      ApplyVrfSelectionPolicy := Some VRFPolC;
      pf_InterfaceRef := if noRef : bool then None else Some {| ref_Interface := dp1; ref_Subinterface := 0 |} |} ]} |}).

Definition decapVRFMode : string := "
		vrf selection policy
		next-hop decapsulation vrf
		!
		".
Definition ConfigureCLIDecapVRFMode : dutm unit :=
  if String.eqb (dev_Vendor dut) "ARISTA" then send (CliConfig decapVRFMode) else mret tt.

(** ** ConfigureDUT *)

Definition ConfigureDUT (params : ScaleParams) : dutm unit :=
  _ ← ConfigureHardwareInit;
  _ ← CreateGRIBIScaleVRFs (NumEncapVRFs params);
  _ ← configureDUTInterface dp1 dutPort1Attr false;
  _ ← configureDUTInterface dp2 dutPort2Attr true;
  ni ← lift (DefaultNetworkInstance exceptions dut);
  _ ← send (UpdateDefaultInstance ni);
  before ← lift (InterfaceConfigVRFBeforeAddress exceptions dut);
  _ ← whenD before (BatchUpdate (UpdInstanceType ni));
  _ ← ConfigureDUTSubinterfaces dp2 DUTPort2IPv4Start DUTPort2IPv6Start StartVLANPort2 (NumPort2VLANs params);
  _ ← Set_;
  _ ← ConfigureCLIDecapVRFMode;
  ConfigureVRFSelectionPolicyOC (BuildEncapVRFs (NumEncapVRFs params)).

(** * The traffic generator *)

Definition ateDevice (atePort : string) (vlanID : Z) (name mac dutIPv4 ateIPv4 dutIPv6 ateIPv6 : string) : OtgFlows.Device := {|
  dev_name := name +:+ ".Dev"; dev_ethernets := [{|
    eth_name := name +:+ ".Eth"; eth_mac := mac; eth_port := atePort; eth_mtu := Some MTU;
    eth_vlans := if 0 <? vlanID then [(name, vlanID)] else [];
    eth_ipv4 := [{| ip_name := name +:+ ".IPv4"; ip_address := ateIPv4; ip_gateway := dutIPv4; ip_prefix := IPv4IntfMask |}];
    eth_ipv6 := [{| ip_name := name +:+ ".IPv6"; ip_address := ateIPv6; ip_gateway := dutIPv6; ip_prefix := IPv6IntfMask |}] |}] |}.
Definition CreateATEDevice (atePort : string) (vlanID : Z) (name mac dutIPv4 ateIPv4 dutIPv6 ateIPv6 : string) : otg unit :=
  modify (add_device (ateDevice atePort vlanID name mac dutIPv4 ateIPv4 dutIPv6 ateIPv6)).

Definition MustConfigureATESubinterfaces (atePort name mac dutPfxV4 atePfxV4 dutPfxV6 atePfxV6 : string) (startVLAN count : Z) :
    otg (list string) :=
  dutV4 ← lift (fatal (GenerateIPsWithStep dutPfxV4 count PortIPv4Step));
  ateV4 ← lift (fatal (GenerateIPsWithStep atePfxV4 count PortIPv4Step));
  dutV6 ← lift (fatal (GenerateIPv6sWithStep dutPfxV6 count PortIPv6Step));
  ateV6 ← lift (fatal (GenerateIPv6sWithStep atePfxV6 count PortIPv6Step));
  mapS (fun i =>
    vlanID ← lift (vlanAt startVLAN i);
    let devName := name +:+ "-" +:+ Itoa i in
    incMAC ← lift (fatal (IncrementMAC mac (i + 1)));
    d4 ← lift (index dutV4 i);
    a4 ← lift (index ateV4 i);
    d6 ← lift (index dutV6 i);
    a6 ← lift (index ateV6 i);
    _ ← CreateATEDevice atePort vlanID devName incMAC d4 a4 d6 a6;
    mret devName) (seqZ 0 count).

(** The configuration starts empty; the names of the interfaces are returned. *)
Definition ConfigureOTG (params : ScaleParams) : go (OtgFlows.Config * list string) :=
  let '(r, c) := (
    _ ← modify (add_port "port1");
    _ ← modify (add_port "port2");
    noMix ← lift (NoMixOfTaggedAndUntaggedSubinterfaces exceptions dut);
    let vlanIDPort2 := if noMix : bool then NoMixVlanIDBase else 0 in
    _ ← CreateATEDevice "port1" 0 (a_Name atePort1Attr) (a_MAC atePort1Attr) (a_IPv4 dutPort1Attr) (a_IPv4 atePort1Attr)
          (a_IPv6 dutPort1Attr) (a_IPv6 atePort1Attr);
    _ ← CreateATEDevice "port2" vlanIDPort2 (a_Name atePort2Attr) (a_MAC atePort2Attr) (a_IPv4 dutPort2Attr) (a_IPv4 atePort2Attr)
          (a_IPv6 dutPort2Attr) (a_IPv6 atePort2Attr);
    port2SubintNames ← MustConfigureATESubinterfaces "port2" (a_Name atePort2Attr) (a_MAC atePort2Attr) DUTPort2IPv4Start
          ATEPort2IPv4Start DUTPort2IPv6Start ATEPort2IPv6Start StartVLANPort2 (NumPort2VLANs params);
    mret (a_Name atePort1Attr :: port2SubintNames)) NewConfig in
  match r with Ret names => Ret (c, names) | Fail e => Fail e | Panic => Panic | NoFuel => NoFuel end.
End Dut.
