(* ===== verification/ScaleClassify.v ===== *)
(** Theorems on the topology and the VRF selection policy of the gRIBI full scale
    test: what the policy decides for every packet and for the packets of the flows,
    and that the device and the traffic generator agree on the links between them. *)
From stdpp Require Import base list gmap strings sorting.
From Stdlib Require Import ZArith Lia.
From S2P Require Import Prelude GoStrings Net IPUtil NhgBuckets GribiScale GribiRefs GribiProgram GribiRun Deviations VrfPolicy Floats OtgFlows ScaleTraffic FlowSpecs ScaleTopo.
Open Scope string_scope.
Open Scope Z_scope.
Open Scope list_scope.

(** * The rules in their order *)

Fixpoint first_rule (rules : list Rule) (p : VrfPolicy.Packet) : option OcAction :=
  match rules with
  | [] => None
  | r :: rules => if rule_matches r p then r_Action r else first_rule rules p
  end.

Lemma first_match_zip k rules p : first_match (zip (seqZ k (Z.of_nat (length rules))) rules) p = first_rule rules p.
Proof.
  revert k. induction rules as [|r rules IH]; intros k; [done|]. cbn [length]. rewrite seqZ_cons by lia.
  replace (Z.pred (Z.of_nat (S (length rules)))) with (Z.of_nat (length rules)) by lia.
  cbn [zip zip_with first_match first_rule]. by rewrite <- (IH (Z.succ k)).
Qed.

Definition numbered (rules : list Rule) : list (Z * Rule) := zip (seqZ 1 (Z.of_nat (length rules))) rules.

Lemma numbered_keys rules : (numbered rules).*1 = seqZ 1 (Z.of_nat (length rules)).
Proof. unfold numbered. apply fst_zip. rewrite length_seqZ. lia. Qed.

Lemma numbered_snoc rules r : numbered (rules ++ [r]) = numbered rules ++ [(1 + Z.of_nat (length rules), r)].
Proof.
  unfold numbered. rewrite length_app. cbn [length]. rewrite Nat2Z.inj_add, seqZ_app by lia.
  by rewrite zip_with_app by (rewrite length_seqZ; lia).
Qed.

Lemma numbered_sorted rules : StronglySorted seq_le (numbered rules).
Proof.
  unfold numbered. generalize 1. induction rules as [|r rules IH]; intros k; cbn [length]; [constructor|].
  rewrite seqZ_cons by lia. cbn [zip zip_with]. constructor.
  - replace (Z.pred (Z.of_nat (S (length rules)))) with (Z.of_nat (length rules)) by lia. apply IH.
  - apply Forall_forall. intros [k' r'] H. apply elem_of_zip_l, elem_of_seqZ in H. unfold seq_le. cbn. lia.
Qed.

Lemma ordered_numbered ty rules : ordered {| p_Type := ty; p_Rule := list_to_map (numbered rules) |} = numbered rules.
Proof.
  unfold ordered. cbn [p_Rule].
  assert (NoDup (numbered rules).*1) as Hnd by (rewrite numbered_keys; apply NoDup_seqZ).
  assert (merge_sort seq_le (map_to_list (list_to_map (numbered rules) : gmap Z Rule)) ≡ₚ numbered rules) as Hp
    by (rewrite merge_sort_Permutation; by apply map_to_list_to_map).
  apply (StronglySorted_unique_strong seq_le); [|apply StronglySorted_merge_sort| |done].
  - intros [k r] [k' r'] Hk Hk' H1 H2. rewrite Hp in Hk. unfold seq_le in H1, H2. cbn in *. assert (k = k') as <- by lia.
    f_equal. pose proof (elem_of_list_to_map_1 (M := gmap Z) _ _ _ Hnd Hk). pose proof (elem_of_list_to_map_1 (M := gmap Z) _ _ _ Hnd Hk').
    congruence.
  - intros x y z. unfold seq_le. lia.
  - intros x y. unfold seq_le. lia.
  - apply numbered_sorted.
Qed.

(** Building rules with increasing numbers stores them in order. *)
Lemma build_numbered fs : 1 + Z.of_nat (length fs) < 2 ^ 32 ->
  foldl (fun st f => nextRule f st) ({| p_Type := Some VRF_SELECTION_POLICY; p_Rule := ∅ |}, 1) fs =
  ({| p_Type := Some VRF_SELECTION_POLICY; p_Rule := list_to_map (numbered ((fun f => f emptyRule) <$> fs)) |}, 1 + Z.of_nat (length fs)).
Proof.
  induction fs as [|f fs IH] using rev_ind; [done|]. rewrite length_app. cbn [length]. intros Hl.
  rewrite foldl_snoc, IH by lia. unfold nextRule, GetOrCreateRule, set_rule. cbn [p_Rule p_Type].
  set (rules := (fun f => f emptyRule) <$> fs). assert (length rules = length fs) as Hlen by apply length_fmap.
  assert (1 + Z.of_nat (length fs) ∉ (numbered rules).*1) as Hk by (rewrite numbered_keys, elem_of_seqZ, Hlen; lia).
  rewrite (not_elem_of_list_to_map_1 _ _ Hk). cbn [default from_option id].
  rewrite fmap_app. cbn [fmap list_fmap]. fold rules. rewrite numbered_snoc, Hlen, list_to_map_snoc by done.
  f_equal. unfold uint32. rewrite Z.mod_small by lia. lia.
Qed.

(** * What the policy decides *)

Definition acting (rules : list Rule) : Prop := Forall (fun r => is_Some (r_Action r)) rules.
Lemma first_rule_app l1 l2 p : acting l1 ->
  first_rule (l1 ++ l2) p = match first_rule l1 p with Some a => Some a | None => first_rule l2 p end.
Proof.
  induction 1 as [|r l1 [a Ha] _ IH]; [done|]. cbn [app first_rule]. by destruct (rule_matches r p); [rewrite Ha|].
Qed.
Lemma first_rule_bind {A} (g : A -> list Rule) (i0 : A) (P : Prop) `{!EqDecision A, !Decision P} X l p :
  (forall i, acting (g i)) -> (forall i, i ∈ l -> first_rule (g i) p = if decide (i = i0 /\ P) then X else None) ->
  first_rule (l ≫= g) p = if decide (i0 ∈ l /\ P) then X else None.
Proof.
  intros Ha. induction l as [|i l IH]; intros Hg; cbn [mbind list_bind].
  - rewrite decide_False; [done|]. by intros [?%elem_of_nil _].
  - rewrite first_rule_app, Hg, IH; [|intros; apply Hg; by right|by left|apply Ha].
    repeat case_decide; rewrite ?elem_of_cons in *; destruct X; try done; naive_solver.
Qed.

Definition vrfName (i : Z) : string := "ENCAP_TE_VRF_" +:+ rune (65 + i).

Section Decides.
Context (n : Z) (Hn : 0 <= n <= 123) (def : string).
Implicit Types p : VrfPolicy.Packet.

(** The VRF of a DSCP value: two values for each VRF, from 10 on. *)
Definition dscpVRF (d : Z) : option Z := if (10 <=? d) && (d <? 10 + 2 * n) then Some ((d - 10) / 2) else None.
Definition vrfOf (d : Z) : string := from_option vrfName def (dscpVRF d).

(** The tunnel source of a packet, when it is an encapsulated IPv4 packet of one. *)
Definition tunnelSource p : option string :=
  if negb (pk_v6 p) && ((pk_protocol p =? 4) || (pk_protocol p =? 41)) then
    if in_prefix (hostCIDR IPv4OuterSrc222) (pk_src p) then Some IPv4OuterSrc222
    else if in_prefix (hostCIDR IPv4OuterSrc111) (pk_src p) then Some IPv4OuterSrc111 else None
  else None.
Definition scaleSpec p : OcAction :=
  match tunnelSource p with
  | Some src => decapAction (vrfOf (pk_dscp p)) (fallbackOf src)
  | None => forwardAction (vrfOf (pk_dscp p))
  end.

Lemma indexed_vrfs : zip (seqZ 0 (Z.of_nat (length (BuildEncapVRFs n)))) (BuildEncapVRFs n) = (fun i => (i, vrfName i)) <$> seqZ 0 n.
Proof using Hn.
  unfold BuildEncapVRFs. rewrite length_fmap, length_seqZ, Z2Nat.id by lia.
  induction (seqZ 0 n) as [|i l IH]; [done|]. cbn. by rewrite IH.
Qed.

Lemma dscps_member i d : 0 <= i < n -> existsb (Z.eqb d) (dscpsOf i) = bool_decide (i = (d - 10) / 2 /\ 10 <= d < 10 + 2 * n).
Proof using Hn.
  intros Hi. unfold dscpsOf, EncapVRFDSCP, uint8. rewrite !Z.mod_small by lia. cbn [existsb]. rewrite orb_false_r.
  apply eq_bool_prop_intro. rewrite !Is_true_true, orb_true_iff, !Z.eqb_eq, bool_decide_eq_true.
  pose proof (Z.div_mod (d - 10) 2 ltac:(lia)). pose proof (Z.mod_pos_bound (d - 10) 2 ltac:(lia)). lia.
Qed.

Definition decapGroup (i : Z) : list Rule :=
  (fun f : Rule -> Rule => f emptyRule) <$> ([IPv4OuterSrc222; IPv4OuterSrc111] ≫= fun src =>
    (fun proto r => set_action (set_decap DecapVRFStr (vrfName i) (fallbackOf src))
                      (set_ipv4 (fun ip => set_dscps (dscpsOf i) (set_tunnel proto (hostCIDR src) ip)) r)) <$> [4; 41]).
Definition encapGroup (i : Z) : list Rule :=
  (fun f : Rule -> Rule => f emptyRule) <$>
  [fun r => set_action (set_instance (vrfName i)) (set_ipv4 (set_dscps (dscpsOf i)) r);
   fun r => set_action (set_instance (vrfName i)) (set_ipv6 (set_dscps (dscpsOf i)) r)].

Lemma decap_group i p : first_rule (decapGroup i) p =
  if existsb (Z.eqb (pk_dscp p)) (dscpsOf i) then (fun src => decapAction (vrfName i) (fallbackOf src)) <$> tunnelSource p else None.
Proof.
  cbn [decapGroup fmap list_fmap mbind list_bind app first_rule].
  assert (exists a b, dscpsOf i = [a; b]) as (a & b & ->) by (by do 2 eexists).
  unfold rule_matches, ip_matches. cbn -[in_prefix Z.eqb hostCIDR existsb].
  unfold tunnelSource. destruct (existsb _ _), (pk_v6 p), (pk_protocol p =? 4), (pk_protocol p =? 41), (in_prefix (hostCIDR IPv4OuterSrc222) _),
    (in_prefix (hostCIDR IPv4OuterSrc111) _); reflexivity.
Qed.
Lemma encap_group i p : first_rule (encapGroup i) p =
  if existsb (Z.eqb (pk_dscp p)) (dscpsOf i) then Some (forwardAction (vrfName i)) else None.
Proof.
  cbn [encapGroup fmap list_fmap app first_rule].
  assert (exists a b, dscpsOf i = [a; b]) as (a & b & ->) by (by do 2 eexists).
  unfold rule_matches, ip_matches. cbn -[existsb].
  destruct (existsb _ _), (pk_v6 p); reflexivity.
Qed.

Lemma fmap_bind_list {A B C} (f : B -> C) (g : A -> list B) l : f <$> (l ≫= g) = l ≫= fun x => f <$> g x.
Proof. induction l as [|x l IH]; [done|]. cbn. by rewrite fmap_app, IH. Qed.

Lemma decap_rules : (fun f : Rule -> Rule => f emptyRule) <$> decapRules (BuildEncapVRFs n) = seqZ 0 n ≫= decapGroup.
Proof using Hn. unfold decapRules. rewrite indexed_vrfs, fmap_bind_list, list_fmap_bind. by apply list_bind_ext. Qed.
Lemma encap_rules : (fun f : Rule -> Rule => f emptyRule) <$> encapRules (BuildEncapVRFs n) = seqZ 0 n ≫= encapGroup.
Proof using Hn. unfold encapRules. rewrite indexed_vrfs, fmap_bind_list, list_fmap_bind. by apply list_bind_ext. Qed.

Lemma plain_rules p :
  first_rule ((fun f : Rule -> Rule => f emptyRule) <$> plainDecapRules def) p = (fun src => decapAction def (fallbackOf src)) <$> tunnelSource p.
Proof.
  cbn [plainDecapRules fmap list_fmap first_rule]. unfold rule_matches, ip_matches. cbn -[in_prefix Z.eqb hostCIDR].
  unfold tunnelSource. destruct (pk_v6 p), (pk_protocol p =? 4), (pk_protocol p =? 41), (in_prefix (hostCIDR IPv4OuterSrc222) _),
    (in_prefix (hostCIDR IPv4OuterSrc111) _); reflexivity.
Qed.
Lemma default_rules md p : first_rule ((fun f : Rule -> Rule => f emptyRule) <$> defaultRules md def) p = Some (forwardAction def).
Proof. destruct md; cbn; [|done]. unfold rule_matches. cbn. by destruct (pk_v6 p). Qed.

Lemma acting_fmap {A} (f : A -> list Rule) l : (forall x, acting (f x)) -> acting (l ≫= f).
Proof. intros H. induction l as [|x l IH]; [constructor|]. cbn. apply Forall_app. split; [apply H|exact IH]. Qed.
Lemma acting_decap i : acting (decapGroup i).
Proof. repeat constructor; by eexists. Qed.
Lemma acting_encap i : acting (encapGroup i).
Proof. repeat constructor; by eexists. Qed.

Lemma by_dscp (g : Z -> list Rule) (X : string -> option OcAction) p : (forall i, acting (g i)) ->
  (forall i, first_rule (g i) p = if existsb (Z.eqb (pk_dscp p)) (dscpsOf i) then X (vrfName i) else None) ->
  first_rule (seqZ 0 n ≫= g) p = from_option (fun i => X (vrfName i)) None (dscpVRF (pk_dscp p)).
Proof using Hn.
  intros Ha Hg. rewrite (first_rule_bind g ((pk_dscp p - 10) / 2) (10 <= pk_dscp p < 10 + 2 * n) (X (vrfName ((pk_dscp p - 10) / 2)))); [|done|].
  - unfold dscpVRF. pose proof (Z.div_mod (pk_dscp p - 10) 2 ltac:(lia)). pose proof (Z.mod_pos_bound (pk_dscp p - 10) 2 ltac:(lia)).
    destruct (Z.leb_spec 10 (pk_dscp p)), (Z.ltb_spec (pk_dscp p) (10 + 2 * n)); cbn [andb from_option];
      case_decide as Hd; try done; rewrite elem_of_seqZ in Hd; lia.
  - intros i Hi%elem_of_seqZ. rewrite Hg, dscps_member by lia. case_bool_decide as Hd; case_decide; try tauto. by destruct Hd as [-> _].
Qed.

Lemma policy_decides md p : first_match (ordered (scalePolicy (BuildEncapVRFs n) def md)) p = Some (scaleSpec p).
Proof using Hn.
  assert (forall vrfs, length (decapRules vrfs) = (length vrfs * 4)%nat /\ length (encapRules vrfs) = (length vrfs * 2)%nat) as Hlen.
  { intros vrfs. assert (length (zip (seqZ 0 (Z.of_nat (length vrfs))) vrfs) = length vrfs) as Hz
      by (rewrite length_zip_with, length_seqZ; lia).
    split; [unfold decapRules; rewrite (length_bind_each _ 4%nat)|unfold encapRules; rewrite (length_bind_each _ 2%nat)];
      rewrite ?Hz; try done; by intros []. }
  unfold scalePolicy. rewrite build_numbered.
  2:{ rewrite !length_app. destruct (Hlen (BuildEncapVRFs n)) as [-> ->]. unfold BuildEncapVRFs. rewrite length_fmap, length_seqZ.
      destruct md; cbn; lia. }
  cbn [fst]. rewrite ordered_numbered. unfold numbered. rewrite first_match_zip, !fmap_app, decap_rules, encap_rules.
  rewrite first_rule_app by apply acting_fmap, acting_decap.
  rewrite (by_dscp decapGroup (fun vrf => (fun src => decapAction vrf (fallbackOf src)) <$> tunnelSource p) p acting_decap (fun i => decap_group i p)).
  rewrite first_rule_app by (repeat constructor; by eexists). rewrite plain_rules, first_rule_app by apply acting_fmap, acting_encap.
  rewrite (by_dscp encapGroup (fun vrf => Some (forwardAction vrf)) p acting_encap (fun i => encap_group i p)), default_rules.
  unfold scaleSpec, vrfOf. destruct (dscpVRF (pk_dscp p)), (tunnelSource p); reflexivity.
Qed.
End Decides.

(** The instances of a decision are created. *)
Lemma vrfOf_created n def d : 0 <= n <= 123 -> vrfOf n def d ∈ def :: BuildAllNonDefaultVRFs (BuildEncapVRFs n).
Proof.
  intros Hn. unfold vrfOf, dscpVRF. destruct (Z.leb_spec 10 d), (Z.ltb_spec d (10 + 2 * n)); cbn [andb from_option]; try by left.
  right. unfold BuildAllNonDefaultVRFs, BuildEncapVRFs. apply elem_of_app. left. apply (list_elem_of_fmap_2 vrfName), elem_of_seqZ.
  pose proof (Z.div_mod (d - 10) 2 ltac:(lia)). pose proof (Z.mod_pos_bound (d - 10) 2 ltac:(lia)). lia.
Qed.
Lemma spec_created n def q : 0 <= n <= 123 ->
  action_instances (scaleSpec n def q) ⊆ def :: BuildAllNonDefaultVRFs (BuildEncapVRFs n).
Proof.
  intros Hn. pose proof (vrfOf_created n def (pk_dscp q) Hn) as Hv.
  assert (forall v, v ∈ [TransitVRF111Str; TransitVRF222Str; RepairVRFStr; DecapVRFStr] ->
    v ∈ def :: BuildAllNonDefaultVRFs (BuildEncapVRFs n)) as Hf by (intros v H; right; apply elem_of_app; by right).
  unfold scaleSpec. destruct (tunnelSource q) as [src|]; intros v; unfold action_instances, id;
    cbn [decapAction forwardAction omap list_omap DecapNetworkInstance PostDecapNetworkInstance DecapFallbackNetworkInstance NetworkInstance];
    intros H; rewrite ?elem_of_cons, elem_of_nil in H.
  - destruct H as [->|[->|[->|[]]]]; [apply Hf; do 3 right; by left|done|apply Hf]. unfold fallbackOf. destruct (String.eqb _ _); [by left|right; by left].
  - by destruct H as [->|[]].
Qed.

(** * The packets of the flows *)

(** A packet of a flow: its outer header is the first IP header of the flow. *)
Definition sends (hs : list Header) (q : VrfPolicy.Packet) : Prop :=
  match hs with
  | _ :: Ipv4 (Value src) _ _ (Some (Dscp (Values l))) :: rest =>
      pk_v6 q = false /\ parseV4 src = Some (pk_src q) /\ pk_dscp q ∈ l /\
      match rest with Ipv4 _ _ _ _ :: _ => pk_protocol q = 4 | Ipv6 _ _ _ _ :: _ => pk_protocol q = 41 | _ => True end
  | _ :: Ipv6 _ _ _ (Some (Values l)) :: _ => pk_v6 q = true /\ pk_dscp q ∈ ((fun c => Z.shiftr c 2) <$> l)
  | _ => False
  end.

(** What the policy is to do with the packets of a scenario whose DSCP is one of VRF [vi]. *)
Definition scenarioAction (sc : TrafficScenario) (vi : Z) (a : OcAction) : Prop :=
  match sc with
  | ScenarioEncap => a = forwardAction (vrfName vi)
  | ScenarioDecap | ScenarioTransit => a = decapAction (vrfName vi) TransitVRF111Str
  | ScenarioRepaired => a = decapAction (vrfName vi) TransitVRF222Str
  | ScenarioReencap => exists src, src ∈ outerSrcs /\ a = decapAction (vrfName vi) (fallbackOf src)
  end.

Section Classified.
Context (n : Z) (Hn : 0 <= n <= 123) (def : string).

Lemma vrfOf_dscp vi d : 0 <= vi < n -> d ∈ dscpsOf vi -> vrfOf n def d = vrfName vi.
Proof using Hn.
  intros Hv Hd. assert (existsb (Z.eqb d) (dscpsOf vi) = true) as He.
  { apply existsb_exists. exists d. split; [by apply list_elem_of_In|apply Z.eqb_refl]. }
  rewrite (dscps_member n Hn vi d Hv) in He. apply bool_decide_eq_true in He as [-> Hr].
  unfold vrfOf, dscpVRF. by rewrite (proj2 (Z.leb_le 10 d)), (proj2 (Z.ltb_lt d (10 + 2 * n))) by lia.
Qed.

Lemma all_dscps d : d ∈ getAllEncapDSCPVals n -> exists vi, 0 <= vi < n /\ d ∈ dscpsOf vi.
Proof.
  unfold getAllEncapDSCPVals. intros (vi & Hd & Hv%elem_of_seqZ)%list_elem_of_bind. exists vi. split; [lia|]. exact Hd.
Qed.

Lemma parse_111 : parseV4 IPv4OuterSrc111 = Some [198; 51; 100; 111]. Proof. vm_compute. reflexivity. Qed.
Lemma parse_222 : parseV4 IPv4OuterSrc222 = Some [198; 51; 100; 222]. Proof. vm_compute. reflexivity. Qed.
Lemma parse_ate1 : parseV4 ATEPort1IPv4 = Some [192; 0; 2; 2]. Proof. vm_compute. reflexivity. Qed.

(** An encapsulated packet from one of the two sources. *)
Lemma source_of q src : src ∈ outerSrcs -> pk_v6 q = false -> parseV4 src = Some (pk_src q) -> pk_protocol q = 4 \/ pk_protocol q = 41 ->
  tunnelSource q = Some src.
Proof.
  intros Hs Hv Hip Hp. unfold tunnelSource. rewrite Hv. cbn [negb andb].
  replace ((pk_protocol q =? 4) || (pk_protocol q =? 41)) with true by (by destruct Hp as [-> | ->]).
  unfold outerSrcs in Hs. rewrite !elem_of_cons in Hs. destruct Hs as [->|[->|[]%elem_of_nil]].
  - rewrite parse_111 in Hip. injection Hip as <-. vm_compute. reflexivity.
  - rewrite parse_222 in Hip. injection Hip as <-. vm_compute. reflexivity.
Qed.

(** The packets of tunnels, and the others. *)
Lemma tunnelled_source dstMac src dst inner dscps q : src ∈ outerSrcs -> sends (tunnelled dstMac src dst inner dscps) q ->
  tunnelSource q = Some src /\ pk_dscp q ∈ dscps.
Proof.
  intros Hs (Hv & Hip & Hd & Hp). split; [|done]. apply source_of; auto.
Qed.
Lemma tunnelled_spec dstMac src dst inner dscps q vi : src ∈ outerSrcs -> sends (tunnelled dstMac src dst inner dscps) q ->
  0 <= vi < n -> pk_dscp q ∈ dscpsOf vi -> scaleSpec n def q = decapAction (vrfName vi) (fallbackOf src).
Proof using Hn.
  intros Hs Hq Hv Hd. unfold scaleSpec. destruct (tunnelled_source _ _ _ _ _ _ Hs Hq) as [-> _]. by rewrite (vrfOf_dscp vi).
Qed.

Lemma src111 : IPv4OuterSrc111 ∈ outerSrcs. Proof. by left. Qed.
Lemma src222 : IPv4OuterSrc222 ∈ outerSrcs. Proof. right. by left. Qed.
End Classified.

Section Flows.
Context (dstMac : string) (compact : bool) (p : ScaleParams) (Hn : 0 <= NumEncapVRFs p <= 123) (def : string).
Abbreviation n := (NumEncapVRFs p).

Lemma encap_classified s q : s ∈ encapSpecs dstMac p -> sends s.2 q ->
  exists vi, 0 <= vi < n /\ pk_dscp q ∈ dscpsOf vi /\ scaleSpec n def q = forwardAction (vrfName vi).
Proof using Hn.
  unfold encapSpecs. intros (vi & Hs & Hv%elem_of_seqZ)%list_elem_of_bind Hq. exists vi. split; [lia|].
  assert (tunnelSource q = None /\ pk_dscp q ∈ dscpsOf vi) as [Ht Hd].
  { rewrite !elem_of_cons in Hs. destruct Hs as [->|[->|[]%elem_of_nil]].
    - destruct Hq as (Hv6 & Hip & Hd & _). split; [|done]. unfold tunnelSource. rewrite Hv6. cbn [fst] in Hip. rewrite parse_ate1 in Hip. injection Hip as <-.
      cbn [negb andb]. by destruct ((pk_protocol q =? 4) || (pk_protocol q =? 41)).
    - destruct Hq as (Hv6 & Hd). rewrite classes_dscps in Hd. split; [|done]. unfold tunnelSource. by rewrite Hv6. }
  split; [done|]. unfold scaleSpec. by rewrite Ht, (vrfOf_dscp n Hn def vi) by (done || lia).
Qed.

(** The flows of one tunnel source, with a DSCP set of one VRF or of all. *)
Lemma tunnel_classified dscps src dst inner q : src ∈ outerSrcs ->
  dscps = getAllEncapDSCPVals n \/ (exists vi, 0 <= vi < n /\ dscps = dscpsOf vi) -> sends (tunnelled dstMac src dst inner dscps) q ->
  exists vi, 0 <= vi < n /\ pk_dscp q ∈ dscpsOf vi /\ scaleSpec n def q = decapAction (vrfName vi) (fallbackOf src).
Proof using Hn.
  intros Hs Hds Hq. destruct (tunnelled_source _ _ _ _ _ _ Hs Hq) as [_ Hd].
  assert (exists vi, 0 <= vi < n /\ pk_dscp q ∈ dscpsOf vi) as (vi & Hv & Hvd)
    by (destruct Hds as [->|(vi & Hv & ->)]; [by apply all_dscps|eauto]).
  exists vi. split_and!; [lia..|done|]. by apply (tunnelled_spec n Hn def dstMac src dst inner dscps).
Qed.

Lemma reencap6_as_tunnelled src dst q vi inner : src ∈ outerSrcs ->
  sends [ethHeader dstMac; ipv4Header src dst (dscpsOf vi); inner] q -> (exists a b c d, inner = Ipv6 a b c d) ->
  tunnelSource q = Some src /\ pk_dscp q ∈ dscpsOf vi.
Proof.
  intros Hs (Hv & Hip & Hd & Hp) (a & b & c & d & ->). split; [|done]. apply source_of; auto.
Qed.

Lemma reencap_classified s q : s ∈ reencapSpecs dstMac p -> sends s.2 q ->
  exists vi src, 0 <= vi < n /\ pk_dscp q ∈ dscpsOf vi /\ src ∈ outerSrcs /\ scaleSpec n def q = decapAction (vrfName vi) (fallbackOf src).
Proof using Hn.
  unfold reencapSpecs. intros (vi & (src & Hs & Hsrc)%list_elem_of_bind & Hv%elem_of_seqZ)%list_elem_of_bind Hq. exists vi, src.
  assert (tunnelSource q = Some src /\ pk_dscp q ∈ dscpsOf vi) as [Ht Hd].
  { rewrite !elem_of_cons in Hs. destruct Hs as [->|[->|[]%elem_of_nil]]; [by eapply tunnelled_source|].
    eapply reencap6_as_tunnelled; [done|exact Hq|by do 4 eexists]. }
  split_and!; [lia..|done|done|]. unfold scaleSpec. by rewrite Ht, (vrfOf_dscp n Hn def vi) by (done || lia).
Qed.

Lemma tunnel_specs_classified prefix src start inner s q : src ∈ outerSrcs -> s ∈ tunnelSpecs dstMac compact p prefix src start inner ->
  sends s.2 q -> exists vi, 0 <= vi < n /\ pk_dscp q ∈ dscpsOf vi /\ scaleSpec n def q = decapAction (vrfName vi) (fallbackOf src).
Proof using Hn.
  intros Hsrc. unfold tunnelSpecs. destruct compact.
  - intros ->%list_elem_of_singleton. apply tunnel_classified; auto.
  - intros (vi & ->%list_elem_of_singleton & Hv%elem_of_seqZ)%list_elem_of_bind. apply tunnel_classified; [done|]. right. exists vi. split; [lia|done].
Qed.

Lemma scenario_classified sc s q : s ∈ scenarioSpecs dstMac compact p sc -> sends s.2 q ->
  exists vi, 0 <= vi < n /\ pk_dscp q ∈ dscpsOf vi /\ scenarioAction sc vi (scaleSpec n def q).
Proof using Hn.
  destruct sc; cbn [scenarioSpecs scenarioAction].
  - apply encap_classified.
  - unfold decapSpecs. destruct compact.
    + intros ->%list_elem_of_singleton. apply (tunnel_classified _ IPv4OuterSrc111); [apply src111|by left].
    + intros (vi & ->%list_elem_of_singleton & Hv%elem_of_seqZ)%list_elem_of_bind.
      apply (tunnel_classified _ IPv4OuterSrc111); [apply src111|]. right. exists vi. split; [lia|done].
  - intros Hs Hq. destruct (reencap_classified s q Hs Hq) as (vi & src & Hv & Hd & Hsrc & Ha). eauto 10.
  - apply tunnel_specs_classified, src111.
  - apply tunnel_specs_classified, src222.
Qed.
End Flows.

(** C7: for up to 27 encapsulation VRFs, as many as have DSCP values of six bits, the
    installed policy decides every packet by its tunnel source and DSCP, and all the
    instances it names are the default one or among those that are created.  So it treats
    the packets of every flow that the traffic configuration ends up with as the scenario
    recorded for the flow needs: the packets of encapsulation flows are looked up in the
    VRF of their DSCP, the tunnelled ones are decapsulated into it with the transit VRF of
    their source as the fallback. *)
Theorem scale_policy_classifies {re : Regexp} exceptions flags dut dp1 ni matchDefault withZero noRef p d :
  DefaultNetworkInstance exceptions dut = Ret ni -> PfRequireMatchDefaultRule exceptions dut = Ret matchDefault ->
  InterfaceRefInterfaceIDFormat exceptions dut = Ret withZero -> InterfaceRefConfigUnsupported exceptions flags dut = Ret noRef ->
  scale_ok p -> NumEncapVRFs p <= 27 -> 0 <= TrafficRateMpps p ->
  exists pf pol,
    ConfigureVRFSelectionPolicyOC exceptions flags dut dp1 (BuildEncapVRFs (NumEncapVRFs p)) d =
      (Ret tt, {| d_batch := d_batch d; d_root := d_root d; d_ops := d_ops d ++ [ReplacePF ni pf] |}) /\
    pf_Policy pf !! VRFPolC = Some pol /\
    (forall q, exists a, first_match (ordered pol) q = Some a /\ a = scaleSpec (NumEncapVRFs p) ni q /\
       action_instances a ⊆ ni :: BuildAllNonDefaultVRFs (BuildEncapVRFs (NumEncapVRFs p))) /\
    (forall dstMac imix repair cap compact t, exists indexes ex t',
       prepareTraffic dstMac imix repair cap compact p t = (Ret (indexes, ex), t') /\
       forall f q, f ∈ cfg_flows (t_top t') -> sends (fl_packet f) q ->
         exists e vi a, ex !! fl_name f = Some e /\ 0 <= vi < NumEncapVRFs p /\ pk_dscp q ∈ dscpsOf vi /\ pk_dscp q < 64 /\
           first_match (ordered pol) q = Some a /\ scenarioAction (Scenario e) vi a).
Proof.
  intros Hni Hmd Hz Hr Hok Hn Hrate. assert (0 <= NumEncapVRFs p <= 123) as Hn'.
  { pose proof (fatal_checks p (so_valid p Hok)). lia. }
  do 2 eexists. split_and!.
  - unfold ConfigureVRFSelectionPolicyOC. rewrite (lift_run _ _ _ _ Hni), (lift_run _ _ _ _ Hmd), (lift_run _ _ _ _ Hz), (lift_run _ _ _ _ Hr).
    reflexivity.
  - apply lookup_singleton_eq.
  - intros q. eexists. split; [by apply policy_decides|]. split; [done|]. apply spec_created; done.
  - intros dstMac imix repair cap compact t.
    destruct (prepare_run dstMac imix compact repair p Hok cap t Hrate) as (t' & Hrun & Hfl & _).
    do 2 eexists. exists t'. split; [exact Hrun|]. intros f q Hf Hq. rewrite Hfl in Hf.
    apply list_elem_of_fmap in Hf as (s & -> & Hs).
    destruct (expectation_of dstMac imix compact repair p s Hs) as (e & He & _ & Hsc).
    destruct (scenario_classified dstMac compact p Hn' ni (Scenario e) s q Hsc Hq) as (vi & Hv & Hd & Ha).
    exists e, vi, (scaleSpec (NumEncapVRFs p) ni q). split_and!; [exact He|lia|lia|done| |by apply policy_decides|done].
    unfold dscpsOf, EncapVRFDSCP, uint8 in Hd. rewrite !Z.mod_small in Hd by lia. rewrite !elem_of_cons, elem_of_nil in Hd. lia.
Qed.

Lemma scale_policy_classifies_witness :
  exists pf pol,
    @ConfigureVRFSelectionPolicyOC no_regexp cisco_exceptions ∅ sample_dut "Eth1" (BuildEncapVRFs 16) {| d_batch := []; d_root := ∅; d_ops := [] |} =
      (Ret tt, {| d_batch := []; d_root := ∅; d_ops := [ReplacePF "DEFAULT" pf] |}) /\
    pf_Policy pf !! VRFPolC = Some pol /\
    first_match (ordered pol) {| pk_v6 := false; pk_protocol := 4; pk_dscp := 13; pk_src := [198; 51; 100; 111] |} =
      Some (decapAction "ENCAP_TE_VRF_B" "TE_VRF_111").
Proof.
  destruct (@scale_policy_classifies no_regexp cisco_exceptions ∅ sample_dut "Eth1" "DEFAULT" true false false (t3Params 1000)
    {| d_batch := []; d_root := ∅; d_ops := [] |}) as (pf & pol & E & Hpol & Hd & _);
    [vm_compute; reflexivity..|apply t3_ok; lia|cbn; lia|cbn; lia|].
  exists pf, pol. split; [exact E|]. split; [exact Hpol|].
  destruct (Hd {| pk_v6 := false; pk_protocol := 4; pk_dscp := 13; pk_src := [198; 51; 100; 111] |}) as (a & -> & -> & _).
  vm_compute. reflexivity.
Defined.
