(* ===== verification/ScaleLinks.v ===== *)
(** The links of the gRIBI full scale test: the subinterfaces that [ConfigureDUT]
    writes to the device and the devices that [ConfigureOTG] creates on the traffic
    generator fit together, and the next hops of the default VRF are on these links. *)
From stdpp Require Import base list gmap strings pretty.
From Stdlib Require Import ZArith Lia.
From S2P Require Import Prelude GoStrings Net IPUtil Gribi NhgBuckets GribiScale GribiRefs GribiProgram GribiRun Deviations VrfPolicy Floats OtgFlows ScaleTraffic FlowSpecs ScaleTopo.
Open Scope string_scope.
Open Scope Z_scope.
Open Scope list_scope.

(** * What a link needs *)

Definition vlanTag (s : OcSubinterface) : option Z :=
  v ← sub_Vlan s; match SingleTagged v with Some x => Some x | None => VlanId v end.
Definition has_address (c : option OcIpConfig) (ip : string) (len : Z) : Prop :=
  ((c ≫= fun c => ipc_Address c !! ip) ≫= PrefixLength) = Some len.

(** The same VLAN tag on both ends, the gateways are the addresses of the device, and
    the two ends are the first and the second host of a /30 and of a /126. *)
Definition linked (s : OcSubinterface) (dev : OtgFlows.Device) : Prop := exists e name vlan ip4 ip6 v4 v6,
  dev_ethernets dev = [e] /\ eth_vlans e = [(name, vlan)] /\ vlanTag s = Some vlan /\ 1 <= vlan <= 4094 /\
  eth_ipv4 e = [ip4] /\ eth_ipv6 e = [ip6] /\ ip_prefix ip4 = 30 /\ ip_prefix ip6 = 126 /\
  has_address (sub_Ipv4 s) (ip_gateway ip4) 30 /\ has_address (sub_Ipv6 s) (ip_gateway ip6) 126 /\
  ParseIP (ip_gateway ip4) = Some (v4InV6Prefix ++ be_bytes 4 v4) /\
  ParseIP (ip_address ip4) = Some (v4InV6Prefix ++ be_bytes 4 (v4 + 1)) /\ v4 mod 4 = 1 /\
  ip_gateway ip6 = IP_String (be_bytes 16 v6) /\ ip_address ip6 = IP_String (be_bytes 16 (v6 + 1)) /\ v6 mod 4 = 1.

(** * Addresses *)

Definition listOf (m : go (list string)) : list string := match m with Ret l => l | _ => [] end.
Definition dutV4 (n : Z) := listOf (GenerateIPsWithStep DUTPort2IPv4Start n PortIPv4Step).
Definition ateV4 (n : Z) := listOf (GenerateIPsWithStep ATEPort2IPv4Start n PortIPv4Step).
Definition dutV6 (n : Z) := listOf (GenerateIPv6sWithStep DUTPort2IPv6Start n PortIPv6Step).
Definition ateV6 (n : Z) := listOf (GenerateIPv6sWithStep ATEPort2IPv6Start n PortIPv6Step).

Lemma v4_addresses start n ip : parseV4 start = Some ip -> 0 <= be_val ip -> be_val ip + 4 * 2 ^ 20 < 2 ^ 32 -> 0 < n <= 2 ^ 20 ->
  fatal (GenerateIPsWithStep start n PortIPv4Step) = Ret (listOf (GenerateIPsWithStep start n PortIPv4Step)) /\
  forall i, 0 <= i < n -> exists s, index (listOf (GenerateIPsWithStep start n PortIPv4Step)) i = Ret s /\
    listOf (GenerateIPsWithStep start n PortIPv4Step) !! Z.to_nat i = Some s /\
    ParseIP s = Some (v4InV6Prefix ++ be_bytes 4 (be_val ip + i * 4)).
Proof.
  intros Hip H0 Hb Hn. assert (parseV4 PortIPv4Step = Some [0; 0; 0; 4]) as Hst by (vm_compute; reflexivity).
  pose proof (GenerateIPsWithStep_cases start PortIPv4Step n ip [0; 0; 0; 4] Hip Hst ltac:(lia)) as H. cbv zeta in H.
  change (be_val [0; 0; 0; 4]) with 4 in H. destruct (GenerateIPsWithStep start n PortIPv4Step) as [l|e| |]; [|exfalso; lia|done..].
  destruct H as (_ & _ & _ & Hlen & _ & Hp). split; [done|]. intros i Hi. cbn [listOf].
  destruct (index_total l i) as (s & Hs & Hl); [lia|]. exists s. split_and!; [done..|]. rewrite (Hp _ _ Hl). do 3 f_equal. lia.
Qed.

Lemma v6_addresses start n ip : parseV6 start = Some ip -> be_val ip + 2 ^ 64 * 2 ^ 20 < 2 ^ 128 -> 0 < n <= 2 ^ 20 ->
  fatal (GenerateIPv6sWithStep start n PortIPv6Step) = Ret (listOf (GenerateIPv6sWithStep start n PortIPv6Step)) /\
  forall i, 0 <= i < n -> index (listOf (GenerateIPv6sWithStep start n PortIPv6Step)) i = Ret (IP_String (be_bytes 16 (be_val ip + i * 2 ^ 64))).
Proof.
  intros Hip Hb Hn. assert (parseV6 PortIPv6Step = Some (be_bytes 16 (2 ^ 64))) as Hst by (vm_compute; reflexivity).
  pose proof (GenerateIPv6sWithStep_cases start PortIPv6Step n ip _ Hip Hst ltac:(lia)) as H. cbv zeta in H.
  change (be_val (be_bytes 16 (2 ^ 64))) with (2 ^ 64) in H. destruct (GenerateIPv6sWithStep start n PortIPv6Step) as [l|e| |]; [|exfalso; lia|done..].
  destruct H as (_ & _ & ->). split; [done|]. intros i Hi. cbn [listOf].
  assert (map (fun i => IP_String (be_bytes 16 (be_val ip + 2 ^ 64 * Z.of_nat i))) (seq 0 (Z.to_nat n)) !! Z.to_nat i =
    Some (IP_String (be_bytes 16 (be_val ip + i * 2 ^ 64)))) as Hl.
  { change (map ?f ?l) with (f <$> l). rewrite list_lookup_fmap, lookup_seq_lt by lia.
    cbn [fmap option_fmap option_map]. rewrite Nat.add_0_l, Z2Nat.id by lia. do 4 f_equal. apply Z.mul_comm. }
  unfold index. rewrite (proj2 (Z.ltb_ge i 0)) by lia. by rewrite Hl.
Qed.

Lemma start_texts :
  parseV4 DUTPort2IPv4Start = Some [193; 51; 0; 1] /\ parseV4 ATEPort2IPv4Start = Some [193; 51; 0; 2] /\
  parseV6 DUTPort2IPv6Start = Some (be_bytes 16 (20481 * 2 ^ 112 + 2 ^ 64 + 1)) /\
  parseV6 ATEPort2IPv6Start = Some (be_bytes 16 (20481 * 2 ^ 112 + 2 ^ 64 + 2)).
Proof. split_and!; vm_compute; reflexivity. Qed.

(** * The device *)

(** A device on which the deviations that the topology asks for have values. *)
Record known {re : Regexp} (exceptions : list PlatformExceptions) (flags : gmap string bool) (dut : Deviations.Device) (noMix deprecated enabled explicit : bool) (ni : string) : Prop := {
  k_noMix : NoMixOfTaggedAndUntaggedSubinterfaces exceptions dut = Ret noMix;
  k_deprecated : DeprecatedVlanID exceptions dut = Ret deprecated;
  k_enabled : InterfaceEnabled exceptions dut = Ret enabled;
  k_explicit : ExplicitInterfaceInDefaultVRF exceptions dut = Ret explicit;
  k_ni : DefaultNetworkInstance exceptions dut = Ret ni;
  k_mtu : exists b, OmitL2MTU exceptions dut = Ret b;
  k_missing : exists b, IPv4MissingEnabled exceptions dut = Ret b;
  k_before : exists b, InterfaceConfigVRFBeforeAddress exceptions dut = Ret b;
  k_default : exists b, PfRequireMatchDefaultRule exceptions dut = Ret b;
  k_format : exists b, InterfaceRefInterfaceIDFormat exceptions dut = Ret b;
  k_ref : exists b, InterfaceRefConfigUnsupported exceptions flags dut = Ret b;
}.

(** [m] returns, keeps the tree, and only adds to the batch and the log. *)
Definition extends {A} (m : gost Dut A) : Prop := forall d, exists a batch ops,
  m d = (Ret a, {| d_batch := d_batch d ++ batch; d_root := d_root d; d_ops := d_ops d ++ ops |}).

Lemma dut_eta d : {| d_batch := d_batch d ++ []; d_root := d_root d; d_ops := d_ops d ++ [] |} = d.
Proof. destruct d. cbn. by rewrite !app_nil_r. Qed.
Lemma ext_ret {A} (a : A) : extends (mret a).
Proof. intros d. exists a, [], []. by rewrite dut_eta. Qed.
Lemma ext_lift {A} (m : go A) a : m = Ret a -> extends (lift m).
Proof. intros -> d. exists a, [], []. by rewrite dut_eta. Qed.
Lemma extends_batch u : extends (BatchUpdate u).
Proof. intros d. exists tt, [u], []. by rewrite app_nil_r. Qed.
Lemma extends_send op : extends (send op).
Proof. intros d. exists tt, [], [op]. by rewrite app_nil_r. Qed.
Lemma extends_Set : extends Set_.
Proof. intros d. exists tt, [], [SetBatch (d_batch d)]. by rewrite app_nil_r. Qed.
Lemma ext_bind {A B} (m : gost Dut A) (k : A -> gost Dut B) : extends m -> (forall a, extends (k a)) -> extends (m ≫= k).
Proof.
  intros Hm Hk d. destruct (Hm d) as (a & b1 & o1 & Ha). rewrite (bind_run _ _ _ _ _ Ha).
  destruct (Hk a {| d_batch := d_batch d ++ b1; d_root := d_root d; d_ops := d_ops d ++ o1 |}) as (b & b2 & o2 & ->).
  exists b, (b1 ++ b2), (o1 ++ o2). cbn. by rewrite !app_assoc.
Qed.
Lemma extends_when b m : extends m -> extends (whenD b m).
Proof. by destruct b; [|intros _; apply ext_ret]. Qed.
Lemma ext_forEach {A} (f : A -> gost Dut unit) l : (forall x, extends (f x)) -> extends (forEach f l).
Proof. intros Hf. induction l as [|x l IH]; [apply ext_ret|]. apply ext_bind; auto. Qed.

(** Run the first of a sequence. *)
Ltac run_extends H :=
  match goal with |- context [(_ ≫= _) ?d] =>
    let E := fresh "E" in destruct (H d) as ([] & ? & ? & E); rewrite (bind_run _ _ _ _ _ E); clear E
  end.

Create HintDb extends.
#[export] Hint Resolve ext_ret extends_batch extends_send extends_Set ext_bind extends_when ext_forEach : extends.

Section Device.
Context {re : Regexp} (exceptions : list PlatformExceptions) (flags : gmap string bool) (dut : Deviations.Device).
Context (dp1 dp2 : string) (arista nokia : FeatureType -> string) (accepts : string -> bool) (Hacc : forall s, accepts s = true).
Context (noMix deprecated enabled explicit : bool) (ni : string) (K : known exceptions flags dut noMix deprecated enabled explicit ni).

Lemma ext_assign name k : extends (assignInterfaceToDefaultNI exceptions dut name k).
Proof using K.
  unfold assignInterfaceToDefaultNI. apply ext_bind; [by eapply ext_lift, K|]. intros b. apply extends_when, ext_bind;
    [by eapply ext_lift, K|auto with extends].
Qed.

Lemma andAlso_ret a b x y : a = Ret x -> b = Ret y -> exists z, andAlso a b = Ret z.
Proof. intros -> ->. destruct x; eexists; reflexivity. Qed.
Lemma notGo_ret a x : a = Ret x -> notGo a = Ret (negb x).
Proof. by intros ->. Qed.

Lemma ext_interface p a vlan : extends (configureDUTInterface exceptions dut p a vlan).
Proof using K.
  destruct (k_mtu _ _ _ _ _ _ _ _ K) as [om Hom]. destruct (k_missing _ _ _ _ _ _ _ _ K) as [mi Hmi].
  pose proof (k_enabled _ _ _ _ _ _ _ _ K) as He. pose proof (k_noMix _ _ _ _ _ _ _ _ K) as Hx. pose proof (k_deprecated _ _ _ _ _ _ _ _ K) as Hd.
  assert (exists intf, NewOCInterface exceptions dut a p = Ret intf) as [intf Hi].
  { unfold NewOCInterface, ConfigOCInterface, configPhysical. rewrite He, Hom. unfold configIPv4, configIPv4Sec, configIPv6. rewrite He, Hmi.
    cbn [mbind outcome_bind notGo andAlso]. destruct (0 <? a_MTU a), (nonempty (a_IPv4 a)), (nonempty (a_IPv4Sec a)), (nonempty (a_IPv6 a)), enabled;
      eexists; reflexivity. }
  unfold configureDUTInterface. apply ext_bind; [by eapply ext_lift|]. intros intf'.
  apply ext_bind; [destruct (andAlso_ret _ _ _ _ (notGo_ret _ _ Hom) (eq_refl (Ret (0 <? a_MTU a)))) as [z Hz]; by eapply ext_lift|].
  intros b. apply ext_bind; [destruct (andAlso_ret _ _ _ _ (eq_refl (Ret vlan)) Hx) as [z Hz]; by eapply ext_lift|].
  intros t. apply ext_bind; [destruct t; [rewrite Hd|]; by eapply ext_lift|]. intros i.
  apply ext_bind; [apply extends_batch|]. intros _. apply ext_assign.
Qed.

Lemma ext_hardware : extends (ConfigureHardwareInit dut arista nokia accepts).
Proof using Hacc.
  assert (forall s, extends (PushDUTHardwareInitConfig accepts s)) as Hp.
  { intros s. unfold PushDUTHardwareInitConfig. rewrite Hacc. destruct (String.eqb s ""); auto with extends. }
  unfold ConfigureHardwareInit. apply ext_bind; [|auto with extends].
  unfold ConfigureTcam, EnableSecondaryDefaultLookup. repeat destruct (String.eqb _ _); repeat destruct (nonempty _); cbn [andb];
    auto 10 with extends.
Qed.

Lemma ext_vrfs n : extends (CreateGRIBIScaleVRFs exceptions dut n).
Proof using K. unfold CreateGRIBIScaleVRFs. apply ext_bind; [by eapply ext_lift, K|]. auto 10 with extends. Qed.

(** ** Subinterfaces *)

Definition vlanId (i : Z) : Z := StartVLANPort2 + i + (if noMix then 1 else 0).
Lemma vlanAt_run i : 0 <= i < 3894 -> vlanAt exceptions dut StartVLANPort2 i = Ret (vlanId i).
Proof using K.
  intros Hi. unfold vlanAt. rewrite (k_noMix _ _ _ _ _ _ _ _ K). cbn [mbind outcome_bind]. unfold vlanId, uint16, StartVLANPort2.
  destruct noMix; rewrite !Z.mod_small by (rewrite ?Z.mod_small by lia; lia); f_equal; lia.
Qed.

Definition subOf (vlan : Z) (v4 v6 : string) : OcSubinterface :=
  mod_ipv6 (fun s6 => applyIf enabled set_ip_enabled (set_ip_mtu MTU (mod_address v6 (set_prefixLength IPv6IntfMask) s6)))
    (mod_ipv4 (fun s4 => applyIf enabled set_ip_enabled (set_ip_mtu MTU (mod_address v4 (set_prefixLength IPv4IntfMask) s4)))
      (mod_vlan (vlanOf deprecated vlan) emptySubinterface)).

Lemma subOf_vlan vlan v4 v6 : vlanTag (subOf vlan v4 v6) = Some vlan.
Proof using Type. clear K. unfold subOf, vlanTag. cbn. by destruct deprecated. Qed.
Lemma subOf_v4 vlan v4 v6 : has_address (sub_Ipv4 (subOf vlan v4 v6)) v4 30.
Proof using Type. clear K. unfold has_address. cbn. destruct enabled; cbn; by rewrite lookup_insert_eq. Qed.
Lemma subOf_v6 vlan v4 v6 : has_address (sub_Ipv6 (subOf vlan v4 v6)) v6 126.
Proof using Type. clear K. unfold has_address. cbn. destruct enabled; cbn; by rewrite lookup_insert_eq. Qed.

Definition subUpdates (vlan : Z) (v4 v6 : string) (k : Z) : list Update :=
  UpdSubinterface dp2 k (subOf vlan v4 v6) :: (if explicit then [UpdInstanceInterface ni (dp2 +:+ "." +:+ Itoa k) dp2 k] else []).

Lemma create_run k vlan v4 v6 d : vlan <> 0 -> d_root d !! (dp2, k) = None ->
  CreateDUTSubinterface exceptions dut dp2 k vlan v4 v6 d =
  (Ret tt, {| d_batch := d_batch d ++ subUpdates vlan v4 v6 k; d_root := <[(dp2, k) := subOf vlan v4 v6]> (d_root d); d_ops := d_ops d |}).
Proof using K.
  intros Hv Hr. unfold CreateDUTSubinterface. rewrite (proj2 (Z.eqb_neq vlan 0) Hv).
  rewrite (lift_run _ _ _ _ (k_deprecated _ _ _ _ _ _ _ _ K)), (lift_run _ _ _ _ (k_enabled _ _ _ _ _ _ _ _ K)).
  assert (mod_root dp2 k (fun s =>
    let s := applyIf (negb false) (mod_vlan (vlanOf deprecated vlan)) s in
    let s := mod_ipv4 (fun s4 => applyIf enabled set_ip_enabled (set_ip_mtu MTU (mod_address v4 (set_prefixLength IPv4IntfMask) s4))) s in
    mod_ipv6 (fun s6 => applyIf enabled set_ip_enabled (set_ip_mtu MTU (mod_address v6 (set_prefixLength IPv6IntfMask) s6))) s) d =
    (Ret (subOf vlan v4 v6), {| d_batch := d_batch d; d_root := <[(dp2, k) := subOf vlan v4 v6]> (d_root d); d_ops := d_ops d |})) as Hm.
  { unfold mod_root. by rewrite Hr. }
  rewrite (bind_run _ _ _ _ _ Hm). rewrite (bind_run (BatchUpdate _) _ _ _ _ eq_refl).
  unfold assignInterfaceToDefaultNI. rewrite (lift_run _ _ _ _ (k_explicit _ _ _ _ _ _ _ _ K)). unfold subUpdates, whenD. destruct explicit; [|done].
  rewrite (lift_run _ _ _ _ (k_ni _ _ _ _ _ _ _ _ K)). unfold BatchUpdate. cbn. by rewrite <- app_assoc.
Qed.

(** The updates of subinterface [i]. *)
Definition updatesAt (n i : Z) : list Update :=
  match index (dutV4 n) i, index (dutV6 n) i with
  | Ret v4, Ret v6 => subUpdates (vlanId i) v4 v6 (i + 1)
  | _, _ => []
  end.

Definition subBody (n : Z) (i : Z) : gost Dut unit :=
  vlanID ← lift (vlanAt exceptions dut StartVLANPort2 i);
  v4 ← lift (index (dutV4 n) i);
  v6 ← lift (index (dutV6 n) i);
  CreateDUTSubinterface exceptions dut dp2 (uint32 (i + 1)) vlanID v4 v6.

Section Subinterfaces.
Context (n : Z) (Hn : 0 < n <= 3894).
Context (H4 : forall i, 0 <= i < n -> exists s, index (dutV4 n) i = Ret s) (H6 : forall i, 0 <= i < n -> exists s, index (dutV6 n) i = Ret s).

Lemma sub_loop l : forall d, NoDup l -> (forall i, i ∈ l -> 0 <= i < n) -> (forall i, i ∈ l -> d_root d !! (dp2, i + 1) = None) ->
  exists root, forEach (subBody n) l d = (Ret tt, {| d_batch := d_batch d ++ (l ≫= updatesAt n); d_root := root; d_ops := d_ops d |}).
Proof using K Hn H4 H6.
  induction l as [|i l IH]; intros d Hnd Hr Hf; cbn [forEach mbind list_bind].
  { exists (d_root d). unfold mret, gost_ret. rewrite app_nil_r. by destruct d. }
  apply NoDup_cons in Hnd as [Hi Hnd]. pose proof (Hr i ltac:(by left)) as Hin.
  destruct (H4 i Hin) as [v4 E4]. destruct (H6 i Hin) as [v6 E6].
  assert (subBody n i d = (Ret tt, {| d_batch := d_batch d ++ subUpdates (vlanId i) v4 v6 (i + 1);
    d_root := <[(dp2, i + 1) := subOf (vlanId i) v4 v6]> (d_root d); d_ops := d_ops d |})) as Hb.
  { unfold subBody. rewrite (lift_run _ _ _ _ (vlanAt_run i ltac:(lia))), (lift_run _ _ _ _ E4), (lift_run _ _ _ _ E6).
    unfold uint32. rewrite Z.mod_small by lia. apply create_run; [unfold vlanId, StartVLANPort2; destruct noMix; lia|]. apply Hf. by left. }
  rewrite (bind_run _ _ _ _ _ Hb).
  destruct (IH {| d_batch := d_batch d ++ subUpdates (vlanId i) v4 v6 (i + 1);
    d_root := <[(dp2, i + 1) := subOf (vlanId i) v4 v6]> (d_root d); d_ops := d_ops d |}) as [root Hroot]; [done|intros; apply Hr; by right| |].
  - intros j Hj. cbn [d_root]. rewrite lookup_insert_ne; [apply Hf; by right|]. intros [= E]. assert (i = j) as -> by lia. done.
  - exists root. rewrite Hroot. cbn [d_batch d_ops].
    assert (updatesAt n i = subUpdates (vlanId i) v4 v6 (i + 1)) as -> by (unfold updatesAt; by rewrite E4, E6). by rewrite app_assoc.
Qed.
End Subinterfaces.
End Device.

(** * The traffic generator *)

Section Generator.
Context {re : Regexp} (exceptions : list PlatformExceptions) (flags : gmap string bool) (dut : Deviations.Device).
Context (noMix deprecated enabled explicit : bool) (ni : string) (K : known exceptions flags dut noMix deprecated enabled explicit ni).

Definition deviceAt (n i : Z) : OtgFlows.Device :=
  match index (dutV4 n) i, index (ateV4 n) i, index (dutV6 n) i, index (ateV6 n) i with
  | Ret d4, Ret a4, Ret d6, Ret a6 => ateDevice "port2" (vlanId noMix i) (a_Name atePort2Attr +:+ "-" +:+ Itoa i) ATEPort2MAC d4 a4 d6 a6
  | _, _, _, _ => ateDevice "port2" 0 "" "" "" "" "" ""
  end.

(** The address is not incremented. *)
Lemma same_MAC i : 0 <= i < 3894 -> fatal (IncrementMAC ATEPort2MAC (i + 1)) = Ret ATEPort2MAC.
Proof.
  intros Hi. rewrite (IncrementMAC_identity ATEPort2MAC [2; 0; 2; 0; 0; 1]); [vm_compute; reflexivity|vm_compute; reflexivity|lia|].
  change (be_val [2; 0; 2; 0; 0; 1]) with 2199056809985. lia.
Qed.

Section Devices.
Context (n : Z) (Hn : 0 < n <= 3894).
Context (H4 : forall i, 0 <= i < n -> exists s, index (dutV4 n) i = Ret s) (H6 : forall i, 0 <= i < n -> exists s, index (dutV6 n) i = Ret s).
Context (A4 : forall i, 0 <= i < n -> exists s, index (ateV4 n) i = Ret s) (A6 : forall i, 0 <= i < n -> exists s, index (ateV6 n) i = Ret s).

Definition devBody (i : Z) : otg string :=
  vlanID ← lift (vlanAt exceptions dut StartVLANPort2 i);
  let devName := a_Name atePort2Attr +:+ "-" +:+ Itoa i in
  incMAC ← lift (fatal (IncrementMAC (a_MAC atePort2Attr) (i + 1)));
  d4 ← lift (index (dutV4 n) i);
  a4 ← lift (index (ateV4 n) i);
  d6 ← lift (index (dutV6 n) i);
  a6 ← lift (index (ateV6 n) i);
  _ ← CreateATEDevice "port2" vlanID devName incMAC d4 a4 d6 a6;
  mret devName.

Definition add_devices (l : list OtgFlows.Device) (c : OtgFlows.Config) : OtgFlows.Config :=
  {| cfg_ports := cfg_ports c; cfg_devices := cfg_devices c ++ l; cfg_flows := cfg_flows c; cfg_captures := cfg_captures c |}.

Lemma dev_loop l : forall c, (forall i, i ∈ l -> 0 <= i < n) ->
  mapS devBody l c = (Ret ((fun i => a_Name atePort2Attr +:+ "-" +:+ Itoa i) <$> l), add_devices (deviceAt n <$> l) c).
Proof using K Hn H4 H6 A4 A6.
  induction l as [|i l IH]; intros c Hr; cbn [mapS fmap list_fmap].
  { unfold mret, gost_ret, add_devices. rewrite app_nil_r. by destruct c. }
  pose proof (Hr i ltac:(by left)) as Hi. destruct (H4 i Hi) as [d4 E4], (H6 i Hi) as [d6 E6], (A4 i Hi) as [a4 F4], (A6 i Hi) as [a6 F6].
  assert (devBody i c = (Ret (a_Name atePort2Attr +:+ "-" +:+ Itoa i), add_devices [deviceAt n i] c)) as Hb.
  { unfold devBody. rewrite (lift_run _ _ _ _ (vlanAt_run exceptions flags dut noMix deprecated enabled explicit ni K i ltac:(lia))).
    rewrite (lift_run _ _ _ _ (same_MAC i ltac:(lia))), (lift_run _ _ _ _ E4), (lift_run _ _ _ _ F4), (lift_run _ _ _ _ E6), (lift_run _ _ _ _ F6).
    unfold deviceAt. by rewrite E4, F4, E6, F6. }
  rewrite (bind_run _ _ _ _ _ Hb), (bind_run _ _ _ _ _ (IH _ (fun j Hj => Hr j ltac:(by right)))).
  unfold mret, gost_ret, add_devices. cbn. by rewrite <- app_assoc.
Qed.
End Devices.
End Generator.

(** * Both ends *)

Definition ends_ok (n i : Z) (d4 a4 d6 a6 : string) : Prop := exists v4 v6,
  index (dutV4 n) i = Ret d4 /\ index (ateV4 n) i = Ret a4 /\ index (dutV6 n) i = Ret d6 /\ index (ateV6 n) i = Ret a6 /\
  ateV4 n !! Z.to_nat i = Some a4 /\
  ParseIP d4 = Some (v4InV6Prefix ++ be_bytes 4 v4) /\ ParseIP a4 = Some (v4InV6Prefix ++ be_bytes 4 (v4 + 1)) /\ v4 mod 4 = 1 /\
  d6 = IP_String (be_bytes 16 v6) /\ a6 = IP_String (be_bytes 16 (v6 + 1)) /\ v6 mod 4 = 1.

Lemma generated n : 0 < n <= 2 ^ 20 ->
  fatal (GenerateIPsWithStep DUTPort2IPv4Start n PortIPv4Step) = Ret (dutV4 n) /\
  fatal (GenerateIPsWithStep ATEPort2IPv4Start n PortIPv4Step) = Ret (ateV4 n) /\
  fatal (GenerateIPv6sWithStep DUTPort2IPv6Start n PortIPv6Step) = Ret (dutV6 n) /\
  fatal (GenerateIPv6sWithStep ATEPort2IPv6Start n PortIPv6Step) = Ret (ateV6 n) /\
  forall i, 0 <= i < n -> exists d4 a4 d6 a6, ends_ok n i d4 a4 d6 a6.
Proof.
  intros Hn. destruct start_texts as (Hd4 & Ha4 & Hd6 & Ha6).
  destruct (v4_addresses _ n _ Hd4 ltac:(done) ltac:(vm_compute; reflexivity) Hn) as [E1 F1].
  destruct (v4_addresses _ n _ Ha4 ltac:(done) ltac:(vm_compute; reflexivity) Hn) as [E2 F2].
  destruct (v6_addresses _ n _ Hd6 ltac:(vm_compute; reflexivity) Hn) as [E3 F3].
  destruct (v6_addresses _ n _ Ha6 ltac:(vm_compute; reflexivity) Hn) as [E4 F4].
  split_and!; [done..|]. intros i Hi. destruct (F1 i Hi) as (d4 & Gd4 & _ & Pd4). destruct (F2 i Hi) as (a4 & Ga4 & La4 & Pa4).
  exists d4, a4. do 2 eexists. exists (3241345025 + i * 4), (20481 * 2 ^ 112 + 2 ^ 64 + 1 + i * 2 ^ 64).
  split_and!; [exact Gd4|exact Ga4|exact (F3 i Hi)|exact (F4 i Hi)|exact La4|exact Pd4| | | | |].
  - rewrite Pa4. change (be_val [193; 51; 0; 2]) with 3241345026. do 3 f_equal. lia.
  - rewrite Z.mod_add by lia. reflexivity.
  - reflexivity.
  - f_equal. f_equal. change (be_val (be_bytes 16 (20481 * 2 ^ 112 + 2 ^ 64 + 2))) with (20481 * 2 ^ 112 + 2 ^ 64 + 2). lia.
  - change (2 ^ 64) with (2 ^ 62 * 4). rewrite Z.mul_assoc, Z.mod_add by lia. reflexivity.
Qed.

Lemma ends_linked noMix deprecated enabled n i d4 a4 d6 a6 : 0 <= i < 3894 -> ends_ok n i d4 a4 d6 a6 ->
  linked (subOf deprecated enabled (vlanId noMix i) d4 d6) (deviceAt noMix n i).
Proof.
  intros Hi (v4 & v6 & E1 & E2 & E3 & E4 & _ & P1 & P2 & M4 & T1 & T2 & M6). unfold deviceAt. rewrite E1, E2, E3, E4.
  assert (1 <= vlanId noMix i <= 4094) as Hv by (unfold vlanId, StartVLANPort2; destruct noMix; lia).
  do 5 eexists. exists v4, v6. cbn [ateDevice dev_ethernets]. split_and!; [reflexivity| |apply subOf_vlan|lia..|reflexivity|reflexivity| | | | |exact P1|exact P2|done|exact T1|exact T2|done];
    cbn [eth_vlans ip_prefix ip_gateway ip_address]; [by rewrite (proj2 (Z.ltb_lt 0 _)) by lia|reflexivity|reflexivity|apply subOf_v4|apply subOf_v6].
Qed.

(** ** The two configurations *)

Section Runs.
Context {re : Regexp} (exceptions : list PlatformExceptions) (flags : gmap string bool) (dut : Deviations.Device).
Context (dp1 dp2 : string) (arista nokia : FeatureType -> string) (accepts : string -> bool) (Hacc : forall s, accepts s = true).
Context (noMix deprecated enabled explicit : bool) (ni : string) (K : known exceptions flags dut noMix deprecated enabled explicit ni).
Context (p : ScaleParams) (Hp : 0 < NumPort2VLANs p <= 3894).
Abbreviation n := (NumPort2VLANs p).

Lemma subinterfaces_run d : d_root d = ∅ -> exists root,
  ConfigureDUTSubinterfaces exceptions dut dp2 DUTPort2IPv4Start DUTPort2IPv6Start StartVLANPort2 n d =
  (Ret tt, {| d_batch := d_batch d ++ (seqZ 0 n ≫= updatesAt dp2 noMix deprecated enabled explicit ni n); d_root := root; d_ops := d_ops d |}).
Proof using K Hp.
  intros Hr. destruct (generated n ltac:(lia)) as (E1 & _ & E3 & _ & He). unfold ConfigureDUTSubinterfaces.
  rewrite (lift_run _ _ _ _ E1), (lift_run _ _ _ _ E3). apply (sub_loop exceptions flags dut dp2 noMix deprecated enabled explicit ni K n Hp).
  - intros i Hi. destruct (He i Hi) as (? & ? & ? & ? & ? & ? & ? & _). eauto.
  - intros i Hi. destruct (He i Hi) as (? & ? & ? & ? & ? & ? & _ & _ & ? & _). eauto.
  - apply NoDup_seqZ.
  - intros i Hi%elem_of_seqZ. lia.
  - intros i _. by rewrite Hr.
Qed.

Lemma ext_policy vrfs : extends (ConfigureVRFSelectionPolicyOC exceptions flags dut dp1 vrfs).
Proof using K.
  destruct (k_default _ _ _ _ _ _ _ _ K) as [? E1], (k_format _ _ _ _ _ _ _ _ K) as [? E2], (k_ref _ _ _ _ _ _ _ _ K) as [? E3].
  unfold ConfigureVRFSelectionPolicyOC. apply ext_bind; [by eapply ext_lift, K|]. intros ?.
  do 3 (apply ext_bind; [by eapply ext_lift|]; intros ?). apply extends_send.
Qed.

Lemma ext_mode : extends (ConfigureCLIDecapVRFMode dut).
Proof. unfold ConfigureCLIDecapVRFMode. destruct (String.eqb _ _); auto with extends. Qed.

Lemma dut_run d : d_root d = ∅ -> exists d' batch,
  ConfigureDUT exceptions flags dut dp1 dp2 arista nokia accepts p d = (Ret tt, d') /\ SetBatch batch ∈ d_ops d' /\
  (forall i u, 0 <= i < n -> u ∈ updatesAt dp2 noMix deprecated enabled explicit ni n i -> u ∈ batch).
Proof using K Hp Hacc.
  intros Hr. unfold ConfigureDUT. destruct (k_before _ _ _ _ _ _ _ _ K) as [before Hbefore].
  run_extends (ext_hardware dut arista nokia accepts Hacc).
  run_extends (ext_vrfs exceptions flags dut noMix deprecated enabled explicit ni K (NumEncapVRFs p)).
  run_extends (ext_interface exceptions flags dut noMix deprecated enabled explicit ni K dp1 dutPort1Attr false).
  run_extends (ext_interface exceptions flags dut noMix deprecated enabled explicit ni K dp2 dutPort2Attr true).
  rewrite (lift_run _ _ _ _ (k_ni _ _ _ _ _ _ _ _ K)), (bind_run (send _) _ _ _ _ eq_refl), (lift_run _ _ _ _ Hbefore).
  run_extends (extends_when before _ (extends_batch (UpdInstanceType ni))). cbn [d_batch d_root d_ops].
  match goal with |- context [(_ ≫= _) ?d] => destruct (subinterfaces_run d Hr) as (root & E6) end. rewrite (bind_run _ _ _ _ _ E6).
  rewrite (bind_run Set_ _ _ _ _ eq_refl). cbn [d_batch d_root d_ops]. run_extends ext_mode.
  match goal with |- context [ConfigureVRFSelectionPolicyOC _ _ _ _ ?v ?d] => destruct (ext_policy v d) as ([] & b8 & o8 & E8) end.
  rewrite E8. do 2 eexists. split; [reflexivity|]. cbn [d_ops d_batch]. split.
  - do 2 (apply elem_of_app; left). apply elem_of_app. right. by left.
  - intros i u Hi Hu. apply elem_of_app. right. apply list_elem_of_bind. exists i. split; [done|]. apply elem_of_seqZ. lia.
Qed.

Lemma otg_run : exists base, length base = 2%nat /\ ConfigureOTG exceptions dut p =
  Ret ({| cfg_ports := ["port1"; "port2"]; cfg_devices := base ++ (deviceAt noMix n <$> seqZ 0 n); cfg_flows := []; cfg_captures := [] |},
       a_Name atePort1Attr :: ((fun i => a_Name atePort2Attr +:+ "-" +:+ Itoa i) <$> seqZ 0 n)).
Proof using K Hp.
  destruct (generated n ltac:(lia)) as (E1 & E2 & E3 & E4 & He). unfold ConfigureOTG.
  rewrite (bind_run (modify _) _ _ _ _ eq_refl), (bind_run (modify _) _ _ _ _ eq_refl), (lift_run _ _ _ _ (k_noMix _ _ _ _ _ _ _ _ K)).
  cbv zeta. unfold CreateATEDevice at 1 2. rewrite (bind_run (modify _) _ _ _ _ eq_refl), (bind_run (modify _) _ _ _ _ eq_refl).
  match goal with |- context [MustConfigureATESubinterfaces ?a ?b ?c ?d ?e ?f ?g ?h ?i ?j ?k] => match goal with |- context [(_ ≫= _) ?st] =>
    assert (MustConfigureATESubinterfaces a b c d e f g h i j k st =
      (Ret ((fun x => a_Name atePort2Attr +:+ "-" +:+ Itoa x) <$> seqZ 0 n), add_devices (deviceAt noMix n <$> seqZ 0 n) st)) as Hm end end.
  { unfold MustConfigureATESubinterfaces. rewrite (lift_run _ _ _ _ E1), (lift_run _ _ _ _ E2), (lift_run _ _ _ _ E3), (lift_run _ _ _ _ E4).
    apply (dev_loop exceptions flags dut noMix deprecated enabled explicit ni K n Hp);
      try (intros i Hi; destruct (He i Hi) as (? & ? & ? & ? & ? & ? & ? & ? & ? & ? & _); by eauto). intros i Hi%elem_of_seqZ. lia. }
  rewrite (bind_run _ _ _ _ _ Hm). eexists [_; _]. split; [reflexivity|]. reflexivity.
Qed.
End Runs.

(** ** The next hops of the default VRF *)

Lemma mapM_elem {E A B} (f : A -> outcome E B) l ys y : mapM f l = Ret ys -> y ∈ ys -> exists x, x ∈ l /\ f x = Ret y.
Proof.
  revert ys. induction l as [|x l IH]; intros ys H Hy; cbn [mapM] in H.
  - injection H as <-. by apply elem_of_nil in Hy.
  - destruct (f x) as [z| | |] eqn:Ez; [|discriminate H..]. cbn [mbind outcome_bind] in H.
    destruct (mapM f l) as [zs| | |]; [|discriminate H..]. injection H as <-. apply elem_of_cons in Hy as [->|Hy].
    + exists x. split; [by left|done].
    + destruct (IH zs eq_refl Hy) as (x' & Hx' & Hf). exists x'. split; [by right|done].
Qed.

Lemma index_elem {A} (l : list A) i x : index l i = Ret x -> x ∈ l.
Proof. unfold index. destruct (i <? 0); [done|]. destruct (l !! Z.to_nat i) eqn:E; [|done]. intros [= <-]. by apply list_elem_of_lookup_2 in E. Qed.

(** Every next hop is an address of the traffic generator. *)
Lemma next_hops_generated ni p dv e : BuildDefaultVRF_entries ni p = Ret dv -> e ∈ d_nh dv ->
  exists k ip, e = NextHopEntry [NH_WithNetworkInstance ni; NH_WithIndex k; NH_WithIPAddress ip] /\ ip ∈ ateV4 (NumPort2VLANs p).
Proof.
  intros H He. unfold BuildDefaultVRF_entries in H. cbv zeta in H. apply bind_Ret in H as (ips & Hips & H).
  assert (ateV4 (NumPort2VLANs p) = ips) as ->.
  { unfold ateV4. destruct (GenerateIPsWithStep _ _ _); cbn in Hips |- *; congruence. }
  apply bind_Ret in H as (hosts & _ & H). apply bind_Ret in H as (nh1 & Hnh1 & H). apply bind_Ret in H as (nh2 & Hnh2 & H).
  assert (d_nh dv = nh1 ++ nh2) as Hd.
  { repeat (apply bind_Ret in H as (? & _ & H)). by injection H as <-. }
  rewrite Hd in He. apply elem_of_app in He as [He|He]; [destruct (mapM_elem _ _ _ _ Hnh1 He) as (i & _ & Hf)|destruct (mapM_elem _ _ _ _ Hnh2 He) as (i & _ & Hf)];
    apply bind_Ret in Hf as (v & _ & Hf); apply bind_Ret in Hf as (ip & Hip & Hf); injection Hf as <-; do 2 eexists; (split; [reflexivity|by eapply index_elem]).
Qed.

(** C8: the device and the traffic generator of the full scale test fit together, for
    all accepted parameters with VLAN tags up to 4094: the subinterface [i + 1] that
    [ConfigureDUT] writes and the device number [i] that [ConfigureOTG] adds behind the
    two ports carry the same VLAN tag, the gateways of one are the addresses of the
    other, both ends are the hosts of one /30 and one /126, and every next hop of the
    default VRF is an address of such a device.  All these devices have the same MAC
    address. *)
Theorem scale_links_agree {re : Regexp} exceptions flags dut dp1 dp2 arista nokia accepts noMix deprecated enabled explicit ni p d :
  known exceptions flags dut noMix deprecated enabled explicit ni -> (forall s, accepts s = true) ->
  0 < NumPort2VLANs p <= 3894 -> d_root d = ∅ ->
  exists d' batch cfg names,
    ConfigureDUT exceptions flags dut dp1 dp2 arista nokia accepts p d = (Ret tt, d') /\ SetBatch batch ∈ d_ops d' /\
    ConfigureOTG exceptions dut p = Ret (cfg, names) /\ NoDup names /\
    (forall i, 0 <= i < NumPort2VLANs p -> exists s dev, UpdSubinterface dp2 (i + 1) s ∈ batch /\
       cfg_devices cfg !! (2 + Z.to_nat i)%nat = Some dev /\ linked s dev /\ (eth_mac <$> dev_ethernets dev) = [ATEPort2MAC]) /\
    (forall dv e, BuildDefaultVRF_entries ni p = Ret dv -> e ∈ d_nh dv ->
       exists k ip dev, e = NextHopEntry [NH_WithNetworkInstance ni; NH_WithIndex k; NH_WithIPAddress ip] /\ dev ∈ cfg_devices cfg /\
         ip ∈ (dev_ethernets dev ≫= fun eth => ip_address <$> eth_ipv4 eth)).
Proof.
  intros K Hacc Hp Hr.
  destruct (dut_run exceptions flags dut dp1 dp2 arista nokia accepts Hacc noMix deprecated enabled explicit ni K p Hp d Hr) as (d' & batch & E & Hb & Hu).
  destruct (otg_run exceptions flags dut noMix deprecated enabled explicit ni K p Hp) as (base & Hlen & Eo).
  destruct (generated (NumPort2VLANs p) ltac:(lia)) as (_ & _ & _ & _ & He). exists d', batch. do 2 eexists. split_and!; [done|done|exact Eo| | |].
  - apply NoDup_cons. split.
    + intros (i & Hi & _)%list_elem_of_fmap. discriminate Hi.
    + apply NoDup_fmap_2_strong; [|apply NoDup_seqZ]. intros i j _ _ H. apply str_app_inj_l, str_app_inj_l in H. by apply (inj pretty) in H.
  - intros i Hi. destruct (He i Hi) as (d4 & a4 & d6 & a6 & Hends). pose proof Hends as (v4 & v6 & E1 & E2 & E3 & E4 & _).
    exists (subOf deprecated enabled (vlanId noMix i) d4 d6), (deviceAt noMix (NumPort2VLANs p) i). split_and!.
    + apply (Hu i _ Hi). unfold updatesAt. rewrite E1, E3. by left.
    + cbn [cfg_devices]. rewrite lookup_app_r, Hlen by lia. replace (2 + Z.to_nat i - 2)%nat with (Z.to_nat i) by lia.
      rewrite list_lookup_fmap, lookup_seqZ_lt by lia. cbn. do 2 f_equal. lia.
    + by apply (ends_linked _ _ _ _ _ d4 a4 d6 a6); [lia|].
    + unfold deviceAt. by rewrite E1, E2, E3, E4.
  - intros dv e Hdv Hin. destruct (next_hops_generated ni p dv e Hdv Hin) as (k & ip & -> & Hip). apply list_elem_of_lookup in Hip as [i Hi].
    assert (0 <= Z.of_nat i < NumPort2VLANs p) as Hr'.
    { destruct (ate_ips (NumPort2VLANs p) ltac:(lia)) as (l & Hl & Hll). apply lookup_lt_Some in Hi. unfold ateV4 in Hi.
      destruct (GenerateIPsWithStep _ _ _); cbn in Hl, Hi; [|discriminate Hl..]. injection Hl as ->. lia. }
    destruct (He _ Hr') as (d4 & a4 & d6 & a6 & v4 & v6 & E1 & E2 & E3 & E4 & La & _). rewrite Nat2Z.id, Hi in La. injection La as ->.
    exists k, a4, (deviceAt noMix (NumPort2VLANs p) (Z.of_nat i)). split_and!; [done| |].
    + cbn [cfg_devices]. apply elem_of_app. right. apply list_elem_of_fmap_2, elem_of_seqZ. lia.
    + unfold deviceAt. rewrite E1, E2, E3, E4. cbn. by left.
Qed.

(** The base addresses of the two ports are not on one link: the IPv6 gateways are
    outside the /126 of the traffic generator. *)
Definition same_126 (a b : string) : bool :=
  match parseV6 a, parseV6 b with Some x, Some y => be_val x / 4 =? be_val y / 4 | _, _ => false end.
Lemma base_IPv6_not_on_link :
  same_126 (a_IPv6 dutPort1Attr) (a_IPv6 atePort1Attr) = false /\ same_126 (a_IPv6 dutPort2Attr) (a_IPv6 atePort2Attr) = false.
Proof. split; vm_compute; reflexivity. Qed.

(** * Witness *)

Definition freshDut : Dut := {| d_batch := []; d_root := ∅; d_ops := [] |}.
Lemma sample_known : @known no_regexp cisco_exceptions ∅ sample_dut false false false false "DEFAULT".
Proof. split; try (vm_compute; reflexivity); eexists; vm_compute; reflexivity. Qed.

Lemma scale_links_agree_witness :
  exists d' cfg names, @ConfigureDUT no_regexp cisco_exceptions ∅ sample_dut "Eth1" "Eth2" (fun _ => "") (fun _ => "") (fun _ => true)
      (t3Params 1000) freshDut = (Ret tt, d') /\
    @ConfigureOTG no_regexp cisco_exceptions sample_dut (t3Params 1000) = Ret (cfg, names) /\ NoDup names.
Proof.
  destruct (@scale_links_agree no_regexp cisco_exceptions ∅ sample_dut "Eth1" "Eth2" (fun _ => "") (fun _ => "") (fun _ => true)
    false false false false "DEFAULT" (t3Params 1000) freshDut sample_known (fun _ => eq_refl)) as (d' & batch & cfg & names & E & _ & Eo & Hnd & _);
    [cbn; lia|reflexivity|].
  exists d', cfg, names. exact (conj E (conj Eo Hnd)).
Defined.
