(* ===== verification/CoreFiles.v ===== *)
(** The core file watcher of [src/internal/core/core.go]: it lists the core files
    of every device before and after the tests of a module and fails the module
    when new ones appeared.

    A device's file service is a parameter, the class [FileClient]: its state [C]
    holds all that decides its answers, so that files may come and go between two
    calls.  The goroutines of [validatorImpl.check] each lock and change their own
    checker and add one entry to the result; their completion order is an argument
    of the model, as are the orders in which Go walks the maps. *)
From stdpp Require Import base list strings gmap fin_maps.
From Stdlib Require Import ZArith Lia Ascii.
From S2P Require Import Prelude GoStrings.

(** * Regular expressions of literals, [.] and [.*] *)

(** The length of the encoding [utf8.DecodeRune] reads at the start of a string:
    1 for a byte that begins no valid encoding. *)
Definition within (lo hi : nat) (c : ascii) : bool := (lo <=? nat_of_ascii c) && (nat_of_ascii c <=? hi).
Definition runeLen (s : string) : nat :=
  match s with
  | EmptyString => 0
  | String b (String c s) =>
      if within 194 223 b && within 128 191 c then 2 else
      match s with
      | String d s =>
          if ((within 224 224 b && within 160 191 c) || (within 225 236 b && within 128 191 c)
              || (within 237 237 b && within 128 159 c) || (within 238 239 b && within 128 191 c))
             && within 128 191 d then 3 else
          match s with
          | String e _ =>
              if ((within 240 240 b && within 144 191 c) || (within 241 243 b && within 128 191 c)
                  || (within 244 244 b && within 128 143 c))
                 && within 128 191 d && within 128 191 e then 4 else 1
          | EmptyString => 1
          end
      | EmptyString => 1
      end
  | String _ EmptyString => 1
  end.

(** The runes of a string, each as the bytes that encode it; [skip] bytes belong
    to the previous one. *)
Fixpoint runes (skip : nat) (s : string) : list string :=
  match s with
  | EmptyString => []
  | String _ s' =>
      match skip with
      | S skip => runes skip s'
      | O => str_take (runeLen s) s :: runes (runeLen s - 1) s'
      end
  end.

Inductive token := Lit (c : ascii) | Dot | DotStar.

(** [regexp.MustCompile] on patterns without other operators. *)
Fixpoint MustCompile (p : string) : list token :=
  match p with
  | EmptyString => []
  | String "." (String "*" p) => DotStar :: MustCompile p
  | String "." p => Dot :: MustCompile p
  | String c p => Lit c :: MustCompile p
  end.

Definition newline : string := String (ascii_of_nat 10) "".
Definition isDot (r : string) : bool := negb (String.eqb r newline).

Fixpoint matchHere (ts : list token) : list string -> bool :=
  match ts with
  | [] => fun _ => true
  | Lit c :: ts => fun l => match l with r :: l => String.eqb r (String c "") && matchHere ts l | [] => false end
  | Dot :: ts => fun l => match l with r :: l => isDot r && matchHere ts l | [] => false end
  | DotStar :: ts =>
      fix star l := matchHere ts l || match l with r :: l => isDot r && star l | [] => false end
  end.

Fixpoint matchAnywhere (ts : list token) (l : list string) : bool :=
  matchHere ts l || match l with _ :: l => matchAnywhere ts l | [] => false end.
Definition MatchString (ts : list token) (s : string) : bool := matchAnywhere ts (runes 0 s).

(** [fmt]'s verb [%q] on ASCII strings. *)
Definition dquote : ascii := ascii_of_nat 34.
Definition hexDigit (n : nat) : ascii := ascii_of_nat (if n <? 10 then 48 + n else 87 + n).
Definition escape (c : ascii) : string :=
  let n := nat_of_ascii c in
  if (n =? 34) || (n =? 92) then String "\" (String c "")
  else if n =? 7 then "\a" else if n =? 8 then "\b" else if n =? 9 then "\t" else if n =? 10 then "\n"
  else if n =? 11 then "\v" else if n =? 12 then "\f" else if n =? 13 then "\r"
  else if (n <? 32) || (n =? 127) then "\x" +:+ String (hexDigit (n / 16)) (String (hexDigit (n mod 16)) "")
  else String c "".
Fixpoint escapeAll (s : string) : string :=
  match s with EmptyString => "" | String c s => escape c +:+ escapeAll s end.
Definition quote (s : string) : string := String dquote (escapeAll s +:+ String dquote "").

(** * Devices and their file service *)

Definition vendorCoreFilePath : gmap string string := list_to_map
  [("JUNIPER", "/var/core/"); ("CISCO", "/misc/disk1/"); ("NOKIA", "/var/core/"); ("ARISTA", "/var/core/")].
Definition vendorCoreFileNamePattern : gmap string (list token) := list_to_map
  [("JUNIPER", MustCompile ".*.tar.gz"); ("CISCO", MustCompile "/misc/disk1/.*core.*");
   ("NOKIA", MustCompile "/var/core/coredump-.*"); ("ARISTA", MustCompile "/var/core/core.*")].

(** [fpb.StatInfo], the fields read. *)
Record StatInfo := { si_Path : string; LastModified : Z }.

(** [fpb.FileClient]: [Stat] answers with the entries of a path or an error. *)
Class FileClient (C : Type) := Stat : string -> C -> (error + list StatInfo) * C.

(** [binding.DUT]: [DialGNOI] gives the file client or an error. *)
Record DUT (C : Type) := { dut_Name : string; dut_Vendor : string; DialGNOI : error + C }.
Arguments dut_Name {C}. Arguments dut_Vendor {C}. Arguments DialGNOI {C}.

Record fileInfo := { fi_Name : string; fi_Path : string; Modified : Z }.
Abbreviation coreFiles := (gmap string fileInfo).

(** [Files] is [None] for a nil map. *)
Record dutCoreFiles := { dcf_DUT : string; Files : option coreFiles; Status : string }.

Record checker (C : Type) := {
  c_dut : DUT C;
  fileClient : C;
  startTime : Z;
  prevCores : coreFiles;
}.
Arguments c_dut {C}. Arguments fileClient {C}. Arguments startTime {C}. Arguments prevCores {C}.

(** The validator's map, [None] when [Register] was not called, and the suite
    properties reported so far. *)
Record World (C : Type) := { duts : option (gmap string (checker C)); report : list (string * string) }.
Arguments duts {C}. Arguments report {C}.

Section Validator.
Context {C : Type} `{FC : FileClient C}.

Definition newChecker (now : Z) (dut : DUT C) : go (checker C) :=
  let dutVendor := dut_Vendor dut in
  match vendorCoreFilePath !! dutVendor with
  | None => Fail (errors_New "add support for vendor %v in var vendorCoreFilePath")
  | Some _ =>
      match vendorCoreFileNamePattern !! dutVendor with
      | None => Fail (errors_New "add support for vendor %v in var vendorCoreFileNamePattern")
      | Some _ =>
          match DialGNOI dut with
          | inl err => Fail err
          | inr file => Ret {| c_dut := dut; fileClient := file; prevCores := ∅; startTime := now |}
          end
      end
  end.

(** The loop over the answer for one exact file; a nil [*regexp.Regexp] panics
    when it is used. *)
Definition matchFiles (fileMatch : option (list token)) (modified : Z) (cores : coreFiles) (stats : list StatInfo) : go coreFiles :=
  foldM (fun cores filesMatched =>
    let coreFileName := si_Path filesMatched in
    match fileMatch with
    | None => Panic
    | Some re =>
        Ret (if MatchString re coreFileName
             then <[coreFileName := {| fi_Name := coreFileName; fi_Path := ""; Modified := modified |}]> cores
             else cores)
    end) cores stats.

(** The loop over the entries of the core directory. *)
Fixpoint statEntries (dut : DUT C) (fileMatch : option (list token)) (infos : list StatInfo) (cores : coreFiles) : gost C coreFiles :=
  match infos with
  | [] => mret cores
  | fileStatsInfo :: infos => fun c =>
      match Stat (si_Path fileStatsInfo) c with
      | (inl err, c) =>
          (Fail (errors_New ("DUT " +:+ quote (dut_Name dut) +:+ ": unable to stat file "
                             +:+ quote (si_Path fileStatsInfo) +:+ ", " +:+ err_msg err)), c)
      | (inr stats, c) =>
          (cores ← lift (matchFiles fileMatch (LastModified fileStatsInfo) cores stats);
           statEntries dut fileMatch infos cores) c
      end
  end.

(** A missing entry of the path table reads as the empty string. *)
Definition checkCores (dut : DUT C) : gost C coreFiles := fun c =>
  let dutVendor := dut_Vendor dut in
  let corePath := default "" (vendorCoreFilePath !! dutVendor) in
  let fileMatch := vendorCoreFileNamePattern !! dutVendor in
  match Stat corePath c with
  | (inl err, c) => (Fail (Errorf ("DUT " +:+ quote corePath +:+ ": " +:+ err_msg err) (err_wraps err)), c)
  | (inr stats, c) => statEntries dut fileMatch stats ∅ c
  end.

(** [checker.check], under the checker's lock. *)
Definition check (c : checker C) : go coreFiles * checker C :=
  match checkCores (c_dut c) (fileClient c) with
  | (Ret cores, f) =>
      (Ret (filter (fun kv => prevCores c !! kv.1 = None) cores),
       {| c_dut := c_dut c; fileClient := f; startTime := startTime c; prevCores := cores |})
  | (r, f) => (r, {| c_dut := c_dut c; fileClient := f; startTime := startTime c; prevCores := prevCores c |})
  end.

(** The body of the goroutine that [validatorImpl.check] starts for one checker. *)
Definition checkOne (k : string) (st : gmap string (checker C) * gmap string dutCoreFiles) :
    go (gmap string (checker C) * gmap string dutCoreFiles) :=
  match st.1 !! k with
  | None => Ret st
  | Some c =>
      let add c' files status :=
        Ret (<[k := c']> st.1, <[dut_Name (c_dut c) :=
               {| dcf_DUT := dut_Name (c_dut c); Files := files; Status := status |}]> st.2) in
      match check c with
      | (Ret cores, c') => add c' (Some cores) "OK"
      | (Fail err, c') => add c' None ("DUT " +:+ quote (dut_Name (c_dut c)) +:+ " failed to check cores: " +:+ err_msg err)
      | (Panic, _) => Panic
      | (NoFuel, _) => NoFuel
      end
  end.

(** [validatorImpl.check], the goroutines finishing in the order [ks]. *)
Definition checkAll (ks : list string) : gost (World C) (gmap string dutCoreFiles) := fun w =>
  match foldM (fun st k => checkOne k st) (default ∅ (duts w), ∅) ks with
  | Ret (m, out) => (Ret out, {| duts := (fun _ => m) <$> duts w; report := report w |})
  | Fail e => (Fail e, w)
  | Panic => (Panic, w)
  | NoFuel => (NoFuel, w)
  end.

(** The loop of [start] over the reservation's devices; an assignment to a nil map
    panics. *)
Definition registerOne (now : string -> Z) (kd : string * DUT C) : gost (World C) unit := fun w =>
  match newChecker (now kd.1) kd.2 with
  | Ret c =>
      match duts w with
      | Some m => (Ret tt, {| duts := Some (<[kd.1 := c]> m); report := report w |})
      | None => (Panic, w)
      end
  | _ => (Ret tt, w)
  end.

Definition start (now : string -> Z) (ds : list (string * DUT C)) (ks : list string) :
    gost (World C) (gmap string dutCoreFiles) :=
  _ ← forEach (registerOne now) ds; checkAll ks.
Definition stop (ks : list string) : gost (World C) (gmap string dutCoreFiles) := checkAll ks.

(** The template [coreFmt]; [range] walks a map in the order of its keys. *)
Definition rangeMap {A} (m : gmap string A) (body : string -> A -> string) : string :=
  String.concat "" (omap (fun k => body k <$> m !! k) (sort_Strings (map_to_list m).*1)).
Definition createReport (d : gmap string dutCoreFiles) : string :=
  newline +:+ "Delta Core Files by DUT:"
  +:+ rangeMap d (fun key dut => " " +:+ newline +:+ "DUT: " +:+ key
        +:+ rangeMap (default ∅ (Files dut)) (fun key _ => newline +:+ "  " +:+ key)).

Definition AddSuiteProperty (k v : string) : gost (World C) unit := fun w =>
  (Ret tt, {| duts := duts w; report := report w ++ [(k, v)] |}).

Definition registerBefore (now : string -> Z) (ds : list (string * DUT C)) (ks : list string) : gost (World C) unit :=
  cores ← start now ds ks;
  _ ← AddSuiteProperty "validator.core" "enabled";
  AddSuiteProperty "validator.core.initial" (createReport cores).

Definition foundCores (cores : gmap string dutCoreFiles) : bool :=
  existsb (fun kf => (0 <? size (default ∅ (Files kf.2)))%nat) (map_to_list cores).
Definition registerAfter (ks : list string) : gost (World C) unit :=
  cores ← stop ks;
  let rep := createReport cores in
  let msg := "core file check found cores:" +:+ newline +:+ rep in
  _ ← AddSuiteProperty "validator.core.end" rep;
  if foundCores cores then lift (Fail (errors_New msg)) else mret tt.

(** [Register] replaces the validator by an empty one. *)
Definition Register (w : World C) : World C := {| duts := Some ∅; report := report w |}.

End Validator.

(** * What the watcher promises *)

Section Spec.
Context {C : Type} `{FC : FileClient C}.

(** The answers for all the entries of a listing, when none fails. *)
Fixpoint statAll (infos : list StatInfo) (c : C) : option (list StatInfo) * C :=
  match infos with
  | [] => (Some [], c)
  | info :: infos =>
      match Stat (si_Path info) c with
      | (inl _, c) => (None, c)
      | (inr stats, c) => let (rest, c) := statAll infos c in (app stats <$> rest, c)
      end
  end.

(** The core files of a device, when its file service answers, and the service
    afterwards. *)
Definition coresAt (path : string) (re : list token) (c : C) : option (gset string) * C :=
  match Stat path c with
  | (inl _, c) => (None, c)
  | (inr infos, c) =>
      let (stats, c) := statAll infos c in
      ((fun l => list_to_set (filter (fun p => MatchString re p) (si_Path <$> l))) <$> stats, c)
  end.

(** The device is watched: its vendor is known and its service was dialled. *)
Definition watched (d : DUT C) (path : string) (re : list token) (c : C) : Prop :=
  vendorCoreFilePath !! dut_Vendor d = Some path /\ vendorCoreFileNamePattern !! dut_Vendor d = Some re
  /\ DialGNOI d = inr c.

Definition coresBefore path re (c : C) : gset string := default ∅ (coresAt path re c).1.
Definition coresAfter path re (c : C) : gset string := default ∅ (coresAt path re (coresAt path re c).2).1.

(** A report names the core file [p] of the device [n]. *)
Definition lists (r : gmap string dutCoreFiles) (n p : string) : Prop :=
  exists x fs, r !! n = Some x /\ Files x = Some fs /\ is_Some (fs !! p).

(** ** One check of one device *)

Lemma matchFiles_dom re z cores stats : exists m, matchFiles (Some re) z cores stats = Ret m /\
  dom m = dom cores ∪ list_to_set (filter (fun p => MatchString re p) (si_Path <$> stats)).
Proof.
  unfold matchFiles. revert cores. induction stats as [|i stats IH]; intros cores; [exists cores; split; [done|set_solver]|].
  cbn [foldM mbind outcome_bind]. edestruct IH as (m & -> & Hm). exists m. split; [done|]. rewrite Hm.
  rewrite fmap_cons, filter_cons. destruct (MatchString re (si_Path i)) eqn:E.
  - cbn. rewrite dom_insert_L. set_solver.
  - done.
Qed.

Lemma statEntries_cores dut re infos cores c :
  (statEntries dut (Some re) infos cores c).2 = (statAll infos c).2 /\
  match (statAll infos c).1 with
  | Some stats => exists m, (statEntries dut (Some re) infos cores c).1 = Ret m /\
      dom m = dom cores ∪ list_to_set (filter (fun p => MatchString re p) (si_Path <$> stats))
  | None => exists e, (statEntries dut (Some re) infos cores c).1 = Fail e
  end.
Proof.
  revert cores c. induction infos as [|i infos IH]; intros cores c; cbn [statEntries statAll];
    [split; [done|]; exists cores; split; [done|set_solver]|].
  destruct (Stat (si_Path i) c) as [[e|stats] c1]; [by split; [|eexists]|].
  destruct (matchFiles_dom re (LastModified i) cores stats) as (m & E & Hm).
  rewrite (lift_run _ m) by done.
  specialize (IH m c1). destruct (statAll infos c1) as [[rest|] c2]; cbn [fst snd fmap option_fmap option_map] in *; [|done].
  destruct IH as [-> (m' & -> & Hm')]. split; [done|]. exists m'. split; [done|].
  rewrite Hm', Hm, fmap_app, filter_app, list_to_set_app_L. set_solver.
Qed.

Lemma checkCores_spec d path re c0 c : watched d path re c0 ->
  (checkCores d c).2 = (coresAt path re c).2 /\
  match (coresAt path re c).1 with
  | Some s => exists m, (checkCores d c).1 = Ret m /\ dom m = s
  | None => exists e, (checkCores d c).1 = Fail e
  end.
Proof.
  intros (Hp & Hre & _). unfold checkCores, coresAt. rewrite Hp, Hre. cbn.
  destruct (Stat path c) as [[e|infos] c1]; [by split; [|eexists]|].
  pose proof (statEntries_cores d re infos ∅ c1) as H. destruct (statAll infos c1) as [[l|] c2]; cbn in *; [|done].
  destruct H as [-> (m & -> & Hm)]. split; [done|]. exists m. split; [done|]. rewrite Hm. set_solver.
Qed.

(** ** The goroutines of one round *)

(** What a checker that does not panic adds to the round's result. *)
Definition result (c : checker C) : dutCoreFiles :=
  match (check c).1 with
  | Ret cores => {| dcf_DUT := dut_Name (c_dut c); Files := Some cores; Status := "OK" |}
  | Fail err => {| dcf_DUT := dut_Name (c_dut c); Files := None;
                   Status := "DUT " +:+ quote (dut_Name (c_dut c)) +:+ " failed to check cores: " +:+ err_msg err |}
  | _ => {| dcf_DUT := ""; Files := None; Status := "" |}
  end.
Definition safe (c : checker C) : Prop := match (check c).1 with Ret _ | Fail _ => True | _ => False end.
Definition nameOf (c : checker C) : string := dut_Name (c_dut c).

Lemma checkOne_safe k m out c : m !! k = Some c -> safe c ->
  checkOne k (m, out) = Ret (<[k := (check c).2]> m, <[nameOf c := result c]> out).
Proof. unfold checkOne, safe, result, nameOf. cbn [fst snd]. intros ->. by destruct (check c) as [[] ?]. Qed.

Lemma checkLoop_spec ks m out :
  NoDup ks -> (forall k, k ∈ ks -> exists c, m !! k = Some c /\ safe c) ->
  (forall k k' c c', k ∈ ks -> k' ∈ ks -> m !! k = Some c -> m !! k' = Some c' -> nameOf c = nameOf c' -> k = k') ->
  exists m' out', foldM (fun st k => checkOne k st) (m, out) ks = Ret (m', out') /\
    (forall k, m' !! k = if decide (k ∈ ks) then snd ∘ check <$> m !! k else m !! k) /\
    (forall n x, out' !! n = Some x <->
       (exists k c, k ∈ ks /\ m !! k = Some c /\ nameOf c = n /\ result c = x) \/
       (out !! n = Some x /\ ~ exists k c, k ∈ ks /\ m !! k = Some c /\ nameOf c = n)).
Proof.
  revert m out. induction ks as [|k ks IH]; intros m out Hnd Hs Hinj.
  { exists m, out. split; [done|]. split; [intros k; by rewrite decide_False by set_solver|]. set_solver. }
  apply NoDup_cons in Hnd as [Hk Hnd]. destruct (Hs k) as (c & Ec & Sc); [set_solver|].
  cbn [foldM]. rewrite (checkOne_safe _ _ _ _ Ec Sc). cbn [mbind outcome_bind].
  assert (forall k', k' ∈ ks -> <[k := (check c).2]> m !! k' = m !! k') as Hm.
  { intros k' Hk'. apply lookup_insert_ne. set_solver. }
  destruct (IH (<[k := (check c).2]> m) (<[nameOf c := result c]> out)) as (m' & out' & -> & Hm' & Ho); [done|..].
  { intros k' Hk'. rewrite Hm by done. apply Hs. set_solver. }
  { intros k1 k2 c1 c2 H1 H2. rewrite !Hm by done. apply Hinj; set_solver. }
  exists m', out'. split; [done|]. split.
  - intros k'. rewrite Hm'. destruct (decide (k' = k)) as [->|Hne].
    + rewrite decide_False, decide_True by set_solver. by rewrite lookup_insert_eq, Ec.
    + rewrite lookup_insert_ne by done. destruct (decide (k' ∈ ks)), (decide (k' ∈ k :: ks)); set_solver.
  - intros n x. rewrite Ho. clear Ho Hm' IH.
    setoid_rewrite elem_of_cons.
    destruct (decide (nameOf c = n)) as [<-|Hn]; [rewrite lookup_insert_eq|rewrite lookup_insert_ne by done]; split.
    + intros [(k1 & c1 & H1 & E1 & Hn1 & <-)|[[= <-] _]]; left; [|by eauto 10].
      rewrite Hm in E1 by done. by eauto 10.
    + intros [(k1 & c1 & [->|H1] & E1 & Hn1 & <-)|[_ []]]; [| |by eauto 10].
      * right. simplify_eq. split; [done|]. intros (k2 & c2 & H2 & E2 & Hn2). rewrite Hm in E2 by done.
        apply Hk. rewrite <- (Hinj k2 k c2 c); [done|set_solver..].
      * left. exists k1, c1. by rewrite Hm.
    + intros [(k1 & c1 & H1 & E1 & Hn1 & <-)|[E Hno]]; [left; rewrite Hm in E1 by done; by eauto 10|].
      right. split; [done|]. intros (k1 & c1 & [->|H1] & E1 & Hn1); [by simplify_eq|]. apply Hno. exists k1, c1. by rewrite Hm.
    + intros [(k1 & c1 & [->|H1] & E1 & Hn1 & <-)|[E Hno]]; [by simplify_eq|left; exists k1, c1; by rewrite Hm|].
      right. split; [done|]. intros (k1 & c1 & H1 & E1 & Hn1). rewrite Hm in E1 by done. apply Hno. by eauto 10.
Qed.

(** ** Registration *)

Lemma registerLoop_spec now (ds : list (string * DUT C)) m rep : NoDup ds.*1 -> exists m',
  forEach (registerOne now) ds {| duts := Some m; report := rep |} = (Ret tt, {| duts := Some m'; report := rep |}) /\
  (forall k c, m' !! k = Some c <->
     (exists d, (k, d) ∈ ds /\ newChecker (now k) d = Ret c) \/
     (m !! k = Some c /\ ~ exists d c', (k, d) ∈ ds /\ newChecker (now k) d = Ret c')).
Proof.
  revert m. induction ds as [|[k0 d0] ds IH]; intros m Hnd; [exists m; split; [done|]; set_solver|].
  apply NoDup_cons in Hnd as [Hk Hnd]. cbn [forEach].
  assert (forall d, (k0, d) ∈ ds -> False) as Hno.
  { intros d Hd. apply Hk. apply list_elem_of_fmap. by exists (k0, d). }
  assert (forall k d c, (forall c, newChecker (now k0) d0 <> Ret c) ->
    ((k, d) = (k0, d0) \/ (k, d) ∈ ds) /\ newChecker (now k) d = Ret c <-> (k, d) ∈ ds /\ newChecker (now k) d = Ret c) as skip.
  { intros k d c Hc. split; [intros [[[= -> ->]|Hd] E]; [by destruct (Hc c)|done]|naive_solver]. }
  destruct (newChecker (now k0) d0) as [c0|e| |] eqn:E0.
  1: destruct (IH (<[k0 := c0]> m) Hnd) as (m' & Hr & Hm'). 2-4: destruct (IH m Hnd) as (m' & Hr & Hm').
  all: exists m'; split; [erewrite bind_run; [exact Hr|unfold registerOne; cbn [fst snd]; by rewrite E0]|].
  all: intros k c; rewrite Hm'; clear Hm' Hr IH; setoid_rewrite elem_of_cons.
  - destruct (decide (k = k0)) as [->|Hne]; [rewrite lookup_insert_eq|rewrite lookup_insert_ne by done; naive_solver]. split.
    + intros [(d & Hd & _)|[[= <-] _]]; [by destruct (Hno d)|left; by eauto].
    + intros [(d & [[= ->]|Hd] & E)|[_ []]]; [|by destruct (Hno d)|by eauto].
      right. split; [congruence|]. intros (d & ? & Hd & _). by destruct (Hno d).
  - by setoid_rewrite (skip k).
  - by setoid_rewrite (skip k).
  - by setoid_rewrite (skip k).
Qed.

(** A new checker belongs to a watched device. *)
Lemma newChecker_watched now (d : DUT C) c : newChecker now d = Ret c <->
  exists path re f, watched d path re f /\ c = {| c_dut := d; fileClient := f; prevCores := ∅; startTime := now |}.
Proof.
  unfold newChecker, watched. destruct (vendorCoreFilePath !! _), (vendorCoreFileNamePattern !! _), (DialGNOI d);
    split; try done; naive_solver.
Qed.

(** One check of a watched device: the files that were not there before are
    reported, and a failed check leaves what was known. *)
Lemma check_watched c path re f : watched (c_dut c) path re f ->
  safe c /\ c_dut (check c).2 = c_dut c /\ fileClient (check c).2 = (coresAt path re (fileClient c)).2 /\
  match (coresAt path re (fileClient c)).1 with
  | Some s => dom (prevCores (check c).2) = s /\ exists fs, Files (result c) = Some fs /\ dom fs = s ∖ dom (prevCores c)
  | None => prevCores (check c).2 = prevCores c /\ Files (result c) = None
  end.
Proof.
  intros Hw. destruct (checkCores_spec _ _ _ _ (fileClient c) Hw) as [Hc Hr]. unfold safe, result, check.
  destruct (coresAt path re (fileClient c)) as [[s|] f']; cbn [fst snd] in *; destruct (checkCores (c_dut c) (fileClient c)) as [r f''];
    cbn [fst snd] in *; destruct Hr as [x Hr]; [destruct Hr as [-> <-]|subst r]; cbn; subst f''; [|done].
  do 4 (split; [done|]). eexists. split; [done|]. apply set_eq. intros p.
  rewrite elem_of_difference, !elem_of_dom, <- eq_None_not_Some. unfold is_Some. setoid_rewrite map_lookup_filter_Some. cbn.
  split; [intros (v & ? & ?); by eauto|intros [[v ?] ?]; by eauto].
Qed.

Lemma lists_size r : foundCores r = true <-> exists n p, lists r n p.
Proof.
  unfold foundCores, lists. rewrite existsb_exists. split.
  - intros ([n x] & Hin & Hsz). apply list_elem_of_In, elem_of_map_to_list in Hin. cbn in Hsz.
    destruct (Files x) as [fs|] eqn:E; [|done]. cbn in Hsz.
    assert (fs <> ∅) as Hne by (intros ->; rewrite map_size_empty in Hsz; done).
    apply map_choose in Hne as (p & v & Hp). exists n, p, x, fs. by eauto.
  - intros (n & p & x & fs & Hx & Hf & v & Hp). exists (n, x). split; [by apply list_elem_of_In, elem_of_map_to_list|].
    cbn. rewrite Hf. cbn. destruct (size fs) eqn:E; [|done]. apply map_size_empty_inv in E. by subst.
Qed.

(** ** A module's run: the devices of the reservation before and after its tests *)

Context (ds : list (string * DUT C)).

(** The reservation has a watched device under the key [k]. *)
Definition watchedAt (k : string) (d : DUT C) (path : string) (re : list token) (c : C) : Prop :=
  (k, d) ∈ ds /\ watched d path re c.

(** An order in which the goroutines of a round may finish: each watched device once. *)
Definition finishing (ks : list string) : Prop :=
  NoDup ks /\ forall k, k ∈ ks <-> exists d path re c, watchedAt k d path re c.

Definition distinct_names : Prop := forall k k' d d' path path' re re' c c',
  watchedAt k d path re c -> watchedAt k' d' path' re' c' -> dut_Name d = dut_Name d' -> k = k'.

(** The checker of a watched device whose file service is [st.2] and whose known
    cores are [st.1]. *)
Definition tracks (c : checker C) (d : DUT C) (st : gset string * C) : Prop :=
  c_dut c = d /\ dom (prevCores c) = st.1 /\ fileClient c = st.2.

(** The validator's map has a checker for exactly the watched devices. *)
Definition holds (m : gmap string (checker C)) (st : string -> list token -> C -> gset string * C) : Prop :=
  (forall k d path re f, watchedAt k d path re f -> exists c, m !! k = Some c /\ tracks c d (st path re f)) /\
  (forall k c, m !! k = Some c -> exists d path re f, watchedAt k d path re f).

(** The effect of a round on what is known of a device and its file service. *)
Definition round path re (st : gset string * C) : gset string * C :=
  let r := coresAt path re st.2 in (default st.1 r.1, r.2).

Context (keys : NoDup ds.*1) (names : distinct_names).

Lemma registered_holds now rep : exists m,
  forEach (registerOne now) ds {| duts := Some ∅; report := rep |} = (Ret tt, {| duts := Some m; report := rep |}) /\
  holds m (fun _ _ c => (∅, c)).
Proof using keys.
  destruct (registerLoop_spec now ds ∅ rep keys) as (m & Hr & Hm). exists m. split; [done|]. split.
  - intros k d path re f [Hin Hw]. eexists. rewrite Hm. split; [left; exists d; split; [done|]; rewrite newChecker_watched; by eauto|].
    split; [done|]. cbn. split; [set_solver|done].
  - intros k c. rewrite Hm. intros [(d & Hd & Hc)|[Hc _]]; [|by rewrite lookup_empty in Hc].
    apply newChecker_watched in Hc as (path & re & f & Hw & _). by exists d, path, re, f.
Qed.

(** A round: every watched device is checked once and reports under its name. *)
Lemma checkAll_holds st m rep ks : holds m st -> finishing ks -> exists m' out,
  checkAll ks {| duts := Some m; report := rep |} = (Ret out, {| duts := Some m'; report := rep |}) /\
  holds m' (fun path re c => round path re (st path re c)) /\
  (forall n p, lists out n p <-> exists k d path re f s, watchedAt k d path re f /\ dut_Name d = n /\
     (coresAt path re (st path re f).2).1 = Some s /\ p ∈ s ∖ (st path re f).1).
Proof using names.
  intros [Hm Hm'] [Hnd Hks].
  assert (forall k c, m !! k = Some c -> exists d path re f, watchedAt k d path re f /\ tracks c d (st path re f)) as Hc.
  { intros k c Hk. destruct (Hm' k c Hk) as (d & path & re & f & Hw). destruct (Hm _ _ _ _ _ Hw) as (c' & ? & ?). simplify_eq. by eauto 10. }
  assert (forall k, k ∈ ks <-> is_Some (m !! k)) as Hdom.
  { intros k. rewrite Hks. split; [intros (d & path & re & f & Hw); destruct (Hm _ _ _ _ _ Hw) as (c & ? & _); by eauto|].
    intros [c Hk]. by eapply Hm'. }
  destruct (checkLoop_spec ks m ∅) as (m' & out & Hr & H1 & H2); [done|..].
  { intros k [c Hk]%Hdom. exists c. split; [done|]. destruct (Hc _ _ Hk) as (d & path & re & f & [_ Hw] & <- & _ & _).
    by eapply check_watched. }
  { intros k k' c c' _ _ Hk Hk' Hn. destruct (Hc _ _ Hk) as (d & path & re & f & Hw & Ed & _), (Hc _ _ Hk') as (d' & path' & re' & f' & Hw' & Ed' & _).
    eapply names; [exact Hw|exact Hw'|]. unfold nameOf in Hn. congruence. }
  exists m', out. split; [unfold checkAll; cbn [duts report]; change (default ∅ (Some m)) with m; by rewrite Hr|]. split; [split|].
  - intros k d path re f Hw. destruct (Hm _ _ _ _ _ Hw) as (c & Hk & Ed & Ep & Ef). exists (check c).2.
    rewrite H1, decide_True by (apply Hdom; by eauto). rewrite Hk. split; [done|].
    pose proof (check_watched c path re f) as (_ & E1 & E2 & E3); [rewrite Ed; apply Hw|].
    rewrite Ef in E2, E3. unfold tracks, round. cbn. rewrite E1, E2. split; [done|]. split; [|done].
    destruct (coresAt path re (st path re f).2) as [[s|] f'] eqn:E; cbn in *; [apply E3|]. destruct E3 as [-> _]. done.
  - intros k c. rewrite H1. case_decide as Hin; [|intros Hk; by eapply Hm']. apply Hdom in Hin as [c0 Hk]. intros _. by eapply Hm'.
  - intros n p. unfold lists. setoid_rewrite H2. split.
    + intros (x & fs & [(k & c & _ & Hk & <- & <-)|[Hx _]] & Hf & Hp); [|by rewrite lookup_empty in Hx].
      destruct (Hc _ _ Hk) as (d & path & re & f & Hw & Ed & Ep & Ef).
      pose proof (check_watched c path re f) as (_ & _ & _ & E3); [rewrite Ed; apply Hw|]. rewrite Ef in E3.
      exists k, d, path, re, f. destruct (coresAt path re (st path re f).2) as [[s|] f'] eqn:E; cbn in E3; [|naive_solver].
      exists s. split; [done|]. split; [by unfold nameOf; rewrite Ed|]. split; [done|]. destruct E3 as (_ & fs' & Hf' & Hd).
      simplify_eq. rewrite <- Ep, <- Hd. by apply elem_of_dom.
    + intros (k & d & path & re & f & s & Hw & <- & Es & Hp). destruct (Hm _ _ _ _ _ Hw) as (c & Hk & Ed & Ep & Ef).
      pose proof (check_watched c path re f) as (_ & _ & _ & E3); [rewrite Ed; apply Hw|]. rewrite Ef, Es in E3.
      destruct E3 as (_ & fs & Hf & Hd). exists (result c), fs. split; [left|split; [done|]].
      * exists k, c. split; [apply Hdom; by eauto|]. split; [done|]. split; [unfold nameOf; by rewrite Ed|done].
      * apply elem_of_dom. by rewrite Hd, Ep.
Qed.

(** C30: the watcher decides a module by its new core files.  Over the watched
    devices (known vendor, reachable file service, distinct names) and in whatever
    order the checks finish, the first suite report names exactly the cores listed
    before the tests, the second exactly those whose path is listed after the tests
    and was not listed before, and the callback after the tests fails, with that
    report, exactly when there is one.  A device whose file service fails in a round
    contributes nothing to it: when it failed before the tests, all cores found
    afterwards count as new, old ones too; when it fails after them, none do.  Paths
    alone are compared: a core rewritten under the path of an old one is not new,
    although a comment of the source says that the time of creation is compared. *)
Theorem core_check_reports now ks0 ks1 (w : World C) : finishing ks0 -> finishing ks1 ->
  exists initial final w0 w1,
    registerBefore now ds ks0 (Register w) = (Ret tt, w0) /\
    registerAfter ks1 w0 =
      (if foundCores final
       then Fail (errors_New ("core file check found cores:" +:+ newline +:+ createReport final)) else Ret tt, w1) /\
    report w1 = report w ++ [("validator.core", "enabled"); ("validator.core.initial", createReport initial);
                             ("validator.core.end", createReport final)] /\
    (forall n p, lists initial n p <-> exists k d path re c, watchedAt k d path re c /\ dut_Name d = n /\
       p ∈ coresBefore path re c) /\
    (forall n p, lists final n p <-> exists k d path re c, watchedAt k d path re c /\ dut_Name d = n /\
       p ∈ coresAfter path re c ∖ coresBefore path re c) /\
    (foundCores final = true <-> exists n p, lists final n p).
Proof using keys names.
  intros H0 H1. destruct (registered_holds now (report w)) as (m & Hreg & Hm).
  destruct (checkAll_holds _ _ (report w) ks0 Hm H0) as (m0 & initial & Hc0 & Hm0 & Hi).
  destruct (checkAll_holds _ _ (report w ++ [("validator.core", "enabled"); ("validator.core.initial", createReport initial)]) ks1 Hm0 H1)
    as (m1 & final & Hc1 & _ & Hf).
  exists initial, final. do 2 eexists. split; [|split; [|split; [|split; [|split; [|apply lists_size]]]]].
  - unfold registerBefore. erewrite bind_run; [|unfold start; erewrite bind_run by exact Hreg; exact Hc0].
    unfold AddSuiteProperty, mbind, gost_bind. cbn. rewrite <- app_assoc. done.
  - unfold registerAfter. erewrite bind_run by exact Hc1. unfold AddSuiteProperty, mbind, gost_bind. cbn.
    destruct (foundCores final); done.
  - cbn. by rewrite <- app_assoc.
  - intros n p. rewrite Hi. unfold coresBefore. cbn [fst snd]. split.
    + intros (k & d & path & re & f & s & Hw & Hn & Es & Hp). exists k, d, path, re, f. rewrite Es. set_solver.
    + intros (k & d & path & re & f & Hw & Hn & Hp). destruct (coresAt path re f).1 as [s|] eqn:E; [|set_solver].
      exists k, d, path, re, f, s. rewrite difference_empty_L. done.
  - intros n p. rewrite Hf. unfold coresAfter, coresBefore, round. cbn [fst snd]. split.
    + intros (k & d & path & re & f & s & Hw & Hn & Es & Hp). exists k, d, path, re, f. by rewrite Es.
    + intros (k & d & path & re & f & Hw & Hn & Hp).
      destruct (coresAt path re (coresAt path re f).2).1 as [s|] eqn:E; [|set_solver]. by exists k, d, path, re, f, s.
Qed.

End Spec.

(** * The patterns *)

(** The language of a pattern over runes. *)
Inductive matches : list token -> list string -> Prop :=
| matches_nil : matches [] []
| matches_lit c ts l : matches ts l -> matches (Lit c :: ts) (String c "" :: l)
| matches_dot r ts l : r <> newline -> matches ts l -> matches (Dot :: ts) (r :: l)
| matches_none ts l : matches ts l -> matches (DotStar :: ts) l
| matches_more r ts l : r <> newline -> matches (DotStar :: ts) l -> matches (DotStar :: ts) (r :: l).

Lemma isDot_true r : isDot r = true <-> r <> newline.
Proof. unfold isDot. rewrite negb_true_iff. apply String.eqb_neq. Qed.

Lemma matchHere_sound ts l : matchHere ts l = true -> exists mid post, l = mid ++ post /\ matches ts mid.
Proof.
  revert l. induction ts as [|[c| |] ts IH]; intros l; cbn.
  - intros _. exists [], l. split; [done|constructor].
  - destruct l as [|r l]; [done|]. intros [Hr (mid & post & -> & H)%IH]%andb_prop. apply String.eqb_eq in Hr as ->.
    exists (String c "" :: mid), post. split; [done|by constructor].
  - destruct l as [|r l]; [done|]. intros [Hr%isDot_true (mid & post & -> & H)%IH]%andb_prop.
    exists (r :: mid), post. split; [done|by constructor].
  - induction l as [|r l IHl]; intros H; apply orb_prop in H as [(mid & post & -> & H)%IH|H]; try done;
      try (exists mid, post; split; [done|by constructor]).
    apply andb_prop in H as [Hr%isDot_true (mid & post & -> & Hm)%IHl]. exists (r :: mid), post. split; [done|by apply matches_more].
Qed.

Lemma matchHere_complete ts mid post : matches ts mid -> matchHere ts (mid ++ post) = true.
Proof.
  induction 1 as [|c ts l H IH|r ts l Hr H IH|ts l H IH|r ts l Hr H IH]; cbn.
  - done.
  - rewrite IH, andb_true_r. by rewrite Ascii.eqb_refl.
  - rewrite IH, andb_true_r. by apply isDot_true.
  - destruct (l ++ post); by rewrite IH.
  - apply orb_true_iff. right. apply andb_true_iff. split; [by apply isDot_true|exact IH].
Qed.

(** [MatchString] finds the pattern anywhere in the string. *)
Lemma MatchString_spec ts s : MatchString ts s = true <->
  exists pre mid post, runes 0 s = pre ++ mid ++ post /\ matches ts mid.
Proof.
  unfold MatchString. generalize (runes 0 s). clear s. intros l. split.
  - induction l as [|r l IH]; intros H; cbn in H; apply orb_prop in H as [(mid & post & E & Hm)%matchHere_sound|H]; try done;
      try (by exists [], mid, post).
    destruct (IH H) as (pre & mid & post & -> & Hm). by exists (r :: pre), mid, post.
  - intros (pre & mid & post & -> & Hm%(matchHere_complete _ _ post)). induction pre as [|r pre IH]; cbn.
    + revert Hm. destruct (mid ++ post); cbn; by intros ->.
    + rewrite IH. apply orb_true_r.
Qed.

(** The patterns are not anchored and their dots match any character. *)
Example patterns_match :
  MatchString (MustCompile ".*.tar.gz") "/var/core/notarXgz.txt" = true /\
  MatchString (MustCompile "/var/core/core.*") "/mnt/var/core/core.1" = true /\
  MatchString (MustCompile "/var/core/core.*") "/var/core/x" = false.
Proof. vm_compute. done. Qed.

(** * A scripted file service *)

Definition Script := list (error + list StatInfo).
#[global] Instance scripted : FileClient Script := fun _ c =>
  match c with [] => (inl (errors_New "no more responses"), []) | r :: c => (r, c) end.
Definition file (p : string) : StatInfo := {| si_Path := p; LastModified := 0 |}.
Definition core1 := file "/var/core/core.1.tar.gz".
Definition core2 := file "/var/core/core.2.tar.gz".
Definition arista (name : string) (c : Script) : DUT Script := {| dut_Name := name; dut_Vendor := "ARISTA"; DialGNOI := inr c |}.
Definition deltaScript : Script := [inr [core1]; inr [core1]; inr [core1; core2]; inr [core1]; inr [core2]].
Definition failingScript : Script := [inr [core1]; inr [core1]; inl (errors_New "gnoi.File.Stat failed")].
Definition lab : list (string * DUT Script) :=
  [("dut1", arista "dut1" deltaScript); ("dut2", {| dut_Name := "dut2"; dut_Vendor := "DELL"; DialGNOI := inr [] |})].
Definition emptyWorld : World Script := {| duts := None; report := [] |}.

(** A failed listing after the tests hides the cores of the device. *)
Example failed_check_passes :
  let w0 := (registerBefore (fun _ => 0%Z) [("dut1", arista "dut1" failingScript)] ["dut1"] (Register emptyWorld)).2 in
  (registerAfter ["dut1"] w0).1 = Ret tt.
Proof. vm_compute. done. Qed.

Lemma lab_watched k d path re c : watchedAt lab k d path re c ->
  k = "dut1" /\ d = arista "dut1" deltaScript /\ path = "/var/core/" /\ re = MustCompile "/var/core/core.*" /\ c = deltaScript.
Proof.
  intros [Hin (Hp & Hr & Hd)]. unfold lab in Hin. apply elem_of_cons in Hin as [[= -> ->]|Hin].
  - vm_compute in Hp, Hr, Hd. injection Hp as <-. injection Hr as <-. injection Hd as <-. done.
  - apply list_elem_of_singleton in Hin as [= -> ->]. vm_compute in Hp. discriminate.
Qed.
Lemma lab_finishing : finishing lab ["dut1"].
Proof.
  split; [apply NoDup_singleton|]. intros k. rewrite list_elem_of_singleton. split.
  - intros ->. exists (arista "dut1" deltaScript), "/var/core/", (MustCompile "/var/core/core.*"), deltaScript. split; [by left|done].
  - by intros (d & path & re & c & (-> & _)%lab_watched).
Qed.

Lemma core_check_reports_witness : exists final w0 w1 msg,
  registerBefore (fun _ => 0%Z) lab ["dut1"] (Register emptyWorld) = (Ret tt, w0) /\
  registerAfter ["dut1"] w0 = (Fail msg, w1) /\ lists final "dut1" "/var/core/core.2.tar.gz".
Proof.
  destruct (core_check_reports lab) with (now := fun _ : string => 0%Z) (ks0 := ["dut1"]) (ks1 := ["dut1"]) (w := emptyWorld)
    as (initial & final & w0 & w1 & Hb & Ha & _ & _ & Hf & Hfound); [..|exists final, w0, w1].
  - cbn. repeat constructor; set_solver.
  - intros k k' d d' path path' re re' c c' (-> & _)%lab_watched (-> & _)%lab_watched. done.
  - apply lab_finishing.
  - apply lab_finishing.
  - assert (lists final "dut1" "/var/core/core.2.tar.gz") as Hl.
    { apply Hf. exists "dut1", (arista "dut1" deltaScript), "/var/core/", (MustCompile "/var/core/core.*"), deltaScript.
      split; [split; [by left|done]|]. split; [done|]. refine (bool_decide_eq_true_1 (_ ∈ _) _). vm_compute. reflexivity. }
    rewrite (proj2 Hfound) in Ha by by eauto. eexists. split; [exact Hb|]. split; [exact Ha|exact Hl].
Defined.
